(* ===== verification/_CoqProject ===== *)
-Q . S2P
Prelude.v
RitCommon.v
InstrTable.v
State.v
InstrUtil.v
InstrBuf.v
Keeps.v
BiasUtil.v
GenHelper.v
MemSpec.v
GenARMMem.v
GenARMInstr.v
ValidBias.v
ValidSpec.v
ValidMem.v
ValidMedia.v
ValidMulti.v
ValidArm.v
GenThumbInstr.v
GenThumb32Instr.v
ValidThumb.v
ValidThumb32.v
ValidArch.v
EncodeBits.v
EncodeSpec.v
RandomInstrGen.v
InstrGenerator.v
Attempt.v
Decode.v
Options.v
Loop.v
Output.v
Params.v
Api.v
Overrun.v
Aliases.v
ParseRIT.v
Reproduce.v
Indeterminate.v
Rerun.v
V1State.v
V1Encode.v
V1Regs.v
V1RandomInstrGen.v
V1InstrGenerator.v
V1Attempt.v
V1Loop.v
V1Api.v
V1Overrun.v
V1Main.v
V1Reproduce.v
Driver.v
PyBase.v
PyCode.v
PyTree.v
PyEmit.v
PyEmitSpec.v
PyAlu.v
PyCodeSpec.v
PyBlocks.v
PyMake.v
PyMakeSpec.v
PyFill.v
PyFillSpec.v
PyFillTree.v
PyInstrs.v
PyTest.v
PyTestSpec.v
PyTheorems.v
PyWindow.v
