(* ===== verification/Prelude.v ===== *)
(** * RIT: a verification development of the random ARM instruction generator

    RIT generates random ARM and Thumb instructions for testing binary
    translators.  Its core is the C library librit (src/rit/new_src), a Python
    extension with one function: it takes a list of options (instruction set,
    opcode, registers, condition, immediates, memory window, ...), chooses
    everything the caller left open at random, builds the 32-bit encoding of an
    opcode from a table, classifies it (VALID, UNPREDICTABLE, ALIAS, ...),
    retries with weaker restrictions until it has a VALID one, and returns the
    status, the word and a text of assembler lines that set up the registers the
    instruction needs.

    src/rit/src is the version before it.  The scripts still build it, as the
    shared object that the test driver (src/rit/art/rit.py) loads and calls
    through two entry points, and as a command-line program.  It shares the
    table, the bit utilities and the instruction generators with new_src; its
    options, its encoding of the operands, its loop and its callers are its own.
    It keeps its state between calls, so its theorems are about sequences of
    calls.

    Around the library, the Python programs of src/rit/art generate whole tests:
    they build a random tree of control structures, connect its blocks with
    branches, loops, calls and changes of the instruction set, fill the basic
    blocks with instructions of the library, and print everything as one assembler
    file.

    ** The program and its model

    The globals of RandomInstrGen.c are one record, [rit_state] (State.v).  A C
    function is a computation in a state monad, [rit A] (this file), whose runs
    end with a value and a state or abort: a failed [assert], a write outside an
    array or a character buffer, a null pointer given to [strcmp], a loop that
    needs more rounds than the model gives it, a setting that no caller makes
    ([Unreached]), or an uncaught exception of the driver ([PyRaise]).  What the
    program takes from outside is the class [RitEnv] (State.v): the sequence
    [rand()] yields for each seed, with its range; the clock; the value an
    uninitialised local reads as; the memory past [opkind_list]; and, as the one
    difference between the versions inside a shared function, whether
    [fix_mem_base] skips the program counter.  Every theorem holds for every
    environment, and where two calls are compared (C20) they may find different
    indeterminate memory; [lcg_env] and [lcg_env_1] are concrete ones, used by
    the witnesses.

    - Prelude.v: 32-bit integers (wrap-around, shifts whose count the machine
      takes modulo 32, field masks) in the scope [c_scope], the monad, its total
      weakest precondition [wp] and their lemmas.
    - RitCommon.v: RitCommon.h and the types of ubt-stub/cortex-a9.h: the
      enumerations as numbers, the option record [gen_option_t], the status
      type, operand and instruction descriptors.
    - InstrTable.v: the table [glb_instr_tlb] (cortex-a9.def, Thumb.def,
      Thumb_32.def) and the opcode numbering; [table_check] turns a computed
      check of all entries into a lemma.
    - State.v: the globals, [rand], [srand] and the [sprintf] conversions.
    - InstrUtil.v: InstrUtil.c and InstrUtil.h: bit fields, register numbers,
      decoding, [set_instr], [is_fixed_oprand].
    - InstrBuf.v: the instruction buffer and [raw_instr] accessors.
    - BiasUtil.v: BiasUtil.c.  GenHelper.v: GenHelper.c.
    - GenARMMem.v and GenARMInstr.v: GenARMInstr.c.  A C function that is a
      chain of opcode tests is one definition per branch and one dispatcher.
    - GenThumbInstr.v: GenThumbInstr.c.  GenThumb32Instr.v: GenThumb32Instr.c.
    - EncodeBits.v: the encoding stages of RandomInstrGen.c ([set_sbit],
      [set_arm_cond_bits], [set_opnd_bits], [fix_unpredictable_bit]).
    - RandomInstrGen.v: the rest of RandomInstrGen.c: initial state, kind
      filter, random choices, relaxation, one attempt, the retry loop, output.
    - InstrGenerator.v: InstrGenerator.c: the parameters and the entry point.
    - ParseRIT.v: parseRIT of art/rit.py, the reader of the printed text, with
      the Python string methods it uses.
    - V1State.v: the options and globals of rit/src ([lib_state], the monad
      [lib]); [shared] runs a definition of new_src on a view of them, and
      [generator] does so under the settings for which the generators of the two
      versions agree (memory operands are fixed up, nothing is biased), which
      [set_default_option] makes and no function changes.
    - V1Encode.v: is_opnd_revisable_reg to preprocess_instr of
      rit/src/RandomInstrGen.c.  V1RandomInstrGen.v: the rest of that file.
    - V1InstrGenerator.v: the defaults and the entry points [py_gen_instr] and
      [py_gen_instr_with_op] of rit/src/InstrGenerator.c.  V1Main.v: its [main],
      with the [sscanf] conversions and the standard output.
    - Driver.v: the methods of class RIT of art/rit.py that ask the loaded
      library for an instruction and retry; Python's random numbers and the
      floating-point callback are the class [PyEnv].
    - PyBase.v: the context dictionary of the test generator and its block objects,
      one record [art_state] with a store of objects that references index, and the
      Python operations with their exceptions.  PyCode.v: art/code.py and
      art/instrutil.py: printing, random values, the fixed blocks.
    - PyEmit.v: the functions of art/instrgen.py that generate connecting code.
      PyBlocks.v: art/randomblock.py.  PyFill.v: the functions of art/instrgen.py
      that fill the basic blocks, as art/art.py calls them; PyInstrs.v: the other
      kinds of contents, which it has switched off, with the if-then blocks.
      PyTest.v: [genTest] of art/art.py.

    ** What the theorems show

    - Keeps.v is the program logic of the generators.  [keeps n Q m] says that
      from a word with the fixed bits of the opcode and a buffer with room for
      [n] lines, [m] does not abort, leaves those bits and the condition field,
      writes at most [n] well-formed lines ([line_ok]) and touches nothing else
      of note.  Its rules are syntax directed and
      in the hint database [keeps]; each generator file proves its functions in
      it with one tactic.  EncodeBits.v does so for the encoding stages.
    - Attempt.v composes them: [gen_instr] is an encoder (C5), except for the
      unconditional ARM opcodes, whose fixed condition field it overwrites (C4).
      [arm_room] is the side condition for the two ARM opcodes that need more
      lines than the buffer has while the options say Thumb.
    - Decode.v: the decoder of the table inverts the encoder for the opcodes
      that no earlier entry captures, a computed set of 311 (C36), and under an ARM
      instruction set the condition of the options is the condition of the final
      word (C37).
    - Options.v: [opts_wf] is the invariant of the option record; the random
      completion (C7) and the relaxation (C8) respect it and the caller.
    - Loop.v: the choice of the opcode, the initial word, and the retry loop,
      which ends within its bound (C6) with the first VALID attempt of its
      transition system [round] (C38).
    - Output.v: the printed text.
    - Params.v: the parser keeps the options well formed for every input, stores
      registers in order, and the kind filter is a prefix filter that is exact on
      kind names.
    - Api.v: the whole call is safe (C1), and what it answers (C2).  Overrun.v: the
      two opcode names that C1 leaves out overrun the buffer, and exactly when (C3);
      its logic, [overruns], is about runs that must abort.
    - InstrUtil.v: field writes and reads are inverse, the fixed-field test is
      exact (C14), decoding is first match, [bit_count] counts.
    - MemSpec.v: reference definitions of the ARM shifts, of rotated
      immediates and of the instructions [fix_mem_base] writes; the helpers
      agree with them (C19, C22, C23).
    - What VALID promises of the word that is left, biasing included, against
      restrictions of the architecture manual written as predicates on words:
      ValidBias.v (what the biasing of BiasUtil.c keeps), ValidSpec.v
      (multiplications and data processing), ValidMem.v (single loads and
      stores), ValidMedia.v (media, bit fields, status registers, preloads),
      ValidMulti.v (multiple transfers, exclusive accesses), ValidArm.v (all ARM
      groups together, C33), ValidThumb.v (16-bit Thumb, C34), ValidThumb32.v
      (32-bit Thumb, from tables of the restricted fields, C35).
      ValidArch.v is the interface of the three generators to the dispatcher (the
      class [SoundGen]); Attempt.v, Loop.v and Api.v carry [arch_ok] to the
      attempt, the loop (C6) and the result of a call (C2).
    - Aliases.v: the words of three opcodes that are words of other instructions
      and are called VALID (C39).
    - EncodeSpec.v: condition, S bit and source registers reach the word.
    - Reproduce.v: a relational logic, [rel R R' m], for what a computation
      depends on, with the generators in it.  Indeterminate.v: a second one,
      [lock], for two runs in environments with different indeterminate memory.
      Rerun.v: status, word and text of a call depend on its parameters and the
      clock alone (C20).
    - ParseRIT.v: what a call prints the driver reads, and the number it reads
      is the word of the call (C40).
    - V1Encode.v, V1Attempt.v and V1Loop.v take the generators, through the same
      logic [keeps] and the same interface [SoundGen], to the attempt and the
      loop of rit/src; V1Regs.v shows that the register classes asked for are
      encoded (C30).
    - V1Api.v: [lib_inv] is the invariant of the loaded library.  Any sequence of
      calls is safe (C24) and every call of it is answered (C25), apart from two
      opcodes whose generation depends on the call before (C26, in V1Overrun.v) and
      two that a request for sp destroys (C29).
    - V1Reproduce.v: a call by kinds is answered as in a freshly loaded library
      (C28); a call by name depends on the instruction set left by the call
      before, and repeated at once it gives the same text.
    - V1Main.v: the command-line program refines the reading of its arguments,
      [read_args] (C27).
    - Driver.v: driver and library compose (C31); a name that the table does not
      have makes the driver return the instruction before (C32); retrying a
      request by name is futile (C17).
    - PyTree.v holds the reference for a test: the tree that the objects in the
      store form ([represents]), the lines of the objects ([store_lines]), the labels
      these define and the instruction set the assembler is in at each line; a tree whose nodes are locally well
      formed defines every label once and has every instruction in its set.
    - PyEmitSpec.v and PyAlu.v: each group of connecting code is for one
      instruction set and leaves the assembler in it, defines exactly the labels of
      its structure, and its if-then blocks are closed; the text that is cut and
      pasted there is the edited word of the library's answer (C16).
    - PyMake.v: the program logic of the structures, [ws], which keeps track of the
      parts that are created and those that are made; PyMakeSpec.v: one lemma per
      class of blocks in it, and makeRandomBlock by induction on the levels (C13).
    - PyCodeSpec.v: the fixed parts print as fixed lines, and the data sections have
      their sizes.  PyFillSpec.v: the loops end, the ranges they draw from are
      ranges, what they append begins with the loads of the base registers and fits
      the block ([mem_code] is the code of one run for a block).  PyFillTree.v: every
      basic block gets one such code and no other object changes.  PyWindow.v: the
      base registers of memory instructions start inside the data, also after the
      set-up code of the library, which is executed by MemSpec.v (C21).
    - PyTestSpec.v composes these for [genTest], whose first half is
      [genTest_tree]; PyTheorems.v has the theorems: the
      composition (C9), labels (C11), instruction sets (C12), slots of loop counters
      and return addresses (C15), the number of instructions up to which there is
      always a test (C18); the if-then blocks of PyInstrs.v (C10).

    ** Bounds and fuel

    [bit_count] gets 33 rounds for 32 bits ([bit_count_loop_spec]);
    [opkind_loop] one round per character and one ([opkind_loop_total],
    [opkind_loop_total_1]); [gen_loop] gets [retry_max + 1] rounds
    ([wp_gen_loop]).  Each lemma shows that the bound is never what ends the
    loop.  The eight rounds of [gen_retry] and the rounds of the driver's loops
    are the source's.  Lines are at most 52 characters ([line_max]), the buffers
    hold eight lines, and [print_buf] is never full ([wp_output_instr],
    [wp_output_instr_1]).  A number that [sscanf] reads is cut to a 64-bit [long]
    before it is stored in 32 bits.  [makeRandomBlock] gets one round per nesting
    level and one ([makeRandomBlock_spec]); [fill_loop] as many rounds as the limit
    times the failures that count as one instruction ([pure_fill_loop]);
    [it_instr_loop] nine for eight retries ([pure_it_instr_loop]); [genInstrs] the
    depth 1, because the instructions of an if-then block are asked for one by one
    ([wp_genInstrs_single]); [str_block] one per object ([str_block_lines],
    [prints_block]).

    ** Not modelled

    Unpacking of Python objects (a parameter is what the Python C API yields),
    [printf] diagnostics of the generators and under the verbose option, the
    module initialisation; in rit/src the branches of the generators for settings
    that no caller makes, and the stub [py_test]; the vendored QEMU.  In art, what
    nothing calls (ThumbTBRBlock, genLoadInstrs, get_instr_limit,
    get_init_fpscr), messages on the standard output, the command-line parser, the
    file that a test is written to and the programs that assemble and run it; the
    floating-point generator vfp.py is a parameter that answers for every argument
    and keeps no state, so that what is said about exceptions is said of the code
    around it; the vector generator neon.py and the Perl and shell scripts are left
    out.  Of the labels of the connecting
    code the definitions are modelled, not that branches name them.  How far
    write-back moves a base register within a group of memory instructions is not
    bounded.  Floating point and SIMD opcodes are in the table and pass through the encoding stages like the others; their
    generators answer UNSUPPORTED in the source, and so do they here.

    ** What is left

    Destination registers, immediates and register lists of the options in the
    final word of new_src; decoding of VALID words of the opcodes that are not
    [separated], from the restrictions that [arch_ok] gives; the targets of the
    branches in the tree of a test, and the filling of PyInstrs.v as an operation on
    that tree. *)
From Stdlib Require Export ZArith Lia Bool.
From stdpp Require Export base tactics numbers list strings.
#[global] Open Scope Z_scope.
#[global] Open Scope bool_scope.

(** ** 1. Machine integers *)

Declare Scope c_scope.
Delimit Scope c_scope with c.

(** [uint32_t] conversion. *)
Definition u32 (x : Z) : Z := x mod 2 ^ 32.

(** Left and right shifts of a 32-bit value by a run-time count.  The library
    is built for x86 without optimisation, where the count is taken modulo 32;
    ISO C leaves a count of 32 or more undefined. *)
Definition shl32 (x n : Z) : Z := u32 (Z.shiftl x (n mod 32)).
Definition shr32 (x n : Z) : Z := Z.shiftr x (n mod 32).

(** Bitwise complement of an unsigned 32-bit value. *)
Definition not32 (x : Z) : Z := Z.lxor x 4294967295.

(** The value as a two's complement [int32_t]. *)
Definition s32 (x : Z) : Z := if u32 x <? 2 ^ 31 then u32 x else u32 x - 2 ^ 32.

(** The mask [((1 << (e + 1)) - 1) ^ ((1 << s) - 1)] that the source writes
    out in [get_bits_value], [set_instr] and the [set_bits] macro. *)
Definition field_mask (s e : Z) : Z :=
  Z.lxor (u32 (shl32 1 (u32 (e + 1)) - 1)) (u32 (shl32 1 s - 1)).

Notation "x << n" := (shl32 x n) (at level 35) : c_scope.
Notation "x >> n" := (shr32 x n) (at level 35) : c_scope.
Notation "x & y" := (Z.land x y) (at level 37, left associativity) : c_scope.
Notation "x ^^ y" := (Z.lxor x y) (at level 38, left associativity) : c_scope.
Notation "x .| y" := (Z.lor x y) (at level 39, left associativity) : c_scope.

(** A value that fits [uint32_t]. *)
Definition is_u32 (x : Z) : Prop := 0 <= x < 2 ^ 32.

Create HintDb rit discriminated.

(** *** Bits of 32-bit values *)

Lemma is_u32_u32 x : is_u32 (u32 x).
Proof. unfold is_u32, u32. apply Z.mod_pos_bound. lia. Qed.

Lemma u32_small x : is_u32 x → u32 x = x.
Proof. intros H. apply Z.mod_small, H. Qed.

Lemma testbit_u32 x k : Z.testbit (u32 x) k = (k <? 32) && Z.testbit x k.
Proof.
  unfold u32. destruct (Z.ltb_spec k 32).
  - rewrite Z.mod_pow2_bits_low by lia. done.
  - rewrite Z.mod_pow2_bits_high by lia. done.
Qed.

(** [is_u32] by bits: nothing is set from bit 32 up. *)
Lemma is_u32_bits x : 0 ≤ x → (∀ k, 32 ≤ k → Z.testbit x k = false) → is_u32 x.
Proof.
  intros H0 Hk. assert (u32 x = x) as <-; [|apply is_u32_u32].
  apply Z.bits_inj'. intros k Hk0. rewrite testbit_u32.
  destruct (Z.ltb_spec k 32); [done|]. by rewrite Hk.
Qed.

Lemma u32_testbit_high x k : is_u32 x → 32 ≤ k → Z.testbit x k = false.
Proof.
  intros H Hk. rewrite <- (u32_small x H), testbit_u32.
  by destruct (Z.ltb_spec k 32); [lia|].
Qed.

Lemma is_u32_land_l x y : is_u32 x → is_u32 (Z.land x y).
Proof.
  intros H. apply is_u32_bits; [apply Z.land_nonneg; left; apply H|].
  intros k Hk. rewrite Z.land_spec, (u32_testbit_high x) by done. done.
Qed.

Lemma is_u32_land_r x y : is_u32 y → is_u32 (Z.land x y).
Proof. rewrite Z.land_comm. apply is_u32_land_l. Qed.

Lemma is_u32_lor x y : is_u32 x → is_u32 y → is_u32 (Z.lor x y).
Proof.
  intros Hx Hy. apply is_u32_bits; [apply Z.lor_nonneg; split; [apply Hx|apply Hy]|].
  intros k Hk. by rewrite Z.lor_spec, !u32_testbit_high by done.
Qed.

Lemma is_u32_lxor x y : is_u32 x → is_u32 y → is_u32 (Z.lxor x y).
Proof.
  intros Hx Hy. apply is_u32_bits; [apply Z.lxor_nonneg; split; intros; [apply Hy|apply Hx]|].
  intros k Hk. by rewrite Z.lxor_spec, !u32_testbit_high by done.
Qed.

Lemma is_u32_shl32 x n : is_u32 (shl32 x n).
Proof. apply is_u32_u32. Qed.

Lemma is_u32_shr32 x n : is_u32 x → is_u32 (shr32 x n).
Proof.
  intros [H0 H1]. unfold shr32, is_u32. rewrite Z.shiftr_div_pow2 by (apply Z.mod_pos_bound; lia).
  assert (0 < 2 ^ (n mod 32)) by (apply Z.pow_pos_nonneg; [lia | apply Z.mod_pos_bound; lia]).
  split; [apply Z.div_pos; lia|].
  apply Z.div_lt_upper_bound; [lia|]. nia.
Qed.

Lemma is_u32_not32 x : is_u32 x → is_u32 (not32 x).
Proof. intros H. apply is_u32_lxor; [done|]. unfold is_u32. lia. Qed.

#[export] Hint Resolve is_u32_u32 is_u32_land_l is_u32_lor is_u32_lxor is_u32_shl32
  is_u32_shr32 is_u32_not32 : rit.

(** [1 << n] minus one has exactly the bits below [n], for a count in range. *)
Lemma pred_shl1_ones n : 0 ≤ n < 32 → u32 (shl32 1 n - 1) = Z.ones n.
Proof.
  intros Hn. unfold shl32. rewrite (Z.mod_small n 32) by lia.
  rewrite Z.shiftl_mul_pow2, Z.mul_1_l by lia.
  assert (2 ^ n < 2 ^ 32) by (apply Z.pow_lt_mono_r; lia).
  assert (0 < 2 ^ n) by (apply Z.pow_pos_nonneg; lia).
  rewrite Z.ones_equiv. unfold u32. rewrite (Z.mod_small (2 ^ n)) by lia.
  rewrite Z.mod_small; lia.
Qed.

Lemma testbit_ones n k : 0 ≤ n → 0 ≤ k → Z.testbit (Z.ones n) k = (k <? n).
Proof.
  intros. destruct (Z.ltb_spec k n).
  - rewrite Z.ones_spec_low; [done|lia].
  - rewrite Z.ones_spec_high; [done|lia].
Qed.

(** The field mask selects bits [s..e], as long as [e + 1] is a legal count. *)
Lemma testbit_field_mask s e k :
  0 ≤ s ≤ e → e < 31 → 0 ≤ k → Z.testbit (field_mask s e) k = (s <=? k) && (k <=? e).
Proof.
  intros Hs He Hk. unfold field_mask. rewrite (u32_small (e + 1)) by (unfold is_u32; lia).
  rewrite !pred_shl1_ones by lia.
  rewrite Z.lxor_spec, !testbit_ones by lia.
  destruct (Z.ltb_spec k (e + 1)), (Z.ltb_spec k s), (Z.leb_spec s k), (Z.leb_spec k e); lia || done.
Qed.

Lemma is_u32_field_mask s e : is_u32 (field_mask s e).
Proof. unfold field_mask. auto with rit. Qed.
#[export] Hint Resolve is_u32_field_mask : rit.

Lemma ffffffff_ones : 4294967295 = Z.ones 32.
Proof. reflexivity. Qed.

Lemma testbit_not32 x k : 0 ≤ k → Z.testbit (not32 x) k = xorb (Z.testbit x k) (k <? 32).
Proof. intros. unfold not32. rewrite Z.lxor_spec, ffffffff_ones, testbit_ones by lia. done. Qed.

Lemma testbit_shl32 x n k :
  0 ≤ n < 32 → 0 ≤ k → Z.testbit (shl32 x n) k = (k <? 32) && Z.testbit x (k - n).
Proof.
  intros. unfold shl32. rewrite testbit_u32, Z.mod_small, Z.shiftl_spec by lia. done.
Qed.

Lemma testbit_shr32 x n k : 0 ≤ n < 32 → 0 ≤ k → Z.testbit (shr32 x n) k = Z.testbit x (k + n).
Proof. intros. unfold shr32. rewrite Z.mod_small, Z.shiftr_spec by lia. done. Qed.

(** Two 32-bit values are equal when their 32 bits are. *)
Lemma u32_ext x y :
  is_u32 x → is_u32 y → (∀ k, 0 ≤ k < 32 → Z.testbit x k = Z.testbit y k) → x = y.
Proof.
  intros Hx Hy H. apply Z.bits_inj'. intros k Hk.
  destruct (Z.lt_ge_cases k 32); [apply H; lia|].
  by rewrite !u32_testbit_high.
Qed.

(** [x & m = v] by bits. *)
Lemma land_eq_bits x m v :
  (∀ k, 0 ≤ k → Z.testbit m k = true → Z.testbit x k = Z.testbit v k) →
  Z.land v m = v → Z.land x m = v.
Proof.
  intros H Hv. apply Z.bits_inj'. intros k Hk. rewrite Z.land_spec.
  destruct (Z.testbit m k) eqn:E.
  - rewrite andb_true_r. by apply H.
  - rewrite andb_false_r. rewrite <- Hv, Z.land_spec, E, andb_false_r. done.
Qed.

(** ** 2. Effects: global state, and the ways the C program can die *)

Inductive abort :=
  | AssertFail     (** an [assert] that does not hold *)
  | BufOverflow    (** a write outside an array or character buffer *)
  | NullDeref      (** [strcmp] on a null pointer *)
  | OutOfFuel      (** a loop bound of the model that is too small *)
  | Unreached      (** a setting that no caller makes, left out of the model *)
  | PyRaise.       (** an exception of the Python driver that nobody catches *)

Inductive outcome (S A : Type) :=
  | Ok (a : A) (s : S)
  | Abort (why : abort).
Arguments Ok {S A} a s.
Arguments Abort {S A} why.

Definition M (S A : Type) : Type := S → outcome S A.

#[global] Instance M_ret {S} : MRet (M S) := λ A a s, Ok a s.
#[global] Instance M_bind {S} : MBind (M S) := λ A B k m s,
  match m s with
  | Ok a s' => k a s'
  | Abort w => Abort w
  end.

Definition gets {S A} (f : S → A) : M S A := λ s, Ok (f s) s.
Definition modify {S} (f : S → S) : M S unit := λ s, Ok tt (f s).
Definition fail {S A} (w : abort) : M S A := λ _, Abort w.
Definition assertM {S} (b : bool) (w : abort) : M S unit :=
  if b then mret tt else fail w.
Definition when {S} (b : bool) (m : M S unit) : M S unit :=
  if b then m else mret tt.

(** [for (x : xs) f(x)] *)
Fixpoint forM {S A} (xs : list A) (f : A → M S unit) : M S unit :=
  match xs with
  | [] => mret tt
  | x :: xs => f x ;; forM xs f
  end.

(** Total weakest precondition: the run does not abort and ends in [Q]. *)
Definition wp {S A} (m : M S A) (Q : A → S → Prop) (s : S) : Prop :=
  match m s with
  | Ok a s' => Q a s'
  | Abort _ => False
  end.

Section wp.
Context {S : Type}.

Lemma wp_ret {A} (a : A) Q (s : S) : Q a s → wp (mret a) Q s.
Proof. done. Qed.

Lemma wp_bind {A B} (m : M S A) (k : A → M S B) Q s :
  wp m (λ a s', wp (k a) Q s') s → wp (m ≫= k) Q s.
Proof. unfold wp, mbind, M_bind. by destruct (m s). Qed.

Lemma wp_gets {A} (f : S → A) Q s : Q (f s) s → wp (gets f) Q s.
Proof. done. Qed.

Lemma wp_modify f Q (s : S) : Q tt (f s) → wp (modify f) Q s.
Proof. done. Qed.

Lemma wp_assert (b : bool) w Q (s : S) : b = true → Q tt s → wp (assertM b w) Q s.
Proof. by intros ->. Qed.

Lemma wp_mono {A} (m : M S A) (P Q : A → S → Prop) s :
  wp m P s → (∀ a s', P a s' → Q a s') → wp m Q s.
Proof. unfold wp. destruct (m s); auto. Qed.

Lemma wp_if {A} (b : bool) (m1 m2 : M S A) Q s :
  (b = true → wp m1 Q s) → (b = false → wp m2 Q s) → wp (if b then m1 else m2) Q s.
Proof. destruct b; auto. Qed.

(** What a terminating run satisfies. *)
Lemma wp_elim {A} (m : M S A) Q s : wp m Q s → ∃ a s', m s = Ok a s' ∧ Q a s'.
Proof. unfold wp. destruct (m s); naive_solver. Qed.

Lemma wp_intro {A} (m : M S A) (Q : A → S → Prop) s a s' :
  m s = Ok a s' → Q a s' → wp m Q s.
Proof. unfold wp. by intros ->. Qed.

(** A loop over a list keeps an invariant that its body keeps. *)
Lemma wp_forM {A} (xs : list A) (f : A → M S unit) (I : S → Prop) s :
  (∀ x s', x ∈ xs → I s' → wp (f x) (λ _ s'', I s'') s') →
  I s → wp (forM xs f) (λ _ s', I s') s.
Proof.
  revert s. induction xs as [|x xs IH]; intros s Hf Hs; [done|].
  apply wp_bind. eapply wp_mono; [apply Hf; [by left|done]|].
  intros ? s' Hs'. apply IH; [|done]. intros y s'' Hy. apply Hf. by right.
Qed.
End wp.

(** The monad laws, pointwise. *)
Lemma bind_ret_l {S A B} (a : A) (k : A → M S B) s : (mret a ≫= k) s = k a s.
Proof. done. Qed.
Lemma bind_assoc {S A B C} (m : M S A) (k : A → M S B) (h : B → M S C) s :
  ((m ≫= k) ≫= h) s = (m ≫= (λ a, k a ≫= h)) s.
Proof. unfold mbind, M_bind. by destruct (m s). Qed.

(** A run that ends went through both halves. *)
Lemma bind_ok {S A B} (m : M S A) (k : A → M S B) s b s' :
  (m ≫= k) s = Ok b s' → ∃ a s1, m s = Ok a s1 ∧ k a s1 = Ok b s'.
Proof. unfold mbind, M_bind. destruct (m s) as [a s1|]; [eauto|done]. Qed.
