(* ===== verification/RitCommon.v ===== *)
(** * Data types and constants: RitCommon.h and the enumerations of cortex-a9.h

    C enumerations whose values the program computes with (register numbers,
    condition codes, option numbers, opcodes) are [Z] constants under their C
    names; the ones it only compares are inductive types. *)
From S2P Require Import Prelude.

(** ** 1. Limits (RitCommon.h) *)

Definition MAX_REG_NUM : Z := 4.
Definition DEFAULT_ARCH_VER : Z := 5.
Definition REGS_LIST_MASK : Z := 0xFFFF.
Definition MAX_UINT16 : Z := 0xFFFF.
Definition RETRY_RELAX_GEAR_1 : Z := 4.
Definition RETRY_RELAX_GEAR_2 : Z := 8.
Definition RETRY_RELAX_GEAR_3 : Z := 12.
Definition RETRY_RELAX_GEAR_4 : Z := 14.
Definition RETRY_MAX_TIMES : Z := 16.
Definition INVALID_GPR : Z := 0xff.
Definition MAX_INSTR : Z := 8.
Definition MAX_STR_INSTR_LEN : Z := 100.
Definition BUF_SIZE : Z := 1024.

(** ** 2. Option kinds *)

Definition OPT_ISA : Z := 0.
Definition OPT_ARCH_VERSION : Z := 1.
Definition OPT_OPKIND : Z := 2.
Definition OPT_OPCODE : Z := 3.
Definition OPT_SBIT : Z := 4.
Definition OPT_COND : Z := 5.
Definition OPT_SREG : Z := 6.
Definition OPT_DREG : Z := 7.
Definition OPT_REGS_LIST : Z := 8.
Definition OPT_IMM : Z := 9.
Definition OPT_SHRTREG : Z := 10.
Definition OPT_SHIMM : Z := 11.
Definition OPT_SHRTTYPE : Z := 12.
Definition OPT_FP_SREG_EXT : Z := 13.
Definition OPT_FP_DREG_EXT : Z := 14.
Definition OPT_FP_SZ_Q_EXT : Z := 15.
Definition OPT_MEM_BASE_VAL : Z := 16.
Definition OPT_MEM_BASE_MSK : Z := 17.
Definition OPT_MEM_OFFSET_VAL : Z := 18.
Definition OPT_ALLOW_UNALIGN_MEM : Z := 19.
Definition OPT_ALLOW_ALL_INSTR : Z := 20.
Definition OPT_ALLOW_BIAS_OPND : Z := 21.
Definition OPT_ALLOW_BIAS_REG : Z := 22.
Definition OPT_NOT_ALLOW_FIX_MEM : Z := 23.
Definition OPT_NOT_ALLOW_RELAX : Z := 24.
Definition OPT_INSTR_BIN_INIT : Z := 25.
Definition OPT_RAND_SEED : Z := 26.
Definition OPT_VERBOSE : Z := 27.
Definition OPT_BTM : Z := 28.
Definition OPT_TOP : Z := 0.

(** ** 3. Status of a generated instruction *)

Inductive instr_status_t :=
  | VALID | UNPREDICTABLE | INST_UNKNOWN | UNDEFINED | UNSUPPORTED | ALIAS
  | INST_DIFF | INVALID | FIXINST.

#[global] Instance instr_status_eq_dec : EqDecision instr_status_t.
Proof. solve_decision. Defined.

Definition status_eqb (a b : instr_status_t) : bool := bool_decide (a = b).

Lemma status_eqb_eq a b : status_eqb a b = true ↔ a = b.
Proof. apply bool_decide_eq_true. Qed.

(** [if (c) status = new;] *)
Definition upd (c : bool) (new old : instr_status_t) : instr_status_t := if c then new else old.

(** ** 4. Instruction sets, registers, conditions and the other option values *)

Definition ISA_TOP : Z := 0.
Definition ISA_ARMv5 : Z := 0.
Definition ISA_ARMv7 : Z := 1.
Definition ISA_THUMB : Z := 2.
Definition ISA_THUMB_32 : Z := 3.
Definition ISA_RAND : Z := 4.

Definition R_TOP : Z := 0.
Definition R_0 : Z := 0.
Definition R_4 : Z := 4.
Definition R_8 : Z := 8.
Definition R_13 : Z := 13.
Definition R_SP : Z := 13.
Definition R_LR : Z := 14.
Definition R_PC : Z := 15.
Definition R_RAND : Z := 16.

Definition FP_REG_TOP : Z := 0.
Definition FP_REG_RAND : Z := 2.
Definition FP_SZ_Q_TOP : Z := 0.
Definition FP_SZ_Q_RAND : Z := 2.

Definition SH_TYPE_TOP : Z := 0.
Definition SH_TYPE_RAND : Z := 4.

Definition COND_TOP : Z := 0.
Definition COND_AL : Z := 14.
Definition COND_RAND : Z := 15.

Definition SBIT_TOP : Z := 0.
Definition SBIT_SET : Z := 1.
Definition SBIT_RAND : Z := 2.

(** Partitions of the immediate, register and condition spaces. *)
Definition IP_TOP : Z := 0.
Definition IP_RAND : Z := 5.
Definition GPR_TOP : Z := 0.
Definition GPR_RAND : Z := 6.
Definition CP_TOP : Z := 0.
Definition CP_COND : Z := 1.
Definition CP_AL : Z := 2.
Definition CP_RAND : Z := 3.

(** Condition field of an ARM encoding (cortex-a9.h). *)
Definition cond_mask_bit : Z := 28.
Definition cond_mask : Z := 0xf0000000.

(** ** 5. Operand descriptions (cortex-a9.h) *)

Inductive sisa_opnd_type_t :=
  | SISA_OPND_TYPE_NONE | SISA_OPND_TYPE_GPR | SISA_OPND_TYPE_GPR_RW | SISA_OPND_TYPE_SHIFT_REG
  | SISA_OPND_TYPE_GPRLIST | SISA_OPND_TYPE_GPRLIST_T | SISA_OPND_TYPE_GPRSET
  | SISA_OPND_TYPE_GPR_MERGE | SISA_OPND_TYPE_GPR_CONST | SISA_OPND_TYPE_IMM
  | SISA_OPND_TYPE_IMM_MERGE | SISA_OPND_TYPE_SHIFT_IMM | SISA_OPND_TYPE_SHIFT_IMM_T
  | SISA_OPND_TYPE_IMM_ARM_EXP | SISA_OPND_TYPE_IMM_THUMB_EXP | SISA_OPND_TYPE_IMM_ZERO_EXTEND
  | SISA_OPND_TYPE_IMM_SIGN_EXTEND | SISA_OPND_TYPE_IMM_VFP_EXPAND | SISA_OPND_TYPE_FLAGS
  | SISA_OPND_TYPE_VEC | SISA_OPND_TYPE_ROTATE_REG | SISA_OPND_TYPE_COND | SISA_OPND_TYPE_FPSR
  | SISA_OPND_TYPE_FPDR | SISA_OPND_TYPE_FPDSR | SISA_OPND_TYPE_FPQR | SISA_OPND_TYPE_FPQDR
  | SISA_OPND_TYPE_IMM_SIMD_EXP | SISA_OPND_TYPE_MAX_NUM.

#[global] Instance sisa_opnd_type_eq_dec : EqDecision sisa_opnd_type_t.
Proof. solve_decision. Defined.

Definition opnd_type_eqb (a b : sisa_opnd_type_t) : bool := bool_decide (a = b).

Record sisa_opnd_t := Opnd {
  start_bit : Z; end_bit : Z; bit1 : Z; bit2 : Z; type : sisa_opnd_type_t
}.

(** The [{0}] operand. *)
Definition OPNDNA : sisa_opnd_t := Opnd 0 0 0 0 SISA_OPND_TYPE_NONE.

(** Positions in the operand array. *)
Definition SISA_OUTPUT0 : nat := 0.
Definition SISA_OUTPUT1 : nat := 1.
Definition SISA_INPUT0 : nat := 2.
Definition SISA_INPUT1 : nat := 3.
Definition SISA_INPUT2 : nat := 4.
Definition SISA_INPUT3 : nat := 5.

(** ** 6. Instruction kinds (cortex-a9.h) *)

Inductive sisa_opkind_t :=
  | NO_OP | EMPTY_OP | ALU_OP | LOG_OP | MOV_OP | CMP_OP | TEST_OP | EXT_OP | LD_OP | ST_OP
  | LDM_OP | STM_OP | PUSH_OP | POP_OP | JMP_OP | UMUL_OP | MUL32_OP | SMUL_OP | SMULD_OP
  | BYTE_ALU_OP | S_BYTE_ALU_OP | BF_OP | REVERSE_OP | SSAT_OP | SR_OP | LDREX_OP | STREX_OP
  | MISC_OP | COPR_OP | VFP_OP | SYS_OP | SIMD_OP | LAST_OP | PSEUDO_OP | AEABI_OP
  | KERNEL_HELPER_OP | PSEUDO_LINK_NODE | PSEUDO_CONNECT_NODE | PSEUDO_TAIL_NODE.

#[global] Instance sisa_opkind_eq_dec : EqDecision sisa_opkind_t.
Proof. solve_decision. Defined.

Definition opkind_eqb (a b : sisa_opkind_t) : bool := bool_decide (a = b).

(** The numeric value of the enumerator, which the source uses as an index. *)
Definition opkind_idx (k : sisa_opkind_t) : nat :=
  match k with
  | NO_OP => 0
  | EMPTY_OP => 1
  | ALU_OP => 2
  | LOG_OP => 3
  | MOV_OP => 4
  | CMP_OP => 5
  | TEST_OP => 6
  | EXT_OP => 7
  | LD_OP => 8
  | ST_OP => 9
  | LDM_OP => 10
  | STM_OP => 11
  | PUSH_OP => 12
  | POP_OP => 13
  | JMP_OP => 14
  | UMUL_OP => 15
  | MUL32_OP => 16
  | SMUL_OP => 17
  | SMULD_OP => 18
  | BYTE_ALU_OP => 19
  | S_BYTE_ALU_OP => 20
  | BF_OP => 21
  | REVERSE_OP => 22
  | SSAT_OP => 23
  | SR_OP => 24
  | LDREX_OP => 25
  | STREX_OP => 26
  | MISC_OP => 27
  | COPR_OP => 28
  | VFP_OP => 29
  | SYS_OP => 30
  | SIMD_OP => 31
  | LAST_OP => 32
  | PSEUDO_OP => 33
  | AEABI_OP => 34
  | KERNEL_HELPER_OP => 35
  | PSEUDO_LINK_NODE => 36
  | PSEUDO_CONNECT_NODE => 37
  | PSEUDO_TAIL_NODE => 38
  end.

(** ** 7. Instruction descriptions and generation options (RitCommon.h) *)

(** [name = None] is the null pointer of the [{0}] entries. *)
Record arm_instr_desc_t := Desc {
  match_val : Z; match_msk : Z; neg_val : Z; neg_msk : Z;
  op_kind : sisa_opkind_t; name : option string; opnds : list sisa_opnd_t
}.

Definition zero_desc : arm_instr_desc_t :=
  Desc 0 0 0 0 NO_OP None [OPNDNA; OPNDNA; OPNDNA; OPNDNA; OPNDNA; OPNDNA].

(** [opcode = None] is the null pointer. *)
Record gen_option_t := Mk_gen_option {
  isa : Z;
  arch_version : Z;
  opcode : option string;
  sbit_val : Z;
  cond_val : Z;
  src_regs : list Z;
  dst_regs : list Z;
  src_fp_regs_ext : list Z;
  dst_fp_regs_ext : list Z;
  fp_sz_q_bit : Z;
  regs_list : Z;
  imm_val : Z;
  shift_rotate_reg : Z;
  shift_imm_val : Z;
  shift_rotate_type : Z;
  mem_base_val : Z;
  mem_base_mask : Z;
  mem_offset_val : Z;
  opt_status : Z
}.

Definition opt_isa (v : Z) (r : gen_option_t) : gen_option_t :=
    Mk_gen_option v r.(arch_version) r.(opcode) r.(sbit_val) r.(cond_val) r.(src_regs) r.(dst_regs)
    r.(src_fp_regs_ext) r.(dst_fp_regs_ext) r.(fp_sz_q_bit) r.(regs_list) r.(imm_val)
    r.(shift_rotate_reg) r.(shift_imm_val) r.(shift_rotate_type) r.(mem_base_val) r.(mem_base_mask)
    r.(mem_offset_val) r.(opt_status).
Definition opt_arch_version (v : Z) (r : gen_option_t) : gen_option_t :=
    Mk_gen_option r.(isa) v r.(opcode) r.(sbit_val) r.(cond_val) r.(src_regs) r.(dst_regs)
    r.(src_fp_regs_ext) r.(dst_fp_regs_ext) r.(fp_sz_q_bit) r.(regs_list) r.(imm_val)
    r.(shift_rotate_reg) r.(shift_imm_val) r.(shift_rotate_type) r.(mem_base_val) r.(mem_base_mask)
    r.(mem_offset_val) r.(opt_status).
Definition opt_opcode (v : option string) (r : gen_option_t) : gen_option_t :=
    Mk_gen_option r.(isa) r.(arch_version) v r.(sbit_val) r.(cond_val) r.(src_regs) r.(dst_regs)
    r.(src_fp_regs_ext) r.(dst_fp_regs_ext) r.(fp_sz_q_bit) r.(regs_list) r.(imm_val)
    r.(shift_rotate_reg) r.(shift_imm_val) r.(shift_rotate_type) r.(mem_base_val) r.(mem_base_mask)
    r.(mem_offset_val) r.(opt_status).
Definition opt_sbit_val (v : Z) (r : gen_option_t) : gen_option_t :=
    Mk_gen_option r.(isa) r.(arch_version) r.(opcode) v r.(cond_val) r.(src_regs) r.(dst_regs)
    r.(src_fp_regs_ext) r.(dst_fp_regs_ext) r.(fp_sz_q_bit) r.(regs_list) r.(imm_val)
    r.(shift_rotate_reg) r.(shift_imm_val) r.(shift_rotate_type) r.(mem_base_val) r.(mem_base_mask)
    r.(mem_offset_val) r.(opt_status).
Definition opt_cond_val (v : Z) (r : gen_option_t) : gen_option_t :=
    Mk_gen_option r.(isa) r.(arch_version) r.(opcode) r.(sbit_val) v r.(src_regs) r.(dst_regs)
    r.(src_fp_regs_ext) r.(dst_fp_regs_ext) r.(fp_sz_q_bit) r.(regs_list) r.(imm_val)
    r.(shift_rotate_reg) r.(shift_imm_val) r.(shift_rotate_type) r.(mem_base_val) r.(mem_base_mask)
    r.(mem_offset_val) r.(opt_status).
Definition opt_src_regs (v : list Z) (r : gen_option_t) : gen_option_t :=
    Mk_gen_option r.(isa) r.(arch_version) r.(opcode) r.(sbit_val) r.(cond_val) v r.(dst_regs)
    r.(src_fp_regs_ext) r.(dst_fp_regs_ext) r.(fp_sz_q_bit) r.(regs_list) r.(imm_val)
    r.(shift_rotate_reg) r.(shift_imm_val) r.(shift_rotate_type) r.(mem_base_val) r.(mem_base_mask)
    r.(mem_offset_val) r.(opt_status).
Definition opt_dst_regs (v : list Z) (r : gen_option_t) : gen_option_t :=
    Mk_gen_option r.(isa) r.(arch_version) r.(opcode) r.(sbit_val) r.(cond_val) r.(src_regs) v
    r.(src_fp_regs_ext) r.(dst_fp_regs_ext) r.(fp_sz_q_bit) r.(regs_list) r.(imm_val)
    r.(shift_rotate_reg) r.(shift_imm_val) r.(shift_rotate_type) r.(mem_base_val) r.(mem_base_mask)
    r.(mem_offset_val) r.(opt_status).
Definition opt_src_fp_regs_ext (v : list Z) (r : gen_option_t) : gen_option_t :=
    Mk_gen_option r.(isa) r.(arch_version) r.(opcode) r.(sbit_val) r.(cond_val) r.(src_regs)
    r.(dst_regs) v r.(dst_fp_regs_ext) r.(fp_sz_q_bit) r.(regs_list) r.(imm_val)
    r.(shift_rotate_reg) r.(shift_imm_val) r.(shift_rotate_type) r.(mem_base_val) r.(mem_base_mask)
    r.(mem_offset_val) r.(opt_status).
Definition opt_dst_fp_regs_ext (v : list Z) (r : gen_option_t) : gen_option_t :=
    Mk_gen_option r.(isa) r.(arch_version) r.(opcode) r.(sbit_val) r.(cond_val) r.(src_regs)
    r.(dst_regs) r.(src_fp_regs_ext) v r.(fp_sz_q_bit) r.(regs_list) r.(imm_val)
    r.(shift_rotate_reg) r.(shift_imm_val) r.(shift_rotate_type) r.(mem_base_val) r.(mem_base_mask)
    r.(mem_offset_val) r.(opt_status).
Definition opt_fp_sz_q_bit (v : Z) (r : gen_option_t) : gen_option_t :=
    Mk_gen_option r.(isa) r.(arch_version) r.(opcode) r.(sbit_val) r.(cond_val) r.(src_regs)
    r.(dst_regs) r.(src_fp_regs_ext) r.(dst_fp_regs_ext) v r.(regs_list) r.(imm_val)
    r.(shift_rotate_reg) r.(shift_imm_val) r.(shift_rotate_type) r.(mem_base_val) r.(mem_base_mask)
    r.(mem_offset_val) r.(opt_status).
Definition opt_regs_list (v : Z) (r : gen_option_t) : gen_option_t :=
    Mk_gen_option r.(isa) r.(arch_version) r.(opcode) r.(sbit_val) r.(cond_val) r.(src_regs)
    r.(dst_regs) r.(src_fp_regs_ext) r.(dst_fp_regs_ext) r.(fp_sz_q_bit) v r.(imm_val)
    r.(shift_rotate_reg) r.(shift_imm_val) r.(shift_rotate_type) r.(mem_base_val) r.(mem_base_mask)
    r.(mem_offset_val) r.(opt_status).
Definition opt_imm_val (v : Z) (r : gen_option_t) : gen_option_t :=
    Mk_gen_option r.(isa) r.(arch_version) r.(opcode) r.(sbit_val) r.(cond_val) r.(src_regs)
    r.(dst_regs) r.(src_fp_regs_ext) r.(dst_fp_regs_ext) r.(fp_sz_q_bit) r.(regs_list) v
    r.(shift_rotate_reg) r.(shift_imm_val) r.(shift_rotate_type) r.(mem_base_val) r.(mem_base_mask)
    r.(mem_offset_val) r.(opt_status).
Definition opt_shift_rotate_reg (v : Z) (r : gen_option_t) : gen_option_t :=
    Mk_gen_option r.(isa) r.(arch_version) r.(opcode) r.(sbit_val) r.(cond_val) r.(src_regs)
    r.(dst_regs) r.(src_fp_regs_ext) r.(dst_fp_regs_ext) r.(fp_sz_q_bit) r.(regs_list) r.(imm_val) v
    r.(shift_imm_val) r.(shift_rotate_type) r.(mem_base_val) r.(mem_base_mask) r.(mem_offset_val)
    r.(opt_status).
Definition opt_shift_imm_val (v : Z) (r : gen_option_t) : gen_option_t :=
    Mk_gen_option r.(isa) r.(arch_version) r.(opcode) r.(sbit_val) r.(cond_val) r.(src_regs)
    r.(dst_regs) r.(src_fp_regs_ext) r.(dst_fp_regs_ext) r.(fp_sz_q_bit) r.(regs_list) r.(imm_val)
    r.(shift_rotate_reg) v r.(shift_rotate_type) r.(mem_base_val) r.(mem_base_mask)
    r.(mem_offset_val) r.(opt_status).
Definition opt_shift_rotate_type (v : Z) (r : gen_option_t) : gen_option_t :=
    Mk_gen_option r.(isa) r.(arch_version) r.(opcode) r.(sbit_val) r.(cond_val) r.(src_regs)
    r.(dst_regs) r.(src_fp_regs_ext) r.(dst_fp_regs_ext) r.(fp_sz_q_bit) r.(regs_list) r.(imm_val)
    r.(shift_rotate_reg) r.(shift_imm_val) v r.(mem_base_val) r.(mem_base_mask) r.(mem_offset_val)
    r.(opt_status).
Definition opt_mem_base_val (v : Z) (r : gen_option_t) : gen_option_t :=
    Mk_gen_option r.(isa) r.(arch_version) r.(opcode) r.(sbit_val) r.(cond_val) r.(src_regs)
    r.(dst_regs) r.(src_fp_regs_ext) r.(dst_fp_regs_ext) r.(fp_sz_q_bit) r.(regs_list) r.(imm_val)
    r.(shift_rotate_reg) r.(shift_imm_val) r.(shift_rotate_type) v r.(mem_base_mask)
    r.(mem_offset_val) r.(opt_status).
Definition opt_mem_base_mask (v : Z) (r : gen_option_t) : gen_option_t :=
    Mk_gen_option r.(isa) r.(arch_version) r.(opcode) r.(sbit_val) r.(cond_val) r.(src_regs)
    r.(dst_regs) r.(src_fp_regs_ext) r.(dst_fp_regs_ext) r.(fp_sz_q_bit) r.(regs_list) r.(imm_val)
    r.(shift_rotate_reg) r.(shift_imm_val) r.(shift_rotate_type) r.(mem_base_val) v
    r.(mem_offset_val) r.(opt_status).
Definition opt_mem_offset_val (v : Z) (r : gen_option_t) : gen_option_t :=
    Mk_gen_option r.(isa) r.(arch_version) r.(opcode) r.(sbit_val) r.(cond_val) r.(src_regs)
    r.(dst_regs) r.(src_fp_regs_ext) r.(dst_fp_regs_ext) r.(fp_sz_q_bit) r.(regs_list) r.(imm_val)
    r.(shift_rotate_reg) r.(shift_imm_val) r.(shift_rotate_type) r.(mem_base_val) r.(mem_base_mask)
    v r.(opt_status).
Definition opt_opt_status (v : Z) (r : gen_option_t) : gen_option_t :=
    Mk_gen_option r.(isa) r.(arch_version) r.(opcode) r.(sbit_val) r.(cond_val) r.(src_regs)
    r.(dst_regs) r.(src_fp_regs_ext) r.(dst_fp_regs_ext) r.(fp_sz_q_bit) r.(regs_list) r.(imm_val)
    r.(shift_rotate_reg) r.(shift_imm_val) r.(shift_rotate_type) r.(mem_base_val) r.(mem_base_mask)
    r.(mem_offset_val) v.

(** [GET_OPT_STAT] and [SET_OPT_STAT] on a given option record. *)
Definition opt_stat (o : gen_option_t) (x : Z) : bool :=
  negb (Z.land o.(opt_status) (shl32 1 x) =? 0).

Definition opt_set_stat (x : Z) (o : gen_option_t) : gen_option_t :=
  opt_opt_status (Z.lor o.(opt_status) (shl32 1 x)) o.
