(* ===== verification/InstrTable.v ===== *)
(** * The instruction table: glb_instr_tlb of InstrUtil.c

    The opcode numbering (the [sisa_opcode_t] enumeration, which the
    preprocessor builds from the three .def files) and the table indexed by it.
    [INST] entries carry their encoding, kind and operands; [LINK], [TAIL] and
    [CONNECT] entries of the .def files expand to [{0}]. *)
From S2P Require Import Prelude RitCommon.

(** ** 1. Operand macros of cortex-a9.h *)

Definition DNA : sisa_opnd_t := OPNDNA.
Definition DIMM (s e : Z) : sisa_opnd_t := Opnd s e 0 0 SISA_OPND_TYPE_IMM.
Definition DIMM_MERGE (hs he ls le : Z) : sisa_opnd_t := Opnd hs he ls le SISA_OPND_TYPE_IMM_MERGE.
Definition DIMM_ARMEXP (s e l : Z) : sisa_opnd_t := Opnd s e l 0 SISA_OPND_TYPE_IMM_ARM_EXP.
Definition DIMM_THUMBEXP (s e l : Z) : sisa_opnd_t := Opnd s e l 0 SISA_OPND_TYPE_IMM_THUMB_EXP.
Definition DIMM_SIMDEXP (s e : Z) : sisa_opnd_t := Opnd s e 0 0 SISA_OPND_TYPE_IMM_SIMD_EXP.
Definition DIMM_ZERO_EXTEND (s e n : Z) : sisa_opnd_t := Opnd s e n 0 SISA_OPND_TYPE_IMM_ZERO_EXTEND.
Definition DIMM_ZERO_EXTEND_I (s e n i : Z) : sisa_opnd_t := Opnd s e n i SISA_OPND_TYPE_IMM_ZERO_EXTEND.
Definition DIMM_SIGN_EXTEND (s e n : Z) : sisa_opnd_t := Opnd s e n 0 SISA_OPND_TYPE_IMM_SIGN_EXTEND.
Definition DSHFTIMM (s e l h : Z) : sisa_opnd_t := Opnd s e l h SISA_OPND_TYPE_SHIFT_IMM.
Definition DSHFTIMM_T (s e l h : Z) : sisa_opnd_t := Opnd s e l h SISA_OPND_TYPE_SHIFT_IMM_T.
Definition DIMM_VFP_EXPAND (hs he ls le : Z) : sisa_opnd_t := Opnd hs he ls le SISA_OPND_TYPE_IMM_VFP_EXPAND.
Definition DROTATEGPR (s e c d : Z) : sisa_opnd_t := Opnd s e c d SISA_OPND_TYPE_ROTATE_REG.
Definition DGPR (s e : Z) : sisa_opnd_t := Opnd s e 0 0 SISA_OPND_TYPE_GPR.
Definition DGPR_RW (s e : Z) : sisa_opnd_t := Opnd s e 0 0 SISA_OPND_TYPE_GPR_RW.
Definition DSHFTGPR (s e c d : Z) : sisa_opnd_t := Opnd s e c d SISA_OPND_TYPE_SHIFT_REG.
Definition DGPR_LIST (s e : Z) : sisa_opnd_t := Opnd s e 0 0 SISA_OPND_TYPE_GPRLIST.
Definition DGPR_SET (s e : Z) : sisa_opnd_t := Opnd s e 0 0 SISA_OPND_TYPE_GPRSET.
Definition DGPR_MERGE (s e dn : Z) : sisa_opnd_t := Opnd s e dn 0 SISA_OPND_TYPE_GPR_MERGE.
Definition DGPR_CONST (v : Z) : sisa_opnd_t := Opnd 0 0 v 0 SISA_OPND_TYPE_GPR_CONST.
Definition DGPR_LIST_T (s e v p : Z) : sisa_opnd_t := Opnd s e v p SISA_OPND_TYPE_GPRLIST_T.
Definition DCOND (s e : Z) : sisa_opnd_t := Opnd s e 0 0 SISA_OPND_TYPE_COND.
Definition FPSR (s e c : Z) : sisa_opnd_t := Opnd s e c 0 SISA_OPND_TYPE_FPSR.
Definition FPDR (s e c : Z) : sisa_opnd_t := Opnd s e c 0 SISA_OPND_TYPE_FPDR.
Definition FPQR (s e c : Z) : sisa_opnd_t := Opnd s e c 0 SISA_OPND_TYPE_FPQR.
Definition FPDSR (s e c d : Z) : sisa_opnd_t := Opnd s e c d SISA_OPND_TYPE_FPDSR.
Definition FPQDR (s e d q : Z) : sisa_opnd_t := Opnd s e d q SISA_OPND_TYPE_FPQDR.

(** ** 2. Opcode numbers *)

Definition SISA_OP_NA : Z := 0.
Definition SISA_OP_X0 : Z := 1.
Definition SISA_OP_X2 : Z := 2.
Definition SISA_OP_X4 : Z := 3.
Definition SISA_OP_X8 : Z := 4.
Definition SISA_OP_XC : Z := 5.
Definition SISA_OP_F0 : Z := 6.
Definition SISA_OP_F2 : Z := 7.
Definition SISA_OP_F4 : Z := 8.
Definition SISA_OP_SRS : Z := 9.
Definition SISA_OP_RFE : Z := 10.
Definition SISA_OP_BLX_imm_a2 : Z := 11.
Definition SISA_OP_MRRC2 : Z := 12.
Definition SISA_OP_LDC2_imm : Z := 13.
Definition SISA_OP_LDC2_lit : Z := 14.
Definition SISA_OP_STC2 : Z := 15.
Definition SISA_OP_MCRR2 : Z := 16.
Definition SISA_OP_CDP2 : Z := 17.
Definition SISA_OP_MCR2 : Z := 18.
Definition SISA_OP_MRC2 : Z := 19.
Definition SISA_OP_TOP_END : Z := 20.
Definition SISA_OP_X0_CONNECT : Z := 21.
Definition SISA_OP_X0_0 : Z := 22.
Definition SISA_OP_X0_1 : Z := 23.
Definition SISA_OP_X0_2 : Z := 24.
Definition SISA_OP_X0_3 : Z := 25.
Definition SISA_OP_X0_4 : Z := 26.
Definition SISA_OP_X0_5 : Z := 27.
Definition SISA_OP_X0_END : Z := 28.
Definition SISA_OP_X0_0_CONNECT : Z := 29.
Definition SISA_OP_MUL : Z := 30.
Definition SISA_OP_MLA : Z := 31.
Definition SISA_OP_UMAAL : Z := 32.
Definition SISA_OP_MLS : Z := 33.
Definition SISA_OP_UMULL : Z := 34.
Definition SISA_OP_UMLAL : Z := 35.
Definition SISA_OP_SMULL : Z := 36.
Definition SISA_OP_SMLAL : Z := 37.
Definition SISA_OP_X0_0_END : Z := 38.
Definition SISA_OP_X0_1_CONNECT : Z := 39.
Definition SISA_OP_MRS_a : Z := 40.
Definition SISA_OP_MRS : Z := 41.
Definition SISA_OP_MSR_reg_a : Z := 42.
Definition SISA_OP_MSR_reg_s : Z := 43.
Definition SISA_OP_BX : Z := 44.
Definition SISA_OP_CLZ : Z := 45.
Definition SISA_OP_BXJ_reg : Z := 46.
Definition SISA_OP_BLX_reg : Z := 47.
Definition SISA_OP_BKPT : Z := 48.
Definition SISA_OP_SMC : Z := 49.
Definition SISA_OP_QADD : Z := 50.
Definition SISA_OP_QSUB : Z := 51.
Definition SISA_OP_QDADD : Z := 52.
Definition SISA_OP_QDSUB : Z := 53.
Definition SISA_OP_X0_1_END : Z := 54.
Definition SISA_OP_X0_2_CONNECT : Z := 55.
Definition SISA_OP_SMLABB : Z := 56.
Definition SISA_OP_SMLAWB : Z := 57.
Definition SISA_OP_SMULWB : Z := 58.
Definition SISA_OP_SMLALBB : Z := 59.
Definition SISA_OP_SMULBB : Z := 60.
Definition SISA_OP_X0_2_END : Z := 61.
Definition SISA_OP_X0_3_CONNECT : Z := 62.
Definition SISA_OP_SWP : Z := 63.
Definition SISA_OP_SWPB : Z := 64.
Definition SISA_OP_STREX : Z := 65.
Definition SISA_OP_LDREX : Z := 66.
Definition SISA_OP_STREXD : Z := 67.
Definition SISA_OP_LDREXD : Z := 68.
Definition SISA_OP_STREXB : Z := 69.
Definition SISA_OP_LDREXB : Z := 70.
Definition SISA_OP_STREXH : Z := 71.
Definition SISA_OP_LDREXH : Z := 72.
Definition SISA_OP_X0_3_END : Z := 73.
Definition SISA_OP_X0_4_CONNECT : Z := 74.
Definition SISA_OP_AND_reg : Z := 75.
Definition SISA_OP_EOR_reg : Z := 76.
Definition SISA_OP_SUB_reg : Z := 77.
Definition SISA_OP_RSB_reg : Z := 78.
Definition SISA_OP_ADD_reg : Z := 79.
Definition SISA_OP_ADC_reg : Z := 80.
Definition SISA_OP_SBC_reg : Z := 81.
Definition SISA_OP_RSC_reg : Z := 82.
Definition SISA_OP_TST_reg : Z := 83.
Definition SISA_OP_TEQ_reg : Z := 84.
Definition SISA_OP_CMP_reg : Z := 85.
Definition SISA_OP_CMN_reg : Z := 86.
Definition SISA_OP_ORR_reg : Z := 87.
Definition SISA_OP_MOV_reg : Z := 88.
Definition SISA_OP_LSL_imm : Z := 89.
Definition SISA_OP_LSR_imm : Z := 90.
Definition SISA_OP_ASR_imm : Z := 91.
Definition SISA_OP_RRX_imm : Z := 92.
Definition SISA_OP_ROR_imm : Z := 93.
Definition SISA_OP_BIC_reg : Z := 94.
Definition SISA_OP_MVN_reg : Z := 95.
Definition SISA_OP_X0_4_END : Z := 96.
Definition SISA_OP_X0_5_CONNECT : Z := 97.
Definition SISA_OP_X0_5_0 : Z := 98.
Definition SISA_OP_X0_5_1 : Z := 99.
Definition SISA_OP_X0_5_END : Z := 100.
Definition SISA_OP_X0_5_0_CONNECT : Z := 101.
Definition SISA_OP_AND_rsh : Z := 102.
Definition SISA_OP_EOR_rsh : Z := 103.
Definition SISA_OP_SUB_rsh : Z := 104.
Definition SISA_OP_RSB_rsh : Z := 105.
Definition SISA_OP_ADD_rsh : Z := 106.
Definition SISA_OP_ADC_rsh : Z := 107.
Definition SISA_OP_SBC_rsh : Z := 108.
Definition SISA_OP_RSC_rsh : Z := 109.
Definition SISA_OP_TST_rsh : Z := 110.
Definition SISA_OP_TEQ_rsh : Z := 111.
Definition SISA_OP_CMP_rsh : Z := 112.
Definition SISA_OP_CMN_rsh : Z := 113.
Definition SISA_OP_ORR_rsh : Z := 114.
Definition SISA_OP_LSL_reg : Z := 115.
Definition SISA_OP_LSR_reg : Z := 116.
Definition SISA_OP_ASR_reg : Z := 117.
Definition SISA_OP_ROR_reg : Z := 118.
Definition SISA_OP_BIC_rsh : Z := 119.
Definition SISA_OP_MVN_rsh : Z := 120.
Definition SISA_OP_X0_5_0_END : Z := 121.
Definition SISA_OP_X0_5_1_CONNECT : Z := 122.
Definition SISA_OP_STRH_reg : Z := 123.
Definition SISA_OP_LDRH : Z := 124.
Definition SISA_OP_STRH_imm : Z := 125.
Definition SISA_OP_LDRH_imm : Z := 126.
Definition SISA_OP_LDRH_lit : Z := 127.
Definition SISA_OP_LDRD_reg : Z := 128.
Definition SISA_OP_LDRSB : Z := 129.
Definition SISA_OP_LDRD_imm : Z := 130.
Definition SISA_OP_LDRD_lit : Z := 131.
Definition SISA_OP_LDRSB_imm : Z := 132.
Definition SISA_OP_LDRSB_lit : Z := 133.
Definition SISA_OP_STRD_reg : Z := 134.
Definition SISA_OP_LDRSH : Z := 135.
Definition SISA_OP_STRD_imm : Z := 136.
Definition SISA_OP_LDRSH_imm : Z := 137.
Definition SISA_OP_LDRSH_lit : Z := 138.
Definition SISA_OP_STRHT_a1 : Z := 139.
Definition SISA_OP_STRHT_a2 : Z := 140.
Definition SISA_OP_LDRHT_a1 : Z := 141.
Definition SISA_OP_LDRHT_a2 : Z := 142.
Definition SISA_OP_LDRSBT_a1 : Z := 143.
Definition SISA_OP_LDRSBT_a2 : Z := 144.
Definition SISA_OP_LDRSHT_a1 : Z := 145.
Definition SISA_OP_LDRSHT_a2 : Z := 146.
Definition SISA_OP_X0_5_1_END : Z := 147.
Definition SISA_OP_X2_CONNECT : Z := 148.
Definition SISA_OP_AND_imm : Z := 149.
Definition SISA_OP_EOR_imm : Z := 150.
Definition SISA_OP_SUB_imm : Z := 151.
Definition SISA_OP_ADR_a2 : Z := 152.
Definition SISA_OP_RSB_imm : Z := 153.
Definition SISA_OP_ADD_imm : Z := 154.
Definition SISA_OP_ADR_a1 : Z := 155.
Definition SISA_OP_ADC_imm : Z := 156.
Definition SISA_OP_SBC_imm : Z := 157.
Definition SISA_OP_RSC_imm : Z := 158.
Definition SISA_OP_TST_imm : Z := 159.
Definition SISA_OP_TEQ_imm : Z := 160.
Definition SISA_OP_CMP_imm : Z := 161.
Definition SISA_OP_CMN_imm : Z := 162.
Definition SISA_OP_ORR_imm : Z := 163.
Definition SISA_OP_MOV_imm_a1 : Z := 164.
Definition SISA_OP_MOV_imm_a2 : Z := 165.
Definition SISA_OP_BIC_imm : Z := 166.
Definition SISA_OP_MVN_imm : Z := 167.
Definition SISA_OP_NOP : Z := 168.
Definition SISA_OP_YIELD : Z := 169.
Definition SISA_OP_WFE : Z := 170.
Definition SISA_OP_WFI : Z := 171.
Definition SISA_OP_SEV : Z := 172.
Definition SISA_OP_DBG : Z := 173.
Definition SISA_OP_MSR_imm_a : Z := 174.
Definition SISA_OP_MSR_imm_s : Z := 175.
Definition SISA_OP_MOVT : Z := 176.
Definition SISA_OP_X2_END : Z := 177.
Definition SISA_OP_X4_CONNECT : Z := 178.
Definition SISA_OP_X4_0 : Z := 179.
Definition SISA_OP_X4_21 : Z := 180.
Definition SISA_OP_X4_201 : Z := 181.
Definition SISA_OP_X4_241 : Z := 182.
Definition SISA_OP_X4_281 : Z := 183.
Definition SISA_OP_X4_301 : Z := 184.
Definition SISA_OP_USAD8 : Z := 185.
Definition SISA_OP_USADA8 : Z := 186.
Definition SISA_OP_SBFX : Z := 187.
Definition SISA_OP_BFC : Z := 188.
Definition SISA_OP_BFI : Z := 189.
Definition SISA_OP_UBFX : Z := 190.
Definition SISA_OP_X4_END : Z := 191.
Definition SISA_OP_X4_0_CONNECT : Z := 192.
Definition SISA_OP_POP_a2 : Z := 193.
Definition SISA_OP_PUSH_a2 : Z := 194.
Definition SISA_OP_STR_imm : Z := 195.
Definition SISA_OP_STRT_a1 : Z := 196.
Definition SISA_OP_LDR_lit : Z := 197.
Definition SISA_OP_LDR_imm : Z := 198.
Definition SISA_OP_LDRT_a1 : Z := 199.
Definition SISA_OP_STRB_imm : Z := 200.
Definition SISA_OP_STRBT_a1 : Z := 201.
Definition SISA_OP_LDRB_lit : Z := 202.
Definition SISA_OP_LDRB_imm : Z := 203.
Definition SISA_OP_LDRBT_a1 : Z := 204.
Definition SISA_OP_X4_0_END : Z := 205.
Definition SISA_OP_X4_21_CONNECT : Z := 206.
Definition SISA_OP_STR_reg : Z := 207.
Definition SISA_OP_STRT_a2 : Z := 208.
Definition SISA_OP_LDR_reg : Z := 209.
Definition SISA_OP_LDRT_a2 : Z := 210.
Definition SISA_OP_STRB_reg : Z := 211.
Definition SISA_OP_STRBT_a2 : Z := 212.
Definition SISA_OP_LDRB_reg : Z := 213.
Definition SISA_OP_LDRBT_a2 : Z := 214.
Definition SISA_OP_X4_21_END : Z := 215.
Definition SISA_OP_X4_201_CONNECT : Z := 216.
Definition SISA_OP_X4_201_1 : Z := 217.
Definition SISA_OP_X4_201_2 : Z := 218.
Definition SISA_OP_SHADD16 : Z := 219.
Definition SISA_OP_SHASX : Z := 220.
Definition SISA_OP_SHSAX : Z := 221.
Definition SISA_OP_SHSUB16 : Z := 222.
Definition SISA_OP_SHADD8 : Z := 223.
Definition SISA_OP_SHSUB8 : Z := 224.
Definition SISA_OP_X4_201_END : Z := 225.
Definition SISA_OP_X4_201_1_CONNECT : Z := 226.
Definition SISA_OP_SADD16 : Z := 227.
Definition SISA_OP_SASX : Z := 228.
Definition SISA_OP_SSAX : Z := 229.
Definition SISA_OP_SSUB16 : Z := 230.
Definition SISA_OP_SADD8 : Z := 231.
Definition SISA_OP_SSUB8 : Z := 232.
Definition SISA_OP_X4_201_1_END : Z := 233.
Definition SISA_OP_X4_201_2_CONNECT : Z := 234.
Definition SISA_OP_QADD16 : Z := 235.
Definition SISA_OP_QASX : Z := 236.
Definition SISA_OP_QSAX : Z := 237.
Definition SISA_OP_QSUB16 : Z := 238.
Definition SISA_OP_QADD8 : Z := 239.
Definition SISA_OP_QSUB8 : Z := 240.
Definition SISA_OP_X4_201_2_END : Z := 241.
Definition SISA_OP_X4_241_CONNECT : Z := 242.
Definition SISA_OP_X4_241_1 : Z := 243.
Definition SISA_OP_X4_241_2 : Z := 244.
Definition SISA_OP_UHADD16 : Z := 245.
Definition SISA_OP_UHASX : Z := 246.
Definition SISA_OP_UHSAX : Z := 247.
Definition SISA_OP_UHSUB16 : Z := 248.
Definition SISA_OP_UHADD8 : Z := 249.
Definition SISA_OP_UHSUB8 : Z := 250.
Definition SISA_OP_X4_241_END : Z := 251.
Definition SISA_OP_X4_241_1_CONNECT : Z := 252.
Definition SISA_OP_UADD16 : Z := 253.
Definition SISA_OP_UASX : Z := 254.
Definition SISA_OP_USAX : Z := 255.
Definition SISA_OP_USUB16 : Z := 256.
Definition SISA_OP_UADD8 : Z := 257.
Definition SISA_OP_USUB8 : Z := 258.
Definition SISA_OP_X4_241_1_END : Z := 259.
Definition SISA_OP_X4_241_2_CONNECT : Z := 260.
Definition SISA_OP_UQADD16 : Z := 261.
Definition SISA_OP_UQASX : Z := 262.
Definition SISA_OP_UQSAX : Z := 263.
Definition SISA_OP_UQSUB16 : Z := 264.
Definition SISA_OP_UQADD8 : Z := 265.
Definition SISA_OP_UQSUB8 : Z := 266.
Definition SISA_OP_X4_241_2_END : Z := 267.
Definition SISA_OP_X4_281_CONNECT : Z := 268.
Definition SISA_OP_PKH : Z := 269.
Definition SISA_OP_SSAT : Z := 270.
Definition SISA_OP_USAT : Z := 271.
Definition SISA_OP_SXTB16 : Z := 272.
Definition SISA_OP_SXTAB16 : Z := 273.
Definition SISA_OP_SEL : Z := 274.
Definition SISA_OP_SSAT16 : Z := 275.
Definition SISA_OP_SXTB : Z := 276.
Definition SISA_OP_SXTAB : Z := 277.
Definition SISA_OP_REV : Z := 278.
Definition SISA_OP_SXTH : Z := 279.
Definition SISA_OP_SXTAH : Z := 280.
Definition SISA_OP_REV16 : Z := 281.
Definition SISA_OP_UXTB16 : Z := 282.
Definition SISA_OP_UXTAB16 : Z := 283.
Definition SISA_OP_USAT16 : Z := 284.
Definition SISA_OP_UXTB : Z := 285.
Definition SISA_OP_UXTAB : Z := 286.
Definition SISA_OP_RBIT : Z := 287.
Definition SISA_OP_UXTH : Z := 288.
Definition SISA_OP_UXTAH : Z := 289.
Definition SISA_OP_REVSH : Z := 290.
Definition SISA_OP_X4_281_END : Z := 291.
Definition SISA_OP_X4_301_CONNECT : Z := 292.
Definition SISA_OP_SMUAD : Z := 293.
Definition SISA_OP_SMLAD : Z := 294.
Definition SISA_OP_SMUSD : Z := 295.
Definition SISA_OP_SMLSD : Z := 296.
Definition SISA_OP_SMLALD : Z := 297.
Definition SISA_OP_SMLSLD : Z := 298.
Definition SISA_OP_SMMUL : Z := 299.
Definition SISA_OP_SMMLA : Z := 300.
Definition SISA_OP_SMMLS : Z := 301.
Definition SISA_OP_X4_301_END : Z := 302.
Definition SISA_OP_X8_CONNECT : Z := 303.
Definition SISA_OP_POP_a1 : Z := 304.
Definition SISA_OP_PUSH_a1 : Z := 305.
Definition SISA_OP_STMDA : Z := 306.
Definition SISA_OP_LDMDA : Z := 307.
Definition SISA_OP_STM : Z := 308.
Definition SISA_OP_LDM : Z := 309.
Definition SISA_OP_STMDB : Z := 310.
Definition SISA_OP_LDMDB : Z := 311.
Definition SISA_OP_STMIB : Z := 312.
Definition SISA_OP_LDMIB : Z := 313.
Definition SISA_OP_STM_ureg : Z := 314.
Definition SISA_OP_LDM_ureg : Z := 315.
Definition SISA_OP_LDM_expr : Z := 316.
Definition SISA_OP_B_imm : Z := 317.
Definition SISA_OP_BL_imm_a1 : Z := 318.
Definition SISA_OP_X8_END : Z := 319.
Definition SISA_OP_XC_CONNECT : Z := 320.
Definition SISA_OP_SVC : Z := 321.
Definition SISA_OP_XC_A : Z := 322.
Definition SISA_OP_MCR_reg : Z := 323.
Definition SISA_OP_MRC_reg : Z := 324.
Definition SISA_OP_STC : Z := 325.
Definition SISA_OP_LDC_lit : Z := 326.
Definition SISA_OP_LDC_imm : Z := 327.
Definition SISA_OP_MCRR : Z := 328.
Definition SISA_OP_MRRC : Z := 329.
Definition SISA_OP_CDP : Z := 330.
Definition SISA_OP_XC_END : Z := 331.
Definition SISA_OP_XC_A_CONNECT : Z := 332.
Definition SISA_OP_XC_A_0 : Z := 333.
Definition SISA_OP_XC_A_1 : Z := 334.
Definition SISA_OP_XC_A_20 : Z := 335.
Definition SISA_OP_XC_A_21 : Z := 336.
Definition SISA_OP_XC_A_END : Z := 337.
Definition SISA_OP_XC_A_0_CONNECT : Z := 338.
Definition SISA_OP_VMOV_2reg_2sp : Z := 339.
Definition SISA_OP_VMOV_2sp_2reg : Z := 340.
Definition SISA_OP_VMOV_2reg_dp : Z := 341.
Definition SISA_OP_VMOV_dp_2reg : Z := 342.
Definition SISA_OP_VSTM_nw_a2 : Z := 343.
Definition SISA_OP_VSTM_nw_a1 : Z := 344.
Definition SISA_OP_VSTM_w_a2 : Z := 345.
Definition SISA_OP_VSTM_w_a1 : Z := 346.
Definition SISA_OP_VLDM_nw_a2 : Z := 347.
Definition SISA_OP_VLDM_nw_a1 : Z := 348.
Definition SISA_OP_VPOP_a2 : Z := 349.
Definition SISA_OP_VPOP_a1 : Z := 350.
Definition SISA_OP_VLDM_w_a2 : Z := 351.
Definition SISA_OP_VLDM_w_a1 : Z := 352.
Definition SISA_OP_XC_A_0_END : Z := 353.
Definition SISA_OP_XC_A_1_CONNECT : Z := 354.
Definition SISA_OP_VSTR_a2 : Z := 355.
Definition SISA_OP_VSTR_a1 : Z := 356.
Definition SISA_OP_VPUSH_a2 : Z := 357.
Definition SISA_OP_VPUSH_a1 : Z := 358.
Definition SISA_OP_VSTM_db_w_a2 : Z := 359.
Definition SISA_OP_VSTM_db_w_a1 : Z := 360.
Definition SISA_OP_VLDR_a2 : Z := 361.
Definition SISA_OP_VLDR_a1 : Z := 362.
Definition SISA_OP_VLDM_db_w_a2 : Z := 363.
Definition SISA_OP_VLDM_db_w_a1 : Z := 364.
Definition SISA_OP_XC_A_1_END : Z := 365.
Definition SISA_OP_XC_A_20_CONNECT : Z := 366.
Definition SISA_OP_XC_A_20_B : Z := 367.
Definition SISA_OP_VMLA_vfp_a2 : Z := 368.
Definition SISA_OP_VMLS_vfp_a2 : Z := 369.
Definition SISA_OP_VNMLA : Z := 370.
Definition SISA_OP_VNMLS : Z := 371.
Definition SISA_OP_VMUL_fp_a2 : Z := 372.
Definition SISA_OP_VNMUL : Z := 373.
Definition SISA_OP_VADD_fp_a2 : Z := 374.
Definition SISA_OP_VSUB_fp_a2 : Z := 375.
Definition SISA_OP_VDIV : Z := 376.
Definition SISA_OP_XC_A_20_END : Z := 377.
Definition SISA_OP_XC_A_20_B_CONNECT : Z := 378.
Definition SISA_OP_VMOV_imm : Z := 379.
Definition SISA_OP_VMOV : Z := 380.
Definition SISA_OP_VABS : Z := 381.
Definition SISA_OP_VNEG_a2 : Z := 382.
Definition SISA_OP_VSQRT : Z := 383.
Definition SISA_OP_VCVTB : Z := 384.
Definition SISA_OP_VCVTT : Z := 385.
Definition SISA_OP_VCMP_a1 : Z := 386.
Definition SISA_OP_VCMP_a2 : Z := 387.
Definition SISA_OP_VCMPE_a1 : Z := 388.
Definition SISA_OP_VCMPE_a2 : Z := 389.
Definition SISA_OP_VCVT_spdp : Z := 390.
Definition SISA_OP_VCVT_dpsp : Z := 391.
Definition SISA_OP_VCVT_imm : Z := 392.
Definition SISA_OP_VCVT : Z := 393.
Definition SISA_OP_XC_A_20_B_END : Z := 394.
Definition SISA_OP_XC_A_21_CONNECT : Z := 395.
Definition SISA_OP_VMOV_reg2sp : Z := 396.
Definition SISA_OP_VMOV_sp2reg : Z := 397.
Definition SISA_OP_VMSR : Z := 398.
Definition SISA_OP_VMOV_reg2sc : Z := 399.
Definition SISA_OP_VDUP : Z := 400.
Definition SISA_OP_VMRS : Z := 401.
Definition SISA_OP_VMOV_sc2reg : Z := 402.
Definition SISA_OP_XC_A_21_END : Z := 403.
Definition SISA_OP_F0_CONNECT : Z := 404.
Definition SISA_OP_CPS : Z := 405.
Definition SISA_OP_SETEND : Z := 406.
Definition SISA_OP_F0_END : Z := 407.
Definition SISA_OP_F2_CONNECT : Z := 408.
Definition SISA_OP_F2_0 : Z := 409.
Definition SISA_OP_F2_801 : Z := 410.
Definition SISA_OP_F2_8x1 : Z := 411.
Definition SISA_OP_F2_1B00 : Z := 412.
Definition SISA_OP_F2_8x0 : Z := 413.
Definition SISA_OP_F2_8x4 : Z := 414.
Definition SISA_OP_VEXT : Z := 415.
Definition SISA_OP_VTBL : Z := 416.
Definition SISA_OP_VTBX : Z := 417.
Definition SISA_OP_VDUP_sc : Z := 418.
Definition SISA_OP_F2_END : Z := 419.
Definition SISA_OP_F2_0_CONNECT : Z := 420.
Definition SISA_OP_F2_0_0 : Z := 421.
Definition SISA_OP_F2_0_2 : Z := 422.
Definition SISA_OP_F2_0_4 : Z := 423.
Definition SISA_OP_F2_0_6 : Z := 424.
Definition SISA_OP_F2_0_8 : Z := 425.
Definition SISA_OP_F2_0_A : Z := 426.
Definition SISA_OP_F2_0_C : Z := 427.
Definition SISA_OP_F2_0_E : Z := 428.
Definition SISA_OP_F2_0_END : Z := 429.
Definition SISA_OP_F2_0_0_CONNECT : Z := 430.
Definition SISA_OP_VHADD : Z := 431.
Definition SISA_OP_VQADD : Z := 432.
Definition SISA_OP_VRHADD : Z := 433.
Definition SISA_OP_VAND : Z := 434.
Definition SISA_OP_VBIC : Z := 435.
Definition SISA_OP_VORR : Z := 436.
Definition SISA_OP_VORN : Z := 437.
Definition SISA_OP_VEOR : Z := 438.
Definition SISA_OP_VBSL : Z := 439.
Definition SISA_OP_VBIT : Z := 440.
Definition SISA_OP_VBIF : Z := 441.
Definition SISA_OP_F2_0_0_END : Z := 442.
Definition SISA_OP_F2_0_2_CONNECT : Z := 443.
Definition SISA_OP_VHSUB : Z := 444.
Definition SISA_OP_VQSUB : Z := 445.
Definition SISA_OP_VCGT : Z := 446.
Definition SISA_OP_VCGE : Z := 447.
Definition SISA_OP_F2_0_2_END : Z := 448.
Definition SISA_OP_F2_0_4_CONNECT : Z := 449.
Definition SISA_OP_VSHL : Z := 450.
Definition SISA_OP_VQSHL : Z := 451.
Definition SISA_OP_VRSHL : Z := 452.
Definition SISA_OP_VQRSHL : Z := 453.
Definition SISA_OP_F2_0_4_END : Z := 454.
Definition SISA_OP_F2_0_6_CONNECT : Z := 455.
Definition SISA_OP_VMAX_int : Z := 456.
Definition SISA_OP_VMIN_int : Z := 457.
Definition SISA_OP_VABD_int : Z := 458.
Definition SISA_OP_VABA : Z := 459.
Definition SISA_OP_F2_0_6_END : Z := 460.
Definition SISA_OP_F2_0_8_CONNECT : Z := 461.
Definition SISA_OP_VADD_int : Z := 462.
Definition SISA_OP_VSUB_int : Z := 463.
Definition SISA_OP_VTST : Z := 464.
Definition SISA_OP_VCEQ : Z := 465.
Definition SISA_OP_VMLA : Z := 466.
Definition SISA_OP_VMLS : Z := 467.
Definition SISA_OP_VMUL_int_a1 : Z := 468.
Definition SISA_OP_VMUL_poly_a1 : Z := 469.
Definition SISA_OP_F2_0_8_END : Z := 470.
Definition SISA_OP_F2_0_A_CONNECT : Z := 471.
Definition SISA_OP_VPMAX_int : Z := 472.
Definition SISA_OP_VPMIN_int : Z := 473.
Definition SISA_OP_VQDMULH : Z := 474.
Definition SISA_OP_VQRDMULH : Z := 475.
Definition SISA_OP_VPADD : Z := 476.
Definition SISA_OP_F2_0_A_END : Z := 477.
Definition SISA_OP_F2_0_C_CONNECT : Z := 478.
Definition SISA_OP_VADD_fp_a1 : Z := 479.
Definition SISA_OP_VSUB_fp_a1 : Z := 480.
Definition SISA_OP_VPADD_fp : Z := 481.
Definition SISA_OP_VABD_fp : Z := 482.
Definition SISA_OP_VMLA_fp : Z := 483.
Definition SISA_OP_VMLS_fp : Z := 484.
Definition SISA_OP_VMUL_fp_a1 : Z := 485.
Definition SISA_OP_F2_0_C_END : Z := 486.
Definition SISA_OP_F2_0_E_CONNECT : Z := 487.
Definition SISA_OP_VCEQ_fp : Z := 488.
Definition SISA_OP_VCGE_fp : Z := 489.
Definition SISA_OP_VCGT_fp : Z := 490.
Definition SISA_OP_VACGE : Z := 491.
Definition SISA_OP_VACGT : Z := 492.
Definition SISA_OP_VMAX_fp : Z := 493.
Definition SISA_OP_VMIN_fp : Z := 494.
Definition SISA_OP_VPMAX_fp : Z := 495.
Definition SISA_OP_VPMIN_fp : Z := 496.
Definition SISA_OP_VRECPS : Z := 497.
Definition SISA_OP_VRSQRTS : Z := 498.
Definition SISA_OP_F2_0_E_END : Z := 499.
Definition SISA_OP_F2_801_CONNECT : Z := 500.
Definition SISA_OP_VMOV_imm_0 : Z := 501.
Definition SISA_OP_VMOV_imm_1 : Z := 502.
Definition SISA_OP_VMOV_imm_2 : Z := 503.
Definition SISA_OP_VMOV_imm_3 : Z := 504.
Definition SISA_OP_VORR_imm : Z := 505.
Definition SISA_OP_VORR_imm_0 : Z := 506.
Definition SISA_OP_VMVN_imm : Z := 507.
Definition SISA_OP_VMVN_imm_0 : Z := 508.
Definition SISA_OP_VMVN_imm_1 : Z := 509.
Definition SISA_OP_VBIC_imm : Z := 510.
Definition SISA_OP_VBIC_imm_0 : Z := 511.
Definition SISA_OP_F2_801_END : Z := 512.
Definition SISA_OP_F2_8x1_CONNECT : Z := 513.
Definition SISA_OP_VSHR : Z := 514.
Definition SISA_OP_VSRA : Z := 515.
Definition SISA_OP_VRSHR : Z := 516.
Definition SISA_OP_VRSRA : Z := 517.
Definition SISA_OP_VSRI : Z := 518.
Definition SISA_OP_VSHL_imm : Z := 519.
Definition SISA_OP_VSLI : Z := 520.
Definition SISA_OP_VQSHLU_imm : Z := 521.
Definition SISA_OP_VQSHL_imm : Z := 522.
Definition SISA_OP_VSHRN : Z := 523.
Definition SISA_OP_VRSHRN : Z := 524.
Definition SISA_OP_VQSHRUN : Z := 525.
Definition SISA_OP_VQRSHRUN : Z := 526.
Definition SISA_OP_VQSHRN : Z := 527.
Definition SISA_OP_VQRSHRN : Z := 528.
Definition SISA_OP_VMOV_a1 : Z := 529.
Definition SISA_OP_VMOVL : Z := 530.
Definition SISA_OP_VSHLL : Z := 531.
Definition SISA_OP_VCVT_fpfx : Z := 532.
Definition SISA_OP_F2_8x1_END : Z := 533.
Definition SISA_OP_F2_8x0_CONNECT : Z := 534.
Definition SISA_OP_VADDL : Z := 535.
Definition SISA_OP_VADDW : Z := 536.
Definition SISA_OP_VSUBL : Z := 537.
Definition SISA_OP_VSUBW : Z := 538.
Definition SISA_OP_VADDHN : Z := 539.
Definition SISA_OP_VRADDHN : Z := 540.
Definition SISA_OP_VABAL : Z := 541.
Definition SISA_OP_VSUBHN : Z := 542.
Definition SISA_OP_VRSUBHN : Z := 543.
Definition SISA_OP_VABDL_int : Z := 544.
Definition SISA_OP_VMLAL_int : Z := 545.
Definition SISA_OP_VMLSL_int : Z := 546.
Definition SISA_OP_VQDMLAL : Z := 547.
Definition SISA_OP_VQDMLSL : Z := 548.
Definition SISA_OP_VMULL_int : Z := 549.
Definition SISA_OP_VQDMULL : Z := 550.
Definition SISA_OP_VMULL_poly : Z := 551.
Definition SISA_OP_F2_8x0_END : Z := 552.
Definition SISA_OP_F2_8x4_CONNECT : Z := 553.
Definition SISA_OP_VMLA_sc : Z := 554.
Definition SISA_OP_VMLS_sc : Z := 555.
Definition SISA_OP_VMLAL_sc : Z := 556.
Definition SISA_OP_VMLSL_sc : Z := 557.
Definition SISA_OP_VQDMLAL_sc : Z := 558.
Definition SISA_OP_VQDMLSL_sc : Z := 559.
Definition SISA_OP_VMUL_sc : Z := 560.
Definition SISA_OP_VMULL_sc : Z := 561.
Definition SISA_OP_VQDMULL_sc : Z := 562.
Definition SISA_OP_VQDMULH_sc : Z := 563.
Definition SISA_OP_VQRDMULH_sc : Z := 564.
Definition SISA_OP_F2_8x4_END : Z := 565.
Definition SISA_OP_F2_1B00_CONNECT : Z := 566.
Definition SISA_OP_F2_1B00_0 : Z := 567.
Definition SISA_OP_F2_1B00_1 : Z := 568.
Definition SISA_OP_F2_1B00_2 : Z := 569.
Definition SISA_OP_F2_1B00_3 : Z := 570.
Definition SISA_OP_F2_1B00_END : Z := 571.
Definition SISA_OP_F2_1B00_0_CONNECT : Z := 572.
Definition SISA_OP_VREV64 : Z := 573.
Definition SISA_OP_VREV32 : Z := 574.
Definition SISA_OP_VREV16 : Z := 575.
Definition SISA_OP_VPADDL : Z := 576.
Definition SISA_OP_VCLS : Z := 577.
Definition SISA_OP_VCLZ : Z := 578.
Definition SISA_OP_VCNT : Z := 579.
Definition SISA_OP_VMVN : Z := 580.
Definition SISA_OP_VPADAL : Z := 581.
Definition SISA_OP_VQABS : Z := 582.
Definition SISA_OP_VQNEG : Z := 583.
Definition SISA_OP_F2_1B00_0_END : Z := 584.
Definition SISA_OP_F2_1B00_1_CONNECT : Z := 585.
Definition SISA_OP_VCGT_imm : Z := 586.
Definition SISA_OP_VCGE_imm : Z := 587.
Definition SISA_OP_VCEQ_imm : Z := 588.
Definition SISA_OP_VCLE_imm : Z := 589.
Definition SISA_OP_VCLT_imm : Z := 590.
Definition SISA_OP_VNEG_a1 : Z := 591.
Definition SISA_OP_VABS_0 : Z := 592.
Definition SISA_OP_F2_1B00_1_END : Z := 593.
Definition SISA_OP_F2_1B00_2_CONNECT : Z := 594.
Definition SISA_OP_VSWP : Z := 595.
Definition SISA_OP_VTRN : Z := 596.
Definition SISA_OP_VUZP : Z := 597.
Definition SISA_OP_VZIP : Z := 598.
Definition SISA_OP_VMOVN : Z := 599.
Definition SISA_OP_VQMOVUN : Z := 600.
Definition SISA_OP_VQMOVN : Z := 601.
Definition SISA_OP_VSHLL_0 : Z := 602.
Definition SISA_OP_VCVT_hpsp : Z := 603.
Definition SISA_OP_VCVT_sphp : Z := 604.
Definition SISA_OP_F2_1B00_2_END : Z := 605.
Definition SISA_OP_F2_1B00_3_CONNECT : Z := 606.
Definition SISA_OP_VRECPE : Z := 607.
Definition SISA_OP_VRSQRTE : Z := 608.
Definition SISA_OP_VCVT_fpint : Z := 609.
Definition SISA_OP_F2_1B00_3_END : Z := 610.
Definition SISA_OP_F4_CONNECT : Z := 611.
Definition SISA_OP_F4_0 : Z := 612.
Definition SISA_OP_F4_2 : Z := 613.
Definition SISA_OP_PLI_imm : Z := 614.
Definition SISA_OP_PLD_imm : Z := 615.
Definition SISA_OP_PLD_lit : Z := 616.
Definition SISA_OP_CLREX : Z := 617.
Definition SISA_OP_DSB : Z := 618.
Definition SISA_OP_DMB : Z := 619.
Definition SISA_OP_ISB : Z := 620.
Definition SISA_OP_PLI : Z := 621.
Definition SISA_OP_PLD : Z := 622.
Definition SISA_OP_F4_END : Z := 623.
Definition SISA_OP_F4_0_CONNECT : Z := 624.
Definition SISA_OP_VST1_m1e : Z := 625.
Definition SISA_OP_VST1_m1e_0 : Z := 626.
Definition SISA_OP_VST1_m1e_1 : Z := 627.
Definition SISA_OP_VST2_m2e : Z := 628.
Definition SISA_OP_VST2_m2e_0 : Z := 629.
Definition SISA_OP_VST3_m3e : Z := 630.
Definition SISA_OP_VST4 : Z := 631.
Definition SISA_OP_VST1_1e1l : Z := 632.
Definition SISA_OP_VST1_1e1l_0 : Z := 633.
Definition SISA_OP_VST2_2e1l : Z := 634.
Definition SISA_OP_VST2_2e1l_0 : Z := 635.
Definition SISA_OP_VST3_3e1l : Z := 636.
Definition SISA_OP_VST3_3e1l_0 : Z := 637.
Definition SISA_OP_VST4_4e1l : Z := 638.
Definition SISA_OP_VST4_4e1l_0 : Z := 639.
Definition SISA_OP_F4_0_END : Z := 640.
Definition SISA_OP_F4_2_CONNECT : Z := 641.
Definition SISA_OP_VLD1_m1e : Z := 642.
Definition SISA_OP_VLD1_m1e_0 : Z := 643.
Definition SISA_OP_VLD1_m1e_1 : Z := 644.
Definition SISA_OP_VLD2_m2e : Z := 645.
Definition SISA_OP_VLD2_m2e_0 : Z := 646.
Definition SISA_OP_VLD3_m3e : Z := 647.
Definition SISA_OP_VLD4_m4e : Z := 648.
Definition SISA_OP_VLD1_1e1l : Z := 649.
Definition SISA_OP_VLD1_1e1l_0 : Z := 650.
Definition SISA_OP_VLD1_1eal : Z := 651.
Definition SISA_OP_VLD2_2e1l : Z := 652.
Definition SISA_OP_VLD2_2e1l_0 : Z := 653.
Definition SISA_OP_VLD2_2eal : Z := 654.
Definition SISA_OP_VLD3_3e1l : Z := 655.
Definition SISA_OP_VLD3_3e1l_0 : Z := 656.
Definition SISA_OP_VLD3_3eal : Z := 657.
Definition SISA_OP_VLD4_4e1l : Z := 658.
Definition SISA_OP_VLD4_4e1l_0 : Z := 659.
Definition SISA_OP_VLD4_4eal : Z := 660.
Definition SISA_OP_F4_2_END : Z := 661.
Definition SISA_OP_PSEUDO_COND_EXEC : Z := 662.
Definition SISA_OP_PSEUDO_EXIT_TO_INTERP : Z := 663.
Definition SISA_OP_PSEUDO_AEABI_ARM : Z := 664.
Definition SISA_OP_PSEUDO_AEABI_THUMB : Z := 665.
Definition SISA_OP_PSEUDO_KERNEL_HELPER_CMPXCHG : Z := 666.
Definition SISA_OP_PSEUDO_INDEX_INDUCTION_LOOP_ENTRY_TEST : Z := 667.
Definition SISA_OP_ARM_MAX : Z := 668.
Definition SISA_OP_T_X0 : Z := 669.
Definition SISA_OP_T_X4 : Z := 670.
Definition SISA_OP_T_X5 : Z := 671.
Definition SISA_OP_T_X6 : Z := 672.
Definition SISA_OP_T_X8 : Z := 673.
Definition SISA_OP_T_XA : Z := 674.
Definition SISA_OP_T_XC : Z := 675.
Definition SISA_OP_T_XE : Z := 676.
Definition SISA_OP_T_TOP_END : Z := 677.
Definition SISA_OP_T_X0_CONNECT : Z := 678.
Definition SISA_OP_MOV_reg_T2 : Z := 679.
Definition SISA_OP_LSL_imm_T1 : Z := 680.
Definition SISA_OP_LSR_imm_T1 : Z := 681.
Definition SISA_OP_ASR_imm_T1 : Z := 682.
Definition SISA_OP_ADD_reg_T1 : Z := 683.
Definition SISA_OP_SUB_reg_T1 : Z := 684.
Definition SISA_OP_ADD_imm_T1 : Z := 685.
Definition SISA_OP_SUB_imm_T1 : Z := 686.
Definition SISA_OP_MOV_imm_T1 : Z := 687.
Definition SISA_OP_CMP_imm_T1 : Z := 688.
Definition SISA_OP_ADD_imm_T2 : Z := 689.
Definition SISA_OP_SUB_imm_T2 : Z := 690.
Definition SISA_OP_T_X0_END : Z := 691.
Definition SISA_OP_T_X4_CONNECT : Z := 692.
Definition SISA_OP_AND_reg_T1 : Z := 693.
Definition SISA_OP_EOR_reg_T1 : Z := 694.
Definition SISA_OP_LSL_reg_T1 : Z := 695.
Definition SISA_OP_LSR_reg_T1 : Z := 696.
Definition SISA_OP_ASR_reg_T1 : Z := 697.
Definition SISA_OP_ADC_reg_T1 : Z := 698.
Definition SISA_OP_SBC_reg_T1 : Z := 699.
Definition SISA_OP_ROR_reg_T1 : Z := 700.
Definition SISA_OP_TST_reg_T1 : Z := 701.
Definition SISA_OP_RSB_imm_T1 : Z := 702.
Definition SISA_OP_CMP_reg_T1 : Z := 703.
Definition SISA_OP_CMN_reg_T1 : Z := 704.
Definition SISA_OP_ORR_reg_T1 : Z := 705.
Definition SISA_OP_MUL_reg_T1 : Z := 706.
Definition SISA_OP_BIC_reg_T1 : Z := 707.
Definition SISA_OP_MVN_reg_T1 : Z := 708.
Definition SISA_OP_ADD_reg_T2 : Z := 709.
Definition SISA_OP_ADD_sp_reg_T1 : Z := 710.
Definition SISA_OP_ADD_sp_reg_T2 : Z := 711.
Definition SISA_OP_CMP_reg_T2 : Z := 712.
Definition SISA_OP_MOV_reg_T1 : Z := 713.
Definition SISA_OP_BX_T1 : Z := 714.
Definition SISA_OP_BLX_reg_T1 : Z := 715.
Definition SISA_OP_LDR_lit_T1 : Z := 716.
Definition SISA_OP_T_X4_END : Z := 717.
Definition SISA_OP_T_X5_CONNECT : Z := 718.
Definition SISA_OP_STR_reg_T1 : Z := 719.
Definition SISA_OP_STRH_reg_T1 : Z := 720.
Definition SISA_OP_STRB_reg_T1 : Z := 721.
Definition SISA_OP_LDRSB_reg_T1 : Z := 722.
Definition SISA_OP_LDR_reg_T1 : Z := 723.
Definition SISA_OP_LDRH_reg_T1 : Z := 724.
Definition SISA_OP_LDRB_reg_T1 : Z := 725.
Definition SISA_OP_LDRSH_reg_T1 : Z := 726.
Definition SISA_OP_T_X5_END : Z := 727.
Definition SISA_OP_T_X6_CONNECT : Z := 728.
Definition SISA_OP_STR_imm_T1 : Z := 729.
Definition SISA_OP_LDR_imm_T1 : Z := 730.
Definition SISA_OP_STRB_imm_T1 : Z := 731.
Definition SISA_OP_LDRB_imm_T1 : Z := 732.
Definition SISA_OP_T_X6_END : Z := 733.
Definition SISA_OP_T_X8_CONNECT : Z := 734.
Definition SISA_OP_STRH_imm_T1 : Z := 735.
Definition SISA_OP_LDRH_imm_T1 : Z := 736.
Definition SISA_OP_STR_imm_T2 : Z := 737.
Definition SISA_OP_LDR_imm_T2 : Z := 738.
Definition SISA_OP_T_X8_END : Z := 739.
Definition SISA_OP_T_XA_CONNECT : Z := 740.
Definition SISA_OP_ADR_T1 : Z := 741.
Definition SISA_OP_ADD_sp_imm_T1 : Z := 742.
Definition SISA_OP_SETEND_T1 : Z := 743.
Definition SISA_OP_CPS_T1 : Z := 744.
Definition SISA_OP_IT_T1 : Z := 745.
Definition SISA_OP_ADD_sp_imm_T2 : Z := 746.
Definition SISA_OP_SUB_sp_imm_T1 : Z := 747.
Definition SISA_OP_CBZ_T1 : Z := 748.
Definition SISA_OP_SXTH_T1 : Z := 749.
Definition SISA_OP_SXTB_T1 : Z := 750.
Definition SISA_OP_UXTH_T1 : Z := 751.
Definition SISA_OP_UXTB_T1 : Z := 752.
Definition SISA_OP_PUSH_T : Z := 753.
Definition SISA_OP_CBNZ_T1 : Z := 754.
Definition SISA_OP_REV_T1 : Z := 755.
Definition SISA_OP_REV16_T1 : Z := 756.
Definition SISA_OP_REVSH_T1 : Z := 757.
Definition SISA_OP_POP_T : Z := 758.
Definition SISA_OP_BKPT_T1 : Z := 759.
Definition SISA_OP_NOP_T1 : Z := 760.
Definition SISA_OP_YIELD_T1 : Z := 761.
Definition SISA_OP_WFE_T1 : Z := 762.
Definition SISA_OP_WFI_T1 : Z := 763.
Definition SISA_OP_SEV_T1 : Z := 764.
Definition SISA_OP_T_XA_END : Z := 765.
Definition SISA_OP_T_XC_CONNECT : Z := 766.
Definition SISA_OP_STM_T1 : Z := 767.
Definition SISA_OP_LDM_T1 : Z := 768.
Definition SISA_OP_B_T1 : Z := 769.
Definition SISA_OP_SVC_T1 : Z := 770.
Definition SISA_OP_T_XC_END : Z := 771.
Definition SISA_OP_T_XE_CONNECT : Z := 772.
Definition SISA_OP_B_T2 : Z := 773.
Definition SISA_OP_T_XE_01 : Z := 774.
Definition SISA_OP_T_XE_10 : Z := 775.
Definition SISA_OP_T_XE_11 : Z := 776.
Definition SISA_OP_T_XE_END : Z := 777.
Definition SISA_OP_T_XE_01_CONNECT : Z := 778.
Definition SISA_OP_T_XE_01_END : Z := 779.
Definition SISA_OP_T_XE_10_CONNECT : Z := 780.
Definition SISA_OP_T_XE_10_END : Z := 781.
Definition SISA_OP_T_XE_11_CONNECT : Z := 782.
Definition SISA_OP_T_XE_11_END : Z := 783.
Definition SISA_OP_THUMB_MAX : Z := 784.
Definition SISA_OP_T32_E8 : Z := 785.
Definition SISA_OP_T32_EA : Z := 786.
Definition SISA_OP_T32_EC : Z := 787.
Definition SISA_OP_T32_F0 : Z := 788.
Definition SISA_OP_T32_F2 : Z := 789.
Definition SISA_OP_T32_F08 : Z := 790.
Definition SISA_OP_T32_F8 : Z := 791.
Definition SISA_OP_T32_FA : Z := 792.
Definition SISA_OP_T32_FB : Z := 793.
Definition SISA_OP_T32_TOP_END : Z := 794.
Definition SISA_OP_T32_E8_CONNECT : Z := 795.
Definition SISA_OP_SRS_T1 : Z := 796.
Definition SISA_OP_RFE_T1 : Z := 797.
Definition SISA_OP_STREXB_T1 : Z := 798.
Definition SISA_OP_STREXH_T1 : Z := 799.
Definition SISA_OP_LDREXB_T1 : Z := 800.
Definition SISA_OP_LDREXH_T1 : Z := 801.
Definition SISA_OP_STREX_T1 : Z := 802.
Definition SISA_OP_LDREX_T1 : Z := 803.
Definition SISA_OP_STREXD_T1 : Z := 804.
Definition SISA_OP_STRD_imm_T1 : Z := 805.
Definition SISA_OP_TBB_T1 : Z := 806.
Definition SISA_OP_TBH_T1 : Z := 807.
Definition SISA_OP_LDREXD_T1 : Z := 808.
Definition SISA_OP_LDRD_imm_T1 : Z := 809.
Definition SISA_OP_LDRD_lit_T1 : Z := 810.
Definition SISA_OP_STM_T2 : Z := 811.
Definition SISA_OP_POP_T2 : Z := 812.
Definition SISA_OP_LDM_T2 : Z := 813.
Definition SISA_OP_PUSH_T2 : Z := 814.
Definition SISA_OP_PUSH_T3 : Z := 815.
Definition SISA_OP_STMDB_T1 : Z := 816.
Definition SISA_OP_LDMDB_T1 : Z := 817.
Definition SISA_OP_SRS_T2 : Z := 818.
Definition SISA_OP_RFE_T2 : Z := 819.
Definition SISA_OP_T32_E8_END : Z := 820.
Definition SISA_OP_T32_EA_CONNECT : Z := 821.
Definition SISA_OP_AND_reg_T2 : Z := 822.
Definition SISA_OP_TST_reg_T2 : Z := 823.
Definition SISA_OP_BIC_reg_T2 : Z := 824.
Definition SISA_OP_ORR_reg_T2 : Z := 825.
Definition SISA_OP_MOV_reg_T3 : Z := 826.
Definition SISA_OP_ORN_reg_T1 : Z := 827.
Definition SISA_OP_MVN_reg_T2 : Z := 828.
Definition SISA_OP_EOR_reg_T2 : Z := 829.
Definition SISA_OP_TEQ_reg_T1 : Z := 830.
Definition SISA_OP_PKH_reg_T1 : Z := 831.
Definition SISA_OP_ADD_reg_T3 : Z := 832.
Definition SISA_OP_CMN_reg_T2 : Z := 833.
Definition SISA_OP_ADC_reg_T2 : Z := 834.
Definition SISA_OP_SBC_reg_T2 : Z := 835.
Definition SISA_OP_SUB_reg_T2 : Z := 836.
Definition SISA_OP_CMP_reg_T3 : Z := 837.
Definition SISA_OP_RSB_reg_T1 : Z := 838.
Definition SISA_OP_LSL_imm_T2 : Z := 839.
Definition SISA_OP_LSR_imm_T2 : Z := 840.
Definition SISA_OP_ASR_imm_T2 : Z := 841.
Definition SISA_OP_ROR_imm_T2 : Z := 842.
Definition SISA_OP_RRX_T1 : Z := 843.
Definition SISA_OP_T32_EA_END : Z := 844.
Definition SISA_OP_T32_EC_CONNECT : Z := 845.
Definition SISA_OP_VMOV_2reg_2sp_T1 : Z := 846.
Definition SISA_OP_VMOV_2sp_2reg_T1 : Z := 847.
Definition SISA_OP_VMOV_2reg_dp_T1 : Z := 848.
Definition SISA_OP_VMOV_dp_2reg_T1 : Z := 849.
Definition SISA_OP_VSTM_nw_T2 : Z := 850.
Definition SISA_OP_VSTM_nw_T1 : Z := 851.
Definition SISA_OP_VSTM_w_T2 : Z := 852.
Definition SISA_OP_VSTM_w_T1 : Z := 853.
Definition SISA_OP_VSTR_T2 : Z := 854.
Definition SISA_OP_VSTR_T1 : Z := 855.
Definition SISA_OP_VPUSH_T2 : Z := 856.
Definition SISA_OP_VPUSH_T1 : Z := 857.
Definition SISA_OP_VSTM_db_w_T2 : Z := 858.
Definition SISA_OP_VSTM_db_w_T1 : Z := 859.
Definition SISA_OP_VLDM_nw_T2 : Z := 860.
Definition SISA_OP_VLDM_nw_T1 : Z := 861.
Definition SISA_OP_VLDM_w_T2 : Z := 862.
Definition SISA_OP_VLDM_w_T1 : Z := 863.
Definition SISA_OP_VPOP_T2 : Z := 864.
Definition SISA_OP_VPOP_T1 : Z := 865.
Definition SISA_OP_VLDR_T2 : Z := 866.
Definition SISA_OP_VLDR_T1 : Z := 867.
Definition SISA_OP_VLDM_db_w_T2 : Z := 868.
Definition SISA_OP_VLDM_db_w_T1 : Z := 869.
Definition SISA_OP_MCRR_T1 : Z := 870.
Definition SISA_OP_MRRC_T1 : Z := 871.
Definition SISA_OP_STC_T1 : Z := 872.
Definition SISA_OP_LDC_lit_T1 : Z := 873.
Definition SISA_OP_LDC_imm_T1 : Z := 874.
Definition SISA_OP_VMLA_vfp_T1 : Z := 875.
Definition SISA_OP_VMLA_vfp_T2 : Z := 876.
Definition SISA_OP_VMLS_vfp_T2 : Z := 877.
Definition SISA_OP_VNMLA_T1 : Z := 878.
Definition SISA_OP_VNMLS_T1 : Z := 879.
Definition SISA_OP_VMUL_fp_T2 : Z := 880.
Definition SISA_OP_VNMUL_T1 : Z := 881.
Definition SISA_OP_VADD_fp_T1 : Z := 882.
Definition SISA_OP_VADD_fp_T2 : Z := 883.
Definition SISA_OP_VSUB_fp_T1 : Z := 884.
Definition SISA_OP_VSUB_fp_T2 : Z := 885.
Definition SISA_OP_VDIV_T1 : Z := 886.
Definition SISA_OP_VMOV_imm_T2 : Z := 887.
Definition SISA_OP_VMOV_reg_T2 : Z := 888.
Definition SISA_OP_VABS_T2 : Z := 889.
Definition SISA_OP_VNEG_T2 : Z := 890.
Definition SISA_OP_VSQRT_T1 : Z := 891.
Definition SISA_OP_VCVTB_T1 : Z := 892.
Definition SISA_OP_VCVTT_T1 : Z := 893.
Definition SISA_OP_VCMP_T1 : Z := 894.
Definition SISA_OP_VCMP_T2 : Z := 895.
Definition SISA_OP_VCMPE_T1 : Z := 896.
Definition SISA_OP_VCMPE_T2 : Z := 897.
Definition SISA_OP_VCVT_spdp_T1 : Z := 898.
Definition SISA_OP_VCVT_dpsp_T1 : Z := 899.
Definition SISA_OP_VCVT_imm_T1 : Z := 900.
Definition SISA_OP_VCVT_T1 : Z := 901.
Definition SISA_OP_CDP_T1 : Z := 902.
Definition SISA_OP_VMOV_reg2sp_T1 : Z := 903.
Definition SISA_OP_VMOV_sp2reg_T1 : Z := 904.
Definition SISA_OP_VMRS_T1 : Z := 905.
Definition SISA_OP_VMSR_T1 : Z := 906.
Definition SISA_OP_VMSR_sys_T1 : Z := 907.
Definition SISA_OP_VMOV_reg2sc_T1 : Z := 908.
Definition SISA_OP_VMOV_sc2reg_T1 : Z := 909.
Definition SISA_OP_MCR_reg_T1 : Z := 910.
Definition SISA_OP_MRC_reg_T1 : Z := 911.
Definition SISA_OP_VHADD_T1 : Z := 912.
Definition SISA_OP_VQADD_T1 : Z := 913.
Definition SISA_OP_VRHADD_T1 : Z := 914.
Definition SISA_OP_VAND_T1 : Z := 915.
Definition SISA_OP_VBIC_T1 : Z := 916.
Definition SISA_OP_VORR_T1 : Z := 917.
Definition SISA_OP_VMOV_reg_T1 : Z := 918.
Definition SISA_OP_VORN_T1 : Z := 919.
Definition SISA_OP_VHSUB_T1 : Z := 920.
Definition SISA_OP_VQSUB_T1 : Z := 921.
Definition SISA_OP_VCGT_T1 : Z := 922.
Definition SISA_OP_VCGE_T1 : Z := 923.
Definition SISA_OP_VSHL_T1 : Z := 924.
Definition SISA_OP_VQSHL_T1 : Z := 925.
Definition SISA_OP_VRSHL_T1 : Z := 926.
Definition SISA_OP_VQRSHL_T1 : Z := 927.
Definition SISA_OP_VMAX_int_T1 : Z := 928.
Definition SISA_OP_VMIN_int_T1 : Z := 929.
Definition SISA_OP_VABD_int_T1 : Z := 930.
Definition SISA_OP_VABA_T1 : Z := 931.
Definition SISA_OP_VADD_int_T1 : Z := 932.
Definition SISA_OP_VTST_T1 : Z := 933.
Definition SISA_OP_VMLA_T1 : Z := 934.
Definition SISA_OP_VMLS_T1 : Z := 935.
Definition SISA_OP_VMUL_int_T1 : Z := 936.
Definition SISA_OP_VMUL_poly_T1 : Z := 937.
Definition SISA_OP_VPMAX_int_T1 : Z := 938.
Definition SISA_OP_VPMIN_int_T1 : Z := 939.
Definition SISA_OP_VQDMULH_T1 : Z := 940.
Definition SISA_OP_VPADD_T1 : Z := 941.
Definition SISA_OP_VMOV_imm_0_T1 : Z := 942.
Definition SISA_OP_VMOV_imm_1_T1 : Z := 943.
Definition SISA_OP_VMOV_imm_2_T1 : Z := 944.
Definition SISA_OP_VMOV_imm_3_T1 : Z := 945.
Definition SISA_OP_VORR_imm_T1 : Z := 946.
Definition SISA_OP_VORR_imm_0_T1 : Z := 947.
Definition SISA_OP_VMVN_imm_T1 : Z := 948.
Definition SISA_OP_VMVN_imm_0_T1 : Z := 949.
Definition SISA_OP_VMVN_imm_1_T1 : Z := 950.
Definition SISA_OP_VBIC_imm_T1 : Z := 951.
Definition SISA_OP_VBIC_imm_0_T1 : Z := 952.
Definition SISA_OP_VSHR_T1 : Z := 953.
Definition SISA_OP_VSRA_T1 : Z := 954.
Definition SISA_OP_VRSHR_T1 : Z := 955.
Definition SISA_OP_VRSRA_T1 : Z := 956.
Definition SISA_OP_VSHL_imm_T1 : Z := 957.
Definition SISA_OP_VQSHLU_imm_T1 : Z := 958.
Definition SISA_OP_VQSHL_imm_T1 : Z := 959.
Definition SISA_OP_VSHRN_T1 : Z := 960.
Definition SISA_OP_VRSHRN_T1 : Z := 961.
Definition SISA_OP_VQSHRUN_T1 : Z := 962.
Definition SISA_OP_VQRSHRUN_T1 : Z := 963.
Definition SISA_OP_VQSHRN_T1 : Z := 964.
Definition SISA_OP_VQRSHRN_T1 : Z := 965.
Definition SISA_OP_VMOVL_T1 : Z := 966.
Definition SISA_OP_VSHLL_T1 : Z := 967.
Definition SISA_OP_VCVT_fpfx_T1 : Z := 968.
Definition SISA_OP_VADDL_T1 : Z := 969.
Definition SISA_OP_VADDW_T1 : Z := 970.
Definition SISA_OP_VSUBL_T1 : Z := 971.
Definition SISA_OP_VSUBW_T1 : Z := 972.
Definition SISA_OP_VADDHN_T1 : Z := 973.
Definition SISA_OP_VABAL_T2 : Z := 974.
Definition SISA_OP_VSUBHN_T1 : Z := 975.
Definition SISA_OP_VABDL_int_T2 : Z := 976.
Definition SISA_OP_VMLAL_int_T2 : Z := 977.
Definition SISA_OP_VMLSL_int_T2 : Z := 978.
Definition SISA_OP_VQDMLAL_T1 : Z := 979.
Definition SISA_OP_VQDMLSL_T1 : Z := 980.
Definition SISA_OP_VMULL_int_T2 : Z := 981.
Definition SISA_OP_VQDMULL_T1 : Z := 982.
Definition SISA_OP_VMULL_poly_T2 : Z := 983.
Definition SISA_OP_VMLA_sc_T1 : Z := 984.
Definition SISA_OP_VMLS_sc_T1 : Z := 985.
Definition SISA_OP_VMLAL_sc_T2 : Z := 986.
Definition SISA_OP_VMLSL_sc_T2 : Z := 987.
Definition SISA_OP_VQDMLAL_sc_T2 : Z := 988.
Definition SISA_OP_VQDMLSL_sc_T2 : Z := 989.
Definition SISA_OP_VMUL_sc_T1 : Z := 990.
Definition SISA_OP_VMULL_sc_T2 : Z := 991.
Definition SISA_OP_VQDMULL_sc_T2 : Z := 992.
Definition SISA_OP_VQDMULH_sc_T2 : Z := 993.
Definition SISA_OP_VQRDMULH_sc_T2 : Z := 994.
Definition SISA_OP_VEXT_T1 : Z := 995.
Definition SISA_OP_STC2_T2 : Z := 996.
Definition SISA_OP_LDC2_lit_T2 : Z := 997.
Definition SISA_OP_LDC2_imm_T2 : Z := 998.
Definition SISA_OP_MCRR2_T2 : Z := 999.
Definition SISA_OP_MRRC2_T2 : Z := 1000.
Definition SISA_OP_CDP2_T2 : Z := 1001.
Definition SISA_OP_MCR2_T2 : Z := 1002.
Definition SISA_OP_MRC2_T2 : Z := 1003.
Definition SISA_OP_VEOR_T1 : Z := 1004.
Definition SISA_OP_VBSL_T1 : Z := 1005.
Definition SISA_OP_VBIT_T1 : Z := 1006.
Definition SISA_OP_VBIF_T1 : Z := 1007.
Definition SISA_OP_VSUB_int_T1 : Z := 1008.
Definition SISA_OP_VCEQ_T1 : Z := 1009.
Definition SISA_OP_VQRDMULH_T1 : Z := 1010.
Definition SISA_OP_VPADD_fp_T1 : Z := 1011.
Definition SISA_OP_VABD_fp_T1 : Z := 1012.
Definition SISA_OP_VMUL_fp_T1 : Z := 1013.
Definition SISA_OP_VCEQ_fp_T2 : Z := 1014.
Definition SISA_OP_VCGE_fp_T2 : Z := 1015.
Definition SISA_OP_VCGT_0_T2 : Z := 1016.
Definition SISA_OP_VACGE_T1 : Z := 1017.
Definition SISA_OP_VACGT_T1 : Z := 1018.
Definition SISA_OP_VMAX_fp_T1 : Z := 1019.
Definition SISA_OP_VMIN_fp_T1 : Z := 1020.
Definition SISA_OP_VPMAX_fp_T1 : Z := 1021.
Definition SISA_OP_VRECPS_T1 : Z := 1022.
Definition SISA_OP_VRSQRTS_T1 : Z := 1023.
Definition SISA_OP_VPMIN_fp_T1 : Z := 1024.
Definition SISA_OP_VSRI_T1 : Z := 1025.
Definition SISA_OP_VSLI_T1 : Z := 1026.
Definition SISA_OP_VRADDHN_T1 : Z := 1027.
Definition SISA_OP_VRSUBHN_T1 : Z := 1028.
Definition SISA_OP_VREV64_T1 : Z := 1029.
Definition SISA_OP_VREV32_T1 : Z := 1030.
Definition SISA_OP_VREV16_T1 : Z := 1031.
Definition SISA_OP_VPADDL_T1 : Z := 1032.
Definition SISA_OP_VCLS_T1 : Z := 1033.
Definition SISA_OP_VCLZ_T1 : Z := 1034.
Definition SISA_OP_VCNT_T1 : Z := 1035.
Definition SISA_OP_VMVN_T1 : Z := 1036.
Definition SISA_OP_VPADAL_T1 : Z := 1037.
Definition SISA_OP_VQABS_T1 : Z := 1038.
Definition SISA_OP_VQNEG_T1 : Z := 1039.
Definition SISA_OP_VCGT_imm_T1 : Z := 1040.
Definition SISA_OP_VCGE_imm_T1 : Z := 1041.
Definition SISA_OP_VCEQ_imm_T1 : Z := 1042.
Definition SISA_OP_VCLE_imm_T1 : Z := 1043.
Definition SISA_OP_VCLT_imm_T1 : Z := 1044.
Definition SISA_OP_VABS_T1 : Z := 1045.
Definition SISA_OP_VNEG_T1 : Z := 1046.
Definition SISA_OP_VSWP_T1 : Z := 1047.
Definition SISA_OP_VTRN_T1 : Z := 1048.
Definition SISA_OP_VUZP_T1 : Z := 1049.
Definition SISA_OP_VZIP_T1 : Z := 1050.
Definition SISA_OP_VMOVN_T1 : Z := 1051.
Definition SISA_OP_VQMOVUN_T1 : Z := 1052.
Definition SISA_OP_VQMOVN_T1 : Z := 1053.
Definition SISA_OP_VSHLL_0_T2 : Z := 1054.
Definition SISA_OP_VCVT_hpsp_T1 : Z := 1055.
Definition SISA_OP_VCVT_sphp_T1 : Z := 1056.
Definition SISA_OP_VRECPE_T1 : Z := 1057.
Definition SISA_OP_VRSQRTE_T1 : Z := 1058.
Definition SISA_OP_VCVT_fpint_T1 : Z := 1059.
Definition SISA_OP_VTBL_T1 : Z := 1060.
Definition SISA_OP_VTBX_T1 : Z := 1061.
Definition SISA_OP_VDUP_sc_T1 : Z := 1062.
Definition SISA_OP_VDUP_T1 : Z := 1063.
Definition SISA_OP_T32_EC_END : Z := 1064.
Definition SISA_OP_T32_F0_CONNECT : Z := 1065.
Definition SISA_OP_AND_imm_T1 : Z := 1066.
Definition SISA_OP_TST_imm_T1 : Z := 1067.
Definition SISA_OP_BIC_imm_T1 : Z := 1068.
Definition SISA_OP_ORR_imm_T1 : Z := 1069.
Definition SISA_OP_MOV_imm_T2 : Z := 1070.
Definition SISA_OP_ORN_imm_T1 : Z := 1071.
Definition SISA_OP_MVN_imm_T1 : Z := 1072.
Definition SISA_OP_EOR_imm_T1 : Z := 1073.
Definition SISA_OP_TEQ_imm_T1 : Z := 1074.
Definition SISA_OP_ADD_imm_T3 : Z := 1075.
Definition SISA_OP_ADD_sp_imm_T3 : Z := 1076.
Definition SISA_OP_CMN_imm_T1 : Z := 1077.
Definition SISA_OP_ADC_imm_T1 : Z := 1078.
Definition SISA_OP_SBC_imm_T1 : Z := 1079.
Definition SISA_OP_SUB_imm_T3 : Z := 1080.
Definition SISA_OP_SUB_sp_imm_T2 : Z := 1081.
Definition SISA_OP_CMP_imm_T2 : Z := 1082.
Definition SISA_OP_RSB_imm_T2 : Z := 1083.
Definition SISA_OP_T32_F0_END : Z := 1084.
Definition SISA_OP_T32_F2_CONNECT : Z := 1085.
Definition SISA_OP_ADD_imm_T4 : Z := 1086.
Definition SISA_OP_ADD_sp_imm_T4 : Z := 1087.
Definition SISA_OP_ADR_T3 : Z := 1088.
Definition SISA_OP_MOV_imm_T3 : Z := 1089.
Definition SISA_OP_SUB_imm_T4 : Z := 1090.
Definition SISA_OP_SUB_sp_imm_T3 : Z := 1091.
Definition SISA_OP_ADR_T2 : Z := 1092.
Definition SISA_OP_MOVT_T1 : Z := 1093.
Definition SISA_OP_SSAT_T1 : Z := 1094.
Definition SISA_OP_SSAT16_T1 : Z := 1095.
Definition SISA_OP_SBFX_T1 : Z := 1096.
Definition SISA_OP_BFC_T1 : Z := 1097.
Definition SISA_OP_BFI_T1 : Z := 1098.
Definition SISA_OP_USAT_T1 : Z := 1099.
Definition SISA_OP_USAT16_T1 : Z := 1100.
Definition SISA_OP_UBFX_T1 : Z := 1101.
Definition SISA_OP_UDIV_T1 : Z := 1102.
Definition SISA_OP_T32_F2_END : Z := 1103.
Definition SISA_OP_T32_F08_CONNECT : Z := 1104.
Definition SISA_OP_B_T3 : Z := 1105.
Definition SISA_OP_MSR_a_T1 : Z := 1106.
Definition SISA_OP_MSR_s_T1 : Z := 1107.
Definition SISA_OP_CPS_T2 : Z := 1108.
Definition SISA_OP_NOP_T2 : Z := 1109.
Definition SISA_OP_YIELD_T2 : Z := 1110.
Definition SISA_OP_WFE_T2 : Z := 1111.
Definition SISA_OP_WFI_T2 : Z := 1112.
Definition SISA_OP_SEV_T2 : Z := 1113.
Definition SISA_OP_DBG_T1 : Z := 1114.
Definition SISA_OP_LEAVEX_T1 : Z := 1115.
Definition SISA_OP_ENTERX_T1 : Z := 1116.
Definition SISA_OP_CLREX_T1 : Z := 1117.
Definition SISA_OP_DSB_T1 : Z := 1118.
Definition SISA_OP_DMB_T1 : Z := 1119.
Definition SISA_OP_ISB_T1 : Z := 1120.
Definition SISA_OP_BXJ_reg_T1 : Z := 1121.
Definition SISA_OP_SUBS_T1 : Z := 1122.
Definition SISA_OP_MRS_a_T1 : Z := 1123.
Definition SISA_OP_MRS_s_T1 : Z := 1124.
Definition SISA_OP_B_T4 : Z := 1125.
Definition SISA_OP_BL_imm_T1 : Z := 1126.
Definition SISA_OP_BLX_imm_T2 : Z := 1127.
Definition SISA_OP_T32_F08_END : Z := 1128.
Definition SISA_OP_T32_F8_CONNECT : Z := 1129.
Definition SISA_OP_STRB_imm_T2 : Z := 1130.
Definition SISA_OP_STRB_imm_T3 : Z := 1131.
Definition SISA_OP_STRBT_T1 : Z := 1132.
Definition SISA_OP_STRB_reg_T2 : Z := 1133.
Definition SISA_OP_STRH_imm_T2 : Z := 1134.
Definition SISA_OP_STRH_imm_T3 : Z := 1135.
Definition SISA_OP_STRHT_T1 : Z := 1136.
Definition SISA_OP_STRH_reg_T2 : Z := 1137.
Definition SISA_OP_STR_imm_T3 : Z := 1138.
Definition SISA_OP_STR_imm_T4 : Z := 1139.
Definition SISA_OP_STRT_T1 : Z := 1140.
Definition SISA_OP_STR_reg_T2 : Z := 1141.
Definition SISA_OP_POP_T3 : Z := 1142.
Definition SISA_OP_VST1_m1e_T1 : Z := 1143.
Definition SISA_OP_VST1_m1e_0_T1 : Z := 1144.
Definition SISA_OP_VST1_m1e_1_T1 : Z := 1145.
Definition SISA_OP_VST2_m2e_T1 : Z := 1146.
Definition SISA_OP_VST2_m2e_0_T1 : Z := 1147.
Definition SISA_OP_VST3_m3e_T1 : Z := 1148.
Definition SISA_OP_VST4_T1 : Z := 1149.
Definition SISA_OP_VST1_1e1l_T1 : Z := 1150.
Definition SISA_OP_VST1_1e1l_0_T1 : Z := 1151.
Definition SISA_OP_VST2_2e1l_T1 : Z := 1152.
Definition SISA_OP_VST2_2e1l_0_T1 : Z := 1153.
Definition SISA_OP_VST3_3e1l_T1 : Z := 1154.
Definition SISA_OP_VST3_3e1l_0_T1 : Z := 1155.
Definition SISA_OP_VST4_4e1l_T1 : Z := 1156.
Definition SISA_OP_VST4_4e1l_0_T1 : Z := 1157.
Definition SISA_OP_VLD1_m1e_T1 : Z := 1158.
Definition SISA_OP_VLD1_m1e_0_T1 : Z := 1159.
Definition SISA_OP_VLD1_m1e_1_T1 : Z := 1160.
Definition SISA_OP_VLD2_m2e_T1 : Z := 1161.
Definition SISA_OP_VLD2_m2e_0_T1 : Z := 1162.
Definition SISA_OP_VLD3_m3e_T1 : Z := 1163.
Definition SISA_OP_VLD4_m4e_T1 : Z := 1164.
Definition SISA_OP_VLD1_1e1l_T1 : Z := 1165.
Definition SISA_OP_VLD1_1e1l_0_T1 : Z := 1166.
Definition SISA_OP_VLD1_1eal_T1 : Z := 1167.
Definition SISA_OP_VLD2_2e1l_T1 : Z := 1168.
Definition SISA_OP_VLD2_2e1l_0_T1 : Z := 1169.
Definition SISA_OP_VLD2_2eal_T1 : Z := 1170.
Definition SISA_OP_VLD3_3e1l_T1 : Z := 1171.
Definition SISA_OP_VLD3_3e1l_0_T1 : Z := 1172.
Definition SISA_OP_VLD3_3eal_T1 : Z := 1173.
Definition SISA_OP_VLD4_4e1l_T1 : Z := 1174.
Definition SISA_OP_VLD4_4e1l_0_T1 : Z := 1175.
Definition SISA_OP_VLD4_4eal_T1 : Z := 1176.
Definition SISA_OP_PLD_lit_T1 : Z := 1177.
Definition SISA_OP_PLD_imm_T1 : Z := 1178.
Definition SISA_OP_PLD_imm_T2 : Z := 1179.
Definition SISA_OP_PLD_reg_T1 : Z := 1180.
Definition SISA_OP_PLDW_imm_T1 : Z := 1181.
Definition SISA_OP_PLDW_imm_T2 : Z := 1182.
Definition SISA_OP_PLDW_reg_T1 : Z := 1183.
Definition SISA_OP_PLI_imm_T1 : Z := 1184.
Definition SISA_OP_PLI_imm_T2 : Z := 1185.
Definition SISA_OP_PLI_lit_T3 : Z := 1186.
Definition SISA_OP_PLI_reg_T1 : Z := 1187.
Definition SISA_OP_LDRB_lit_T1 : Z := 1188.
Definition SISA_OP_LDRB_imm_T2 : Z := 1189.
Definition SISA_OP_LDRB_imm_T3 : Z := 1190.
Definition SISA_OP_LDRBT_T1 : Z := 1191.
Definition SISA_OP_LDRB_reg_T2 : Z := 1192.
Definition SISA_OP_LDRSB_lit_T1 : Z := 1193.
Definition SISA_OP_LDRSB_imm_T1 : Z := 1194.
Definition SISA_OP_LDRSB_imm_T2 : Z := 1195.
Definition SISA_OP_LDRSBT_T1 : Z := 1196.
Definition SISA_OP_LDRSB_reg_T2 : Z := 1197.
Definition SISA_OP_LDRH_lit_T1 : Z := 1198.
Definition SISA_OP_LDRH_imm_T2 : Z := 1199.
Definition SISA_OP_LDRHT_T1 : Z := 1200.
Definition SISA_OP_LDRH_imm_T3 : Z := 1201.
Definition SISA_OP_LDRH_reg_T2 : Z := 1202.
Definition SISA_OP_LDRSH_lit_T1 : Z := 1203.
Definition SISA_OP_LDRSH_imm_T1 : Z := 1204.
Definition SISA_OP_LDRSH_imm_T2 : Z := 1205.
Definition SISA_OP_LDRSHT_T1 : Z := 1206.
Definition SISA_OP_LDRSH_reg_T2 : Z := 1207.
Definition SISA_OP_LDRT_T1 : Z := 1208.
Definition SISA_OP_LDR_imm_T3 : Z := 1209.
Definition SISA_OP_LDR_imm_T4 : Z := 1210.
Definition SISA_OP_LDR_reg_T2 : Z := 1211.
Definition SISA_OP_LDR_lit_T2 : Z := 1212.
Definition SISA_OP_T32_F8_END : Z := 1213.
Definition SISA_OP_T32_FA_CONNECT : Z := 1214.
Definition SISA_OP_LSL_reg_T2 : Z := 1215.
Definition SISA_OP_LSR_reg_T2 : Z := 1216.
Definition SISA_OP_ASR_reg_T2 : Z := 1217.
Definition SISA_OP_ROR_reg_T2 : Z := 1218.
Definition SISA_OP_SXTAH_T1 : Z := 1219.
Definition SISA_OP_SXTH_T2 : Z := 1220.
Definition SISA_OP_UXTAH_T1 : Z := 1221.
Definition SISA_OP_UXTH_T2 : Z := 1222.
Definition SISA_OP_SXTAB16_T1 : Z := 1223.
Definition SISA_OP_SXTB16_T1 : Z := 1224.
Definition SISA_OP_UXTAB16_T1 : Z := 1225.
Definition SISA_OP_UXTB16_T1 : Z := 1226.
Definition SISA_OP_SXTAB_T1 : Z := 1227.
Definition SISA_OP_SXTB_T2 : Z := 1228.
Definition SISA_OP_UXTAB_T1 : Z := 1229.
Definition SISA_OP_UXTB_T2 : Z := 1230.
Definition SISA_OP_SADD16_T1 : Z := 1231.
Definition SISA_OP_SASX_T1 : Z := 1232.
Definition SISA_OP_SSAX_T1 : Z := 1233.
Definition SISA_OP_SSUB16_T1 : Z := 1234.
Definition SISA_OP_SADD8_T1 : Z := 1235.
Definition SISA_OP_SSUB8_T1 : Z := 1236.
Definition SISA_OP_QADD16_T1 : Z := 1237.
Definition SISA_OP_QASX_T1 : Z := 1238.
Definition SISA_OP_QSAX_T1 : Z := 1239.
Definition SISA_OP_QSUB16_T1 : Z := 1240.
Definition SISA_OP_QADD8_T1 : Z := 1241.
Definition SISA_OP_QSUB8_T1 : Z := 1242.
Definition SISA_OP_SHADD16_T1 : Z := 1243.
Definition SISA_OP_SHASX_T1 : Z := 1244.
Definition SISA_OP_SHSAX_T1 : Z := 1245.
Definition SISA_OP_SHSUB16_T1 : Z := 1246.
Definition SISA_OP_SHADD8_T1 : Z := 1247.
Definition SISA_OP_SHSUB8_T1 : Z := 1248.
Definition SISA_OP_UADD16_T1 : Z := 1249.
Definition SISA_OP_UASX_T1 : Z := 1250.
Definition SISA_OP_USAX_T1 : Z := 1251.
Definition SISA_OP_USUB16_T1 : Z := 1252.
Definition SISA_OP_UADD8_T1 : Z := 1253.
Definition SISA_OP_USUB8_T1 : Z := 1254.
Definition SISA_OP_UQADD16_T1 : Z := 1255.
Definition SISA_OP_UQASX_T1 : Z := 1256.
Definition SISA_OP_UQSAX_T1 : Z := 1257.
Definition SISA_OP_UQSUB16_T1 : Z := 1258.
Definition SISA_OP_UQADD8_T1 : Z := 1259.
Definition SISA_OP_UQSUB8_T1 : Z := 1260.
Definition SISA_OP_UHADD16_T1 : Z := 1261.
Definition SISA_OP_UHASX_T1 : Z := 1262.
Definition SISA_OP_UHSAX_T1 : Z := 1263.
Definition SISA_OP_UHSUB16_T1 : Z := 1264.
Definition SISA_OP_UHADD8_T1 : Z := 1265.
Definition SISA_OP_UHSUB8_T1 : Z := 1266.
Definition SISA_OP_QADD_T1 : Z := 1267.
Definition SISA_OP_QDADD_T1 : Z := 1268.
Definition SISA_OP_QSUB_T1 : Z := 1269.
Definition SISA_OP_QDSUB_T1 : Z := 1270.
Definition SISA_OP_REV_T2 : Z := 1271.
Definition SISA_OP_REV16_T2 : Z := 1272.
Definition SISA_OP_RBIT_T1 : Z := 1273.
Definition SISA_OP_REVSH_T2 : Z := 1274.
Definition SISA_OP_SEL_T1 : Z := 1275.
Definition SISA_OP_CLZ_T1 : Z := 1276.
Definition SISA_OP_T32_FA_END : Z := 1277.
Definition SISA_OP_T32_FB_CONNECT : Z := 1278.
Definition SISA_OP_MUL_T2 : Z := 1279.
Definition SISA_OP_MLA_T1 : Z := 1280.
Definition SISA_OP_MLS_T1 : Z := 1281.
Definition SISA_OP_SMLABB_T1 : Z := 1282.
Definition SISA_OP_SMULBB_T1 : Z := 1283.
Definition SISA_OP_SMLAD_T1 : Z := 1284.
Definition SISA_OP_SMUAD_T1 : Z := 1285.
Definition SISA_OP_SMLAWB_T1 : Z := 1286.
Definition SISA_OP_SMULWB_T1 : Z := 1287.
Definition SISA_OP_SMLSD_T1 : Z := 1288.
Definition SISA_OP_SMUSD_T1 : Z := 1289.
Definition SISA_OP_SMMLA_T1 : Z := 1290.
Definition SISA_OP_SMMUL_T1 : Z := 1291.
Definition SISA_OP_SMMLS_T1 : Z := 1292.
Definition SISA_OP_USAD8_T1 : Z := 1293.
Definition SISA_OP_USADA8_T1 : Z := 1294.
Definition SISA_OP_SMULL_T1 : Z := 1295.
Definition SISA_OP_SDIV_T1 : Z := 1296.
Definition SISA_OP_UMULL_T1 : Z := 1297.
Definition SISA_OP_SMLAL_T1 : Z := 1298.
Definition SISA_OP_SMLALBB_T1 : Z := 1299.
Definition SISA_OP_SMLALD_T1 : Z := 1300.
Definition SISA_OP_SMLSLD_T1 : Z := 1301.
Definition SISA_OP_UMLAL_T1 : Z := 1302.
Definition SISA_OP_UMAAL_T1 : Z := 1303.
Definition SISA_OP_T32_FB_END : Z := 1304.
Definition SISA_OP_THUMB_32_MAX : Z := 1305.
Definition SISA_OP_MAX : Z := 1306.

(** ** 3. Table entries *)

(** What [DEF_INST] expands to. *)
Definition INST (nm : string) (v m nv nm' : Z) (o0 o1 i0 i1 i2 i3 : sisa_opnd_t)
    (k : sisa_opkind_t) : arm_instr_desc_t :=
  Desc v m nv nm' k (Some nm) [o0; o1; i0; i1; i2; i3].
(** What [DEF_LINK], [DEF_TAIL] and [DEF_CONNECT] expand to. *)
Definition LINK : arm_instr_desc_t := zero_desc.
Definition TAIL : arm_instr_desc_t := zero_desc.
Definition CONNECT : arm_instr_desc_t := zero_desc.

Definition arm_tlb : list arm_instr_desc_t := [
  LINK (* X0 *);
  LINK (* X2 *);
  LINK (* X4 *);
  LINK (* X8 *);
  LINK (* XC *);
  LINK (* F0 *);
  LINK (* F2 *);
  LINK (* F4 *);
  INST "SRS" 0xf8400000 0xfe500000 0xffffffff 0x00000000 DNA DNA (DGPR 16 19) DNA DNA DNA SYS_OP;
  INST "RFE" 0xf8100000 0xfe500000 0xffffffff 0x00000000 (DGPR_LIST 0 15) DNA (DGPR 16 19) DNA DNA DNA SYS_OP;
  INST "BLX_imm_a2" 0xfa000000 0xfe000000 0xffffffff 0x00000000 DNA DNA (DIMM_SIGN_EXTEND 0 23 0) DNA DNA DNA JMP_OP;
  INST "MRRC2" 0xfc500000 0xfff00000 0xffffffff 0x00000000 (DGPR 12 15) (DGPR 16 19) DNA DNA DNA DNA NO_OP;
  INST "LDC2_imm" 0xfc100000 0xfe100000 0x000f0000 0x000f0000 DNA DNA (DGPR 16 19) (DIMM 0 7) DNA DNA NO_OP;
  INST "LDC2_lit" 0xfc1f0000 0xfe1f0000 0xffffffff 0x00000000 DNA DNA (DIMM 0 7) DNA DNA DNA NO_OP;
  INST "STC2" 0xfc000000 0xfe100000 0xffffffff 0x00000000 DNA DNA (DGPR 16 19) (DIMM 0 7) DNA DNA NO_OP;
  INST "MCRR2" 0xfc400000 0xfff00000 0xffffffff 0x00000000 DNA DNA (DGPR 12 15) (DGPR 16 19) DNA DNA NO_OP;
  INST "CDP2" 0xfe000000 0xff000010 0xffffffff 0x00000000 DNA DNA DNA DNA DNA DNA NO_OP;
  INST "MCR2" 0xfe000010 0xff100010 0xffffffff 0x00000000 DNA DNA (DGPR 12 15) DNA DNA DNA NO_OP;
  INST "MRC2" 0xfe100010 0xff100010 0xffffffff 0x00000000 (DGPR 12 15) DNA DNA DNA DNA DNA NO_OP;
  TAIL (* TOP_END *);
  CONNECT (* X0_CONNECT *);
  LINK (* X0_0 *);
  LINK (* X0_1 *);
  LINK (* X0_2 *);
  LINK (* X0_3 *);
  LINK (* X0_4 *);
  LINK (* X0_5 *);
  TAIL (* X0_END *);
  CONNECT (* X0_0_CONNECT *);
  INST "MUL" 0x00000090 0x0fe000f0 0xf0000000 0xf0000000 (DGPR 16 19) DNA (DGPR 0 3) (DGPR 8 11) DNA DNA MUL32_OP;
  INST "MLA" 0x00200090 0x0fe000f0 0xf0000000 0xf0000000 (DGPR 16 19) DNA (DGPR 0 3) (DGPR 8 11) (DGPR 12 15) DNA MUL32_OP;
  INST "UMAAL" 0x00400090 0x0ff000f0 0xf0000000 0xf0000000 (DGPR_RW 16 19) (DGPR_RW 12 15) (DGPR 0 3) (DGPR 8 11) DNA DNA UMUL_OP;
  INST "MLS" 0x00600090 0x0ff000f0 0xf0000000 0xf0000000 (DGPR 16 19) DNA (DGPR 0 3) (DGPR 8 11) (DGPR 12 15) DNA MUL32_OP;
  INST "UMULL" 0x00800090 0x0fe000f0 0xf0000000 0xf0000000 (DGPR 16 19) (DGPR 12 15) (DGPR 0 3) (DGPR 8 11) DNA DNA UMUL_OP;
  INST "UMLAL" 0x00a00090 0x0fe000f0 0xf0000000 0xf0000000 (DGPR_RW 16 19) (DGPR_RW 12 15) (DGPR 0 3) (DGPR 8 11) DNA DNA UMUL_OP;
  INST "SMULL" 0x00c00090 0x0fe000f0 0xf0000000 0xf0000000 (DGPR 16 19) (DGPR 12 15) (DGPR 0 3) (DGPR 8 11) DNA DNA SMUL_OP;
  INST "SMLAL" 0x00e00090 0x0fe000f0 0xf0000000 0xf0000000 (DGPR_RW 16 19) (DGPR_RW 12 15) (DGPR 0 3) (DGPR 8 11) DNA DNA SMUL_OP;
  TAIL (* X0_0_END *);
  CONNECT (* X0_1_CONNECT *);
  INST "MRS_a" 0x01000000 0x0ff000f0 0xf0000000 0xf0000000 (DGPR 12 15) DNA DNA DNA DNA DNA SR_OP;
  INST "MRS" 0x01000000 0x0fb000f0 0xf0000000 0xf0000000 (DGPR 12 15) DNA DNA DNA DNA DNA SR_OP;
  INST "MSR_reg_a" 0x01200000 0x0ff300f0 0xf0000000 0xf0000000 DNA DNA (DGPR 0 3) (DIMM 18 19) DNA DNA SR_OP;
  INST "MSR_reg_s" 0x01200000 0x0fb000f0 0xf0000000 0xf0000000 DNA DNA (DGPR 0 3) (DIMM 18 19) DNA DNA SR_OP;
  INST "BX" 0x01200010 0x0ff000f0 0xf0000000 0xf0000000 DNA DNA (DGPR 0 3) DNA DNA DNA JMP_OP;
  INST "CLZ" 0x01600010 0x0ff000f0 0xf0000000 0xf0000000 (DGPR 12 15) DNA (DGPR 0 3) DNA DNA DNA MISC_OP;
  INST "BXJ_reg" 0x01200020 0x0ff000f0 0xf0000000 0xf0000000 DNA DNA (DGPR 0 3) DNA DNA DNA NO_OP;
  INST "BLX_reg" 0x01200030 0x0ff000f0 0xf0000000 0xf0000000 DNA DNA (DGPR 0 3) DNA DNA DNA JMP_OP;
  INST "BKPT" 0x01200070 0x0ff000f0 0xf0000000 0xf0000000 DNA DNA (DIMM_MERGE 8 19 0 3) DNA DNA DNA NO_OP;
  INST "SMC" 0x01600070 0x0ff000f0 0xf0000000 0xf0000000 DNA DNA DNA DNA DNA DNA SYS_OP;
  INST "QADD" 0x01000050 0x0ff000f0 0xf0000000 0xf0000000 (DGPR 12 15) DNA (DGPR 16 19) (DGPR 0 3) DNA DNA BYTE_ALU_OP;
  INST "QSUB" 0x01200050 0x0ff000f0 0xf0000000 0xf0000000 (DGPR 12 15) DNA (DGPR 16 19) (DGPR 0 3) DNA DNA BYTE_ALU_OP;
  INST "QDADD" 0x01400050 0x0ff000f0 0xf0000000 0xf0000000 (DGPR 12 15) DNA (DGPR 16 19) (DGPR 0 3) DNA DNA BYTE_ALU_OP;
  INST "QDSUB" 0x01600050 0x0ff000f0 0xf0000000 0xf0000000 (DGPR 12 15) DNA (DGPR 16 19) (DGPR 0 3) DNA DNA BYTE_ALU_OP;
  TAIL (* X0_1_END *);
  CONNECT (* X0_2_CONNECT *);
  INST "SMLABB" 0x01000080 0x0ff00090 0xf0000000 0xf0000000 (DGPR 16 19) DNA (DGPR 0 3) (DGPR 8 11) (DGPR 12 15) DNA SMUL_OP;
  INST "SMLAWB" 0x01200080 0x0ff000b0 0xf0000000 0xf0000000 (DGPR 16 19) DNA (DGPR 0 3) (DGPR 8 11) (DGPR 12 15) DNA SMUL_OP;
  INST "SMULWB" 0x012000a0 0x0ff000b0 0xf0000000 0xf0000000 (DGPR 16 19) DNA (DGPR 0 3) (DGPR 8 11) DNA DNA SMUL_OP;
  INST "SMLALBB" 0x01400080 0x0ff00090 0xf0000000 0xf0000000 (DGPR 16 19) (DGPR 12 15) (DGPR 0 3) (DGPR 8 11) DNA DNA SMUL_OP;
  INST "SMULBB" 0x01600080 0x0ff00090 0xf0000000 0xf0000000 (DGPR 16 19) DNA (DGPR 0 3) (DGPR 8 11) DNA DNA SMUL_OP;
  TAIL (* X0_2_END *);
  CONNECT (* X0_3_CONNECT *);
  INST "SWP" 0x01000090 0x0ff000f0 0xf0000000 0xf0000000 (DGPR 12 15) DNA (DGPR 0 3) (DGPR 16 19) DNA DNA MISC_OP;
  INST "SWPB" 0x01400090 0x0ff000f0 0xf0000000 0xf0000000 (DGPR 12 15) DNA (DGPR 0 3) (DGPR 16 19) DNA DNA MISC_OP;
  INST "STREX" 0x01800090 0x0ff000f0 0xf0000000 0xf0000000 (DGPR 12 15) DNA (DGPR 0 3) (DGPR 16 19) DNA DNA STREX_OP;
  INST "LDREX" 0x01900090 0x0ff000f0 0xf0000000 0xf0000000 (DGPR 12 15) DNA (DGPR 16 19) DNA DNA DNA LDREX_OP;
  INST "STREXD" 0x01a00090 0x0ff000f0 0xf0000000 0xf0000000 (DGPR 12 15) DNA (DGPR 0 3) (DGPR 16 19) DNA DNA STREX_OP;
  INST "LDREXD" 0x01b00090 0x0ff000f0 0xf0000000 0xf0000000 (DGPR 12 15) DNA (DGPR 16 19) DNA DNA DNA LDREX_OP;
  INST "STREXB" 0x01c00090 0x0ff000f0 0xf0000000 0xf0000000 (DGPR 12 15) DNA (DGPR 0 3) (DGPR 16 19) DNA DNA STREX_OP;
  INST "LDREXB" 0x01d00090 0x0ff000f0 0xf0000000 0xf0000000 (DGPR 12 15) DNA (DGPR 16 19) DNA DNA DNA LDREX_OP;
  INST "STREXH" 0x01e00090 0x0ff000f0 0xf0000000 0xf0000000 (DGPR 12 15) DNA (DGPR 0 3) (DGPR 16 19) DNA DNA STREX_OP;
  INST "LDREXH" 0x01f00090 0x0ff000f0 0xf0000000 0xf0000000 (DGPR 12 15) DNA (DGPR 16 19) DNA DNA DNA LDREX_OP;
  TAIL (* X0_3_END *);
  CONNECT (* X0_4_CONNECT *);
  INST "AND_reg" 0x00000000 0x0fe00010 0xf0000000 0xf0000000 (DGPR 12 15) DNA (DGPR 16 19) (DGPR 0 3) (DSHFTIMM 7 11 5 6) DNA LOG_OP;
  INST "EOR_reg" 0x00200000 0x0fe00010 0xf0000000 0xf0000000 (DGPR 12 15) DNA (DGPR 16 19) (DGPR 0 3) (DSHFTIMM 7 11 5 6) DNA LOG_OP;
  INST "SUB_reg" 0x00400000 0x0fe00010 0xf0000000 0xf0000000 (DGPR 12 15) DNA (DGPR 16 19) (DGPR 0 3) (DSHFTIMM 7 11 5 6) DNA ALU_OP;
  INST "RSB_reg" 0x00600000 0x0fe00010 0xf0000000 0xf0000000 (DGPR 12 15) DNA (DGPR 16 19) (DGPR 0 3) (DSHFTIMM 7 11 5 6) DNA ALU_OP;
  INST "ADD_reg" 0x00800000 0x0fe00010 0xf0000000 0xf0000000 (DGPR 12 15) DNA (DGPR 16 19) (DGPR 0 3) (DSHFTIMM 7 11 5 6) DNA ALU_OP;
  INST "ADC_reg" 0x00a00000 0x0fe00010 0xf0000000 0xf0000000 (DGPR 12 15) DNA (DGPR 16 19) (DGPR 0 3) (DSHFTIMM 7 11 5 6) DNA ALU_OP;
  INST "SBC_reg" 0x00c00000 0x0fe00010 0xf0000000 0xf0000000 (DGPR 12 15) DNA (DGPR 16 19) (DGPR 0 3) (DSHFTIMM 7 11 5 6) DNA ALU_OP;
  INST "RSC_reg" 0x00e00000 0x0fe00010 0xf0000000 0xf0000000 (DGPR 12 15) DNA (DGPR 16 19) (DGPR 0 3) (DSHFTIMM 7 11 5 6) DNA ALU_OP;
  INST "TST_reg" 0x01100000 0x0ff00010 0xf0000000 0xf0000000 DNA DNA (DGPR 16 19) (DGPR 0 3) (DSHFTIMM 7 11 5 6) DNA TEST_OP;
  INST "TEQ_reg" 0x01300000 0x0ff00010 0xf0000000 0xf0000000 DNA DNA (DGPR 16 19) (DGPR 0 3) (DSHFTIMM 7 11 5 6) DNA TEST_OP;
  INST "CMP_reg" 0x01500000 0x0ff00010 0xf0000000 0xf0000000 DNA DNA (DGPR 16 19) (DGPR 0 3) (DSHFTIMM 7 11 5 6) DNA CMP_OP;
  INST "CMN_reg" 0x01700000 0x0ff00010 0xf0000000 0xf0000000 DNA DNA (DGPR 16 19) (DGPR 0 3) (DSHFTIMM 7 11 5 6) DNA CMP_OP;
  INST "ORR_reg" 0x01800000 0x0fe00010 0xf0000000 0xf0000000 (DGPR 12 15) DNA (DGPR 16 19) (DGPR 0 3) (DSHFTIMM 7 11 5 6) DNA LOG_OP;
  INST "MOV_reg" 0x01a00000 0x0fe00ff0 0xf0000000 0xf0000000 (DGPR 12 15) DNA (DGPR 0 3) DNA DNA DNA MOV_OP;
  INST "LSL_imm" 0x01a00000 0x0fe00070 0xf0000000 0xf0000000 (DGPR 12 15) DNA (DGPR 0 3) (DSHFTIMM 7 11 5 6) DNA DNA MOV_OP;
  INST "LSR_imm" 0x01a00020 0x0fe00070 0xf0000000 0xf0000000 (DGPR 12 15) DNA (DGPR 0 3) (DSHFTIMM 7 11 5 6) DNA DNA MOV_OP;
  INST "ASR_imm" 0x01a00040 0x0fe00070 0xf0000000 0xf0000000 (DGPR 12 15) DNA (DGPR 0 3) (DSHFTIMM 7 11 5 6) DNA DNA MOV_OP;
  INST "RRX_imm" 0x01a00060 0x0fe00ff0 0xf0000000 0xf0000000 (DGPR 12 15) DNA (DGPR 0 3) (DSHFTIMM 7 11 5 6) DNA DNA MOV_OP;
  INST "ROR_imm" 0x01a00060 0x0fe00070 0xf0000000 0xf0000000 (DGPR 12 15) DNA (DGPR 0 3) (DSHFTIMM 7 11 5 6) DNA DNA MOV_OP;
  INST "BIC_reg" 0x01c00000 0x0fe00010 0xf0000000 0xf0000000 (DGPR 12 15) DNA (DGPR 16 19) (DGPR 0 3) (DSHFTIMM 7 11 5 6) DNA LOG_OP;
  INST "MVN_reg" 0x01e00000 0x0fe00010 0xf0000000 0xf0000000 (DGPR 12 15) DNA (DGPR 0 3) (DSHFTIMM 7 11 5 6) DNA DNA MOV_OP;
  TAIL (* X0_4_END *);
  CONNECT (* X0_5_CONNECT *);
  LINK (* X0_5_0 *);
  LINK (* X0_5_1 *);
  TAIL (* X0_5_END *);
  CONNECT (* X0_5_0_CONNECT *);
  INST "AND_rsh" 0x00000010 0x0fe00090 0xf0000000 0xf0000000 (DGPR 12 15) DNA (DGPR 16 19) (DGPR 0 3) (DSHFTGPR 8 11 5 6) DNA LOG_OP;
  INST "EOR_rsh" 0x00200010 0x0fe00090 0xf0000000 0xf0000000 (DGPR 12 15) DNA (DGPR 16 19) (DGPR 0 3) (DSHFTGPR 8 11 5 6) DNA LOG_OP;
  INST "SUB_rsh" 0x00400010 0x0fe00090 0xf0000000 0xf0000000 (DGPR 12 15) DNA (DGPR 16 19) (DGPR 0 3) (DSHFTGPR 8 11 5 6) DNA ALU_OP;
  INST "RSB_rsh" 0x00600010 0x0fe00090 0xf0000000 0xf0000000 (DGPR 12 15) DNA (DGPR 16 19) (DGPR 0 3) (DSHFTGPR 8 11 5 6) DNA ALU_OP;
  INST "ADD_rsh" 0x00800010 0x0fe00090 0xf0000000 0xf0000000 (DGPR 12 15) DNA (DGPR 16 19) (DGPR 0 3) (DSHFTGPR 8 11 5 6) DNA ALU_OP;
  INST "ADC_rsh" 0x00a00010 0x0fe00090 0xf0000000 0xf0000000 (DGPR 12 15) DNA (DGPR 16 19) (DGPR 0 3) (DSHFTGPR 8 11 5 6) DNA ALU_OP;
  INST "SBC_rsh" 0x00c00010 0x0fe00090 0xf0000000 0xf0000000 (DGPR 12 15) DNA (DGPR 16 19) (DGPR 0 3) (DSHFTGPR 8 11 5 6) DNA ALU_OP;
  INST "RSC_rsh" 0x00e00010 0x0fe00090 0xf0000000 0xf0000000 (DGPR 12 15) DNA (DGPR 16 19) (DGPR 0 3) (DSHFTGPR 8 11 5 6) DNA ALU_OP;
  INST "TST_rsh" 0x01100010 0x0ff00090 0xf0000000 0xf0000000 DNA DNA (DGPR 16 19) (DGPR 0 3) (DSHFTGPR 8 11 5 6) DNA TEST_OP;
  INST "TEQ_rsh" 0x01300010 0x0ff00090 0xf0000000 0xf0000000 DNA DNA (DGPR 16 19) (DGPR 0 3) (DSHFTGPR 8 11 5 6) DNA TEST_OP;
  INST "CMP_rsh" 0x01500010 0x0ff00090 0xf0000000 0xf0000000 DNA DNA (DGPR 16 19) (DGPR 0 3) (DSHFTGPR 8 11 5 6) DNA CMP_OP;
  INST "CMN_rsh" 0x01700010 0x0ff00090 0xf0000000 0xf0000000 DNA DNA (DGPR 16 19) (DGPR 0 3) (DSHFTGPR 8 11 5 6) DNA CMP_OP;
  INST "ORR_rsh" 0x01800010 0x0fe00090 0xf0000000 0xf0000000 (DGPR 12 15) DNA (DGPR 16 19) (DGPR 0 3) (DSHFTGPR 8 11 5 6) DNA LOG_OP;
  INST "LSL_reg" 0x01a00010 0x0fe000f0 0xf0000000 0xf0000000 (DGPR 12 15) DNA (DGPR 0 3) (DSHFTGPR 8 11 5 6) DNA DNA MOV_OP;
  INST "LSR_reg" 0x01a00030 0x0fe000f0 0xf0000000 0xf0000000 (DGPR 12 15) DNA (DGPR 0 3) (DSHFTGPR 8 11 5 6) DNA DNA MOV_OP;
  INST "ASR_reg" 0x01a00050 0x0fe000f0 0xf0000000 0xf0000000 (DGPR 12 15) DNA (DGPR 0 3) (DSHFTGPR 8 11 5 6) DNA DNA MOV_OP;
  INST "ROR_reg" 0x01a00070 0x0fe000f0 0xf0000000 0xf0000000 (DGPR 12 15) DNA (DGPR 0 3) (DSHFTGPR 8 11 5 6) DNA DNA MOV_OP;
  INST "BIC_rsh" 0x01c00010 0x0fe00090 0xf0000000 0xf0000000 (DGPR 12 15) DNA (DGPR 16 19) (DGPR 0 3) (DSHFTGPR 8 11 5 6) DNA LOG_OP;
  INST "MVN_rsh" 0x01e00010 0x0fe00090 0xf0000000 0xf0000000 (DGPR 12 15) DNA (DGPR 0 3) (DSHFTGPR 8 11 5 6) DNA DNA MOV_OP;
  TAIL (* X0_5_0_END *);
  CONNECT (* X0_5_1_CONNECT *);
  INST "STRH_reg" 0x000000b0 0x0e5000f0 0x00200000 0x01200000 DNA DNA (DGPR 12 15) (DGPR 16 19) (DGPR 0 3) (DSHFTIMM 26 27 26 27) ST_OP;
  INST "LDRH" 0x001000b0 0x0e5000f0 0xf0000000 0xf0000000 (DGPR 12 15) DNA (DGPR 16 19) (DGPR 0 3) (DSHFTIMM 25 26 25 26) DNA LD_OP;
  INST "STRH_imm" 0x004000b0 0x0e5000f0 0xf0000000 0xf0000000 DNA DNA (DGPR 12 15) (DGPR 16 19) (DIMM_MERGE 8 11 0 3) DNA ST_OP;
  INST "LDRH_imm" 0x005000b0 0x0e5000f0 0x000f0000 0x000f0000 (DGPR 12 15) DNA (DGPR 16 19) (DIMM_MERGE 8 11 0 3) DNA DNA LD_OP;
  INST "LDRH_lit" 0x005f00b0 0x0e5f00f0 0xf0000000 0xf0000000 (DGPR 12 15) DNA (DGPR 16 19) (DIMM_MERGE 8 11 0 3) DNA DNA LD_OP;
  INST "LDRD_reg" 0x000000d0 0x0e5000f0 0xf0000000 0xf0000000 (DGPR 12 15) DNA (DGPR 16 19) (DGPR 0 3) DNA DNA LD_OP;
  INST "LDRSB" 0x001000d0 0x0e5000f0 0x00200000 0x01200000 (DGPR 12 15) DNA (DGPR 16 19) (DGPR 0 3) (DSHFTIMM 26 27 26 27) DNA LD_OP;
  INST "LDRD_imm" 0x004000d0 0x0e5000f0 0x000f0000 0x000f0000 (DGPR 12 15) DNA (DGPR 16 19) (DIMM_MERGE 8 11 0 3) DNA DNA LD_OP;
  INST "LDRD_lit" 0x004f00d0 0x0e5f00f0 0xf0000000 0xf0000000 (DGPR 12 15) DNA (DGPR 16 19) (DIMM_MERGE 8 11 0 3) DNA DNA LD_OP;
  INST "LDRSB_imm" 0x005000d0 0x0e5000f0 0x000f0000 0x000f0000 (DGPR 12 15) DNA (DGPR 16 19) (DIMM_MERGE 8 11 0 3) DNA DNA LD_OP;
  INST "LDRSB_lit" 0x005f00d0 0x0e5f00f0 0xf0000000 0xf0000000 (DGPR 12 15) DNA (DGPR 16 19) (DIMM_MERGE 8 11 0 3) DNA DNA LD_OP;
  INST "STRD_reg" 0x000000f0 0x0e5000f0 0xf0000000 0xf0000000 DNA DNA (DGPR 12 15) (DGPR 16 19) (DGPR 0 3) DNA ST_OP;
  INST "LDRSH" 0x001000f0 0x0e5000f0 0xf0000000 0xf0000000 (DGPR 12 15) DNA (DGPR 16 19) (DGPR 0 3) (DSHFTIMM 26 27 26 27) DNA LD_OP;
  INST "STRD_imm" 0x004000f0 0x0e5000f0 0xf0000000 0xf0000000 DNA DNA (DGPR 12 15) (DGPR 16 19) (DIMM_MERGE 8 11 0 3) DNA ST_OP;
  INST "LDRSH_imm" 0x005000f0 0x0e5000f0 0x000f0000 0x000f0000 (DGPR 12 15) DNA (DGPR 16 19) (DIMM_MERGE 8 11 0 3) DNA DNA LD_OP;
  INST "LDRSH_lit" 0x005f00f0 0x0e5f00f0 0xf0000000 0xf0000000 (DGPR 12 15) DNA (DGPR 16 19) (DIMM_MERGE 8 11 0 3) DNA DNA LD_OP;
  INST "STRHT_a1" 0x006000b0 0x0f7000f0 0xf0000000 0xf0000000 DNA DNA (DGPR 12 15) (DGPR 16 19) (DIMM_MERGE 8 11 0 3) DNA ST_OP;
  INST "STRHT_a2" 0x002000b0 0x0f7000f0 0xf0000000 0xf0000000 DNA DNA (DGPR 12 15) (DGPR 16 19) (DGPR 0 3) DNA ST_OP;
  INST "LDRHT_a1" 0x007000b0 0x0f7000f0 0xf0000000 0xf0000000 (DGPR 12 15) DNA (DGPR 16 19) (DIMM_MERGE 8 11 0 3) DNA DNA LD_OP;
  INST "LDRHT_a2" 0x003000b0 0x0f7000f0 0xf0000000 0xf0000000 (DGPR 12 15) DNA (DGPR 16 19) (DGPR 0 3) DNA DNA LD_OP;
  INST "LDRSBT_a1" 0x007000d0 0x0f7000f0 0xf0000000 0xf0000000 (DGPR 12 15) DNA (DGPR 16 19) (DIMM_MERGE 8 11 0 3) DNA DNA LD_OP;
  INST "LDRSBT_a2" 0x003000d0 0x0f7000f0 0xf0000000 0xf0000000 (DGPR 12 15) DNA (DGPR 16 19) (DGPR 0 3) DNA DNA LD_OP;
  INST "LDRSHT_a1" 0x007000f0 0x0f7000f0 0xf0000000 0xf0000000 (DGPR 12 15) DNA (DGPR 16 19) (DIMM_MERGE 8 11 0 3) DNA DNA LD_OP;
  INST "LDRSHT_a2" 0x003000f0 0x0f7000f0 0xf0000000 0xf0000000 (DGPR 12 15) DNA (DGPR 16 19) (DGPR 0 3) DNA DNA LD_OP;
  TAIL (* X0_5_1_END *);
  CONNECT (* X2_CONNECT *);
  INST "AND_imm" 0x02000000 0x0fe00000 0xf0000000 0xf0000000 (DGPR 12 15) DNA (DGPR 16 19) (DIMM_ARMEXP 0 11 8) DNA DNA LOG_OP;
  INST "EOR_imm" 0x02200000 0x0fe00000 0xf0000000 0xf0000000 (DGPR 12 15) DNA (DGPR 16 19) (DIMM_ARMEXP 0 11 8) DNA DNA LOG_OP;
  INST "SUB_imm" 0x02400000 0x0fe00000 0x000f0000 0x001f0000 (DGPR 12 15) DNA (DGPR 16 19) (DIMM_ARMEXP 0 11 8) DNA DNA ALU_OP;
  INST "ADR_a2" 0x024f0000 0x0fff0000 0xf0000000 0xf0000000 (DGPR 12 15) DNA (DGPR 16 19) (DIMM_ARMEXP 0 11 8) DNA DNA MISC_OP;
  INST "RSB_imm" 0x02600000 0x0fe00000 0xf0000000 0xf0000000 (DGPR 12 15) DNA (DGPR 16 19) (DIMM_ARMEXP 0 11 8) DNA DNA ALU_OP;
  INST "ADD_imm" 0x02800000 0x0fe00000 0x000f0000 0x001f0000 (DGPR 12 15) DNA (DGPR 16 19) (DIMM_ARMEXP 0 11 8) DNA DNA ALU_OP;
  INST "ADR_a1" 0x028f0000 0x0fff0000 0xf0000000 0xf0000000 (DGPR 12 15) DNA (DGPR 16 19) (DIMM_ARMEXP 0 11 8) DNA DNA MISC_OP;
  INST "ADC_imm" 0x02a00000 0x0fe00000 0xf0000000 0xf0000000 (DGPR 12 15) DNA (DGPR 16 19) (DIMM_ARMEXP 0 11 8) DNA DNA ALU_OP;
  INST "SBC_imm" 0x02c00000 0x0fe00000 0xf0000000 0xf0000000 (DGPR 12 15) DNA (DGPR 16 19) (DIMM_ARMEXP 0 11 8) DNA DNA ALU_OP;
  INST "RSC_imm" 0x02e00000 0x0fe00000 0xf0000000 0xf0000000 (DGPR 12 15) DNA (DGPR 16 19) (DIMM_ARMEXP 0 11 8) DNA DNA ALU_OP;
  INST "TST_imm" 0x03100000 0x0ff00000 0xf0000000 0xf0000000 DNA DNA (DGPR 16 19) (DIMM_ARMEXP 0 11 8) DNA DNA TEST_OP;
  INST "TEQ_imm" 0x03300000 0x0ff00000 0xf0000000 0xf0000000 DNA DNA (DGPR 16 19) (DIMM_ARMEXP 0 11 8) DNA DNA TEST_OP;
  INST "CMP_imm" 0x03500000 0x0ff00000 0xf0000000 0xf0000000 DNA DNA (DGPR 16 19) (DIMM_ARMEXP 0 11 8) DNA DNA CMP_OP;
  INST "CMN_imm" 0x03700000 0x0ff00000 0xf0000000 0xf0000000 DNA DNA (DGPR 16 19) (DIMM_ARMEXP 0 11 8) DNA DNA CMP_OP;
  INST "ORR_imm" 0x03800000 0x0fe00000 0xf0000000 0xf0000000 (DGPR 12 15) DNA (DGPR 16 19) (DIMM_ARMEXP 0 11 8) DNA DNA LOG_OP;
  INST "MOV_imm_a1" 0x03a00000 0x0fe00000 0xf0000000 0xf0000000 (DGPR 12 15) DNA (DIMM_ARMEXP 0 11 8) DNA DNA DNA MOV_OP;
  INST "MOV_imm_a2" 0x03000000 0x0ff00000 0xf0000000 0xf0000000 (DGPR 12 15) DNA (DIMM_MERGE 16 19 0 11) DNA DNA DNA MOV_OP;
  INST "BIC_imm" 0x03c00000 0x0fe00000 0xf0000000 0xf0000000 (DGPR 12 15) DNA (DGPR 16 19) (DIMM_ARMEXP 0 11 8) DNA DNA LOG_OP;
  INST "MVN_imm" 0x03e00000 0x0fe00000 0xf0000000 0xf0000000 (DGPR 12 15) DNA (DIMM_ARMEXP 0 11 8) DNA DNA DNA MOV_OP;
  INST "NOP" 0x0320f000 0x0fffffff 0xf0000000 0xf0000000 DNA DNA DNA DNA DNA DNA EMPTY_OP;
  INST "YIELD" 0x0320f001 0x0fffffff 0xf0000000 0xf0000000 DNA DNA DNA DNA DNA DNA EMPTY_OP;
  INST "WFE" 0x0320f002 0x0fffffff 0xf0000000 0xf0000000 DNA DNA DNA DNA DNA DNA EMPTY_OP;
  INST "WFI" 0x0320f003 0x0fffffff 0xf0000000 0xf0000000 DNA DNA DNA DNA DNA DNA EMPTY_OP;
  INST "SEV" 0x0320f004 0x0fffffff 0xf0000000 0xf0000000 DNA DNA DNA DNA DNA DNA EMPTY_OP;
  INST "DBG" 0x0320f0f0 0x0ffffff0 0xf0000000 0xf0000000 DNA DNA DNA DNA DNA DNA EMPTY_OP;
  INST "MSR_imm_a" 0x03200000 0x0ff30000 0x00000000 0x000f0000 DNA DNA (DIMM_ARMEXP 0 11 8) (DIMM 18 19) DNA DNA SR_OP;
  INST "MSR_imm_s" 0x03200000 0x0fb00000 0xf0000000 0xf0000000 DNA DNA DNA DNA DNA DNA NO_OP;
  INST "MOVT" 0x03400000 0x0ff00000 0xf0000000 0xf0000000 (DGPR 12 15) DNA (DIMM_MERGE 16 19 0 11) DNA DNA DNA MISC_OP;
  TAIL (* X2_END *);
  CONNECT (* X4_CONNECT *);
  LINK (* X4_0 *);
  LINK (* X4_21 *);
  LINK (* X4_201 *);
  LINK (* X4_241 *);
  LINK (* X4_281 *);
  LINK (* X4_301 *);
  INST "USAD8" 0x0780f010 0x0ff0f0f0 0xf0000000 0xf0000000 (DGPR 16 19) DNA (DGPR 0 3) (DGPR 8 11) DNA DNA BYTE_ALU_OP;
  INST "USADA8" 0x07800010 0x0ff000f0 0x0000f000 0x0000f000 (DGPR 16 19) DNA (DGPR 0 3) (DGPR 8 11) (DGPR 12 15) DNA BYTE_ALU_OP;
  INST "SBFX" 0x07a00050 0x0fe00070 0xf0000000 0xf0000000 (DGPR 12 15) DNA (DGPR 0 3) (DIMM 7 11) (DIMM 16 20) DNA BF_OP;
  INST "BFC" 0x07c0001f 0x0fe0007f 0xf0000000 0xf0000000 (DGPR 12 15) DNA (DIMM 16 20) (DIMM 7 11) DNA DNA BF_OP;
  INST "BFI" 0x07c00010 0x0fe00070 0x0000000f 0x0000000f (DGPR 12 15) DNA (DIMM 16 20) (DIMM 7 11) (DGPR 0 3) DNA BF_OP;
  INST "UBFX" 0x07e00050 0x0fe00070 0xf0000000 0xf0000000 (DGPR 12 15) DNA (DGPR 0 3) (DIMM 7 11) (DIMM 16 20) DNA BF_OP;
  TAIL (* X4_END *);
  CONNECT (* X4_0_CONNECT *);
  INST "POP_a2" 0x049d0004 0x0fff0fff 0xf0000000 0xf0000000 (DGPR_SET 12 15) DNA (DGPR 16 19) (DIMM 0 11) DNA DNA POP_OP;
  INST "PUSH_a2" 0x052d0004 0x0fff0fff 0xf0000000 0xf0000000 DNA DNA (DGPR 12 15) (DGPR 16 19) (DIMM 0 11) DNA PUSH_OP;
  INST "STR_imm" 0x04000000 0x0e500000 0x00200000 0x01700000 DNA DNA (DGPR 12 15) (DGPR 16 19) (DIMM 0 11) DNA ST_OP;
  INST "STRT_a1" 0x04200000 0x0f700000 0xf0000000 0xf0000000 DNA DNA (DGPR 12 15) (DGPR 16 19) (DIMM 0 11) DNA ST_OP;
  INST "LDR_lit" 0x041f0000 0x0e5f0000 0x00300000 0x01700000 (DGPR 12 15) DNA (DGPR 16 19) (DIMM 0 11) DNA DNA LD_OP;
  INST "LDR_imm" 0x04100000 0x0e500000 0x00300000 0x01700000 (DGPR 12 15) DNA (DGPR 16 19) (DIMM 0 11) DNA DNA LD_OP;
  INST "LDRT_a1" 0x04300000 0x0f700000 0xf0000000 0xf0000000 (DGPR 12 15) DNA (DGPR 16 19) (DIMM 0 11) DNA DNA LD_OP;
  INST "STRB_imm" 0x04400000 0x0e500000 0x00600000 0x01700000 DNA DNA (DGPR 12 15) (DGPR 16 19) (DIMM 0 11) DNA ST_OP;
  INST "STRBT_a1" 0x04600000 0x0f700000 0xf0000000 0xf0000000 DNA DNA (DGPR 12 15) (DGPR 16 19) (DIMM 0 11) DNA ST_OP;
  INST "LDRB_lit" 0x045f0000 0x0e5f0000 0x00700000 0x01700000 (DGPR 12 15) DNA (DGPR 16 19) (DIMM 0 11) DNA DNA LD_OP;
  INST "LDRB_imm" 0x04500000 0x0e500000 0x00700000 0x01700000 (DGPR 12 15) DNA (DGPR 16 19) (DIMM 0 11) DNA DNA LD_OP;
  INST "LDRBT_a1" 0x04700000 0x0f700000 0xf0000000 0xf0000000 (DGPR 12 15) DNA (DGPR 16 19) (DIMM 0 11) DNA DNA LD_OP;
  TAIL (* X4_0_END *);
  CONNECT (* X4_21_CONNECT *);
  INST "STR_reg" 0x06000000 0x0e500010 0x00200000 0x01700000 DNA DNA (DGPR 12 15) (DGPR 16 19) (DGPR 0 3) (DSHFTIMM 7 11 5 6) ST_OP;
  INST "STRT_a2" 0x06200000 0x0f700010 0xf0000000 0xf0000000 DNA DNA (DGPR 12 15) (DGPR 16 19) (DGPR 0 3) (DSHFTIMM 7 11 5 6) ST_OP;
  INST "LDR_reg" 0x06100000 0x0e500010 0x00300000 0x01700000 (DGPR 12 15) DNA (DGPR 16 19) (DGPR 0 3) (DSHFTIMM 7 11 5 6) DNA LD_OP;
  INST "LDRT_a2" 0x06300000 0x0f700010 0xf0000000 0xf0000000 (DGPR 12 15) DNA (DGPR 16 19) (DGPR 0 3) (DSHFTIMM 7 11 5 6) DNA LD_OP;
  INST "STRB_reg" 0x06400000 0x0e500010 0x00600000 0x01700000 DNA DNA (DGPR 12 15) (DGPR 16 19) (DGPR 0 3) (DSHFTIMM 7 11 5 6) ST_OP;
  INST "STRBT_a2" 0x06600000 0x0f700010 0xf0000000 0xf0000000 DNA DNA (DGPR 12 15) (DGPR 16 19) (DGPR 0 3) (DSHFTIMM 7 11 5 6) ST_OP;
  INST "LDRB_reg" 0x06500000 0x0e500010 0x00700000 0x01700000 (DGPR 12 15) DNA (DGPR 16 19) (DGPR 0 3) (DSHFTIMM 7 11 5 6) DNA LD_OP;
  INST "LDRBT_a2" 0x06700000 0x0f700010 0xf0000000 0xf0000000 (DGPR 12 15) DNA (DGPR 16 19) (DGPR 0 3) (DSHFTIMM 7 11 5 6) DNA LD_OP;
  TAIL (* X4_21_END *);
  CONNECT (* X4_201_CONNECT *);
  LINK (* X4_201_1 *);
  LINK (* X4_201_2 *);
  INST "SHADD16" 0x06300010 0x0ff000f0 0xf0000000 0xf0000000 (DGPR 12 15) DNA (DGPR 16 19) (DGPR 0 3) DNA DNA S_BYTE_ALU_OP;
  INST "SHASX" 0x06300030 0x0ff000f0 0xf0000000 0xf0000000 (DGPR 12 15) DNA (DGPR 16 19) (DGPR 0 3) DNA DNA S_BYTE_ALU_OP;
  INST "SHSAX" 0x06300050 0x0ff000f0 0xf0000000 0xf0000000 (DGPR 12 15) DNA (DGPR 16 19) (DGPR 0 3) DNA DNA S_BYTE_ALU_OP;
  INST "SHSUB16" 0x06300070 0x0ff000f0 0xf0000000 0xf0000000 (DGPR 12 15) DNA (DGPR 16 19) (DGPR 0 3) DNA DNA S_BYTE_ALU_OP;
  INST "SHADD8" 0x06300090 0x0ff000f0 0xf0000000 0xf0000000 (DGPR 12 15) DNA (DGPR 16 19) (DGPR 0 3) DNA DNA S_BYTE_ALU_OP;
  INST "SHSUB8" 0x063000f0 0x0ff000f0 0xf0000000 0xf0000000 (DGPR 12 15) DNA (DGPR 16 19) (DGPR 0 3) DNA DNA S_BYTE_ALU_OP;
  TAIL (* X4_201_END *);
  CONNECT (* X4_201_1_CONNECT *);
  INST "SADD16" 0x06100010 0x0ff000f0 0xf0000000 0xf0000000 (DGPR 12 15) DNA (DGPR 16 19) (DGPR 0 3) DNA DNA S_BYTE_ALU_OP;
  INST "SASX" 0x06100030 0x0ff000f0 0xf0000000 0xf0000000 (DGPR 12 15) DNA (DGPR 16 19) (DGPR 0 3) DNA DNA S_BYTE_ALU_OP;
  INST "SSAX" 0x06100050 0x0ff000f0 0xf0000000 0xf0000000 (DGPR 12 15) DNA (DGPR 16 19) (DGPR 0 3) DNA DNA S_BYTE_ALU_OP;
  INST "SSUB16" 0x06100070 0x0ff000f0 0xf0000000 0xf0000000 (DGPR 12 15) DNA (DGPR 16 19) (DGPR 0 3) DNA DNA S_BYTE_ALU_OP;
  INST "SADD8" 0x06100090 0x0ff000f0 0xf0000000 0xf0000000 (DGPR 12 15) DNA (DGPR 16 19) (DGPR 0 3) DNA DNA S_BYTE_ALU_OP;
  INST "SSUB8" 0x061000f0 0x0ff000f0 0xf0000000 0xf0000000 (DGPR 12 15) DNA (DGPR 16 19) (DGPR 0 3) DNA DNA S_BYTE_ALU_OP;
  TAIL (* X4_201_1_END *);
  CONNECT (* X4_201_2_CONNECT *);
  INST "QADD16" 0x06200010 0x0ff000f0 0xf0000000 0xf0000000 (DGPR 12 15) DNA (DGPR 16 19) (DGPR 0 3) DNA DNA BYTE_ALU_OP;
  INST "QASX" 0x06200030 0x0ff000f0 0xf0000000 0xf0000000 (DGPR 12 15) DNA (DGPR 16 19) (DGPR 0 3) DNA DNA BYTE_ALU_OP;
  INST "QSAX" 0x06200050 0x0ff000f0 0xf0000000 0xf0000000 (DGPR 12 15) DNA (DGPR 16 19) (DGPR 0 3) DNA DNA BYTE_ALU_OP;
  INST "QSUB16" 0x06200070 0x0ff000f0 0xf0000000 0xf0000000 (DGPR 12 15) DNA (DGPR 16 19) (DGPR 0 3) DNA DNA BYTE_ALU_OP;
  INST "QADD8" 0x06200090 0x0ff000f0 0xf0000000 0xf0000000 (DGPR 12 15) DNA (DGPR 16 19) (DGPR 0 3) DNA DNA BYTE_ALU_OP;
  INST "QSUB8" 0x062000f0 0x0ff000f0 0xf0000000 0xf0000000 (DGPR 12 15) DNA (DGPR 16 19) (DGPR 0 3) DNA DNA BYTE_ALU_OP;
  TAIL (* X4_201_2_END *);
  CONNECT (* X4_241_CONNECT *);
  LINK (* X4_241_1 *);
  LINK (* X4_241_2 *);
  INST "UHADD16" 0x06700010 0x0ff000f0 0xf0000000 0xf0000000 (DGPR 12 15) DNA (DGPR 16 19) (DGPR 0 3) DNA DNA BYTE_ALU_OP;
  INST "UHASX" 0x06700030 0x0ff000f0 0xf0000000 0xf0000000 (DGPR 12 15) DNA (DGPR 16 19) (DGPR 0 3) DNA DNA BYTE_ALU_OP;
  INST "UHSAX" 0x06700050 0x0ff000f0 0xf0000000 0xf0000000 (DGPR 12 15) DNA (DGPR 16 19) (DGPR 0 3) DNA DNA BYTE_ALU_OP;
  INST "UHSUB16" 0x06700070 0x0ff000f0 0xf0000000 0xf0000000 (DGPR 12 15) DNA (DGPR 16 19) (DGPR 0 3) DNA DNA BYTE_ALU_OP;
  INST "UHADD8" 0x06700090 0x0ff000f0 0xf0000000 0xf0000000 (DGPR 12 15) DNA (DGPR 16 19) (DGPR 0 3) DNA DNA BYTE_ALU_OP;
  INST "UHSUB8" 0x067000f0 0x0ff000f0 0xf0000000 0xf0000000 (DGPR 12 15) DNA (DGPR 16 19) (DGPR 0 3) DNA DNA BYTE_ALU_OP;
  TAIL (* X4_241_END *);
  CONNECT (* X4_241_1_CONNECT *);
  INST "UADD16" 0x06500010 0x0ff000f0 0xf0000000 0xf0000000 (DGPR 12 15) DNA (DGPR 16 19) (DGPR 0 3) DNA DNA BYTE_ALU_OP;
  INST "UASX" 0x06500030 0x0ff000f0 0xf0000000 0xf0000000 (DGPR 12 15) DNA (DGPR 16 19) (DGPR 0 3) DNA DNA BYTE_ALU_OP;
  INST "USAX" 0x06500050 0x0ff000f0 0xf0000000 0xf0000000 (DGPR 12 15) DNA (DGPR 16 19) (DGPR 0 3) DNA DNA BYTE_ALU_OP;
  INST "USUB16" 0x06500070 0x0ff000f0 0xf0000000 0xf0000000 (DGPR 12 15) DNA (DGPR 16 19) (DGPR 0 3) DNA DNA BYTE_ALU_OP;
  INST "UADD8" 0x06500090 0x0ff000f0 0xf0000000 0xf0000000 (DGPR 12 15) DNA (DGPR 16 19) (DGPR 0 3) DNA DNA BYTE_ALU_OP;
  INST "USUB8" 0x065000f0 0x0ff000f0 0xf0000000 0xf0000000 (DGPR 12 15) DNA (DGPR 16 19) (DGPR 0 3) DNA DNA BYTE_ALU_OP;
  TAIL (* X4_241_1_END *);
  CONNECT (* X4_241_2_CONNECT *);
  INST "UQADD16" 0x06600010 0x0ff000f0 0xf0000000 0xf0000000 (DGPR 12 15) DNA (DGPR 16 19) (DGPR 0 3) DNA DNA BYTE_ALU_OP;
  INST "UQASX" 0x06600030 0x0ff000f0 0xf0000000 0xf0000000 (DGPR 12 15) DNA (DGPR 16 19) (DGPR 0 3) DNA DNA BYTE_ALU_OP;
  INST "UQSAX" 0x06600050 0x0ff000f0 0xf0000000 0xf0000000 (DGPR 12 15) DNA (DGPR 16 19) (DGPR 0 3) DNA DNA BYTE_ALU_OP;
  INST "UQSUB16" 0x06600070 0x0ff000f0 0xf0000000 0xf0000000 (DGPR 12 15) DNA (DGPR 16 19) (DGPR 0 3) DNA DNA BYTE_ALU_OP;
  INST "UQADD8" 0x06600090 0x0ff000f0 0xf0000000 0xf0000000 (DGPR 12 15) DNA (DGPR 16 19) (DGPR 0 3) DNA DNA BYTE_ALU_OP;
  INST "UQSUB8" 0x066000f0 0x0ff000f0 0xf0000000 0xf0000000 (DGPR 12 15) DNA (DGPR 16 19) (DGPR 0 3) DNA DNA BYTE_ALU_OP;
  TAIL (* X4_241_2_END *);
  CONNECT (* X4_281_CONNECT *);
  INST "PKH" 0x06800010 0x0ff00030 0xf0000000 0xf0000000 (DGPR 12 15) DNA (DGPR 16 19) (DGPR 0 3) (DSHFTIMM 7 11 5 6) (DIMM 6 6) MISC_OP;
  INST "SSAT" 0x06a00010 0x0fe00030 0xf0000000 0xf0000000 (DGPR 12 15) DNA (DIMM 16 20) (DGPR 0 3) (DSHFTIMM 7 11 5 6) DNA MISC_OP;
  INST "USAT" 0x06e00010 0x0fe00030 0xf0000000 0xf0000000 (DGPR 12 15) DNA (DIMM 16 20) (DGPR 0 3) (DSHFTIMM 7 11 5 6) DNA EXT_OP;
  INST "SXTB16" 0x068f0070 0x0fff00f0 0xf0000000 0xf0000000 (DGPR 12 15) DNA (DROTATEGPR 0 3 10 11) DNA DNA DNA EXT_OP;
  INST "SXTAB16" 0x06800070 0x0ff000f0 0x000f0000 0x000f0000 (DGPR 12 15) DNA (DROTATEGPR 0 3 10 11) (DGPR 16 19) DNA DNA EXT_OP;
  INST "SEL" 0x068000b0 0x0ff000f0 0xf0000000 0xf0000000 (DGPR 12 15) DNA (DGPR 16 19) (DGPR 0 3) DNA DNA BYTE_ALU_OP;
  INST "SSAT16" 0x06a00030 0x0ff000f0 0xf0000000 0xf0000000 (DGPR 12 15) DNA (DIMM 16 19) (DGPR 0 3) DNA DNA MISC_OP;
  INST "SXTB" 0x06af0070 0x0fff00f0 0xf0000000 0xf0000000 (DGPR 12 15) DNA (DROTATEGPR 0 3 10 11) DNA DNA DNA EXT_OP;
  INST "SXTAB" 0x06a00070 0x0ff000f0 0x000f0000 0x000f0000 (DGPR 12 15) DNA (DROTATEGPR 0 3 10 11) (DGPR 16 19) DNA DNA EXT_OP;
  INST "REV" 0x06b00030 0x0ff000f0 0xf0000000 0xf0000000 (DGPR 12 15) DNA (DGPR 0 3) DNA DNA DNA REVERSE_OP;
  INST "SXTH" 0x06bf0070 0x0fff00f0 0xf0000000 0xf0000000 (DGPR 12 15) DNA (DROTATEGPR 0 3 10 11) DNA DNA DNA EXT_OP;
  INST "SXTAH" 0x06b00070 0x0ff000f0 0x000f0000 0x000f0000 (DGPR 12 15) DNA (DROTATEGPR 0 3 10 11) (DGPR 16 19) DNA DNA EXT_OP;
  INST "REV16" 0x06b000b0 0x0ff000f0 0xf0000000 0xf0000000 (DGPR 12 15) DNA (DGPR 0 3) DNA DNA DNA REVERSE_OP;
  INST "UXTB16" 0x06cf0070 0x0fff00f0 0xf0000000 0xf0000000 (DGPR 12 15) DNA (DROTATEGPR 0 3 10 11) DNA DNA DNA EXT_OP;
  INST "UXTAB16" 0x06c00070 0x0ff000f0 0x000f0000 0x000f0000 (DGPR 12 15) DNA (DROTATEGPR 0 3 10 11) (DGPR 16 19) DNA DNA EXT_OP;
  INST "USAT16" 0x06e00030 0x0ff000f0 0xf0000000 0xf0000000 (DGPR 12 15) DNA (DIMM 16 19) (DGPR 0 3) DNA DNA EXT_OP;
  INST "UXTB" 0x06ef0070 0x0fff00f0 0xf0000000 0xf0000000 (DGPR 12 15) DNA (DROTATEGPR 0 3 10 11) DNA DNA DNA EXT_OP;
  INST "UXTAB" 0x06e00070 0x0ff000f0 0x000f0000 0x000f0000 (DGPR 12 15) DNA (DROTATEGPR 0 3 10 11) (DGPR 16 19) DNA DNA EXT_OP;
  INST "RBIT" 0x06f00030 0x0ff000f0 0xf0000000 0xf0000000 (DGPR 12 15) DNA (DGPR 0 3) DNA DNA DNA REVERSE_OP;
  INST "UXTH" 0x06ff0070 0x0fff00f0 0xf0000000 0xf0000000 (DGPR 12 15) DNA (DROTATEGPR 0 3 10 11) DNA DNA DNA EXT_OP;
  INST "UXTAH" 0x06f00070 0x0ff000f0 0x000f0000 0x000f0000 (DGPR 12 15) DNA (DROTATEGPR 0 3 10 11) (DGPR 16 19) DNA DNA EXT_OP;
  INST "REVSH" 0x06f000b0 0x0ff000f0 0xf0000000 0xf0000000 (DGPR 12 15) DNA (DGPR 0 3) DNA DNA DNA REVERSE_OP;
  TAIL (* X4_281_END *);
  CONNECT (* X4_301_CONNECT *);
  INST "SMUAD" 0x0700f010 0x0ff0f0d0 0xf0000000 0xf0000000 (DGPR 16 19) DNA (DGPR 0 3) (DGPR 8 11) DNA DNA SMULD_OP;
  INST "SMLAD" 0x07000010 0x0ff000d0 0x0000f000 0x0000f000 (DGPR 16 19) DNA (DGPR 0 3) (DGPR 8 11) (DGPR 12 15) DNA SMULD_OP;
  INST "SMUSD" 0x0700f050 0x0ff0f0d0 0xf0000000 0xf0000000 (DGPR 16 19) DNA (DGPR 0 3) (DGPR 8 11) DNA DNA SMULD_OP;
  INST "SMLSD" 0x07000050 0x0ff000d0 0x0000f000 0x0000f000 (DGPR 16 19) DNA (DGPR 0 3) (DGPR 8 11) (DGPR 12 15) DNA SMULD_OP;
  INST "SMLALD" 0x07400010 0x0ff000d0 0xf0000000 0xf0000000 (DGPR 16 19) (DGPR 12 15) (DGPR 0 3) (DGPR 8 11) DNA DNA SMULD_OP;
  INST "SMLSLD" 0x07400050 0x0ff000d0 0xf0000000 0xf0000000 (DGPR 16 19) (DGPR 12 15) (DGPR 0 3) (DGPR 8 11) DNA DNA SMULD_OP;
  INST "SMMUL" 0x0750f010 0x0ff0f0d0 0xf0000000 0xf0000000 (DGPR 16 19) DNA (DGPR 0 3) (DGPR 8 11) DNA DNA SMUL_OP;
  INST "SMMLA" 0x07500010 0x0ff000d0 0x0000f000 0x0000f000 (DGPR 16 19) DNA (DGPR 0 3) (DGPR 8 11) (DGPR 12 15) DNA SMUL_OP;
  INST "SMMLS" 0x075000d0 0x0ff000d0 0xf0000000 0xf0000000 (DGPR 16 19) DNA (DGPR 0 3) (DGPR 8 11) (DGPR 12 15) DNA SMUL_OP;
  TAIL (* X4_301_END *);
  CONNECT (* X8_CONNECT *);
  INST "POP_a1" 0x08bd0000 0x0fff0000 0xf0000000 0xf0000000 (DGPR_LIST 0 15) DNA (DGPR 16 19) DNA DNA DNA POP_OP;
  INST "PUSH_a1" 0x092d0000 0x0fff0000 0xf0000000 0xf0000000 DNA DNA (DGPR 16 19) (DGPR_LIST 0 15) DNA DNA PUSH_OP;
  INST "STMDA" 0x08000000 0x0fd00000 0xf0000000 0xf0000000 DNA DNA (DGPR 16 19) (DGPR_LIST 0 15) DNA DNA STM_OP;
  INST "LDMDA" 0x08100000 0x0fd00000 0xf0000000 0xf0000000 (DGPR_LIST 0 15) DNA (DGPR 16 19) DNA DNA DNA LDM_OP;
  INST "STM" 0x08800000 0x0fd00000 0xf0000000 0xf0000000 DNA DNA (DGPR 16 19) (DGPR_LIST 0 15) DNA DNA STM_OP;
  INST "LDM" 0x08900000 0x0fd00000 0xf0000000 0xf0000000 (DGPR_LIST 0 15) DNA (DGPR 16 19) DNA DNA DNA LDM_OP;
  INST "STMDB" 0x09000000 0x0fd00000 0xf0000000 0xf0000000 DNA DNA (DGPR 16 19) (DGPR_LIST 0 15) DNA DNA STM_OP;
  INST "LDMDB" 0x09100000 0x0fd00000 0xf0000000 0xf0000000 (DGPR_LIST 0 15) DNA (DGPR 16 19) DNA DNA DNA LDM_OP;
  INST "STMIB" 0x09800000 0x0fd00000 0xf0000000 0xf0000000 DNA DNA (DGPR 16 19) (DGPR_LIST 0 15) DNA DNA STM_OP;
  INST "LDMIB" 0x09900000 0x0fd00000 0xf0000000 0xf0000000 (DGPR_LIST 0 15) DNA (DGPR 16 19) DNA DNA DNA LDM_OP;
  INST "STM_ureg" 0x08400000 0x0e500000 0xf0000000 0xf0000000 DNA DNA (DGPR 16 19) (DGPR_LIST 0 15) DNA DNA SYS_OP;
  INST "LDM_ureg" 0x08500000 0x0e508000 0xf0000000 0xf0000000 DNA DNA (DGPR 16 19) (DGPR_LIST 0 15) DNA DNA SYS_OP;
  INST "LDM_expr" 0x08508000 0x0e508000 0xf0000000 0xf0000000 DNA DNA (DGPR 16 19) (DGPR_LIST 0 15) DNA DNA SYS_OP;
  INST "B_imm" 0x0a000000 0x0f000000 0xf0000000 0xf0000000 DNA DNA (DIMM_SIGN_EXTEND 0 23 0) DNA DNA DNA JMP_OP;
  INST "BL_imm_a1" 0x0b000000 0x0f000000 0xf0000000 0xf0000000 DNA DNA (DIMM_SIGN_EXTEND 0 23 0) DNA DNA DNA JMP_OP;
  TAIL (* X8_END *);
  CONNECT (* XC_CONNECT *);
  INST "SVC" 0x0f000000 0x0f000000 0xf0000000 0xf0000000 DNA DNA (DIMM 0 23) DNA DNA DNA MISC_OP;
  LINK (* XC_A *);
  INST "MCR_reg" 0x0e000010 0x0f100010 0xf0000000 0xf0000000 (DGPR 12 15) DNA (DIMM 21 23) (DGPR 16 19) (DGPR 0 3) (DIMM 5 7) COPR_OP;
  INST "MRC_reg" 0x0e100010 0x0f100010 0xf0000000 0xf0000000 (DGPR 12 15) DNA (DIMM 21 23) (DGPR 16 19) (DGPR 0 3) (DIMM 5 7) COPR_OP;
  INST "STC" 0x0c000000 0x0e100000 0x00000000 0x03a00000 DNA DNA (DGPR 16 19) DNA DNA DNA NO_OP;
  INST "LDC_lit" 0x0c1f0000 0x0e1f0000 0x00000000 0x03a00000 DNA DNA DNA DNA DNA DNA NO_OP;
  INST "LDC_imm" 0x0c100000 0x0e100000 0x00000000 0x03a00000 DNA DNA (DGPR 16 19) DNA DNA DNA NO_OP;
  INST "MCRR" 0x0c400000 0x0ff00000 0xf0000000 0xf0000000 DNA DNA (DGPR 12 15) (DGPR 16 19) DNA DNA NO_OP;
  INST "MRRC" 0x0c500000 0x0ff00000 0xf0000000 0xf0000000 DNA DNA (DGPR 12 15) (DGPR 16 19) DNA DNA NO_OP;
  INST "CDP" 0x0e000000 0x0f000010 0xf0000000 0xf0000000 DNA DNA DNA DNA DNA DNA NO_OP;
  TAIL (* XC_END *);
  CONNECT (* XC_A_CONNECT *);
  LINK (* XC_A_0 *);
  LINK (* XC_A_1 *);
  LINK (* XC_A_20 *);
  LINK (* XC_A_21 *);
  TAIL (* XC_A_END *);
  CONNECT (* XC_A_0_CONNECT *);
  INST "VMOV_2reg_2sp" 0x0c400a10 0x0ff00fd0 0xf0000000 0xf0000000 (FPSR 0 3 5) DNA (DGPR 12 15) (DGPR 16 19) DNA DNA VFP_OP;
  INST "VMOV_2sp_2reg" 0x0c500a10 0x0ff00fd0 0xf0000000 0xf0000000 (DGPR 12 15) (DGPR 16 19) (FPSR 0 3 5) DNA DNA DNA VFP_OP;
  INST "VMOV_2reg_dp" 0x0c400b10 0x0ff00fd0 0xf0000000 0xf0000000 (FPDR 0 3 5) DNA (DGPR 12 15) (DGPR 16 19) DNA DNA VFP_OP;
  INST "VMOV_dp_2reg" 0x0c500b10 0x0ff00fd0 0xf0000000 0xf0000000 (DGPR 12 15) (DGPR 16 19) (FPDR 0 3 5) DNA DNA DNA VFP_OP;
  INST "VSTM_nw_a2" 0x0c800a00 0x0fb00f00 0xf0000000 0xf0000000 DNA DNA (FPSR 12 15 22) (DGPR 16 19) (DIMM 0 7) DNA VFP_OP;
  INST "VSTM_nw_a1" 0x0c800b00 0x0fb00f00 0xf0000000 0xf0000000 DNA DNA (FPDR 12 15 22) (DGPR 16 19) (DIMM 0 7) DNA VFP_OP;
  INST "VSTM_w_a2" 0x0ca00a00 0x0fb00f00 0xf0000000 0xf0000000 DNA DNA (FPSR 12 15 22) (DGPR 16 19) (DIMM 0 7) DNA VFP_OP;
  INST "VSTM_w_a1" 0x0ca00b00 0x0fb00f00 0xf0000000 0xf0000000 DNA DNA (FPDR 12 15 22) (DGPR 16 19) (DIMM 0 7) DNA VFP_OP;
  INST "VLDM_nw_a2" 0x0c900a00 0x0fb00f00 0xf0000000 0xf0000000 (FPSR 12 15 22) DNA (DGPR 16 19) (DIMM 0 7) DNA DNA VFP_OP;
  INST "VLDM_nw_a1" 0x0c900b00 0x0fb00f00 0xf0000000 0xf0000000 (FPDR 12 15 22) DNA (DGPR 16 19) (DIMM 0 7) DNA DNA VFP_OP;
  INST "VPOP_a2" 0x0cbd0a00 0x0fbf0f00 0xf0000000 0xf0000000 (FPSR 12 15 22) DNA (DGPR 16 19) (DIMM 0 7) DNA DNA VFP_OP;
  INST "VPOP_a1" 0x0cbd0b00 0x0fbf0f00 0xf0000000 0xf0000000 (FPDR 12 15 22) DNA (DGPR 16 19) (DIMM 0 7) DNA DNA VFP_OP;
  INST "VLDM_w_a2" 0x0cb00a00 0x0fb00f00 0xf00d0000 0xf00f0000 (FPSR 12 15 22) DNA (DGPR 16 19) (DIMM 0 7) DNA DNA VFP_OP;
  INST "VLDM_w_a1" 0x0cb00b00 0x0fb00f00 0xf00d0000 0xf00f0000 (FPDR 12 15 22) DNA (DGPR 16 19) (DIMM 0 7) DNA DNA VFP_OP;
  TAIL (* XC_A_0_END *);
  CONNECT (* XC_A_1_CONNECT *);
  INST "VSTR_a2" 0x0d000a00 0x0f300f00 0xf0000000 0xf0000000 DNA DNA (FPSR 12 15 22) (DGPR 16 19) (DIMM_ZERO_EXTEND 0 7 2) DNA VFP_OP;
  INST "VSTR_a1" 0x0d000b00 0x0f300f00 0xf0000000 0xf0000000 DNA DNA (FPDR 12 15 22) (DGPR 16 19) (DIMM_ZERO_EXTEND 0 7 2) DNA VFP_OP;
  INST "VPUSH_a2" 0x0d2d0a00 0x0fbf0f00 0xf0000000 0xf0000000 DNA DNA (FPSR 12 15 22) (DGPR 16 19) (DIMM 0 7) DNA VFP_OP;
  INST "VPUSH_a1" 0x0d2d0b00 0x0fbf0f00 0xf0000000 0xf0000000 DNA DNA (FPDR 12 15 22) (DGPR 16 19) (DIMM 0 7) DNA VFP_OP;
  INST "VSTM_db_w_a2" 0x0d200a00 0x0fb00f00 0xf00d0000 0xf00f0000 DNA DNA (FPSR 12 15 22) (DGPR 16 19) (DIMM 0 7) DNA VFP_OP;
  INST "VSTM_db_w_a1" 0x0d200b00 0x0fb00f00 0xf00d0000 0xf00f0000 DNA DNA (FPDR 12 15 22) (DGPR 16 19) (DIMM 0 7) DNA VFP_OP;
  INST "VLDR_a2" 0x0d100a00 0x0f300f00 0xf0000000 0xf0000000 (FPSR 12 15 22) DNA (DGPR 16 19) (DIMM_ZERO_EXTEND 0 7 2) DNA DNA VFP_OP;
  INST "VLDR_a1" 0x0d100b00 0x0f300f00 0xf0000000 0xf0000000 (FPDR 12 15 22) DNA (DGPR 16 19) (DIMM_ZERO_EXTEND 0 7 2) DNA DNA VFP_OP;
  INST "VLDM_db_w_a2" 0x0d300a00 0x0fb00f00 0xf0000000 0xf0000000 (FPSR 12 15 22) DNA (DGPR 16 19) (DIMM 0 7) DNA DNA VFP_OP;
  INST "VLDM_db_w_a1" 0x0d300b00 0x0fb00f00 0xf0000000 0xf0000000 (FPDR 12 15 22) DNA (DGPR 16 19) (DIMM 0 7) DNA DNA VFP_OP;
  TAIL (* XC_A_1_END *);
  CONNECT (* XC_A_20_CONNECT *);
  LINK (* XC_A_20_B *);
  INST "VMLA_vfp_a2" 0x0e000a00 0x0fb00e50 0xf0000000 0xf0000000 (FPDSR 12 15 22 8) DNA (FPDSR 16 19 7 8) (FPDSR 0 3 5 8) DNA DNA VFP_OP;
  INST "VMLS_vfp_a2" 0x0e000a40 0x0fb00e50 0xf0000000 0xf0000000 (FPDSR 12 15 22 8) DNA (FPDSR 16 19 7 8) (FPDSR 0 3 5 8) DNA DNA VFP_OP;
  INST "VNMLA" 0x0e100a40 0x0fb00e50 0xf0000000 0xf0000000 (FPDSR 12 15 22 8) DNA (FPDSR 16 19 7 8) (FPDSR 0 3 5 8) DNA DNA VFP_OP;
  INST "VNMLS" 0x0e100a00 0x0fb00e50 0xf0000000 0xf0000000 (FPDSR 12 15 22 8) DNA (FPDSR 16 19 7 8) (FPDSR 0 3 5 8) DNA DNA VFP_OP;
  INST "VMUL_fp_a2" 0x0e200a00 0x0fb00e50 0xf0000000 0xf0000000 (FPDSR 12 15 22 8) DNA (FPDSR 16 19 7 8) (FPDSR 0 3 5 8) DNA DNA VFP_OP;
  INST "VNMUL" 0x0e200a40 0x0fb00e50 0xf0000000 0xf0000000 (FPDSR 12 15 22 8) DNA (FPDSR 16 19 7 8) (FPDSR 0 3 5 8) DNA DNA VFP_OP;
  INST "VADD_fp_a2" 0x0e300a00 0x0fb00e50 0xf0000000 0xf0000000 (FPDSR 12 15 22 8) DNA (FPDSR 16 19 7 8) (FPDSR 0 3 5 8) DNA DNA VFP_OP;
  INST "VSUB_fp_a2" 0x0e300a40 0x0fb00e50 0xf0000000 0xf0000000 (FPDSR 12 15 22 8) DNA (FPDSR 16 19 7 8) (FPDSR 0 3 5 8) DNA DNA VFP_OP;
  INST "VDIV" 0x0e800a00 0x0fb00e50 0xf0000000 0xf0000000 (FPDSR 12 15 22 8) DNA (FPDSR 16 19 7 8) (FPDSR 0 3 5 8) DNA DNA VFP_OP;
  TAIL (* XC_A_20_END *);
  CONNECT (* XC_A_20_B_CONNECT *);
  INST "VMOV_imm" 0x0eb00a00 0x0fb00e50 0xf0000000 0xf0000000 (FPDSR 12 15 22 8) DNA (DIMM_VFP_EXPAND 16 19 0 3) DNA DNA DNA VFP_OP;
  INST "VMOV" 0x0eb00a40 0x0fbf0ed0 0xf0000000 0xf0000000 (FPDSR 12 15 22 8) DNA (FPDSR 0 3 5 8) DNA DNA DNA VFP_OP;
  INST "VABS" 0x0eb00ac0 0x0fbf0ed0 0xf0000000 0xf0000000 (FPDSR 12 15 22 8) DNA (FPDSR 0 3 5 8) DNA DNA DNA VFP_OP;
  INST "VNEG_a2" 0x0eb10a40 0x0fbf0ed0 0xf0000000 0xf0000000 (FPDSR 12 15 22 8) DNA (FPDSR 0 3 5 8) DNA DNA DNA VFP_OP;
  INST "VSQRT" 0x0eb10ac0 0x0fbf0ed0 0xf0000000 0xf0000000 (FPDSR 12 15 22 8) DNA (FPDSR 0 3 5 8) DNA DNA DNA VFP_OP;
  INST "VCVTB" 0x0eb20a40 0x0fbe0fd0 0xf0000000 0xf0000000 (FPSR 12 15 22) DNA (FPSR 0 3 5) DNA DNA DNA VFP_OP;
  INST "VCVTT" 0x0eb20ac0 0x0fbe0fd0 0xf0000000 0xf0000000 (FPSR 12 15 22) DNA (FPSR 0 3 5) DNA DNA DNA VFP_OP;
  INST "VCMP_a1" 0x0eb40a40 0x0fbf0ed0 0xf0000000 0xf0000000 DNA DNA (FPDSR 12 15 22 8) (FPDSR 0 3 5 8) DNA DNA VFP_OP;
  INST "VCMP_a2" 0x0eb50a40 0x0fbf0ed0 0xf0000000 0xf0000000 DNA DNA (FPDSR 12 15 22 8) DNA DNA DNA VFP_OP;
  INST "VCMPE_a1" 0x0eb40ac0 0x0fbf0ed0 0xf0000000 0xf0000000 DNA DNA (FPDSR 12 15 22 8) (FPDSR 0 3 5 8) DNA DNA VFP_OP;
  INST "VCMPE_a2" 0x0eb50ac0 0x0fbf0ed0 0xf0000000 0xf0000000 DNA DNA (FPDSR 12 15 22 8) DNA DNA DNA VFP_OP;
  INST "VCVT_spdp" 0x0eb70ac0 0x0fbf0fd0 0x00000000 0x000e0000 (FPDR 12 15 22) DNA (FPSR 0 3 5) DNA DNA DNA VFP_OP;
  INST "VCVT_dpsp" 0x0eb70bc0 0x0fbf0fd0 0x00000000 0x000e0000 (FPSR 12 15 22) DNA (FPDR 0 3 5) DNA DNA DNA VFP_OP;
  INST "VCVT_imm" 0x0eba0a40 0x0fba0e50 0x00000000 0x000e0000 (FPDSR 12 15 22 8) DNA (FPDSR 12 15 22 8) (DIMM_MERGE 0 3 5 5) DNA DNA VFP_OP;
  INST "VCVT" 0x0eb80a40 0x0fb80e50 0x00000000 0x000e0000 (FPDSR 12 15 22 8) DNA (FPDSR 0 3 5 8) (DIMM 16 18) (DIMM 7 7) DNA VFP_OP;
  TAIL (* XC_A_20_B_END *);
  CONNECT (* XC_A_21_CONNECT *);
  INST "VMOV_reg2sp" 0x0e000a10 0x0ff00f10 0xf0000000 0xf0000000 (FPSR 16 19 7) DNA (DGPR 12 15) DNA DNA DNA VFP_OP;
  INST "VMOV_sp2reg" 0x0e100a10 0x0ff00f10 0xf0000000 0xf0000000 (DGPR 12 15) DNA (FPSR 16 19 7) DNA DNA DNA VFP_OP;
  INST "VMSR" 0x0ee10a10 0x0fff0f90 0xf0000000 0xf0000000 DNA DNA (DGPR 12 15) DNA DNA DNA VFP_OP;
  INST "VMOV_reg2sc" 0x0e000b10 0x0f900f10 0xf0000000 0xf0000000 (FPDR 16 19 7) DNA (DGPR 12 15) DNA DNA DNA VFP_OP;
  INST "VDUP" 0x0e800b10 0x0f900f50 0xf0000000 0xf0000000 (FPQDR 16 19 7 21) DNA (DGPR 12 15) (DIMM_MERGE 5 5 22 22) DNA DNA SIMD_OP;
  INST "VMRS" 0x0ef10a10 0x0fff0f90 0xf0000000 0xf0000000 (DGPR 12 15) DNA DNA DNA DNA DNA VFP_OP;
  INST "VMOV_sc2reg" 0x0e100b10 0x0f100f10 0xf0000000 0xf0000000 (DGPR 12 15) DNA (FPDR 16 19 7) DNA DNA DNA VFP_OP;
  TAIL (* XC_A_21_END *);
  CONNECT (* F0_CONNECT *);
  INST "CPS" 0xf1000000 0xfff10020 0xffffffff 0x00000000 DNA DNA DNA DNA DNA DNA SYS_OP;
  INST "SETEND" 0xf1010000 0xfff100f0 0xffffffff 0x00000000 DNA DNA DNA DNA DNA DNA NO_OP;
  TAIL (* F0_END *);
  CONNECT (* F2_CONNECT *);
  LINK (* F2_0 *);
  LINK (* F2_801 *);
  LINK (* F2_8x1 *);
  LINK (* F2_1B00 *);
  LINK (* F2_8x0 *);
  LINK (* F2_8x4 *);
  INST "VEXT" 0xf2b00000 0xffb00010 0xffffffff 0x00000000 (FPQDR 12 15 22 6) DNA (FPQDR 16 19 7 6) (FPQDR 0 3 5 6) (DIMM 8 11) DNA SIMD_OP;
  INST "VTBL" 0xf3b00800 0xffb00c50 0xffffffff 0x00000000 (FPDR 12 15 22) DNA (FPDR 16 19 7) (FPDR 0 3 5) DNA DNA SIMD_OP;
  INST "VTBX" 0xf3b00840 0xffb00c50 0xffffffff 0x00000000 (FPDR 12 15 22) DNA (FPDR 16 19 7) (FPDR 0 3 5) DNA DNA SIMD_OP;
  INST "VDUP_sc" 0xf3b00c00 0xffb00f90 0xffffffff 0x00000000 (FPQDR 12 15 22 6) DNA (FPDR 0 3 5) (DIMM 16 19) DNA DNA SIMD_OP;
  TAIL (* F2_END *);
  CONNECT (* F2_0_CONNECT *);
  LINK (* F2_0_0 *);
  LINK (* F2_0_2 *);
  LINK (* F2_0_4 *);
  LINK (* F2_0_6 *);
  LINK (* F2_0_8 *);
  LINK (* F2_0_A *);
  LINK (* F2_0_C *);
  LINK (* F2_0_E *);
  TAIL (* F2_0_END *);
  CONNECT (* F2_0_0_CONNECT *);
  INST "VHADD" 0xf2000000 0xfe800f10 0xffffffff 0x00000000 (FPQDR 12 15 22 6) DNA (FPQDR 16 19 7 6) (FPQDR 0 3 5 6) (DIMM 20 21) DNA SIMD_OP;
  INST "VQADD" 0xf2000010 0xfe800f10 0xffffffff 0x00000000 (FPQDR 12 15 22 6) DNA (FPQDR 16 19 7 6) (FPQDR 0 3 5 6) (DIMM 18 19) DNA SIMD_OP;
  INST "VRHADD" 0xf2000100 0xfe800f10 0xffffffff 0x00000000 (FPQDR 12 15 22 6) DNA (FPQDR 16 19 7 6) (FPQDR 0 3 5 6) (DIMM 20 21) DNA SIMD_OP;
  INST "VAND" 0xf2000110 0xffb00f10 0xffffffff 0x00000000 (FPQDR 12 15 22 6) DNA (FPQDR 16 19 7 6) (FPQDR 0 3 5 6) DNA DNA SIMD_OP;
  INST "VBIC" 0xf2100110 0xffb00f10 0xffffffff 0x00000000 (FPQDR 12 15 22 6) DNA (FPQDR 16 19 7 6) (FPQDR 0 3 5 6) DNA DNA SIMD_OP;
  INST "VORR" 0xf2200110 0xffb00f10 0xffffffff 0x00000000 (FPQDR 12 15 22 6) DNA (FPQDR 16 19 7 6) (FPQDR 0 3 5 6) DNA DNA SIMD_OP;
  INST "VORN" 0xf2300110 0xffb00f10 0xffffffff 0x00000000 (FPQDR 12 15 22 6) DNA (FPQDR 16 19 7 6) (FPQDR 0 3 5 6) DNA DNA SIMD_OP;
  INST "VEOR" 0xf3000110 0xffb00f10 0xffffffff 0x00000000 (FPQDR 12 15 22 6) DNA (FPQDR 16 19 7 6) (FPQDR 0 3 5 6) DNA DNA SIMD_OP;
  INST "VBSL" 0xf3100110 0xffb00f10 0xffffffff 0x00000000 (FPQDR 12 15 22 6) DNA (FPQDR 16 19 7 6) (FPQDR 0 3 5 6) DNA DNA SIMD_OP;
  INST "VBIT" 0xf3200110 0xffb00f10 0xffffffff 0x00000000 (FPQDR 12 15 22 6) DNA (FPQDR 16 19 7 6) (FPQDR 0 3 5 6) DNA DNA SIMD_OP;
  INST "VBIF" 0xf3300110 0xffb00f10 0xffffffff 0x00000000 (FPQDR 12 15 22 6) DNA (FPQDR 16 19 7 6) (FPQDR 0 3 5 6) DNA DNA SIMD_OP;
  TAIL (* F2_0_0_END *);
  CONNECT (* F2_0_2_CONNECT *);
  INST "VHSUB" 0xf2000200 0xfe800f10 0xffffffff 0x00000000 (FPQDR 12 15 22 6) DNA (FPQDR 16 19 7 6) (FPQDR 0 3 5 6) (DIMM 20 21) DNA SIMD_OP;
  INST "VQSUB" 0xf2000210 0xfe800f10 0xffffffff 0x00000000 (FPQDR 12 15 22 6) DNA (FPQDR 16 19 7 6) (FPQDR 0 3 5 6) (DIMM 20 21) DNA SIMD_OP;
  INST "VCGT" 0xf2000300 0xfe800f10 0xffffffff 0x00000000 (FPQDR 12 15 22 6) DNA (FPQDR 16 19 7 6) (FPQDR 0 3 5 6) (DIMM 20 21) DNA SIMD_OP;
  INST "VCGE" 0xf2000310 0xfe800f10 0xffffffff 0x00000000 (FPQDR 12 15 22 6) DNA (FPQDR 16 19 7 6) (FPQDR 0 3 5 6) (DIMM 20 21) DNA SIMD_OP;
  TAIL (* F2_0_2_END *);
  CONNECT (* F2_0_4_CONNECT *);
  INST "VSHL" 0xf2000400 0xfe800f10 0xffffffff 0x00000000 (FPQDR 12 15 22 6) DNA (FPQDR 16 19 7 6) (FPQDR 0 3 5 6) (DIMM 20 21) DNA SIMD_OP;
  INST "VQSHL" 0xf2000410 0xfe800f10 0xffffffff 0x00000000 (FPQDR 12 15 22 6) DNA (FPQDR 16 19 7 6) (FPQDR 0 3 5 6) (DIMM 20 21) DNA SIMD_OP;
  INST "VRSHL" 0xf2000500 0xfe800f10 0xffffffff 0x00000000 (FPQDR 12 15 22 6) DNA (FPQDR 16 19 7 6) (FPQDR 0 3 5 6) (DIMM 20 21) DNA SIMD_OP;
  INST "VQRSHL" 0xf2000510 0xfe800f10 0xffffffff 0x00000000 (FPQDR 12 15 22 6) DNA (FPQDR 16 19 7 6) (FPQDR 0 3 5 6) (DIMM 20 21) DNA SIMD_OP;
  TAIL (* F2_0_4_END *);
  CONNECT (* F2_0_6_CONNECT *);
  INST "VMAX_int" 0xf2000600 0xfe800f10 0xffffffff 0x00000000 (FPQDR 12 15 22 6) DNA (FPQDR 16 19 7 6) (FPQDR 0 3 5 6) (DIMM 20 21) DNA SIMD_OP;
  INST "VMIN_int" 0xf2000610 0xfe800f10 0xffffffff 0x00000000 (FPQDR 12 15 22 6) DNA (FPQDR 16 19 7 6) (FPQDR 0 3 5 6) (DIMM 20 21) DNA SIMD_OP;
  INST "VABD_int" 0xf2000700 0xfe800f10 0x00300000 0x00300000 (FPQDR 12 15 22 6) DNA (FPQDR 16 19 7 6) (FPQDR 0 3 5 6) (DIMM 20 21) DNA SIMD_OP;
  INST "VABA" 0xf2000710 0xfe800f10 0xffffffff 0x00000000 (FPQDR 12 15 22 6) DNA (FPQDR 16 19 7 6) (FPQDR 0 3 5 6) (DIMM 20 21) DNA SIMD_OP;
  TAIL (* F2_0_6_END *);
  CONNECT (* F2_0_8_CONNECT *);
  INST "VADD_int" 0xf2000800 0xff800f10 0xffffffff 0x00000000 (FPQDR 12 15 22 6) DNA (FPQDR 16 19 7 6) (FPQDR 0 3 5 6) (DIMM 20 21) DNA SIMD_OP;
  INST "VSUB_int" 0xf3000800 0xff800f10 0xffffffff 0x00000000 (FPQDR 12 15 22 6) DNA (FPQDR 16 19 7 6) (FPQDR 0 3 5 6) (DIMM 20 21) DNA SIMD_OP;
  INST "VTST" 0xf2000800 0xff800f10 0xffffffff 0x00000000 (FPQDR 12 15 22 6) DNA (FPQDR 16 19 7 6) (FPQDR 0 3 5 6) (DIMM 20 21) DNA SIMD_OP;
  INST "VCEQ" 0xf3000810 0xff800f10 0xffffffff 0x00000000 (FPQDR 12 15 22 6) DNA (FPQDR 16 19 7 6) (FPQDR 0 3 5 6) (DIMM 20 21) DNA SIMD_OP;
  INST "VMLA" 0xf2000900 0xff800f10 0x00300000 0x00300000 (FPQDR 12 15 22 6) DNA (FPQDR 16 19 7 6) (FPQDR 0 3 5 6) (DIMM 20 21) DNA SIMD_OP;
  INST "VMLS" 0xf3000900 0xff800f10 0x00300000 0x00300000 (FPQDR 12 15 22 6) DNA (FPQDR 16 19 7 6) (FPQDR 0 3 5 6) (DIMM 20 21) DNA SIMD_OP;
  INST "VMUL_int_a1" 0xf2000910 0xff800f10 0x00300000 0x00300000 (FPQDR 12 15 22 6) DNA (FPQDR 16 19 7 6) (FPQDR 0 3 5 6) (DIMM 20 21) DNA SIMD_OP;
  INST "VMUL_poly_a1" 0xf3000910 0xff800f10 0x00300000 0x00300000 (FPQDR 12 15 22 6) DNA (FPQDR 16 19 7 6) (FPQDR 0 3 5 6) (DIMM 20 21) DNA SIMD_OP;
  TAIL (* F2_0_8_END *);
  CONNECT (* F2_0_A_CONNECT *);
  INST "VPMAX_int" 0xf2000a00 0xfe800f10 0xffffffff 0x00000000 (FPDR 12 15 22) DNA (FPDR 16 19 7) (FPDR 0 3 5) (DIMM 18 19) DNA SIMD_OP;
  INST "VPMIN_int" 0xf2000a10 0xfe800f10 0xffffffff 0x00000000 (FPDR 12 15 22) DNA (FPDR 16 19 7) (FPDR 0 3 5) (DIMM 18 19) DNA SIMD_OP;
  INST "VQDMULH" 0xf2000b00 0xff800f10 0x00300000 0x00300000 (FPQDR 12 15 22 6) DNA (FPQDR 16 19 7 6) (FPQDR 0 3 5 6) (DIMM 20 21) DNA SIMD_OP;
  INST "VQRDMULH" 0xf3000b00 0xff800f10 0xffffffff 0x00000000 (FPQDR 12 15 22 6) DNA (FPQDR 16 19 7 6) (FPQDR 0 3 5 6) (DIMM 20 21) DNA SIMD_OP;
  INST "VPADD" 0xf2000b10 0xff800f10 0x00300000 0x00300000 (FPDR 12 15 22) DNA (FPDR 16 19 7) (FPDR 0 3 5) (DIMM 18 19) DNA SIMD_OP;
  TAIL (* F2_0_A_END *);
  CONNECT (* F2_0_C_CONNECT *);
  INST "VADD_fp_a1" 0xf2000d00 0xffa00f10 0xffffffff 0x00000000 (FPQDR 12 15 22 6) DNA (FPQDR 16 19 7 6) (FPQDR 0 3 5 6) (DIMM 21 21) DNA SIMD_OP;
  INST "VSUB_fp_a1" 0xf2200d00 0xffa00f10 0xffffffff 0x00000000 (FPQDR 12 15 22 6) DNA (FPQDR 16 19 7 6) (FPQDR 0 3 5 6) (DIMM 21 21) DNA SIMD_OP;
  INST "VPADD_fp" 0xf3000d00 0xffa00f10 0x00100000 0x00100000 (FPDR 12 15 22) DNA (FPDR 16 19 7) (FPDR 0 3 5) DNA DNA SIMD_OP;
  INST "VABD_fp" 0xf3200d00 0xffa00f10 0xffffffff 0x00000000 (FPQDR 12 15 22 6) DNA (FPQDR 16 19 7 6) (FPQDR 0 3 5 6) (DIMM 20 20) DNA SIMD_OP;
  INST "VMLA_fp" 0xf2000d10 0xffa00f10 0xffffffff 0x00000000 (FPQDR 12 15 22 6) DNA (FPQDR 16 19 7 6) (FPQDR 0 3 5 6) DNA DNA SIMD_OP;
  INST "VMLS_fp" 0xf2200d10 0xffa00f10 0xffffffff 0x00000000 (FPQDR 12 15 22 6) DNA (FPQDR 16 19 7 6) (FPQDR 0 3 5 6) DNA DNA SIMD_OP;
  INST "VMUL_fp_a1" 0xf3000d10 0xffa00f10 0xffffffff 0x00000000 (FPQDR 12 15 22 6) DNA (FPQDR 16 19 7 6) (FPQDR 0 3 5 6) DNA DNA SIMD_OP;
  TAIL (* F2_0_C_END *);
  CONNECT (* F2_0_E_CONNECT *);
  INST "VCEQ_fp" 0xf2000e00 0xffa00f10 0xffffffff 0x00000000 (FPQDR 12 15 22 6) DNA (FPQDR 16 19 7 6) (FPQDR 0 3 5 6) DNA DNA SIMD_OP;
  INST "VCGE_fp" 0xf3000e00 0xffa00f10 0xffffffff 0x00000000 (FPQDR 12 15 22 6) DNA (FPQDR 16 19 7 6) (FPQDR 0 3 5 6) DNA DNA SIMD_OP;
  INST "VCGT_fp" 0xf3200e00 0xffa00f10 0xffffffff 0x00000000 (FPQDR 12 15 22 6) DNA (FPQDR 16 19 7 6) (FPQDR 0 3 5 6) DNA DNA SIMD_OP;
  INST "VACGE" 0xf3000e10 0xffa00f10 0xffffffff 0x00000000 (FPQDR 12 15 22 6) DNA (FPQDR 16 19 7 6) (FPQDR 0 3 5 6) DNA DNA SIMD_OP;
  INST "VACGT" 0xf3200e10 0xffa00f10 0xffffffff 0x00000000 (FPQDR 12 15 22 6) DNA (FPQDR 16 19 7 6) (FPQDR 0 3 5 6) DNA DNA SIMD_OP;
  INST "VMAX_fp" 0xf2000f00 0xffa00f10 0xffffffff 0x00000000 (FPQDR 12 15 22 6) DNA (FPQDR 16 19 7 6) (FPQDR 0 3 5 6) DNA DNA SIMD_OP;
  INST "VMIN_fp" 0xf2200f00 0xffa00f10 0xffffffff 0x00000000 (FPQDR 12 15 22 6) DNA (FPQDR 16 19 7 6) (FPQDR 0 3 5 6) DNA DNA SIMD_OP;
  INST "VPMAX_fp" 0xf3000f00 0xffa00f10 0xffffffff 0x00000000 (FPDR 12 15 22) DNA (FPDR 16 19 7) (FPDR 0 3 5) DNA DNA SIMD_OP;
  INST "VPMIN_fp" 0xf3200f00 0xffa00f10 0xffffffff 0x00000000 (FPDR 12 15 22) DNA (FPDR 16 19 7) (FPDR 0 3 5) DNA DNA SIMD_OP;
  INST "VRECPS" 0xf2000f10 0xffa00f10 0xffffffff 0x00000000 (FPQDR 12 15 22 6) DNA (FPQDR 16 19 7 6) (FPQDR 0 3 5 6) DNA DNA SIMD_OP;
  INST "VRSQRTS" 0xf2200f10 0xffa00f10 0xffffffff 0x00000000 (FPQDR 12 15 22 6) DNA (FPQDR 16 19 7 6) (FPQDR 0 3 5 6) DNA DNA SIMD_OP;
  TAIL (* F2_0_E_END *);
  CONNECT (* F2_801_CONNECT *);
  INST "VMOV_imm_0" 0xf2800010 0xfeb80990 0xffffffff 0x00000000 (FPQDR 12 15 22 6) DNA (DIMM_SIMDEXP 0 3) DNA DNA DNA SIMD_OP;
  INST "VMOV_imm_1" 0xf2800810 0xfeb80d90 0xffffffff 0x00000000 (FPQDR 12 15 22 6) DNA (DIMM_SIMDEXP 0 3) DNA DNA DNA SIMD_OP;
  INST "VMOV_imm_2" 0xf2800c10 0xfeb80c90 0xffffffff 0x00000000 (FPQDR 12 15 22 6) DNA (DIMM_SIMDEXP 0 3) DNA DNA DNA SIMD_OP;
  INST "VMOV_imm_3" 0xf2800e10 0xfeb80f90 0xffffffff 0x00000000 (FPQDR 12 15 22 6) DNA (DIMM_SIMDEXP 0 3) DNA DNA DNA SIMD_OP;
  INST "VORR_imm" 0xf2800110 0xfeb809b0 0xffffffff 0x00000000 (FPQDR 12 15 22 6) DNA (FPQDR 12 15 22 6) (DIMM_SIMDEXP 0 3) DNA DNA SIMD_OP;
  INST "VORR_imm_0" 0xf2800910 0xfeb80db0 0xffffffff 0x00000000 (FPQDR 12 15 22 6) DNA (FPQDR 12 15 22 6) (DIMM_SIMDEXP 0 3) DNA DNA SIMD_OP;
  INST "VMVN_imm" 0xf2800030 0xfeb809b0 0xffffffff 0x00000000 (FPQDR 12 15 22 6) DNA (DIMM_SIMDEXP 0 3) DNA DNA DNA SIMD_OP;
  INST "VMVN_imm_0" 0xf2800830 0xfeb80db0 0xffffffff 0x00000000 (FPQDR 12 15 22 6) DNA (DIMM_SIMDEXP 0 3) DNA DNA DNA SIMD_OP;
  INST "VMVN_imm_1" 0xf2800c30 0xfeb80eb0 0xffffffff 0x00000000 (FPQDR 12 15 22 6) DNA (DIMM_SIMDEXP 0 3) DNA DNA DNA SIMD_OP;
  INST "VBIC_imm" 0xf2800130 0xfeb809b0 0xffffffff 0x00000000 (FPQDR 12 15 22 6) DNA (FPQDR 12 15 22 6) (DIMM_SIMDEXP 0 3) DNA DNA SIMD_OP;
  INST "VBIC_imm_0" 0xf2800930 0xfeb80d30 0xffffffff 0x00000000 (FPQDR 12 15 22 6) DNA (FPQDR 12 15 22 6) (DIMM_SIMDEXP 0 3) DNA DNA SIMD_OP;
  TAIL (* F2_801_END *);
  CONNECT (* F2_8x1_CONNECT *);
  INST "VSHR" 0xf2800010 0xfe800f10 0xffffffff 0x00000000 (FPQDR 12 15 22 6) DNA (FPQDR 0 3 5 6) (DIMM_MERGE 7 7 16 21) DNA DNA SIMD_OP;
  INST "VSRA" 0xf2800110 0xfe800f10 0xffffffff 0x00000000 (FPQDR 12 15 22 6) DNA (FPQDR 0 3 5 6) (DIMM_MERGE 7 7 16 21) DNA DNA SIMD_OP;
  INST "VRSHR" 0xf2800210 0xfe800f10 0xffffffff 0x00000000 (FPQDR 12 15 22 6) DNA (FPQDR 0 3 5 6) (DIMM_MERGE 7 7 16 21) DNA DNA SIMD_OP;
  INST "VRSRA" 0xf2800310 0xfe800f10 0xffffffff 0x00000000 (FPQDR 12 15 22 6) DNA (FPQDR 0 3 5 6) (DIMM_MERGE 7 7 16 21) DNA DNA SIMD_OP;
  INST "VSRI" 0xf3800410 0xff800f10 0xffffffff 0x00000000 (FPQDR 12 15 22 6) DNA (FPQDR 0 3 5 6) (DIMM_MERGE 7 7 16 21) DNA DNA SIMD_OP;
  INST "VSHL_imm" 0xf2800510 0xff800f10 0xffffffff 0x00000000 (FPQDR 12 15 22 6) DNA (FPQDR 0 3 5 6) (DIMM_MERGE 7 7 16 21) DNA DNA SIMD_OP;
  INST "VSLI" 0xf3800510 0xff800f10 0xffffffff 0x00000000 (FPQDR 12 15 22 6) DNA (FPQDR 0 3 5 6) (DIMM_MERGE 7 7 16 21) DNA DNA SIMD_OP;
  INST "VQSHLU_imm" 0xf3800610 0xff800f10 0xffffffff 0x00000000 (FPQDR 12 15 22 6) DNA (FPQDR 0 3 5 6) (DIMM_MERGE 7 7 16 21) DNA DNA SIMD_OP;
  INST "VQSHL_imm" 0xf2800710 0xfe800f10 0xffffffff 0x00000000 (FPQDR 12 15 22 6) DNA (FPQDR 0 3 5 6) (DIMM_MERGE 7 7 16 21) DNA DNA SIMD_OP;
  INST "VSHRN" 0xf2800810 0xff800fd0 0xffffffff 0x00000000 (FPDR 12 15 22) DNA (FPQR 0 3 5) (DIMM 16 21) DNA DNA SIMD_OP;
  INST "VRSHRN" 0xf2800850 0xff800f50 0xffffffff 0x00000000 (FPDR 12 15 22) DNA (FPQR 0 3 5) (DIMM 16 21) DNA DNA SIMD_OP;
  INST "VQSHRUN" 0xf3800810 0xff800f50 0xffffffff 0x00000000 (FPDR 12 15 22) DNA (FPQR 0 3 5) (DIMM 16 21) DNA DNA SIMD_OP;
  INST "VQRSHRUN" 0xf3800850 0xff800f50 0xffffffff 0x00000000 (FPDR 12 15 22) DNA (FPQR 0 3 5) (DIMM 16 21) DNA DNA SIMD_OP;
  INST "VQSHRN" 0xf2800910 0xfe800f50 0xffffffff 0x00000000 (FPDR 12 15 22) DNA (FPQR 0 3 5) (DIMM 16 21) DNA DNA SIMD_OP;
  INST "VQRSHRN" 0xf2800950 0xfe800f50 0xffffffff 0x00000000 (FPDR 12 15 22) DNA (FPQR 0 3 5) (DIMM 16 21) DNA DNA SIMD_OP;
  INST "VMOV_a1" 0xf2200110 0xffb00f10 0xffffffff 0x00000000 (FPQDR 12 15 22 6) DNA (FPQDR 0 3 5 6) (FPQDR 16 19 7 6) DNA DNA SIMD_OP;
  INST "VMOVL" 0xf2800a10 0xfe870fd0 0xffffffff 0x00000000 (FPQR 12 15 22) DNA (FPDR 0 3 5) (DIMM 19 21) DNA DNA SIMD_OP;
  INST "VSHLL" 0xf2800a10 0xfe800f50 0x00000000 0x00380000 (FPQR 12 15 22) DNA (FPDR 0 3 5) (DIMM 16 21) DNA DNA SIMD_OP;
  INST "VCVT_fpfx" 0xf2800e10 0xfe800e10 0xffffffff 0x00000000 (FPQDR 12 15 22 6) DNA (FPQDR 0 3 5 6) (DIMM 8 8) DNA DNA SIMD_OP;
  TAIL (* F2_8x1_END *);
  CONNECT (* F2_8x0_CONNECT *);
  INST "VADDL" 0xf2800000 0xfe800f50 0x00300000 0x00300000 (FPQR 12 15 22) DNA (FPDR 16 19 7) (FPDR 0 3 5) (DIMM 20 21) DNA SIMD_OP;
  INST "VADDW" 0xf2800100 0xfe800f50 0x00300000 0x00300000 (FPQR 12 15 22) DNA (FPQR 16 19 7) (FPDR 0 3 5) (DIMM 20 21) DNA SIMD_OP;
  INST "VSUBL" 0xf2800200 0xfe800f50 0x00300000 0x00300000 (FPQR 12 15 22) DNA (FPDR 16 19 7) (FPDR 0 3 5) (DIMM 20 21) DNA SIMD_OP;
  INST "VSUBW" 0xf2800300 0xfe800f50 0x00300000 0x00300000 (FPQR 12 15 22) DNA (FPQR 16 19 7) (FPDR 0 3 5) (DIMM 20 21) DNA SIMD_OP;
  INST "VADDHN" 0xf2800400 0xff800f50 0x00300000 0x00300000 (FPDR 12 15 22) DNA (FPQR 16 19 7) (FPQR 0 3 5) (DIMM 20 21) DNA SIMD_OP;
  INST "VRADDHN" 0xf3800400 0xff800f50 0x00300000 0x00300000 (FPDR 12 15 22) DNA (FPQR 16 19 7) (FPQR 0 3 5) (DIMM 20 21) DNA SIMD_OP;
  INST "VABAL" 0xf2800500 0xfe800f50 0x00300000 0x00300000 (FPQR 12 15 22) DNA (FPDR 16 19 7) (FPDR 0 3 5) (DIMM 20 21) DNA SIMD_OP;
  INST "VSUBHN" 0xf2800600 0xff800f50 0x00300000 0x00300000 (FPDR 12 15 22) DNA (FPQR 16 19 7) (FPQR 0 3 5) (DIMM 20 21) DNA SIMD_OP;
  INST "VRSUBHN" 0xf3800600 0xff800f50 0x00300000 0x00300000 (FPDR 12 15 22) DNA (FPQR 16 19 7) (FPQR 0 3 5) (DIMM 20 21) DNA SIMD_OP;
  INST "VABDL_int" 0xf2800700 0xfe800f50 0x00300000 0x00300000 (FPQR 12 15 22) DNA (FPDR 16 19 7) (FPDR 0 3 5) (DIMM 20 21) DNA SIMD_OP;
  INST "VMLAL_int" 0xf2800800 0xfe800f50 0x00300000 0x00300000 (FPQR 12 15 22) DNA (FPDR 16 19 7) (FPDR 0 3 5) (DIMM 20 21) DNA SIMD_OP;
  INST "VMLSL_int" 0xf2800a00 0xfe800f50 0x00300000 0x00300000 (FPQR 12 15 22) DNA (FPDR 16 19 7) (FPDR 0 3 5) (DIMM 20 21) DNA SIMD_OP;
  INST "VQDMLAL" 0xf2800900 0xff800f50 0x00300000 0x00300000 (FPQR 12 15 22) DNA (FPDR 16 19 7) (FPDR 0 3 5) (DIMM 20 21) DNA SIMD_OP;
  INST "VQDMLSL" 0xf2800b00 0xff800f50 0x00300000 0x00300000 (FPQR 12 15 22) DNA (FPDR 16 19 7) (FPDR 0 3 5) (DIMM 20 21) DNA SIMD_OP;
  INST "VMULL_int" 0xf2800c00 0xfe800f50 0x00300000 0x00300000 (FPQR 12 15 22) DNA (FPDR 16 19 7) (FPDR 0 3 5) (DIMM 20 21) DNA SIMD_OP;
  INST "VQDMULL" 0xf2800d00 0xff800f50 0x00300000 0x00300000 (FPQR 12 15 22) DNA (FPDR 16 19 7) (FPDR 0 3 5) (DIMM 20 21) DNA SIMD_OP;
  INST "VMULL_poly" 0xf2800e00 0xfe800f50 0x00300000 0x00300000 (FPQR 12 15 22) DNA (FPDR 16 19 7) (FPDR 0 3 5) (DIMM 20 21) DNA SIMD_OP;
  TAIL (* F2_8x0_END *);
  CONNECT (* F2_8x4_CONNECT *);
  INST "VMLA_sc" 0xf2800040 0xfe800e50 0x00300000 0x00300000 (FPQDR 12 15 22 24) DNA (FPQDR 16 19 7 24) (FPDR 0 3 5) (DIMM 20 21) DNA SIMD_OP;
  INST "VMLS_sc" 0xf2800440 0xfe800e50 0x00300000 0x00300000 (FPQDR 12 15 22 24) DNA (FPQDR 16 19 7 24) (FPDR 0 3 5) (DIMM 20 21) DNA SIMD_OP;
  INST "VMLAL_sc" 0xf2800240 0xfe800f50 0x00300000 0x00300000 (FPQR 12 15 22) DNA (FPDR 16 19 7) (FPDR 0 3 5) (DIMM 20 21) DNA SIMD_OP;
  INST "VMLSL_sc" 0xf2800640 0xfe800f50 0x00300000 0x00300000 (FPQR 12 15 22) DNA (FPDR 16 19 7) (FPDR 0 3 5) (DIMM 20 21) DNA SIMD_OP;
  INST "VQDMLAL_sc" 0xf2800340 0xff800f50 0xffffffff 0x00000000 (FPQR 12 15 22) DNA (FPDR 16 19 7) (FPDR 0 3 5) (DIMM 20 21) DNA SIMD_OP;
  INST "VQDMLSL_sc" 0xf2800740 0xff800f50 0xffffffff 0x00000000 (FPQR 12 15 22) DNA (FPDR 16 19 7) (FPDR 0 3 5) (DIMM 20 21) DNA SIMD_OP;
  INST "VMUL_sc" 0xf2800840 0xfe800e50 0xffffffff 0x00000000 (FPQDR 12 15 22 24) DNA (FPQDR 16 19 7 24) (FPDR 0 3 5) (DIMM 20 21) DNA SIMD_OP;
  INST "VMULL_sc" 0xf2800a40 0xfe800f50 0xffffffff 0x00000000 (FPQR 12 15 22) DNA (FPDR 16 19 7) (FPDR 0 3 5) (DIMM 20 21) DNA SIMD_OP;
  INST "VQDMULL_sc" 0xf2800b40 0xff800f50 0xffffffff 0x00000000 (FPQR 12 15 22) DNA (FPDR 16 19 7) (FPDR 0 3 5) (DIMM 20 21) DNA SIMD_OP;
  INST "VQDMULH_sc" 0xf2800c40 0xfe800f50 0xffffffff 0x00000000 (FPQDR 12 15 22 24) DNA (FPQDR 16 19 7 24) (FPDR 0 3 5) (DIMM 20 21) DNA SIMD_OP;
  INST "VQRDMULH_sc" 0xf2800d40 0xfe800f50 0xffffffff 0x00000000 (FPQDR 12 15 22 24) DNA (FPQDR 16 19 7 24) (FPDR 0 3 5) (DIMM 20 21) DNA SIMD_OP;
  TAIL (* F2_8x4_END *);
  CONNECT (* F2_1B00_CONNECT *);
  LINK (* F2_1B00_0 *);
  LINK (* F2_1B00_1 *);
  LINK (* F2_1B00_2 *);
  LINK (* F2_1B00_3 *);
  TAIL (* F2_1B00_END *);
  CONNECT (* F2_1B00_0_CONNECT *);
  INST "VREV64" 0xf3b00000 0xffb30f90 0xffffffff 0x00000000 (FPQDR 12 15 22 6) DNA (FPQDR 0 3 5 6) (DIMM 18 19) DNA DNA SIMD_OP;
  INST "VREV32" 0xf3b00080 0xffb30f90 0xffffffff 0x00000000 (FPQDR 12 15 22 6) DNA (FPQDR 0 3 5 6) (DIMM 18 19) DNA DNA SIMD_OP;
  INST "VREV16" 0xf3b00100 0xffb30f90 0xffffffff 0x00000000 (FPQDR 12 15 22 6) DNA (FPQDR 0 3 5 6) (DIMM 18 19) DNA DNA SIMD_OP;
  INST "VPADDL" 0xf3b00200 0xffb30f10 0x000c0000 0x000c0000 (FPQDR 12 15 22 6) DNA (FPQDR 0 3 5 6) (DIMM 18 19) DNA DNA SIMD_OP;
  INST "VCLS" 0xf3b00400 0xffb30f90 0x000c0000 0x000c0000 (FPQDR 12 15 22 6) DNA (FPQDR 0 3 5 6) (DIMM 18 19) DNA DNA SIMD_OP;
  INST "VCLZ" 0xf3b00480 0xffb30f90 0x000c0000 0x000c0000 (FPQDR 12 15 22 6) DNA (FPQDR 0 3 5 6) (DIMM 18 19) DNA DNA SIMD_OP;
  INST "VCNT" 0xf3b00500 0xffbf0f90 0xffffffff 0x00000000 (FPQDR 12 15 22 6) DNA (FPQDR 0 3 5 6) (DIMM 18 19) DNA DNA SIMD_OP;
  INST "VMVN" 0xf3b00580 0xffb30f90 0xffffffff 0x00000000 (FPQDR 12 15 22 6) DNA (FPQDR 0 3 5 6) (DIMM 18 19) DNA DNA SIMD_OP;
  INST "VPADAL" 0xf3b00600 0xffb30f10 0xffffffff 0x00000000 (FPQDR 12 15 22 6) DNA (FPQDR 0 3 5 6) (DIMM 18 19) DNA DNA SIMD_OP;
  INST "VQABS" 0xf3b00700 0xffb30f90 0xffffffff 0x00000000 (FPQDR 12 15 22 6) DNA (FPQDR 0 3 5 6) (DIMM 18 19) DNA DNA SIMD_OP;
  INST "VQNEG" 0xf3b00780 0xffb30f90 0xffffffff 0x00000000 (FPQDR 12 15 22 6) DNA (FPQDR 0 3 5 6) (DIMM 18 19) DNA DNA SIMD_OP;
  TAIL (* F2_1B00_0_END *);
  CONNECT (* F2_1B00_1_CONNECT *);
  INST "VCGT_imm" 0xf3b10000 0xffb30b90 0xffffffff 0x00000000 (FPQDR 12 15 22 6) DNA (FPQDR 0 3 5 6) (DIMM 18 19) DNA DNA SIMD_OP;
  INST "VCGE_imm" 0xf3b10080 0xffb30b90 0xffffffff 0x00000000 (FPQDR 12 15 22 6) DNA (FPQDR 0 3 5 6) (DIMM 18 19) DNA DNA SIMD_OP;
  INST "VCEQ_imm" 0xf3b10100 0xffb30b90 0xffffffff 0x00000000 (FPQDR 12 15 22 6) DNA (FPQDR 0 3 5 6) (DIMM 18 19) DNA DNA SIMD_OP;
  INST "VCLE_imm" 0xf3b10180 0xffb30b90 0xffffffff 0x00000000 (FPQDR 12 15 22 6) DNA (FPQDR 0 3 5 6) (DIMM 18 19) DNA DNA SIMD_OP;
  INST "VCLT_imm" 0xf3b10200 0xffb30b90 0xffffffff 0x00000000 (FPQDR 12 15 22 6) DNA (FPQDR 0 3 5 6) (DIMM 18 19) DNA DNA SIMD_OP;
  INST "VNEG_a1" 0xf3b10380 0xffb30b90 0xffffffff 0x00000000 (FPQDR 12 15 22 6) DNA (FPQDR 0 3 5 6) (DIMM 18 19) DNA DNA SIMD_OP;
  INST "VABS_0" 0xf3b10300 0xffb30b90 0xffffffff 0x00000000 (FPQDR 12 15 22 6) DNA (FPQDR 0 3 5 6) (DIMM 18 19) DNA DNA SIMD_OP;
  TAIL (* F2_1B00_1_END *);
  CONNECT (* F2_1B00_2_CONNECT *);
  INST "VSWP" 0xf3b20000 0xffb30f90 0xffffffff 0x00000000 (FPQDR 12 15 22 6) DNA (FPQDR 0 3 5 6) (DIMM 18 19) DNA DNA SIMD_OP;
  INST "VTRN" 0xf3b20080 0xffb30f90 0xffffffff 0x00000000 (FPQDR 12 15 22 6) DNA (FPQDR 0 3 5 6) (DIMM 18 19) DNA DNA SIMD_OP;
  INST "VUZP" 0xf3b20100 0xffb30f90 0xffffffff 0x00000000 (FPQDR 12 15 22 6) DNA (FPQDR 0 3 5 6) (DIMM 18 19) DNA DNA SIMD_OP;
  INST "VZIP" 0xf3b20180 0xffb30f90 0xffffffff 0x00000000 (FPQDR 12 15 22 6) DNA (FPQDR 0 3 5 6) (DIMM 18 19) DNA DNA SIMD_OP;
  INST "VMOVN" 0xf3b20200 0xffb30fd0 0xffffffff 0x00000000 (FPDR 12 15 22) DNA (FPQR 0 3 5) (DIMM 18 19) DNA DNA SIMD_OP;
  INST "VQMOVUN" 0xf3b20240 0xffb30fd0 0xffffffff 0x00000000 (FPDR 12 15 22) DNA (FPQR 0 3 5) (DIMM_MERGE 7 8 18 19) DNA DNA SIMD_OP;
  INST "VQMOVN" 0xf3b20280 0xffb30f90 0xffffffff 0x00000000 (FPDR 12 15 22) DNA (FPQR 0 3 5) (DIMM_MERGE 7 8 18 19) DNA DNA SIMD_OP;
  INST "VSHLL_0" 0xf3b20300 0xffb30fd0 0x000c0000 0x000c0000 (FPQR 12 15 22) DNA (FPDR 0 3 5) (DIMM 18 19) DNA DNA SIMD_OP;
  INST "VCVT_hpsp" 0xf3b20600 0xffb30fd0 0xffffffff 0x00000000 (FPDR 12 15 22) DNA (FPQR 0 3 5) (DIMM_MERGE 8 8 18 19) DNA DNA SIMD_OP;
  INST "VCVT_sphp" 0xf3b20700 0xffb30fd0 0xffffffff 0x00000000 (FPQR 12 15 22) DNA (FPDR 0 3 5) DNA DNA DNA SIMD_OP;
  TAIL (* F2_1B00_2_END *);
  CONNECT (* F2_1B00_3_CONNECT *);
  INST "VRECPE" 0xf3b30400 0xffb30e90 0xffffffff 0x00000000 (FPQDR 12 15 22 6) DNA (FPQDR 0 3 5 6) (DIMM 18 19) DNA DNA SIMD_OP;
  INST "VRSQRTE" 0xf3b30480 0xffb30e80 0xffffffff 0x00000000 (FPQDR 12 15 22 6) DNA (FPQDR 0 3 5 6) (DIMM 18 19) DNA DNA SIMD_OP;
  INST "VCVT_fpint" 0xf3b30600 0xffb30e10 0xffffffff 0x00000000 (FPQDR 12 15 22 6) DNA (FPQDR 0 3 5 6) (DIMM_MERGE 7 8 18 19) DNA DNA SIMD_OP;
  TAIL (* F2_1B00_3_END *);
  CONNECT (* F4_CONNECT *);
  LINK (* F4_0 *);
  LINK (* F4_2 *);
  INST "PLI_imm" 0xf4500000 0xff700000 0xffffffff 0x00000000 DNA DNA (DGPR 16 19) (DIMM 0 11) DNA DNA EMPTY_OP;
  INST "PLD_imm" 0xf510f000 0xff30f000 0x000f0000 0x000f0000 DNA DNA (DGPR 16 19) (DIMM 0 7) DNA DNA EMPTY_OP;
  INST "PLD_lit" 0xf51ff000 0xff3ff000 0xffffffff 0x00000000 DNA DNA DNA DNA DNA DNA EMPTY_OP;
  INST "CLREX" 0xf57ff01f 0xffffffff 0xffffffff 0x00000000 DNA DNA DNA DNA DNA DNA EMPTY_OP;
  INST "DSB" 0xf57ff040 0xfffffff0 0xffffffff 0x00000000 DNA DNA DNA DNA DNA DNA EMPTY_OP;
  INST "DMB" 0xf57ff050 0xfffffff0 0xffffffff 0x00000000 DNA DNA DNA DNA DNA DNA EMPTY_OP;
  INST "ISB" 0xf57ff060 0xfffffff0 0xffffffff 0x00000000 DNA DNA DNA DNA DNA DNA EMPTY_OP;
  INST "PLI" 0xf6500000 0xff700010 0xffffffff 0x00000000 DNA DNA (DGPR 16 19) DNA DNA DNA EMPTY_OP;
  INST "PLD" 0xf7100000 0xff300010 0xffffffff 0x00000000 DNA DNA (DGPR 16 19) (DGPR 0 3) (DIMM 4 5) DNA EMPTY_OP;
  TAIL (* F4_END *);
  CONNECT (* F4_0_CONNECT *);
  INST "VST1_m1e" 0xf4000200 0xffb00f00 0xffffffff 0x00000000 DNA DNA (FPDR 12 15 22) (DGPR 16 19) (DGPR 0 3) (DIMM 4 11) SIMD_OP;
  INST "VST1_m1e_0" 0xf4000600 0xffb00e00 0xffffffff 0x00000000 DNA DNA (FPDR 12 15 22) (DGPR 16 19) (DGPR 0 3) (DIMM 4 11) SIMD_OP;
  INST "VST1_m1e_1" 0xf4000a00 0xffb00f00 0xffffffff 0x00000000 DNA DNA (FPDR 12 15 22) (DGPR 16 19) (DGPR 0 3) (DIMM 4 11) SIMD_OP;
  INST "VST2_m2e" 0xf4000300 0xffb00f00 0xffffffff 0x00000000 DNA DNA (FPDR 12 15 22) (DGPR 16 19) (DGPR 0 3) (DIMM 4 11) SIMD_OP;
  INST "VST2_m2e_0" 0xf4000800 0xffb00e00 0xffffffff 0x00000000 DNA DNA (FPDR 12 15 22) (DGPR 16 19) (DGPR 0 3) (DIMM 4 11) SIMD_OP;
  INST "VST3_m3e" 0xf4000400 0xffb00e00 0xffffffff 0x00000000 DNA DNA (FPDR 12 15 22) (DGPR 16 19) (DGPR 0 3) (DIMM 4 11) SIMD_OP;
  INST "VST4" 0xf4000000 0xffb00e00 0xffffffff 0x00000000 DNA DNA (FPDR 12 15 22) (DGPR 16 19) (DGPR 0 3) (DIMM 4 11) SIMD_OP;
  INST "VST1_1e1l" 0xf4800000 0xffb00b00 0xffffffff 0x00000000 DNA DNA (FPDR 12 15 22) (DGPR 16 19) (DGPR 0 3) (DIMM 4 11) SIMD_OP;
  INST "VST1_1e1l_0" 0xf4800800 0xffb00f00 0xffffffff 0x00000000 DNA DNA (FPDR 12 15 22) (DGPR 16 19) (DGPR 0 3) (DIMM 4 11) SIMD_OP;
  INST "VST2_2e1l" 0xf4800100 0xffb00b00 0xffffffff 0x00000000 DNA DNA (FPDR 12 15 22) (DGPR 16 19) (DGPR 0 3) (DIMM 4 11) SIMD_OP;
  INST "VST2_2e1l_0" 0xf4800900 0xffb00f00 0xffffffff 0x00000000 DNA DNA (FPDR 12 15 22) (DGPR 16 19) (DGPR 0 3) (DIMM 4 11) SIMD_OP;
  INST "VST3_3e1l" 0xf4800200 0xffb00b00 0xffffffff 0x00000000 DNA DNA (FPDR 12 15 22) (DGPR 16 19) (DGPR 0 3) (DIMM 4 11) SIMD_OP;
  INST "VST3_3e1l_0" 0xf4800a00 0xffb00f00 0xffffffff 0x00000000 DNA DNA (FPDR 12 15 22) (DGPR 16 19) (DGPR 0 3) (DIMM 4 11) SIMD_OP;
  INST "VST4_4e1l" 0xf4800300 0xffb00b00 0xffffffff 0x00000000 DNA DNA (FPDR 12 15 22) (DGPR 16 19) (DGPR 0 3) (DIMM 4 11) SIMD_OP;
  INST "VST4_4e1l_0" 0xf4800b00 0xffb00f00 0xffffffff 0x00000000 DNA DNA (FPDR 12 15 22) (DGPR 16 19) (DGPR 0 3) (DIMM 4 11) SIMD_OP;
  TAIL (* F4_0_END *);
  CONNECT (* F4_2_CONNECT *);
  INST "VLD1_m1e" 0xf4200200 0xffb00f00 0xffffffff 0x00000000 (FPDR 12 15 22) DNA (DGPR 16 19) (DGPR 0 3) (DIMM 4 11) DNA SIMD_OP;
  INST "VLD1_m1e_0" 0xf4200600 0xffb00e00 0xffffffff 0x00000000 (FPDR 12 15 22) DNA (DGPR 16 19) (DGPR 0 3) (DIMM 4 11) DNA SIMD_OP;
  INST "VLD1_m1e_1" 0xf4200a00 0xffb00f00 0xffffffff 0x00000000 (FPDR 12 15 22) DNA (DGPR 16 19) (DGPR 0 3) (DIMM 4 11) DNA SIMD_OP;
  INST "VLD2_m2e" 0xf4200300 0xffb00f00 0xffffffff 0x00000000 (FPDR 12 15 22) DNA (DGPR 16 19) (DGPR 0 3) (DIMM 4 11) DNA SIMD_OP;
  INST "VLD2_m2e_0" 0xf4200800 0xffb00e00 0xffffffff 0x00000000 (FPDR 12 15 22) DNA (DGPR 16 19) (DGPR 0 3) (DIMM 4 11) DNA SIMD_OP;
  INST "VLD3_m3e" 0xf4200400 0xffb00e00 0xffffffff 0x00000000 (FPDR 12 15 22) DNA (DGPR 16 19) (DGPR 0 3) (DIMM 4 11) DNA SIMD_OP;
  INST "VLD4_m4e" 0xf4200000 0xffb00e00 0xffffffff 0x00000000 (FPDR 12 15 22) DNA (DGPR 16 19) (DGPR 0 3) (DIMM 4 11) DNA SIMD_OP;
  INST "VLD1_1e1l" 0xf4a00000 0xffb00b00 0xffffffff 0x00000000 (FPDR 12 15 22) DNA (DGPR 16 19) (DGPR 0 3) (DIMM 4 11) DNA SIMD_OP;
  INST "VLD1_1e1l_0" 0xf4a00800 0xffb00f00 0xffffffff 0x00000000 (FPDR 12 15 22) DNA (DGPR 16 19) (DGPR 0 3) (DIMM 4 11) DNA SIMD_OP;
  INST "VLD1_1eal" 0xf4a00c00 0xffb00f00 0xffffffff 0x00000000 (FPDR 12 15 22) DNA (DGPR 16 19) (DGPR 0 3) (DIMM 4 7) DNA SIMD_OP;
  INST "VLD2_2e1l" 0xf4a00100 0xffb00b00 0xffffffff 0x00000000 (FPDR 12 15 22) DNA (DGPR 16 19) (DGPR 0 3) (DIMM 4 11) DNA SIMD_OP;
  INST "VLD2_2e1l_0" 0xf4a00900 0xffb00f00 0xffffffff 0x00000000 (FPDR 12 15 22) DNA (DGPR 16 19) (DGPR 0 3) (DIMM 4 11) DNA SIMD_OP;
  INST "VLD2_2eal" 0xf4a00d00 0xffb00f00 0xffffffff 0x00000000 (FPDR 12 15 22) DNA (DGPR 16 19) (DGPR 0 3) (DIMM 4 7) DNA SIMD_OP;
  INST "VLD3_3e1l" 0xf4a00200 0xffb00b00 0xffffffff 0x00000000 (FPDR 12 15 22) DNA (DGPR 16 19) (DGPR 0 3) (DIMM 4 11) DNA SIMD_OP;
  INST "VLD3_3e1l_0" 0xf4a00a00 0xffb00f00 0xffffffff 0x00000000 (FPDR 12 15 22) DNA (DGPR 16 19) (DGPR 0 3) (DIMM 4 11) DNA SIMD_OP;
  INST "VLD3_3eal" 0xf4a00e00 0xffb00f00 0xffffffff 0x00000000 (FPDR 12 15 22) DNA (DGPR 16 19) (DGPR 0 3) (DIMM 4 7) DNA SIMD_OP;
  INST "VLD4_4e1l" 0xf4a00300 0xffb00b00 0xffffffff 0x00000000 (FPDR 12 15 22) DNA (DGPR 16 19) (DGPR 0 3) (DIMM 4 11) DNA SIMD_OP;
  INST "VLD4_4e1l_0" 0xf4a00b00 0xffb00f00 0xffffffff 0x00000000 (FPDR 12 15 22) DNA (DGPR 16 19) (DGPR 0 3) (DIMM 4 11) DNA SIMD_OP;
  INST "VLD4_4eal" 0xf4a00f00 0xffb00f00 0xffffffff 0x00000000 (FPDR 12 15 22) DNA (DGPR 16 19) (DGPR 0 3) (DIMM 4 7) DNA SIMD_OP;
  TAIL (* F4_2_END *);
  INST "PSEUDO_COND_EXEC" 0x00000000 0x00000000 0x00000000 0x00000000 DNA DNA DNA DNA DNA DNA PSEUDO_OP;
  INST "PSEUDO_EXIT_TO_INTERP" 0x00000000 0x00000000 0x00000000 0x00000000 DNA DNA DNA DNA DNA DNA PSEUDO_OP;
  INST "PSEUDO_AEABI_ARM" 0x00000000 0x00000000 0x00000000 0x00000000 DNA DNA DNA DNA DNA DNA AEABI_OP;
  INST "PSEUDO_AEABI_THUMB" 0x00000000 0x00000000 0x00000000 0x00000000 DNA DNA DNA DNA DNA DNA AEABI_OP;
  INST "PSEUDO_KERNEL_HELPER_CMPXCHG" 0x00000000 0x00000000 0x00000000 0x00000000 DNA DNA DNA DNA DNA DNA KERNEL_HELPER_OP;
  INST "PSEUDO_INDEX_INDUCTION_LOOP_ENTRY_TEST" 0x00000000 0x00000000 0x00000000 0x00000000 DNA DNA DNA DNA DNA DNA PSEUDO_OP
].

Definition thumb_tlb : list arm_instr_desc_t := [
  LINK (* T_X0 *);
  LINK (* T_X4 *);
  LINK (* T_X5 *);
  LINK (* T_X6 *);
  LINK (* T_X8 *);
  LINK (* T_XA *);
  LINK (* T_XC *);
  LINK (* T_XE *);
  TAIL (* T_TOP_END *);
  CONNECT (* T_X0_CONNECT *);
  INST "MOV_reg_T2" 0x0000 0xffc0 0xffff 0x0000 (DGPR 0 2) DNA (DGPR 3 5) DNA DNA DNA MOV_OP;
  INST "LSL_imm_T1" 0x0000 0xf800 0xffff 0x0000 (DGPR 0 2) DNA (DGPR 3 5) (DSHFTIMM 6 10 11 12) DNA DNA MOV_OP;
  INST "LSR_imm_T1" 0x0800 0xf800 0xffff 0x0000 (DGPR 0 2) DNA (DGPR 3 5) (DSHFTIMM 6 10 11 12) DNA DNA MOV_OP;
  INST "ASR_imm_T1" 0x1000 0xf800 0xffff 0x0000 (DGPR 0 2) DNA (DGPR 3 5) (DSHFTIMM 6 10 11 12) DNA DNA MOV_OP;
  INST "ADD_reg_T1" 0x1800 0xfe00 0xffff 0x0000 (DGPR 0 2) DNA (DGPR 3 5) (DGPR 6 8) (DSHFTIMM 13 14 13 14) DNA ALU_OP;
  INST "SUB_reg_T1" 0x1a00 0xfe00 0xffff 0x0000 (DGPR 0 2) DNA (DGPR 3 5) (DGPR 6 8) (DSHFTIMM 13 14 13 14) DNA ALU_OP;
  INST "ADD_imm_T1" 0x1c00 0xfe00 0xffff 0x0000 (DGPR 0 2) DNA (DGPR 3 5) (DIMM 6 8) DNA DNA ALU_OP;
  INST "SUB_imm_T1" 0x1e00 0xfe00 0xffff 0x0000 (DGPR 0 2) DNA (DGPR 3 5) (DIMM 6 8) DNA DNA ALU_OP;
  INST "MOV_imm_T1" 0x2000 0xf800 0xffff 0x0000 (DGPR 8 10) DNA (DIMM 0 7) DNA DNA DNA MOV_OP;
  INST "CMP_imm_T1" 0x2800 0xf800 0xffff 0x0000 DNA DNA (DGPR 8 10) (DIMM 0 7) DNA DNA CMP_OP;
  INST "ADD_imm_T2" 0x3000 0xf800 0xffff 0x0000 (DGPR 8 10) DNA (DGPR 8 10) (DIMM 0 7) DNA DNA ALU_OP;
  INST "SUB_imm_T2" 0x3800 0xf800 0xffff 0x0000 (DGPR 8 10) DNA (DGPR 8 10) (DIMM 0 7) DNA DNA ALU_OP;
  TAIL (* T_X0_END *);
  CONNECT (* T_X4_CONNECT *);
  INST "AND_reg_T1" 0x4000 0xffc0 0xffff 0x0000 (DGPR 0 2) DNA (DGPR 0 2) (DGPR 3 5) (DSHFTIMM 12 13 12 13) DNA LOG_OP;
  INST "EOR_reg_T1" 0x4040 0xffc0 0xffff 0x0000 (DGPR 0 2) DNA (DGPR 0 2) (DGPR 3 5) (DSHFTIMM 12 13 12 13) DNA LOG_OP;
  INST "LSL_reg_T1" 0x4080 0xffc0 0xffff 0x0000 (DGPR 0 2) DNA (DGPR 0 2) (DSHFTGPR 3 5 8 9) DNA DNA MOV_OP;
  INST "LSR_reg_T1" 0x40c0 0xffc0 0xffff 0x0000 (DGPR 0 2) DNA (DGPR 0 2) (DSHFTGPR 3 5 7 8) DNA DNA MOV_OP;
  INST "ASR_reg_T1" 0x4100 0xffc0 0xffff 0x0000 (DGPR 0 2) DNA (DGPR 0 2) (DSHFTGPR 3 5 7 8) DNA DNA MOV_OP;
  INST "ADC_reg_T1" 0x4140 0xffc0 0xffff 0x0000 (DGPR 0 2) DNA (DGPR 0 2) (DGPR 3 5) (DSHFTIMM 12 13 12 13) DNA ALU_OP;
  INST "SBC_reg_T1" 0x4180 0xffc0 0xffff 0x0000 (DGPR 0 2) DNA (DGPR 0 2) (DGPR 3 5) (DSHFTIMM 12 13 12 13) DNA ALU_OP;
  INST "ROR_reg_T1" 0x41c0 0xffc0 0xffff 0x0000 (DGPR 0 2) DNA (DGPR 0 2) (DSHFTGPR 3 5 7 8) DNA DNA MOV_OP;
  INST "TST_reg_T1" 0x4200 0xffc0 0xffff 0x0000 DNA DNA (DGPR 0 2) (DGPR 3 5) (DSHFTIMM 12 13 12 13) DNA TEST_OP;
  INST "RSB_imm_T1" 0x4240 0xffc0 0xffff 0x0000 (DGPR 0 2) DNA (DGPR 3 5) DNA DNA DNA ALU_OP;
  INST "CMP_reg_T1" 0x4280 0xffc0 0xffff 0x0000 DNA DNA (DGPR 0 2) (DGPR 3 5) (DSHFTIMM 12 13 12 13) DNA CMP_OP;
  INST "CMN_reg_T1" 0x42c0 0xffc0 0xffff 0x0000 DNA DNA (DGPR 0 2) (DGPR 3 5) (DSHFTIMM 12 13 12 13) DNA CMP_OP;
  INST "ORR_reg_T1" 0x4300 0xffc0 0xffff 0x0000 (DGPR 0 2) DNA (DGPR 0 2) (DGPR 3 5) (DSHFTIMM 12 13 12 13) DNA LOG_OP;
  INST "MUL_reg_T1" 0x4340 0xffc0 0xffff 0x0000 (DGPR 0 2) DNA (DGPR 3 5) (DGPR 0 2) DNA DNA MUL32_OP;
  INST "BIC_reg_T1" 0x4380 0xffc0 0xffff 0x0000 (DGPR 0 2) DNA (DGPR 0 2) (DGPR 3 5) (DSHFTIMM 12 13 12 13) DNA LOG_OP;
  INST "MVN_reg_T1" 0x43c0 0xffc0 0xffff 0x0000 (DGPR 0 2) DNA (DGPR 3 5) (DSHFTIMM 12 13 12 13) DNA DNA MOV_OP;
  INST "ADD_reg_T2" 0x4400 0xff00 0xffff 0x0000 (DGPR_MERGE 0 2 7) DNA (DGPR_MERGE 0 2 7) (DGPR 3 6) (DSHFTIMM 12 13 12 13) DNA ALU_OP;
  INST "ADD_sp_reg_T1" 0x4468 0xff78 0xffff 0x0000 (DGPR_MERGE 0 2 7) DNA (DGPR 3 6) (DGPR_MERGE 0 2 7) (DSHFTIMM 12 13 12 13) DNA ALU_OP;
  INST "ADD_sp_reg_T2" 0x4485 0xff87 0xffff 0x0000 (DGPR_CONST 13) DNA (DGPR_CONST 13) (DGPR 3 6) (DSHFTIMM 12 13 12 13) DNA ALU_OP;
  INST "CMP_reg_T2" 0x4500 0xff00 0xffff 0x0000 DNA DNA (DGPR_MERGE 0 2 7) (DGPR 3 6) (DSHFTIMM 12 13 12 13) DNA CMP_OP;
  INST "MOV_reg_T1" 0x4600 0xff00 0xffff 0x0000 (DGPR_MERGE 0 2 7) DNA (DGPR 3 6) DNA DNA DNA MOV_OP;
  INST "BX_T1" 0x4700 0xff80 0xffff 0x0000 DNA DNA (DGPR 3 6) DNA DNA DNA JMP_OP;
  INST "BLX_reg_T1" 0x4780 0xff80 0xffff 0x0000 DNA DNA (DGPR 3 6) DNA DNA DNA JMP_OP;
  INST "LDR_lit_T1" 0x4800 0xf800 0xffff 0x0000 (DGPR 8 10) DNA (DGPR_CONST 15) (DIMM_ZERO_EXTEND 0 7 2) DNA DNA LD_OP;
  TAIL (* T_X4_END *);
  CONNECT (* T_X5_CONNECT *);
  INST "STR_reg_T1" 0x5000 0xfe00 0xffff 0x0000 DNA DNA (DGPR 0 2) (DGPR 3 5) (DGPR 6 8) (DSHFTIMM 9 10 9 10) ST_OP;
  INST "STRH_reg_T1" 0x5200 0xfe00 0xffff 0x0000 DNA DNA (DGPR 0 2) (DGPR 3 5) (DGPR 6 8) (DSHFTIMM 10 11 10 11) ST_OP;
  INST "STRB_reg_T1" 0x5400 0xfe00 0xffff 0x0000 DNA DNA (DGPR 0 2) (DGPR 3 5) (DGPR 6 8) (DSHFTIMM 9 9 9 9) ST_OP;
  INST "LDRSB_reg_T1" 0x5600 0xfe00 0xffff 0x0000 (DGPR 0 2) DNA (DGPR 3 5) (DGPR 6 8) (DSHFTIMM 11 11 11 11) DNA LD_OP;
  INST "LDR_reg_T1" 0x5800 0xfe00 0xffff 0x0000 (DGPR 0 2) DNA (DGPR 3 5) (DGPR 6 8) (DSHFTIMM 9 10 9 10) DNA LD_OP;
  INST "LDRH_reg_T1" 0x5a00 0xfe00 0xffff 0x0000 (DGPR 0 2) DNA (DGPR 3 5) (DGPR 6 8) (DSHFTIMM 10 10 10 10) DNA LD_OP;
  INST "LDRB_reg_T1" 0x5c00 0xfe00 0xffff 0x0000 (DGPR 0 2) DNA (DGPR 3 5) (DGPR 6 8) (DSHFTIMM 9 9 9 9) DNA LD_OP;
  INST "LDRSH_reg_T1" 0x5e00 0xfe00 0xffff 0x0000 (DGPR 0 2) DNA (DGPR 3 5) (DGPR 6 8) (DSHFTIMM 13 13 13 13) DNA LD_OP;
  TAIL (* T_X5_END *);
  CONNECT (* T_X6_CONNECT *);
  INST "STR_imm_T1" 0x6000 0xf800 0xffff 0x0000 DNA DNA (DGPR 0 2) (DGPR 3 5) (DIMM_ZERO_EXTEND 6 10 2) DNA ST_OP;
  INST "LDR_imm_T1" 0x6800 0xf800 0xffff 0x0000 (DGPR 0 2) DNA (DGPR 3 5) (DIMM_ZERO_EXTEND 6 10 2) DNA DNA LD_OP;
  INST "STRB_imm_T1" 0x7000 0xf800 0xffff 0x0000 DNA DNA (DGPR 0 2) (DGPR 3 5) (DIMM 6 10) DNA ST_OP;
  INST "LDRB_imm_T1" 0x7800 0xf800 0xffff 0x0000 (DGPR 0 2) DNA (DGPR 3 5) (DIMM 6 10) DNA DNA LD_OP;
  TAIL (* T_X6_END *);
  CONNECT (* T_X8_CONNECT *);
  INST "STRH_imm_T1" 0x8000 0xf800 0xffff 0x0000 DNA DNA (DGPR 0 2) (DGPR 3 5) (DIMM_ZERO_EXTEND 6 10 1) DNA ST_OP;
  INST "LDRH_imm_T1" 0x8800 0xf800 0xffff 0x0000 (DGPR 0 2) DNA (DGPR 3 5) (DIMM_ZERO_EXTEND 6 10 1) DNA DNA LD_OP;
  INST "STR_imm_T2" 0x9000 0xf800 0xffff 0x0000 DNA DNA (DGPR 8 10) (DGPR_CONST 13) (DIMM_ZERO_EXTEND 0 7 2) DNA ST_OP;
  INST "LDR_imm_T2" 0x9800 0xf800 0xffff 0x0000 (DGPR 8 10) DNA (DGPR_CONST 13) (DIMM_ZERO_EXTEND 0 7 2) DNA DNA LD_OP;
  TAIL (* T_X8_END *);
  CONNECT (* T_XA_CONNECT *);
  INST "ADR_T1" 0xa000 0xf800 0xffff 0x0000 (DGPR 8 10) DNA (DGPR_CONST 15) (DIMM_ZERO_EXTEND 0 7 2) DNA DNA MISC_OP;
  INST "ADD_sp_imm_T1" 0xa800 0xf800 0xffff 0x0000 (DGPR 8 10) DNA (DGPR_CONST 13) (DIMM_ZERO_EXTEND 0 7 2) DNA DNA ALU_OP;
  INST "SETEND_T1" 0xb640 0xffe0 0xffff 0x0000 DNA DNA DNA DNA DNA DNA NO_OP;
  INST "CPS_T1" 0xb660 0xffe0 0xffff 0x0000 DNA DNA DNA DNA DNA DNA NO_OP;
  INST "IT_T1" 0xbf00 0xff00 0x0000 0x000f DNA DNA (DIMM 0 7) DNA DNA DNA MISC_OP;
  INST "ADD_sp_imm_T2" 0xb000 0xff80 0xffff 0x0000 (DGPR_CONST 13) DNA (DGPR_CONST 13) (DIMM_ZERO_EXTEND 0 6 2) DNA DNA ALU_OP;
  INST "SUB_sp_imm_T1" 0xb080 0xff80 0xffff 0x0000 (DGPR_CONST 13) DNA (DGPR_CONST 13) (DIMM_ZERO_EXTEND 0 6 2) DNA DNA ALU_OP;
  INST "CBZ_T1" 0xb100 0xfd00 0xffff 0x0000 DNA DNA (DGPR 0 2) (DIMM_MERGE 9 9 3 7) DNA DNA JMP_OP;
  INST "SXTH_T1" 0xb200 0xffc0 0xffff 0x0000 (DGPR 0 2) DNA (DGPR 3 5) DNA DNA DNA EXT_OP;
  INST "SXTB_T1" 0xb240 0xffc0 0xffff 0x0000 (DGPR 0 2) DNA (DGPR 3 5) DNA DNA DNA EXT_OP;
  INST "UXTH_T1" 0xb280 0xffc0 0xffff 0x0000 (DGPR 0 2) DNA (DGPR 3 5) DNA DNA DNA EXT_OP;
  INST "UXTB_T1" 0xb2c0 0xffc0 0xffff 0x0000 (DGPR 0 2) DNA (DGPR 3 5) DNA DNA DNA EXT_OP;
  INST "PUSH_T" 0xb400 0xfe00 0xffff 0x0000 DNA DNA (DGPR 10 13) (DGPR_LIST_T 0 7 8 14) DNA DNA PUSH_OP;
  INST "CBNZ_T1" 0xb900 0xfd00 0xffff 0x0000 DNA DNA (DGPR 0 2) (DIMM_MERGE 9 9 3 7) DNA DNA JMP_OP;
  INST "REV_T1" 0xba00 0xffc0 0xffff 0x0000 (DGPR 0 2) DNA (DGPR 3 5) DNA DNA DNA REVERSE_OP;
  INST "REV16_T1" 0xba40 0xffc0 0xffff 0x0000 (DGPR 0 2) DNA (DGPR 3 5) DNA DNA DNA REVERSE_OP;
  INST "REVSH_T1" 0xbac0 0xffc0 0xffff 0x0000 (DGPR 0 2) DNA (DGPR 3 5) DNA DNA DNA REVERSE_OP;
  INST "POP_T" 0xbc00 0xfe00 0xffff 0x0000 (DGPR_LIST_T 0 7 8 15) DNA (DGPR_CONST 13) DNA DNA DNA POP_OP;
  INST "BKPT_T1" 0xbe00 0xff00 0xffff 0x0000 DNA DNA DNA DNA DNA DNA NO_OP;
  INST "NOP_T1" 0xbf00 0xffff 0xffff 0x0000 DNA DNA DNA DNA DNA DNA EMPTY_OP;
  INST "YIELD_T1" 0xbf10 0xffff 0xffff 0x0000 DNA DNA DNA DNA DNA DNA EMPTY_OP;
  INST "WFE_T1" 0xbf20 0xffff 0xffff 0x0000 DNA DNA DNA DNA DNA DNA EMPTY_OP;
  INST "WFI_T1" 0xbf30 0xffff 0xffff 0x0000 DNA DNA DNA DNA DNA DNA EMPTY_OP;
  INST "SEV_T1" 0xbf40 0xffff 0xffff 0x0000 DNA DNA DNA DNA DNA DNA EMPTY_OP;
  TAIL (* T_XA_END *);
  CONNECT (* T_XC_CONNECT *);
  INST "STM_T1" 0xc000 0xf800 0xffff 0x0000 DNA DNA (DGPR 8 10) (DGPR_LIST 0 7) DNA DNA STM_OP;
  INST "LDM_T1" 0xc800 0xf800 0xffff 0x0000 (DGPR_LIST 0 7) DNA (DGPR 8 10) DNA DNA DNA LDM_OP;
  INST "B_T1" 0xd000 0xf000 0x0e00 0x0e00 DNA DNA (DIMM_SIGN_EXTEND 0 7 0) (DCOND 8 11) DNA DNA JMP_OP;
  INST "SVC_T1" 0xdf00 0xff00 0xffff 0x0000 DNA DNA (DIMM 0 7) DNA DNA DNA MISC_OP;
  TAIL (* T_XC_END *);
  CONNECT (* T_XE_CONNECT *);
  INST "B_T2" 0xe000 0xf800 0xffff 0x0000 DNA DNA (DIMM_SIGN_EXTEND 0 10 0) DNA DNA DNA JMP_OP;
  LINK (* T_XE_01 *);
  LINK (* T_XE_10 *);
  LINK (* T_XE_11 *);
  TAIL (* T_XE_END *);
  CONNECT (* T_XE_01_CONNECT *);
  TAIL (* T_XE_01_END *);
  CONNECT (* T_XE_10_CONNECT *);
  TAIL (* T_XE_10_END *);
  CONNECT (* T_XE_11_CONNECT *);
  TAIL (* T_XE_11_END *)
].

Definition thumb32_tlb : list arm_instr_desc_t := [
  LINK (* T32_E8 *);
  LINK (* T32_EA *);
  LINK (* T32_EC *);
  LINK (* T32_F0 *);
  LINK (* T32_F2 *);
  LINK (* T32_F08 *);
  LINK (* T32_F8 *);
  LINK (* T32_FA *);
  LINK (* T32_FB *);
  TAIL (* T32_TOP_END *);
  CONNECT (* T32_E8_CONNECT *);
  INST "SRS_T1" 0xe80dc000 0xffdfffe0 0xffffffff 0x00000000 DNA DNA (DGPR 16 19) DNA DNA DNA NO_OP;
  INST "RFE_T1" 0xe810c000 0xffd0ffff 0xffffffff 0x00000000 (DGPR_LIST 0 15) DNA (DGPR 16 19) DNA DNA DNA NO_OP;
  INST "STREXB_T1" 0xe8c00040 0xfff000f0 0xffffffff 0x00000000 (DGPR 0 3) DNA (DGPR 12 15) (DGPR 16 19) DNA DNA STREX_OP;
  INST "STREXH_T1" 0xe8c00050 0xfff000f0 0xffffffff 0x00000000 (DGPR 0 3) DNA (DGPR 12 15) (DGPR 16 19) DNA DNA STREX_OP;
  INST "LDREXB_T1" 0xe8d00f4f 0xfff00fff 0xffffffff 0x00000000 (DGPR 12 15) DNA (DGPR 16 19) DNA DNA DNA LDREX_OP;
  INST "LDREXH_T1" 0xe8d00050 0xfff000f0 0xffffffff 0x00000000 (DGPR 12 15) DNA (DGPR 16 19) DNA DNA DNA LDREX_OP;
  INST "STREX_T1" 0xe8400000 0xfff00000 0xffffffff 0x00000000 (DGPR 8 11) DNA (DGPR 12 15) (DGPR 16 19) (DIMM_ZERO_EXTEND 0 7 2) DNA STREX_OP;
  INST "LDREX_T1" 0xe8500f00 0xfff00f00 0xffffffff 0x00000000 (DGPR 12 15) DNA (DGPR 16 19) (DIMM_ZERO_EXTEND 0 7 2) DNA DNA LDREX_OP;
  INST "STREXD_T1" 0xe8c00070 0xfff000f0 0xffffffff 0x00000000 (DGPR 0 3) DNA (DGPR 12 15) (DGPR 8 11) (DGPR 16 19) DNA STREX_OP;
  INST "STRD_imm_T1" 0xe8400000 0xfe500000 0xffffffff 0x00000000 DNA DNA (DGPR 12 15) (DGPR 8 11) (DGPR 16 19) (DIMM_ZERO_EXTEND 0 7 2) ST_OP;
  INST "TBB_T1" 0xe8d0f000 0xfff0fff0 0xffffffff 0x00000000 DNA DNA (DGPR 16 19) (DGPR 0 3) DNA DNA JMP_OP;
  INST "TBH_T1" 0xe8d0f010 0xfff0fff0 0xffffffff 0x00000000 DNA DNA (DGPR 16 19) (DGPR 0 3) DNA DNA JMP_OP;
  INST "LDREXD_T1" 0xe8d00070 0xfff000f0 0xffffffff 0x00000000 (DGPR 12 15) (DGPR 8 11) (DGPR 16 19) DNA DNA DNA LDREX_OP;
  INST "LDRD_imm_T1" 0xe8500000 0xfe500000 0x000f0000 0x000f0000 (DGPR 12 15) (DGPR 8 11) (DGPR 16 19) (DIMM_ZERO_EXTEND 0 7 2) DNA DNA LD_OP;
  INST "LDRD_lit_T1" 0xe85f0000 0xfe7f0000 0xffffffff 0x00000000 (DGPR 12 15) (DGPR 8 11) (DGPR 16 19) (DIMM_ZERO_EXTEND 0 7 2) DNA DNA LD_OP;
  INST "STM_T2" 0xe8800000 0xffd0a000 0xffffffff 0x00000000 DNA DNA (DGPR 16 19) (DGPR_LIST 0 15) DNA DNA STM_OP;
  INST "POP_T2" 0xe8bd0000 0xffff0000 0xffffffff 0x00000000 (DGPR_LIST_T 0 15 28 13) DNA (DGPR 16 19) DNA DNA DNA POP_OP;
  INST "LDM_T2" 0xe8900000 0xffd02000 0x002d0000 0x002f0000 (DGPR_LIST_T 0 15 28 13) DNA (DGPR 16 19) DNA DNA DNA LDM_OP;
  INST "PUSH_T2" 0xe92d0000 0xffff0000 0xffffffff 0x00000000 DNA DNA (DGPR_CONST 13) (DGPR_LIST_T 0 12 14 14) DNA DNA PUSH_OP;
  INST "PUSH_T3" 0xf85d0b04 0xffff0fff 0xffffffff 0x00000000 DNA DNA (DGPR_CONST 13) (DGPR 12 15) (DIMM 0 3) DNA PUSH_OP;
  INST "STMDB_T1" 0xe9000000 0xffd0a000 0x002d0000 0x002f0000 DNA DNA (DGPR 16 19) (DGPR_LIST 0 15) DNA DNA STM_OP;
  INST "LDMDB_T1" 0xe9100000 0xffd02000 0xffffffff 0x00000000 (DGPR_LIST 0 15) DNA (DGPR 16 19) DNA DNA DNA LDM_OP;
  INST "SRS_T2" 0xe98dc000 0xffdfffe0 0xffffffff 0x00000000 DNA DNA (DGPR 16 19) DNA DNA DNA NO_OP;
  INST "RFE_T2" 0xe990c000 0xffd0ffff 0xffffffff 0x00000000 (DGPR_LIST 0 15) DNA (DGPR 16 19) DNA DNA DNA NO_OP;
  TAIL (* T32_E8_END *);
  CONNECT (* T32_EA_CONNECT *);
  INST "AND_reg_T2" 0xea000000 0xffe08000 0x00100f00 0x00100f00 (DGPR 8 11) DNA (DGPR 16 19) (DGPR 0 3) (DSHFTIMM_T 6 7 4 5) DNA LOG_OP;
  INST "TST_reg_T2" 0xea100f00 0xfff08f00 0xffffffff 0x00000000 DNA DNA (DGPR 16 19) (DGPR 0 3) (DSHFTIMM_T 6 7 4 5) DNA TEST_OP;
  INST "BIC_reg_T2" 0xea200000 0xffe08000 0xffffffff 0x00000000 (DGPR 8 11) DNA (DGPR 16 19) (DGPR 0 3) (DSHFTIMM_T 6 7 4 5) DNA LOG_OP;
  INST "ORR_reg_T2" 0xea400000 0xffe08000 0x000f0000 0x000f0000 (DGPR 8 11) DNA (DGPR 16 19) (DGPR 0 3) (DSHFTIMM_T 6 7 4 5) DNA LOG_OP;
  INST "MOV_reg_T3" 0xea4f0000 0xffeff0f0 0xffffffff 0x00000000 (DGPR 8 11) DNA (DGPR 0 3) DNA DNA DNA MOV_OP;
  INST "ORN_reg_T1" 0xea600000 0xffe08000 0x000f0000 0x000f0000 (DGPR 8 11) DNA (DGPR 16 19) (DGPR 0 3) (DSHFTIMM_T 6 7 4 5) DNA LOG_OP;
  INST "MVN_reg_T2" 0xea6f0000 0xffef8000 0xffffffff 0x00000000 (DGPR 8 11) DNA (DGPR 0 3) (DSHFTIMM_T 6 7 4 5) DNA DNA MOV_OP;
  INST "EOR_reg_T2" 0xea800000 0xffe08000 0x00100f00 0x00100f00 (DGPR 8 11) DNA (DGPR 16 19) (DGPR 0 3) (DSHFTIMM_T 6 7 4 5) DNA LOG_OP;
  INST "TEQ_reg_T1" 0xea900f00 0xfff08f00 0xffffffff 0x00000000 DNA DNA (DGPR 16 19) (DGPR 0 3) (DSHFTIMM_T 6 7 4 5) DNA TEST_OP;
  INST "PKH_reg_T1" 0xeac00000 0xffe08000 0xffffffff 0x00000000 (DGPR 8 11) DNA (DGPR 16 19) (DGPR 0 3) (DSHFTIMM_T 6 7 4 5) (DIMM 5 5) MISC_OP;
  INST "ADD_reg_T3" 0xeb000000 0xffe08000 0x00000f00 0x00000f00 (DGPR 8 11) DNA (DGPR 16 19) (DGPR 0 3) (DSHFTIMM_T 6 7 4 5) DNA ALU_OP;
  INST "CMN_reg_T2" 0xeb100f00 0xfff00f00 0xffffffff 0x00000000 DNA DNA (DGPR 16 19) (DGPR 0 3) (DSHFTIMM_T 6 7 4 5) DNA CMP_OP;
  INST "ADC_reg_T2" 0xeb400000 0xffe08000 0xffffffff 0x00000000 (DGPR 8 11) DNA (DGPR 16 19) (DGPR 0 3) (DSHFTIMM_T 6 7 4 5) DNA ALU_OP;
  INST "SBC_reg_T2" 0xeb600000 0xffe08000 0xffffffff 0x00000000 (DGPR 8 11) DNA (DGPR 16 19) (DGPR 0 3) (DSHFTIMM_T 6 7 4 5) DNA ALU_OP;
  INST "SUB_reg_T2" 0xeba00000 0xffe08000 0x00000f00 0x00000f00 (DGPR 8 11) DNA (DGPR 16 19) (DGPR 0 3) (DSHFTIMM_T 6 7 4 5) DNA ALU_OP;
  INST "CMP_reg_T3" 0xebb00f00 0xfff08f00 0xffffffff 0x00000000 DNA DNA (DGPR 16 19) (DGPR 0 3) (DSHFTIMM_T 6 7 4 5) DNA CMP_OP;
  INST "RSB_reg_T1" 0xebc00000 0xffe08000 0xffffffff 0x00000000 (DGPR 8 11) DNA (DGPR 16 19) (DGPR 0 3) (DSHFTIMM_T 6 7 4 5) DNA ALU_OP;
  INST "LSL_imm_T2" 0xea4f0000 0xffef8030 0xffffffff 0x00000000 (DGPR 8 11) DNA (DGPR 0 3) (DSHFTIMM_T 6 7 4 5) DNA DNA MOV_OP;
  INST "LSR_imm_T2" 0xea4f0010 0xffef8030 0xffffffff 0x00000000 (DGPR 8 11) DNA (DGPR 0 3) (DSHFTIMM_T 6 7 4 5) DNA DNA MOV_OP;
  INST "ASR_imm_T2" 0xea4f0020 0xffef8030 0xffffffff 0x00000000 (DGPR 8 11) DNA (DGPR 0 3) (DSHFTIMM_T 6 7 4 5) DNA DNA MOV_OP;
  INST "ROR_imm_T2" 0xea4f0030 0xffef8030 0x00000000 0x000070c0 (DGPR 8 11) DNA (DGPR 0 3) (DSHFTIMM_T 6 7 4 5) DNA DNA MOV_OP;
  INST "RRX_T1" 0xea4f0030 0xffeff0f0 0xffffffff 0x00000000 (DGPR 8 11) DNA (DGPR 0 3) (DSHFTIMM_T 6 7 4 5) DNA DNA MOV_OP;
  TAIL (* T32_EA_END *);
  CONNECT (* T32_EC_CONNECT *);
  INST "VMOV_2reg_2sp_T1" 0xec400a10 0xfff00fd0 0xffffffff 0x00000000 (FPSR 0 3 5) DNA (DGPR 12 15) (DGPR 16 19) DNA DNA VFP_OP;
  INST "VMOV_2sp_2reg_T1" 0xec500a10 0xfff00fd0 0xffffffff 0x00000000 (DGPR 12 15) (DGPR 16 19) (FPSR 0 3 5) DNA DNA DNA VFP_OP;
  INST "VMOV_2reg_dp_T1" 0xec400b10 0xfff00fd0 0xffffffff 0x00000000 (FPDR 0 3 5) DNA (DGPR 12 15) (DGPR 16 19) DNA DNA VFP_OP;
  INST "VMOV_dp_2reg_T1" 0xec500b10 0xfff00fd0 0xffffffff 0x00000000 (DGPR 12 15) (DGPR 16 19) (FPDR 0 3 5) DNA DNA DNA VFP_OP;
  INST "VSTM_nw_T2" 0xec800a00 0xffb00f00 0xffffffff 0x00000000 DNA DNA (FPSR 12 15 22) (DGPR 16 19) (DIMM 0 7) DNA VFP_OP;
  INST "VSTM_nw_T1" 0xec800b00 0xffb00f00 0xf0000000 0xf0000000 DNA DNA (FPDR 12 15 22) (DGPR 16 19) (DIMM 0 7) DNA VFP_OP;
  INST "VSTM_w_T2" 0xeca00a00 0xffb00f00 0xf0000000 0xf0000000 DNA DNA (FPSR 12 15 22) (DGPR 16 19) (DIMM 0 7) DNA VFP_OP;
  INST "VSTM_w_T1" 0xeca00b00 0xffb00f00 0xf0000000 0xf0000000 DNA DNA (FPDR 12 15 22) (DGPR 16 19) (DIMM 0 7) DNA VFP_OP;
  INST "VSTR_T2" 0xed000a00 0xff300f00 0xffffffff 0x00000000 DNA DNA (FPSR 12 15 22) (DGPR 16 19) (DIMM_ZERO_EXTEND 0 7 2) DNA VFP_OP;
  INST "VSTR_T1" 0xed000b00 0xff300f00 0xffffffff 0x00000000 DNA DNA (FPDR 12 15 22) (DGPR 16 19) (DIMM_ZERO_EXTEND 0 7 2) DNA VFP_OP;
  INST "VPUSH_T2" 0xed2d0a00 0xffbf0f00 0xf0000000 0xf0000000 DNA DNA (FPSR 12 15 22) (DGPR 16 19) (DIMM 0 7) DNA VFP_OP;
  INST "VPUSH_T1" 0xed2d0b00 0xffbf0f00 0xf0000000 0xf0000000 DNA DNA (FPDR 12 15 22) (DGPR 16 19) (DIMM 0 7) DNA VFP_OP;
  INST "VSTM_db_w_T2" 0xed200a00 0xffb00f00 0xf00d0000 0xf00f0000 DNA DNA (FPSR 12 15 22) (DGPR 16 19) (DIMM 0 7) DNA VFP_OP;
  INST "VSTM_db_w_T1" 0xed200b00 0xffb00f00 0xf00d0000 0xf00f0000 DNA DNA (FPDR 12 15 22) (DGPR 16 19) (DIMM 0 7) DNA VFP_OP;
  INST "VLDM_nw_T2" 0xec900a00 0xffb00f00 0xffffffff 0x00000000 (FPSR 12 15 22) DNA (DGPR 16 19) (DIMM 0 7) DNA DNA VFP_OP;
  INST "VLDM_nw_T1" 0xec900b00 0xffb00f00 0xffffffff 0x00000000 (FPDR 12 15 22) DNA (DGPR 16 19) (DIMM 0 7) DNA DNA VFP_OP;
  INST "VLDM_w_T2" 0xecb00a00 0xffb00f00 0x000d0000 0x000f0000 (FPSR 12 15 22) DNA (DGPR 16 19) (DIMM 0 7) DNA DNA VFP_OP;
  INST "VLDM_w_T1" 0xecb00b00 0xffb00f00 0x000d0000 0x000f0000 (FPDR 12 15 22) DNA (DGPR 16 19) (DIMM 0 7) DNA DNA VFP_OP;
  INST "VPOP_T2" 0xecbd0a00 0xffbf0f00 0xffffffff 0x00000000 (FPSR 12 15 22) DNA (DGPR 16 19) (DIMM 0 7) DNA DNA VFP_OP;
  INST "VPOP_T1" 0xecbd0b00 0xffbf0f00 0xffffffff 0x00000000 (FPDR 12 15 22) DNA (DGPR 16 19) (DIMM 0 7) DNA DNA VFP_OP;
  INST "VLDR_T2" 0xed100a00 0xff300f00 0xf0000000 0xf0000000 (FPSR 12 15 22) DNA (DGPR 16 19) (DIMM_ZERO_EXTEND 0 7 2) DNA DNA VFP_OP;
  INST "VLDR_T1" 0xed100b00 0xff300f00 0xf0000000 0xf0000000 (FPDR 12 15 22) DNA (DGPR 16 19) (DIMM_ZERO_EXTEND 0 7 2) DNA DNA VFP_OP;
  INST "VLDM_db_w_T2" 0xed300a00 0xffb00f00 0xf0000000 0xf0000000 (FPSR 12 15 22) DNA (DGPR 16 19) (DIMM 0 7) DNA DNA VFP_OP;
  INST "VLDM_db_w_T1" 0xed300b00 0xffb00f00 0xf0000000 0xf0000000 (FPDR 12 15 22) DNA (DGPR 16 19) (DIMM 0 7) DNA DNA VFP_OP;
  INST "MCRR_T1" 0xec400000 0xfff00000 0x00000a00 0x00000e00 DNA DNA (DGPR 12 15) (DGPR 16 19) DNA DNA NO_OP;
  INST "MRRC_T1" 0xec500000 0xfff00000 0x00000a00 0x00000e00 (DGPR 12 15) (DGPR 16 19) DNA DNA DNA DNA NO_OP;
  INST "STC_T1" 0xec000000 0xfe100000 0x00000a00 0x00000e00 DNA DNA (DGPR 16 19) (DIMM_SIGN_EXTEND 0 7 2) DNA DNA NO_OP;
  INST "LDC_lit_T1" 0xec1f0000 0xfe1f0000 0x00400000 0x01e00000 DNA DNA DNA DNA DNA DNA NO_OP;
  INST "LDC_imm_T1" 0xec100000 0xfe100000 0x00000a00 0x00000e00 DNA DNA (DGPR 16 19) DNA DNA DNA NO_OP;
  INST "VMLA_vfp_T1" 0xef000d10 0xff800f10 0xffffffff 0xf0000000 (FPDSR 12 15 22 20) DNA (FPDSR 16 19 7 20) (FPDSR 0 3 5 20) DNA DNA SIMD_OP;
  INST "VMLA_vfp_T2" 0xee000a00 0xffb00e50 0xffffffff 0xf0000000 (FPDSR 12 15 22 8) DNA (FPDSR 16 19 7 8) (FPDSR 0 3 5 8) DNA DNA VFP_OP;
  INST "VMLS_vfp_T2" 0xee000a40 0xffb00e50 0xf0000000 0xf0000000 (FPDSR 12 15 22 8) DNA (FPDSR 16 19 7 8) (FPDSR 0 3 5 8) DNA DNA VFP_OP;
  INST "VNMLA_T1" 0xee100a40 0xffb00e50 0xf0000000 0xf0000000 (FPDSR 12 15 22 8) DNA (FPDSR 16 19 7 8) (FPDSR 0 3 5 8) DNA DNA VFP_OP;
  INST "VNMLS_T1" 0xee100a00 0xffb00e50 0xf0000000 0xf0000000 (FPDSR 12 15 22 8) DNA (FPDSR 16 19 7 8) (FPDSR 0 3 5 8) DNA DNA VFP_OP;
  INST "VMUL_fp_T2" 0xee200a00 0xffb00e50 0xffffffff 0x00000000 (FPDSR 12 15 22 8) DNA (FPDSR 16 19 7 8) (FPDSR 0 3 5 8) DNA DNA VFP_OP;
  INST "VNMUL_T1" 0xee200a40 0xffb00e50 0xf0000000 0xf0000000 (FPDSR 12 15 22 8) DNA (FPDSR 16 19 7 8) (FPDSR 0 3 5 8) DNA DNA VFP_OP;
  INST "VADD_fp_T1" 0xef000d00 0xffa00f10 0xffffffff 0x00000000 (FPQDR 12 15 22 6) DNA (FPQDR 16 19 7 8) (FPQDR 0 3 5 6) DNA DNA SIMD_OP;
  INST "VADD_fp_T2" 0xee300a00 0xffb00e50 0xffffffff 0x00000000 (FPDSR 12 15 22 8) DNA (FPDSR 16 19 7 8) (FPDSR 0 3 5 8) DNA DNA VFP_OP;
  INST "VSUB_fp_T1" 0xef200d00 0xffa00f10 0xffffffff 0x00000000 (FPQDR 12 15 22 6) DNA (FPQDR 16 19 7 6) (FPQDR 0 3 5 6) DNA DNA SIMD_OP;
  INST "VSUB_fp_T2" 0xee300a40 0xffb00e50 0xffffffff 0x00000000 (FPDSR 12 15 22 8) DNA (FPDSR 16 19 7 8) (FPDSR 0 3 5 8) DNA DNA VFP_OP;
  INST "VDIV_T1" 0xee800a00 0xffb00e50 0xffffffff 0x00000000 (FPDSR 12 15 22 8) DNA (FPDSR 16 19 7 8) (FPDSR 0 3 5 8) DNA DNA VFP_OP;
  INST "VMOV_imm_T2" 0xeeb00a00 0xffb00e50 0xffffffff 0x00000000 (FPDSR 12 15 22 8) DNA (DIMM_VFP_EXPAND 16 19 0 3) DNA DNA DNA VFP_OP;
  INST "VMOV_reg_T2" 0xeeb00a40 0xffbf0ed0 0xffffffff 0x00000000 (FPDSR 12 15 22 8) DNA (FPDSR 0 3 5 8) DNA DNA DNA VFP_OP;
  INST "VABS_T2" 0xeeb00ac0 0xffbf0ed0 0xffffffff 0x00000000 (FPDSR 12 15 22 8) DNA (FPDSR 0 3 5 8) DNA DNA DNA VFP_OP;
  INST "VNEG_T2" 0xeeb10a40 0xffbf0ed0 0xf0000000 0xf0000000 (FPDSR 12 15 22 8) DNA (FPDSR 0 3 5 8) DNA DNA DNA VFP_OP;
  INST "VSQRT_T1" 0xeeb10ac0 0xffbf0ed0 0xffffffff 0x00000000 (FPDSR 12 15 22 8) DNA (FPDSR 0 3 5 8) DNA DNA DNA VFP_OP;
  INST "VCVTB_T1" 0xeeb20a40 0xffbe0fd0 0xffffffff 0x00000000 (FPSR 12 15 22) DNA (FPSR 0 3 5) DNA DNA DNA VFP_OP;
  INST "VCVTT_T1" 0xeeb20ac0 0xffbe0fd0 0xffffffff 0x00000000 (FPSR 12 15 22) DNA (FPSR 0 3 5) DNA DNA DNA VFP_OP;
  INST "VCMP_T1" 0xeeb40a40 0xffbf0ed0 0xffffffff 0x00000000 DNA DNA (FPDSR 12 15 22 8) (FPDSR 0 3 5 8) DNA DNA VFP_OP;
  INST "VCMP_T2" 0xeeb50a40 0xffbf0ed0 0xffffffff 0x00000000 DNA DNA (FPDSR 12 15 22 8) DNA DNA DNA VFP_OP;
  INST "VCMPE_T1" 0xeeb40ac0 0xffbf0ed0 0xffffffff 0x00000000 DNA DNA (FPDSR 12 15 22 8) (FPDSR 0 3 5 8) DNA DNA VFP_OP;
  INST "VCMPE_T2" 0xeeb50ac0 0xffbf0ed0 0xffffffff 0x00000000 DNA DNA (FPDSR 12 15 22 8) DNA DNA DNA VFP_OP;
  INST "VCVT_spdp_T1" 0xeeb70ac0 0xffbf0fd0 0x00000000 0x000e0000 (FPDR 12 15 22) DNA (FPSR 0 3 5) DNA DNA DNA VFP_OP;
  INST "VCVT_dpsp_T1" 0xeeb70bc0 0xffbf0fd0 0x00000000 0x000e0000 (FPSR 12 15 22) DNA (FPDR 0 3 5) DNA DNA DNA VFP_OP;
  INST "VCVT_imm_T1" 0xeeba0a40 0xffba0e50 0x00000000 0x000e0000 (FPDSR 12 15 22 8) DNA (FPDSR 12 15 22 8) (DIMM_MERGE 0 3 5 5) DNA DNA VFP_OP;
  INST "VCVT_T1" 0xeeb80a40 0xffb80e50 0x00000000 0x000e0000 (FPDSR 12 15 22 8) DNA (FPDSR 0 3 5 8) (DIMM 16 18) (DIMM 7 7) DNA VFP_OP;
  INST "CDP_T1" 0xee000000 0xff000010 0x00000a00 0x00000e00 DNA DNA DNA DNA DNA DNA NO_OP;
  INST "VMOV_reg2sp_T1" 0xee000a10 0xfff00f10 0xf0000000 0xf0000000 (FPSR 16 19 7) DNA (DGPR 12 15) DNA DNA DNA VFP_OP;
  INST "VMOV_sp2reg_T1" 0xee100a10 0xfff00f10 0xf0000000 0xf0000000 (DGPR 12 15) DNA (FPSR 16 19 7) DNA DNA DNA VFP_OP;
  INST "VMRS_T1" 0xeef10a10 0xffff0f90 0xf0000000 0xf0000000 (DGPR 12 15) DNA DNA DNA DNA DNA VFP_OP;
  INST "VMSR_T1" 0xeee10a10 0xffff0f90 0xffffffff 0x00000000 DNA DNA (DGPR 12 15) DNA DNA DNA VFP_OP;
  INST "VMSR_sys_T1" 0xee700a10 0xfff00f90 0xffffffff 0x00000000 DNA DNA (DGPR 12 15) DNA DNA DNA NO_OP;
  INST "VMOV_reg2sc_T1" 0xee000b10 0xff900f10 0xf0000000 0xf0000000 (FPDR 16 19 7) DNA (DGPR 12 15) DNA DNA DNA VFP_OP;
  INST "VMOV_sc2reg_T1" 0xee100b10 0xff100f10 0xf0000000 0xf0000000 (DGPR 12 15) DNA (FPDR 16 19 7) DNA DNA DNA VFP_OP;
  INST "MCR_reg_T1" 0xee000010 0xff100010 0x00000a00 0x00000e00 (DGPR 12 15) DNA (DIMM 21 23) (DGPR 16 19) (DGPR 0 3) (DIMM 5 7) COPR_OP;
  INST "MRC_reg_T1" 0xee100010 0xff100010 0x00000a00 0x00000e00 (DGPR 12 15) DNA (DIMM 21 23) (DGPR 16 19) (DGPR 0 3) (DIMM 5 7) COPR_OP;
  INST "VHADD_T1" 0xef000000 0xef800f10 0xffffffff 0x00000000 (FPQDR 12 15 22 6) DNA (FPQDR 16 19 7 6) (FPQDR 0 3 5 6) (DIMM 20 21) DNA SIMD_OP;
  INST "VQADD_T1" 0xef000010 0xef800f10 0xffffffff 0x00000000 (FPQDR 12 15 22 6) DNA (FPQDR 16 19 7 6) (FPQDR 0 3 5 6) (DIMM 20 21) DNA SIMD_OP;
  INST "VRHADD_T1" 0xef000100 0xef800f10 0xffffffff 0x00000000 (FPQDR 12 15 22 6) DNA (FPQDR 16 19 7 6) (FPQDR 0 3 5 6) (DIMM 20 21) DNA SIMD_OP;
  INST "VAND_T1" 0xef000110 0xffb00f10 0xffffffff 0x00000000 (FPQDR 12 15 22 6) DNA (FPQDR 16 19 7 6) (FPQDR 0 3 5 6) DNA DNA SIMD_OP;
  INST "VBIC_T1" 0xef100110 0xffb00f10 0xffffffff 0x00000000 (FPQDR 12 15 22 6) DNA (FPQDR 16 19 7 6) (FPQDR 0 3 5 6) DNA DNA SIMD_OP;
  INST "VORR_T1" 0xef200110 0xffb00f10 0xffffffff 0x00000000 (FPQDR 12 15 22 6) DNA (FPQDR 16 19 7 6) (FPQDR 0 3 5 6) DNA DNA SIMD_OP;
  INST "VMOV_reg_T1" 0xef200110 0xffb00f10 0xffffffff 0x00000000 (FPDSR 12 15 22 8) DNA (FPDSR 0 3 5 8) DNA DNA DNA SIMD_OP;
  INST "VORN_T1" 0xef300110 0xffb00f10 0xffffffff 0x00000000 (FPQDR 12 15 22 6) DNA (FPQDR 16 19 7 6) (FPQDR 0 3 5 6) DNA DNA SIMD_OP;
  INST "VHSUB_T1" 0xef000200 0xef800f10 0xffffffff 0x00000000 (FPQDR 12 15 22 6) DNA (FPQDR 16 19 7 6) (FPQDR 0 3 5 6) (DIMM 20 21) DNA SIMD_OP;
  INST "VQSUB_T1" 0xef000210 0xef800f10 0xffffffff 0x00000000 (FPQDR 12 15 22 6) DNA (FPQDR 16 19 7 6) (FPQDR 0 3 5 6) (DIMM 20 21) DNA SIMD_OP;
  INST "VCGT_T1" 0xef000300 0xef800f10 0xffffffff 0x00000000 (FPQDR 12 15 22 6) DNA (FPQDR 16 19 7 6) (FPQDR 0 3 5 6) (DIMM 20 21) DNA SIMD_OP;
  INST "VCGE_T1" 0xef000310 0xef800f10 0xffffffff 0x00000000 (FPQDR 12 15 22 6) DNA (FPQDR 16 19 7 6) (FPQDR 0 3 5 6) (DIMM 20 21) DNA SIMD_OP;
  INST "VSHL_T1" 0xef000400 0xef800f10 0xffffffff 0x00000000 (FPQDR 12 15 22 6) DNA (FPQDR 16 19 7 6) (FPQDR 0 3 5 6) (DIMM 20 21) DNA SIMD_OP;
  INST "VQSHL_T1" 0xef000410 0xef800f10 0xffffffff 0x00000000 (FPQDR 12 15 22 6) DNA (FPQDR 16 19 7 6) (FPQDR 0 3 5 6) (DIMM 20 21) DNA SIMD_OP;
  INST "VRSHL_T1" 0xef000500 0xef800f10 0xffffffff 0x00000000 (FPQDR 12 15 22 6) DNA (FPQDR 16 19 7 6) (FPQDR 0 3 5 6) (DIMM 20 21) DNA SIMD_OP;
  INST "VQRSHL_T1" 0xef000510 0xef800f10 0xffffffff 0x00000000 (FPQDR 12 15 22 6) DNA (FPQDR 16 19 7 6) (FPQDR 0 3 5 6) (DIMM 20 21) DNA SIMD_OP;
  INST "VMAX_int_T1" 0xef000600 0xef800f10 0xffffffff 0x00000000 (FPQDR 12 15 22 6) DNA (FPQDR 16 19 7 6) (FPQDR 0 3 5 6) (DIMM 20 21) DNA SIMD_OP;
  INST "VMIN_int_T1" 0xef000610 0xef800f10 0xffffffff 0x00000000 (FPQDR 12 15 22 6) DNA (FPQDR 16 19 7 6) (FPQDR 0 3 5 6) (DIMM 20 21) DNA SIMD_OP;
  INST "VABD_int_T1" 0xef000700 0xef800f10 0x00300000 0x00300000 (FPQDR 12 15 22 6) DNA (FPQDR 16 19 7 6) (FPQDR 0 3 5 6) (DIMM 20 21) DNA SIMD_OP;
  INST "VABA_T1" 0xef000710 0xef800f10 0xffffffff 0x00000000 (FPQDR 12 15 22 6) DNA (FPQDR 16 19 7 6) (FPQDR 0 3 5 6) (DIMM 20 21) DNA SIMD_OP;
  INST "VADD_int_T1" 0xef000800 0xff800f10 0xffffffff 0x00000000 (FPQDR 12 15 22 6) DNA (FPQDR 16 19 7 6) (FPQDR 0 3 5 6) (DIMM 20 21) DNA SIMD_OP;
  INST "VTST_T1" 0xef000800 0xff800f10 0xffffffff 0x00000000 (FPQDR 12 15 22 6) DNA (FPQDR 16 19 7 6) (FPQDR 0 3 5 6) (DIMM 20 21) DNA SIMD_OP;
  INST "VMLA_T1" 0xef000900 0xff800f10 0x00300000 0x00300000 (FPQDR 12 15 22 6) DNA (FPQDR 16 19 7 6) (FPQDR 0 3 5 6) (DIMM 20 21) DNA SIMD_OP;
  INST "VMLS_T1" 0xff000900 0xff800f10 0x00300000 0x00300000 (FPQDR 12 15 22 6) DNA (FPQDR 16 19 7 6) (FPQDR 0 3 5 6) (DIMM 20 21) DNA SIMD_OP;
  INST "VMUL_int_T1" 0xef000910 0xff800f10 0x00300000 0x00300000 (FPQDR 12 15 22 6) DNA (FPQDR 16 19 7 6) (FPQDR 0 3 5 6) (DIMM 20 21) DNA SIMD_OP;
  INST "VMUL_poly_T1" 0xff000910 0xff800f10 0x00300000 0x00300000 (FPQDR 12 15 22 6) DNA (FPQDR 16 19 7 6) (FPQDR 0 3 5 6) (DIMM 20 21) DNA SIMD_OP;
  INST "VPMAX_int_T1" 0xef000a00 0xff800f10 0xffffffff 0x00000000 (FPDR 12 15 22) DNA (FPDR 16 19 7) (FPDR 0 3 5) (DIMM 20 21) DNA SIMD_OP;
  INST "VPMIN_int_T1" 0xff000a10 0xff800f10 0xffffffff 0x00000000 (FPDR 12 15 22) DNA (FPDR 16 19 7) (FPDR 0 3 5) (DIMM 20 21) DNA SIMD_OP;
  INST "VQDMULH_T1" 0xef000b00 0xff800f10 0x00300000 0x00300000 (FPQDR 12 15 22 6) DNA (FPQDR 16 19 7 6) (FPQDR 0 3 5 6) (DIMM 20 21) DNA SIMD_OP;
  INST "VPADD_T1" 0xef000b10 0xff800f10 0x00300000 0x00300000 (FPDR 12 15 22) DNA (FPDR 16 19 7) (FPDR 0 3 5) (DIMM 20 21) DNA SIMD_OP;
  INST "VMOV_imm_0_T1" 0xef800010 0xefb809b0 0xffffffff 0x00000000 (FPQDR 12 15 22 6) DNA (DIMM_SIMDEXP 0 3) DNA DNA DNA SIMD_OP;
  INST "VMOV_imm_1_T1" 0xef800810 0xefb80db0 0xffffffff 0x00000000 (FPQDR 12 15 22 6) DNA (DIMM_SIMDEXP 0 3) DNA DNA DNA SIMD_OP;
  INST "VMOV_imm_2_T1" 0xef800c10 0xefb80cb0 0xffffffff 0x00000000 (FPQDR 12 15 22 6) DNA (DIMM_SIMDEXP 0 3) DNA DNA DNA SIMD_OP;
  INST "VMOV_imm_3_T1" 0xef800e10 0xefb80fb0 0xffffffff 0x00000000 (FPQDR 12 15 22 6) DNA (DIMM_SIMDEXP 0 3) DNA DNA DNA SIMD_OP;
  INST "VORR_imm_T1" 0xef800110 0xefb809b0 0xffffffff 0x00000000 (FPQDR 12 15 22 6) DNA (FPQDR 12 15 22 6) (DIMM_SIMDEXP 0 3) DNA DNA SIMD_OP;
  INST "VORR_imm_0_T1" 0xef800910 0xefb80db0 0xffffffff 0x00000000 (FPQDR 12 15 22 6) DNA (FPQDR 12 15 22 6) (DIMM_SIMDEXP 0 3) DNA DNA SIMD_OP;
  INST "VMVN_imm_T1" 0xef800030 0xefb809b0 0xffffffff 0x00000000 (FPQDR 12 15 22 6) DNA (DIMM_SIMDEXP 0 3) DNA DNA DNA SIMD_OP;
  INST "VMVN_imm_0_T1" 0xef800830 0xefb80db0 0xffffffff 0x00000000 (FPQDR 12 15 22 6) DNA (DIMM_SIMDEXP 0 3) DNA DNA DNA SIMD_OP;
  INST "VMVN_imm_1_T1" 0xef800c30 0xefb80eb0 0xffffffff 0x00000000 (FPQDR 12 15 22 6) DNA (DIMM_SIMDEXP 0 3) DNA DNA DNA SIMD_OP;
  INST "VBIC_imm_T1" 0xef800130 0xefb809b0 0xffffffff 0x00000000 (FPQDR 12 15 22 6) DNA (FPQDR 12 15 22 6) (DIMM_SIMDEXP 0 3) DNA DNA SIMD_OP;
  INST "VBIC_imm_0_T1" 0xef800930 0xefb80d30 0xffffffff 0x00000000 (FPQDR 12 15 22 6) DNA (FPQDR 12 15 22 6) (DIMM_SIMDEXP 0 3) DNA DNA SIMD_OP;
  INST "VSHR_T1" 0xef800010 0xef800f10 0xffffffff 0x00000000 (FPQDR 12 15 22 6) DNA (FPQDR 0 3 5 6) (DIMM_MERGE 7 7 16 21) DNA DNA SIMD_OP;
  INST "VSRA_T1" 0xef800110 0xef800f10 0xffffffff 0x00000000 (FPQDR 12 15 22 6) DNA (FPQDR 0 3 5 6) (DIMM_MERGE 7 7 16 21) DNA DNA SIMD_OP;
  INST "VRSHR_T1" 0xef800210 0xef800f10 0xffffffff 0x00000000 (FPQDR 12 15 22 6) DNA (FPQDR 0 3 5 6) (DIMM_MERGE 7 7 16 21) DNA DNA SIMD_OP;
  INST "VRSRA_T1" 0xef800310 0xef800f10 0xffffffff 0x00000000 (FPQDR 12 15 22 6) DNA (FPQDR 0 3 5 6) (DIMM_MERGE 7 7 16 21) DNA DNA SIMD_OP;
  INST "VSHL_imm_T1" 0xef800510 0xff800f10 0xffffffff 0x00000000 (FPQDR 12 15 22 6) DNA (FPQDR 0 3 5 6) (DIMM_MERGE 7 7 16 21) DNA DNA SIMD_OP;
  INST "VQSHLU_imm_T1" 0xef800610 0xef800f10 0xffffffff 0x00000000 (FPQDR 12 15 22 6) DNA (FPQDR 0 3 5 6) (DIMM_MERGE 7 7 16 21) DNA DNA SIMD_OP;
  INST "VQSHL_imm_T1" 0xef800710 0xef800f10 0xffffffff 0x00000000 (FPQDR 12 15 22 6) DNA (FPQDR 0 3 5 6) (DIMM_MERGE 7 7 16 21) DNA DNA SIMD_OP;
  INST "VSHRN_T1" 0xef800810 0xef800fd0 0xffffffff 0x00000000 (FPDR 12 15 22) DNA (FPQR 0 3 5) (DIMM 16 21) DNA DNA SIMD_OP;
  INST "VRSHRN_T1" 0xef800850 0xef800f50 0xffffffff 0x00000000 (FPDR 12 15 22) DNA (FPQR 0 3 5) (DIMM 16 21) DNA DNA SIMD_OP;
  INST "VQSHRUN_T1" 0xff800810 0xff800f50 0xffffffff 0x00000000 (FPDR 12 15 22) DNA (FPQR 0 3 5) (DIMM 16 21) DNA DNA SIMD_OP;
  INST "VQRSHRUN_T1" 0xff800850 0xff800f50 0xffffffff 0x00000000 (FPDR 12 15 22) DNA (FPQR 0 3 5) (DIMM 16 21) DNA DNA SIMD_OP;
  INST "VQSHRN_T1" 0xef800910 0xef800f50 0xffffffff 0x00000000 (FPDR 12 15 22) DNA (FPQR 0 3 5) (DIMM 16 21) DNA DNA SIMD_OP;
  INST "VQRSHRN_T1" 0xef800950 0xfe800f50 0xffffffff 0x00000000 (FPDR 12 15 22) DNA (FPQR 0 3 5) (DIMM 16 21) DNA DNA SIMD_OP;
  INST "VMOVL_T1" 0xef800a10 0xef870fd0 0xffffffff 0x00000000 (FPQR 12 15 22) DNA (FPDR 0 3 5) (DIMM 19 21) DNA DNA SIMD_OP;
  INST "VSHLL_T1" 0xef800a10 0xef800f50 0x00000000 0x00380000 (FPQR 12 15 22) DNA (FPDR 0 3 5) (DIMM 16 21) DNA DNA SIMD_OP;
  INST "VCVT_fpfx_T1" 0xef800e10 0xef800e10 0xffffffff 0x00000000 (FPQDR 12 15 22 6) DNA (FPQDR 0 3 5 6) DNA DNA DNA NO_OP;
  INST "VADDL_T1" 0xef800000 0xef800f50 0x00300000 0x00300000 (FPQR 12 15 22) DNA (FPDR 16 19 7) (FPDR 0 3 5) (DIMM 20 21) DNA SIMD_OP;
  INST "VADDW_T1" 0xef800100 0xef800f50 0x00300000 0x00300000 (FPQR 12 15 22) DNA (FPQR 16 19 7) (FPDR 0 3 5) (DIMM 20 21) DNA SIMD_OP;
  INST "VSUBL_T1" 0xef800200 0xef800f50 0x00300000 0x00300000 (FPQR 12 15 22) DNA (FPDR 16 19 7) (FPDR 0 3 5) (DIMM 20 21) DNA SIMD_OP;
  INST "VSUBW_T1" 0xef800300 0xef800f50 0x00300000 0x00300000 (FPQR 12 15 22) DNA (FPQR 16 19 7) (FPDR 0 3 5) (DIMM 20 21) DNA SIMD_OP;
  INST "VADDHN_T1" 0xef800400 0xff800f50 0x00300000 0x00300000 (FPDR 12 15 22) DNA (FPQR 16 19 7) (FPQR 0 3 5) (DIMM 20 21) DNA SIMD_OP;
  INST "VABAL_T2" 0xef800500 0xef800f50 0x00300000 0x00300000 (FPQR 12 15 22) DNA (FPDR 16 19 7) (FPDR 0 3 5) (DIMM 20 21) DNA SIMD_OP;
  INST "VSUBHN_T1" 0xef800600 0xff800f50 0x00300000 0x00300000 (FPDR 12 15 22) DNA (FPQR 16 19 7) (FPQR 0 3 5) (DIMM 20 21) DNA SIMD_OP;
  INST "VABDL_int_T2" 0xef800700 0xef800f50 0x00300000 0x00300000 (FPQR 12 15 22) DNA (FPDR 16 19 7) (FPDR 0 3 5) (DIMM 20 21) DNA SIMD_OP;
  INST "VMLAL_int_T2" 0xef800800 0xfe800f50 0x00300000 0x00300000 (FPQR 12 15 22) DNA (FPDR 16 19 7) (FPDR 0 3 5) (DIMM 20 21) DNA SIMD_OP;
  INST "VMLSL_int_T2" 0xef800a00 0xfe800f50 0x00300000 0x00300000 (FPQR 12 15 22) DNA (FPDR 16 19 7) (FPDR 0 3 5) (DIMM 20 21) DNA SIMD_OP;
  INST "VQDMLAL_T1" 0xef800900 0xff800f50 0x00300000 0x00300000 (FPQR 12 15 22) DNA (FPDR 16 19 7) (FPDR 0 3 5) (DIMM 20 21) DNA SIMD_OP;
  INST "VQDMLSL_T1" 0xef800b00 0xff800f50 0x00300000 0x00300000 (FPQR 12 15 22) DNA (FPDR 16 19 7) (FPDR 0 3 5) (DIMM 20 21) DNA SIMD_OP;
  INST "VMULL_int_T2" 0xef800c00 0xfe800f50 0x00300000 0x00300000 (FPQR 12 15 22) DNA (FPDR 16 19 7) (FPDR 0 3 5) (DIMM 20 21) DNA SIMD_OP;
  INST "VQDMULL_T1" 0xef800d00 0xef800f50 0x00300000 0x00300000 (FPQR 12 15 22) DNA (FPDR 16 19 7) (FPDR 0 3 5) (DIMM 20 21) DNA SIMD_OP;
  INST "VMULL_poly_T2" 0xef800e00 0xfe800f50 0x00300000 0x00300000 (FPQR 12 15 22) DNA (FPDR 16 19 7) (FPDR 0 3 5) (DIMM 20 21) DNA SIMD_OP;
  INST "VMLA_sc_T1" 0xef800040 0xef800e50 0x00300000 0x00300000 (FPQDR 12 15 22 24) DNA (FPQDR 16 19 7 24) (FPDR 0 3 5) (DIMM 20 21) DNA SIMD_OP;
  INST "VMLS_sc_T1" 0xef800440 0xef800e50 0x00300000 0x00300000 (FPQDR 12 15 22 24) DNA (FPQDR 16 19 7 24) (FPDR 0 3 5) (DIMM 20 21) DNA SIMD_OP;
  INST "VMLAL_sc_T2" 0xef800240 0xef800f50 0x00300000 0x00300000 (FPQR 12 15 22) DNA (FPDR 16 19 7) (FPDR 0 3 5) (DIMM 20 21) DNA SIMD_OP;
  INST "VMLSL_sc_T2" 0xef800640 0xef800f50 0x00300000 0x00300000 (FPQR 12 15 22) DNA (FPDR 16 19 7) (FPDR 0 3 5) DNA DNA NO_OP;
  INST "VQDMLAL_sc_T2" 0xef800340 0xff800f50 0xffffffff 0x00000000 (FPQR 12 15 22) DNA (FPDR 16 19 7) (FPDR 0 3 5) (DIMM 20 21) DNA SIMD_OP;
  INST "VQDMLSL_sc_T2" 0xef800740 0xff800f50 0xffffffff 0x00000000 (FPQR 12 15 22) DNA (FPDR 16 19 7) (FPDR 0 3 5) (DIMM 20 21) DNA SIMD_OP;
  INST "VMUL_sc_T1" 0xef800840 0xef800e50 0xffffffff 0x00000000 (FPQDR 12 15 22 24) DNA (FPQDR 16 19 7 24) (FPDR 0 3 5) (DIMM 20 21) DNA SIMD_OP;
  INST "VMULL_sc_T2" 0xf2800a40 0xfe800f50 0xffffffff 0x00000000 (FPQR 12 15 22) DNA (FPDR 16 19 7) (FPDR 0 3 5) (DIMM 20 21) DNA SIMD_OP;
  INST "VQDMULL_sc_T2" 0xef800b40 0xff800f50 0xffffffff 0x00000000 (FPQR 12 15 22) DNA (FPDR 16 19 7) (FPDR 0 3 5) (DIMM 20 21) DNA SIMD_OP;
  INST "VQDMULH_sc_T2" 0xef800c40 0xef800f50 0xffffffff 0x00000000 (FPQDR 12 15 22 24) DNA (FPQDR 16 19 7 24) (FPDR 0 3 5) (DIMM 20 21) DNA SIMD_OP;
  INST "VQRDMULH_sc_T2" 0xef800d40 0xef800f50 0xffffffff 0x00000000 (FPQDR 12 15 22 24) DNA (FPQDR 16 19 7 24) (FPDR 0 3 5) (DIMM 20 21) DNA SIMD_OP;
  INST "VEXT_T1" 0xefb00000 0xffb00010 0xffffffff 0x00000000 (FPQDR 12 15 22 6) DNA (FPQDR 16 19 7 6) (FPQDR 0 3 5 6) (DIMM 8 11) DNA SIMD_OP;
  INST "STC2_T2" 0xfc000000 0xfe100000 0x00400000 0x01e00000 DNA DNA (DGPR 16 19) (DIMM 0 7) DNA DNA NO_OP;
  INST "LDC2_lit_T2" 0xfc1f0000 0xfe1f0000 0x00400000 0x01e00000 DNA DNA (DIMM 0 7) DNA DNA DNA NO_OP;
  INST "LDC2_imm_T2" 0xfc100000 0xfe100000 0x00400000 0x01e00000 DNA DNA (DGPR 16 19) (DIMM 0 7) DNA DNA NO_OP;
  INST "MCRR2_T2" 0xfc400000 0xfff00000 0xffffffff 0x00000000 DNA DNA (DGPR 12 15) (DGPR 16 19) DNA DNA NO_OP;
  INST "MRRC2_T2" 0xfc500000 0xfff00000 0xffffffff 0x00000000 (DGPR 12 15) (DGPR 16 19) DNA DNA DNA DNA NO_OP;
  INST "CDP2_T2" 0xfe000000 0xff000010 0xffffffff 0x00000000 DNA DNA DNA DNA DNA DNA NO_OP;
  INST "MCR2_T2" 0xfe000010 0xff100010 0xffffffff 0x00000000 DNA DNA (DGPR 12 15) DNA DNA DNA NO_OP;
  INST "MRC2_T2" 0xfe100010 0xff100010 0xffffffff 0x00000000 (DGPR 12 15) DNA DNA DNA DNA DNA NO_OP;
  INST "VEOR_T1" 0xff000110 0xffb00f10 0xffffffff 0x00000000 (FPQDR 12 15 22 6) DNA (FPQDR 16 19 7 6) (FPQDR 0 3 5 6) DNA DNA SIMD_OP;
  INST "VBSL_T1" 0xff100110 0xffb00f10 0xffffffff 0x00000000 (FPQDR 12 15 22 6) DNA (FPQDR 16 19 7 6) (FPQDR 0 3 5 6) DNA DNA SIMD_OP;
  INST "VBIT_T1" 0xff200110 0xffb00f10 0xffffffff 0x00000000 (FPQDR 12 15 22 6) DNA (FPQDR 16 19 7 6) (FPQDR 0 3 5 6) DNA DNA SIMD_OP;
  INST "VBIF_T1" 0xff300110 0xffb00f10 0xffffffff 0x00000000 (FPQDR 12 15 22 6) DNA (FPQDR 16 19 7 6) (FPQDR 0 3 5 6) DNA DNA SIMD_OP;
  INST "VSUB_int_T1" 0xff000800 0xff800f10 0xffffffff 0x00000000 (FPQDR 12 15 22 6) DNA (FPQDR 16 19 7 6) (FPQDR 0 3 5 6) (DIMM 20 21) DNA SIMD_OP;
  INST "VCEQ_T1" 0xff000810 0xff800f10 0xffffffff 0x00000000 (FPQDR 12 15 22 6) DNA (FPQDR 16 19 7 6) (FPQDR 0 3 5 6) (DIMM 20 21) DNA SIMD_OP;
  INST "VQRDMULH_T1" 0xff000b00 0xff800f10 0xffffffff 0x00000000 (FPQDR 12 15 22 6) DNA (FPQDR 16 19 7 6) (FPQDR 0 3 5 6) (DIMM 20 21) DNA SIMD_OP;
  INST "VPADD_fp_T1" 0xff000d00 0xffa00f10 0x00100000 0x00100000 (FPDR 12 15 22) DNA (FPDR 16 19 7) (FPDR 0 3 5) DNA DNA SIMD_OP;
  INST "VABD_fp_T1" 0xff200d00 0xffa00f10 0xffffffff 0x00000000 (FPQDR 12 15 22 6) DNA (FPQDR 16 19 7 6) (FPQDR 0 3 5 6) DNA DNA SIMD_OP;
  INST "VMUL_fp_T1" 0xff000d10 0xffa00f10 0xffffffff 0x00000000 (FPQDR 12 15 22 6) DNA (FPQDR 16 19 7 6) (FPQDR 0 3 5 6) DNA DNA SIMD_OP;
  INST "VCEQ_fp_T2" 0xef000e00 0xffa00f10 0xffffffff 0x00000000 (FPQDR 12 15 22 6) DNA (FPQDR 16 19 7 6) (FPQDR 0 3 5 6) DNA DNA SIMD_OP;
  INST "VCGE_fp_T2" 0xff000e00 0xffa00f10 0xffffffff 0x00000000 (FPQDR 12 15 22 6) DNA (FPQDR 16 19 7 6) (FPQDR 0 3 5 6) DNA DNA SIMD_OP;
  INST "VCGT_0_T2" 0xff200e00 0xffa00f10 0xffffffff 0x00000000 (FPQDR 12 15 22 6) DNA (FPQDR 16 19 7 6) (FPQDR 0 3 5 6) DNA DNA SIMD_OP;
  INST "VACGE_T1" 0xff000e10 0xffa00f10 0xffffffff 0x00000000 (FPQDR 12 15 22 6) DNA (FPQDR 16 19 7 6) (FPQDR 0 3 5 6) DNA DNA SIMD_OP;
  INST "VACGT_T1" 0xff200e10 0xffa00f10 0xffffffff 0x00000000 (FPQDR 12 15 22 6) DNA (FPQDR 16 19 7 6) (FPQDR 0 3 5 6) DNA DNA SIMD_OP;
  INST "VMAX_fp_T1" 0xef000f00 0xffa00f10 0xffffffff 0x00000000 (FPQDR 12 15 22 6) DNA (FPQDR 16 19 7 6) (FPQDR 0 3 5 6) DNA DNA SIMD_OP;
  INST "VMIN_fp_T1" 0xef200f00 0xffa00f10 0xffffffff 0x00000000 (FPQDR 12 15 22 6) DNA (FPQDR 16 19 7 6) (FPQDR 0 3 5 6) DNA DNA SIMD_OP;
  INST "VPMAX_fp_T1" 0xff000f00 0xffa00f10 0xffffffff 0x00000000 (FPDR 12 15 22) DNA (FPDR 16 19 7) (FPDR 0 3 5) DNA DNA SIMD_OP;
  INST "VRECPS_T1" 0xef000f10 0xffa00f10 0xffffffff 0x00000000 (FPQDR 12 15 22 6) DNA (FPQDR 16 19 7 6) (FPQDR 0 3 5 6) DNA DNA SIMD_OP;
  INST "VRSQRTS_T1" 0xef200f10 0xffa00f10 0xffffffff 0x00000000 (FPQDR 12 15 22 6) DNA (FPQDR 16 19 7 6) (FPQDR 0 3 5 6) DNA DNA SIMD_OP;
  INST "VPMIN_fp_T1" 0xff200f00 0xffa00f10 0xffffffff 0x00000000 (FPDR 12 15 22) DNA (FPDR 16 19 7) (FPDR 0 3 5) DNA DNA SIMD_OP;
  INST "VSRI_T1" 0xff800410 0xff800f10 0xffffffff 0x00000000 (FPQDR 12 15 22 6) DNA (FPQDR 0 3 5 6) (DIMM_MERGE 7 7 16 21) DNA DNA SIMD_OP;
  INST "VSLI_T1" 0xff800510 0xff800f10 0xffffffff 0x00000000 (FPQDR 12 15 22 6) DNA (FPQDR 0 3 5 6) (DIMM_MERGE 7 7 16 21) DNA DNA SIMD_OP;
  INST "VRADDHN_T1" 0xff800400 0xff800f50 0x00300000 0x00300000 (FPDR 12 15 22) DNA (FPQR 16 19 7) (FPQR 0 3 5) (DIMM 20 21) DNA SIMD_OP;
  INST "VRSUBHN_T1" 0xff800600 0xff800f50 0x00300000 0x00300000 (FPDR 12 15 22) DNA (FPQR 16 19 7) (FPQR 0 3 5) (DIMM 20 21) DNA SIMD_OP;
  INST "VREV64_T1" 0xffb00000 0xffb30f90 0xffffffff 0x00000000 (FPQDR 12 15 22 6) DNA (FPQDR 0 3 5 6) (DIMM 18 19) DNA DNA SIMD_OP;
  INST "VREV32_T1" 0xffb00080 0xffb30f90 0xffffffff 0x00000000 (FPQDR 12 15 22 6) DNA (FPQDR 0 3 5 6) (DIMM 18 19) DNA DNA SIMD_OP;
  INST "VREV16_T1" 0xffb00100 0xffb30f90 0xffffffff 0x00000000 (FPQDR 12 15 22 6) DNA (FPQDR 0 3 5 6) (DIMM 18 19) DNA DNA SIMD_OP;
  INST "VPADDL_T1" 0xffb00200 0xffb30f10 0x000c0000 0x000c0000 (FPQDR 12 15 22 6) DNA (FPQDR 0 3 5 6) (DIMM 18 19) DNA DNA SIMD_OP;
  INST "VCLS_T1" 0xffb00400 0xffb30f90 0x000c0000 0x000c0000 (FPQDR 12 15 22 6) DNA (FPQDR 0 3 5 6) (DIMM 18 19) DNA DNA SIMD_OP;
  INST "VCLZ_T1" 0xffb00480 0xffb30f90 0x000c0000 0x000c0000 (FPQDR 12 15 22 6) DNA (FPQDR 0 3 5 6) (DIMM 18 19) DNA DNA SIMD_OP;
  INST "VCNT_T1" 0xffb00500 0xffbf0f90 0xffffffff 0x00000000 (FPQDR 12 15 22 6) DNA (FPQDR 0 3 5 6) (DIMM 18 19) DNA DNA SIMD_OP;
  INST "VMVN_T1" 0xffb00580 0xffb30f90 0xffffffff 0x00000000 (FPQDR 12 15 22 6) DNA (FPQDR 0 3 5 6) (DIMM 18 19) DNA DNA SIMD_OP;
  INST "VPADAL_T1" 0xffb00600 0xffb30f10 0xffffffff 0x00000000 (FPQDR 12 15 22 6) DNA (FPQDR 0 3 5 6) (DIMM 18 19) DNA DNA SIMD_OP;
  INST "VQABS_T1" 0xffb00700 0xffb30f90 0xffffffff 0x00000000 (FPQDR 12 15 22 6) DNA (FPQDR 0 3 5 6) (DIMM 18 19) DNA DNA SIMD_OP;
  INST "VQNEG_T1" 0xffb00780 0xffb30f90 0xffffffff 0x00000000 (FPQDR 12 15 22 6) DNA (FPQDR 0 3 5 6) (DIMM 18 19) DNA DNA SIMD_OP;
  INST "VCGT_imm_T1" 0xffb10000 0xffb30b90 0xffffffff 0x00000000 (FPQDR 12 15 22 6) DNA (FPQDR 0 3 5 6) (DIMM 18 19) DNA DNA SIMD_OP;
  INST "VCGE_imm_T1" 0xffb10080 0xffb30b90 0xffffffff 0x00000000 (FPQDR 12 15 22 6) DNA (FPQDR 0 3 5 6) (DIMM 18 19) DNA DNA SIMD_OP;
  INST "VCEQ_imm_T1" 0xffb10100 0xffb30b90 0xffffffff 0x00000000 (FPQDR 12 15 22 6) DNA (FPQDR 0 3 5 6) (DIMM 18 19) DNA DNA SIMD_OP;
  INST "VCLE_imm_T1" 0xffb10180 0xffb30b90 0xffffffff 0x00000000 (FPQDR 12 15 22 6) DNA (FPQDR 0 3 5 6) (DIMM 18 19) DNA DNA SIMD_OP;
  INST "VCLT_imm_T1" 0xffb10200 0xffb30b90 0xffffffff 0x00000000 (FPQDR 12 15 22 6) DNA (FPQDR 0 3 5 6) (DIMM 18 19) DNA DNA SIMD_OP;
  INST "VABS_T1" 0xffb10300 0xffb30b90 0xffffffff 0x00000000 (FPDSR 12 15 22 8) DNA (FPDSR 0 3 5 8) (DIMM 18 19) DNA DNA SIMD_OP;
  INST "VNEG_T1" 0xffb10380 0xffb30b90 0xffffffff 0x00000000 (FPQDR 12 15 22 6) DNA (FPQDR 0 3 5 6) (DIMM 18 19) DNA DNA SIMD_OP;
  INST "VSWP_T1" 0xffb20000 0xffb30f90 0xffffffff 0x00000000 (FPQDR 12 15 22 6) DNA (FPQDR 0 3 5 6) (DIMM 18 19) DNA DNA SIMD_OP;
  INST "VTRN_T1" 0xffb20080 0xffb30f90 0xffffffff 0x00000000 (FPQDR 12 15 22 6) DNA (FPQDR 0 3 5 6) (DIMM 18 19) DNA DNA SIMD_OP;
  INST "VUZP_T1" 0xffb20100 0xffb30f90 0xffffffff 0x00000000 (FPQDR 12 15 22 6) DNA (FPQDR 0 3 5 6) (DIMM 18 19) DNA DNA SIMD_OP;
  INST "VZIP_T1" 0xffb20180 0xffb30f90 0xffffffff 0x00000000 (FPQDR 12 15 22 6) DNA (FPQDR 0 3 5 6) (DIMM 18 19) DNA DNA SIMD_OP;
  INST "VMOVN_T1" 0xffb20200 0xffb30fd0 0xffffffff 0x00000000 (FPDR 12 15 22) DNA (FPQR 0 3 5) (DIMM 18 19) DNA DNA SIMD_OP;
  INST "VQMOVUN_T1" 0xffb20240 0xffb30fd0 0xffffffff 0x00000000 (FPDR 12 15 22) DNA (FPQR 0 3 5) (DIMM 18 19) DNA DNA SIMD_OP;
  INST "VQMOVN_T1" 0xffb20280 0xffb30f90 0xffffffff 0x00000000 (FPDR 12 15 22) DNA (FPQR 0 3 5) (DIMM 18 19) DNA DNA SIMD_OP;
  INST "VSHLL_0_T2" 0xffb20300 0xffb30fd0 0x000c0000 0x000c0000 (FPQR 12 15 22) DNA (FPDR 0 3 5) (DIMM 18 19) DNA DNA SIMD_OP;
  INST "VCVT_hpsp_T1" 0xffb20600 0xffb30fd0 0xffffffff 0x00000000 (FPDR 12 15 22) DNA (FPQR 0 3 5) (DIMM 18 19) DNA DNA SIMD_OP;
  INST "VCVT_sphp_T1" 0xffb20700 0xffb30fd0 0xffffffff 0x00000000 (FPQR 12 15 22) DNA (FPDR 0 3 5) DNA DNA DNA NO_OP;
  INST "VRECPE_T1" 0xffb30400 0xffb30e90 0xffffffff 0x00000000 (FPQDR 12 15 22 6) DNA (FPQDR 0 3 5 6) (DIMM 18 19) DNA DNA SIMD_OP;
  INST "VRSQRTE_T1" 0xffb30480 0xffb30e80 0xffffffff 0x00000000 (FPQDR 12 15 22 6) DNA (FPQDR 0 3 5 6) (DIMM 18 19) DNA DNA SIMD_OP;
  INST "VCVT_fpint_T1" 0xffb30600 0xffb30e10 0xffffffff 0x00000000 (FPQDR 12 15 22 6) DNA (FPQDR 0 3 5 6) (DIMM 18 19) DNA DNA SIMD_OP;
  INST "VTBL_T1" 0xffb00800 0xffb00c50 0xffffffff 0x00000000 (FPDR 12 15 22) DNA (FPDR 16 19 7) (FPDR 0 3 5) DNA DNA SIMD_OP;
  INST "VTBX_T1" 0xffb00840 0xffb00c50 0xffffffff 0x00000000 (FPDR 12 15 22) DNA (FPDR 16 19 7) (FPDR 0 3 5) DNA DNA SIMD_OP;
  INST "VDUP_sc_T1" 0xffb00c00 0xffb00f90 0xffffffff 0x00000000 (FPQDR 12 15 22 6) DNA (FPDR 0 3 5) (DIMM 16 19) DNA DNA SIMD_OP;
  INST "VDUP_T1" 0xee800b10 0xff900f50 0xffffffff 0x00000000 (FPQDR 12 15 22 6) DNA (FPDR 0 3 5) (DIMM_MERGE 5 5 22 22) DNA DNA SIMD_OP;
  TAIL (* T32_EC_END *);
  CONNECT (* T32_F0_CONNECT *);
  INST "AND_imm_T1" 0xf0000000 0xfbe08000 0x00100f00 0x00100f00 (DGPR 8 11) DNA (DGPR 16 19) (DIMM_THUMBEXP 0 7 8) DNA DNA LOG_OP;
  INST "TST_imm_T1" 0xf0100f00 0xfbf08f00 0xffffffff 0x00000000 DNA DNA (DGPR 16 19) (DIMM_THUMBEXP 0 7 8) DNA DNA TEST_OP;
  INST "BIC_imm_T1" 0xf0200000 0xfbe08000 0xffffffff 0x00000000 (DGPR 8 11) DNA (DGPR 16 19) (DIMM_THUMBEXP 0 7 8) DNA DNA LOG_OP;
  INST "ORR_imm_T1" 0xf0400000 0xfbe08000 0x000f0000 0x000f0000 (DGPR 8 11) DNA (DGPR 16 19) (DIMM_THUMBEXP 0 7 8) DNA DNA LOG_OP;
  INST "MOV_imm_T2" 0xf04f0000 0xfbef8000 0xffffffff 0x00000000 (DGPR 8 11) DNA (DIMM_THUMBEXP 0 7 8) DNA DNA DNA MOV_OP;
  INST "ORN_imm_T1" 0xf0600000 0xfbe08000 0x000f0000 0x000f0000 (DGPR 8 11) DNA (DGPR 16 19) (DIMM_THUMBEXP 0 7 8) DNA DNA LOG_OP;
  INST "MVN_imm_T1" 0xf06f0000 0xfbef8000 0xffffffff 0x00000000 (DGPR 8 11) DNA (DIMM_THUMBEXP 0 7 8) DNA DNA DNA MOV_OP;
  INST "EOR_imm_T1" 0xf0800000 0xfbe08000 0x00100f00 0x00100f00 (DGPR 8 11) DNA (DGPR 16 19) (DIMM_THUMBEXP 0 7 8) DNA DNA LOG_OP;
  INST "TEQ_imm_T1" 0xf0900f00 0xfbf08f00 0xffffffff 0x00000000 DNA DNA (DGPR 16 19) (DIMM_THUMBEXP 0 7 8) DNA DNA TEST_OP;
  INST "ADD_imm_T3" 0xf1000000 0xfbe08000 0x00100f00 0x00100f00 (DGPR 8 11) DNA (DGPR 16 19) (DIMM_THUMBEXP 0 7 8) DNA DNA ALU_OP;
  INST "ADD_sp_imm_T3" 0xf10d0000 0xfbef8000 0x00100f00 0x00100f00 (DGPR 8 11) DNA (DGPR_CONST 13) (DIMM_THUMBEXP 0 7 8) DNA DNA ALU_OP;
  INST "CMN_imm_T1" 0xf1100f00 0xfbf08f00 0xffffffff 0x00000000 DNA DNA (DGPR 16 19) (DIMM_THUMBEXP 0 7 8) DNA DNA CMP_OP;
  INST "ADC_imm_T1" 0xf1400000 0xfbe08000 0xffffffff 0x00000000 (DGPR 8 11) DNA (DGPR 16 19) (DIMM_THUMBEXP 0 7 8) DNA DNA ALU_OP;
  INST "SBC_imm_T1" 0xf1600000 0xfbe08000 0xffffffff 0x00000000 (DGPR 8 11) DNA (DGPR 16 19) (DIMM_THUMBEXP 0 7 8) DNA DNA ALU_OP;
  INST "SUB_imm_T3" 0xf1a00000 0xfbe08000 0x00000f00 0x00000f00 (DGPR 8 11) DNA (DGPR 16 19) (DIMM_THUMBEXP 0 7 8) DNA DNA ALU_OP;
  INST "SUB_sp_imm_T2" 0xf1ad0000 0xfbef8000 0x00100f00 0x00100f00 (DGPR 8 11) DNA (DGPR 16 19) (DIMM_THUMBEXP 0 7 8) DNA DNA ALU_OP;
  INST "CMP_imm_T2" 0xf1b00f00 0xfbf08f00 0xffffffff 0x00000000 DNA DNA (DGPR 16 19) (DIMM_THUMBEXP 0 7 8) DNA DNA CMP_OP;
  INST "RSB_imm_T2" 0xf1c00000 0xfbe08000 0xffffffff 0x00000000 (DGPR 8 11) DNA (DGPR 16 19) (DIMM_THUMBEXP 0 7 8) DNA DNA ALU_OP;
  TAIL (* T32_F0_END *);
  CONNECT (* T32_F2_CONNECT *);
  INST "ADD_imm_T4" 0xf2000000 0xfbf08000 0x000d0000 0x000d0000 (DGPR 8 11) DNA (DGPR 16 19) (DIMM_ZERO_EXTEND_I 0 7 8 26) DNA DNA ALU_OP;
  INST "ADD_sp_imm_T4" 0xf20d0000 0xfbff8000 0xffffffff 0x00000000 (DGPR 8 11) DNA (DGPR_CONST 13) (DIMM_ZERO_EXTEND_I 0 7 8 26) DNA DNA ALU_OP;
  INST "ADR_T3" 0xf20f0000 0xfbff8000 0xffffffff 0x00000000 (DGPR 8 11) DNA (DGPR 16 19) (DIMM_ZERO_EXTEND_I 0 7 8 26) DNA DNA MISC_OP;
  INST "MOV_imm_T3" 0xf2400000 0xfbf08000 0xffffffff 0x00000000 (DGPR 8 11) DNA (DIMM_MERGE 0 7 12 14) DNA DNA DNA MOV_OP;
  INST "SUB_imm_T4" 0xf2a00000 0xfbf08000 0x000d0000 0x000d0000 (DGPR 8 11) DNA (DGPR 16 19) (DIMM_ZERO_EXTEND_I 0 7 8 26) DNA DNA ALU_OP;
  INST "SUB_sp_imm_T3" 0xf2ad0000 0xfbff8000 0xffffffff 0x00000000 (DGPR 8 11) DNA (DGPR 16 19) (DIMM_ZERO_EXTEND_I 0 7 8 26) DNA DNA ALU_OP;
  INST "ADR_T2" 0xf2af0000 0xfbff8000 0xffffffff 0x00000000 (DGPR 8 11) DNA (DGPR 16 19) (DIMM_ZERO_EXTEND_I 0 7 8 26) DNA DNA MISC_OP;
  INST "MOVT_T1" 0xf2c00000 0xfbf08000 0xffffffff 0x00000000 (DGPR 8 11) DNA (DIMM_MERGE 0 7 12 14) DNA DNA DNA MISC_OP;
  INST "SSAT_T1" 0xf3000000 0xffd08020 0x00200000 0x002070c0 (DGPR 8 11) DNA (DIMM 0 4) (DGPR 16 19) (DSHFTIMM_T 6 7 20 21) DNA MISC_OP;
  INST "SSAT16_T1" 0xf3200000 0xfbf0f0c0 0xffffffff 0x00000000 (DGPR 8 11) DNA (DIMM 0 3) (DGPR 16 19) DNA DNA MISC_OP;
  INST "SBFX_T1" 0xf3400000 0xfff08020 0xffffffff 0x00000000 (DGPR 8 11) DNA (DGPR 16 19) (DIMM_MERGE 12 14 6 7) (DIMM 0 4) DNA BF_OP;
  INST "BFC_T1" 0xf36f0000 0xffff8020 0xffffffff 0x00000000 (DGPR 8 11) DNA (DIMM 0 4) (DIMM_MERGE 12 14 6 7) DNA DNA BF_OP;
  INST "BFI_T1" 0xf3600000 0xfff08020 0x000f0000 0x000f0000 (DGPR 8 11) DNA (DIMM 0 4) (DIMM_MERGE 12 14 6 7) (DGPR 16 19) DNA BF_OP;
  INST "USAT_T1" 0xf3800000 0xffd08020 0x00200000 0x002070c0 (DGPR 8 11) DNA (DIMM 0 4) (DGPR 16 19) (DSHFTIMM_T 6 7 20 21) DNA EXT_OP;
  INST "USAT16_T1" 0xf3a00000 0xfff0f0f0 0xffffffff 0x00000000 (DGPR 8 11) DNA (DIMM 0 3) (DGPR 16 19) DNA DNA EXT_OP;
  INST "UBFX_T1" 0xf3c00000 0xfff08020 0xffffffff 0x00000000 (DGPR 8 11) DNA (DGPR 16 19) (DIMM_MERGE 12 14 6 7) (DIMM 0 4) DNA BF_OP;
  INST "UDIV_T1" 0xfbb0f0f0 0xfff0f0f0 0xffffffff 0x00000000 (DGPR 8 11) DNA (DGPR 16 19) (DGPR 0 3) DNA DNA NO_OP;
  TAIL (* T32_F2_END *);
  CONNECT (* T32_F08_CONNECT *);
  INST "B_T3" 0xf0008000 0xf800d000 0x03800000 0x03800000 DNA DNA (DIMM_MERGE 0 10 16 21) (DCOND 22 25) DNA DNA JMP_OP;
  INST "MSR_a_T1" 0xf3808000 0xfff0f300 0xffffffff 0x00000000 DNA DNA (DGPR 16 19) (DIMM 10 11) DNA DNA SR_OP;
  INST "MSR_s_T1" 0xf3408000 0xffe0d000 0xffffffff 0x00000000 DNA DNA (DGPR 16 19) (DIMM 10 11) DNA DNA NO_OP;
  INST "CPS_T2" 0xf3af8000 0xfffff800 0x00000000 0x00000700 DNA DNA DNA DNA DNA DNA NO_OP;
  INST "NOP_T2" 0xf3af8000 0xffffffff 0xffffffff 0x00000000 DNA DNA DNA DNA DNA DNA EMPTY_OP;
  INST "YIELD_T2" 0xf3af8001 0xffffffff 0xffffffff 0x00000000 DNA DNA DNA DNA DNA DNA EMPTY_OP;
  INST "WFE_T2" 0xf3af8002 0xffffffff 0xffffffff 0x00000000 DNA DNA DNA DNA DNA DNA EMPTY_OP;
  INST "WFI_T2" 0xf3af8003 0xffffffff 0xffffffff 0x00000000 DNA DNA DNA DNA DNA DNA EMPTY_OP;
  INST "SEV_T2" 0xf3af8004 0xffffffff 0xffffffff 0x00000000 DNA DNA DNA DNA DNA DNA EMPTY_OP;
  INST "DBG_T1" 0xf3af80f0 0xfffffff0 0xffffffff 0x00000000 DNA DNA DNA DNA DNA DNA EMPTY_OP;
  INST "LEAVEX_T1" 0xf3bf8f0f 0xffffffff 0xffffffff 0x00000000 DNA DNA DNA DNA DNA DNA NO_OP;
  INST "ENTERX_T1" 0xf3bf8f1f 0xffffffff 0xffffffff 0x00000000 DNA DNA DNA DNA DNA DNA NO_OP;
  INST "CLREX_T1" 0xf3bf8f2f 0xffffffff 0xffffffff 0x00000000 DNA DNA DNA DNA DNA DNA EMPTY_OP;
  INST "DSB_T1" 0xf3bf8f40 0xfffffff0 0xffffffff 0x00000000 DNA DNA DNA DNA DNA DNA EMPTY_OP;
  INST "DMB_T1" 0xf3bf8f50 0xfffffff0 0xffffffff 0x00000000 DNA DNA DNA DNA DNA DNA EMPTY_OP;
  INST "ISB_T1" 0xf3bf8f60 0xfffffff0 0xffffffff 0x00000000 DNA DNA DNA DNA DNA DNA EMPTY_OP;
  INST "BXJ_reg_T1" 0xf3c08f00 0xfff0ffff 0xffffffff 0x00000000 DNA DNA (DGPR 16 19) DNA DNA DNA NO_OP;
  INST "SUBS_T1" 0xf3de8f00 0xffffff00 0xffffffff 0x00000000 (DGPR_CONST 15) DNA (DGPR_CONST 14) (DIMM 0 7) DNA DNA NO_OP;
  INST "MRS_a_T1" 0xf3ef8000 0xfffff0ff 0xffffffff 0x00000000 (DGPR 8 11) DNA DNA DNA DNA DNA SR_OP;
  INST "MRS_s_T1" 0xf3ef8000 0xffeff0ff 0xffffffff 0x00000000 (DGPR 8 11) DNA DNA DNA DNA DNA NO_OP;
  INST "B_T4" 0xf0009000 0xf800d000 0xffffffff 0x00000000 DNA DNA (DIMM_MERGE 0 10 16 25) DNA DNA DNA JMP_OP;
  INST "BL_imm_T1" 0xf000d000 0xf800d000 0xffffffff 0x00000000 DNA DNA (DIMM_MERGE 16 29 0 10) DNA DNA DNA JMP_OP;
  INST "BLX_imm_T2" 0xf000c000 0xf800d000 0xffffffff 0x00000000 DNA DNA (DIMM_MERGE 16 29 1 10) DNA DNA DNA JMP_OP;
  TAIL (* T32_F08_END *);
  CONNECT (* T32_F8_CONNECT *);
  INST "STRB_imm_T2" 0xf8800000 0xfff00000 0x000f0000 0x000f0000 DNA DNA (DGPR 12 15) (DGPR 16 19) (DIMM 0 11) DNA ST_OP;
  INST "STRB_imm_T3" 0xf8000800 0xfff00800 0x000f0000 0x000f0000 DNA DNA (DGPR 12 15) (DGPR 16 19) (DIMM 0 7) DNA ST_OP;
  INST "STRBT_T1" 0xf8000e00 0xfff00f00 0x000f0000 0x000f0000 DNA DNA (DGPR 12 15) (DGPR 16 19) (DIMM 0 7) DNA ST_OP;
  INST "STRB_reg_T2" 0xf8000000 0xfff00fc0 0x000f0000 0x000f0000 DNA DNA (DGPR 12 15) (DGPR 16 19) (DGPR 0 3) (DSHFTIMM 4 5 6 7) ST_OP;
  INST "STRH_imm_T2" 0xf8a00000 0xfff00000 0x000f0000 0x000f0000 DNA DNA (DGPR 12 15) (DGPR 16 19) (DIMM 0 11) DNA ST_OP;
  INST "STRH_imm_T3" 0xf8200800 0xfff00800 0x000f0000 0x000f0000 DNA DNA (DGPR 12 15) (DGPR 16 19) (DIMM 0 7) DNA ST_OP;
  INST "STRHT_T1" 0xf8200e00 0xfff00f00 0x000f0000 0x000f0000 DNA DNA (DGPR 12 15) (DGPR 16 19) (DIMM 0 7) DNA ST_OP;
  INST "STRH_reg_T2" 0xf8200000 0xfff00fc0 0x000f0000 0x000f0000 DNA DNA (DGPR 12 15) (DGPR 16 19) (DGPR 0 3) (DSHFTIMM 4 5 6 7) ST_OP;
  INST "STR_imm_T3" 0xf8c00000 0xfff00000 0x000f0000 0x000f0000 DNA DNA (DGPR 12 15) (DGPR 16 19) (DIMM 0 11) DNA ST_OP;
  INST "STR_imm_T4" 0xf8400800 0xfff00800 0x000f0000 0x000f0000 DNA DNA (DGPR 12 15) (DGPR 16 19) (DIMM 0 7) DNA ST_OP;
  INST "STRT_T1" 0xf8400e00 0xfff00f00 0x000f0000 0x000f0000 DNA DNA (DGPR 12 15) (DGPR 16 19) (DIMM 0 7) DNA ST_OP;
  INST "STR_reg_T2" 0xf8400000 0xfff00fc0 0x000f0000 0x000f0000 DNA DNA (DGPR 12 15) (DGPR 16 19) (DGPR 0 3) (DSHFTIMM 4 5 6 7) ST_OP;
  INST "POP_T3" 0xf85d0b04 0xffff0fff 0xffffffff 0x00000000 (DGPR 12 15) DNA (DGPR 16 19) (DIMM 0 7) DNA DNA POP_OP;
  INST "VST1_m1e_T1" 0xf9000200 0xffb00f00 0xffffffff 0x00000000 DNA DNA (FPDR 12 15 22) (DGPR 16 19) (DGPR 0 3) (DIMM 4 11) SIMD_OP;
  INST "VST1_m1e_0_T1" 0xf9000600 0xffb00e00 0xffffffff 0x00000000 DNA DNA (FPDR 12 15 22) (DGPR 16 19) (DGPR 0 3) (DIMM 4 11) SIMD_OP;
  INST "VST1_m1e_1_T1" 0xf9000a00 0xffb00f00 0xffffffff 0x00000000 DNA DNA (FPDR 12 15 22) (DGPR 16 19) (DGPR 0 3) (DIMM 4 11) SIMD_OP;
  INST "VST2_m2e_T1" 0xf9000300 0xffb00f00 0xffffffff 0x00000000 DNA DNA (FPDR 12 15 22) (DGPR 16 19) (DGPR 0 3) (DIMM 4 11) SIMD_OP;
  INST "VST2_m2e_0_T1" 0xf9000800 0xffb00e00 0xffffffff 0x00000000 DNA DNA (FPDR 12 15 22) (DGPR 16 19) (DGPR 0 3) (DIMM 4 11) SIMD_OP;
  INST "VST3_m3e_T1" 0xf9000400 0xffb00e00 0xffffffff 0x00000000 DNA DNA (FPDR 12 15 22) (DGPR 16 19) (DGPR 0 3) (DIMM 4 11) SIMD_OP;
  INST "VST4_T1" 0xf9000000 0xffb00e00 0xffffffff 0x00000000 DNA DNA (FPDR 12 15 22) (DGPR 16 19) (DGPR 0 3) (DIMM 4 11) SIMD_OP;
  INST "VST1_1e1l_T1" 0xf9800000 0xffb00b00 0xffffffff 0x00000000 DNA DNA (FPDR 12 15 22) (DGPR 16 19) (DGPR 0 3) (DIMM 4 11) SIMD_OP;
  INST "VST1_1e1l_0_T1" 0xf9800800 0xffb00f00 0xffffffff 0x00000000 DNA DNA (FPDR 12 15 22) (DGPR 16 19) (DGPR 0 3) (DIMM 4 11) SIMD_OP;
  INST "VST2_2e1l_T1" 0xf9800100 0xffb00b00 0xffffffff 0x00000000 DNA DNA (FPDR 12 15 22) (DGPR 16 19) (DGPR 0 3) (DIMM 4 11) SIMD_OP;
  INST "VST2_2e1l_0_T1" 0xf9800900 0xffb00f00 0xffffffff 0x00000000 DNA DNA (FPDR 12 15 22) (DGPR 16 19) (DGPR 0 3) (DIMM 4 11) SIMD_OP;
  INST "VST3_3e1l_T1" 0xf9800200 0xffb00b00 0xffffffff 0x00000000 DNA DNA (FPDR 12 15 22) (DGPR 16 19) (DGPR 0 3) (DIMM 4 11) SIMD_OP;
  INST "VST3_3e1l_0_T1" 0xf9800a00 0xffb00f00 0xffffffff 0x00000000 DNA DNA (FPDR 12 15 22) (DGPR 16 19) (DGPR 0 3) (DIMM 4 11) SIMD_OP;
  INST "VST4_4e1l_T1" 0xf9800300 0xffb00b00 0xffffffff 0x00000000 DNA DNA (FPDR 12 15 22) (DGPR 16 19) (DGPR 0 3) (DIMM 4 11) SIMD_OP;
  INST "VST4_4e1l_0_T1" 0xf9800b00 0xffb00f00 0xffffffff 0x00000000 DNA DNA (FPDR 12 15 22) (DGPR 16 19) (DGPR 0 3) (DIMM 4 11) SIMD_OP;
  INST "VLD1_m1e_T1" 0xf9200200 0xffb00f00 0xffffffff 0x00000000 (FPDR 12 15 22) DNA (DGPR 16 19) (DGPR 0 3) (DIMM 4 11) DNA SIMD_OP;
  INST "VLD1_m1e_0_T1" 0xf9200600 0xffb00e00 0xffffffff 0x00000000 (FPDR 12 15 22) DNA (DGPR 16 19) (DGPR 0 3) (DIMM 4 11) DNA SIMD_OP;
  INST "VLD1_m1e_1_T1" 0xf9200a00 0xffb00f00 0xffffffff 0x00000000 (FPDR 12 15 22) DNA (DGPR 16 19) (DGPR 0 3) (DIMM 4 11) DNA SIMD_OP;
  INST "VLD2_m2e_T1" 0xf9200300 0xffb00f00 0xffffffff 0x00000000 (FPDR 12 15 22) DNA (DGPR 16 19) (DGPR 0 3) (DIMM 4 11) DNA SIMD_OP;
  INST "VLD2_m2e_0_T1" 0xf9200800 0xffb00e00 0xffffffff 0x00000000 (FPDR 12 15 22) DNA (DGPR 16 19) (DGPR 0 3) (DIMM 4 11) DNA SIMD_OP;
  INST "VLD3_m3e_T1" 0xf9200400 0xffb00e00 0xffffffff 0x00000000 (FPDR 12 15 22) DNA (DGPR 16 19) (DGPR 0 3) (DIMM 4 11) DNA SIMD_OP;
  INST "VLD4_m4e_T1" 0xf9200000 0xffb00e00 0xffffffff 0x00000000 (FPDR 12 15 22) DNA (DGPR 16 19) (DGPR 0 3) (DIMM 4 11) DNA SIMD_OP;
  INST "VLD1_1e1l_T1" 0xf9a00000 0xffb00b00 0xffffffff 0x00000000 (FPDR 12 15 22) DNA (DGPR 16 19) (DGPR 0 3) (DIMM 4 11) DNA SIMD_OP;
  INST "VLD1_1e1l_0_T1" 0xf9a00800 0xffb00f00 0xffffffff 0x00000000 (FPDR 12 15 22) DNA (DGPR 16 19) (DGPR 0 3) (DIMM 4 11) DNA SIMD_OP;
  INST "VLD1_1eal_T1" 0xf9a00c00 0xffb00f00 0xffffffff 0x00000000 (FPDR 12 15 22) DNA (DGPR 16 19) (DGPR 0 3) (DIMM 4 7) DNA SIMD_OP;
  INST "VLD2_2e1l_T1" 0xf9a00100 0xffb00b00 0xffffffff 0x00000000 (FPDR 12 15 22) DNA (DGPR 16 19) (DGPR 0 3) (DIMM 4 11) DNA SIMD_OP;
  INST "VLD2_2e1l_0_T1" 0xf9a00900 0xffb00f00 0xffffffff 0x00000000 (FPDR 12 15 22) DNA (DGPR 16 19) (DGPR 0 3) (DIMM 4 11) DNA SIMD_OP;
  INST "VLD2_2eal_T1" 0xf9a00d00 0xffb00f00 0xffffffff 0x00000000 (FPDR 12 15 22) DNA (DGPR 16 19) (DGPR 0 3) (DIMM 4 7) DNA SIMD_OP;
  INST "VLD3_3e1l_T1" 0xf9a00200 0xffb00b00 0xffffffff 0x00000000 (FPDR 12 15 22) DNA (DGPR 16 19) (DGPR 0 3) (DIMM 4 11) DNA SIMD_OP;
  INST "VLD3_3e1l_0_T1" 0xf9a00a00 0xffb00f00 0xffffffff 0x00000000 (FPDR 12 15 22) DNA (DGPR 16 19) (DGPR 0 3) (DIMM 4 11) DNA SIMD_OP;
  INST "VLD3_3eal_T1" 0xf9a00e00 0xffb00f00 0xffffffff 0x00000000 (FPDR 12 15 22) DNA (DGPR 16 19) (DGPR 0 3) (DIMM 4 7) DNA SIMD_OP;
  INST "VLD4_4e1l_T1" 0xf9a00300 0xffb00b00 0xffffffff 0x00000000 (FPDR 12 15 22) DNA (DGPR 16 19) (DGPR 0 3) (DIMM 4 11) DNA SIMD_OP;
  INST "VLD4_4e1l_0_T1" 0xf9a00b00 0xffb00f00 0xffffffff 0x00000000 (FPDR 12 15 22) DNA (DGPR 16 19) (DGPR 0 3) (DIMM 4 11) DNA SIMD_OP;
  INST "VLD4_4eal_T1" 0xf9a00f00 0xffb00f00 0xffffffff 0x00000000 (FPDR 12 15 22) DNA (DGPR 16 19) (DGPR 0 3) (DIMM 4 7) DNA SIMD_OP;
  INST "PLD_lit_T1" 0xf81ff000 0xff7ff000 0xffffffff 0x00000000 DNA DNA (DIMM 0 11) DNA DNA DNA EMPTY_OP;
  INST "PLD_imm_T1" 0xf990f000 0xfff0f000 0x000f0000 0x000f0000 DNA DNA (DGPR 16 19) (DIMM 0 11) DNA DNA EMPTY_OP;
  INST "PLD_imm_T2" 0xf910fc00 0xfff0ff00 0x000f0000 0x000f0000 DNA DNA (DGPR 16 19) (DIMM 0 7) DNA DNA EMPTY_OP;
  INST "PLD_reg_T1" 0xf810f000 0xffd0ffc0 0x000f0000 0x000f0000 DNA DNA (DGPR 16 19) (DGPR 0 3) (DSHFTIMM 4 5 6 7) DNA EMPTY_OP;
  INST "PLDW_imm_T1" 0xf890f000 0xffd0f000 0x000f0000 0x000f0000 DNA DNA (DGPR 16 19) (DIMM 0 11) DNA DNA EMPTY_OP;
  INST "PLDW_imm_T2" 0xf810fc00 0xffd0ff00 0x000f0000 0x000f0000 DNA DNA (DGPR 16 19) (DIMM 0 7) DNA DNA EMPTY_OP;
  INST "PLDW_reg_T1" 0xf830f000 0xfff0ffc0 0x000f0000 0x000f0000 DNA DNA (DGPR 16 19) (DGPR 0 3) (DSHFTIMM 4 5 6 7) DNA EMPTY_OP;
  INST "PLI_imm_T1" 0xf990f000 0xfff0f000 0x000f0000 0x000f0000 DNA DNA (DGPR 16 19) (DIMM 0 11) DNA DNA EMPTY_OP;
  INST "PLI_imm_T2" 0xf910fc00 0xfff0ff00 0x000f0000 0x000f0000 DNA DNA (DGPR 16 19) (DIMM 0 7) DNA DNA EMPTY_OP;
  INST "PLI_lit_T3" 0xf91ff000 0xff7ff000 0xffffffff 0x00000000 DNA DNA (DGPR 16 19) (DIMM 0 11) DNA DNA EMPTY_OP;
  INST "PLI_reg_T1" 0xf910f000 0xfff0ffc0 0x000f0000 0x000f0000 DNA DNA (DGPR 16 19) (DIMM 4 5) (DSHFTIMM 4 5 6 7) DNA EMPTY_OP;
  INST "LDRB_lit_T1" 0xf81f0000 0xff7f0000 0x0000f000 0x0000f000 (DGPR 12 15) DNA (DGPR 16 19) (DIMM 0 11) DNA DNA LD_OP;
  INST "LDRB_imm_T2" 0xf8900000 0xfff00000 0x0000f000 0x0000f000 (DGPR 12 15) DNA (DGPR 16 19) (DIMM 0 11) DNA DNA LD_OP;
  INST "LDRB_imm_T3" 0xf8100800 0xfff00800 0xffffffff 0x00000000 (DGPR 12 15) DNA (DGPR 16 19) (DIMM 0 7) DNA DNA LD_OP;
  INST "LDRBT_T1" 0xf8100e00 0xfff00f00 0x000f0000 0x000f0000 (DGPR 12 15) DNA (DGPR 16 19) (DIMM 0 11) DNA DNA LD_OP;
  INST "LDRB_reg_T2" 0xf8100000 0xfff00fc0 0x0000f000 0x0000f000 (DGPR 12 15) DNA (DGPR 16 19) (DGPR 0 3) (DSHFTIMM 4 5 6 7) DNA LD_OP;
  INST "LDRSB_lit_T1" 0xf91f0000 0xff7f0000 0x0000f000 0x0000f000 (DGPR 12 15) DNA (DGPR 16 19) (DIMM 0 11) DNA DNA LD_OP;
  INST "LDRSB_imm_T1" 0xf9900000 0xfff00000 0x0000f000 0x0000f000 (DGPR 12 15) DNA (DGPR 16 19) (DIMM 0 11) DNA DNA LD_OP;
  INST "LDRSB_imm_T2" 0xf9100800 0xfff00800 0x0000f400 0x0000f700 (DGPR 12 15) DNA (DGPR 16 19) (DIMM 0 7) DNA DNA LD_OP;
  INST "LDRSBT_T1" 0xf9100e00 0xfff00f00 0x0000f000 0x0000f000 (DGPR 12 15) DNA (DGPR 16 19) (DIMM 0 7) DNA DNA LD_OP;
  INST "LDRSB_reg_T2" 0xf9100000 0xfff00fc0 0x0000f000 0x0000f000 (DGPR 12 15) DNA (DGPR 16 19) (DGPR 0 3) (DSHFTIMM 4 5 6 7) DNA LD_OP;
  INST "LDRH_lit_T1" 0xf83f0000 0xff7f0000 0x0000f000 0x0000f000 (DGPR 12 15) DNA (DGPR 16 19) (DIMM 0 11) DNA DNA LD_OP;
  INST "LDRH_imm_T2" 0xf8b00000 0xfff00000 0x000f0000 0x000f0000 (DGPR 12 15) DNA (DGPR 16 19) (DIMM 0 11) DNA DNA LD_OP;
  INST "LDRHT_T1" 0xf8300e00 0xfff00f00 0x000f0000 0x000f0000 (DGPR 12 15) DNA (DGPR 16 19) (DIMM 0 7) DNA DNA LD_OP;
  INST "LDRH_imm_T3" 0xf8300800 0xfff00800 0x0000fc00 0x0000fc00 (DGPR 12 15) DNA (DGPR 16 19) (DIMM 0 7) DNA DNA LD_OP;
  INST "LDRH_reg_T2" 0xf8300000 0xfff00fc0 0x000f0000 0x000f0000 (DGPR 12 15) DNA (DGPR 16 19) (DGPR 0 3) (DSHFTIMM 4 5 6 7) DNA LD_OP;
  INST "LDRSH_lit_T1" 0xf93f0000 0xff7f0000 0xffffffff 0x00000000 (DGPR 12 15) DNA (DGPR 16 19) (DIMM 0 11) DNA DNA LD_OP;
  INST "LDRSH_imm_T1" 0xf9b00000 0xfff00000 0x000f0000 0x000f0000 (DGPR 12 15) DNA (DGPR 16 19) (DIMM 0 11) DNA DNA LD_OP;
  INST "LDRSH_imm_T2" 0xf9300800 0xfff00800 0x0000f000 0x0000f000 (DGPR 12 15) DNA (DGPR 16 19) (DIMM 0 7) DNA DNA LD_OP;
  INST "LDRSHT_T1" 0xf9300e00 0xfff00f00 0x000f0000 0x000f0000 (DGPR 12 15) DNA (DGPR 16 19) (DIMM 0 7) DNA DNA LD_OP;
  INST "LDRSH_reg_T2" 0xf9300000 0xfff00fc0 0x000f0000 0x000f0000 (DGPR 12 15) DNA (DGPR 16 19) (DGPR 0 3) (DSHFTIMM 4 5 6 7) DNA LD_OP;
  INST "LDRT_T1" 0xf8500e00 0xfff00f00 0x000f0000 0x000f0000 (DGPR 12 15) DNA (DGPR 16 19) (DIMM 0 7) DNA DNA LD_OP;
  INST "LDR_imm_T3" 0xf8d00000 0xfff00000 0x000f0000 0x000f0000 (DGPR 12 15) DNA (DGPR 16 19) (DIMM 0 11) DNA DNA LD_OP;
  INST "LDR_imm_T4" 0xf8500800 0xfff00800 0x000f0000 0x000f0000 (DGPR 12 15) DNA (DGPR 16 19) (DIMM 0 7) DNA DNA LD_OP;
  INST "LDR_reg_T2" 0xf8500000 0xfff00fc0 0x000f0000 0x000f0000 (DGPR 12 15) DNA (DGPR 16 19) (DGPR 0 3) (DSHFTIMM 4 5 6 7) DNA LD_OP;
  INST "LDR_lit_T2" 0xf85f0000 0xff7f0000 0xffffffff 0x00000000 (DGPR 12 15) DNA (DGPR 16 19) (DIMM 0 11) DNA DNA LD_OP;
  TAIL (* T32_F8_END *);
  CONNECT (* T32_FA_CONNECT *);
  INST "LSL_reg_T2" 0xfa00f000 0xffe0f0f0 0xffffffff 0x00000000 (DGPR 8 11) DNA (DGPR 16 19) (DSHFTGPR 0 3 21 22) DNA DNA MOV_OP;
  INST "LSR_reg_T2" 0xfa20f000 0xffe0f0f0 0xffffffff 0x00000000 (DGPR 8 11) DNA (DGPR 16 19) (DSHFTGPR 0 3 21 22) DNA DNA MOV_OP;
  INST "ASR_reg_T2" 0xfa40f000 0xffe0f0f0 0xffffffff 0x00000000 (DGPR 8 11) DNA (DGPR 16 19) (DSHFTGPR 0 3 21 22) DNA DNA MOV_OP;
  INST "ROR_reg_T2" 0xfa60f000 0xffe0f0f0 0xffffffff 0x00000000 (DGPR 8 11) DNA (DGPR 16 19) (DSHFTGPR 0 3 21 22) DNA DNA MOV_OP;
  INST "SXTAH_T1" 0xfa00f080 0xfff0f080 0x000f0000 0x000f0000 (DGPR 8 11) DNA (DROTATEGPR 0 3 4 5) (DGPR 16 19) DNA DNA EXT_OP;
  INST "SXTH_T2" 0xfa0ff080 0xfffff080 0xffffffff 0x00000000 (DGPR 8 11) DNA (DROTATEGPR 0 3 4 5) DNA DNA DNA EXT_OP;
  INST "UXTAH_T1" 0xfa10f080 0xfff0f080 0x000f0000 0x000f0000 (DGPR 8 11) DNA (DROTATEGPR 0 3 4 5) (DGPR 16 19) DNA DNA EXT_OP;
  INST "UXTH_T2" 0xfa1ff080 0xfffff080 0xffffffff 0x00000000 (DGPR 8 11) DNA (DROTATEGPR 0 3 4 5) DNA DNA DNA EXT_OP;
  INST "SXTAB16_T1" 0xfa20f080 0xfff0f080 0x000f0000 0x000f0000 (DGPR 8 11) DNA (DROTATEGPR 0 3 4 5) (DGPR 16 19) DNA DNA EXT_OP;
  INST "SXTB16_T1" 0xfa2ff080 0xfffff080 0xffffffff 0x00000000 (DGPR 8 11) DNA (DROTATEGPR 0 3 4 5) DNA DNA DNA EXT_OP;
  INST "UXTAB16_T1" 0xfa30f080 0xfff0f080 0x000f0000 0x000f0000 (DGPR 8 11) DNA (DROTATEGPR 0 3 4 5) (DGPR 16 19) DNA DNA EXT_OP;
  INST "UXTB16_T1" 0xfa3ff080 0xfffff080 0xffffffff 0x00000000 (DGPR 8 11) DNA (DROTATEGPR 0 3 4 5) DNA DNA DNA EXT_OP;
  INST "SXTAB_T1" 0xfa40f080 0xfff0f080 0x000f0000 0x000f0000 (DGPR 8 11) DNA (DROTATEGPR 0 3 4 5) (DGPR 16 19) DNA DNA EXT_OP;
  INST "SXTB_T2" 0xfa4ff080 0xfffff080 0xffffffff 0x00000000 (DGPR 8 11) DNA (DROTATEGPR 0 3 4 5) DNA DNA DNA EXT_OP;
  INST "UXTAB_T1" 0xfa50f080 0xfff0f080 0x000f0000 0x000f0000 (DGPR 8 11) DNA (DROTATEGPR 0 3 4 5) (DGPR 16 19) DNA DNA EXT_OP;
  INST "UXTB_T2" 0xfa5ff080 0xfffff080 0xffffffff 0x00000000 (DGPR 8 11) DNA (DROTATEGPR 0 3 4 5) DNA DNA DNA EXT_OP;
  INST "SADD16_T1" 0xfa90f000 0xfff0f0f0 0xffffffff 0x00000000 (DGPR 8 11) DNA (DGPR 16 19) (DGPR 0 3) DNA DNA S_BYTE_ALU_OP;
  INST "SASX_T1" 0xfaa0f000 0xfff0f0f0 0xffffffff 0x00000000 (DGPR 8 11) DNA (DGPR 16 19) (DGPR 0 3) DNA DNA S_BYTE_ALU_OP;
  INST "SSAX_T1" 0xfae0f000 0xfff0f0f0 0xffffffff 0x00000000 (DGPR 8 11) DNA (DGPR 16 19) (DGPR 0 3) DNA DNA S_BYTE_ALU_OP;
  INST "SSUB16_T1" 0xfad0f000 0xfff0f0f0 0xffffffff 0x00000000 (DGPR 8 11) DNA (DGPR 16 19) (DGPR 0 3) DNA DNA S_BYTE_ALU_OP;
  INST "SADD8_T1" 0xfa80f000 0xfff0f0f0 0xffffffff 0x00000000 (DGPR 8 11) DNA (DGPR 16 19) (DGPR 0 3) DNA DNA S_BYTE_ALU_OP;
  INST "SSUB8_T1" 0xfac0f000 0xfff0f0f0 0xffffffff 0x00000000 (DGPR 8 11) DNA (DGPR 16 19) (DGPR 0 3) DNA DNA S_BYTE_ALU_OP;
  INST "QADD16_T1" 0xfa90f010 0xfff0f0f0 0xffffffff 0x00000000 (DGPR 8 11) DNA (DGPR 16 19) (DGPR 0 3) DNA DNA BYTE_ALU_OP;
  INST "QASX_T1" 0xfaa0f010 0xfff0f0f0 0xffffffff 0x00000000 (DGPR 8 11) DNA (DGPR 16 19) (DGPR 0 3) DNA DNA BYTE_ALU_OP;
  INST "QSAX_T1" 0xfae0f010 0xfff0f0f0 0xffffffff 0x00000000 (DGPR 8 11) DNA (DGPR 16 19) (DGPR 0 3) DNA DNA BYTE_ALU_OP;
  INST "QSUB16_T1" 0xfad0f010 0xfff0f0f0 0xffffffff 0x00000000 (DGPR 8 11) DNA (DGPR 16 19) (DGPR 0 3) DNA DNA BYTE_ALU_OP;
  INST "QADD8_T1" 0xfa80f010 0xfff0f0f0 0xffffffff 0x00000000 (DGPR 8 11) DNA (DGPR 16 19) (DGPR 0 3) DNA DNA BYTE_ALU_OP;
  INST "QSUB8_T1" 0xfac0f010 0xfff0f0f0 0xffffffff 0x00000000 (DGPR 8 11) DNA (DGPR 16 19) (DGPR 0 3) DNA DNA BYTE_ALU_OP;
  INST "SHADD16_T1" 0xfa90f020 0xfff0f0f0 0xffffffff 0x00000000 (DGPR 8 11) DNA (DGPR 16 19) (DGPR 0 3) DNA DNA S_BYTE_ALU_OP;
  INST "SHASX_T1" 0xfaa0f020 0xfff0f0f0 0xffffffff 0x00000000 (DGPR 8 11) DNA (DGPR 16 19) (DGPR 0 3) DNA DNA S_BYTE_ALU_OP;
  INST "SHSAX_T1" 0xfae0f020 0xfff0f0f0 0xffffffff 0x00000000 (DGPR 8 11) DNA (DGPR 16 19) (DGPR 0 3) DNA DNA S_BYTE_ALU_OP;
  INST "SHSUB16_T1" 0xfad0f020 0xfff0f0f0 0xffffffff 0x00000000 (DGPR 8 11) DNA (DGPR 16 19) (DGPR 0 3) DNA DNA S_BYTE_ALU_OP;
  INST "SHADD8_T1" 0xfa80f020 0xfff0f0f0 0xffffffff 0x00000000 (DGPR 8 11) DNA (DGPR 16 19) (DGPR 0 3) DNA DNA S_BYTE_ALU_OP;
  INST "SHSUB8_T1" 0xfac0f020 0xfff0f0f0 0xffffffff 0x00000000 (DGPR 8 11) DNA (DGPR 16 19) (DGPR 0 3) DNA DNA S_BYTE_ALU_OP;
  INST "UADD16_T1" 0xfa90f040 0xfff0f0f0 0xffffffff 0x00000000 (DGPR 8 11) DNA (DGPR 16 19) (DGPR 0 3) DNA DNA BYTE_ALU_OP;
  INST "UASX_T1" 0xfaa0f040 0xfff0f0f0 0xffffffff 0x00000000 (DGPR 8 11) DNA (DGPR 16 19) (DGPR 0 3) DNA DNA BYTE_ALU_OP;
  INST "USAX_T1" 0xfae0f040 0xfff0f0f0 0xffffffff 0x00000000 (DGPR 8 11) DNA (DGPR 16 19) (DGPR 0 3) DNA DNA BYTE_ALU_OP;
  INST "USUB16_T1" 0xfad0f040 0xfff0f0f0 0xffffffff 0x00000000 (DGPR 8 11) DNA (DGPR 16 19) (DGPR 0 3) DNA DNA BYTE_ALU_OP;
  INST "UADD8_T1" 0xfa80f040 0xfff0f0f0 0xffffffff 0x00000000 (DGPR 8 11) DNA (DGPR 16 19) (DGPR 0 3) DNA DNA BYTE_ALU_OP;
  INST "USUB8_T1" 0xfac0f040 0xfff0f0f0 0xffffffff 0x00000000 (DGPR 8 11) DNA (DGPR 16 19) (DGPR 0 3) DNA DNA BYTE_ALU_OP;
  INST "UQADD16_T1" 0xfa90f050 0xfff0f0f0 0xffffffff 0x00000000 (DGPR 8 11) DNA (DGPR 16 19) (DGPR 0 3) DNA DNA BYTE_ALU_OP;
  INST "UQASX_T1" 0xfaa0f050 0xfff0f0f0 0xffffffff 0x00000000 (DGPR 8 11) DNA (DGPR 16 19) (DGPR 0 3) DNA DNA BYTE_ALU_OP;
  INST "UQSAX_T1" 0xfae0f050 0xfff0f0f0 0xffffffff 0x00000000 (DGPR 8 11) DNA (DGPR 16 19) (DGPR 0 3) DNA DNA BYTE_ALU_OP;
  INST "UQSUB16_T1" 0xfad0f050 0xfff0f0f0 0xffffffff 0x00000000 (DGPR 8 11) DNA (DGPR 16 19) (DGPR 0 3) DNA DNA BYTE_ALU_OP;
  INST "UQADD8_T1" 0xfa80f050 0xfff0f0f0 0xffffffff 0x00000000 (DGPR 8 11) DNA (DGPR 16 19) (DGPR 0 3) DNA DNA BYTE_ALU_OP;
  INST "UQSUB8_T1" 0xfac0f050 0xfff0f0f0 0xffffffff 0x00000000 (DGPR 8 11) DNA (DGPR 16 19) (DGPR 0 3) DNA DNA BYTE_ALU_OP;
  INST "UHADD16_T1" 0xfa90f060 0xfff0f0f0 0xffffffff 0x00000000 (DGPR 8 11) DNA (DGPR 16 19) (DGPR 0 3) DNA DNA BYTE_ALU_OP;
  INST "UHASX_T1" 0xfaa0f060 0xfff0f0f0 0xffffffff 0x00000000 (DGPR 8 11) DNA (DGPR 16 19) (DGPR 0 3) DNA DNA BYTE_ALU_OP;
  INST "UHSAX_T1" 0xfae0f060 0xfff0f0f0 0xffffffff 0x00000000 (DGPR 8 11) DNA (DGPR 16 19) (DGPR 0 3) DNA DNA BYTE_ALU_OP;
  INST "UHSUB16_T1" 0xfad0f060 0xfff0f0f0 0xffffffff 0x00000000 (DGPR 8 11) DNA (DGPR 16 19) (DGPR 0 3) DNA DNA BYTE_ALU_OP;
  INST "UHADD8_T1" 0xfa80f060 0xfff0f0f0 0xffffffff 0x00000000 (DGPR 8 11) DNA (DGPR 16 19) (DGPR 0 3) DNA DNA BYTE_ALU_OP;
  INST "UHSUB8_T1" 0xfac0f060 0xfff0f0f0 0xffffffff 0x00000000 (DGPR 8 11) DNA (DGPR 16 19) (DGPR 0 3) DNA DNA BYTE_ALU_OP;
  INST "QADD_T1" 0xfa80f080 0xfff0f0f0 0xffffffff 0x00000000 (DGPR 8 11) DNA (DGPR 0 3) (DGPR 16 19) DNA DNA BYTE_ALU_OP;
  INST "QDADD_T1" 0xfa80f090 0xfff0f0f0 0xffffffff 0x00000000 (DGPR 8 11) DNA (DGPR 16 19) (DGPR 0 3) DNA DNA BYTE_ALU_OP;
  INST "QSUB_T1" 0xfa80f0a0 0xfff0f0f0 0xffffffff 0x00000000 (DGPR 8 11) DNA (DGPR 16 19) (DGPR 0 3) DNA DNA BYTE_ALU_OP;
  INST "QDSUB_T1" 0xfa80f0b0 0xfff0f0f0 0xffffffff 0x00000000 (DGPR 8 11) DNA (DGPR 16 19) (DGPR 0 3) DNA DNA BYTE_ALU_OP;
  INST "REV_T2" 0xfa90f080 0xfff0f0f0 0xffffffff 0x00000000 (DGPR 8 11) DNA (DGPR 0 3) DNA DNA DNA REVERSE_OP;
  INST "REV16_T2" 0xfa90f090 0xfff0f0f0 0xffffffff 0x00000000 (DGPR 8 11) DNA (DGPR 0 3) DNA DNA DNA REVERSE_OP;
  INST "RBIT_T1" 0xfa90f0a0 0xfff0f0f0 0xffffffff 0x00000000 (DGPR 8 11) DNA (DGPR 0 3) DNA DNA DNA REVERSE_OP;
  INST "REVSH_T2" 0xfa90f0b0 0xfff0f0f0 0xffffffff 0x00000000 (DGPR 8 11) DNA (DGPR 0 3) DNA DNA DNA REVERSE_OP;
  INST "SEL_T1" 0xfaa0f080 0xfff0f0f0 0xffffffff 0x00000000 (DGPR 8 11) DNA (DGPR 16 19) (DGPR 0 3) DNA DNA BYTE_ALU_OP;
  INST "CLZ_T1" 0xfab0f080 0xfff0f0f0 0xffffffff 0x00000000 (DGPR 8 11) DNA (DGPR 0 3) DNA DNA DNA MISC_OP;
  TAIL (* T32_FA_END *);
  CONNECT (* T32_FB_CONNECT *);
  INST "MUL_T2" 0xfb00f000 0xfff0f0f0 0xffffffff 0x00000000 (DGPR 8 11) DNA (DGPR 16 19) (DGPR 0 3) DNA DNA MUL32_OP;
  INST "MLA_T1" 0xfb000000 0xfff000f0 0x0000f000 0x0000f000 (DGPR 8 11) DNA (DGPR 16 19) (DGPR 0 3) (DGPR 12 15) DNA MUL32_OP;
  INST "MLS_T1" 0xfb000010 0xfff000f0 0xffffffff 0x00000000 (DGPR 8 11) DNA (DGPR 16 19) (DGPR 0 3) (DGPR 12 15) DNA MUL32_OP;
  INST "SMLABB_T1" 0xfb100000 0xfff000c0 0x0000f000 0x0000f000 (DGPR 8 11) DNA (DGPR 16 19) (DGPR 0 3) (DGPR 12 15) DNA SMUL_OP;
  INST "SMULBB_T1" 0xfb10f000 0xfff0f0c0 0xffffffff 0x00000000 (DGPR 8 11) DNA (DGPR 16 19) (DGPR 0 3) DNA DNA SMUL_OP;
  INST "SMLAD_T1" 0xfb200000 0xfff000e0 0x0000f000 0x0000f000 (DGPR 8 11) DNA (DGPR 16 19) (DGPR 0 3) (DGPR 12 15) DNA SMULD_OP;
  INST "SMUAD_T1" 0xfb20f000 0xfff0f0e0 0xffffffff 0x00000000 (DGPR 8 11) DNA (DGPR 16 19) (DGPR 0 3) DNA DNA SMULD_OP;
  INST "SMLAWB_T1" 0xfb300000 0xfff000e0 0x0000f000 0x0000f000 (DGPR 8 11) DNA (DGPR 16 19) (DGPR 0 3) (DGPR 12 15) DNA SMUL_OP;
  INST "SMULWB_T1" 0xfb30f000 0xfff0f0e0 0xffffffff 0x00000000 (DGPR 8 11) DNA (DGPR 16 19) (DGPR 0 3) DNA DNA SMUL_OP;
  INST "SMLSD_T1" 0xfb400000 0xfff000e0 0x0000f000 0x0000f000 (DGPR 8 11) DNA (DGPR 16 19) (DGPR 0 3) (DGPR 12 15) DNA SMULD_OP;
  INST "SMUSD_T1" 0xfb40f000 0xfff0f0e0 0xffffffff 0x00000000 (DGPR 8 11) DNA (DGPR 16 19) (DGPR 0 3) DNA DNA SMULD_OP;
  INST "SMMLA_T1" 0xfb500000 0xfff000e0 0x0000f000 0x0000f000 (DGPR 8 11) DNA (DGPR 16 19) (DGPR 0 3) (DGPR 12 15) DNA SMUL_OP;
  INST "SMMUL_T1" 0xfb50f000 0xfff0f0e0 0xffffffff 0x00000000 (DGPR 8 11) DNA (DGPR 16 19) (DGPR 0 3) DNA DNA SMUL_OP;
  INST "SMMLS_T1" 0xfb600000 0xfff000e0 0xffffffff 0x00000000 (DGPR 8 11) DNA (DGPR 16 19) (DGPR 0 3) (DGPR 12 15) DNA SMUL_OP;
  INST "USAD8_T1" 0xfb70f000 0xfff0f0f0 0xffffffff 0x00000000 (DGPR 8 11) DNA (DGPR 16 19) (DGPR 0 3) DNA DNA BYTE_ALU_OP;
  INST "USADA8_T1" 0xfb700000 0xfff000f0 0x0000f000 0x0000f000 (DGPR 8 11) DNA (DGPR 16 19) (DGPR 0 3) (DGPR 12 15) DNA BYTE_ALU_OP;
  INST "SMULL_T1" 0xfb800000 0xfff000f0 0xffffffff 0x00000000 (DGPR 8 11) (DGPR 12 15) (DGPR 16 19) (DGPR 0 3) DNA DNA SMUL_OP;
  INST "SDIV_T1" 0xfb90f0f0 0xfff0f0f0 0xffffffff 0x00000000 (DGPR 8 11) DNA (DGPR 16 19) (DGPR 0 3) DNA DNA NO_OP;
  INST "UMULL_T1" 0xfba00000 0xfff000f0 0xffffffff 0x00000000 (DGPR 8 11) (DGPR 12 15) (DGPR 16 19) (DGPR 0 3) DNA DNA UMUL_OP;
  INST "SMLAL_T1" 0xfbc00000 0xfff000f0 0xffffffff 0x00000000 (DGPR_RW 8 11) (DGPR_RW 12 15) (DGPR 16 19) (DGPR 0 3) DNA DNA SMUL_OP;
  INST "SMLALBB_T1" 0xfbc00080 0xfff000c0 0xffffffff 0x00000000 (DGPR 8 11) (DGPR 12 15) (DGPR 16 19) (DGPR 0 3) DNA DNA SMUL_OP;
  INST "SMLALD_T1" 0xfbc000c0 0xfff000e0 0xffffffff 0x00000000 (DGPR 8 11) (DGPR 12 15) (DGPR 16 19) (DGPR 0 3) DNA DNA SMULD_OP;
  INST "SMLSLD_T1" 0xfbd000c0 0xfff000e0 0xffffffff 0x00000000 (DGPR 8 11) (DGPR 12 15) (DGPR 16 19) (DGPR 0 3) DNA DNA SMULD_OP;
  INST "UMLAL_T1" 0xfbe00000 0xfff000f0 0xffffffff 0x00000000 (DGPR_RW 8 11) (DGPR_RW 12 15) (DGPR 16 19) (DGPR 0 3) DNA DNA UMUL_OP;
  INST "UMAAL_T1" 0xfbe00060 0xfff000f0 0xffffffff 0x00000000 (DGPR_RW 8 11) (DGPR_RW 12 15) (DGPR 16 19) (DGPR 0 3) DNA DNA UMUL_OP;
  TAIL (* T32_FB_END *)
].

Definition glb_instr_tlb : list arm_instr_desc_t :=
  zero_desc :: arm_tlb ++ zero_desc :: thumb_tlb ++ zero_desc :: thumb32_tlb ++ [zero_desc].

(** [glb_instr_tlb[op]]; the enumeration is exactly the index range. *)
Definition instr_desc (op : Z) : arm_instr_desc_t :=
  nth (Z.to_nat op) glb_instr_tlb zero_desc.

(** [glb_instr_tlb[op].opnds[i]] *)
Definition opnd_of (op : Z) (i : nat) : sisa_opnd_t := nth i (instr_desc op).(opnds) OPNDNA.

(** [op] is one of the listed opcodes: a run of [case] labels, or a chain of
    [op == ...] tests joined by [||]. *)
Definition op_in (op : Z) (l : list Z) : bool := existsb (Z.eqb op) l.

Lemma op_in_spec op l : op_in op l = true ↔ op ∈ l.
Proof.
  unfold op_in. rewrite existsb_exists. setoid_rewrite Z.eqb_eq.
  rewrite list_elem_of_In. split; [by intros (x & ? & ->)|by exists op].
Qed.

(** A check of every listed opcode. *)
Lemma op_in_check (f : Z → bool) op l : op_in op l = true → forallb f l = true → f op = true.
Proof. rewrite op_in_spec, list_elem_of_In, forallb_forall. auto. Qed.

(** The opcode range of the table. *)
Definition all_ops : list Z := seqZ 0 SISA_OP_MAX.

(** The table has one entry per enumerator. *)
Lemma length_glb_instr_tlb : Z.of_nat (length glb_instr_tlb) = SISA_OP_MAX.
Proof. vm_compute. reflexivity. Qed.

Lemma elem_of_all_ops op : op ∈ all_ops ↔ 0 ≤ op < SISA_OP_MAX.
Proof. unfold all_ops. rewrite elem_of_seqZ. lia. Qed.

(** Reflection: a boolean check of the whole table. *)
Lemma table_check (f : Z → bool) :
  forallb f all_ops = true → ∀ op, 0 ≤ op < SISA_OP_MAX → f op = true.
Proof.
  intros H op Hop. rewrite forallb_forall in H. apply H.
  apply list_elem_of_In, elem_of_all_ops, Hop.
Qed.

(** The same for the ARM part of the table. *)
Lemma arm_table_check (f : Z → bool) :
  forallb f (seqZ 0 SISA_OP_ARM_MAX) = true → ∀ op, 0 ≤ op < SISA_OP_ARM_MAX → f op = true.
Proof.
  intros H op Hop. rewrite forallb_forall in H. apply H.
  apply list_elem_of_In, elem_of_seqZ. lia.
Qed.

#[global] Opaque glb_instr_tlb.
