(* ===== verification/State.v ===== *)
(** * Global state, environment and output buffers

    The global variables of RandomInstrGen.c as one record, threaded through
    the monad of the prelude; the C library and machine behaviour the program
    depends on ([rand], the clock, indeterminate memory) as a type class; the
    [sprintf] conversions the program uses. *)
From Stdlib Require Import Ascii.
From S2P Require Import Prelude RitCommon InstrTable.

(** ** 1. Environment *)

(** [rand_at s i] is the [i]-th number that [rand()] returns after [srand(s)];
    C guarantees the range 0..RAND_MAX, with RAND_MAX = 2^31 - 1 in glibc.
    [time_seed] is [tv.tv_sec + tv.tv_usec].  [uninit_u32 n] is what an
    uninitialised [uint32_t] local reads as in the [n]-th retry, and
    [opkind_oob i] is the byte found at index [i] past the end of
    [opkind_list]; both are arbitrary functions, and two calls need not find the
    same ones ([with_indeterminate] in Indeterminate.v).  [skip_pc_base] tells the two versions of GenHelper.c apart:
    [fix_mem_base] leaves a base register pc alone in rit/new_src, and does not
    look at it in rit/src. *)
Class RitEnv := {
  rand_at : Z → nat → Z;
  rand_at_range : ∀ s i, 0 ≤ rand_at s i < 2 ^ 31;
  time_seed : Z;
  uninit_u32 : Z → Z;
  opkind_oob : nat → bool;
  skip_pc_base : bool
}.

(** A concrete environment, for evaluating the model: a linear congruential
    generator, and zeroed indeterminate memory. *)
Definition lcg_at (seed : Z) (i : nat) : Z :=
  Nat.iter (S i) (λ x, (x * 1103515245 + 12345) mod 2 ^ 31) (seed mod 2 ^ 31) / 8 mod 2 ^ 31.

Lemma lcg_at_range seed i : 0 ≤ lcg_at seed i < 2 ^ 31.
Proof. apply Z.mod_pos_bound. lia. Qed.

Definition lcg_env : RitEnv := {|
  rand_at := lcg_at;
  rand_at_range := lcg_at_range;
  time_seed := 5;
  uninit_u32 := λ _, 0;
  opkind_oob := λ _, false;
  skip_pc_base := true
|}.

(** ** 2. The global variables *)

Record rit_state := Mk_rit_state {
  options : gen_option_t;
  shadow_options : gen_option_t;
  is_reg_init : list bool;
  reg_init_vals : list Z;
  instr_buf : list string;
  init_instr_buf : list string;
  instr_idx : Z;
  init_instr_idx : Z;
  instr_fixed_bit : Z;
  cur_fixed_bit : Z;
  is_set_fixed_bit : bool;
  is_oprand_init : bool;
  is_reg_bit_cut : bool;
  raw_instr : Z;
  print_buf : string;
  sreg_idx : Z;
  dreg_idx : Z;
  fp_sreg_ext_idx : Z;
  fp_dreg_ext_idx : Z;
  opkind_list : list bool;
  rand_seed : Z;
  rand_pos : nat
}.

Definition st_options (v : gen_option_t) (r : rit_state) : rit_state :=
    Mk_rit_state v r.(shadow_options) r.(is_reg_init) r.(reg_init_vals) r.(instr_buf)
    r.(init_instr_buf) r.(instr_idx) r.(init_instr_idx) r.(instr_fixed_bit) r.(cur_fixed_bit)
    r.(is_set_fixed_bit) r.(is_oprand_init) r.(is_reg_bit_cut) r.(raw_instr) r.(print_buf)
    r.(sreg_idx) r.(dreg_idx) r.(fp_sreg_ext_idx) r.(fp_dreg_ext_idx) r.(opkind_list) r.(rand_seed)
    r.(rand_pos).
Definition st_shadow_options (v : gen_option_t) (r : rit_state) : rit_state :=
    Mk_rit_state r.(options) v r.(is_reg_init) r.(reg_init_vals) r.(instr_buf) r.(init_instr_buf)
    r.(instr_idx) r.(init_instr_idx) r.(instr_fixed_bit) r.(cur_fixed_bit) r.(is_set_fixed_bit)
    r.(is_oprand_init) r.(is_reg_bit_cut) r.(raw_instr) r.(print_buf) r.(sreg_idx) r.(dreg_idx)
    r.(fp_sreg_ext_idx) r.(fp_dreg_ext_idx) r.(opkind_list) r.(rand_seed) r.(rand_pos).
Definition st_is_reg_init (v : list bool) (r : rit_state) : rit_state :=
    Mk_rit_state r.(options) r.(shadow_options) v r.(reg_init_vals) r.(instr_buf) r.(init_instr_buf)
    r.(instr_idx) r.(init_instr_idx) r.(instr_fixed_bit) r.(cur_fixed_bit) r.(is_set_fixed_bit)
    r.(is_oprand_init) r.(is_reg_bit_cut) r.(raw_instr) r.(print_buf) r.(sreg_idx) r.(dreg_idx)
    r.(fp_sreg_ext_idx) r.(fp_dreg_ext_idx) r.(opkind_list) r.(rand_seed) r.(rand_pos).
Definition st_reg_init_vals (v : list Z) (r : rit_state) : rit_state :=
    Mk_rit_state r.(options) r.(shadow_options) r.(is_reg_init) v r.(instr_buf) r.(init_instr_buf)
    r.(instr_idx) r.(init_instr_idx) r.(instr_fixed_bit) r.(cur_fixed_bit) r.(is_set_fixed_bit)
    r.(is_oprand_init) r.(is_reg_bit_cut) r.(raw_instr) r.(print_buf) r.(sreg_idx) r.(dreg_idx)
    r.(fp_sreg_ext_idx) r.(fp_dreg_ext_idx) r.(opkind_list) r.(rand_seed) r.(rand_pos).
Definition st_instr_buf (v : list string) (r : rit_state) : rit_state :=
    Mk_rit_state r.(options) r.(shadow_options) r.(is_reg_init) r.(reg_init_vals) v
    r.(init_instr_buf) r.(instr_idx) r.(init_instr_idx) r.(instr_fixed_bit) r.(cur_fixed_bit)
    r.(is_set_fixed_bit) r.(is_oprand_init) r.(is_reg_bit_cut) r.(raw_instr) r.(print_buf)
    r.(sreg_idx) r.(dreg_idx) r.(fp_sreg_ext_idx) r.(fp_dreg_ext_idx) r.(opkind_list) r.(rand_seed)
    r.(rand_pos).
Definition st_init_instr_buf (v : list string) (r : rit_state) : rit_state :=
    Mk_rit_state r.(options) r.(shadow_options) r.(is_reg_init) r.(reg_init_vals) r.(instr_buf) v
    r.(instr_idx) r.(init_instr_idx) r.(instr_fixed_bit) r.(cur_fixed_bit) r.(is_set_fixed_bit)
    r.(is_oprand_init) r.(is_reg_bit_cut) r.(raw_instr) r.(print_buf) r.(sreg_idx) r.(dreg_idx)
    r.(fp_sreg_ext_idx) r.(fp_dreg_ext_idx) r.(opkind_list) r.(rand_seed) r.(rand_pos).
Definition st_instr_idx (v : Z) (r : rit_state) : rit_state :=
    Mk_rit_state r.(options) r.(shadow_options) r.(is_reg_init) r.(reg_init_vals) r.(instr_buf)
    r.(init_instr_buf) v r.(init_instr_idx) r.(instr_fixed_bit) r.(cur_fixed_bit)
    r.(is_set_fixed_bit) r.(is_oprand_init) r.(is_reg_bit_cut) r.(raw_instr) r.(print_buf)
    r.(sreg_idx) r.(dreg_idx) r.(fp_sreg_ext_idx) r.(fp_dreg_ext_idx) r.(opkind_list) r.(rand_seed)
    r.(rand_pos).
Definition st_init_instr_idx (v : Z) (r : rit_state) : rit_state :=
    Mk_rit_state r.(options) r.(shadow_options) r.(is_reg_init) r.(reg_init_vals) r.(instr_buf)
    r.(init_instr_buf) r.(instr_idx) v r.(instr_fixed_bit) r.(cur_fixed_bit) r.(is_set_fixed_bit)
    r.(is_oprand_init) r.(is_reg_bit_cut) r.(raw_instr) r.(print_buf) r.(sreg_idx) r.(dreg_idx)
    r.(fp_sreg_ext_idx) r.(fp_dreg_ext_idx) r.(opkind_list) r.(rand_seed) r.(rand_pos).
Definition st_instr_fixed_bit (v : Z) (r : rit_state) : rit_state :=
    Mk_rit_state r.(options) r.(shadow_options) r.(is_reg_init) r.(reg_init_vals) r.(instr_buf)
    r.(init_instr_buf) r.(instr_idx) r.(init_instr_idx) v r.(cur_fixed_bit) r.(is_set_fixed_bit)
    r.(is_oprand_init) r.(is_reg_bit_cut) r.(raw_instr) r.(print_buf) r.(sreg_idx) r.(dreg_idx)
    r.(fp_sreg_ext_idx) r.(fp_dreg_ext_idx) r.(opkind_list) r.(rand_seed) r.(rand_pos).
Definition st_cur_fixed_bit (v : Z) (r : rit_state) : rit_state :=
    Mk_rit_state r.(options) r.(shadow_options) r.(is_reg_init) r.(reg_init_vals) r.(instr_buf)
    r.(init_instr_buf) r.(instr_idx) r.(init_instr_idx) r.(instr_fixed_bit) v r.(is_set_fixed_bit)
    r.(is_oprand_init) r.(is_reg_bit_cut) r.(raw_instr) r.(print_buf) r.(sreg_idx) r.(dreg_idx)
    r.(fp_sreg_ext_idx) r.(fp_dreg_ext_idx) r.(opkind_list) r.(rand_seed) r.(rand_pos).
Definition st_is_set_fixed_bit (v : bool) (r : rit_state) : rit_state :=
    Mk_rit_state r.(options) r.(shadow_options) r.(is_reg_init) r.(reg_init_vals) r.(instr_buf)
    r.(init_instr_buf) r.(instr_idx) r.(init_instr_idx) r.(instr_fixed_bit) r.(cur_fixed_bit) v
    r.(is_oprand_init) r.(is_reg_bit_cut) r.(raw_instr) r.(print_buf) r.(sreg_idx) r.(dreg_idx)
    r.(fp_sreg_ext_idx) r.(fp_dreg_ext_idx) r.(opkind_list) r.(rand_seed) r.(rand_pos).
Definition st_is_oprand_init (v : bool) (r : rit_state) : rit_state :=
    Mk_rit_state r.(options) r.(shadow_options) r.(is_reg_init) r.(reg_init_vals) r.(instr_buf)
    r.(init_instr_buf) r.(instr_idx) r.(init_instr_idx) r.(instr_fixed_bit) r.(cur_fixed_bit)
    r.(is_set_fixed_bit) v r.(is_reg_bit_cut) r.(raw_instr) r.(print_buf) r.(sreg_idx) r.(dreg_idx)
    r.(fp_sreg_ext_idx) r.(fp_dreg_ext_idx) r.(opkind_list) r.(rand_seed) r.(rand_pos).
Definition st_is_reg_bit_cut (v : bool) (r : rit_state) : rit_state :=
    Mk_rit_state r.(options) r.(shadow_options) r.(is_reg_init) r.(reg_init_vals) r.(instr_buf)
    r.(init_instr_buf) r.(instr_idx) r.(init_instr_idx) r.(instr_fixed_bit) r.(cur_fixed_bit)
    r.(is_set_fixed_bit) r.(is_oprand_init) v r.(raw_instr) r.(print_buf) r.(sreg_idx) r.(dreg_idx)
    r.(fp_sreg_ext_idx) r.(fp_dreg_ext_idx) r.(opkind_list) r.(rand_seed) r.(rand_pos).
Definition st_raw_instr (v : Z) (r : rit_state) : rit_state :=
    Mk_rit_state r.(options) r.(shadow_options) r.(is_reg_init) r.(reg_init_vals) r.(instr_buf)
    r.(init_instr_buf) r.(instr_idx) r.(init_instr_idx) r.(instr_fixed_bit) r.(cur_fixed_bit)
    r.(is_set_fixed_bit) r.(is_oprand_init) r.(is_reg_bit_cut) v r.(print_buf) r.(sreg_idx)
    r.(dreg_idx) r.(fp_sreg_ext_idx) r.(fp_dreg_ext_idx) r.(opkind_list) r.(rand_seed) r.(rand_pos).
Definition st_print_buf (v : string) (r : rit_state) : rit_state :=
    Mk_rit_state r.(options) r.(shadow_options) r.(is_reg_init) r.(reg_init_vals) r.(instr_buf)
    r.(init_instr_buf) r.(instr_idx) r.(init_instr_idx) r.(instr_fixed_bit) r.(cur_fixed_bit)
    r.(is_set_fixed_bit) r.(is_oprand_init) r.(is_reg_bit_cut) r.(raw_instr) v r.(sreg_idx)
    r.(dreg_idx) r.(fp_sreg_ext_idx) r.(fp_dreg_ext_idx) r.(opkind_list) r.(rand_seed) r.(rand_pos).
Definition st_sreg_idx (v : Z) (r : rit_state) : rit_state :=
    Mk_rit_state r.(options) r.(shadow_options) r.(is_reg_init) r.(reg_init_vals) r.(instr_buf)
    r.(init_instr_buf) r.(instr_idx) r.(init_instr_idx) r.(instr_fixed_bit) r.(cur_fixed_bit)
    r.(is_set_fixed_bit) r.(is_oprand_init) r.(is_reg_bit_cut) r.(raw_instr) r.(print_buf) v
    r.(dreg_idx) r.(fp_sreg_ext_idx) r.(fp_dreg_ext_idx) r.(opkind_list) r.(rand_seed) r.(rand_pos).
Definition st_dreg_idx (v : Z) (r : rit_state) : rit_state :=
    Mk_rit_state r.(options) r.(shadow_options) r.(is_reg_init) r.(reg_init_vals) r.(instr_buf)
    r.(init_instr_buf) r.(instr_idx) r.(init_instr_idx) r.(instr_fixed_bit) r.(cur_fixed_bit)
    r.(is_set_fixed_bit) r.(is_oprand_init) r.(is_reg_bit_cut) r.(raw_instr) r.(print_buf)
    r.(sreg_idx) v r.(fp_sreg_ext_idx) r.(fp_dreg_ext_idx) r.(opkind_list) r.(rand_seed)
    r.(rand_pos).
Definition st_fp_sreg_ext_idx (v : Z) (r : rit_state) : rit_state :=
    Mk_rit_state r.(options) r.(shadow_options) r.(is_reg_init) r.(reg_init_vals) r.(instr_buf)
    r.(init_instr_buf) r.(instr_idx) r.(init_instr_idx) r.(instr_fixed_bit) r.(cur_fixed_bit)
    r.(is_set_fixed_bit) r.(is_oprand_init) r.(is_reg_bit_cut) r.(raw_instr) r.(print_buf)
    r.(sreg_idx) r.(dreg_idx) v r.(fp_dreg_ext_idx) r.(opkind_list) r.(rand_seed) r.(rand_pos).
Definition st_fp_dreg_ext_idx (v : Z) (r : rit_state) : rit_state :=
    Mk_rit_state r.(options) r.(shadow_options) r.(is_reg_init) r.(reg_init_vals) r.(instr_buf)
    r.(init_instr_buf) r.(instr_idx) r.(init_instr_idx) r.(instr_fixed_bit) r.(cur_fixed_bit)
    r.(is_set_fixed_bit) r.(is_oprand_init) r.(is_reg_bit_cut) r.(raw_instr) r.(print_buf)
    r.(sreg_idx) r.(dreg_idx) r.(fp_sreg_ext_idx) v r.(opkind_list) r.(rand_seed) r.(rand_pos).
Definition st_opkind_list (v : list bool) (r : rit_state) : rit_state :=
    Mk_rit_state r.(options) r.(shadow_options) r.(is_reg_init) r.(reg_init_vals) r.(instr_buf)
    r.(init_instr_buf) r.(instr_idx) r.(init_instr_idx) r.(instr_fixed_bit) r.(cur_fixed_bit)
    r.(is_set_fixed_bit) r.(is_oprand_init) r.(is_reg_bit_cut) r.(raw_instr) r.(print_buf)
    r.(sreg_idx) r.(dreg_idx) r.(fp_sreg_ext_idx) r.(fp_dreg_ext_idx) v r.(rand_seed) r.(rand_pos).
Definition st_rand_seed (v : Z) (r : rit_state) : rit_state :=
    Mk_rit_state r.(options) r.(shadow_options) r.(is_reg_init) r.(reg_init_vals) r.(instr_buf)
    r.(init_instr_buf) r.(instr_idx) r.(init_instr_idx) r.(instr_fixed_bit) r.(cur_fixed_bit)
    r.(is_set_fixed_bit) r.(is_oprand_init) r.(is_reg_bit_cut) r.(raw_instr) r.(print_buf)
    r.(sreg_idx) r.(dreg_idx) r.(fp_sreg_ext_idx) r.(fp_dreg_ext_idx) r.(opkind_list) v
    r.(rand_pos).
Definition st_rand_pos (v : nat) (r : rit_state) : rit_state :=
    Mk_rit_state r.(options) r.(shadow_options) r.(is_reg_init) r.(reg_init_vals) r.(instr_buf)
    r.(init_instr_buf) r.(instr_idx) r.(init_instr_idx) r.(instr_fixed_bit) r.(cur_fixed_bit)
    r.(is_set_fixed_bit) r.(is_oprand_init) r.(is_reg_bit_cut) r.(raw_instr) r.(print_buf)
    r.(sreg_idx) r.(dreg_idx) r.(fp_sreg_ext_idx) r.(fp_dreg_ext_idx) r.(opkind_list) r.(rand_seed)
    v.

(** The length of [opkind_names] and [opkind_list]. *)
Definition opkind_num : nat := 34.

Definition zero_options : gen_option_t :=
  Mk_gen_option 0 0 None 0 0 [0; 0; 0; 0] [0; 0; 0; 0] [0; 0; 0; 0] [0; 0; 0; 0] 0 0 0 0 0 0 0 0 0 0.

(** The zeroed globals of a freshly loaded library. *)
Definition zero_state : rit_state :=
  Mk_rit_state zero_options zero_options (replicate 16 false) (replicate 16 0)
    (replicate 8 "") (replicate 8 "") 0 0 0 0 false false false 0 "" 0 0 0 0
    (replicate opkind_num false) 0 0.

Abbreviation rit := (M rit_state).

(** [GET_OPT_STAT(x)] and [SET_OPT_STAT(x)] on the global [options]. *)
Definition GET_OPT_STAT (x : Z) : rit bool := gets (λ s, opt_stat s.(options) x).
Definition on_options (f : gen_option_t → gen_option_t) : rit unit :=
  modify (λ s, st_options (f s.(options)) s).
Definition SET_OPT_STAT (x : Z) : rit unit := on_options (opt_set_stat x).
(** A member of [options]. *)
Definition opt {A} (f : gen_option_t → A) : rit A := gets (λ s, f s.(options)).

Section env.
Context `{Env : !RitEnv}.

(** [rand()] *)
Definition rand : rit Z := λ s,
  Ok (rand_at s.(rand_seed) s.(rand_pos)) (st_rand_pos (S s.(rand_pos)) s).
End env.

(** [srand(seed)] *)
Definition srand (seed : Z) : rit unit :=
  modify (λ s, st_rand_pos 0%nat (st_rand_seed (u32 seed) s)).

(** ** 3. [sprintf] conversions *)

Definition digit (d : Z) : Ascii.ascii :=
  nth (Z.to_nat d) (String.list_ascii_of_string "0123456789abcdef") "0"%char.

(** The digits of [x] in base [b], at most [n] of them, before [acc]. *)
Fixpoint digits (n : nat) (b x : Z) (acc : string) : string :=
  match n with
  | O => acc
  | S n =>
      let acc := String (digit (x mod b)) acc in
      if x / b =? 0 then acc else digits n b (x / b) acc
  end.

(** [%d] of a 32-bit argument. *)
Definition fmt_d (x : Z) : string :=
  let y := s32 x in
  if y <? 0 then "-" +:+ digits 10 10 (- y) "" else digits 10 10 y "".
(** [%x] of a 32-bit argument. *)
Definition fmt_x (x : Z) : string := digits 8 16 (u32 x) "".
(** Left padding with zeros, as in [%08x] and [%04x]. *)
Definition zero_pad (n : nat) (str : string) : string :=
  Nat.iter (n - String.length str) (String "0") str.
Definition fmt_08x (x : Z) : string := zero_pad 8 (fmt_x x).
Definition fmt_04x (x : Z) : string := zero_pad 4 (fmt_x x).

(** [sprintf] into a line buffer of [MAX_STR_INSTR_LEN + 1] bytes. *)
Definition sprintf_line (str : string) : rit string :=
  assertM (Z.of_nat (String.length str) <=? MAX_STR_INSTR_LEN) BufOverflow ;; mret str.

(** *** Lengths of the conversions *)

Lemma length_digits n b x acc :
  (String.length (digits n b x acc) ≤ n + String.length acc)%nat.
Proof.
  revert x acc. induction n as [|n IH]; intros x acc; simpl; [lia|].
  destruct (x / b =? 0); simpl; [lia|]. etrans; [apply IH|]. simpl. lia.
Qed.

Lemma length_string_app (a b : string) :
  String.length (a +:+ b) = (String.length a + String.length b)%nat.
Proof. induction a as [|c a IH]; simpl; [done|]. by rewrite IH. Qed.

Lemma length_fmt_x x : (String.length (fmt_x x) ≤ 8)%nat.
Proof. unfold fmt_x. etrans; [apply length_digits|]. simpl. lia. Qed.

Lemma length_fmt_d x : (String.length (fmt_d x) ≤ 11)%nat.
Proof.
  unfold fmt_d. destruct (s32 x <? 0).
  - rewrite length_string_app. pose proof (length_digits 10 10 (- s32 x) "").
    simpl String.length in *. lia.
  - etrans; [apply length_digits|]. simpl. lia.
Qed.

Lemma length_zero_pad n str :
  String.length (zero_pad n str) = Nat.max n (String.length str).
Proof.
  unfold zero_pad. set (k := (n - String.length str)%nat).
  assert (String.length (Nat.iter k (String "0") str) = (k + String.length str)%nat) as ->; [|lia].
  clearbody k. induction k as [|k IH]; simpl; congruence.
Qed.

Lemma length_fmt_08x x : String.length (fmt_08x x) = 8%nat.
Proof. unfold fmt_08x. rewrite length_zero_pad. pose proof (length_fmt_x x). lia. Qed.
