(* ===== verification/InstrUtil.v ===== *)
(** * Bit-field utilities and table queries: InstrUtil.c, InstrUtil.h *)
From S2P Require Import Prelude RitCommon InstrTable State.
#[local] Open Scope c_scope.

(** ** 1. Definitions *)

(** The loop of [bit_count]; it ends when [value] is zero. *)
Fixpoint bit_count_loop (fuel : nat) (cnt value : Z) : option Z :=
  match fuel with
  | O => None
  | S fuel =>
      if value =? 0 then Some cnt
      else bit_count_loop fuel (u32 (cnt + (value & 1))) (value >> 1)
  end.

(** 33 rounds are enough: see [bit_count_loop_spec]. *)
Definition bit_count (value : Z) : Z := default 0 (bit_count_loop 33 0 value).

Definition get_bit_value (data bit : Z) : Z :=
  let mask := shl32 0x1 bit in
  if (data & mask) =? mask then 1 else 0.

Definition get_bits_value (data start_bit end_bit : Z) : Z :=
  let mask := field_mask start_bit end_bit in
  (data & mask) >> start_bit.

Definition get_regnum (instr : Z) (opnd : sisa_opnd_t) : Z :=
  let opnd_regnum := INVALID_GPR in
  match opnd.(type) with
  | SISA_OPND_TYPE_GPR
  | SISA_OPND_TYPE_GPR_RW
  | SISA_OPND_TYPE_GPRSET
  | SISA_OPND_TYPE_SHIFT_REG
  | SISA_OPND_TYPE_ROTATE_REG => get_bits_value instr opnd.(start_bit) opnd.(end_bit)
  | SISA_OPND_TYPE_GPR_CONST => opnd.(bit1)
  | SISA_OPND_TYPE_GPR_MERGE =>
      let opnd_regnum := get_bits_value instr opnd.(start_bit) opnd.(end_bit) in
      if get_bit_value instr opnd.(bit1) =? 0 then opnd_regnum else u32 (opnd_regnum + 8)
  | _ => opnd_regnum
  end.

(** [get_regnum(instr, glb_instr_tlb[op].opnds[i])] *)
Definition regnum (instr op : Z) (i : nat) : Z := get_regnum instr (opnd_of op i).

(** The test in the loop of [get_instr_op]. *)
Definition instr_op_matches (instr idx : Z) : bool :=
  let d := instr_desc idx in
  negb (opkind_eqb d.(op_kind) NO_OP)
  && ((instr & d.(match_msk)) =? d.(match_val))
  && negb ((instr & d.(neg_msk)) =? d.(neg_val)).

(** The index range that [get_instr_op] searches for an instruction set. *)
Definition instr_op_range (isa0 : Z) : Z * Z :=
  if isa0 =? ISA_ARMv5 then (SISA_OP_NA, SISA_OP_ARM_MAX)
  else if isa0 =? ISA_ARMv7 then (SISA_OP_NA, SISA_OP_ARM_MAX)
  else if isa0 =? ISA_THUMB then (SISA_OP_ARM_MAX, SISA_OP_THUMB_MAX)
  else (SISA_OP_NA, SISA_OP_MAX).

Definition get_instr_op (instr : Z) : rit Z :=
  isa0 ← opt isa;
  let '(idx_min, idx_max) := instr_op_range isa0 in
  mret (default SISA_OP_NA
    (find (instr_op_matches instr) (seqZ idx_min (idx_max - idx_min)))).

Definition get_mem_addr (base offset : Z) (flag_add flag_index : bool) : Z :=
  let offset_addr := if flag_add then u32 (base + offset) else u32 (base - offset) in
  if flag_index then offset_addr else base.

(** The value [set_instr] computes, without its [assert]. *)
Definition set_instr_val (input_instr low_bit high_bit new_val : Z) : Z :=
  let mask := field_mask low_bit high_bit ^^ 0xffffffff in
  let val := (new_val & u32 (shl32 1 (u32 (high_bit - low_bit + 1)) - 1)) << low_bit in
  (input_instr & mask) .| val.

Definition set_instr (input_instr low_bit high_bit new_val : Z) : rit Z :=
  assertM (low_bit <=? high_bit) AssertFail ;;
  mret (set_instr_val input_instr low_bit high_bit new_val).

Definition set_instr_reg (input_instr : Z) (reg_opnd : sisa_opnd_t) (new_val : Z) : rit Z :=
  set_instr input_instr reg_opnd.(start_bit) reg_opnd.(end_bit) new_val.

Definition is_fixed_oprand (op start_bit end_bit : Z) : bool :=
  let match_msk := (instr_desc op).(match_msk) in
  existsb (λ idx, get_bit_value match_msk idx =? 1) (seqZ start_bit (end_bit - start_bit + 1)).

(** The macros of InstrUtil.h, as functions of the datum they assign to. *)
Definition set_bit (data bit : Z) : Z := data .| shl32 1 bit.
Definition clear_bit (data bit : Z) : Z := data & not32 (shl32 1 bit).
Definition set_bits (data start_bit end_bit : Z) : Z := data .| field_mask start_bit end_bit.
Definition clear_bits (data start_bit end_bit : Z) : Z :=
  data & (((0xffffffff >> (end_bit + 1)) << (end_bit + 1)) .| u32 (shl32 1 start_bit - 1)).

(** [raw] carries the fixed bits of opcode [op]. *)
Definition op_matches (op raw : Z) : Prop :=
  raw & (instr_desc op).(match_msk) = (instr_desc op).(match_val).

(** ** 2. Bit counts and single bits *)

Lemma land_1_mod x : 0 ≤ x → (x & 1) = x mod 2.
Proof. intros. apply (Z.land_ones x 1). lia. Qed.

Lemma shr32_1 x : x >> 1 = x / 2.
Proof. unfold shr32. rewrite (Z.mod_small 1 32), Z.shiftr_div_pow2 by lia. done. Qed.

(** Number of one bits among the lowest [n]. *)
Fixpoint popcount (n : nat) (x : Z) : Z :=
  match n with
  | O => 0
  | S n => Z.b2z (Z.testbit x (Z.of_nat n)) + popcount n x
  end.

Lemma popcount_range n x : 0 ≤ popcount n x ≤ Z.of_nat n.
Proof. induction n; simpl; [lia|]. destruct (Z.testbit x (Z.of_nat n)); simpl; lia. Qed.

(** Peeling the lowest bit instead of the highest. *)
Lemma popcount_low n x : 0 ≤ x → popcount (S n) x = x mod 2 + popcount n (x / 2).
Proof.
  intros Hx. induction n as [|n IH].
  - simpl. rewrite <- Z.bit0_mod. simpl. lia.
  - change (popcount (S (S n)) x)
      with (Z.b2z (Z.testbit x (Z.of_nat (S n))) + popcount (S n) x).
    rewrite IH. cbn [popcount].
    replace (Z.testbit x (Z.of_nat (S n))) with (Z.testbit (x / 2) (Z.of_nat n)); [lia|].
    rewrite <- Z.div2_div, Z.div2_spec, Z.shiftr_spec by lia. f_equal; lia.
Qed.

Lemma bit_count_loop_spec fuel n cnt x :
  0 ≤ x < 2 ^ Z.of_nat n → (n < fuel)%nat → 0 ≤ cnt → cnt + Z.of_nat n < 2 ^ 32 →
  bit_count_loop fuel cnt x = Some (cnt + popcount n x).
Proof.
  revert fuel cnt x. induction n as [|n IH]; intros fuel cnt x Hx Hf Hc Hcn.
  - destruct fuel; [lia|]. simpl. assert (x = 0) as -> by lia. simpl. f_equal. lia.
  - destruct fuel as [|fuel]; [lia|]. rewrite popcount_low by lia. simpl.
    rewrite Nat2Z.inj_succ, Z.pow_succ_r in Hx by lia.
    destruct (Z.eqb_spec x 0) as [->|Hne].
    + assert (∀ m, popcount m 0 = 0) as Hp.
      { induction m; simpl; [done|]. by rewrite Z.testbit_0_l. }
      rewrite Z.div_0_l, Hp by lia. f_equal. rewrite Z.mod_0_l; lia.
    + rewrite land_1_mod, shr32_1 by lia.
      pose proof (Z.mod_pos_bound x 2 ltac:(lia)).
      rewrite u32_small by (unfold is_u32; lia).
      rewrite IH; [f_equal; lia| |lia..].
      split; [apply Z.div_pos; lia|]. apply Z.div_lt_upper_bound; lia.
Qed.

Lemma get_bit_value_01 data bit : get_bit_value data bit = 0 ∨ get_bit_value data bit = 1.
Proof. unfold get_bit_value. case_match; auto. Qed.

(** [get_bit_value] reads one bit. *)
Lemma get_bit_value_testbit data bit :
  0 ≤ bit < 32 → get_bit_value data bit = Z.b2z (Z.testbit data bit).
Proof.
  intros Hb. unfold get_bit_value.
  assert (∀ k, 0 ≤ k → Z.testbit (shl32 0x1 bit) k = (k =? bit)) as Hm.
  { intros k Hk. rewrite testbit_shl32 by lia.
    destruct (Z.eqb_spec k bit) as [->|].
    - rewrite Z.sub_diag. by destruct (Z.ltb_spec bit 32); [|lia].
    - destruct (Z.lt_ge_cases k bit); [by rewrite Z.testbit_neg_r, andb_false_r by lia|].
      change 0x1 with (2 ^ 0). rewrite Z.pow2_bits_false by lia. apply andb_false_r. }
  destruct (Z.testbit data bit) eqn:E.
  - assert ((data & shl32 0x1 bit) = shl32 0x1 bit) as ->; [|by rewrite Z.eqb_refl].
    apply Z.bits_inj'. intros k Hk. rewrite Z.land_spec, Hm by lia.
    destruct (Z.eqb_spec k bit) as [->|]; [by rewrite E|apply andb_false_r].
  - destruct (Z.eqb_spec (data & shl32 0x1 bit) (shl32 0x1 bit)) as [Heq|]; [|done].
    apply (f_equal (λ z, Z.testbit z bit)) in Heq.
    rewrite Z.land_spec, E, Hm, Z.eqb_refl in Heq by lia. done.
Qed.

(** ** 3. Fields *)

(** Writing a field: bits inside come from the new value, the others stay. *)
Lemma testbit_set_instr_val i l h v k :
  0 ≤ l ≤ h → h < 31 → is_u32 i → 0 ≤ k →
  Z.testbit (set_instr_val i l h v) k =
    if (l <=? k) && (k <=? h) then Z.testbit v (k - l) else Z.testbit i k.
Proof.
  intros Hl Hh Hi Hk. unfold set_instr_val.
  rewrite (u32_small (h - l + 1)) by (unfold is_u32; lia).
  rewrite pred_shl1_ones by lia.
  change 0xffffffff with (Z.ones 32).
  rewrite Z.lor_spec, Z.land_spec, Z.lxor_spec, testbit_field_mask, testbit_ones,
    testbit_shl32, Z.land_spec by lia.
  destruct (Z.ltb_spec k 32) as [Hk32|Hk32].
  - destruct (Z.leb_spec l k), (Z.leb_spec k h); simpl;
      rewrite ?andb_true_r, ?andb_false_r; simpl; [|rewrite testbit_ones by lia|..].
    + by rewrite testbit_ones, (proj2 (Z.ltb_lt _ _)), andb_true_r by lia.
    + destruct (Z.ltb_spec (k - l) (h - l + 1)); [lia|]. by rewrite andb_false_r, orb_false_r.
    + rewrite (Z.testbit_neg_r _ (k - l)) by lia. by rewrite orb_false_r.
    + rewrite (Z.testbit_neg_r _ (k - l)) by lia. by rewrite orb_false_r.
  - rewrite (u32_testbit_high i) by done.
    destruct (Z.leb_spec l k), (Z.leb_spec k h); lia || done.
Qed.

Lemma is_u32_set_instr_val i l h v : is_u32 i → is_u32 (set_instr_val i l h v).
Proof. unfold set_instr_val. auto with rit. Qed.

(** Reading a field. *)
Lemma testbit_get_bits_value d s e k :
  0 ≤ s ≤ e → e < 31 → 0 ≤ k →
  Z.testbit (get_bits_value d s e) k = (k <=? e - s) && Z.testbit d (k + s).
Proof.
  intros Hs He Hk. unfold get_bits_value.
  rewrite testbit_shr32, Z.land_spec, testbit_field_mask by lia.
  destruct (Z.leb_spec s (k + s)), (Z.leb_spec (k + s) e), (Z.leb_spec k (e - s));
    try lia; rewrite ?andb_true_r, ?andb_false_r; done.
Qed.

Lemma is_u32_get_bits_value d s e : is_u32 d → is_u32 (get_bits_value d s e).
Proof. unfold get_bits_value. auto with rit. Qed.

(** A field as a number. *)
Lemma get_bits_value_div_mod d s e :
  0 ≤ s ≤ e → e < 31 → 0 ≤ d → get_bits_value d s e = (d / 2 ^ s) mod 2 ^ (e - s + 1).
Proof.
  intros Hs He Hd. apply Z.bits_inj'. intros k Hk.
  rewrite testbit_get_bits_value by lia.
  destruct (Z.leb_spec k (e - s)).
  - rewrite Z.mod_pow2_bits_low, Z.div_pow2_bits by lia. done.
  - rewrite Z.mod_pow2_bits_high by lia. done.
Qed.

Lemma get_bits_value_range d s e :
  0 ≤ s ≤ e → e < 31 → 0 ≤ d → 0 ≤ get_bits_value d s e < 2 ^ (e - s + 1).
Proof. intros. rewrite get_bits_value_div_mod by done. apply Z.mod_pos_bound. lia. Qed.

Lemma testbit_set_bits d s e k :
  0 ≤ s ≤ e → e < 31 → 0 ≤ k →
  Z.testbit (set_bits d s e) k = Z.testbit d k || (s <=? k) && (k <=? e).
Proof. intros. unfold set_bits. by rewrite Z.lor_spec, testbit_field_mask. Qed.

Lemma testbit_clear_bits d s e k :
  0 ≤ s ≤ e → e < 31 → 0 ≤ k < 32 →
  Z.testbit (clear_bits d s e) k = Z.testbit d k && negb ((s <=? k) && (k <=? e)).
Proof.
  intros Hs He Hk. unfold clear_bits. rewrite Z.land_spec. f_equal.
  rewrite pred_shl1_ones, Z.lor_spec, testbit_ones, testbit_shl32 by lia.
  destruct (Z.lt_ge_cases k (e + 1)).
  - rewrite Z.testbit_neg_r, andb_false_r by lia. simpl.
    destruct (Z.ltb_spec k s), (Z.leb_spec s k), (Z.leb_spec k e); lia || done.
  - rewrite testbit_shr32 by lia. change 0xffffffff with (Z.ones 32).
    rewrite testbit_ones by lia.
    destruct (Z.ltb_spec k 32), (Z.ltb_spec (k - (e + 1) + (e + 1)) 32), (Z.ltb_spec k s),
      (Z.leb_spec s k), (Z.leb_spec k e); lia || done.
Qed.

Lemma testbit_bit b k : 0 ≤ b < 32 → 0 ≤ k → Z.testbit (shl32 1 b) k = (k =? b).
Proof.
  intros Hb Hk. rewrite testbit_shl32 by lia. destruct (Z.eqb_spec k b) as [->|].
  - rewrite Z.sub_diag. by rewrite (proj2 (Z.ltb_lt _ _)) by lia.
  - destruct (Z.lt_ge_cases k b); [by rewrite Z.testbit_neg_r, andb_false_r by lia|].
    change 1 with (2 ^ 0). rewrite Z.pow2_bits_false by lia. apply andb_false_r.
Qed.

Lemma testbit_set_bit d b k :
  0 ≤ b < 32 → 0 ≤ k → Z.testbit (set_bit d b) k = Z.testbit d k || (k =? b).
Proof. intros. unfold set_bit. by rewrite Z.lor_spec, testbit_bit. Qed.

Lemma testbit_clear_bit d b k :
  0 ≤ b < 32 → 0 ≤ k < 32 →
  Z.testbit (clear_bit d b) k = Z.testbit d k && negb (k =? b).
Proof.
  intros. unfold clear_bit. rewrite Z.land_spec, testbit_not32, testbit_bit by lia.
  rewrite (proj2 (Z.ltb_lt k 32)) by lia. by destruct (k =? b).
Qed.

Lemma is_u32_set_bit d b : is_u32 d → is_u32 (set_bit d b).
Proof. unfold set_bit. auto with rit. Qed.
Lemma is_u32_clear_bit d b : is_u32 d → is_u32 (clear_bit d b).
Proof. unfold clear_bit. auto with rit. Qed.
Lemma is_u32_set_bits d s e : is_u32 d → is_u32 (set_bits d s e).
Proof. unfold set_bits. auto with rit. Qed.
Lemma is_u32_clear_bits d s e : is_u32 d → is_u32 (clear_bits d s e).
Proof. unfold clear_bits. auto with rit. Qed.
#[export] Hint Resolve is_u32_set_instr_val is_u32_get_bits_value is_u32_set_bit
  is_u32_clear_bit is_u32_set_bits is_u32_clear_bits : rit.

(** ** 4. Fixed bits of an opcode *)

Lemma is_fixed_oprand_false op s e :
  0 ≤ s → e < 32 →
  is_fixed_oprand op s e = false ↔
  ∀ k, s ≤ k ≤ e → Z.testbit (instr_desc op).(match_msk) k = false.
Proof.
  intros Hs He. unfold is_fixed_oprand. rewrite <- not_true_iff_false, existsb_exists.
  setoid_rewrite <- list_elem_of_In. setoid_rewrite elem_of_seqZ. split.
  - intros H k Hk. apply not_true_iff_false. intros Ht. apply H. exists k.
    split; [lia|]. rewrite get_bit_value_testbit, Ht by lia. done.
  - intros H (k & Hk & Hb). rewrite get_bit_value_testbit, H in Hb by lia. done.
Qed.

(** A word that agrees with a matching one on the fixed bits matches too. *)
Lemma op_matches_agree op x y :
  op_matches op x →
  (∀ k, 0 ≤ k → Z.testbit (instr_desc op).(match_msk) k = true →
        Z.testbit y k = Z.testbit x k) →
  op_matches op y.
Proof.
  unfold op_matches. intros <- H. apply Z.bits_inj'. intros k Hk. rewrite !Z.land_spec.
  destruct (Z.testbit (match_msk (instr_desc op)) k) eqn:E.
  - by rewrite H.
  - by rewrite !andb_false_r.
Qed.

(** Writing a field that is not fixed keeps the match. *)
Lemma op_matches_set_instr_val op i l h v :
  0 ≤ l ≤ h → h < 31 → is_u32 i → is_fixed_oprand op l h = false →
  op_matches op i → op_matches op (set_instr_val i l h v).
Proof.
  intros Hl Hh Hi Hf Hm. apply (op_matches_agree op i); [done|]. intros k Hk Hb.
  rewrite testbit_set_instr_val by done.
  destruct (Z.leb_spec l k), (Z.leb_spec k h); simpl; try done.
  rewrite (proj1 (is_fixed_oprand_false op l h ltac:(lia) ltac:(lia)) Hf k) in Hb by lia. done.
Qed.

(** The fixed-field test is exact: an all-zero or all-one value written over a
    fixed bit breaks the match. *)
Lemma op_matches_fixed_breaks op i l h k :
  0 ≤ l ≤ h → h < 31 → is_u32 i → op_matches op i → l ≤ k ≤ h →
  Z.testbit (instr_desc op).(match_msk) k = true →
  ¬ op_matches op (set_instr_val i l h (if Z.testbit i k then 0 else -1)).
Proof.
  unfold op_matches. intros Hl Hh Hi Hm Hk Hb Hm'. rewrite <- Hm in Hm'.
  apply (f_equal (λ z, Z.testbit z k)) in Hm'. revert Hm'.
  rewrite !Z.land_spec, Hb, !andb_true_r, testbit_set_instr_val by lia || done.
  rewrite (proj2 (Z.leb_le l k)), (proj2 (Z.leb_le k h)) by lia. cbn [andb].
  destruct (Z.testbit i k) eqn:E.
  - by rewrite Z.testbit_0_l.
  - by rewrite Z.bits_m1 by lia.
Qed.

(** The first index of a range with a property. *)
Lemma find_seqZ_some f lo n op :
  find f (seqZ lo n) = Some op →
  lo ≤ op < lo + n ∧ f op = true ∧ ∀ j, lo ≤ j < op → f j = false.
Proof.
  intros E. pose proof (find_some _ _ E) as [Hin Hf]. apply list_elem_of_In, elem_of_seqZ in Hin.
  split; [lia|]. split; [done|]. intros j Hj. remember (Z.to_nat n) as m eqn:Hm.
  revert lo n Hm Hin E Hj. induction m as [|m IH]; intros lo n Hm Hin E Hj; [lia|].
  rewrite seqZ_cons in E by lia. cbn [find] in E. destruct (f lo) eqn:Hlo.
  - injection E as ->. lia.
  - destruct (Z.eq_dec j lo) as [->|]; [done|]. apply (IH (Z.succ lo) (Z.pred n)); [lia..|done|lia].
Qed.

(** Two fields that do not overlap. *)
Definition disjoint_fields (l h s e : Z) : Prop := e < l ∨ h < s.

(** Reading back the field just written, and any disjoint one. *)
Lemma get_set_same i l h v :
  is_u32 i → 0 ≤ l ≤ h → h < 31 →
  get_bits_value (set_instr_val i l h v) l h = v mod 2 ^ (h - l + 1).
Proof.
  intros Hi Hl Hh. apply Z.bits_inj'. intros k Hk. rewrite testbit_get_bits_value by lia.
  rewrite testbit_set_instr_val by (lia || done).
  destruct (Z.leb_spec k (h - l)).
  - rewrite (proj2 (Z.leb_le l (k + l))), (proj2 (Z.leb_le (k + l) h)) by lia. cbn [andb].
    rewrite Z.mod_pow2_bits_low by lia. f_equal. lia.
  - by rewrite Z.mod_pow2_bits_high by lia.
Qed.

Lemma get_set_other i l h v s e :
  is_u32 i → 0 ≤ l ≤ h → h < 31 → 0 ≤ s ≤ e → e < 31 → disjoint_fields l h s e →
  get_bits_value (set_instr_val i l h v) s e = get_bits_value i s e.
Proof.
  intros Hi Hl Hh Hs He Hd. unfold disjoint_fields in Hd. apply Z.bits_inj'. intros k Hk.
  rewrite !testbit_get_bits_value, testbit_set_instr_val by (lia || done).
  destruct (Z.leb_spec k (e - s)); cbn [andb]; [|done].
  destruct (Z.leb_spec l (k + s)), (Z.leb_spec (k + s) h); cbn [andb]; lia || done.
Qed.

Lemma set_instr_ok i l h v (s : rit_state) :
  l ≤ h → set_instr i l h v s = Ok (set_instr_val i l h v) s.
Proof. intros. unfold set_instr. by rewrite (proj2 (Z.leb_le l h)) by lia. Qed.

(** ** 5. Properties *)

(** [set_instr] and [get_bits_value] are inverse: for every 32-bit word and
    every field below bit 31, [set_instr] succeeds, the field then reads back
    as the value written, cut to the width of the field, every disjoint field
    reads as before, and the word is still a 32-bit word. *)
Theorem set_instr_get_bits_value (i l h v : Z) (st : rit_state) :
  is_u32 i → 0 ≤ l ≤ h → h < 31 →
  ∃ i', set_instr i l h v st = Ok i' st ∧ is_u32 i'
    ∧ get_bits_value i' l h = v mod 2 ^ (h - l + 1)
    ∧ ∀ s e, 0 ≤ s ≤ e → e < 31 → disjoint_fields l h s e →
        get_bits_value i' s e = get_bits_value i s e.
Proof.
  intros Hi Hl Hh. exists (set_instr_val i l h v). split_and!.
  - apply set_instr_ok. lia.
  - auto with rit.
  - by apply get_set_same.
  - intros s e Hs He Hd. by apply get_set_other.
Qed.

(** C14. [is_fixed_oprand] is exactly the test that protects an encoding: on a
    word of the opcode, a field may be given every value without losing the
    opcode if and only if [is_fixed_oprand] answers false for it. *)
Theorem is_fixed_oprand_exact (op i l h : Z) :
  is_u32 i → op_matches op i → 0 ≤ l ≤ h → h < 31 →
  is_fixed_oprand op l h = false ↔ ∀ v, op_matches op (set_instr_val i l h v).
Proof.
  intros Hi Hm Hl Hh. split.
  - intros Hf v. by apply op_matches_set_instr_val.
  - intros Hall. apply is_fixed_oprand_false; [lia..|]. intros k Hk.
    apply not_true_iff_false. intros Hb.
    by apply (op_matches_fixed_breaks op i l h k Hl Hh Hi Hm Hk Hb).
Qed.

(** [get_instr_op] is a first-match decoder over the index range of the
    instruction set: it changes nothing, an answer other than [SISA_OP_NA] is
    an opcode of the range that the word matches and no earlier one does, and
    [SISA_OP_NA] means that no later opcode of the range matches. *)
Theorem get_instr_op_first_match (instr : Z) (s : rit_state) :
  let '(lo, hi) := instr_op_range s.(options).(isa) in
  ∃ op, get_instr_op instr s = Ok op s ∧
    ((lo ≤ op < hi ∧ instr_op_matches instr op = true
      ∧ ∀ j, lo ≤ j < op → instr_op_matches instr j = false)
     ∨ (op = SISA_OP_NA ∧ ∀ j, lo ≤ j < hi → instr_op_matches instr j = false)).
Proof.
  unfold get_instr_op, opt, gets, mbind, M_bind.
  destruct (instr_op_range (isa (options s))) as [lo hi]. eexists. split; [reflexivity|].
  destruct (find _ _) as [op|] eqn:E; cbn [from_option id].
  - left. apply find_seqZ_some in E as (? & ? & ?). split; [lia|auto].
  - right. split; [done|]. intros j Hj. apply (find_none _ _ E j).
    apply list_elem_of_In, elem_of_seqZ. lia.
Qed.

(** [bit_count] counts: for every 32-bit value its loop ends, within 33
    rounds, and the answer is the number of one bits. *)
Theorem bit_count_popcount (value : Z) :
  is_u32 value →
  bit_count_loop 33 0 value = Some (bit_count value) ∧ bit_count value = popcount 32 value.
Proof.
  intros Hv. unfold bit_count.
  rewrite (bit_count_loop_spec 33 32 0 value) by (lia || apply Hv). done.
Qed.

Lemma set_instr_get_bits_value_witness :
  ∃ i', set_instr 0xe0812003 12 15 0x1f zero_state = Ok i' zero_state ∧ is_u32 i'
    ∧ get_bits_value i' 12 15 = 0x1f mod 2 ^ (15 - 12 + 1)
    ∧ ∀ s e, 0 ≤ s ≤ e → e < 31 → disjoint_fields 12 15 s e →
        get_bits_value i' s e = get_bits_value 0xe0812003 s e.
Proof. apply (set_instr_get_bits_value 0xe0812003 12 15 0x1f zero_state); unfold is_u32; lia. Defined.

Lemma is_fixed_oprand_exact_witness :
  is_fixed_oprand SISA_OP_ADD_imm 12 15 = false
  ↔ ∀ v, op_matches SISA_OP_ADD_imm (set_instr_val 0xe2812003 12 15 v).
Proof.
  apply (is_fixed_oprand_exact SISA_OP_ADD_imm 0xe2812003 12 15);
    [unfold is_u32; lia|vm_compute; reflexivity|lia|lia].
Defined.

Lemma bit_count_popcount_witness :
  bit_count_loop 33 0 0x80f01 = Some (bit_count 0x80f01) ∧ bit_count 0x80f01 = popcount 32 0x80f01.
Proof. apply (bit_count_popcount 0x80f01). unfold is_u32. lia. Defined.
