(* ===== verification/InstrBuf.v ===== *)
(** * Instruction buffer and raw encoding: the accessors of RandomInstrGen.c *)
From S2P Require Import Prelude RitCommon InstrTable State.

(** ** 1. Definitions *)

Definition insert_instr (str_instr : string) : rit unit :=
  idx ← gets instr_idx;
  assertM (idx <? MAX_INSTR) BufOverflow ;;
  modify (λ s, st_instr_buf
    (<[Z.to_nat idx := String.substring 0 (Z.to_nat MAX_STR_INSTR_LEN) str_instr]> s.(instr_buf)) s) ;;
  modify (λ s, st_instr_idx (idx + 1) s).

(** [sprintf(gen_instr_buf, ...); insert_instr(gen_instr_buf);] *)
Definition emit (str : string) : rit unit :=
  gen_instr_buf ← sprintf_line str;
  insert_instr gen_instr_buf.

Definition get_raw_instr : rit Z := gets raw_instr.

Definition set_raw_instr (new_instr : Z) : rit unit := modify (st_raw_instr new_instr).
