(* ===== verification/Keeps.v ===== *)
(** * A program logic for the instruction generators

    Every generator between the encoding stage and the output leaves the fixed
    bits of the raw word alone and appends a bounded number of short lines to
    the instruction buffer.  [keeps n Q m] states both of a computation [m]:
    from a well-formed state with room for [n] lines, [m] does not abort, ends
    well-formed, uses at most [n] lines, and returns a value in [Q].  The rules
    below are syntax directed, and the tactic [keeps] applies them. *)
From Stdlib Require Import Ascii.
From S2P Require Import Prelude RitCommon InstrTable State InstrUtil InstrBuf.
#[local] Open Scope c_scope.

(** ** 1. The invariant *)

(** The longest line any generator writes. *)
Definition line_max : nat := 52.

(** No character ends a line or, for an assembler, a label. *)
Definition plain_char (c : Ascii.ascii) : bool :=
  negb (Ascii.eqb c "010"%char) && negb (Ascii.eqb c "013"%char) && negb (Ascii.eqb c ":"%char).
Fixpoint all_chars (f : Ascii.ascii → bool) (str : string) : bool :=
  match str with EmptyString => true | String c str => f c && all_chars f str end.
Abbreviation plain := (all_chars plain_char).

(** It is not taken for the head line of the output, and a tag is followed by
    one space and a word, which is no directive but [.inst]. *)
Definition blank (c : Ascii.ascii) : bool :=
  existsb (Ascii.eqb c) [" "; "009"; "010"; "011"; "012"; "013"]%char.
Definition tagged (str : string) : bool :=
  (String.prefix "[CODE] " str || String.prefix "[INST] " str)
  && match String.get 7 str with
     | Some c => negb (blank c) && (negb (Ascii.eqb c "."%char) || String.prefix "[INST] .inst" str)
     | None => false
     end.
Definition head_ok (str : string) : bool :=
  negb (String.prefix "[INFO]" str)
  && (negb (String.prefix "[CODE]" str || String.prefix "[INST]" str) || tagged str).

(** A line of a buffer: it fits, it is one line, and it starts well. *)
Definition line_ok (str : string) : Prop :=
  (String.length str ≤ line_max)%nat ∧ plain str = true ∧ head_ok str = true.

Lemma line_ok_nil : line_ok "".
Proof. split; [cbn; lia|done]. Qed.

Lemma all_chars_app f a b : all_chars f (a +:+ b) = all_chars f a && all_chars f b.
Proof. induction a as [|c a IH]; simpl; [done|]. by rewrite IH, andb_assoc. Qed.

(** Numbers: digits and, for [%d], a sign. *)
Definition numeric : string := "-0123456789abcdef".

Section numbers.
Context (f : Ascii.ascii → bool) (Hf : all_chars f numeric = true).

Lemma all_chars_digit d : f (digit d) = true.
Proof using Hf.
  unfold digit. set (l := String.list_ascii_of_string _).
  assert (forallb f l = true) as Hl.
  { cbn [numeric all_chars] in Hf. apply andb_true_iff in Hf as [_ H].
    unfold l. cbn [String.list_ascii_of_string forallb]. exact H. }
  rewrite forallb_forall in Hl.
  destruct (nth_in_or_default (Z.to_nat d) l "0"%char) as [Hin| ->]; [by apply Hl|].
  apply Hl. by left.
Qed.

Lemma all_chars_digits n b x acc : all_chars f acc = true → all_chars f (digits n b x acc) = true.
Proof using Hf.
  revert x acc. induction n as [|n IH]; intros x acc H; cbn [digits]; [done|].
  assert (all_chars f (String (digit (x mod b)) acc) = true) by (simpl; by rewrite all_chars_digit, H).
  case_match; [done|by apply IH].
Qed.

Lemma all_chars_fmt_d x : all_chars f (fmt_d x) = true.
Proof using Hf.
  unfold fmt_d. case_match; [|by apply all_chars_digits].
  rewrite all_chars_app, all_chars_digits by done. unfold numeric in Hf. cbn [all_chars] in *.
  by apply andb_true_iff in Hf as [-> _].
Qed.
Lemma all_chars_fmt_x x : all_chars f (fmt_x x) = true.
Proof using Hf. by apply all_chars_digits. Qed.
Lemma all_chars_zero_pad n str : all_chars f str = true → all_chars f (zero_pad n str) = true.
Proof using Hf.
  pose proof (all_chars_digit 0) as H0. change (digit 0) with "0"%char in H0.
  unfold zero_pad. induction (n - String.length str)%nat as [|k IH]; simpl; [done|].
  intros H. by rewrite H0, IH.
Qed.
Lemma all_chars_fmt_08x x : all_chars f (fmt_08x x) = true.
Proof using Hf. apply all_chars_zero_pad, all_chars_fmt_x. Qed.
Lemma all_chars_fmt_04x x : all_chars f (fmt_04x x) = true.
Proof using Hf. apply all_chars_zero_pad, all_chars_fmt_x. Qed.
End numbers.
Create Rewrite HintDb plain.
#[export] Hint Rewrite all_chars_app : plain.
#[export] Hint Rewrite all_chars_fmt_d all_chars_fmt_x all_chars_fmt_08x all_chars_fmt_04x
  using reflexivity : plain.

(** The bits of a word of opcode [op] that no generator may change: the fixed
    ones and, in an ARM word, the condition field. *)
Definition field_top (op : Z) : Z := if op <? SISA_OP_ARM_MAX then 28 else 31.
Definition kept_bit (op k : Z) : bool :=
  Z.testbit (instr_desc op).(match_msk) k || (op <? SISA_OP_ARM_MAX) && (28 <=? k).

(** [raw] is a 32-bit word with those bits as in [tmpl], or with the fixed bits
    alone as in [tmpl]. *)
Definition word_kept (op tmpl raw : Z) : Prop :=
  is_u32 raw ∧ ∀ k, 0 ≤ k → kept_bit op k = true → Z.testbit raw k = Z.testbit tmpl k.

Definition word_ok (op tmpl raw : Z) : Prop :=
  is_u32 raw ∧
  ∀ k, 0 ≤ k → Z.testbit (instr_desc op).(match_msk) k = true →
       Z.testbit raw k = Z.testbit tmpl k.

Lemma word_kept_ok op tmpl raw : word_kept op tmpl raw → word_ok op tmpl raw.
Proof. intros [Hu Hw]. split; [done|]. intros k Hk Hb. apply Hw; [done|]. unfold kept_bit. by rewrite Hb. Qed.

Lemma word_kept_refl op raw : is_u32 raw → word_kept op raw raw.
Proof. by split. Qed.

Record buf_ok (idx : Z) (buf : list string) : Prop := {
  buf_ok_idx : 0 ≤ idx ≤ MAX_INSTR;
  buf_ok_len : length buf = Z.to_nat MAX_INSTR;
  buf_ok_lines : Forall line_ok buf
}.

(** [th] says that the instruction set may be Thumb. *)
Record winv (th : bool) (op tmpl : Z) (s : rit_state) : Prop := {
  winv_word : word_kept op tmpl s.(raw_instr);
  winv_buf : buf_ok s.(instr_idx) s.(instr_buf);
  winv_isa : s.(options).(isa) = ISA_THUMB → th = true
}.

(** What no attempt touches, and what the generators do not touch. *)
Record base_frame (s s' : rit_state) : Prop := {
  frame_stat : s'.(options).(opt_status) = s.(options).(opt_status);
  frame_shadow : s'.(shadow_options) = s.(shadow_options);
  frame_reg_init : s'.(is_reg_init) = s.(is_reg_init);
  frame_reg_vals : s'.(reg_init_vals) = s.(reg_init_vals);
  frame_init_idx : s'.(init_instr_idx) = s.(init_instr_idx);
  frame_init_buf : s'.(init_instr_buf) = s.(init_instr_buf);
  frame_opkind : s'.(opkind_list) = s.(opkind_list)
}.

(** The condition option stays, or becomes 3: [get_rand_mem_offset] asks for
    "carry clear" when it rotates through the carry. *)
Definition cond_step (v v' : Z) : Prop := v' = v ∨ v' = 3.

#[global] Instance cond_step_preorder : PreOrder cond_step.
Proof. split; [by left|]. unfold cond_step. intros x y z [] []; subst; auto. Qed.

Record frame (s s' : rit_state) : Prop := {
  frame_isa : s'.(options).(isa) = s.(options).(isa);
  frame_cond : cond_step s.(options).(cond_val) s'.(options).(cond_val);
  frame_base : base_frame s s'
}.

#[global] Instance base_frame_preorder : PreOrder base_frame.
Proof. split; [done|]. intros x y z [] []. split; congruence. Qed.

#[global] Instance frame_preorder : PreOrder frame.
Proof. split; [done|]. intros x y z [] []. split; [congruence|by etrans..]. Qed.

(** [op]'s field [l..h] exists and holds no bit that must stay. *)
Definition writable (op l h : Z) : bool :=
  (0 <=? l) && (l <=? h) && (h <? field_top op) && negb (is_fixed_oprand op l h).

Lemma field_top_range op : 28 ≤ field_top op ≤ 31.
Proof. unfold field_top. case_match; lia. Qed.

Lemma writable_spec op l h :
  writable op l h = true ↔ 0 ≤ l ≤ h ∧ h < field_top op ∧ is_fixed_oprand op l h = false.
Proof. unfold writable. rewrite !andb_true_iff, negb_true_iff, !Z.leb_le, Z.ltb_lt. tauto. Qed.

Lemma writable_free op l h k :
  writable op l h = true → kept_bit op k = true → ¬ l ≤ k ≤ h.
Proof.
  intros (Hl & Hh & Hf)%writable_spec Hb Hk. pose proof (field_top_range op).
  apply orb_true_iff in Hb as [Hb|[Ha Hk']%andb_true_iff].
  - by rewrite (proj1 (is_fixed_oprand_false op l h ltac:(lia) ltac:(lia)) Hf k) in Hb by lia.
  - unfold field_top in Hh. rewrite Ha in Hh. apply Z.leb_le in Hk'. lia.
Qed.

Lemma word_kept_set_instr_val op tmpl i l h v :
  writable op l h = true → word_kept op tmpl i → word_kept op tmpl (set_instr_val i l h v).
Proof.
  intros Hf [Hu Hw]. split; [auto with rit|]. intros k Hk Hb. pose proof (field_top_range op).
  pose proof (proj1 (writable_spec op l h) Hf) as (? & ? & _).
  pose proof (writable_free op l h k Hf Hb). rewrite testbit_set_instr_val by (lia || done).
  destruct (Z.leb_spec l k), (Z.leb_spec k h); [lia|by apply Hw..].
Qed.

(** A change confined to bits that may change. *)
Lemma word_kept_change op tmpl i f :
  word_kept op tmpl i → is_u32 f →
  (∀ k, 0 ≤ k < 32 → kept_bit op k = true → Z.testbit f k = Z.testbit i k) →
  word_kept op tmpl f.
Proof.
  intros [Hu Hw] Hf H. split; [done|]. intros k Hk Hb.
  destruct (Z.lt_ge_cases k 32).
  - rewrite H by (lia || done). by apply Hw.
  - rewrite u32_testbit_high, <- (u32_testbit_high (i) k) by done. by apply Hw.
Qed.

(** ** 2. The triple and its rules *)

Section keeps.
Context `{Env : !RitEnv}.
Context (th : bool) (op tmpl : Z).

Definition keeps {A} (n : Z) (Q : A → Prop) (m : rit A) : Prop :=
  ∀ s, winv th op tmpl s → s.(instr_idx) + n ≤ MAX_INSTR →
    wp m (λ a s', winv th op tmpl s' ∧ s.(instr_idx) ≤ s'.(instr_idx) ≤ s.(instr_idx) + n
                  ∧ frame s s' ∧ Q a) s.

Lemma keeps_ret {A} n (Q : A → Prop) a : 0 ≤ n → Q a → keeps n Q (mret a).
Proof. intros Hn HQ s Hs Hi. apply wp_ret. split_and!; [done|lia..|done|done]. Qed.

Lemma keeps_bind {A B} n n1 (P : A → Prop) (Q : B → Prop) (m : rit A) (k : A → rit B) :
  keeps n1 P m → 0 ≤ n1 ≤ n → (∀ a, P a → keeps (n - n1) Q (k a)) → keeps n Q (m ≫= k).
Proof.
  intros Hm Hn Hk s Hs Hi. apply wp_bind. eapply wp_mono; [apply Hm; [done|lia]|].
  intros a s' (Hs' & Hi' & Hf & HP). eapply wp_mono; [apply (Hk a HP s' Hs'); lia|].
  intros b s'' (? & ? & ? & ?). split_and!; [done|lia..|by etrans|done].
Qed.

Lemma keeps_assoc {A B C} n Q (m : rit A) (k : A → rit B) (h : B → rit C) :
  keeps n Q (m ≫= λ a, k a ≫= h) → keeps n Q ((m ≫= k) ≫= h).
Proof. intros H s Hs Hi. unfold wp. rewrite bind_assoc. apply H; done. Qed.

Lemma keeps_ret_bind {A B} n Q (a : A) (k : A → rit B) :
  keeps n Q (k a) → keeps n Q (mret a ≫= k).
Proof. done. Qed.

Lemma keeps_mono {A} n n' (P Q : A → Prop) (m : rit A) :
  keeps n P m → n ≤ n' → (∀ a, P a → Q a) → keeps n' Q m.
Proof.
  intros Hm Hn HQ s Hs Hi. eapply wp_mono; [apply Hm; [done|lia]|].
  intros a s' (? & ? & ? & ?). split_and!; [done|lia..|done|auto].
Qed.

Lemma keeps_if {A} n Q (b : bool) (m1 m2 : rit A) :
  (b = true → keeps n Q m1) → (b = false → keeps n Q m2) → keeps n Q (if b then m1 else m2).
Proof. destruct b; auto. Qed.

Lemma keeps_if_bind {A B} n Q (b : bool) (m1 m2 : rit A) (k : A → rit B) :
  (b = true → keeps n Q (m1 ≫= k)) → (b = false → keeps n Q (m2 ≫= k)) →
  keeps n Q ((if b then m1 else m2) ≫= k).
Proof. destruct b; auto. Qed.

Lemma keeps_when {A} n (Q : A → Prop) (b : bool) m (k : () → rit A) :
  (b = true → keeps n Q (m ≫= k)) → (b = false → keeps n Q (k ())) →
  keeps n Q (when b m ≫= k).
Proof. destruct b; auto. Qed.

Lemma keeps_when_end n (Q : () → Prop) (b : bool) m :
  0 ≤ n → Q () → (b = true → keeps n Q m) → keeps n Q (when b m).
Proof. destruct b; intros; [auto|by apply keeps_ret]. Qed.

Lemma keeps_let {A B} n Q (v : A) (f : A → rit B) :
  (∀ x, keeps n Q (f x)) → keeps n Q (let x := v in f x).
Proof. auto. Qed.

(** Reads and writes of the parts the invariant does not mention. *)
Lemma keeps_gets {A} (f : rit_state → A) : keeps 0 (λ _, True) (gets f).
Proof. intros s Hs Hi. apply wp_gets. split_and!; [done|lia..|done|done]. Qed.

Lemma keeps_GET_OPT_STAT x : keeps 0 (λ _, True) (GET_OPT_STAT x).
Proof. apply keeps_gets. Qed.

Lemma keeps_opt {A} (f : gen_option_t → A) : keeps 0 (λ _, True) (opt f).
Proof. apply keeps_gets. Qed.

(** Where the instruction set matters. *)
Lemma keeps_options : keeps 0 (λ o, o.(isa) = ISA_THUMB → th = true) (gets options).
Proof. intros s Hs Hi. apply wp_gets. split; [done|]. split; [lia|]. split; [done|apply Hs]. Qed.

Lemma keeps_isa : keeps 0 (λ i, i = ISA_THUMB → th = true) (opt isa).
Proof. intros s Hs Hi. apply wp_gets. split; [done|]. split; [lia|]. split; [done|apply Hs]. Qed.

Lemma keeps_rand : keeps 0 (λ r, 0 ≤ r < 2 ^ 31) rand.
Proof.
  intros s Hs Hi. apply (wp_intro _ _ _ _ _ eq_refl). destruct Hs.
  split_and!; [done|simpl; lia..|done|apply rand_at_range|apply rand_at_range].
Qed.

Lemma keeps_modify f :
  (∀ s, winv th op tmpl s → winv th op tmpl (f s) ∧ (f s).(instr_idx) = s.(instr_idx) ∧ frame s (f s)) →
  keeps 0 (λ _, True) (modify f).
Proof.
  intros H s Hs Hi. apply wp_modify. destruct (H s Hs) as (? & ? & ?).
  split_and!; [done|lia..|done|done].
Qed.

Lemma keeps_is_oprand_init b : keeps 0 (λ _, True) (modify (st_is_oprand_init b)).
Proof. apply keeps_modify. intros s []. done. Qed.

Lemma keeps_is_reg_bit_cut b : keeps 0 (λ _, True) (modify (st_is_reg_bit_cut b)).
Proof. apply keeps_modify. intros s []. done. Qed.

Lemma keeps_is_set_fixed_bit b : keeps 0 (λ _, True) (modify (st_is_set_fixed_bit b)).
Proof. apply keeps_modify. intros s []. done. Qed.

Lemma keeps_instr_fixed_bit f :
  keeps 0 (λ _, True) (modify (λ s, st_instr_fixed_bit (f s) s)).
Proof. apply keeps_modify. intros s []. done. Qed.

Lemma keeps_cond_val : keeps 0 (λ _, True) (on_options (opt_cond_val 3)).
Proof. apply keeps_modify. intros s []. split; [done|]. split; [done|]. split; [done|by right|done]. Qed.

Lemma keeps_assert (b : bool) w : b = true → keeps 0 (λ _, True) (assertM b w).
Proof. intros ->. by apply keeps_ret. Qed.

(** The raw word. *)
Lemma keeps_get_raw : keeps 0 (word_kept op tmpl) get_raw_instr.
Proof. intros s Hs Hi. apply wp_gets. split; [done|]. split; [lia|]. split; [done|apply Hs]. Qed.

Lemma keeps_set_raw i : word_kept op tmpl i → keeps 0 (λ _, True) (set_raw_instr i).
Proof. intros Hw. apply keeps_modify. intros s []. split; [by split|done]. Qed.

Lemma keeps_on_raw f :
  (∀ i, word_kept op tmpl i → word_kept op tmpl (f i)) →
  keeps 0 (λ _, True) (modify (λ s, st_raw_instr (f s.(raw_instr)) s)).
Proof. intros Hf. apply keeps_modify. intros s []. split; [split; [by apply Hf|done..]|done]. Qed.

Lemma keeps_set_instr i l h v :
  word_kept op tmpl i → writable op l h = true → keeps 0 (word_kept op tmpl) (set_instr i l h v).
Proof.
  intros Hi Hw. unfold set_instr. apply writable_spec in Hw as Hw'.
  rewrite (proj2 (Z.leb_le l h)) by lia.
  apply keeps_ret; [lia|]. by apply word_kept_set_instr_val.
Qed.

(** The instruction buffer. *)
Lemma substring_whole n str : (String.length str ≤ n)%nat → String.substring 0 n str = str.
Proof.
  revert n. induction str as [|c str IH]; intros [|n]; simpl; try (done || lia). intros H.
  rewrite IH by lia. done.
Qed.

Lemma line_ok_substring n str : (line_max ≤ n)%nat → line_ok str → line_ok (String.substring 0 n str).
Proof. intros Hn [Hl Hp]. rewrite substring_whole by lia. by split. Qed.

Lemma buf_ok_insert idx buf str :
  buf_ok idx buf → idx + 1 ≤ MAX_INSTR → line_ok str → buf_ok (idx + 1) (<[Z.to_nat idx:=str]> buf).
Proof.
  intros [? ? ?] ? ?. split; [lia| |].
  - by rewrite length_insert.
  - by apply Forall_insert.
Qed.

Lemma keeps_insert_instr str : line_ok str → keeps 1 (λ _, True) (insert_instr str).
Proof.
  intros Hl s [Hw Hb Hisa] Hi. unfold insert_instr. apply wp_bind, wp_gets, wp_bind, wp_assert.
  { apply Z.ltb_lt. lia. }
  apply wp_bind, wp_modify, wp_modify. split_and!; [split; [done| |done]|simpl; lia..|done|done].
  apply buf_ok_insert; [done|simpl; lia|]. apply line_ok_substring; [|done].
  unfold line_max, MAX_STR_INSTR_LEN. lia.
Qed.

Lemma keeps_emit str : line_ok str → keeps 1 (λ _, True) (emit str).
Proof.
  intros Hl. unfold emit, sprintf_line.
  rewrite (proj2 (Z.leb_le _ _)) by (destruct Hl; unfold line_max, MAX_STR_INSTR_LEN in *; lia).
  apply (keeps_insert_instr str Hl).
Qed.
End keeps.

(** ** 3. Automation *)

(** [plain] of a concatenation of literals and conversions. *)
Ltac solve_plain := autorewrite with plain; reflexivity.

(** The length of one. *)
Ltac solve_length :=
  rewrite ?length_string_app;
  repeat match goal with
  | |- context [String.length (fmt_d ?x)] =>
      let H := fresh in pose proof (length_fmt_d x) as H;
      generalize dependent (String.length (fmt_d x)); intros
  | |- context [String.length (fmt_x ?x)] =>
      let H := fresh in pose proof (length_fmt_x x) as H;
      generalize dependent (String.length (fmt_x x)); intros
  end; simpl String.length; simpl; lia.

(** [line_ok] of a concatenation of literals and conversions. *)
Ltac solve_line :=
  unfold line_ok, line_max; split; [solve_length|split; [solve_plain|reflexivity]].

Create HintDb keeps discriminated.
#[export] Hint Resolve keeps_options keeps_isa | 0 : keeps.
#[export] Hint Resolve keeps_gets keeps_opt | 10 : keeps.
#[export] Hint Resolve keeps_GET_OPT_STAT keeps_rand keeps_is_oprand_init
  keeps_is_reg_bit_cut keeps_is_set_fixed_bit keeps_instr_fixed_bit keeps_cond_val keeps_assert keeps_get_raw
  keeps_set_raw keeps_set_instr keeps_insert_instr keeps_emit : keeps.
#[export] Hint Extern 1 (line_ok _) => solve_line : keeps.

(** Side conditions on the number of lines; [fix_lines] unfolds to them. *)
Ltac keeps_arith := lia.

(** A field of an opcode that a hypothesis makes concrete. *)
Ltac solve_writable :=
  match goal with
  | H : (?op =? _) = true |- writable ?op _ _ = true =>
      apply Z.eqb_eq in H; rewrite H; vm_compute; reflexivity
  | H : op_in ?op ?l = true |- writable ?op ?a ?b = true =>
      let f := eval pattern op in (writable op a b) in
      lazymatch f with ?f _ => apply (op_in_check f op l H); vm_compute; reflexivity end
  end.
#[export] Hint Extern 1 (writable _ _ _ = true) => solve_writable : keeps.

(** One step of symbolic execution. *)
Ltac keeps_step :=
  lazymatch goal with
  | |- keeps _ _ _ _ _ (let x := ?v in @?f x) =>
      refine (keeps_let _ _ _ _ _ v f _); intro
  | |- keeps _ _ _ _ _ (mret _) => apply keeps_ret; [keeps_arith|]
  | |- keeps _ _ _ _ _ (mret _ ≫= _) => apply keeps_ret_bind
  | |- keeps _ _ _ _ _ ((_ ≫= _) ≫= _) => apply keeps_assoc
  | |- keeps _ _ _ _ _ ((if ?b then _ else _) ≫= _) => apply keeps_if_bind; intro
  | |- keeps _ _ _ _ _ (if ?b then _ else _) => apply keeps_if; intro
  | |- keeps _ _ _ _ _ (when _ _ ≫= _) => apply keeps_when; intro
  | |- keeps _ _ _ _ _ (when _ _) => apply keeps_when_end; [keeps_arith|done|intro]
  | |- keeps _ _ _ _ _ (match ?x with (_, _) => _ end) => destruct x
  | |- keeps _ _ _ _ _ (_ ≫= _) =>
      eapply keeps_bind; [solve [eauto with keeps]|keeps_arith|intros ? ?]
  | |- keeps _ _ _ _ _ _ =>
      eapply keeps_mono; [solve [eauto with keeps]|keeps_arith|try done]
  end.
Ltac keeps := repeat keeps_step; try done.
