(* ===== verification/BiasUtil.v ===== *)
(** * Register biasing: BiasUtil.c

    The C functions overwrite their arguments through pointers; here they
    return the new values in argument order. *)
From S2P Require Import Prelude RitCommon InstrTable State InstrUtil InstrBuf Keeps.

Section bias.
Context `{Env : !RitEnv}.

Definition random_bias_reg_2 (reg_1 reg_2 : Z) : rit (Z * Z) :=
  rand_val ← rand;
  mret (if rand_val mod 2 =? 0 then (reg_2, reg_2) else (reg_1, reg_2)).

Definition random_bias_reg_3 (reg_1 reg_2 reg_3 : Z) : rit (Z * Z * Z) :=
  rand_val ← rand;
  mret match rand_val mod 8 with
  | 0 | 1 | 2 => (reg_3, reg_3, reg_3)
  | 3 => (reg_1, reg_2, reg_2)
  | 4 => (reg_1, reg_1, reg_3)
  | 5 => (reg_3, reg_2, reg_3)
  | _ => (reg_1, reg_2, reg_3)
  end.

Definition random_bias_reg_4 (reg_1 reg_2 reg_3 reg_4 : Z) : rit (Z * Z * Z * Z) :=
  rand_val ← rand;
  mret match rand_val mod 16 with
  | 0 | 1 | 2 | 3 => (reg_4, reg_4, reg_4, reg_4)
  | 4 => (reg_3, reg_3, reg_3, reg_4)
  | 5 => (reg_1, reg_4, reg_4, reg_4)
  | 6 => (reg_1, reg_2, reg_1, reg_1)
  | 7 => (reg_2, reg_2, reg_3, reg_2)
  | 8 => (reg_2, reg_2, reg_3, reg_4)
  | 9 => (reg_1, reg_3, reg_3, reg_4)
  | 10 => (reg_1, reg_2, reg_4, reg_4)
  | 11 => (reg_1, reg_2, reg_3, reg_1)
  | 12 => (reg_3, reg_2, reg_3, reg_4)
  | 13 => (reg_1, reg_4, reg_3, reg_4)
  | _ => (reg_1, reg_2, reg_3, reg_4)
  end.
End bias.

Section keeps.
Context `{Env : !RitEnv}.
Context (th : bool) (op tmpl : Z).

Lemma keeps_random_bias_reg_2 a b : keeps th op tmpl 0 (λ _, True) (random_bias_reg_2 a b).
Proof. unfold random_bias_reg_2. keeps. Qed.
Lemma keeps_random_bias_reg_3 a b c : keeps th op tmpl 0 (λ _, True) (random_bias_reg_3 a b c).
Proof. unfold random_bias_reg_3. keeps. Qed.
Lemma keeps_random_bias_reg_4 a b c d : keeps th op tmpl 0 (λ _, True) (random_bias_reg_4 a b c d).
Proof. unfold random_bias_reg_4. keeps. Qed.
End keeps.
#[export] Hint Resolve keeps_random_bias_reg_2 keeps_random_bias_reg_3 keeps_random_bias_reg_4 : keeps.
