(* ===== verification/GenHelper.v ===== *)
(** * Memory operand helpers: GenHelper.c *)
From Stdlib Require Import Ascii.
From S2P Require Import Prelude RitCommon InstrTable State InstrUtil InstrBuf Keeps.
#[local] Open Scope c_scope.

(** ** 1. Definitions *)

(** The number of clear bits of [imm] met before the first set one, looking at
    the bit positions [l] in order: one [for]/[break] loop of
    [is_imm_encodable]. *)
Fixpoint zero_run (imm : Z) (l : list Z) : Z :=
  match l with
  | [] => 0
  | b :: l => if negb ((imm & shl32 1 b) =? 0) then 0 else 1 + zero_run imm l
  end.

Definition is_imm_encodable (imm : Z) : rit bool :=
  isa0 ← opt isa;
  mret (if (isa0 =? ISA_ARMv5) || (isa0 =? ISA_ARMv7) then
    let cnt := zero_run imm (seqZ 0 32)
             + zero_run imm ((λ idx, 31 - idx) <$> seqZ 0 32) in
    if 24 <=? cnt then true
    else
      let cnt := zero_run imm ((λ idx, 15 - idx) <$> seqZ 0 16)
               + zero_run imm ((λ idx, 16 + idx) <$> seqZ 0 16) in
      24 <=? cnt
  else false).

Section helper.
Context `{Env : !RitEnv}.

Definition gen_pre_instr_for_mem_base (reg_base : Z) : rit Z :=
  if reg_base =? R_PC then mret 0 else
  let tmp_reg := if negb (reg_base =? 0) then 0 else 1 in
  isa0 ← opt isa;
  (if (isa0 =? ISA_THUMB) && (7 <? reg_base) then
     emit ("[CODE] ldr r" +:+ fmt_d tmp_reg +:+ ", =mem_data") ;;
     emit ("[CODE] mov r" +:+ fmt_d reg_base +:+ ", r" +:+ fmt_d tmp_reg)
   else
     emit ("[CODE] ldr r" +:+ fmt_d reg_base +:+ ", =mem_data")) ;;
  unalign ← GET_OPT_STAT OPT_ALLOW_UNALIGN_MEM;
  base_rand ← (if unalign : bool then
      r ← rand;
      mret (if negb (r mod 8 =? 0) then (0x600000 / 4) * 4 else 0x600000)
    else mret 0x600000);
  emit ("[CODE] ldr r" +:+ fmt_d tmp_reg +:+ ", =0x" +:+ fmt_x base_rand) ;;
  emit ("[CODE] add r" +:+ fmt_d reg_base +:+ ", r" +:+ fmt_d reg_base
        +:+ ", r" +:+ fmt_d tmp_reg) ;;
  mret base_rand.

(** The ARM branch of [fix_mem_base] for one mask: [mn] is [bic] or [orr]. *)
Definition fix_mask_arm (mn : string) (reg_base tmp_reg mask : Z) : rit unit :=
  enc ← is_imm_encodable mask;
  if enc : bool then
    emit ("[CODE] " +:+ mn +:+ " r" +:+ fmt_d reg_base +:+ ", r" +:+ fmt_d reg_base
          +:+ ", #0x" +:+ fmt_x mask)
  else
    emit ("[CODE] ldr r" +:+ fmt_d tmp_reg +:+ ", =0x" +:+ fmt_x mask) ;;
    emit ("[CODE] " +:+ mn +:+ " r" +:+ fmt_d reg_base +:+ ", r" +:+ fmt_d tmp_reg).

(** The Thumb branch for one mask: [mn] is [bics] or [orrs]. *)
Definition fix_mask_thumb (mn : string) (reg_base tmp_reg mask : Z) : rit unit :=
  emit ("[CODE] ldr r" +:+ fmt_d tmp_reg +:+ ", =0x" +:+ fmt_x mask) ;;
  emit ("[CODE] " +:+ mn +:+ " r" +:+ fmt_d reg_base +:+ ", r" +:+ fmt_d tmp_reg).

Definition fix_mem_base (reg_base0 : Z) (forceAlign : bool) : rit unit :=
  o ← gets options;
  let unset_mask := (not32 o.(mem_base_val)) & o.(mem_base_mask) in
  let set_mask := o.(mem_base_val) & o.(mem_base_mask) in
  let tmp_reg := if negb (reg_base0 =? 0) then 0 else 1 in
  let thumb := o.(isa) =? ISA_THUMB in
  let high := thumb && (7 <? reg_base0) in
  let reg_base_t := if high then reg_base0 else 0 in
  let reg_base := if high then 2 else reg_base0 in
  when high (emit ("[INST] mov r" +:+ fmt_d reg_base +:+ ", r" +:+ fmt_d reg_base_t)) ;;
  if skip_pc_base && (reg_base =? R_PC) then mret tt else
  let unset_mask := if forceAlign then unset_mask .| 0x3 else unset_mask in
  (if thumb then
     fix_mask_thumb "bics" reg_base tmp_reg unset_mask ;;
     fix_mask_thumb "orrs" reg_base tmp_reg set_mask
   else
     fix_mask_arm "bic" reg_base tmp_reg unset_mask ;;
     fix_mask_arm "orr" reg_base tmp_reg set_mask) ;;
  when forceAlign
    (emit ("[INST] bic r" +:+ fmt_d reg_base +:+ ", r" +:+ fmt_d reg_base +:+ ", #3")) ;;
  when (thumb && (7 <? reg_base_t))
    (emit ("[INST] mov r" +:+ fmt_d reg_base_t +:+ ", r" +:+ fmt_d reg_base)).

(** The masked register value and the resulting offset, given the random
    word [reg_val]; [None] is the unknown shift type. *)
Definition mem_offset_of (shift_t shift_n reg_val : Z) : option (Z * Z) :=
  if shift_t =? 0 then
    let shift_mask :=
      if shift_n <? 12
      then (0xfff >> shift_n) .| (0xfff << (32 - shift_n))
      else 0xffffffff << (32 - shift_n) in
    let reg_val := reg_val & shift_mask in
    Some (reg_val, reg_val << shift_n)
  else if shift_t =? 1 then
    let shift_mask := if shift_n <? 20 then 0xffffffff >> (20 - shift_n) else 0xffffffff in
    let reg_val := reg_val & shift_mask in
    Some (reg_val, if shift_n <? 32 then reg_val >> shift_n else 0)
  else if shift_t =? 2 then
    let shift_mask := if shift_n <? 20 then 0xffffffff >> (20 - shift_n) else 0x7fffffff in
    let reg_val := reg_val & shift_mask in
    Some (reg_val, if shift_n <? 32 then u32 (Z.shiftr (s32 reg_val) shift_n) else 0)
  else if shift_t =? 3 then
    if shift_n =? 0 then
      let reg_val := reg_val & (0xffffffff >> 19) in
      Some (reg_val, reg_val >> 1)
    else
      let shift_mask := (0xfff << shift_n) .| (0xfff >> (32 - shift_n)) in
      let reg_val := reg_val & shift_mask in
      Some (reg_val, (reg_val >> shift_n) .| (reg_val << (32 - shift_n)))
  else None.

(** Returns the offset and, as the C function does through its pointer
    argument, the register value that yields it.  An unknown shift type
    leaves [result] uninitialised. *)
Definition get_rand_mem_offset (shift_t shift_n : Z) : rit (Z * Z) :=
  reg_val ← rand;
  when ((shift_t =? 3) && (shift_n =? 0)) (on_options (opt_cond_val 3)) ;;
  mret match mem_offset_of shift_t shift_n reg_val with
  | Some (reg_val, result) => (result, reg_val)
  | None => (uninit_u32 0, reg_val)
  end.
End helper.

Definition is_mem_align (addr align_bit : Z) : rit bool :=
  let mask := u32 (shl32 1 align_bit - 1) in
  unalign ← GET_OPT_STAT OPT_ALLOW_UNALIGN_MEM;
  mret (negb (unalign && negb ((addr & mask) =? 0x0))).

(** ** 2. The helpers keep the invariant *)

Section keeps.
Context `{Env : !RitEnv}.
Context (th : bool) (op tmpl : Z).
#[local] Abbreviation keeps := (keeps th op tmpl).

Lemma keeps_is_imm_encodable imm : keeps 0 (λ _, True) (is_imm_encodable imm).
Proof. unfold is_imm_encodable. keeps. Qed.

Lemma keeps_is_mem_align addr b : keeps 0 (λ _, True) (is_mem_align addr b).
Proof. unfold is_mem_align. keeps. Qed.

Lemma keeps_get_rand_mem_offset t n : keeps 0 (λ _, True) (get_rand_mem_offset t n).
Proof. unfold get_rand_mem_offset. keeps. Qed.

Lemma keeps_gen_pre r : keeps 4 (λ _, True) (gen_pre_instr_for_mem_base r).
Proof. unfold gen_pre_instr_for_mem_base. keeps. Qed.

#[local] Hint Resolve keeps_is_imm_encodable : keeps.

(** The mnemonics of the masking instructions. *)
Definition mnemonic (mn : string) : bool :=
  plain mn && match mn with String c _ => negb (blank c) && negb (Ascii.eqb c "."%char) | EmptyString => false end.

Lemma line_ok_masked mn rest :
  mnemonic mn = true → (String.length mn ≤ 4)%nat →
  plain rest = true → (String.length rest ≤ 41)%nat → line_ok ("[CODE] " +:+ mn +:+ rest).
Proof.
  unfold mnemonic. intros [Hp Hm]%andb_true_iff Hl Hr Hlr. destruct mn as [|c mn]; [done|].
  split; [|split].
  - rewrite !length_string_app. simpl in *. unfold line_max. lia.
  - rewrite !all_chars_app, Hp, Hr. done.
  - unfold head_ok, tagged. simpl. apply andb_true_iff in Hm as [-> ->]. done.
Qed.

#[local] Hint Extern 0 (line_ok ("[CODE] " +:+ ?mn +:+ _)) =>
  is_var mn; apply line_ok_masked; [assumption|assumption|solve_plain|solve_length] : keeps.

Lemma keeps_fix_mask_arm mn r t mask :
  (String.length mn ≤ 4)%nat → mnemonic mn = true → keeps 2 (λ _, True) (fix_mask_arm mn r t mask).
Proof. intros. unfold fix_mask_arm. keeps. Qed.

Lemma keeps_fix_mask_thumb mn r t mask :
  (String.length mn ≤ 4)%nat → mnemonic mn = true → keeps 2 (λ _, True) (fix_mask_thumb mn r t mask).
Proof. intros. unfold fix_mask_thumb. keeps. Qed.

End keeps.

#[local] Hint Resolve keeps_fix_mask_arm keeps_fix_mask_thumb : keeps.
#[local] Hint Extern 1 (String.length _ ≤ _)%nat => simpl; lia : keeps.
#[local] Hint Extern 1 (mnemonic _ = true) => reflexivity : keeps.

(** The number of lines [fix_mem_base] may write: a base register above r7 is
    copied to r2 and back when the instruction set is Thumb. *)
Definition fix_lines (th fa : bool) : Z := (if th then 6 else 4) + (if fa then 1 else 0).

Lemma keeps_fix_mem_base `{!RitEnv} th op tmpl r fa :
  keeps th op tmpl (fix_lines th fa) (λ _, True) (fix_mem_base r fa).
Proof.
  unfold fix_mem_base, fix_lines.
  eapply keeps_bind; [apply keeps_options|destruct th, fa; lia|intros o Hth]. cbv zeta beta in *.
  destruct (Z.eqb_spec (isa o) ISA_THUMB) as [Ht|]; [specialize (Hth Ht)|clear Hth];
    destruct th, fa; try done; destruct (7 <? r) eqn:?; cbn [andb]; keeps.
Qed.
#[export] Hint Resolve keeps_is_imm_encodable keeps_is_mem_align keeps_get_rand_mem_offset
  keeps_gen_pre keeps_fix_mem_base : keeps.

(** Lines left, for any instruction set. *)
Ltac keeps_arith ::= first [lia | unfold fix_lines in *; repeat case_match; (lia || done)].
