(* ===== verification/MemSpec.v ===== *)
(** * What the memory helpers compute: GenHelper.c against the architecture

    Reference definitions of the ARM shifts, of rotated 8-bit immediates and of
    the few instructions [fix_mem_base] writes, and the proofs that the helpers
    agree with them. *)
From S2P Require Import Prelude RitCommon InstrTable State InstrUtil InstrBuf GenHelper.
#[local] Open Scope c_scope.

(** ** 1. Shifts *)

(** ROR of the architecture manual: LSR(x, n) OR LSL(x, 32 - n). *)
Definition ror32 (x n : Z) : Z := u32 (Z.lor (Z.shiftr x n) (Z.shiftl x (32 - n))).

(** [Shift()] of the manual, with a clear carry flag for RRX. *)
Definition arm_shift (shift_t shift_n x : Z) : Z :=
  if shift_t =? 0 then u32 (x * 2 ^ shift_n)
  else if shift_t =? 1 then x / 2 ^ shift_n
  else if shift_t =? 2 then u32 (s32 x / 2 ^ shift_n)
  else if shift_n =? 0 then x / 2
  else ror32 x shift_n.

(** The shifts that decoding an immediate shift can give. *)
Definition legal_shift (shift_t shift_n : Z) : Prop :=
  (shift_t = 0 ∧ 0 ≤ shift_n ≤ 31) ∨ (shift_t = 1 ∧ 1 ≤ shift_n ≤ 32)
  ∨ (shift_t = 2 ∧ 1 ≤ shift_n ≤ 32) ∨ (shift_t = 3 ∧ 0 ≤ shift_n ≤ 31).

Lemma small_by_bits n x :
  0 ≤ n → 0 ≤ x → (∀ k, n ≤ k → Z.testbit x k = false) → x < 2 ^ n.
Proof.
  intros Hn Hx Hk. assert (x mod 2 ^ n = x) as <-; [|apply Z.mod_pos_bound; lia].
  apply Z.bits_inj'. intros k Hk0. destruct (Z.lt_ge_cases k n).
  - by rewrite Z.mod_pow2_bits_low.
  - by rewrite Z.mod_pow2_bits_high, Hk by lia.
Qed.

(** The bits of a 32-bit word and of the small masks, for rewriting. *)
Lemma testbit_fff k : 0 ≤ k → Z.testbit 0xfff k = (k <? 12).
Proof. apply (testbit_ones 12). done. Qed.
Lemma testbit_ffffffff k : 0 ≤ k → Z.testbit 0xffffffff k = (k <? 32).
Proof. apply (testbit_ones 32). done. Qed.

Ltac cmp :=
  repeat match goal with
  | |- context [?a <? ?b] => destruct (Z.ltb_spec a b); try lia
  | |- context [?a <=? ?b] => destruct (Z.leb_spec a b); try lia
  end; rewrite ?andb_false_r, ?andb_true_r, ?orb_false_r, ?orb_true_r; cbn [andb orb]; try done.

Lemma land_nonneg_l x y : 0 ≤ x → 0 ≤ (x & y).
Proof. intros. apply Z.land_nonneg. by left. Qed.

Lemma offset_lsl n v :
  0 ≤ n ≤ 31 → is_u32 v →
  ∃ reg off, mem_offset_of 0 n v = Some (reg, off) ∧ is_u32 reg
    ∧ off = u32 (reg * 2 ^ n) ∧ 0 ≤ off < 2 ^ 12.
Proof.
  intros Hn Hv. unfold mem_offset_of. cbn [Z.eqb]. eexists _, _. split; [reflexivity|].
  split; [auto with rit|]. split.
  { unfold shl32 at 1. by rewrite (Z.mod_small n 32), Z.shiftl_mul_pow2 by lia. }
  split; [apply is_u32_shl32|]. apply small_by_bits; [lia|apply is_u32_shl32|].
  intros k Hk. rewrite testbit_shl32, Z.land_spec by lia.
  destruct (Z.ltb_spec k 32); [cbn [andb]|done].
  destruct (Z.lt_ge_cases k n); [by rewrite Z.testbit_neg_r by lia|].
  destruct (Z.ltb_spec n 12).
  - destruct (Z.eq_dec n 0) as [->|].
    + change ((0xfff >> 0) .| (0xfff << (32 - 0))) with 0xfff. rewrite testbit_fff by lia. cmp.
    + rewrite Z.lor_spec, testbit_shr32, testbit_shl32, testbit_fff by lia.
      rewrite (Z.testbit_neg_r _ (k - n - (32 - n))) by lia. cmp.
  - rewrite testbit_shl32 by lia. rewrite (Z.testbit_neg_r _ (k - n - (32 - n))) by lia. cmp.
Qed.

(** The masks of the right shifts leave a value below [2 ^ (12 + n)]. *)
Lemma shr_offset n v m :
  0 ≤ n ≤ 31 → is_u32 v → (∀ k, 12 ≤ k → k + n < 32 → Z.testbit m (k + n) = false) →
  0 ≤ (v & m) / 2 ^ n < 2 ^ 12.
Proof.
  intros Hn Hv Hm. pose proof (land_nonneg_l v m (proj1 Hv)).
  split; [apply Z.div_pos; lia|]. apply small_by_bits; [lia|apply Z.div_pos; lia|].
  intros k Hk. rewrite Z.div_pow2_bits, Z.land_spec by lia.
  destruct (Z.lt_ge_cases (k + n) 32).
  - by rewrite Hm, andb_false_r.
  - by rewrite (u32_testbit_high v) by done.
Qed.

Lemma offset_lsr n v :
  1 ≤ n ≤ 32 → is_u32 v →
  ∃ reg off, mem_offset_of 1 n v = Some (reg, off) ∧ is_u32 reg
    ∧ off = reg / 2 ^ n ∧ 0 ≤ off < 2 ^ 12.
Proof.
  intros Hn Hv. unfold mem_offset_of. cbn [Z.eqb]. cbv zeta.
  set (m := if n <? 20 then _ else _). eexists _, _. split; [reflexivity|].
  assert (is_u32 (v & m)) as Hu by auto with rit. split; [done|].
  destruct (Z.ltb_spec n 32).
  - unfold shr32. rewrite Z.mod_small, Z.shiftr_div_pow2 by lia. split; [done|].
    apply shr_offset; [lia|done|]. intros k Hk Hk2. unfold m.
    destruct (Z.ltb_spec n 20); [|lia]. rewrite testbit_shr32, testbit_ffffffff by lia. cmp.
  - assert (n = 32) as -> by lia. rewrite Z.div_small by exact Hu. lia.
Qed.

Lemma s32_small x : 0 ≤ x < 2 ^ 31 → s32 x = x.
Proof. intros. unfold s32. rewrite u32_small by (unfold is_u32; lia). cmp. Qed.

Lemma offset_asr n v :
  1 ≤ n ≤ 32 → is_u32 v →
  ∃ reg off, mem_offset_of 2 n v = Some (reg, off) ∧ is_u32 reg
    ∧ off = u32 (s32 reg / 2 ^ n) ∧ 0 ≤ off < 2 ^ 12.
Proof.
  intros Hn Hv. unfold mem_offset_of. cbn [Z.eqb Pos.eqb]. cbv zeta.
  set (m := if n <? 20 then _ else _). eexists _, _. split; [reflexivity|].
  assert (is_u32 (v & m)) as Hu by auto with rit. split; [done|].
  assert (0 ≤ (v & m) < 2 ^ 31) as Hs.
  { split; [apply Hu|]. apply small_by_bits; [lia|apply Hu|]. intros k Hk. rewrite Z.land_spec.
    destruct (Z.lt_ge_cases k 32); [|by rewrite (u32_testbit_high v) by done].
    unfold m. destruct (Z.ltb_spec n 20).
    - rewrite testbit_shr32, testbit_ffffffff by lia. cmp.
    - rewrite (testbit_ones 31) by lia. cmp. }
  rewrite s32_small by done. destruct (Z.ltb_spec n 32).
  - rewrite Z.shiftr_div_pow2 by lia. split; [done|].
    assert (0 ≤ (v & m) / 2 ^ n < 2 ^ 12) as Hb; [|rewrite u32_small; [done|unfold is_u32; lia]].
    apply shr_offset; [lia|done|]. intros k Hk Hk2. unfold m.
    destruct (Z.ltb_spec n 20); [|lia]. rewrite testbit_shr32, testbit_ffffffff by lia. cmp.
  - assert (n = 32) as -> by lia. rewrite Z.div_small by lia. unfold u32. rewrite Z.mod_0_l; lia.
Qed.

Lemma testbit_ror32 x n k :
  is_u32 x → 0 < n < 32 → 0 ≤ k < 32 →
  Z.testbit (ror32 x n) k = Z.testbit x (if k + n <? 32 then k + n else k + n - 32).
Proof.
  intros Hx Hn Hk. unfold ror32.
  rewrite testbit_u32, Z.lor_spec, Z.shiftr_spec, Z.shiftl_spec by lia.
  rewrite (proj2 (Z.ltb_lt k 32)) by lia. cbn [andb]. destruct (Z.ltb_spec (k + n) 32).
  - by rewrite (Z.testbit_neg_r _ (k - (32 - n))), orb_false_r by lia.
  - rewrite (u32_testbit_high x (k + n)) by done. cbn [orb]. f_equal. lia.
Qed.

Lemma offset_ror n v :
  1 ≤ n ≤ 31 → is_u32 v →
  ∃ reg off, mem_offset_of 3 n v = Some (reg, off) ∧ is_u32 reg
    ∧ off = ror32 reg n ∧ 0 ≤ off < 2 ^ 12.
Proof.
  intros Hn Hv. unfold mem_offset_of.
  change (3 =? 0) with false. change (3 =? 1) with false. change (3 =? 2) with false.
  change (3 =? 3) with true. cbv iota zeta.
  rewrite (proj2 (Z.eqb_neq n 0)) by lia.
  set (m := _ .| _). eexists _, _. split; [reflexivity|].
  assert (is_u32 (v & m)) as Hu by auto with rit. split; [done|].
  assert (((v & m) >> n) .| ((v & m) << (32 - n)) = ror32 (v & m) n) as ->.
  { apply u32_ext; [auto with rit..|apply is_u32_u32|]. intros k Hk.
    rewrite testbit_ror32, Z.lor_spec, testbit_shr32, testbit_shl32 by (done || lia).
    rewrite (proj2 (Z.ltb_lt k 32)) by lia. cbn [andb]. destruct (Z.ltb_spec (k + n) 32).
    - by rewrite (Z.testbit_neg_r _ (k - (32 - n))), orb_false_r by lia.
    - rewrite (u32_testbit_high (v & m) (k + n)) by done. cbn [orb]. f_equal. lia. }
  split; [done|]. split; [apply is_u32_u32|]. apply small_by_bits; [lia|apply is_u32_u32|].
  intros k Hk. destruct (Z.lt_ge_cases k 32); [|apply u32_testbit_high; [apply is_u32_u32|done]].
  rewrite testbit_ror32, Z.land_spec by (done || lia). apply andb_false_intro2. unfold m.
  destruct (Z.ltb_spec (k + n) 32); rewrite Z.lor_spec, testbit_shl32, testbit_shr32 by lia.
  - rewrite !testbit_fff by lia. cmp.
  - rewrite (Z.testbit_neg_r _ (k + n - 32 - n)), testbit_fff by lia. cmp.
Qed.

Lemma offset_rrx v :
  is_u32 v → ∃ reg off, mem_offset_of 3 0 v = Some (reg, off) ∧ is_u32 reg
    ∧ off = reg / 2 ∧ 0 ≤ off < 2 ^ 12.
Proof.
  intros Hv. unfold mem_offset_of.
  change (3 =? 0) with false. change (3 =? 1) with false. change (3 =? 2) with false.
  change (3 =? 3) with true. cbv iota zeta. eexists _, _. split; [reflexivity|].
  split; [auto with rit|]. change (0xffffffff >> 19) with (Z.ones 13). rewrite shr32_1.
  split; [done|]. rewrite Z.land_ones by lia. pose proof (Z.mod_pos_bound v (2 ^ 13)).
  split; [apply Z.div_pos; lia|]. apply Z.div_lt_upper_bound; lia.
Qed.

Lemma mem_offset_of_spec t n v :
  legal_shift t n → is_u32 v →
  ∃ reg off, mem_offset_of t n v = Some (reg, off) ∧ is_u32 reg
    ∧ off = arm_shift t n reg ∧ 0 ≤ off < 2 ^ 12.
Proof.
  intros Hl Hv. unfold arm_shift.
  destruct Hl as [[-> Hn]|[[-> Hn]|[[-> Hn]|[-> Hn]]]]; cbn [Z.eqb Pos.eqb].
  - by apply offset_lsl.
  - by apply offset_lsr.
  - by apply offset_asr.
  - destruct (Z.eqb_spec n 0) as [->|]; [by apply offset_rrx|]. apply offset_ror; [lia|done].
Qed.

(** ** 2. Immediates *)

(** An 8-bit value rotated right by an even amount: an A32 immediate. *)
Definition a32_imm (imm : Z) : Prop :=
  ∃ b r, 0 ≤ b < 256 ∧ 0 ≤ r < 16 ∧ imm = ror32 b (2 * r).

(** Without the restriction to even amounts. *)
Definition rotated_byte (imm : Z) : Prop :=
  ∃ b r, 0 ≤ b < 256 ∧ 0 ≤ r < 32 ∧ imm = ror32 b r.

(** The answer of [is_imm_encodable] under an ARM instruction set. *)
Definition imm_runs (imm : Z) : bool :=
  if 24 <=? zero_run imm (seqZ 0 32) + zero_run imm ((λ idx, 31 - idx) <$> seqZ 0 32) then true
  else 24 <=? zero_run imm ((λ idx, 15 - idx) <$> seqZ 0 16)
              + zero_run imm ((λ idx, 16 + idx) <$> seqZ 0 16).

Lemma zero_run_range imm l : 0 ≤ zero_run imm l ≤ Z.of_nat (length l).
Proof. induction l as [|b l IH]; cbn [zero_run length]; [lia|]. case_match; lia. Qed.

Lemma bit_clear imm b : 0 ≤ b < 32 → (imm & shl32 1 b) = 0 → Z.testbit imm b = false.
Proof.
  intros Hb H. apply (f_equal (λ z, Z.testbit z b)) in H.
  rewrite Z.land_spec, testbit_bit, Z.eqb_refl, andb_true_r, Z.testbit_0_l in H by lia. done.
Qed.

(** The positions counted are clear. *)
Lemma zero_run_clear imm l i b :
  Forall (λ b, 0 ≤ b < 32) l → l !! i = Some b → Z.of_nat i < zero_run imm l →
  Z.testbit imm b = false.
Proof.
  intros Hl. revert i. induction Hl as [|c l Hc Hl IH]; intros i Hi Hr; [done|].
  cbn [zero_run] in Hr. destruct (Z.eqb_spec (imm & shl32 1 c) 0) as [E|E]; cbn [negb] in Hr; [|lia].
  destruct i as [|i]; cbn in Hi; [injection Hi as <-; by apply bit_clear|].
  apply (IH i Hi). lia.
Qed.

(** The same for the four runs, each an affine image of a range. *)
Lemma zero_run_map_clear imm (f g : Z → Z) n b :
  (∀ i, 0 ≤ i < n → 0 ≤ f i < 32) → (∀ b, f (g b) = b) → 0 ≤ g b < n →
  g b < zero_run imm (f <$> seqZ 0 n) → Z.testbit imm b = false.
Proof.
  intros Hf Hg Hb Hr. apply (zero_run_clear imm (f <$> seqZ 0 n) (Z.to_nat (g b))).
  - apply Forall_fmap, Forall_forall. intros i Hi%elem_of_seqZ. apply Hf. lia.
  - rewrite list_lookup_fmap, lookup_seqZ_lt by lia. cbn. f_equal. rewrite <- (Hg b) at 2. f_equal. lia.
  - lia.
Qed.

Lemma rotated_byte_low imm a :
  is_u32 imm → 0 ≤ a < 32 →
  (∀ k, 0 ≤ k < a → Z.testbit imm k = false) → (∀ k, a + 8 ≤ k → Z.testbit imm k = false) →
  rotated_byte imm.
Proof.
  intros Hu Ha Hlo Hhi. exists (imm / 2 ^ a), ((32 - a) mod 32).
  assert (0 ≤ imm / 2 ^ a) by (apply Z.div_pos; [apply Hu|lia]).
  assert (imm / 2 ^ a < 256) as Hb.
  { apply (small_by_bits 8); [lia|done|]. intros k Hk. rewrite Z.div_pow2_bits by lia.
    apply Hhi. lia. }
  split; [lia|]. destruct (Z.eq_dec a 0) as [->|Hne].
  { rewrite Z.div_1_r. split; [done|]. change ((32 - 0) mod 32) with 0. unfold ror32.
    symmetry. apply u32_ext; [apply is_u32_u32|done|]. intros k Hk.
    rewrite testbit_u32, Z.lor_spec, Z.shiftr_0_r, Z.shiftl_spec, (Z.testbit_neg_r _ (k - _)) by lia.
    rewrite (proj2 (Z.ltb_lt k 32)) by lia. by rewrite orb_false_r. }
  rewrite Z.mod_small by lia. split; [lia|].
  apply u32_ext; [done|apply is_u32_u32|]. intros k Hk.
  rewrite testbit_ror32 by (unfold is_u32; lia). destruct (Z.ltb_spec (k + (32 - a)) 32).
  - rewrite Hlo, Z.div_pow2_bits by lia. symmetry. apply u32_testbit_high; [done|lia].
  - rewrite Z.div_pow2_bits by lia. f_equal. lia.
Qed.

(** The run that wraps around: bits set only below [16 - a] and from [16 + b]. *)
Lemma rotated_byte_wrap imm a b :
  is_u32 imm → 0 ≤ a ≤ 16 → 0 ≤ b < 16 → 24 ≤ a + b →
  (∀ k, 16 - a ≤ k < 16 + b → Z.testbit imm k = false) → rotated_byte imm.
Proof.
  intros Hu Ha Hb Hab Hc. exists (ror32 imm (16 + b)), (16 - b).
  assert (ror32 imm (16 + b) < 256).
  { apply (small_by_bits 8); [lia|apply is_u32_u32|]. intros k Hk.
    destruct (Z.lt_ge_cases k 32); [|apply u32_testbit_high; [apply is_u32_u32|lia]].
    rewrite testbit_ror32 by (lia || done). destruct (Z.ltb_spec (k + (16 + b)) 32).
    - lia.
    - apply Hc. lia. }
  split; [split; [apply is_u32_u32|done]|]. split; [lia|].
  apply u32_ext; [done|apply is_u32_u32|]. intros k Hk.
  rewrite testbit_ror32 by (apply is_u32_u32 || lia).
  rewrite testbit_ror32 by (done || (destruct (Z.ltb_spec (k + (16 - b)) 32); lia)).
  destruct (Z.ltb_spec (k + (16 - b)) 32).
  - destruct (Z.ltb_spec (k + (16 - b) + (16 + b)) 32); [lia|]. f_equal. lia.
  - destruct (Z.ltb_spec (k + (16 - b) - 32 + (16 + b)) 32); [|lia]. f_equal. lia.
Qed.

Lemma imm_runs_sound imm : is_u32 imm → imm_runs imm = true → rotated_byte imm.
Proof.
  intros Hu. unfold imm_runs.
  assert (∀ k, 0 ≤ k < 32 → k < zero_run imm (seqZ 0 32) → Z.testbit imm k = false) as Hlo.
  { intros k Hk Hr. apply (zero_run_map_clear imm (λ i, i) (λ i, i) 32); [lia|done|done|].
    by rewrite list_fmap_id. }
  assert (∀ k, 0 ≤ k < 32 → 31 - k < zero_run imm ((λ idx, 31 - idx) <$> seqZ 0 32) →
    Z.testbit imm k = false) as Hhi.
  { intros k Hk Hr. apply (zero_run_map_clear imm (λ i, 31 - i) (λ i, 31 - i) 32); [cbv beta; lia..|done]. }
  assert (∀ k, 0 ≤ k < 16 → 15 - k < zero_run imm ((λ idx, 15 - idx) <$> seqZ 0 16) →
    Z.testbit imm k = false) as Hml.
  { intros k Hk Hr. apply (zero_run_map_clear imm (λ i, 15 - i) (λ i, 15 - i) 16); [cbv beta; lia..|done]. }
  assert (∀ k, 16 ≤ k < 32 → k - 16 < zero_run imm ((λ idx, 16 + idx) <$> seqZ 0 16) →
    Z.testbit imm k = false) as Hmh.
  { intros k Hk Hr. apply (zero_run_map_clear imm (λ i, 16 + i) (λ i, i - 16) 16); [cbv beta; lia..|done]. }
  pose proof (zero_run_range imm (seqZ 0 32)) as Ha.
  pose proof (zero_run_range imm ((λ idx, 15 - idx) <$> seqZ 0 16)) as Hc.
  pose proof (zero_run_range imm ((λ idx, 16 + idx) <$> seqZ 0 16)) as Hd.
  rewrite ?length_fmap, ?length_seqZ in *.
  set (a := zero_run imm (seqZ 0 32)) in *. set (b := zero_run imm ((λ idx, 31 - idx) <$> _)) in *.
  set (c := zero_run imm ((λ idx, 15 - idx) <$> _)) in *.
  set (d := zero_run imm ((λ idx, 16 + idx) <$> _)) in *.
  assert (∀ k, 32 ≤ k → Z.testbit imm k = false) as Htop by (intros; by apply u32_testbit_high).
  destruct (Z.leb_spec 24 (a + b)) as [Hab|Hab].
  - intros _. apply (rotated_byte_low imm (a mod 32)); [done|apply Z.mod_pos_bound; lia|..].
    + intros k Hk. destruct (Z.eq_dec a 32) as [E|]; [rewrite E, Z.mod_same in Hk by lia; lia|].
      rewrite Z.mod_small in Hk by lia. apply Hlo; lia.
    + intros k Hk. destruct (Z.lt_ge_cases k 32); [|by apply Htop].
      destruct (Z.eq_dec a 32) as [E|]; [rewrite E, Z.mod_same in Hk by lia; apply Hlo; lia|].
      rewrite Z.mod_small in Hk by lia. apply Hhi; lia.
  - intros Hcd%Z.leb_le. destruct (Z.eq_dec d 16).
    + apply (rotated_byte_low imm 0); [done|lia|lia|]. intros k Hk.
      destruct (Z.lt_ge_cases k 32); [|by apply Htop].
      destruct (Z.lt_ge_cases k 16); [apply Hml|apply Hmh]; lia.
    + apply (rotated_byte_wrap imm c d); [done|lia..|]. intros k Hk.
      destruct (Z.lt_ge_cases k 16); [apply Hml|apply Hmh]; lia.
Qed.

Lemma forallb_grid (f : Z → Z → bool) n m b r :
  forallb (λ b, forallb (f b) (seqZ 0 m)) (seqZ 0 n) = true → 0 ≤ b < n → 0 ≤ r < m → f b r = true.
Proof.
  assert (∀ n k, 0 ≤ k < n → In k (seqZ 0 n)) as Hin
    by (intros ? k Hk; apply list_elem_of_In, elem_of_seqZ; lia).
  intros HT Hb Hr. rewrite forallb_forall in HT. specialize (HT b (Hin _ _ Hb)).
  rewrite forallb_forall in HT. by apply HT, Hin.
Qed.

Lemma imm_runs_grid :
  forallb (λ b, forallb (λ r, imm_runs (ror32 b r)) (seqZ 0 32)) (seqZ 0 256) = true.
Proof. vm_compute. reflexivity. Qed.

Lemma imm_runs_complete imm : rotated_byte imm → imm_runs imm = true.
Proof.
  intros (b & r & Hb & Hr & ->).
  exact (forallb_grid (λ b r, imm_runs (ror32 b r)) _ _ b r imm_runs_grid Hb Hr).
Qed.

Lemma is_imm_encodable_run imm s :
  is_imm_encodable imm s
  = Ok (((s.(options).(isa) =? ISA_ARMv5) || (s.(options).(isa) =? ISA_ARMv7)) && imm_runs imm) s.
Proof. unfold is_imm_encodable, opt, gets, mbind, M_bind. by destruct (_ || _). Qed.

(** ** 3. The code of [fix_mem_base] *)

(** The instructions it writes; [ALdr] is the load of a literal, and the flag
    of [ABicR] and [AOrrR] says that the mnemonic sets the flags. *)
Inductive asm :=
  | AMov (d n : Z)
  | ALdr (d v : Z)
  | ABicI (d v : Z)
  | AOrrI (d v : Z)
  | ABicR (flags : bool) (d m : Z)
  | AOrrR (flags : bool) (d m : Z)
  | AAlign (d : Z).

Definition mnemonic (mn : string) (flags : bool) : string := mn +:+ (if flags then "s" else "").
Definition print_asm (i : asm) : string :=
  match i with
  | AMov d n => "[INST] mov r" +:+ fmt_d d +:+ ", r" +:+ fmt_d n
  | ALdr d v => "[CODE] ldr r" +:+ fmt_d d +:+ ", =0x" +:+ fmt_x v
  | ABicI d v => "[CODE] " +:+ "bic" +:+ " r" +:+ fmt_d d +:+ ", r" +:+ fmt_d d +:+ ", #0x" +:+ fmt_x v
  | AOrrI d v => "[CODE] " +:+ "orr" +:+ " r" +:+ fmt_d d +:+ ", r" +:+ fmt_d d +:+ ", #0x" +:+ fmt_x v
  | ABicR f d m => "[CODE] " +:+ mnemonic "bic" f +:+ " r" +:+ fmt_d d +:+ ", r" +:+ fmt_d m
  | AOrrR f d m => "[CODE] " +:+ mnemonic "orr" f +:+ " r" +:+ fmt_d d +:+ ", r" +:+ fmt_d m
  | AAlign d => "[INST] bic r" +:+ fmt_d d +:+ ", r" +:+ fmt_d d +:+ ", #3"
  end.

(** Registers, and the effect of one instruction. *)
Definition regs : Type := Z → Z.
Definition set_reg (d v : Z) (R : regs) : regs := λ r, if r =? d then v else R r.
Definition exec (i : asm) (R : regs) : regs :=
  match i with
  | AMov d n => set_reg d (R n) R
  | ALdr d v => set_reg d v R
  | ABicI d v => set_reg d (R d & not32 v) R
  | AOrrI d v => set_reg d (R d .| v) R
  | ABicR _ d m => set_reg d (R d & not32 (R m)) R
  | AOrrR _ d m => set_reg d (R d .| R m) R
  | AAlign d => set_reg d (R d & not32 3) R
  end.
Definition exec_all (p : list asm) (R : regs) : regs := foldl (λ R i, exec i R) R p.

(** The two masks, and the program for a base register. *)
Definition unset_of (o : gen_option_t) (fa : bool) : Z :=
  let m := (not32 o.(mem_base_val)) & o.(mem_base_mask) in if fa then m .| 0x3 else m.
Definition set_of (o : gen_option_t) : Z := o.(mem_base_val) & o.(mem_base_mask).

Definition is_arm (o : gen_option_t) : bool := (o.(isa) =? ISA_ARMv5) || (o.(isa) =? ISA_ARMv7).
Definition mask_prog (o : gen_option_t) (imm : Z → Z → asm) (reg : bool → Z → Z → asm)
    (base tmp mask : Z) : list asm :=
  if o.(isa) =? ISA_THUMB then [ALdr tmp mask; reg true base tmp]
  else if is_arm o && imm_runs mask then [imm base mask]
  else [ALdr tmp mask; reg false base tmp].

Definition tmp_of (r : Z) : Z := if negb (r =? 0) then 0 else 1.
Definition high_reg (o : gen_option_t) (r : Z) : bool := (o.(isa) =? ISA_THUMB) && (7 <? r).
Definition fix_prog (o : gen_option_t) (r : Z) (fa : bool) : list asm :=
  let base := if high_reg o r then 2 else r in
  (if high_reg o r then [AMov base r] else []) ++
  mask_prog o ABicI ABicR base (tmp_of r) (unset_of o fa) ++
  mask_prog o AOrrI AOrrR base (tmp_of r) (set_of o) ++
  (if fa then [AAlign base] else []) ++
  (if high_reg o r then [AMov r base] else []).

(** Writing a list of lines. *)
Definition emit_all (lines : list string) : rit unit := forM lines emit.

Lemma emit_all_app l1 l2 s : emit_all (l1 ++ l2) s = (emit_all l1 ;; emit_all l2) s.
Proof.
  unfold emit_all. revert s. induction l1 as [|x l1 IH]; intros s; [done|].
  cbn [app forM]. rewrite bind_assoc. unfold mbind, M_bind. destruct (emit x s); [apply IH|done].
Qed.

Lemma emit_all_snoc l x s : emit_all (l ++ [x]) s = (emit_all l ;; emit x) s.
Proof.
  rewrite emit_all_app. unfold mbind, M_bind. destruct (emit_all l s) as [? s'|]; [|done].
  unfold emit_all. cbn [forM]. unfold mbind, M_bind. by destruct (emit x s') as [[] ?|].
Qed.

(** Lines do not change the options. *)
Lemma emit_options str s u s' : emit str s = Ok u s' → s'.(options) = s.(options).
Proof.
  unfold emit, sprintf_line, insert_instr, assertM, mbind, M_bind, gets, modify.
  destruct (_ <=? _); [|done]. cbn. destruct (_ <? _); [|done]. cbn. by intros [= _ <-].
Qed.

Lemma emit_all_options l s u s' : emit_all l s = Ok u s' → s'.(options) = s.(options).
Proof.
  unfold emit_all. revert s. induction l as [|x l IH]; intros s; cbn [forM]; [by intros [= _ <-]|].
  unfold mbind, M_bind. destruct (emit x s) as [? s1|] eqn:E; [|done]. intros H.
  rewrite (IH _ H). by eapply emit_options.
Qed.

(** From a state with options [o], [m] writes [lines] and does nothing else. *)
Definition writes (o : gen_option_t) (lines : list string) (m : rit unit) : Prop :=
  ∀ s, s.(options) = o → m s = emit_all lines s.

Lemma writes_emit o str : writes o [str] (emit str).
Proof.
  intros s _. unfold emit_all. cbn [forM]. unfold mbind, M_bind. by destruct (emit str s) as [[] ?|].
Qed.

Lemma writes_seq o l1 l2 m1 m2 :
  writes o l1 m1 → writes o l2 m2 → writes o (l1 ++ l2) (m1 ;; m2).
Proof.
  intros H1 H2 s Hs. rewrite emit_all_app. unfold mbind, M_bind. rewrite H1 by done.
  destruct (emit_all l1 s) as [? s1|] eqn:E; [|done].
  apply H2. by rewrite (emit_all_options _ _ _ _ E).
Qed.

Lemma writes_when o (b : bool) l m : writes o l m → writes o (if b then l else []) (when b m).
Proof. by destruct b. Qed.

Lemma writes_fix_mask_thumb o mn r t mask :
  writes o [print_asm (ALdr t mask); "[CODE] " +:+ mn +:+ " r" +:+ fmt_d r +:+ ", r" +:+ fmt_d t]
    (fix_mask_thumb mn r t mask).
Proof. apply (writes_seq o [_] [_]); apply writes_emit. Qed.

Lemma writes_fix_mask_arm o mn r t mask :
  writes o (if is_arm o && imm_runs mask
     then ["[CODE] " +:+ mn +:+ " r" +:+ fmt_d r +:+ ", r" +:+ fmt_d r +:+ ", #0x" +:+ fmt_x mask]
     else [print_asm (ALdr t mask);
           "[CODE] " +:+ mn +:+ " r" +:+ fmt_d r +:+ ", r" +:+ fmt_d t]) (fix_mask_arm mn r t mask).
Proof.
  intros s Hs. unfold fix_mask_arm. unfold mbind at 1, M_bind at 1.
  rewrite is_imm_encodable_run, Hs. fold (is_arm o).
  destruct (is_arm o && imm_runs mask); [by apply (writes_emit o)|].
  by apply (writes_seq o [_] [_]); [apply writes_emit..|].
Qed.

(** The two masks, in the order [bic], [orr]. *)
Lemma writes_masks o r t m1 m2 :
  writes o ((print_asm <$> mask_prog o ABicI ABicR r t m1) ++
            (print_asm <$> mask_prog o AOrrI AOrrR r t m2))
    (if o.(isa) =? ISA_THUMB then fix_mask_thumb "bics" r t m1 ;; fix_mask_thumb "orrs" r t m2
     else fix_mask_arm "bic" r t m1 ;; fix_mask_arm "orr" r t m2).
Proof.
  unfold mask_prog. destruct (isa o =? ISA_THUMB).
  - apply writes_seq; apply writes_fix_mask_thumb.
  - apply writes_seq.
    + pose proof (writes_fix_mask_arm o "bic" r t m1) as H. by destruct (_ && _).
    + pose proof (writes_fix_mask_arm o "orr" r t m2) as H. by destruct (_ && _).
Qed.

(** [fix_mem_base] writes its program. *)
Lemma writes_fix_mem_base `{!RitEnv} o r fa :
  r ≠ R_PC → writes o (print_asm <$> fix_prog o r fa) (fix_mem_base r fa).
Proof.
  intros Hr s Hs. unfold fix_mem_base. unfold mbind at 1, M_bind at 1. cbn [gets]. rewrite Hs.
  fold (high_reg o r) (tmp_of r) (set_of o). cbv zeta.
  set (base := if high_reg o r then 2 else r).
  assert (base ≠ R_PC) as Hb by (unfold base; by destruct (high_reg o r)).
  rewrite (proj2 (Z.eqb_neq base R_PC)), andb_false_r by done.
  assert (((isa o =? ISA_THUMB) && (7 <? if high_reg o r then r else 0)) = high_reg o r) as ->.
  { unfold high_reg. destruct (isa o =? ISA_THUMB); [|done]. cbn [andb].
    by destruct (7 <? r) eqn:E. }
  unfold fix_prog. fold base. cbv zeta. rewrite !fmap_app, (app_assoc _ _ (_ ++ (_ <$> _))).
  revert s Hs. apply writes_seq; [|apply writes_seq; [apply writes_masks|apply writes_seq]].
  - destruct (high_reg o r); [apply (writes_emit o)|done].
  - destruct fa; [apply (writes_emit o)|done].
  - destruct (high_reg o r); [apply (writes_emit o)|done].
Qed.

(** *** What the program does *)

(** [p] puts [f (R base)] into [base] and touches no register but [base] and [tmp]. *)
Definition updates (base tmp : Z) (f : Z → Z) (p : list asm) : Prop :=
  ∀ R, exec_all p R base = f (R base) ∧ ∀ q, q ≠ base → q ≠ tmp → exec_all p R q = R q.

Ltac regs_step :=
  cbn; unfold set_reg;
  repeat match goal with
  | |- context [?a =? ?a] => rewrite (Z.eqb_refl a)
  | H : ?a ≠ ?b |- context [?a =? ?b] => rewrite (proj2 (Z.eqb_neq a b) H)
  | H : ?a ≠ ?b |- context [?b =? ?a] => rewrite (proj2 (Z.eqb_neq b a) (not_eq_sym H))
  end; try done.

Lemma updates_bic o base tmp m :
  base ≠ tmp → updates base tmp (λ v, v & not32 m) (mask_prog o ABicI ABicR base tmp m).
Proof. intros Hne R. unfold mask_prog. repeat case_match; (split; [|intros q Hq Hq2]); regs_step. Qed.

Lemma updates_orr o base tmp m :
  base ≠ tmp → updates base tmp (λ v, v .| m) (mask_prog o AOrrI AOrrR base tmp m).
Proof. intros Hne R. unfold mask_prog. repeat case_match; (split; [|intros q Hq Hq2]); regs_step. Qed.

Lemma updates_app base tmp f g p1 p2 :
  updates base tmp f p1 → updates base tmp g p2 → updates base tmp (λ v, g (f v)) (p1 ++ p2).
Proof.
  intros H1 H2 R. unfold exec_all. rewrite foldl_app.
  destruct (H1 R) as [E1 F1], (H2 (exec_all p1 R)) as [E2 F2]. unfold exec_all in *.
  split; [by rewrite E2, E1|]. intros q Hq Hq2. by rewrite F2, F1.
Qed.

Lemma updates_align base tmp (fa : bool) :
  updates base tmp (λ v, if fa then v & not32 3 else v) (if fa then [AAlign base] else []).
Proof. intros R. destruct fa; (split; [|intros q Hq Hq2]); regs_step. Qed.

(** The value left in the base register. *)
Definition fixed_base (o : gen_option_t) (fa : bool) (v : Z) : Z :=
  let w := (v & not32 (unset_of o fa)) .| set_of o in if fa then w & not32 3 else w.

Lemma exec_fix_prog o r fa R :
  0 ≤ r < R_PC →
  exec_all (fix_prog o r fa) R r = fixed_base o fa (R r)
  ∧ ∀ q, q ≠ r → q ≠ tmp_of r → (high_reg o r = true → q ≠ 2) →
      exec_all (fix_prog o r fa) R q = R q.
Proof.
  intros Hr. unfold fix_prog. cbv zeta. set (base := if high_reg o r then 2 else r).
  assert (base ≠ tmp_of r) as Hne.
  { unfold base, tmp_of, high_reg. destruct (isa o =? ISA_THUMB), (Z.ltb_spec 7 r),
      (Z.eqb_spec r 0); cbn; lia. }
  pose proof (updates_app _ _ _ _ _ _ (updates_bic o base (tmp_of r) (unset_of o fa) Hne)
    (updates_app _ _ _ _ _ _ (updates_orr o base (tmp_of r) (set_of o) Hne)
      (updates_align base (tmp_of r) fa))) as H.
  rewrite !(app_assoc _ _ (if high_reg o r then [AMov r base] else [])).
  set (mid := _ ++ (_ ++ (if fa then _ else _))) in *. unfold fixed_base.
  destruct (high_reg o r) eqn:Hh; unfold base in *; clear base.
  - assert (r ≠ 2 ∧ r ≠ tmp_of r) as [Hr2 Hrt].
    { unfold high_reg in Hh. apply andb_true_iff in Hh as [_ Hh%Z.ltb_lt]. unfold tmp_of.
      destruct (Z.eqb_spec r 0); cbn; lia. }
    unfold exec_all. rewrite !foldl_app. cbn [foldl exec].
    destruct (H (set_reg 2 (R r) R)) as [E F]. unfold exec_all in E, F. split.
    + unfold set_reg at 1. rewrite Z.eqb_refl, E. unfold set_reg. by rewrite Z.eqb_refl.
    + intros q Hq Hqt Hq2. specialize (Hq2 eq_refl). unfold set_reg at 1.
      rewrite (proj2 (Z.eqb_neq q r)), F by done. unfold set_reg. by rewrite (proj2 (Z.eqb_neq q 2)).
  - rewrite app_nil_r. cbn [app]. destruct (H R) as [E F]. split; [by rewrite E|auto].
Qed.

(** The masked bits are the requested ones. *)
Lemma testbit_fixed_base o fa v k :
  0 ≤ k < 32 →
  Z.testbit (fixed_base o fa v) k =
    if fa && (k <? 2) then false
    else if Z.testbit o.(mem_base_mask) k then Z.testbit o.(mem_base_val) k else Z.testbit v k.
Proof.
  intros Hk. unfold fixed_base, unset_of, set_of. cbv zeta.
  assert (Z.testbit 3 k = (k <? 2)) as H3 by (apply (testbit_ones 2); lia).
  destruct fa; cbn [andb]; rewrite ?Z.land_spec, ?Z.lor_spec, ?Z.land_spec, ?testbit_not32,
    ?Z.lor_spec, ?Z.land_spec, ?testbit_not32, ?H3, (proj2 (Z.ltb_lt k 32)) by lia;
    destruct (Z.ltb_spec k 2), (Z.testbit (mem_base_mask o) k), (Z.testbit (mem_base_val o) k),
      (Z.testbit v k); done.
Qed.

(** ** 4. Properties *)

Section props.
Context `{Env : !RitEnv}.

(** C19. A random register offset is small and true: for every shift that an
    instruction can encode, [get_rand_mem_offset] returns a register value and
    the offset that the architecture computes from it by that shift (carry
    clear for RRX), and the offset fits the memory window of 4 KB, whatever the
    random number. *)
Theorem get_rand_mem_offset_shift (shift_t shift_n : Z) (s : rit_state) :
  legal_shift shift_t shift_n →
  ∃ off reg s', get_rand_mem_offset shift_t shift_n s = Ok (off, reg) s'
    ∧ is_u32 reg ∧ off = arm_shift shift_t shift_n reg ∧ 0 ≤ off ≤ 0xfff.
Proof.
  intros Hl. pose proof (rand_at_range s.(rand_seed) s.(rand_pos)) as Hv.
  destruct (mem_offset_of_spec shift_t shift_n (rand_at s.(rand_seed) s.(rand_pos)) Hl)
    as (reg & off & E & Hu & Ho & Hr); [unfold is_u32; lia|].
  exists off, reg. unfold get_rand_mem_offset, rand, when, mbind, M_bind. rewrite E.
  destruct (_ && _); eexists; (split; [reflexivity|]); (split; [done|]); (split; [done|lia]).
Qed.

(** [is_imm_encodable] decides rotated bytes: under an ARM instruction set
    it answers true exactly for the words that are an 8-bit value rotated by
    some amount, and under Thumb it always answers false. *)
Theorem is_imm_encodable_rotated (imm : Z) (s : rit_state) :
  is_u32 imm →
  ∃ b, is_imm_encodable imm s = Ok b s
    ∧ (b = true ↔ (s.(options).(isa) = ISA_ARMv5 ∨ s.(options).(isa) = ISA_ARMv7) ∧ rotated_byte imm).
Proof.
  intros Hu. eexists. split; [apply is_imm_encodable_run|].
  rewrite andb_true_iff, orb_true_iff, !Z.eqb_eq. split.
  - intros [? ?]. split; [done|]. by apply imm_runs_sound.
  - intros [? ?]. split; [done|]. by apply imm_runs_complete.
Qed.

(** C22. It accepts too much: every A32 immediate is accepted, but so is 0x1fe,
    an 8-bit value rotated by an odd amount, which no A32 instruction can
    encode. *)
Theorem is_imm_encodable_odd_rotation (s : rit_state) :
  s.(options).(isa) = ISA_ARMv7 →
  (∀ imm, a32_imm imm → is_imm_encodable imm s = Ok true s)
  ∧ is_imm_encodable 0x1fe s = Ok true s ∧ ¬ a32_imm 0x1fe.
Proof.
  intros Hi. split; [|split].
  - intros imm (b & r & Hb & Hr & ->). rewrite is_imm_encodable_run, Hi.
    rewrite imm_runs_complete; [done|]. exists b, (2 * r). split; [done|]. split; [lia|done].
  - rewrite is_imm_encodable_run, Hi. done.
  - intros (b & r & Hb & Hr & E).
    pose proof (forallb_grid (λ b r, negb (0x1fe =? ror32 b (2 * r))) 256 16 b r
      ltac:(vm_compute; reflexivity) Hb Hr) as HT.
    cbv beta in HT. rewrite <- E, Z.eqb_refl in HT. done.
Qed.

(** C23. The base fix-up code does its job: for every base register but the PC,
    [fix_mem_base] writes exactly the program [fix_prog], and running that
    program leaves in the base register a value that agrees with the requested
    base on the masked bits and with the old value on the others (the two low
    bits are cleared instead when alignment is forced), touching no other
    register but the scratch register, and r2 when a high register is handled
    under Thumb. *)
Theorem fix_mem_base_program (r : Z) (fa : bool) (s : rit_state) :
  0 ≤ r < R_PC →
  fix_mem_base r fa s = emit_all (print_asm <$> fix_prog s.(options) r fa) s
  ∧ ∀ R, let R' := exec_all (fix_prog s.(options) r fa) R in
      (∀ k, 0 ≤ k < 32 → Z.testbit (R' r) k =
         if fa && (k <? 2) then false
         else if Z.testbit s.(options).(mem_base_mask) k
         then Z.testbit s.(options).(mem_base_val) k else Z.testbit (R r) k)
      ∧ ∀ q, q ≠ r → q ≠ tmp_of r → (high_reg s.(options) r = true → q ≠ 2) → R' q = R q.
Proof.
  intros Hr. split.
  - apply (writes_fix_mem_base s.(options)); [lia|done].
  - intros R. cbv zeta. destruct (exec_fix_prog s.(options) r fa R Hr) as [E F].
    split; [|exact F]. intros k Hk. by rewrite E, testbit_fixed_base.
Qed.
End props.

Lemma get_rand_mem_offset_shift_witness :
  ∃ off reg s', get_rand_mem_offset (Env := lcg_env) 3 7 zero_state = Ok (off, reg) s'
    ∧ is_u32 reg ∧ off = arm_shift 3 7 reg ∧ 0 ≤ off ≤ 0xfff.
Proof. apply (get_rand_mem_offset_shift (Env := lcg_env) 3 7 zero_state). right. right. right. lia. Defined.

Lemma is_imm_encodable_rotated_witness :
  ∃ b, is_imm_encodable 0xf000000f zero_state = Ok b zero_state
    ∧ (b = true ↔ (zero_state.(options).(isa) = ISA_ARMv5 ∨ zero_state.(options).(isa) = ISA_ARMv7)
                  ∧ rotated_byte 0xf000000f).
Proof. apply (is_imm_encodable_rotated 0xf000000f zero_state). unfold is_u32. lia. Defined.

Lemma is_imm_encodable_odd_rotation_witness :
  (∀ imm, a32_imm imm →
     is_imm_encodable imm (st_options (opt_isa ISA_ARMv7 zero_options) zero_state)
     = Ok true (st_options (opt_isa ISA_ARMv7 zero_options) zero_state))
  ∧ is_imm_encodable 0x1fe (st_options (opt_isa ISA_ARMv7 zero_options) zero_state)
    = Ok true (st_options (opt_isa ISA_ARMv7 zero_options) zero_state)
  ∧ ¬ a32_imm 0x1fe.
Proof.
  apply (is_imm_encodable_odd_rotation (st_options (opt_isa ISA_ARMv7 zero_options) zero_state)).
  reflexivity.
Defined.

Lemma fix_mem_base_program_witness :
  fix_mem_base (Env := lcg_env) 9 true zero_state
    = emit_all (print_asm <$> fix_prog zero_options 9 true) zero_state
  ∧ ∀ R, let R' := exec_all (fix_prog zero_options 9 true) R in
      (∀ k, 0 ≤ k < 32 → Z.testbit (R' 9) k =
         if true && (k <? 2) then false
         else if Z.testbit zero_options.(mem_base_mask) k
         then Z.testbit zero_options.(mem_base_val) k else Z.testbit (R 9) k)
      ∧ ∀ q, q ≠ 9 → q ≠ tmp_of 9 → (high_reg zero_options 9 = true → q ≠ 2) → R' q = R q.
Proof. apply (fix_mem_base_program (Env := lcg_env) 9 true zero_state). unfold R_PC. lia. Defined.
