(* ===== verification/GenARMMem.v ===== *)
(** * ARM memory instructions: gen_ld_instr, gen_st_instr, gen_multi_mem_instr,
    gen_ldex_instr and gen_stex_instr of GenARMInstr.c

    A C function whose body is a chain of [if (op == ...)] branches is one
    definition per branch and one that dispatches on the opcode.  Statuses are
    assigned in the order of the source: [upd c X st] is [if (c) status = X;]. *)
From S2P Require Import Prelude RitCommon InstrTable State InstrUtil InstrBuf Keeps GenHelper.
#[local] Open Scope c_scope.

(** ** 1. Shared fragments *)

(** [P], [W] and [U] with the flags [wback], [index] and [add] derived from them. *)
Record puw := Puw { P : Z; W : Z; U : Z; wback : bool; index : bool; add : bool }.

Definition puw_of (instr : Z) : puw :=
  let P := get_bit_value instr 24 in
  let W := get_bit_value instr 21 in
  let U := get_bit_value instr 23 in
  Puw P W U ((P =? 0) || (W =? 1)) (P =? 1) (U =? 1).

(** [P == 0 && W == 1] *)
Definition unpriv (f : puw) : bool := (f.(P) =? 0) && (f.(W) =? 1).

(** [if (op is one of l) if ((addr & 1) && options.arch_version < 7) status = INST_UNKNOWN;] *)
Definition chk_halfword (op : Z) (l : list Z) (mem_addr : Z) (st : instr_status_t)
    : rit instr_status_t :=
  arch ← opt arch_version;
  mret (upd (op_in op l && negb ((mem_addr & 0x1) =? 0) && (arch <? 7)) INST_UNKNOWN st).

(** [if (op is one of l) if (!is_mem_align(addr, 2)) status = UNSUPPORTED;] *)
Definition chk_word (op : Z) (l : list Z) (mem_addr : Z) (st : instr_status_t)
    : rit instr_status_t :=
  if op_in op l then
    al ← is_mem_align mem_addr 2;
    mret (upd (negb al) UNSUPPORTED st)
  else mret st.

(** The shift amount and type of a scaled register offset, operand [i];
    a zero amount of LSR and ASR means 32. *)
Definition scaled_shift (instr op : Z) (i : nat) : Z * Z :=
  let shift_n := get_bits_value instr (opnd_of op i).(start_bit) (opnd_of op i).(end_bit) in
  let shift_t := get_bits_value instr (opnd_of op i).(bit1) (opnd_of op i).(bit2) in
  (if ((shift_t =? 1) || (shift_t =? 2)) && (shift_n =? 0) then 32 else shift_n, shift_t).

Section mem.
Context `{Env : !RitEnv}.

(** [sprintf(gen_instr_buf, "[INST] ldr r%d, =0x%x", m, v); insert_instr(...)] *)
Definition emit_ldr_offset (m v : Z) : rit unit :=
  emit ("[INST] ldr r" +:+ fmt_d m +:+ ", =0x" +:+ fmt_x v).

(** ** 2. Loads *)

(** LDR/LDRB/LDRH/LDRD/LDRSB/LDRSH (immediate) *)
Definition gen_ld_imm (op instr t n : Z) (f : puw) : rit instr_status_t :=
  let st := VALID in
  let st := if unpriv f then upd (op =? SISA_OP_LDRD_imm) UNPREDICTABLE ALIAS else st in
  let st := upd (f.(wback) && (n =? t)) UNPREDICTABLE st in
  let st := upd ((op =? SISA_OP_LDR_imm) && ((instr & 0x01af0fff) =? 0x009d0004)) ALIAS st in
  let st :=
    if t =? R_PC then
      if op_in op [SISA_OP_LDRB_imm; SISA_OP_LDRH_imm; SISA_OP_LDRSB_imm; SISA_OP_LDRSH_imm]
      then UNPREDICTABLE else UNSUPPORTED
    else st in
  let st :=
    if op =? SISA_OP_LDRD_imm then
      let st := upd ((t mod 2 =? 1) || (t =? 14)) UNPREDICTABLE st in
      upd (f.(wback) && (n =? u32 (t + 1))) UNPREDICTABLE st
    else st in
  let st := upd (n =? R_PC) UNSUPPORTED st in
  no_fix ← GET_OPT_STAT OPT_NOT_ALLOW_FIX_MEM;
  if negb no_fix then
    (if negb (status_eqb st UNSUPPORTED) then
       if op =? SISA_OP_LDRD_imm then
         fix_mem_base n true ;;
         when f.(index) (i ← set_instr instr 0 1 0; set_raw_instr i)
       else fix_mem_base n false
     else mret tt) ;;
    mret st
  else if negb (status_eqb st UNSUPPORTED) then
    base_val ← gen_pre_instr_for_mem_base n;
    let imm_l := instr & 0xf in
    let mem_addr := get_mem_addr base_val imm_l f.(add) f.(index) in
    st ← chk_halfword op [SISA_OP_LDRH_imm; SISA_OP_LDRSH_imm] mem_addr st;
    chk_word op [SISA_OP_LDR_imm; SISA_OP_LDRD_imm] mem_addr st
  else mret st.

(** LDRT/LDRHT/LDRSHT/LDRBT/LDRSBT, encoding A1 *)
Definition gen_ld_unpriv_imm (op instr t n : Z) (f : puw) : rit instr_status_t :=
  let st := VALID in
  let st := upd ((t =? R_PC) || (n =? R_PC) || (n =? t)) UNPREDICTABLE st in
  let st := upd ((t =? R_PC) || (n =? R_PC)) UNSUPPORTED st in
  no_fix ← GET_OPT_STAT OPT_NOT_ALLOW_FIX_MEM;
  if negb no_fix then
    when (negb (status_eqb st UNSUPPORTED)) (fix_mem_base n false) ;; mret st
  else if negb (status_eqb st UNSUPPORTED) then
    base_val ← gen_pre_instr_for_mem_base n;
    let imm_l := instr & 0xf in
    let mem_addr := get_mem_addr base_val imm_l f.(add) f.(index) in
    st ← chk_halfword op [SISA_OP_LDRHT_a1; SISA_OP_LDRSHT_a1] mem_addr st;
    chk_word op [SISA_OP_LDRT_a1] mem_addr st
  else mret st.

(** LDR/LDRB/LDRH/LDRD/LDRSB/LDRSH (register) *)
Definition gen_ld_reg (op instr t n : Z) (f : puw) : rit instr_status_t :=
  arch ← opt arch_version;
  let st := VALID in
  let m := regnum instr op SISA_INPUT1 in
  let '(shift_n, shift_t) :=
    if op_in op [SISA_OP_LDR_reg; SISA_OP_LDRB_reg]
    then scaled_shift instr op SISA_INPUT2 else (0, 0) in
  let st := if unpriv f then (if op =? SISA_OP_LDRD_reg then UNPREDICTABLE else ALIAS) else st in
  let st := upd (m =? R_PC) UNPREDICTABLE st in
  let st := upd ((t =? R_PC)
    && op_in op [SISA_OP_LDRB_reg; SISA_OP_LDRH; SISA_OP_LDRSB; SISA_OP_LDRSH]) UNPREDICTABLE st in
  let st := upd (f.(wback) && ((n =? R_PC) || (n =? t))) UNPREDICTABLE st in
  let st := upd ((arch <? 6) && f.(wback) && (m =? n)) UNPREDICTABLE st in
  let st :=
    if op =? SISA_OP_LDRD_reg then
      let t2 := u32 (t + 1) in
      let st := upd (t mod 2 =? 1) UNPREDICTABLE st in
      let st := upd (unpriv f) UNPREDICTABLE st in
      let st := upd ((m =? t) || (m =? t2)) UNPREDICTABLE st in
      let st := upd (f.(wback) && (n =? t2)) UNPREDICTABLE st in
      upd (t2 =? R_PC) UNSUPPORTED st
    else st in
  let st := upd (t =? R_PC) UNSUPPORTED st in
  let st := upd (n =? R_PC) UNSUPPORTED st in
  let st := upd (m =? n) UNSUPPORTED st in
  no_fix ← GET_OPT_STAT OPT_NOT_ALLOW_FIX_MEM;
  if negb no_fix then
    (if negb (status_eqb st UNSUPPORTED) then
       fix_mem_base n (op =? SISA_OP_LDRD_reg) ;;
       offset_val ←
         (if op_in op [SISA_OP_LDR_reg; SISA_OP_LDRB_reg] then
            r ← get_rand_mem_offset shift_t shift_n; mret r.2
          else if op =? SISA_OP_LDRD_reg then
            mov ← opt mem_offset_val; r ← rand; mret (r & (mov & not32 0x3))
          else mov ← opt mem_offset_val; r ← rand; mret (r & mov));
       emit_ldr_offset m offset_val
     else mret tt) ;;
    mret st
  else if negb (status_eqb st UNSUPPORTED) then
    base_val ← gen_pre_instr_for_mem_base n;
    off ← get_rand_mem_offset shift_t shift_n;
    let '(offset_val, reg_offset_val) := off in
    let mem_addr := get_mem_addr base_val offset_val f.(add) f.(index) in
    emit_ldr_offset m reg_offset_val ;;
    st ← chk_halfword op [SISA_OP_LDRH; SISA_OP_LDRSH] mem_addr st;
    chk_word op [SISA_OP_LDR_reg; SISA_OP_LDRD_reg] mem_addr st
  else mret st.

(** LDRT/LDRHT/LDRSHT/LDRBT/LDRSBT, encoding A2 *)
Definition gen_ld_unpriv_reg (op instr t n : Z) (f : puw) : rit instr_status_t :=
  let st := VALID in
  let m := regnum instr op SISA_INPUT1 in
  let '(shift_n, shift_t) :=
    if op_in op [SISA_OP_LDRT_a2; SISA_OP_LDRBT_a2]
    then scaled_shift instr op SISA_INPUT2 else (0, 0) in
  let st := upd ((t =? R_PC) || (n =? R_PC) || (m =? R_PC) || (n =? t)) UNPREDICTABLE st in
  let st := upd ((t =? R_PC) || (n =? R_PC) || (m =? R_PC)) UNSUPPORTED st in
  let st := upd (m =? n) UNSUPPORTED st in
  no_fix ← GET_OPT_STAT OPT_NOT_ALLOW_FIX_MEM;
  if negb no_fix then
    (if negb (status_eqb st UNSUPPORTED) then
       fix_mem_base n false ;;
       offset_val ←
         (if op_in op [SISA_OP_LDRT_a2; SISA_OP_LDRBT_a2] then
            r ← get_rand_mem_offset shift_t shift_n; mret r.2
          else mov ← opt mem_offset_val; r ← rand; mret (r & mov));
       emit_ldr_offset m offset_val
     else mret tt) ;;
    mret st
  else if negb (status_eqb st UNSUPPORTED) then
    base_val ← gen_pre_instr_for_mem_base n;
    off ← get_rand_mem_offset shift_t shift_n;
    let '(offset_val, reg_offset_val) := off in
    let mem_addr := get_mem_addr base_val offset_val f.(add) f.(index) in
    emit_ldr_offset m reg_offset_val ;;
    st ← chk_halfword op [SISA_OP_LDRHT_a2; SISA_OP_LDRSHT_a2] mem_addr st;
    chk_word op [SISA_OP_LDRT_a2] mem_addr st
  else mret st.

(** LDR/LDRB/LDRH/LDRD/LDRSB/LDRSH (literal) *)
Definition gen_ld_lit (op instr : Z) : rit instr_status_t :=
  let t := regnum instr op SISA_OUTPUT0 in
  if op =? SISA_OP_LDR_lit then mret (upd (t =? R_PC) UNSUPPORTED VALID)
  else if op =? SISA_OP_LDRD_lit then
    set_raw_instr (clear_bits instr 0 1) ;;
    mret (upd ((t mod 2 =? 1) || (t =? 14)) UNPREDICTABLE VALID)
  else mret (upd (t =? R_PC) UNPREDICTABLE VALID).

Definition gen_ld_instr (op : Z) : rit instr_status_t :=
  instr ← get_raw_instr;
  let t := regnum instr op SISA_OUTPUT0 in
  let n := regnum instr op SISA_INPUT0 in
  let f := puw_of instr in
  status ←
    (if op_in op [SISA_OP_LDR_imm; SISA_OP_LDRB_imm; SISA_OP_LDRH_imm; SISA_OP_LDRD_imm;
                  SISA_OP_LDRSB_imm; SISA_OP_LDRSH_imm]
     then gen_ld_imm op instr t n f
     else if op_in op [SISA_OP_LDRT_a1; SISA_OP_LDRHT_a1; SISA_OP_LDRSHT_a1;
                       SISA_OP_LDRBT_a1; SISA_OP_LDRSBT_a1]
     then gen_ld_unpriv_imm op instr t n f
     else if op_in op [SISA_OP_LDR_reg; SISA_OP_LDRB_reg; SISA_OP_LDRH; SISA_OP_LDRD_reg;
                       SISA_OP_LDRSB; SISA_OP_LDRSH]
     then gen_ld_reg op instr t n f
     else if op_in op [SISA_OP_LDRT_a2; SISA_OP_LDRHT_a2; SISA_OP_LDRSHT_a2;
                       SISA_OP_LDRBT_a2; SISA_OP_LDRSBT_a2]
     then gen_ld_unpriv_reg op instr t n f
     else if op_in op [SISA_OP_LDR_lit; SISA_OP_LDRB_lit; SISA_OP_LDRH_lit; SISA_OP_LDRD_lit;
                       SISA_OP_LDRSB_lit; SISA_OP_LDRSH_lit]
     then gen_ld_lit op instr
     else mret UNSUPPORTED);
  modify (st_is_oprand_init true) ;;
  mret status.

(** ** 3. Stores *)

(** STR/STRB/STRH/STRD (immediate) *)
Definition gen_st_imm (op instr t n : Z) (f : puw) : rit instr_status_t :=
  let st := VALID in
  let st := upd (unpriv f) ALIAS st in
  let st := upd ((instr & 0x01af0fff) =? 0x012d0004) ALIAS st in
  let st := upd (f.(wback) && ((n =? R_PC) || (n =? t))) UNPREDICTABLE st in
  let st := upd ((t =? R_PC) && op_in op [SISA_OP_STRB_imm; SISA_OP_STRH_imm]) UNPREDICTABLE st in
  let st :=
    if op =? SISA_OP_STRD_imm then
      let st := upd (unpriv f) UNPREDICTABLE st in
      let st := upd ((t mod 2 =? 1) || (t =? 14)) UNPREDICTABLE st in
      upd (f.(wback) && (n =? u32 (t + 1))) UNPREDICTABLE st
    else st in
  let st := upd (n =? R_PC) UNSUPPORTED st in
  no_fix ← GET_OPT_STAT OPT_NOT_ALLOW_FIX_MEM;
  if negb no_fix then
    (if negb (status_eqb st UNSUPPORTED) then
       if op =? SISA_OP_STRD_imm then
         fix_mem_base n true ;;
         when f.(index) (i ← set_instr instr 0 1 0; set_raw_instr i)
       else fix_mem_base n false
     else mret tt) ;;
    mret st
  else if negb (status_eqb st UNSUPPORTED) then
    base_val ← gen_pre_instr_for_mem_base n;
    let imm_l := instr & 0xf in
    let mem_addr := get_mem_addr base_val imm_l f.(add) f.(index) in
    st ← chk_halfword op [SISA_OP_STRH_imm] mem_addr st;
    chk_word op [SISA_OP_STR_imm; SISA_OP_STRD_imm] mem_addr st
  else mret st.

(** STRT/STRBT/STRHT, encoding A1 *)
Definition gen_st_unpriv_imm (op instr t n : Z) (f : puw) : rit instr_status_t :=
  let st := VALID in
  let st := upd ((n =? R_PC) || (n =? t)) UNPREDICTABLE st in
  let st := upd (op_in op [SISA_OP_STRBT_a1; SISA_OP_STRHT_a1] && (t =? R_PC)) UNPREDICTABLE st in
  let st := upd (n =? R_PC) UNSUPPORTED st in
  no_fix ← GET_OPT_STAT OPT_NOT_ALLOW_FIX_MEM;
  if negb no_fix then
    when (negb (status_eqb st UNSUPPORTED)) (fix_mem_base n false) ;; mret st
  else if negb (status_eqb st UNSUPPORTED) then
    base_val ← gen_pre_instr_for_mem_base n;
    let imm_l := instr & 0xf in
    let mem_addr := get_mem_addr base_val imm_l f.(add) f.(index) in
    st ← chk_halfword op [SISA_OP_STRHT_a1] mem_addr st;
    chk_word op [SISA_OP_STRT_a1] mem_addr st
  else mret st.

(** STR/STRB/STRH/STRD (register) *)
Definition gen_st_reg (op instr t n : Z) (f : puw) : rit instr_status_t :=
  arch ← opt arch_version;
  let st := VALID in
  let m := regnum instr op SISA_INPUT2 in
  let '(shift_n, shift_t) :=
    if op_in op [SISA_OP_STR_reg; SISA_OP_STRB_reg]
    then scaled_shift instr op SISA_INPUT3 else (0, 0) in
  let st := if unpriv f then (if op =? SISA_OP_STRD_reg then UNPREDICTABLE else ALIAS) else st in
  let st := upd (m =? R_PC) UNPREDICTABLE st in
  let st := upd ((t =? R_PC) && op_in op [SISA_OP_STRB_reg; SISA_OP_STRH_reg]) UNPREDICTABLE st in
  let st := upd (f.(wback) && ((n =? R_PC) || (n =? t))) UNPREDICTABLE st in
  let st := upd ((arch <? 6) && f.(wback) && (m =? n)) UNPREDICTABLE st in
  let st :=
    if op =? SISA_OP_STRD_reg then
      let st := upd ((t mod 2 =? 1) || (t =? 14)) UNPREDICTABLE st in
      upd (f.(wback) && (n =? u32 (t + 1))) UNPREDICTABLE st
    else st in
  let st := upd (n =? R_PC) UNSUPPORTED st in
  let st := upd (m =? n) UNSUPPORTED st in
  no_fix ← GET_OPT_STAT OPT_NOT_ALLOW_FIX_MEM;
  if negb no_fix then
    (if negb (status_eqb st UNSUPPORTED) then
       fix_mem_base n (op =? SISA_OP_STRD_reg) ;;
       offset_val ←
         (if op_in op [SISA_OP_STR_reg; SISA_OP_STRB_reg] then
            r ← get_rand_mem_offset shift_t shift_n; mret r.2
          else if op =? SISA_OP_STRD_reg then
            mov ← opt mem_offset_val; r ← rand; mret (r & (mov & not32 0x3))
          else mov ← opt mem_offset_val; r ← rand; mret (r & mov));
       emit_ldr_offset m offset_val
     else mret tt) ;;
    mret st
  else if negb (status_eqb st UNSUPPORTED) then
    base_val ← gen_pre_instr_for_mem_base n;
    off ← get_rand_mem_offset shift_t shift_n;
    let '(offset_val, reg_offset_val) := off in
    let mem_addr := get_mem_addr base_val offset_val f.(add) f.(index) in
    emit_ldr_offset m reg_offset_val ;;
    st ← chk_halfword op [SISA_OP_STRH_reg] mem_addr st;
    chk_word op [SISA_OP_STR_reg; SISA_OP_STRD_reg] mem_addr st
  else mret st.

(** STRT/STRBT/STRHT, encoding A2 *)
Definition gen_st_unpriv_reg (op instr t n : Z) (f : puw) : rit instr_status_t :=
  let st := VALID in
  let m := regnum instr op SISA_INPUT2 in
  let '(shift_n, shift_t) :=
    if op_in op [SISA_OP_STRT_a2; SISA_OP_STRBT_a2]
    then scaled_shift instr op SISA_INPUT3 else (0, 0) in
  let st := upd ((n =? R_PC) || (n =? t) || (m =? R_PC)) UNPREDICTABLE st in
  let st := upd (op_in op [SISA_OP_STRBT_a2; SISA_OP_STRHT_a2] && (t =? R_PC)) UNPREDICTABLE st in
  let st := upd ((n =? R_PC) || (m =? R_PC)) UNSUPPORTED st in
  let st := upd (m =? n) UNSUPPORTED st in
  no_fix ← GET_OPT_STAT OPT_NOT_ALLOW_FIX_MEM;
  if negb no_fix then
    (if negb (status_eqb st UNSUPPORTED) then
       fix_mem_base n false ;;
       offset_val ←
         (if op_in op [SISA_OP_STRT_a2; SISA_OP_STRBT_a2] then
            r ← get_rand_mem_offset shift_t shift_n; mret r.2
          else mov ← opt mem_offset_val; r ← rand; mret (r & mov));
       emit_ldr_offset m offset_val
     else mret tt) ;;
    mret st
  else if negb (status_eqb st UNSUPPORTED) then
    base_val ← gen_pre_instr_for_mem_base n;
    off ← get_rand_mem_offset shift_t shift_n;
    let '(offset_val, reg_offset_val) := off in
    let mem_addr := get_mem_addr base_val offset_val f.(add) f.(index) in
    emit_ldr_offset m reg_offset_val ;;
    st ← chk_halfword op [SISA_OP_STRHT_a2] mem_addr st;
    chk_word op [SISA_OP_STRT_a2] mem_addr st
  else mret st.

Definition gen_st_instr (op : Z) : rit instr_status_t :=
  instr ← get_raw_instr;
  let t := regnum instr op SISA_INPUT0 in
  let n := regnum instr op SISA_INPUT1 in
  let f := puw_of instr in
  status ←
    (if op_in op [SISA_OP_STR_imm; SISA_OP_STRB_imm; SISA_OP_STRH_imm; SISA_OP_STRD_imm]
     then gen_st_imm op instr t n f
     else if op_in op [SISA_OP_STRT_a1; SISA_OP_STRBT_a1; SISA_OP_STRHT_a1]
     then gen_st_unpriv_imm op instr t n f
     else if op_in op [SISA_OP_STR_reg; SISA_OP_STRB_reg; SISA_OP_STRH_reg; SISA_OP_STRD_reg]
     then gen_st_reg op instr t n f
     else if op_in op [SISA_OP_STRT_a2; SISA_OP_STRBT_a2; SISA_OP_STRHT_a2]
     then gen_st_unpriv_reg op instr t n f
     else mret UNSUPPORTED);
  modify (st_is_oprand_init true) ;;
  mret status.

(** ** 4. Load and store multiple, push and pop *)

(** [if (!GET_OPT_STAT(OPT_NOT_ALLOW_FIX_MEM)) { if (status != UNSUPPORTED)
    fix_mem_base(n, true); } else if (status != UNSUPPORTED) { base_val = ...;
    if (!is_mem_align(base_val, 2)) status = UNSUPPORTED; }] *)
Definition multi_mem_base (n : Z) (st : instr_status_t) : rit instr_status_t :=
  no_fix ← GET_OPT_STAT OPT_NOT_ALLOW_FIX_MEM;
  if negb no_fix then
    when (negb (status_eqb st UNSUPPORTED)) (fix_mem_base n true) ;; mret st
  else if negb (status_eqb st UNSUPPORTED) then
    base_val ← gen_pre_instr_for_mem_base n;
    al ← is_mem_align base_val 2;
    mret (upd (negb al) UNSUPPORTED st)
  else mret st.

Definition gen_ldm (op instr : Z) : rit instr_status_t :=
  assertM (op_in op [SISA_OP_LDM; SISA_OP_LDMDA; SISA_OP_LDMDB; SISA_OP_LDMIB]) AssertFail ;;
  arch ← opt arch_version;
  let n := regnum instr op SISA_INPUT0 in
  let W := get_bit_value instr 21 in
  let wback := negb (W =? 0) in
  let register_list := instr & 0xffff in
  let reg_cnt := bit_count register_list in
  let st := VALID in
  let st := upd ((op =? SISA_OP_LDM) && (W =? 1) && (n =? R_SP) && (2 <=? reg_cnt)) ALIAS st in
  let st := upd ((n =? R_PC) || (reg_cnt <? 1)) UNPREDICTABLE st in
  let st := if wback && negb (get_bit_value register_list n =? 0)
            then (if 7 <=? arch then UNPREDICTABLE else INST_UNKNOWN) else st in
  let st := upd (n =? R_PC) UNSUPPORTED st in
  let st := upd (get_bit_value register_list R_PC =? 1) UNSUPPORTED st in
  multi_mem_base n st.

Definition gen_stm (op instr : Z) : rit instr_status_t :=
  assertM (op_in op [SISA_OP_STM; SISA_OP_STMDA; SISA_OP_STMDB; SISA_OP_STMIB]) AssertFail ;;
  let n := regnum instr op SISA_INPUT0 in
  let W := get_bit_value instr 21 in
  let wback := negb (W =? 0) in
  let register_list := instr & 0xffff in
  let reg_cnt := bit_count register_list in
  let st := VALID in
  let st := upd ((op =? SISA_OP_STMDB) && (W =? 1) && (n =? R_SP) && (2 <=? reg_cnt)) ALIAS st in
  let st := upd ((n =? R_PC) || (reg_cnt <? 1)) UNPREDICTABLE st in
  let st := upd ((get_bit_value register_list n =? 1) && wback
                 && negb ((register_list & (0xffff >> (16 - n))) =? 0)) INST_UNKNOWN st in
  let st := upd (n =? R_PC) UNSUPPORTED st in
  multi_mem_base n st.

Definition gen_push (op instr : Z) : rit instr_status_t :=
  assertM (op_in op [SISA_OP_PUSH_a1; SISA_OP_PUSH_a2]) AssertFail ;;
  let st := VALID in
  let st :=
    if op =? SISA_OP_PUSH_a1 then
      let register_list := instr & 0xffff in
      let st := upd (bit_count register_list <? 2) ALIAS st in
      upd (negb (get_bit_value register_list R_SP =? 0)
           && negb ((register_list & 0x1fff) =? 0)) INST_UNKNOWN st
    else st in
  let st := upd ((op =? SISA_OP_PUSH_a2) && ((instr & 0xf000) =? 0xd000)) UNPREDICTABLE st in
  multi_mem_base R_SP st.

Definition gen_pop (op instr : Z) : rit instr_status_t :=
  assertM (op_in op [SISA_OP_POP_a1; SISA_OP_POP_a2]) AssertFail ;;
  arch ← opt arch_version;
  let st := VALID in
  let st :=
    if op =? SISA_OP_POP_a1 then
      let register_list := instr & 0xffff in
      let st := upd (bit_count register_list <? 2) ALIAS st in
      let st := if negb (get_bit_value register_list R_SP =? 0)
                then (if 7 <=? arch then UNPREDICTABLE else INST_UNKNOWN) else st in
      upd (negb (get_bit_value register_list R_PC =? 0)) UNSUPPORTED st
    else st in
  let st :=
    if op =? SISA_OP_POP_a2 then
      let st := upd ((instr & 0xf000) =? 0xd000) UNPREDICTABLE st in
      upd ((instr & 0xf000) =? 0xf000) UNSUPPORTED st
    else st in
  multi_mem_base R_SP st.

Definition gen_multi_mem_instr (op : Z) : rit instr_status_t :=
  instr ← get_raw_instr;
  status ←
    match (instr_desc op).(op_kind) with
    | LDM_OP => gen_ldm op instr
    | STM_OP => gen_stm op instr
    | PUSH_OP => gen_push op instr
    | POP_OP => gen_pop op instr
    | _ => mret UNSUPPORTED
    end;
  modify (st_is_oprand_init true) ;;
  mret status.

(** ** 5. Exclusive loads and stores *)

Definition gen_ldex_instr (op : Z) : rit instr_status_t :=
  instr ← get_raw_instr;
  let t := regnum instr op SISA_OUTPUT0 in
  let n := regnum instr op SISA_INPUT0 in
  let st := VALID in
  let st := upd ((t =? R_PC) || (n =? R_PC)) UNPREDICTABLE st in
  let st := upd ((op =? SISA_OP_LDREXD) && ((t =? 14) || (t mod 2 =? 1))) UNPREDICTABLE st in
  fix_mem_base n true ;;
  mret st.

Definition gen_stex_instr (op : Z) : rit instr_status_t :=
  instr ← get_raw_instr;
  let d := regnum instr op SISA_OUTPUT0 in
  let t := regnum instr op SISA_INPUT0 in
  let n := regnum instr op SISA_INPUT1 in
  let st := VALID in
  let st := upd ((d =? R_PC) || (t =? R_PC) || (n =? R_PC)) UNPREDICTABLE st in
  let st := upd ((d =? n) || (d =? t)) UNPREDICTABLE st in
  let st :=
    if op =? SISA_OP_STREXD then
      let t2 := u32 (t + 1) in
      upd ((t2 =? R_PC) || (d =? t2) || (t mod 2 =? 1)) UNPREDICTABLE st
    else st in
  fix_mem_base n true ;;
  mret st.
End mem.

(** ** 6. The memory generators keep the invariant *)

Section keeps.
Context `{Env : !RitEnv}.

Lemma keeps_emit_ldr_offset th op tmpl m v : keeps th op tmpl 1 (λ _, True) (emit_ldr_offset m v).
Proof. unfold emit_ldr_offset. keeps. Qed.

Lemma keeps_chk_halfword th op tmpl op' l a st :
  keeps th op tmpl 0 (λ _, True) (chk_halfword op' l a st).
Proof. unfold chk_halfword. keeps. Qed.

Lemma keeps_chk_word th op tmpl op' l a st : keeps th op tmpl 0 (λ _, True) (chk_word op' l a st).
Proof. unfold chk_word. keeps. Qed.

#[local] Hint Resolve keeps_emit_ldr_offset keeps_chk_halfword keeps_chk_word : keeps.

(** [LDRD_reg] and [STRD_reg] need one line more than there is for Thumb. *)
Definition arm_room (th : bool) (op : Z) : bool :=
  negb (th && ((op =? SISA_OP_LDRD_reg) || (op =? SISA_OP_STRD_reg))).

Lemma keeps_gen_ld_imm th op tmpl instr t n f :
  word_kept op tmpl instr → keeps th op tmpl 7 (λ _, True) (gen_ld_imm op instr t n f).
Proof. intros Hi. unfold gen_ld_imm. keeps. Qed.

Lemma keeps_gen_ld_unpriv_imm th op tmpl instr t n f :
  keeps th op tmpl 7 (λ _, True) (gen_ld_unpriv_imm op instr t n f).
Proof. unfold gen_ld_unpriv_imm. keeps. Qed.

Lemma keeps_gen_ld_reg th op tmpl instr t n f :
  arm_room th op = true → keeps th op tmpl 7 (λ _, True) (gen_ld_reg op instr t n f).
Proof. unfold arm_room, gen_ld_reg. intros. keeps. Qed.

Lemma keeps_gen_ld_unpriv_reg th op tmpl instr t n f :
  keeps th op tmpl 7 (λ _, True) (gen_ld_unpriv_reg op instr t n f).
Proof. unfold gen_ld_unpriv_reg. keeps. Qed.

Lemma keeps_gen_st_imm th op tmpl instr t n f :
  word_kept op tmpl instr → keeps th op tmpl 7 (λ _, True) (gen_st_imm op instr t n f).
Proof. intros Hi. unfold gen_st_imm. keeps. Qed.

Lemma keeps_gen_st_unpriv_imm th op tmpl instr t n f :
  keeps th op tmpl 7 (λ _, True) (gen_st_unpriv_imm op instr t n f).
Proof. unfold gen_st_unpriv_imm. keeps. Qed.

Lemma keeps_gen_st_reg th op tmpl instr t n f :
  arm_room th op = true → keeps th op tmpl 7 (λ _, True) (gen_st_reg op instr t n f).
Proof. unfold arm_room, gen_st_reg. intros. keeps. Qed.

Lemma keeps_gen_st_unpriv_reg th op tmpl instr t n f :
  keeps th op tmpl 7 (λ _, True) (gen_st_unpriv_reg op instr t n f).
Proof. unfold gen_st_unpriv_reg. keeps. Qed.

Lemma word_kept_clear_bits op tmpl i l h :
  writable op l h = true → word_kept op tmpl i → word_kept op tmpl (clear_bits i l h).
Proof.
  intros Hf Hi. pose proof (proj1 (writable_spec op l h) Hf) as (? & ? & _).
  pose proof (field_top_range op). apply (word_kept_change op tmpl i); [done|apply is_u32_clear_bits, Hi|].
  intros k Hk Hb. pose proof (writable_free op l h k Hf Hb). rewrite testbit_clear_bits by lia.
  destruct (Z.leb_spec l k), (Z.leb_spec k h); [lia|by rewrite andb_true_r..].
Qed.
#[local] Hint Resolve word_kept_clear_bits : keeps.

Lemma keeps_gen_ld_lit th op tmpl instr :
  word_kept op tmpl instr → keeps th op tmpl 7 (λ _, True) (gen_ld_lit op instr).
Proof. intros Hi. unfold gen_ld_lit. keeps. Qed.

#[local] Hint Resolve keeps_gen_ld_imm keeps_gen_ld_unpriv_imm keeps_gen_ld_reg
  keeps_gen_ld_unpriv_reg keeps_gen_st_imm keeps_gen_st_unpriv_imm keeps_gen_st_reg
  keeps_gen_st_unpriv_reg keeps_gen_ld_lit : keeps.

Lemma keeps_gen_ld_instr th op tmpl :
  arm_room th op = true → keeps th op tmpl 7 (λ _, True) (gen_ld_instr op).
Proof. intros. unfold gen_ld_instr. keeps. Qed.

Lemma keeps_gen_st_instr th op tmpl :
  arm_room th op = true → keeps th op tmpl 7 (λ _, True) (gen_st_instr op).
Proof. intros. unfold gen_st_instr. keeps. Qed.

Lemma keeps_multi_mem_base th op tmpl n st :
  keeps th op tmpl 7 (λ _, True) (multi_mem_base n st).
Proof. unfold multi_mem_base. keeps. Qed.
#[local] Hint Resolve keeps_multi_mem_base : keeps.

Lemma keeps_gen_ldm th op tmpl instr :
  op_in op [SISA_OP_LDM; SISA_OP_LDMDA; SISA_OP_LDMDB; SISA_OP_LDMIB] = true →
  keeps th op tmpl 7 (λ _, True) (gen_ldm op instr).
Proof. intros. unfold gen_ldm. keeps. Qed.

Lemma keeps_gen_stm th op tmpl instr :
  op_in op [SISA_OP_STM; SISA_OP_STMDA; SISA_OP_STMDB; SISA_OP_STMIB] = true →
  keeps th op tmpl 7 (λ _, True) (gen_stm op instr).
Proof. intros. unfold gen_stm. keeps. Qed.

Lemma keeps_gen_push th op tmpl instr :
  op_in op [SISA_OP_PUSH_a1; SISA_OP_PUSH_a2] = true →
  keeps th op tmpl 7 (λ _, True) (gen_push op instr).
Proof. intros. unfold gen_push. keeps. Qed.

Lemma keeps_gen_pop th op tmpl instr :
  op_in op [SISA_OP_POP_a1; SISA_OP_POP_a2] = true →
  keeps th op tmpl 7 (λ _, True) (gen_pop op instr).
Proof. intros. unfold gen_pop. keeps. Qed.

(** The [assert]s of the four generators hold for every opcode of their kind. *)
Definition multi_mem_ok (op : Z) : bool :=
  match (instr_desc op).(op_kind) with
  | LDM_OP => op_in op [SISA_OP_LDM; SISA_OP_LDMDA; SISA_OP_LDMDB; SISA_OP_LDMIB]
  | STM_OP => op_in op [SISA_OP_STM; SISA_OP_STMDA; SISA_OP_STMDB; SISA_OP_STMIB]
  | PUSH_OP => op_in op [SISA_OP_PUSH_a1; SISA_OP_PUSH_a2]
  | POP_OP => op_in op [SISA_OP_POP_a1; SISA_OP_POP_a2]
  | _ => true
  end.

Lemma multi_mem_table op : 0 ≤ op < SISA_OP_ARM_MAX → multi_mem_ok op = true.
Proof. apply (arm_table_check multi_mem_ok). vm_compute. reflexivity. Qed.

#[local] Hint Resolve keeps_gen_ldm keeps_gen_stm keeps_gen_push keeps_gen_pop : keeps.

Lemma keeps_gen_multi_mem_instr th op tmpl :
  0 ≤ op < SISA_OP_ARM_MAX → keeps th op tmpl 7 (λ _, True) (gen_multi_mem_instr op).
Proof.
  intros Hop%multi_mem_table. unfold gen_multi_mem_instr, multi_mem_ok in *. keeps_step.
  destruct (op_kind (instr_desc op)); keeps.
Qed.

Lemma keeps_gen_ldex_instr th op tmpl : keeps th op tmpl 7 (λ _, True) (gen_ldex_instr op).
Proof. unfold gen_ldex_instr. keeps. Qed.

Lemma keeps_gen_stex_instr th op tmpl : keeps th op tmpl 7 (λ _, True) (gen_stex_instr op).
Proof. unfold gen_stex_instr. keeps. Qed.
End keeps.

#[export] Hint Resolve keeps_emit_ldr_offset keeps_gen_ld_instr keeps_gen_st_instr
  keeps_gen_multi_mem_instr keeps_gen_ldex_instr keeps_gen_stex_instr : keeps.
#[export] Hint Opaque gen_ld_instr gen_st_instr gen_multi_mem_instr gen_ldex_instr gen_stex_instr : keeps.
