(* ===== verification/GenARMInstr.v ===== *)
(** * ARM data, multiply, branch and media instructions, and the ARM
    dispatcher: the rest of GenARMInstr.c *)
From S2P Require Import Prelude RitCommon InstrTable State InstrUtil InstrBuf Keeps BiasUtil GenHelper GenARMMem.
#[local] Open Scope c_scope.

(** ** 1. Shared fragments *)

(** [instr = set_instr_reg(instr, glb_instr_tlb[op].opnds[i], r); ...] for the
    listed operands in order, then [set_raw_instr(instr)]. *)
Fixpoint set_instr_regs (instr op : Z) (l : list (nat * Z)) : rit Z :=
  match l with
  | [] => mret instr
  | (i, r) :: l => instr ← set_instr_reg instr (opnd_of op i) r; set_instr_regs instr op l
  end.

Definition write_regs (instr op : Z) (l : list (nat * Z)) : rit Z :=
  instr ← set_instr_regs instr op l;
  set_raw_instr instr ;;
  mret instr.

(** The bias values for shift amounts (RandomInstrGen.c). *)
Definition shift_imm : list Z := [0; 1; 30; 31].
Definition shift_imm_num : Z := 4.

(** Opcodes with their own generator whatever their kind. *)
Definition arm_uncategoried_op : list Z := [
  SISA_OP_SBFX; SISA_OP_BFC; SISA_OP_BFI; SISA_OP_UBFX;
  SISA_OP_SHADD16; SISA_OP_SHADD8; SISA_OP_SHASX; SISA_OP_SHSAX;
  SISA_OP_SHSUB16; SISA_OP_SHSUB8; SISA_OP_SADD16; SISA_OP_SADD8;
  SISA_OP_SSUB16; SISA_OP_SSUB8; SISA_OP_SASX; SISA_OP_SSAX;
  SISA_OP_UHADD16; SISA_OP_UHASX; SISA_OP_UHSAX; SISA_OP_UHSUB16;
  SISA_OP_UHADD8; SISA_OP_UHSUB8; SISA_OP_UADD16; SISA_OP_UADD8;
  SISA_OP_USAD8; SISA_OP_USADA8; SISA_OP_USUB16; SISA_OP_USUB8;
  SISA_OP_UASX; SISA_OP_USAX; SISA_OP_UQADD16; SISA_OP_UQASX;
  SISA_OP_UQSAX; SISA_OP_UQSUB16; SISA_OP_UQADD8; SISA_OP_UQSUB8;
  SISA_OP_SXTB16; SISA_OP_SXTAB16; SISA_OP_PKH; SISA_OP_SSAT;
  SISA_OP_SSAT16; SISA_OP_USAT; SISA_OP_USAT16; SISA_OP_SXTB;
  SISA_OP_SXTAB; SISA_OP_SXTH; SISA_OP_SXTAH; SISA_OP_SEL;
  SISA_OP_REV; SISA_OP_REV16; SISA_OP_UXTB16; SISA_OP_UXTAB16;
  SISA_OP_UXTB; SISA_OP_UXTAB; SISA_OP_RBIT; SISA_OP_UXTH;
  SISA_OP_UXTAH; SISA_OP_REVSH; SISA_OP_QASX; SISA_OP_QSAX;
  SISA_OP_QADD8; SISA_OP_QADD16; SISA_OP_QSUB8; SISA_OP_QSUB16;
  SISA_OP_QADD; SISA_OP_QSUB; SISA_OP_QDADD; SISA_OP_QDSUB;
  SISA_OP_MRS_a; SISA_OP_MSR_imm_a; SISA_OP_MSR_reg_a; SISA_OP_PLI_imm;
  SISA_OP_PLD_imm; SISA_OP_PLD_lit; SISA_OP_PLI; SISA_OP_PLD].

Definition is_arm_uncategoried_op (op : Z) : bool := op_in op arm_uncategoried_op.

Definition is_op_armv5_instr (op : Z) : bool := true.

Section arm.
Context `{Env : !RitEnv}.

(** ** 2. Miscellaneous *)

Definition gen_misc_instr (op : Z) : rit instr_status_t :=
  instr ← get_raw_instr;
  if op =? SISA_OP_SVC then mret UNSUPPORTED
  else if op_in op [SISA_OP_SWP; SISA_OP_SWPB] then
    let t := regnum instr op SISA_OUTPUT0 in
    let t2 := regnum instr op SISA_INPUT0 in
    let n := regnum instr op SISA_INPUT1 in
    bias ← GET_OPT_STAT OPT_ALLOW_BIAS_OPND;
    tt2 ← (if bias : bool then
        r ← random_bias_reg_2 t t2;
        write_regs instr op [(SISA_OUTPUT0, r.1); (SISA_INPUT0, r.2)] ;;
        mret r
      else mret (t, t2));
    let '(t, t2) := tt2 in
    let st := VALID in
    let st := upd ((t =? R_PC) || (t2 =? R_PC) || (n =? R_PC) || (n =? t) || (n =? t2))
                  UNPREDICTABLE st in
    let st := upd (n =? R_PC) UNSUPPORTED st in
    when (negb (status_eqb st UNSUPPORTED)) (fix_mem_base n true) ;;
    mret st
  else if op =? SISA_OP_CLZ then
    let d := regnum instr op SISA_OUTPUT0 in
    let m := regnum instr op SISA_INPUT0 in
    bias ← GET_OPT_STAT OPT_ALLOW_BIAS_OPND;
    dm ← (if bias : bool then
        r ← random_bias_reg_2 d m;
        write_regs instr op [(SISA_OUTPUT0, r.1); (SISA_INPUT0, r.2)] ;;
        mret r
      else mret (d, m));
    let '(d, m) := dm in
    mret (upd ((d =? R_PC) || (m =? R_PC)) UNPREDICTABLE VALID)
  else if op_in op [SISA_OP_ADR_a1; SISA_OP_ADR_a2; SISA_OP_MOVT] then
    let d := regnum instr op SISA_OUTPUT0 in
    mret (upd (d =? R_PC) UNSUPPORTED VALID)
  else mret UNSUPPORTED.

(** ** 3. Data processing *)

(** The bias step of one branch: returns the encoding it leaves in [instr]. *)
Definition data_bias_2 (instr op : Z) (i j : nat) : rit Z :=
  bias ← GET_OPT_STAT OPT_ALLOW_BIAS_OPND;
  if bias : bool then
    r ← random_bias_reg_2 (regnum instr op i) (regnum instr op j);
    write_regs instr op [(i, r.1); (j, r.2)]
  else mret instr.

Definition data_bias_3 (instr op : Z) (i j k : nat) : rit Z :=
  bias ← GET_OPT_STAT OPT_ALLOW_BIAS_OPND;
  if bias : bool then
    r ← random_bias_reg_3 (regnum instr op i) (regnum instr op j) (regnum instr op k);
    write_regs instr op [(i, r.1.1); (j, r.1.2); (k, r.2)]
  else mret instr.

Definition data_bias_4 (instr op : Z) (i j k l : nat) : rit Z :=
  bias ← GET_OPT_STAT OPT_ALLOW_BIAS_OPND;
  if bias : bool then
    r ← random_bias_reg_4 (regnum instr op i) (regnum instr op j)
                          (regnum instr op k) (regnum instr op l);
    write_regs instr op [(i, r.1.1.1); (j, r.1.1.2); (k, r.1.2); (l, r.2)]
  else mret instr.

(** Register-shifted register operands. *)
Definition gen_data_rsr (op instr : Z) : rit (instr_status_t * Z) :=
  let n := regnum instr op SISA_INPUT0 in
  let m := regnum instr op SISA_INPUT1 in
  let s := regnum instr op SISA_INPUT2 in
  if negb (opnd_type_eqb (opnd_of op SISA_OUTPUT0).(type) SISA_OPND_TYPE_NONE) then
    let d := regnum instr op SISA_OUTPUT0 in
    if (d =? R_PC) || (n =? R_PC) || (m =? R_PC) || (s =? R_PC) then mret (UNPREDICTABLE, instr)
    else
      instr ← data_bias_4 instr op SISA_OUTPUT0 SISA_INPUT0 SISA_INPUT1 SISA_INPUT2;
      mret (VALID, instr)
  else if (n =? R_PC) || (m =? R_PC) || (s =? R_PC) then mret (UNPREDICTABLE, instr)
  else
    instr ← data_bias_3 instr op SISA_INPUT0 SISA_INPUT1 SISA_INPUT2;
    mret (VALID, instr).

(** Immediate-shifted register operands. *)
Definition gen_data_rsi (op instr : Z) : rit (instr_status_t * Z) :=
  instr ←
    (if negb (opnd_type_eqb (opnd_of op SISA_OUTPUT0).(type) SISA_OPND_TYPE_NONE)
     then data_bias_3 instr op SISA_OUTPUT0 SISA_INPUT0 SISA_INPUT1
     else data_bias_2 instr op SISA_INPUT0 SISA_INPUT1);
  mret (VALID, instr).

(** No third input: register shifts, immediate shifts and immediates. *)
Definition gen_data_noext (op instr : Z) : rit (instr_status_t * Z) :=
  match (opnd_of op SISA_INPUT1).(type) with
  | SISA_OPND_TYPE_SHIFT_REG =>
      let d := regnum instr op SISA_OUTPUT0 in
      let n := regnum instr op SISA_INPUT0 in
      let m := regnum instr op SISA_INPUT1 in
      if (d =? R_PC) || (n =? R_PC) || (m =? R_PC) then mret (UNPREDICTABLE, instr)
      else
        instr ← data_bias_3 instr op SISA_OUTPUT0 SISA_INPUT0 SISA_INPUT1;
        mret (VALID, instr)
  | SISA_OPND_TYPE_SHIFT_IMM =>
      instr ← data_bias_2 instr op SISA_OUTPUT0 SISA_INPUT0;
      mret (VALID, instr)
  | SISA_OPND_TYPE_IMM_ARM_EXP =>
      instr ←
        (if negb (opnd_type_eqb (opnd_of op SISA_OUTPUT0).(type) SISA_OPND_TYPE_NONE)
         then data_bias_2 instr op SISA_OUTPUT0 SISA_INPUT0 else mret instr);
      mret (VALID, instr)
  | _ => mret (VALID, instr)
  end.

Definition gen_data_instr (op : Z) : rit instr_status_t :=
  instr ← get_raw_instr;
  si ←
    match (opnd_of op SISA_INPUT2).(type) with
    | SISA_OPND_TYPE_SHIFT_REG => gen_data_rsr op instr
    | SISA_OPND_TYPE_SHIFT_IMM => gen_data_rsi op instr
    | SISA_OPND_TYPE_NONE => gen_data_noext op instr
    | _ => mret (VALID, instr)
    end;
  let '(st, instr) := si in
  let st := upd (negb (opnd_type_eqb (opnd_of op SISA_OUTPUT0).(type) SISA_OPND_TYPE_NONE)
                 && (regnum instr op SISA_OUTPUT0 =? R_PC)) UNSUPPORTED st in
  let st := upd (negb (opnd_type_eqb (opnd_of op SISA_OUTPUT1).(type) SISA_OPND_TYPE_NONE)
                 && (regnum instr op SISA_OUTPUT1 =? R_PC)) UNSUPPORTED st in
  mret st.

(** ** 4. Multiplications *)

Definition gen_mul_2 (op instr : Z) : rit instr_status_t :=
  arch ← opt arch_version;
  let d := regnum instr op SISA_OUTPUT0 in
  let n := regnum instr op SISA_INPUT0 in
  let m := regnum instr op SISA_INPUT1 in
  bias ← GET_OPT_STAT OPT_ALLOW_BIAS_OPND;
  dmn ← (if bias : bool then
      r ← random_bias_reg_3 d m n;
      write_regs instr op [(SISA_OUTPUT0, r.1.1); (SISA_INPUT0, r.2); (SISA_INPUT1, r.1.2)] ;;
      mret r
    else mret (d, m, n));
  let '(d, m, n) := dmn in
  let st := VALID in
  let st := upd ((d =? R_PC) || (n =? R_PC) || (m =? R_PC)) UNPREDICTABLE st in
  let st := upd ((op =? SISA_OP_MUL) && (d =? n) && (arch <? 6)) UNPREDICTABLE st in
  mret (upd (d =? R_PC) UNSUPPORTED st).

Definition gen_mul_3 (op instr : Z) : rit instr_status_t :=
  arch ← opt arch_version;
  let d := regnum instr op SISA_OUTPUT0 in
  let n := regnum instr op SISA_INPUT0 in
  let m := regnum instr op SISA_INPUT1 in
  let a := regnum instr op SISA_INPUT2 in
  let st := upd (op_in op [SISA_OP_SMLAD; SISA_OP_SMLSD; SISA_OP_SMMLA] && (a =? R_PC))
                ALIAS VALID in
  bias ← GET_OPT_STAT OPT_ALLOW_BIAS_OPND;
  dnma ← (if bias : bool then
      r ← random_bias_reg_4 d n m a;
      write_regs instr op [(SISA_OUTPUT0, r.1.1.1); (SISA_INPUT0, r.1.1.2);
                           (SISA_INPUT1, r.1.2); (SISA_INPUT2, r.2)] ;;
      mret r
    else mret (d, n, m, a));
  let '(d, n, m, a) := dnma in
  let st :=
    if op_in op [SISA_OP_SMLAD; SISA_OP_SMLSD; SISA_OP_SMMLA]
    then upd ((d =? R_PC) || (n =? R_PC) || (m =? R_PC)) UNPREDICTABLE st
    else upd ((d =? R_PC) || (n =? R_PC) || (m =? R_PC) || (a =? R_PC)) UNPREDICTABLE st in
  let st := upd ((op =? SISA_OP_MLA) && (d =? n) && (arch <? 6)) UNPREDICTABLE st in
  mret (upd (d =? R_PC) UNSUPPORTED st).

Definition gen_mul_long (op instr : Z) : rit instr_status_t :=
  arch ← opt arch_version;
  let dHi := regnum instr op SISA_OUTPUT0 in
  let dLo := regnum instr op SISA_OUTPUT1 in
  let n := regnum instr op SISA_INPUT0 in
  let m := regnum instr op SISA_INPUT1 in
  bias ← GET_OPT_STAT OPT_ALLOW_BIAS_OPND;
  hlnm ← (if bias : bool then
      r ← random_bias_reg_4 dHi dLo n m;
      write_regs instr op [(SISA_OUTPUT0, r.1.1.1); (SISA_OUTPUT1, r.1.1.2);
                           (SISA_INPUT0, r.1.2); (SISA_INPUT1, r.2)] ;;
      mret r
    else mret (dHi, dLo, n, m));
  let '(dHi, dLo, n, m) := hlnm in
  let st := VALID in
  let st := upd ((dLo =? R_PC) || (dHi =? R_PC) || (n =? R_PC) || (m =? R_PC)) UNPREDICTABLE st in
  let st := upd (dLo =? dHi) UNPREDICTABLE st in
  let st := upd (op_in op [SISA_OP_SMLAL; SISA_OP_SMULL; SISA_OP_UMLAL; SISA_OP_UMULL]
                 && ((dHi =? n) || (dLo =? n)) && (arch <? 6)) UNPREDICTABLE st in
  mret (upd ((dLo =? R_PC) || (dHi =? R_PC)) UNSUPPORTED st).

Definition gen_mul_instr (op : Z) : rit instr_status_t :=
  instr ← get_raw_instr;
  if op_in op [SISA_OP_MUL; SISA_OP_SMULBB; SISA_OP_SMULWB; SISA_OP_SMUAD; SISA_OP_SMUSD;
               SISA_OP_SMMUL] then gen_mul_2 op instr
  else if op_in op [SISA_OP_MLA; SISA_OP_SMLABB; SISA_OP_SMLAWB; SISA_OP_MLS; SISA_OP_SMLAD;
                    SISA_OP_SMLSD; SISA_OP_SMMLA; SISA_OP_SMMLS] then gen_mul_3 op instr
  else if op_in op [SISA_OP_SMLAL; SISA_OP_SMLALBB; SISA_OP_SMULL; SISA_OP_UMLAL; SISA_OP_UMULL;
                    SISA_OP_UMAAL; SISA_OP_SMLALD; SISA_OP_SMLSLD] then gen_mul_long op instr
  else mret UNSUPPORTED.

(** ** 5. Branches *)

Definition gen_jmp_instr (op : Z) : rit instr_status_t :=
  instr ← get_raw_instr;
  if op =? SISA_OP_B_imm then
    insert_instr "[INSTINFO] type=BranchWritePC target=ARM" ;; mret FIXINST
  else if op =? SISA_OP_BL_imm_a1 then
    insert_instr "[INSTINFO] type=BranchWritePC target=ARM" ;; mret FIXINST
  else if op =? SISA_OP_BLX_imm_a2 then
    insert_instr "[INSTINFO] type=BranchWritePC target=Thumb" ;; mret FIXINST
  else if op =? SISA_OP_BX then
    insert_instr "[INSTINFO] type=BXWritePC" ;; mret FIXINST
  else if op =? SISA_OP_BLX_reg then
    let m := regnum instr op SISA_INPUT0 in
    let st := upd (m =? R_PC) UNPREDICTABLE FIXINST in
    insert_instr "[INSTINFO] type=BXWritePC" ;; mret st
  else mret INVALID.

(** ** 6. Media instructions *)

Definition gen_parallel_add_sub_instr (op : Z) : rit instr_status_t :=
  instr ← get_raw_instr;
  let d := regnum instr op SISA_OUTPUT0 in
  let n := regnum instr op SISA_INPUT0 in
  let m := regnum instr op SISA_INPUT1 in
  bias ← GET_OPT_STAT OPT_ALLOW_BIAS_OPND;
  dnm ← (if bias : bool then
      r ← random_bias_reg_3 d n m;
      write_regs instr op [(SISA_OUTPUT0, r.1.1); (SISA_INPUT0, r.1.2); (SISA_INPUT1, r.2)] ;;
      mret r
    else mret (d, n, m));
  let '(d, n, m) := dnm in
  let st := upd ((d =? R_PC) || (n =? R_PC) || (m =? R_PC)) UNPREDICTABLE VALID in
  mret (upd (d =? R_PC) UNSUPPORTED st).

(** SXTAB and the other extend-and-add instructions *)
Definition gen_extend_add (op instr : Z) : rit instr_status_t :=
  let d := regnum instr op SISA_OUTPUT0 in
  let n := regnum instr op SISA_INPUT0 in
  let m := regnum instr op SISA_INPUT1 in
  bias ← GET_OPT_STAT OPT_ALLOW_BIAS_OPND;
  dnm ← (if bias : bool then
      r ← random_bias_reg_3 d n m;
      write_regs instr op [(SISA_OUTPUT0, r.1.1); (SISA_INPUT0, r.1.2); (SISA_INPUT1, r.2)] ;;
      mret r
    else mret (d, n, m));
  let '(d, n, m) := dnm in
  let st := upd (n =? R_PC) ALIAS VALID in
  let st := upd ((d =? R_PC) || (m =? R_PC)) UNPREDICTABLE st in
  mret (upd (d =? R_PC) UNSUPPORTED st).

(** SXTB and the other extend instructions: both registers are written to the
    field of the destination, as the source does. *)
Definition gen_extend (op instr : Z) : rit instr_status_t :=
  let d := regnum instr op SISA_OUTPUT0 in
  let m := regnum instr op SISA_INPUT0 in
  bias ← GET_OPT_STAT OPT_ALLOW_BIAS_OPND;
  dm ← (if bias : bool then
      r ← random_bias_reg_2 d m;
      write_regs instr op [(SISA_OUTPUT0, r.1); (SISA_OUTPUT0, r.2)] ;;
      mret r
    else mret (d, m));
  let '(d, m) := dm in
  let st := upd ((d =? R_PC) || (m =? R_PC)) UNPREDICTABLE VALID in
  mret (upd (d =? R_PC) UNSUPPORTED st).

(** RBIT, REV, REV16, REVSH *)
Definition gen_reverse (op instr : Z) : rit instr_status_t :=
  let d := regnum instr op SISA_OUTPUT0 in
  let m := regnum instr op SISA_INPUT0 in
  let st := upd ((d =? R_PC) || (m =? R_PC)) UNPREDICTABLE VALID in
  mret (upd (d =? R_PC) UNSUPPORTED st).

(** [if (GET_OPT_STAT(OPT_ALLOW_BIAS_OPND)) instr[11:7] = shift_imm[rand() % num]] *)
Definition bias_shift_imm (instr : Z) (applies : bool) : rit unit :=
  bias ← GET_OPT_STAT OPT_ALLOW_BIAS_OPND;
  when (bias && applies)
    (rand_val ← rand;
     instr ← set_instr instr 7 11 (nth (Z.to_nat (rand_val mod shift_imm_num)) shift_imm 0);
     set_raw_instr instr).

(** SSAT, USAT, SSAT16, USAT16: [n] is read from the second input operand
    and written to the first, as the source does. *)
Definition gen_saturate (op instr : Z) : rit instr_status_t :=
  let d := regnum instr op SISA_OUTPUT0 in
  let n := regnum instr op SISA_INPUT1 in
  bias ← GET_OPT_STAT OPT_ALLOW_BIAS_REG;
  dni ← (if bias : bool then
      r ← random_bias_reg_2 d n;
      instr ← write_regs instr op [(SISA_OUTPUT0, r.1); (SISA_INPUT0, r.2)];
      mret (r, instr)
    else mret ((d, n), instr));
  let '((d, n), instr) := dni in
  bias_shift_imm instr (op_in op [SISA_OP_SSAT; SISA_OP_USAT]) ;;
  mret (upd ((d =? R_PC) || (n =? R_PC)) UNPREDICTABLE VALID).

Definition gen_pkh (op instr : Z) : rit instr_status_t :=
  let d := regnum instr op SISA_OUTPUT0 in
  let n := regnum instr op SISA_INPUT0 in
  let m := regnum instr op SISA_INPUT1 in
  bias ← GET_OPT_STAT OPT_ALLOW_BIAS_REG;
  dnmi ← (if bias : bool then
      r ← random_bias_reg_3 d n m;
      instr ← write_regs instr op [(SISA_OUTPUT0, r.1.1); (SISA_INPUT0, r.1.2); (SISA_INPUT1, r.2)];
      mret (r, instr)
    else mret ((d, n, m), instr));
  let '((d, n, m), instr) := dnmi in
  bias_shift_imm instr true ;;
  let st := upd ((d =? R_PC) || (n =? R_PC) || (m =? R_PC)) UNPREDICTABLE VALID in
  mret (upd (d =? R_PC) UNSUPPORTED st).

(** SBFX, UBFX *)
Definition gen_bfx (op instr : Z) : rit instr_status_t :=
  let d := regnum instr op SISA_OUTPUT0 in
  let n := regnum instr op SISA_INPUT0 in
  let lsbit := get_bits_value instr 7 11 in
  let widthm1 := get_bits_value instr 16 20 in
  bias ← GET_OPT_STAT OPT_ALLOW_BIAS_REG;
  dn ← (if bias : bool then
      r ← random_bias_reg_2 d n;
      write_regs instr op [(SISA_OUTPUT0, r.1); (SISA_INPUT0, r.2)] ;;
      mret r
    else mret (d, n));
  let '(d, n) := dn in
  let st := upd ((d =? R_PC) || (n =? R_PC)) UNPREDICTABLE VALID in
  let st := upd (31 <? lsbit + widthm1) UNPREDICTABLE st in
  mret (upd (d =? R_PC) UNSUPPORTED st).

Definition gen_bfc (op instr : Z) : rit instr_status_t :=
  let d := regnum instr op SISA_OUTPUT0 in
  let msbit := get_bits_value instr 16 20 in
  let lsbit := get_bits_value instr 7 11 in
  let st := upd (d =? R_PC) UNSUPPORTED VALID in
  mret (upd (msbit <? lsbit) UNPREDICTABLE st).

Definition gen_bfi (op instr : Z) : rit instr_status_t :=
  let d := regnum instr op SISA_OUTPUT0 in
  let n := regnum instr op SISA_INPUT2 in
  let msb := get_bits_value instr 16 20 in
  let lsb := get_bits_value instr 7 11 in
  bias ← GET_OPT_STAT OPT_ALLOW_BIAS_REG;
  dn ← (if bias : bool then
      r ← random_bias_reg_2 d n;
      write_regs instr op [(SISA_OUTPUT0, r.1); (SISA_INPUT2, r.2)] ;;
      mret r
    else mret (d, n));
  let '(d, n) := dn in
  let st := upd (n =? R_PC) ALIAS VALID in
  let st := upd (msb <? lsb) UNPREDICTABLE st in
  mret (upd (d =? R_PC) UNSUPPORTED st).

Definition gen_usad8 (op instr : Z) : rit instr_status_t :=
  let d := regnum instr op SISA_OUTPUT0 in
  let n := regnum instr op SISA_INPUT0 in
  let m := regnum instr op SISA_INPUT1 in
  bias ← GET_OPT_STAT OPT_ALLOW_BIAS_REG;
  dnm ← (if bias : bool then
      r ← random_bias_reg_3 d n m;
      write_regs instr op [(SISA_OUTPUT0, r.1.1); (SISA_INPUT0, r.1.2); (SISA_INPUT1, r.2)] ;;
      mret r
    else mret (d, n, m));
  let '(d, n, m) := dnm in
  let st := upd ((d =? R_PC) || (n =? R_PC) || (m =? R_PC)) UNPREDICTABLE VALID in
  mret (upd (d =? R_PC) UNSUPPORTED st).

Definition gen_usada8 (op instr : Z) : rit instr_status_t :=
  let d := regnum instr op SISA_OUTPUT0 in
  let n := regnum instr op SISA_INPUT0 in
  let m := regnum instr op SISA_INPUT1 in
  let a := regnum instr op SISA_INPUT2 in
  bias ← GET_OPT_STAT OPT_ALLOW_BIAS_REG;
  dnma ← (if bias : bool then
      r ← random_bias_reg_4 d n m a;
      write_regs instr op [(SISA_OUTPUT0, r.1.1.1); (SISA_INPUT0, r.1.1.2);
                           (SISA_INPUT1, r.1.2); (SISA_INPUT2, r.2)] ;;
      mret r
    else mret (d, n, m, a));
  let '(d, n, m, a) := dnma in
  let st := upd (a =? R_PC) ALIAS VALID in
  let st := upd ((d =? R_PC) || (n =? R_PC) || (m =? R_PC)) UNPREDICTABLE st in
  mret (upd (d =? R_PC) UNSUPPORTED st).

(** SEL, status register moves and preloads: the encoding is only checked. *)
Definition gen_sr_preload (op instr : Z) : instr_status_t :=
  if op =? SISA_OP_SEL then
    let d := regnum instr op SISA_OUTPUT0 in
    let n := regnum instr op SISA_INPUT0 in
    let m := regnum instr op SISA_INPUT1 in
    upd ((d =? R_PC) || (n =? R_PC) || (m =? R_PC)) UNPREDICTABLE VALID
  else if op =? SISA_OP_MRS_a then
    upd (regnum instr op SISA_OUTPUT0 =? R_PC) UNPREDICTABLE VALID
  else if op =? SISA_OP_MSR_imm_a then
    upd (get_bits_value instr 18 19 =? 0) UNSUPPORTED VALID
  else if op =? SISA_OP_MSR_reg_a then
    let n := regnum instr op SISA_INPUT0 in
    let st := upd (get_bits_value instr 18 19 =? 0) UNPREDICTABLE VALID in
    upd (n =? R_PC) UNPREDICTABLE st
  else if op_in op [SISA_OP_PLI; SISA_OP_PLD; SISA_OP_PLI_imm; SISA_OP_PLD_imm; SISA_OP_PLD_lit]
  then
    if op =? SISA_OP_PLD_imm then upd (get_bits_value instr 16 19 =? R_PC) ALIAS VALID
    else if op =? SISA_OP_PLI then upd (get_bits_value instr 0 3 =? R_PC) UNPREDICTABLE VALID
    else if op =? SISA_OP_PLD then
      let n := get_bits_value instr 16 19 in
      let m := get_bits_value instr 0 3 in
      let r := get_bit_value instr 22 in
      upd ((m =? R_PC) || ((r =? 0) && (n =? R_PC))) UNPREDICTABLE VALID
    else VALID
  else UNSUPPORTED.

(** The seven parallel and saturating add/subtract groups. *)
Definition parallel_ops : list Z := [
  SISA_OP_SADD16; SISA_OP_SASX; SISA_OP_SSAX; SISA_OP_SSUB16; SISA_OP_SADD8; SISA_OP_SSUB8;
  SISA_OP_QADD; SISA_OP_QSUB; SISA_OP_QDADD; SISA_OP_QDSUB;
  SISA_OP_QADD16; SISA_OP_QASX; SISA_OP_QSAX; SISA_OP_QSUB16; SISA_OP_QADD8; SISA_OP_QSUB8;
  SISA_OP_SHADD16; SISA_OP_SHASX; SISA_OP_SHSAX; SISA_OP_SHSUB16; SISA_OP_SHADD8; SISA_OP_SHSUB8;
  SISA_OP_UADD16; SISA_OP_UASX; SISA_OP_USAX; SISA_OP_USUB16; SISA_OP_UADD8; SISA_OP_USUB8;
  SISA_OP_UQADD16; SISA_OP_UQASX; SISA_OP_UQSAX; SISA_OP_UQSUB16; SISA_OP_UQADD8; SISA_OP_UQSUB8;
  SISA_OP_UHADD16; SISA_OP_UHASX; SISA_OP_UHSAX; SISA_OP_UHSUB16; SISA_OP_UHADD8; SISA_OP_UHSUB8].

Definition gen_uncategorized_instr (op : Z) : rit instr_status_t :=
  instr ← get_raw_instr;
  if op_in op parallel_ops then gen_parallel_add_sub_instr op
  else if op_in op [SISA_OP_SXTAB; SISA_OP_SXTAB16; SISA_OP_SXTAH; SISA_OP_UXTAB;
                    SISA_OP_UXTAB16; SISA_OP_UXTAH] then gen_extend_add op instr
  else if op_in op [SISA_OP_SXTB; SISA_OP_SXTB16; SISA_OP_SXTH; SISA_OP_UXTB; SISA_OP_UXTB16;
                    SISA_OP_UXTH] then gen_extend op instr
  else if op_in op [SISA_OP_RBIT; SISA_OP_REV; SISA_OP_REV16; SISA_OP_REVSH]
  then gen_reverse op instr
  else if op_in op [SISA_OP_SSAT; SISA_OP_USAT; SISA_OP_SSAT16; SISA_OP_USAT16]
  then gen_saturate op instr
  else if op =? SISA_OP_PKH then gen_pkh op instr
  else if op_in op [SISA_OP_SBFX; SISA_OP_UBFX] then gen_bfx op instr
  else if op =? SISA_OP_BFC then gen_bfc op instr
  else if op =? SISA_OP_BFI then gen_bfi op instr
  else if op =? SISA_OP_USAD8 then gen_usad8 op instr
  else if op =? SISA_OP_USADA8 then gen_usada8 op instr
  else mret (gen_sr_preload op instr).

(** ** 7. Dispatch *)

Definition gen_unsup_instr (op : Z) : rit instr_status_t := mret UNSUPPORTED.

Definition gen_empty_instr (op : Z) : rit instr_status_t :=
  mret (if op =? SISA_OP_WFI then UNSUPPORTED
        else if op =? SISA_OP_CLREX then UNSUPPORTED else VALID).

Definition gen_arm_instr (op : Z) : rit instr_status_t :=
  isa0 ← opt isa;
  if (isa0 =? ISA_ARMv5) && negb (is_op_armv5_instr op) then mret UNSUPPORTED
  else if is_arm_uncategoried_op op then gen_uncategorized_instr op
  else match (instr_desc op).(op_kind) with
  | ST_OP => gen_st_instr op
  | LD_OP => gen_ld_instr op
  | LDREX_OP => gen_ldex_instr op
  | STREX_OP => gen_stex_instr op
  | STM_OP | LDM_OP | PUSH_OP | POP_OP => gen_multi_mem_instr op
  | MISC_OP => gen_misc_instr op
  | UMUL_OP | MUL32_OP | SMUL_OP | SMULD_OP => gen_mul_instr op
  | JMP_OP => gen_jmp_instr op
  | EMPTY_OP => gen_empty_instr op
  | NO_OP => gen_unsup_instr op
  | ALU_OP | LOG_OP | MOV_OP | CMP_OP | TEST_OP => gen_data_instr op
  | _ => mret UNSUPPORTED
  end.
End arm.

(** ** 8. The generators keep the invariant *)

(** The field of operand [i] may be written. *)
Definition reg_writable (op : Z) (i : nat) : bool :=
  writable op (opnd_of op i).(start_bit) (opnd_of op i).(end_bit).

Section keeps.
Context `{Env : !RitEnv}.

Lemma keeps_set_instr_regs th op tmpl l instr :
  word_kept op tmpl instr → Forall (λ p, reg_writable op p.1 = true) l →
  keeps th op tmpl 0 (word_kept op tmpl) (set_instr_regs instr op l).
Proof.
  intros Hi Hl. revert instr Hi. induction Hl as [|[i r] l Hp Hl IH]; intros instr Hi; simpl.
  - by apply keeps_ret.
  - eapply keeps_bind; [by apply keeps_set_instr|done|]. intros a Ha. by apply IH.
Qed.

Lemma keeps_write_regs th op tmpl l instr :
  word_kept op tmpl instr → Forall (λ p, reg_writable op p.1 = true) l →
  keeps th op tmpl 0 (word_kept op tmpl) (write_regs instr op l).
Proof.
  intros Hi Hl. unfold write_regs. eapply keeps_bind; [by apply keeps_set_instr_regs|done|].
  intros a Ha. keeps.
Qed.

#[local] Hint Resolve keeps_write_regs : keeps.
#[local] Hint Extern 1 (Forall _ _) =>
  repeat constructor; cbn [fst]; unfold reg_writable; (assumption || solve_writable) : keeps.

Lemma keeps_gen_misc_instr th op tmpl : keeps th op tmpl 7 (λ _, True) (gen_misc_instr op).
Proof. unfold gen_misc_instr. keeps. Qed.

Lemma keeps_gen_mul_instr th op tmpl : keeps th op tmpl 7 (λ _, True) (gen_mul_instr op).
Proof. unfold gen_mul_instr, gen_mul_2, gen_mul_3, gen_mul_long. keeps. Qed.

Lemma keeps_gen_jmp_instr th op tmpl : keeps th op tmpl 7 (λ _, True) (gen_jmp_instr op).
Proof. unfold gen_jmp_instr. keeps. Qed.

Lemma keeps_gen_parallel_add_sub_instr th op tmpl :
  op_in op parallel_ops = true →
  keeps th op tmpl 7 (λ _, True) (gen_parallel_add_sub_instr op).
Proof. intros. unfold gen_parallel_add_sub_instr. keeps. Qed.

Lemma keeps_bias_shift_imm th op tmpl instr b :
  word_kept op tmpl instr → (b = true → writable op 7 11 = true) →
  keeps th op tmpl 0 (λ _, True) (bias_shift_imm instr b).
Proof.
  intros Hi Hb. unfold bias_shift_imm. keeps.
  match goal with H : _ && _ = true |- _ => apply andb_true_iff in H as [_ Hb'%Hb] end. keeps.
Qed.

#[local] Hint Resolve keeps_gen_parallel_add_sub_instr keeps_bias_shift_imm : keeps.
#[local] Hint Extern 1 (_ → writable _ _ _ = true) => intro; solve_writable : keeps.

Lemma keeps_gen_uncategorized_instr th op tmpl :
  keeps th op tmpl 7 (λ _, True) (gen_uncategorized_instr op).
Proof.
  unfold gen_uncategorized_instr, gen_extend_add, gen_extend, gen_reverse, gen_saturate, gen_pkh,
    gen_bfx, gen_bfc, gen_bfi, gen_usad8, gen_usada8. keeps.
Qed.

(** The fields each branch of [gen_data_instr] may write. *)
Definition data_fields (op : Z) : list nat :=
  let has_d := negb (opnd_type_eqb (opnd_of op SISA_OUTPUT0).(type) SISA_OPND_TYPE_NONE) in
  let d := if has_d then [SISA_OUTPUT0] else [] in
  match (opnd_of op SISA_INPUT2).(type) with
  | SISA_OPND_TYPE_SHIFT_REG => d ++ [SISA_INPUT0; SISA_INPUT1; SISA_INPUT2]
  | SISA_OPND_TYPE_SHIFT_IMM => d ++ [SISA_INPUT0; SISA_INPUT1]
  | SISA_OPND_TYPE_NONE =>
      match (opnd_of op SISA_INPUT1).(type) with
      | SISA_OPND_TYPE_SHIFT_REG => [SISA_OUTPUT0; SISA_INPUT0; SISA_INPUT1]
      | SISA_OPND_TYPE_SHIFT_IMM => [SISA_OUTPUT0; SISA_INPUT0]
      | SISA_OPND_TYPE_IMM_ARM_EXP => if has_d then [SISA_OUTPUT0; SISA_INPUT0] else []
      | _ => []
      end
  | _ => []
  end.

Definition is_data_kind (k : sisa_opkind_t) : bool :=
  match k with ALU_OP | LOG_OP | MOV_OP | CMP_OP | TEST_OP => true | _ => false end.

(** None of them holds a fixed bit. *)
Lemma data_fields_table op :
  0 ≤ op < SISA_OP_ARM_MAX → is_arm_uncategoried_op op = false →
  is_data_kind (instr_desc op).(op_kind) = true →
  Forall (λ i, reg_writable op i = true) (data_fields op).
Proof.
  intros Hop Hu Hk.
  pose proof (arm_table_check (λ op, is_arm_uncategoried_op op
    || negb (is_data_kind (instr_desc op).(op_kind))
    || forallb (reg_writable op) (data_fields op)) ltac:(vm_compute; reflexivity) op Hop) as HT.
  cbv beta in HT. rewrite Hu, Hk in HT. simpl in HT.
  apply Forall_forall. intros i Hi. rewrite forallb_forall in HT. by apply HT, list_elem_of_In.
Qed.

Lemma keeps_data_bias_2 th op tmpl instr i j :
  word_kept op tmpl instr → Forall (λ i, reg_writable op i = true) [i; j] →
  keeps th op tmpl 0 (word_kept op tmpl) (data_bias_2 instr op i j).
Proof.
  intros Hi Hw. unfold data_bias_2. keeps. apply keeps_write_regs; [done|].
  rewrite !Forall_cons, Forall_nil in *. cbn. tauto.
Qed.

Lemma keeps_data_bias_3 th op tmpl instr i j k :
  word_kept op tmpl instr → Forall (λ i, reg_writable op i = true) [i; j; k] →
  keeps th op tmpl 0 (word_kept op tmpl) (data_bias_3 instr op i j k).
Proof.
  intros Hi Hw. unfold data_bias_3. keeps. apply keeps_write_regs; [done|].
  rewrite !Forall_cons, Forall_nil in *. cbn. tauto.
Qed.

Lemma keeps_data_bias_4 th op tmpl instr i j k l :
  word_kept op tmpl instr → Forall (λ i, reg_writable op i = true) [i; j; k; l] →
  keeps th op tmpl 0 (word_kept op tmpl) (data_bias_4 instr op i j k l).
Proof.
  intros Hi Hw. unfold data_bias_4. keeps. apply keeps_write_regs; [done|].
  rewrite !Forall_cons, Forall_nil in *. cbn. tauto.
Qed.

#[local] Hint Resolve keeps_data_bias_2 keeps_data_bias_3 keeps_data_bias_4 : keeps.
#[local] Hint Extern 0 (Forall _ _) => assumption : keeps.

Lemma keeps_gen_data_instr th op tmpl :
  Forall (λ i, reg_writable op i = true) (data_fields op) →
  keeps th op tmpl 7 (λ _, True) (gen_data_instr op).
Proof.
  unfold data_fields, gen_data_instr, gen_data_rsr, gen_data_rsi, gen_data_noext.
  destruct (opnd_type_eqb (type (opnd_of op SISA_OUTPUT0)) SISA_OPND_TYPE_NONE);
    cbn [negb app]; cbv zeta;
    destruct (type (opnd_of op SISA_INPUT2)); try (intros _; keeps; fail); try (intros ?; keeps; fail);
    destruct (type (opnd_of op SISA_INPUT1)); intros; keeps.
Qed.

#[local] Hint Resolve keeps_gen_misc_instr keeps_gen_mul_instr keeps_gen_jmp_instr
  keeps_gen_uncategorized_instr keeps_gen_data_instr : keeps.

Lemma keeps_gen_arm_instr th op tmpl :
  0 ≤ op < SISA_OP_ARM_MAX → arm_room th op = true →
  keeps th op tmpl 7 (λ _, True) (gen_arm_instr op).
Proof.
  intros Hop Hr. unfold gen_arm_instr, gen_unsup_instr, gen_empty_instr. keeps.
  pose proof (data_fields_table op Hop ltac:(done)) as HT.
  destruct (op_kind (instr_desc op)); try specialize (HT eq_refl); keeps.
Qed.
End keeps.
#[export] Hint Resolve keeps_gen_arm_instr : keeps.
