(* ===== verification/ValidBias.v ===== *)
(** * Register fields of a word, and what biasing does to them

    The generators read register numbers from operand fields, may copy some of
    them onto others ([random_bias_reg_2/3/4]), and write them back.  [rewritten]
    says what is known of the word afterwards; [wp_bias] is the rule for the
    whole step, whatever the group of instructions. *)
From S2P Require Import Prelude RitCommon InstrTable State InstrUtil InstrBuf BiasUtil GenHelper GenARMMem GenARMInstr.
#[local] Open Scope c_scope.

(** ** 1. Fields *)

Definition field (op : Z) (i : nat) : Z * Z := ((opnd_of op i).(start_bit), (opnd_of op i).(end_bit)).

(** Two fields without a common bit. *)
Definition clear_of (f g : Z * Z) : bool := (f.2 <? g.1) || (g.2 <? f.1).

(** Operand [i] is a register number in a four-bit field below bit 31. *)
Definition gpr_field (op : Z) (i : nat) : bool :=
  match (opnd_of op i).(type) with
  | SISA_OPND_TYPE_GPR | SISA_OPND_TYPE_GPR_RW | SISA_OPND_TYPE_SHIFT_REG | SISA_OPND_TYPE_ROTATE_REG =>
      (0 <=? (field op i).1) && ((field op i).2 =? (field op i).1 + 3) && ((field op i).2 <? 31)
  | _ => false
  end.

(** All of [l] are register fields, and no two overlap. *)
Fixpoint reg_fields (op : Z) (l : list nat) : bool :=
  match l with
  | [] => true
  | i :: l => gpr_field op i && forallb (λ j, clear_of (field op i) (field op j)) l && reg_fields op l
  end.

Lemma clear_of_sym f g : clear_of f g = clear_of g f.
Proof. apply orb_comm. Qed.

Lemma gpr_field_spec op i :
  gpr_field op i = true →
  let '(s, e) := field op i in
  0 ≤ s ≤ e ∧ e < 31 ∧ e - s + 1 = 4 ∧ ∀ w, regnum w op i = get_bits_value w s e.
Proof.
  unfold gpr_field, regnum, get_regnum, field. cbn [fst snd]. destruct (type (opnd_of op i)); try done;
    intros [[H1%Z.leb_le H2%Z.eqb_eq]%andb_true_iff H3%Z.ltb_lt]%andb_true_iff;
    (split; [lia|]); (split; [lia|]); (split; [lia|done]).
Qed.

Lemma regnum_range op i w : gpr_field op i = true → is_u32 w → 0 ≤ regnum w op i < 16.
Proof.
  intros Hi Hu. pose proof (gpr_field_spec op i Hi) as Hf. destruct (field op i) as [s e].
  destruct Hf as (Hs & He & Hw & ->).
  pose proof (get_bits_value_range w _ _ Hs He (proj1 Hu)) as Hr. by rewrite Hw in Hr.
Qed.

Lemma reg_fields_range op l w :
  reg_fields op l = true → is_u32 w → Forall (λ r, 0 ≤ r < 16) (regnum w op <$> l).
Proof.
  intros Hf Hu. induction l as [|i l IH]; [constructor|]. cbn [reg_fields] in Hf.
  apply andb_true_iff in Hf as [[Hi _]%andb_true_iff Hf]. constructor; [by apply regnum_range|auto].
Qed.

(** One register written: it reads back, and the others stay. *)
Lemma regnum_set_same op i w r :
  gpr_field op i = true → is_u32 w → 0 ≤ r < 16 →
  regnum (set_instr_val w (field op i).1 (field op i).2 r) op i = r.
Proof.
  intros Hi Hu Hr. pose proof (gpr_field_spec op i Hi) as (Hs & He & Hw & ->).
  rewrite get_set_same by done. rewrite Hw. by apply Z.mod_small.
Qed.

Lemma regnum_set_other op i j w r :
  gpr_field op i = true → gpr_field op j = true → clear_of (field op i) (field op j) = true → is_u32 w →
  regnum (set_instr_val w (field op i).1 (field op i).2 r) op j = regnum w op j.
Proof.
  intros Hi Hj Ha Hu. pose proof (gpr_field_spec op i Hi) as (Hs & He & _ & _).
  pose proof (gpr_field_spec op j Hj) as (Hs' & He' & _ & Hreg).
  rewrite !Hreg. apply get_set_other; try done. unfold disjoint_fields.
  apply orb_true_iff in Ha as [?%Z.ltb_lt|?%Z.ltb_lt]; cbn in *; lia.
Qed.

(** ** 2. Words with some fields written *)

(** [w'] is [w] with register [r] in operand [i] for each [(i, r)] of [l], and
    no field changed but those that meet one of [fs]. *)
Record rewritten (op w : Z) (l : list (nat * Z)) (fs : list (Z * Z)) (w' : Z) : Prop := {
  rw_u32 : is_u32 w';
  rw_regs : Forall (λ ir, regnum w' op ir.1 = ir.2) l;
  rw_other : ∀ s e, 0 ≤ s ≤ e → e < 31 → forallb (λ f, clear_of f (s, e)) fs = true →
               get_bits_value w' s e = get_bits_value w s e
}.

(** The registers a word has in some operands. *)
Definition regs_of (op w : Z) (l : list nat) : list (nat * Z) := (λ i, (i, regnum w op i)) <$> l.

Lemma rewritten_refl op w l fs : is_u32 w → rewritten op w (regs_of op w l) fs w.
Proof. intros Hu. split; [done| |done]. unfold regs_of. by apply Forall_fmap, Forall_forall. Qed.

Lemma get_set_clear w f s e v :
  is_u32 w → 0 ≤ f.1 ≤ f.2 → f.2 < 31 → 0 ≤ s ≤ e → e < 31 → clear_of f (s, e) = true →
  get_bits_value (set_instr_val w f.1 f.2 v) s e = get_bits_value w s e.
Proof.
  intros Hu Hf Hf' Hs He Hc. apply get_set_other; try done. unfold disjoint_fields.
  apply orb_true_iff in Hc as [?%Z.ltb_lt|?%Z.ltb_lt]; cbn in *; lia.
Qed.

(** A field that meets no register of [l] is overwritten. *)
Lemma rewritten_set op w l fs w' f v :
  rewritten op w l fs w' → 0 ≤ f.1 ≤ f.2 → f.2 < 31 →
  forallb (λ i, gpr_field op i && clear_of f (field op i)) l.*1 = true →
  rewritten op w l (f :: fs) (set_instr_val w' f.1 f.2 v).
Proof.
  intros [Hu Hr Ho] Hf Hf' Hl. split; [auto with rit| |].
  - clear Ho. induction Hr as [|[i r] l Hi Hr IH]; [constructor|]. cbn [fmap list_fmap fst snd forallb] in *.
    apply andb_true_iff in Hl as [[Hg Hc]%andb_true_iff Hl]. constructor; [|auto]. cbn [fst snd].
    pose proof (gpr_field_spec op i Hg) as Hs. destruct (field op i) as [s e].
    destruct Hs as (Hs & He & _ & Hreg). rewrite Hreg in *. by rewrite get_set_clear.
  - intros s e Hs He [Hc Hfs]%andb_true_iff. rewrite get_set_clear by done. by apply Ho.
Qed.

Lemma set_instr_regs_cons op i r l w s :
  (field op i).1 ≤ (field op i).2 →
  set_instr_regs w op ((i, r) :: l) s
  = set_instr_regs (set_instr_val w (field op i).1 (field op i).2 r) op l s.
Proof. intros H. cbn [set_instr_regs]. unfold set_instr_reg, mbind, M_bind. by rewrite set_instr_ok. Qed.

(** Writing a list of registers: each field reads back, the others stay. *)
Lemma set_instr_regs_spec op l w s :
  reg_fields op l.*1 = true → Forall (λ r, 0 ≤ r < 16) l.*2 → is_u32 w →
  ∃ w', set_instr_regs w op l s = Ok w' s ∧ rewritten op w l (field op <$> l.*1) w'.
Proof.
  revert w. induction l as [|[i r] l IH]; intros w Hf Hr Hu; cbn [fmap list_fmap fst snd] in *.
  { exists w. split; [done|]. by apply (rewritten_refl op w []). }
  apply andb_true_iff in Hf as [[Hi Ha]%andb_true_iff Hf].
  apply Forall_cons in Hr as [Hri Hr].
  pose proof (gpr_field_spec op i Hi) as (Hs & He & Hw & Hreg). rewrite set_instr_regs_cons by (cbn; lia).
  set (w1 := set_instr_val w _ _ r). assert (is_u32 w1) as Hu1 by (unfold w1; auto with rit).
  destruct (IH w1 Hf Hr Hu1) as (w' & E & [Hu' Hall Hoth]).
  exists w'. split; [done|]. split; [done| |].
  - apply Forall_cons. split; [|done]. cbn [fst snd]. rewrite Hreg, Hoth; [|done|done|].
    + unfold w1. rewrite get_set_same, Hw by done. by apply Z.mod_small.
    + rewrite forallb_forall in Ha |- *. intros f (j & -> & Hj)%list_elem_of_In%list_elem_of_fmap.
      rewrite clear_of_sym. by apply Ha, list_elem_of_In.
  - intros s0 e0 Hs0 He0 [Hc Hl]%andb_true_iff. rewrite Hoth by done.
    by apply (get_set_clear w (field op i)).
Qed.

(** The state after one random number. *)
Definition drawn (s : rit_state) : rit_state := st_rand_pos (S s.(rand_pos)) s.

Section bias.
Context `{Env : !RitEnv}.

Lemma wp_write_regs op l w Q s :
  reg_fields op l.*1 = true → Forall (λ r, 0 ≤ r < 16) l.*2 → is_u32 w →
  (∀ w', rewritten op w l (field op <$> l.*1) w' → Q w' (st_raw_instr w' s)) →
  wp (write_regs w op l) Q s.
Proof.
  intros Hf Hr Hu HQ. destruct (set_instr_regs_spec op l w s Hf Hr Hu) as (w' & E & Hw').
  unfold write_regs. apply wp_bind, (wp_intro _ _ _ _ _ E), wp_bind, wp_modify, wp_ret. by apply HQ.
Qed.

(** A weakest precondition, at a run that is known. *)
Lemma wp_at {A} (m : rit A) Q s a s' : wp m Q s → m s = Ok a s' → Q a s'.
Proof. unfold wp. intros H E. by rewrite E in H. Qed.

(** ... and together with what every run that ends gives. *)
Lemma wp_with {A} (m : rit A) Q (R : A → rit_state → Prop) s :
  wp m Q s → (∀ a s', m s = Ok a s' → R a s') → wp m (λ a s', Q a s' ∧ R a s') s.
Proof. unfold wp. destruct (m s); auto. Qed.

(** ** 3. Biased registers *)

(** [m] draws once and only copies: what holds of all the registers [elems] of
    [t0] holds of all those of what it yields.  [R] is what else is known. *)
Definition copies {T} (elems : T → list Z) (t0 : T) (R : T → Prop) (m : rit T) : Prop :=
  R t0 ∧ ∀ s, ∃ t, m s = Ok t (drawn s) ∧ R t ∧ ∀ P, Forall P (elems t0) → Forall P (elems t).

Definition elems_2 (t : Z * Z) : list Z := [t.1; t.2].
Definition elems_3 (t : Z * Z * Z) : list Z := [t.1.1; t.1.2; t.2].
Definition elems_4 (t : Z * Z * Z * Z) : list Z := [t.1.1.1; t.1.1.2; t.1.2; t.2].

Lemma Forall_subset {A} (P : A → Prop) l l' : l' ⊆ l → Forall P l → Forall P l'.
Proof. rewrite !Forall_forall. auto. Qed.

(** The registers yielded are among those given, case by case. *)
Ltac copies_tac :=
  match goal with Hc : _ ∨ _ |- _ => repeat destruct Hc as [-> | Hc]; try rewrite Hc end;
  eexists; (split; [reflexivity|]); (split; [cbn; auto|]); intros P; apply Forall_subset;
  intros x; unfold elems_2, elems_3, elems_4; cbn [fst snd Z.eqb Pos.eqb];
  rewrite !elem_of_cons, elem_of_nil; tauto.

(** The second of two registers is kept. *)
Lemma random_bias_reg_2_copies a b : copies elems_2 (a, b) (λ t, t.2 = b) (random_bias_reg_2 a b).
Proof.
  split; [done|]. intros s. unfold random_bias_reg_2, rand, mbind, M_bind. set (r := rand_at _ _ mod 2).
  assert (r = 0 ∨ r = 1) as Hc.
  { pose proof (Z.mod_pos_bound (rand_at s.(rand_seed) s.(rand_pos)) 2). lia. }
  copies_tac.
Qed.

Lemma random_bias_reg_3_copies a b c : copies elems_3 (a, b, c) (λ _, True) (random_bias_reg_3 a b c).
Proof.
  split; [done|]. intros s. unfold random_bias_reg_3, rand, mbind, M_bind. set (r := rand_at _ _ mod 8).
  assert (r = 0 ∨ r = 1 ∨ r = 2 ∨ r = 3 ∨ r = 4 ∨ r = 5 ∨ r = 6 ∨ r = 7) as Hc.
  { pose proof (Z.mod_pos_bound (rand_at s.(rand_seed) s.(rand_pos)) 8). lia. }
  copies_tac.
Qed.

(** The last of four registers is kept, or equals the first. *)
Lemma random_bias_reg_4_copies a b c d :
  copies elems_4 (a, b, c, d) (λ t, t.2 = d ∨ t.2 = t.1.1.1) (random_bias_reg_4 a b c d).
Proof.
  split; [by left|]. intros s. unfold random_bias_reg_4, rand, mbind, M_bind. set (r := rand_at _ _ mod 16).
  assert (r = 0 ∨ r = 1 ∨ r = 2 ∨ r = 3 ∨ r = 4 ∨ r = 5 ∨ r = 6 ∨ r = 7 ∨ r = 8 ∨ r = 9 ∨ r = 10
    ∨ r = 11 ∨ r = 12 ∨ r = 13 ∨ r = 14 ∨ r = 15) as Hc.
  { pose proof (Z.mod_pos_bound (rand_at s.(rand_seed) s.(rand_pos)) 16). lia. }
  copies_tac.
Qed.

(** Drawing registers: [f] says which operand gets which. *)
Lemma wp_draw {T B} elems (t0 : T) R (f : T → list (nat * Z)) (draw : rit T) op w (k : T → rit B) Q s :
  copies elems t0 R draw → is_u32 w →
  (∀ P t, Forall P (elems t) ↔ Forall P (f t).*2) → (∀ t, (f t).*1 = (f t0).*1) →
  f t0 = regs_of op w (f t0).*1 → reg_fields op (f t0).*1 = true →
  (∀ t s', R t → (∀ P, Forall P (elems t0) → Forall P (elems t)) →
     reg_fields op (f t).*1 = true → Forall (λ r, 0 ≤ r < 16) (f t).*2 → wp (k t) Q s') →
  wp (t ← draw; k t) Q s.
Proof.
  intros [_ Hd] Hu He Hidx H0 Hf Hk. destruct (Hd s) as (t & E & HR & HP). apply wp_bind.
  apply (wp_intro _ _ _ _ _ E), Hk; [done|done|by rewrite Hidx|].
  apply He, HP, He. rewrite H0. unfold regs_of. rewrite <- list_fmap_compose.
  by apply reg_fields_range.
Qed.

(** The bias step of a generator: the registers are drawn and written, or
    stay.  The step returns the registers, and some also return the word. *)
Section bias_step.
Context {T} (elems : T → list Z) (t0 : T) (R : T → Prop) (f : T → list (nat * Z)) (draw : rit T).
Context (op w : Z) (b : bool) (s : rit_state).
Context (Hc : copies elems t0 R draw) (Hu : is_u32 w) (Hw : w = s.(raw_instr)).
Context (He : ∀ P t, Forall P (elems t) ↔ Forall P (f t).*2) (Hidx : ∀ t, (f t).*1 = (f t0).*1).
Context (H0 : f t0 = regs_of op w (f t0).*1) (Hf : reg_fields op (f t0).*1 = true).

Lemma wp_bias_word :
  wp (if b then t ← draw; w' ← write_regs w op (f t); mret (t, w') else mret (t0, w))
     (λ u s', R u.1 ∧ u.2 = s'.(raw_instr)
        ∧ rewritten op w (f u.1) (field op <$> (f t0).*1) s'.(raw_instr)) s.
Proof using All.
  apply wp_if; intros _.
  - eapply wp_draw; [done..|]. intros t s' HR HP Hf' Hr. apply wp_bind, wp_write_regs; [done..|].
    intros w' Hw'. rewrite Hidx in Hw'. by apply wp_ret.
  - apply wp_ret. rewrite <- Hw. split; [apply Hc|]. split; [done|]. cbn [fst].
    rewrite H0 at 1. by apply rewritten_refl.
Qed.

Lemma wp_bias :
  wp (if b then t ← draw; write_regs w op (f t) ;; mret t else mret t0)
     (λ t s', R t ∧ rewritten op w (f t) (field op <$> (f t0).*1) s'.(raw_instr)) s.
Proof using All.
  pose proof wp_bias_word as H. revert H. unfold wp. destruct b; [|by cbn; intros (? & _ & ?)].
  unfold mbind, M_bind. destruct (draw s) as [t s1|]; [|done].
  destruct (write_regs w op (f t) s1); [|done]. cbn. by intros (? & _ & ?).
Qed.
End bias_step.

(** ** 4. Irregular writes *)

(** The same register field written twice: the second value stays. *)
Lemma wp_write_twice op i a b w Q s :
  gpr_field op i = true → 0 ≤ b < 16 → is_u32 w →
  (∀ w', rewritten op w [(i, b)] [field op i] w' → Q w' (st_raw_instr w' s)) →
  wp (write_regs w op [(i, a); (i, b)]) Q s.
Proof.
  intros Hi Hb Hu HQ. pose proof (gpr_field_spec op i Hi) as (Hs & He & _ & _).
  set (w1 := set_instr_val w (field op i).1 (field op i).2 a).
  assert (is_u32 w1) as Hu1 by (unfold w1; auto with rit).
  destruct (set_instr_regs_spec op [(i, b)] w1 s) as (w' & E & [Hu' Hr Ho]);
    [cbn; by rewrite Hi|by constructor|done|].
  unfold write_regs. apply wp_bind, (wp_intro _ _ _ w' s).
  { by rewrite set_instr_regs_cons by (cbn in *; lia). }
  apply wp_bind, wp_modify, wp_ret, HQ. split; [done|done|]. intros s0 e0 Hs0 He0 Hc.
  rewrite Ho by done. cbn in Hc. rewrite andb_true_r in Hc. by apply (get_set_clear w (field op i)).
Qed.

(** A register field, then a field [j] that holds no register. *)
Lemma wp_write_reg_imm op i j a b w Q s :
  gpr_field op i = true → 0 ≤ a < 16 → is_u32 w →
  (0 <=? (field op j).1) && ((field op j).1 <=? (field op j).2) && ((field op j).2 <? 31) = true →
  clear_of (field op j) (field op i) = true →
  (∀ w', rewritten op w [(i, a)] [field op j; field op i] w' → Q w' (st_raw_instr w' s)) →
  wp (write_regs w op [(i, a); (j, b)]) Q s.
Proof.
  intros Hi Ha Hu [[H1%Z.leb_le H2%Z.leb_le]%andb_true_iff H3%Z.ltb_lt]%andb_true_iff Hc HQ.
  destruct (set_instr_regs_spec op [(i, a)] w s) as (w1 & E & Hw1); [cbn; by rewrite Hi|by constructor|done|].
  pose proof (gpr_field_spec op i Hi) as (Hs & He & _ & _).
  rewrite set_instr_regs_cons in E by (cbn in *; lia). 
  assert (set_instr_val w (field op i).1 (field op i).2 a = w1) as Ew1 by (by injection E).
  unfold write_regs. eapply wp_bind, wp_intro.
  { rewrite !set_instr_regs_cons, Ew1 by (cbn in *; lia). reflexivity. }
  apply wp_bind, wp_modify, wp_ret, HQ. apply (rewritten_set op w _ _ _ (field op j)); [done|lia|lia|].
  cbn. by rewrite Hi, Hc.
Qed.

Lemma rewritten_weaken op w l f fs w' : rewritten op w l fs w' → rewritten op w l (f :: fs) w'.
Proof. intros [Hu Hr Ho]. split; [done|done|]. by intros s e Hs He [_ Hc]%andb_true_iff; apply Ho. Qed.

(** The shift amount may be biased, too. *)
Lemma wp_bias_shift_imm op w l fs b s :
  rewritten op w l fs s.(raw_instr) →
  (b = true → forallb (λ i, gpr_field op i && clear_of (7, 11) (field op i)) l.*1 = true) →
  wp (bias_shift_imm s.(raw_instr) b) (λ _ s', rewritten op w l ((7, 11) :: fs) s'.(raw_instr)) s.
Proof.
  intros Hw Hb. unfold bias_shift_imm, when. apply wp_bind, wp_gets, wp_if.
  - intros [_ Hb']%andb_true_iff. apply wp_bind. apply (wp_intro _ _ _ _ _ eq_refl).
    cbn [raw_instr st_raw_instr]. apply (rewritten_set op w l fs _ (7, 11)); cbn; auto with lia.
  - intros _. by apply wp_ret, rewritten_weaken.
Qed.

(** A register whose field was not touched. *)
Lemma rewritten_regnum op w l fs w' i :
  rewritten op w l fs w' → gpr_field op i = true → forallb (λ f, clear_of f (field op i)) fs = true →
  regnum w' op i = regnum w op i.
Proof.
  intros Hw Hi Hc. pose proof (gpr_field_spec op i Hi) as Hs. destruct (field op i) as [s e].
  destruct Hs as (Hs & He & _ & Hreg). rewrite !Hreg. by apply (rw_other _ _ _ _ _ Hw).
Qed.
End bias.
