(* ===== verification/ValidSpec.v ===== *)
(** * What a VALID status promises: multiplications and data processing

    The generators classify the encoding they leave: [VALID] means that none of
    the restrictions of the architecture manual is violated.  Here the
    restrictions are stated of the word that is left, after the registers were
    biased, and not of the values the C code happens to test. *)
From S2P Require Import Prelude RitCommon InstrTable State InstrUtil InstrBuf BiasUtil GenHelper GenARMMem GenARMInstr ValidBias.
#[local] Open Scope c_scope.

(** ** 1. Statuses and opcode lists *)

(** A status that survives [upd c X] with [X] not VALID. *)
Lemma upd_valid (c : bool) X st : X ≠ VALID → upd c X st = VALID → c = false ∧ st = VALID.
Proof. by destruct c. Qed.

(** A computed fact about every opcode of a list. *)
Lemma op_in_eq {A} `{EqDecision A} (f : Z → A) (a : A) op l :
  op_in op l = true → forallb (λ op, bool_decide (f op = a)) l = true → f op = a.
Proof. intros H Hl. by apply (bool_decide_eq_true_1 _), (op_in_check (λ op, bool_decide (f op = a)) op l). Qed.

(** Boolean checks as propositions. *)
Ltac bools := repeat match goal with
  | H : (_ || _) = false |- _ => apply orb_false_iff in H as [? ?]
  | H : (_ =? _) = false |- _ => apply Z.eqb_neq in H
  | H : (_ =? _) = true |- _ => apply Z.eqb_eq in H
  | H : (_ <? _) = false |- _ => apply Z.ltb_ge in H
  | H : true && _ = false |- _ => cbn [andb] in H
  | H : ?b = true, H' : ?b && _ = false |- _ => rewrite H in H'; cbn [andb] in H'
  | H : ?b = true, H' : _ && ?b = false |- _ => rewrite H, andb_true_r in H'
  end.

(** Splits a VALID status, [upd] by [upd], into the negated checks. *)
Ltac valid_split H :=
  repeat lazymatch type of H with
  | upd _ _ _ = VALID => apply upd_valid in H as [? H]; [|discriminate]
  | (if ?b then _ else _) = VALID => destruct b eqn:?
  end; try discriminate.

(** A fact about the opcode, computed for every opcode of its list. *)
Ltac by_list :=
  match goal with H : op_in ?op ?l = true |- ?lhs = ?a =>
    let f := eval pattern op in lhs in
    lazymatch f with ?f _ => apply (op_in_eq f a op l H); vm_compute; reflexivity end end.

(** The bias step of the generators, by [rule]; [H] says what it leaves. *)
Ltac bias_by rule copies :=
  eapply rule;
    [apply copies|done|done
    |intros ? ?; unfold elems_2, elems_3, elems_4; cbn [fmap list_fmap snd]; rewrite !Forall_cons; tauto
    |reflexivity|reflexivity|cbn [fmap list_fmap fst]; first [assumption|by_list|idtac]|..].
Ltac bias_with copies H :=
  eapply wp_mono; [bias_by uconstr:(wp_bias) copies|intros t s' H; cbn beta in H].

(** No register of the operands [l] is the PC. *)
Definition no_pc (op : Z) (l : list nat) (w : Z) : Prop := Forall (λ i, regnum w op i ≠ R_PC) l.
(** Closes [no_pc] goals from the registers that were written. *)
Ltac no_pc := unfold no_pc; cbn [fmap list_fmap fst snd]; rewrite ?Forall_cons; split_and?; (done || congruence).

(** The registers of the word, from what the bias step left. *)
Ltac regs_facts H :=
  apply rw_regs in H; rewrite ?Forall_cons in H; cbn [fst snd] in H; destruct_and? H.

Section valid.
Context `{Env : !RitEnv}.

(** ** 2. Multiplications *)

Definition mul_ops_2 : list Z :=
  [SISA_OP_MUL; SISA_OP_SMULBB; SISA_OP_SMULWB; SISA_OP_SMUAD; SISA_OP_SMUSD; SISA_OP_SMMUL].
Definition mul_ops_3 : list Z :=
  [SISA_OP_MLA; SISA_OP_SMLABB; SISA_OP_SMLAWB; SISA_OP_MLS; SISA_OP_SMLAD; SISA_OP_SMLSD;
   SISA_OP_SMMLA; SISA_OP_SMMLS].
Definition mul_ops_long : list Z :=
  [SISA_OP_SMLAL; SISA_OP_SMLALBB; SISA_OP_SMULL; SISA_OP_UMLAL; SISA_OP_UMULL; SISA_OP_UMAAL;
   SISA_OP_SMLALD; SISA_OP_SMLSLD].

(** The register operands of a multiplication. *)
Definition mul_operands (op : Z) : list nat :=
  if op_in op mul_ops_2 then [SISA_OUTPUT0; SISA_INPUT0; SISA_INPUT1]
  else if op_in op mul_ops_3 then [SISA_OUTPUT0; SISA_INPUT0; SISA_INPUT1; SISA_INPUT2]
  else if op_in op mul_ops_long then [SISA_OUTPUT0; SISA_OUTPUT1; SISA_INPUT0; SISA_INPUT1]
  else [].

(** No operand is the PC, and the halves of a long result are different. *)
Definition mul_ok (op w : Z) : Prop :=
  no_pc op (mul_operands op) w
  ∧ (op_in op mul_ops_long = true → regnum w op SISA_OUTPUT0 ≠ regnum w op SISA_OUTPUT1).

Lemma wp_gen_mul_2 op s :
  op_in op mul_ops_2 = true → is_u32 s.(raw_instr) →
  wp (gen_mul_2 op s.(raw_instr)) (λ st s', st = VALID → mul_ok op s'.(raw_instr)) s.
Proof.
  intros Hin Hu. unfold gen_mul_2. apply wp_bind, wp_gets. cbv zeta. apply wp_bind, wp_gets, wp_bind.
  bias_with random_bias_reg_3_copies Hb.
  destruct t as [[d m] n], Hb as (_ & Hr). regs_facts Hr.
  apply wp_ret. intros Hv. valid_split Hv. bools. split.
  - assert (mul_operands op = [SISA_OUTPUT0; SISA_INPUT0; SISA_INPUT1]) as -> by by_list. no_pc.
  - by assert (op_in op mul_ops_long = false) as -> by by_list.
Qed.

Lemma wp_gen_mul_3 op s :
  op_in op mul_ops_3 = true → is_u32 s.(raw_instr) →
  wp (gen_mul_3 op s.(raw_instr)) (λ st s', st = VALID → mul_ok op s'.(raw_instr)) s.
Proof.
  intros Hin Hu. unfold gen_mul_3. apply wp_bind, wp_gets. cbv zeta. apply wp_bind, wp_gets, wp_bind.
  bias_with random_bias_reg_4_copies Hb. destruct t as [[[d n] m] a], Hb as (Hlast & Hr).
  regs_facts Hr. apply wp_ret. intros Hv. cbn in Hlast.
  split; [|by assert (op_in op mul_ops_long = false) as -> by by_list].
  assert (mul_operands op = [SISA_OUTPUT0; SISA_INPUT0; SISA_INPUT1; SISA_INPUT2]) as -> by by_list.
  valid_split Hv; bools; (no_pc || (destruct Hlast; no_pc)).
Qed.

Lemma wp_gen_mul_long op s :
  op_in op mul_ops_long = true → is_u32 s.(raw_instr) →
  wp (gen_mul_long op s.(raw_instr)) (λ st s', st = VALID → mul_ok op s'.(raw_instr)) s.
Proof.
  intros Hin Hu. unfold gen_mul_long. apply wp_bind, wp_gets. cbv zeta. apply wp_bind, wp_gets, wp_bind.
  bias_with random_bias_reg_4_copies Hb. destruct t as [[[h l] n] m], Hb as (_ & Hr).
  regs_facts Hr. apply wp_ret. intros Hv. valid_split Hv. bools. split; [|intros _; congruence].
  assert (mul_operands op = [SISA_OUTPUT0; SISA_OUTPUT1; SISA_INPUT0; SISA_INPUT1]) as -> by by_list.
  no_pc.
Qed.
(** ** 3. Data processing *)

(** Register-shifted register forms: the shift amount is in a register. *)
Definition is_rsr (op : Z) : bool :=
  opnd_type_eqb (opnd_of op SISA_INPUT2).(type) SISA_OPND_TYPE_SHIFT_REG.
Definition has_opnd (op : Z) (i : nat) : bool :=
  negb (opnd_type_eqb (opnd_of op i).(type) SISA_OPND_TYPE_NONE).
Definition rsr_operands (op : Z) : list nat :=
  (if has_opnd op SISA_OUTPUT0 then [SISA_OUTPUT0] else []) ++ [SISA_INPUT0; SISA_INPUT1; SISA_INPUT2].

Lemma rsr_fields op : 0 ≤ op < SISA_OP_MAX → is_rsr op = true → reg_fields op (rsr_operands op) = true.
Proof.
  intros Hop Hr. pose proof (table_check (λ op, negb (is_rsr op) || reg_fields op (rsr_operands op))
    ltac:(vm_compute; reflexivity) op Hop) as HT. cbv beta in HT. by rewrite Hr in HT.
Qed.

(** Every run of [write_regs] that ends leaves the word it returns. *)
Lemma set_instr_regs_state op l w s w' s' : set_instr_regs w op l s = Ok w' s' → s' = s.
Proof.
  revert w. induction l as [|[i r] l IH]; intros w; cbn [set_instr_regs]; [by intros [= _ <-]|].
  intros (w1 & s1 & E & H)%bind_ok. revert E H. unfold set_instr_reg, set_instr, assertM, mbind, M_bind.
  destruct (_ <=? _); [|done]. intros [= <- <-]. apply IH.
Qed.

Lemma write_regs_state op l w s w' s' : write_regs w op l s = Ok w' s' → s' = st_raw_instr w' s.
Proof.
  unfold write_regs. intros (w1 & s1 & E & H)%bind_ok. apply set_instr_regs_state in E as ->.
  by injection H as <- <-.
Qed.

(** The word a step returns is the one in [raw_instr]. *)
Definition mirrors (m : rit Z) (s : rit_state) : Prop :=
  ∀ w s', m s = Ok w s' → w = s'.(raw_instr).

Ltac mirror_bias :=
  intros (b & s1 & [= <- <-] & H)%bind_ok; destruct (opt_stat _ _);
  [apply bind_ok in H as (r & s2 & _ & H); by apply write_regs_state in H as ->|by injection H as <- <-].

Lemma mirrors_bias_2 op s i j : mirrors (data_bias_2 s.(raw_instr) op i j) s.
Proof. intros w s'. unfold data_bias_2. mirror_bias. Qed.
Lemma mirrors_bias_3 op s i j k : mirrors (data_bias_3 s.(raw_instr) op i j k) s.
Proof. intros w s'. unfold data_bias_3. mirror_bias. Qed.
Lemma mirrors_bias_4 op s i j k l : mirrors (data_bias_4 s.(raw_instr) op i j k l) s.
Proof. intros w s'. unfold data_bias_4. mirror_bias. Qed.

(** The branches of [gen_data_instr] return a status and the word they leave. *)
Definition mirrors2 (m : rit (instr_status_t * Z)) (s : rit_state) : Prop :=
  ∀ st w s', m s = Ok (st, w) s' → w = s'.(raw_instr).

Lemma mirrors2_ret st s : mirrors2 (mret (st, s.(raw_instr))) s.
Proof. intros ? ? ? [= _ <- <-]. done. Qed.

Lemma mirrors2_bind m st s : mirrors m s → mirrors2 (w ← m; mret (st, w)) s.
Proof. intros Hm st' w s' (w1 & s1 & E & [= _ <- <-])%bind_ok. by apply Hm. Qed.

Lemma mirrors_if (b : bool) m1 m2 s : mirrors m1 s → mirrors m2 s → mirrors (if b then m1 else m2) s.
Proof. by destruct b. Qed.

Lemma mirrors_ret s : mirrors (mret s.(raw_instr)) s.
Proof. intros ? ? [= <- <-]. done. Qed.

Lemma mirrors_branches op s :
  mirrors2 (gen_data_rsr op s.(raw_instr)) s ∧ mirrors2 (gen_data_rsi op s.(raw_instr)) s
  ∧ mirrors2 (gen_data_noext op s.(raw_instr)) s.
Proof.
  split_and!; [unfold gen_data_rsr|unfold gen_data_rsi|unfold gen_data_noext];
    repeat case_match; try apply mirrors2_ret; apply mirrors2_bind;
    first [solve [auto using mirrors_ret, mirrors_bias_2, mirrors_bias_3, mirrors_bias_4]
          |apply mirrors_if; auto using mirrors_ret, mirrors_bias_2, mirrors_bias_3].
Qed.

(** The bias step of [gen_data_instr]: no register was the PC, so none becomes it. *)
Lemma wp_rsr_bias {T} elems (t0 : T) R (f : T → list (nat * Z)) (draw : rit T) op w s :
  copies elems t0 R draw → is_u32 w → w = s.(raw_instr) →
  (∀ P t, Forall P (elems t) ↔ Forall P (f t).*2) → (∀ t, (f t).*1 = (f t0).*1) →
  f t0 = regs_of op w (f t0).*1 → reg_fields op (f t0).*1 = true →
  no_pc op (f t0).*1 w →
  wp (b ← GET_OPT_STAT OPT_ALLOW_BIAS_OPND;
      if b : bool then t ← draw; write_regs w op (f t) else mret w)
     (λ _ s', no_pc op (f t0).*1 s'.(raw_instr)) s.
Proof.
  intros Hc Hu Hw He Hidx H0 Hf Hpc. apply wp_bind, wp_gets, wp_if; intros _.
  - eapply wp_draw; [done..|]. intros t s' _ HP Hf' Hr. apply wp_write_regs; [done..|].
    intros w' [_ Hregs _]. cbn [raw_instr st_raw_instr]. unfold no_pc in *. rewrite <- (Hidx t).
    rewrite Forall_fmap. assert (Forall (λ r, r ≠ R_PC) (f t).*2) as Hne.
    { apply He, HP, He. rewrite H0. unfold regs_of. by rewrite !Forall_fmap in *. }
    rewrite Forall_fmap in Hne. rewrite Forall_forall in *. intros ir Hir. cbn.
    rewrite (Hregs ir Hir). by apply Hne.
  - apply wp_ret. by rewrite <- Hw.
Qed.

Lemma wp_gen_data_rsr op s :
  0 ≤ op < SISA_OP_MAX → is_rsr op = true → is_u32 s.(raw_instr) →
  wp (gen_data_rsr op s.(raw_instr)) (λ r s', r.1 = VALID → no_pc op (rsr_operands op) s'.(raw_instr)) s.
Proof.
  intros Hop Hr Hu. pose proof (rsr_fields op Hop Hr) as Hf. unfold gen_data_rsr, rsr_operands in *.
  cbv zeta. fold (has_opnd op SISA_OUTPUT0). destruct (has_opnd op SISA_OUTPUT0); cbn [app] in *;
    (apply wp_if; [by intros _; apply wp_ret|]); intros Hpc; bools; apply wp_bind;
    [unfold data_bias_4|unfold data_bias_3]; eapply wp_mono.
  - bias_by uconstr:(wp_rsr_bias) random_bias_reg_4_copies. no_pc.
  - intros w s' Hs'. by apply wp_ret.
  - bias_by uconstr:(wp_rsr_bias) random_bias_reg_3_copies. no_pc.
  - intros w s' Hs'. by apply wp_ret.
Qed.

Lemma gen_mul_instr_ok (op : Z) (s s' : rit_state) :
  is_u32 s.(raw_instr) → gen_mul_instr op s = Ok VALID s' → mul_ok op s'.(raw_instr).
Proof.
  intros Hu E. assert (wp (gen_mul_instr op) (λ st s', st = VALID → mul_ok op s'.(raw_instr)) s) as H.
  { unfold gen_mul_instr. apply wp_bind, wp_gets.
    fold mul_ops_2 mul_ops_3 mul_ops_long.
    repeat (apply wp_if; [by auto using wp_gen_mul_2, wp_gen_mul_3, wp_gen_mul_long|intros _]).
    by apply wp_ret. }
  unfold wp in H. rewrite E in H. by apply H.
Qed.

(** Data-processing restrictions: the result does not go to the PC, and no
    register of a register-shifted form is the PC. *)
Definition data_ok (op w : Z) : Prop :=
  (∀ i, i = SISA_OUTPUT0 ∨ i = SISA_OUTPUT1 → has_opnd op i = true → regnum w op i ≠ R_PC)
  ∧ (is_rsr op = true → no_pc op (rsr_operands op) w).

Lemma gen_data_instr_ok (op : Z) (s s' : rit_state) :
  0 ≤ op < SISA_OP_MAX → is_u32 s.(raw_instr) → gen_data_instr op s = Ok VALID s' → data_ok op s'.(raw_instr).
Proof.
  intros Hop Hu. unfold gen_data_instr. intros (w & s0 & [= <- <-] & H)%bind_ok.
  apply bind_ok in H as ([st w] & s1 & E & H). injection H as Hv <-.
  assert (w = s1.(raw_instr)) as ->.
  { destruct (mirrors_branches op s) as (H1 & H2 & H3). revert E.
    destruct (type (opnd_of op SISA_INPUT2)); intros E;
      first [by apply H1 in E|by apply H2 in E|by apply H3 in E|by injection E as _ <- <-]. }
  apply upd_valid in Hv as [H1 Hv]; [|done]. apply upd_valid in Hv as [H0 Hv]; [|done]. split.
  - intros i [-> | ->] Hi; unfold has_opnd in Hi; rewrite Hi in *; by apply Z.eqb_neq.
  - intros Hr. pose proof (wp_gen_data_rsr op s Hop Hr Hu) as Hw. unfold is_rsr in Hr.
    revert E. destruct (type (opnd_of op SISA_INPUT2)); try done. intros E.
    unfold wp in Hw. rewrite E in Hw. by apply Hw.
Qed.

(** ** 4. Properties *)

(** A VALID multiplication obeys the manual: whatever the registers of the
    word, and however they are biased, if [gen_mul_instr] answers [VALID] then
    in the word it leaves no operand is the PC, and the two halves of a long
    result are different registers. *)
Theorem gen_mul_instr_valid (op : Z) (s s' : rit_state) :
  is_u32 s.(raw_instr) → gen_mul_instr op s = Ok VALID s' → mul_ok op s'.(raw_instr).
Proof. apply gen_mul_instr_ok. Qed.

(** A VALID data-processing instruction obeys the manual: if
    [gen_data_instr] answers [VALID] then in the word it leaves, biased
    registers included, no destination is the PC and no register of a
    register-shifted form is the PC. *)
Theorem gen_data_instr_valid (op : Z) (s s' : rit_state) :
  0 ≤ op < SISA_OP_MAX → is_u32 s.(raw_instr) → gen_data_instr op s = Ok VALID s' → data_ok op s'.(raw_instr).
Proof. apply gen_data_instr_ok. Qed.
End valid.

Lemma gen_data_instr_valid_witness :
  data_ok SISA_OP_ADD_rsh 0xe0812413.
Proof.
  apply (gen_data_instr_valid (Env := lcg_env) SISA_OP_ADD_rsh (st_raw_instr 0xe0812413 zero_state)
    (st_raw_instr 0xe0812413 zero_state)).
  - done.
  - vm_compute. split; [discriminate|reflexivity].
  - vm_compute. reflexivity.
Defined.

Lemma gen_mul_instr_valid_witness :
  mul_ok SISA_OP_SMULL 0xe0c12394.
Proof.
  apply (gen_mul_instr_valid (Env := lcg_env) SISA_OP_SMULL (st_raw_instr 0xe0c12394 zero_state)
    (st_raw_instr 0xe0c12394 zero_state)).
  - vm_compute. split; [discriminate|reflexivity].
  - vm_compute. reflexivity.
Defined.
