(* ===== verification/ValidMem.v ===== *)
(** * What a VALID status promises for ARM loads and stores

    The register restrictions of the architecture manual, stated of the fields
    of the word (Rt, Rn and Rm, and the P and W bits), for every word that
    [gen_ld_instr] and [gen_st_instr] leave with a VALID status. *)
From S2P Require Import Prelude RitCommon InstrTable State InstrUtil InstrBuf Keeps BiasUtil GenHelper MemSpec GenARMMem GenARMInstr ValidBias ValidSpec.
#[local] Open Scope c_scope.

(** ** 1. Fields of the word *)

Definition Rt (w : Z) : Z := get_bits_value w 12 15.
Definition Rn (w : Z) : Z := get_bits_value w 16 19.
Definition Rm (w : Z) : Z := get_bits_value w 0 3.
Definition Pbit (w : Z) : bool := Z.testbit w 24.
Definition Wbit (w : Z) : bool := Z.testbit w 21.
(** Post-indexed or write-back: the base register is written. *)
Definition writes_back (w : Z) : bool := negb (Pbit w) || Wbit w.

Lemma get_bit_value_eqb w b v :
  0 ≤ b < 32 → v = 0 ∨ v = 1 → (get_bit_value w b =? v) = Bool.eqb (Z.testbit w b) (v =? 1).
Proof. intros Hb Hv. rewrite get_bit_value_testbit by done. by destruct (Z.testbit w b), Hv as [-> | ->]. Qed.

Lemma puw_wback w : (puw_of w).(wback) = writes_back w.
Proof.
  unfold puw_of, writes_back, Pbit, Wbit. cbv zeta. cbn [wback P W].
  rewrite !get_bit_value_eqb by (lia || auto).
  by destruct (Z.testbit w 24), (Z.testbit w 21).
Qed.

Lemma puw_unpriv w : unpriv (puw_of w) = negb (Pbit w) && Wbit w.
Proof.
  unfold unpriv, puw_of, Pbit, Wbit. cbv zeta. cbn [wback P W].
  rewrite !get_bit_value_eqb by (lia || auto).
  by destruct (Z.testbit w 24), (Z.testbit w 21).
Qed.

(** Words that agree from bit 2 up, where the transfer registers are. *)
Definition agree (w w' : Z) : Prop := ∀ k, 2 ≤ k → Z.testbit w' k = Z.testbit w k.

Lemma agree_field w w' s e :
  agree w w' → 2 ≤ s ≤ e → e < 31 → get_bits_value w' s e = get_bits_value w s e.
Proof.
  intros Ha Hs He. apply Z.bits_inj'. intros k Hk. rewrite !testbit_get_bits_value by lia.
  by rewrite Ha by lia.
Qed.

Lemma agree_regs w w' :
  agree w w' → Rt w' = Rt w ∧ Rn w' = Rn w ∧ Pbit w' = Pbit w ∧ Wbit w' = Wbit w.
Proof.
  intros Ha. unfold Rt, Rn, Pbit, Wbit.
  rewrite !(agree_field w w') by (done || lia). by rewrite !Ha by lia.
Qed.

(** ** 2. Computations that keep the word *)

(** [I] is kept of [raw_instr] by every run that ends. *)
Definition raw_inv (I : Z → Prop) {A} (m : rit A) : Prop :=
  ∀ s a s', I s.(raw_instr) → m s = Ok a s' → I s'.(raw_instr).

(** A computation of a status that is VALID only if [st] is, and keeps [I]. *)
Definition passes (I : Z → Prop) (st : instr_status_t) (m : rit instr_status_t) : Prop :=
  ∀ s s', I s.(raw_instr) → m s = Ok VALID s' → st = VALID ∧ I s'.(raw_instr).

(** A computation that ends with VALID only if [Q] holds, and keeps [I]. *)
Definition yields (I : Z → Prop) (Q : Prop) (m : rit instr_status_t) : Prop :=
  ∀ s s', I s.(raw_instr) → m s = Ok VALID s' → Q ∧ I s'.(raw_instr).

Section rules.
Context `{Env : !RitEnv}.
Context (I : Z → Prop).

Lemma raw_inv_ret {A} (a : A) : raw_inv I (mret a).
Proof. intros s a' s' Hs [= _ <-]. done. Qed.
Lemma raw_inv_gets {A} (f : rit_state → A) : raw_inv I (gets f).
Proof. intros s a' s' Hs [= _ <-]. done. Qed.
Lemma raw_inv_rand : raw_inv I rand.
Proof. intros s a' s' Hs [= _ <-]. done. Qed.
Lemma raw_inv_bind {A B} (m : rit A) (k : A → rit B) :
  raw_inv I m → (∀ a, raw_inv I (k a)) → raw_inv I (m ≫= k).
Proof. intros Hm Hk s b s' Hs (a & s1 & E & E')%bind_ok. eapply Hk; [by eapply Hm|done]. Qed.
Lemma raw_inv_if {A} (b : bool) (m1 m2 : rit A) :
  raw_inv I m1 → raw_inv I m2 → raw_inv I (if b then m1 else m2).
Proof. by destruct b. Qed.
Lemma raw_inv_when (b : bool) m : raw_inv I m → raw_inv I (when b m).
Proof. intros H. by apply raw_inv_if; [|apply raw_inv_ret]. Qed.
Lemma raw_inv_set v : I v → raw_inv I (set_raw_instr v).
Proof. intros Hv s a s' Hs [= _ <-]. done. Qed.
Lemma raw_inv_cond_val v : raw_inv I (on_options (opt_cond_val v)).
Proof. intros s a s' Hs [= _ <-]. done. Qed.

Lemma raw_inv_emit str : raw_inv I (emit str).
Proof.
  intros s a s' Hs. unfold emit, sprintf_line, insert_instr, assertM, mbind, M_bind, gets, modify.
  destruct (_ <=? _); [|done]. cbn. destruct (_ <? _); [|done]. cbn. by intros [= _ <-].
Qed.

Lemma passes_ret st : passes I st (mret st).
Proof. intros s s' Hs [= -> <-]. done. Qed.
Lemma passes_upd (b : bool) X st : X ≠ VALID → passes I st (mret (upd b X st)).
Proof. intros HX s s' Hs [= Hv <-]. by destruct b. Qed.
Lemma passes_bind {A} st (m : rit A) k :
  raw_inv I m → (∀ a, passes I st (k a)) → passes I st (m ≫= k).
Proof. intros Hm Hk s s' Hs (a & s1 & E & E')%bind_ok. eapply Hk; [by eapply Hm|done]. Qed.
Lemma passes_seq st m k :
  raw_inv I m → passes I st m → (∀ st', passes I st' (k st')) → passes I st (m ≫= k).
Proof.
  intros Hr Hm Hk s s' Hs (st' & s1 & E & E')%bind_ok.
  destruct (Hk st' s1 s' (Hr _ _ _ Hs E) E') as [-> ?]. by destruct (Hm s s1 Hs E).
Qed.
Lemma passes_if st (b : bool) m1 m2 : passes I st m1 → passes I st m2 → passes I st (if b then m1 else m2).
Proof. by destruct b. Qed.

Lemma passes_yields st Q m : passes I st m → (st = VALID → Q) → yields I Q m.
Proof. intros Hm HQ s s' Hs E. destruct (Hm s s' Hs E) as [Hv ?]. auto. Qed.
Lemma yields_bind {A} Q (m : rit A) k : raw_inv I m → (∀ a, yields I Q (k a)) → yields I Q (m ≫= k).
Proof. intros Hm Hk s s' Hs (a & s1 & E & E')%bind_ok. eapply Hk; [by eapply Hm|done]. Qed.
End rules.

Create HintDb raw discriminated.
#[export] Hint Resolve raw_inv_ret raw_inv_gets raw_inv_rand raw_inv_emit raw_inv_cond_val : raw.

(** Symbolic execution of both judgements. *)
Ltac raw_step :=
  lazymatch goal with
  | |- raw_inv _ (let x := ?v in @?f x) => change (raw_inv _ (f v)); cbv beta
  | |- raw_inv _ (match ?x with (_, _) => _ end) => destruct x
  | |- raw_inv _ (match ?x with Some _ => _ | None => _ end) => destruct x
  | |- raw_inv _ (when _ _) => apply raw_inv_when
  | |- raw_inv _ (if _ then _ else _) => apply raw_inv_if
  | |- raw_inv _ (_ ≫= _) => first [solve [eauto with raw]|apply raw_inv_bind; [|intros ?]]
  | |- raw_inv _ _ => solve [eauto with raw]
  end.
Ltac raw := repeat raw_step.

Section helpers.
Context `{Env : !RitEnv}.
Context (I : Z → Prop).

Lemma raw_inv_fix_mem_base r fa : raw_inv I (fix_mem_base r fa).
Proof.
  unfold fix_mem_base, fix_mask_thumb, fix_mask_arm, is_imm_encodable, opt. cbv zeta. raw.
Qed.
Lemma raw_inv_gen_pre r : raw_inv I (gen_pre_instr_for_mem_base r).
Proof. unfold gen_pre_instr_for_mem_base, opt, GET_OPT_STAT. cbv zeta. raw. Qed.
Lemma raw_inv_mem_offset t n : raw_inv I (get_rand_mem_offset t n).
Proof. unfold get_rand_mem_offset. raw. Qed.
Lemma raw_inv_is_mem_align a b : raw_inv I (is_mem_align a b).
Proof. unfold is_mem_align, GET_OPT_STAT. cbv zeta. raw. Qed.
Lemma raw_inv_chk_halfword op l a st : raw_inv I (chk_halfword op l a st).
Proof. unfold chk_halfword, opt. raw. Qed.

Lemma passes_chk_halfword op l a st : passes I st (chk_halfword op l a st).
Proof. apply passes_bind; [apply raw_inv_gets|]. intros arch. by apply passes_upd. Qed.
Lemma passes_chk_word op l a st : passes I st (chk_word op l a st).
Proof.
  apply passes_if; [|apply passes_ret]. apply passes_bind; [apply raw_inv_is_mem_align|].
  intros al. by apply passes_upd.
Qed.
End helpers.
#[export] Hint Resolve raw_inv_fix_mem_base raw_inv_gen_pre raw_inv_mem_offset raw_inv_is_mem_align
  raw_inv_chk_halfword passes_ret passes_chk_halfword passes_chk_word : raw.

Ltac passes_step :=
  lazymatch goal with
  | |- raw_inv _ _ => raw_step
  | |- passes _ _ (let x := ?v in @?f x) => change (passes _ _ (f v)); cbv beta
  | |- passes _ _ (match ?x with (_, _) => _ end) => destruct x
  | |- passes _ _ (if _ then _ else _) => apply passes_if
  | |- passes _ _ (chk_halfword _ _ _ _ ≫= _) => apply passes_seq; [|solve [eauto with raw]|intros ?]
  | |- passes _ _ (_ ≫= _) => apply passes_bind; [|intros ?]
  | |- passes _ _ _ => solve [eauto with raw]
  end.
Ltac passes := repeat passes_step.

(** ** 3. The branches *)

(** The double-word forms write the word back with its two low bits clear. *)
Lemma agree_align w : is_u32 w → agree w (set_instr_val w 0 1 0).
Proof.
  intros Hu k Hk. rewrite testbit_set_instr_val by (lia || done).
  by rewrite (proj2 (Z.leb_gt k 1)), andb_false_r by lia.
Qed.

Lemma raw_inv_align w : is_u32 w → raw_inv (agree w) (i ← set_instr w 0 1 0; set_raw_instr i).
Proof.
  intros Hu s a s' Hs (i & s1 & E & [= _ <-])%bind_ok. rewrite set_instr_ok in E by lia.
  injection E as <- <-. by apply agree_align.
Qed.

Lemma agree_refl w : agree w w.
Proof. done. Qed.
#[export] Hint Resolve raw_inv_align agree_refl : raw.

(** The restrictions, from the checks that made the status. *)
Ltac mem_facts := intros Hv; valid_split Hv; split_and!; intros; split_and?; intros; bools; try done; try congruence.

Section branches.
Context `{Env : !RitEnv}.

(** What the branches with a write-back form have in common. *)
Definition base_ok (w t n : Z) : Prop :=
  n ≠ R_PC ∧ (negb (Pbit w) && Wbit w) = false ∧ (writes_back w = true → n ≠ t).
(** A register pair starts at an even register below the stack pointer pair. *)
Definition pair_ok (w t n : Z) : Prop :=
  t mod 2 ≠ 1 ∧ t ≠ 14 ∧ (writes_back w = true → n ≠ u32 (t + 1)).

(** The memory set-up carries the status through; the checks that made it say [Q]. *)
Ltac mem_branch := eapply passes_yields; [cbv zeta; passes|cbv zeta; mem_facts].

Lemma ld_imm_yields op w t n :
  is_u32 w →
  yields (agree w) (t ≠ R_PC ∧ base_ok w t n ∧ (op = SISA_OP_LDRD_imm → pair_ok w t n))
    (gen_ld_imm op w t n (puw_of w)).
Proof.
  intros Hu. unfold base_ok, pair_ok. rewrite <- puw_wback, <- puw_unpriv.
  unfold gen_ld_imm. mem_branch.
Qed.

Lemma ld_unpriv_imm_yields op w t n f :
  yields (eq w) (t ≠ R_PC ∧ n ≠ R_PC ∧ n ≠ t) (gen_ld_unpriv_imm op w t n f).
Proof. unfold gen_ld_unpriv_imm. mem_branch. Qed.

Lemma ld_reg_yields op w t n :
  let m := regnum w op SISA_INPUT1 in
  yields (eq w) (t ≠ R_PC ∧ base_ok w t n ∧ m ≠ R_PC ∧ m ≠ n
    ∧ (op = SISA_OP_LDRD_reg → pair_ok w t n ∧ m ≠ t ∧ m ≠ u32 (t + 1)))
    (gen_ld_reg op w t n (puw_of w)).
Proof.
  cbv zeta. unfold base_ok, pair_ok. rewrite <- puw_wback, <- puw_unpriv.
  unfold gen_ld_reg. apply yields_bind; [apply raw_inv_gets|]. intros arch.
  destruct (if op_in op [SISA_OP_LDR_reg; SISA_OP_LDRB_reg] then _ else _) as [shift_n shift_t].
  mem_branch. by intros ->.
Qed.

Lemma ld_unpriv_reg_yields op w t n f :
  let m := regnum w op SISA_INPUT1 in
  yields (eq w) (t ≠ R_PC ∧ n ≠ R_PC ∧ n ≠ t ∧ m ≠ R_PC ∧ m ≠ n) (gen_ld_unpriv_reg op w t n f).
Proof.
  cbv zeta. unfold gen_ld_unpriv_reg. cbv zeta.
  destruct (if op_in op [SISA_OP_LDRT_a2; SISA_OP_LDRBT_a2] then _ else _) as [shift_n shift_t].
  mem_branch.
Qed.

Lemma agree_clear_low w : is_u32 w → agree w (clear_bits w 0 1).
Proof.
  intros Hu k Hk. destruct (Z.lt_ge_cases k 32).
  - rewrite testbit_clear_bits by lia. rewrite (proj2 (Z.leb_gt k 1)), andb_false_r by lia.
    apply andb_true_r.
  - rewrite !u32_testbit_high; auto with rit.
Qed.

Lemma ld_lit_yields op w :
  is_u32 w →
  let t := regnum w op SISA_OUTPUT0 in
  yields (agree w) (t ≠ R_PC ∧ (op = SISA_OP_LDRD_lit → t mod 2 ≠ 1 ∧ t ≠ 14)) (gen_ld_lit op w).
Proof.
  intros Hu. cbv zeta. unfold gen_ld_lit. cbv zeta. intros s s' Hs.
  destruct (Z.eqb_spec op SISA_OP_LDR_lit) as [->|]; [|destruct (Z.eqb_spec op SISA_OP_LDRD_lit) as [->|]].
  - intros [= Hv <-]. valid_split Hv. bools. done.
  - intros ([] & s1 & [= <-] & [= Hv <-])%bind_ok. valid_split Hv. bools.
    split; [|by apply agree_clear_low]. split; [|done]. intros E. by rewrite E in *.
  - intros [= Hv <-]. valid_split Hv. bools. done.
Qed.

Lemma st_imm_yields op w t n :
  is_u32 w →
  yields (agree w) (base_ok w t n ∧ (op_in op [SISA_OP_STRB_imm; SISA_OP_STRH_imm] = true → t ≠ R_PC)
    ∧ (op = SISA_OP_STRD_imm → pair_ok w t n))
    (gen_st_imm op w t n (puw_of w)).
Proof.
  intros Hu. unfold base_ok, pair_ok. rewrite <- puw_wback, <- puw_unpriv.
  unfold gen_st_imm. mem_branch.
Qed.

Lemma st_unpriv_imm_yields op w t n f :
  yields (eq w) (n ≠ R_PC ∧ n ≠ t ∧ (op_in op [SISA_OP_STRBT_a1; SISA_OP_STRHT_a1] = true → t ≠ R_PC))
    (gen_st_unpriv_imm op w t n f).
Proof. unfold gen_st_unpriv_imm. mem_branch. Qed.

Lemma st_reg_yields op w t n :
  let m := regnum w op SISA_INPUT2 in
  yields (eq w) (base_ok w t n ∧ m ≠ R_PC ∧ m ≠ n
    ∧ (op_in op [SISA_OP_STRB_reg; SISA_OP_STRH_reg] = true → t ≠ R_PC)
    ∧ (op = SISA_OP_STRD_reg → pair_ok w t n))
    (gen_st_reg op w t n (puw_of w)).
Proof.
  cbv zeta. unfold base_ok, pair_ok. rewrite <- puw_wback, <- puw_unpriv.
  unfold gen_st_reg. apply yields_bind; [apply raw_inv_gets|]. intros arch. cbv zeta.
  destruct (if op_in op [SISA_OP_STR_reg; SISA_OP_STRB_reg] then _ else _) as [shift_n shift_t].
  mem_branch.
Qed.

Lemma st_unpriv_reg_yields op w t n f :
  let m := regnum w op SISA_INPUT2 in
  yields (eq w) (n ≠ R_PC ∧ n ≠ t ∧ m ≠ R_PC ∧ m ≠ n
    ∧ (op_in op [SISA_OP_STRBT_a2; SISA_OP_STRHT_a2] = true → t ≠ R_PC))
    (gen_st_unpriv_reg op w t n f).
Proof.
  cbv zeta. unfold gen_st_unpriv_reg. cbv zeta.
  destruct (if op_in op [SISA_OP_STRT_a2; SISA_OP_STRBT_a2] then _ else _) as [shift_n shift_t].
  mem_branch.
Qed.
End branches.

(** ** 4. The restrictions *)

Definition ld_imm_ops : list Z :=
  [SISA_OP_LDR_imm; SISA_OP_LDRB_imm; SISA_OP_LDRH_imm; SISA_OP_LDRD_imm; SISA_OP_LDRSB_imm;
   SISA_OP_LDRSH_imm].
Definition ld_unpriv_imm_ops : list Z :=
  [SISA_OP_LDRT_a1; SISA_OP_LDRHT_a1; SISA_OP_LDRSHT_a1; SISA_OP_LDRBT_a1; SISA_OP_LDRSBT_a1].
Definition ld_reg_ops : list Z :=
  [SISA_OP_LDR_reg; SISA_OP_LDRB_reg; SISA_OP_LDRH; SISA_OP_LDRD_reg; SISA_OP_LDRSB; SISA_OP_LDRSH].
Definition ld_unpriv_reg_ops : list Z :=
  [SISA_OP_LDRT_a2; SISA_OP_LDRHT_a2; SISA_OP_LDRSHT_a2; SISA_OP_LDRBT_a2; SISA_OP_LDRSBT_a2].
Definition ld_lit_ops : list Z :=
  [SISA_OP_LDR_lit; SISA_OP_LDRB_lit; SISA_OP_LDRH_lit; SISA_OP_LDRD_lit; SISA_OP_LDRSB_lit;
   SISA_OP_LDRSH_lit].
Definition st_imm_ops : list Z :=
  [SISA_OP_STR_imm; SISA_OP_STRB_imm; SISA_OP_STRH_imm; SISA_OP_STRD_imm].
Definition st_unpriv_imm_ops : list Z := [SISA_OP_STRT_a1; SISA_OP_STRBT_a1; SISA_OP_STRHT_a1].
Definition st_reg_ops : list Z :=
  [SISA_OP_STR_reg; SISA_OP_STRB_reg; SISA_OP_STRH_reg; SISA_OP_STRD_reg].
Definition st_unpriv_reg_ops : list Z := [SISA_OP_STRT_a2; SISA_OP_STRBT_a2; SISA_OP_STRHT_a2].

(** The restrictions on the registers of a single transfer: [wb] opcodes have
    the P and W bits, [unpriv] opcodes always write the base back, [off]
    opcodes have an offset register, [pair] opcodes transfer two registers and
    [pc] opcodes must not transfer the PC. *)
Record transfer_ok (wb unpriv off pair pc : bool) (w : Z) : Prop := {
  tr_pc : pc = true → Rt w ≠ R_PC;
  tr_wb : wb = true → base_ok w (Rt w) (Rn w);
  tr_unpriv : unpriv = true → Rn w ≠ R_PC ∧ Rn w ≠ Rt w;
  tr_off : off = true → Rm w ≠ R_PC ∧ Rm w ≠ Rn w;
  tr_pair : pair = true → Rt w mod 2 ≠ 1 ∧ Rt w ≠ 14;
  tr_pair_wb : pair = true → wb = true → writes_back w = true → Rn w ≠ Rt w + 1
}.

Definition ld_ok (op w : Z) : Prop :=
  transfer_ok (op_in op (ld_imm_ops ++ ld_reg_ops)) (op_in op (ld_unpriv_imm_ops ++ ld_unpriv_reg_ops))
    (op_in op (ld_reg_ops ++ ld_unpriv_reg_ops))
    (op_in op [SISA_OP_LDRD_imm; SISA_OP_LDRD_reg; SISA_OP_LDRD_lit]) true w
  ∧ (op = SISA_OP_LDRD_reg → Rm w ≠ Rt w ∧ Rm w ≠ Rt w + 1).

Definition st_ok (op w : Z) : Prop :=
  transfer_ok (op_in op (st_imm_ops ++ st_reg_ops)) (op_in op (st_unpriv_imm_ops ++ st_unpriv_reg_ops))
    (op_in op (st_reg_ops ++ st_unpriv_reg_ops)) (op_in op [SISA_OP_STRD_imm; SISA_OP_STRD_reg])
    (op_in op [SISA_OP_STRB_imm; SISA_OP_STRH_imm; SISA_OP_STRB_reg; SISA_OP_STRH_reg;
               SISA_OP_STRBT_a1; SISA_OP_STRHT_a1; SISA_OP_STRBT_a2; SISA_OP_STRHT_a2]) w.

(** Operand [i] of [op] is the register field [s..e] of the word. *)
Definition opnd_at (s e : Z) (i : nat) (op : Z) : bool :=
  let o := opnd_of op i in
  opnd_type_eqb o.(type) SISA_OPND_TYPE_GPR && (o.(start_bit) =? s) && (o.(end_bit) =? e).

Lemma opnd_at_regnum s e i op w : opnd_at s e i op = true → regnum w op i = get_bits_value w s e.
Proof.
  unfold opnd_at, regnum, get_regnum, opnd_type_eqb. cbv zeta.
  rewrite !andb_true_iff, bool_decide_eq_true, !Z.eqb_eq. by intros [[-> <-] <-].
Qed.

Lemma Rt_succ w : is_u32 w → u32 (Rt w + 1) = Rt w + 1.
Proof.
  intros Hu. pose proof (get_bits_value_range w 12 15 ltac:(lia) ltac:(lia) (proj1 Hu)) as H.
  change (2 ^ (15 - 12 + 1)) with 16 in H. fold (Rt w) in H. apply u32_small. unfold is_u32. lia.
Qed.

(** The restrictions of a word without an offset register, from a word that
    agrees with it above the two low bits. *)
Lemma transfer_ok_agree wb unpriv pair pc w w' :
  agree w w' → transfer_ok wb unpriv false pair pc w → transfer_ok wb unpriv false pair pc w'.
Proof.
  intros (E1 & E2 & E3 & E4)%agree_regs [H1 H2 H3 _ H5 H6].
  assert (writes_back w' = writes_back w) as E5 by (unfold writes_back; by rewrite E3, E4).
  split; unfold base_ok in *; rewrite ?E1, ?E2, ?E3, ?E4, ?E5; done.
Qed.

(** The opcode is one of a list: everything about it computes. *)
Ltac op_cases H :=
  apply op_in_spec in H;
  unfold ld_imm_ops, ld_unpriv_imm_ops, ld_reg_ops, ld_unpriv_reg_ops, ld_lit_ops,
    st_imm_ops, st_unpriv_imm_ops, st_reg_ops, st_unpriv_reg_ops in H;
  rewrite ?elem_of_cons, elem_of_nil in H;
  repeat destruct H as [-> | H]; [..|done].
Ltac transfer_fin :=
  split; cbn [andb orb] in *; intros; try discriminate; bools; auto with lia;
  try (split_and?; (done || congruence || lia)).

Section transfers.
Context `{Env : !RitEnv}.

(** The three register fields of the loads and of the stores. *)
Lemma ld_regs op w :
  op_in op (ld_imm_ops ++ ld_unpriv_imm_ops ++ ld_reg_ops ++ ld_unpriv_reg_ops ++ ld_lit_ops) = true →
  regnum w op SISA_OUTPUT0 = Rt w ∧ regnum w op SISA_INPUT0 = Rn w
  ∧ (op_in op (ld_reg_ops ++ ld_unpriv_reg_ops) = true → regnum w op SISA_INPUT1 = Rm w).
Proof.
  intros H. split_and!; [| |intros H']; apply opnd_at_regnum.
  - apply (op_in_check (opnd_at 12 15 SISA_OUTPUT0) op _ H). vm_compute. reflexivity.
  - apply (op_in_check (opnd_at 16 19 SISA_INPUT0) op _ H). vm_compute. reflexivity.
  - apply (op_in_check (opnd_at 0 3 SISA_INPUT1) op _ H'). vm_compute. reflexivity.
Qed.

Lemma st_regs op w :
  op_in op (st_imm_ops ++ st_unpriv_imm_ops ++ st_reg_ops ++ st_unpriv_reg_ops) = true →
  regnum w op SISA_INPUT0 = Rt w ∧ regnum w op SISA_INPUT1 = Rn w
  ∧ (op_in op (st_reg_ops ++ st_unpriv_reg_ops) = true → regnum w op SISA_INPUT2 = Rm w).
Proof.
  intros H. split_and!; [| |intros H']; apply opnd_at_regnum.
  - apply (op_in_check (opnd_at 12 15 SISA_INPUT0) op _ H). vm_compute. reflexivity.
  - apply (op_in_check (opnd_at 16 19 SISA_INPUT1) op _ H). vm_compute. reflexivity.
  - apply (op_in_check (opnd_at 0 3 SISA_INPUT2) op _ H'). vm_compute. reflexivity.
Qed.

(** A judgement used at the word the group starts from. *)
Lemma yields_at (I : Z → Prop) Q m s s' : yields I Q m → I s.(raw_instr) → m s = Ok VALID s' → Q ∧ I s'.(raw_instr).
Proof. unfold yields. eauto. Qed.

(** The group leaves the word of the branch. *)
Lemma group_ok (m : rit instr_status_t) s s' :
  (st ← m; modify (st_is_oprand_init true) ;; mret st) s = Ok VALID s' →
  ∃ s1, m s = Ok VALID s1 ∧ s'.(raw_instr) = s1.(raw_instr).
Proof. intros (st & s1 & E & H)%bind_ok. injection H as -> <-. by exists s1. Qed.

(** What each branch of the loads answers is the restriction of its opcodes. *)
Lemma ld_imm_ok op w w' : op_in op ld_imm_ops = true → is_u32 w → agree w w' →
  Rt w ≠ R_PC ∧ base_ok w (Rt w) (Rn w) ∧ (op = SISA_OP_LDRD_imm → pair_ok w (Rt w) (Rn w)) →
  ld_ok op w'.
Proof.
  intros Ho Hu Ha (H1 & H2 & H3). unfold pair_ok in H3. rewrite Rt_succ in H3 by done.
  op_cases Ho; (split; [|done]); apply (transfer_ok_agree _ _ _ _ w w' Ha); transfer_fin.
  all: try (by apply H3).
Qed.

Lemma ld_unpriv_imm_ok op w : op_in op ld_unpriv_imm_ops = true →
  Rt w ≠ R_PC ∧ Rn w ≠ R_PC ∧ Rn w ≠ Rt w → ld_ok op w.
Proof. intros Ho (H1 & H2 & H3). op_cases Ho; (split; [|done]); transfer_fin. Qed.

Lemma ld_reg_ok op w : op_in op ld_reg_ops = true → is_u32 w →
  Rt w ≠ R_PC ∧ base_ok w (Rt w) (Rn w) ∧ Rm w ≠ R_PC ∧ Rm w ≠ Rn w
  ∧ (op = SISA_OP_LDRD_reg → pair_ok w (Rt w) (Rn w) ∧ Rm w ≠ Rt w ∧ Rm w ≠ u32 (Rt w + 1)) →
  ld_ok op w.
Proof.
  intros Ho Hu (H1 & H2 & H3 & H4 & H5). unfold pair_ok in H5. rewrite Rt_succ in H5 by done.
  op_cases Ho; (split; [|done || by intros _; apply H5]); transfer_fin.
  all: try (by apply H5).
Qed.

Lemma ld_unpriv_reg_ok op w : op_in op ld_unpriv_reg_ops = true →
  Rt w ≠ R_PC ∧ Rn w ≠ R_PC ∧ Rn w ≠ Rt w ∧ Rm w ≠ R_PC ∧ Rm w ≠ Rn w → ld_ok op w.
Proof. intros Ho (H1 & H2 & H3 & H4 & H5). op_cases Ho; (split; [|done]); transfer_fin. Qed.

Lemma ld_lit_ok op w w' : op_in op ld_lit_ops = true → agree w w' →
  Rt w ≠ R_PC ∧ (op = SISA_OP_LDRD_lit → Rt w mod 2 ≠ 1 ∧ Rt w ≠ 14) → ld_ok op w'.
Proof.
  intros Ho Ha (H1 & H2).
  op_cases Ho; (split; [|done]); apply (transfer_ok_agree _ _ _ _ w w' Ha); transfer_fin.
Qed.

(** The same for the stores. *)
Lemma st_imm_ok op w w' : op_in op st_imm_ops = true → is_u32 w → agree w w' →
  base_ok w (Rt w) (Rn w) ∧ (op_in op [SISA_OP_STRB_imm; SISA_OP_STRH_imm] = true → Rt w ≠ R_PC)
  ∧ (op = SISA_OP_STRD_imm → pair_ok w (Rt w) (Rn w)) →
  st_ok op w'.
Proof.
  intros Ho Hu Ha (H1 & H2 & H3). unfold pair_ok in H3. rewrite Rt_succ in H3 by done.
  op_cases Ho; apply (transfer_ok_agree _ _ _ _ w w' Ha); transfer_fin.
  all: try (by apply H3).
Qed.

Lemma st_unpriv_imm_ok op w : op_in op st_unpriv_imm_ops = true →
  Rn w ≠ R_PC ∧ Rn w ≠ Rt w
  ∧ (op_in op [SISA_OP_STRBT_a1; SISA_OP_STRHT_a1] = true → Rt w ≠ R_PC) → st_ok op w.
Proof. intros Ho (H1 & H2 & H3). op_cases Ho; transfer_fin. Qed.

Lemma st_reg_ok op w : op_in op st_reg_ops = true → is_u32 w →
  base_ok w (Rt w) (Rn w) ∧ Rm w ≠ R_PC ∧ Rm w ≠ Rn w
  ∧ (op_in op [SISA_OP_STRB_reg; SISA_OP_STRH_reg] = true → Rt w ≠ R_PC)
  ∧ (op = SISA_OP_STRD_reg → pair_ok w (Rt w) (Rn w)) → st_ok op w.
Proof.
  intros Ho Hu (H1 & H2 & H3 & H4 & H5). unfold pair_ok in H5. rewrite Rt_succ in H5 by done.
  op_cases Ho; transfer_fin.
  all: try (by apply H5).
Qed.

Lemma st_unpriv_reg_ok op w : op_in op st_unpriv_reg_ops = true →
  Rn w ≠ R_PC ∧ Rn w ≠ Rt w ∧ Rm w ≠ R_PC ∧ Rm w ≠ Rn w
  ∧ (op_in op [SISA_OP_STRBT_a2; SISA_OP_STRHT_a2] = true → Rt w ≠ R_PC) → st_ok op w.
Proof. intros Ho (H1 & H2 & H3 & H4 & H5). op_cases Ho; transfer_fin. Qed.

Lemma op_in_app op l1 l2 : op_in op (l1 ++ l2) = op_in op l1 || op_in op l2.
Proof. apply existsb_app. Qed.

(** A branch is taken: the registers of its judgement are fields of the word. *)
Ltac in_list H := rewrite !op_in_app, H, ?orb_true_r; reflexivity.
Ltac take_branch regs H E :=
  match type of H with op_in ?op _ = true =>
    match type of E with _ ?s = _ =>
      destruct (regs op s.(raw_instr)) as (Et & En & Em); [in_list H|];
      try specialize (Em ltac:(in_list H)); rewrite ?Et, ?En, ?Em in * end end.

Lemma gen_ld_instr_ok (op : Z) (s s' : rit_state) :
  is_u32 s.(raw_instr) → gen_ld_instr op s = Ok VALID s' → ld_ok op s'.(raw_instr).
Proof.
  intros Hu. unfold gen_ld_instr. intros (w & s0 & [= <- <-] & H)%bind_ok.
  apply group_ok in H as (s1 & E & ->).
  fold ld_imm_ops ld_unpriv_imm_ops ld_reg_ops ld_unpriv_reg_ops ld_lit_ops in E.
  destruct (op_in op ld_imm_ops) eqn:H1; [|destruct (op_in op ld_unpriv_imm_ops) eqn:H2;
    [|destruct (op_in op ld_reg_ops) eqn:H3; [|destruct (op_in op ld_unpriv_reg_ops) eqn:H4;
    [|destruct (op_in op ld_lit_ops) eqn:H5; [|done]]]]].
  - take_branch ld_regs H1 E. apply (yields_at _ _ _ _ _ (ld_imm_yields op _ _ _ Hu)) in E as [HQ Ha]; [|done].
    by eapply ld_imm_ok.
  - take_branch ld_regs H2 E. apply (yields_at _ _ _ _ _ (ld_unpriv_imm_yields op _ _ _ _)) in E as [HQ <-]; [|done].
    by eapply ld_unpriv_imm_ok.
  - pose proof (ld_reg_yields op s.(raw_instr)) as Hy. cbv zeta in Hy. take_branch ld_regs H3 E.
    apply (yields_at _ _ _ _ _ (Hy _ _)) in E as [HQ <-]; [|done]. by eapply ld_reg_ok.
  - pose proof (ld_unpriv_reg_yields op s.(raw_instr)) as Hy. cbv zeta in Hy. take_branch ld_regs H4 E.
    apply (yields_at _ _ _ _ _ (Hy _ _ _)) in E as [HQ <-]; [|done]. by eapply ld_unpriv_reg_ok.
  - pose proof (ld_lit_yields op s.(raw_instr) Hu) as Hy. cbv zeta in Hy. take_branch ld_regs H5 E.
    apply (yields_at _ _ _ _ _ Hy) in E as [HQ Ha]; [|done]. by eapply ld_lit_ok.
Qed.

Lemma gen_st_instr_ok (op : Z) (s s' : rit_state) :
  is_u32 s.(raw_instr) → gen_st_instr op s = Ok VALID s' → st_ok op s'.(raw_instr).
Proof.
  intros Hu. unfold gen_st_instr. intros (w & s0 & [= <- <-] & H)%bind_ok.
  apply group_ok in H as (s1 & E & ->).
  fold st_imm_ops st_unpriv_imm_ops st_reg_ops st_unpriv_reg_ops in E.
  destruct (op_in op st_imm_ops) eqn:H1; [|destruct (op_in op st_unpriv_imm_ops) eqn:H2;
    [|destruct (op_in op st_reg_ops) eqn:H3; [|destruct (op_in op st_unpriv_reg_ops) eqn:H4; [|done]]]].
  - take_branch st_regs H1 E. apply (yields_at _ _ _ _ _ (st_imm_yields op _ _ _ Hu)) in E as [HQ Ha]; [|done].
    by eapply st_imm_ok.
  - take_branch st_regs H2 E. apply (yields_at _ _ _ _ _ (st_unpriv_imm_yields op _ _ _ _)) in E as [HQ <-]; [|done].
    by eapply st_unpriv_imm_ok.
  - pose proof (st_reg_yields op s.(raw_instr)) as Hy. cbv zeta in Hy. take_branch st_regs H3 E.
    apply (yields_at _ _ _ _ _ (Hy _ _)) in E as [HQ <-]; [|done]. by eapply st_reg_ok.
  - pose proof (st_unpriv_reg_yields op s.(raw_instr)) as Hy. cbv zeta in Hy. take_branch st_regs H4 E.
    apply (yields_at _ _ _ _ _ (Hy _ _ _)) in E as [HQ <-]; [|done]. by eapply st_unpriv_reg_ok.
Qed.

(** ** 5. Properties *)

(** A VALID load obeys the manual: if [gen_ld_instr] answers [VALID] then
    in the word it leaves Rt is not the PC; a form with the P and W bits is not
    the unprivileged alias, and its base is neither the PC nor, when written
    back, Rt; an unprivileged form has a base other than the PC and Rt; an
    offset register is neither the PC nor the base; and LDRD has an even first
    register other than r14, whose pair is not the written-back base and, in
    the register form, does not contain the offset register. *)
Theorem gen_ld_instr_valid (op : Z) (s s' : rit_state) :
  is_u32 s.(raw_instr) → gen_ld_instr op s = Ok VALID s' → ld_ok op s'.(raw_instr).
Proof. apply gen_ld_instr_ok. Qed.

(** A VALID store obeys the manual: the restrictions of the loads, for the
    word that [gen_st_instr] leaves with [VALID], except that only the byte and
    halfword forms must not transfer the PC. *)
Theorem gen_st_instr_valid (op : Z) (s s' : rit_state) :
  is_u32 s.(raw_instr) → gen_st_instr op s = Ok VALID s' → st_ok op s'.(raw_instr).
Proof. apply gen_st_instr_ok. Qed.
End transfers.

(** ldrd r2, r3, [r4, r6] *)
Lemma gen_ld_instr_valid_witness : ld_ok SISA_OP_LDRD_reg 0xe18420d6.
Proof.
  pose (s := st_raw_instr 0xe18420d6 zero_state).
  pose (r := gen_ld_instr (Env := lcg_env) SISA_OP_LDRD_reg s).
  refine (gen_ld_instr_valid (Env := lcg_env) SISA_OP_LDRD_reg s (match r with Ok _ s' => s' | _ => s end) _ _).
  - vm_compute. split; [discriminate|reflexivity].
  - vm_compute. reflexivity.
Defined.

(** strd r2, r3, [r4, #3], which the generator aligns to [r4] *)
Lemma gen_st_instr_valid_witness : st_ok SISA_OP_STRD_imm 0xe1c420f0.
Proof.
  pose (s := st_raw_instr 0xe1c420f3 zero_state).
  pose (r := gen_st_instr (Env := lcg_env) SISA_OP_STRD_imm s).
  refine (gen_st_instr_valid (Env := lcg_env) SISA_OP_STRD_imm s (match r with Ok _ s' => s' | _ => s end) _ _).
  - vm_compute. split; [discriminate|reflexivity].
  - vm_compute. reflexivity.
Defined.
