(* ===== verification/ValidMedia.v ===== *)
(** * What a VALID status promises: media, status register and miscellaneous instructions

    [gen_uncategorized_instr] and [gen_misc_instr].  The restrictions are stated
    of the word that is left, as in ValidSpec.v. *)
From S2P Require Import Prelude RitCommon InstrTable State InstrUtil InstrBuf Keeps BiasUtil GenHelper MemSpec GenARMMem GenARMInstr ValidBias ValidSpec ValidMem.
#[local] Open Scope c_scope.

(** ** 1. The restrictions *)

Definition ext_add_ops : list Z :=
  [SISA_OP_SXTAB; SISA_OP_SXTAB16; SISA_OP_SXTAH; SISA_OP_UXTAB; SISA_OP_UXTAB16; SISA_OP_UXTAH].
Definition ext_ops : list Z :=
  [SISA_OP_SXTB; SISA_OP_SXTB16; SISA_OP_SXTH; SISA_OP_UXTB; SISA_OP_UXTB16; SISA_OP_UXTH].
Definition rev_ops : list Z := [SISA_OP_RBIT; SISA_OP_REV; SISA_OP_REV16; SISA_OP_REVSH].
Definition sat_ops : list Z := [SISA_OP_SSAT; SISA_OP_USAT; SISA_OP_SSAT16; SISA_OP_USAT16].
Definition bfx_ops : list Z := [SISA_OP_SBFX; SISA_OP_UBFX].
Definition bf_ops : list Z := [SISA_OP_BFC; SISA_OP_BFI].
Definition msr_ops : list Z := [SISA_OP_MSR_imm_a; SISA_OP_MSR_reg_a].

(** The register operands that must not be the PC. *)
Definition media_operands (op : Z) : list nat :=
  if op_in op (parallel_ops ++ ext_add_ops ++ [SISA_OP_PKH; SISA_OP_USAD8; SISA_OP_SEL])
  then [SISA_OUTPUT0; SISA_INPUT0; SISA_INPUT1]
  else if op_in op (ext_ops ++ rev_ops ++ bfx_ops) then [SISA_OUTPUT0; SISA_INPUT0]
  else if op_in op sat_ops then [SISA_OUTPUT0; SISA_INPUT1]
  else if op_in op [SISA_OP_BFC; SISA_OP_MRS_a] then [SISA_OUTPUT0]
  else if op_in op [SISA_OP_BFI] then [SISA_OUTPUT0; SISA_INPUT2]
  else if op_in op [SISA_OP_USADA8] then [SISA_OUTPUT0; SISA_INPUT0; SISA_INPUT1; SISA_INPUT2]
  else if op_in op [SISA_OP_MSR_reg_a] then [SISA_INPUT0]
  else [].

(** Least significant bit, and width or most significant bit, of a bit field. *)
Definition lsb (w : Z) : Z := get_bits_value w 7 11.
Definition msb (w : Z) : Z := get_bits_value w 16 20.

(** A bit field extracted ends within the word, one replaced is not empty, a
    status register write has a mask, and a preload has no PC where it would be
    another instruction or unpredictable. *)
Record media_ok (op w : Z) : Prop := {
  me_pc : no_pc op (media_operands op) w;
  me_bfx : op_in op bfx_ops = true → lsb w + msb w ≤ 31;
  me_bf : op_in op bf_ops = true → lsb w ≤ msb w;
  me_msr : op_in op msr_ops = true → get_bits_value w 18 19 ≠ 0;
  me_pld_imm : op_in op [SISA_OP_PLD_imm] = true → Rn w ≠ R_PC;
  me_pl_reg : op_in op [SISA_OP_PLI; SISA_OP_PLD] = true → Rm w ≠ R_PC;
  me_pld : op_in op [SISA_OP_PLD] = true → Z.testbit w 22 = false → Rn w ≠ R_PC
}.

(** The opcodes for which only the PC matters. *)
Definition only_pc (op : Z) : bool :=
  negb (op_in op (bfx_ops ++ bf_ops ++ msr_ops ++ [SISA_OP_PLD_imm; SISA_OP_PLI; SISA_OP_PLD])).

Lemma media_only_pc op w : only_pc op = true → no_pc op (media_operands op) w → media_ok op w.
Proof.
  unfold only_pc. rewrite !op_in_app, negb_true_iff, !orb_false_iff. intros (H1 & H2 & H3 & H4) Hp.
  cbn [op_in existsb] in H4. rewrite !orb_false_iff in H4. destruct H4 as (E1 & E2 & E3 & _).
  split; try congruence; cbn [op_in existsb]; rewrite ?E1, ?E2, ?E3; done.
Qed.

(** Closes the goal of a group where only the PC matters; its operands are [l]. *)
Ltac only_pc l :=
  apply media_only_pc; [by_list|];
  match goal with |- no_pc ?op _ _ => assert (media_operands op = l) as -> by by_list end; no_pc.

(** The opcode is not in the list of the restriction. *)
Ltac not_in :=
  let H := fresh in intros H;
  match type of H with op_in ?op ?l = true =>
    exfalso; assert (op_in op l = false) by by_list; congruence end.

Section media.
Context `{Env : !RitEnv}.

(** What the branches of the generator leave. *)
Definition media_post (op : Z) (st : instr_status_t) (s : rit_state) : Prop :=
  st = VALID → media_ok op s.(raw_instr).

(** ** 2. The groups of three registers *)

Ltac three_regs :=
  let Hb := fresh "Hb" in let Hv := fresh "Hv" in
  apply wp_bind, wp_gets, wp_bind; bias_with random_bias_reg_3_copies Hb;
  match goal with t : _ * _ * _ |- _ => destruct t as [[? ?] ?] end; destruct Hb as (_ & Hb);
  regs_facts Hb; apply wp_ret; intros Hv; valid_split Hv; bools;
  only_pc [SISA_OUTPUT0; SISA_INPUT0; SISA_INPUT1].

Lemma wp_parallel op s :
  op_in op parallel_ops = true → is_u32 s.(raw_instr) →
  wp (gen_parallel_add_sub_instr op) (media_post op) s.
Proof.
  intros Hin Hu. unfold gen_parallel_add_sub_instr. apply wp_bind, wp_gets. cbv zeta. three_regs. Qed.

Lemma wp_extend_add op s :
  op_in op ext_add_ops = true → is_u32 s.(raw_instr) →
  wp (gen_extend_add op s.(raw_instr)) (media_post op) s.
Proof.
  intros Hin Hu. unfold gen_extend_add. cbv zeta. three_regs. Qed.

Lemma wp_usad8 op s :
  op_in op [SISA_OP_USAD8] = true → is_u32 s.(raw_instr) →
  wp (gen_usad8 op s.(raw_instr)) (media_post op) s.
Proof.
  intros Hin Hu. unfold gen_usad8. cbv zeta. three_regs. Qed.

Lemma wp_usada8 op s :
  op_in op [SISA_OP_USADA8] = true → is_u32 s.(raw_instr) →
  wp (gen_usada8 op s.(raw_instr)) (media_post op) s.
Proof.
  intros Hin Hu. unfold gen_usada8. cbv zeta.
  apply wp_bind, wp_gets, wp_bind. bias_with random_bias_reg_4_copies Hb.
  destruct t as [[[d n] m] a], Hb as (_ & Hr). regs_facts Hr. apply wp_ret. intros Hv. valid_split Hv. bools.
  only_pc [SISA_OUTPUT0; SISA_INPUT0; SISA_INPUT1; SISA_INPUT2].
Qed.

Lemma wp_pkh op s :
  op_in op [SISA_OP_PKH] = true → is_u32 s.(raw_instr) →
  wp (gen_pkh op s.(raw_instr)) (media_post op) s.
Proof.
  intros Hin Hu. unfold gen_pkh. cbv zeta. apply wp_bind, wp_gets, wp_bind.
  eapply wp_mono; [bias_by uconstr:(wp_bias_word) random_bias_reg_3_copies|].
  intros [[[d n] m] w'] s' (_ & Hw' & Hr). cbn in Hw'. subst w'. apply wp_bind.
  eapply wp_mono; [eapply wp_bias_shift_imm; [exact Hr|intros _; cbn [fmap list_fmap fst]; by_list]|].
  intros ? s'' Hr'. cbn beta in Hr'. regs_facts Hr'. apply wp_ret. intros Hv. valid_split Hv. bools.
  only_pc [SISA_OUTPUT0; SISA_INPUT0; SISA_INPUT1].
Qed.

(** ** 3. The groups of two registers *)

Lemma wp_reverse op s :
  op_in op rev_ops = true → wp (gen_reverse op s.(raw_instr)) (media_post op) s.
Proof.
  intros Hin. apply wp_ret. intros Hv. valid_split Hv. bools. only_pc [SISA_OUTPUT0; SISA_INPUT0].
Qed.

(** Both drawn registers go to the destination; the second is the source, which
    the word still has. *)
Lemma wp_extend op s :
  op_in op ext_ops = true → is_u32 s.(raw_instr) →
  wp (gen_extend op s.(raw_instr)) (media_post op) s.
Proof.
  intros Hin Hu. unfold gen_extend. cbv zeta. apply wp_bind, wp_gets, wp_bind.
  assert (gpr_field op SISA_OUTPUT0 = true) as Hd by by_list.
  assert (gpr_field op SISA_INPUT0 = true) as Hm by by_list.
  assert (clear_of (field op SISA_OUTPUT0) (field op SISA_INPUT0) = true) as Hc by by_list.
  apply (wp_mono _ (λ t s', (t.1 ≠ R_PC → t.2 ≠ R_PC → regnum s'.(raw_instr) op SISA_OUTPUT0 ≠ R_PC)
    ∧ regnum s'.(raw_instr) op SISA_INPUT0 = t.2)).
  - apply wp_if; intros _; [|by apply wp_ret].
    destruct (random_bias_reg_2_copies (regnum s.(raw_instr) op SISA_OUTPUT0)
      (regnum s.(raw_instr) op SISA_INPUT0)) as [_ Hcp].
    destruct (Hcp s) as ([a b] & E & Hb & _). cbn in Hb. subst b.
    apply wp_bind, (wp_intro _ _ _ _ _ E), wp_bind, wp_write_twice; [done|by apply regnum_range|done|].
    intros w' Hw'. apply wp_ret. cbn [raw_instr st_raw_instr fst snd]. split.
    + pose proof (rw_regs _ _ _ _ _ Hw') as Hr. rewrite Forall_cons in Hr. cbn in Hr. by destruct Hr as [-> _].
    + apply (rewritten_regnum _ _ _ _ _ _ Hw'); [done|]. cbn. by rewrite Hc.
  - intros [d m] s' [H1 H2]. cbn [fst snd] in *. apply wp_ret. intros Hv. valid_split Hv. bools.
    specialize (H1 ltac:(done) ltac:(done)). only_pc [SISA_OUTPUT0; SISA_INPUT0].
Qed.

Definition sat_fields (op : Z) : list (Z * Z) := [field op SISA_INPUT0; field op SISA_OUTPUT0].

(** The second drawn register goes to the field of the immediate; the source is
    still the one the word had, and the shift amount does not meet it. *)
Lemma wp_saturate op s :
  op_in op sat_ops = true → is_u32 s.(raw_instr) →
  wp (gen_saturate op s.(raw_instr)) (media_post op) s.
Proof.
  intros Hin Hu. unfold gen_saturate. cbv zeta. apply wp_bind, wp_gets, wp_bind.
  assert (gpr_field op SISA_OUTPUT0 = true) as Hd by by_list.
  assert (gpr_field op SISA_INPUT1 = true) as Hn by by_list.
  assert (forallb (λ f, clear_of f (field op SISA_INPUT1)) ((7, 11) :: sat_fields op) = true) as Hc by by_list.
  apply (wp_mono _ (λ u s', u.2 = s'.(raw_instr) ∧ u.1.2 = regnum s.(raw_instr) op SISA_INPUT1
    ∧ rewritten op s.(raw_instr) [(SISA_OUTPUT0, u.1.1)] (sat_fields op) s'.(raw_instr))).
  - apply wp_if; intros _; [|apply wp_ret; split_and!; [done..|by apply (rewritten_refl op _ [SISA_OUTPUT0])]].
    destruct (random_bias_reg_2_copies (regnum s.(raw_instr) op SISA_OUTPUT0)
      (regnum s.(raw_instr) op SISA_INPUT1)) as [_ Hcp].
    destruct (Hcp s) as ([a b] & E & Hb & HP). cbn in Hb. subst b.
    specialize (HP (λ r, 0 ≤ r < 16)). unfold elems_2 in HP. rewrite !Forall_cons in HP. cbn [fst snd] in HP.
    destruct HP as [Ha _]; [split_and!; [by apply regnum_range..|constructor]|].
    apply wp_bind, (wp_intro _ _ _ _ _ E), wp_bind, wp_write_reg_imm; [done|done|done|by_list|by_list|].
    intros w' Hw'. by apply wp_ret.
  - intros [[d n] w'] s' (Hw' & Hn0 & Hr). cbn [fst snd] in *. subst w' n. apply wp_bind.
    eapply wp_mono; [eapply wp_bias_shift_imm; [exact Hr|]|].
    + intros _. cbn [fmap list_fmap fst]. by_list.
    + intros ? s'' Hr'. cbn beta in Hr'. pose proof (rewritten_regnum _ _ _ _ _ _ Hr' Hn Hc) as Hn'.
      regs_facts Hr'. apply wp_ret. intros Hv. valid_split Hv. bools. only_pc [SISA_OUTPUT0; SISA_INPUT1].
Qed.

(** ** 4. Bit fields, status registers and preloads *)

(** The bit-field numbers are not touched by the bias step. *)
Lemma rewritten_bf op w l fs w' :
  rewritten op w l fs w' → forallb (λ f, clear_of f (7, 11) && clear_of f (16, 20)) fs = true →
  lsb w' = lsb w ∧ msb w' = msb w.
Proof.
  intros Hw Hfs. rewrite forallb_forall in Hfs.
  split; apply (rw_other _ _ _ _ _ Hw); try lia; apply forallb_forall; intros f Hf;
    by apply Hfs, andb_true_iff in Hf as [? ?].
Qed.

Lemma wp_bfx op s :
  op_in op bfx_ops = true → is_u32 s.(raw_instr) →
  wp (gen_bfx op s.(raw_instr)) (media_post op) s.
Proof.
  intros Hin Hu. unfold gen_bfx. cbv zeta. fold (lsb s.(raw_instr)) (msb s.(raw_instr)).
  apply wp_bind, wp_gets, wp_bind. bias_with random_bias_reg_2_copies Hb.
  destruct t as [d n], Hb as (_ & Hr). destruct (rewritten_bf _ _ _ _ _ Hr) as [El Em].
  { cbn [fmap list_fmap fst]. by_list. }
  regs_facts Hr. apply wp_ret. intros Hv. valid_split Hv. bools. split; try not_in.
  - assert (media_operands op = [SISA_OUTPUT0; SISA_INPUT0]) as -> by by_list. no_pc.
  - intros _. lia.
Qed.

Lemma wp_bfc op s :
  op_in op [SISA_OP_BFC] = true → wp (gen_bfc op s.(raw_instr)) (media_post op) s.
Proof.
  intros Hin. apply wp_ret. intros Hv. valid_split Hv. bools. split; try not_in.
  - assert (media_operands op = [SISA_OUTPUT0]) as -> by by_list. no_pc.
  - intros _. done.
Qed.

Lemma wp_bfi op s :
  op_in op [SISA_OP_BFI] = true → is_u32 s.(raw_instr) →
  wp (gen_bfi op s.(raw_instr)) (media_post op) s.
Proof.
  intros Hin Hu. unfold gen_bfi. cbv zeta. fold (lsb s.(raw_instr)) (msb s.(raw_instr)).
  apply wp_bind, wp_gets, wp_bind. bias_with random_bias_reg_2_copies Hb.
  destruct t as [d n], Hb as (_ & Hr). destruct (rewritten_bf _ _ _ _ _ Hr) as [El Em].
  { cbn [fmap list_fmap fst]. by_list. }
  regs_facts Hr. apply wp_ret. intros Hv. valid_split Hv. bools. split; try not_in.
  - assert (media_operands op = [SISA_OUTPUT0; SISA_INPUT2]) as -> by by_list. no_pc.
  - intros _. lia.
Qed.

(** The last group only looks at the word; its opcodes are taken one by one. *)
Definition sr_preload_ops : list Z :=
  [SISA_OP_SEL; SISA_OP_MRS_a; SISA_OP_MSR_imm_a; SISA_OP_MSR_reg_a; SISA_OP_PLI; SISA_OP_PLD;
   SISA_OP_PLI_imm; SISA_OP_PLD_imm; SISA_OP_PLD_lit].

Lemma sr_preload_valid_op op w : gen_sr_preload op w = VALID → op_in op sr_preload_ops = true.
Proof.
  unfold gen_sr_preload. intros H. destruct (op_in op sr_preload_ops) eqn:E; [done|].
  unfold sr_preload_ops in E. cbn [op_in existsb] in *. rewrite !orb_false_iff in E. destruct_and? E.
  repeat match goal with E : (op =? _) = false |- _ => rewrite E in H; clear E end. done.
Qed.

Lemma sr_preload_ok op w : gen_sr_preload op w = VALID → media_ok op w.
Proof.
  intros Hv. pose proof (sr_preload_valid_op op w Hv) as Hin. revert Hv. unfold sr_preload_ops in Hin.
  op_cases Hin; intros Hv; unfold gen_sr_preload in Hv;
    cbn -[get_bits_value get_bit_value regnum upd] in Hv; valid_split Hv; bools;
    (split; [by repeat constructor|try done..]).
  intros _ Hb E. unfold Rn in E. rewrite E, get_bit_value_eqb, Hb in * by auto with lia. done.
Qed.

(** The dispatcher, branch by branch. *)
Lemma wp_gen_uncategorized_instr op s :
  is_u32 s.(raw_instr) → wp (gen_uncategorized_instr op) (media_post op) s.
Proof.
  intros Hu. unfold gen_uncategorized_instr. apply wp_bind, wp_gets.
  fold ext_add_ops ext_ops rev_ops sat_ops bfx_ops.
  assert (∀ x, (op =? x) = true → op_in op [x] = true) as Hone.
  { intros x Hx. cbn [op_in existsb]. by rewrite Hx. }
  repeat (apply wp_if; [by auto using wp_parallel, wp_extend_add, wp_extend, wp_reverse, wp_saturate,
    wp_pkh, wp_bfx, wp_bfc, wp_bfi, wp_usad8, wp_usada8|intros _]).
  apply wp_ret. intros Hv. by apply sr_preload_ok.
Qed.

(** ** 5. Miscellaneous *)

Definition swp_ops : list Z := [SISA_OP_SWP; SISA_OP_SWPB].
Definition misc_operands (op : Z) : list nat :=
  if op_in op swp_ops then [SISA_OUTPUT0; SISA_INPUT0; SISA_INPUT1]
  else if op_in op [SISA_OP_CLZ] then [SISA_OUTPUT0; SISA_INPUT0]
  else [SISA_OUTPUT0].

(** No operand is the PC, and the address of a swap is neither of its registers. *)
Definition misc_ok (op w : Z) : Prop :=
  no_pc op (misc_operands op) w
  ∧ (op_in op swp_ops = true →
     regnum w op SISA_INPUT1 ≠ regnum w op SISA_OUTPUT0 ∧ regnum w op SISA_INPUT1 ≠ regnum w op SISA_INPUT0).

Lemma misc_swp op s s' :
  op_in op swp_ops = true → is_u32 s.(raw_instr) → gen_misc_instr op s = Ok VALID s' →
  misc_ok op s'.(raw_instr).
Proof.
  intros Hin Hu. unfold gen_misc_instr. intros (w & s0 & [= <- <-] & H)%bind_ok. revert H.
  assert ((op =? SISA_OP_SVC) = false) as -> by by_list. fold swp_ops. rewrite Hin. cbv zeta.
  intros (b & s0 & [= <- <-] & (t & s1 & E & H)%bind_ok)%bind_ok.
  eapply wp_at in E; [|bias_by uconstr:(wp_bias) random_bias_reg_2_copies]. destruct t as [t t2], E as [_ Hr].
  assert (regnum s1.(raw_instr) op SISA_INPUT1 = regnum s.(raw_instr) op SISA_INPUT1) as Hn
    by (apply (rewritten_regnum _ _ _ _ _ _ Hr); cbn [fmap list_fmap fst]; by_list).
  regs_facts Hr. apply bind_ok in H as ([] & s2 & E & [= Hv <-]).
  assert (s1.(raw_instr) = s2.(raw_instr)) as <-.
  { revert E. apply raw_inv_when; [apply raw_inv_fix_mem_base|done]. }
  valid_split Hv. bools. split; [|split; congruence].
  assert (misc_operands op = [SISA_OUTPUT0; SISA_INPUT0; SISA_INPUT1]) as -> by by_list. no_pc.
Qed.

Lemma misc_clz s s' :
  is_u32 s.(raw_instr) → gen_misc_instr SISA_OP_CLZ s = Ok VALID s' → misc_ok SISA_OP_CLZ s'.(raw_instr).
Proof.
  intros Hu. unfold gen_misc_instr. intros (w & s0 & [= <- <-] & H)%bind_ok.
  apply bind_ok in H as (b & s0 & [= <- <-] & (t & s1 & E & H)%bind_ok).
  eapply wp_at in E; [|bias_by uconstr:(wp_bias) random_bias_reg_2_copies; vm_compute; reflexivity].
  destruct t as [d m], E as [_ Hr]. regs_facts Hr. injection H as Hv <-. valid_split Hv. bools.
  split; [|done]. change (misc_operands SISA_OP_CLZ) with [SISA_OUTPUT0; SISA_INPUT0]. no_pc.
Qed.

Lemma gen_misc_instr_ok op s s' :
  is_u32 s.(raw_instr) → gen_misc_instr op s = Ok VALID s' → misc_ok op s'.(raw_instr).
Proof.
  intros Hu E. destruct (op_in op swp_ops) eqn:Hin; [by eapply misc_swp|].
  destruct (Z.eqb_spec op SISA_OP_CLZ) as [->|Hclz%Z.eqb_neq]; [by eapply misc_clz|].
  revert E. unfold gen_misc_instr. fold swp_ops. rewrite Hin, Hclz.
  intros (w & s0 & [= <- <-] & H)%bind_ok. revert H. destruct (op =? SISA_OP_SVC); [done|].
  destruct (op_in op [SISA_OP_ADR_a1; SISA_OP_ADR_a2; SISA_OP_MOVT]) eqn:Hin2; [|done].
  intros [= Hv <-]. valid_split Hv. bools. split; [|congruence].
  assert (misc_operands op = [SISA_OUTPUT0]) as -> by by_list. no_pc.
Qed.

Lemma gen_uncategorized_instr_ok (op : Z) (s s' : rit_state) :
  is_u32 s.(raw_instr) → gen_uncategorized_instr op s = Ok VALID s' → media_ok op s'.(raw_instr).
Proof. intros Hu E. by apply (wp_at _ _ _ _ _ (wp_gen_uncategorized_instr op s Hu) E). Qed.

(** ** 6. Properties *)

(** A VALID media instruction obeys the manual: if
    [gen_uncategorized_instr] answers [VALID] then in the word it leaves, after
    biasing of registers and shift amounts, no register operand is the PC, an
    extracted bit field ends within the word, a replaced one is not empty, a
    status register write selects something, and the registers of a preload are
    the allowed ones. *)
Theorem gen_uncategorized_instr_valid (op : Z) (s s' : rit_state) :
  is_u32 s.(raw_instr) → gen_uncategorized_instr op s = Ok VALID s' → media_ok op s'.(raw_instr).
Proof. apply gen_uncategorized_instr_ok. Qed.
End media.

(** ssat r1, #4, r2, lsl #2, with all biases allowed: the immediate becomes
    the number of the source, the shift amount 31. *)
Lemma gen_uncategorized_instr_valid_witness : media_ok SISA_OP_SSAT 0xe6a21f92.
Proof.
  pose (o := opt_set_stat OPT_ALLOW_BIAS_OPND (opt_set_stat OPT_ALLOW_BIAS_REG zero_options)).
  pose (s := st_raw_instr 0xe6a31112 (st_options o zero_state)).
  pose (r := gen_uncategorized_instr (Env := lcg_env) SISA_OP_SSAT s).
  refine (gen_uncategorized_instr_valid (Env := lcg_env) SISA_OP_SSAT s
    (match r with Ok _ s' => s' | _ => s end) _ _).
  - vm_compute. split; [discriminate|reflexivity].
  - vm_compute. reflexivity.
Defined.
