(* ===== verification/ValidMulti.v ===== *)
(** * What a VALID status promises: multiple and exclusive transfers

    [gen_multi_mem_instr], [gen_ldex_instr] and [gen_stex_instr].  These groups
    leave the word as it is; the restrictions are stated of its register list
    and its fields. *)
From S2P Require Import Prelude RitCommon InstrTable State InstrUtil InstrBuf Keeps BiasUtil GenHelper MemSpec GenARMMem GenARMInstr ValidBias ValidSpec ValidMem.
#[local] Open Scope c_scope.

(** ** 1. Register lists *)

(** The register list is the low half of the word. *)
Definition reg_count (w : Z) : Z := popcount 16 w.
Definition listed (w r : Z) : bool := Z.testbit w r.
(** No register below [n] is in the list. *)
Definition lowest (w n : Z) : Prop := ∀ k, 0 ≤ k < n → listed w k = false.

Lemma testbit_low w k : 0 ≤ k < 16 → Z.testbit (w & 0xffff) k = Z.testbit w k.
Proof.
  intros Hk. rewrite Z.land_spec. change 0xffff with (Z.ones 16).
  by rewrite Z.ones_spec_low, andb_true_r by lia.
Qed.

Lemma popcount_low_half n w : (n ≤ 16)%nat → popcount n (w & 0xffff) = popcount n w.
Proof.
  intros Hn. induction n as [|n IH]; [done|]. cbn [popcount]. rewrite testbit_low by lia.
  by rewrite IH by lia.
Qed.

Lemma bit_count_list w : is_u32 w → bit_count (w & 0xffff) = reg_count w.
Proof.
  intros Hu. unfold bit_count. rewrite (bit_count_loop_spec 33 16); try lia.
  - cbn [default]. rewrite popcount_low_half by lia. done.
  - change 0xffff with (Z.ones 16). rewrite Z.land_ones by lia. apply Z.mod_pos_bound. lia.
Qed.

Lemma bit_listed w r : 0 ≤ r < 16 → get_bit_value (w & 0xffff) r = Z.b2z (listed w r).
Proof. intros Hr. rewrite get_bit_value_testbit by lia. by rewrite testbit_low. Qed.

(** A list with no register of a mask of low bits. *)
Lemma land_low_zero w n : 0 ≤ n ≤ 16 → ((w & 0xffff) & Z.ones n) = 0 → lowest w n.
Proof.
  intros Hn E k Hk. unfold listed. rewrite <- testbit_low by lia.
  assert (Z.testbit ((w & 0xffff) & Z.ones n) k = false) as H by (by rewrite E, Z.testbit_0_l).
  rewrite Z.land_spec, Z.ones_spec_low, andb_true_r in H by lia. done.
Qed.

Lemma mask_below n : 0 ≤ n < 16 → (0xffff >> (16 - n)) = Z.ones n.
Proof.
  intros Hn. assert (forallb (λ n, (0xffff >> (16 - n)) =? Z.ones n) (seqZ 0 16) = true) as H
    by (vm_compute; reflexivity).
  rewrite forallb_forall in H. apply Z.eqb_eq, H, list_elem_of_In, elem_of_seqZ. lia.
Qed.

Lemma Rn_range w : is_u32 w → 0 ≤ Rn w < 16.
Proof. intros Hu. apply (get_bits_value_range w 16 19); [lia|lia|apply Hu]. Qed.

(** ** 2. The restrictions *)

Definition ldm_ops : list Z := [SISA_OP_LDM; SISA_OP_LDMDA; SISA_OP_LDMDB; SISA_OP_LDMIB].
Definition stm_ops : list Z := [SISA_OP_STM; SISA_OP_STMDA; SISA_OP_STMDB; SISA_OP_STMIB].

(** A list is not empty and the base is not the PC; the form that is a PUSH or
    a POP is not used for it. *)
Definition block_ok (alias op w : Z) : Prop :=
  Rn w ≠ R_PC ∧ 1 ≤ reg_count w
  ∧ ¬ (op = alias ∧ Wbit w = true ∧ Rn w = R_SP ∧ 2 ≤ reg_count w).

Definition ldm_ok (op w : Z) : Prop :=
  block_ok SISA_OP_LDM op w ∧ listed w R_PC = false ∧ (Wbit w = true → listed w (Rn w) = false).
(** A base that is stored and written back is the lowest register stored. *)
Definition stm_ok (op w : Z) : Prop :=
  block_ok SISA_OP_STMDB op w ∧ (Wbit w = true → listed w (Rn w) = true → lowest w (Rn w)).
Definition push_ok (op w : Z) : Prop :=
  (op = SISA_OP_PUSH_a1 → 2 ≤ reg_count w ∧ (listed w R_SP = true → lowest w R_SP))
  ∧ (op = SISA_OP_PUSH_a2 → Rt w ≠ R_SP).
Definition pop_ok (op w : Z) : Prop :=
  (op = SISA_OP_POP_a1 → 2 ≤ reg_count w ∧ listed w R_SP = false ∧ listed w R_PC = false)
  ∧ (op = SISA_OP_POP_a2 → Rt w ≠ R_SP ∧ Rt w ≠ R_PC).

Definition multi_ok (op w : Z) : Prop :=
  match (instr_desc op).(op_kind) with
  | LDM_OP => ldm_ok op w
  | STM_OP => stm_ok op w
  | PUSH_OP => push_ok op w
  | POP_OP => pop_ok op w
  | _ => False
  end.

Section multi.
Context `{Env : !RitEnv}.

Lemma multi_mem_base_ok w n st s s' :
  s.(raw_instr) = w → multi_mem_base n st s = Ok VALID s' → st = VALID ∧ s'.(raw_instr) = w.
Proof.
  intros Hw E. assert (passes (eq w) st (multi_mem_base n st)) as H
    by (unfold multi_mem_base, GET_OPT_STAT; passes; by apply passes_upd).
  destruct (H s s' (eq_sym Hw) E). auto.
Qed.

Lemma block_regs op w :
  op_in op (ldm_ops ++ stm_ops) = true → regnum w op SISA_INPUT0 = Rn w.
Proof.
  intros H. apply opnd_at_regnum. apply (op_in_check (opnd_at 16 19 SISA_INPUT0) op _ H).
  vm_compute. reflexivity.
Qed.

(** What the tests of the word mean. *)
Ltac list_facts Hu :=
  repeat match goal with
  | H : context [get_bit_value (_ & 0xffff) _] |- _ =>
      rewrite bit_listed in H by (first [by apply Rn_range|unfold R_PC, R_SP; lia])
  | H : context [get_bit_value _ 21] |- _ => rewrite (get_bit_value_testbit _ 21) in H by lia
  | H : context [bit_count _] |- _ => rewrite bit_count_list in H by exact Hu
  end.

Lemma block_alias op alias w :
  (op =? alias) && (Z.b2z (Wbit w) =? 1) && (Rn w =? R_SP) && (2 <=? reg_count w) = false →
  ¬ (op = alias ∧ Wbit w = true ∧ Rn w = R_SP ∧ 2 ≤ reg_count w).
Proof.
  intros H (-> & E1 & E2 & E3%Z.leb_le). by rewrite Z.eqb_refl, E1, E2, E3 in H.
Qed.

(** The start of the four generators: the assertion holds. *)
Lemma assert_ok {A} (b : bool) e (m : rit A) s a s' :
  (assertM b e ;; m) s = Ok a s' → b = true ∧ m s = Ok a s'.
Proof. by destruct b. Qed.

Lemma gen_ldm_ok op s s' :
  is_u32 s.(raw_instr) → gen_ldm op s.(raw_instr) s = Ok VALID s' →
  ldm_ok op s.(raw_instr) ∧ s'.(raw_instr) = s.(raw_instr).
Proof.
  intros Hu. unfold gen_ldm. set (w := s.(raw_instr)) in *. fold ldm_ops.
  intros [Hin H]%assert_ok. apply bind_ok in H as (arch & s0 & [= _ <-] & H). cbv zeta in H.
  rewrite block_regs in H by (by rewrite op_in_app, Hin).
  apply (multi_mem_base_ok w) in H as [Hv Hw]; [|done]. split; [|done].
  valid_split Hv; list_facts Hu; bools. fold (Wbit w) in *. unfold ldm_ok, stm_ok, block_ok.
  split_and!; [done|done|by apply block_alias| |].
  - by destruct (listed w R_PC).
  - intros E. rewrite E in *. by destruct (listed w (Rn w)).
Qed.

Lemma gen_stm_ok op s s' :
  is_u32 s.(raw_instr) → gen_stm op s.(raw_instr) s = Ok VALID s' →
  stm_ok op s.(raw_instr) ∧ s'.(raw_instr) = s.(raw_instr).
Proof.
  intros Hu. unfold gen_stm. set (w := s.(raw_instr)) in *. fold stm_ops.
  intros [Hin H]%assert_ok. cbv zeta in H.
  rewrite block_regs in H by (by rewrite op_in_app, Hin, orb_true_r).
  apply (multi_mem_base_ok w) in H as [Hv Hw]; [|done]. split; [|done].
  pose proof (Rn_range w Hu). rewrite mask_below in Hv by done.
  valid_split Hv; list_facts Hu; bools. fold (Wbit w) in *. unfold ldm_ok, stm_ok, block_ok.
  split_and!; [done|done|by apply block_alias|].
  intros E1 E2. rewrite E1, E2 in *. apply land_low_zero; [lia|].
  apply Z.eqb_eq. by destruct ((w & 0xffff & Z.ones (Rn w)) =? 0).
Qed.

(** Rt, masked in place. *)
Lemma Rt_mask w : (w & 0xf000) = Rt w * 2 ^ 12.
Proof.
  rewrite <- Z.shiftl_mul_pow2 by lia. apply Z.bits_inj'. intros k Hk.
  change 0xf000 with (Z.shiftl (Z.ones 4) 12). rewrite Z.land_spec, !Z.shiftl_spec by lia.
  destruct (Z.lt_ge_cases k 12).
  - rewrite !(Z.testbit_neg_r _ (k - 12)) by lia. apply andb_false_r.
  - unfold Rt. rewrite testbit_get_bits_value, Z.testbit_ones_nonneg by lia.
    replace (k - 12 + 12) with k by lia. rewrite andb_comm. f_equal.
    destruct (Z.ltb_spec (k - 12) 4), (Z.leb_spec (k - 12) (15 - 12)); lia || done.
Qed.

Lemma gen_push_ok op s s' :
  is_u32 s.(raw_instr) → gen_push op s.(raw_instr) s = Ok VALID s' →
  push_ok op s.(raw_instr) ∧ s'.(raw_instr) = s.(raw_instr).
Proof.
  intros Hu. unfold gen_push. set (w := s.(raw_instr)) in *.
  intros [Hin H]%assert_ok. cbv zeta in H. rewrite Rt_mask in H.
  apply (multi_mem_base_ok w) in H as [Hv Hw]; [|done]. split; [|done].
  valid_split Hv; list_facts Hu; bools; (split; intros ->; [|intros E; by rewrite E in *]); [|done].
  split; [done|]. intros E. rewrite E in *. apply land_low_zero; [done|]. change (Z.ones R_SP) with 0x1fff.
  apply Z.eqb_eq. by destruct ((w & 0xffff & 0x1fff) =? 0).
Qed.

Lemma gen_pop_ok op s s' :
  is_u32 s.(raw_instr) → gen_pop op s.(raw_instr) s = Ok VALID s' →
  pop_ok op s.(raw_instr) ∧ s'.(raw_instr) = s.(raw_instr).
Proof.
  intros Hu. unfold gen_pop. set (w := s.(raw_instr)) in *.
  intros [Hin H]%assert_ok. apply bind_ok in H as (arch & s0 & [= _ <-] & H). cbv zeta in H.
  rewrite Rt_mask in H. apply (multi_mem_base_ok w) in H as [Hv Hw]; [|done]. split; [|done].
  valid_split Hv; list_facts Hu; bools; split; intros ->; try done.
  - split; intros E; by rewrite E in *.
  - split; [done|]. by destruct (listed w R_SP), (listed w R_PC).
Qed.

(** ** 3. Exclusive accesses *)

(** No operand is the PC and a pair starts at an even register below the stack
    pointer pair; the status register of a store is no other operand. *)
Definition ldex_ok (op w : Z) : Prop :=
  no_pc op [SISA_OUTPUT0; SISA_INPUT0] w
  ∧ (op = SISA_OP_LDREXD → regnum w op SISA_OUTPUT0 mod 2 ≠ 1 ∧ regnum w op SISA_OUTPUT0 ≠ 14).
Definition stex_ok (op w : Z) : Prop :=
  let d := regnum w op SISA_OUTPUT0 in
  let t := regnum w op SISA_INPUT0 in
  no_pc op [SISA_OUTPUT0; SISA_INPUT0; SISA_INPUT1] w ∧ d ≠ regnum w op SISA_INPUT1 ∧ d ≠ t
  ∧ (op = SISA_OP_STREXD → t mod 2 ≠ 1 ∧ t ≠ 14 ∧ d ≠ t + 1).

(** Both groups classify the word, and then set the base up. *)
Lemma classified n fa st s s' :
  (fix_mem_base n fa ;; mret st) s = Ok VALID s' → st = VALID ∧ s'.(raw_instr) = s.(raw_instr).
Proof.
  intros ([] & s1 & E & [= -> <-])%bind_ok. split; [done|]. symmetry.
  by apply (raw_inv_fix_mem_base (eq s.(raw_instr)) _ _ _ _ _ eq_refl E).
Qed.

Lemma gen_ldex_ok op s s' : gen_ldex_instr op s = Ok VALID s' → ldex_ok op s'.(raw_instr).
Proof.
  unfold gen_ldex_instr. intros (w & s0 & [= <- <-] & H)%bind_ok. cbv zeta in H.
  apply classified in H as [Hv ->]. valid_split Hv. bools. split; [no_pc|]. intros ->. rewrite Z.eqb_refl in *. bools. done.
Qed.

Lemma gen_stex_ok op s s' :
  gpr_field op SISA_INPUT0 = true → is_u32 s.(raw_instr) →
  gen_stex_instr op s = Ok VALID s' → stex_ok op s'.(raw_instr).
Proof.
  intros Hf Hu. unfold gen_stex_instr. intros (w & s0 & [= <- <-] & H)%bind_ok. cbv zeta in H.
  pose proof (regnum_range op _ _ Hf Hu). rewrite (u32_small (_ + 1)) in H by (unfold is_u32; lia).
  apply classified in H as [Hv ->]. valid_split Hv; bools; (split; [no_pc|]); (split; [done|]);
    (split; [done|]); intros ->; [|done]. unfold R_PC in *. split_and!; lia || done.
Qed.

Lemma gen_multi_mem_instr_ok (op : Z) (s s' : rit_state) :
  is_u32 s.(raw_instr) → gen_multi_mem_instr op s = Ok VALID s' →
  multi_ok op s'.(raw_instr) ∧ s'.(raw_instr) = s.(raw_instr).
Proof.
  intros Hu. unfold gen_multi_mem_instr, multi_ok. intros (w & s0 & [= <- <-] & H)%bind_ok.
  apply group_ok in H as (s1 & E & ->). destruct (op_kind (instr_desc op)); try done.
  - destruct (gen_ldm_ok op s s1 Hu E) as [? ->]. done.
  - destruct (gen_stm_ok op s s1 Hu E) as [? ->]. done.
  - destruct (gen_push_ok op s s1 Hu E) as [? ->]. done.
  - destruct (gen_pop_ok op s s1 Hu E) as [? ->]. done.
Qed.

(** ** 4. Properties *)

(** A VALID multiple transfer obeys the manual: if [gen_multi_mem_instr]
    answers [VALID], the word is not changed; a block has a register in its
    list and a base that is not the PC; a load does not load the PC, nor a base
    that is written back; a base that is stored and written back is the lowest
    register of the list; and neither of them is the form that is a push or a
    pop.  A push or pop of a list has two registers or more, the one of a
    single register does not name the stack pointer, nor a pop the PC. *)
Theorem gen_multi_mem_instr_valid (op : Z) (s s' : rit_state) :
  is_u32 s.(raw_instr) → gen_multi_mem_instr op s = Ok VALID s' →
  multi_ok op s'.(raw_instr) ∧ s'.(raw_instr) = s.(raw_instr).
Proof. apply gen_multi_mem_instr_ok. Qed.
End multi.

(** stmia r2!, {r2, r5} *)
Lemma gen_multi_mem_instr_valid_witness : multi_ok SISA_OP_STM 0xe8a20024 ∧ 0xe8a20024 = 0xe8a20024.
Proof.
  pose (s := st_raw_instr 0xe8a20024 zero_state).
  pose (r := gen_multi_mem_instr (Env := lcg_env) SISA_OP_STM s).
  refine (gen_multi_mem_instr_valid (Env := lcg_env) SISA_OP_STM s
    (match r with Ok _ s' => s' | _ => s end) _ _).
  - vm_compute. split; [discriminate|reflexivity].
  - vm_compute. reflexivity.
Defined.
