(* ===== verification/ValidArm.v ===== *)
(** * What a VALID status promises: every ARM instruction

    The promises of the groups, put together along [gen_arm_instr]. *)
From S2P Require Import Prelude RitCommon InstrTable State InstrUtil InstrBuf Keeps BiasUtil GenHelper MemSpec GenARMMem GenARMInstr ValidBias ValidSpec ValidMem ValidMedia ValidMulti.
#[local] Open Scope c_scope.

(** The restrictions of an ARM opcode, by its kind.  Branches are never VALID
    (they are [FIXINST]), nor are the kinds the generator does not know. *)
Definition arm_ok (op w : Z) : Prop :=
  if is_arm_uncategoried_op op then media_ok op w
  else match (instr_desc op).(op_kind) with
  | ST_OP => st_ok op w
  | LD_OP => ld_ok op w
  | LDREX_OP => ldex_ok op w
  | STREX_OP => stex_ok op w
  | STM_OP | LDM_OP | PUSH_OP | POP_OP => multi_ok op w
  | MISC_OP => misc_ok op w
  | UMUL_OP | MUL32_OP | SMUL_OP | SMULD_OP => mul_ok op w
  | ALU_OP | LOG_OP | MOV_OP | CMP_OP | TEST_OP => data_ok op w
  | EMPTY_OP => op ≠ SISA_OP_WFI ∧ op ≠ SISA_OP_CLREX
  | _ => False
  end.

(** The source of an exclusive store is a register field. *)
Lemma stex_field op :
  0 ≤ op < SISA_OP_ARM_MAX → (instr_desc op).(op_kind) = STREX_OP → gpr_field op SISA_INPUT0 = true.
Proof.
  intros Hop Hk. pose proof (arm_table_check
    (λ op, negb (opkind_eqb (instr_desc op).(op_kind) STREX_OP) || gpr_field op SISA_INPUT0)
    ltac:(vm_compute; reflexivity) op Hop) as H. cbv beta in H. by rewrite Hk in H.
Qed.

Section arm.
Context `{Env : !RitEnv}.

Lemma gen_jmp_not_valid op s s' : gen_jmp_instr op s ≠ Ok VALID s'.
Proof.
  unfold gen_jmp_instr. intros (w & s0 & _ & H)%bind_ok. revert H.
  repeat (case_match; try done); intros ([] & s1 & _ & [= Hv])%bind_ok. by destruct (_ =? R_PC).
Qed.

Lemma gen_empty_ok op s s' :
  gen_empty_instr op s = Ok VALID s' → op ≠ SISA_OP_WFI ∧ op ≠ SISA_OP_CLREX.
Proof.
  unfold gen_empty_instr. intros [= H _]. destruct (Z.eqb_spec op SISA_OP_WFI); [done|].
  by destruct (Z.eqb_spec op SISA_OP_CLREX).
Qed.

Lemma gen_arm_instr_ok op s s' :
  0 ≤ op < SISA_OP_ARM_MAX → is_u32 s.(raw_instr) → gen_arm_instr op s = Ok VALID s' →
  arm_ok op s'.(raw_instr).
Proof.
  intros Hop Hu. unfold gen_arm_instr, arm_ok. intros (i & s0 & [= _ <-] & H)%bind_ok. revert H.
  destruct (_ && _); [done|]. destruct (is_arm_uncategoried_op op); [by apply gen_uncategorized_instr_ok|].
  assert (0 ≤ op < SISA_OP_MAX) as Hop' by (unfold SISA_OP_ARM_MAX, SISA_OP_MAX in *; lia).
  assert (∀ s1, gen_multi_mem_instr op s = Ok VALID s1 → multi_ok op s1.(raw_instr)) as Hm
    by (intros s1 [? _]%gen_multi_mem_instr_ok; done).
  destruct (op_kind (instr_desc op)) eqn:Hk; try done; first
    [by apply Hm|by apply gen_st_instr_ok|by apply gen_ld_instr_ok|by apply gen_ldex_ok
    |by apply gen_stex_ok; [apply stex_field|]|by apply gen_misc_instr_ok|by apply gen_mul_instr_ok
    |by apply gen_data_instr_ok|by intros H%gen_jmp_not_valid|apply gen_empty_ok].
Qed.

(** ** Properties *)

(** C33. Every VALID ARM instruction obeys the manual: for each opcode of the
    ARM table and every word, if [gen_arm_instr] answers [VALID] then the word
    it leaves meets the restrictions of the opcode's group; branches and the
    kinds without a generator are never [VALID]. *)
Theorem gen_arm_instr_valid (op : Z) (s s' : rit_state) :
  0 ≤ op < SISA_OP_ARM_MAX → is_u32 s.(raw_instr) → gen_arm_instr op s = Ok VALID s' →
  arm_ok op s'.(raw_instr).
Proof. apply gen_arm_instr_ok. Qed.
End arm.

(** strexd r1, r4, r5, [r7] *)
Lemma gen_arm_instr_valid_witness : arm_ok SISA_OP_STREXD 0xe1a71f94.
Proof.
  pose (s := st_raw_instr 0xe1a71f94 zero_state).
  pose (r := gen_arm_instr (Env := lcg_env) SISA_OP_STREXD s).
  refine (gen_arm_instr_valid (Env := lcg_env) SISA_OP_STREXD s
    (match r with Ok _ s' => s' | _ => s end) _ _ _).
  - done.
  - vm_compute. split; [discriminate|reflexivity].
  - vm_compute. reflexivity.
Defined.
