(* ===== verification/GenThumbInstr.v ===== *)
(** * 16-bit Thumb instructions: GenThumbInstr.c *)
From S2P Require Import Prelude RitCommon InstrTable State InstrUtil InstrBuf Keeps GenHelper GenARMMem.
#[local] Open Scope c_scope.

Section thumb.
Context `{Env : !RitEnv}.

(** ** 1. Single memory accesses *)

(** [if (op is one of l) if ((addr & mask) && options.arch_version < 7)
    status = INST_UNKNOWN;] *)
Definition chk_unaligned (op : Z) (l : list Z) (addr mask : Z) (st : instr_status_t)
    : rit instr_status_t :=
  arch ← opt arch_version;
  mret (upd (op_in op l && negb ((addr & mask) =? 0) && (arch <? 7)) INST_UNKNOWN st).

(** Immediate offset from [n]; [words] and [halves] are the opcodes whose
    base address is checked. *)
Definition gen_thumb_mem_imm (op n : Z) (words halves : list Z) : rit instr_status_t :=
  let st := VALID in
  no_fix ← GET_OPT_STAT OPT_NOT_ALLOW_FIX_MEM;
  if negb no_fix then fix_mem_base n false ;; mret st
  else
    base_addr ← gen_pre_instr_for_mem_base n;
    st ← chk_unaligned op words base_addr 3 st;
    chk_unaligned op halves base_addr 1 st.

(** Register offset: base [n], offset [m]. *)
Definition gen_thumb_mem_reg (op n m : Z) (words halves : list Z) : rit instr_status_t :=
  let st := upd (m =? n) UNSUPPORTED VALID in
  if negb (status_eqb st UNSUPPORTED) then
    no_fix ← GET_OPT_STAT OPT_NOT_ALLOW_FIX_MEM;
    if negb no_fix then
      fix_mem_base n false ;;
      mov ← opt mem_offset_val;
      r ← rand;
      emit_ldr_offset m (r & mov) ;;
      mret st
    else
      base_val ← gen_pre_instr_for_mem_base n;
      off ← get_rand_mem_offset 0 0;
      let offset_val := off.1 in
      emit_ldr_offset m offset_val ;;
      let offset_addr := get_mem_addr base_val offset_val true true in
      st ← chk_unaligned op words offset_addr 3 st;
      chk_unaligned op halves offset_addr 1 st
  else mret st.

Definition gen_thumb_mem_instr (op : Z) : rit instr_status_t :=
  instr ← get_raw_instr;
  status ←
    (if op_in op [SISA_OP_LDR_imm_T1; SISA_OP_LDR_imm_T2; SISA_OP_LDRB_imm_T1;
                  SISA_OP_LDRH_imm_T1] then
       gen_thumb_mem_imm op (regnum instr op SISA_INPUT0)
         [SISA_OP_LDR_imm_T1; SISA_OP_LDR_imm_T2] [SISA_OP_LDRH_imm_T1]
     else if op_in op [SISA_OP_STR_imm_T1; SISA_OP_STR_imm_T2; SISA_OP_STRB_imm_T1;
                       SISA_OP_STRH_imm_T1] then
       gen_thumb_mem_imm op (regnum instr op SISA_INPUT1)
         [SISA_OP_STR_imm_T1; SISA_OP_STR_imm_T2] [SISA_OP_STRH_imm_T1]
     else if op_in op [SISA_OP_LDR_reg_T1; SISA_OP_LDRB_reg_T1; SISA_OP_LDRH_reg_T1;
                       SISA_OP_LDRSH_reg_T1; SISA_OP_LDRSB_reg_T1] then
       gen_thumb_mem_reg op (regnum instr op SISA_INPUT0) (regnum instr op SISA_INPUT1)
         [SISA_OP_LDR_reg_T1] [SISA_OP_LDRH_reg_T1; SISA_OP_LDRSH_reg_T1]
     else if op_in op [SISA_OP_STR_reg_T1; SISA_OP_STRH_reg_T1; SISA_OP_STRB_reg_T1] then
       gen_thumb_mem_reg op (regnum instr op SISA_INPUT1) (regnum instr op SISA_INPUT2)
         [SISA_OP_STR_reg_T1] [SISA_OP_STRH_reg_T1]
     else if op =? SISA_OP_LDR_lit_T1 then mret VALID
     else mret UNSUPPORTED);
  modify (st_is_oprand_init true) ;;
  mret status.

(** ** 2. Multiple memory accesses *)

(** [if (!GET_OPT_STAT(...)) fix_mem_base(n, true); else mem_addr = gen_pre...;]
    [mem_addr] starts at 0. *)
Definition thumb_multi_base (n : Z) : rit Z :=
  no_fix ← GET_OPT_STAT OPT_NOT_ALLOW_FIX_MEM;
  if negb no_fix then fix_mem_base n true ;; mret 0
  else gen_pre_instr_for_mem_base n.

Definition gen_thumb_multi_mem_instr (op : Z) : rit instr_status_t :=
  instr ← get_raw_instr;
  let empty_list := (instr & 0xff) =? 0 in
  sa ←
    (if op =? SISA_OP_LDM_T1 then
       let n := regnum instr op SISA_INPUT0 in
       let st := upd empty_list UNPREDICTABLE VALID in
       mem_addr ← thumb_multi_base n;
       mret (st, mem_addr)
     else if op =? SISA_OP_STM_T1 then
       let n := regnum instr op SISA_INPUT0 in
       let st := upd empty_list UNPREDICTABLE VALID in
       let st := upd (negb (get_bit_value instr n =? 0)
                      && negb ((instr & (0xff >> (8 - n))) =? 0)) INST_UNKNOWN st in
       let st := upd (negb (get_bit_value instr n =? 0)) UNSUPPORTED st in
       mem_addr ← thumb_multi_base n;
       mret (st, mem_addr)
     else if op =? SISA_OP_POP_T then
       let st := upd empty_list UNPREDICTABLE VALID in
       let st := upd (negb (get_bit_value instr 8 =? 0)) UNSUPPORTED st in
       mem_addr ← thumb_multi_base R_SP;
       mret (st, mem_addr)
     else if op =? SISA_OP_PUSH_T then
       let st := upd empty_list UNPREDICTABLE VALID in
       mem_addr ← thumb_multi_base R_SP;
       mret (st, mem_addr)
     else mret (INVALID, 0));
  let '(st, mem_addr) := sa in
  al ← is_mem_align mem_addr 2;
  no_fix ← GET_OPT_STAT OPT_NOT_ALLOW_FIX_MEM;
  let st := upd (negb al && no_fix) UNSUPPORTED st in
  modify (st_is_oprand_init true) ;;
  mret st.

(** ** 3. Other instructions *)

Definition gen_thumb_misc_instr (op : Z) : rit instr_status_t :=
  mret (if op =? SISA_OP_SVC_T1 then UNSUPPORTED
        else if op =? SISA_OP_ADR_T1 then VALID else INVALID).

Definition gen_thumb_data_instr (op : Z) : rit instr_status_t :=
  instr ← get_raw_instr;
  let st := VALID in
  mret (
    if op =? SISA_OP_CMP_reg_T2 then
      let n := regnum instr op SISA_INPUT0 in
      let m := regnum instr op SISA_INPUT1 in
      let st := upd ((n <? 8) && (m <? 8)) UNPREDICTABLE st in
      upd ((n =? R_PC) || (m =? R_PC)) UNPREDICTABLE st
    else
      let st := upd (negb (opnd_type_eqb (opnd_of op SISA_OUTPUT0).(type) SISA_OPND_TYPE_NONE)
                     && (regnum instr op SISA_OUTPUT0 =? R_PC)) UNSUPPORTED st in
      upd (negb (opnd_type_eqb (opnd_of op SISA_OUTPUT1).(type) SISA_OPND_TYPE_NONE)
           && (regnum instr op SISA_OUTPUT1 =? R_PC)) UNSUPPORTED st).

Definition gen_thumb_mul_instr (op : Z) : rit instr_status_t :=
  instr ← get_raw_instr;
  arch ← opt arch_version;
  mret (
    if op =? SISA_OP_MUL_reg_T1 then
      let dm := regnum instr op SISA_OUTPUT0 in
      let n := regnum instr op SISA_INPUT0 in
      upd ((arch <? 6) && (dm =? n)) UNPREDICTABLE VALID
    else INVALID).

Definition gen_thumb_jmp_instr (op : Z) : rit instr_status_t :=
  instr ← get_raw_instr;
  if op_in op [SISA_OP_B_T1; SISA_OP_B_T2; SISA_OP_CBZ_T1; SISA_OP_CBNZ_T1] then
    let st := FIXINST in
    let st :=
      if op =? SISA_OP_B_T1 then
        let cond := get_bits_value instr 8 11 in
        let st := upd (cond =? COND_AL) UNDEFINED st in
        upd (cond =? COND_RAND) ALIAS st
      else st in
    insert_instr "[INSTINFO] type=BranchWritePC target=Thumb" ;; mret st
  else if op =? SISA_OP_BL_imm_T1 then
    insert_instr "[INSTINFO] type=BranchWritePC target=Thumb" ;; mret FIXINST
  else if op =? SISA_OP_BLX_imm_T2 then
    insert_instr "[INSTINFO] type=BranchWritePC target=ARM" ;; mret FIXINST
  else if op =? SISA_OP_BX_T1 then
    insert_instr "[INSTINFO] type=BXWritePC" ;; mret FIXINST
  else if op =? SISA_OP_BLX_reg_T1 then
    let m := regnum instr op SISA_INPUT0 in
    let st := upd (m =? R_PC) UNPREDICTABLE FIXINST in
    insert_instr "[INSTINFO] type=BXWritePC" ;; mret st
  else mret INVALID.

Definition gen_thumb_empty_instr (op : Z) : rit instr_status_t :=
  mret (if op =? SISA_OP_WFI_T1 then UNSUPPORTED else VALID).
Definition gen_thumb_unsup_instr (op : Z) : rit instr_status_t := mret INVALID.
Definition gen_thumb_ext_instr (op : Z) : rit instr_status_t := mret VALID.
Definition gen_thumb_reverse_instr (op : Z) : rit instr_status_t := mret VALID.

(** ** 4. Dispatch *)

Definition gen_thumb_instr (op : Z) : rit instr_status_t :=
  match (instr_desc op).(op_kind) with
  | ST_OP | LD_OP => gen_thumb_mem_instr op
  | STM_OP | LDM_OP | PUSH_OP | POP_OP => gen_thumb_multi_mem_instr op
  | MISC_OP => gen_thumb_misc_instr op
  | MUL32_OP => gen_thumb_mul_instr op
  | JMP_OP => gen_thumb_jmp_instr op
  | EMPTY_OP => gen_thumb_empty_instr op
  | NO_OP => gen_thumb_unsup_instr op
  | ALU_OP | LOG_OP | MOV_OP | CMP_OP | TEST_OP => gen_thumb_data_instr op
  | EXT_OP => gen_thumb_ext_instr op
  | REVERSE_OP => gen_thumb_reverse_instr op
  | _ => mret UNSUPPORTED
  end.
End thumb.

(** ** 5. The generators keep the invariant *)

Section keeps.
Context `{Env : !RitEnv}.

Lemma keeps_chk_unaligned th op tmpl op' l a mask st :
  keeps th op tmpl 0 (λ _, True) (chk_unaligned op' l a mask st).
Proof. unfold chk_unaligned. keeps. Qed.
#[local] Hint Resolve keeps_chk_unaligned : keeps.

Lemma keeps_gen_thumb_mem_imm th op tmpl op' n words halves :
  keeps th op tmpl 7 (λ _, True) (gen_thumb_mem_imm op' n words halves).
Proof. unfold gen_thumb_mem_imm. keeps. Qed.

Lemma keeps_gen_thumb_mem_reg th op tmpl op' n m words halves :
  keeps th op tmpl 7 (λ _, True) (gen_thumb_mem_reg op' n m words halves).
Proof. unfold gen_thumb_mem_reg. keeps. Qed.

Lemma keeps_thumb_multi_base th op tmpl n : keeps th op tmpl 7 (λ _, True) (thumb_multi_base n).
Proof. unfold thumb_multi_base. keeps. Qed.
#[local] Hint Resolve keeps_gen_thumb_mem_imm keeps_gen_thumb_mem_reg keeps_thumb_multi_base : keeps.

Lemma keeps_gen_thumb_mem_instr th op tmpl : keeps th op tmpl 7 (λ _, True) (gen_thumb_mem_instr op).
Proof. unfold gen_thumb_mem_instr. keeps. Qed.

Lemma keeps_gen_thumb_multi_mem_instr th op tmpl :
  keeps th op tmpl 7 (λ _, True) (gen_thumb_multi_mem_instr op).
Proof. unfold gen_thumb_multi_mem_instr. keeps. Qed.
#[local] Hint Resolve keeps_gen_thumb_mem_instr keeps_gen_thumb_multi_mem_instr : keeps.

Lemma keeps_gen_thumb_instr th op tmpl : keeps th op tmpl 7 (λ _, True) (gen_thumb_instr op).
Proof.
  unfold gen_thumb_instr, gen_thumb_misc_instr, gen_thumb_data_instr, gen_thumb_mul_instr,
    gen_thumb_jmp_instr, gen_thumb_empty_instr, gen_thumb_unsup_instr, gen_thumb_ext_instr,
    gen_thumb_reverse_instr.
  destruct (op_kind (instr_desc op)); keeps.
Qed.
End keeps.
#[export] Hint Resolve keeps_gen_thumb_instr : keeps.
