(* ===== verification/GenThumb32Instr.v ===== *)
(** * 32-bit Thumb instructions: GenThumb32Instr.c

    The status of each encoding is a function of the opcode and the raw word;
    the generators add the effects (base register set-up, operand fixes). *)
From S2P Require Import Prelude RitCommon InstrTable State InstrUtil InstrBuf Keeps GenHelper.
#[local] Open Scope c_scope.

(** ** 1. Opcode groups: the case labels of gen_thumb32_instr *)

Definition thumb32_multi_mem_ops : list Z := [
  SISA_OP_LDM_T2; SISA_OP_LDMDB_T1; SISA_OP_POP_T2; SISA_OP_STM_T2; SISA_OP_STMDB_T1;
  SISA_OP_PUSH_T2].
Definition thumb32_ld_imm_ops : list Z := [
  SISA_OP_LDR_imm_T3; SISA_OP_LDR_imm_T4; SISA_OP_LDRD_imm_T1; SISA_OP_LDRB_imm_T2;
  SISA_OP_LDRB_imm_T3; SISA_OP_LDRH_imm_T2; SISA_OP_LDRH_imm_T3; SISA_OP_LDRSB_imm_T1;
  SISA_OP_LDRSB_imm_T2; SISA_OP_LDRSH_imm_T1; SISA_OP_LDRSH_imm_T2; SISA_OP_POP_T3;
  SISA_OP_LDRT_T1; SISA_OP_LDRBT_T1; SISA_OP_LDRHT_T1; SISA_OP_LDRSBT_T1; SISA_OP_LDRSHT_T1].
Definition thumb32_ld_reg_ops : list Z := [
  SISA_OP_LDR_reg_T2; SISA_OP_LDRB_reg_T2; SISA_OP_LDRH_reg_T2; SISA_OP_LDRSB_reg_T2;
  SISA_OP_LDRSH_reg_T2].
Definition thumb32_st_imm_ops : list Z := [
  SISA_OP_STR_imm_T3; SISA_OP_STR_imm_T4; SISA_OP_STRD_imm_T1; SISA_OP_STRB_imm_T2;
  SISA_OP_STRB_imm_T3; SISA_OP_STRH_imm_T2; SISA_OP_STRH_imm_T3; SISA_OP_STRT_T1;
  SISA_OP_STRBT_T1; SISA_OP_STRHT_T1; SISA_OP_PUSH_T3].
Definition thumb32_st_reg_ops : list Z := [
  SISA_OP_STR_reg_T2; SISA_OP_STRB_reg_T2; SISA_OP_STRH_reg_T2].
Definition thumb32_mem_lit_ops : list Z := [
  SISA_OP_LDR_lit_T2; SISA_OP_LDRD_lit_T1; SISA_OP_LDRB_lit_T1; SISA_OP_LDRH_lit_T1;
  SISA_OP_LDRSB_lit_T1; SISA_OP_LDRSH_lit_T1].
Definition thumb32_mem_ex_ops : list Z := [
  SISA_OP_STREX_T1; SISA_OP_STREXB_T1; SISA_OP_STREXH_T1; SISA_OP_STREXD_T1; SISA_OP_LDREX_T1;
  SISA_OP_LDREXB_T1; SISA_OP_LDREXH_T1; SISA_OP_LDREXD_T1].
Definition thumb32_mem_preload_ops : list Z := [
  SISA_OP_PLD_lit_T1; SISA_OP_PLD_imm_T1; SISA_OP_PLD_imm_T2; SISA_OP_PLD_reg_T1;
  SISA_OP_PLI_lit_T3; SISA_OP_PLI_imm_T1; SISA_OP_PLI_imm_T2; SISA_OP_PLI_reg_T1;
  SISA_OP_PLDW_imm_T1; SISA_OP_PLDW_imm_T2; SISA_OP_PLDW_reg_T1].
Definition thumb32_data_shifted_reg_ops : list Z := [
  SISA_OP_AND_reg_T2; SISA_OP_TST_reg_T2; SISA_OP_BIC_reg_T2; SISA_OP_ORR_reg_T2;
  SISA_OP_MOV_reg_T3; SISA_OP_ORN_reg_T1; SISA_OP_MVN_reg_T2; SISA_OP_EOR_reg_T2;
  SISA_OP_TEQ_reg_T1; SISA_OP_PKH_reg_T1; SISA_OP_ADD_reg_T3; SISA_OP_CMN_reg_T2;
  SISA_OP_ADC_reg_T2; SISA_OP_SBC_reg_T2; SISA_OP_SUB_reg_T2; SISA_OP_CMP_reg_T3;
  SISA_OP_RSB_reg_T1; SISA_OP_LSL_imm_T2; SISA_OP_LSR_imm_T2; SISA_OP_ASR_imm_T2;
  SISA_OP_ROR_imm_T2; SISA_OP_RRX_T1].
Definition thumb32_data_mimm_ops : list Z := [
  SISA_OP_AND_imm_T1; SISA_OP_TST_imm_T1; SISA_OP_BIC_imm_T1; SISA_OP_ORR_imm_T1;
  SISA_OP_MOV_imm_T2; SISA_OP_ORN_imm_T1; SISA_OP_MVN_imm_T1; SISA_OP_EOR_imm_T1;
  SISA_OP_TEQ_imm_T1; SISA_OP_ADD_imm_T3; SISA_OP_ADD_sp_imm_T3; SISA_OP_CMN_imm_T1;
  SISA_OP_ADC_imm_T1; SISA_OP_SBC_imm_T1; SISA_OP_SUB_imm_T3; SISA_OP_SUB_sp_imm_T2;
  SISA_OP_CMP_imm_T2; SISA_OP_RSB_imm_T2].
Definition thumb32_data_pimm_ops : list Z := [
  SISA_OP_ADD_imm_T4; SISA_OP_ADD_sp_imm_T4; SISA_OP_ADR_T3; SISA_OP_MOV_imm_T3;
  SISA_OP_SUB_imm_T4; SISA_OP_SUB_sp_imm_T3; SISA_OP_ADR_T2; SISA_OP_MOVT_T1; SISA_OP_SSAT_T1;
  SISA_OP_SSAT16_T1; SISA_OP_SBFX_T1; SISA_OP_BFI_T1; SISA_OP_BFC_T1; SISA_OP_USAT_T1;
  SISA_OP_USAT16_T1; SISA_OP_UBFX_T1].
Definition thumb32_data_reg_ops : list Z := [
  SISA_OP_LSL_reg_T2; SISA_OP_LSR_reg_T2; SISA_OP_ASR_reg_T2; SISA_OP_ROR_reg_T2;
  SISA_OP_SXTAH_T1; SISA_OP_SXTH_T2; SISA_OP_UXTAH_T1; SISA_OP_UXTH_T2; SISA_OP_SXTAB16_T1;
  SISA_OP_SXTB16_T1; SISA_OP_UXTAB16_T1; SISA_OP_UXTB16_T1; SISA_OP_SXTAB_T1; SISA_OP_SXTB_T2;
  SISA_OP_UXTAB_T1; SISA_OP_UXTB_T2].
Definition thumb32_data_parallel_ops : list Z := [
  SISA_OP_SADD16_T1; SISA_OP_SASX_T1; SISA_OP_SSAX_T1; SISA_OP_SSUB16_T1; SISA_OP_SADD8_T1;
  SISA_OP_SSUB8_T1; SISA_OP_QADD16_T1; SISA_OP_QASX_T1; SISA_OP_QSAX_T1; SISA_OP_QSUB16_T1;
  SISA_OP_QADD8_T1; SISA_OP_QSUB8_T1; SISA_OP_SHADD16_T1; SISA_OP_SHASX_T1; SISA_OP_SHSAX_T1;
  SISA_OP_SHSUB16_T1; SISA_OP_SHADD8_T1; SISA_OP_SHSUB8_T1; SISA_OP_UADD16_T1;
  SISA_OP_UASX_T1; SISA_OP_USAX_T1; SISA_OP_USUB16_T1; SISA_OP_UADD8_T1; SISA_OP_USUB8_T1;
  SISA_OP_UQADD16_T1; SISA_OP_UQASX_T1; SISA_OP_UQSAX_T1; SISA_OP_UQSUB16_T1;
  SISA_OP_UQADD8_T1; SISA_OP_UQSUB8_T1; SISA_OP_UHADD16_T1; SISA_OP_UHASX_T1;
  SISA_OP_UHSAX_T1; SISA_OP_UHSUB16_T1; SISA_OP_UHADD8_T1; SISA_OP_UHSUB8_T1; SISA_OP_QADD_T1;
  SISA_OP_QDADD_T1; SISA_OP_QSUB_T1; SISA_OP_QDSUB_T1; SISA_OP_SEL_T1].
Definition thumb32_data_misc_ops : list Z := [
  SISA_OP_REV_T2; SISA_OP_REV16_T2; SISA_OP_RBIT_T1; SISA_OP_REVSH_T2; SISA_OP_CLZ_T1].
Definition thumb32_data_mul_ops : list Z := [
  SISA_OP_MLA_T1; SISA_OP_MUL_T2; SISA_OP_MLS_T1; SISA_OP_SMLABB_T1; SISA_OP_SMULBB_T1;
  SISA_OP_SMLAD_T1; SISA_OP_SMUAD_T1; SISA_OP_SMLAWB_T1; SISA_OP_SMULWB_T1; SISA_OP_SMLSD_T1;
  SISA_OP_SMUSD_T1; SISA_OP_SMMLA_T1; SISA_OP_SMMUL_T1; SISA_OP_SMMLS_T1; SISA_OP_USAD8_T1;
  SISA_OP_USADA8_T1; SISA_OP_SMULL_T1; SISA_OP_SDIV_T1; SISA_OP_UMULL_T1; SISA_OP_UDIV_T1;
  SISA_OP_SMLAL_T1; SISA_OP_SMLALBB_T1; SISA_OP_SMLALD_T1; SISA_OP_SMLSLD_T1;
  SISA_OP_UMLAL_T1; SISA_OP_UMAAL_T1].
Definition thumb32_sys_ops : list Z := [
  SISA_OP_SRS_T1; SISA_OP_SRS_T2; SISA_OP_RFE_T1; SISA_OP_RFE_T2; SISA_OP_MSR_s_T1;
  SISA_OP_CPS_T2; SISA_OP_SUBS_T1; SISA_OP_MRS_s_T1].
Definition thumb32_copr_ops : list Z := [
  SISA_OP_STC_T1; SISA_OP_STC2_T2; SISA_OP_LDC_imm_T1; SISA_OP_LDC2_imm_T2;
  SISA_OP_LDC_lit_T1; SISA_OP_LDC2_lit_T2; SISA_OP_MCR_reg_T1; SISA_OP_MCR2_T2;
  SISA_OP_MCRR_T1; SISA_OP_MCRR2_T2; SISA_OP_MRC_reg_T1; SISA_OP_MRC2_T2; SISA_OP_MRRC_T1;
  SISA_OP_MRRC2_T2; SISA_OP_CDP_T1; SISA_OP_CDP2_T2].
Definition thumb32_branch_ops : list Z := [
  SISA_OP_B_T3; SISA_OP_B_T4; SISA_OP_BL_imm_T1; SISA_OP_BLX_imm_T2; SISA_OP_TBB_T1;
  SISA_OP_TBH_T1].
Definition thumb32_sr_ops : list Z := [
  SISA_OP_MSR_a_T1; SISA_OP_MRS_a_T1].
Definition thumb32_hint_ops : list Z := [
  SISA_OP_NOP_T2; SISA_OP_YIELD_T2; SISA_OP_WFE_T2; SISA_OP_WFI_T2; SISA_OP_SEV_T2;
  SISA_OP_DBG_T1; SISA_OP_CLREX_T1; SISA_OP_DSB_T1; SISA_OP_DMB_T1; SISA_OP_ISB_T1].
Definition thumb32_other_ops : list Z := [
  SISA_OP_BXJ_reg_T1].

Definition BadReg (n : Z) : bool := (n =? R_SP) || (n =? R_PC).

(** [get_bit_value(instr, b)] as a truth value. *)
Definition bitb (instr b : Z) : bool := negb (get_bit_value instr b =? 0).

(** ** 2. Data processing *)

Definition gen_thumb32_data_shifted_reg_status (op instr : Z) : instr_status_t :=
  let s := bitb instr 20 in
  let t := bitb instr 4 in
  let n := get_bits_value instr 16 19 in
  let d := get_bits_value instr 8 11 in
  let m := get_bits_value instr 0 3 in
  if op_in op [SISA_OP_AND_reg_T2; SISA_OP_EOR_reg_T2] then
    let st := upd (s && (d =? R_PC)) ALIAS VALID in
    upd ((d =? R_SP) || ((d =? R_PC) && negb s) || BadReg n || BadReg m) UNPREDICTABLE st
  else if op_in op [SISA_OP_TST_reg_T2; SISA_OP_TEQ_reg_T1] then
    upd (BadReg n || BadReg m) UNPREDICTABLE VALID
  else if op =? SISA_OP_MVN_reg_T2 then
    upd (BadReg d || BadReg m) UNPREDICTABLE VALID
  else if op_in op [SISA_OP_BIC_reg_T2; SISA_OP_ADC_reg_T2; SISA_OP_SBC_reg_T2;
                    SISA_OP_RSB_reg_T1] then
    upd (BadReg d || BadReg n || BadReg m) UNPREDICTABLE VALID
  else if op_in op [SISA_OP_ORR_reg_T2; SISA_OP_ORN_reg_T1] then
    let st := upd (n =? R_PC) ALIAS VALID in
    upd (BadReg d || (n =? R_SP) || BadReg m) UNPREDICTABLE st
  else if op =? SISA_OP_PKH_reg_T1 then
    let st := upd (s || t) UNDEFINED VALID in
    upd (BadReg d || BadReg n || BadReg m) UNPREDICTABLE st
  else if op_in op [SISA_OP_ADD_reg_T3; SISA_OP_SUB_reg_T2] then
    let st := upd ((s && (d =? R_PC)) || (n =? R_SP)) ALIAS VALID in
    upd ((d =? R_SP) || ((d =? R_PC) && negb s) || (n =? R_PC) || BadReg m) UNPREDICTABLE st
  else if op_in op [SISA_OP_CMN_reg_T2; SISA_OP_CMP_reg_T3] then
    upd ((n =? R_PC) || BadReg m) UNPREDICTABLE VALID
  else if op =? SISA_OP_MOV_reg_T3 then
    let st := upd (s && (BadReg d || BadReg m)) UNPREDICTABLE VALID in
    upd (negb s && ((d =? R_PC) || (m =? R_PC) || ((d =? R_SP) && (m =? R_SP)))) UNPREDICTABLE st
  else if op_in op [SISA_OP_LSL_imm_T2; SISA_OP_LSR_imm_T2; SISA_OP_ASR_imm_T2;
                    SISA_OP_ROR_imm_T2; SISA_OP_RRX_T1] then
    upd (BadReg d || BadReg m) UNPREDICTABLE VALID
  else UNSUPPORTED.

Definition gen_thumb32_data_mimm_status (op instr : Z) : instr_status_t :=
  let s := bitb instr 20 in
  let n := get_bits_value instr 16 19 in
  let d := get_bits_value instr 8 11 in
  let i := get_bit_value instr 26 in
  let imm3 := get_bits_value instr 12 14 in
  let imm8 := get_bits_value instr 0 7 in
  let st := upd ((i =? 0) && (imm8 =? 0) && ((0 <? imm3) && (imm3 <? 4))) UNPREDICTABLE VALID in
  if op_in op [SISA_OP_AND_imm_T1; SISA_OP_EOR_imm_T1] then
    let st := upd (s && (d =? R_PC)) ALIAS st in
    upd ((d =? R_SP) || ((d =? R_PC) && negb s) || BadReg n) UNPREDICTABLE st
  else if op_in op [SISA_OP_ADD_imm_T3; SISA_OP_SUB_imm_T3] then
    let st := upd ((n =? R_SP) || (s && (d =? R_PC))) ALIAS st in
    upd ((d =? R_SP) || ((d =? R_PC) && negb s) || (n =? R_PC)) UNPREDICTABLE st
  else if op_in op [SISA_OP_ADD_sp_imm_T3; SISA_OP_SUB_sp_imm_T2] then
    let st := upd (s && (d =? R_PC)) ALIAS st in
    upd ((d =? R_PC) && negb s) UNPREDICTABLE st
  else if op_in op [SISA_OP_TST_imm_T1; SISA_OP_TEQ_imm_T1] then
    upd (BadReg n) UNPREDICTABLE st
  else if op_in op [SISA_OP_BIC_imm_T1; SISA_OP_ADC_imm_T1; SISA_OP_SBC_imm_T1;
                    SISA_OP_RSB_imm_T2] then
    upd (BadReg d || BadReg n) UNPREDICTABLE st
  else if op_in op [SISA_OP_ORR_imm_T1; SISA_OP_ORN_imm_T1] then
    upd (BadReg d || (n =? R_SP)) UNPREDICTABLE st
  else if op_in op [SISA_OP_MOV_imm_T2; SISA_OP_MVN_imm_T1] then
    upd (BadReg d) UNPREDICTABLE st
  else if op_in op [SISA_OP_CMN_imm_T1; SISA_OP_CMP_imm_T2] then
    upd (n =? R_PC) UNPREDICTABLE st
  else UNSUPPORTED.

Definition gen_thumb32_data_pimm_status (op instr : Z) : instr_status_t :=
  let n := get_bits_value instr 16 19 in
  let d := get_bits_value instr 8 11 in
  let imm1 := get_bits_value instr 0 4 in
  let imm2 := u32 (get_bits_value instr 6 7 + shl32 (get_bits_value instr 12 14) 2) in
  if op_in op [SISA_OP_ADR_T3; SISA_OP_ADR_T2; SISA_OP_MOV_imm_T3; SISA_OP_MOVT_T1] then
    upd (BadReg d) UNPREDICTABLE VALID
  else if op_in op [SISA_OP_ADD_imm_T4; SISA_OP_SUB_imm_T4] then
    let st := upd ((n =? R_SP) || (n =? R_PC)) ALIAS VALID in
    upd (BadReg d) UNPREDICTABLE st
  else if op_in op [SISA_OP_ADD_sp_imm_T4; SISA_OP_SUB_sp_imm_T3] then
    upd (d =? R_PC) UNPREDICTABLE VALID
  else if op_in op [SISA_OP_SSAT_T1; SISA_OP_USAT_T1] then
    let imm1 := get_bits_value instr 6 7 in
    let imm2 := get_bits_value instr 12 14 in
    let st := upd (bitb instr 21 && (imm1 =? 0) && (imm2 =? 0)) ALIAS VALID in
    upd (BadReg d || BadReg n) UNPREDICTABLE st
  else if op_in op [SISA_OP_SSAT16_T1; SISA_OP_USAT16_T1] then
    upd (BadReg d || BadReg n) UNPREDICTABLE VALID
  else if op_in op [SISA_OP_BFI_T1; SISA_OP_BFC_T1] then
    let st := upd (BadReg d || (n =? R_SP)) UNPREDICTABLE VALID in
    upd (imm1 <? imm2) UNPREDICTABLE st
  else if op_in op [SISA_OP_SBFX_T1; SISA_OP_UBFX_T1] then
    let st := upd (BadReg d || BadReg n) UNPREDICTABLE VALID in
    upd (31 <? imm1 + imm2) UNPREDICTABLE st
  else UNSUPPORTED.

Definition gen_thumb32_data_reg_status (op instr : Z) : instr_status_t :=
  let d := get_bits_value instr 8 11 in
  let m := get_bits_value instr 0 3 in
  let n := get_bits_value instr 16 19 in
  if op_in op [SISA_OP_LSL_reg_T2; SISA_OP_LSR_reg_T2; SISA_OP_ASR_reg_T2; SISA_OP_ROR_reg_T2] then
    upd (BadReg d || BadReg n || BadReg m) UNPREDICTABLE VALID
  else if op_in op [SISA_OP_SXTAH_T1; SISA_OP_UXTAH_T1; SISA_OP_SXTAB16_T1; SISA_OP_UXTAB16_T1;
                    SISA_OP_SXTAB_T1; SISA_OP_UXTAB_T1] then
    let st := upd (n =? R_PC) ALIAS VALID in
    upd (BadReg d || (n =? R_SP) || BadReg m) UNPREDICTABLE st
  else upd (BadReg d || BadReg m) UNPREDICTABLE VALID.

Definition gen_thumb32_data_parallel_status (op instr : Z) : instr_status_t :=
  let n := get_bits_value instr 16 19 in
  let d := get_bits_value instr 8 11 in
  let m := get_bits_value instr 0 3 in
  upd (BadReg d || BadReg n || BadReg m) UNPREDICTABLE VALID.

Definition gen_thumb32_data_mul_status (op instr : Z) : instr_status_t :=
  let m := get_bits_value instr 0 3 in
  let d := get_bits_value instr 8 11 in
  let a := get_bits_value instr 12 15 in
  let n := get_bits_value instr 16 19 in
  if op_in op [SISA_OP_MLA_T1; SISA_OP_SMLABB_T1; SISA_OP_SMLAD_T1; SISA_OP_SMLAWB_T1;
               SISA_OP_SMLSD_T1; SISA_OP_SMMLA_T1; SISA_OP_USADA8_T1] then
    let st := upd (a =? R_PC) ALIAS VALID in
    upd (BadReg d || BadReg n || BadReg m || (a =? R_SP)) UNPREDICTABLE st
  else if op_in op [SISA_OP_MUL_T2; SISA_OP_SMULBB_T1; SISA_OP_SMUAD_T1; SISA_OP_SMULWB_T1;
                    SISA_OP_SMUSD_T1; SISA_OP_SMMUL_T1; SISA_OP_USAD8_T1] then
    upd (BadReg d || BadReg n || BadReg m) UNPREDICTABLE VALID
  else if op_in op [SISA_OP_MLS_T1; SISA_OP_SMMLS_T1] then
    upd (BadReg d || BadReg n || BadReg m || BadReg a) UNPREDICTABLE VALID
  else if op_in op [SISA_OP_SMULL_T1; SISA_OP_UMULL_T1; SISA_OP_SMLAL_T1; SISA_OP_SMLALBB_T1;
                    SISA_OP_SMLALD_T1; SISA_OP_SMLSLD_T1; SISA_OP_UMLAL_T1; SISA_OP_UMAAL_T1] then
    let st := upd (BadReg d || BadReg n || BadReg m || BadReg a) UNPREDICTABLE VALID in
    upd (d =? a) UNPREDICTABLE st
  else if op_in op [SISA_OP_SDIV_T1; SISA_OP_UDIV_T1] then UNSUPPORTED
  else UNSUPPORTED.

(** ** 3. Memory: status of the encoding *)

Definition gen_thumb32_multi_mem_status (op instr : Z) : instr_status_t :=
  let n := get_bits_value instr 16 19 in
  let wback := bitb instr 21 in
  let st := upd ((n =? R_PC) || (bit_count (instr & 0xffff) <? 2)) UNPREDICTABLE VALID in
  let st := upd (wback && bitb instr n) UNPREDICTABLE st in
  if op_in op [SISA_OP_LDM_T2; SISA_OP_LDMDB_T1; SISA_OP_POP_T2] then
    let p := bitb instr 15 in
    let m := bitb instr 14 in
    let st := upd (p && m) UNPREDICTABLE st in
    upd p UNSUPPORTED st
  else st.

Definition gen_thumb32_ld_imm_status (op instr : Z) : instr_status_t :=
  let n := get_bits_value instr 16 19 in
  let t := get_bits_value instr 12 15 in
  let st := upd ((n =? R_PC) || (t =? R_PC)) UNSUPPORTED VALID in
  if op =? SISA_OP_LDR_imm_T3 then st
  else if op =? SISA_OP_LDR_imm_T4 then
    let p := bitb instr 10 in let u := bitb instr 9 in let w := bitb instr 8 in
    let st := upd (p && u && negb w) ALIAS st in
    let st := upd (negb p && negb w) UNDEFINED st in
    upd (w && (n =? t)) UNPREDICTABLE st
  else if op_in op [SISA_OP_LDRB_imm_T2; SISA_OP_LDRH_imm_T2; SISA_OP_LDRSB_imm_T1;
                    SISA_OP_LDRSH_imm_T1] then
    let st := upd (t =? R_PC) ALIAS st in
    upd (t =? R_SP) UNPREDICTABLE st
  else if op_in op [SISA_OP_LDRB_imm_T3; SISA_OP_LDRH_imm_T3; SISA_OP_LDRSB_imm_T2;
                    SISA_OP_LDRSH_imm_T2] then
    let p := bitb instr 10 in let u := bitb instr 9 in let w := bitb instr 8 in
    let st := upd (p && u && negb w) ALIAS st in
    let st := upd (negb p && negb w) UNDEFINED st in
    let st := upd (w && (n =? t)) UNPREDICTABLE st in
    upd (t =? R_SP) UNPREDICTABLE st
  else if op =? SISA_OP_POP_T3 then upd (t =? R_SP) UNPREDICTABLE st
  else if op_in op [SISA_OP_LDRT_T1; SISA_OP_LDRBT_T1; SISA_OP_LDRHT_T1; SISA_OP_LDRSBT_T1;
                    SISA_OP_LDRSHT_T1] then upd (BadReg t) UNPREDICTABLE st
  else if op =? SISA_OP_LDRD_imm_T1 then
    let p := bitb instr 24 in let w := bitb instr 21 in
    let t2 := get_bits_value instr 8 11 in
    let st := upd (negb p && negb w) ALIAS st in
    let st := upd (w && ((n =? t) || (n =? t2))) UNPREDICTABLE st in
    upd (BadReg t || BadReg t2 || (t =? t2)) UNPREDICTABLE st
  else st.

Definition gen_thumb32_mem_reg_status (op instr : Z) : instr_status_t :=
  let n := get_bits_value instr 16 19 in
  let t := get_bits_value instr 12 15 in
  let m := get_bits_value instr 0 3 in
  let st := upd (n =? R_PC) ALIAS VALID in
  let st := upd ((t =? R_PC) || (n =? m)) UNSUPPORTED st in
  let st := upd (BadReg m) UNPREDICTABLE st in
  upd (negb (op =? SISA_OP_LDR_reg_T2) && negb (op =? SISA_OP_STR_reg_T2) && (t =? R_SP))
      UNPREDICTABLE st.

Definition gen_thumb32_mem_lit_status (op instr : Z) : instr_status_t :=
  let t := get_bits_value instr 12 15 in
  let t2 := get_bits_value instr 8 11 in
  if op =? SISA_OP_LDR_lit_T2 then upd (t =? R_PC) UNSUPPORTED VALID
  else if op =? SISA_OP_LDRD_lit_T1 then
    let st := upd ((instr & 0x01200000) =? 0) ALIAS VALID in
    upd (BadReg t || BadReg t2 || (t =? t2)) UNPREDICTABLE st
  else upd (BadReg t) UNPREDICTABLE VALID.

Definition gen_thumb32_st_imm_status (op instr : Z) : instr_status_t :=
  let n := get_bits_value instr 16 19 in
  let t := get_bits_value instr 12 15 in
  let st := upd (n =? R_PC) UNDEFINED VALID in
  let st := upd (t =? R_PC) UNPREDICTABLE st in
  if op =? SISA_OP_STR_imm_T3 then st
  else if op =? SISA_OP_STR_imm_T4 then
    let p := bitb instr 10 in let u := bitb instr 9 in let w := bitb instr 8 in
    let st := upd (p && u && negb w) ALIAS st in
    let st := upd (negb p && negb w) UNDEFINED st in
    upd (w && (n =? t)) UNPREDICTABLE st
  else if op_in op [SISA_OP_STRB_imm_T3; SISA_OP_STRH_imm_T3] then
    let p := bitb instr 10 in let u := bitb instr 9 in let w := bitb instr 8 in
    let st := upd (p && u && negb w) ALIAS st in
    let st := upd (negb p && negb w) UNDEFINED st in
    upd (BadReg t || (w && (n =? t))) UNPREDICTABLE st
  else if op_in op [SISA_OP_STRB_imm_T2; SISA_OP_STRH_imm_T2; SISA_OP_STRT_T1; SISA_OP_STRBT_T1;
                    SISA_OP_STRHT_T1; SISA_OP_PUSH_T3] then
    upd (BadReg t) UNPREDICTABLE st
  else if op =? SISA_OP_STRD_imm_T1 then
    let p := bitb instr 24 in let w := bitb instr 21 in
    let t2 := get_bits_value instr 8 11 in
    let st := upd (negb p && negb w) ALIAS st in
    let st := upd (w && ((n =? t) || (n =? t2))) UNPREDICTABLE st in
    upd ((n =? R_PC) || BadReg t || BadReg t2) UNPREDICTABLE st
  else st.

Definition gen_thumb32_mem_ex_status (op instr : Z) : instr_status_t :=
  let t := get_bits_value instr 12 15 in
  let n := get_bits_value instr 16 19 in
  let t2 := get_bits_value instr 8 11 in
  let d := get_bits_value instr 0 3 in
  if op =? SISA_OP_LDREXD_T1 then
    upd (BadReg t || BadReg t2 || (t =? t2) || (n =? R_PC)) UNPREDICTABLE VALID
  else if op_in op [SISA_OP_LDREX_T1; SISA_OP_LDREXB_T1; SISA_OP_LDREXH_T1] then
    upd (BadReg t || (n =? R_PC)) UNPREDICTABLE VALID
  else if op =? SISA_OP_STREX_T1 then
    let d := get_bits_value instr 8 11 in
    let st := upd (BadReg d || BadReg t || (n =? R_PC)) UNPREDICTABLE VALID in
    upd ((d =? n) || (d =? t)) UNPREDICTABLE st
  else if op_in op [SISA_OP_STREXB_T1; SISA_OP_STREXH_T1] then
    let st := upd (BadReg d || BadReg t || (n =? R_PC)) UNPREDICTABLE VALID in
    upd ((d =? n) || (d =? t)) UNPREDICTABLE st
  else if op =? SISA_OP_STREXD_T1 then
    let st := upd (BadReg d || BadReg t || BadReg t2 || (n =? R_PC)) UNPREDICTABLE VALID in
    upd ((d =? n) || (d =? t) || (d =? t2)) UNPREDICTABLE st
  else UNSUPPORTED.

Definition gen_thumb32_mem_preload_status (op instr : Z) : instr_status_t :=
  if op_in op [SISA_OP_PLD_imm_T1; SISA_OP_PLD_imm_T2; SISA_OP_PLI_imm_T1; SISA_OP_PLI_imm_T2;
               SISA_OP_PLDW_imm_T1; SISA_OP_PLDW_imm_T2] then
    upd (get_bits_value instr 16 19 =? R_PC) ALIAS VALID
  else if op_in op [SISA_OP_PLD_reg_T1; SISA_OP_PLDW_reg_T1; SISA_OP_PLI_reg_T1] then
    let n := get_bits_value instr 16 19 in
    let m := get_bits_value instr 0 3 in
    let st := upd (n =? R_PC) ALIAS VALID in
    upd (BadReg m) UNPREDICTABLE st
  else VALID.

Definition gen_thumb32_sr_status (op instr : Z) : instr_status_t :=
  if op =? SISA_OP_MSR_a_T1 then
    let n := get_bits_value instr 16 19 in
    let mask := get_bits_value instr 10 11 in
    upd ((mask =? 0) || BadReg n) UNPREDICTABLE VALID
  else if op =? SISA_OP_MRS_a_T1 then
    upd (BadReg (get_bits_value instr 8 11)) UNPREDICTABLE VALID
  else UNSUPPORTED.

(** ** 4. The generators *)

(** A generator that only classifies the encoding. *)
Definition classify (f : Z → Z → instr_status_t) (op : Z) : rit instr_status_t :=
  instr ← get_raw_instr; mret (f op instr).

Definition gen_thumb32_data_shifted_reg : Z → rit instr_status_t :=
  classify gen_thumb32_data_shifted_reg_status.
Definition gen_thumb32_data_mimm : Z → rit instr_status_t := classify gen_thumb32_data_mimm_status.
Definition gen_thumb32_data_pimm : Z → rit instr_status_t := classify gen_thumb32_data_pimm_status.
Definition gen_thumb32_data_reg : Z → rit instr_status_t := classify gen_thumb32_data_reg_status.
Definition gen_thumb32_data_parallel : Z → rit instr_status_t :=
  classify gen_thumb32_data_parallel_status.
Definition gen_thumb32_data_mul : Z → rit instr_status_t := classify gen_thumb32_data_mul_status.
Definition gen_thumb32_mem_lit : Z → rit instr_status_t := classify gen_thumb32_mem_lit_status.
Definition gen_thumb32_mem_preload : Z → rit instr_status_t :=
  classify gen_thumb32_mem_preload_status.
Definition gen_thumb32_sr : Z → rit instr_status_t := classify gen_thumb32_sr_status.

(** CLZ, RBIT, REV, REV16, REVSH: the second copy of Rm is made consistent. *)
Definition gen_thumb32_data_misc (op : Z) : rit instr_status_t :=
  instr ← get_raw_instr;
  let d := get_bits_value instr 8 11 in
  let m := get_bits_value instr 0 3 in
  instr ← set_instr instr 16 19 m;
  set_raw_instr instr ;;
  mret (upd (BadReg d || BadReg m) UNPREDICTABLE VALID).

Definition gen_thumb32_hint (op : Z) : rit instr_status_t :=
  mret (if op =? SISA_OP_WFI_T2 then UNSUPPORTED
        else if op =? SISA_OP_CLREX_T1 then UNSUPPORTED else VALID).

Section thumb32.
Context `{Env : !RitEnv}.

(** [if (!GET_OPT_STAT(OPT_NOT_ALLOW_FIX_MEM)) fix_mem_base(n, align);
    else gen_pre_instr_for_mem_base(n);] *)
Definition thumb32_base (n : Z) (align : bool) : rit unit :=
  no_fix ← GET_OPT_STAT OPT_NOT_ALLOW_FIX_MEM;
  if negb no_fix then fix_mem_base n align
  else gen_pre_instr_for_mem_base n ;; mret tt.

Definition gen_thumb32_multi_mem (op : Z) : rit instr_status_t :=
  instr ← get_raw_instr;
  thumb32_base (get_bits_value instr 16 19) true ;;
  mret (gen_thumb32_multi_mem_status op instr).

Definition gen_thumb32_ld_imm (op : Z) : rit instr_status_t :=
  instr ← get_raw_instr;
  thumb32_base (get_bits_value instr 16 19) (op =? SISA_OP_LDRD_imm_T1) ;;
  mret (gen_thumb32_ld_imm_status op instr).

Definition gen_thumb32_mem_reg (op : Z) : rit instr_status_t :=
  instr ← get_raw_instr;
  let n := get_bits_value instr 16 19 in
  let m := get_bits_value instr 0 3 in
  let imm := get_bits_value instr 4 5 in
  thumb32_base n false ;;
  off ← get_rand_mem_offset 0 imm;
  let reg_offset_val := off.2 in
  emit ("[INST] ldr.w r" +:+ fmt_d m +:+ ", =0x" +:+ fmt_x reg_offset_val) ;;
  mret (gen_thumb32_mem_reg_status op instr).

Definition gen_thumb32_st_imm (op : Z) : rit instr_status_t :=
  instr ← get_raw_instr;
  thumb32_base (get_bits_value instr 16 19) (op =? SISA_OP_STRD_imm_T1) ;;
  mret (gen_thumb32_st_imm_status op instr).

Definition gen_thumb32_mem_ex (op : Z) : rit instr_status_t :=
  instr ← get_raw_instr;
  thumb32_base (get_bits_value instr 16 19) true ;;
  mret (gen_thumb32_mem_ex_status op instr).

(** ** 5. Dispatch *)

Definition gen_thumb32_instr (op : Z) : rit instr_status_t :=
  if op_in op thumb32_multi_mem_ops then gen_thumb32_multi_mem op
  else if op_in op thumb32_ld_imm_ops then gen_thumb32_ld_imm op
  else if op_in op thumb32_ld_reg_ops then gen_thumb32_mem_reg op
  else if op_in op thumb32_st_imm_ops then gen_thumb32_st_imm op
  else if op_in op thumb32_st_reg_ops then gen_thumb32_mem_reg op
  else if op_in op thumb32_mem_lit_ops then gen_thumb32_mem_lit op
  else if op_in op thumb32_mem_ex_ops then gen_thumb32_mem_ex op
  else if op_in op thumb32_mem_preload_ops then gen_thumb32_mem_preload op
  else if op_in op thumb32_data_shifted_reg_ops then gen_thumb32_data_shifted_reg op
  else if op_in op thumb32_data_mimm_ops then gen_thumb32_data_mimm op
  else if op_in op thumb32_data_pimm_ops then gen_thumb32_data_pimm op
  else if op_in op thumb32_data_reg_ops then gen_thumb32_data_reg op
  else if op_in op thumb32_data_parallel_ops then gen_thumb32_data_parallel op
  else if op_in op thumb32_data_misc_ops then gen_thumb32_data_misc op
  else if op_in op thumb32_data_mul_ops then gen_thumb32_data_mul op
  else if op_in op thumb32_sys_ops then mret UNSUPPORTED
  else if op_in op thumb32_copr_ops then mret UNSUPPORTED
  else if op_in op thumb32_branch_ops then mret UNSUPPORTED
  else if op_in op thumb32_sr_ops then gen_thumb32_sr op
  else if op_in op thumb32_hint_ops then gen_thumb32_hint op
  else if op_in op thumb32_other_ops then mret UNSUPPORTED
  else mret UNSUPPORTED.
End thumb32.

(** ** 6. The generators keep the invariant *)

Section keeps.
Context `{Env : !RitEnv}.

Lemma keeps_classify th op tmpl f : keeps th op tmpl 7 (λ _, True) (classify f op).
Proof. unfold classify. keeps. Qed.

Lemma keeps_thumb32_base th op tmpl n al :
  keeps th op tmpl (6 + Z.b2z al) (λ _, True) (thumb32_base n al).
Proof. unfold thumb32_base. destruct al; cbn [Z.b2z]; keeps. Qed.

Lemma keeps_gen_thumb32_data_misc th op tmpl :
  op_in op thumb32_data_misc_ops = true →
  keeps th op tmpl 7 (λ _, True) (gen_thumb32_data_misc op).
Proof. intros. unfold gen_thumb32_data_misc. keeps. Qed.
#[local] Hint Resolve keeps_classify keeps_thumb32_base keeps_gen_thumb32_data_misc : keeps.
Ltac keeps_arith ::= first [lia | unfold fix_lines, Z.b2z in *; repeat case_match; (lia || done)].

Lemma keeps_gen_thumb32_instr th op tmpl : keeps th op tmpl 7 (λ _, True) (gen_thumb32_instr op).
Proof.
  unfold gen_thumb32_instr, gen_thumb32_multi_mem, gen_thumb32_ld_imm, gen_thumb32_mem_reg,
    gen_thumb32_st_imm, gen_thumb32_mem_ex, gen_thumb32_mem_lit, gen_thumb32_mem_preload,
    gen_thumb32_data_shifted_reg, gen_thumb32_data_mimm, gen_thumb32_data_pimm,
    gen_thumb32_data_reg, gen_thumb32_data_parallel, gen_thumb32_data_mul, gen_thumb32_sr,
    gen_thumb32_hint.
  keeps.
Qed.
End keeps.
#[export] Hint Resolve keeps_gen_thumb32_instr : keeps.
