(* ===== verification/ValidThumb.v ===== *)
(** * What a VALID status promises: 16-bit Thumb instructions *)
From S2P Require Import Prelude RitCommon InstrTable State InstrUtil InstrBuf Keeps BiasUtil GenHelper MemSpec GenARMMem GenARMInstr GenThumbInstr ValidBias ValidSpec ValidMem ValidMedia ValidMulti.
#[local] Open Scope c_scope.

(** ** 1. The restrictions *)

Definition thumb_ld_reg_ops : list Z :=
  [SISA_OP_LDR_reg_T1; SISA_OP_LDRB_reg_T1; SISA_OP_LDRH_reg_T1; SISA_OP_LDRSH_reg_T1;
   SISA_OP_LDRSB_reg_T1].
Definition thumb_st_reg_ops : list Z := [SISA_OP_STR_reg_T1; SISA_OP_STRH_reg_T1; SISA_OP_STRB_reg_T1].

(** The offset register, which is given a value of its own, is not the base. *)
Definition thumb_mem_ok (op w : Z) : Prop :=
  (op_in op thumb_ld_reg_ops = true → regnum w op SISA_INPUT1 ≠ regnum w op SISA_INPUT0)
  ∧ (op_in op thumb_st_reg_ops = true → regnum w op SISA_INPUT2 ≠ regnum w op SISA_INPUT1).

(** A low register is listed; a store does not store its base, a POP does not
    load the PC (bit 8). *)
Definition thumb_multi_ok (op w : Z) : Prop :=
  (∃ k, 0 ≤ k < 8 ∧ listed w k = true)
  ∧ (op = SISA_OP_STM_T1 → listed w (regnum w op SISA_INPUT0) = false)
  ∧ (op = SISA_OP_POP_T → listed w 8 = false).

(** The high-register comparison has a high register, and not the PC; no other
    data instruction writes the PC. *)
Definition thumb_data_ok (op w : Z) : Prop :=
  (op = SISA_OP_CMP_reg_T2 →
     no_pc op [SISA_INPUT0; SISA_INPUT1] w
     ∧ (8 ≤ regnum w op SISA_INPUT0 ∨ 8 ≤ regnum w op SISA_INPUT1))
  ∧ (op ≠ SISA_OP_CMP_reg_T2 → ∀ i, i = SISA_OUTPUT0 ∨ i = SISA_OUTPUT1 → has_opnd op i = true →
     regnum w op i ≠ R_PC).

Definition thumb_ok (op w : Z) : Prop :=
  match (instr_desc op).(op_kind) with
  | ST_OP | LD_OP => thumb_mem_ok op w
  | STM_OP | LDM_OP | PUSH_OP | POP_OP => thumb_multi_ok op w
  | MISC_OP => op = SISA_OP_ADR_T1
  | MUL32_OP => op = SISA_OP_MUL_reg_T1
  | EMPTY_OP => op ≠ SISA_OP_WFI_T1
  | ALU_OP | LOG_OP | MOV_OP | CMP_OP | TEST_OP => thumb_data_ok op w
  | EXT_OP | REVERSE_OP => True
  | _ => False
  end.

(** ** 2. The generators *)

Section thumb.
Context `{Env : !RitEnv}.

Lemma raw_inv_chk_unaligned I op l a m st : raw_inv I (chk_unaligned op l a m st).
Proof. unfold chk_unaligned, opt. raw. Qed.

Lemma passes_chk_unaligned I op l a m st : passes I st (chk_unaligned op l a m st).
Proof. apply passes_bind; [apply raw_inv_gets|]. intros arch. by apply passes_upd. Qed.

Lemma passes_chk_twice I op l l' a m m' st :
  passes I st (st ← chk_unaligned op l a m st; chk_unaligned op l' a m' st).
Proof.
  apply passes_seq; [apply raw_inv_chk_unaligned|apply passes_chk_unaligned|].
  intros st'. apply passes_chk_unaligned.
Qed.
#[local] Hint Resolve raw_inv_chk_unaligned passes_chk_unaligned passes_chk_twice : raw.

Lemma passes_thumb_mem_imm I op n l l' : passes I VALID (gen_thumb_mem_imm op n l l').
Proof.
  unfold gen_thumb_mem_imm, GET_OPT_STAT. cbv zeta.
  apply passes_bind; [apply raw_inv_gets|intros b]. apply passes_if.
  - apply passes_bind; [apply raw_inv_fix_mem_base|intros _; apply passes_ret].
  - apply passes_bind; [apply raw_inv_gen_pre|intros a]. apply passes_chk_twice.
Qed.

Lemma yields_thumb_mem_reg I op n m l l' : yields I (m ≠ n) (gen_thumb_mem_reg op n m l l').
Proof.
  apply (passes_yields I (upd (m =? n) UNSUPPORTED VALID)).
  - unfold gen_thumb_mem_reg, GET_OPT_STAT, emit_ldr_offset, opt. cbv zeta.
    apply passes_if; [|apply passes_ret]. apply passes_bind; [apply raw_inv_gets|intros b]. apply passes_if.
    + passes.
    + apply passes_bind; [apply raw_inv_gen_pre|intros base].
      apply passes_bind; [apply raw_inv_mem_offset|intros off].
      apply passes_bind; [apply raw_inv_emit|intros _]. apply passes_chk_twice.
  - intros Hv. valid_split Hv. by bools.
Qed.

Lemma gen_thumb_mem_ok op s s' :
  gen_thumb_mem_instr op s = Ok VALID s' → thumb_mem_ok op s'.(raw_instr).
Proof.
  unfold gen_thumb_mem_instr. intros (w & s0 & [= <- <-] & H)%bind_ok.
  apply group_ok in H as (s1 & E & ->). revert E. fold thumb_ld_reg_ops thumb_st_reg_ops.
  destruct (op_in op [SISA_OP_LDR_imm_T1; SISA_OP_LDR_imm_T2; _; _]) eqn:H1.
  { intros _. split; not_in. }
  destruct (op_in op [SISA_OP_STR_imm_T1; SISA_OP_STR_imm_T2; _; _]) eqn:H2.
  { intros _. split; not_in. }
  destruct (op_in op thumb_ld_reg_ops) eqn:H3.
  { intros [Hq Hw]%(yields_thumb_mem_reg (eq s.(raw_instr))); [|done]. split; [|not_in]. by rewrite <- Hw. }
  destruct (op_in op thumb_st_reg_ops) eqn:H4.
  { intros [Hq Hw]%(yields_thumb_mem_reg (eq s.(raw_instr))); [|done]. split; [not_in|]. by rewrite <- Hw. }
  intros _. split; congruence.
Qed.

(** Eight low bits that are not all zero. *)
Lemma low_listed w : (w & 0xff) ≠ 0 → ∃ k, 0 ≤ k < 8 ∧ listed w k = true.
Proof.
  intros Hw. destruct (existsb (listed w) (seqZ 0 8)) eqn:E.
  - apply existsb_exists in E as (k & Hk & Hb). apply list_elem_of_In, elem_of_seqZ in Hk. by exists k.
  - exfalso. apply Hw, Z.bits_inj'. intros k Hk. change 0xff with (Z.ones 8).
    rewrite Z.land_spec, Z.testbit_0_l. destruct (Z.lt_ge_cases k 8);
      [|rewrite Z.ones_spec_high by lia; apply andb_false_r].
    destruct (Z.testbit w k) eqn:Hb; [|done]. apply not_true_iff_false in E. destruct E.
    apply existsb_exists. exists k. split; [apply list_elem_of_In, elem_of_seqZ; lia|done].
Qed.

Lemma raw_inv_thumb_multi_base I n : raw_inv I (thumb_multi_base n).
Proof. unfold thumb_multi_base, GET_OPT_STAT. raw. Qed.


(** The status of the encoding, and the base set up. *)
Lemma multi_base_status n (st st' : instr_status_t) (a : Z) (s s1 : rit_state) :
  (mem_addr ← thumb_multi_base n; mret (st, mem_addr)) s = Ok (st', a) s1 →
  st = st' ∧ s1.(raw_instr) = s.(raw_instr).
Proof.
  intros (x & s2 & E & [= -> _ <-])%bind_ok. split; [done|].
  by apply (raw_inv_thumb_multi_base (eq s.(raw_instr)) _ _ _ _ eq_refl) in E.
Qed.

(** The base of STM is a low register. *)
Lemma stm_base w : is_u32 w → 0 ≤ regnum w SISA_OP_STM_T1 SISA_INPUT0 < 8.
Proof. intros Hu. apply (get_bits_value_range w 8 10); [lia|lia|apply Hu]. Qed.

Lemma bit_read_clear w k : 0 ≤ k < 32 → negb (get_bit_value w k =? 0) = false → listed w k = false.
Proof. intros Hk. rewrite get_bit_value_testbit by done. unfold listed. by destruct (Z.testbit w k). Qed.

Lemma gen_thumb_multi_ok op s s' :
  is_u32 s.(raw_instr) → gen_thumb_multi_mem_instr op s = Ok VALID s' → thumb_multi_ok op s'.(raw_instr).
Proof.
  intros Hu. unfold gen_thumb_multi_mem_instr. intros (w & s0 & [= <- <-] & H)%bind_ok. revert H. cbv zeta.
  intros ([st addr] & s1 & E & H)%bind_ok.
  assert (st = VALID ∧ s1.(raw_instr) = s'.(raw_instr)) as [-> <-].
  { revert H. unfold GET_OPT_STAT.
    intros (al & s2 & E2 & (b & s3 & [= <- <-] & ([] & s4 & [= <-] & [= Hv <-])%bind_ok)%bind_ok)%bind_ok.
    apply upd_valid in Hv as [_ ->]; [|done]. split; [done|].
    by apply (raw_inv_is_mem_align (eq s1.(raw_instr)) _ _ _ _ _ eq_refl) in E2. }
  clear H. revert E. unfold thumb_multi_ok.
  destruct (Z.eqb_spec op SISA_OP_LDM_T1) as [->|]; [|destruct (Z.eqb_spec op SISA_OP_STM_T1) as [->|];
    [|destruct (Z.eqb_spec op SISA_OP_POP_T) as [->|]; [|destruct (Z.eqb_spec op SISA_OP_PUSH_T) as [->|]; [|done]]]];
    intros [Hv ->]%multi_base_status; valid_split Hv; bools;
    (split; [by apply low_listed|]); (split; [|done || by intros _; apply bit_read_clear]); try done.
  intros _. apply bit_read_clear; [|done]. pose proof (stm_base _ Hu). lia.
Qed.

Lemma gen_thumb_data_ok op s s' :
  gen_thumb_data_instr op s = Ok VALID s' → thumb_data_ok op s'.(raw_instr).
Proof.
  unfold gen_thumb_data_instr. intros (w & s0 & [= <- <-] & [= Hv <-])%bind_ok. revert Hv. unfold thumb_data_ok.
  destruct (Z.eqb_spec op SISA_OP_CMP_reg_T2) as [->|Hne]; intros Hv; valid_split Hv; bools; split; try done.
  - intros _. split; [no_pc|]. match goal with H : _ && _ = false |- _ => apply andb_false_iff in H end.
    rewrite !Z.ltb_ge in *. tauto.
  - intros _ i Hi Hh E. unfold has_opnd in Hh.
    destruct Hi as [-> | ->]; rewrite Hh, E in *; done.
Qed.

Lemma thumb_jmp_not_valid op s s' : gen_thumb_jmp_instr op s ≠ Ok VALID s'.
Proof.
  unfold gen_thumb_jmp_instr. intros (w & s0 & _ & H)%bind_ok. revert H. cbv zeta.
  destruct (op_in op _);
    [|repeat (destruct (op =? _); [|]); try done];
    intros ([] & s1 & _ & [= Hv])%bind_ok; revert Hv; repeat (destruct (_ =? _); try done).
Qed.

Lemma gen_thumb_instr_ok op s s' :
  is_u32 s.(raw_instr) → gen_thumb_instr op s = Ok VALID s' → thumb_ok op s'.(raw_instr).
Proof.
  intros Hu. unfold gen_thumb_instr, thumb_ok, gen_thumb_misc_instr, gen_thumb_mul_instr,
    gen_thumb_empty_instr, gen_thumb_unsup_instr. destruct (op_kind (instr_desc op)); try done; first
    [by apply gen_thumb_mem_ok|by apply gen_thumb_multi_ok|by apply gen_thumb_data_ok|idtac].
  - intros [= H _]. by destruct (Z.eqb_spec op SISA_OP_WFI_T1).
  - apply thumb_jmp_not_valid.
  - intros (w & s0 & _ & (arch & s1 & _ & [= H _])%bind_ok)%bind_ok.
    by destruct (Z.eqb_spec op SISA_OP_MUL_reg_T1).
  - intros [= H _]. destruct (op =? SISA_OP_SVC_T1); [done|]. by destruct (Z.eqb_spec op SISA_OP_ADR_T1).
Qed.

(** ** 3. Properties *)

(** C34. Every VALID 16-bit Thumb instruction obeys the manual: if
    [gen_thumb_instr] answers [VALID] then in the word it leaves the offset
    register of an access is not its base, a register list names a low register
    and neither the base of a store nor the PC, the high-register comparison has
    a high register and no PC, no other data instruction writes the PC; branches
    are never [VALID]. *)
Theorem gen_thumb_instr_valid (op : Z) (s s' : rit_state) :
  is_u32 s.(raw_instr) → gen_thumb_instr op s = Ok VALID s' → thumb_ok op s'.(raw_instr).
Proof. apply gen_thumb_instr_ok. Qed.
End thumb.

(** stmia r3!, {r0, r5} *)
Lemma gen_thumb_instr_valid_witness : thumb_ok SISA_OP_STM_T1 0xc321.
Proof.
  pose (s := st_raw_instr 0xc321 zero_state).
  pose (r := gen_thumb_instr (Env := lcg_env) SISA_OP_STM_T1 s).
  refine (gen_thumb_instr_valid (Env := lcg_env) SISA_OP_STM_T1 s
    (match r with Ok _ s' => s' | _ => s end) _ _).
  - vm_compute. split; [discriminate|reflexivity].
  - vm_compute. reflexivity.
Defined.
