(* ===== verification/ValidThumb32.v ===== *)
(** * What a VALID status promises: 32-bit Thumb instructions

    The restrictions are stated with the operands of the instruction table: which
    register fields of the opcode must not be the PC or the stack pointer.  The
    table, and not the code, says where an operand is. *)
From S2P Require Import Prelude RitCommon InstrTable State InstrUtil InstrBuf Keeps BiasUtil GenHelper MemSpec GenARMMem GenARMInstr GenThumb32Instr ValidBias ValidSpec ValidMem ValidMedia ValidMulti.
#[local] Open Scope c_scope.

(** ** 1. Register fields by the table *)

(** The register fields of an opcode's operands. *)
Definition reg_operand_fields (op : Z) : list (Z * Z) :=
  field op <$> List.filter (gpr_field op) (seq 0 6).

Definition field_eqb (f g : Z * Z) : bool := (f.1 =? g.1) && (f.2 =? g.2).

(** The opcode fixes the field, as in a literal form or a form on the stack pointer. *)
Definition fixed_field (op : Z) (f : Z * Z) : bool :=
  get_bits_value (instr_desc op).(match_msk) f.1 f.2 =? 15.

(** Opcodes that accept the PC as first source, where the architecture has
    another instruction (MOV, MVN, BFC). *)
Definition pc_alias_ops : list Z := [SISA_OP_ORR_imm_T1; SISA_OP_ORN_imm_T1; SISA_OP_BFI_T1].

(** The fields that must not be the PC. *)
Definition pc_fields (op : Z) : list (Z * Z) :=
  List.filter (λ f, negb (fixed_field op f) && negb (op_in op pc_alias_ops && field_eqb f (16, 19)))
    (reg_operand_fields op).

Definition thumb32_mem_ops : list Z :=
  thumb32_multi_mem_ops ++ thumb32_ld_imm_ops ++ thumb32_ld_reg_ops ++ thumb32_st_imm_ops
  ++ thumb32_st_reg_ops ++ thumb32_mem_lit_ops ++ thumb32_mem_ex_ops ++ thumb32_mem_preload_ops.
Definition word_transfer_ops : list Z :=
  [SISA_OP_LDR_imm_T3; SISA_OP_LDR_imm_T4; SISA_OP_LDR_reg_T2; SISA_OP_LDR_lit_T2;
   SISA_OP_STR_imm_T3; SISA_OP_STR_imm_T4; SISA_OP_STR_reg_T2].
Definition sp_arith_ops : list Z :=
  [SISA_OP_ADD_sp_imm_T3; SISA_OP_SUB_sp_imm_T2; SISA_OP_ADD_sp_imm_T4; SISA_OP_SUB_sp_imm_T3;
   SISA_OP_MOV_reg_T3].
Definition compare_ops : list Z :=
  [SISA_OP_CMN_reg_T2; SISA_OP_CMP_reg_T3; SISA_OP_CMN_imm_T1; SISA_OP_CMP_imm_T2].

(** Where the stack pointer is allowed: a base, the first operand of a
    comparison, a word that is transferred, and stack pointer arithmetic. *)
Definition sp_allowed (op : Z) (f : Z * Z) : bool :=
  op_in op sp_arith_ops
  || op_in op (thumb32_mem_ops ++ compare_ops) && field_eqb f (16, 19)
  || op_in op word_transfer_ops && field_eqb f (12, 15).

(** The fields that must not be the stack pointer. *)
Definition sp_fields (op : Z) : list (Z * Z) :=
  List.filter (λ f, negb (fixed_field op f) && negb (sp_allowed op f)) (reg_operand_fields op).

(** ** 2. The restrictions *)

(** Rt2 or Rd, the second register of a pair or the destination. *)
Definition Rd8 (w : Z) : Z := get_bits_value w 8 11.

Definition indexed_ops : list Z :=
  [SISA_OP_LDR_imm_T4; SISA_OP_LDRB_imm_T3; SISA_OP_LDRH_imm_T3; SISA_OP_LDRSB_imm_T2;
   SISA_OP_LDRSH_imm_T2; SISA_OP_STR_imm_T4; SISA_OP_STRB_imm_T3; SISA_OP_STRH_imm_T3].
Definition pair_ops : list Z := [SISA_OP_LDRD_imm_T1; SISA_OP_STRD_imm_T1].
Definition load_pair_ops : list Z := [SISA_OP_LDRD_imm_T1; SISA_OP_LDRD_lit_T1; SISA_OP_LDREXD_T1].
Definition long_mul_ops : list Z :=
  [SISA_OP_SMULL_T1; SISA_OP_UMULL_T1; SISA_OP_SMLAL_T1; SISA_OP_SMLALBB_T1; SISA_OP_SMLALD_T1;
   SISA_OP_SMLSLD_T1; SISA_OP_UMLAL_T1; SISA_OP_UMAAL_T1].
Definition t32_load_list_ops : list Z := [SISA_OP_LDM_T2; SISA_OP_LDMDB_T1; SISA_OP_POP_T2].

(** The two immediates of a bit-field instruction: width or last bit, and first bit. *)
Definition t32_imm1 (w : Z) : Z := get_bits_value w 0 4.
Definition t32_imm2 (w : Z) : Z := u32 (get_bits_value w 6 7 + shl32 (get_bits_value w 12 14) 2).

Record thumb32_ok (op w : Z) : Prop := {
  (* registers by operand *)
  t32_pc : Forall (λ f, get_bits_value w f.1 f.2 ≠ R_PC) (pc_fields op);
  t32_sp : Forall (λ f, get_bits_value w f.1 f.2 ≠ R_SP) (sp_fields op);
  (* an index form has a use for its flags: not the plain offset, nor no access *)
  t32_indexed : op_in op indexed_ops = true →
    (Z.testbit w 8 = true → Rn w ≠ Rt w) ∧ (Z.testbit w 10 = true ∨ Z.testbit w 8 = true)
    ∧ ¬ (Z.testbit w 10 = true ∧ Z.testbit w 9 = true ∧ Z.testbit w 8 = false);
  t32_pair : op_in op pair_ops = true →
    (Z.testbit w 24 = true ∨ Z.testbit w 21 = true)
    ∧ (Z.testbit w 21 = true → Rn w ≠ Rt w ∧ Rn w ≠ Rd8 w);
  t32_load_pair : op_in op load_pair_ops = true → Rt w ≠ Rd8 w;
  t32_offset : op_in op (thumb32_ld_reg_ops ++ thumb32_st_reg_ops) = true → Rn w ≠ Rm w;
  t32_stex : op_in op [SISA_OP_STREX_T1] = true → Rd8 w ≠ Rn w ∧ Rd8 w ≠ Rt w;
  t32_stex_b : op_in op [SISA_OP_STREXB_T1; SISA_OP_STREXH_T1; SISA_OP_STREXD_T1] = true →
    Rm w ≠ Rn w ∧ Rm w ≠ Rt w;
  t32_stexd : op_in op [SISA_OP_STREXD_T1] = true → Rm w ≠ Rd8 w;
  t32_list : op_in op thumb32_multi_mem_ops = true →
    2 ≤ reg_count w ∧ Rn w ≠ R_PC ∧ (Wbit w = true → listed w (Rn w) = false);
  t32_load_list : op_in op t32_load_list_ops = true → listed w R_PC = false;
  t32_long : op_in op long_mul_ops = true → Rd8 w ≠ Rt w;
  t32_bf : op_in op [SISA_OP_BFI_T1; SISA_OP_BFC_T1] = true → t32_imm2 w ≤ t32_imm1 w;
  t32_bfx : op_in op [SISA_OP_SBFX_T1; SISA_OP_UBFX_T1] = true → t32_imm1 w + t32_imm2 w ≤ 31;
  t32_msr : op_in op [SISA_OP_MSR_a_T1] = true → get_bits_value w 10 11 ≠ 0
}.

(** ** 3. The status of an encoding *)

(** The status every generator answers, as a function of the word. *)
Definition thumb32_status (op w : Z) : instr_status_t :=
  if op_in op thumb32_multi_mem_ops then gen_thumb32_multi_mem_status op w
  else if op_in op thumb32_ld_imm_ops then gen_thumb32_ld_imm_status op w
  else if op_in op thumb32_ld_reg_ops then gen_thumb32_mem_reg_status op w
  else if op_in op thumb32_st_imm_ops then gen_thumb32_st_imm_status op w
  else if op_in op thumb32_st_reg_ops then gen_thumb32_mem_reg_status op w
  else if op_in op thumb32_mem_lit_ops then gen_thumb32_mem_lit_status op w
  else if op_in op thumb32_mem_ex_ops then gen_thumb32_mem_ex_status op w
  else if op_in op thumb32_mem_preload_ops then gen_thumb32_mem_preload_status op w
  else if op_in op thumb32_data_shifted_reg_ops then gen_thumb32_data_shifted_reg_status op w
  else if op_in op thumb32_data_mimm_ops then gen_thumb32_data_mimm_status op w
  else if op_in op thumb32_data_pimm_ops then gen_thumb32_data_pimm_status op w
  else if op_in op thumb32_data_reg_ops then gen_thumb32_data_reg_status op w
  else if op_in op thumb32_data_parallel_ops then gen_thumb32_data_parallel_status op w
  else if op_in op thumb32_data_misc_ops then upd (BadReg (Rd8 w) || BadReg (Rm w)) UNPREDICTABLE VALID
  else if op_in op thumb32_data_mul_ops then gen_thumb32_data_mul_status op w
  else if op_in op thumb32_sr_ops then gen_thumb32_sr_status op w
  else if op_in op thumb32_hint_ops
  then (if op_in op [SISA_OP_WFI_T2; SISA_OP_CLREX_T1] then UNSUPPORTED else VALID)
  else UNSUPPORTED.

(** What the generators do to the word: CLZ and the reversals copy Rm to the
    second field that must hold it; no other generator writes the word. *)
Definition thumb32_word (op w : Z) : Z :=
  if op_in op thumb32_data_misc_ops then set_instr_val w 16 19 (Rm w) else w.

Section thumb32.
Context `{Env : !RitEnv}.

Lemma raw_inv_thumb32_base I n al : raw_inv I (thumb32_base n al).
Proof. unfold thumb32_base, GET_OPT_STAT. raw. Qed.
#[local] Hint Resolve raw_inv_thumb32_base : raw.

(** A generator that sets up a base and answers a status keeps the word. *)
Lemma status_after (m : rit unit) (st a : instr_status_t) (s s' : rit_state) :
  raw_inv (eq s.(raw_instr)) m → (m ;; mret st) s = Ok a s' →
  a = st ∧ s'.(raw_instr) = s.(raw_instr).
Proof. intros Hm (x & s1 & E & [= <- <-])%bind_ok. split; [done|]. symmetry. by eapply Hm. Qed.

Lemma mem_reg_status op s st s' :
  gen_thumb32_mem_reg op s = Ok st s' →
  st = gen_thumb32_mem_reg_status op s.(raw_instr) ∧ s'.(raw_instr) = s.(raw_instr).
Proof.
  unfold gen_thumb32_mem_reg. intros (w & s0 & [= <- <-] & H)%bind_ok. revert H. cbv zeta.
  intros ([] & s1 & E1 & (off & s2 & E2 & H)%bind_ok)%bind_ok.
  apply raw_inv_thumb32_base with (I := eq s.(raw_instr)) in E1; [|done].
  apply raw_inv_mem_offset with (I := eq s.(raw_instr)) in E2; [|done].
  apply status_after in H as [-> ->]; [done|]. apply raw_inv_emit.
Qed.

(** CLZ and the reversals. *)
Lemma data_misc_status op s st s' :
  gen_thumb32_data_misc op s = Ok st s' →
  st = upd (BadReg (Rd8 s.(raw_instr)) || BadReg (Rm s.(raw_instr))) UNPREDICTABLE VALID
  ∧ s'.(raw_instr) = set_instr_val s.(raw_instr) 16 19 (Rm s.(raw_instr)).
Proof.
  unfold gen_thumb32_data_misc. intros (w & s0 & [= <- <-] & H)%bind_ok. revert H. cbv zeta.
  intros (i & s1 & E & ([] & s2 & [= <-] & [= <- <-])%bind_ok)%bind_ok.
  rewrite set_instr_ok in E by lia. injection E as <- <-. done.
Qed.

(** The generators classify: their status is [thumb32_status] of the word. *)
Ltac t32_group :=
  lazymatch goal with
  | |- gen_thumb32_data_misc _ _ = _ → _ => apply data_misc_status
  | |- gen_thumb32_mem_reg _ _ = _ → _ => apply mem_reg_status
  | |- gen_thumb32_hint ?op _ = _ → _ =>
      unfold gen_thumb32_hint; cbn [op_in existsb]; intros [= <- <-];
      by destruct (op =? SISA_OP_WFI_T2), (op =? SISA_OP_CLREX_T1)
  | |- classify _ _ _ = _ → _ => by intros [= <- <-]
  | |- @mbind _ _ _ _ _ _ _ = _ → _ =>
      let w := fresh in let s0 := fresh in let E := fresh "E" in
      intros (w & s0 & [= <- <-] & E)%bind_ok; apply status_after in E; [done|apply raw_inv_thumb32_base]
  | |- _ => by intros [= <- <-]
  end.

Lemma gen_thumb32_instr_status op s st s' :
  gen_thumb32_instr op s = Ok st s' →
  st = thumb32_status op s.(raw_instr) ∧ s'.(raw_instr) = thumb32_word op s.(raw_instr).
Proof.
  assert (∀ l, forallb (λ op, negb (op_in op (thumb32_data_misc_ops ++ thumb32_sr_ops ++ thumb32_hint_ops))) l
    = true → op_in op l = true → op_in op thumb32_data_misc_ops = false
    ∧ op_in op thumb32_sr_ops = false ∧ op_in op thumb32_hint_ops = false) as Hno.
  { intros l Hl H. pose proof (op_in_check _ op l H Hl) as Hn. cbv beta in Hn.
    by rewrite !op_in_app, negb_true_iff, !orb_false_iff in Hn. }
  unfold gen_thumb32_instr, thumb32_status, thumb32_word, gen_thumb32_multi_mem, gen_thumb32_ld_imm,
    gen_thumb32_st_imm, gen_thumb32_mem_ex, gen_thumb32_mem_lit, gen_thumb32_mem_preload,
    gen_thumb32_data_shifted_reg, gen_thumb32_data_mimm, gen_thumb32_data_pimm, gen_thumb32_data_reg,
    gen_thumb32_data_parallel, gen_thumb32_data_mul, gen_thumb32_sr.
  repeat match goal with |- (if op_in op ?l then _ else _) _ = _ → _ =>
    let H := fresh "H" in destruct (op_in op l) eqn:H; [
      try (destruct (Hno l ltac:(vm_compute; reflexivity) H) as (E1 & E2 & E3); rewrite ?E1, ?E2, ?E3);
      t32_group|] end.
  t32_group.
Qed.

End thumb32.

(** ** 4. From the checks to the restrictions *)

(** A fact about the fields of every opcode of a list. *)
Lemma fields_of_list (F : Z → list (Z * Z)) (P : Z * Z → Prop) op l :
  op_in op l = true → Forall P (remove_dups (flat_map F l)) → Forall P (F op).
Proof.
  intros H%op_in_spec. rewrite !Forall_forall. intros HP f Hf.
  apply HP, elem_of_remove_dups, list_elem_of_In, in_flat_map. exists op.
  by rewrite <- !list_elem_of_In.
Qed.

(** The opcodes of a group that no earlier test took. *)
Lemma op_in_rest op l l' :
  op_in op l = true → op_in op l' = false → op_in op (List.filter (λ x, negb (op_in x l')) l) = true.
Proof.
  rewrite !op_in_spec, !list_elem_of_In, filter_In. intros H H'. split; [done|]. by rewrite H'.
Qed.

Lemma op_in_one op x : (op =? x) = op_in op [x].
Proof. cbn [op_in existsb]. by rewrite orb_false_r. Qed.

(** The register fields of the opcodes of [l], from the checks in the context. *)
Ltac t32_fields H :=
  match goal with |- Forall ?P (?F ?op) =>
    match type of H with op_in _ ?l = true =>
      apply (fields_of_list F P op l H);
      let L := eval vm_compute in (remove_dups (flat_map F l)) in
      replace (remove_dups (flat_map F l)) with L by (vm_compute; reflexivity);
      repeat (apply Forall_cons; split); [..|by apply Forall_nil_2]; cbn [fst snd]; assumption
    end end.

(** One register is refused by two tests, with and without a flag. *)
Lemma both_flags (s b : bool) : s && b = false → b && negb s = false → b = false.
Proof. by destruct s, b. Qed.

(** A branch of a status function, for the opcodes of [H]. *)
Ltac t32_branch H Hv :=
  valid_split Hv; unfold BadReg in *; bools;
  repeat match goal with H1 : ?s && ?b = false, H2 : ?b && negb ?s = false |- _ =>
    apply (both_flags s b H1) in H2; clear H1; bools end;
  (split; [t32_fields H|t32_fields H|try not_in ..]).

(** The tests on the opcode in turn; what [t32_branch] does not close is left. *)
Ltac t32_cases Hv :=
  repeat match type of Hv with
  | (if op_in ?op ?l then _ else _) = VALID =>
      let H := fresh "Hin" in destruct (op_in op l) eqn:H; [try (t32_branch H Hv)|]
  | UNSUPPORTED = VALID => discriminate Hv
  end.

(** The opcodes of the group [H] that no test took. *)
Ltac t32_rest H Hv :=
  repeat match goal with Hf : op_in ?op ?l = false |- _ =>
    apply (fun H => op_in_rest op _ l H Hf) in H; clear Hf end;
  t32_branch H Hv.

Lemma t32_shifted_reg op w :
  gen_thumb32_data_shifted_reg_status op w = VALID → thumb32_ok op w.
Proof.
  unfold gen_thumb32_data_shifted_reg_status. cbv zeta. rewrite !(op_in_one op). intros Hv.
  t32_cases Hv. destruct (bitb w 20); cbn [negb andb] in Hv; t32_branch Hin7 Hv.
Qed.

Lemma t32_mimm op w : gen_thumb32_data_mimm_status op w = VALID → thumb32_ok op w.
Proof.
  unfold gen_thumb32_data_mimm_status. cbv zeta. rewrite ?(op_in_one op). intros Hv. t32_cases Hv.
Qed.

Lemma t32_pimm op w : gen_thumb32_data_pimm_status op w = VALID → thumb32_ok op w.
Proof.
  unfold gen_thumb32_data_pimm_status. cbv zeta. rewrite ?(op_in_one op).
  fold (t32_imm1 w) (t32_imm2 w). intros Hv. t32_cases Hv.
  - by intros _.
  - by intros _.
Qed.

Lemma t32_parallel op w :
  op_in op thumb32_data_parallel_ops = true →
  gen_thumb32_data_parallel_status op w = VALID → thumb32_ok op w.
Proof. unfold gen_thumb32_data_parallel_status. cbv zeta. intros Hg Hv. t32_branch Hg Hv. Qed.

Lemma t32_data_reg op w :
  op_in op thumb32_data_reg_ops = true → gen_thumb32_data_reg_status op w = VALID → thumb32_ok op w.
Proof.
  unfold gen_thumb32_data_reg_status. cbv zeta. intros Hg Hv. t32_cases Hv.
  t32_rest Hg Hv.
Qed.

Lemma t32_mul op w : gen_thumb32_data_mul_status op w = VALID → thumb32_ok op w.
Proof.
  unfold gen_thumb32_data_mul_status. cbv zeta. rewrite ?(op_in_one op). intros Hv. t32_cases Hv. by intros _.
Qed.

(** A flag of the word, in the checks. *)
Lemma bitb_testbit w b : 0 ≤ b < 32 → bitb w b = Z.testbit w b.
Proof. intros Hb. unfold bitb. rewrite get_bit_value_testbit by done. by destruct (Z.testbit w b). Qed.

(** The index flags P (10), U (9) and W (8) of a load or store. *)
Lemma indexed_ok w :
  negb (Z.testbit w 10) && negb (Z.testbit w 8) = false →
  Z.testbit w 10 && Z.testbit w 9 && negb (Z.testbit w 8) = false →
  Z.testbit w 8 && (Rn w =? Rt w) = false →
  (Z.testbit w 8 = true → Rn w ≠ Rt w) ∧ (Z.testbit w 10 = true ∨ Z.testbit w 8 = true)
  ∧ ¬ (Z.testbit w 10 = true ∧ Z.testbit w 9 = true ∧ Z.testbit w 8 = false).
Proof.
  intros H1 H2 H3. split_and!.
  - intros E. rewrite E in H3. by apply Z.eqb_neq.
  - destruct (Z.testbit w 10), (Z.testbit w 8); auto.
  - intros (E1 & E2 & E3). by rewrite E1, E2, E3 in H2.
Qed.

Lemma pair_flags_ok w :
  negb (Z.testbit w 24) && negb (Z.testbit w 21) = false →
  Z.testbit w 21 && ((Rn w =? Rt w) || (Rn w =? Rd8 w)) = false →
  (Z.testbit w 24 = true ∨ Z.testbit w 21 = true)
  ∧ (Z.testbit w 21 = true → Rn w ≠ Rt w ∧ Rn w ≠ Rd8 w).
Proof.
  intros H1 H2. split.
  - destruct (Z.testbit w 24), (Z.testbit w 21); auto.
  - intros E. rewrite E in H2. cbn [andb] in H2. bools. done.
Qed.

Lemma t32_ld_imm op w :
  op_in op thumb32_ld_imm_ops = true → gen_thumb32_ld_imm_status op w = VALID → thumb32_ok op w.
Proof.
  unfold gen_thumb32_ld_imm_status. cbv zeta. rewrite !(op_in_one op), !bitb_testbit by lia.
  intros Hg Hv. t32_cases Hv.
  - intros _. by apply indexed_ok.
  - intros _. by apply indexed_ok.
  - intros _. by apply pair_flags_ok.
  - by intros _.
  - t32_rest Hg Hv.
Qed.

Lemma t32_st_imm op w :
  op_in op thumb32_st_imm_ops = true → gen_thumb32_st_imm_status op w = VALID → thumb32_ok op w.
Proof.
  unfold gen_thumb32_st_imm_status. cbv zeta. rewrite !(op_in_one op), !bitb_testbit by lia.
  intros Hg Hv. t32_cases Hv.
  - intros _. by apply indexed_ok.
  - intros _. by apply indexed_ok.
  - intros _. by apply pair_flags_ok.
  - t32_rest Hg Hv.
Qed.

Lemma t32_mem_reg op w :
  op_in op (thumb32_ld_reg_ops ++ thumb32_st_reg_ops) = true →
  gen_thumb32_mem_reg_status op w = VALID → thumb32_ok op w.
Proof.
  unfold gen_thumb32_mem_reg_status. cbv zeta. rewrite !(op_in_one op). intros Hg Hv.
  destruct (op_in op [SISA_OP_LDR_reg_T2]) eqn:H1; [|destruct (op_in op [SISA_OP_STR_reg_T2]) eqn:H2];
    cbn [negb andb] in Hv; [t32_branch H1 Hv|t32_branch H2 Hv|t32_rest Hg Hv]; by intros _.
Qed.

Lemma t32_mem_lit op w :
  op_in op thumb32_mem_lit_ops = true → gen_thumb32_mem_lit_status op w = VALID → thumb32_ok op w.
Proof.
  unfold gen_thumb32_mem_lit_status. cbv zeta. rewrite !(op_in_one op). intros Hg Hv. t32_cases Hv.
  - by intros _.
  - t32_rest Hg Hv.
Qed.

Lemma t32_mem_ex op w : gen_thumb32_mem_ex_status op w = VALID → thumb32_ok op w.
Proof.
  unfold gen_thumb32_mem_ex_status. cbv zeta. rewrite !(op_in_one op). intros Hv. t32_cases Hv; by intros _.
Qed.

Lemma t32_preload op w :
  op_in op thumb32_mem_preload_ops = true → gen_thumb32_mem_preload_status op w = VALID → thumb32_ok op w.
Proof.
  unfold gen_thumb32_mem_preload_status. cbv zeta. intros Hg Hv. t32_cases Hv. t32_rest Hg Hv.
Qed.

Lemma t32_sr op w : gen_thumb32_sr_status op w = VALID → thumb32_ok op w.
Proof.
  unfold gen_thumb32_sr_status. cbv zeta. rewrite !(op_in_one op). intros Hv. t32_cases Hv. by intros _.
Qed.

Lemma t32_multi op w :
  is_u32 w → op_in op thumb32_multi_mem_ops = true →
  gen_thumb32_multi_mem_status op w = VALID → thumb32_ok op w.
Proof.
  unfold gen_thumb32_multi_mem_status. cbv zeta. intros Hu Hg. fold (Rn w). pose proof (Rn_range w Hu).
  rewrite !bitb_testbit, bit_count_list by (done || lia). intros Hv.
  assert (∀ b : bool, Z.testbit w 21 && b = false → Wbit w = true → b = false) as Hw
    by (unfold Wbit; intros b; by destruct (Z.testbit w 21)).
  t32_cases Hv.
  - intros _. split_and!; [done|done|]. by apply Hw.
  - by intros _.
  - t32_rest Hg Hv. intros _. split_and!; [done|done|]. by apply Hw.
Qed.

(** CLZ and the reversals, after Rm was copied. *)
Lemma t32_misc op w :
  is_u32 w → op_in op thumb32_data_misc_ops = true →
  upd (BadReg (Rd8 w) || BadReg (Rm w)) UNPREDICTABLE VALID = VALID →
  thumb32_ok op (set_instr_val w 16 19 (Rm w)).
Proof.
  intros Hu Hg. set (w' := set_instr_val w 16 19 (Rm w)).
  assert (Rd8 w = Rd8 w') as -> by (symmetry; apply (get_set_clear w (16, 19)); done).
  assert (Rm w = Rm w') as -> by (symmetry; apply (get_set_clear w (16, 19)); done).
  unfold Rd8, Rm. intros Hv. t32_branch Hg Hv.
Qed.

Lemma t32_hint op w : op_in op thumb32_hint_ops = true → thumb32_ok op w.
Proof. intros Hg. assert (VALID = VALID) as Hv by done. t32_branch Hg Hv. Qed.

(** The lemma of the group, by the status function of the branch. *)
Ltac t32_by_group H :=
  lazymatch goal with
  | |- gen_thumb32_multi_mem_status _ _ = _ → _ => by apply t32_multi
  | |- gen_thumb32_ld_imm_status _ _ = _ → _ => by apply t32_ld_imm
  | |- gen_thumb32_mem_reg_status _ _ = _ → _ =>
      apply t32_mem_reg; rewrite op_in_app, H, ?orb_true_r; reflexivity
  | |- gen_thumb32_st_imm_status _ _ = _ → _ => by apply t32_st_imm
  | |- gen_thumb32_mem_lit_status _ _ = _ → _ => by apply t32_mem_lit
  | |- gen_thumb32_mem_ex_status _ _ = _ → _ => apply t32_mem_ex
  | |- gen_thumb32_mem_preload_status _ _ = _ → _ => by apply t32_preload
  | |- gen_thumb32_data_shifted_reg_status _ _ = _ → _ => apply t32_shifted_reg
  | |- gen_thumb32_data_mimm_status _ _ = _ → _ => apply t32_mimm
  | |- gen_thumb32_data_pimm_status _ _ = _ → _ => apply t32_pimm
  | |- gen_thumb32_data_reg_status _ _ = _ → _ => by apply t32_data_reg
  | |- gen_thumb32_data_parallel_status _ _ = _ → _ => by apply t32_parallel
  | |- gen_thumb32_data_mul_status _ _ = _ → _ => apply t32_mul
  | |- gen_thumb32_sr_status _ _ = _ → _ => apply t32_sr
  | |- _ => intros _; by apply t32_hint
  end.

Lemma thumb32_status_ok op w :
  is_u32 w → thumb32_status op w = VALID → thumb32_ok op (thumb32_word op w).
Proof.
  intros Hu. unfold thumb32_status, thumb32_word.
  destruct (op_in op thumb32_data_misc_ops) eqn:Hm.
  - repeat match goal with |- context [if op_in op ?l then _ else _] =>
      assert (op_in op l = false) as -> by by_list end. by apply t32_misc.
  - repeat match goal with |- (if op_in op ?l then _ else _) = VALID → _ =>
      let H := fresh "H" in destruct (op_in op l) eqn:H; [t32_by_group H|] end. done.
Qed.

(** ** 5. Properties *)

Section valid.
Context `{Env : !RitEnv}.

Lemma gen_thumb32_instr_ok op s s' :
  is_u32 s.(raw_instr) → gen_thumb32_instr op s = Ok VALID s' → thumb32_ok op s'.(raw_instr).
Proof.
  intros Hu [Hv ->]%gen_thumb32_instr_status. by apply thumb32_status_ok.
Qed.

(** C35. Every VALID 32-bit Thumb instruction obeys the manual: if
    [gen_thumb32_instr] answers [VALID] then in the word it leaves no register
    operand, by the instruction table, is the PC, and none is the stack pointer
    where that is not allowed, and the restrictions on index flags, register
    pairs, exclusive accesses, register lists, long multiplications, bit fields
    and status masks hold.  Three opcodes are left out of the PC rule, see C39. *)
Theorem gen_thumb32_instr_valid (op : Z) (s s' : rit_state) :
  is_u32 s.(raw_instr) → gen_thumb32_instr op s = Ok VALID s' → thumb32_ok op s'.(raw_instr).
Proof. apply gen_thumb32_instr_ok. Qed.
End valid.

(** ldrd r2, r3, [r4, #-8]! *)
Lemma gen_thumb32_instr_valid_witness : thumb32_ok SISA_OP_LDRD_imm_T1 0xe9742302.
Proof.
  pose (s := st_raw_instr 0xe9742302 zero_state).
  pose (r := gen_thumb32_instr (Env := lcg_env) SISA_OP_LDRD_imm_T1 s).
  refine (gen_thumb32_instr_valid (Env := lcg_env) SISA_OP_LDRD_imm_T1 s
    (match r with Ok _ s' => s' | _ => s end) _ _).
  - vm_compute. split; [discriminate|reflexivity].
  - vm_compute. reflexivity.
Defined.
