(* ===== verification/ValidArch.v ===== *)
(** * What a VALID status promises: the three instruction sets together

    The interface between the generators of an instruction set and the
    dispatcher: a generator is sound for a range of opcodes and a restriction on
    words.  The dispatcher needs no more of them. *)
From S2P Require Import Prelude RitCommon InstrTable State InstrUtil InstrBuf GenARMInstr GenThumbInstr GenThumb32Instr ValidArm ValidThumb ValidThumb32.
#[local] Open Scope c_scope.

(** [gen] answers VALID only for words that meet [ok], for opcodes from [lo] to
    below [hi]. *)
Class SoundGen `{Env : !RitEnv} (lo hi : Z) (gen : Z → rit instr_status_t) (ok : Z → Z → Prop) : Prop :=
  sound_gen : ∀ op s s', lo ≤ op < hi → is_u32 s.(raw_instr) → gen op s = Ok VALID s' →
    ok op s'.(raw_instr).

Section instances.
Context `{Env : !RitEnv}.

#[global] Instance sound_arm : SoundGen 0 SISA_OP_ARM_MAX gen_arm_instr arm_ok.
Proof. intros op s s'. apply gen_arm_instr_ok. Qed.
#[global] Instance sound_thumb : SoundGen SISA_OP_ARM_MAX SISA_OP_THUMB_MAX gen_thumb_instr thumb_ok.
Proof. intros op s s' _. apply gen_thumb_instr_ok. Qed.
#[global] Instance sound_thumb32 :
  SoundGen SISA_OP_THUMB_MAX SISA_OP_THUMB_32_MAX gen_thumb32_instr thumb32_ok.
Proof. intros op s s' _. apply gen_thumb32_instr_ok. Qed.
End instances.

(** What a VALID word promises, by the instruction set of the opcode. *)
Definition arch_ok (op w : Z) : Prop :=
  if op <? SISA_OP_ARM_MAX then arm_ok op w
  else if op <? SISA_OP_THUMB_MAX then thumb_ok op w
  else if op <? SISA_OP_THUMB_32_MAX then thumb32_ok op w
  else False.
