(* ===== verification/EncodeBits.v ===== *)
(** * Encoding an opcode: the bit-setting half of RandomInstrGen.c

    From the options to the bits of [raw_instr]: the S bit, the condition,
    the operand fields and the bits an opcode needs fixed. *)
From S2P Require Import Prelude RitCommon InstrTable State InstrUtil InstrBuf Keeps.
#[local] Open Scope c_scope.

(** ** 1. Fixed-bit bookkeeping *)

Definition chk_3bit_reg (reg_bits reg_val : Z) : rit unit :=
  cut ← gets is_reg_bit_cut;
  if cut : bool then mret tt
  else when ((reg_bits <? 4) && negb ((reg_val .| 0x8) =? 0)) (modify (st_is_reg_bit_cut true)).

Definition set_instr_fixed_bit (start_bit end_bit : Z) : rit unit :=
  done ← gets is_set_fixed_bit;
  if done : bool then mret tt
  else modify (λ s, st_instr_fixed_bit (set_bits s.(instr_fixed_bit) start_bit end_bit) s).

(** [raw_instr = f(raw_instr);] *)
Definition on_raw (f : Z → Z) : rit unit := modify (λ s, st_raw_instr (f s.(raw_instr)) s).

(** [raw_instr = set_instr(raw_instr, l, h, v);] *)
Definition raw_set_instr (l h v : Z) : rit unit :=
  r ← get_raw_instr; r ← set_instr r l h v; set_raw_instr r.

(** ** 2. S bit and condition *)

Definition set_sbit (op : Z) : rit unit :=
  b ← GET_OPT_STAT OPT_SBIT;
  if b && negb (is_fixed_oprand op 20 20) then
    shadow ← gets (λ s, s.(shadow_options).(sbit_val));
    when (negb (SBIT_RAND =? shadow)) (set_instr_fixed_bit 20 20) ;;
    v ← opt sbit_val;
    if SBIT_SET =? v then on_raw (λ r, set_bit r 20) else on_raw (λ r, clear_bit r 20)
  else mret tt.

Definition set_arm_cond_bits (op : Z) : rit unit :=
  isa0 ← opt isa;
  if ((isa0 =? ISA_ARMv5) || (isa0 =? ISA_ARMv7)) && (op <? SISA_OP_ARM_MAX) then
    b ← GET_OPT_STAT OPT_COND;
    (if b : bool then
       shadow ← gets (λ s, s.(shadow_options).(cond_val));
       when (negb (COND_RAND =? shadow)) (set_instr_fixed_bit cond_mask_bit 31) ;;
       on_raw (λ r, r .| cond_mask) ;;
       v ← opt cond_val;
       on_raw (λ r, r & (not32 cond_mask .| (v << cond_mask_bit)))
     else mret tt) ;;
    r ← get_raw_instr;
    when (cond_mask =? (r & cond_mask)) (on_raw (λ r, r & not32 (shl32 1 cond_mask_bit)))
  else mret tt.

(** ** 3. Bits that must not be random *)

(** One [set_bit], [clear_bit], [set_bits] or [clear_bits] statement on
    [raw_instr]. *)
Inductive bit_act :=
  | SetBit (b : Z)
  | ClearBit (b : Z)
  | SetBits (s e : Z)
  | ClearBits (s e : Z).

Definition run_act (raw : Z) (a : bit_act) : Z :=
  match a with
  | SetBit b => set_bit raw b
  | ClearBit b => clear_bit raw b
  | SetBits s e => set_bits raw s e
  | ClearBits s e => clear_bits raw s e
  end.

(** The [switch] of [fix_unpredictable_bit], in three runs of labels: the
    statements of the case, or [others]. *)
Definition fix_acts_1 (op : Z) (others : list bit_act) : list bit_act :=
  if op_in op [
    SISA_OP_ASR_imm; SISA_OP_ASR_reg; SISA_OP_LSL_imm; SISA_OP_LSL_reg; SISA_OP_LSR_imm;
    SISA_OP_LSR_reg; SISA_OP_ROR_imm; SISA_OP_ROR_reg; SISA_OP_RRX_imm; SISA_OP_MOV_imm_a1;
    SISA_OP_MOV_reg; SISA_OP_MVN_imm; SISA_OP_MVN_reg; SISA_OP_MVN_rsh]
  then [ClearBits 16 19]
  else if op_in op [
    SISA_OP_BLX_reg; SISA_OP_BX; SISA_OP_BXJ_reg]
  then [SetBits 8 19]
  else if op_in op [
    SISA_OP_CLREX]
  then [SetBits 0 3; ClearBits 8 11; SetBits 12 19]
  else if op_in op [
    SISA_OP_CLZ; SISA_OP_RBIT; SISA_OP_REV; SISA_OP_REV16; SISA_OP_REVSH]
  then [SetBits 8 11; SetBits 16 19]
  else if op_in op [
    SISA_OP_CMN_imm; SISA_OP_CMN_reg; SISA_OP_CMN_rsh; SISA_OP_CMP_imm; SISA_OP_CMP_reg;
    SISA_OP_CMP_rsh; SISA_OP_TEQ_imm; SISA_OP_TEQ_reg; SISA_OP_TEQ_rsh; SISA_OP_TST_imm;
    SISA_OP_TST_reg; SISA_OP_TST_rsh; SISA_OP_MUL; SISA_OP_SMULBB; SISA_OP_SMULWB]
  then [ClearBits 12 15]
  else if op_in op [
    SISA_OP_DBG; SISA_OP_NOP; SISA_OP_WFE; SISA_OP_WFI; SISA_OP_YIELD]
  then [ClearBits 8 11; SetBits 12 15]
  else if op_in op [
    SISA_OP_DMB; SISA_OP_DSB; SISA_OP_ISB]
  then [ClearBits 8 11; SetBits 12 19]
  else if op_in op [
    SISA_OP_LDR_lit; SISA_OP_LDRB_lit; SISA_OP_LDRD_lit; SISA_OP_LDRH_lit;
    SISA_OP_LDRSB_lit; SISA_OP_LDRSH_lit]
  then [ClearBit 21; SetBit 24]
  else if op_in op [
    SISA_OP_LDREX; SISA_OP_LDREXB; SISA_OP_LDREXD; SISA_OP_LDREXH]
  then [SetBits 0 3; SetBits 8 11]
  else if op_in op [
    SISA_OP_LDRH; SISA_OP_LDRSB; SISA_OP_LDRSH; SISA_OP_STRD_reg; SISA_OP_STREX;
    SISA_OP_STREXB; SISA_OP_STREXD; SISA_OP_STREXH; SISA_OP_STRH_reg; SISA_OP_STRHT_a2;
    SISA_OP_SWP; SISA_OP_SWPB; SISA_OP_LDRHT_a2; SISA_OP_LDRSBT_a2; SISA_OP_LDRSHT_a2]
  then [ClearBits 8 11]
  else if op_in op [
    SISA_OP_QADD; SISA_OP_QSUB; SISA_OP_QDADD; SISA_OP_QDSUB]
  then [ClearBits 8 11]
  else others.

Definition fix_acts_2 (op : Z) (others : list bit_act) : list bit_act :=
  if op_in op [
    SISA_OP_QADD16; SISA_OP_QADD8; SISA_OP_QASX; SISA_OP_QSAX; SISA_OP_QSUB16;
    SISA_OP_QSUB8; SISA_OP_SADD16; SISA_OP_SADD8; SISA_OP_SASX; SISA_OP_SEL;
    SISA_OP_SHADD16; SISA_OP_SHADD8; SISA_OP_SHASX; SISA_OP_SHSAX; SISA_OP_SHSUB16;
    SISA_OP_SHSUB8; SISA_OP_SSAT16; SISA_OP_SSAX; SISA_OP_SSUB16; SISA_OP_SSUB8;
    SISA_OP_UADD16; SISA_OP_UADD8; SISA_OP_UASX; SISA_OP_UHADD16; SISA_OP_UHADD8;
    SISA_OP_UHASX; SISA_OP_UHSAX; SISA_OP_UHSUB16; SISA_OP_UHSUB8; SISA_OP_UQADD16;
    SISA_OP_UQADD8; SISA_OP_UQASX; SISA_OP_UQSAX; SISA_OP_UQSUB16; SISA_OP_UQSUB8;
    SISA_OP_USAT16; SISA_OP_USAX; SISA_OP_USUB16; SISA_OP_USUB8]
  then [SetBits 8 11]
  else if op_in op [
    SISA_OP_MRS_a]
  then [ClearBits 0 3; ClearBits 8 11; SetBits 16 19]
  else if op_in op [
    SISA_OP_MSR_imm_a; SISA_OP_PLD_imm; SISA_OP_PLD; SISA_OP_PLI_imm; SISA_OP_PLI]
  then [SetBits 12 15]
  else if op_in op [
    SISA_OP_PLD_lit]
  then [SetBits 12 15; SetBit 22]
  else if op_in op [
    SISA_OP_MSR_reg_a]
  then [ClearBits 8 11; SetBits 12 15]
  else if op_in op [
    SISA_OP_SXTAB; SISA_OP_SXTAB16; SISA_OP_SXTAH; SISA_OP_SXTB; SISA_OP_SXTB16;
    SISA_OP_SXTH; SISA_OP_UXTAB; SISA_OP_UXTAB16; SISA_OP_UXTAH; SISA_OP_UXTB;
    SISA_OP_UXTB16; SISA_OP_UXTH]
  then [ClearBits 8 9]
  else if op_in op [
    SISA_OP_BLX_reg_T1; SISA_OP_BX_T1]
  then [ClearBits 0 2]
  else if op_in op [
    SISA_OP_SRS_T1; SISA_OP_SRS_T2]
  then [ClearBits 5 13; SetBits 14 19; ClearBit 17]
  else if op_in op [
    SISA_OP_RFE_T1; SISA_OP_RFE_T2]
  then [ClearBits 0 13; SetBits 14 15]
  else if op_in op [
    SISA_OP_STM_T2; SISA_OP_STMDB_T1; SISA_OP_PUSH_T2]
  then [ClearBit 13; ClearBit 15]
  else if op_in op [
    SISA_OP_LDM_T2; SISA_OP_LDMDB_T1; SISA_OP_POP_T2]
  then [ClearBit 13]
  else if op_in op [
    SISA_OP_LDREX_T1; SISA_OP_STREXB_T1; SISA_OP_STREXH_T1]
  then [SetBits 8 11]
  else if op_in op [
    SISA_OP_TBB_T1]
  then [ClearBits 8 11; SetBits 12 15]
  else if op_in op [
    SISA_OP_LDREXB_T1; SISA_OP_LDREXH_T1]
  then [SetBits 0 3; SetBits 8 11]
  else if op_in op [
    SISA_OP_LDREXD_T1]
  then [SetBits 0 3]
  else if op_in op [
    SISA_OP_AND_reg_T2; SISA_OP_TST_reg_T2; SISA_OP_BIC_reg_T2; SISA_OP_ORR_reg_T2;
    SISA_OP_MOV_reg_T3; SISA_OP_ORN_reg_T1; SISA_OP_MVN_reg_T2; SISA_OP_EOR_reg_T2;
    SISA_OP_TEQ_reg_T1; SISA_OP_PKH_reg_T1; SISA_OP_ADD_reg_T3; SISA_OP_CMN_reg_T2;
    SISA_OP_ADC_reg_T2; SISA_OP_SBC_reg_T2]
  then [ClearBit 15]
  else others.

Definition fix_acts_3 (op : Z) (others : list bit_act) : list bit_act :=
  if op_in op [
    SISA_OP_SSAT_T1; SISA_OP_USAT_T1; SISA_OP_SBFX_T1; SISA_OP_UBFX_T1; SISA_OP_BFI_T1;
    SISA_OP_BFC_T1]
  then [ClearBit 5; ClearBit 26]
  else if op_in op [
    SISA_OP_SSAT16_T1; SISA_OP_USAT16_T1]
  then [ClearBits 4 5; ClearBit 26]
  else if op_in op [
    SISA_OP_MSR_a_T1]
  then [ClearBit 13; ClearBits 0 7]
  else if op_in op [
    SISA_OP_MSR_s_T1]
  then [ClearBits 0 7; ClearBit 13]
  else if op_in op [
    SISA_OP_CPS_T2; SISA_OP_NOP_T2; SISA_OP_YIELD_T2; SISA_OP_WFE_T2; SISA_OP_WFI_T2;
    SISA_OP_SEV_T2; SISA_OP_DBG_T1]
  then [ClearBit 11; ClearBit 13; SetBits 16 19]
  else if op_in op [
    SISA_OP_CLREX_T1]
  then [SetBits 0 3; SetBits 8 11; ClearBit 13; SetBits 16 19]
  else if op_in op [
    SISA_OP_MRS_a_T1; SISA_OP_MRS_s_T1]
  then [ClearBits 0 7; ClearBit 13; SetBits 16 19]
  else if op_in op [
    SISA_OP_PLD_lit_T1]
  then [ClearBit 21]
  else if op_in op [
    SISA_OP_SXTAB_T1; SISA_OP_SXTAH_T1; SISA_OP_SXTAB16_T1; SISA_OP_SXTB16_T1;
    SISA_OP_UXTAB_T1; SISA_OP_UXTAH_T1; SISA_OP_UXTAB16_T1; SISA_OP_UXTB16_T1;
    SISA_OP_SXTB_T2; SISA_OP_SXTH_T2; SISA_OP_UXTB_T2; SISA_OP_UXTH_T2]
  then [ClearBit 6]
  else if op_in op [
    SISA_OP_SDIV_T1; SISA_OP_UDIV_T1]
  then [SetBits 12 15]
  else if op_in op [
    SISA_OP_RRX_T1]
  then [ClearBit 15]
  else others.

Definition fix_acts (op : Z) : list bit_act :=
  fix_acts_1 op (fix_acts_2 op (fix_acts_3 op [])).

Definition fix_unpredictable_bit (op : Z) : rit unit :=
  on_raw (λ r, foldl run_act r (fix_acts op)).

(** ** 4. Operand fields *)

(** The arrays selected by [opnd_kind]: source operands when it is true. *)
Definition regs_arr (opnd_kind : bool) (o : gen_option_t) : list Z :=
  if opnd_kind then o.(src_regs) else o.(dst_regs).
Definition fp_regs_ext_arr (opnd_kind : bool) (o : gen_option_t) : list Z :=
  if opnd_kind then o.(src_fp_regs_ext) else o.(dst_fp_regs_ext).
Definition opt_reg_kind (opnd_kind : bool) : Z := if opnd_kind then OPT_SREG else OPT_DREG.
Definition opt_fp_reg_kind (opnd_kind : bool) : Z :=
  if opnd_kind then OPT_FP_SREG_EXT else OPT_FP_DREG_EXT.
Definition opnd_positions (opnd_kind : bool) : list nat :=
  if opnd_kind then [SISA_INPUT0; SISA_INPUT1; SISA_INPUT2; SISA_INPUT3]
  else [SISA_OUTPUT0; SISA_OUTPUT1].

(** [arr[i]] for an index the caller has checked against [MAX_REG_NUM]. *)
Definition arr_get (l : list Z) (i : Z) : Z := nth (Z.to_nat i) l 0.

Definition is_fp_type (t : sisa_opnd_type_t) : bool :=
  match t with
  | SISA_OPND_TYPE_FPSR | SISA_OPND_TYPE_FPDR | SISA_OPND_TYPE_FPQR
  | SISA_OPND_TYPE_FPDSR | SISA_OPND_TYPE_FPQDR => true
  | _ => false
  end.

Definition is_fp_sized_type (t : sisa_opnd_type_t) : bool :=
  match t with SISA_OPND_TYPE_FPDSR | SISA_OPND_TYPE_FPQDR => true | _ => false end.

(** [GET_OPT_STAT(k) && rand_mark != shadow] guards a fixed-bit record. *)
Definition fix_if (b : bool) (s e : Z) : rit unit := when b (set_instr_fixed_bit s e).

Section opnd.
Variables (op : Z) (opnd_kind : bool).

Let fixed := is_fixed_oprand op.

(** General purpose and floating point registers; returns the new [reg_idx]. *)
Definition opnd_reg (opnd : sisa_opnd_t) (reg_idx : Z) : rit Z :=
  if (reg_idx <? MAX_REG_NUM) && negb (fixed opnd.(start_bit) opnd.(end_bit)) then
    o ← gets options;
    so ← gets shadow_options;
    let reg := arr_get (regs_arr opnd_kind o) reg_idx in
    when (opt_stat o (opt_reg_kind opnd_kind))
      (fix_if (negb (R_RAND =? arr_get (regs_arr opnd_kind so) reg_idx))
              opnd.(start_bit) opnd.(end_bit) ;;
       chk_3bit_reg (opnd.(end_bit) - opnd.(start_bit) + 1) reg) ;;
    raw_set_instr opnd.(start_bit) opnd.(end_bit) reg ;;
    when (is_fp_type opnd.(type) && negb (fixed opnd.(bit1) opnd.(bit1)))
      (fix_if (opt_stat o (opt_fp_reg_kind opnd_kind)
               && negb (FP_REG_RAND =? arr_get (fp_regs_ext_arr opnd_kind so) reg_idx))
              opnd.(bit1) opnd.(bit1) ;;
       raw_set_instr opnd.(bit1) opnd.(bit1) (arr_get (fp_regs_ext_arr opnd_kind o) reg_idx)) ;;
    when (is_fp_sized_type opnd.(type) && negb (fixed opnd.(bit2) opnd.(bit2)))
      (fix_if (opt_stat o OPT_FP_SZ_Q_EXT && negb (FP_REG_RAND =? so.(fp_sz_q_bit)))
              opnd.(bit2) opnd.(bit2) ;;
       raw_set_instr opnd.(bit2) opnd.(bit2) o.(fp_sz_q_bit)) ;;
    mret (reg_idx + 1)
  else mret reg_idx.

(** A shift type field, bits [l..h]. *)
Definition opnd_shift_type (l h v : Z) : rit unit :=
  when (negb (fixed l h))
    (o ← gets options;
     so ← gets shadow_options;
     fix_if (opt_stat o OPT_SHRTTYPE && negb (SH_TYPE_RAND =? so.(shift_rotate_type))) l h ;;
     raw_set_instr l h v).

(** A register that holds a shift or rotate amount. *)
Definition opnd_shift_reg (opnd : sisa_opnd_t) : rit unit :=
  when (negb (fixed opnd.(start_bit) opnd.(end_bit)))
    (o ← gets options;
     so ← gets shadow_options;
     when (opt_stat o OPT_SHRTREG)
       (fix_if (negb (R_RAND =? so.(shift_rotate_reg))) opnd.(start_bit) opnd.(end_bit) ;;
        chk_3bit_reg (opnd.(end_bit) - opnd.(start_bit) + 1) o.(shift_rotate_reg)) ;;
     raw_set_instr opnd.(start_bit) opnd.(end_bit) o.(shift_rotate_reg)) ;;
  t ← opt shift_rotate_type;
  opnd_shift_type opnd.(bit1) opnd.(bit2) t.

(** A field written whole: register lists, plain immediates, conditions. *)
Definition opnd_field (opnd : sisa_opnd_t) (k : Z) (f : gen_option_t → Z) : rit unit :=
  when (negb (fixed opnd.(start_bit) opnd.(end_bit)))
    (o ← gets options;
     fix_if (opt_stat o k) opnd.(start_bit) opnd.(end_bit) ;;
     raw_set_instr opnd.(start_bit) opnd.(end_bit) (f o)).

(** A register split over a field and a high bit; returns the new [reg_idx]. *)
Definition opnd_gpr_merge (opnd : sisa_opnd_t) (reg_idx : Z) : rit Z :=
  if (reg_idx <? MAX_REG_NUM) && negb (fixed opnd.(bit1) opnd.(bit1))
     && negb (fixed opnd.(start_bit) opnd.(end_bit)) then
    o ← gets options;
    so ← gets shadow_options;
    let reg := arr_get (regs_arr opnd_kind o) reg_idx in
    when (opt_stat o (opt_reg_kind opnd_kind))
      (when (negb (R_RAND =? arr_get (regs_arr opnd_kind so) reg_idx))
         (set_instr_fixed_bit opnd.(start_bit) opnd.(end_bit) ;;
          set_instr_fixed_bit opnd.(bit1) opnd.(bit1)) ;;
       chk_3bit_reg (opnd.(end_bit) - opnd.(start_bit) + 2) reg) ;;
    raw_set_instr opnd.(start_bit) opnd.(end_bit) reg ;;
    let remainder_bits := reg >> (opnd.(end_bit) - opnd.(start_bit) + 1) in
    raw_set_instr opnd.(bit1) opnd.(bit1) remainder_bits ;;
    mret (reg_idx + 1)
  else mret reg_idx.

(** An immediate split over two fields. *)
Definition opnd_imm_merge (opnd : sisa_opnd_t) : rit unit :=
  when (negb (fixed opnd.(start_bit) opnd.(end_bit)) && negb (fixed opnd.(bit1) opnd.(bit2)))
    (o ← gets options;
     when (opt_stat o OPT_IMM)
       (set_instr_fixed_bit opnd.(bit1) opnd.(bit2) ;;
        set_instr_fixed_bit opnd.(start_bit) opnd.(end_bit)) ;;
     raw_set_instr opnd.(bit1) opnd.(bit2) o.(imm_val) ;;
     let remainder_bits := o.(imm_val) >> (opnd.(bit2) - opnd.(bit1) + 1) in
     raw_set_instr opnd.(start_bit) opnd.(end_bit) remainder_bits).

Definition opnd_shift_imm (opnd : sisa_opnd_t) : rit unit :=
  opnd_field opnd OPT_SHIMM shift_imm_val ;;
  t ← opt shift_rotate_type;
  opnd_shift_type opnd.(bit1) opnd.(bit2) t.

(** The Thumb shift amount, whose high part is at twice the bit positions. *)
Definition opnd_shift_imm_t (opnd : sisa_opnd_t) : rit unit :=
  when (negb (fixed opnd.(start_bit) opnd.(end_bit))
        && negb (fixed (2 * opnd.(start_bit)) (2 * opnd.(end_bit))))
    (o ← gets options;
     when (opt_stat o OPT_SHIMM)
       (set_instr_fixed_bit opnd.(start_bit) opnd.(end_bit) ;;
        set_instr_fixed_bit (2 * opnd.(start_bit)) (2 * opnd.(end_bit))) ;;
     raw_set_instr opnd.(start_bit) opnd.(end_bit) o.(shift_imm_val) ;;
     let remainder_bits := o.(shift_imm_val) >> (opnd.(end_bit) - opnd.(start_bit) + 1) in
     raw_set_instr (2 * opnd.(start_bit)) (2 * opnd.(end_bit)) remainder_bits) ;;
  t ← opt shift_rotate_type;
  opnd_shift_type opnd.(bit1) opnd.(bit1) t ;;
  opnd_shift_type opnd.(bit2) opnd.(bit2) (t >> (opnd.(bit2) - opnd.(bit2) + 1)).

(** Thumb and SIMD modified immediates: low field, a middle field and the
    [i] bit. *)
Definition opnd_imm_exp (opnd : sisa_opnd_t) (i_bit_pos imm_startbit imm_endbit : Z) : rit unit :=
  when (negb (fixed i_bit_pos i_bit_pos) && negb (fixed imm_startbit imm_endbit)
        && negb (fixed opnd.(start_bit) opnd.(end_bit)))
    (o ← gets options;
     when (opt_stat o OPT_IMM)
       (set_instr_fixed_bit opnd.(start_bit) opnd.(end_bit) ;;
        set_instr_fixed_bit imm_startbit imm_endbit ;;
        set_instr_fixed_bit i_bit_pos i_bit_pos) ;;
     raw_set_instr opnd.(start_bit) opnd.(end_bit) o.(imm_val) ;;
     let remainder_bits := o.(imm_val) >> (opnd.(end_bit) - opnd.(start_bit) + 1) in
     raw_set_instr imm_startbit imm_endbit remainder_bits ;;
     let remainder_bits := remainder_bits >> (imm_endbit - imm_startbit + 1) in
     raw_set_instr i_bit_pos i_bit_pos remainder_bits).

(** One round of the loop of [set_opnd_bits]; returns the new [reg_idx]. *)
Definition opnd_step (idx : nat) (reg_idx : Z) : rit Z :=
  let opnd := opnd_of op idx in
  let opnd_type :=
    match opnd.(type) with
    | SISA_OPND_TYPE_IMM_ZERO_EXTEND =>
        if negb (opnd.(bit2) =? 0) then SISA_OPND_TYPE_IMM_THUMB_EXP else SISA_OPND_TYPE_IMM
    | t => t
    end in
  match opnd_type with
  | SISA_OPND_TYPE_GPR | SISA_OPND_TYPE_GPRSET | SISA_OPND_TYPE_FPSR | SISA_OPND_TYPE_FPDR
  | SISA_OPND_TYPE_FPQR | SISA_OPND_TYPE_FPDSR | SISA_OPND_TYPE_FPQDR
  | SISA_OPND_TYPE_GPR_RW => opnd_reg opnd reg_idx
  | SISA_OPND_TYPE_SHIFT_REG | SISA_OPND_TYPE_ROTATE_REG =>
      opnd_shift_reg opnd ;; mret reg_idx
  | SISA_OPND_TYPE_GPRLIST | SISA_OPND_TYPE_GPRLIST_T =>
      opnd_field opnd OPT_REGS_LIST regs_list ;; mret reg_idx
  | SISA_OPND_TYPE_GPR_MERGE => opnd_gpr_merge opnd reg_idx
  | SISA_OPND_TYPE_IMM | SISA_OPND_TYPE_IMM_ARM_EXP | SISA_OPND_TYPE_IMM_SIGN_EXTEND =>
      opnd_field opnd OPT_IMM imm_val ;; mret reg_idx
  | SISA_OPND_TYPE_IMM_MERGE | SISA_OPND_TYPE_IMM_VFP_EXPAND =>
      opnd_imm_merge opnd ;; mret reg_idx
  | SISA_OPND_TYPE_SHIFT_IMM => opnd_shift_imm opnd ;; mret reg_idx
  | SISA_OPND_TYPE_SHIFT_IMM_T => opnd_shift_imm_t opnd ;; mret reg_idx
  | SISA_OPND_TYPE_IMM_THUMB_EXP => opnd_imm_exp opnd 26 12 14 ;; mret reg_idx
  | SISA_OPND_TYPE_IMM_SIMD_EXP =>
      opnd_imm_exp opnd (if SISA_OP_ARM_MAX <=? op then 28 else 24) 16 18 ;; mret reg_idx
  | SISA_OPND_TYPE_COND => opnd_field opnd OPT_COND cond_val ;; mret reg_idx
  | _ => mret reg_idx
  end.

(** The loop over the operand positions, threading [reg_idx]. *)
Fixpoint opnd_loop (idxs : list nat) (reg_idx : Z) : rit unit :=
  match idxs with
  | [] => mret tt
  | idx :: idxs => reg_idx ← opnd_step idx reg_idx; opnd_loop idxs reg_idx
  end.

Definition set_opnd_bits : rit unit := opnd_loop (opnd_positions opnd_kind) 0.
End opnd.

Definition set_src_opnd_bits (op : Z) : rit unit := set_opnd_bits op true.
Definition set_dst_opnd_bits (op : Z) : rit unit := set_opnd_bits op false.

(** ** 5. The encoding stages keep the fixed bits *)

(** The bit positions of an operand are usable for what its type does. *)
Definition opnd_wf (top : Z) (o : sisa_opnd_t) : bool :=
  (0 <=? o.(start_bit)) && (o.(start_bit) <=? o.(end_bit)) && (o.(end_bit) <? top)
  && (0 <=? o.(bit1)) && (o.(bit1) <? top) && (0 <=? o.(bit2)) && (o.(bit2) <? top)
  && match o.(type) with
     | SISA_OPND_TYPE_SHIFT_REG | SISA_OPND_TYPE_ROTATE_REG | SISA_OPND_TYPE_IMM_MERGE
     | SISA_OPND_TYPE_IMM_VFP_EXPAND | SISA_OPND_TYPE_SHIFT_IMM => o.(bit1) <=? o.(bit2)
     | SISA_OPND_TYPE_SHIFT_IMM_T => 2 * o.(end_bit) <? top
     | _ => true
     end.

Lemma opnd_wf_table op i : 0 ≤ op < SISA_OP_MAX → opnd_wf (field_top op) (opnd_of op i) = true.
Proof.
  intros Hop. unfold opnd_of.
  pose proof (table_check (λ op, forallb (opnd_wf (field_top op)) (instr_desc op).(opnds))
    ltac:(vm_compute; reflexivity) op Hop) as HT. cbv beta in HT.
  destruct (nth_in_or_default i (opnds (instr_desc op)) OPNDNA) as [Hin| ->]; [|unfold field_top; by case_match].
  rewrite forallb_forall in HT. by apply HT.
Qed.

(** A field found free by [is_fixed_oprand], with the bounds of [opnd_wf]. *)
Ltac field_facts := unfold opnd_wf in *;
  repeat match goal with
  | H : _ && _ = true |- _ => apply andb_true_iff in H as [? ?]
  | H : negb _ = true |- _ => apply negb_true_iff in H
  | H : (_ <=? _) = true |- _ => apply Z.leb_le in H
  | H : (_ <? _) = true |- _ => apply Z.ltb_lt in H
  end.

Section keeps.
Context `{Env : !RitEnv}.
Context (th : bool) (op tmpl : Z).
#[local] Abbreviation keeps := (keeps th op tmpl).

Lemma keeps_set_instr_fixed_bit s e : keeps 0 (λ _, True) (set_instr_fixed_bit s e).
Proof. unfold set_instr_fixed_bit. keeps. Qed.

Lemma keeps_fix_if b s e : keeps 0 (λ _, True) (fix_if b s e).
Proof. unfold fix_if, set_instr_fixed_bit. keeps. Qed.

Lemma keeps_chk_3bit_reg b r : keeps 0 (λ _, True) (chk_3bit_reg b r).
Proof. unfold chk_3bit_reg. keeps. Qed.

Lemma keeps_raw_set_instr l h v :
  writable op l h = true → keeps 0 (λ _, True) (raw_set_instr l h v).
Proof. intros. unfold raw_set_instr. keeps. Qed.

#[local] Hint Resolve keeps_set_instr_fixed_bit keeps_fix_if keeps_chk_3bit_reg
  keeps_raw_set_instr : keeps.

#[local] Hint Extern 1 (writable _ _ _ = true) =>
  field_facts; apply writable_spec; split_and!; (assumption || lia) : keeps.

Context (opnd_kind : bool) (o : sisa_opnd_t) (Hwf : opnd_wf (field_top op) o = true).

Lemma keeps_opnd_reg idx : keeps 0 (λ _, True) (opnd_reg op opnd_kind o idx).
Proof. unfold opnd_reg. cbv zeta. keeps. Qed.

Lemma keeps_opnd_shift_type l h v :
  0 ≤ l ≤ h → h < field_top op → keeps 0 (λ _, True) (opnd_shift_type op l h v).
Proof. intros. unfold opnd_shift_type. cbv zeta. keeps. Qed.
#[local] Hint Resolve keeps_opnd_shift_type : keeps.
#[local] Hint Extern 2 (_ ≤ _ ≤ _) => field_facts; lia : keeps.
#[local] Hint Extern 2 (_ < _) => field_facts; lia : keeps.

Lemma keeps_opnd_field k f : keeps 0 (λ _, True) (opnd_field op o k f).
Proof. unfold opnd_field. cbv zeta. keeps. Qed.
#[local] Hint Resolve keeps_opnd_field : keeps.

Lemma keeps_opnd_shift_reg :
  o.(bit1) ≤ o.(bit2) → keeps 0 (λ _, True) (opnd_shift_reg op o).
Proof. intros. unfold opnd_shift_reg. cbv zeta. keeps. Qed.

Lemma keeps_opnd_gpr_merge idx : keeps 0 (λ _, True) (opnd_gpr_merge op opnd_kind o idx).
Proof. unfold opnd_gpr_merge. cbv zeta. keeps. Qed.

Lemma keeps_opnd_imm_merge :
  o.(bit1) ≤ o.(bit2) → keeps 0 (λ _, True) (opnd_imm_merge op o).
Proof. intros. unfold opnd_imm_merge. cbv zeta. keeps. Qed.

Lemma keeps_opnd_shift_imm :
  o.(bit1) ≤ o.(bit2) → keeps 0 (λ _, True) (opnd_shift_imm op o).
Proof. intros. unfold opnd_shift_imm. keeps. Qed.

Lemma keeps_opnd_shift_imm_t :
  2 * o.(end_bit) < field_top op → keeps 0 (λ _, True) (opnd_shift_imm_t op o).
Proof. intros. unfold opnd_shift_imm_t. cbv zeta. keeps. Qed.

Lemma keeps_opnd_imm_exp i l h :
  0 ≤ i < field_top op → 0 ≤ l ≤ h → h < field_top op → keeps 0 (λ _, True) (opnd_imm_exp op o i l h).
Proof. intros. unfold opnd_imm_exp. cbv zeta. keeps. Qed.
End keeps.

#[local] Hint Resolve keeps_opnd_reg keeps_opnd_field keeps_opnd_shift_reg keeps_opnd_gpr_merge
  keeps_opnd_imm_merge keeps_opnd_shift_imm keeps_opnd_shift_imm_t keeps_opnd_imm_exp
  keeps_fix_if keeps_set_instr_fixed_bit : keeps.
#[local] Hint Extern 3 (_ ≤ _) => lia : keeps.
#[local] Hint Extern 3 (_ < _) => lia : keeps.

Section stages.
Context `{Env : !RitEnv}.
Context (th : bool) (op tmpl : Z) (Hop : 0 ≤ op < SISA_OP_MAX).
#[local] Abbreviation keeps := (keeps th op tmpl).

Lemma keeps_opnd_step kind i idx : keeps 0 (λ _, True) (opnd_step op kind i idx).
Proof.
  pose proof (opnd_wf_table op i Hop) as Hwf. unfold opnd_step. cbv zeta.
  pose proof Hwf as Hwf'. unfold opnd_wf in Hwf'. apply andb_true_iff in Hwf' as [_ Hty].
  pose proof (field_top_range op).
  assert (0 ≤ (if SISA_OP_ARM_MAX <=? op then 28 else 24) < field_top op)
    by (unfold field_top; destruct (Z.leb_spec SISA_OP_ARM_MAX op), (Z.ltb_spec op SISA_OP_ARM_MAX); lia).
  destruct (type (opnd_of op i)); rewrite ?Z.leb_le, ?Z.ltb_lt in Hty;
    try (destruct (negb (bit2 _ =? 0))); keeps.
Qed.
#[local] Hint Resolve keeps_opnd_step : keeps.

Lemma keeps_opnd_loop kind l idx : keeps 0 (λ _, True) (opnd_loop op kind l idx).
Proof.
  revert idx. induction l as [|i l IH]; intros idx; simpl; [by apply keeps_ret|].
  eapply keeps_bind; [apply keeps_opnd_step|done|]. intros a _. apply IH.
Qed.

Lemma keeps_set_opnd_bits kind : keeps 0 (λ _, True) (set_opnd_bits op kind).
Proof. apply keeps_opnd_loop. Qed.

Lemma word_kept_bit_20 i :
  is_fixed_oprand op 20 20 = false → word_kept op tmpl i →
  word_kept op tmpl (set_bit i 20) ∧ word_kept op tmpl (clear_bit i 20).
Proof.
  intros Hf Hi. pose proof (field_top_range op). destruct (Hi) as [Hu _].
  assert (writable op 20 20 = true) as Hw by (apply writable_spec; split_and!; (lia || done)).
  split; (apply (word_kept_change op tmpl i); [done|auto with rit|intros k Hk Hb]);
    pose proof (writable_free op 20 20 k Hw Hb);
    [rewrite testbit_set_bit by lia|rewrite testbit_clear_bit by lia];
    rewrite (proj2 (Z.eqb_neq k 20)) by lia; [by rewrite orb_false_r|by rewrite andb_true_r].
Qed.

Lemma keeps_set_sbit : keeps 0 (λ _, True) (set_sbit op).
Proof.
  unfold set_sbit. keeps; field_facts; (eapply keeps_mono; [apply keeps_on_raw|lia|done]);
    intros i Hi; by apply word_kept_bit_20.
Qed.

(** *** The bits that must not be random *)

(** Bit [k] after an action depends on bit [k] before it only. *)
Definition act_bit (a : bit_act) (k : Z) (b : bool) : bool :=
  match a with
  | SetBit p => b || (k =? p)
  | ClearBit p => b && negb (k =? p)
  | SetBits s e => b || (s <=? k) && (k <=? e)
  | ClearBits s e => b && negb ((s <=? k) && (k <=? e))
  end.

Definition act_wf (a : bit_act) : bool :=
  match a with
  | SetBit p | ClearBit p => (0 <=? p) && (p <? 28)
  | SetBits s e | ClearBits s e => (0 <=? s) && (s <=? e) && (e <? 28)
  end.

Lemma testbit_run_act a raw k :
  act_wf a = true → 0 ≤ k < 32 → Z.testbit (run_act raw a) k = act_bit a k (Z.testbit raw k).
Proof.
  destruct a; simpl; intros; field_facts;
    [apply testbit_set_bit|apply testbit_clear_bit|apply testbit_set_bits|apply testbit_clear_bits];
    lia.
Qed.

Lemma is_u32_run_act a raw : is_u32 raw → is_u32 (run_act raw a).
Proof. destruct a; simpl; auto with rit. Qed.

Lemma testbit_run_acts acts raw k :
  forallb act_wf acts = true → 0 ≤ k < 32 →
  Z.testbit (foldl run_act raw acts) k = foldl (λ b a, act_bit a k b) (Z.testbit raw k) acts.
Proof.
  revert raw. induction acts as [|a acts IH]; intros raw Hwf Hk; simpl in *; [done|].
  apply andb_true_iff in Hwf as [Ha Hwf]. by rewrite IH, testbit_run_act by done.
Qed.

Lemma is_u32_run_acts acts raw : is_u32 raw → is_u32 (foldl run_act raw acts).
Proof. revert raw. induction acts; simpl; auto using is_u32_run_act. Qed.

(** The actions of an opcode restore exactly its own fixed bits. *)
Definition fix_ok (op : Z) : bool :=
  let d := instr_desc op in
  forallb act_wf (fix_acts op)
  && ((foldl run_act d.(match_val) (fix_acts op) & (d.(match_msk) & 0x0fffffff))
      =? (d.(match_val) & (d.(match_msk) & 0x0fffffff))).

Lemma fix_ok_table op' : 0 ≤ op' < SISA_OP_MAX → fix_ok op' = true.
Proof. apply (table_check fix_ok). vm_compute. reflexivity. Qed.

(** The template has the opcode's own bits, but perhaps another condition. *)
Definition low_bits_of (op tmpl : Z) : Prop :=
  ∀ k, 0 ≤ k < 28 → Z.testbit (instr_desc op).(match_msk) k = true →
       Z.testbit tmpl k = Z.testbit (instr_desc op).(match_val) k.

Lemma act_bit_high acts k b :
  forallb act_wf acts = true → 28 ≤ k → foldl (λ b a, act_bit a k b) b acts = b.
Proof.
  intros Hwf Hk. revert b. induction acts as [|a acts IH]; intros b; simpl in *; [done|].
  apply andb_true_iff in Hwf as [Ha Hwf]. rewrite IH by done.
  destruct a; simpl in *; field_facts; repeat
    match goal with |- context [?x =? ?y] => destruct (Z.eqb_spec x y); [lia|]
    | |- context [?x <=? ?y] => destruct (Z.leb_spec x y); try lia end; destruct b; done.
Qed.

Lemma word_kept_fix i :
  low_bits_of op tmpl → word_kept op tmpl i → word_kept op tmpl (foldl run_act i (fix_acts op)).
Proof.
  intros Hlow Hi. pose proof (fix_ok_table op Hop) as [Hwf Hv]%andb_true_iff.
  apply Z.eqb_eq in Hv. apply (word_kept_change op tmpl i); [done|apply is_u32_run_acts, Hi|].
  intros k Hk Hb. rewrite testbit_run_acts by done. destruct (Z.lt_ge_cases k 28) as [Hlo|Hhi];
    [|by apply act_bit_high].
  destruct Hi as [_ Hw]. rewrite (Hw k) by (lia || done). unfold kept_bit in Hb.
  rewrite (proj2 (Z.leb_gt 28 k)), andb_false_r, orb_false_r in Hb by lia.
  rewrite (Hlow k), <- testbit_run_acts by (lia || done).
  apply (f_equal (λ z, Z.testbit z k)) in Hv. rewrite !Z.land_spec, Hb in Hv.
  change 0x0fffffff with (Z.ones 28) in Hv. rewrite testbit_ones in Hv by lia.
  rewrite (proj2 (Z.ltb_lt k 28)) in Hv by lia. by rewrite !andb_true_r in Hv.
Qed.

Lemma keeps_fix_unpredictable_bit :
  low_bits_of op tmpl → keeps 0 (λ _, True) (fix_unpredictable_bit op).
Proof. intros Hl. apply keeps_on_raw. intros i Hi. by apply word_kept_fix. Qed.
End stages.

(** *** The condition field *)

(** [set_arm_cond_bits] acts in this state. *)
Definition cond_acts (op : Z) (s : rit_state) : bool :=
  ((s.(options).(isa) =? ISA_ARMv5) || (s.(options).(isa) =? ISA_ARMv7)) && (op <? SISA_OP_ARM_MAX).

Lemma testbit_cond_mask k : 0 ≤ k → Z.testbit cond_mask k = (28 <=? k) && (k <? 32).
Proof.
  intros Hk. change cond_mask with (Z.shiftl (Z.ones 4) 28). rewrite Z.shiftl_spec by done.
  destruct (Z.leb_spec 28 k).
  - rewrite testbit_ones by lia. destruct (Z.ltb_spec (k - 28) 4), (Z.ltb_spec k 32); lia || done.
  - by rewrite Z.testbit_neg_r by lia.
Qed.

(** The low 28 bits of the word through the three assignments. *)
Lemma cond_write_low v r k :
  0 ≤ k < 28 →
  Z.testbit ((r .| cond_mask) & (not32 cond_mask .| (v << cond_mask_bit))) k = Z.testbit r k.
Proof.
  intros Hk. rewrite Z.land_spec, !Z.lor_spec, testbit_not32, !testbit_cond_mask by lia.
  rewrite (proj2 (Z.leb_gt 28 k)), (proj2 (Z.ltb_lt k 32)) by lia. simpl.
  by rewrite orb_false_r, andb_true_r.
Qed.

Lemma clear_28_low r k :
  0 ≤ k < 28 → Z.testbit (r & not32 (shl32 1 cond_mask_bit)) k = Z.testbit r k.
Proof.
  intros Hk. change (r & not32 (shl32 1 cond_mask_bit)) with (clear_bit r 28).
  rewrite testbit_clear_bit by lia. rewrite (proj2 (Z.eqb_neq k 28)) by lia. apply andb_true_r.
Qed.

Lemma clear_28_cond r : (r & not32 (shl32 1 cond_mask_bit)) & cond_mask ≠ cond_mask.
Proof.
  intros Heq. apply (f_equal (λ z, Z.testbit z 28)) in Heq.
  change (r & not32 (shl32 1 cond_mask_bit)) with (clear_bit r 28) in Heq.
  rewrite Z.land_spec, testbit_clear_bit, testbit_cond_mask in Heq by lia.
  by rewrite andb_false_r in Heq.
Qed.

Lemma is_u32_cond_mask : is_u32 cond_mask.
Proof. by unfold is_u32, cond_mask. Qed.

(** The effect of [set_arm_cond_bits]: only the condition field changes, and it
    never ends as [1111] when the function acts. *)
Definition cond_post (op : Z) (s s' : rit_state) : Prop :=
  frame s s' ∧ s'.(instr_idx) = s.(instr_idx) ∧ s'.(instr_buf) = s.(instr_buf)
  ∧ is_u32 s'.(raw_instr)
  ∧ (∀ k, 0 ≤ k < 28 → Z.testbit s'.(raw_instr) k = Z.testbit s.(raw_instr) k)
  ∧ (if cond_acts op s then s'.(raw_instr) & cond_mask ≠ cond_mask
     else s'.(raw_instr) = s.(raw_instr)).

Lemma wp_fix_if b l h Q s :
  Q () s → (∀ fb, Q () (st_instr_fixed_bit fb s)) → wp (fix_if b l h) Q s.
Proof.
  intros H1 H2. unfold fix_if, when, set_instr_fixed_bit. destruct b; [|done].
  apply wp_bind, wp_gets. destruct (is_set_fixed_bit s); [done|apply H2].
Qed.

Lemma wp_set_arm_cond_bits op s :
  is_u32 s.(raw_instr) → wp (set_arm_cond_bits op) (λ _ s', cond_post op s s') s.
Proof.
  intros Hu. unfold set_arm_cond_bits, cond_post. apply wp_bind, wp_gets. unfold cond_acts.
  destruct (_ && (op <? SISA_OP_ARM_MAX)); [|by apply wp_ret].
  (* the state after the optional write of the condition *)
  apply wp_bind, wp_gets, wp_bind.
  apply (wp_mono _ (λ _ s1, frame s s1 ∧ s1.(instr_idx) = s.(instr_idx)
    ∧ s1.(instr_buf) = s.(instr_buf) ∧ is_u32 s1.(raw_instr)
    ∧ ∀ k, 0 ≤ k < 28 → Z.testbit s1.(raw_instr) k = Z.testbit s.(raw_instr) k)).
  - destruct (opt_stat _ _); [|by apply wp_ret].
    apply wp_bind, wp_gets, wp_bind, wp_fix_if; [|intros fb];
      apply wp_bind, wp_modify, wp_bind, wp_gets, wp_modify;
      (split; [done|split; [done|split; [done|split]]]; simpl);
      auto using is_u32_land_l, is_u32_lor, is_u32_cond_mask; intros; by apply cond_write_low.
  - intros [] s1 (Hf & Hi & Hb & Hu1 & Hlow). apply wp_bind, wp_gets. unfold when.
    destruct (Z.eqb_spec cond_mask (raw_instr s1 & cond_mask)) as [Heq|Hne].
    + apply wp_modify. split; [by destruct Hf as [? ? []]; split|]. simpl. split_and!; [done|done|auto with rit..| |].
      * intros k Hk. by rewrite clear_28_low, Hlow.
      * apply clear_28_cond.
    + by apply wp_ret.
Qed.
