(* ===== verification/EncodeSpec.v ===== *)
(** * The options reach the encoding

    The encoding stages of [gen_instr] one by one: the condition, the S bit and
    the registers that the options hold are the ones found in the word. *)
From S2P Require Import Prelude RitCommon InstrTable State InstrUtil InstrBuf Keeps BiasUtil GenHelper GenARMMem GenARMInstr ValidBias ValidSpec EncodeBits.
#[local] Open Scope c_scope.

(** ** 1. The condition *)

(** The four bits written. *)
Lemma cond_write_high v r k :
  28 ≤ k < 32 → 0 ≤ v →
  Z.testbit ((r .| cond_mask) & (not32 cond_mask .| (v << cond_mask_bit))) k = Z.testbit v (k - 28).
Proof.
  intros Hk Hv. rewrite Z.land_spec, !Z.lor_spec, testbit_not32, !testbit_cond_mask by lia.
  rewrite testbit_shl32 by (unfold cond_mask_bit; lia).
  rewrite (proj2 (Z.leb_le 28 k)), (proj2 (Z.ltb_lt k 32)) by lia. cbn [andb xorb orb].
  by rewrite orb_true_r.
Qed.

Lemma cond_write_div v r :
  is_u32 r → 0 ≤ v < 16 →
  ((r .| cond_mask) & (not32 cond_mask .| (v << cond_mask_bit))) / 2 ^ 28 = v
  ∧ ((r .| cond_mask) & (not32 cond_mask .| (v << cond_mask_bit))) mod 2 ^ 28 = r mod 2 ^ 28.
Proof.
  intros Hr Hv. assert (is_u32 ((r .| cond_mask) & (not32 cond_mask .| (v << cond_mask_bit)))) as Hu
    by auto using is_u32_land_l, is_u32_lor, is_u32_cond_mask.
  split; apply Z.bits_inj'; intros k Hk.
  - rewrite Z.div_pow2_bits by lia. destruct (Z.lt_ge_cases k 4).
    + rewrite cond_write_high by lia. f_equal. lia.
    + rewrite u32_testbit_high by (done || lia). symmetry.
      rewrite <- (Z.mod_small v (2 ^ 4)) by lia. apply Z.mod_pow2_bits_high. lia.
  - destruct (Z.lt_ge_cases k 28).
    + rewrite !Z.mod_pow2_bits_low by lia. apply cond_write_low. lia.
    + by rewrite !Z.mod_pow2_bits_high by lia.
Qed.

(** What the rest of the function sees of a condition other than [1111]. *)
Lemma cond_not_mask r : is_u32 r → r / 2 ^ 28 < 15 → (r & cond_mask) ≠ cond_mask.
Proof.
  intros Hr Hd E. assert (r / 2 ^ 28 = 15); [|lia].
  apply (f_equal (λ z, z / 2 ^ 28)) in E.
  assert ((r & cond_mask) / 2 ^ 28 = r / 2 ^ 28) as E2; [|rewrite <- E2, E; reflexivity].
  apply Z.bits_inj'. intros k Hk. rewrite !Z.div_pow2_bits, Z.land_spec, testbit_cond_mask by lia.
  destruct (Z.lt_ge_cases k 4).
  - rewrite (proj2 (Z.leb_le 28 (k + 28))), (proj2 (Z.ltb_lt (k + 28) 32)) by lia. apply andb_true_r.
  - rewrite (u32_testbit_high r) by (done || lia). done.
Qed.

Lemma wp_cond_requested op s :
  cond_acts op s = true → opt_stat s.(options) OPT_COND = true →
  0 ≤ s.(options).(cond_val) < COND_RAND → is_u32 s.(raw_instr) →
  wp (set_arm_cond_bits op) (λ _ s', s'.(raw_instr) / 2 ^ 28 = s.(options).(cond_val)
    ∧ s'.(raw_instr) mod 2 ^ 28 = s.(raw_instr) mod 2 ^ 28 ∧ s'.(options) = s.(options)) s.
Proof.
  intros Ha Ho Hv Hu. unfold set_arm_cond_bits. apply wp_bind, wp_gets.
  unfold cond_acts in Ha. rewrite Ha. apply wp_bind, wp_gets, wp_bind. rewrite Ho.
  unfold COND_RAND in Hv.
  destruct (cond_write_div s.(options).(cond_val) s.(raw_instr) Hu ltac:(lia)) as [Hd Hm].
  apply wp_bind, wp_gets, wp_bind, wp_fix_if; [|intros fb];
    apply wp_bind, wp_modify, wp_bind, wp_gets, wp_modify, wp_bind, wp_gets;
    cbn [options raw_instr st_raw_instr st_instr_fixed_bit];
    (rewrite (proj2 (Z.eqb_neq cond_mask (_ & cond_mask))); [by apply wp_ret|]);
    apply not_eq_sym, cond_not_mask; auto using is_u32_land_l, is_u32_lor, is_u32_cond_mask;
    rewrite Hd; lia.
Qed.

(** ** 2. The S bit *)

Lemma wp_set_sbit op s :
  opt_stat s.(options) OPT_SBIT = true → is_fixed_oprand op 20 20 = false → is_u32 s.(raw_instr) →
  wp (set_sbit op) (λ _ s', Z.testbit s'.(raw_instr) 20 = (SBIT_SET =? s.(options).(sbit_val))
    ∧ ∀ k, 0 ≤ k < 32 → k ≠ 20 → Z.testbit s'.(raw_instr) k = Z.testbit s.(raw_instr) k) s.
Proof.
  intros Ho Hf Hu. unfold set_sbit. apply wp_bind, wp_gets. rewrite Ho, Hf. cbn [negb andb].
  apply wp_bind, wp_gets, wp_bind. fold (fix_if (negb (SBIT_RAND =? sbit_val (shadow_options s))) 20 20).
  apply wp_fix_if; [|intros fb]; apply wp_bind, wp_gets;
    cbn [options raw_instr st_instr_fixed_bit];
    destruct (SBIT_SET =? sbit_val (options s)); apply wp_modify; cbn [raw_instr st_raw_instr st_instr_fixed_bit];
    (split; [|intros k Hk Hne]); rewrite ?testbit_set_bit, ?testbit_clear_bit by lia;
    rewrite ?(proj2 (Z.eqb_neq k 20)) by done; rewrite ?Z.eqb_refl; cbn [negb];
    rewrite ?orb_true_r, ?orb_false_r, ?andb_true_r, ?andb_false_r; done.
Qed.

(** ** 3. Registers *)

(** A plain register operand of the source or destination list. *)
Definition plain_reg (op : Z) (i : nat) : bool :=
  match (opnd_of op i).(type) with
  | SISA_OPND_TYPE_GPR | SISA_OPND_TYPE_GPR_RW => true
  | _ => false
  end.
Definition no_opnd (op : Z) (i : nat) : bool :=
  opnd_type_eqb (opnd_of op i).(type) SISA_OPND_TYPE_NONE.

(** Every position is a free plain register or empty; the registers, in order. *)
Definition plain_positions (op : Z) (idxs : list nat) : bool :=
  forallb (λ i, no_opnd op i
    || plain_reg op i && negb (is_fixed_oprand op (opnd_of op i).(start_bit) (opnd_of op i).(end_bit))) idxs.
Definition plain_regs (op : Z) (idxs : list nat) : list nat := List.filter (plain_reg op) idxs.

Lemma wp_chk_3bit_reg b r Q s :
  Q tt s → (∀ c, Q tt (st_is_reg_bit_cut c s)) → wp (chk_3bit_reg b r) Q s.
Proof.
  intros H1 H2. unfold chk_3bit_reg, when. apply wp_bind, wp_gets.
  destruct (is_reg_bit_cut s); [done|]. destruct (_ && _); [apply H2|done].
Qed.

Lemma wp_raw_set_instr l h v Q s :
  l ≤ h → Q tt (st_raw_instr (set_instr_val s.(raw_instr) l h v) s) → wp (raw_set_instr l h v) Q s.
Proof.
  intros Hl HQ. unfold raw_set_instr. apply wp_bind, wp_gets, wp_bind.
  by apply (wp_intro _ _ _ _ _ (set_instr_ok _ _ _ _ _ Hl)).
Qed.

(** One register operand: the next register of the array is written. *)
Lemma wp_opnd_reg op kind i idx s :
  gpr_field op i = true → plain_reg op i = true → idx < MAX_REG_NUM →
  is_fixed_oprand op (opnd_of op i).(start_bit) (opnd_of op i).(end_bit) = false →
  wp (opnd_step op kind i idx) (λ idx' s', idx' = idx + 1 ∧ s'.(options) = s.(options)
    ∧ s'.(raw_instr) = set_instr_val s.(raw_instr) (field op i).1 (field op i).2
        (arr_get (regs_arr kind s.(options)) idx)) s.
Proof.
  intros Hg Hp Hi Hf. pose proof (gpr_field_spec op i Hg) as (Hse & _).
  unfold opnd_step, opnd_reg, plain_reg in *. cbv zeta in *.
  destruct (type (opnd_of op i)) eqn:Ht; try done;
    rewrite (proj2 (Z.ltb_lt idx MAX_REG_NUM) Hi), Hf; cbn [negb andb];
    apply wp_bind, wp_gets, wp_bind, wp_gets, wp_bind;
    (apply (wp_mono _ (λ _ s1, s1.(options) = s.(options) ∧ s1.(raw_instr) = s.(raw_instr))); [
      unfold when; destruct (opt_stat _ _); [|by apply wp_ret];
      apply wp_bind, wp_fix_if; [|intros fb]; by apply wp_chk_3bit_reg
    | intros [] s1 [Ho1 Hr1]; apply wp_bind, wp_raw_set_instr; [lia|];
      cbn [is_fp_type is_fp_sized_type andb when]; apply wp_bind, wp_ret, wp_bind, wp_ret, wp_ret;
      cbn; by rewrite Hr1 ]).
Qed.

Lemma wp_no_opnd op kind i idx Q s : no_opnd op i = true → Q idx s → wp (opnd_step op kind i idx) Q s.
Proof.
  unfold no_opnd, opnd_type_eqb. rewrite bool_decide_eq_true. intros Ht HQ.
  unfold opnd_step. cbv zeta. rewrite Ht. by apply wp_ret.
Qed.

Lemma arr_get_range l i : Forall (λ r, 0 ≤ r < 16) l → 0 ≤ arr_get l i < 16.
Proof.
  intros Hl. unfold arr_get. destruct (nth_in_or_default (Z.to_nat i) l 0) as [Hin| ->]; [|lia].
  rewrite Forall_forall in Hl. by apply Hl, list_elem_of_In.
Qed.

(** The registers of the array, from index [idx], end in the register fields. *)
Definition regs_written (op : Z) (l : list nat) (regs : list Z) (idx : Z) (w : Z) : Prop :=
  ∀ j i, l !! j = Some i → regnum w op i = arr_get regs (idx + Z.of_nat j).

Lemma wp_opnd_loop op kind idxs idx s :
  plain_positions op idxs = true → reg_fields op (plain_regs op idxs) = true →
  is_u32 s.(raw_instr) → Forall (λ r, 0 ≤ r < 16) (regs_arr kind s.(options)) →
  0 ≤ idx → idx + Z.of_nat (length (plain_regs op idxs)) ≤ MAX_REG_NUM →
  wp (opnd_loop op kind idxs idx) (λ _ s', s'.(options) = s.(options) ∧ is_u32 s'.(raw_instr)
    ∧ regs_written op (plain_regs op idxs) (regs_arr kind s.(options)) idx s'.(raw_instr)
    ∧ ∀ j, gpr_field op j = true → forallb (λ i, clear_of (field op i) (field op j)) (plain_regs op idxs) = true →
        regnum s'.(raw_instr) op j = regnum s.(raw_instr) op j) s.
Proof.
  revert idx s. induction idxs as [|i idxs IH]; intros idx s Hp Hf Hu Hr Hi Hlen; cbn [opnd_loop].
  { apply wp_ret. done. }
  cbn [plain_positions forallb] in Hp. apply andb_true_iff in Hp as [Hpi Hp].
  cbn [plain_regs List.filter] in *. fold (plain_regs op idxs) in *. apply wp_bind.
  destruct (plain_reg op i) eqn:Hpr; cycle 1.
  { rewrite andb_false_l, orb_false_r in Hpi. apply wp_no_opnd; [done|]. by apply IH. }
  assert (no_opnd op i = false) as Hno.
  { unfold plain_reg, no_opnd in *. by destruct (type (opnd_of op i)). }
  rewrite Hno in Hpi. cbn [orb andb] in Hpi. apply negb_true_iff in Hpi.
  cbn [reg_fields] in Hf. apply andb_true_iff in Hf as [[Hg Ha]%andb_true_iff Hf].
  cbn [length] in Hlen. eapply wp_mono; [apply wp_opnd_reg; try done; lia|].
  intros idx' s1 (-> & Ho1 & Hr1). rewrite <- Ho1 in *.
  eapply wp_mono; [apply IH; try done; [rewrite Hr1; auto with rit|lia..]|].
  intros _ s' (Ho & Hu' & Hw & Hoth). split; [done|]. split; [done|]. split.
  - intros [|j] i' Hj; cbn in Hj.
    + injection Hj as <-. rewrite Hoth; [|done|].
      * rewrite Hr1, regnum_set_same by (done || by apply arr_get_range). f_equal. lia.
      * rewrite forallb_forall in Ha |- *. intros j Hj. rewrite clear_of_sym. by apply Ha.
    + rewrite (Hw j i' Hj). f_equal. lia.
  - intros j Hj Hjl. cbn [forallb] in Hjl. apply andb_true_iff in Hjl as [Hij Hjl].
    rewrite Hoth, Hr1 by done. by apply regnum_set_other.
Qed.

(** An opcode whose source operands are plain, free and separate registers. *)
Definition plain_sources (op : Z) : bool :=
  plain_positions op (opnd_positions true) && reg_fields op (plain_regs op (opnd_positions true)).

(** ** 4. Properties *)

(** The requested condition is encoded: under an ARM instruction set and
    for an ARM opcode, if the condition option is set to one of the fifteen
    conditions then [set_arm_cond_bits] leaves that condition in the top four
    bits of the word and does not touch the other 28. *)
Theorem set_arm_cond_bits_requested (op : Z) (s : rit_state) :
  cond_acts op s = true → opt_stat s.(options) OPT_COND = true →
  0 ≤ s.(options).(cond_val) < COND_RAND → is_u32 s.(raw_instr) →
  ∃ s', set_arm_cond_bits op s = Ok tt s' ∧ s'.(raw_instr) / 2 ^ 28 = s.(options).(cond_val)
    ∧ s'.(raw_instr) mod 2 ^ 28 = s.(raw_instr) mod 2 ^ 28.
Proof.
  intros Ha Ho Hv Hu.
  destruct (wp_elim _ _ _ (wp_cond_requested op s Ha Ho Hv Hu)) as ([] & s' & E & ? & ? & _). eauto.
Qed.

(** The requested S bit is encoded: if the option is set and bit 20 is not
    part of the opcode, [set_sbit] leaves bit 20 set exactly when the flags are
    asked for, and no other bit changes. *)
Theorem set_sbit_requested (op : Z) (s : rit_state) :
  opt_stat s.(options) OPT_SBIT = true → is_fixed_oprand op 20 20 = false → is_u32 s.(raw_instr) →
  ∃ s', set_sbit op s = Ok tt s'
    ∧ Z.testbit s'.(raw_instr) 20 = (SBIT_SET =? s.(options).(sbit_val))
    ∧ ∀ k, 0 ≤ k < 32 → k ≠ 20 → Z.testbit s'.(raw_instr) k = Z.testbit s.(raw_instr) k.
Proof.
  intros Ho Hf Hu. destruct (wp_elim _ _ _ (wp_set_sbit op s Ho Hf Hu)) as ([] & s' & E & ? & ?). eauto.
Qed.

(** The requested source registers are encoded: for an opcode whose source
    operands are plain registers (the multiplications, for example),
    [set_src_opnd_bits] puts the registers of [options.src_regs], in order,
    into the source operands of the word. *)
Theorem set_src_opnd_bits_registers (op : Z) (s : rit_state) :
  plain_sources op = true → is_u32 s.(raw_instr) →
  Forall (λ r, 0 ≤ r < 16) s.(options).(src_regs) →
  ∃ s', set_src_opnd_bits op s = Ok tt s'
    ∧ ∀ j i, plain_regs op (opnd_positions true) !! j = Some i →
        regnum s'.(raw_instr) op i = nth j s.(options).(src_regs) 0.
Proof.
  intros [Hp Hf]%andb_true_iff Hu Hr. unfold set_src_opnd_bits, set_opnd_bits.
  assert (Z.of_nat (length (plain_regs op (opnd_positions true))) ≤ 4) as Hlen.
  { unfold plain_regs. pose proof (filter_length_le (plain_reg op) (opnd_positions true)) as H.
    change (length (opnd_positions true)) with 4%nat in H. lia. }
  destruct (wp_elim _ _ _ (wp_opnd_loop op true _ 0 s Hp Hf Hu Hr ltac:(lia) ltac:(done)))
    as ([] & s' & E & _ & _ & Hw & _).
  exists s'. split; [done|]. intros j i Hj. rewrite (Hw j i Hj). unfold arr_get. cbn [regs_arr].
  f_equal. lia.
Qed.

Lemma set_arm_cond_bits_requested_witness :
  let s := st_raw_instr 0xe2812003 (st_options (opt_cond_val 11 (opt_isa ISA_ARMv7
    (opt_set_stat OPT_COND zero_options))) zero_state) in
  ∃ s', set_arm_cond_bits SISA_OP_ADD_imm s = Ok tt s' ∧ s'.(raw_instr) / 2 ^ 28 = 11
    ∧ s'.(raw_instr) mod 2 ^ 28 = 0xe2812003 mod 2 ^ 28.
Proof.
  intros s. apply (set_arm_cond_bits_requested SISA_OP_ADD_imm s);
    [reflexivity|reflexivity|cbn; unfold COND_RAND; lia|unfold is_u32; cbn; lia].
Defined.

Lemma set_sbit_requested_witness :
  let s := st_raw_instr 0xe2812003 (st_options (opt_sbit_val SBIT_SET
    (opt_set_stat OPT_SBIT zero_options)) zero_state) in
  ∃ s', set_sbit SISA_OP_ADD_imm s = Ok tt s'
    ∧ Z.testbit s'.(raw_instr) 20 = (SBIT_SET =? SBIT_SET)
    ∧ ∀ k, 0 ≤ k < 32 → k ≠ 20 → Z.testbit s'.(raw_instr) k = Z.testbit 0xe2812003 k.
Proof.
  intros s. apply (set_sbit_requested SISA_OP_ADD_imm s);
    [reflexivity|vm_compute; reflexivity|unfold is_u32; cbn; lia].
Defined.

Lemma set_src_opnd_bits_registers_witness :
  let s := st_options (opt_src_regs [3; 9; 1; 2] zero_options) zero_state in
  ∃ s', set_src_opnd_bits SISA_OP_MLA s = Ok tt s'
    ∧ ∀ j i, plain_regs SISA_OP_MLA (opnd_positions true) !! j = Some i →
        regnum s'.(raw_instr) SISA_OP_MLA i = nth j [3; 9; 1; 2] 0.
Proof.
  intros s. apply (set_src_opnd_bits_registers SISA_OP_MLA s).
  - vm_compute. reflexivity.
  - unfold is_u32. cbn. lia.
  - repeat constructor; lia.
Defined.
