(* ===== verification/RandomInstrGen.v ===== *)
(** * The generation loop: RandomInstrGen.c *)
From Stdlib Require Import Ascii.
From S2P Require Import Prelude RitCommon InstrTable State InstrUtil InstrBuf GenHelper GenARMInstr GenThumbInstr GenThumb32Instr EncodeBits.
#[local] Open Scope c_scope.

(** ** 1. Constant tables *)

Definition reg_val : list Z := [0; 0xffffffff; 0x80000000; 0x7fffffff].
Definition shift_reg_val : list Z :=
  [0; 31; 32; 0x80; 0xc0; 0xff; 0x80808000; 0xffffff00; 0xffffffff].

Definition instr_status_name (st : instr_status_t) : string :=
  match st with
  | VALID => "VALID" | UNPREDICTABLE => "UNPREDICTABLE" | INST_UNKNOWN => "INST_UNKNOWN"
  | UNDEFINED => "UNDEFINED" | UNSUPPORTED => "UNSUPPORTED" | ALIAS => "ALIAS"
  | INST_DIFF => "INST_DIFF" | INVALID => "INVALID" | FIXINST => "FIXINST"
  end.

Definition opkind_names : list string := [
  "NO_OP"; "EMPTY_OP"; "ALU_OP"; "LOG_OP"; "MOV_OP"; "CMP_OP"; "TEST_OP"; "EXT_OP"; "LD_OP";
  "ST_OP"; "LDM_OP"; "STM_OP"; "PUSH_OP"; "POP_OP"; "JMP_OP"; "UMUL_OP"; "MUL32_OP"; "SMUL_OP";
  "SMULD_OP"; "BYTE_ALU_OP"; "S_BYTE_ALU_OP"; "BF_OP"; "REVERSE_OP"; "SSAT_OP"; "SR_OP";
  "LDREX_OP"; "STREX_OP"; "MISC_OP"; "COPR_OP"; "VFP_OP"; "SYS_OP"; "SIMD_OP"; "LAST_OP";
  "PSEUDO_OP"].

(** ** 2. Selecting instruction kinds *)

(** [strncmp(a, b, n) == 0] on null-terminated strings. *)
Fixpoint strncmp_eq (a b : string) (n : nat) {struct n} : bool :=
  match n with
  | O => true
  | S n =>
      match a, b with
      | EmptyString, EmptyString => true
      | String x a, String y b => Ascii.eqb x y && strncmp_eq a b n
      | _, _ => false
      end
  end.

(** [strchr(s, ',')]: the offset of the first comma, if any. *)
Fixpoint comma_at (s : string) : option nat :=
  match s with
  | EmptyString => None
  | String c s => if Ascii.eqb c "," then Some O else S <$> comma_at s
  end.

(** [p + n] *)
Fixpoint str_drop (n : nat) (s : string) : string :=
  match n, s with
  | S n, String _ s => str_drop n s
  | _, _ => s
  end.

(** The [while] loop: [p_s] is what is left of the string, and [l] the flags. *)
Fixpoint opkind_loop (fuel : nat) (p_s : string) (l : list bool) : option (list bool) :=
  match fuel with
  | O => None
  | S fuel =>
      match p_s with
      | EmptyString => Some l
      | _ =>
          let at_comma := comma_at p_s in
          let len := default (String.length p_s) at_comma in
          let l := zip_with (λ nm b, strncmp_eq p_s nm len || b) opkind_names l in
          match at_comma with
          | Some k => opkind_loop fuel (str_drop (S k) p_s) l
          | None => Some l
          end
      end
  end.

Definition update_opkind_str (str_opkind : string) : rit unit :=
  match opkind_loop (S (String.length str_opkind)) str_opkind (replicate opkind_num false) with
  | Some l => modify (st_opkind_list l)
  | None => fail OutOfFuel
  end.

(** ** 3. Initial state *)

Definition default_opkinds : string :=
  "EMPTY_OP,ALU_OP,LOG_OP,MOV_OP,CMP_OP,TEST_OP,EXT_OP,LD_OP,ST_OP,LDM_OP,STM_OP,PUSH_OP,POP_OP,UMUL_OP,MUL32_OP,SMUL_OP,SMULD_OP,BYTE_ALU_OP,S_BYTE_ALU_OP,BF_OP,REVERSE_OP,SSAT_OP,SR_OP,MISC_OP".

Definition default_options : gen_option_t :=
  Mk_gen_option ISA_RAND 7 None SBIT_RAND COND_RAND
    (replicate 4 R_RAND) (replicate 4 R_RAND) (replicate 4 FP_REG_RAND) (replicate 4 FP_REG_RAND)
    FP_REG_RAND 0 0 R_RAND 0 SH_TYPE_RAND 0x03fc0000 0xfffc0000 0x00000fff 0.

Definition init_env_val : rit unit :=
  modify (λ s, Mk_rit_state default_options zero_options
    (replicate 16 false) (replicate 16 0)
    (replicate 8 "") (replicate 8 "")
    0 0 0 0 false false false 0 "" 0 0 0 0
    s.(opkind_list) s.(rand_seed) s.(rand_pos)) ;;
  update_opkind_str default_opkinds.

(** ** 4. Initialisation code for biased operands *)

Definition nl : string := String (ascii_of_nat 10) "".

Section gen.
Context `{Env : !RitEnv}.

(** One round of [set_bias_oprand_value]: [vals] is the table of bias values. *)
Definition bias_reg_init (opnd : sisa_opnd_t) (vals : list Z) : rit unit :=
  raw ← get_raw_instr;
  let reg := get_regnum raw opnd in
  rand_val ← rand;
  if negb (reg =? INVALID_GPR) then
    assertM (reg <? 16) BufOverflow ;;
    init ← gets is_reg_init;
    when (negb (nth (Z.to_nat reg) init false))
      (modify (λ s, st_reg_init_vals
         (<[Z.to_nat reg := nth (Z.to_nat (rand_val mod Z.of_nat (length vals))) vals 0]>
            s.(reg_init_vals)) s) ;;
       modify (λ s, st_is_reg_init (<[Z.to_nat reg := true]> s.(is_reg_init)) s))
  else mret tt.

Definition set_bias_oprand_value (op : Z) : rit unit :=
  forM [SISA_INPUT3; SISA_INPUT2; SISA_INPUT1; SISA_INPUT0] (λ opnd_idx,
    let opnd := opnd_of op opnd_idx in
    match opnd.(type) with
    | SISA_OPND_TYPE_GPR => bias_reg_init opnd reg_val
    | SISA_OPND_TYPE_SHIFT_REG => bias_reg_init opnd shift_reg_val
    | _ => mret tt
    end).

(** [sprintf(init_instr_buf[init_instr_idx], ...); init_instr_idx++;] *)
Definition put_init_line (str : string) : rit unit :=
  idx ← gets init_instr_idx;
  assertM (idx <? MAX_INSTR) BufOverflow ;;
  line ← sprintf_line str;
  modify (λ s, st_init_instr_buf (<[Z.to_nat idx := line]> s.(init_instr_buf)) s) ;;
  modify (st_init_instr_idx (idx + 1)).

Definition gen_oprand_init_instrs : rit unit :=
  modify (st_init_instr_idx 0) ;;
  modify (st_init_instr_buf (replicate 8 "")) ;;
  forM (rev (seqZ 0 15)) (λ reg_idx,
    init ← gets is_reg_init;
    vals ← gets reg_init_vals;
    let v := nth (Z.to_nat reg_idx) vals 0 in
    if nth (Z.to_nat reg_idx) init false then
      isa0 ← opt isa;
      if (isa0 =? ISA_THUMB) && (7 <? reg_idx) then
        put_init_line ("[CODE] ldr r" +:+ fmt_d 0 +:+ ", =0x" +:+ fmt_x v) ;;
        put_init_line ("[CODE] mov r" +:+ fmt_d reg_idx +:+ ", r" +:+ fmt_d 0)
      else put_init_line ("[CODE] ldr r" +:+ fmt_d reg_idx +:+ ", =0x" +:+ fmt_x v)
    else mret tt).

(** ** 5. Output *)

(** [strncat(print_buf, line, MAX_STR_INSTR_LEN); strcat(print_buf, "\n");] *)
Definition print_line (line : string) : rit unit :=
  buf ← gets print_buf;
  let buf := buf +:+ String.substring 0 (Z.to_nat MAX_STR_INSTR_LEN) line +:+ nl in
  assertM (Z.of_nat (String.length buf) <? BUF_SIZE) BufOverflow ;;
  modify (st_print_buf buf).

(** [for (idx = 0; idx < n; idx++)] over a buffer of [MAX_INSTR] lines. *)
Definition print_lines (lines : list string) (n : Z) : rit unit :=
  assertM (n <=? MAX_INSTR) BufOverflow ;;
  forM (take (Z.to_nat n) lines) print_line.

Definition output_instr (op instr : Z) (status : instr_status_t) : rit unit :=
  idx ← gets instr_idx;
  assertM ((0 <=? idx) && (idx <=? MAX_INSTR)) AssertFail ;;
  let head := "[INFO] " +:+ instr_status_name status +:+ " "
    +:+ default "(null)" (instr_desc op).(name) +:+ " 0x" +:+ fmt_08x instr +:+ nl in
  assertM (Z.of_nat (String.length head) <? BUF_SIZE) BufOverflow ;;
  modify (st_print_buf head) ;;
  bias ← GET_OPT_STAT OPT_ALLOW_BIAS_OPND;
  init ← gets is_oprand_init;
  when (bias && negb init) (set_bias_oprand_value op ;; gen_oprand_init_instrs) ;;
  n ← gets init_instr_idx;
  lines ← gets init_instr_buf;
  print_lines lines n ;;
  n ← gets instr_idx;
  lines ← gets instr_buf;
  print_lines lines n.

(** ** 6. One attempt *)

(** [sprintf(instr_buf[instr_idx], ...); instr_idx++;] *)
Definition put_instr_line (str : string) : rit unit :=
  idx ← gets instr_idx;
  assertM (idx <? MAX_INSTR) BufOverflow ;;
  line ← sprintf_line str;
  modify (λ s, st_instr_buf (<[Z.to_nat idx := line]> s.(instr_buf)) s) ;;
  modify (st_instr_idx (idx + 1)).

(** The generator of the instruction set the opcode belongs to, then its line. *)
Definition gen_dispatch (op : Z) : rit instr_status_t :=
  if op <? SISA_OP_ARM_MAX then
    st ← gen_arm_instr op;
    r ← get_raw_instr;
    put_instr_line ("[INST] .inst 0x" +:+ fmt_08x r) ;;
    mret st
  else if op <? SISA_OP_THUMB_MAX then
    on_options (opt_isa ISA_THUMB) ;;
    st ← gen_thumb_instr op;
    r ← get_raw_instr;
    put_instr_line ("[INST] .inst.n 0x" +:+ fmt_04x (r & 0xffff)) ;;
    mret st
  else if op <? SISA_OP_THUMB_32_MAX then
    on_options (opt_isa ISA_THUMB) ;;
    st ← gen_thumb32_instr op;
    r ← get_raw_instr;
    put_instr_line ("[INST] .inst.w 0x" +:+ fmt_08x r) ;;
    mret st
  else mret INVALID.

(** [orig_uninit] is what the local [orig_instr] holds when it is not
    assigned, which is the case in every attempt but the first. *)
Definition gen_instr (op orig_uninit : Z) : rit instr_status_t :=
  modify (st_instr_idx 0) ;;
  modify (st_is_oprand_init false) ;;
  modify (st_is_reg_bit_cut false) ;;
  modify (st_instr_buf (replicate 8 "")) ;;
  if opkind_eqb (instr_desc op).(op_kind) PSEUDO_OP then mret UNSUPPORTED else
  set_sbit op ;;
  set_arm_cond_bits op ;;
  set_src_opnd_bits op ;;
  set_dst_opnd_bits op ;;
  is_set ← gets is_set_fixed_bit;
  orig_instr ← (if negb is_set then
      r ← get_raw_instr; modify (st_is_set_fixed_bit true) ;; mret r
    else mret orig_uninit);
  fix_unpredictable_bit op ;;
  status ← gen_dispatch op;
  r ← get_raw_instr;
  fb ← gets instr_fixed_bit;
  modify (st_cur_fixed_bit ((orig_instr & fb) ^^ (r & fb))) ;;
  cut ← gets is_reg_bit_cut;
  when cut (modify (λ s, st_cur_fixed_bit (s.(cur_fixed_bit) .| 0xFFFF0000) s)) ;;
  mret status.

(** ** 7. Random choices *)

Definition random_op_range (isa0 : Z) : Z * Z :=
  if isa0 =? ISA_ARMv5 then (SISA_OP_NA, SISA_OP_ARM_MAX)
  else if isa0 =? ISA_ARMv7 then (SISA_OP_NA, SISA_OP_ARM_MAX)
  else if isa0 =? ISA_THUMB then (SISA_OP_ARM_MAX, SISA_OP_THUMB_MAX)
  else if isa0 =? ISA_THUMB_32 then (SISA_OP_THUMB_MAX, SISA_OP_THUMB_32_MAX)
  else (SISA_OP_NA, SISA_OP_MAX).

(** [opkind_list[glb_instr_tlb[idx].op_kind]]: two kinds lie past the end. *)
Definition op_enabled (l : list bool) (idx : Z) : bool :=
  let k := opkind_idx (instr_desc idx).(op_kind) in
  match l !! k with Some b => b | None => opkind_oob k end.

Definition gen_random_op : rit Z :=
  isa0 ← opt isa;
  l ← gets opkind_list;
  let '(idx_min, idx_max) := random_op_range isa0 in
  let tmp_op := List.filter (op_enabled l) (seqZ idx_min (idx_max - idx_min)) in
  let op_cnt := Z.of_nat (length tmp_op) in
  if negb (op_cnt =? 0) then
    r ← rand;
    mret (nth (Z.to_nat (r mod op_cnt)) tmp_op SISA_OP_NA)
  else mret SISA_OP_NA.

(** [rand() % (b - a) + a] *)
Definition rand_in (a b : Z) : rit Z := r ← rand; mret (r mod (b - a) + a).

Definition gen_rand_reg : rit Z :=
  gp_reg ← rand_in GPR_TOP GPR_RAND;
  match gp_reg with
  | 0 => rand_in R_0 R_4
  | 1 => rand_in R_4 R_8
  | 2 => rand_in R_8 R_13
  | 3 => mret R_SP
  | 4 => mret R_LR
  | 5 => mret R_PC
  | _ => mret R_TOP
  end.

Definition gen_rand_cond : rit Z :=
  cp_cond ← rand_in CP_TOP CP_RAND;
  if cp_cond =? CP_COND then rand_in COND_TOP COND_AL
  else if cp_cond =? CP_AL then mret COND_AL
  else mret COND_AL.

Definition gen_part_imm (bits : Z) : rit Z :=
  slot ← rand_in IP_TOP IP_RAND;
  match slot with
  | 0 => mret 0
  | 1 => mret 1
  | 2 => r ← rand; mret (r mod shl32 1 bits)
  | 3 => mret (not32 1 & u32 (shl32 1 bits - 1))
  | 4 => mret (not32 0 & u32 (shl32 1 bits - 1))
  | _ => mret 0
  end.

(** The three calls of the [IP_VAL] case are made in source order here; C
    leaves the order of the operands of [|] open. *)
Definition gen_rand_imm : rit Z :=
  ip_imm ← rand_in IP_TOP IP_RAND;
  match ip_imm with
  | 0 => mret 0
  | 1 => mret 1
  | 2 => a ← gen_part_imm 8; b ← gen_part_imm 4; c ← gen_part_imm 20;
         mret (a .| (b << 8) .| (c << 12))
  | 3 => mret (not32 1)
  | 4 => mret (not32 0)
  | _ => mret 0
  end.

(** [if (!GET_OPT_STAT(k) || rnd == options.f) options.f = gen();] *)
Definition rand_field (k rnd : Z) (get : gen_option_t → Z)
    (set : Z → gen_option_t → gen_option_t) (gen : rit Z) : rit unit :=
  o ← gets options;
  when (negb (opt_stat o k) || (rnd =? get o)) (v ← gen; on_options (set v)).

(** The same for the [idx]-th element of an array. *)
Definition rand_elem (k rnd : Z) (get : gen_option_t → list Z)
    (set : list Z → gen_option_t → gen_option_t) (gen : rit Z) (idx : nat) : rit unit :=
  rand_field k rnd (λ o, nth idx (get o) 0) (λ v o, set (<[idx := v]> (get o)) o) gen.

Definition gen_rand_opt_val : rit unit :=
  rand_field OPT_ISA ISA_RAND isa opt_isa (rand_in ISA_TOP ISA_RAND) ;;
  rand_field OPT_SBIT SBIT_RAND sbit_val opt_sbit_val (rand_in SBIT_TOP SBIT_RAND) ;;
  rand_field OPT_COND COND_RAND cond_val opt_cond_val gen_rand_cond ;;
  forM [0; 1; 2; 3]%nat (λ idx,
    rand_elem OPT_SREG R_RAND src_regs opt_src_regs gen_rand_reg idx ;;
    rand_elem OPT_DREG R_RAND dst_regs opt_dst_regs gen_rand_reg idx ;;
    rand_elem OPT_FP_SREG_EXT FP_REG_RAND src_fp_regs_ext opt_src_fp_regs_ext
      (rand_in FP_REG_TOP FP_REG_RAND) idx ;;
    rand_elem OPT_FP_DREG_EXT FP_REG_RAND dst_fp_regs_ext opt_dst_fp_regs_ext
      (rand_in FP_REG_TOP FP_REG_RAND) idx) ;;
  rand_field OPT_FP_SZ_Q_EXT FP_SZ_Q_RAND fp_sz_q_bit opt_fp_sz_q_bit
    (rand_in FP_SZ_Q_TOP FP_SZ_Q_RAND) ;;
  rand_field OPT_SHRTREG R_RAND shift_rotate_reg opt_shift_rotate_reg gen_rand_reg ;;
  rand_field OPT_SHRTTYPE SH_TYPE_RAND shift_rotate_type opt_shift_rotate_type
    (rand_in SH_TYPE_TOP SH_TYPE_RAND) ;;
  b ← GET_OPT_STAT OPT_REGS_LIST;
  when (negb b) (r ← rand; on_options (opt_regs_list (r & REGS_LIST_MASK))) ;;
  b ← GET_OPT_STAT OPT_IMM;
  when (negb b) (v ← gen_rand_imm; on_options (opt_imm_val v)) ;;
  b ← GET_OPT_STAT OPT_SHIMM;
  when (negb b) (v ← gen_rand_imm; on_options (opt_shift_imm_val v)).

Definition init_raw_instr_bin (op : Z) : rit unit :=
  b ← GET_OPT_STAT OPT_INSTR_BIN_INIT;
  when (negb b) (r ← rand; set_raw_instr r) ;;
  when ((SISA_OP_ARM_MAX <? op) && (op <? SISA_OP_THUMB_MAX)) (on_raw (λ r, r & MAX_UINT16)) ;;
  let d := instr_desc op in
  on_raw (λ r, (r & not32 d.(match_msk)) .| d.(match_val)).

(** ** 8. Retrying under weaker restrictions *)

(** The four bodies of [relax_restrict], from the weakest. *)
Definition relax_gear_1 : rit unit :=
  SET_OPT_STAT OPT_COND ;;
  on_options (opt_cond_val COND_RAND) ;;
  SET_OPT_STAT OPT_SHRTREG ;;
  on_options (opt_shift_rotate_reg R_RAND).

Definition relax_gear_2 : rit unit :=
  SET_OPT_STAT OPT_SBIT ;;
  on_options (opt_sbit_val SBIT_RAND) ;;
  SET_OPT_STAT OPT_SHRTTYPE ;;
  on_options (opt_shift_rotate_type SH_TYPE_RAND) ;;
  SET_OPT_STAT OPT_FP_SREG_EXT ;;
  on_options (opt_src_fp_regs_ext (replicate 4 FP_REG_RAND)) ;;
  SET_OPT_STAT OPT_SHIMM ;;
  r ← rand; on_options (opt_shift_imm_val r).

Definition relax_gear_3 : rit unit :=
  SET_OPT_STAT OPT_SREG ;;
  on_options (opt_src_regs (replicate 4 R_RAND)) ;;
  SET_OPT_STAT OPT_FP_DREG_EXT ;;
  on_options (opt_dst_fp_regs_ext (replicate 4 FP_REG_RAND)) ;;
  SET_OPT_STAT OPT_IMM ;;
  r ← rand; on_options (opt_imm_val r).

Definition relax_gear_4 : rit unit :=
  SET_OPT_STAT OPT_DREG ;;
  on_options (opt_dst_regs (replicate 4 R_RAND)) ;;
  SET_OPT_STAT OPT_FP_SZ_Q_EXT ;;
  on_options (opt_fp_sz_q_bit FP_REG_RAND) ;;
  SET_OPT_STAT OPT_REGS_LIST ;;
  r ← rand; on_options (opt_regs_list (r mod 0x10000)).

Definition relax_restrict (cur_retry : Z) : rit unit :=
  no_relax ← GET_OPT_STAT OPT_NOT_ALLOW_RELAX;
  if no_relax : bool then mret tt else
  when (RETRY_RELAX_GEAR_1 <? cur_retry) relax_gear_1 ;;
  when (RETRY_RELAX_GEAR_2 <? cur_retry) relax_gear_2 ;;
  when (RETRY_RELAX_GEAR_3 <? cur_retry) relax_gear_3 ;;
  when (RETRY_RELAX_GEAR_4 <? cur_retry) relax_gear_4.

(** One round of the [while] loop: the opcode used and its status. *)
Definition gen_attempt (retry op : Z) : rit (Z * instr_status_t) :=
  modify (λ s, st_options s.(shadow_options) s) ;;
  relax_restrict retry ;;
  gen_rand_opt_val ;;
  named ← GET_OPT_STAT OPT_OPCODE;
  op ← (if negb named then gen_random_op else mret op);
  init_raw_instr_bin op ;;
  status ← gen_instr op (uninit_u32 retry);
  mret (op, status).

(** [while (status != VALID && retry <= retry_max)] *)
Fixpoint gen_loop (fuel : nat) (retry_max retry op : Z) (status : instr_status_t)
    : rit (Z * instr_status_t) :=
  if negb (status_eqb status VALID) && (retry <=? retry_max) then
    match fuel with
    | O => fail OutOfFuel
    | S fuel =>
        os ← gen_attempt retry op;
        gen_loop fuel retry_max (retry + 1) os.1 os.2
    end
  else mret (op, status).

(** [glb_instr_tlb[idx].name && strcmp(glb_instr_tlb[idx].name, opcode) == 0] *)
Definition name_is (opcode : string) (idx : Z) : bool :=
  match (instr_desc idx).(name) with Some nm => String.eqb nm opcode | None => false end.

(** The search for a named opcode: [None] when it fails. *)
Definition find_opcode : rit (option Z) :=
  o ← opt opcode;
  match o with
  | None => fail NullDeref
  | Some str => mret (find (name_is str) (seqZ 1 (SISA_OP_MAX - 1)))
  end.

Definition gen_random_instr : rit instr_status_t :=
  modify (λ s, st_shadow_options s.(options) s) ;;
  modify (st_instr_fixed_bit 0) ;;
  modify (st_is_set_fixed_bit false) ;;
  no_relax ← GET_OPT_STAT OPT_NOT_ALLOW_RELAX;
  let retry_max := if no_relax : bool then RETRY_MAX_TIMES / 2 else RETRY_MAX_TIMES in
  seeded ← GET_OPT_STAT OPT_RAND_SEED;
  when (negb seeded) (srand time_seed) ;;
  named ← GET_OPT_STAT OPT_OPCODE;
  found ← (if named : bool then find_opcode else mret (Some SISA_OP_MAX));
  match found with
  | None => mret UNSUPPORTED
  | Some op =>
      when (named && (SISA_OP_ARM_MAX <? op)) (on_options (opt_isa ISA_THUMB)) ;;
      os ← gen_loop (Z.to_nat (retry_max + 1)) retry_max 0 op UNSUPPORTED;
      let '(op, status) := os in
      raw ← get_raw_instr;
      output_instr op raw status ;;
      mret status
  end.
End gen.
