(* ===== verification/InstrGenerator.v ===== *)
(** * The Python entry point and its parameters: InstrGenerator.c

    The extension function receives a list of (option number, value) pairs.
    Unpacking Python objects is the business of the Python C API; here a
    parameter is what it yields: an integer, a string, or something else. *)
From S2P Require Import Prelude RitCommon InstrTable State InstrUtil InstrBuf RandomInstrGen.
#[local] Open Scope c_scope.

(** [if (v < lo || v > rnd) rnd else v] *)
Definition clamp (lo rnd v : Z) : Z := if (v <? lo) || (rnd <? v) then rnd else v.

(** One [OPT_SREG]-like case: store at the running index, or refuse the status
    bit when the array is full.  The arrays have [MAX_REG_NUM] elements; a store
    past the end is an overrun. *)
Definition push_reg (get_idx : rit_state → Z) (set_idx : Z → rit_state → rit_state)
    (get : gen_option_t → list Z) (set : list Z → gen_option_t → gen_option_t)
    (v : Z) : rit (option bool) :=
  idx ← gets get_idx;
  if MAX_REG_NUM <=? idx then mret (Some false)
  else
    assertM ((0 <=? idx) && (idx <? MAX_REG_NUM)) BufOverflow ;;
    on_options (λ o, set (<[Z.to_nat idx := v]> (get o)) o) ;;
    modify (set_idx (idx + 1)) ;;
    mret (Some true).

(** The [switch] of [parse_long_para]: [Some set_stat], or [None] for the
    [default] case, which returns [false]. *)
Definition parse_long_switch (para_type para_long : Z) : rit (option bool) :=
  if para_type =? OPT_ISA then
    on_options (opt_isa (clamp ISA_TOP ISA_RAND para_long)) ;; mret (Some true)
  else if para_type =? OPT_ARCH_VERSION then
    on_options (opt_arch_version
      (if para_long <=? 0 then DEFAULT_ARCH_VER else u32 para_long)) ;; mret (Some true)
  else if para_type =? OPT_SBIT then
    on_options (opt_sbit_val (clamp SBIT_TOP SBIT_RAND para_long)) ;; mret (Some true)
  else if para_type =? OPT_COND then
    on_options (opt_cond_val (clamp COND_TOP COND_RAND para_long)) ;; mret (Some true)
  else if para_type =? OPT_SREG then
    push_reg sreg_idx st_sreg_idx src_regs opt_src_regs (clamp R_TOP R_RAND para_long)
  else if para_type =? OPT_DREG then
    push_reg dreg_idx st_dreg_idx dst_regs opt_dst_regs (clamp R_TOP R_RAND para_long)
  else if para_type =? OPT_FP_SZ_Q_EXT then
    on_options (opt_fp_sz_q_bit (clamp FP_SZ_Q_TOP FP_SZ_Q_RAND para_long)) ;; mret (Some true)
  else if para_type =? OPT_REGS_LIST then
    on_options (opt_regs_list (para_long & REGS_LIST_MASK)) ;; mret (Some true)
  else if para_type =? OPT_FP_SREG_EXT then
    push_reg fp_sreg_ext_idx st_fp_sreg_ext_idx src_fp_regs_ext opt_src_fp_regs_ext
      (clamp FP_REG_TOP FP_REG_RAND para_long)
  else if para_type =? OPT_FP_DREG_EXT then
    push_reg fp_dreg_ext_idx st_fp_dreg_ext_idx dst_fp_regs_ext opt_dst_fp_regs_ext
      (clamp FP_REG_TOP FP_REG_RAND para_long)
  else if para_type =? OPT_IMM then
    on_options (opt_imm_val (u32 para_long)) ;; mret (Some true)
  else if para_type =? OPT_SHRTREG then
    on_options (opt_shift_rotate_reg (clamp R_TOP R_RAND para_long)) ;; mret (Some true)
  else if para_type =? OPT_SHIMM then
    on_options (opt_shift_imm_val (u32 para_long)) ;; mret (Some true)
  else if para_type =? OPT_SHRTTYPE then
    on_options (opt_shift_rotate_type (clamp SH_TYPE_TOP SH_TYPE_RAND para_long)) ;;
    mret (Some true)
  else if para_type =? OPT_MEM_BASE_VAL then
    on_options (opt_mem_base_val (u32 para_long)) ;; mret (Some true)
  else if para_type =? OPT_MEM_BASE_MSK then
    on_options (opt_mem_base_mask (u32 para_long)) ;; mret (Some true)
  else if para_type =? OPT_MEM_OFFSET_VAL then
    on_options (opt_mem_offset_val (u32 para_long)) ;; mret (Some true)
  else if op_in para_type [OPT_ALLOW_UNALIGN_MEM; OPT_ALLOW_ALL_INSTR; OPT_ALLOW_BIAS_OPND;
                           OPT_ALLOW_BIAS_REG; OPT_NOT_ALLOW_FIX_MEM; OPT_NOT_ALLOW_RELAX;
                           OPT_VERBOSE] then
    mret (Some (negb (para_long =? 0)))
  else if para_type =? OPT_INSTR_BIN_INIT then
    set_raw_instr (u32 para_long) ;; mret (Some true)
  else if para_type =? OPT_RAND_SEED then
    srand para_long ;; mret (Some true)
  else mret None.

Definition parse_long_para (para_type para_long : Z) : rit bool :=
  if (OPT_BTM <=? para_type) || (para_type <? OPT_TOP) then mret false else
  r ← parse_long_switch para_type para_long;
  match r with
  | None => mret false
  | Some set_stat => when set_stat (SET_OPT_STAT para_type) ;; mret true
  end.

(** [para_str = None] is the null pointer. *)
Definition parse_string_para (para_type : Z) (para_str : option string) : rit bool :=
  match para_str with
  | None => mret false
  | Some str =>
      if (OPT_BTM <=? para_type) || (para_type <? OPT_TOP) then mret false
      else if para_type =? OPT_OPKIND then
        update_opkind_str str ;; SET_OPT_STAT para_type ;; mret true
      else if para_type =? OPT_OPCODE then
        on_options (opt_opcode (Some str)) ;; SET_OPT_STAT para_type ;; mret true
      else mret false
  end.

(** What the Python C API makes of one list item: a pair with an integer or a
    string value, or an item the type checks refuse. *)
Inductive param :=
  | PLong (para_type para_long : Z)
  | PStr (para_type : Z) (para_str : string)
  | PBad.

Definition parse_param (p : param) : rit bool :=
  match p with
  | PLong t v => parse_long_para t v
  | PStr t str => parse_string_para t (Some str)
  | PBad => mret false
  end.

(** The loop over the list; [false] is [return NULL]. *)
Fixpoint parse_params (l : list param) : rit bool :=
  match l with
  | [] => mret true
  | p :: l => ok ← parse_param p; if ok : bool then parse_params l else mret false
  end.

Section py.
Context `{Env : !RitEnv}.

(** [None] is [NULL]; otherwise the tuple that [Py_BuildValue] packs. *)
Definition single_instr_gen_py (para_pairs_l : list param)
    : rit (option (instr_status_t * Z * Z * string)) :=
  init_env_val ;;
  ok ← parse_params para_pairs_l;
  if ok : bool then
    status ← gen_random_instr;
    fb ← gets cur_fixed_bit;
    raw ← gets raw_instr;
    buf ← gets print_buf;
    mret (Some (status, fb, raw, buf))
  else mret None.
End py.
