(* ===== verification/Attempt.v ===== *)
(** * One attempt: what [gen_instr] guarantees

    The stages of [gen_instr] composed: from a raw word that carries the fixed
    bits of the opcode, the function does not abort, leaves those bits in the
    word (the condition field of unconditional ARM opcodes apart), fills the
    instruction buffer with at most [MAX_INSTR] short lines, and ends the buffer
    with the encoding it leaves in [raw_instr]. *)
From S2P Require Import Prelude RitCommon InstrTable State InstrUtil InstrBuf Keeps GenHelper GenARMMem GenARMInstr GenThumbInstr GenThumb32Instr ValidBias ValidArm ValidThumb ValidThumb32 ValidArch EncodeBits EncodeSpec RandomInstrGen.
#[local] Open Scope c_scope.

(** ** 1. The encoding line *)

(** The line that carries the word [raw] of opcode [op]. *)
Definition inst_line (op raw : Z) : string :=
  if op <? SISA_OP_ARM_MAX then "[INST] .inst 0x" +:+ fmt_08x raw
  else if op <? SISA_OP_THUMB_MAX then "[INST] .inst.n 0x" +:+ fmt_04x (raw & 0xffff)
  else "[INST] .inst.w 0x" +:+ fmt_08x raw.

Lemma length_fmt_04x x : (String.length (fmt_04x x) ≤ 8)%nat.
Proof. unfold fmt_04x. rewrite length_zero_pad. pose proof (length_fmt_x x). lia. Qed.

Lemma line_ok_inst_line op raw : line_ok (inst_line op raw).
Proof.
  unfold line_ok, line_max, inst_line. pose proof (length_fmt_04x (raw & 0xffff)).
  repeat case_match; (split; [|split; [solve_plain|reflexivity]]);
    rewrite ?length_string_app, ?length_fmt_08x; simpl String.length; simpl; lia.
Qed.

(** The last line written is [line]. *)
Definition last_line (s : rit_state) (line : string) : Prop :=
  0 < s.(instr_idx) ∧ s.(instr_buf) !! Z.to_nat (s.(instr_idx) - 1) = Some line.

Lemma wp_put_instr_line th op tmpl line Q s :
  winv th op tmpl s → s.(instr_idx) + 1 ≤ MAX_INSTR → line_ok line →
  (∀ s', winv th op tmpl s' → frame s s' → s'.(raw_instr) = s.(raw_instr) → last_line s' line →
         s'.(is_reg_bit_cut) = s.(is_reg_bit_cut) → Q tt s') →
  wp (put_instr_line line) Q s.
Proof.
  intros [Hw Hb Hisa] Hi Hl HQ. unfold put_instr_line. apply wp_bind, wp_gets, wp_bind, wp_assert.
  { apply Z.ltb_lt. lia. }
  unfold sprintf_line. apply wp_bind, wp_bind, wp_assert.
  { apply Z.leb_le. destruct Hl. unfold line_max, MAX_STR_INSTR_LEN in *. lia. }
  apply wp_ret, wp_bind, wp_modify, wp_modify. apply HQ; [|done|done| |done].
  - split; [done| |done]. by apply buf_ok_insert.
  - destruct Hb as [Hi0 Hlen _]. split; [simpl; lia|]. simpl.
    replace (instr_idx s + 1 - 1) with (instr_idx s) by lia. apply list_lookup_insert_eq.
    rewrite Hlen. unfold MAX_INSTR in *. lia.
Qed.

(** The masks and values of the table are 32-bit words. *)
Lemma table_u32 op :
  0 ≤ op < SISA_OP_MAX → is_u32 (instr_desc op).(match_msk) ∧ is_u32 (instr_desc op).(match_val).
Proof.
  intros Hop. pose proof (table_check (λ op,
      (0 <=? match_msk (instr_desc op)) && (match_msk (instr_desc op) <? 2 ^ 32)
      && ((0 <=? match_val (instr_desc op)) && (match_val (instr_desc op) <? 2 ^ 32)))
      ltac:(vm_compute; reflexivity) op Hop) as HT. cbv beta in HT. field_facts.
  unfold is_u32. lia.
Qed.

(** ** 2. The dispatcher *)

Section attempt.
Context `{Env : !RitEnv}.
Context (th : bool) (op : Z).
Context (Hop : 0 ≤ op < SISA_OP_MAX).
Context (Hth : SISA_OP_ARM_MAX ≤ op → th = true).
Context (Hroom : op < SISA_OP_ARM_MAX → arm_room th op = true).

(** A generator that keeps the invariant, followed by the encoding line. *)
Lemma wp_then_line tmpl (m : rit instr_status_t) (line : Z → string) s :
  keeps th op tmpl 7 (λ _, True) m → winv th op tmpl s → s.(instr_idx) = 0 →
  (∀ r, line_ok (line r)) →
  wp (st ← m; r ← get_raw_instr; put_instr_line (line r) ;; mret st)
     (λ _ s', winv th op tmpl s' ∧ frame s s' ∧ last_line s' (line s'.(raw_instr))) s.
Proof.
  intros Hm Hs Hi Hl. apply wp_bind. eapply wp_mono; [apply Hm; [done|by rewrite Hi]|].
  intros st s1 (Hs1 & Hi1 & Hf1 & _). apply wp_bind, wp_gets, wp_bind.
  eapply wp_put_instr_line; [done|unfold MAX_INSTR; lia|apply Hl|].
  intros s2 Hs2 Hf2 Hr2 Hl2 _. apply wp_ret. split; [done|]. split.
  - by etrans.
  - by rewrite Hr2.
Qed.

Lemma winv_set_thumb tmpl s :
  th = true → winv th op tmpl s → winv th op tmpl (st_options (opt_isa ISA_THUMB s.(options)) s).
Proof. intros Ht []. by split. Qed.

(** The instruction set the dispatcher leaves in the options. *)
Definition isa_after (s : rit_state) : Z :=
  if op <? SISA_OP_ARM_MAX then s.(options).(isa)
  else if op <? SISA_OP_THUMB_32_MAX then ISA_THUMB else s.(options).(isa).

Lemma wp_gen_dispatch tmpl s :
  winv th op tmpl s → s.(instr_idx) = 0 →
  wp (gen_dispatch op)
     (λ st s', winv th op tmpl s' ∧ base_frame s s' ∧ s'.(options).(isa) = isa_after s ∧
        (last_line s' (inst_line op s'.(raw_instr)) ∨ st = INVALID)) s.
Proof.
  intros Hs Hi. unfold gen_dispatch, inst_line, isa_after.
  pose proof (line_ok_inst_line op) as Hshort. unfold inst_line in Hshort.
  destruct (Z.ltb_spec op SISA_OP_ARM_MAX) as [Ha|Ha].
  { eapply wp_mono; [apply (wp_then_line tmpl _ (λ r, _)); [apply keeps_gen_arm_instr; [lia|auto]|done..]|].
    intros ? s' (? & [] & ?). auto. }
  specialize (Hth Ha). destruct (Z.ltb_spec op SISA_OP_THUMB_MAX) as [Hb|Hb].
  { rewrite (proj2 (Z.ltb_lt op SISA_OP_THUMB_32_MAX)) by (unfold SISA_OP_THUMB_MAX, SISA_OP_THUMB_32_MAX in *; lia).
    apply wp_bind, wp_modify. eapply wp_mono;
      [apply (wp_then_line tmpl _ (λ r, _)); [apply keeps_gen_thumb_instr|by apply winv_set_thumb|done|done]|].
    intros ? s' (? & [? ? []] & ?). simpl in *. split; [done|]. split; [by split|]. split; [done|by left]. }
  destruct (Z.ltb_spec op SISA_OP_THUMB_32_MAX) as [Hc|Hc].
  { apply wp_bind, wp_modify. eapply wp_mono;
      [apply (wp_then_line tmpl _ (λ r, _)); [apply keeps_gen_thumb32_instr|by apply winv_set_thumb|done|done]|].
    intros ? s' (? & [? ? []] & ?). simpl in *. split; [done|]. split; [by split|]. split; [done|by left]. }
  apply wp_ret. split; [done|]. split; [done|]. split; [done|by right].
Qed.

(** The encoding line does not change the word. *)
Lemma put_instr_line_raw str s s' : put_instr_line str s = Ok tt s' → s'.(raw_instr) = s.(raw_instr).
Proof.
  unfold put_instr_line, sprintf_line, assertM, mbind, M_bind, gets, modify.
  destruct (_ <? _); [|done]. cbn. destruct (_ <=? _); [|done]. cbn. by intros [= <-].
Qed.

(** A VALID word meets the restrictions of its opcode: each branch by the
    soundness of its generator. *)
Lemma line_sound (lo hi : Z) (g : Z → rit instr_status_t) (ok : Z → Z → Prop) `{!SoundGen lo hi g ok}
    (line : Z → string) s s' :
  lo ≤ op < hi → is_u32 s.(raw_instr) →
  (st ← g op; r ← get_raw_instr; put_instr_line (line r) ;; mret st) s = Ok VALID s' →
  ok op s'.(raw_instr).
Proof.
  intros Hr Hu (st & s1 & E & (r & s2 & [= _ <-] & ([] & s3 & E' & [= -> <-])%bind_ok)%bind_ok)%bind_ok.
  apply put_instr_line_raw in E' as ->. by apply (sound_gen op s).
Qed.

Lemma gen_dispatch_arch s s' :
  is_u32 s.(raw_instr) → gen_dispatch op s = Ok VALID s' → arch_ok op s'.(raw_instr).
Proof using Hop.
  intros Hu. unfold gen_dispatch, arch_ok.
  destruct (Z.ltb_spec op SISA_OP_ARM_MAX); [apply (line_sound 0 SISA_OP_ARM_MAX gen_arm_instr arm_ok (λ r, "[INST] .inst 0x" +:+ fmt_08x r)); [lia|done]|].
  destruct (Z.ltb_spec op SISA_OP_THUMB_MAX).
  { intros ([] & s1 & [= <-] & E)%bind_ok.
    by apply (line_sound SISA_OP_ARM_MAX SISA_OP_THUMB_MAX _ thumb_ok) in E. }
  destruct (Z.ltb_spec op SISA_OP_THUMB_32_MAX); [|done].
  intros ([] & s1 & [= <-] & E)%bind_ok.
  by apply (line_sound SISA_OP_THUMB_MAX SISA_OP_THUMB_32_MAX _ thumb32_ok) in E.
Qed.

(** ** 3. The whole attempt *)

(** One of the fifteen conditions is asked for. *)
Definition cond_asked (o : gen_option_t) : Prop :=
  opt_stat o OPT_COND = true ∧ 0 ≤ o.(cond_val) < COND_RAND.

(** What [gen_instr] leaves, started in [s] with status [st]. *)
Record gen_post (s : rit_state) (st : instr_status_t) (s' : rit_state) : Prop := {
  gen_buf : buf_ok s'.(instr_idx) s'.(instr_buf);
  gen_frame : base_frame s s';
  gen_u32 : is_u32 s'.(raw_instr);
  gen_low : low_bits_of op s'.(raw_instr);
  gen_full : (instr_desc op).(match_msk) & cond_mask = 0 ∨ cond_acts op s = false →
             word_ok op (instr_desc op).(match_val) s'.(raw_instr);
  gen_cond : cond_acts op s = true → (instr_desc op).(op_kind) ≠ PSEUDO_OP →
             s'.(raw_instr) & cond_mask ≠ cond_mask;
  gen_req : cond_acts op s = true → (instr_desc op).(op_kind) ≠ PSEUDO_OP → cond_asked s.(options) →
            s'.(raw_instr) / 2 ^ 28 = s.(options).(cond_val);
  gen_isa : (instr_desc op).(op_kind) ≠ PSEUDO_OP → s'.(options).(isa) = isa_after s;
  gen_line : st = VALID → last_line s' (inst_line op s'.(raw_instr));
  gen_arch : st = VALID → arch_ok op s'.(raw_instr)
}.

(** The condition field of an ARM word is among the bits that stay. *)
Lemma word_kept_high tmpl raw k :
  op < SISA_OP_ARM_MAX → word_kept op tmpl raw → 28 ≤ k → Z.testbit raw k = Z.testbit tmpl k.
Proof.
  intros Ha [_ Hw] Hk. apply Hw; [lia|]. unfold kept_bit.
  by rewrite (proj2 (Z.ltb_lt _ _) Ha), (proj2 (Z.leb_le _ _) Hk), orb_true_r.
Qed.

Lemma word_kept_cond tmpl raw :
  op < SISA_OP_ARM_MAX → word_kept op tmpl raw →
  raw & cond_mask = tmpl & cond_mask ∧ raw / 2 ^ 28 = tmpl / 2 ^ 28.
Proof.
  intros Ha Hw. split; apply Z.bits_inj'; intros k Hk.
  - rewrite !Z.land_spec, testbit_cond_mask by done. destruct (Z.leb_spec 28 k); [|by rewrite !andb_false_r].
    by rewrite (word_kept_high tmpl raw k).
  - rewrite !Z.div_pow2_bits by lia. apply word_kept_high; (lia || done).
Qed.

Lemma wp_set_sbit_options s : wp (set_sbit op) (λ _ s', s'.(options) = s.(options)) s.
Proof.
  unfold set_sbit. apply wp_bind, wp_gets. case_match; [|by apply wp_ret].
  apply wp_bind, wp_gets, wp_bind, wp_fix_if; [|intros fb]; apply wp_bind, wp_gets; case_match; by apply wp_modify.
Qed.

Lemma low_bits_word raw : word_ok op (instr_desc op).(match_val) raw → low_bits_of op raw.
Proof. intros [_ Hw] k Hk Hb. apply Hw; [lia|done]. Qed.

Lemma low_bits_trans raw raw' :
  word_ok op raw raw' → low_bits_of op raw → low_bits_of op raw'.
Proof. intros [_ Hw] Hl k Hk Hb. rewrite Hw by (lia || done). by apply Hl. Qed.

(** From the template to the opcode's own bits, outside the condition field. *)
Lemma word_ok_cond_free raw raw' :
  (instr_desc op).(match_msk) & cond_mask = 0 → low_bits_of op raw → word_ok op raw raw' →
  word_ok op (instr_desc op).(match_val) raw'.
Proof.
  intros Hfree Hl [Hu Hw]. split; [done|]. intros k Hk Hb. rewrite Hw by done.
  destruct (Z.lt_ge_cases k 28); [apply Hl; [lia|done]|].
  apply (f_equal (λ z, Z.testbit z k)) in Hfree.
  rewrite Z.land_spec, Hb, testbit_cond_mask, Z.testbit_0_l in Hfree by lia. simpl in Hfree.
  pose proof (table_u32 op Hop) as [Hm _]. destruct (Z.lt_ge_cases k 32).
  - destruct (Z.leb_spec 28 k), (Z.ltb_spec k 32); simpl in Hfree; lia || done.
  - by rewrite u32_testbit_high in Hb.
Qed.

(** A stage that writes no line, with what the next one needs. *)
Lemma wp_stage {A B} tmpl (m : rit A) (k : A → rit B) Q s :
  keeps th op tmpl 0 (λ _, True) m → winv th op tmpl s → s.(instr_idx) = 0 →
  (∀ a s', winv th op tmpl s' → s'.(instr_idx) = 0 → frame s s' → wp (k a) Q s') →
  wp (m ≫= k) Q s.
Proof.
  intros Hm Hs Hi Hk. apply wp_bind. eapply wp_mono; [apply Hm; [done|by rewrite Hi]|].
  intros a s' (? & ? & ? & _). apply Hk; [done|lia|done].
Qed.

(** The stages after the condition field. *)
Lemma wp_gen_instr_tail tmpl orig_uninit s :
  winv th op tmpl s → s.(instr_idx) = 0 → low_bits_of op tmpl →
  wp (set_src_opnd_bits op ;;
      set_dst_opnd_bits op ;;
      is_set ← gets is_set_fixed_bit;
      orig_instr ← (if negb is_set then
          r ← get_raw_instr; modify (st_is_set_fixed_bit true) ;; mret r
        else mret orig_uninit);
      fix_unpredictable_bit op ;;
      status ← gen_dispatch op;
      r ← get_raw_instr;
      fb ← gets instr_fixed_bit;
      modify (st_cur_fixed_bit ((orig_instr & fb) ^^ (r & fb))) ;;
      cut ← gets is_reg_bit_cut;
      when cut (modify (λ s, st_cur_fixed_bit (s.(cur_fixed_bit) .| 0xFFFF0000) s)) ;;
      mret status)
     (λ st s', word_kept op tmpl s'.(raw_instr) ∧ buf_ok s'.(instr_idx) s'.(instr_buf)
        ∧ base_frame s s' ∧ s'.(options).(isa) = isa_after s ∧ (last_line s' (inst_line op s'.(raw_instr)) ∨ st = INVALID)
        ∧ (st = VALID → arch_ok op s'.(raw_instr))) s.
Proof.
  intros Hs Hi Hlow.
  eapply (wp_stage tmpl); [by apply keeps_set_opnd_bits|done|done|intros _ s1 Hs1 Hi1 Hf1].
  eapply (wp_stage tmpl); [by apply keeps_set_opnd_bits|done|done|intros _ s2 Hs2 Hi2 Hf2].
  eapply (wp_stage tmpl); [apply keeps_gets|done|done|intros is_set s3 Hs3 Hi3 Hf3].
  eapply (wp_stage tmpl); [keeps|done|done|intros orig s4 Hs4 Hi4 Hf4].
  eapply (wp_stage tmpl); [by apply keeps_fix_unpredictable_bit|done|done|intros _ s5 Hs5 Hi5 Hf5].
  assert (∀ st s6, gen_dispatch op s5 = Ok st s6 → st = VALID → arch_ok op s6.(raw_instr)) as Harch.
  { intros st s6 E ->. apply (gen_dispatch_arch s5); [apply (winv_word _ _ _ _ Hs5)|done]. }
  apply wp_bind. eapply wp_mono; [apply (wp_with _ _ _ _ (wp_gen_dispatch tmpl s5 Hs5 Hi5) Harch)|].
  intros st s6 [(Hs6 & Hf6 & Hi6 & Hl6) Ha6].
  assert (isa_after s5 = isa_after s) as Hi5'.
  { unfold isa_after. by rewrite (frame_isa _ _ Hf5), (frame_isa _ _ Hf4), (frame_isa _ _ Hf3),
      (frame_isa _ _ Hf2), (frame_isa _ _ Hf1). }
  rewrite Hi5' in Hi6.
  assert (base_frame s s6) as Hf.
  { do 5 (etrans; [eapply frame_base; eassumption|]). done. }
  apply wp_bind, wp_gets, wp_bind, wp_gets, wp_bind, wp_modify, wp_bind, wp_gets, wp_bind.
  destruct Hs6 as [Hw Hb _]. unfold when.
  destruct (is_reg_bit_cut _); [apply wp_modify|]; apply wp_ret; (split; [done|]); (split; [done|]);
    (split; [by destruct Hf; split|]); done.
Qed.

Lemma word_ok_trans t raw raw' : word_ok op t raw → word_ok op raw raw' → word_ok op t raw'.
Proof. intros [_ H1] [Hu H2]. split; [done|]. intros k Hk Hb. by rewrite H2, H1. Qed.

(** What the first two stages leave, the S bit and the condition. *)
Record cond_stage (s s' : rit_state) : Prop := {
  cs_frame : frame s s';
  cs_winv : winv th op s'.(raw_instr) s';
  cs_idx : s'.(instr_idx) = s.(instr_idx);
  cs_low : ∀ k, 0 ≤ k < 28 → Z.testbit (instr_desc op).(match_msk) k = true →
           Z.testbit s'.(raw_instr) k = Z.testbit s.(raw_instr) k;
  cs_off : cond_acts op s = false → word_ok op s.(raw_instr) s'.(raw_instr);
  cs_cond : cond_acts op s = true → s'.(raw_instr) & cond_mask ≠ cond_mask;
  cs_req : cond_acts op s = true → cond_asked s.(options) →
           s'.(raw_instr) / 2 ^ 28 = s.(options).(cond_val)
}.

Lemma wp_cond_stage s :
  is_u32 s.(raw_instr) →
  wp (set_arm_cond_bits op) (λ _ s', cond_post op s s'
    ∧ (cond_acts op s = true → cond_asked s.(options) →
       s'.(raw_instr) / 2 ^ 28 = s.(options).(cond_val))) s.
Proof.
  intros Hu. apply wp_with; [by apply wp_set_arm_cond_bits|].
  intros [] s' E Ha [Ho Hv]. pose proof (wp_cond_requested op s Ha Ho Hv Hu) as H. unfold wp in H.
  rewrite E in H. apply H.
Qed.

Lemma wp_sbit_cond {A} (k : rit A) Q s :
  winv th op s.(raw_instr) s → s.(instr_idx) ≤ MAX_INSTR →
  (∀ s', cond_stage s s' → wp k Q s') → wp (set_sbit op ;; set_arm_cond_bits op ;; k) Q s.
Proof.
  intros Hs Hi Hk. apply wp_bind.
  eapply wp_mono; [apply (wp_with _ _ (λ _ s', options s' = options s) _ (keeps_set_sbit th op _ s Hs ltac:(lia)))|].
  { intros [] s1 E. pose proof (wp_set_sbit_options s) as H. unfold wp in H. by rewrite E in H. }
  intros [] s1 [([Hw1 Hb1 Hi1] & Hidx & Hf1 & _) Ho1]. apply wp_bind.
  eapply wp_mono; [apply wp_cond_stage, Hw1|].
  intros [] s2 [(Hf2 & Hi2 & Hb2 & Hu2 & Hl2 & Hc2) Hr2]. apply Hk.
  assert (cond_acts op s1 = cond_acts op s) as Ha by (unfold cond_acts; by rewrite Ho1).
  rewrite Ha, Ho1 in *. apply word_kept_ok in Hw1 as Hw1'. split.
  - by etrans.
  - split; [by apply word_kept_refl|by rewrite Hi2, Hb2|]. by rewrite (frame_isa _ _ Hf2), Ho1.
  - lia.
  - intros j Hj Hm. rewrite Hl2 by done. apply Hw1'; [lia|done].
  - intros Hn. rewrite Hn in Hc2. by rewrite Hc2.
  - intros Hy. by rewrite Hy in Hc2.
  - done.
Qed.

Lemma wp_gen_instr orig_uninit s :
  word_ok op (instr_desc op).(match_val) s.(raw_instr) →
  (s.(options).(isa) = ISA_THUMB → th = true) →
  wp (gen_instr op orig_uninit) (gen_post s) s.
Proof.
  intros Hw Hisa. unfold gen_instr. do 4 (apply wp_bind, wp_modify).
  set (s1 := st_instr_buf _ _). assert (base_frame s s1) as Hb1 by done.
  assert (buf_ok 0 (replicate 8 "")) as Hbuf.
  { split; [done|done|]. apply Forall_replicate, line_ok_nil. }
  assert (winv th op s.(raw_instr) s1) as Hs1 by (split; [apply word_kept_refl, Hw|done|done]).
  destruct (opkind_eqb _ PSEUDO_OP) eqn:Hk.
  { apply wp_ret. unfold opkind_eqb in Hk. rewrite bool_decide_eq_true in Hk.
    split; try done; [apply Hw|by apply low_bits_word]. }
  apply (wp_sbit_cond _ _ s1 Hs1); [done|]. intros s2 [Hf2 Hs2 Hi2 Hl2 Hoff Hcond Hreq].
  assert (low_bits_of op (raw_instr s2)) as Hlow.
  { intros k Hk' Hb. rewrite Hl2 by done. apply Hw; [lia|done]. }
  eapply wp_mono; [apply (wp_gen_instr_tail _ _ _ Hs2 Hi2 Hlow)|].
  intros st s' (Hkept & Hbuf' & Hfr & His & Hline & Harch). apply word_kept_ok in Hkept as Hw'.
  assert (cond_acts op s = true → op < SISA_OP_ARM_MAX) as Harm.
  { intros [_ ?%Z.ltb_lt]%andb_true_iff. done. }
  split; [done| |apply Hw'|by eapply low_bits_trans| | | | | |done].
  - etrans; [exact Hb1|]. etrans; [apply Hf2|done].
  - intros [Hfree|Hna]; [by eapply word_ok_cond_free|].
    eapply word_ok_trans; [|exact Hw']. eapply word_ok_trans; [exact Hw|by apply Hoff].
  - intros Ha _. rewrite (proj1 (word_kept_cond _ _ (Harm Ha) Hkept)). by apply Hcond.
  - intros Ha _ Hask. rewrite (proj2 (word_kept_cond _ _ (Harm Ha) Hkept)). by apply Hreq.
  - intros _. rewrite His. unfold isa_after. by rewrite (frame_isa _ _ Hf2).
  - intros ->. by destruct Hline.
Qed.
End attempt.

(** ** 4. Encodings *)

(** The unconditional ARM opcodes: the condition field is fixed to [1111]. *)
Definition unconditional (op : Z) : Prop :=
  0 ≤ op < SISA_OP_ARM_MAX ∧ (instr_desc op).(op_kind) ≠ PSEUDO_OP
  ∧ (instr_desc op).(match_msk) & cond_mask = cond_mask
  ∧ (instr_desc op).(match_val) & cond_mask = cond_mask.

(** A word with the fixed bits matches, for a table entry that can match. *)
Lemma word_ok_matches op raw :
  (instr_desc op).(match_val) & (instr_desc op).(match_msk) = (instr_desc op).(match_val) →
  word_ok op (instr_desc op).(match_val) raw → op_matches op raw.
Proof. intros Hv [_ Hw]. apply land_eq_bits; [|done]. intros k Hk Hb. by apply Hw. Qed.

Section encodings.
Context `{Env : !RitEnv}.

(** The attempt under the instruction set of the options: an ARM opcode has the
    room it needs, and a Thumb opcode always has. *)
Lemma gen_instr_wp op u s :
  0 ≤ op < SISA_OP_MAX → arm_room (s.(options).(isa) =? ISA_THUMB) op = true →
  word_ok op (instr_desc op).(match_val) s.(raw_instr) →
  ∃ st s', gen_instr op u s = Ok st s' ∧ gen_post op s st s'.
Proof.
  intros Hop Hroom Hw. apply wp_elim.
  destruct (Z.lt_ge_cases op SISA_OP_ARM_MAX) as [Ha|Ha].
  - apply (wp_gen_instr (s.(options).(isa) =? ISA_THUMB)); [done|lia|done|done|]. intros ->. done.
  - apply (wp_gen_instr true); try done. lia.
Qed.

(** C5. [gen_instr] is an encoder: for a conditional ARM opcode or a Thumb
    opcode whose table entry is consistent, started on a word that carries the
    opcode's fixed bits, it ends (for every random stream) and leaves a word that
    the table matches with that opcode.  The options are arbitrary, with one
    exception: [arm_room] rules out LDRD_reg and STRD_reg while they say Thumb,
    for which the buffer is too short (C3). *)
Theorem gen_instr_encodes (op u : Z) (s : rit_state) :
  0 ≤ op < SISA_OP_MAX →
  arm_room (s.(options).(isa) =? ISA_THUMB) op = true →
  (instr_desc op).(match_msk) & cond_mask = 0 ∨ SISA_OP_ARM_MAX ≤ op →
  (instr_desc op).(match_val) & (instr_desc op).(match_msk) = (instr_desc op).(match_val) →
  is_u32 s.(raw_instr) → op_matches op s.(raw_instr) →
  ∃ st s', gen_instr op u s = Ok st s' ∧ op_matches op s'.(raw_instr).
Proof.
  intros Hop Hroom Hc Hv Hu Hm.
  assert (word_ok op (match_val (instr_desc op)) (raw_instr s)) as Hw.
  { split; [done|]. intros k Hk Hb. unfold op_matches in Hm. rewrite <- Hm, Z.land_spec, Hb.
    by rewrite andb_true_r. }
  destruct (gen_instr_wp op u s Hop Hroom Hw) as (st & s' & E & Hg).
  exists st, s'. split; [done|]. apply word_ok_matches; [done|]. apply (gen_full _ _ _ _ Hg).
  destruct Hc as [?|Ha]; [by left|right]. unfold cond_acts.
  by rewrite (proj2 (Z.ltb_ge _ _) Ha), andb_false_r.
Qed.

(** C4. Unconditional opcodes are never generated: under an ARM instruction set
    the condition field of the word is overwritten, so whatever word
    [gen_instr] starts from, the word it leaves for such an opcode (PLD, ISB,
    BLX with an immediate, ...) is not an encoding of it. *)
Theorem unconditional_never_encoded (op u : Z) (s : rit_state) :
  unconditional op →
  s.(options).(isa) = ISA_ARMv5 ∨ s.(options).(isa) = ISA_ARMv7 →
  word_ok op (instr_desc op).(match_val) s.(raw_instr) →
  ∃ st s', gen_instr op u s = Ok st s' ∧ ¬ op_matches op s'.(raw_instr).
Proof.
  intros (Hop & Hk & Hmsk & Hval) Hisa Hw.
  assert (SISA_OP_ARM_MAX ≤ op → false = true) as Hth by lia.
  assert (s.(options).(isa) = ISA_THUMB → false = true) as Hnt
    by (destruct Hisa as [-> | ->]; done).
  destruct (wp_elim _ _ _ (wp_gen_instr false op ltac:(unfold SISA_OP_ARM_MAX, SISA_OP_MAX in *; lia)
    Hth ltac:(done) u s Hw Hnt)) as (st & s' & E & Hg).
  exists st, s'. split; [done|]. intros Hm. apply (gen_cond _ _ _ _ Hg); [|done|].
  - unfold cond_acts. rewrite (proj2 (Z.ltb_lt op SISA_OP_ARM_MAX)), andb_true_r by lia.
    by destruct Hisa as [-> | ->].
  - unfold op_matches in Hm. rewrite <- Hval at 2. rewrite <- Hm, <- Z.land_assoc. by rewrite Hmsk.
Qed.
End encodings.

Lemma gen_instr_encodes_witness :
  ∃ st s', gen_instr (Env := lcg_env) SISA_OP_ADD_imm 7
      (st_raw_instr (instr_desc SISA_OP_ADD_imm).(match_val) zero_state) = Ok st s'
    ∧ op_matches SISA_OP_ADD_imm s'.(raw_instr).
Proof.
  apply (gen_instr_encodes (Env := lcg_env)).
  - done.
  - vm_compute. reflexivity.
  - left. vm_compute. reflexivity.
  - vm_compute. reflexivity.
  - vm_compute. split; [discriminate|reflexivity].
  - vm_compute. reflexivity.
Defined.

Lemma unconditional_never_encoded_witness :
  ∃ st s', gen_instr (Env := lcg_env) SISA_OP_ISB 7
      (st_raw_instr (instr_desc SISA_OP_ISB).(match_val)
        (st_options (opt_isa ISA_ARMv7 zero_options) zero_state)) = Ok st s'
    ∧ ¬ op_matches SISA_OP_ISB s'.(raw_instr).
Proof.
  apply (unconditional_never_encoded (Env := lcg_env)).
  - split_and!; vm_compute; done.
  - by right.
  - split; [vm_compute; split; [discriminate|reflexivity]|done].
Defined.
