(* ===== verification/Decode.v ===== *)
(** * What is generated decodes back

    [get_instr_op] is the table's decoder (first match in the range of the
    instruction set), [gen_instr] its encoder.  [separated] computes from the
    table the opcodes that no earlier entry can capture; for those the two are
    inverse.  The file also lifts the condition of the options from its stage
    ([set_arm_cond_bits_requested]) to the whole attempt. *)
From S2P Require Import Prelude RitCommon InstrTable State InstrUtil InstrBuf Keeps GenHelper GenARMMem GenARMInstr EncodeBits RandomInstrGen Attempt.
#[local] Open Scope c_scope.

(** ** 1. Patterns and the words of an opcode *)

(** No word of [op] has the bits [msk] equal to [val]. *)
Definition clash (op val msk : Z) : bool :=
  let d := instr_desc op in negb (d.(match_val) & msk =? val & d.(match_msk)).
(** Every word of [op] has. *)
Definition implied (op val msk : Z) : bool :=
  let d := instr_desc op in (d.(match_msk) & msk =? msk) && (d.(match_val) & msk =? val).
(** No word at all has. *)
Definition unmatchable (val msk : Z) : bool := negb (val & msk =? val).
(** Only ARM words with the condition field [1111] have. *)
Definition needs_nv (op val : Z) : bool := (op <? SISA_OP_ARM_MAX) && (val & cond_mask =? cond_mask).

(** [j] does not match the words of [op] that have a condition. *)
Definition excluded (op j : Z) : bool :=
  let d := instr_desc j in
  opkind_eqb d.(op_kind) NO_OP || clash op d.(match_val) d.(match_msk)
  || implied op d.(neg_val) d.(neg_msk) || needs_nv op d.(match_val).

(** The first index of the range that [get_instr_op] searches for [op]. *)
Definition range_min (op : Z) : Z := if op <? SISA_OP_ARM_MAX then SISA_OP_NA else SISA_OP_ARM_MAX.

(** [op] is an instruction, its words are not refused by its own negative
    pattern, and no earlier entry captures them.  By evaluation, 238 of the 295
    conditional ARM instructions and 73 of the 78 Thumb ones are; the others
    share words with an earlier entry (LSL with MOV, SMLAD with SMUAD, VMOV with
    MCR, ...). *)
Definition separated (op : Z) : bool :=
  let d := instr_desc op in
  negb (opkind_eqb d.(op_kind) NO_OP) && negb (opkind_eqb d.(op_kind) PSEUDO_OP)
  && ((SISA_OP_ARM_MAX <=? op) || (d.(match_msk) & cond_mask =? 0))
  && (d.(match_val) & d.(match_msk) =? d.(match_val))
  && (clash op d.(neg_val) d.(neg_msk) || unmatchable d.(neg_val) d.(neg_msk) || needs_nv op d.(neg_val))
  && forallb (excluded op) (seqZ (range_min op) (op - range_min op)).

(** The number of them. *)
Lemma separated_count : length (List.filter separated (seqZ 0 SISA_OP_THUMB_MAX)) = 311%nat.
Proof. vm_compute. reflexivity. Qed.

Lemma clash_spec op w val msk :
  op_matches op w → clash op val msk = true → w & msk ≠ val.
Proof.
  unfold op_matches, clash. intros Hm Hc%negb_true_iff%Z.eqb_neq <-. apply Hc. rewrite <- Hm.
  rewrite <- !Z.land_assoc. f_equal. apply Z.land_comm.
Qed.

Lemma implied_spec op w val msk :
  op_matches op w → implied op val msk = true → w & msk = val.
Proof.
  unfold op_matches, implied. intros Hm [H1%Z.eqb_eq H2%Z.eqb_eq]%andb_true_iff.
  by rewrite <- H1, Z.land_assoc, Hm.
Qed.

Lemma unmatchable_spec w val msk : unmatchable val msk = true → w & msk ≠ val.
Proof.
  unfold unmatchable. intros H%negb_true_iff%Z.eqb_neq <-. apply H.
  by rewrite <- Z.land_assoc, Z.land_diag.
Qed.

(** The words the decoder is asked about: an ARM word has a condition. *)
Definition has_cond (op w : Z) : Prop := op < SISA_OP_ARM_MAX → w & cond_mask ≠ cond_mask.

Lemma needs_nv_spec op w val msk : has_cond op w → needs_nv op val = true → w & msk ≠ val.
Proof.
  intros Hc [Ha%Z.ltb_lt Hv%Z.eqb_eq]%andb_true_iff <-. apply (Hc Ha), Z.bits_inj'. intros k Hk.
  apply (f_equal (λ z, Z.testbit z k)) in Hv. rewrite !Z.land_spec in *.
  destruct (Z.testbit cond_mask k); [|apply andb_false_r]. rewrite !andb_true_r in *.
  by apply andb_true_iff in Hv as [? _].
Qed.

Lemma excluded_spec op w j :
  op_matches op w → has_cond op w → excluded op j = true → instr_op_matches w j = false.
Proof.
  intros Hm Hc He. unfold instr_op_matches, excluded in *.
  apply orb_true_iff in He as [[[-> |He]%orb_true_iff|He]%orb_true_iff|He]; [done|..].
  - rewrite (proj2 (Z.eqb_neq _ _)); [by rewrite andb_false_r|by eapply clash_spec].
  - rewrite (proj2 (Z.eqb_eq (w & neg_msk _) _)); [by apply andb_false_r|by eapply implied_spec].
  - rewrite (proj2 (Z.eqb_neq _ _)); [by rewrite andb_false_r|by eapply needs_nv_spec].
Qed.

(** ** 2. The decoder finds a separated opcode *)

Lemma find_seqZ_first f lo n op :
  lo ≤ op < lo + n → f op = true → (∀ j, lo ≤ j < op → f j = false) → find f (seqZ lo n) = Some op.
Proof.
  intros Hr Ho Hj. destruct (find f (seqZ lo n)) as [i|] eqn:E.
  - apply find_seqZ_some in E as (Hi & Hf & Hmin). f_equal.
    destruct (Z.lt_trichotomy i op) as [H|[H|H]]; [|done|].
    + by rewrite Hj in Hf by lia.
    + by rewrite Hmin in Ho by lia.
  - assert (In op (seqZ lo n)) as Hin by (apply list_elem_of_In, elem_of_seqZ; lia).
    by rewrite (find_none _ _ E op Hin) in Ho.
Qed.

(** The instruction set whose opcodes [get_instr_op] searches for [op]. *)
Definition isa_of (op isa0 : Z) : Prop :=
  if op <? SISA_OP_ARM_MAX then isa0 = ISA_ARMv5 ∨ isa0 = ISA_ARMv7 else isa0 = ISA_THUMB.

Lemma separated_found op w :
  0 ≤ op < SISA_OP_THUMB_MAX → separated op = true → op_matches op w → has_cond op w →
  find (instr_op_matches w) (seqZ (range_min op)
    ((if op <? SISA_OP_ARM_MAX then SISA_OP_ARM_MAX else SISA_OP_THUMB_MAX) - range_min op)) = Some op.
Proof.
  intros Hop Hs Hm Hc. unfold separated in Hs. rewrite !andb_true_iff in Hs.
  destruct Hs as (((((Hk & _) & _) & _) & Hneg) & Hall). apply find_seqZ_first.
  - unfold range_min, SISA_OP_NA. destruct (Z.ltb_spec op SISA_OP_ARM_MAX); lia.
  - unfold instr_op_matches. unfold op_matches in Hm. rewrite Hk, Hm, Z.eqb_refl. cbn [andb].
    apply negb_true_iff, Z.eqb_neq. rewrite !orb_true_iff in Hneg. destruct Hneg as [[H|H]|H].
    + by eapply clash_spec.
    + by apply unmatchable_spec.
    + by eapply needs_nv_spec.
  - intros j Hj. apply (excluded_spec op); [done..|]. rewrite forallb_forall in Hall.
    apply Hall, list_elem_of_In, elem_of_seqZ. lia.
Qed.

Lemma get_instr_op_separated op w (s : rit_state) :
  0 ≤ op < SISA_OP_THUMB_MAX → separated op = true → isa_of op s.(options).(isa) →
  op_matches op w → has_cond op w → get_instr_op w s = Ok op s.
Proof.
  intros Hop Hs Hisa Hm Hc. pose proof (separated_found op w Hop Hs Hm Hc) as E.
  unfold get_instr_op, opt, gets, mbind, M_bind, isa_of, range_min in *.
  destruct (op <? SISA_OP_ARM_MAX); [destruct Hisa as [-> | ->]|rewrite Hisa];
    unfold instr_op_range; cbn [Z.eqb Pos.eqb ISA_ARMv5 ISA_ARMv7 ISA_THUMB]; by rewrite E.
Qed.

(** ** 3. Properties *)

Section attempts.
Context `{Env : !RitEnv}.

(** Under an ARM instruction set there is room for every ARM opcode. *)
Lemma arm_room_cond op s :
  (op < SISA_OP_ARM_MAX → cond_acts op s = true) → arm_room (s.(options).(isa) =? ISA_THUMB) op = true.
Proof.
  intros Ha. unfold arm_room. destruct (Z.eqb_spec s.(options).(isa) ISA_THUMB) as [E|]; [|done]. cbn [andb].
  destruct (Z.lt_ge_cases op SISA_OP_ARM_MAX) as [Hop|Hop].
  - specialize (Ha Hop). unfold cond_acts in Ha. by rewrite E in Ha.
  - apply negb_true_iff, orb_false_iff. split; apply Z.eqb_neq; intros ->; by apply Hop.
Qed.

(** What an attempt leaves, from a word of the opcode. *)
Lemma gen_instr_post op u s :
  0 ≤ op < SISA_OP_MAX → (op < SISA_OP_ARM_MAX → cond_acts op s = true) →
  is_u32 s.(raw_instr) → op_matches op s.(raw_instr) →
  ∃ st s', gen_instr op u s = Ok st s' ∧ gen_post op s st s'.
Proof.
  intros Hop Ha Hu Hm. apply gen_instr_wp; [done|by apply arm_room_cond|].
  split; [done|]. intros k Hk Hb. unfold op_matches in Hm.
  by rewrite <- Hm, Z.land_spec, Hb, andb_true_r.
Qed.

Lemma cond_acts_isa op s :
  op < SISA_OP_ARM_MAX → cond_acts op s = true →
  s.(options).(isa) = ISA_ARMv5 ∨ s.(options).(isa) = ISA_ARMv7.
Proof. intros _ [[->%Z.eqb_eq | ->%Z.eqb_eq]%orb_true_iff _]%andb_true_iff; auto. Qed.

Lemma cond_mask_all w : is_u32 w → w / 2 ^ 28 = 15 → w & cond_mask = cond_mask.
Proof.
  intros Hu Hd. apply Z.bits_inj'. intros k Hk. rewrite Z.land_spec, testbit_cond_mask by done.
  destruct (Z.leb_spec 28 k), (Z.ltb_spec k 32); rewrite ?andb_false_r; try done. cbn [andb].
  rewrite andb_true_r. replace k with (k - 28 + 28) by lia. rewrite <- Z.div_pow2_bits, Hd by lia.
  change 15 with (Z.ones 4). apply Z.ones_spec_low. lia.
Qed.

(** C36. What is generated decodes back: for each of the 311 separated opcodes
    ([separated_count]; an ARM one under an ARM instruction set, which is what
    [cond_acts] says, or a Thumb one under any), an attempt started
    on a word of the opcode ends, whatever the options and the random stream,
    and [get_instr_op] applied to the word it leaves, in the state it leaves,
    answers the opcode. *)
Theorem gen_instr_decodes (op u : Z) (s : rit_state) :
  0 ≤ op < SISA_OP_THUMB_MAX → separated op = true →
  (op < SISA_OP_ARM_MAX → cond_acts op s = true) →
  is_u32 s.(raw_instr) → op_matches op s.(raw_instr) →
  ∃ st s', gen_instr op u s = Ok st s' ∧ get_instr_op s'.(raw_instr) s' = Ok op s'.
Proof.
  intros Hop Hsep Harm Hu Hm.
  destruct (gen_instr_post op u s) as (st & s' & E & Hg);
    [unfold SISA_OP_THUMB_MAX, SISA_OP_MAX in *; lia|done..|].
  exists st, s'. split; [done|].
  pose proof Hsep as Hsep'. unfold separated, opkind_eqb in Hsep'.
  rewrite !andb_true_iff, !negb_true_iff, !bool_decide_eq_false, orb_true_iff, !Z.eqb_eq, Z.leb_le in Hsep'.
  destruct Hsep' as (((((_ & Hk) & Hfree) & Hv) & _) & _).
  apply get_instr_op_separated; [done..| | |].
  - rewrite (gen_isa _ _ _ _ Hg Hk). unfold isa_of, isa_after.
    destruct (Z.ltb_spec op SISA_OP_ARM_MAX) as [Ha|Ha]; [by apply (cond_acts_isa op), Harm|].
    by rewrite (proj2 (Z.ltb_lt _ _)) by (unfold SISA_OP_THUMB_MAX, SISA_OP_THUMB_32_MAX in *; lia).
  - apply word_ok_matches; [done|]. apply (gen_full _ _ _ _ Hg). destruct Hfree as [Ha|]; [right|by left].
    unfold cond_acts. by rewrite (proj2 (Z.ltb_ge _ _) Ha), andb_false_r.
  - intros Ha. by apply (gen_cond _ _ _ _ Hg); [apply Harm|].
Qed.

(** C37. The condition asked for is the condition generated: under an ARM
    instruction set, an attempt for an ARM opcode (pseudo instructions apart)
    leaves a word whose top four bits are the condition of the options when one
    of the fifteen is asked for, and never [1111] in any case; no later stage
    and no generator disturbs the field. *)
Theorem gen_instr_condition (op u : Z) (s : rit_state) :
  0 ≤ op < SISA_OP_MAX → (instr_desc op).(op_kind) ≠ PSEUDO_OP →
  cond_acts op s = true → is_u32 s.(raw_instr) → op_matches op s.(raw_instr) →
  ∃ st s', gen_instr op u s = Ok st s' ∧ s'.(raw_instr) / 2 ^ 28 ≠ 15
    ∧ (cond_asked s.(options) → s'.(raw_instr) / 2 ^ 28 = s.(options).(cond_val)).
Proof.
  intros Hop Hk Ha Hu Hm. destruct (gen_instr_post op u s) as (st & s' & E & Hg); [done..|].
  exists st, s'. split; [done|]. split; [|by apply (gen_req _ _ _ _ Hg)].
  intros Hd. apply (gen_cond _ _ _ _ Hg Ha Hk), cond_mask_all; [apply (gen_u32 _ _ _ _ Hg)|done].
Qed.
End attempts.

(** ** 4. Witnesses *)

Lemma gen_instr_decodes_witness :
  let s := st_raw_instr (instr_desc SISA_OP_EOR_reg).(match_val)
    (st_options (opt_isa ISA_ARMv7 zero_options) zero_state) in
  ∃ st s', gen_instr (Env := lcg_env) SISA_OP_EOR_reg 7 s = Ok st s'
    ∧ get_instr_op s'.(raw_instr) s' = Ok SISA_OP_EOR_reg s'.
Proof.
  intros s. apply (gen_instr_decodes (Env := lcg_env)).
  - done.
  - vm_compute. reflexivity.
  - intros _. vm_compute. reflexivity.
  - vm_compute. split; [discriminate|reflexivity].
  - vm_compute. reflexivity.
Defined.

Lemma gen_instr_condition_witness :
  let s := st_raw_instr (instr_desc SISA_OP_EOR_reg).(match_val)
    (st_options (opt_cond_val 11 (opt_set_stat OPT_COND (opt_isa ISA_ARMv7 zero_options))) zero_state) in
  cond_asked s.(options) ∧
  ∃ st s', gen_instr (Env := lcg_env) SISA_OP_EOR_reg 7 s = Ok st s' ∧ s'.(raw_instr) / 2 ^ 28 ≠ 15
    ∧ (cond_asked s.(options) → s'.(raw_instr) / 2 ^ 28 = 11).
Proof.
  intros s. split; [by vm_compute|]. apply (gen_instr_condition (Env := lcg_env)).
  - done.
  - vm_compute. discriminate.
  - vm_compute. reflexivity.
  - vm_compute. split; [discriminate|reflexivity].
  - vm_compute. reflexivity.
Defined.
