(* ===== verification/Options.v ===== *)
(** * Option values: ranges, randomisation and relaxation

    [opts_wf] is the invariant of [gen_option_t] that the parameter parser
    establishes; [gen_rand_opt_val] turns a well-formed record into one with no
    "random" marker left, keeping what the user asked for. *)
From S2P Require Import Prelude RitCommon InstrTable State InstrUtil InstrBuf EncodeBits RandomInstrGen.
#[local] Open Scope c_scope.

(** ** 1. Ranges *)

(** [0 <= v <= hi] *)
Definition upto (hi v : Z) : Prop := 0 ≤ v ≤ hi.

Record opts_wf (o : gen_option_t) : Prop := {
  wf_isa : upto ISA_RAND o.(isa);
  wf_sbit : upto SBIT_RAND o.(sbit_val);
  wf_cond : upto COND_RAND o.(cond_val);
  wf_src : length o.(src_regs) = 4%nat ∧ Forall (upto R_RAND) o.(src_regs);
  wf_dst : length o.(dst_regs) = 4%nat ∧ Forall (upto R_RAND) o.(dst_regs);
  wf_src_fp : length o.(src_fp_regs_ext) = 4%nat ∧ Forall (upto FP_REG_RAND) o.(src_fp_regs_ext);
  wf_dst_fp : length o.(dst_fp_regs_ext) = 4%nat ∧ Forall (upto FP_REG_RAND) o.(dst_fp_regs_ext);
  wf_fp_sz : upto FP_SZ_Q_RAND o.(fp_sz_q_bit);
  wf_sh_reg : upto R_RAND o.(shift_rotate_reg);
  wf_sh_type : upto SH_TYPE_RAND o.(shift_rotate_type);
  wf_opcode : opt_stat o OPT_OPCODE = true → is_Some o.(opcode)
}.

Lemma default_options_wf : opts_wf default_options.
Proof. split; cbn; rewrite ?Forall_cons, ?Forall_nil; unfold upto; done. Qed.

(** No marker left. *)
Record opts_chosen (o : gen_option_t) : Prop := {
  ch_isa : 0 ≤ o.(isa) < ISA_RAND;
  ch_sbit : 0 ≤ o.(sbit_val) < SBIT_RAND;
  ch_cond : 0 ≤ o.(cond_val) < COND_RAND;
  ch_src : Forall (λ r, 0 ≤ r < R_RAND) o.(src_regs);
  ch_dst : Forall (λ r, 0 ≤ r < R_RAND) o.(dst_regs);
  ch_src_fp : Forall (λ r, 0 ≤ r < FP_REG_RAND) o.(src_fp_regs_ext);
  ch_dst_fp : Forall (λ r, 0 ≤ r < FP_REG_RAND) o.(dst_fp_regs_ext);
  ch_fp_sz : 0 ≤ o.(fp_sz_q_bit) < FP_SZ_Q_RAND;
  ch_sh_reg : 0 ≤ o.(shift_rotate_reg) < R_RAND;
  ch_sh_type : 0 ≤ o.(shift_rotate_type) < SH_TYPE_RAND
}.

(** A value the user gave, and not as "random", is still there. *)
Definition kept (o o' : gen_option_t) (k rnd : Z) (get : gen_option_t → Z) : Prop :=
  opt_stat o k = true → get o ≠ rnd → get o' = get o.
Definition kept_list (o o' : gen_option_t) (k rnd : Z) (get : gen_option_t → list Z) : Prop :=
  ∀ i, kept o o' k rnd (λ o, nth i (get o) 0).

Record opts_kept (o o' : gen_option_t) : Prop := {
  kept_isa : kept o o' OPT_ISA ISA_RAND isa;
  kept_sbit : kept o o' OPT_SBIT SBIT_RAND sbit_val;
  kept_cond : kept o o' OPT_COND COND_RAND cond_val;
  kept_src : kept_list o o' OPT_SREG R_RAND src_regs;
  kept_dst : kept_list o o' OPT_DREG R_RAND dst_regs;
  kept_src_fp : kept_list o o' OPT_FP_SREG_EXT FP_REG_RAND src_fp_regs_ext;
  kept_dst_fp : kept_list o o' OPT_FP_DREG_EXT FP_REG_RAND dst_fp_regs_ext;
  kept_fp_sz : kept o o' OPT_FP_SZ_Q_EXT FP_SZ_Q_RAND fp_sz_q_bit;
  kept_sh_reg : kept o o' OPT_SHRTREG R_RAND shift_rotate_reg;
  kept_sh_type : kept o o' OPT_SHRTTYPE SH_TYPE_RAND shift_rotate_type;
  kept_imm : opt_stat o OPT_IMM = true → o'.(imm_val) = o.(imm_val);
  kept_shimm : opt_stat o OPT_SHIMM = true → o'.(shift_imm_val) = o.(shift_imm_val);
  kept_regs : opt_stat o OPT_REGS_LIST = true → o'.(regs_list) = o.(regs_list);
  kept_rest : o'.(arch_version) = o.(arch_version) ∧ o'.(opcode) = o.(opcode)
    ∧ o'.(mem_base_val) = o.(mem_base_val) ∧ o'.(mem_base_mask) = o.(mem_base_mask)
    ∧ o'.(mem_offset_val) = o.(mem_offset_val) ∧ o'.(opt_status) = o.(opt_status)
}.

(** ** 2. Random values *)

Section random.
Context `{Env : !RitEnv}.

(** [gen] draws a value in [P] and changes nothing but the random stream. *)
Definition draws (P : Z → Prop) (gen : rit Z) : Prop :=
  ∀ s, ∃ v p, gen s = Ok v (st_rand_pos p s) ∧ P v.

Lemma draws_ret (P : Z → Prop) v : P v → draws P (mret v).
Proof. intros Hv s. exists v, s.(rand_pos). split; [by destruct s|done]. Qed.

Lemma draws_bind (P Q : Z → Prop) m (k : Z → rit Z) :
  draws P m → (∀ v, P v → draws Q (k v)) → draws Q (m ≫= k).
Proof.
  intros Hm Hk s. destruct (Hm s) as (v & p & Hv & HP).
  destruct (Hk v HP (st_rand_pos p s)) as (w & q & Hw & HQ).
  exists w, q. unfold mbind, M_bind. rewrite Hv, Hw. by split.
Qed.

Lemma draws_mono (P Q : Z → Prop) m : draws P m → (∀ v, P v → Q v) → draws Q m.
Proof. intros Hm HQ s. destruct (Hm s) as (v & p & ? & ?). exists v, p. auto. Qed.

Lemma draws_rand : draws (λ v, 0 ≤ v < 2 ^ 31) rand.
Proof. intros s. eexists _, _. split; [reflexivity|apply rand_at_range]. Qed.

Lemma draws_rand_in a b : a < b → draws (λ v, a ≤ v < b) (rand_in a b).
Proof.
  intros Hab. eapply draws_bind; [apply draws_rand|]. intros v _. apply draws_ret.
  pose proof (Z.mod_pos_bound v (b - a)). lia.
Qed.

Lemma draws_reg : draws (λ r, 0 ≤ r < R_RAND) gen_rand_reg.
Proof.
  eapply draws_bind; [apply draws_rand_in; done|]. unfold GPR_TOP, GPR_RAND, R_RAND. intros v Hv.
  assert (v = 0 ∨ v = 1 ∨ v = 2 ∨ v = 3 ∨ v = 4 ∨ v = 5) as [->|[->|[->|[->|[->| ->]]]]] by lia;
    first [by apply draws_ret
          |eapply draws_mono; [by apply draws_rand_in|unfold R_0, R_4, R_8, R_13; lia]].
Qed.

Lemma draws_cond : draws (λ c, 0 ≤ c < COND_RAND) gen_rand_cond.
Proof.
  eapply draws_bind; [apply draws_rand_in; done|]. intros v _.
  repeat case_match; first [by apply draws_ret
    |eapply draws_mono; [by apply draws_rand_in|unfold COND_TOP, COND_AL, COND_RAND; lia]].
Qed.

Lemma draws_part_imm bits : draws is_u32 (gen_part_imm bits).
Proof.
  eapply draws_bind; [apply draws_rand_in; done|]. unfold IP_TOP, IP_RAND. intros v Hv.
  assert (v = 0 ∨ v = 1 ∨ v = 2 ∨ v = 3 ∨ v = 4) as [->|[->|[->|[->| ->]]]] by lia; cbv iota;
    try (apply draws_ret; unfold is_u32; lia).
  - eapply draws_bind; [apply draws_rand|]. intros r Hr. apply draws_ret.
    assert (is_u32 (shl32 1 bits)) as Hb by auto with rit. unfold is_u32 in *.
    destruct (Z.eq_dec (shl32 1 bits) 0) as [->|]; [rewrite Z.mod_0_r; lia|].
    pose proof (Z.mod_pos_bound r (shl32 1 bits)). lia.
  - apply draws_ret. rewrite Z.land_comm. auto with rit.
  - apply draws_ret. rewrite Z.land_comm. auto with rit.
Qed.

Lemma draws_imm : draws is_u32 gen_rand_imm.
Proof.
  eapply draws_bind; [apply draws_rand_in; done|]. unfold IP_TOP, IP_RAND. intros v Hv.
  assert (v = 0 ∨ v = 1 ∨ v = 2 ∨ v = 3 ∨ v = 4) as [->|[->|[->|[->| ->]]]] by lia; cbv iota;
    try (apply draws_ret; unfold is_u32; compute; split; [discriminate|reflexivity]).
  eapply draws_bind; [apply draws_part_imm|intros a Ha].
  eapply draws_bind; [apply draws_part_imm|intros b Hb].
  eapply draws_bind; [apply draws_part_imm|intros c Hc]. apply draws_ret. auto 6 with rit.
Qed.

(** ** 3. Choosing every option *)

(** [m] changes only the options, as [R] says, and the random stream. *)
Definition chooses (R : gen_option_t → gen_option_t → Prop) (m : rit unit) : Prop :=
  ∀ s, ∃ o p, m s = Ok tt (st_rand_pos p (st_options o s)) ∧ R s.(options) o.

Definition rel_seq {A} (R1 R2 : A → A → Prop) (x z : A) : Prop := ∃ y, R1 x y ∧ R2 y z.

Lemma chooses_seq R1 R2 m1 m2 :
  chooses R1 m1 → chooses R2 m2 → chooses (rel_seq R1 R2) (m1 ;; m2).
Proof.
  intros H1 H2 s. destruct (H1 s) as (o & p & E1 & ?).
  destruct (H2 (st_rand_pos p (st_options o s))) as (o' & p' & E2 & ?).
  exists o', p'. unfold mbind, M_bind. rewrite E1, E2. split; [done|]. by exists o.
Qed.

Lemma chooses_ret : chooses eq (mret tt).
Proof. intros s. exists s.(options), s.(rand_pos). split; [by destruct s|done]. Qed.

(** One [if (!set || random) x = gen();]: the field ends in range, and keeps a
    value the user gave. *)
Definition chosen_field (k rnd : Z) (get : gen_option_t → Z)
    (set : Z → gen_option_t → gen_option_t) (o o' : gen_option_t) : Prop :=
  ∃ v, o' = set v o ∧ (upto rnd (get o) → 0 ≤ v < rnd)
       ∧ (opt_stat o k = true → get o ≠ rnd → v = get o).

Lemma chooses_rand_field k rnd get set gen :
  draws (λ v, 0 ≤ v < rnd) gen → (∀ o, set (get o) o = o) →
  chooses (chosen_field k rnd get set) (rand_field k rnd get set gen).
Proof.
  intros Hg Heta s. unfold rand_field, when.
  destruct (negb (opt_stat (options s) k) || (rnd =? get (options s))) eqn:E.
  - destruct (Hg s) as (v & p & Hv & HP). exists (set v s.(options)), p. split.
    + unfold gets, mbind, M_bind. rewrite E, Hv. done.
    + exists v. split; [done|]. split; [done|]. intros Hs Hne. exfalso. rewrite Hs in E.
      simpl in E. apply Z.eqb_eq in E. congruence.
  - apply orb_false_iff in E as [E1%negb_false_iff E2%Z.eqb_neq].
    exists s.(options), s.(rand_pos). split.
    + unfold gets, mbind, M_bind. rewrite E1, (proj2 (Z.eqb_neq _ _) E2). by destruct s.
    + exists (get s.(options)). split; [done|]. unfold upto. split; [lia|done].
Qed.

(** A field stored only when the option is not set. *)
Definition chosen_if (P : Z → Prop) (k : Z) (get : gen_option_t → Z)
    (set : Z → gen_option_t → gen_option_t) (o o' : gen_option_t) : Prop :=
  ∃ v, o' = set v o ∧ (opt_stat o k = false → P v) ∧ (opt_stat o k = true → v = get o).

Lemma chooses_draw P k m get set (f : Z → Z) :
  draws (λ v, P (f v)) m → (∀ o, set (get o) o = o) →
  chooses (chosen_if P k get set)
    (b ← GET_OPT_STAT k; when (negb b) (v ← m; on_options (set (f v)))).
Proof.
  intros Hm Heta s. unfold GET_OPT_STAT, gets, when, chosen_if.
  destruct (opt_stat (options s) k) eqn:E.
  - exists s.(options), s.(rand_pos). unfold mbind, M_bind. rewrite E. split; [by destruct s|].
    by exists (get s.(options)).
  - destruct (Hm s) as (v & p & Hv & HP). exists (set (f v) s.(options)), p.
    unfold mbind, M_bind. rewrite E. simpl. rewrite Hv. split; [done|]. by exists (f v).
Qed.

Lemma chooses_draw_seq P R k m get set (f : Z → Z) rest :
  draws (λ v, P (f v)) m → (∀ o, set (get o) o = o) → chooses R rest →
  chooses (rel_seq (chosen_if P k get set) R)
    (b ← GET_OPT_STAT k; when (negb b) (v ← m; on_options (set (f v))) ;; rest).
Proof.
  intros Hm He Hr s.
  destruct (chooses_seq _ _ _ _ (chooses_draw P k m get set f Hm He) Hr s) as (o & p & E & ?).
  exists o, p. split; [|done]. rewrite <- E, bind_assoc. done.
Qed.

Lemma chooses_mono (R1 R2 : gen_option_t → gen_option_t → Prop) m :
  chooses R1 m → (∀ o o', R1 o o' → R2 o o') → chooses R2 m.
Proof. intros H HR s. destruct (H s) as (o & p & ? & ?). exists o, p. auto. Qed.

Lemma insert_nth (l : list Z) i : <[i := nth i l 0]> l = l.
Proof.
  revert i. induction l as [|x l IH]; intros [|i]; simpl; [done|done|done|]. by f_equal.
Qed.

Lemma chooses_rand_elem k rnd get set gen idx :
  draws (λ v, 0 ≤ v < rnd) gen → (∀ o, set (get o) o = o) →
  chooses (chosen_field k rnd (λ o, nth idx (get o) 0) (λ v o, set (<[idx := v]> (get o)) o))
          (rand_elem k rnd get set gen idx).
Proof. intros Hg Heta. apply chooses_rand_field; [done|]. intros o. by rewrite insert_nth. Qed.

Lemma list_four {A} (l : list A) : length l = 4%nat → ∃ a b c d, l = [a; b; c; d].
Proof. intros H. destruct l as [|a [|b [|c [|d [|? ?]]]]]; try done. eauto. Qed.

Lemma regs_list_upto r : 0 ≤ r < 2 ^ 31 → upto REGS_LIST_MASK (r & REGS_LIST_MASK).
Proof.
  intros _. change REGS_LIST_MASK with (Z.ones 16). rewrite Z.land_ones by done.
  pose proof (Z.mod_pos_bound r (2 ^ 16)). unfold upto. change (Z.ones 16) with (2 ^ 16 - 1). lia.
Qed.

(** The relation that [gen_rand_opt_val] implements. *)
Definition opts_choice (o o' : gen_option_t) : Prop :=
  opts_wf o → opts_wf o' ∧ opts_chosen o' ∧ opts_kept o o'.

Ltac eta := by intros [].
(** The next field of the choice: its value, range and what it keeps. *)
Ltac peel1 H :=
  let v := fresh "v" in let Hr := fresh "Hr" in let Hk := fresh "Hk" in let E := fresh in
  destruct H as (v & E & Hr & Hk); cbn in E, Hr, Hk; subst; specialize (Hr ltac:(assumption)).
Ltac peel_if H :=
  let v := fresh "v" in let Hp := fresh "Hp" in let Hk := fresh "Hk" in let E := fresh in
  destruct H as (v & E & Hp & Hk); cbn in E, Hp, Hk; subst.
Ltac peel H :=
  let y := fresh in let H' := fresh in destruct H as (y & H' & H); peel1 H'.

Lemma chooses_gen_rand_opt_val : chooses opts_choice gen_rand_opt_val.
Proof.
  eapply chooses_mono.
  { unfold gen_rand_opt_val. cbn [forM].
    do 3 (eapply chooses_seq; [apply chooses_rand_field;
      [first [by apply draws_rand_in|apply draws_cond]|eta]|]).
    eapply chooses_seq.
    { do 4 (eapply chooses_seq; [do 3 (eapply chooses_seq; [apply chooses_rand_elem;
        [first [by apply draws_rand_in|apply draws_reg]|eta]|]);
        apply chooses_rand_elem; [by apply draws_rand_in|eta]|]).
      apply chooses_ret. }
    do 3 (eapply chooses_seq; [apply chooses_rand_field;
      [first [by apply draws_rand_in|apply draws_reg]|eta]|]).
    eapply (chooses_draw_seq (upto REGS_LIST_MASK) _ _ _ regs_list opt_regs_list
      (λ r, r & REGS_LIST_MASK)); [eapply draws_mono; [apply draws_rand|apply regs_list_upto]|eta|].
    eapply (chooses_draw_seq is_u32 _ _ _ imm_val opt_imm_val id); [apply draws_imm|eta|].
    apply (chooses_draw is_u32 _ _ shift_imm_val opt_shift_imm_val id); [apply draws_imm|eta]. }
  unfold rel_seq, chosen_field, chosen_if, opts_choice. intros o o' HR Hwf.
  destruct Hwf as [H1 H2 H3 [Hl4 H4] [Hl5 H5] [Hl6 H6] [Hl7 H7] H8 H9 H10 H11].
  destruct o as [f1 f2 f3 f4 f5 f6 f7 f8 f9 f10 f11 f12 f13 f14 f15 f16 f17 f18 f19]. cbn in *.
  apply list_four in Hl4 as (?&?&?&?&->), Hl5 as (?&?&?&?&->), Hl6 as (?&?&?&?&->),
    Hl7 as (?&?&?&?&->).
  rewrite ?Forall_cons, ?Forall_nil in H4, H5, H6, H7.
  destruct H4 as (?&?&?&?&_), H5 as (?&?&?&?&_), H6 as (?&?&?&?&_), H7 as (?&?&?&?&_).
  do 3 peel HR. destruct HR as (? & HR & HR2).
  do 4 (destruct HR as (? & HR' & HR); do 3 peel HR'; peel1 HR'). subst.
  do 3 peel HR2. do 2 (destruct HR2 as (? & HR & HR2); peel_if HR). peel_if HR2.
  split; [|split].
  - split; cbn; rewrite ?Forall_cons, ?Forall_nil; unfold upto in *; auto 10 with lia.
  - split; cbn; rewrite ?Forall_cons, ?Forall_nil; auto 10.
  - split; unfold kept_list, kept; cbn; auto 10; intros [|[|[|[|?]]]]; cbn; auto.
Qed.

(** ** 4. Relaxation *)

(** The options [relax_restrict] may turn back to random. *)
Definition relaxed_opts : list Z := [
  OPT_COND; OPT_SHRTREG; OPT_SBIT; OPT_SHRTTYPE; OPT_FP_SREG_EXT; OPT_SHIMM; OPT_SREG;
  OPT_FP_DREG_EXT; OPT_IMM; OPT_DREG; OPT_FP_SZ_Q_EXT; OPT_REGS_LIST].

(** Everything else stays, and the record stays well formed. *)
Record relax_le (o o' : gen_option_t) : Prop := {
  relax_wf : opts_wf o → opts_wf o';
  relax_isa : o'.(isa) = o.(isa);
  relax_opcode : o'.(opcode) = o.(opcode);
  relax_rest : o'.(arch_version) = o.(arch_version) ∧ o'.(mem_base_val) = o.(mem_base_val)
    ∧ o'.(mem_base_mask) = o.(mem_base_mask) ∧ o'.(mem_offset_val) = o.(mem_offset_val);
  relax_stat : ∀ k, OPT_TOP ≤ k < OPT_BTM → k ∉ relaxed_opts → opt_stat o' k = opt_stat o k
}.

#[global] Instance relax_le_preorder : PreOrder relax_le.
Proof.
  split; [done|]. intros x y z [? ? ? (?&?&?&?) Hs1] [? ? ? (?&?&?&?) Hs2].
  split; [auto|congruence..| |].
  - split_and!; congruence.
  - intros k Hk Hn. by rewrite Hs2, Hs1.
Qed.

Lemma opt_stat_set_stat x o k :
  0 ≤ x < 32 → 0 ≤ k < 32 → opt_stat (opt_set_stat x o) k = (k =? x) || opt_stat o k.
Proof.
  intros Hx Hk. unfold opt_stat, opt_set_stat. cbn.
  assert (∀ w, negb (Z.land w (shl32 1 k) =? 0) = Z.testbit w k) as Hb.
  { intros w. destruct (Z.eqb_spec (Z.land w (shl32 1 k)) 0) as [E|E]; simpl; symmetry.
    - apply (f_equal (λ z, Z.testbit z k)) in E.
      rewrite Z.land_spec, testbit_bit, Z.eqb_refl, Z.testbit_0_l, andb_true_r in E by lia. done.
    - apply not_false_iff_true. intros Hf. apply E. apply Z.bits_inj'. intros j Hj.
      rewrite Z.land_spec, testbit_bit, Z.testbit_0_l by lia.
      destruct (Z.eqb_spec j k) as [->|]; [by rewrite Hf|apply andb_false_r]. }
  rewrite !Hb, Z.lor_spec, testbit_bit by lia. apply orb_comm.
Qed.

Lemma relax_le_stat x o : x ∈ relaxed_opts → relax_le o (opt_set_stat x o).
Proof.
  intros Hx. assert (0 ≤ x < 32 ∧ x ≠ OPT_OPCODE) as [Hx32 Hne].
  { unfold relaxed_opts in Hx. rewrite !elem_of_cons, elem_of_nil in Hx.
    repeat destruct Hx as [->|Hx]; done. }
  split; try done.
  - intros []. split; try done. rewrite opt_stat_set_stat by (unfold OPT_OPCODE; lia).
    by rewrite (proj2 (Z.eqb_neq _ _)) by done.
  - intros k Hk Hn. unfold OPT_TOP, OPT_BTM in Hk. rewrite opt_stat_set_stat by lia.
    destruct (Z.eqb_spec k x) as [->|]; [done|done].
Qed.

Lemma chooses_pre R `{!PreOrder R} m1 m2 : chooses R m1 → chooses R m2 → chooses R (m1 ;; m2).
Proof.
  intros H1 H2. eapply chooses_mono; [by apply chooses_seq|]. intros o o' (y & ? & ?). by etrans.
Qed.

Lemma chooses_on_options (R : gen_option_t → gen_option_t → Prop) f :
  (∀ o, R o (f o)) → chooses R (on_options f).
Proof. intros HR s. exists (f s.(options)), s.(rand_pos). split; [by destruct s|done]. Qed.

Lemma chooses_rand_options (R : gen_option_t → gen_option_t → Prop) f :
  (∀ v o, R o (f v o)) → chooses R (r ← rand; on_options (f r)).
Proof. intros HR s. eexists (f _ s.(options)), _. split; [reflexivity|apply HR]. Qed.

Lemma chooses_when (R : gen_option_t → gen_option_t → Prop) `{!Reflexive R} b m :
  chooses R m → chooses R (when b m).
Proof.
  intros Hm. destruct b; [done|]. eapply chooses_mono; [apply chooses_ret|]. by intros ? ? ->.
Qed.

Ltac relax_step :=
  first [ apply chooses_on_options; intros o; apply relax_le_stat;
            unfold relaxed_opts; rewrite !elem_of_cons; tauto
        | apply chooses_on_options; intros o; split; try done; intros []; split; cbn; try done;
            rewrite ?Forall_cons, ?Forall_nil;
            unfold upto, COND_RAND, SBIT_RAND, SH_TYPE_RAND, R_RAND, FP_REG_RAND, FP_SZ_Q_RAND; lia
        | apply chooses_rand_options; intros v o; split; try done; intros []; split; done ].

Lemma chooses_gears :
  chooses relax_le relax_gear_1 ∧ chooses relax_le relax_gear_2
  ∧ chooses relax_le relax_gear_3 ∧ chooses relax_le relax_gear_4.
Proof.
  unfold relax_gear_1, relax_gear_2, relax_gear_3, relax_gear_4.
  split_and!; repeat (apply chooses_pre; [apply _|relax_step|]); relax_step.
Qed.

Lemma chooses_relax_restrict cur :
  chooses (λ o o', relax_le o o' ∧
    (opt_stat o OPT_NOT_ALLOW_RELAX = true ∨ cur ≤ RETRY_RELAX_GEAR_1 → o' = o))
    (relax_restrict cur).
Proof.
  assert (chooses relax_le (
    when (RETRY_RELAX_GEAR_1 <? cur) relax_gear_1 ;; when (RETRY_RELAX_GEAR_2 <? cur) relax_gear_2 ;;
    when (RETRY_RELAX_GEAR_3 <? cur) relax_gear_3 ;; when (RETRY_RELAX_GEAR_4 <? cur) relax_gear_4)) as HG.
  { repeat (apply chooses_pre; [apply _|apply chooses_when; [apply _|apply chooses_gears]|]).
    apply chooses_when; [apply _|apply chooses_gears]. }
  intros s. unfold relax_restrict, GET_OPT_STAT, gets. unfold mbind at 1, M_bind at 1.
  destruct (opt_stat (options s) OPT_NOT_ALLOW_RELAX) eqn:E.
  { exists s.(options), s.(rand_pos). split; [by destruct s|done]. }
  destruct (Z.le_gt_cases cur RETRY_RELAX_GEAR_1) as [Hle|Hgt].
  - exists s.(options), s.(rand_pos). split; [|done].
    unfold when, RETRY_RELAX_GEAR_1, RETRY_RELAX_GEAR_2, RETRY_RELAX_GEAR_3, RETRY_RELAX_GEAR_4 in *.
    rewrite !(proj2 (Z.ltb_ge _ _)) by lia. by destruct s.
  - destruct (HG s) as (o & p & Ho & HR). exists o, p. split; [done|]. split; [done|].
    intros [?|?]; [congruence|lia].
Qed.

(** C7. [gen_rand_opt_val] completes the options: from well-formed options it
    ends (for every random stream), changes nothing but the options and the
    position in the stream, leaves no "random" marker and every field in its
    range, and keeps every value the caller gave. *)
Theorem gen_rand_opt_val_completes (s : rit_state) :
  opts_wf s.(options) →
  ∃ o p, gen_rand_opt_val s = Ok tt (st_rand_pos p (st_options o s))
    ∧ opts_wf o ∧ opts_chosen o ∧ opts_kept s.(options) o.
Proof.
  intros Hwf. destruct (chooses_gen_rand_opt_val s) as (o & p & E & H).
  exists o, p. split; [done|]. by apply H.
Qed.

(** C8. [relax_restrict] only weakens: it keeps the options well formed, never
    touches the instruction set, the opcode, the memory settings or the status
    of an option outside the twelve it may relax, and does nothing at all in
    the first retries or when the caller forbids relaxation. *)
Theorem relax_restrict_weakens (cur : Z) (s : rit_state) :
  ∃ o p, relax_restrict cur s = Ok tt (st_rand_pos p (st_options o s))
    ∧ relax_le s.(options) o
    ∧ (opt_stat s.(options) OPT_NOT_ALLOW_RELAX = true ∨ cur ≤ RETRY_RELAX_GEAR_1 →
       o = s.(options)).
Proof. apply (chooses_relax_restrict cur s). Qed.
End random.

Lemma gen_rand_opt_val_completes_witness :
  ∃ o p, gen_rand_opt_val (Env := lcg_env) (st_options default_options zero_state)
      = Ok tt (st_rand_pos p (st_options o (st_options default_options zero_state)))
    ∧ opts_wf o ∧ opts_chosen o ∧ opts_kept default_options o.
Proof.
  apply (gen_rand_opt_val_completes (Env := lcg_env) (st_options default_options zero_state)).
  split; cbn; rewrite ?Forall_cons, ?Forall_nil; unfold upto; done.
Defined.
