(* ===== verification/Loop.v ===== *)
(** * The retry loop: [gen_random_op], [init_raw_instr_bin], [gen_attempt], [gen_loop] *)
From stdpp Require Import relations.
From S2P Require Import Prelude RitCommon InstrTable State InstrUtil InstrBuf Keeps GenHelper GenARMMem ValidArch EncodeBits RandomInstrGen Options Attempt.
#[local] Open Scope c_scope.

Section loop.
Context `{Env : !RitEnv}.

(** ** 1. The opcode *)

(** What [gen_random_op] may answer: an enabled opcode of the instruction set,
    or [SISA_OP_NA] when there is none. *)
Definition random_op_spec (isa0 : Z) (l : list bool) (op : Z) : Prop :=
  let '(lo, hi) := random_op_range isa0 in
  (lo ≤ op < hi ∧ op_enabled l op = true)
  ∨ (op = SISA_OP_NA ∧ ∀ i, lo ≤ i < hi → op_enabled l i = false).

(** Drawing one of the enabled opcodes from [lo] to below [hi]. *)
Definition drawn_from (l : list bool) (lo hi op : Z) : Prop :=
  (lo ≤ op < hi ∧ op_enabled l op = true)
  ∨ (op = SISA_OP_NA ∧ ∀ i, lo ≤ i < hi → op_enabled l i = false).

Lemma draw_enabled l lo hi s :
  ∃ op p,
    (let tmp_op := List.filter (op_enabled l) (seqZ lo (hi - lo)) in
     let op_cnt := Z.of_nat (length tmp_op) in
     if negb (op_cnt =? 0) then
       r ← rand; mret (nth (Z.to_nat (r mod op_cnt)) tmp_op SISA_OP_NA)
     else mret SISA_OP_NA) s = Ok op (st_rand_pos p s)
    ∧ drawn_from l lo hi op.
Proof.
  cbv zeta. set (tmp_op := List.filter _ _).
  destruct (Z.eqb_spec (Z.of_nat (length tmp_op)) 0) as [H0|Hn0]; cbn [negb].
  - exists SISA_OP_NA, s.(rand_pos). split; [by destruct s|]. right. split; [done|]. intros i Hi.
    apply not_true_iff_false. intros He. destruct tmp_op as [|x ?] eqn:E; [|done].
    apply (in_nil (a := i)). rewrite <- E. unfold tmp_op. apply filter_In. split; [|done].
    apply list_elem_of_In, elem_of_seqZ. lia.
  - eexists _, _. split; [reflexivity|]. left. pose proof (rand_at_range s.(rand_seed) s.(rand_pos)).
    set (r := rand_at _ _) in *. set (i := Z.to_nat (r mod Z.of_nat (length tmp_op))).
    assert (i < length tmp_op)%nat as Hi.
    { unfold i. pose proof (Z.mod_pos_bound r (Z.of_nat (length tmp_op))). lia. }
    pose proof (nth_In tmp_op SISA_OP_NA Hi) as [Hin He]%filter_In.
    apply list_elem_of_In, elem_of_seqZ in Hin. split; [lia|done].
Qed.

Lemma gen_random_op_draws s :
  ∃ op p, gen_random_op s = Ok op (st_rand_pos p s)
          ∧ random_op_spec s.(options).(isa) s.(opkind_list) op.
Proof.
  unfold gen_random_op, random_op_spec, opt, gets. unfold mbind, M_bind.
  destruct (random_op_range (isa (options s))) as [lo hi]. apply draw_enabled.
Qed.

(** Every answer is an index of the table, and fits the instruction set. *)
Lemma random_op_spec_range isa0 l op :
  0 ≤ isa0 < ISA_RAND → random_op_spec isa0 l op →
  0 ≤ op < SISA_OP_MAX ∧ (isa0 = ISA_THUMB → SISA_OP_ARM_MAX ≤ op ∨ op = SISA_OP_NA).
Proof.
  unfold random_op_spec, ISA_RAND. intros Hi.
  assert (isa0 = 0 ∨ isa0 = 1 ∨ isa0 = 2 ∨ isa0 = 3) as [->|[->|[->| ->]]] by lia; cbn;
    unfold SISA_OP_NA, SISA_OP_MAX, SISA_OP_ARM_MAX, SISA_OP_THUMB_MAX, SISA_OP_THUMB_32_MAX, ISA_THUMB;
    intros [[? _]|[? _]]; lia.
Qed.

(** ** 2. The initial word *)

Lemma word_ok_init op r :
  0 ≤ op < SISA_OP_MAX → is_u32 r →
  word_ok op (instr_desc op).(match_val)
    ((r & not32 (instr_desc op).(match_msk)) .| (instr_desc op).(match_val)).
Proof.
  intros Hop Hr. pose proof (table_u32 op Hop) as [Hm Hv]. split; [auto with rit|].
  intros k Hk Hb. rewrite Z.lor_spec, Z.land_spec, testbit_not32, Hb by done.
  destruct (Z.ltb_spec k 32); simpl; [by rewrite andb_false_r|].
  by rewrite u32_testbit_high in Hb.
Qed.

Lemma is_u32_rand v : 0 ≤ v < 2 ^ 31 → is_u32 v.
Proof. unfold is_u32. lia. Qed.

Lemma wp_init_raw_instr_bin op s :
  0 ≤ op < SISA_OP_MAX → is_u32 s.(raw_instr) →
  wp (init_raw_instr_bin op)
     (λ _ s', ∃ p r, s' = st_raw_instr r (st_rand_pos p s)
                     ∧ word_ok op (instr_desc op).(match_val) r) s.
Proof.
  intros Hop Hu. unfold init_raw_instr_bin. apply wp_bind, wp_gets, wp_bind.
  apply (wp_mono _ (λ _ s', ∃ p r, s' = st_raw_instr r (st_rand_pos p s) ∧ is_u32 r)).
  - unfold when. destruct (negb _).
    + apply wp_bind. apply (wp_intro _ _ _ _ _ eq_refl). apply wp_modify.
      eexists _, _. split; [reflexivity|]. apply is_u32_rand, rand_at_range.
    + apply wp_ret. exists s.(rand_pos), s.(raw_instr). by destruct s.
  - intros [] s' (p & r & -> & Hr). apply wp_bind. unfold when.
    destruct (_ && _); [apply wp_modify|apply wp_ret]; apply wp_modify; cbn;
      eexists _, _; (split; [reflexivity|]); apply word_ok_init; auto with rit.
Qed.

(** ** 3. One attempt *)

(** What an attempt that used opcode [op] and ended with status [st] leaves. *)
Record attempt_post (op : Z) (st : instr_status_t) (s : rit_state) : Prop := {
  at_op : 0 ≤ op < SISA_OP_MAX;
  at_buf : buf_ok s.(instr_idx) s.(instr_buf);
  at_low : low_bits_of op s.(raw_instr);
  at_full : (instr_desc op).(match_msk) & cond_mask = 0 ∨ SISA_OP_ARM_MAX ≤ op →
            word_ok op (instr_desc op).(match_val) s.(raw_instr);
  at_line : st = VALID → last_line s (inst_line op s.(raw_instr));
  at_arch : st = VALID → arch_ok op s.(raw_instr)
}.

(** What the loop never changes, and the range of the raw word. *)
Record loop_inv (s0 s : rit_state) : Prop := {
  li_shadow : s.(shadow_options) = s0.(shadow_options);
  li_raw : is_u32 s.(raw_instr);
  li_reg_init : s.(is_reg_init) = s0.(is_reg_init);
  li_reg_vals : s.(reg_init_vals) = s0.(reg_init_vals);
  li_init_idx : s.(init_instr_idx) = s0.(init_instr_idx);
  li_init_buf : s.(init_instr_buf) = s0.(init_instr_buf);
  li_opkind : s.(opkind_list) = s0.(opkind_list)
}.

(** The caller's options: well formed, and a named opcode has room for its
    lines whatever instruction set is drawn. *)
Record caller_ok (so : gen_option_t) (op : Z) : Prop := {
  ca_wf : opts_wf so;
  ca_op : opt_stat so OPT_OPCODE = true → 0 ≤ op < SISA_OP_MAX ∧ arm_room true op = true
}.

Lemma wp_chooses {A} R m (k : () → rit A) Q s :
  chooses R m →
  (∀ o p, R s.(options) o → wp (k tt) Q (st_rand_pos p (st_options o s))) →
  wp (m ≫= k) Q s.
Proof.
  intros Hm Hk. destruct (Hm s) as (o & p & E & HR). apply wp_bind, (wp_intro _ _ _ _ _ E). by apply Hk.
Qed.

Lemma arm_room_le th op : arm_room true op = true → arm_room th op = true.
Proof. by destruct th. Qed.

(** The state in which [gen_instr] is called has room for the opcode. *)
Lemma wp_gen_instr_from op u s :
  0 ≤ op < SISA_OP_MAX →
  (op < SISA_OP_ARM_MAX → arm_room (s.(options).(isa) =? ISA_THUMB) op = true) →
  word_ok op (instr_desc op).(match_val) s.(raw_instr) →
  wp (gen_instr op u) (λ st s', base_frame s s' ∧ is_u32 s'.(raw_instr) ∧ attempt_post op st s') s.
Proof.
  intros Hop Hroom Hw.
  eapply wp_mono; [apply (wp_gen_instr ((s.(options).(isa) =? ISA_THUMB) || (SISA_OP_ARM_MAX <=? op)))|].
  - done.
  - intros Ha. by rewrite (proj2 (Z.leb_le _ _) Ha), orb_true_r.
  - intros Ha. rewrite (proj2 (Z.leb_gt _ _) Ha), orb_false_r. auto.
  - done.
  - intros ->. done.
  - intros st s' [Hbuf Hf Hu Hlow Hfull _ Hline Harch]. split; [done|]. split; [done|].
    split; [done|done|done| |done|done]. intros Hc. apply Hfull. destruct Hc as [?|Ha]; [by left|right].
    unfold cond_acts. by rewrite (proj2 (Z.ltb_ge _ _) Ha), andb_false_r.
Qed.

Lemma wp_gen_attempt retry op s :
  caller_ok s.(shadow_options) op → is_u32 s.(raw_instr) →
  wp (gen_attempt retry op)
     (λ os s', loop_inv s s' ∧ attempt_post os.1 os.2 s'
        ∧ (opt_stat s.(shadow_options) OPT_OPCODE = true → os.1 = op)) s.
Proof.
  intros [Hwf Hnamed] Hu. unfold gen_attempt. apply wp_bind, wp_modify.
  eapply wp_chooses; [apply chooses_relax_restrict|]. cbn. intros o1 p1 [Hrel _].
  eapply wp_chooses; [apply chooses_gen_rand_opt_val|]. cbn. intros o2 p2 Hch.
  destruct (Hch (relax_wf _ _ Hrel Hwf)) as (Hwf2 & Hch2 & Hk2).
  destruct (kept_rest _ _ Hk2) as (_ & _ & _ & _ & _ & Hst2).
  assert (opt_stat o2 OPT_OPCODE = opt_stat s.(shadow_options) OPT_OPCODE) as Hop2.
  { unfold opt_stat at 1. rewrite Hst2. fold (opt_stat o1 OPT_OPCODE).
    apply (relax_stat _ _ Hrel); [done|]. unfold relaxed_opts. rewrite !elem_of_cons, elem_of_nil.
    unfold OPT_OPCODE, OPT_COND, OPT_SHRTREG, OPT_SBIT, OPT_SHRTTYPE, OPT_FP_SREG_EXT, OPT_SHIMM,
      OPT_SREG, OPT_FP_DREG_EXT, OPT_IMM, OPT_DREG, OPT_FP_SZ_Q_EXT, OPT_REGS_LIST. lia. }
  apply wp_bind, wp_gets. cbn. rewrite Hop2. apply wp_bind.
  apply (wp_mono _ (λ op' s', ∃ p, s' = st_rand_pos p (st_options o2 s) ∧ 0 ≤ op' < SISA_OP_MAX
    ∧ (op' < SISA_OP_ARM_MAX → arm_room (isa o2 =? ISA_THUMB) op' = true)
    ∧ (opt_stat s.(shadow_options) OPT_OPCODE = true → op' = op))).
  { destruct (opt_stat s.(shadow_options) OPT_OPCODE) eqn:En; cbn [negb].
    - destruct (Hnamed eq_refl) as [Hop Hroom]. apply wp_ret. exists p2.
      split; [done|]. split; [done|]. split; [|done]. intros _. by apply arm_room_le.
    - match goal with |- wp _ _ ?st => destruct (gen_random_op_draws st) as (op' & p & E & Hs) end.
      apply (wp_intro _ _ _ _ _ E). exists p. split; [done|]. cbn in Hs.
      apply random_op_spec_range in Hs as [Hr Ht]; [|apply Hch2]. split; [done|]. split; [|done].
      intros Ha. destruct (Z.eqb_spec (isa o2) ISA_THUMB) as [E2|]; [|done].
      destruct (Ht E2) as [?| ->]; [lia|done]. }
  intros op' s3 (p & -> & Hop' & Hroom' & Hn'). apply wp_bind.
  eapply wp_mono; [by apply wp_init_raw_instr_bin|]. intros [] s4 (p4 & r & -> & Hr). apply wp_bind.
  eapply wp_mono; [by apply wp_gen_instr_from|]. intros st s5 (Hf & Hu5 & Hat). apply wp_ret.
  split; [|done]. destruct Hf. cbn in *. by split.
Qed.

(** ** 4. The loop *)

#[global] Instance loop_inv_trans : Transitive loop_inv.
Proof. intros x y z [] []. split; congruence. Qed.

(** [retry_max + 1 - retry] rounds are enough fuel, whatever the attempts
    answer; the loop ends with a valid instruction or with the last attempt. *)
Lemma wp_gen_loop fuel retry_max retry op st s :
  caller_ok s.(shadow_options) op → is_u32 s.(raw_instr) →
  Z.of_nat fuel = retry_max + 1 - retry →
  (st ≠ VALID ∧ retry ≤ retry_max) ∨ attempt_post op st s →
  wp (gen_loop fuel retry_max retry op st)
     (λ os s', (loop_inv s s' ∨ s' = s) ∧ attempt_post os.1 os.2 s'
        ∧ (opt_stat s.(shadow_options) OPT_OPCODE = true → os.1 = op)) s.
Proof.
  revert retry op st s. induction fuel as [|fuel IH]; intros retry op st s Hca Hu Hfuel Hst;
    cbn [gen_loop].
  { rewrite (proj2 (Z.leb_gt retry retry_max)), andb_false_r by lia. apply wp_ret.
    destruct Hst as [[_ ?]|?]; [lia|]. auto. }
  destruct (negb (status_eqb st VALID) && (retry <=? retry_max)) eqn:E.
  - apply wp_bind. eapply wp_mono; [by apply wp_gen_attempt|].
    intros [op1 st1] s1 (Hli & Hat & Hn). cbn in Hat, Hn.
    assert (caller_ok s1.(shadow_options) op1) as Hca1.
    { rewrite (li_shadow _ _ Hli). destruct Hca as [Hwf Hnm]. split; [done|].
      intros Ho. rewrite (Hn Ho). by apply Hnm. }
    eapply wp_mono; [apply IH; [done|apply Hli|lia|by right]|].
    intros [op2 st2] s2 (Hli2 & Hat2 & Hn2). rewrite (li_shadow _ _ Hli) in Hn2. cbn in *.
    split; [|split; [done|]].
    + left. destruct Hli2 as [?| ->]; [by etrans|done].
    + intros Ho. by rewrite Hn2, Hn.
  - apply wp_ret. split; [by right|]. split; [|done]. cbn. destruct Hst as [[Hne Hle]|Hat]; [|done].
    rewrite (proj2 (Z.leb_le _ _) Hle), andb_true_r in E.
    apply negb_false_iff, status_eqb_eq in E. done.
Qed.

(** *** The loop as a transition system *)

(** The variables of the loop and the globals. *)
Record conf := Conf {
  c_retry : Z; c_op : Z; c_status : instr_status_t; c_state : rit_state
}.

(** One round: the loop condition holds and the attempt returns. *)
Inductive round (retry_max : Z) : conf → conf → Prop :=
  | round_attempt retry op st s op' st' s' :
      st ≠ VALID → retry ≤ retry_max → gen_attempt retry op s = Ok (op', st') s' →
      round retry_max (Conf retry op st s) (Conf (retry + 1) op' st' s').

Lemma round_det retry_max c c1 c2 : round retry_max c c1 → round retry_max c c2 → c1 = c2.
Proof. intros [????????? E1] H2. inversion H2 as [????????? E2]; subst. rewrite E1 in E2. by injection E2 as -> -> ->. Qed.

(** Where the loop stops, no round starts. *)
Lemma round_stops retry_max c c' :
  c.(c_status) = VALID ∨ retry_max < c.(c_retry) → ¬ round retry_max c c'.
Proof. intros Hc H. destruct H; cbn in Hc. destruct Hc; [done|lia]. Qed.

(** Two runs of a deterministic loop: the one that stops contains the other. *)
Lemma rounds_stop retry_max n c c1 c2 :
  nsteps (round retry_max) n c c1 → (c1.(c_status) = VALID ∨ retry_max < c1.(c_retry)) →
  rtc (round retry_max) c c2 → rtc (round retry_max) c2 c1.
Proof.
  intros Hn Hstop Hr. revert c2 Hr. induction Hn as [c|n c d c1 Hd Hn IH]; intros c2 Hr.
  - inversion Hr as [|? ? ? H]; subst; [done|]. by apply round_stops in H.
  - inversion Hr as [|? d' ? Hd' Hr']; subst.
    + eapply rtc_l; [exact Hd|]. apply rtc_nsteps_2 with (1 := Hn).
    + rewrite (round_det _ _ _ _ Hd' Hd) in Hr'. by apply IH.
Qed.

Lemma rtc_stopped retry_max c c' :
  c.(c_status) = VALID ∨ retry_max < c.(c_retry) → rtc (round retry_max) c c' → c' = c.
Proof. intros Hc H. inversion H as [|? ? ? Hr]; subst; [done|]. by apply round_stops in Hr. Qed.

(** [gen_loop] runs the transition system to its end. *)
Lemma gen_loop_rounds fuel retry_max retry op st s op' st' s' :
  Z.of_nat fuel = retry_max + 1 - retry →
  gen_loop fuel retry_max retry op st s = Ok (op', st') s' →
  ∃ n, nsteps (round retry_max) n (Conf retry op st s) (Conf (retry + Z.of_nat n) op' st' s')
    ∧ (st' = VALID ∨ retry + Z.of_nat n = retry_max + 1).
Proof.
  revert retry op st s. induction fuel as [|fuel IH]; intros retry op st s Hfuel; cbn [gen_loop].
  { rewrite (proj2 (Z.leb_gt retry retry_max)), andb_false_r by lia. intros [= -> -> ->].
    exists 0%nat. rewrite Z.add_0_r. split; [constructor|]. right. lia. }
  destruct (negb (status_eqb st VALID)) eqn:E1; cbn [andb].
  - rewrite (proj2 (Z.leb_le retry retry_max)) by lia.
    intros ([op1 st1] & s1 & E & (n & Hn & Hst)%IH)%bind_ok; [|lia]. exists (S n).
    replace (retry + Z.of_nat (S n)) with (retry + 1 + Z.of_nat n) by lia. split; [|done].
    econstructor; [|exact Hn]. constructor; [|lia|done].
    intros ->. by rewrite (proj2 (status_eqb_eq _ _) eq_refl) in E1.
  - intros [= -> -> ->]. exists 0%nat. rewrite Z.add_0_r. split; [constructor|]. left.
    by apply negb_false_iff, status_eqb_eq in E1.
Qed.

(** A run from the initial configuration that ends makes at least one round and
    at most [retry_max + 1]. *)
Lemma rounds_le retry_max n c c' :
  nsteps (round retry_max) n c c' → c.(c_retry) ≤ retry_max + 1 → c'.(c_retry) ≤ retry_max + 1.
Proof. induction 1 as [|n c d c' Hd _ IH]; [done|]. intros _. apply IH. destruct Hd. cbn. lia. Qed.

Lemma rounds_bounds retry_max n op op' st s s' :
  0 ≤ retry_max → (st = VALID ∨ Z.of_nat n = retry_max + 1) →
  nsteps (round retry_max) n (Conf 0 op UNSUPPORTED s) (Conf (Z.of_nat n) op' st s') →
  0 < Z.of_nat n ≤ retry_max + 1.
Proof.
  intros Hm Hst Hn. split; [|apply (rounds_le _ _ _ _ Hn); cbn; lia].
  destruct n as [|n]; [|lia]. inversion Hn; subst. destruct Hst; [done|lia].
Qed.

(** ** 5. Properties *)

(** C6. The retry loop ends: for caller options that are well formed, and
    [retry_max + 1] rounds as bound, [gen_loop] never runs out of rounds, no
    attempt aborts, and what it returns is the opcode and status of its last
    attempt: the buffer of that attempt is well formed, its word carries the
    fixed bits of the opcode, and if it is [VALID] the encoding line is the
    last line of the buffer and the word meets the restrictions of its
    opcode ([arch_ok]). A named opcode is never replaced. *)
Theorem gen_loop_ends (retry_max op : Z) (s : rit_state) :
  0 ≤ retry_max → caller_ok s.(shadow_options) op → is_u32 s.(raw_instr) →
  ∃ op' st s', gen_loop (Z.to_nat (retry_max + 1)) retry_max 0 op UNSUPPORTED s = Ok (op', st) s'
    ∧ attempt_post op' st s'
    ∧ (opt_stat s.(shadow_options) OPT_OPCODE = true → op' = op).
Proof.
  intros Hm Hca Hu.
  destruct (wp_elim _ _ _ (wp_gen_loop (Z.to_nat (retry_max + 1)) retry_max 0 op UNSUPPORTED s
    Hca Hu ltac:(lia) ltac:(left; done))) as ([op' st] & s' & E & _ & Hat & Hn).
  by exists op', st, s'.
Qed.

(** C38. The loop answers the first valid instruction: [gen_loop] is the run of
    the transition system [round] from the first attempt to its end, which is
    the first attempt whose status is [VALID], or attempt number [retry_max] if
    none is; so if any attempt the loop can reach is [VALID], then the loop
    answers exactly that one, with the state it left. *)
Theorem gen_loop_first_valid (retry_max op : Z) (s : rit_state) :
  0 ≤ retry_max → caller_ok s.(shadow_options) op → is_u32 s.(raw_instr) →
  let init := Conf 0 op UNSUPPORTED s in
  ∃ n op' st s',
    gen_loop (Z.to_nat (retry_max + 1)) retry_max 0 op UNSUPPORTED s = Ok (op', st) s'
    ∧ nsteps (round retry_max) n init (Conf (Z.of_nat n) op' st s')
    ∧ 0 < Z.of_nat n ≤ retry_max + 1
    ∧ (st = VALID ∨ Z.of_nat n = retry_max + 1)
    ∧ ∀ c, rtc (round retry_max) init c → c.(c_status) = VALID → c = Conf (Z.of_nat n) op' st s'.
Proof.
  intros Hm Hca Hu init.
  destruct (wp_elim _ _ _ (wp_gen_loop (Z.to_nat (retry_max + 1)) retry_max 0 op UNSUPPORTED s
    Hca Hu ltac:(lia) ltac:(left; done))) as ([op' st] & s' & E & _).
  destruct (gen_loop_rounds (Z.to_nat (retry_max + 1)) retry_max 0 op UNSUPPORTED s op' st s' ltac:(lia) E) as (n & Hn & Hst).
  rewrite Z.add_0_l in Hn, Hst. exists n, op', st, s'. split; [done|]. split; [done|].
  split; [by eapply rounds_bounds|]. split; [done|]. intros c Hc Hv. symmetry.
  apply (rtc_stopped retry_max); [by left|]. eapply rounds_stop; [exact Hn| |done].
  cbn. destruct Hst; [by left|right; lia].
Qed.

(** [gen_random_op] answers an opcode of the instruction set whose kind is
    enabled, for every random number, and [SISA_OP_NA] only if there is none;
    it changes nothing but the position in the random stream. *)
Theorem gen_random_op_enabled (s : rit_state) :
  ∃ op p, gen_random_op s = Ok op (st_rand_pos p s)
    ∧ random_op_spec s.(options).(isa) s.(opkind_list) op.
Proof. apply gen_random_op_draws. Qed.

(** [init_raw_instr_bin] starts an encoding of the opcode: for every table
    entry that can match at all, whatever the random word or the word the
    caller gave, the word it leaves is a 32-bit word that the opcode matches. *)
Theorem init_raw_instr_bin_matches (op : Z) (s : rit_state) :
  0 ≤ op < SISA_OP_MAX →
  (instr_desc op).(match_val) & (instr_desc op).(match_msk) = (instr_desc op).(match_val) →
  is_u32 s.(raw_instr) →
  ∃ s', init_raw_instr_bin op s = Ok tt s' ∧ is_u32 s'.(raw_instr) ∧ op_matches op s'.(raw_instr)
    ∧ s'.(options) = s.(options).
Proof.
  intros Hop Hv Hu.
  destruct (wp_elim _ _ _ (wp_init_raw_instr_bin op s Hop Hu)) as ([] & s' & E & p & r & -> & Hw).
  eexists. split; [exact E|]. split; [apply Hw|]. split; [by apply word_ok_matches|done].
Qed.
End loop.

Lemma gen_loop_ends_witness :
  ∃ op' st s', gen_loop (Env := lcg_env) (Z.to_nat (2 + 1)) 2 0 SISA_OP_ADD_imm UNSUPPORTED
      (st_shadow_options default_options zero_state) = Ok (op', st) s'
    ∧ attempt_post op' st s'
    ∧ (opt_stat default_options OPT_OPCODE = true → op' = SISA_OP_ADD_imm).
Proof.
  apply (gen_loop_ends (Env := lcg_env) 2 SISA_OP_ADD_imm
    (st_shadow_options default_options zero_state)); [lia| |unfold is_u32; cbn; lia].
  by split; [apply default_options_wf|].
Defined.

Lemma gen_loop_first_valid_witness :
  let s := st_shadow_options default_options zero_state in
  let init := Conf 0 SISA_OP_ADD_imm UNSUPPORTED s in
  ∃ n op' st s',
    gen_loop (Env := lcg_env) (Z.to_nat (2 + 1)) 2 0 SISA_OP_ADD_imm UNSUPPORTED s = Ok (op', st) s'
    ∧ nsteps (round (Env := lcg_env) 2) n init (Conf (Z.of_nat n) op' st s')
    ∧ 0 < Z.of_nat n ≤ 2 + 1
    ∧ (st = VALID ∨ Z.of_nat n = 2 + 1)
    ∧ ∀ c, rtc (round (Env := lcg_env) 2) init c → c.(c_status) = VALID → c = Conf (Z.of_nat n) op' st s'.
Proof.
  intros s. apply (gen_loop_first_valid (Env := lcg_env) 2 SISA_OP_ADD_imm s);
    [lia| |unfold is_u32; cbn; lia].
  by split; [apply default_options_wf|].
Defined.

Lemma init_raw_instr_bin_matches_witness :
  ∃ s', init_raw_instr_bin (Env := lcg_env) SISA_OP_ADD_imm zero_state = Ok tt s'
    ∧ is_u32 s'.(raw_instr) ∧ op_matches SISA_OP_ADD_imm s'.(raw_instr)
    ∧ s'.(options) = zero_state.(options).
Proof.
  apply (init_raw_instr_bin_matches (Env := lcg_env) SISA_OP_ADD_imm zero_state);
    [done|vm_compute; reflexivity|unfold is_u32; cbn; lia].
Defined.
