(* ===== verification/Output.v ===== *)
(** * The output stage: bias initialisation code and [print_buf]

    [output_instr] never writes outside its buffers: at most two lines per
    initialised register, at most four registers, and all lines together fit
    [print_buf]. *)
From S2P Require Import Prelude RitCommon InstrTable State InstrUtil InstrBuf Keeps EncodeBits RandomInstrGen Attempt.
#[local] Open Scope c_scope.

Section output.
Context `{Env : !RitEnv}.

(** ** 1. Registers to initialise *)

Definition sum_true (l : list bool) : Z := foldr (λ b n, Z.b2z b + n) 0 l.

Lemma sum_true_insert l i b : sum_true (<[i:=b]> l) ≤ sum_true l + 1.
Proof.
  revert i. induction l as [|x l IH]; intros [|i]; simpl; try lia.
  - destruct b, x; simpl; lia.
  - specialize (IH i). lia.
Qed.

Lemma sum_true_replicate n : sum_true (replicate n false) = 0.
Proof. induction n; simpl; lia. Qed.

(** What the output stage leaves alone. *)
Record out_frame (s s' : rit_state) : Prop := {
  of_idx : s'.(instr_idx) = s.(instr_idx);
  of_buf : s'.(instr_buf) = s.(instr_buf);
  of_raw : s'.(raw_instr) = s.(raw_instr);
  of_fixed : s'.(cur_fixed_bit) = s.(cur_fixed_bit);
  of_opts : s'.(options) = s.(options);
  of_print : s'.(print_buf) = s.(print_buf)
}.

#[global] Instance out_frame_preorder : PreOrder out_frame.
Proof. split; [done|]. intros x y z [] []. split; congruence. Qed.

(** A register operand that is initialised has a number below 16. *)
Definition narrow (o : sisa_opnd_t) : bool :=
  match o.(type) with
  | SISA_OPND_TYPE_GPR | SISA_OPND_TYPE_SHIFT_REG => o.(end_bit) - o.(start_bit) <? 4
  | _ => true
  end.

Lemma narrow_table op i : 0 ≤ op < SISA_OP_MAX → narrow (opnd_of op i) = true.
Proof.
  intros Hop. unfold opnd_of.
  pose proof (table_check (λ op, forallb narrow (instr_desc op).(opnds))
    ltac:(vm_compute; reflexivity) op Hop) as HT. cbv beta in HT.
  destruct (nth_in_or_default i (opnds (instr_desc op)) OPNDNA) as [Hin| ->]; [|done].
  rewrite forallb_forall in HT. by apply HT.
Qed.

Lemma regnum_bound raw op o :
  is_u32 raw → opnd_wf (field_top op) o = true → narrow o = true →
  o.(type) = SISA_OPND_TYPE_GPR ∨ o.(type) = SISA_OPND_TYPE_SHIFT_REG →
  0 ≤ get_regnum raw o < 16.
Proof.
  intros [Hr _] Hwf Hn Hty. unfold get_regnum, narrow in *. pose proof (field_top_range op). field_facts.
  assert (0 ≤ get_bits_value raw o.(start_bit) o.(end_bit) < 16);
    [|destruct Hty as [E|E]; rewrite E in *; done].
  assert (o.(end_bit) - o.(start_bit) < 4) by (destruct Hty as [E|E]; rewrite E in *; by apply Z.ltb_lt).
  pose proof (get_bits_value_range raw o.(start_bit) o.(end_bit)) as Hg.
  assert (2 ^ (o.(end_bit) - o.(start_bit) + 1) ≤ 2 ^ 4) by (apply Z.pow_le_mono_r; lia). lia.
Qed.

(** The registers marked so far. *)
Record marked (n : Z) (init : list bool) : Prop := {
  mk_len : length init = 16%nat;
  mk_sum : sum_true init ≤ n
}.

Lemma wp_bias_reg_init op i vals n s :
  0 ≤ op < SISA_OP_MAX → is_u32 s.(raw_instr) → marked n s.(is_reg_init) →
  (opnd_of op i).(type) = SISA_OPND_TYPE_GPR ∨ (opnd_of op i).(type) = SISA_OPND_TYPE_SHIFT_REG →
  wp (bias_reg_init (opnd_of op i) vals) (λ _ s', marked (n + 1) s'.(is_reg_init) ∧ out_frame s s') s.
Proof.
  intros Hop Hu [Hl Hs] Hty. unfold bias_reg_init. apply wp_bind, wp_gets, wp_bind.
  apply (wp_intro _ _ _ _ _ eq_refl).
  pose proof (regnum_bound s.(raw_instr) op (opnd_of op i) Hu (opnd_wf_table op i Hop)
    (narrow_table op i Hop) Hty) as Hr.
  destruct (negb _); [|apply wp_ret; split; [split; [done|by etrans; [exact Hs|lia]]|done]].
  apply wp_bind, wp_assert; [apply Z.ltb_lt, Hr|]. apply wp_bind, wp_gets. unfold when.
  destruct (negb _); [|apply wp_ret; split; [split; [done|by etrans; [exact Hs|lia]]|done]].
  apply wp_bind, wp_modify, wp_modify. split; [|done]. split; cbn; [by rewrite length_insert|].
  etrans; [apply sum_true_insert|lia].
Qed.

Lemma wp_set_bias_oprand_value op s :
  0 ≤ op < SISA_OP_MAX → is_u32 s.(raw_instr) → marked 0 s.(is_reg_init) →
  wp (set_bias_oprand_value op) (λ _ s', marked 4 s'.(is_reg_init) ∧ out_frame s s') s.
Proof.
  intros Hop Hu Hm. unfold set_bias_oprand_value.
  assert (∀ i n s1, marked n s1.(is_reg_init) → out_frame s s1 →
    wp (match (opnd_of op i).(type) with
        | SISA_OPND_TYPE_GPR => bias_reg_init (opnd_of op i) reg_val
        | SISA_OPND_TYPE_SHIFT_REG => bias_reg_init (opnd_of op i) shift_reg_val
        | _ => mret tt
        end) (λ _ s', marked (n + 1) s'.(is_reg_init) ∧ out_frame s s') s1) as Hstep.
  { intros i n s1 Hm1 Hf1.
    assert (marked (n + 1) s1.(is_reg_init)) by (destruct Hm1; split; [done|lia]).
    destruct (type (opnd_of op i)) eqn:Ety; try by apply wp_ret.
    all: eapply wp_mono; [apply (wp_bias_reg_init _ _ _ n); [done|by rewrite (of_raw _ _ Hf1)|done|auto]|];
      intros ? s2 [??]; split; [done|by etrans]. }
  cbn [forM]. do 4 (apply wp_bind; eapply wp_mono;
    [apply Hstep; [eassumption|first [reflexivity|assumption]]|cbn; intros _ ? [??]]).
  by apply wp_ret.
Qed.

(** ** 2. The initialisation lines *)

Lemma wp_put_init_line line Q s :
  buf_ok s.(init_instr_idx) s.(init_instr_buf) → s.(init_instr_idx) + 1 ≤ MAX_INSTR → line_ok line →
  (∀ s', buf_ok s'.(init_instr_idx) s'.(init_instr_buf) →
         s'.(init_instr_idx) = s.(init_instr_idx) + 1 → out_frame s s' →
         s'.(is_reg_init) = s.(is_reg_init) → Q tt s') →
  wp (put_init_line line) Q s.
Proof.
  intros Hb Hi Hl HQ. unfold put_init_line. apply wp_bind, wp_gets, wp_bind, wp_assert.
  { apply Z.ltb_lt. lia. }
  unfold sprintf_line. apply wp_bind, wp_bind, wp_assert.
  { apply Z.leb_le. destruct Hl. unfold line_max, MAX_STR_INSTR_LEN in *. lia. }
  apply wp_ret, wp_bind, wp_modify, wp_modify. apply HQ; [|done..]. by apply buf_ok_insert.
Qed.

(** The marked registers among [xs]. *)
Definition marks (init : list bool) (xs : list Z) : Z :=
  foldr (λ r n, Z.b2z (nth (Z.to_nat r) init false) + n) 0 xs.

Lemma marks_bound init : length init = 16%nat → marks init (rev (seqZ 0 15)) ≤ sum_true init.
Proof.
  intros Hl. do 15 (destruct init as [|? init]; [done|]). destruct init as [|b15 init]; [done|].
  destruct init; [|done].
  change (rev (seqZ 0 15)) with [14; 13; 12; 11; 10; 9; 8; 7; 6; 5; 4; 3; 2; 1; 0].
  cbv -[Z.b2z Z.add Z.le]. assert (0 ≤ Z.b2z b15) by (destruct b15; simpl; lia). lia.
Qed.

Lemma wp_gen_oprand_init_instrs s :
  marked 4 s.(is_reg_init) →
  wp gen_oprand_init_instrs
     (λ _ s', buf_ok s'.(init_instr_idx) s'.(init_instr_buf) ∧ out_frame s s') s.
Proof.
  intros [Hl Hs]. unfold gen_oprand_init_instrs. do 2 (apply wp_bind, wp_modify).
  set (s0 := st_init_instr_buf _ _).
  assert (buf_ok s0.(init_instr_idx) s0.(init_instr_buf)) as Hb0.
  { split; [done|done|]. apply Forall_replicate, line_ok_nil. }
  assert (out_frame s s0) as Hf0 by done.
  assert (s0.(init_instr_idx) + 2 * marks s0.(is_reg_init) (rev (seqZ 0 15)) ≤ MAX_INSTR) as Hroom.
  { pose proof (marks_bound _ Hl). cbn in *. unfold MAX_INSTR. lia. }
  clearbody s0. clear Hl Hs. revert s0 Hb0 Hf0 Hroom.
  induction (rev (seqZ 0 15)) as [|r xs IH]; intros s0 Hb0 Hf0 Hroom; cbn [forM]; [by apply wp_ret|].
  cbn [marks foldr] in Hroom. fold (marks s0.(is_reg_init) xs) in Hroom.
  apply wp_bind, wp_bind, wp_gets, wp_bind, wp_gets.
  destruct (nth (Z.to_nat r) (is_reg_init s0) false); cbn [Z.b2z] in Hroom;
    [|apply wp_ret, IH; [done|done|lia]].
  assert (0 ≤ marks (is_reg_init s0) xs) as H0.
  { clear. induction xs as [|x xs IH]; cbn -[Z.b2z]; [done|].
    destruct (nth (Z.to_nat x) (is_reg_init s0) false); cbn [Z.b2z]; unfold marks in IH; lia. }
  apply wp_bind, wp_gets. destruct (_ && _).
  - apply wp_bind, wp_put_init_line; [done|lia|solve_line|]. intros s1 Hb1 Hi1 Hf1 Hm1.
    apply wp_put_init_line; [done|lia|solve_line|]. intros s2 Hb2 Hi2 Hf2 Hm2.
    apply IH; [done|do 2 (etrans; [eassumption|]); done|]. rewrite Hm2, Hm1. lia.
  - apply wp_put_init_line; [done|lia|solve_line|]. intros s1 Hb1 Hi1 Hf1 Hm1.
    apply IH; [done|by etrans|]. rewrite Hm1. lia.
Qed.

(** ** 3. Printing *)

(** The lines of a buffer, each ended by a newline. *)
Definition lines_text (lines : list string) : string :=
  foldr (λ line text, line +:+ nl +:+ text) "" lines.

Lemma string_app_assoc (a b c : string) : (a +:+ b) +:+ c = a +:+ (b +:+ c).
Proof. induction a as [|x a IH]; [done|]. exact (f_equal (String x) IH). Qed.

Lemma string_app_nil_r (a : string) : a +:+ "" = a.
Proof. induction a as [|x a IH]; [done|]. exact (f_equal (String x) IH). Qed.

Lemma wp_print_lines_loop lines s :
  Forall line_ok lines →
  Z.of_nat (String.length s.(print_buf)) + 53 * Z.of_nat (length lines) < BUF_SIZE →
  wp (forM lines print_line) (λ _ s', s' = st_print_buf (s.(print_buf) +:+ lines_text lines) s) s.
Proof.
  intros Hl. revert s. induction Hl as [|line lines Hline Hl IH]; intros s Hroom; cbn [forM].
  { apply wp_ret. cbn. rewrite string_app_nil_r. by destruct s. }
  apply wp_bind. unfold print_line. apply wp_bind, wp_gets.
  destruct Hline as [Hline _]. unfold line_max in Hline.
  rewrite substring_whole by (unfold MAX_STR_INSTR_LEN; lia).
  assert (Z.of_nat (String.length (print_buf s +:+ line +:+ nl))
          = Z.of_nat (String.length (print_buf s)) + Z.of_nat (String.length line) + 1) as Hlen.
  { rewrite !length_string_app. cbn [String.length nl]. lia. }
  cbn [length] in Hroom. apply wp_bind, wp_assert.
  { apply Z.ltb_lt. rewrite Hlen. lia. }
  apply wp_modify. eapply wp_mono; [apply IH; cbn [print_buf st_print_buf]; rewrite Hlen; lia|].
  cbn. intros _ s' ->. by rewrite !string_app_assoc.
Qed.

Lemma wp_print_lines lines n s :
  buf_ok n lines →
  Z.of_nat (String.length s.(print_buf)) + 53 * n < BUF_SIZE →
  wp (print_lines lines n)
     (λ _ s', s' = st_print_buf (s.(print_buf) +:+ lines_text (take (Z.to_nat n) lines)) s) s.
Proof.
  intros [Hn Hlen Hs] Hroom. unfold print_lines. apply wp_bind, wp_assert; [apply Z.leb_le, Hn|].
  apply wp_print_lines_loop; [by apply Forall_take|]. rewrite length_take. lia.
Qed.

Lemma length_lines_text lines :
  Forall line_ok lines →
  Z.of_nat (String.length (lines_text lines)) ≤ 53 * Z.of_nat (length lines).
Proof.
  induction 1 as [|line lines Hl _ IH]; [done|]. cbn [lines_text foldr].
  fold (lines_text lines). destruct Hl as [Hl _]. unfold line_max in Hl. rewrite !length_string_app.
  cbn [String.length nl length]. lia.
Qed.

(** ** 4. The whole stage *)

Definition head_line (op instr : Z) (st : instr_status_t) : string :=
  "[INFO] " +:+ instr_status_name st +:+ " " +:+ default "(null)" (instr_desc op).(name)
  +:+ " 0x" +:+ fmt_08x instr +:+ nl.

Definition name_len_ok (op : Z) : bool :=
  (String.length (default "(null)" (instr_desc op).(name)) <=? 40)%nat.

Lemma length_head_line op instr st :
  0 ≤ op < SISA_OP_MAX → (String.length (head_line op instr st) ≤ 80)%nat.
Proof.
  intros Hop. pose proof (table_check name_len_ok ltac:(vm_compute; reflexivity) op Hop) as Hn.
  unfold name_len_ok in Hn. apply Nat.leb_le in Hn. unfold head_line.
  rewrite !length_string_app, length_fmt_08x.
  assert (String.length (instr_status_name st) ≤ 13)%nat by (destruct st; cbn; lia).
  set (n := String.length (default _ _)) in *. cbn [String.length nl]. lia.
Qed.

(** Operand initialisation code is to be generated. *)
Definition bias_wanted (s : rit_state) : bool :=
  opt_stat s.(options) OPT_ALLOW_BIAS_OPND && negb s.(is_oprand_init).

(** [output_instr] succeeds, and prints the head line, the initialisation lines
    and the lines of the instruction buffer, in this order. *)
Lemma wp_output_instr op instr st s :
  0 ≤ op < SISA_OP_MAX → is_u32 s.(raw_instr) → buf_ok s.(instr_idx) s.(instr_buf) →
  marked 0 s.(is_reg_init) → buf_ok s.(init_instr_idx) s.(init_instr_buf) →
  wp (output_instr op instr st)
     (λ _ s', s'.(instr_idx) = s.(instr_idx) ∧ s'.(instr_buf) = s.(instr_buf)
        ∧ s'.(raw_instr) = s.(raw_instr) ∧ s'.(cur_fixed_bit) = s.(cur_fixed_bit)
        ∧ ∃ init, s'.(print_buf) = head_line op instr st +:+ lines_text init
                    +:+ lines_text (take (Z.to_nat s.(instr_idx)) s.(instr_buf))
            ∧ Forall line_ok init
            ∧ (bias_wanted s = false →
               init = take (Z.to_nat s.(init_instr_idx)) s.(init_instr_buf))) s.
Proof.
  intros Hop Hu Hbuf Hm Hib. unfold output_instr. fold (head_line op instr st).
  apply wp_bind, wp_gets, wp_bind, wp_assert.
  { destruct Hbuf as [Hi _ _]. apply andb_true_iff. split; apply Z.leb_le; lia. }
  pose proof (length_head_line op instr st Hop) as Hhl.
  apply wp_bind, wp_assert; [apply Z.ltb_lt; unfold BUF_SIZE; lia|].
  apply wp_bind, wp_modify, wp_bind, wp_gets, wp_bind, wp_gets, wp_bind.
  set (s1 := st_print_buf _ s).
  change (opt_stat _ OPT_ALLOW_BIAS_OPND && negb _) with (bias_wanted s).
  apply (wp_mono _ (λ _ s2, (buf_ok s2.(init_instr_idx) s2.(init_instr_buf) ∧ out_frame s1 s2)
    ∧ (bias_wanted s = false → s2 = s1))).
  { unfold when. destruct (bias_wanted s); [|by apply wp_ret].
    apply wp_bind. eapply wp_mono; [apply wp_set_bias_oprand_value; [done|done|]|].
    { done. }
    intros _ s2 [Hm2 Hf2]. eapply wp_mono; [by apply wp_gen_oprand_init_instrs|].
    intros _ s3 [Hb3 Hf3]. split; [split; [done|by etrans]|done]. }
  intros _ s2 [[Hib2 [Hf1 Hf2 Hf3 Hf4 Hf5 Hf6]] Hsame]. cbn in *.
  apply wp_bind, wp_gets, wp_bind, wp_gets, wp_bind.
  destruct (Hib2) as [Hn2 Hl2 Hs2]. destruct (Hbuf) as [Hn Hl Hs]. unfold MAX_INSTR, BUF_SIZE in *.
  eapply wp_mono; [apply wp_print_lines; [done|rewrite Hf6; unfold BUF_SIZE; lia]|].
  intros _ s3 ->. apply wp_bind, wp_gets, wp_bind, wp_gets. cbn.
  pose proof (length_lines_text (take (Z.to_nat (init_instr_idx s2)) (init_instr_buf s2))
    (Forall_take _ _ _ Hs2)) as Hlt. rewrite length_take in Hlt.
  eapply wp_mono; [apply wp_print_lines; [by rewrite Hf1, Hf2|]|].
  { cbn. rewrite Hf6, length_string_app, Hf1. unfold BUF_SIZE. lia. }
  intros _ s4 ->. cbn. rewrite Hf1, Hf2, Hf3, Hf4, Hf6. split_and!; [done..|].
  eexists. split; [by rewrite !string_app_assoc|]. split; [by apply Forall_take|].
  intros Hb. by rewrite (Hsame Hb).
Qed.

(** [output_instr] prints what it is given: from well-formed buffers it
    ends without overrunning [print_buf], whether or not operand
    initialisation code is asked for, leaves the raw word and the instruction
    buffer alone, and the text is the head line (status, name, word), the
    initialisation lines (those already in [init_instr_buf], unless it has to
    make new ones), and the lines of the instruction buffer in order. *)
Theorem output_instr_text (op instr : Z) (st : instr_status_t) (s : rit_state) :
  0 ≤ op < SISA_OP_MAX → is_u32 s.(raw_instr) → buf_ok s.(instr_idx) s.(instr_buf) →
  marked 0 s.(is_reg_init) → buf_ok s.(init_instr_idx) s.(init_instr_buf) →
  ∃ s' init, output_instr op instr st s = Ok tt s'
    ∧ s'.(print_buf) = head_line op instr st +:+ lines_text init
        +:+ lines_text (take (Z.to_nat s.(instr_idx)) s.(instr_buf))
    ∧ (bias_wanted s = false → init = take (Z.to_nat s.(init_instr_idx)) s.(init_instr_buf))
    ∧ s'.(raw_instr) = s.(raw_instr) ∧ s'.(instr_buf) = s.(instr_buf).
Proof.
  intros Hop Hu Hb Hm Hib.
  destruct (wp_elim _ _ _ (wp_output_instr op instr st s Hop Hu Hb Hm Hib))
    as ([] & s' & E & _ & Hbuf & Hr & _ & init & Ht & _ & Hi).
  by exists s', init.
Qed.
End output.

Lemma output_instr_text_witness :
  ∃ s' init, output_instr (Env := lcg_env) SISA_OP_ADD_imm 0xe2812003 VALID zero_state = Ok tt s'
    ∧ s'.(print_buf) = head_line SISA_OP_ADD_imm 0xe2812003 VALID +:+ lines_text init
        +:+ lines_text (take (Z.to_nat 0) (replicate 8 EmptyString))
    ∧ (bias_wanted zero_state = false → init = take (Z.to_nat 0) (replicate 8 EmptyString))
    ∧ s'.(raw_instr) = 0 ∧ s'.(instr_buf) = replicate 8 EmptyString.
Proof.
  assert (buf_ok 0 (replicate 8 EmptyString)) as Hb.
  { split; [done|done|]. apply Forall_replicate, line_ok_nil. }
  apply (output_instr_text (Env := lcg_env) SISA_OP_ADD_imm 0xe2812003 VALID zero_state);
    [done|unfold is_u32; cbn; lia|exact Hb|done|exact Hb].
Defined.
