(* ===== verification/Params.v ===== *)
(** * Parameters: the invariant of the parser, and what it stores

    [pinv] is what [init_env_val] establishes and every parameter keeps; the
    kind filter is the set of kinds with a segment of the string as prefix. *)
From Stdlib Require Import Ascii.
From S2P Require Import Prelude RitCommon InstrTable State InstrUtil InstrBuf Keeps EncodeBits RandomInstrGen InstrGenerator Options Output.
#[local] Open Scope c_scope.

(** ** 1. Selecting kinds terminates *)

Lemma comma_at_bound str k : comma_at str = Some k → (k < String.length str)%nat.
Proof.
  revert k. induction str as [|c str IH]; intros k; cbn; [done|].
  destruct (Ascii.eqb c _); [intros [= <-]; lia|].
  destruct (comma_at str) as [j|]; cbn; [|done]. intros [= <-]. specialize (IH j eq_refl). lia.
Qed.

Lemma length_str_drop n str : String.length (str_drop n str) = (String.length str - n)%nat.
Proof. revert n. induction str as [|c str IH]; intros [|n]; cbn; [done..|]. apply IH. Qed.

(** One round per segment: as many rounds as characters, and one, are enough. *)
Lemma opkind_loop_total fuel str l :
  (String.length str < fuel)%nat → is_Some (opkind_loop fuel str l).
Proof.
  revert str l. induction fuel as [|fuel IH]; intros str l Hf; [lia|]. cbn [opkind_loop].
  destruct str as [|c str]; [done|]. destruct (comma_at (String c str)) as [k|] eqn:E; [|done].
  apply comma_at_bound in E. apply IH. rewrite length_str_drop. cbn in *. lia.
Qed.

Lemma update_opkind_str_ok str s :
  ∃ l, update_opkind_str str s = Ok tt (st_opkind_list l s).
Proof.
  unfold update_opkind_str.
  destruct (opkind_loop_total (S (String.length str)) str (replicate opkind_num false)) as [l Hl];
    [lia|]. rewrite Hl. by exists l.
Qed.

(** ** 2. The parser's invariant *)

Record pinv (s : rit_state) : Prop := {
  pi_opts : opts_wf s.(options);
  pi_sreg : 0 ≤ s.(sreg_idx) ≤ MAX_REG_NUM;
  pi_dreg : 0 ≤ s.(dreg_idx) ≤ MAX_REG_NUM;
  pi_fp_sreg : 0 ≤ s.(fp_sreg_ext_idx) ≤ MAX_REG_NUM;
  pi_fp_dreg : 0 ≤ s.(fp_dreg_ext_idx) ≤ MAX_REG_NUM;
  pi_raw : is_u32 s.(raw_instr);
  pi_marked : marked 0 s.(is_reg_init);
  pi_init : buf_ok s.(init_instr_idx) s.(init_instr_buf);
  pi_print : s.(print_buf) = EmptyString
}.

Lemma init_env_val_pinv s :
  wp init_env_val (λ _ s', pinv s' ∧ s'.(options) = default_options) s.
Proof.
  unfold init_env_val. apply wp_bind, wp_modify.
  match goal with |- wp _ _ ?s1 => destruct (update_opkind_str_ok default_opkinds s1) as [l Hl] end.
  apply (wp_intro _ _ _ _ _ Hl). split; [|done].
  split; [exact default_options_wf|cbn; unfold is_u32, MAX_REG_NUM; (lia || done)..| |done].
  split; [done|done|]. apply Forall_replicate, line_ok_nil.
Qed.

(** ** 3. Parameters *)

Lemma clamp_upto lo rnd v : 0 ≤ lo → 0 ≤ rnd → upto rnd (clamp lo rnd v).
Proof.
  intros ? ?. unfold clamp, upto. destruct (Z.ltb_spec v lo), (Z.ltb_spec rnd v); simpl; lia.
Qed.

(** A parameter that changes one option within its range. *)
Lemma pinv_options f s :
  pinv s → opts_wf (f s.(options)) → pinv (st_options (f s.(options)) s).
Proof. intros [] Hf. by split. Qed.

Lemma wp_push_reg get_idx set_idx get set v Q s :
  pinv s → 0 ≤ get_idx s ≤ MAX_REG_NUM →
  opts_wf (set (<[Z.to_nat (get_idx s) := v]> (get s.(options))) s.(options)) →
  (∀ i s', pinv s' → 0 ≤ i ≤ MAX_REG_NUM → pinv (set_idx i s') ∧ (set_idx i s').(options) = s'.(options)) →
  (∀ b s', pinv s' → s'.(options) = s.(options)
     ∨ s'.(options) = set (<[Z.to_nat (get_idx s) := v]> (get s.(options))) s.(options) →
     Q (Some b) s') →
  wp (push_reg get_idx set_idx get set v) Q s.
Proof.
  intros Hs Hi Hwf Hset HQ. unfold push_reg. apply wp_bind, wp_gets.
  destruct (Z.leb_spec MAX_REG_NUM (get_idx s)); [by apply wp_ret, HQ; auto|].
  apply wp_bind, wp_assert; [apply andb_true_iff; split; [apply Z.leb_le|apply Z.ltb_lt]; lia|].
  apply wp_bind, wp_modify, wp_bind, wp_modify, wp_ret.
  destruct (Hset (get_idx s + 1) _ (pinv_options
    (λ o, set (<[Z.to_nat (get_idx s) := v]> (get o)) o) s Hs Hwf)) as [Hp Ho]; [lia|].
  apply HQ; [done|]. right. by rewrite Ho.
Qed.

Lemma wf_insert rnd (l : list Z) i v :
  length l = 4%nat ∧ Forall (upto rnd) l → upto rnd v →
  length (<[i:=v]> l) = 4%nat ∧ Forall (upto rnd) (<[i:=v]> l).
Proof. intros [Hl Hf] Hv. split; [by rewrite length_insert|by apply Forall_insert]. Qed.

Ltac plain_case Hs Hwf :=
  apply wp_bind, wp_modify, wp_ret; split_and!; [|done..]; apply pinv_options; [exact Hs|];
  destruct Hwf; split; try done; cbn; by apply clamp_upto.
Ltac push_case Hs Hwf :=
  eapply wp_push_reg; [exact Hs|apply Hs| | |];
  [ destruct Hwf; split; try done; cbn; apply wf_insert; [done|by apply clamp_upto]
  | intros ? ? [] ?; by split
  | intros ? ? ? Ho; split_and!; [done|destruct Ho as [-> | ->]; done..|done] ].

(** The integer parameters: no abort, the invariant, and never the opcode. *)
Lemma wp_parse_long_switch t v s :
  pinv s →
  wp (parse_long_switch t v)
     (λ r s', pinv s' ∧ s'.(options).(opcode) = s.(options).(opcode)
        ∧ s'.(options).(opt_status) = s.(options).(opt_status)
        ∧ (r ≠ None → t ≠ OPT_OPCODE ∧ t ≠ OPT_OPKIND)) s.
Proof.
  intros Hs. pose proof (pi_opts _ Hs) as Hwf. unfold parse_long_switch.
  repeat (lazymatch goal with |- wp (if ?t =? ?k then _ else _) _ _ =>
    destruct (Z.eqb_spec t k) as [->|]; [first [plain_case Hs Hwf | push_case Hs Hwf]|] end).
  destruct (op_in t _) eqn:Ein.
  { apply wp_ret. split_and!; [done..|]. intros _.
    split; intros ->; vm_compute in Ein; discriminate. }
  destruct (Z.eqb_spec t OPT_INSTR_BIN_INIT) as [->|]; [|destruct (Z.eqb_spec t OPT_RAND_SEED) as [->|]].
  - apply wp_bind, wp_modify, wp_ret. split_and!; [|done..].
    destruct Hs. split; try done. cbn. auto with rit.
  - apply wp_bind, wp_modify, wp_ret. split_and!; [|done..]. destruct Hs. by split.
  - by apply wp_ret.
Qed.

Lemma pinv_set_stat t s :
  pinv s → OPT_TOP ≤ t < OPT_BTM → (t = OPT_OPCODE → is_Some s.(options).(opcode)) →
  pinv (st_options (opt_set_stat t s.(options)) s).
Proof.
  unfold OPT_TOP, OPT_BTM. intros Hs Ht Ho. apply pinv_options; [done|].
  destruct (pi_opts _ Hs). split; try done.
  rewrite opt_stat_set_stat by (unfold OPT_OPCODE; lia).
  destruct (Z.eqb_spec OPT_OPCODE t) as [Ht'|]; [by intros _; apply Ho|cbn [orb]; assumption].
Qed.

(** The strings of a parameter satisfy [N]. *)
Definition param_names (N : option string → Prop) (p : param) : Prop :=
  match p with PStr _ str => N (Some str) | _ => True end.

Lemma wp_parse_param N p s :
  pinv s → param_names N p → N s.(options).(opcode) →
  wp (parse_param p) (λ _ s', pinv s' ∧ N s'.(options).(opcode)) s.
Proof.
  intros Hs Hp Hr. destruct p as [t v|t str|]; cbn [parse_param]; [| |by apply wp_ret].
  - unfold parse_long_para. destruct (_ || _) eqn:E; [by apply wp_ret|].
    apply orb_false_iff in E as [E1%Z.leb_gt E2%Z.ltb_ge].
    apply wp_bind. eapply wp_mono; [by apply wp_parse_long_switch|].
    intros r s1 (Hs1 & Ho & _ & Hne). destruct r as [b|]; [|apply wp_ret; by rewrite Ho].
    apply wp_bind. unfold when. destruct b; apply wp_ret || apply wp_modify; apply wp_ret.
    + split; [|cbn; by rewrite Ho]. apply pinv_set_stat; [done|done|].
      destruct (Hne ltac:(done)) as [? _]. done.
    + by rewrite Ho.
  - unfold parse_string_para. destruct (_ || _) eqn:E; [by apply wp_ret|].
    apply orb_false_iff in E as [E1%Z.leb_gt E2%Z.ltb_ge].
    destruct (Z.eqb_spec t OPT_OPKIND) as [->|]; [|destruct (Z.eqb_spec t OPT_OPCODE) as [->|]].
    + apply wp_bind. destruct (update_opkind_str_ok str s) as [l Hl].
      apply (wp_intro _ _ _ _ _ Hl). apply wp_bind, wp_modify, wp_ret. split; [|done].
      assert (pinv (st_opkind_list l s)) as Hs' by (destruct Hs; by split).
      by apply (pinv_set_stat OPT_OPKIND _ Hs').
    + apply wp_bind, wp_modify, wp_bind, wp_modify, wp_ret. split; [|done].
      assert (pinv (st_options (opt_opcode (Some str) s.(options)) s)) as Hs'.
      { apply pinv_options; [done|]. destruct (pi_opts _ Hs). split; done. }
      by apply (pinv_set_stat OPT_OPCODE _ Hs').
    + by apply wp_ret.
Qed.

Lemma wp_parse_params N l s :
  pinv s → Forall (param_names N) l → N s.(options).(opcode) →
  wp (parse_params l) (λ _ s', pinv s' ∧ N s'.(options).(opcode)) s.
Proof.
  intros Hs Hl. revert s Hs. induction Hl as [|p l Hp Hl IH]; intros s Hs Hr; cbn [parse_params].
  { by apply wp_ret. }
  apply wp_bind. eapply wp_mono; [by apply wp_parse_param|]. intros ok s1 [Hs1 Hr1].
  destruct ok; [by apply IH|by apply wp_ret].
Qed.


(** ** 4. The kind filter *)

(** No comma, and not empty: what stands between two commas. *)
Fixpoint comma_free (str : string) : bool :=
  match str with
  | EmptyString => true
  | String c str => negb (Ascii.eqb c ",") && comma_free str
  end.
Definition segment (seg : string) : Prop := comma_free seg = true ∧ seg ≠ "".

(** The flags after one more segment. *)
Definition select (l : list bool) (seg : string) : list bool :=
  zip_with (λ nm b, String.prefix seg nm || b) opkind_names l.

Lemma comma_at_free seg : comma_free seg = true → comma_at seg = None.
Proof.
  induction seg as [|c seg IH]; [done|]. cbn [comma_at comma_free].
  intros [Hc Hs]%andb_true_iff. rewrite (proj1 (negb_true_iff _) Hc), IH by done. done.
Qed.

Lemma comma_at_app seg rest :
  comma_free seg = true → comma_at (seg +:+ String "," rest) = Some (String.length seg).
Proof.
  induction seg as [|c seg IH]; [done|].
  change (String c seg +:+ String "," rest) with (String c (seg +:+ String "," rest)).
  cbn [comma_at comma_free String.length]. intros [Hc Hs]%andb_true_iff.
  rewrite (proj1 (negb_true_iff _) Hc), IH by done. done.
Qed.

Lemma str_drop_app seg rest : str_drop (S (String.length seg)) (seg +:+ String "," rest) = rest.
Proof. induction seg as [|c seg IH]; [done|]. apply IH. Qed.

(** Comparing as many characters as the segment has: it is a prefix. *)
Lemma strncmp_eq_prefix seg rest nm :
  strncmp_eq (seg +:+ rest) nm (String.length seg) = String.prefix seg nm.
Proof.
  revert nm. induction seg as [|c seg IH]; intros [|d nm]; [done..|].
  change (Ascii.eqb c d && strncmp_eq (seg +:+ rest) nm (String.length seg)
    = if Ascii.ascii_dec c d then String.prefix seg nm else false).
  rewrite IH. destruct (Ascii.ascii_dec c d) as [->|Hne]; [by rewrite Ascii.eqb_refl|].
  by rewrite (proj2 (Ascii.eqb_neq _ _) Hne).
Qed.

Lemma opkind_loop_step fuel seg rest l :
  segment seg →
  opkind_loop (S fuel) (seg +:+ String "," rest) l = opkind_loop fuel rest (select l seg).
Proof.
  intros [Hf Hne]. destruct seg as [|c seg]; [done|]. cbn [opkind_loop].
  change (String c seg +:+ String "," rest) with (String c (seg +:+ String "," rest)).
  cbv beta iota zeta. change (String c (seg +:+ String "," rest)) with (String c seg +:+ String "," rest).
  rewrite comma_at_app by done. cbn [from_option]. rewrite str_drop_app. f_equal.
  unfold select. apply zip_with_ext; [|done..]. intros. unfold id. by rewrite strncmp_eq_prefix.
Qed.

Lemma opkind_loop_last fuel seg l :
  segment seg → opkind_loop (S fuel) seg l = Some (select l seg).
Proof.
  intros [Hf Hne]. destruct seg as [|c seg]; [done|]. cbn [opkind_loop]. cbv zeta.
  rewrite comma_at_free by done. cbn [from_option]. do 2 f_equal.
  unfold select. apply zip_with_ext; [|done..]. intros.
  by rewrite <- (strncmp_eq_prefix _ ""), string_app_nil_r.
Qed.

Lemma opkind_loop_segments segs fuel l :
  Forall segment segs → (length segs < fuel)%nat →
  opkind_loop fuel (String.concat "," segs) l = Some (foldl select l segs).
Proof.
  intros Hs. revert fuel l. induction Hs as [|seg segs Hseg Hs IH]; intros fuel l Hf.
  { by destruct fuel; [lia|]. }
  destruct fuel as [|fuel]; [lia|]. destruct segs as [|seg' segs].
  - cbn [String.concat foldl]. by apply opkind_loop_last.
  - change (String.concat "," (seg :: seg' :: segs))
      with (seg +:+ String "," (String.concat "," (seg' :: segs))).
    rewrite opkind_loop_step by done. cbn [length] in Hf. apply IH. cbn [length]. lia.
Qed.

Lemma length_concat_segments segs :
  Forall segment segs → (length segs ≤ String.length (String.concat "," segs))%nat.
Proof.
  induction 1 as [|seg segs [_ Hne] Hs IH]; [done|].
  destruct seg as [|c seg]; [done|]. destruct segs as [|seg' segs]; [cbn; lia|].
  change (String.concat "," (String c seg :: seg' :: segs))
    with (String c seg +:+ String "," (String.concat "," (seg' :: segs))).
  rewrite length_string_app. cbn [length String.length] in *. lia.
Qed.

Lemma lookup_select segs l i nm b :
  opkind_names !! i = Some nm → l !! i = Some b →
  foldl select l segs !! i = Some (existsb (λ seg, String.prefix seg nm) segs || b).
Proof.
  intros Hn. revert l b. induction segs as [|seg segs IH]; intros l b Hb; [done|].
  cbn [foldl existsb]. rewrite (IH _ (String.prefix seg nm || b)).
  - f_equal. by destruct (String.prefix seg nm), (existsb _ segs).
  - unfold select. apply lookup_zip_with_Some. by exists nm, b.
Qed.

Lemma length_foldl_select segs l :
  length l = opkind_num → length (foldl select l segs) = opkind_num.
Proof.
  revert l. induction segs as [|seg segs IH]; intros l Hl; [done|]. apply IH.
  unfold select. by rewrite length_zip_with, Hl.
Qed.

Lemma foldl_select_spec segs :
  Forall segment segs →
  foldl select (replicate opkind_num false) segs
  = (λ nm, existsb (λ seg, String.prefix seg nm) segs) <$> opkind_names.
Proof.
  intros Hs. apply list_eq_same_length with opkind_num;
    [by rewrite length_fmap|by apply length_foldl_select|].
  intros i x y Hi. rewrite list_lookup_fmap.
  destruct (lookup_lt_is_Some_2 opkind_names i Hi) as [nm Hn]. rewrite Hn.
  rewrite (lookup_select segs _ i nm false); [|done|by apply lookup_replicate_2].
  rewrite orb_false_r. by intros [= <-] [= <-].
Qed.

(** The names of the kinds are segments, and none is a prefix of another. *)
Definition opkind_prefix_ok : bool :=
  forallb (λ i, let a := nth i opkind_names "" in
    comma_free a && negb (String.eqb a "") &&
    forallb (λ j, Bool.eqb (String.prefix a (nth j opkind_names "")) (i =? j)%nat)
      (seq 0 opkind_num)) (seq 0 opkind_num).

Lemma opkind_prefix i j nm :
  (i < opkind_num)%nat → opkind_names !! j = Some nm →
  segment (nth i opkind_names "") ∧ String.prefix (nth i opkind_names "") nm = (i =? j)%nat.
Proof.
  intros Hi Hj. assert (opkind_prefix_ok = true) as HT by (vm_compute; reflexivity).
  unfold opkind_prefix_ok in HT. rewrite forallb_forall in HT.
  assert (∀ k, (k < opkind_num)%nat → In k (seq 0 opkind_num)) as Hin
    by (intros k Hk; apply in_seq; lia).
  specialize (HT i (Hin i Hi)). cbv zeta in HT.
  apply andb_true_iff in HT as [[Hf Hne]%andb_true_iff HT]. rewrite forallb_forall in HT.
  assert (j < opkind_num)%nat as Hlt by apply (lookup_lt_Some _ _ _ Hj).
  specialize (HT j (Hin j Hlt)). apply Bool.eqb_prop in HT.
  rewrite (nth_lookup_Some _ _ "" _ Hj) in HT. split; [|done]. split; [done|].
  by apply String.eqb_neq, negb_true_iff.
Qed.

(** ** 5. Registers *)

(** Up to four registers given one after the other. *)
Lemma parse_sregs_from rs s :
  pinv s → Forall (upto R_RAND) rs →
  ∃ s', parse_params (PLong OPT_SREG <$> rs) s = Ok true s' ∧ pinv s'
    ∧ s'.(options).(src_regs)
      = take (Z.to_nat s.(sreg_idx)) s.(options).(src_regs)
        ++ take (4 - Z.to_nat s.(sreg_idx)) rs
        ++ drop (Z.to_nat s.(sreg_idx) + length rs) s.(options).(src_regs).
Proof.
  intros Hs Hr. revert s Hs. induction Hr as [|r rs Hr Hrs IH]; intros s Hs; cbn [fmap list_fmap].
  { exists s. split; [done|]. split; [done|]. by rewrite take_nil, Nat.add_0_r, app_nil_l, take_drop. }
  destruct (wp_elim _ _ _ (wp_parse_param (λ _, True) (PLong OPT_SREG r) s Hs I I))
    as (ok & s1 & E & Hs1 & _).
  assert (ok = true ∧ s1.(sreg_idx) = Z.min 4 (s.(sreg_idx) + 1)
    ∧ s1.(options).(src_regs) = <[Z.to_nat s.(sreg_idx) := r]> s.(options).(src_regs)) as (-> & Hi & Hsr).
  { clear IH Hs1. revert E. cbn [parse_param]. unfold parse_long_para. cbn [OPT_BTM OPT_TOP].
    unfold parse_long_switch, push_reg. cbn. unfold mbind, M_bind, gets. cbn.
    pose proof (pi_sreg _ Hs) as Hb. destruct (wf_src _ (pi_opts _ Hs)) as [Hl _].
    unfold MAX_REG_NUM in *.
    destruct (Z.leb_spec 4 (sreg_idx s)); cbn;
      [|rewrite (proj2 (Z.leb_le 0 (sreg_idx s))), (proj2 (Z.ltb_lt (sreg_idx s) 4)) by lia; cbn];
      intros [= <- <-]; cbn.
    - split; [done|]. split; [lia|]. by rewrite list_insert_ge by lia.
    - split; [done|]. split; [lia|]. f_equal. unfold clamp, upto, R_TOP in *.
      destruct (Z.ltb_spec r 0), (Z.ltb_spec R_RAND r); done || lia. }
  destruct (IH s1 Hs1) as (s' & E' & Hs' & Hregs). exists s'.
  split; [cbn [parse_params]; unfold mbind, M_bind; by rewrite E|]. split; [done|].
  rewrite Hregs, Hi, Hsr. pose proof (pi_sreg _ Hs) as Hb.
  destruct (wf_src _ (pi_opts _ Hs)) as [Hl _]. unfold MAX_REG_NUM in *.
  apply list_four in Hl as (a & b & c & d & ->).
  assert (sreg_idx s = 0 ∨ sreg_idx s = 1 ∨ sreg_idx s = 2 ∨ sreg_idx s = 3 ∨ sreg_idx s = 4)
    as [-> | [-> | [-> | [-> | ->]]]] by lia; [reflexivity..|].
  cbn. by destruct (length rs).
Qed.

(** ** 6. Properties *)

(** The parser keeps the options well formed: whatever list of parameters
    the caller passes - unknown option numbers, values out of range, more
    registers than the arrays hold, any string - parsing ends without writing
    outside an array, every option is in its range (or is the "random" marker),
    the array indices stay within bounds, and an opcode name is present when
    the opcode option is set. *)
Theorem parse_params_wf (l : list param) (s : rit_state) :
  ∃ ok s0 s', init_env_val s = Ok tt s0 ∧ parse_params l s0 = Ok ok s' ∧ pinv s'.
Proof.
  destruct (wp_elim _ _ _ (init_env_val_pinv s)) as ([] & s0 & E0 & Hs0 & _).
  assert (Forall (param_names (λ _, True)) l) as Hl by (apply Forall_forall; by intros []).
  destruct (wp_elim _ _ _ (wp_parse_params _ l s0 Hs0 Hl I)) as (ok & s' & E & Hs' & _).
  by exists ok, s0, s'.
Qed.

(** The kind filter: for a comma-separated list of non-empty segments,
    [update_opkind_str] ends and enables a kind exactly when some segment is a
    prefix of its name; nothing else changes. *)
Theorem update_opkind_str_prefixes (segs : list string) (s : rit_state) :
  Forall segment segs →
  update_opkind_str (String.concat "," segs) s
  = Ok tt (st_opkind_list ((λ nm, existsb (λ seg, String.prefix seg nm) segs) <$> opkind_names) s).
Proof.
  intros Hs. unfold update_opkind_str. rewrite opkind_loop_segments; [|done|].
  - by rewrite foldl_select_spec.
  - pose proof (length_concat_segments segs Hs). lia.
Qed.

(** Kind names round trip: the string of any list of kind names enables
    exactly the kinds on the list, since no name is a prefix of another. *)
Theorem update_opkind_str_names (ks : list nat) (s : rit_state) :
  Forall (λ k, (k < opkind_num)%nat) ks →
  update_opkind_str (String.concat "," ((λ k, nth k opkind_names "") <$> ks)) s
  = Ok tt (st_opkind_list ((λ i, bool_decide (i ∈ ks)) <$> seq 0 opkind_num) s).
Proof.
  intros Hk. assert (Forall segment ((λ k, nth k opkind_names "") <$> ks)) as Hseg.
  { apply Forall_fmap. eapply Forall_impl; [exact Hk|]. intros k Hlt.
    by destruct (opkind_prefix k 0 "NO_OP" Hlt eq_refl). }
  unfold update_opkind_str. rewrite opkind_loop_segments; [|done|].
  2: { pose proof (length_concat_segments _ Hseg). lia. }
  rewrite foldl_select_spec by done. unfold modify. do 2 f_equal.
  apply list_eq_same_length with opkind_num; [by rewrite length_fmap, length_seq|by rewrite length_fmap|].
  intros i x y Hi. rewrite !list_lookup_fmap, lookup_seq_lt by done.
  destruct (lookup_lt_is_Some_2 opkind_names i Hi) as [nm Hn]. rewrite Hn.
  intros [= <-] [= <-]. cbn [Nat.add]. apply eq_bool_prop_intro.
  rewrite !Is_true_true, existsb_exists, bool_decide_eq_true. split.
  - intros (seg & (k & <- & Hin)%in_map_iff & Hp). apply list_elem_of_In in Hin.
    rewrite Forall_forall in Hk. destruct (opkind_prefix k i nm (Hk k Hin) Hn) as [_ Hq].
    assert (k = i) as ->; [|done]. apply Nat.eqb_eq. rewrite <- Hq. exact Hp.
  - intros Hin. rewrite Forall_forall in Hk.
    destruct (opkind_prefix i i nm (Hk i Hin) Hn) as [_ Hq].
    exists (nth i opkind_names ""). split; [|by rewrite Hq, Nat.eqb_refl].
    by apply (in_map (λ k, nth k opkind_names "")), list_elem_of_In.
Qed.

(** Source registers arrive in order: the n-th [OPT_SREG] parameter of a
    call sets the n-th source register, the fifth and later ones are ignored
    without an error, and the slots not given stay random. *)
Theorem parse_sregs_in_order (rs : list Z) (s : rit_state) :
  Forall (upto R_RAND) rs →
  ∃ s0 s', init_env_val s = Ok tt s0 ∧ parse_params (PLong OPT_SREG <$> rs) s0 = Ok true s'
    ∧ s'.(options).(src_regs) = take 4 rs ++ drop (length rs) (replicate 4 R_RAND).
Proof.
  intros Hr. destruct (wp_elim _ _ _ (init_env_val_pinv s)) as ([] & s0 & E0 & Hs0 & Ho).
  destruct (parse_sregs_from rs s0 Hs0 Hr) as (s' & E & _ & Hregs). exists s0, s'.
  split; [done|]. split; [done|]. rewrite Hregs, Ho.
  assert (sreg_idx s0 = 0) as ->; [|done].
  revert E0. unfold init_env_val, update_opkind_str. unfold mbind, M_bind. cbn [modify].
  destruct (opkind_loop _ _ _); [|done]. by intros [= <-].
Qed.

Lemma update_opkind_str_prefixes_witness :
  update_opkind_str (String.concat "," ["LD"; "MUL32_OP"]) zero_state
  = Ok tt (st_opkind_list
      ((λ nm, existsb (λ seg, String.prefix seg nm) ["LD"; "MUL32_OP"]) <$> opkind_names) zero_state).
Proof.
  apply (update_opkind_str_prefixes ["LD"; "MUL32_OP"] zero_state). repeat constructor; discriminate.
Defined.

Lemma update_opkind_str_names_witness :
  update_opkind_str (String.concat "," ((λ k, nth k opkind_names "") <$> [2; 8; 33]%nat)) zero_state
  = Ok tt (st_opkind_list ((λ i, bool_decide (i ∈ [2; 8; 33]%nat)) <$> seq 0 opkind_num) zero_state).
Proof.
  apply (update_opkind_str_names [2; 8; 33]%nat zero_state).
  repeat constructor; unfold opkind_num; lia.
Defined.

Lemma parse_sregs_in_order_witness :
  ∃ s0 s', init_env_val zero_state = Ok tt s0
    ∧ parse_params (PLong OPT_SREG <$> [7; 3; 15; 0; 2]) s0 = Ok true s'
    ∧ s'.(options).(src_regs) = take 4 [7; 3; 15; 0; 2] ++ drop 5 (replicate 4 R_RAND).
Proof.
  apply (parse_sregs_in_order [7; 3; 15; 0; 2] zero_state).
  repeat constructor; unfold R_RAND; lia.
Defined.
