(* ===== verification/Api.v ===== *)
(** * The entry point: parameters, generation and output together

    From the parser's invariant, [gen_random_instr] ends with a word that
    encodes the opcode it prints; the theorems on [single_instr_gen_py] follow. *)
From S2P Require Import Prelude RitCommon InstrTable State InstrUtil InstrBuf Keeps GenHelper GenARMMem ValidArch EncodeBits RandomInstrGen InstrGenerator Options Attempt Loop Output Params.
#[local] Open Scope c_scope.

(** ** 1. Generation *)

(** Opcodes whose lines fit the buffer for every instruction set. *)
Definition roomy_name (o : option string) : Prop := o ≠ Some "LDRD_reg" ∧ o ≠ Some "STRD_reg".

(** A parameter that does not name one of the two roomless opcodes. *)
Definition roomy_param : param → Prop := param_names roomy_name.

Lemma find_opcode_spec str op :
  find (name_is str) (seqZ 1 (SISA_OP_MAX - 1)) = Some op →
  0 ≤ op < SISA_OP_MAX ∧ (instr_desc op).(name) = Some str.
Proof.
  intros [Hin Hn]%find_some. apply list_elem_of_In, elem_of_seqZ in Hin. split; [lia|].
  unfold name_is in Hn. destruct (name (instr_desc op)) as [nm|]; [|done].
  apply String.eqb_eq in Hn. by subst.
Qed.

Lemma roomy_named op : roomy_name (instr_desc op).(name) → arm_room true op = true.
Proof.
  intros [H1 H2]. unfold arm_room. cbn [andb]. apply negb_true_iff, orb_false_iff.
  split; apply Z.eqb_neq; intros ->; [apply H1|apply H2]; vm_compute; reflexivity.
Qed.

(** The last line of a printed buffer. *)
Lemma last_line_take s line :
  buf_ok s.(instr_idx) s.(instr_buf) → last_line s line →
  ∃ pre, take (Z.to_nat s.(instr_idx)) s.(instr_buf) = pre ++ [line].
Proof.
  intros [Hi Hl _] [Hpos Hlk]. exists (take (Z.to_nat (s.(instr_idx) - 1)) s.(instr_buf)).
  replace (Z.to_nat s.(instr_idx)) with (S (Z.to_nat (s.(instr_idx) - 1))) by lia.
  by apply take_S_r.
Qed.

(** The relation between the answer of [gen_random_instr] and the state it
    leaves: a word that carries the fixed bits of an opcode, and the text. *)
Record gen_result (o : gen_option_t) (st : instr_status_t) (raw : Z) (text : string) (op : Z)
    : Prop := {
  gr_op : 0 ≤ op < SISA_OP_MAX;
  gr_named : opt_stat o OPT_OPCODE = true → (instr_desc op).(name) = o.(opcode);
  gr_low : low_bits_of op raw;
  gr_full : (instr_desc op).(match_msk) & cond_mask = 0 ∨ SISA_OP_ARM_MAX ≤ op →
            word_ok op (instr_desc op).(match_val) raw;
  gr_text : ∃ init body,
    text = head_line op raw st +:+ lines_text init +:+ lines_text body
    ∧ Forall line_ok init ∧ Forall line_ok body
    ∧ (st = VALID → ∃ pre, body = pre ++ [inst_line op raw]);
  gr_arch : st = VALID → arch_ok op raw;
  gr_u32 : is_u32 raw
}.

Section gen.
Context `{Env : !RitEnv}.

(** The part after the search, for an opcode the search accepts. *)
Lemma wp_gen_loop_output op retry_max s :
  caller_ok s.(shadow_options) op → is_u32 s.(raw_instr) → 0 ≤ retry_max →
  marked 0 s.(is_reg_init) → buf_ok s.(init_instr_idx) s.(init_instr_buf) →
  (opt_stat s.(shadow_options) OPT_OPCODE = true → (instr_desc op).(name) = s.(shadow_options).(opcode)) →
  wp (os ← gen_loop (Z.to_nat (retry_max + 1)) retry_max 0 op UNSUPPORTED;
      let '(op, status) := os in
      raw ← get_raw_instr;
      output_instr op raw status ;;
      mret status)
     (λ st s', ∃ op', gen_result s.(shadow_options) st s'.(raw_instr) s'.(print_buf) op') s.
Proof.
  intros Hca Hu Hmax Hm Hib Hname. apply wp_bind.
  eapply wp_mono; [apply wp_gen_loop; [done|done|lia|left; done]|].
  intros [op1 st] s1 (Hli & [Hop Hbuf Hlow Hfull Hline Harch] & Hn). cbn in *.
  assert (is_u32 s1.(raw_instr) ∧ marked 0 s1.(is_reg_init)
    ∧ buf_ok s1.(init_instr_idx) s1.(init_instr_buf)) as (Hu1 & Hm1 & Hib1).
  { destruct Hli as [[]| ->]; [|done]. split; [done|]. by split; congruence || congruence. }
  apply wp_bind, wp_gets, wp_bind. eapply wp_mono; [by apply wp_output_instr|].
  intros _ s2 (_ & _ & Hr2 & _ & init & Htext & Hinit & _). apply wp_ret. exists op1. rewrite Hr2. split; try done.
  - intros Ho. rewrite (Hn Ho). by apply Hname.
  - eexists _, _. split; [exact Htext|]. split; [done|]. split; [by apply Forall_take, Hbuf|].
    intros Hv. by apply last_line_take; [|apply Hline].
Qed.

Lemma wp_gen_random_instr s :
  pinv s → roomy_name s.(options).(opcode) →
  wp gen_random_instr
     (λ st s', (∃ op, gen_result s.(options) st s'.(raw_instr) s'.(print_buf) op)
        ∨ (st = UNSUPPORTED ∧ s'.(print_buf) = s.(print_buf) ∧ s'.(raw_instr) = s.(raw_instr)
           ∧ opt_stat s.(options) OPT_OPCODE = true
           ∧ ∀ op, 0 < op < SISA_OP_MAX → (instr_desc op).(name) ≠ s.(options).(opcode))) s.
Proof.
  intros Hs Hr. unfold gen_random_instr.
  do 3 (apply wp_bind, wp_modify). do 2 (apply wp_bind, wp_gets). apply wp_bind.
  match goal with |- wp (when _ _) _ ?s1 => set (s0 := s1) end.
  apply (wp_mono _ (λ _ s1, ∃ seed pos, s1 = st_rand_pos pos (st_rand_seed seed s0))).
  { unfold when. destruct (negb _); [apply wp_modify; eauto|].
    apply wp_ret. exists s0.(rand_seed), s0.(rand_pos). by destruct s0. }
  intros _ s1 (seed & pos & ->). apply wp_bind, wp_gets, wp_bind.
  change (opt_stat _ OPT_OPCODE) with (opt_stat (options s) OPT_OPCODE).
  set (s1 := st_rand_pos pos (st_rand_seed seed s0)).
  assert (is_u32 s1.(raw_instr) ∧ marked 0 s1.(is_reg_init)
    ∧ buf_ok s1.(init_instr_idx) s1.(init_instr_buf)) as (Hu & Hm & Hib) by (destruct Hs; done).
  assert (∀ b : bool, 0 ≤ (if b then RETRY_MAX_TIMES / 2 else RETRY_MAX_TIMES)) as Hmax by by intros [].
  destruct (opt_stat (options s) OPT_OPCODE) eqn:En.
  - (* a named opcode *)
    destruct (wf_opcode _ (pi_opts _ Hs) En) as [str Hstr].
    unfold find_opcode. apply wp_bind, wp_gets. cbn [options s1 s0 st_rand_pos st_rand_seed
      st_is_set_fixed_bit st_instr_fixed_bit st_shadow_options]. rewrite Hstr. apply wp_ret.
    destruct (find (name_is str) _) as [op|] eqn:Ef.
    + apply find_opcode_spec in Ef as [Hop Hn]. rewrite <- Hstr in Hn. apply wp_bind.
      apply (wp_mono _ (λ _ s2, ∃ o, s2 = st_options o s1)).
      { unfold when. destruct (_ && _); [apply wp_modify; eauto|].
        apply wp_ret. exists s1.(options). by destruct s1. }
      intros _ s2 (o & ->). eapply wp_mono; [apply wp_gen_loop_output; try done|].
      * split; [apply Hs|]. intros _. split; [done|]. apply roomy_named. by rewrite Hn.
      * intros st s3 Hg. by left.
    + apply wp_ret. right. split_and!; try done. intros op Hop Hn.
      apply find_none with (x := op) in Ef; [|apply list_elem_of_In, elem_of_seqZ; lia].
      unfold name_is in Ef. rewrite Hn in Ef. cbn in Ef. by rewrite String.eqb_refl in Ef.
  - (* a random opcode for every attempt *)
    apply wp_ret. cbn [andb when]. apply wp_bind, wp_ret.
    eapply wp_mono; [apply wp_gen_loop_output; try done|].
    + split; [apply Hs|]. intros Ho. cbn in Ho. congruence.
    + intros Ho. cbn in Ho. congruence.
    + intros st s3 Hg. by left.
Qed.
End gen.

(** ** 2. The entry point *)

Section api.
Context `{Env : !RitEnv}.

(** The whole call: what a successful one answers. *)
Lemma wp_single_instr_gen_py l s :
  Forall roomy_param l →
  wp (single_instr_gen_py l)
     (λ r _, ∀ st fb raw text, r = Some (st, fb, raw, text) →
        ∃ s0 s1, init_env_val s = Ok tt s0 ∧ parse_params l s0 = Ok true s1
          ∧ ((∃ op, gen_result s1.(options) st raw text op)
             ∨ (st = UNSUPPORTED ∧ text = EmptyString ∧ opt_stat s1.(options) OPT_OPCODE = true
                ∧ ∀ op, 0 < op < SISA_OP_MAX → (instr_desc op).(name) ≠ s1.(options).(opcode)))) s.
Proof.
  intros Hl. unfold single_instr_gen_py. apply wp_bind.
  destruct (wp_elim _ _ _ (init_env_val_pinv s)) as ([] & s0 & E0 & Hs0 & Ho0).
  apply (wp_intro _ _ _ _ _ E0). apply wp_bind.
  assert (roomy_name s0.(options).(opcode)) as Hr0 by by rewrite Ho0.
  destruct (wp_elim _ _ _ (wp_parse_params roomy_name l s0 Hs0 Hl Hr0)) as (ok & s1 & E1 & Hs1 & Hr1).
  apply (wp_intro _ _ _ _ _ E1). destruct ok; [|by apply wp_ret].
  apply wp_bind. eapply wp_mono; [by apply wp_gen_random_instr|]. intros st s2 Hg.
  do 3 (apply wp_bind, wp_gets). apply wp_ret. intros st' fb raw text [= <- <- <- <-].
  exists s0, s1. split; [done|]. split; [done|]. destruct Hg as [Hg|(-> & -> & _ & ? & ?)]; [by auto|].
  right. rewrite (pi_print _ Hs1). auto.
Qed.

(** C1. The library is safe to call: whatever the parameters (two opcode names
    apart, see C3), the random stream, the clock, the contents of indeterminate
    memory and the state left by earlier calls, a call of [single_instr_gen_py]
    ends: no assertion fails, no buffer is overrun, no null pointer is read and
    no loop runs out of its bound. *)
Theorem single_instr_gen_py_safe (l : list param) (s : rit_state) :
  Forall roomy_param l → ∃ r s', single_instr_gen_py l s = Ok r s'.
Proof.
  intros Hl. destruct (wp_elim _ _ _ (wp_single_instr_gen_py l s Hl)) as (r & s' & E & _). eauto.
Qed.

(** C2. What a call answers.  Either the opcode it was asked for does not exist,
    the status is [UNSUPPORTED] and the text is empty; or there is an opcode (the one asked for,
    if one was) whose fixed bits the returned word carries - all of them for
    conditional ARM and for Thumb opcodes, those below the condition field for
    the others - and the returned text is the head line for that opcode, word
    and status, the operand initialisation, and the lines of the attempt, of
    which the last one is the encoding of the same word when the status is
    [VALID].  A [VALID] word also meets the register restrictions that the
    architecture manual has for the opcode ([arch_ok]). *)
Theorem single_instr_gen_py_result (l : list param) (s s' : rit_state) st fb raw text :
  Forall roomy_param l →
  single_instr_gen_py l s = Ok (Some (st, fb, raw, text)) s' →
  ∃ s0 s1, init_env_val s = Ok tt s0 ∧ parse_params l s0 = Ok true s1
    ∧ ((∃ op, gen_result s1.(options) st raw text op)
       ∨ (st = UNSUPPORTED ∧ text = EmptyString ∧ opt_stat s1.(options) OPT_OPCODE = true
          ∧ ∀ op, 0 < op < SISA_OP_MAX → (instr_desc op).(name) ≠ s1.(options).(opcode))).
Proof.
  intros Hl E. destruct (wp_elim _ _ _ (wp_single_instr_gen_py l s Hl)) as (r & s2 & E' & Hr).
  rewrite E in E'. injection E' as <- <-. by apply (Hr st fb raw text).
Qed.
End api.

Lemma single_instr_gen_py_safe_witness :
  ∃ r s', single_instr_gen_py (Env := lcg_env)
    [PStr OPT_OPCODE "LDM"; PLong OPT_RAND_SEED 9; PLong OPT_SREG 3] zero_state = Ok r s'.
Proof.
  apply (single_instr_gen_py_safe (Env := lcg_env)).
  repeat constructor; intros [=].
Defined.

(** The state an outcome carries. *)
Definition out_state {S A} (d : S) (o : outcome S A) : S :=
  match o with Ok _ s => s | Abort _ => d end.

Definition demo_params : list param :=
  [PStr OPT_OPCODE "ADD_imm"; PLong OPT_RAND_SEED 9; PLong OPT_ISA ISA_ARMv7].
Definition demo_run : outcome rit_state (option (instr_status_t * Z * Z * string)) :=
  single_instr_gen_py (Env := lcg_env) demo_params zero_state.

Lemma single_instr_gen_py_result_witness :
  let text := "[INFO] VALID ADD_imm 0x028b5000" +:+ nl +:+ "[INST] .inst 0x028b5000" +:+ nl in
  ∃ s0 s1, init_env_val zero_state = Ok tt s0 ∧ parse_params demo_params s0 = Ok true s1
    ∧ ((∃ op, gen_result s1.(options) VALID 0x028b5000 text op)
       ∨ (VALID = UNSUPPORTED ∧ text = EmptyString ∧ opt_stat s1.(options) OPT_OPCODE = true
          ∧ ∀ op, 0 < op < SISA_OP_MAX → (instr_desc op).(name) ≠ s1.(options).(opcode))).
Proof.
  intros text. apply (single_instr_gen_py_result (Env := lcg_env) demo_params zero_state
    (out_state zero_state demo_run) VALID 0).
  - repeat constructor; intros [=].
  - vm_compute. reflexivity.
Defined.
