(* ===== verification/Overrun.v ===== *)
(** * The instruction buffer is too short for two opcodes

    LDRD_reg and STRD_reg under the Thumb instruction set: the exact condition on
    the word for which the dispatcher writes a ninth line into [instr_buf[8]], and
    the calls of the entry point that reach it. *)
From S2P Require Import Prelude RitCommon InstrTable State InstrUtil InstrBuf Keeps GenHelper MemSpec GenARMMem GenARMInstr ValidSpec ValidMem EncodeBits EncodeSpec RandomInstrGen InstrGenerator Options Attempt Loop Params Api.
#[local] Open Scope c_scope.

(** ** 1. Runs that end with an overrun *)

Definition overruns {S A} (m : M S A) (s : S) : Prop := m s = Abort BufOverflow.

Section overruns.
Context {S : Type}.
Lemma overruns_bind {A B} (m : M S A) (k : A → M S B) s : overruns m s → overruns (m ≫= k) s.
Proof. unfold overruns, mbind, M_bind. by intros ->. Qed.
Lemma overruns_after {A B} (m : M S A) (k : A → M S B) Q s :
  wp m Q s → (∀ a s', Q a s' → overruns (k a) s') → overruns (m ≫= k) s.
Proof.
  intros (a & s' & E & HQ)%wp_elim Hk. unfold overruns, mbind, M_bind. rewrite E. by apply Hk.
Qed.
Lemma overruns_modify {B} f (k : () → M S B) s : overruns (k tt) (f s) → overruns (modify f ≫= k) s.
Proof. done. Qed.
Lemma overruns_gets {A B} (f : S → A) (k : A → M S B) s : overruns (k (f s)) s → overruns (gets f ≫= k) s.
Proof. done. Qed.
Lemma overruns_ret {A B} (a : A) (k : A → M S B) s : overruns (k a) s → overruns (mret a ≫= k) s.
Proof. done. Qed.
Lemma overruns_ends {A} (m : M S A) s : wp m (λ _ _, True) s → ¬ overruns m s.
Proof. intros (a & s' & E & _)%wp_elim H. unfold overruns in H. congruence. Qed.
End overruns.

(** The buffer after [n] more lines; nothing else changed. *)
Definition lines_more (n : Z) (s s' : rit_state) : Prop :=
  ∃ buf, s' = st_instr_idx (s.(instr_idx) + n) (st_instr_buf buf s).

Lemma lines_more_idx n s s' : lines_more n s s' → s'.(instr_idx) = s.(instr_idx) + n.
Proof. by intros [buf ->]. Qed.
Lemma lines_more_options n s s' : lines_more n s s' → s'.(options) = s.(options).
Proof. by intros [buf ->]. Qed.

Lemma wp_emit str s :
  line_ok str → s.(instr_idx) < MAX_INSTR → wp (emit str) (λ _ s', lines_more 1 s s') s.
Proof.
  intros [Hl _] Hi. unfold emit, sprintf_line, insert_instr.
  apply wp_bind, wp_bind, wp_assert; [apply Z.leb_le; unfold line_max, MAX_STR_INSTR_LEN in *; lia|].
  apply wp_ret, wp_bind, wp_gets, wp_bind, wp_assert; [by apply Z.ltb_lt|]. apply wp_bind, wp_modify, wp_modify.
  by eexists.
Qed.

Lemma wp_put_line str s :
  line_ok str → s.(instr_idx) < MAX_INSTR → wp (put_instr_line str) (λ _ _, True) s.
Proof.
  intros [Hl _] Hi. unfold put_instr_line, sprintf_line.
  apply wp_bind, wp_gets, wp_bind, wp_assert; [by apply Z.ltb_lt|].
  apply wp_bind, wp_bind, wp_assert; [apply Z.leb_le; unfold line_max, MAX_STR_INSTR_LEN in *; lia|].
  by apply wp_ret, wp_bind, wp_modify, wp_modify.
Qed.

Lemma wp_emit_all l s :
  Forall line_ok l → s.(instr_idx) + Z.of_nat (length l) ≤ MAX_INSTR →
  wp (emit_all l) (λ _ s', lines_more (Z.of_nat (length l)) s s') s.
Proof.
  intros Hl. revert s. unfold emit_all. induction Hl as [|x l Hx Hl IH]; intros s Hi; cbn [forM length].
  { apply wp_ret. exists s.(instr_buf). rewrite Z.add_0_r. by destruct s. }
  cbn [length] in Hi. apply wp_bind. eapply wp_mono; [apply wp_emit; [done|lia]|]. intros _ s1 [b1 ->].
  eapply wp_mono; [apply IH; cbn; lia|]. intros _ s2 [b2 ->]. exists b2.
  replace (s.(instr_idx) + Z.of_nat (S (length l))) with (s.(instr_idx) + 1 + Z.of_nat (length l)) by lia. done.
Qed.

Lemma line_ok_asm i : line_ok (print_asm i).
Proof.
  destruct i as [| | | |[]|[]|]; cbn [print_asm]; unfold MemSpec.mnemonic;
    unfold line_ok, line_max; (split; [solve_length|split; [solve_plain|reflexivity]]).
Qed.

(** ** 2. The two opcodes *)

Definition pair_reg (op : Z) : Prop := op = SISA_OP_LDRD_reg ∨ op = SISA_OP_STRD_reg.

(** The generator refuses the word before it sets the base register up. *)
Definition pair_refused (op w : Z) : bool :=
  (Rn w =? R_PC) || (Rm w =? Rn w) || (op =? SISA_OP_LDRD_reg) && ((Rt w =? R_PC) || (u32 (Rt w + 1) =? R_PC)).

(** There is no room: the base register is above r7 and must be set up. *)
Definition roomless (o : gen_option_t) (op w : Z) : bool :=
  (o.(isa) =? ISA_THUMB) && negb (opt_stat o OPT_NOT_ALLOW_FIX_MEM) && negb (pair_refused op w) && (7 <? Rn w).

Lemma unsupported_upd b x st :
  status_eqb (upd b x st) UNSUPPORTED = if b then status_eqb x UNSUPPORTED else status_eqb st UNSUPPORTED.
Proof. by destruct b. Qed.

Lemma length_fix_prog o r :
  o.(isa) = ISA_THUMB → Z.of_nat (length (fix_prog o r true)) = if 7 <? r then 7 else 5.
Proof. intros Hi. unfold fix_prog, high_reg, mask_prog. rewrite Hi. cbn. by destruct (7 <? r). Qed.

Section dispatch.
Context `{Env : !RitEnv}.

Lemma wp_fix_mem_base r s :
  s.(options).(isa) = ISA_THUMB → r ≠ R_PC → s.(instr_idx) = 0 →
  wp (fix_mem_base r true) (λ _ s', lines_more (if 7 <? r then 7 else 5) s s') s.
Proof.
  intros Hi Hr H0. unfold wp. rewrite (writes_fix_mem_base s.(options) r true Hr s eq_refl).
  pose proof (length_fix_prog s.(options) r Hi) as Hl.
  assert (Z.of_nat (length (print_asm <$> fix_prog s.(options) r true)) = if 7 <? r then 7 else 5) as Hl'
    by by rewrite length_fmap.
  pose proof (wp_emit_all (print_asm <$> fix_prog s.(options) r true) s) as H. rewrite Hl' in H. apply H.
  - apply Forall_fmap, Forall_true. intros i. apply line_ok_asm.
  - rewrite H0. unfold MAX_INSTR. destruct (7 <? r); lia.
Qed.

(** Setting up the base register and the offset register. *)
Definition pair_setup (n m : Z) : rit unit :=
  fix_mem_base n true ;;
  offset_val ← (mov ← opt mem_offset_val; r ← rand; mret (r & (mov & not32 0x3)));
  emit_ldr_offset m offset_val.

Lemma wp_pair_setup n m s :
  s.(options).(isa) = ISA_THUMB → n ≠ R_PC → s.(instr_idx) = 0 →
  wp (pair_setup n m) (λ _ s', s'.(instr_idx) = (if 7 <? n then 8 else 6)) s.
Proof.
  intros Hi Hn H0. unfold pair_setup, emit_ldr_offset. apply wp_bind.
  eapply wp_mono; [by apply wp_fix_mem_base|]. intros [] s1 E1%lines_more_idx.
  apply wp_bind, wp_bind, wp_gets, wp_bind. unfold wp at 1, rand. apply wp_ret.
  eapply wp_mono; [apply wp_emit; [solve_line|cbn; rewrite E1, H0; unfold MAX_INSTR; by destruct (7 <? n)]|].
  intros _ s2 E2%lines_more_idx. rewrite E2. cbn. rewrite E1, H0. by destruct (7 <? n).
Qed.

(** The status is [UNSUPPORTED] exactly for the words that are refused. *)
Ltac refused :=
  rewrite ?Z.eqb_refl; cbv iota; rewrite !unsupported_upd; unfold pair_refused; cbn [status_eqb];
  repeat (match goal with |- (if ?b then _ else _) = _ => destruct b end; [by rewrite ?orb_true_r|]);
  repeat case_match; reflexivity.

(** The generators: how many lines there are. *)
Definition room_used (o : gen_option_t) (op w : Z) (s' : rit_state) : Prop :=
  if roomless o op w then s'.(instr_idx) = 8 else s'.(instr_idx) ≤ 7.

(** The two ways on: set the base register up, or not. *)
Lemma wp_pair_tail op s (st : instr_status_t) (pre : rit instr_status_t) :
  let w := s.(raw_instr) in
  s.(options).(isa) = ISA_THUMB → winv true op w s → s.(instr_idx) = 0 →
  status_eqb st UNSUPPORTED = pair_refused op w → keeps true op w 7 (λ _, True) pre →
  wp (no_fix ← GET_OPT_STAT OPT_NOT_ALLOW_FIX_MEM;
      if negb no_fix then
        (if negb (status_eqb st UNSUPPORTED) then pair_setup (Rn w) (Rm w) else mret tt) ;; mret st
      else if negb (status_eqb st UNSUPPORTED) then pre
      else mret st) (λ _ s', room_used s.(options) op w s') s.
Proof.
  intros w Hi Hw H0 Est Hpre. apply wp_bind, wp_gets. rewrite Est. unfold room_used, roomless.
  rewrite Hi, Z.eqb_refl. cbn [andb]. destruct (opt_stat _ _) eqn:Ef; cbn [negb andb].
  - destruct (pair_refused op w); cbn [negb]; [apply wp_ret; lia|].
    eapply wp_mono; [apply (Hpre s Hw); rewrite H0; done|]. cbv beta. intros _ s' (_ & ? & _). lia.
  - destruct (pair_refused op w) eqn:Ep; cbn [negb andb].
    + apply wp_bind, wp_ret, wp_ret. lia.
    + apply wp_bind. eapply wp_mono; [apply wp_pair_setup; [done| |done]|].
      { intros E. unfold pair_refused in Ep. rewrite E, Z.eqb_refl in Ep. done. }
      intros [] s' E. cbv beta in E. apply wp_ret. rewrite E. by destruct (7 <? Rn w).
Qed.

Lemma wp_gen_pair op s :
  pair_reg op → s.(options).(isa) = ISA_THUMB → winv true op s.(raw_instr) s → s.(instr_idx) = 0 →
  wp (gen_arm_instr op) (λ _ s', room_used s.(options) op s.(raw_instr) s') s.
Proof.
  intros Hop Hi Hw H0. unfold gen_arm_instr. apply wp_bind, wp_gets. rewrite Hi. set (w := s.(raw_instr)) in *.
  assert (∀ (m : rit instr_status_t), wp m (λ _ s', room_used s.(options) op w s') s →
    wp (status ← m; modify (st_is_oprand_init true) ;; mret status) (λ _ s', room_used s.(options) op w s') s) as Hlast.
  { intros m Hm. apply wp_bind. eapply wp_mono; [exact Hm|]. intros st s' Hs'. by apply wp_bind, wp_modify, wp_ret. }
  destruct Hop as [-> | ->].
  - change (wp (gen_ld_instr SISA_OP_LDRD_reg) (λ _ s', room_used s.(options) SISA_OP_LDRD_reg w s') s).
    unfold gen_ld_instr. apply wp_bind, wp_gets. apply Hlast.
    change (wp (gen_ld_reg SISA_OP_LDRD_reg w (Rt w) (Rn w) (puw_of w))
      (λ _ s', room_used s.(options) SISA_OP_LDRD_reg w s') s).
    unfold gen_ld_reg. apply wp_bind, wp_gets. cbv zeta.
    apply (wp_pair_tail SISA_OP_LDRD_reg s); [done..| |].
    + subst w. generalize (raw_instr s). intros w. change (regnum w SISA_OP_LDRD_reg SISA_INPUT1) with (Rm w). refused.
    + unfold chk_halfword, chk_word. keeps.
  - change (wp (gen_st_instr SISA_OP_STRD_reg) (λ _ s', room_used s.(options) SISA_OP_STRD_reg w s') s).
    unfold gen_st_instr. apply wp_bind, wp_gets. apply Hlast.
    change (wp (gen_st_reg SISA_OP_STRD_reg w (Rt w) (Rn w) (puw_of w))
      (λ _ s', room_used s.(options) SISA_OP_STRD_reg w s') s).
    unfold gen_st_reg. apply wp_bind, wp_gets. cbv zeta.
    apply (wp_pair_tail SISA_OP_STRD_reg s); [done..| |].
    + subst w. generalize (raw_instr s). intros w. change (regnum w SISA_OP_STRD_reg SISA_INPUT2) with (Rm w). refused.
    + unfold chk_halfword, chk_word. keeps.
Qed.

(** The dispatcher overruns the buffer exactly for the roomless words. *)
Lemma gen_dispatch_overruns op s :
  pair_reg op → s.(options).(isa) = ISA_THUMB → is_u32 s.(raw_instr) → buf_ok 0 s.(instr_buf) → s.(instr_idx) = 0 →
  overruns (gen_dispatch op) s ↔ roomless s.(options) op s.(raw_instr) = true.
Proof.
  intros Hop Hi Hu Hb H0.
  assert (winv true op s.(raw_instr) s) as Hw by (split; [by apply word_kept_refl|by rewrite H0|done]).
  pose proof (wp_gen_pair op s Hop Hi Hw H0) as Hg. unfold gen_dispatch.
  rewrite (proj2 (Z.ltb_lt op SISA_OP_ARM_MAX)) by by destruct Hop as [-> | ->]. unfold room_used in Hg.
  destruct (roomless _ _ _); split; try done.
  - intros _. eapply overruns_after; [exact Hg|]. cbv beta. intros st s1 E1. apply (overruns_after _ _ (λ _ s2, s2 = s1)); [by apply wp_gets|].
    intros r s2 ->. apply overruns_bind. unfold overruns, put_instr_line, mbind, M_bind, gets. rewrite E1. done.
  - intros H. exfalso. revert H. apply overruns_ends, wp_bind. eapply wp_mono; [exact Hg|]. cbv beta. intros st s1 E1.
    apply wp_bind, wp_gets, wp_bind. eapply wp_mono; [apply wp_put_line; [|unfold MAX_INSTR; lia]|]; [|intros; by apply wp_ret].
    pose proof (line_ok_inst_line op s1.(raw_instr)) as Hl. unfold inst_line in Hl.
    by rewrite (proj2 (Z.ltb_lt op SISA_OP_ARM_MAX)) in Hl by by destruct Hop as [-> | ->].
Qed.
End dispatch.

(** ** 3. The calls *)

(** The registers a caller asks for: the sources of the store begin with the
    register that is stored. *)
Definition base_asked (o : gen_option_t) (op : Z) : Z := nth (if op =? SISA_OP_LDRD_reg then 0%nat else 1%nat) o.(src_regs) 0.
Definition offset_asked (o : gen_option_t) (op : Z) : Z := nth (if op =? SISA_OP_LDRD_reg then 1%nat else 2%nat) o.(src_regs) 0.

(** A request for one of the two opcodes under Thumb, with a base register from
    r8 to lr, another offset register and, for the load, a pair below lr. *)
Record high_pair (o : gen_option_t) (op : Z) : Prop := {
  hp_op : pair_reg op;
  hp_name : opt_stat o OPT_OPCODE = true ∧ o.(opcode) = (instr_desc op).(name);
  hp_isa : opt_stat o OPT_ISA = true ∧ o.(isa) = ISA_THUMB;
  hp_fix : opt_stat o OPT_NOT_ALLOW_FIX_MEM = false;
  hp_sreg : opt_stat o OPT_SREG = true;
  hp_base : 7 < base_asked o op < R_PC;
  hp_off : 0 ≤ offset_asked o op < R_RAND ∧ offset_asked o op ≠ base_asked o op;
  hp_dreg : op = SISA_OP_LDRD_reg → opt_stat o OPT_DREG = true ∧ 0 ≤ nth 0 o.(dst_regs) 0 < 14
}.

(** Drawing the other options leaves the request. *)
Lemma high_pair_kept o o' op : high_pair o op → opts_kept o o' → high_pair o' op.
Proof.
  intros [Hop [Hn1 Hn2] [Hi1 Hi2] Hf Hs Hb Ho Hd] K.
  destruct (kept_rest _ _ K) as (_ & Ec & _ & _ & _ & Est).
  assert (∀ k, opt_stat o' k = opt_stat o k) as Hst by (intros k; unfold opt_stat; by rewrite Est).
  assert (∀ i, 0 ≤ nth i o.(src_regs) 0 < R_RAND → nth i o'.(src_regs) 0 = nth i o.(src_regs) 0) as Hsrc.
  { intros i Hr. apply (kept_src _ _ K i); [done|]. lia. }
  assert (base_asked o' op = base_asked o op ∧ offset_asked o' op = offset_asked o op) as [Eb Eo].
  { unfold base_asked, offset_asked in *. split; apply Hsrc; unfold R_PC, R_RAND in *; lia. }
  split; rewrite ?Hst, ?Eb, ?Eo, ?Ec; try done.
  - split; [done|]. rewrite (kept_isa _ _ K); [done|done|by rewrite Hi2].
  - intros E. destruct (Hd E) as [Hd1 Hd2]. split; [done|].
    rewrite (kept_dst _ _ K 0%nat); [done|done|]. unfold R_RAND. cbv beta. lia.
Qed.

(** A word with the registers asked for has no room. *)
Lemma high_pair_roomless o op w :
  high_pair o op → Rn w = base_asked o op → Rm w = offset_asked o op →
  (op = SISA_OP_LDRD_reg → Rt w = nth 0 o.(dst_regs) 0) → roomless o op w = true.
Proof.
  intros [Hop _ [_ Hi] Hf _ Hb [_ Ho] Hd] En Em Et. unfold roomless, pair_refused.
  rewrite Hi, Hf, En, Em, (proj2 (Z.ltb_lt _ _)), (proj2 (Z.eqb_neq (base_asked o op) R_PC)), (proj2 (Z.eqb_neq (offset_asked o op) _)) by lia.
  cbn [negb andb orb]. rewrite andb_true_r. apply negb_true_iff. destruct (Z.eqb_spec op SISA_OP_LDRD_reg) as [E|]; [|done].
  destruct (Hd E) as [_ Hr]. rewrite (Et E), u32_small by (unfold is_u32; lia). unfold R_PC.
  rewrite !(proj2 (Z.eqb_neq _ _)) by lia. done.
Qed.

Section call.
Context `{Env : !RitEnv}.

(** The state between two stages: nothing written yet. *)
Record stage_ok (o : gen_option_t) (s : rit_state) : Prop := {
  sg_options : s.(options) = o;
  sg_raw : is_u32 s.(raw_instr);
  sg_idx : s.(instr_idx) = 0;
  sg_buf : buf_ok 0 s.(instr_buf)
}.

Lemma stage_winv o op s : stage_ok o s → winv true op s.(raw_instr) s.
Proof. intros [<- Hu Hi Hb]. split; [by apply word_kept_refl|by rewrite Hi|done]. Qed.

(** A stage without lines that leaves the options alone. *)
Lemma stage_step {A} op (m : rit A) (Q : rit_state → Prop) o s :
  (∀ tmpl, keeps true op tmpl 0 (λ _, True) m) → stage_ok o s →
  wp m (λ _ s', s'.(options) = s.(options) ∧ Q s') s → wp m (λ _ s', stage_ok o s' ∧ Q s') s.
Proof.
  intros Hk Hs Hm. pose proof (Hk s.(raw_instr) s (stage_winv o op s Hs)) as Hw.
  destruct Hs as [Ho Hu Hi Hb]. rewrite Hi in Hw. specialize (Hw ltac:(done)).
  apply wp_elim in Hm as (a & s' & E & Ho' & HQ). apply (wp_intro _ _ _ _ _ E).
  unfold wp in Hw. rewrite E in Hw. destruct Hw as ([[Hu' _] Hb' _] & Hi' & _).
  assert (s'.(instr_idx) = 0) as Hi0 by lia. rewrite Hi0 in Hb'. split; [|done]. split; [by rewrite Ho'|done..].
Qed.

Lemma pair_bounds op : pair_reg op → 0 ≤ op < SISA_OP_MAX.
Proof. by intros [-> | ->]. Qed.

(** The operand stages write the registers asked for. *)
Lemma wp_pair_src o op s :
  high_pair o op → opts_chosen o → stage_ok o s →
  wp (set_src_opnd_bits op) (λ _ s', stage_ok o s' ∧ Rn s'.(raw_instr) = base_asked o op
    ∧ Rm s'.(raw_instr) = offset_asked o op) s.
Proof.
  intros Hp Hc Hs. apply (stage_step op); [intros; by apply keeps_set_opnd_bits, pair_bounds, Hp|done|].
  pose proof (sg_options _ _ Hs) as Ho. destruct (hp_op _ _ Hp) as [-> | ->];
    (eapply wp_mono; [apply (wp_opnd_loop _ true); [by vm_compute|by vm_compute|apply Hs|rewrite Ho; apply Hc|done|done]|]);
    cbv beta; intros _ s' (Ho' & _ & Hw & _); rewrite Ho in Hw.
  - split; [done|]. split; [exact (Hw 0%nat _ eq_refl)|exact (Hw 1%nat _ eq_refl)].
  - split; [done|]. split; [exact (Hw 1%nat _ eq_refl)|exact (Hw 2%nat _ eq_refl)].
Qed.

Lemma wp_pair_dst o op s :
  high_pair o op → opts_chosen o → stage_ok o s →
  wp (set_dst_opnd_bits op) (λ _ s', stage_ok o s' ∧ Rn s'.(raw_instr) = Rn s.(raw_instr)
    ∧ Rm s'.(raw_instr) = Rm s.(raw_instr) ∧ (op = SISA_OP_LDRD_reg → Rt s'.(raw_instr) = nth 0 o.(dst_regs) 0)) s.
Proof.
  intros Hp Hc Hs. apply (stage_step op); [intros; by apply keeps_set_opnd_bits, pair_bounds, Hp|done|].
  pose proof (sg_options _ _ Hs) as Ho. destruct (hp_op _ _ Hp) as [-> | ->];
    (eapply wp_mono; [apply (wp_opnd_loop _ false); [by vm_compute|by vm_compute|apply Hs|rewrite Ho; apply Hc|done|done]|]);
    cbv beta; intros _ s' (Ho' & _ & Hw & Hoth); rewrite Ho in Hw; (split; [done|]).
  - split; [exact (Hoth SISA_INPUT0 eq_refl eq_refl)|]. split; [exact (Hoth SISA_INPUT1 eq_refl eq_refl)|].
    intros _. exact (Hw 0%nat _ eq_refl).
  - split; [exact (Hoth SISA_INPUT1 eq_refl eq_refl)|]. split; [exact (Hoth SISA_INPUT2 eq_refl eq_refl)|done].
Qed.

(** Neither do the bits that are fixed afterwards reach the registers. *)
Lemma pair_fixed op w :
  pair_reg op → let w' := foldl run_act w (fix_acts op) in
  Rn w' = Rn w ∧ Rm w' = Rm w ∧ (op = SISA_OP_LDRD_reg → Rt w' = Rt w).
Proof.
  intros [-> | ->]; [done|]. change (fix_acts SISA_OP_STRD_reg) with [ClearBits 8 11].
  cbn [foldl run_act]. unfold Rn, Rm, get_bits_value, clear_bits. rewrite <- !Z.land_assoc. by split_and!.
Qed.

Lemma wp_pair_sbit o op s :
  pair_reg op → stage_ok o s → wp (set_sbit op) (λ _ s', stage_ok o s' ∧ True) s.
Proof.
  intros Hp Hs. apply (stage_step op); [intros; apply keeps_set_sbit|done|].
  eapply wp_mono; [apply wp_set_sbit_options|]. done.
Qed.

(** The attempt overruns. *)
Lemma gen_instr_overruns o op u s :
  high_pair o op → opts_chosen o → s.(options) = o → is_u32 s.(raw_instr) → overruns (gen_instr op u) s.
Proof.
  intros Hp Hc Ho Hu. unfold gen_instr. pose proof (hp_op _ _ Hp) as Hop. do 4 apply overruns_modify.
  match goal with |- overruns _ ?s1 => assert (stage_ok o s1) as S1 end.
  { split; [done|done|done|]. split; [done|done|]. apply Forall_replicate, line_ok_nil. }
  revert S1. generalize (st_instr_buf (replicate 8 "") (st_is_reg_bit_cut false (st_is_oprand_init false (st_instr_idx 0 s)))).
  clear s Ho Hu. intros s S1. assert (opkind_eqb (instr_desc op).(op_kind) PSEUDO_OP = false) as -> by by destruct Hop as [-> | ->].
  eapply overruns_after; [by apply (wp_pair_sbit o)|]. intros _ s2 [S2 _].
  assert (set_arm_cond_bits op s2 = Ok tt s2) as Ec.
  { unfold set_arm_cond_bits, opt, gets, mbind, M_bind. by rewrite (sg_options _ _ S2), (proj2 (hp_isa _ _ Hp)). }
  eapply overruns_after; [apply (wp_intro _ (λ _ s', s' = s2) _ _ _ Ec); done|]. intros _ ? ->.
  eapply overruns_after; [by apply (wp_pair_src o)|]. intros _ s3 (S3 & En & Em).
  eapply overruns_after; [by apply (wp_pair_dst o)|]. intros _ s4 (S4 & En' & Em' & Et). rewrite En in En'. rewrite Em in Em'.
  apply overruns_gets. eapply (overruns_after _ _ (λ _ s5, stage_ok o s5 ∧ s5.(raw_instr) = s4.(raw_instr))).
  { destruct (is_set_fixed_bit s4); cbn [negb].
    - by apply wp_ret.
    - apply wp_bind, wp_gets, wp_bind, wp_modify, wp_ret. split; [|done]. destruct S4. by split. }
  intros orig s5 [S5 E5]. unfold fix_unpredictable_bit, on_raw. apply overruns_modify. apply overruns_bind.
  destruct (pair_fixed op s5.(raw_instr) Hop) as (Fn & Fm & Ft). destruct S5 as [O5 U5 I5 B5].
  apply gen_dispatch_overruns; cbn; try done.
  - rewrite O5. apply Hp.
  - by apply is_u32_run_acts.
  - rewrite O5. apply high_pair_roomless; [done|by rewrite Fn, E5|by rewrite Fm, E5|].
    intros E. by rewrite (Ft E), E5, (Et E).
Qed.

Lemma find_pair op nm : pair_reg op → (instr_desc op).(name) = Some nm → find (name_is nm) (seqZ 1 (SISA_OP_MAX - 1)) = Some op.
Proof. intros [-> | ->] [= <-]; vm_compute; reflexivity. Qed.

Lemma gen_random_instr_overruns op s :
  pinv s → high_pair s.(options) op → overruns gen_random_instr s.
Proof.
  intros Hs Hp. pose proof (hp_op _ _ Hp) as Hop. destruct (hp_name _ _ Hp) as [Hn1 Hn2]. unfold gen_random_instr.
  do 3 apply overruns_modify. do 2 apply overruns_gets.
  eapply (overruns_after _ _ (λ _ s1, s1.(options) = s.(options) ∧ s1.(shadow_options) = s.(options) ∧ is_u32 s1.(raw_instr))).
  { destruct Hs. unfold when. destruct (negb _); [by apply wp_modify|by apply wp_ret]. }
  intros [] s1 (O1 & Sh1 & U1). apply overruns_gets. rewrite O1, Hn1.
  apply (overruns_after _ _ (λ r s2, r = Some op ∧ s2 = s1)).
  { unfold find_opcode. apply wp_bind, wp_gets. rewrite O1, Hn2.
    destruct (name (instr_desc op)) as [nm|] eqn:En; [|by destruct Hop as [-> | ->]].
    apply wp_ret. split; [by apply find_pair|done]. }
  intros r s2 [-> ->]. assert (true && (SISA_OP_ARM_MAX <? op) = false) as -> by by destruct Hop as [-> | ->].
  cbn [when]. apply overruns_ret, overruns_bind.
  set (retry_max := if opt_stat _ OPT_NOT_ALLOW_RELAX then _ else _).
  assert (∃ fuel, Z.to_nat (retry_max + 1) = S fuel ∧ (0 <=? retry_max) = true) as (fuel & -> & Hm).
  { subst retry_max. destruct (opt_stat _ OPT_NOT_ALLOW_RELAX); by eexists. }
  cbn [gen_loop]. rewrite Hm. cbn [status_eqb negb andb]. apply overruns_bind. unfold gen_attempt.
  apply overruns_modify. set (s2 := st_options _ s1). assert (s2.(options) = s.(options)) as O2 by done.
  assert (is_u32 s2.(raw_instr)) as U2 by done. revert O2 U2. generalize s2. clear s2 s1 O1 Sh1 U1. intros s1 O1 U1.
  destruct (chooses_relax_restrict 0 s1) as (o1 & p1 & E1 & _ & Eo). rewrite Eo in E1 by (right; done).
  eapply overruns_after; [apply (wp_intro _ (λ _ s', s' = st_rand_pos p1 (st_options s1.(options) s1)) _ _ _ E1); done|].
  intros [] ? ->. destruct (chooses_gen_rand_opt_val (st_rand_pos p1 (st_options s1.(options) s1))) as (o2 & p2 & E2 & Ho2).
  cbn [options st_rand_pos st_options] in Ho2. rewrite O1 in Ho2. destruct (Ho2 (pi_opts _ Hs)) as (_ & Hc & Hk).
  pose proof (high_pair_kept _ _ _ Hp Hk) as Hp2.
  eapply (overruns_after _ _ (λ _ s', s'.(options) = o2 ∧ is_u32 s'.(raw_instr))); [by apply (wp_intro _ _ _ _ _ E2)|].
  intros [] s2 [O2 U2]. apply overruns_gets. rewrite O2, (proj1 (hp_name _ _ Hp2)). cbn [negb]. apply overruns_ret.
  eapply overruns_after; [apply wp_init_raw_instr_bin; [by apply pair_bounds|done]|].
  intros [] ? (p & r & -> & [Hr _]). apply overruns_bind. by apply (gen_instr_overruns o2).
Qed.

(** C3. Two opcodes overrun the instruction buffer, and exactly when.  Setting up
    the base register of a 64-bit register-offset access takes seven lines when
    the instruction set is Thumb and the register is above r7, the offset one
    more, and the encoding is the ninth line of [instr_buf[8]].  So from an empty
    buffer the dispatcher writes past its end for exactly the words of LDRD_reg
    and STRD_reg that are [roomless]; and every call of the entry point that names
    one of the two under Thumb and asks for such registers overruns, whatever
    the random stream, the clock and the state before. *)
Theorem named_ldrd_reg_overruns :
  (∀ op s, pair_reg op → s.(options).(isa) = ISA_THUMB → is_u32 s.(raw_instr) → buf_ok 0 s.(instr_buf) →
     s.(instr_idx) = 0 →
     (gen_dispatch op s = Abort BufOverflow ↔ roomless s.(options) op s.(raw_instr) = true))
  ∧ ∀ l s s0 s1 op, init_env_val s = Ok tt s0 → parse_params l s0 = Ok true s1 → high_pair s1.(options) op →
      single_instr_gen_py l s = Abort BufOverflow.
Proof.
  split; [intros; by apply gen_dispatch_overruns|]. intros l s s0 s1 op E0 E1 Hp.
  destruct (wp_elim _ _ _ (init_env_val_pinv s)) as ([] & s0' & E0' & Hs0 & _). rewrite E0 in E0'. injection E0' as <-.
  destruct (wp_elim _ _ _ (wp_parse_params (λ _, True) l s0 Hs0 ltac:(by apply Forall_true; intros []) I))
    as (ok & s1' & E1' & Hs1 & _). rewrite E1 in E1'. injection E1' as <- <-.
  pose proof (gen_random_instr_overruns op s1 Hs1 Hp) as H. unfold overruns in H.
  unfold single_instr_gen_py, mbind, M_bind. by rewrite E0, E1, H.
Qed.
End call.

(** Both opcodes, with base r8, offset r1 and transfer register r2. *)
Definition pair_call (nm : string) (regs : list param) : list param :=
  [PStr OPT_OPCODE nm; PLong OPT_ISA ISA_THUMB] ++ regs.

Lemma named_ldrd_reg_overruns_witness :
  single_instr_gen_py (Env := lcg_env)
    (pair_call "LDRD_reg" [PLong OPT_SREG 8; PLong OPT_SREG 1; PLong OPT_DREG 2]) zero_state = Abort BufOverflow
  ∧ single_instr_gen_py (Env := lcg_env)
    (pair_call "STRD_reg" [PLong OPT_SREG 2; PLong OPT_SREG 8; PLong OPT_SREG 1]) zero_state = Abort BufOverflow.
Proof.
  split.
  - eapply (proj2 (named_ldrd_reg_overruns (Env := lcg_env)) _ _ _ _ SISA_OP_LDRD_reg); [vm_compute; reflexivity..|].
    split; [by left|by vm_compute..].
  - eapply (proj2 (named_ldrd_reg_overruns (Env := lcg_env)) _ _ _ _ SISA_OP_STRD_reg); [vm_compute; reflexivity..|].
    split; [by right|by vm_compute..].
Defined.
