(* ===== verification/Aliases.v ===== *)
(** * Encodings of another instruction that are called VALID

    A status of ALIAS says that a word of the opcode is really an encoding of
    another instruction.  For three opcodes of 32-bit Thumb the generators do not
    look: with the PC in the field of the first operand, every word of the opcode
    matches the table entry of another instruction as well, which is the one the
    architecture gives it. *)
From S2P Require Import Prelude RitCommon InstrTable State InstrUtil InstrBuf Keeps GenThumb32Instr RandomInstrGen InstrGenerator ValidMem EncodeBits EncodeSpec Attempt.
#[local] Open Scope c_scope.

(** ** 1. The aliases *)

(** ORR and ORN of the PC are MOV and MVN; BFI of the PC is BFC. *)
Definition pc_aliases : list (Z * Z) :=
  [(SISA_OP_ORR_imm_T1, SISA_OP_MOV_imm_T2); (SISA_OP_ORN_imm_T1, SISA_OP_MVN_imm_T1); (SISA_OP_BFI_T1, SISA_OP_BFC_T1)].

(** The other conditions on such a word: the destination is neither SP nor PC, a
    modified immediate is not one of the unpredictable ones, and a bit field is not
    empty. *)
Definition legal_rest (op w : Z) : bool :=
  negb (BadReg (get_bits_value w 8 11))
  && (if op =? SISA_OP_BFI_T1 then
        u32 (get_bits_value w 6 7 + shl32 (get_bits_value w 12 14) 2) <=? get_bits_value w 0 4
      else negb ((get_bit_value w 26 =? 0) && (get_bits_value w 0 7 =? 0)
                 && ((0 <? get_bits_value w 12 14) && (get_bits_value w 12 14 <? 4)))).

(** The field of the first operand, in place. *)
Lemma field_16_19 w : get_bits_value w 16 19 = R_PC → w & 0x000f0000 = 0x000f0000.
Proof.
  intros H. assert (w & 0x000f0000 = Z.shiftl (get_bits_value w 16 19) 16) as ->; [|by rewrite H].
  unfold get_bits_value. change (field_mask 16 19) with (Z.shiftl 15 16). cbv zeta. change (shr32 (w & Z.shiftl 15 16) 16) with (Z.shiftr (w & Z.shiftl 15 16) 16). rewrite Z.shiftr_land, Z.shiftr_shiftl_l by lia.
  change (0x000f0000) with (Z.shiftl 15 16). rewrite Z.shiftl_0_r. apply Z.bits_inj'. intros n Hn.
  rewrite Z.land_spec. destruct (Z.lt_ge_cases n 16) as [Hlt|Hge].
  - by rewrite !Z.shiftl_spec_low, andb_false_r.
  - rewrite !Z.shiftl_spec, Z.land_spec, Z.shiftr_spec by lia. by replace (n - 16 + 16) with n by lia.
Qed.

(** The masks show it for every word at once. *)
Lemma alias_matches op other w :
  (op, other) ∈ pc_aliases → op_matches op w → get_bits_value w 16 19 = R_PC → op_matches other w.
Proof.
  intros Hin Ho Hn%field_16_19. unfold op_matches in *.
  assert (((instr_desc op).(match_msk) .| 0x000f0000) & (instr_desc other).(match_msk) = (instr_desc other).(match_msk)
    ∧ ((instr_desc op).(match_val) .| 0x000f0000) & (instr_desc other).(match_msk) = (instr_desc other).(match_val)) as [Em Ev].
  { apply list_elem_of_In in Hin. repeat (destruct Hin as [[= <- <-]|Hin]; [by vm_compute|]). done. }
  by rewrite <- Ev, <- Ho, <- Hn, <- Z.land_lor_distr_r, <- Z.land_assoc, Em.
Qed.

(** ** 2. Their status *)

Lemma alias_status op other w :
  (op, other) ∈ pc_aliases → get_bits_value w 16 19 = R_PC →
  (if op =? SISA_OP_BFI_T1 then gen_thumb32_data_pimm_status op w else gen_thumb32_data_mimm_status op w)
  = if legal_rest op w then VALID else UNPREDICTABLE.
Proof.
  intros Hin Hn. unfold legal_rest. apply list_elem_of_In in Hin.
  destruct Hin as [[= <- <-]|[[= <- <-]|[[= <- <-]|[]]]]; cbn -[get_bits_value get_bit_value shl32 u32 BadReg]; rewrite Hn;
    cbn -[get_bits_value get_bit_value shl32 u32 BadReg]; rewrite ?orb_false_r; destruct (BadReg _); cbn [negb andb upd]; try done.
  - by destruct (_ && _ && _).
  - by destruct (_ && _ && _).
  - by destruct (_ <? _).
  - rewrite Z.ltb_antisym. by destruct (_ <=? _).
Qed.

Section accepted.
Context `{Env : !RitEnv}.

(** The dispatcher for a generator that only looks at the word. *)
Lemma dispatch_classified op f s :
  SISA_OP_THUMB_MAX ≤ op < SISA_OP_THUMB_32_MAX → gen_thumb32_instr op = classify f op → 0 ≤ s.(instr_idx) < MAX_INSTR →
  ∃ s', gen_dispatch op s = Ok (f op s.(raw_instr)) s' ∧ s'.(raw_instr) = s.(raw_instr).
Proof.
  intros Hop Hg Hi. assert (op < SISA_OP_MAX) as Hmax by (unfold SISA_OP_THUMB_32_MAX, SISA_OP_MAX in *; lia).
  assert (wp (gen_dispatch op) (λ st s', st = f op s.(raw_instr) ∧ s'.(raw_instr) = s.(raw_instr)) s) as H.
  { unfold gen_dispatch. rewrite !(proj2 (Z.ltb_ge op _)), (proj2 (Z.ltb_lt op SISA_OP_THUMB_32_MAX))
      by (unfold SISA_OP_ARM_MAX, SISA_OP_THUMB_MAX, SISA_OP_THUMB_32_MAX in *; lia).
    apply wp_bind, wp_modify, wp_bind. rewrite Hg. apply wp_bind, wp_gets, wp_ret, wp_bind, wp_gets, wp_bind.
    unfold put_instr_line, sprintf_line. apply wp_bind, wp_gets, wp_bind, wp_assert; [apply Z.ltb_lt; cbn; lia|].
    apply wp_bind, wp_bind, wp_assert.
    { pose proof (line_ok_inst_line op s.(raw_instr)) as [Hl _]. unfold inst_line in Hl.
      rewrite !(proj2 (Z.ltb_ge op _)) in Hl by (unfold SISA_OP_ARM_MAX, SISA_OP_THUMB_MAX in *; lia).
      apply Z.leb_le. unfold line_max, MAX_STR_INSTR_LEN in *. cbn in *. lia. }
    by apply wp_ret, wp_bind, wp_modify, wp_modify, wp_ret. }
  apply wp_elim in H as (st & s' & E & -> & Hr). by exists s'.
Qed.

(** C39. Three groups of aliases are accepted.  Every word of ORR or ORN (modified
    immediate) or BFI of 32-bit Thumb whose first operand is the PC is a word of MOV,
    MVN or BFC; and yet, in every state, the dispatcher never answers ALIAS for such
    a word: it leaves the word as it is and answers VALID exactly if its other fields
    are legal.  For the register forms of ORR and ORN with legal registers the same
    operand does give ALIAS.  There are calls of the entry point that answer such a
    word for each of the three opcodes. *)
Theorem valid_aliases :
  (∀ op other s, (op, other) ∈ pc_aliases → op_matches op s.(raw_instr) → get_bits_value s.(raw_instr) 16 19 = R_PC →
     0 ≤ s.(instr_idx) < MAX_INSTR →
     op_matches other s.(raw_instr)
     ∧ ∃ s', gen_dispatch op s = Ok (if legal_rest op s.(raw_instr) then VALID else UNPREDICTABLE) s'
         ∧ s'.(raw_instr) = s.(raw_instr))
  ∧ (∀ op s, op_in op [SISA_OP_ORR_reg_T2; SISA_OP_ORN_reg_T1] = true → get_bits_value s.(raw_instr) 16 19 = R_PC →
       BadReg (get_bits_value s.(raw_instr) 8 11) = false → BadReg (get_bits_value s.(raw_instr) 0 3) = false →
       0 ≤ s.(instr_idx) < MAX_INSTR → ∃ s', gen_dispatch op s = Ok ALIAS s')
  ∧ Forall (λ p, ∃ (E : RitEnv) nm l fb raw text s', (instr_desc p.1).(name) = Some nm
       ∧ single_instr_gen_py (Env := E) (PStr OPT_OPCODE nm :: l) zero_state = Ok (Some (VALID, fb, raw, text)) s'
       ∧ op_matches p.1 raw ∧ get_bits_value raw 16 19 = R_PC) pc_aliases.
Proof.
  split; [|split].
  - intros op other s Hin Ho Hn Hi. split; [by eapply alias_matches|]. rewrite <- (alias_status op other _ Hin Hn).
    apply list_elem_of_In in Hin. destruct Hin as [[= <- <-]|[[= <- <-]|[[= <- <-]|[]]]].
    + by apply (dispatch_classified _ gen_thumb32_data_mimm_status).
    + by apply (dispatch_classified _ gen_thumb32_data_mimm_status).
    + by apply (dispatch_classified _ gen_thumb32_data_pimm_status).
  - intros op s Hop Hn Hd Hm Hi. assert (gen_thumb32_data_shifted_reg_status op s.(raw_instr) = ALIAS) as <-.
    { unfold op_in in Hop. cbn [existsb] in Hop. rewrite orb_false_r in Hop. apply orb_true_iff in Hop as [->%Z.eqb_eq | ->%Z.eqb_eq];
        cbn -[get_bits_value BadReg]; by rewrite Hn, Hd, Hm. }
    unfold op_in in Hop. cbn [existsb] in Hop. rewrite orb_false_r in Hop.
    apply orb_true_iff in Hop as [->%Z.eqb_eq | ->%Z.eqb_eq];
      (eapply dispatch_classified in Hi as (s' & E & _); [by exists s'|done|reflexivity]).
  - repeat (apply Forall_cons; split; [|]); [..|constructor];
      (exists lcg_env; eexists; exists [PLong OPT_SREG 15; PLong OPT_DREG 1; PLong OPT_IMM 66]; do 4 eexists;
       split; [reflexivity|]; split; [vm_compute; reflexivity|by vm_compute]).
Qed.
End accepted.

Lemma valid_aliases_witness :
  op_matches SISA_OP_MOV_imm_T2 0xf04f0142
  ∧ ∃ s', gen_dispatch (Env := lcg_env) SISA_OP_ORR_imm_T1 (st_raw_instr 0xf04f0142 zero_state) = Ok VALID s'.
Proof.
  destruct (proj1 (valid_aliases (Env := lcg_env)) SISA_OP_ORR_imm_T1 SISA_OP_MOV_imm_T2 (st_raw_instr 0xf04f0142 zero_state))
    as (Hm & s' & E & _); [by left|by vm_compute..|]. split; [exact Hm|]. exists s'. exact E.
Defined.
