(* ===== verification/ParseRIT.v ===== *)
(** * The reader of the output: art/rit.py, parseRIT

    The text of a call is read back by the test driver.  [parseRIT] is its
    parser, on strings as Python 2 has them (bytes): what the library prints,
    the driver reads, and the word it assembles is the word of the call. *)
From Stdlib Require Import Ascii.
From S2P Require Import Prelude RitCommon InstrTable State InstrUtil InstrBuf Keeps RandomInstrGen InstrGenerator Attempt Output Api.
#[local] Open Scope c_scope.

(** ** 1. The Python string methods *)

(** [str.splitlines()]: a line ends at a line feed, a carriage return, or both. *)
Fixpoint splitlines (str : string) : list string :=
  match str with
  | EmptyString => []
  | String c rest =>
      if Ascii.eqb c "010"%char then "" :: splitlines rest
      else if Ascii.eqb c "013"%char then
        match rest with
        | String c' rest' =>
            if Ascii.eqb c' "010"%char then "" :: splitlines rest' else "" :: splitlines rest
        | EmptyString => [""]
        end
      else match splitlines rest with
           | [] => [String c ""]
           | line :: lines => String c line :: lines
           end
  end.

(** [str.strip()] *)
Fixpoint lstrip (str : string) : string :=
  match str with
  | String c rest => if blank c then lstrip rest else str
  | EmptyString => ""
  end.
Fixpoint rstrip (str : string) : string :=
  match str with
  | String c rest =>
      match rstrip rest with
      | EmptyString => if blank c then "" else String c ""
      | rest => String c rest
      end
  | EmptyString => ""
  end.
Definition strip (str : string) : string := rstrip (lstrip str).

(** [str.split(' ')] *)
Fixpoint split_space (str : string) : list string :=
  match str with
  | EmptyString => [""]
  | String c rest =>
      if Ascii.eqb c " "%char then "" :: split_space rest
      else match split_space rest with
           | [] => [String c ""]
           | word :: words => String c word :: words
           end
  end.

(** ** 2. The parser *)

(** The variables of the loop: [status] and [inst]. *)
Definition parse_state : Type := bool * list (string * string).

(** One line; [None] is the IndexError of [tmps[1]]. *)
Definition parse_line (allow_fix isARM invalid : bool) (st : parse_state) (s : string)
    : option parse_state :=
  let '(status, inst) := st in
  let tmps := split_space (strip s) in
  if String.prefix "[INFO]" s then
    t1 ← tmps !! 1%nat;
    if String.eqb t1 "VALID" then Some (true, inst)
    else if String.eqb t1 "UNSUPPORTED" && invalid && isARM then
      Some (true, inst ++ [("", String.concat " " (drop 3 tmps))])
    else Some (status, inst)
  else if String.prefix "[CODE]" s then
    if allow_fix then
      t1 ← tmps !! 1%nat; Some (status, inst ++ [(t1, String.concat " " (drop 2 tmps))])
    else Some (status, inst)
  else if String.prefix "[INST]" s then
    t1 ← tmps !! 1%nat; Some (status, inst ++ [(t1, String.concat " " (drop 2 tmps))])
  else Some (status, inst).

Fixpoint parse_lines (allow_fix isARM invalid : bool) (st : parse_state) (lines : list string)
    : option parse_state :=
  match lines with
  | [] => Some st
  | s :: lines => st ← parse_line allow_fix isARM invalid st s; parse_lines allow_fix isARM invalid st lines
  end.

Definition parseRIT (output : string) (allow_fix isARM invalid : bool)
    : option (bool * option (list (string * string))) :=
  '(status, inst) ← parse_lines allow_fix isARM invalid (false, []) (splitlines output);
  Some (if status : bool then (status, Some inst) else (status, None)).

(** ** 3. Lines *)

Lemma splitlines_line line text :
  plain line = true → splitlines (line +:+ nl +:+ text) = line :: splitlines text.
Proof.
  induction line as [|c line IH]; [done|]. cbn [all_chars]. intros [Hc Hp]%andb_true_iff.
  unfold plain_char in Hc. apply andb_true_iff in Hc as [[Hlf%negb_true_iff Hcr%negb_true_iff]%andb_true_iff _].
  change (String c line +:+ nl +:+ text) with (String c (line +:+ nl +:+ text)).
  cbn [splitlines]. by rewrite Hlf, Hcr, IH.
Qed.

Lemma splitlines_text lines :
  Forall line_ok lines → splitlines (lines_text lines) = lines.
Proof.
  induction 1 as [|line lines (_ & Hp & _) _ IH]; [done|]. cbn [lines_text foldr].
  fold (lines_text lines). by rewrite splitlines_line, IH.
Qed.

Lemma lines_text_app l1 l2 : lines_text (l1 ++ l2) = lines_text l1 +:+ lines_text l2.
Proof.
  induction l1 as [|line l1 IH]; [done|]. cbn [app lines_text foldr]. fold (lines_text (l1 ++ l2)).
  fold (lines_text l1). by rewrite IH, !string_app_assoc.
Qed.

(** ** 4. Words *)

Abbreviation no_blank := (all_chars (λ c, negb (blank c))).

Lemma rstrip_nonblank c rest : blank c = false → rstrip (String c rest) = String c (rstrip rest).
Proof. intros Hc. cbn [rstrip]. rewrite Hc. by destruct (rstrip rest). Qed.

Lemma rstrip_no_blank str : no_blank str = true → rstrip str = str.
Proof.
  induction str as [|c str IH]; [done|]. cbn [all_chars]. intros [Hc%negb_true_iff Hs]%andb_true_iff.
  by rewrite rstrip_nonblank, IH.
Qed.

(** What precedes a word stays. *)
Lemma rstrip_app pre str : rstrip str ≠ "" → rstrip (pre +:+ str) = pre +:+ rstrip str.
Proof.
  intros Hs. induction pre as [|c pre IH]; [done|].
  change (String c pre +:+ str) with (String c (pre +:+ str)). cbn [rstrip]. rewrite IH.
  change (String c pre +:+ rstrip str) with (String c (pre +:+ rstrip str)).
  destruct (pre +:+ rstrip str) eqn:E; [|done]. destruct pre; [by cbn in E|done].
Qed.

Lemma split_space_word str : no_blank str = true → split_space str = [str].
Proof.
  induction str as [|c str IH]; [done|]. cbn [all_chars]. intros [Hc%negb_true_iff Hs]%andb_true_iff.
  cbn [split_space]. unfold blank in Hc. cbn [existsb] in Hc. apply orb_false_iff in Hc as [-> _].
  by rewrite IH.
Qed.

Lemma split_space_app w rest :
  no_blank w = true → split_space (w +:+ " " +:+ rest) = w :: split_space rest.
Proof.
  induction w as [|c w IH]; [done|]. cbn [all_chars]. intros [Hc%negb_true_iff Hs]%andb_true_iff.
  change (String c w +:+ " " +:+ rest) with (String c (w +:+ " " +:+ rest)).
  cbn [split_space]. unfold blank in Hc. cbn [existsb] in Hc. apply orb_false_iff in Hc as [-> _].
  by rewrite IH.
Qed.

Lemma split_space_nonempty str : ∃ w ws, split_space str = w :: ws.
Proof.
  destruct str as [|c str]; cbn [split_space]; [eauto|]. case_match; [eauto|].
  destruct (split_space str); eauto.
Qed.

(** ** 5. What a line of a buffer contributes *)

(** The mnemonic and the operands after the tag. *)
Definition line_inst (allow_fix : bool) (line : string) : list (string * string) :=
  if String.prefix "[CODE]" line && allow_fix || String.prefix "[INST]" line then
    match split_space (strip (str_drop 7 line)) with
    | w :: ws => [(w, String.concat " " ws)]
    | [] => []
    end
  else [].

Lemma prefix_app p str : String.prefix p str = true → ∃ rest, str = p +:+ rest.
Proof.
  revert str. induction p as [|c p IH]; intros str; [by exists str|].
  destruct str as [|c' str]; cbn [String.prefix]; [done|]. case_match; [|done]. subst.
  intros [rest ->]%IH. by exists rest.
Qed.

Lemma tagged_spec line :
  tagged line = true →
  ∃ tag c rest, (tag = "[CODE]" ∨ tag = "[INST]") ∧ line = tag +:+ " " +:+ String c rest ∧ blank c = false
    ∧ (c = "."%char → String.prefix ".inst" (String c rest) = true).
Proof.
  unfold tagged. intros [Hp Hc]%andb_true_iff.
  apply orb_true_iff in Hp as [[rest ->]%prefix_app|[rest ->]%prefix_app];
    (destruct rest as [|c rest]; [done|]); apply andb_true_iff in Hc as [Hc%negb_true_iff Hd]; cbn in Hc.
  - exists "[CODE]", c, rest. split_and!; auto. intros ->. done.
  - exists "[INST]", c, rest. split_and!; auto. intros ->. exact Hd.
Qed.

(** The words of a tagged line. *)
Lemma tagged_words tag c rest :
  tag = "[CODE]" ∨ tag = "[INST]" → blank c = false →
  split_space (strip (tag +:+ " " +:+ String c rest))
    = tag :: split_space (strip (str_drop 7 (tag +:+ " " +:+ String c rest))).
Proof.
  intros Ht Hc. assert (rstrip (String c rest) = String c (rstrip rest)) as Hr by by apply rstrip_nonblank.
  assert (strip (tag +:+ " " +:+ String c rest) = tag +:+ " " +:+ String c (rstrip rest)) as ->.
  { destruct Ht as [-> | ->]; unfold strip;
      [change (lstrip _) with (("[CODE]" +:+ " ") +:+ String c rest)
      |change (lstrip _) with (("[INST]" +:+ " ") +:+ String c rest)]; by rewrite rstrip_app, Hr by by rewrite Hr. }
  assert (strip (str_drop 7 (tag +:+ " " +:+ String c rest)) = String c (rstrip rest)) as ->.
  { assert (str_drop 7 (tag +:+ " " +:+ String c rest) = String c rest) as -> by by destruct Ht as [-> | ->].
    unfold strip. cbn [lstrip]. by rewrite Hc, Hr. }
  apply split_space_app. by destruct Ht as [-> | ->].
Qed.

Section parser.
Context (allow_fix isARM invalid : bool).

Lemma parse_line_ok status inst line :
  line_ok line →
  parse_line allow_fix isARM invalid (status, inst) line = Some (status, inst ++ line_inst allow_fix line).
Proof.
  intros (_ & _ & [Hi%negb_true_iff Ht]%andb_true_iff). unfold parse_line, line_inst. rewrite Hi.
  destruct (String.prefix "[CODE]" line || String.prefix "[INST]" line) eqn:E; cbn [negb orb] in Ht.
  - apply tagged_spec in Ht as (tag & c & rest & Htag & -> & Hc & _).
    rewrite (tagged_words tag c rest Htag Hc).
    destruct (split_space_nonempty (strip (str_drop 7 (tag +:+ " " +:+ String c rest)))) as (w & ws & ->).
    destruct Htag as [-> | ->]; destruct allow_fix; cbn; by rewrite ?app_nil_r.
  - apply orb_false_iff in E as [-> ->]. cbn. by rewrite app_nil_r.
Qed.

Lemma parse_lines_ok status inst lines :
  Forall line_ok lines →
  parse_lines allow_fix isARM invalid (status, inst) lines
    = Some (status, inst ++ flat_map (line_inst allow_fix) lines).
Proof.
  intros Hl. revert inst. induction Hl as [|line lines H Hl IH]; intros inst; cbn [parse_lines flat_map].
  - by rewrite app_nil_r.
  - rewrite parse_line_ok by done. cbn. by rewrite IH, app_assoc.
Qed.
End parser.

(** ** 6. The characters of what is read *)

Section chars.
Context (f : Ascii.ascii → bool).

Lemma all_chars_str_drop n str : all_chars f str = true → all_chars f (str_drop n str) = true.
Proof.
  revert n. induction str as [|c str IH]; intros [|n] H; try done. cbn [all_chars] in H. cbn.
  apply andb_true_iff in H as [_ H]. by apply IH.
Qed.
Lemma all_chars_strip str : all_chars f str = true → all_chars f (strip str) = true.
Proof.
  intros H. unfold strip. assert (all_chars f (lstrip str) = true) as H'.
  { induction str as [|c str IH]; [done|]. cbn [lstrip]. destruct (blank c); [|done]. cbn [all_chars] in H.
    apply andb_true_iff in H as [_ H]. auto. }
  revert H'. generalize (lstrip str) as s. clear. induction s as [|c s IH]; [done|]. cbn [all_chars rstrip].
  intros [Hc Hs]%andb_true_iff. specialize (IH Hs). destruct (rstrip s); [destruct (blank c); [done|]|]; cbn in *; by rewrite Hc.
Qed.
Lemma all_chars_split str : all_chars f str = true → Forall (λ w, all_chars f w = true) (split_space str).
Proof.
  induction str as [|c str IH]; [by constructor|]. cbn [all_chars split_space]. intros [Hc Hs]%andb_true_iff.
  specialize (IH Hs). destruct (Ascii.eqb c " "); [by constructor|].
  destruct (split_space str) as [|w ws]; [repeat constructor; cbn; by rewrite Hc|].
  apply Forall_cons in IH as [Hw IH]. constructor; [cbn; by rewrite Hc|done].
Qed.
Lemma all_chars_concat ws : f " "%char = true → Forall (λ w, all_chars f w = true) ws → all_chars f (String.concat " " ws) = true.
Proof.
  intros Hf. induction 1 as [|w ws Hw Hws IH]; [done|]. cbn. destruct ws; [done|]. rewrite !all_chars_app, Hw, IH.
  cbn. by rewrite Hf.
Qed.
End chars.

(** The first word keeps its beginning. *)
Lemma split_space_prefix p str :
  no_blank p = true → p ≠ "" → ∃ w ws, split_space (p +:+ str) = (p +:+ w) :: ws.
Proof.
  induction p as [|c p IH]; [done|]. cbn [all_chars]. intros [Hc%negb_true_iff Hp]%andb_true_iff _.
  change (String c p +:+ str) with (String c (p +:+ str)). cbn [split_space].
  unfold blank in Hc. cbn [existsb] in Hc. apply orb_false_iff in Hc as [-> _].
  destruct p as [|c' p].
  - cbn [String.append]. destruct (split_space_nonempty str) as (w & ws & E). change ("" +:+ str) with str. rewrite E. by exists w, ws.
  - destruct (IH Hp ltac:(done)) as (w & ws & ->). by exists w, ws.
Qed.

Lemma strip_prefix p str : no_blank p = true → p ≠ "" → ∃ str', strip (p +:+ str) = p +:+ str'.
Proof.
  intros Hp Hne. unfold strip. assert (lstrip (p +:+ str) = p +:+ str) as ->.
  { destruct p as [|c p]; [done|]. cbn [all_chars] in Hp. apply andb_true_iff in Hp as [Hc%negb_true_iff _].
    change (String c p +:+ str) with (String c (p +:+ str)). cbn [lstrip]. by rewrite Hc. }
  clear Hne. induction p as [|c p IH]; [by exists (rstrip str)|]. cbn [all_chars] in Hp.
  apply andb_true_iff in Hp as [Hc%negb_true_iff Hp]. change (String c p +:+ str) with (String c (p +:+ str)).
  rewrite rstrip_nonblank by done. destruct (IH Hp) as [str' ->]. by exists str'.
Qed.

(** A mnemonic or directive that the library prints, and its operands: nothing
    defines a label or changes the instruction set. *)
Definition harmless (x : string * string) : Prop :=
  all_chars plain_char x.2 = true ∧ (String.prefix "." x.1 = true → String.prefix ".inst" x.1 = true).

Lemma line_inst_harmless allow_fix line : line_ok line → Forall harmless (line_inst allow_fix line).
Proof.
  intros (_ & Hp & [Hi%negb_true_iff Ht]%andb_true_iff). unfold line_inst.
  destruct (String.prefix "[CODE]" line && allow_fix || String.prefix "[INST]" line) eqn:E; [|constructor].
  assert (tagged line = true) as (tag & c & rest & Htag & -> & Hc & Hd)%tagged_spec.
  { apply orb_true_iff in Ht as [Ht|Ht]; [|done]. apply negb_true_iff, orb_false_iff in Ht as [H1 H2].
    by rewrite H1, H2 in E. }
  assert (str_drop 7 (tag +:+ " " +:+ String c rest) = String c rest) as -> by by destruct Htag as [-> | ->].
  assert (all_chars plain_char (String c rest) = true) as Hpl.
  { rewrite !all_chars_app in Hp. apply andb_true_iff in Hp as [_ Hp]. apply andb_true_iff in Hp as [_ Hp]. done. }
  destruct (split_space _) as [|w ws] eqn:Hsp; [constructor|]. apply Forall_singleton. split.
  - apply all_chars_concat; [done|]. apply all_chars_strip, all_chars_split in Hpl. rewrite Hsp in Hpl.
    by apply Forall_cons in Hpl as [_ ?].
  - cbn [fst]. intros Hdot. destruct (decide (c = "."%char)) as [-> |Hne].
    + destruct (prefix_app ".inst" _ (Hd eq_refl)) as [r Er]. rewrite Er in Hsp.
      destruct (strip_prefix ".inst" r) as [r' Er']; [done..|]. rewrite Er' in Hsp.
      destruct (split_space_prefix ".inst" r') as (w' & ws' & Ew); [done..|]. rewrite Ew in Hsp. injection Hsp as <- _.
      by destruct w'.
    + destruct (strip_prefix (String c "") rest) as [r' Er']; [by cbn [all_chars]; rewrite Hc|done|].
      change (String c "" +:+ rest) with (String c rest) in Er'. rewrite Er' in Hsp.
      destruct (split_space_prefix (String c "") r') as (w' & ws' & Ew); [by cbn [all_chars]; rewrite Hc|done|].
      rewrite Ew in Hsp. injection Hsp as <- _. change (String c "" +:+ w') with (String c w') in Hdot.
      cbn [String.prefix] in Hdot. by destruct (ascii_dec "."%char c) as [<- |].
Qed.

Lemma read_harmless allow_fix lines : Forall line_ok lines → Forall harmless (flat_map (line_inst allow_fix) lines).
Proof. induction 1; [constructor|]. apply Forall_app. split; [by apply line_inst_harmless|done]. Qed.

(** ** 7. The head line and the encoding line *)

(** A text that ends with a number keeps its end. *)
Lemma rstrip_number pre num :
  no_blank num = true → num ≠ "" → rstrip (pre +:+ num) = pre +:+ num.
Proof. intros Hb%rstrip_no_blank Hn. rewrite rstrip_app; by rewrite Hb. Qed.

Lemma fmt_08x_word x : no_blank (fmt_08x x) = true ∧ fmt_08x x ≠ "".
Proof.
  split; [by apply all_chars_fmt_08x|]. intros E. pose proof (length_fmt_08x x) as H. by rewrite E in H.
Qed.

Lemma fmt_04x_word x : no_blank (fmt_04x x) = true ∧ fmt_04x x ≠ "".
Proof.
  split; [by apply all_chars_fmt_04x|]. intros E. unfold fmt_04x in E.
  pose proof (length_zero_pad 4 (fmt_x x)) as H. rewrite E in H. cbn in H. lia.
Qed.

(** The head line without its newline; [rest] holds the name and the word. *)
Definition info_line (st : instr_status_t) (rest : string) : string :=
  "[INFO]" +:+ " " +:+ instr_status_name st +:+ " " +:+ rest.
(** The name and the word of opcode [op], with [sep] between them. *)
Definition info_rest (op instr : Z) (sep : string) : string :=
  default "(null)" (instr_desc op).(name) +:+ sep +:+ fmt_08x instr.

Lemma head_line_text op instr st text :
  head_line op instr st +:+ text = info_line st (info_rest op instr " 0x") +:+ nl +:+ text.
Proof. unfold head_line, info_line, info_rest. by rewrite !string_app_assoc. Qed.

Lemma plain_info_line op instr sep st :
  0 ≤ op < SISA_OP_MAX → plain sep = true → plain (info_line st (info_rest op instr sep)) = true.
Proof.
  intros Hop Hs. pose proof (table_check (λ op, plain (default "(null)" (name (instr_desc op))))
    ltac:(vm_compute; reflexivity) op Hop) as Hn. cbv beta in Hn. unfold info_line, info_rest.
  rewrite !all_chars_app, Hn, Hs, all_chars_fmt_08x by done. by destruct st.
Qed.

Lemma info_line_words op instr sep st :
  ∃ ws, split_space (strip (info_line st (info_rest op instr sep))) = "[INFO]" :: instr_status_name st :: ws.
Proof.
  destruct (fmt_08x_word instr) as [Hb Hn]. set (line := info_line _ _).
  assert (strip line = line) as ->.
  { unfold strip. change (lstrip line) with line.
    unfold line, info_line, info_rest. rewrite <- !string_app_assoc. by apply rstrip_number. }
  unfold line, info_line. rewrite split_space_app by done. rewrite split_space_app by by destruct st. eauto.
Qed.

(** The reader takes the status from the head line. *)
Lemma parse_head allow_fix isARM op instr sep st :
  parse_line allow_fix isARM false (false, []) (info_line st (info_rest op instr sep))
    = Some (status_eqb st VALID, []).
Proof.
  destruct (info_line_words op instr sep st) as [ws Hw]. unfold parse_line. rewrite Hw.
  change (String.prefix "[INFO]" (info_line st _)) with true. cbn. by destruct st.
Qed.

(** The directive and the number of the encoding line. *)
Definition directive (op : Z) : string :=
  if op <? SISA_OP_ARM_MAX then ".inst" else if op <? SISA_OP_THUMB_MAX then ".inst.n" else ".inst.w".
Definition encoding (op raw : Z) : string :=
  "0x" +:+ (if (SISA_OP_ARM_MAX <=? op) && (op <? SISA_OP_THUMB_MAX)
            then fmt_04x (raw & 0xffff) else fmt_08x raw).

Lemma inst_line_eq op raw :
  inst_line op raw = "[INST]" +:+ " " +:+ (directive op +:+ " " +:+ encoding op raw).
Proof.
  unfold inst_line, directive, encoding.
  destruct (Z.ltb_spec op SISA_OP_ARM_MAX), (Z.leb_spec SISA_OP_ARM_MAX op); try lia; [done|].
  by destruct (op <? SISA_OP_THUMB_MAX).
Qed.

Lemma encoding_word op raw : no_blank (encoding op raw) = true.
Proof.
  unfold encoding. rewrite all_chars_app. case_match; [rewrite (proj1 (fmt_04x_word _))|rewrite (proj1 (fmt_08x_word _))]; done.
Qed.

Lemma line_inst_encoding allow_fix op raw :
  line_inst allow_fix (inst_line op raw) = [(directive op, encoding op raw)].
Proof.
  rewrite inst_line_eq. unfold line_inst.
  change (String.prefix "[INST]" _) with true. rewrite orb_true_r.
  change (str_drop 7 _) with (directive op +:+ " " +:+ encoding op raw).
  assert (strip (directive op +:+ " " +:+ encoding op raw) = directive op +:+ " " +:+ encoding op raw) as ->.
  { unfold strip. assert (lstrip (directive op +:+ " " +:+ encoding op raw)
      = (directive op +:+ " ") +:+ encoding op raw) as ->.
    { rewrite string_app_assoc. unfold directive. by repeat case_match. }
    rewrite rstrip_number, string_app_assoc; [done|apply encoding_word|done]. }
  rewrite split_space_app by (unfold directive; by repeat case_match).
  by rewrite split_space_word by apply encoding_word.
Qed.

(** ** 8. Reading the number back *)

Definition hex_value (c : Ascii.ascii) : option Z :=
  Z.of_nat <$> (list_find (λ c', c' = c) (String.list_ascii_of_string "0123456789abcdef") ≫= λ p, Some p.1).

(** The value of a string of hexadecimal digits after [v]. *)
Fixpoint read_digits (v : Z) (str : string) : option Z :=
  match str with
  | EmptyString => Some v
  | String c str => d ← hex_value c; read_digits (16 * v + d) str
  end.

(** A number written [0x...]. *)
Definition read_number (str : string) : option Z :=
  if String.prefix "0x" str then read_digits 0 (str_drop 2 str) else None.

Lemma hex_value_digit d : 0 ≤ d < 16 → hex_value (digit d) = Some d.
Proof.
  intros Hd. assert (forallb (λ d, bool_decide (hex_value (digit d) = Some d)) (seqZ 0 16) = true) as H
    by (vm_compute; reflexivity).
  rewrite forallb_forall in H. apply (bool_decide_unpack _), Is_true_true, H, list_elem_of_In, elem_of_seqZ. lia.
Qed.

Lemma read_digits_digits n x acc :
  0 ≤ x < 16 ^ Z.of_nat n → read_digits 0 (digits n 16 x acc) = read_digits x acc.
Proof.
  revert x acc. induction n as [|n IH]; intros x acc Hx.
  { cbn [digits]. f_equal. cbn in Hx. lia. }
  rewrite Nat2Z.inj_succ, Z.pow_succ_r in Hx by lia. cbn [digits].
  pose proof (Z.mod_pos_bound x 16 ltac:(lia)). pose proof (Z.div_mod x 16 ltac:(lia)).
  destruct (Z.eqb_spec (x / 16) 0) as [E|E].
  - cbn [read_digits]. rewrite hex_value_digit by lia. cbn. f_equal. lia.
  - rewrite IH by (split; [apply Z.div_pos; lia|apply Z.div_lt_upper_bound; lia]).
    cbn [read_digits]. rewrite hex_value_digit by lia. cbn. f_equal. lia.
Qed.

Lemma read_digits_pad n str : read_digits 0 (zero_pad n str) = read_digits 0 str.
Proof. unfold zero_pad. by induction (n - String.length str)%nat. Qed.

Lemma read_digits_fmt_x x : is_u32 x → read_digits 0 (fmt_x x) = Some x.
Proof. intros Hx. unfold fmt_x. rewrite u32_small by done. rewrite read_digits_digits; [done|exact Hx]. Qed.

Lemma read_number_0x str : read_number ("0x" +:+ str) = read_digits 0 str.
Proof. by destruct str. Qed.

(** The word that the encoding line of [op] carries. *)
Definition encoded_word (op raw : Z) : Z :=
  if (SISA_OP_ARM_MAX <=? op) && (op <? SISA_OP_THUMB_MAX) then raw & 0xffff else raw.

Lemma read_encoding op raw : is_u32 raw → read_number (encoding op raw) = Some (encoded_word op raw).
Proof.
  intros Hu. unfold encoding, encoded_word. destruct (_ && _); rewrite read_number_0x;
    unfold fmt_04x, fmt_08x; rewrite read_digits_pad, read_digits_fmt_x; auto with rit.
Qed.

(** ** 9. Properties *)

(** A printed text: the head line, and lines of which the last one is the
    encoding when the status is [VALID]. *)
Record printed (op raw : Z) (st : instr_status_t) (sep text : string) : Prop := {
  pr_op : 0 ≤ op < SISA_OP_MAX;
  pr_sep : plain sep = true;
  pr_lines : ∃ lines, Forall line_ok lines
    ∧ text = info_line st (info_rest op raw sep) +:+ nl +:+ lines_text lines
    ∧ (st = VALID → ∃ pre, lines = pre ++ [inst_line op raw])
}.

(** The reader accepts it exactly when the status is [VALID]. *)
Lemma parse_printed allow_fix isARM op raw st sep text :
  printed op raw st sep text →
  (st = VALID → ∃ pre, parseRIT text allow_fix isARM false
     = Some (true, Some (pre ++ [(directive op, encoding op raw)]))
     ∧ Forall harmless (pre ++ [(directive op, encoding op raw)]))
  ∧ (st ≠ VALID → parseRIT text allow_fix isARM false = Some (false, None)).
Proof.
  intros [Hop Hs (lines & Hl & -> & Hv)]. unfold parseRIT.
  rewrite splitlines_line, splitlines_text by (done || by apply plain_info_line). cbn [parse_lines].
  rewrite parse_head. cbn [mbind option_bind]. rewrite parse_lines_ok by done. split.
  - intros ->. destruct (Hv eq_refl) as [pre ->]. exists (flat_map (line_inst allow_fix) pre).
    rewrite flat_map_app. cbn [flat_map]. rewrite line_inst_encoding, app_nil_r. split; [done|].
    rewrite <- (line_inst_encoding allow_fix), <- (app_nil_r (line_inst _ (inst_line _ _))).
    change (_ ++ []) with (flat_map (line_inst allow_fix) [inst_line op raw]). rewrite <- flat_map_app. by apply read_harmless.
  - intros Hn. assert (status_eqb st VALID = false) as -> by by destruct st. done.
Qed.

Lemma gen_result_printed o st raw text op : gen_result o st raw text op → printed op raw st " 0x" text.
Proof.
  intros [Hop _ _ _ (init & body & -> & Hi & Hb & Hv) _ _]. split; [done|done|]. exists (init ++ body).
  split; [by apply Forall_app|]. split; [by rewrite <- head_line_text, lines_text_app|].
  intros [pre ->]%Hv. exists (init ++ pre). by rewrite app_assoc.
Qed.

Section api.
Context `{Env : !RitEnv}.

(** C40. What the library prints, the test driver reads: for every call that
    answers, [parseRIT] (art/rit.py) does not fail on the text; it accepts it
    exactly when the status is [VALID], and then the last instruction of its
    list is the directive of the instruction set with a number that reads back
    as the word returned by the call (its lower half for a 16-bit Thumb
    opcode); when the status is another one it answers [(False, None)]. *)
Theorem parseRIT_reads_output (l : list param) (s s' : rit_state) st fb raw text
    (allow_fix isARM : bool) :
  Forall roomy_param l → single_instr_gen_py l s = Ok (Some (st, fb, raw, text)) s' →
  (st = VALID → ∃ op pre num, parseRIT text allow_fix isARM false
       = Some (true, Some (pre ++ [(directive op, num)]))
     ∧ read_number num = Some (encoded_word op raw))
  ∧ (st ≠ VALID → parseRIT text allow_fix isARM false = Some (false, None)).
Proof.
  intros Hl E. destruct (wp_elim _ _ _ (wp_single_instr_gen_py l s Hl)) as (r & s2 & E' & Hr).
  rewrite E in E'. injection E' as <- <-.
  destruct (Hr st fb raw text eq_refl) as (s0 & s1 & _ & _ & [[op Hg]|(-> & -> & _)]); [|done].
  destruct (parse_printed allow_fix isARM _ _ _ _ _ (gen_result_printed _ _ _ _ _ Hg)) as [Hv Hn]. split; [|done].
  intros Hst. destruct (Hv Hst) as (pre & Hp & _). exists op, pre, (encoding op raw). split; [done|].
  apply read_encoding, (gr_u32 _ _ _ _ _ Hg).
Qed.
End api.

Lemma parseRIT_reads_output_witness :
  let text := "[INFO] VALID ADD_imm 0x028b5000" +:+ nl +:+ "[INST] .inst 0x028b5000" +:+ nl in
  (VALID = VALID → ∃ op pre num, parseRIT text true true false
       = Some (true, Some (pre ++ [(directive op, num)]))
     ∧ read_number num = Some (encoded_word op 0x028b5000))
  ∧ (VALID ≠ VALID → parseRIT text true true false = Some (false, None)).
Proof.
  intros text. apply (parseRIT_reads_output (Env := lcg_env) demo_params zero_state
    (out_state zero_state demo_run) VALID 0).
  - repeat constructor; intros [=].
  - vm_compute. reflexivity.
Defined.
