(* ===== verification/Reproduce.v ===== *)
(** * A relational logic: what a computation depends on

    [rel R R' m] compares two runs of [m]: from states related by [R] they give
    the same answer, or the same abort, and end in states related by [R'].  With
    [R] the equality of a few variables this says that the other variables, and
    so the calls before, have no influence.  The rules are syntax directed;
    there is one relation for the generators, [same_run]. *)
From S2P Require Import Prelude RitCommon InstrTable State InstrUtil InstrBuf BiasUtil GenHelper GenARMMem GenARMInstr GenThumbInstr GenThumb32Instr EncodeBits RandomInstrGen.

(** ** 1. Rules *)

Definition out_rel {S A} (R : S → S → Prop) (x y : outcome S A) : Prop :=
  match x, y with
  | Ok a s, Ok b t => a = b ∧ R s t
  | Abort w, Abort w' => w = w'
  | _, _ => False
  end.

Definition rel {S A} (R R' : S → S → Prop) (m : M S A) : Prop :=
  ∀ s t, R s t → out_rel R' (m s) (m t).

Section rules.
Context {S : Type}.
Implicit Types R : S → S → Prop.

Lemma rel_ret {A} R (a : A) : rel R R (mret a).
Proof. by intros s t. Qed.

Lemma rel_bind {A B} R R1 R2 (m : M S A) (k : A → M S B) :
  rel R R1 m → (∀ a, rel R1 R2 (k a)) → rel R R2 (m ≫= k).
Proof.
  intros Hm Hk s t H. specialize (Hm s t H). unfold mbind, M_bind.
  destruct (m s) as [a s1|], (m t) as [b t1|]; try done. destruct Hm as [-> H1]. by apply Hk.
Qed.

Lemma rel_mono {A} R0 R R' (m : M S A) : (∀ s t, R0 s t → R s t) → rel R R' m → rel R0 R' m.
Proof. intros H0 Hm s t H. by apply Hm, H0. Qed.

Lemma rel_gets {A} R (f : S → A) : (∀ s t, R s t → f s = f t) → rel R R (gets f).
Proof. intros Hf s t H. by split; [apply Hf|]. Qed.

Lemma rel_modify R R' f : (∀ s t, R s t → R' (f s) (f t)) → rel R R' (modify f).
Proof. intros Hf s t H. by split; [|apply Hf]. Qed.

Lemma rel_fail {A} R w : rel R R (fail (A := A) w).
Proof. by intros s t. Qed.

Lemma rel_assert R (b : bool) w : rel R R (assertM b w).
Proof. destruct b; [apply rel_ret|apply rel_fail]. Qed.

Lemma rel_when R (b : bool) m : rel R R m → rel R R (when b m).
Proof. destruct b; [done|intros; apply rel_ret]. Qed.

Lemma rel_if {A} R R' (b : bool) (m1 m2 : M S A) : rel R R' m1 → rel R R' m2 → rel R R' (if b then m1 else m2).
Proof. by destruct b. Qed.

Lemma rel_forM {A} R (l : list A) (f : A → M S unit) : (∀ x, rel R R (f x)) → rel R R (forM l f).
Proof. intros Hf. induction l as [|x l IH]; cbn; [apply rel_ret|]. by eapply rel_bind. Qed.

(** Two runs that end. *)
Lemma rel_ok {A} R R' (m : M S A) s t a s' b t' :
  rel R R' m → R s t → m s = Ok a s' → m t = Ok b t' → a = b ∧ R' s' t'.
Proof. intros Hm H E1 E2. specialize (Hm s t H). by rewrite E1, E2 in Hm. Qed.
End rules.

Create HintDb rel discriminated.
#[export] Hint Resolve rel_ret rel_fail rel_assert : rel.

(** One step; a computation that no hint covers is unfolded. *)
Ltac rel_step :=
  lazymatch goal with
  | |- rel _ _ (let x := ?v in @?f x) => cbv zeta
  | |- rel _ _ (_ ≫= _) => eapply rel_bind; [|intros ?]
  | |- rel _ _ (if _ then _ else _) => apply rel_if
  | |- rel _ _ (when _ _) => apply rel_when
  | |- rel _ _ (forM _ _) => apply rel_forM; intros ?
  | |- rel _ _ (match ?x with _ => _ end) => destruct x
  | |- rel _ _ ?m => first [solve [eauto with rel]|progress cbv beta zeta|let h := get_head m in progress unfold h]
  end.
Ltac rel := repeat rel_step.

(** ** 2. What the generators read *)

Record same_run (s t : rit_state) : Prop := {
  sr_options : s.(options) = t.(options);
  sr_raw : s.(raw_instr) = t.(raw_instr);
  sr_seed : s.(rand_seed) = t.(rand_seed);
  sr_pos : s.(rand_pos) = t.(rand_pos);
  sr_idx : s.(instr_idx) = t.(instr_idx);
  sr_len : length s.(instr_buf) = length t.(instr_buf);
  sr_buf : take (Z.to_nat s.(instr_idx)) s.(instr_buf) = take (Z.to_nat t.(instr_idx)) t.(instr_buf)
}.

(** A line is written after the lines that agree. *)
Lemma same_run_line idx (x : string) (l1 l2 : list string) :
  length l1 = length l2 → take (Z.to_nat idx) l1 = take (Z.to_nat idx) l2 →
  take (Z.to_nat (idx + 1)) (<[Z.to_nat idx := x]> l1) = take (Z.to_nat (idx + 1)) (<[Z.to_nat idx := x]> l2).
Proof.
  intros Hl Ht. destruct (Z.lt_ge_cases idx 0); [by replace (Z.to_nat (idx + 1)) with 0%nat by lia|].
  replace (Z.to_nat (idx + 1)) with (S (Z.to_nat idx)) by lia. set (n := Z.to_nat idx) in *.
  destruct (decide (n < length l1)%nat).
  - rewrite !(take_S_r _ _ x) by (apply list_lookup_insert_eq; lia). by rewrite !take_insert_ge, Ht by lia.
  - rewrite !list_insert_ge by lia. rewrite !take_ge in Ht by lia. by rewrite Ht.
Qed.

Section generators.
Context `{Env : !RitEnv}.
Abbreviation keeps_rel := (rel same_run same_run).

Lemma rel_rand : keeps_rel rand.
Proof. intros s t []. unfold rand. cbn. rewrite sr_seed0, sr_pos0. split; [done|]. by split. Qed.

Lemma rel_get_raw_instr : keeps_rel get_raw_instr.
Proof. apply rel_gets. by intros s t []. Qed.

Lemma rel_gets_options : keeps_rel (gets options).
Proof. apply rel_gets. by intros s t []. Qed.

Lemma rel_opt {A} (f : gen_option_t → A) : keeps_rel (opt f).
Proof. apply rel_gets. intros s t []. by f_equal. Qed.

Lemma rel_GET_OPT_STAT x : keeps_rel (GET_OPT_STAT x).
Proof. apply rel_gets. intros s t []. by rewrite sr_options0. Qed.

Lemma rel_set_raw_instr r : keeps_rel (set_raw_instr r).
Proof. apply rel_modify. intros s t []. by split. Qed.

Lemma rel_on_raw f : keeps_rel (on_raw f).
Proof. apply rel_modify. intros s t []. split; try done. cbn. by rewrite sr_raw0. Qed.

Lemma rel_on_options f : keeps_rel (on_options f).
Proof. apply rel_modify. intros s t []. split; try done. cbn. by rewrite sr_options0. Qed.

Lemma rel_is_oprand_init b : keeps_rel (modify (st_is_oprand_init b)).
Proof. apply rel_modify. intros s t []. by split. Qed.

(** The two ways to write a line. *)
Lemma rel_write_line (str : string) :
  keeps_rel (idx ← gets instr_idx;
    assertM (idx <? MAX_INSTR) BufOverflow ;;
    modify (λ s, st_instr_buf (<[Z.to_nat idx := str]> s.(instr_buf)) s) ;;
    modify (st_instr_idx (idx + 1))).
Proof.
  intros s t []. unfold mbind, M_bind, gets, assertM, modify. rewrite sr_idx0.
  destruct (instr_idx t <? MAX_INSTR); cbn; [|done]. split; [done|]. split; try done; cbn.
  - by rewrite !length_insert.
  - rewrite sr_idx0 in *. by apply same_run_line.
Qed.

Lemma rel_insert_instr str : keeps_rel (insert_instr str).
Proof. apply rel_write_line. Qed.

Lemma rel_put_instr_line str : keeps_rel (put_instr_line str).
Proof.
  intros s t H. pose proof (rel_write_line str s t H) as Hw. pose proof (sr_idx _ _ H) as Hi.
  unfold put_instr_line, sprintf_line, mbind, M_bind, gets, assertM, modify in *. rewrite Hi in *.
  destruct (instr_idx t <? MAX_INSTR); [|done]. cbn in *. by destruct (_ <=? _).
Qed.
#[local] Hint Resolve rel_rand rel_get_raw_instr rel_gets_options rel_opt rel_GET_OPT_STAT rel_set_raw_instr
  rel_on_raw rel_on_options rel_is_oprand_init rel_insert_instr rel_put_instr_line : rel.

Lemma rel_emit str : keeps_rel (emit str).
Proof. rel. Qed.
Lemma rel_set_instr i l h v : keeps_rel (set_instr i l h v).
Proof. rel. Qed.
#[local] Hint Resolve rel_emit rel_set_instr : rel.

Lemma rel_fix_mem_base n b : keeps_rel (fix_mem_base n b).
Proof. rel. Qed.
Lemma rel_gen_pre_instr_for_mem_base n : keeps_rel (gen_pre_instr_for_mem_base n).
Proof. rel. Qed.
Lemma rel_get_rand_mem_offset a b : keeps_rel (get_rand_mem_offset a b).
Proof. rel. Qed.
#[local] Hint Resolve rel_fix_mem_base rel_gen_pre_instr_for_mem_base rel_get_rand_mem_offset : rel.

Lemma rel_gen_ld_instr op : keeps_rel (gen_ld_instr op).
Proof. rel. Qed.
Lemma rel_gen_st_instr op : keeps_rel (gen_st_instr op).
Proof. rel. Qed.
Lemma rel_gen_multi_mem_instr op : keeps_rel (gen_multi_mem_instr op).
Proof. rel. Qed.
Lemma rel_gen_ldex_instr op : keeps_rel (gen_ldex_instr op).
Proof. rel. Qed.
Lemma rel_gen_stex_instr op : keeps_rel (gen_stex_instr op).
Proof. rel. Qed.

Lemma rel_set_instr_regs l instr op : keeps_rel (set_instr_regs instr op l).
Proof. revert instr. induction l as [|[i v] l IH]; intros instr; cbn [set_instr_regs]; rel. Qed.
#[local] Hint Resolve rel_set_instr_regs : rel.

Lemma rel_gen_misc_instr op : keeps_rel (gen_misc_instr op).
Proof. rel. Qed.
Lemma rel_gen_data_instr op : keeps_rel (gen_data_instr op).
Proof. rel. Qed.
Lemma rel_gen_mul_instr op : keeps_rel (gen_mul_instr op).
Proof. rel. Qed.
Lemma rel_gen_jmp_instr op : keeps_rel (gen_jmp_instr op).
Proof. rel. Qed.
Lemma rel_gen_uncategorized_instr op : keeps_rel (gen_uncategorized_instr op).
Proof. rel. Qed.

Lemma rel_gen_thumb_mem_instr op : keeps_rel (gen_thumb_mem_instr op).
Proof. rel. Qed.
Lemma rel_gen_thumb_multi_mem_instr op : keeps_rel (gen_thumb_multi_mem_instr op).
Proof. rel. Qed.
Lemma rel_gen_thumb_data_instr op : keeps_rel (gen_thumb_data_instr op).
Proof. rel. Qed.
Lemma rel_gen_thumb32_instr op : keeps_rel (gen_thumb32_instr op).
Proof. rel. Qed.
End generators.
#[export] Hint Resolve rel_rand rel_get_raw_instr rel_gets_options rel_opt rel_GET_OPT_STAT rel_set_raw_instr
  rel_on_raw rel_on_options rel_is_oprand_init rel_insert_instr rel_put_instr_line rel_emit rel_set_instr
  rel_gen_ld_instr rel_gen_st_instr rel_gen_multi_mem_instr rel_gen_ldex_instr rel_gen_stex_instr
  rel_gen_misc_instr rel_gen_data_instr rel_gen_mul_instr rel_gen_jmp_instr rel_gen_uncategorized_instr
  rel_gen_thumb_mem_instr rel_gen_thumb_multi_mem_instr rel_gen_thumb_data_instr rel_gen_thumb32_instr : rel.
