(* ===== verification/Indeterminate.v ===== *)
(** * What indeterminate memory can reach

    Two runs of the same code that find different values in uninitialised
    variables and past the end of [opkind_list].  They go in lockstep: their states
    differ in [cur_fixed_bit] alone, which every attempt but the first computes from
    an uninitialised variable and nothing reads.  The rules and the tactic are those
    of Reproduce.v, for two programs instead of one. *)
From S2P Require Import Prelude RitCommon InstrTable State InstrUtil InstrBuf BiasUtil GenHelper GenARMMem GenARMInstr GenThumbInstr GenThumb32Instr EncodeBits RandomInstrGen Options Reproduce.

(** The same random numbers, clock and version of the library; other garbage. *)
Definition with_indeterminate (u : Z → Z) (o : nat → bool) (E : RitEnv) : RitEnv := {|
  rand_at := E.(rand_at);
  rand_at_range := E.(rand_at_range);
  time_seed := E.(time_seed);
  uninit_u32 := u;
  opkind_oob := o;
  skip_pc_base := E.(skip_pc_base)
|}.

(** ** 1. Rules *)

Definition lock_out {A} (P : rit_state → Prop) (x y : outcome rit_state A) : Prop :=
  match x, y with
  | Ok a s, Ok b t => a = b ∧ P s ∧ ∃ v, t = st_cur_fixed_bit v s
  | Abort w, Abort w' => w = w'
  | _, _ => False
  end.
(** From states that differ in [cur_fixed_bit], the first of which satisfies [P]. *)
Definition lock {A} (P P' : rit_state → Prop) (m1 m2 : rit A) : Prop :=
  ∀ s v, P s → lock_out P' (m1 s) (m2 (st_cur_fixed_bit v s)).

Section rules.
Implicit Types P : rit_state → Prop.

Lemma lock_ret {A} P (a : A) : lock P P (mret a) (mret a).
Proof. intros s v H. split; [done|]. split; [done|]. by exists v. Qed.
Lemma lock_fail {A} P w : lock P P (fail (A := A) w) (fail w).
Proof. by intros s v. Qed.
Lemma lock_assert P (b : bool) w : lock P P (assertM b w) (assertM b w).
Proof. destruct b; [apply lock_ret|apply lock_fail]. Qed.
Lemma lock_bind {A B} P P1 P2 (m1 m2 : rit A) (k1 k2 : A → rit B) :
  lock P P1 m1 m2 → (∀ a, lock P1 P2 (k1 a) (k2 a)) → lock P P2 (m1 ≫= k1) (m2 ≫= k2).
Proof.
  intros Hm Hk s v H. specialize (Hm s v H). unfold mbind, M_bind.
  destruct (m1 s) as [a s1|], (m2 _) as [b t1|]; try done. destruct Hm as (-> & H1 & v' & ->). by apply Hk.
Qed.
Lemma lock_if {A} P P' (b : bool) (m1 m2 n1 n2 : rit A) :
  lock P P' m1 m2 → lock P P' n1 n2 → lock P P' (if b then m1 else n1) (if b then m2 else n2).
Proof. by destruct b. Qed.
Lemma lock_when P (b : bool) m1 m2 : lock P P m1 m2 → lock P P (when b m1) (when b m2).
Proof. destruct b; [done|]. intros _. apply lock_ret. Qed.
Lemma lock_forM {A} P (l : list A) (f1 f2 : A → rit unit) :
  (∀ x, lock P P (f1 x) (f2 x)) → lock P P (forM l f1) (forM l f2).
Proof. intros Hf. induction l as [|x l IH]; cbn; [apply lock_ret|]. by eapply lock_bind. Qed.
Lemma lock_gets {A} P (f : rit_state → A) : (∀ v s, f (st_cur_fixed_bit v s) = f s) → lock P P (gets f) (gets f).
Proof. intros Hf s v H. split; [by rewrite Hf|]. split; [done|]. by exists v. Qed.
Lemma lock_modify P f g :
  (∀ v s, ∃ v', g (st_cur_fixed_bit v s) = st_cur_fixed_bit v' (f s)) → (∀ s, P s → P (f s)) → lock P P (modify f) (modify g).
Proof. intros Hf HP s v H. destruct (Hf v s) as [v' E]. split; [done|]. split; [by apply HP|]. exists v'. exact E. Qed.
Lemma lock_post {A} P P1 P2 (m1 m2 : rit A) : (∀ s, P1 s → P2 s) → lock P P1 m1 m2 → lock P P2 m1 m2.
Proof.
  intros H Hm s v Hs. specialize (Hm s v Hs). destruct (m1 s), (m2 _); try done. destruct Hm as (? & ? & ?). split; [done|]. auto.
Qed.
Lemma lock_pre {A} P0 P P' (m1 m2 : rit A) : (∀ s, P0 s → P s) → lock P P' m1 m2 → lock P0 P' m1 m2.
Proof. intros H Hm s v Hs. by apply Hm, H. Qed.
End rules.

Create HintDb lock discriminated.
#[export] Hint Resolve lock_ret lock_fail lock_assert : lock.
#[export] Hint Extern 2 (lock _ _ (gets _) (gets _)) => apply lock_gets; reflexivity : lock.

Ltac lock_step :=
  lazymatch goal with
  | |- lock _ _ (let x := ?v in @?f x) _ => cbv zeta
  | |- lock _ _ (_ ≫= _) (_ ≫= _) => eapply lock_bind; [|intros ?]
  | |- lock _ _ (if _ then _ else _) (if _ then _ else _) => apply lock_if
  | |- lock _ _ (when _ _) (when _ _) => apply lock_when
  | |- lock _ _ (forM _ _) (forM _ _) => apply lock_forM; intros ?
  | |- lock _ _ (match ?x with _ => _ end) _ => destruct x
  | |- lock _ _ ?m _ => first [solve [eauto with lock]|progress cbv beta zeta|let h := get_head m in progress unfold h]
  end.
Ltac lock := repeat lock_step.

(** ** 2. The generators *)

(** The type of a scaled register offset has two bits. *)
Lemma scaled_type w op i l :
  forallb (λ op, ((opnd_of op i).(bit1) =? 5) && ((opnd_of op i).(bit2) =? 6)) l = true →
  0 ≤ (if op_in op l then scaled_shift w op i else (0, 0)).2 ≤ 3.
Proof.
  intros Hl. destruct (op_in op l) eqn:Ho; [|cbn; lia]. unfold scaled_shift. cbn [snd].
  unfold op_in in Ho. apply existsb_exists in Ho as (x & Hx & ->%Z.eqb_eq). rewrite forallb_forall in Hl.
  apply Hl in Hx as [->%Z.eqb_eq ->%Z.eqb_eq]%andb_true_iff.
  assert (get_bits_value w 5 6 = get_bits_value (w mod 128) 5 6) as ->.
  { unfold get_bits_value. f_equal. change 128 with (2 ^ 7). by rewrite <- Z.land_ones, <- Z.land_assoc by done. }
  pose proof (get_bits_value_range (w mod 128) 5 6 ltac:(lia) ltac:(lia) ltac:(apply Z.mod_pos_bound; lia)). cbn in *. lia.
Qed.

Section generators.
Context `{Env : !RitEnv} (u : Z → Z) (o : nat → bool) (so : gen_option_t).
#[local] Abbreviation E' := (with_indeterminate u o Env).

(** The options that every attempt starts from. *)
Definition shadowed (s : rit_state) : Prop := s.(shadow_options) = so.
Abbreviation lockstep m := (lock shadowed shadowed (m Env) (m E')).
Abbreviation alike m := (lock shadowed shadowed m m).

Lemma lock_rand : lockstep (@rand).
Proof. intros s v H. split; [done|]. split; [done|]. by exists v. Qed.
Lemma alike_on_raw f : alike (on_raw f).
Proof. apply lock_modify; [|done]. intros v s. by exists v. Qed.
Lemma alike_on_options f : alike (on_options f).
Proof. apply lock_modify; [|done]. intros v s. by exists v. Qed.
Lemma alike_set_raw_instr r : alike (set_raw_instr r).
Proof. apply lock_modify; [|done]. intros v s. by exists v. Qed.
#[local] Hint Extern 2 (lock _ _ (modify _) (modify _)) =>
  apply lock_modify; [let v := fresh in intros v ?; exists v; reflexivity|done] : lock.
#[local] Hint Resolve lock_rand alike_on_raw alike_on_options alike_set_raw_instr : lock.

(** A shift type of two bits is a known one. *)
Lemma lock_get_rand_mem_offset t n : 0 ≤ t ≤ 3 → lock shadowed shadowed (get_rand_mem_offset t n) (get_rand_mem_offset (Env := E') t n).
Proof.
  intros Ht. unfold get_rand_mem_offset. eapply lock_bind; [apply lock_rand|]. intros r.
  eapply lock_bind; [lock|]. intros _.
  assert (is_Some (mem_offset_of t n r)) as [p ->]; [|lock].
  unfold mem_offset_of. destruct (Z.eqb_spec t 0); [by eexists|]. destruct (Z.eqb_spec t 1); [by eexists|].
  destruct (Z.eqb_spec t 2); [by eexists|]. destruct (Z.eqb_spec t 3); [destruct (n =? 0); by eexists|lia].
Qed.
#[local] Hint Resolve lock_get_rand_mem_offset : lock.

Lemma alike_emit str : alike (emit str).
Proof. lock. Qed.
Lemma alike_set_instr i l h v : alike (set_instr i l h v).
Proof. lock. Qed.
#[local] Hint Resolve alike_emit alike_set_instr : lock.

Lemma lock_fix_mem_base n b : lockstep (λ E, fix_mem_base (Env := E) n b).
Proof. lock. Qed.
Lemma lock_gen_pre n : lockstep (λ E, gen_pre_instr_for_mem_base (Env := E) n).
Proof. lock. Qed.
#[local] Hint Resolve lock_fix_mem_base lock_gen_pre : lock.

(** Register offsets, with the type of their shift. *)
Ltac lock_scaled w op i l :=
  pose proof (scaled_type w op i l eq_refl); destruct (if op_in op l then scaled_shift w op i else (0, 0)); cbn [snd] in *; lock.

Lemma lock_gen_ld_reg op w t n f : lockstep (λ E, gen_ld_reg (Env := E) op w t n f).
Proof.
  unfold gen_ld_reg. eapply lock_bind; [lock|]. intros arch. cbv zeta.
  lock_scaled w op SISA_INPUT2 [SISA_OP_LDR_reg; SISA_OP_LDRB_reg].
Qed.
Lemma lock_gen_ld_unpriv_reg op w t n f : lockstep (λ E, gen_ld_unpriv_reg (Env := E) op w t n f).
Proof. unfold gen_ld_unpriv_reg. cbv zeta. lock_scaled w op SISA_INPUT2 [SISA_OP_LDRT_a2; SISA_OP_LDRBT_a2]. Qed.
Lemma lock_gen_st_reg op w t n f : lockstep (λ E, gen_st_reg (Env := E) op w t n f).
Proof.
  unfold gen_st_reg. eapply lock_bind; [lock|]. intros arch. cbv zeta.
  lock_scaled w op SISA_INPUT3 [SISA_OP_STR_reg; SISA_OP_STRB_reg].
Qed.
Lemma lock_gen_st_unpriv_reg op w t n f : lockstep (λ E, gen_st_unpriv_reg (Env := E) op w t n f).
Proof. unfold gen_st_unpriv_reg. cbv zeta. lock_scaled w op SISA_INPUT3 [SISA_OP_STRT_a2; SISA_OP_STRBT_a2]. Qed.
#[local] Hint Resolve lock_gen_ld_reg lock_gen_ld_unpriv_reg lock_gen_st_reg lock_gen_st_unpriv_reg : lock.

Lemma alike_set_instr_regs l instr op : alike (set_instr_regs instr op l).
Proof. revert instr. induction l as [|[i v] l IH]; intros instr; cbn [set_instr_regs]; lock. Qed.
#[local] Hint Resolve alike_set_instr_regs : lock.
Lemma lock_offset_0 n : lockstep (λ E, get_rand_mem_offset (Env := E) 0 n).
Proof. by apply lock_get_rand_mem_offset. Qed.
#[local] Hint Resolve lock_offset_0 : lock.

Lemma lock_gen_ld_instr op : lockstep (λ E, gen_ld_instr (Env := E) op).
Proof. lock. Qed.
Lemma lock_gen_st_instr op : lockstep (λ E, gen_st_instr (Env := E) op).
Proof. lock. Qed.
Lemma lock_gen_multi_mem_instr op : lockstep (λ E, gen_multi_mem_instr (Env := E) op).
Proof. lock. Qed.
#[local] Hint Resolve lock_gen_ld_instr lock_gen_st_instr lock_gen_multi_mem_instr : lock.
Lemma lock_gen_arm_instr op : lockstep (λ E, gen_arm_instr (Env := E) op).
Proof. lock. Qed.
Lemma lock_gen_thumb_instr op : lockstep (λ E, gen_thumb_instr (Env := E) op).
Proof. lock. Qed.
Lemma lock_gen_thumb32_instr op : lockstep (λ E, gen_thumb32_instr (Env := E) op).
Proof. lock. Qed.
#[local] Hint Resolve lock_gen_arm_instr lock_gen_thumb_instr lock_gen_thumb32_instr : lock.
Lemma lock_gen_dispatch op : lockstep (λ E, gen_dispatch (Env := E) op).
Proof. lock. Qed.
#[local] Hint Resolve lock_gen_dispatch : lock.

(** ** 3. One attempt *)

Lemma alike_opnd_step op k i r : alike (opnd_step op k i r).
Proof. lock. Qed.
Lemma alike_set_opnd_bits op k : alike (set_opnd_bits op k).
Proof.
  unfold set_opnd_bits. generalize (opnd_positions k) 0. intros l. induction l as [|i l IH]; intros r; cbn [opnd_loop]; [lock|].
  eapply lock_bind; [apply alike_opnd_step|]. intros r'. apply IH.
Qed.
#[local] Hint Resolve alike_set_opnd_bits : lock.

(** The two attempts may start from different garbage. *)
Lemma lock_gen_instr op g g' : lock shadowed shadowed (gen_instr op g) (gen_instr (Env := E') op g').
Proof.
  assert (∀ x y, lock shadowed shadowed
    (fix_unpredictable_bit op ;; status ← gen_dispatch op; r ← get_raw_instr; fb ← gets instr_fixed_bit;
     modify (st_cur_fixed_bit (Z.lxor (Z.land x fb) (Z.land r fb))) ;; cut ← gets is_reg_bit_cut;
     when cut (modify (λ s, st_cur_fixed_bit (Z.lor s.(cur_fixed_bit) 0xFFFF0000) s)) ;; mret status)
    (fix_unpredictable_bit op ;; status ← gen_dispatch (Env := E') op; r ← get_raw_instr; fb ← gets instr_fixed_bit;
     modify (st_cur_fixed_bit (Z.lxor (Z.land y fb) (Z.land r fb))) ;; cut ← gets is_reg_bit_cut;
     when cut (modify (λ s, st_cur_fixed_bit (Z.lor s.(cur_fixed_bit) 0xFFFF0000) s)) ;; mret status)) as Hrest.
  { intros x y. eapply lock_bind; [lock|]. intros _. eapply lock_bind; [lock|]. intros st.
    eapply lock_bind; [lock|]. intros r. eapply lock_bind; [lock|]. intros fb.
    eapply lock_bind; [apply lock_modify; [|done]; intros v s; by eexists|]. intros _. eapply lock_bind; [lock|]. intros cut.
    eapply lock_bind; [|intros _; lock]. apply lock_when, lock_modify; [|done]. intros v s. by eexists. }
  unfold gen_instr. do 4 (eapply lock_bind; [lock|intros _]). apply lock_if; [lock|].
  do 4 (eapply lock_bind; [lock|intros _]). eapply lock_bind; [lock|]. intros [].
  - exact (Hrest g g').
  - cbn [negb]. eapply lock_bind; [lock|]. intros r. apply Hrest.
Qed.
#[local] Hint Resolve lock_gen_instr : lock.

(** While the options are drawn, whether the opcode is named does not change. *)
Definition drawing (s : rit_state) : Prop := shadowed s ∧ opt_stat s.(options) OPT_OPCODE = opt_stat so OPT_OPCODE.
Abbreviation drawn m := (lock drawing drawing (m Env) (m E')).

Lemma drawn_rand : drawn (@rand).
Proof. intros s v H. split; [done|]. split; [done|]. by exists v. Qed.
Lemma drawn_on_options f :
  (∀ r, opt_stat (f r) OPT_OPCODE = opt_stat r OPT_OPCODE) → lock drawing drawing (on_options f) (on_options f).
Proof.
  intros Hf. apply lock_modify; [intros v s; by exists v|]. intros s [H1 H2]. split; [done|]. cbn. by rewrite Hf.
Qed.
Lemma drawn_SET_OPT_STAT x : 0 ≤ x < 32 → x ≠ OPT_OPCODE → lock drawing drawing (SET_OPT_STAT x) (SET_OPT_STAT x).
Proof.
  intros Hx Hn. apply drawn_on_options. intros r. rewrite opt_stat_set_stat by (unfold OPT_OPCODE; lia).
  by rewrite (proj2 (Z.eqb_neq OPT_OPCODE x) (not_eq_sym Hn)).
Qed.
#[local] Hint Extern 2 (lock _ _ (on_options _) (on_options _)) => apply drawn_on_options; reflexivity : lock.
#[local] Hint Extern 1 (lock _ _ (SET_OPT_STAT _) (SET_OPT_STAT _)) => apply drawn_SET_OPT_STAT; done : lock.
#[local] Hint Resolve drawn_rand : lock.

Lemma drawn_relax_restrict r : drawn (λ E, relax_restrict (Env := E) r).
Proof. lock. Qed.
Lemma drawn_gen_rand_opt_val : drawn (@gen_rand_opt_val).
Proof. lock. Qed.

(** The bytes past the end of [opkind_list] are read only for an opcode that is
    not named. *)
Context (Hoob : opt_stat so OPT_OPCODE = true ∨ ∀ k, o k = opkind_oob k).

Lemma lock_named {B} P (k1 k2 : bool → rit B) :
  lock shadowed P (k1 (opt_stat so OPT_OPCODE)) (k2 (opt_stat so OPT_OPCODE)) →
  lock drawing P (GET_OPT_STAT OPT_OPCODE ≫= k1) (GET_OPT_STAT OPT_OPCODE ≫= k2).
Proof.
  intros H s v [Hs Hn]. specialize (H s v Hs). rewrite <- Hn in H. exact H.
Qed.

Lemma lock_gen_random_op : (∀ k, o k = opkind_oob k) → lockstep (@gen_random_op).
Proof.
  intros Ho. unfold gen_random_op. eapply lock_bind; [lock|]. intros isa0. eapply lock_bind; [lock|]. intros l.
  destruct (random_op_range isa0) as [a b].
  assert (List.filter (op_enabled (Env := E') l) (seqZ a (b - a)) = List.filter (op_enabled l) (seqZ a (b - a))) as ->.
  { apply filter_ext. intros k. unfold op_enabled. cbn [opkind_oob with_indeterminate]. destruct (l !! _); [done|apply Ho]. }
  lock.
Qed.

Lemma lock_gen_attempt retry op : lockstep (λ E, gen_attempt (Env := E) retry op).
Proof.
  unfold gen_attempt. eapply (lock_bind _ drawing).
  { intros s v H. split; [done|]. split; [|by exists v]. unfold drawing, shadowed in *. cbn. by rewrite H. }
  intros _. eapply lock_bind; [apply drawn_relax_restrict|]. intros _. eapply lock_bind; [apply drawn_gen_rand_opt_val|]. intros _.
  apply lock_named. eapply lock_bind.
  { destruct (opt_stat so OPT_OPCODE) eqn:E; cbn [negb]; [lock|]. apply lock_gen_random_op. destruct Hoob as [?|?]; [congruence|done]. }
  intros op'. eapply lock_bind; [lock|]. intros _. eapply lock_bind; [apply lock_gen_instr|]. intros st. lock.
Qed.

Lemma lock_gen_loop fuel retry_max retry op st : lockstep (λ E, gen_loop (Env := E) fuel retry_max retry op st).
Proof.
  revert retry op st. induction fuel as [|fuel IH]; intros retry op st; cbn [gen_loop]; [lock|].
  apply lock_if; [|lock]. eapply lock_bind; [apply lock_gen_attempt|]. intros os. apply IH.
Qed.

(** Printing. *)
Lemma lock_output_instr op w st : lockstep (λ E, output_instr (Env := E) op w st).
Proof. lock. Qed.
#[local] Hint Resolve lock_gen_loop lock_output_instr : lock.

(** The whole of it: the options it is called with are the ones that attempts
    start from. *)
Lemma lock_gen_random_instr :
  lock (λ s, s.(options) = so) shadowed gen_random_instr (gen_random_instr (Env := E')).
Proof.
  unfold gen_random_instr. eapply (lock_bind _ shadowed).
  { intros s v H. split; [done|]. split; [exact H|]. by exists v. }
  intros _. do 2 (eapply lock_bind; [lock|intros _]). eapply lock_bind; [lock|]. intros no_relax. cbv zeta.
  eapply lock_bind; [lock|]. intros seeded. eapply lock_bind; [lock|]. intros _. eapply lock_bind; [lock|]. intros named.
  eapply lock_bind; [lock|]. intros [op|]; [|lock]. eapply lock_bind; [lock|]. intros _.
  eapply lock_bind; [apply lock_gen_loop|]. intros [op' st]. lock.
Qed.
End generators.
