(* ===== verification/Rerun.v ===== *)
(** * A call of the library depends on its parameters alone

    The Python extension clears its globals at the start of a call, but not the
    position in the random numbers.  In the relational logic of Reproduce.v: the
    parameters reseed the generator, or [gen_random_instr] does, before the first
    number is drawn, so two calls with the same parameters give one answer.  With
    Indeterminate.v this holds also when the two calls find different garbage in
    uninitialised variables, but for the fixed bits they report. *)
From S2P Require Import Prelude RitCommon InstrTable State InstrUtil InstrBuf RandomInstrGen InstrGenerator Options Params Api Reproduce Indeterminate.

(** ** 1. Two states that differ in the random numbers *)

Definition unseeded (s : rit_state) : rit_state := st_rand_pos 0 (st_rand_seed 0 s).
Abbreviation has_seed s := (opt_stat s.(options) OPT_RAND_SEED).

(** Once a seed was given they do not differ at all. *)
Record same_but_seed (s t : rit_state) : Prop := {
  sb_rest : unseeded s = unseeded t;
  sb_seed : has_seed s = true → s = t
}.

Lemma same_reseeded f v s t :
  unseeded s = unseeded t → f (st_rand_pos 0 (st_rand_seed v s)) = f (st_rand_pos 0 (st_rand_seed v t)) :> rit_state.
Proof. intros H. f_equal. exact (f_equal (λ u, st_rand_pos 0 (st_rand_seed v u)) H). Qed.

Section parse.
Abbreviation keeps_rel := (rel same_but_seed same_but_seed).

Lemma rerun_gets {A} (f : rit_state → A) : (∀ s, f (unseeded s) = f s) → keeps_rel (gets f).
Proof. intros Hf. apply rel_gets. intros s t []. by rewrite <- (Hf s), <- (Hf t), sb_rest0. Qed.

Lemma rerun_modify f :
  (∀ s, unseeded (f s) = f (unseeded s)) → (∀ s, has_seed (f s) = has_seed s) → keeps_rel (modify f).
Proof.
  intros Hf Hs. apply rel_modify. intros s t [Hr Hseed]. split; [by rewrite !Hf, Hr|].
  rewrite Hs. intros H. by rewrite (Hseed H).
Qed.

Lemma rerun_on_options f : (∀ o, opt_stat (f o) OPT_RAND_SEED = opt_stat o OPT_RAND_SEED) → keeps_rel (on_options f).
Proof. intros Hf. apply rerun_modify; [done|]. intros s. apply Hf. Qed.

Lemma rerun_SET_OPT_STAT x : 0 ≤ x < 32 → x ≠ OPT_RAND_SEED → keeps_rel (SET_OPT_STAT x).
Proof.
  intros Hx Hn. apply rerun_on_options. intros o. rewrite opt_stat_set_stat by (unfold OPT_RAND_SEED; lia).
  by rewrite (proj2 (Z.eqb_neq OPT_RAND_SEED x) (not_eq_sym Hn)).
Qed.

Lemma rerun_srand v : keeps_rel (srand v).
Proof.
  apply rel_modify. intros s t []. pose proof (same_reseeded (λ s, s) (u32 v) s t sb_rest0) as H. cbv beta in H.
  split; [by rewrite H|done].
Qed.

Lemma rerun_set_raw_instr v : keeps_rel (set_raw_instr v).
Proof. by apply rerun_modify. Qed.

#[local] Hint Resolve rerun_gets rerun_on_options rerun_srand rerun_set_raw_instr : rel.
#[local] Hint Extern 2 (rel _ _ (modify _)) => apply rerun_modify; reflexivity : rel.

Lemma rerun_update_opkind_str str : keeps_rel (update_opkind_str str).
Proof. rel. Qed.
#[local] Hint Resolve rerun_update_opkind_str : rel.

Lemma rerun_parse_long_switch k v : keeps_rel (parse_long_switch k v).
Proof. rel. Qed.

(** ** 2. The parameters *)

Lemma rerun_parse_long_para k v : keeps_rel (parse_long_para k v).
Proof.
  unfold parse_long_para. destruct ((OPT_BTM <=? k) || (k <? OPT_TOP)) eqn:Hk; [apply rel_ret|].
  apply orb_false_iff in Hk as [H1%Z.leb_gt H2%Z.ltb_ge].
  destruct (decide (k = OPT_RAND_SEED)) as [-> |Hn].
  - intros s t [Hr _]. unfold mbind, M_bind, when, SET_OPT_STAT, on_options, srand, modify. cbn.
    split; [done|]. pose proof (same_reseeded (λ s, st_options (opt_set_stat OPT_RAND_SEED (options s)) s) (u32 v) s t Hr) as E.
    cbv beta in E. split; [by rewrite E|done].
  - eapply rel_bind; [apply rerun_parse_long_switch|]. intros [b|]; [|apply rel_ret].
    eapply rel_bind; [apply rel_when, rerun_SET_OPT_STAT; [unfold OPT_BTM, OPT_TOP in *; lia|done]|]. intros. apply rel_ret.
Qed.

Lemma rerun_parse_params l : keeps_rel (parse_params l).
Proof.
  assert (keeps_rel (SET_OPT_STAT OPT_OPKIND)) by by apply rerun_SET_OPT_STAT.
  assert (keeps_rel (SET_OPT_STAT OPT_OPCODE)) by by apply rerun_SET_OPT_STAT.
  induction l as [|p l IH]; cbn [parse_params]; [apply rel_ret|]. eapply rel_bind; [|intros []; [done|apply rel_ret]].
  destruct p as [k v|k str|]; cbn [parse_param]; [apply rerun_parse_long_para| |apply rel_ret].
  unfold parse_string_para. destruct (_ || _); [apply rel_ret|].
  destruct (Z.eqb_spec k OPT_OPKIND) as [-> |_]; [rel|]. destruct (Z.eqb_spec k OPT_OPCODE) as [-> |_]; rel.
Qed.
End parse.

(** ** 3. The call *)

Section call.
Context `{Env : !RitEnv}.

Lemma rel_eq {S A} (m : M S A) : rel eq eq m.
Proof. intros s t <-. by destruct (m s). Qed.

Lemma rerun_init_env_val : rel (λ _ _, True) same_but_seed init_env_val.
Proof.
  intros s t _. unfold init_env_val, update_opkind_str, mbind, M_bind, modify.
  by destruct (opkind_loop _ _ _).
Qed.

(** From the seed on the two runs are one. *)
Lemma rerun_seed {A} (k : rit A) :
  rel same_but_seed eq (seeded ← GET_OPT_STAT OPT_RAND_SEED; when (negb seeded) (srand time_seed) ;; k).
Proof.
  intros s t [Hr Hs]. assert (has_seed t = has_seed s) as Ho by exact (f_equal (λ u, has_seed u) (eq_sym Hr)).
  unfold mbind, M_bind, GET_OPT_STAT, gets. rewrite Ho. destruct (has_seed s); cbn [negb when mret M_ret].
  - rewrite (Hs eq_refl). by apply rel_eq.
  - unfold srand, modify. rewrite (same_reseeded (λ s, s) (u32 time_seed) s t Hr). by apply rel_eq.
Qed.

Lemma rerun_gen_random_instr : rel same_but_seed eq gen_random_instr.
Proof.
  unfold gen_random_instr. do 3 (eapply rel_bind; [by apply rerun_modify|intros _]).
  eapply rel_bind; [by apply rerun_gets|]. intros no_relax. cbv zeta. apply rerun_seed.
Qed.

(** Another call, after any other calls. *)
Lemma rerun_same_env l s t : out_rel (λ _ _, True) (single_instr_gen_py l s) (single_instr_gen_py l t).
Proof.
  cut (rel (λ _ _, True) (λ _ _, True) (single_instr_gen_py l)); [by intros H; apply H|].
  unfold single_instr_gen_py. eapply rel_bind; [apply rerun_init_env_val|]. intros _.
  eapply rel_bind; [apply rerun_parse_params|]. intros [].
  - eapply rel_bind; [apply rerun_gen_random_instr|]. intros st s1 t1 <-. done.
  - by intros s1 t1.
Qed.
End call.

(** ** 4. Calls that name an opcode *)

Definition names_opcode (p : param) : bool := match p with PStr k _ => k =? OPT_OPCODE | _ => false end.
Abbreviation has_opcode s := (opt_stat s.(options) OPT_OPCODE).

Lemma has_opcode_set t s :
  OPT_TOP ≤ t < OPT_BTM →
  opt_stat (opt_set_stat t s.(options)) OPT_OPCODE = (t =? OPT_OPCODE) || has_opcode s.
Proof. unfold OPT_TOP, OPT_BTM. intros Ht. rewrite opt_stat_set_stat by (unfold OPT_OPCODE; lia). by rewrite Z.eqb_sym. Qed.

Lemma wp_parse_param_named p s :
  pinv s → wp (parse_param p) (λ ok s', pinv s' ∧ (ok = true → has_opcode s || names_opcode p = true → has_opcode s' = true)) s.
Proof.
  intros Hs. pose proof (wp_parse_param (λ _, True) p s Hs ltac:(by destruct p) I) as Hp.
  cut (wp (parse_param p) (λ ok s', ok = true → has_opcode s || names_opcode p = true → has_opcode s' = true) s).
  { intros H. apply wp_elim in H as (ok & s' & E & H). unfold wp in *. rewrite E in *. by destruct Hp. }
  destruct p as [t v|t str|]; cbn [parse_param names_opcode]; [| |by apply wp_ret].
  - unfold parse_long_para. destruct (_ || _) eqn:E; [by apply wp_ret|]. apply orb_false_iff in E as [E1%Z.leb_gt E2%Z.ltb_ge].
    apply wp_bind. eapply wp_mono; [by apply wp_parse_long_switch|]. intros r s1 (_ & _ & Es & _).
    assert (has_opcode s1 = has_opcode s) as Eo by (unfold opt_stat; by rewrite Es).
    destruct r as [b|]; [|by apply wp_ret]. rewrite orb_false_r. apply wp_bind. unfold when.
    destruct b.
    + unfold SET_OPT_STAT, on_options. apply wp_modify, wp_ret. intros _ H.
      cbn [options st_options]. rewrite has_opcode_set, Eo, H by done. apply orb_true_r.
    + apply wp_ret, wp_ret. intros _ H. by rewrite Eo.
  - unfold parse_string_para. destruct (_ || _) eqn:E; [by apply wp_ret|]. apply orb_false_iff in E as [E1%Z.leb_gt E2%Z.ltb_ge].
    destruct (Z.eqb_spec t OPT_OPKIND) as [->|]; [|destruct (Z.eqb_spec t OPT_OPCODE) as [->|]; [|by apply wp_ret]].
    + apply wp_bind. destruct (update_opkind_str_ok str s) as [l Hl]. apply (wp_intro _ _ _ _ _ Hl).
      apply wp_bind, wp_modify, wp_ret. rewrite orb_false_r. intros _ H. cbn [options st_options st_opkind_list].
      by rewrite has_opcode_set, H by done.
    + apply wp_bind, wp_modify, wp_bind, wp_modify, wp_ret. intros _ _.
      exact (has_opcode_set OPT_OPCODE (st_options (opt_opcode (Some str) s.(options)) s) ltac:(done)).
Qed.

Lemma parse_params_named l s s' :
  pinv s → parse_params l s = Ok true s' → has_opcode s || existsb names_opcode l = true → has_opcode s' = true.
Proof.
  revert s. induction l as [|p l IH]; intros s Hs; cbn [parse_params existsb].
  { intros [= <-]. by rewrite orb_false_r. }
  intros (ok & s1 & E1 & E2)%bind_ok H. pose proof (wp_parse_param_named p s Hs) as Hp. unfold wp in Hp. rewrite E1 in Hp.
  destruct Hp as [Hs1 H1]. destruct ok; [|done]. apply (IH s1 Hs1 E2). rewrite orb_assoc in H. apply orb_true_iff in H as [H|H].
  - by rewrite (H1 eq_refl H).
  - by rewrite H, orb_true_r.
Qed.

(** ** 5. Property *)

(** What a caller sees, apart from the fixed bits. *)
Definition same_answer (x y : outcome rit_state (option (instr_status_t * Z * Z * string))) : Prop :=
  match x, y with
  | Ok (Some (st, _, raw, text)) _, Ok (Some (st', _, raw', text')) _ => st = st' ∧ raw = raw' ∧ text = text'
  | Ok None _, Ok None _ => True
  | Abort w, Abort w' => w = w'
  | _, _ => False
  end.

Lemma same_answer_trans x y z : out_rel (λ _ _, True) x y → same_answer y z → same_answer x z.
Proof.
  destruct x as [[[[[st fb] raw] text]|] s|w], y as [[[[[st1 fb1] raw1] text1]|] s1|w1]; cbn [out_rel]; try done.
  - by intros [[= -> -> -> ->] _].
  - by intros [? _].
  - by intros [? _].
  - by intros ->.
Qed.

Lemma fixed_bit_eta s : st_cur_fixed_bit s.(cur_fixed_bit) s = s.
Proof. by destruct s. Qed.

Lemma rerun_garbage `{Env : !RitEnv} u o l s :
  existsb names_opcode l = true ∨ (∀ k, o k = opkind_oob k) →
  same_answer (single_instr_gen_py l s) (single_instr_gen_py (Env := with_indeterminate u o Env) l s).
Proof.
  intros Ho. unfold single_instr_gen_py, mbind, M_bind.
  destruct (wp_elim _ _ _ (init_env_val_pinv s)) as ([] & s0 & -> & Hs0 & _).
  destruct (parse_params l s0) as [[] s1|] eqn:E1; [|done|done].
  assert (has_opcode s1 = true ∨ ∀ k, o k = opkind_oob k) as Ho1.
  { destruct Ho as [Hl|]; [left|by right]. apply (parse_params_named l s0); [done|done|]. by rewrite Hl, orb_true_r. }
  pose proof (lock_gen_random_instr u o s1.(options) Ho1 s1 s1.(cur_fixed_bit) eq_refl) as H.
  rewrite fixed_bit_eta in H. clear E1 Ho1. revert H.
  generalize (gen_random_instr s1), (gen_random_instr (Env := with_indeterminate u o Env) s1).
  intros [st s2|w] [st' t2|w']; cbn [lock_out]; try done. by intros (-> & _ & v & ->).
Qed.

(** C20. A call of the library is reproducible: two calls with the same
    parameters at the same clock answer the same status, word and text, or stop the
    same way, whatever was called before them and whatever they find in uninitialised
    variables; if they do not name an opcode, the bytes that [gen_random_op] reads
    past the end of [opkind_list] have to be the same for both.  The position in the
    random numbers, the one variable that a call finds as it was left, has no
    influence: every call seeds the generator, from its parameters or from the clock,
    before it draws.  The fixed bits of the answer are computed from an uninitialised
    variable in every attempt but the first; they agree too if it holds the same
    values. *)
Theorem single_instr_gen_py_rerun `{Env : !RitEnv} (l : list param) (s t : rit_state) (u : Z → Z) (o : nat → bool) :
  existsb names_opcode l = true ∨ (∀ k, o k = opkind_oob k) →
  same_answer (single_instr_gen_py l s) (single_instr_gen_py (Env := with_indeterminate u o Env) l t)
  ∧ out_rel (λ _ _, True) (single_instr_gen_py l s) (single_instr_gen_py l t).
Proof.
  intros Ho. pose proof (rerun_same_env l s t) as H1. split; [|exact H1]. pose proof (rerun_garbage u o l t Ho) as H2.
  exact (same_answer_trans _ _ _ H1 H2).
Qed.

Lemma single_instr_gen_py_rerun_witness :
  existsb names_opcode [PStr OPT_OPCODE "ADD_reg"] = true
  ∧ same_answer (single_instr_gen_py (Env := lcg_env) [PStr OPT_OPCODE "ADD_reg"] zero_state)
      (single_instr_gen_py (Env := with_indeterminate (λ n, n + 7) (λ _, true) lcg_env) [PStr OPT_OPCODE "ADD_reg"] zero_state).
Proof.
  split; [reflexivity|].
  exact (proj1 (single_instr_gen_py_rerun (Env := lcg_env) [PStr OPT_OPCODE "ADD_reg"] zero_state zero_state (λ n, n + 7) (λ _, true)
    (or_introl eq_refl))).
Defined.
