(* ===== verification/V1State.v ===== *)
(** * The earlier library: data and global state

    rit/src is the version of the library that the scripts build and that the
    test driver loads.  It shares the instruction table, the bit utilities and
    the instruction generators with rit/new_src; its options, its encoding of
    the operands, its loop and its entry points are its own.  Here: the option
    record of rit-common.h, the globals, and how the shared code sees them. *)
From S2P Require Import Prelude RitCommon InstrTable State.

(** ** 1. Options (rit-common.h) *)

Inductive arm_regs_t := R_DEFAULT | R_0_3 | R_4_7 | R_8_12 | R_SP | R_LR | R_PC.

#[global] Instance arm_regs_eq_dec : EqDecision arm_regs_t.
Proof. solve_decision. Defined.

Definition regs_eqb (a b : arm_regs_t) : bool := bool_decide (a = b).

Record gen_option_t := Mk_gen_option {
  bias_register : bool;
  bias_oprand_value : bool;
  allow_unalign_mem : bool;
  allow_all_instr : bool;
  fix_mem : bool;
  mem_base_val : Z;
  mem_base_mask : Z;
  mem_offset_val : Z;
  is_cond_init : bool;
  cond_val : Z;
  src_regs : arm_regs_t;
  dst_regs : arm_regs_t;
  is_sbit_init : bool;
  sbit_val : Z;
  is_shift_imm_init : bool;
  shift_imm_val : Z;
  is_shift_reg_init : bool;
  shift_reg_val : Z;
  arch_version : Z;
  verbose : Z;
  isa : Z
}.

Definition opt_allow_unalign_mem (v : bool) (r : gen_option_t) : gen_option_t :=
    Mk_gen_option r.(bias_register) r.(bias_oprand_value) v r.(allow_all_instr) r.(fix_mem)
    r.(mem_base_val) r.(mem_base_mask) r.(mem_offset_val) r.(is_cond_init) r.(cond_val)
    r.(src_regs) r.(dst_regs) r.(is_sbit_init) r.(sbit_val) r.(is_shift_imm_init)
    r.(shift_imm_val) r.(is_shift_reg_init) r.(shift_reg_val) r.(arch_version) r.(verbose)
    r.(isa).
Definition opt_allow_all_instr (v : bool) (r : gen_option_t) : gen_option_t :=
    Mk_gen_option r.(bias_register) r.(bias_oprand_value) r.(allow_unalign_mem) v r.(fix_mem)
    r.(mem_base_val) r.(mem_base_mask) r.(mem_offset_val) r.(is_cond_init) r.(cond_val)
    r.(src_regs) r.(dst_regs) r.(is_sbit_init) r.(sbit_val) r.(is_shift_imm_init)
    r.(shift_imm_val) r.(is_shift_reg_init) r.(shift_reg_val) r.(arch_version) r.(verbose)
    r.(isa).
Definition opt_mem_base_val (v : Z) (r : gen_option_t) : gen_option_t :=
    Mk_gen_option r.(bias_register) r.(bias_oprand_value) r.(allow_unalign_mem)
    r.(allow_all_instr) r.(fix_mem) v r.(mem_base_mask) r.(mem_offset_val) r.(is_cond_init)
    r.(cond_val) r.(src_regs) r.(dst_regs) r.(is_sbit_init) r.(sbit_val) r.(is_shift_imm_init)
    r.(shift_imm_val) r.(is_shift_reg_init) r.(shift_reg_val) r.(arch_version) r.(verbose)
    r.(isa).
Definition opt_mem_base_mask (v : Z) (r : gen_option_t) : gen_option_t :=
    Mk_gen_option r.(bias_register) r.(bias_oprand_value) r.(allow_unalign_mem)
    r.(allow_all_instr) r.(fix_mem) r.(mem_base_val) v r.(mem_offset_val) r.(is_cond_init)
    r.(cond_val) r.(src_regs) r.(dst_regs) r.(is_sbit_init) r.(sbit_val) r.(is_shift_imm_init)
    r.(shift_imm_val) r.(is_shift_reg_init) r.(shift_reg_val) r.(arch_version) r.(verbose)
    r.(isa).
Definition opt_mem_offset_val (v : Z) (r : gen_option_t) : gen_option_t :=
    Mk_gen_option r.(bias_register) r.(bias_oprand_value) r.(allow_unalign_mem)
    r.(allow_all_instr) r.(fix_mem) r.(mem_base_val) r.(mem_base_mask) v r.(is_cond_init)
    r.(cond_val) r.(src_regs) r.(dst_regs) r.(is_sbit_init) r.(sbit_val) r.(is_shift_imm_init)
    r.(shift_imm_val) r.(is_shift_reg_init) r.(shift_reg_val) r.(arch_version) r.(verbose)
    r.(isa).
Definition opt_is_cond_init (v : bool) (r : gen_option_t) : gen_option_t :=
    Mk_gen_option r.(bias_register) r.(bias_oprand_value) r.(allow_unalign_mem)
    r.(allow_all_instr) r.(fix_mem) r.(mem_base_val) r.(mem_base_mask) r.(mem_offset_val) v
    r.(cond_val) r.(src_regs) r.(dst_regs) r.(is_sbit_init) r.(sbit_val) r.(is_shift_imm_init)
    r.(shift_imm_val) r.(is_shift_reg_init) r.(shift_reg_val) r.(arch_version) r.(verbose)
    r.(isa).
Definition opt_cond_val (v : Z) (r : gen_option_t) : gen_option_t :=
    Mk_gen_option r.(bias_register) r.(bias_oprand_value) r.(allow_unalign_mem)
    r.(allow_all_instr) r.(fix_mem) r.(mem_base_val) r.(mem_base_mask) r.(mem_offset_val)
    r.(is_cond_init) v r.(src_regs) r.(dst_regs) r.(is_sbit_init) r.(sbit_val)
    r.(is_shift_imm_init) r.(shift_imm_val) r.(is_shift_reg_init) r.(shift_reg_val)
    r.(arch_version) r.(verbose) r.(isa).
Definition opt_src_regs (v : arm_regs_t) (r : gen_option_t) : gen_option_t :=
    Mk_gen_option r.(bias_register) r.(bias_oprand_value) r.(allow_unalign_mem)
    r.(allow_all_instr) r.(fix_mem) r.(mem_base_val) r.(mem_base_mask) r.(mem_offset_val)
    r.(is_cond_init) r.(cond_val) v r.(dst_regs) r.(is_sbit_init) r.(sbit_val)
    r.(is_shift_imm_init) r.(shift_imm_val) r.(is_shift_reg_init) r.(shift_reg_val)
    r.(arch_version) r.(verbose) r.(isa).
Definition opt_dst_regs (v : arm_regs_t) (r : gen_option_t) : gen_option_t :=
    Mk_gen_option r.(bias_register) r.(bias_oprand_value) r.(allow_unalign_mem)
    r.(allow_all_instr) r.(fix_mem) r.(mem_base_val) r.(mem_base_mask) r.(mem_offset_val)
    r.(is_cond_init) r.(cond_val) r.(src_regs) v r.(is_sbit_init) r.(sbit_val)
    r.(is_shift_imm_init) r.(shift_imm_val) r.(is_shift_reg_init) r.(shift_reg_val)
    r.(arch_version) r.(verbose) r.(isa).
Definition opt_is_sbit_init (v : bool) (r : gen_option_t) : gen_option_t :=
    Mk_gen_option r.(bias_register) r.(bias_oprand_value) r.(allow_unalign_mem)
    r.(allow_all_instr) r.(fix_mem) r.(mem_base_val) r.(mem_base_mask) r.(mem_offset_val)
    r.(is_cond_init) r.(cond_val) r.(src_regs) r.(dst_regs) v r.(sbit_val) r.(is_shift_imm_init)
    r.(shift_imm_val) r.(is_shift_reg_init) r.(shift_reg_val) r.(arch_version) r.(verbose)
    r.(isa).
Definition opt_sbit_val (v : Z) (r : gen_option_t) : gen_option_t :=
    Mk_gen_option r.(bias_register) r.(bias_oprand_value) r.(allow_unalign_mem)
    r.(allow_all_instr) r.(fix_mem) r.(mem_base_val) r.(mem_base_mask) r.(mem_offset_val)
    r.(is_cond_init) r.(cond_val) r.(src_regs) r.(dst_regs) r.(is_sbit_init) v
    r.(is_shift_imm_init) r.(shift_imm_val) r.(is_shift_reg_init) r.(shift_reg_val)
    r.(arch_version) r.(verbose) r.(isa).
Definition opt_is_shift_imm_init (v : bool) (r : gen_option_t) : gen_option_t :=
    Mk_gen_option r.(bias_register) r.(bias_oprand_value) r.(allow_unalign_mem)
    r.(allow_all_instr) r.(fix_mem) r.(mem_base_val) r.(mem_base_mask) r.(mem_offset_val)
    r.(is_cond_init) r.(cond_val) r.(src_regs) r.(dst_regs) r.(is_sbit_init) r.(sbit_val) v
    r.(shift_imm_val) r.(is_shift_reg_init) r.(shift_reg_val) r.(arch_version) r.(verbose)
    r.(isa).
Definition opt_shift_imm_val (v : Z) (r : gen_option_t) : gen_option_t :=
    Mk_gen_option r.(bias_register) r.(bias_oprand_value) r.(allow_unalign_mem)
    r.(allow_all_instr) r.(fix_mem) r.(mem_base_val) r.(mem_base_mask) r.(mem_offset_val)
    r.(is_cond_init) r.(cond_val) r.(src_regs) r.(dst_regs) r.(is_sbit_init) r.(sbit_val)
    r.(is_shift_imm_init) v r.(is_shift_reg_init) r.(shift_reg_val) r.(arch_version) r.(verbose)
    r.(isa).
Definition opt_is_shift_reg_init (v : bool) (r : gen_option_t) : gen_option_t :=
    Mk_gen_option r.(bias_register) r.(bias_oprand_value) r.(allow_unalign_mem)
    r.(allow_all_instr) r.(fix_mem) r.(mem_base_val) r.(mem_base_mask) r.(mem_offset_val)
    r.(is_cond_init) r.(cond_val) r.(src_regs) r.(dst_regs) r.(is_sbit_init) r.(sbit_val)
    r.(is_shift_imm_init) r.(shift_imm_val) v r.(shift_reg_val) r.(arch_version) r.(verbose)
    r.(isa).
Definition opt_shift_reg_val (v : Z) (r : gen_option_t) : gen_option_t :=
    Mk_gen_option r.(bias_register) r.(bias_oprand_value) r.(allow_unalign_mem)
    r.(allow_all_instr) r.(fix_mem) r.(mem_base_val) r.(mem_base_mask) r.(mem_offset_val)
    r.(is_cond_init) r.(cond_val) r.(src_regs) r.(dst_regs) r.(is_sbit_init) r.(sbit_val)
    r.(is_shift_imm_init) r.(shift_imm_val) r.(is_shift_reg_init) v r.(arch_version) r.(verbose)
    r.(isa).
Definition opt_arch_version (v : Z) (r : gen_option_t) : gen_option_t :=
    Mk_gen_option r.(bias_register) r.(bias_oprand_value) r.(allow_unalign_mem)
    r.(allow_all_instr) r.(fix_mem) r.(mem_base_val) r.(mem_base_mask) r.(mem_offset_val)
    r.(is_cond_init) r.(cond_val) r.(src_regs) r.(dst_regs) r.(is_sbit_init) r.(sbit_val)
    r.(is_shift_imm_init) r.(shift_imm_val) r.(is_shift_reg_init) r.(shift_reg_val) v
    r.(verbose) r.(isa).
Definition opt_verbose (v : Z) (r : gen_option_t) : gen_option_t :=
    Mk_gen_option r.(bias_register) r.(bias_oprand_value) r.(allow_unalign_mem)
    r.(allow_all_instr) r.(fix_mem) r.(mem_base_val) r.(mem_base_mask) r.(mem_offset_val)
    r.(is_cond_init) r.(cond_val) r.(src_regs) r.(dst_regs) r.(is_sbit_init) r.(sbit_val)
    r.(is_shift_imm_init) r.(shift_imm_val) r.(is_shift_reg_init) r.(shift_reg_val)
    r.(arch_version) v r.(isa).
Definition opt_isa (v : Z) (r : gen_option_t) : gen_option_t :=
    Mk_gen_option r.(bias_register) r.(bias_oprand_value) r.(allow_unalign_mem)
    r.(allow_all_instr) r.(fix_mem) r.(mem_base_val) r.(mem_base_mask) r.(mem_offset_val)
    r.(is_cond_init) r.(cond_val) r.(src_regs) r.(dst_regs) r.(is_sbit_init) r.(sbit_val)
    r.(is_shift_imm_init) r.(shift_imm_val) r.(is_shift_reg_init) r.(shift_reg_val)
    r.(arch_version) r.(verbose) v.

Definition zero_options : gen_option_t :=
  Mk_gen_option false false false false false 0 0 0 false 0 R_DEFAULT R_DEFAULT false 0
    false 0 false 0 0 0 0.

(** ** 2. Globals *)

(** [globals] holds the variables of RandomInstrGen.c under the names they have
    in both versions, [print_buff] as [print_buf]; its option record is not
    used. *)
Record lib_state := Mk_lib_state {
  options : gen_option_t;
  init_option : bool;
  globals : rit_state
}.

(** A freshly loaded library. *)
Definition zero_lib : lib_state := Mk_lib_state zero_options false zero_state.

Abbreviation lib := (M lib_state).

Definition opt {A} (f : gen_option_t → A) : lib A := gets (λ s, f s.(options)).
Definition set_opt (f : gen_option_t → gen_option_t) : lib unit :=
  modify (λ s, Mk_lib_state (f s.(options)) s.(init_option) s.(globals)).

(** ** 3. The code both versions share *)

(** The options of this version as the shared code reads them.  The generators
    of the two versions differ in how they test them: [options.fix_mem] here is
    [!GET_OPT_STAT(OPT_NOT_ALLOW_FIX_MEM)] there, [!options.allow_unalign_mem]
    is [GET_OPT_STAT(OPT_ALLOW_UNALIGN_MEM)], and the two bias flags are
    [OPT_ALLOW_BIAS_REG] and [OPT_ALLOW_BIAS_OPND]. *)
Definition view_stat (o : gen_option_t) : Z :=
  (if o.(allow_unalign_mem) then 0 else shl32 1 OPT_ALLOW_UNALIGN_MEM)
  + (if o.(bias_oprand_value) then shl32 1 OPT_ALLOW_BIAS_OPND else 0)
  + (if o.(bias_register) then shl32 1 OPT_ALLOW_BIAS_REG else 0)
  + (if o.(fix_mem) then 0 else shl32 1 OPT_NOT_ALLOW_FIX_MEM).

Definition view (o : gen_option_t) : RitCommon.gen_option_t :=
  RitCommon.Mk_gen_option o.(isa) o.(arch_version) None 0 o.(cond_val)
    (replicate 4 0) (replicate 4 0) (replicate 4 0) (replicate 4 0) 0 0 0 0 0 0
    o.(mem_base_val) o.(mem_base_mask) o.(mem_offset_val) (view_stat o).

Definition view_state (s : lib_state) : rit_state := st_options (view s.(options)) s.(globals).

(** What the shared code may have assigned: [options.isa] and [options.cond_val]. *)
Definition write_back (t : rit_state) (s : lib_state) : lib_state :=
  Mk_lib_state
    (opt_isa t.(State.options).(RitCommon.isa)
      (opt_cond_val t.(State.options).(RitCommon.cond_val) s.(options)))
    s.(init_option) t.

Definition shared {A} (m : rit A) : lib A := λ s,
  match m (view_state s) with
  | Ok a t => Ok a (write_back t s)
  | Abort w => Abort w
  end.

(** The settings for which the generators of the two versions agree: memory
    operands are fixed up, and nothing is biased.  [set_default_option] makes
    them and no function of rit/src changes them. *)
Definition same_generators (o : gen_option_t) : bool :=
  o.(fix_mem) && negb o.(bias_register) && negb o.(bias_oprand_value).

Definition generator {A} (m : rit A) : lib A :=
  o ← gets options;
  assertM (same_generators o) Unreached ;;
  shared m.

(** The environment of this version: as [lcg_env], with its [fix_mem_base]. *)
Definition lcg_env_1 : RitEnv := {|
  rand_at := lcg_at;
  rand_at_range := lcg_at_range;
  time_seed := 5;
  uninit_u32 := λ _, 0;
  opkind_oob := λ _, false;
  skip_pc_base := false
|}.

(** ** 4. Rules *)

Lemma wp_shared {A} (m : rit A) Q s :
  wp m (λ a t, Q a (write_back t s)) (view_state s) → wp (shared m) Q s.
Proof. unfold wp, shared. by destruct (m (view_state s)). Qed.

Lemma wp_generator {A} (m : rit A) Q s :
  same_generators s.(options) = true →
  wp m (λ a t, Q a (write_back t s)) (view_state s) → wp (generator m) Q s.
Proof. intros Hg Hm. apply wp_bind, wp_gets, wp_bind, wp_assert; [done|]. by apply wp_shared. Qed.
