(* ===== verification/V1Encode.v ===== *)
(** * Encoding an opcode in the earlier library: rit/src/RandomInstrGen.c

    From the options to the operand fields of [raw_instr].  These functions read
    [options] and never assign them, so they take the record as an argument and
    run on the shared globals. *)
From S2P Require Import Prelude RitCommon InstrTable State InstrUtil InstrBuf Keeps GenARMInstr EncodeBits ValidBias EncodeSpec RandomInstrGen Attempt Output V1State.
#[local] Open Scope c_scope.

(** ** 1. Definitions *)

Definition is_opnd_revisable_reg (opnd : sisa_opnd_t) (op : Z) : bool :=
  match opnd.(type) with
  | SISA_OPND_TYPE_GPR
  | SISA_OPND_TYPE_GPR_RW
  | SISA_OPND_TYPE_GPRSET
  | SISA_OPND_TYPE_SHIFT_REG
  | SISA_OPND_TYPE_ROTATE_REG => negb (is_fixed_oprand op opnd.(start_bit) opnd.(end_bit))
  | SISA_OPND_TYPE_GPR_MERGE =>
      negb (is_fixed_oprand op opnd.(start_bit) opnd.(end_bit))
      && negb (is_fixed_oprand op opnd.(bit1) opnd.(bit1))
  | SISA_OPND_TYPE_GPRLIST
  | SISA_OPND_TYPE_GPRLIST_T => true
  | _ => false
  end.

(** The bit [reg_val] selects in a register list from [start_bit] to [end_bit]. *)
Definition list_bit (opnd : sisa_opnd_t) (reg_val : Z) : Z :=
  reg_val mod (opnd.(end_bit) - opnd.(start_bit) + 1) + opnd.(start_bit).

Section encode.
Context `{Env : !RitEnv}.

Definition update_instr_reg_opnd (op : Z) (pos : nat) (reg : arm_regs_t) : rit unit :=
  let opnd := opnd_of op pos in
  r ← rand;
  let reg_val := r mod 16 in
  reg_val ←
    match reg with
    | R_0_3 => mret (reg_val mod 4)
    | R_4_7 => mret (reg_val mod 4 + 4)
    | R_8_12 => r ← rand; mret (r mod 5 + 8)
    | R_SP => mret 13
    | R_LR => mret 14
    | R_PC => mret 15
    | R_DEFAULT => mret reg_val
    end;
  match opnd.(type) with
  | SISA_OPND_TYPE_GPR
  | SISA_OPND_TYPE_GPR_RW
  | SISA_OPND_TYPE_GPRSET
  | SISA_OPND_TYPE_SHIFT_REG
  | SISA_OPND_TYPE_ROTATE_REG => raw_set_instr opnd.(start_bit) opnd.(end_bit) reg_val
  | SISA_OPND_TYPE_GPRLIST =>
      let reg_val := list_bit opnd reg_val in
      when (negb (is_fixed_oprand op reg_val reg_val)) (raw_set_instr reg_val reg_val 1)
  | SISA_OPND_TYPE_GPR_MERGE =>
      raw_set_instr opnd.(start_bit) opnd.(end_bit) (reg_val & 0x7) ;;
      raw_set_instr opnd.(bit1) opnd.(bit1) (if 7 <? reg_val then 1 else 0)
  | SISA_OPND_TYPE_GPRLIST_T =>
      let reg_val := if reg_val =? opnd.(bit2) then opnd.(bit1) else list_bit opnd reg_val in
      raw_set_instr reg_val reg_val 1
  | _ => mret tt
  end.

(** [if (is_opnd_revisable_reg(opnds[pos], op)) update_instr_reg_opnd(op, pos, reg);] *)
Definition revise_reg (op : Z) (pos : nat) (reg : arm_regs_t) : rit unit :=
  when (is_opnd_revisable_reg (opnd_of op pos) op) (update_instr_reg_opnd op pos reg).

(** The same [switch] as in rit/new_src, with every single-bit statement written
    as [set_bits(raw_instr, b, b)] or [clear_bits(raw_instr, b, b)]. *)
Definition widen (a : bit_act) : bit_act :=
  match a with SetBit b => SetBits b b | ClearBit b => ClearBits b b | a => a end.
Definition fix_unpredictable_bit (op : Z) : rit unit :=
  on_raw (λ r, foldl run_act r (widen <$> fix_acts op)).

(** The opcodes whose offset register [set_mem_src_reg] also replaces. *)
Definition ld_offset_ops : list Z := [
  SISA_OP_LDR_reg; SISA_OP_LDRB_reg; SISA_OP_LDRH; SISA_OP_LDRD_reg; SISA_OP_LDRSB; SISA_OP_LDRSH].
Definition ld_offset_unpriv : list Z := [
  SISA_OP_LDRT_a2; SISA_OP_LDRHT_a2; SISA_OP_LDRSHT_a2; SISA_OP_LDRBT_a2; SISA_OP_LDRSBT_a2].
Definition ld_offset_T1 : list Z := [
  SISA_OP_LDR_reg_T1; SISA_OP_LDRB_reg_T1; SISA_OP_LDRH_reg_T1; SISA_OP_LDRSH_reg_T1;
  SISA_OP_LDRSB_reg_T1].
Definition ld_offset_T2 : list Z := [
  SISA_OP_LDR_reg_T2; SISA_OP_LDRB_reg_T2; SISA_OP_LDRH_reg_T2; SISA_OP_LDRSB_reg_T2;
  SISA_OP_LDRSH_reg_T2].
Definition ldm_long_list : list Z := [
  SISA_OP_LDMDB_T1; SISA_OP_LDM_T2; SISA_OP_LDMDA; SISA_OP_LDM; SISA_OP_LDMDB; SISA_OP_LDMIB].
Definition st_offset_ops : list Z := [
  SISA_OP_STR_reg; SISA_OP_STRB_reg; SISA_OP_STRH_reg; SISA_OP_STRD_reg].
Definition st_offset_unpriv : list Z := [SISA_OP_STRT_a2; SISA_OP_STRHT_a2; SISA_OP_STRBT_a2].
Definition st_offset_T1 : list Z := [SISA_OP_STR_reg_T1; SISA_OP_STRH_reg_T1; SISA_OP_STRB_reg_T1].
Definition st_offset_T2 : list Z := [SISA_OP_STR_reg_T2; SISA_OP_STRB_reg_T2; SISA_OP_STRH_reg_T2].

Definition set_mem_src_reg (op : Z) (src_regs : arm_regs_t) : rit unit :=
  let opkind := (instr_desc op).(op_kind) in
  let r_offset := if regs_eqb src_regs R_0_3 then R_4_7 else R_0_3 in
  match opkind with
  | LD_OP | LDREX_OP =>
      revise_reg op SISA_INPUT0 src_regs ;;
      when (op_in op ld_offset_ops) (update_instr_reg_opnd op SISA_INPUT1 r_offset) ;;
      when (op_in op ld_offset_unpriv) (update_instr_reg_opnd op SISA_INPUT1 r_offset) ;;
      when (op_in op ld_offset_T1) (update_instr_reg_opnd op SISA_INPUT1 r_offset) ;;
      when (op_in op ld_offset_T2) (update_instr_reg_opnd op SISA_INPUT1 r_offset)
  | LDM_OP =>
      revise_reg op SISA_INPUT0 src_regs ;;
      match src_regs with
      | R_0_3 => on_raw (λ r, clear_bits r 0 3)
      | R_4_7 => on_raw (λ r, clear_bits r 4 7)
      | R_8_12 => when (op_in op ldm_long_list) (on_raw (λ r, clear_bits r 8 12))
      | R_LR => when (op_in op ldm_long_list) (on_raw (λ r, clear_bits r 14 14))
      | _ => mret tt
      end
  | STM_OP => revise_reg op SISA_INPUT0 src_regs
  | ST_OP | STREX_OP =>
      (if (op =? SISA_OP_STREXD_T1) || (op =? SISA_OP_STRD_imm_T1)
       then revise_reg op SISA_INPUT2 src_regs
       else revise_reg op SISA_INPUT1 src_regs) ;;
      when (op_in op st_offset_ops) (update_instr_reg_opnd op SISA_INPUT2 r_offset) ;;
      when (op_in op st_offset_unpriv) (update_instr_reg_opnd op SISA_INPUT2 r_offset) ;;
      when (op_in op st_offset_T1) (update_instr_reg_opnd op SISA_INPUT2 r_offset) ;;
      when (op_in op st_offset_T2) (update_instr_reg_opnd op SISA_INPUT2 r_offset)
  | _ => mret tt
  end.

Definition is_mem_kind (k : sisa_opkind_t) : bool :=
  match k with LD_OP | LDREX_OP | LDM_OP | ST_OP | STREX_OP | STM_OP => true | _ => false end.

Definition inputs : list nat := [SISA_INPUT0; SISA_INPUT1; SISA_INPUT2; SISA_INPUT3].
Definition outputs : list nat := [SISA_OUTPUT0; SISA_OUTPUT1].

(** The register operands: what [preprocess_instr] does with [src_regs] and
    [dst_regs]. *)
Definition set_src_regs (op : Z) (src_regs : arm_regs_t) : rit unit :=
  when (negb (regs_eqb src_regs R_DEFAULT))
    (if is_mem_kind (instr_desc op).(op_kind) then set_mem_src_reg op src_regs
     else forM inputs (λ idx, revise_reg op idx src_regs)).

Definition set_dst_regs (op : Z) (dst_regs : arm_regs_t) : rit unit :=
  when (negb (regs_eqb dst_regs R_DEFAULT))
    (forM outputs (λ idx, revise_reg op idx dst_regs) ;;
     when (regs_eqb dst_regs R_8_12)
       (when (op_in op [SISA_OP_LDRD_reg; SISA_OP_LDRD_imm; SISA_OP_LDRD_lit; SISA_OP_LDREXD])
          (raw_set_instr 14 14 0))).

(** The initial value of a shift register, and the shift amount. *)
Definition set_shift_reg_val (o : gen_option_t) (op : Z) : rit unit :=
  when o.(is_shift_reg_init)
    (forM inputs (λ idx,
      let opnd := opnd_of op idx in
      when (opnd_type_eqb opnd.(type) SISA_OPND_TYPE_SHIFT_REG)
        (raw ← get_raw_instr;
         let reg := get_regnum raw opnd in
         assertM (reg <? 16) BufOverflow ;;
         modify (λ s, st_reg_init_vals (<[Z.to_nat reg := o.(shift_reg_val)]> s.(reg_init_vals)) s)))).

Definition set_shift_imm_val (o : gen_option_t) (op : Z) : rit unit :=
  when o.(is_shift_imm_init)
    (forM inputs (λ idx,
      let opnd := opnd_of op idx in
      when (opnd_type_eqb opnd.(type) SISA_OPND_TYPE_SHIFT_IMM
            && negb (is_fixed_oprand op opnd.(start_bit) opnd.(end_bit)))
        (raw_set_instr opnd.(start_bit) opnd.(end_bit) o.(shift_imm_val)))).

(** Biased immediates: the call in [preprocess_instr] is commented out. *)
Definition armexpand_imm : list Z := [0; 0x4ff].
Definition set_bias_imm (op : Z) (opnd : sisa_opnd_t) (vals : list Z) : rit unit :=
  when (negb (is_fixed_oprand op opnd.(start_bit) opnd.(end_bit)))
    (rand_val ← rand;
     raw_set_instr opnd.(start_bit) opnd.(end_bit)
       (nth (Z.to_nat (rand_val mod Z.of_nat (length vals))) vals 0)).

Definition set_bias_imm_oprands (o : gen_option_t) (op : Z) : rit unit :=
  when o.(bias_oprand_value)
    (forM inputs (λ idx,
      let opnd := opnd_of op idx in
      match opnd.(type) with
      | SISA_OPND_TYPE_IMM_ARM_EXP => set_bias_imm op opnd armexpand_imm
      | SISA_OPND_TYPE_SHIFT_IMM => set_bias_imm op opnd shift_imm
      | _ => mret tt
      end)).

Definition preprocess_instr (o : gen_option_t) (op : Z) : rit unit :=
  modify (λ s, st_reg_init_vals (replicate 16 0) (st_is_reg_init (replicate 16 false) s)) ;;
  fix_unpredictable_bit op ;;
  set_src_regs op o.(src_regs) ;;
  set_dst_regs op o.(dst_regs) ;;
  set_shift_reg_val o op ;;
  set_shift_imm_val o op.
End encode.

(** ** 2. What the stages may change *)

(** The two spellings of the fixed bits agree. *)
Lemma run_act_widen a raw : is_u32 raw → act_wf a = true → run_act raw (widen a) = run_act raw a.
Proof.
  intros Hu Hwf. destruct a as [b|b| |]; [| |done..]; cbn [run_act widen act_wf] in *; field_facts.
  - apply u32_ext; [auto with rit..|]. intros k Hk.
    rewrite testbit_set_bits, testbit_set_bit by lia. f_equal.
    destruct (Z.leb_spec b k), (Z.leb_spec k b), (Z.eqb_spec k b); lia || done.
  - apply u32_ext; [auto with rit..|]. intros k Hk.
    rewrite testbit_clear_bits, testbit_clear_bit by lia. f_equal.
    destruct (Z.leb_spec b k), (Z.leb_spec k b), (Z.eqb_spec k b); lia || done.
Qed.

Lemma run_acts_widen acts raw :
  is_u32 raw → forallb act_wf acts = true →
  foldl run_act raw (widen <$> acts) = foldl run_act raw acts.
Proof.
  revert raw. induction acts as [|a acts IH]; intros raw Hu Hwf; [done|].
  cbn [forallb] in Hwf. apply andb_true_iff in Hwf as [Ha Hwf].
  change (widen <$> a :: acts) with (widen a :: (widen <$> acts)). cbn [foldl].
  rewrite run_act_widen by done. apply IH; [by apply is_u32_run_act|done].
Qed.

Lemma fix_unpredictable_bit_same op s :
  0 ≤ op < SISA_OP_MAX → is_u32 s.(raw_instr) →
  fix_unpredictable_bit op s = EncodeBits.fix_unpredictable_bit op s.
Proof.
  intros Hop Hu. pose proof (fix_ok_table op Hop) as [Hwf _]%andb_true_iff.
  unfold fix_unpredictable_bit, EncodeBits.fix_unpredictable_bit, on_raw, modify.
  by rewrite run_acts_widen.
Qed.

(** [edits ok m]: [m] draws random numbers, changes bits of the raw word that
    [ok] allows, and does nothing else. *)
Definition edits (ok : Z → bool) (m : rit unit) : Prop :=
  ∀ s, is_u32 s.(raw_instr) →
    wp m (λ _ s', ∃ p r, s' = st_raw_instr r (st_rand_pos p s) ∧ is_u32 r
            ∧ ∀ k, 0 ≤ k → ok k = false → Z.testbit r k = Z.testbit s.(raw_instr) k) s.

Definition free_field (ok : Z → bool) (l h : Z) : Prop :=
  0 ≤ l ≤ h ∧ h < 31 ∧ ∀ k, l ≤ k ≤ h → ok k = true.

Section edits.
Context `{Env : !RitEnv}.
Context (ok : Z → bool).
#[local] Abbreviation edits := (edits ok).

Lemma edits_ret : edits (mret tt).
Proof. intros s Hu. apply wp_ret. exists s.(rand_pos), s.(raw_instr). by destruct s. Qed.

Lemma edits_seq m1 m2 : edits m1 → edits m2 → edits (m1 ;; m2).
Proof.
  intros H1 H2 s Hu. apply wp_bind. eapply wp_mono; [by apply H1|].
  intros [] s1 (p1 & r1 & -> & Hr1 & Hk1). eapply wp_mono; [by apply H2|].
  intros [] s2 (p2 & r2 & -> & Hr2 & Hk2). exists p2, r2. split; [done|]. split; [done|].
  intros k Hk Hn. by rewrite Hk2, <- Hk1.
Qed.

Lemma edits_when b m : (b = true → edits m) → edits (when b m).
Proof. destruct b; [auto|intros _; apply edits_ret]. Qed.

Lemma edits_if (b : bool) m1 m2 : edits m1 → edits m2 → edits (if b then m1 else m2).
Proof. by destruct b. Qed.

Lemma edits_forM {A} (l : list A) f : (∀ x, x ∈ l → edits (f x)) → edits (forM l f).
Proof.
  induction l as [|x l IH]; intros H; cbn [forM]; [apply edits_ret|].
  apply edits_seq; [apply H; by left|]. apply IH. intros y Hy. apply H. by right.
Qed.

Lemma edits_rand k : (∀ r, 0 ≤ r < 2 ^ 31 → edits (k r)) → edits (r ← rand; k r).
Proof.
  intros Hk s Hu. apply wp_bind, (wp_intro _ _ _ _ _ eq_refl).
  eapply wp_mono; [apply Hk; [apply rand_at_range|done]|].
  intros [] s' (p & r & -> & Hr & Hb). by exists p, r.
Qed.

Lemma edits_on_raw f :
  (∀ r, is_u32 r → is_u32 (f r) ∧ ∀ k, 0 ≤ k → ok k = false → Z.testbit (f r) k = Z.testbit r k) →
  edits (on_raw f).
Proof.
  intros Hf s Hu. apply wp_modify. destruct (Hf _ Hu) as [Hu' Hk].
  exists s.(rand_pos), (f s.(raw_instr)). by destruct s.
Qed.

Lemma edits_set_instr l h v : free_field ok l h → edits (raw_set_instr l h v).
Proof.
  intros (Hl & Hh & Hok) s Hu. apply wp_raw_set_instr; [lia|].
  exists s.(rand_pos), (set_instr_val s.(raw_instr) l h v). split; [by destruct s|].
  split; [auto with rit|]. intros k Hk Hn. rewrite testbit_set_instr_val by (lia || done).
  destruct (Z.leb_spec l k), (Z.leb_spec k h); try done. by rewrite Hok in Hn by lia.
Qed.

Lemma edits_clear_bits l h : free_field ok l h → edits (on_raw (λ r, clear_bits r l h)).
Proof.
  intros (Hl & Hh & Hok). apply edits_on_raw. intros r Hr. split; [auto with rit|].
  intros k Hk Hn. destruct (Z.lt_ge_cases k 32); [|by rewrite !u32_testbit_high by auto with rit].
  rewrite testbit_clear_bits by lia.
  destruct (Z.leb_spec l k), (Z.leb_spec k h); rewrite ?andb_true_r; try done.
  by rewrite Hok in Hn by lia.
Qed.

(** A register of the requested class. *)
Definition in_class (reg : arm_regs_t) (r : Z) : Prop :=
  match reg with
  | R_DEFAULT => 0 ≤ r ≤ 15
  | R_0_3 => 0 ≤ r ≤ 3
  | R_4_7 => 4 ≤ r ≤ 7
  | R_8_12 => 8 ≤ r ≤ 12
  | R_SP => r = 13
  | R_LR => r = 14
  | R_PC => r = 15
  end.

Lemma in_class_range reg r : in_class reg r → 0 ≤ r < 16.
Proof. destruct reg; cbn; lia. Qed.

(** The bits that an update of operand [o] with register [r] writes. *)
Definition opnd_free (op : Z) (o : sisa_opnd_t) (r : Z) : Prop :=
  match o.(type) with
  | SISA_OPND_TYPE_GPR
  | SISA_OPND_TYPE_GPR_RW
  | SISA_OPND_TYPE_GPRSET
  | SISA_OPND_TYPE_SHIFT_REG
  | SISA_OPND_TYPE_ROTATE_REG => free_field ok o.(start_bit) o.(end_bit)
  | SISA_OPND_TYPE_GPRLIST =>
      is_fixed_oprand op (list_bit o r) (list_bit o r) = false → free_field ok (list_bit o r) (list_bit o r)
  | SISA_OPND_TYPE_GPR_MERGE => free_field ok o.(start_bit) o.(end_bit) ∧ free_field ok o.(bit1) o.(bit1)
  | SISA_OPND_TYPE_GPRLIST_T =>
      let b := if r =? o.(bit2) then o.(bit1) else list_bit o r in free_field ok b b
  | _ => True
  end.

Lemma edits_update op pos reg :
  (∀ r, in_class reg r → opnd_free op (opnd_of op pos) r) → edits (update_instr_reg_opnd op pos reg).
Proof.
  intros Hr. unfold update_instr_reg_opnd. cbv zeta. apply edits_rand. intros r Hr31.
  match goal with |- edits (_ ≫= ?f) => set (k := f) end.
  assert (∀ v, in_class reg v → edits (k v)) as Hk.
  { intros v Hv. specialize (Hr v Hv). unfold k, opnd_free in *. clear k.
    destruct (type (opnd_of op pos)); try apply edits_ret; try by apply edits_set_instr.
    - apply edits_when. intros Hf%negb_true_iff. by apply edits_set_instr, Hr.
    - destruct Hr. apply edits_seq; by apply edits_set_instr. }
  pose proof (Z.mod_pos_bound r 16 ltac:(lia)).
  pose proof (Z.mod_pos_bound (r mod 16) 4 ltac:(lia)).
  clearbody k. destruct reg; cbn [mbind] in *; unfold M_bind; cbn [mret M_ret]; try (apply Hk; cbn; lia).
  change (edits (r0 ← rand; k (r0 mod 5 + 8))).
  apply edits_rand. intros r2 _. apply Hk. cbn. pose proof (Z.mod_pos_bound r2 5 ltac:(lia)). lia.
Qed.
End edits.

(** ** 3. The stages *)

Section stages.
Context `{Env : !RitEnv}.
Context (ok : Z → bool) (op : Z).
Context (Hop : 0 ≤ op < SISA_OP_MAX).
Context (Hfree : ∀ l h, writable op l h = true → free_field ok l h).

(** The bit of a Thumb register list that register [r] selects may be set. *)
Definition list_t_bit (o : sisa_opnd_t) (r : Z) : Z := if r =? o.(bit2) then o.(bit1) else list_bit o r.
Definition list_t_free (idxs : list nat) (reg : arm_regs_t) : Prop :=
  ∀ pos r, pos ∈ idxs → in_class reg r → (opnd_of op pos).(type) = SISA_OPND_TYPE_GPRLIST_T →
    free_field ok (list_t_bit (opnd_of op pos) r) (list_t_bit (opnd_of op pos) r).

Lemma list_bit_range o r : o.(start_bit) ≤ o.(end_bit) → o.(start_bit) ≤ list_bit o r ≤ o.(end_bit).
Proof.
  intros Ho. unfold list_bit. pose proof (Z.mod_pos_bound r (end_bit o - start_bit o + 1) ltac:(lia)). lia.
Qed.

Lemma edits_revise idxs pos reg :
  list_t_free idxs reg → pos ∈ idxs → edits ok (revise_reg op pos reg).
Proof using Hop Hfree.
  intros Ht Hp. apply edits_when. intros Hr. apply edits_update. intros r Hc.
  pose proof (opnd_wf_table op pos Hop) as Hwf. specialize (Ht pos r Hp Hc).
  unfold opnd_free, is_opnd_revisable_reg in *. field_facts.
  assert (∀ l h, 0 ≤ l ≤ h → h < field_top op → is_fixed_oprand op l h = false → free_field ok l h) as Hw.
  { intros l h ???. by apply Hfree, writable_spec. }
  pose proof (list_bit_range (opnd_of op pos) r ltac:(lia)).
  destruct (type (opnd_of op pos)); try done; try apply negb_true_iff in Hr; try (apply Hw; [lia..|done]).
  - intros Hb. apply Hw; [lia..|done].
  - by apply Ht.
  - apply andb_true_iff in Hr as [Hr1%negb_true_iff Hr2%negb_true_iff]. split; (apply Hw; [lia..|done]).
Qed.

(** The offset registers replaced without a test are plain and free. *)
Definition offset_ok (pos : nat) (op : Z) : bool :=
  opnd_type_eqb (opnd_of op pos).(type) SISA_OPND_TYPE_GPR
  && writable op (opnd_of op pos).(start_bit) (opnd_of op pos).(end_bit).

Lemma edits_offset pos l reg :
  forallb (offset_ok pos) l = true →
  edits ok (when (op_in op l) (update_instr_reg_opnd op pos reg)).
Proof using Hfree.
  intros Hl. apply edits_when. intros Hin. apply edits_update. intros r _.
  pose proof (op_in_check (offset_ok pos) op l Hin Hl) as [Ht Hw]%andb_true_iff.
  unfold opnd_free. unfold opnd_type_eqb in Ht. rewrite bool_decide_eq_true in Ht. rewrite Ht. by apply Hfree.
Qed.

(** The parts of a register list that [set_mem_src_reg] clears. *)
Definition ldm_ok (op : Z) : bool :=
  negb (opkind_eqb (instr_desc op).(op_kind) LDM_OP) || writable op 0 3 && writable op 4 7.

Lemma edits_ldm l h : writable op l h = true → edits ok (on_raw (λ r, clear_bits r l h)).
Proof using Hfree. intros Hw. by apply edits_clear_bits, Hfree. Qed.

Lemma not_default reg : negb (regs_eqb reg R_DEFAULT) = true → reg ≠ R_DEFAULT.
Proof. by intros H ->. Qed.

Lemma edits_set_src_regs src_regs :
  (src_regs ≠ R_DEFAULT → list_t_free inputs src_regs) → edits ok (set_src_regs op src_regs).
Proof using Hop Hfree.
  intros Ht. apply edits_when. intros Hd. specialize (Ht (not_default _ Hd)).
  assert (∀ pos, pos ∈ inputs → edits ok (revise_reg op pos src_regs)) as Hrev
    by (intros; by apply (edits_revise inputs)).
  destruct (is_mem_kind _); [|by apply edits_forM].
  unfold set_mem_src_reg. cbv zeta.
  pose proof (table_check ldm_ok ltac:(vm_compute; reflexivity) op Hop) as Hldm. unfold ldm_ok, opkind_eqb in Hldm.
  assert (forallb (λ op, writable op 8 12 && writable op 14 14) ldm_long_list = true) as Hlong
    by (vm_compute; reflexivity).
  destruct (op_kind (instr_desc op)); try apply edits_ret;
    repeat (apply edits_seq; [first [apply Hrev; repeat constructor
      |apply edits_if; apply Hrev; repeat constructor|apply edits_offset; vm_compute; reflexivity]|]);
    try (apply edits_offset; vm_compute; reflexivity); try (apply Hrev; repeat constructor).
  cbn in Hldm. apply andb_true_iff in Hldm as [H1 H2].
  destruct src_regs; try apply edits_ret; try (by apply edits_ldm);
    apply edits_when; intros Hin; pose proof (op_in_check _ op _ Hin Hlong) as [??]%andb_true_iff;
    by apply edits_ldm.
Qed.

Lemma edits_set_dst_regs dst_regs :
  (dst_regs ≠ R_DEFAULT → list_t_free outputs dst_regs) → edits ok (set_dst_regs op dst_regs).
Proof using Hop Hfree.
  intros Ht. apply edits_when. intros Hd. specialize (Ht (not_default _ Hd)). apply edits_seq.
  - apply edits_forM. intros pos Hp. by apply (edits_revise outputs).
  - apply edits_when. intros _. apply edits_when. intros Hin. apply edits_set_instr, Hfree.
    apply (op_in_check (λ op, writable op 14 14) op _ Hin). vm_compute. reflexivity.
Qed.

Lemma edits_set_shift_imm_val o : edits ok (set_shift_imm_val o op).
Proof using Hop Hfree.
  apply edits_when. intros _. apply edits_forM. intros pos _. apply edits_when.
  intros [_ Hf%negb_true_iff]%andb_true_iff. apply edits_set_instr, Hfree, writable_spec.
  pose proof (opnd_wf_table op pos Hop) as Hwf. field_facts. auto with lia.
Qed.

(** Biasing the immediates would be as harmless. *)
Lemma edits_set_bias_imm_oprands o : edits ok (set_bias_imm_oprands o op).
Proof using Hop Hfree.
  assert (∀ pos vals, edits ok (set_bias_imm op (opnd_of op pos) vals)) as H.
  { intros pos vals. apply edits_when. intros Hf%negb_true_iff. apply edits_rand. intros r _.
    apply edits_set_instr, Hfree, writable_spec.
    pose proof (opnd_wf_table op pos Hop) as Hwf. field_facts. auto with lia. }
  apply edits_when. intros _. apply edits_forM. intros pos _. cbv zeta.
  destruct (type (opnd_of op pos)); first [apply H|apply edits_ret].
Qed.
End stages.

(** *** The whole of [preprocess_instr] *)

(** Setting the bit of sp in the register list of these two opcodes sets a bit
    of the opcode: their list has no sp. *)
Definition sp_in_list (op : Z) (dst_regs : arm_regs_t) : bool :=
  regs_eqb dst_regs R_SP && op_in op [SISA_OP_POP_T2; SISA_OP_LDM_T2].

Definition list_t_writable (op : Z) (pos : nat) (r : Z) : bool :=
  writable op (list_t_bit (opnd_of op pos) r) (list_t_bit (opnd_of op pos) r).
Definition list_t_ok (skip : Z → bool) (op : Z) (pos : nat) : bool :=
  if opnd_type_eqb (opnd_of op pos).(type) SISA_OPND_TYPE_GPRLIST_T
  then forallb (λ r, skip r || list_t_writable op pos r) (seqZ 0 16) else true.
Definition no_sp (op r : Z) : bool := (r =? 13) && op_in op [SISA_OP_POP_T2; SISA_OP_LDM_T2].

Lemma list_t_table op :
  0 ≤ op < SISA_OP_MAX →
  forallb (list_t_ok (λ _, false) op) inputs = true ∧ forallb (list_t_ok (no_sp op) op) outputs = true.
Proof.
  intros Hop. apply andb_true_iff. revert op Hop.
  apply (table_check (λ op, forallb (list_t_ok (λ _, false) op) inputs
                            && forallb (list_t_ok (no_sp op) op) outputs)).
  vm_compute. reflexivity.
Qed.

(** A table fact at a register of the class. *)
Lemma list_t_at op idxs reg skip :
  forallb (list_t_ok skip op) idxs = true →
  ∀ pos r, pos ∈ idxs → in_class reg r → (opnd_of op pos).(type) = SISA_OPND_TYPE_GPRLIST_T →
    skip r = true ∨ list_t_writable op pos r = true.
Proof.
  intros H pos r Hp Hc%in_class_range Ht. rewrite forallb_forall in H.
  specialize (H pos ltac:(by apply list_elem_of_In)). unfold list_t_ok in H. rewrite Ht in H.
  unfold opnd_type_eqb in H. rewrite bool_decide_eq_true_2, forallb_forall in H by done. apply orb_true_iff, H, list_elem_of_In, elem_of_seqZ. lia.
Qed.

(** What may not be edited: nothing, or the bits of the opcode and, in an ARM
    word, the condition. *)
Definition any_bit (k : Z) : bool := true.
Definition loose_bit (op k : Z) : bool := negb (kept_bit op k).

Lemma any_free op l h : writable op l h = true → free_field any_bit l h.
Proof. intros (? & ? & _)%writable_spec. pose proof (field_top_range op). split; [done|]. by split; [lia|]. Qed.

Lemma loose_free op l h : writable op l h = true → free_field (loose_bit op) l h.
Proof.
  intros Hw. destruct (any_free op l h Hw) as (? & ? & _). split; [done|]. split; [done|].
  intros k Hk. apply negb_true_iff, not_true_iff_false. intros Hb. by apply (writable_free op l h k Hw Hb).
Qed.

Section preprocess.
Context `{Env : !RitEnv}.

(** The edits of the stages after the fixed bits, under each of the two. *)
Lemma edits_operands_any o op :
  0 ≤ op < SISA_OP_MAX →
  edits any_bit (set_src_regs op o.(src_regs)) ∧ edits any_bit (set_dst_regs op o.(dst_regs))
  ∧ edits any_bit (set_shift_imm_val o op).
Proof.
  intros Hop. assert (∀ idxs reg, list_t_free any_bit op idxs reg) as Hl.
  { intros idxs reg pos r _ _ _. pose proof (opnd_wf_table op pos Hop) as Hwf. field_facts.
    pose proof (list_bit_range (opnd_of op pos) r ltac:(lia)). pose proof (field_top_range op).
    unfold list_t_bit. destruct (_ =? _); (split; [lia|]); (split; [lia|done]). }
  split_and!.
  - apply edits_set_src_regs; [done|apply any_free|auto].
  - apply edits_set_dst_regs; [done|apply any_free|auto].
  - apply edits_set_shift_imm_val; [done|apply any_free].
Qed.

Lemma edits_operands_loose o op :
  0 ≤ op < SISA_OP_MAX → sp_in_list op o.(dst_regs) = false →
  edits (loose_bit op) (set_src_regs op o.(src_regs)) ∧ edits (loose_bit op) (set_dst_regs op o.(dst_regs))
  ∧ edits (loose_bit op) (set_shift_imm_val o op).
Proof.
  intros Hop Hsp. destruct (list_t_table op Hop) as [Hin Hout]. split_and!.
  - apply edits_set_src_regs; [done|apply loose_free|]. intros _ pos r Hp Hc Ht.
    apply loose_free. by destruct (list_t_at op inputs _ _ Hin pos r Hp Hc Ht).
  - apply edits_set_dst_regs; [done|apply loose_free|]. intros Hd pos r Hp Hc Ht.
    destruct (list_t_at op outputs _ _ Hout pos r Hp Hc Ht) as [[E%Z.eqb_eq Hl]%andb_true_iff|Hw];
      [|by apply loose_free].
    unfold sp_in_list in Hsp. rewrite Hl, andb_true_r in Hsp. subst r.
    destruct (dst_regs o); cbn in Hc; lia || done.
  - apply edits_set_shift_imm_val; [done|apply loose_free].
Qed.

(** The bits that the operands of a call may change. *)
Definition editable (o : gen_option_t) (op : Z) : Z → bool :=
  if sp_in_list op o.(dst_regs) then any_bit else loose_bit op.

Lemma edits_operands o op :
  0 ≤ op < SISA_OP_MAX →
  edits (editable o op) (set_src_regs op o.(src_regs)) ∧ edits (editable o op) (set_dst_regs op o.(dst_regs))
  ∧ edits (editable o op) (set_shift_imm_val o op).
Proof.
  intros Hop. unfold editable. destruct (sp_in_list _ _) eqn:Hsp;
    [by apply edits_operands_any|by apply edits_operands_loose].
Qed.

(** What [preprocess_instr] leaves. *)
Definition pre_post (o : gen_option_t) (op : Z) (s s' : rit_state) : Prop :=
  ∃ p r vals,
    s' = st_reg_init_vals vals (st_is_reg_init (replicate 16 false) (st_raw_instr r (st_rand_pos p s)))
    ∧ is_u32 r
    ∧ (sp_in_list op o.(dst_regs) = false → low_bits_of op s.(raw_instr) → word_kept op s.(raw_instr) r)
    ∧ (sp_in_list op o.(dst_regs) = true → Z.testbit r 28 = true).

(** ... in which case bit 28, a zero of the opcode, is set. *)
Lemma wp_set_dst_sp op s :
  op_in op [SISA_OP_POP_T2; SISA_OP_LDM_T2] = true → is_u32 s.(raw_instr) →
  wp (set_dst_regs op R_SP) (λ _ s', Z.testbit s'.(raw_instr) 28 = true) s.
Proof.
  intros Ho Hu. assert (op = SISA_OP_POP_T2 ∨ op = SISA_OP_LDM_T2) as Ho'.
  { cbn in Ho. destruct (Z.eqb_spec op SISA_OP_POP_T2); [by left|].
    destruct (Z.eqb_spec op SISA_OP_LDM_T2); [by right|done]. }
  assert (wp (raw_set_instr 28 28 1) (λ _ s', Z.testbit s'.(raw_instr) 28 = true)
            (st_rand_pos (S s.(rand_pos)) s)) as H.
  { apply wp_raw_set_instr; [lia|]. cbn [raw_instr st_raw_instr]. by rewrite testbit_set_instr_val by (lia || done). }
  unfold set_dst_regs, when. cbn [regs_eqb]. destruct Ho' as [-> | ->]; exact H.
Qed.

Lemma wp_set_shift_reg_val o op s :
  0 ≤ op < SISA_OP_MAX → is_u32 s.(raw_instr) →
  wp (set_shift_reg_val o op) (λ _ s', ∃ vals, s' = st_reg_init_vals vals s) s.
Proof.
  intros Hop Hu. assert (∃ vals, s = st_reg_init_vals vals s) as H0 by (exists s.(reg_init_vals); by destruct s).
  unfold set_shift_reg_val, when. destruct (is_shift_reg_init o); [|by apply wp_ret].
  apply (wp_forM _ _ (λ s', ∃ vals, s' = st_reg_init_vals vals s)); [|done].
  intros pos s1 _ [vals ->]. unfold opnd_type_eqb. case_bool_decide as Ht; [|by apply wp_ret; exists vals].
  apply wp_bind, wp_gets, wp_bind, wp_assert; [|by apply wp_modify; eauto].
  apply Z.ltb_lt. apply (regnum_bound s.(raw_instr) op); [done|by apply opnd_wf_table|by apply narrow_table|by right].
Qed.

Lemma wp_preprocess_instr o op s :
  0 ≤ op < SISA_OP_MAX → is_u32 s.(raw_instr) →
  wp (preprocess_instr o op) (λ _ s', pre_post o op s s') s.
Proof.
  intros Hop Hu. unfold preprocess_instr, pre_post. apply wp_bind, wp_modify, wp_bind.
  set (s0 := st_reg_init_vals _ _).
  refine (wp_intro _ _ _ _ _ (fix_unpredictable_bit_same op s0 Hop Hu) _).
  set (raw1 := foldl run_act _ _).
  assert (is_u32 raw1) as Hu1 by by apply is_u32_run_acts.
  destruct (edits_operands o op Hop) as (Hs & Hd & Hi).
  apply wp_bind. eapply wp_mono; [by apply Hs|]. intros [] s1 (p1 & r1 & -> & Hr1 & Hk1).
  assert (∀ a s2, set_dst_regs op o.(dst_regs) (st_raw_instr r1 (st_rand_pos p1 (st_raw_instr raw1 s0))) = Ok a s2 →
    sp_in_list op o.(dst_regs) = true → Z.testbit s2.(raw_instr) 28 = true) as Hsp2.
  { intros a s2 E [Hd' Hl]%andb_true_iff. unfold regs_eqb in Hd'. rewrite bool_decide_eq_true in Hd'.
    rewrite Hd' in E. exact (wp_at _ _ _ _ _ (wp_set_dst_sp op (st_raw_instr r1 _) Hl Hr1) E). }
  apply wp_bind. eapply wp_mono; [refine (wp_with _ _ _ _ (Hd _ _) Hsp2); done|].
  intros [] s2 [(p2 & r2 & -> & Hr2 & Hk2) Hb2].
  apply wp_bind. eapply wp_mono; [by apply wp_set_shift_reg_val|]. intros [] s3 (vals & ->).
  pose proof (edits_set_shift_imm_val (loose_bit op) op Hop (loose_free op) o) as Hil.
  eapply wp_mono; [refine (wp_with _ _ _ _ (Hi _ _) (λ a s4 E, wp_at _ _ _ _ _ (Hil _ _) E)); done|].
  intros [] s4 [(p4 & r4 & -> & Hr4 & Hk4) (p4' & r4' & E4 & _ & Hk4')]. cbn in *.
  exists p4, r4, vals. split; [done|]. split; [done|]. split; cycle 1.
  { intros Hsp. apply (f_equal raw_instr) in E4. cbn in E4. subst r4'.
    change (Z.testbit r4 28 = true). rewrite Hk4'; [auto|done|].
    apply andb_true_iff in Hsp as [_ Hl].
    apply (op_in_check (λ op, negb (loose_bit op 28)) op _) in Hl; [by apply negb_true_iff|].
    vm_compute. reflexivity. }
  intros Hsp Hlow.
  pose proof (word_kept_fix op s.(raw_instr) Hop s.(raw_instr) Hlow (word_kept_refl _ _ Hu)) as Hw1.
  split; [done|]. intros k Hk Hb. unfold editable in *. rewrite Hsp in *.
  assert (loose_bit op k = false) as Hn by (unfold loose_bit; by rewrite Hb).
  rewrite Hk4, Hk2, Hk1 by done. by apply Hw1.
Qed.
End preprocess.
