(* ===== verification/V1Regs.v ===== *)
(** * The requested registers reach the encoding in the earlier library

    [preprocess_instr] replaces the register operands by registers of the
    classes that the caller asks for. *)
From S2P Require Import Prelude RitCommon InstrTable State InstrUtil InstrBuf Keeps EncodeBits ValidBias EncodeSpec RandomInstrGen Attempt Output V1State V1Encode.
#[local] Open Scope c_scope.

(** ** 1. Opcodes with separate registers *)

Definition revisable (op : Z) (i : nat) : bool := is_opnd_revisable_reg (opnd_of op i) op.

(** Every operand that is replaced is a four-bit register field, and no two of
    them overlap. *)
Definition separate_regs (op : Z) : bool :=
  forallb (λ i, negb (revisable op i) || gpr_field op i) (inputs ++ outputs)
  && reg_fields op (List.filter (revisable op) (inputs ++ outputs)).

Section regs.
Context `{Env : !RitEnv}.
Context (op : Z).

(** The field of operand [i] is replaced by a register of the class. *)
Lemma wp_update_gpr i reg s :
  gpr_field op i = true →
  wp (update_instr_reg_opnd op i reg) (λ _ s', ∃ p v, in_class reg v
    ∧ s' = st_raw_instr (set_instr_val s.(raw_instr) (field op i).1 (field op i).2 v) (st_rand_pos p s)) s.
Proof.
  intros Hg. pose proof (gpr_field_spec op i Hg) as (Hl & _). cbn in Hl.
  unfold update_instr_reg_opnd. cbv zeta.
  apply wp_bind, (wp_intro _ _ _ _ _ eq_refl). pose proof (rand_at_range s.(rand_seed) s.(rand_pos)) as Hr.
  set (r := rand_at _ _) in *. apply wp_bind.
  apply (wp_mono _ (λ v s1, in_class reg v ∧ ∃ p, s1 = st_rand_pos p s)).
  - pose proof (Z.mod_pos_bound r 16 ltac:(lia)). pose proof (Z.mod_pos_bound (r mod 16) 4 ltac:(lia)).
    destruct reg; try (apply wp_ret; split; [cbn; lia|by eexists]).
    apply wp_bind, (wp_intro _ _ _ _ _ eq_refl), wp_ret. split; [|by eexists]. cbn.
    match goal with |- context [?x mod 5] => pose proof (Z.mod_pos_bound x 5 ltac:(lia)) end. lia.
  - intros v s1 [Hv [p ->]]. unfold gpr_field in Hg.
    destruct (type (opnd_of op i)); try done;
      (apply wp_raw_set_instr; [lia|]); by exists p, v.
Qed.

(** What a loop over operands leaves. *)
Definition regs_post (reg : arm_regs_t) (idxs : list nat) (s s' : rit_state) : Prop :=
  ∃ p r, s' = st_raw_instr r (st_rand_pos p s) ∧ is_u32 r
    ∧ (∀ i, i ∈ idxs → revisable op i = true → in_class reg (regnum r op i))
    ∧ ∀ j, gpr_field op j = true →
        forallb (λ i, clear_of (field op i) (field op j)) (List.filter (revisable op) idxs) = true →
        regnum r op j = regnum s.(raw_instr) op j.

Lemma wp_revise_loop reg idxs s :
  forallb (λ i, negb (revisable op i) || gpr_field op i) idxs = true →
  reg_fields op (List.filter (revisable op) idxs) = true → is_u32 s.(raw_instr) →
  wp (forM idxs (λ i, revise_reg op i reg)) (λ _ s', regs_post reg idxs s s') s.
Proof.
  revert s. induction idxs as [|i idxs IH]; intros s Hp Hf Hu; cbn [forM].
  { apply wp_ret. exists s.(rand_pos), s.(raw_instr). split; [by destruct s|]. split; [done|].
    split; [|done]. intros i Hi. by apply elem_of_nil in Hi. }
  cbn [forallb] in Hp. apply andb_true_iff in Hp as [Hi Hp]. cbn [List.filter] in Hf.
  apply wp_bind. unfold revise_reg, when. fold (revisable op i).
  destruct (revisable op i) eqn:Hrev; cycle 1.
  - apply wp_ret. eapply wp_mono; [by apply IH|]. intros _ s' (p & r & -> & Hr & Hc & Ho).
    exists p, r. split; [done|]. split; [done|]. cbn [List.filter]. rewrite Hrev. split; [|done].
    intros j Hj Hjr. apply list_elem_of_In in Hj as [-> |Hj]; [congruence|by apply Hc; [apply list_elem_of_In|]].
  - cbn [negb orb] in Hi. cbn [reg_fields] in Hf.
    apply andb_true_iff in Hf as [[_ Hclear]%andb_true_iff Hf].
    eapply wp_mono; [by apply wp_update_gpr|]. intros _ s1 (p1 & v & Hv & ->).
    set (w1 := set_instr_val _ _ _ _).
    assert (is_u32 w1) as Hu1 by (unfold w1; auto with rit).
    eapply wp_mono; [by apply IH|]. intros _ s' (p & r & -> & Hr & Hc & Ho). cbn in Ho.
    exists p, r. split; [done|]. split; [done|]. cbn [List.filter forallb]. rewrite Hrev. split.
    + intros j Hj Hjr. apply list_elem_of_In in Hj as [<- |Hj]; [|by apply Hc; [apply list_elem_of_In|]].
      rewrite Ho; [|done|].
      * unfold w1. rewrite regnum_set_same; [done|done|done|by eapply in_class_range].
      * rewrite forallb_forall in Hclear |- *. intros j Hj. rewrite clear_of_sym. by apply Hclear.
    + intros j Hj Hjl. cbn [forallb] in Hjl. apply andb_true_iff in Hjl as [Hij Hjl].
      rewrite Ho by done. unfold w1. by apply regnum_set_other.
Qed.

(** The two loops do not disturb each other. *)
Lemma reg_fields_app l1 l2 :
  reg_fields op (l1 ++ l2) = true →
  reg_fields op l1 = true ∧ reg_fields op l2 = true
  ∧ ∀ i, i ∈ l1 → gpr_field op i = true ∧ forallb (λ j, clear_of (field op j) (field op i)) l2 = true.
Proof.
  induction l1 as [|i l1 IH]; cbn [app reg_fields]; intros H.
  { split; [done|]. split; [done|]. intros i Hi. by apply elem_of_nil in Hi. }
  apply andb_true_iff in H as [[Hg Hc]%andb_true_iff H].
  destruct (IH H) as (H1 & H2 & H3). rewrite forallb_app in Hc. apply andb_true_iff in Hc as [Hc1 Hc2].
  rewrite Hg, Hc1, H1. split; [done|]. split; [done|]. intros j Hj.
  apply list_elem_of_In in Hj as [<- |Hj]; [|by apply H3, list_elem_of_In]. split; [done|].
  rewrite forallb_forall in Hc2 |- *. intros j Hj. rewrite clear_of_sym. by apply Hc2.
Qed.

(** The doubleword loads are the only opcodes with an extra write. *)
Lemma wp_set_dst_regs reg s :
  is_mem_kind (instr_desc op).(op_kind) = false → reg ≠ R_DEFAULT →
  forallb (λ i, negb (revisable op i) || gpr_field op i) outputs = true →
  reg_fields op (List.filter (revisable op) outputs) = true → is_u32 s.(raw_instr) →
  wp (set_dst_regs op reg) (λ _ s', regs_post reg outputs s s') s.
Proof.
  intros Hm Hd Hp Hf Hu. unfold set_dst_regs, when at 1, regs_eqb at 1.
  rewrite bool_decide_eq_false_2 by done. cbn [negb]. apply wp_bind.
  eapply wp_mono; [by apply wp_revise_loop|]. intros [] s1 H1.
  assert (op_in op [SISA_OP_LDRD_reg; SISA_OP_LDRD_imm; SISA_OP_LDRD_lit; SISA_OP_LDREXD] = false) as ->.
  { apply not_true_iff_false. intros Hin.
    apply (op_in_check (λ op, is_mem_kind (instr_desc op).(op_kind)) op _) in Hin; [congruence|].
    vm_compute. reflexivity. }
  unfold when. destruct (regs_eqb reg R_8_12); by apply wp_ret.
Qed.

(** What the two classes promise of the word [w]. *)
Definition regs_honoured (o : gen_option_t) (w : Z) : Prop :=
  (o.(src_regs) ≠ R_DEFAULT → ∀ i, i ∈ inputs → revisable op i = true → in_class o.(src_regs) (regnum w op i))
  ∧ (o.(dst_regs) ≠ R_DEFAULT → ∀ i, i ∈ outputs → revisable op i = true → in_class o.(dst_regs) (regnum w op i)).

Lemma preprocess_registers o s :
  0 ≤ op < SISA_OP_MAX → separate_regs op = true → is_mem_kind (instr_desc op).(op_kind) = false →
  o.(is_shift_imm_init) = false → is_u32 s.(raw_instr) →
  wp (preprocess_instr o op) (λ _ s', regs_honoured o s'.(raw_instr)) s.
Proof.
  intros Hop [Hp Hf]%andb_true_iff Hm Hsh Hu. rewrite forallb_app in Hp. apply andb_true_iff in Hp as [Hpi Hpo].
  rewrite List.filter_app in Hf. destruct (reg_fields_app _ _ Hf) as (Hfi & Hfo & Hsep).
  unfold preprocess_instr. apply wp_bind, wp_modify, wp_bind.
  set (s0 := st_reg_init_vals _ _). refine (wp_intro _ _ _ _ _ (fix_unpredictable_bit_same op s0 Hop Hu) _).
  set (raw1 := foldl run_act _ _). assert (is_u32 raw1) as Hu1 by by apply is_u32_run_acts.
  set (s1 := st_raw_instr raw1 s0).
  (* the sources *)
  apply wp_bind, (wp_mono _ (λ _ s2, is_u32 s2.(raw_instr)
    ∧ (o.(src_regs) ≠ R_DEFAULT → ∀ i, i ∈ inputs → revisable op i = true → in_class o.(src_regs) (regnum s2.(raw_instr) op i)))).
  { unfold set_src_regs, when, regs_eqb. case_bool_decide; cbn [negb]; [by apply wp_ret|]. rewrite Hm.
    eapply wp_mono; [by apply wp_revise_loop|]. intros _ s2 (p & r & -> & Hr & Hc & _). done. }
  intros [] s2 [Hu2 Hc2].
  (* the destinations *)
  apply wp_bind, (wp_mono _ (λ _ s3, is_u32 s3.(raw_instr) ∧ regs_honoured o s3.(raw_instr))).
  { destruct (decide (o.(dst_regs) = R_DEFAULT)) as [Hd|Hd].
    { unfold set_dst_regs. rewrite Hd. apply wp_ret. split; [done|]. by split. }
    eapply wp_mono; [by apply wp_set_dst_regs|]. intros _ s3 (p & r & -> & Hr & Hc & Ho).
    split; [done|]. split; [|done]. intros Hs i Hi Hri. cbn [raw_instr st_raw_instr].
    destruct (Hsep i) as [Hg Hcl]; [by apply list_elem_of_In, filter_In; split; [apply list_elem_of_In|]|].
    rewrite (Ho i Hg Hcl). by apply Hc2. }
  intros [] s3 [Hu3 H3]. apply wp_bind. eapply wp_mono; [by apply wp_set_shift_reg_val|].
  intros [] s4 (vals & ->). unfold set_shift_imm_val. rewrite Hsh. by apply wp_ret.
Qed.

(** ** 2. Properties *)

(** C30. The requested register classes are encoded: for an opcode whose
    replaceable operands are separate register fields and that is no load or
    store (the data-processing, multiply, saturate, bit-field and move opcodes
    of all three instruction sets: 477 table entries), [preprocess_instr] ends
    for every word and random stream and leaves a register of the class
    [src_regs] in every replaceable source operand and one of the class
    [dst_regs] in every replaceable destination operand, where a class is asked
    for. *)
Theorem preprocess_instr_registers (o : gen_option_t) (s : rit_state) :
  0 ≤ op < SISA_OP_MAX → separate_regs op = true → is_mem_kind (instr_desc op).(op_kind) = false →
  o.(is_shift_imm_init) = false → is_u32 s.(raw_instr) →
  ∃ s', preprocess_instr o op s = Ok tt s' ∧ regs_honoured o s'.(raw_instr).
Proof.
  intros Hop Hs Hm Hsh Hu.
  destruct (wp_elim _ _ _ (preprocess_registers o s Hop Hs Hm Hsh Hu)) as ([] & s' & E & H). eauto.
Qed.
End regs.

Lemma preprocess_instr_registers_witness :
  let o := opt_src_regs R_8_12 (opt_dst_regs R_LR zero_options) in
  ∃ s', preprocess_instr (Env := lcg_env_1) o SISA_OP_ADD_rsh zero_state = Ok tt s'
    ∧ regs_honoured SISA_OP_ADD_rsh o s'.(raw_instr).
Proof.
  intros o. apply (preprocess_instr_registers (Env := lcg_env_1) SISA_OP_ADD_rsh o zero_state).
  - done.
  - vm_compute. reflexivity.
  - vm_compute. reflexivity.
  - reflexivity.
  - unfold is_u32. cbn. lia.
Defined.

(** It says something for hundreds of opcodes. *)
Lemma separate_regs_count :
  length (List.filter (λ op, separate_regs op && negb (is_mem_kind (instr_desc op).(op_kind))
    && bool_decide (is_Some (instr_desc op).(name)) && existsb (revisable op) (inputs ++ outputs))
    (seqZ 0 SISA_OP_MAX)) = 477%nat.
Proof. vm_compute. reflexivity. Qed.
