(* ===== verification/V1RandomInstrGen.v ===== *)
(** * Generation in the earlier library: rit/src/RandomInstrGen.c

    The choice of an opcode, the retry loop, one attempt and the output. *)
From S2P Require Import Prelude RitCommon InstrTable State InstrUtil InstrBuf GenARMMem GenARMInstr GenThumbInstr GenThumb32Instr EncodeBits RandomInstrGen V1State V1Encode.
#[local] Open Scope c_scope.

(** ** 1. Selecting instruction kinds *)

(** The [while] loop: [p_s] is what is left of the string, and [l] the flags. *)
Fixpoint opkind_loop (fuel : nat) (p_s : string) (is_set_opkind : bool) (l : list bool)
    : option (list bool) :=
  match fuel with
  | O => None
  | S fuel =>
      match p_s with
      | EmptyString => Some l
      | _ =>
          let at_comma := comma_at p_s in
          let len := default (String.length p_s) at_comma in
          let l := zip_with (λ nm b, if strncmp_eq p_s nm len then is_set_opkind else b) opkind_names l in
          match at_comma with
          | Some k => opkind_loop fuel (str_drop (S k) p_s) is_set_opkind l
          | None => Some l
          end
      end
  end.

Definition update_opkind_str (str_opkind : string) (is_set_opkind : bool) : rit unit :=
  l ← gets opkind_list;
  let l := if is_set_opkind then replicate opkind_num false else l in
  match opkind_loop (S (String.length str_opkind)) str_opkind is_set_opkind l with
  | Some l => modify (st_opkind_list l)
  | None => fail OutOfFuel
  end.

Section gen.
Context `{Env : !RitEnv}.

(** The opcodes of an instruction set: 32-bit Thumb opcodes belong to Thumb. *)
Definition op_range (isa0 : Z) : Z * Z :=
  if isa0 =? ISA_ARMv5 then (SISA_OP_NA, SISA_OP_ARM_MAX)
  else if isa0 =? ISA_ARMv7 then (SISA_OP_NA, SISA_OP_ARM_MAX)
  else if isa0 =? ISA_THUMB then (SISA_OP_ARM_MAX, SISA_OP_MAX)
  else (SISA_OP_NA, SISA_OP_MAX).

Definition get_random_op (isa0 : Z) : rit Z :=
  l ← gets opkind_list;
  let '(idx_min, idx_max) := op_range isa0 in
  let tmp_op := List.filter (op_enabled l) (seqZ idx_min (idx_max - idx_min)) in
  let op_cnt := Z.of_nat (length tmp_op) in
  if negb (op_cnt =? 0) then
    r ← rand;
    mret (nth (Z.to_nat (r mod op_cnt)) tmp_op SISA_OP_NA)
  else mret SISA_OP_NA.

(** ** 2. Output *)

Definition gen_oprand_init_instrs (isa0 : Z) : rit unit :=
  modify (st_init_instr_idx 0) ;;
  forM (rev (seqZ 0 15)) (λ reg_idx,
    init ← gets is_reg_init;
    vals ← gets reg_init_vals;
    let v := nth (Z.to_nat reg_idx) vals 0 in
    when (nth (Z.to_nat reg_idx) init false)
      (if (isa0 =? ISA_THUMB) && (7 <? reg_idx) then
         put_init_line ("[CODE] ldr r" +:+ fmt_d 0 +:+ ", =0x" +:+ fmt_x v) ;;
         put_init_line ("[CODE] mov r" +:+ fmt_d reg_idx +:+ ", r" +:+ fmt_d 0)
       else put_init_line ("[CODE] ldr r" +:+ fmt_d reg_idx +:+ ", =0x" +:+ fmt_x v))).

Definition output_instr (o : gen_option_t) (op instr : Z) (status : instr_status_t) : rit unit :=
  idx ← gets instr_idx;
  assertM ((0 <=? idx) && (idx <=? MAX_INSTR)) AssertFail ;;
  let head := "[INFO] " +:+ instr_status_name status +:+ " "
    +:+ default "(null)" (instr_desc op).(name) +:+ " " +:+ fmt_08x instr +:+ nl in
  assertM (Z.of_nat (String.length head) <? BUF_SIZE) BufOverflow ;;
  modify (st_print_buf head) ;;
  init ← gets is_oprand_init;
  when (o.(bias_oprand_value) && negb init)
    (set_bias_oprand_value op ;; gen_oprand_init_instrs o.(isa)) ;;
  n ← gets init_instr_idx;
  lines ← gets init_instr_buf;
  print_lines lines n ;;
  n ← gets instr_idx;
  lines ← gets instr_buf;
  print_lines lines n.

(** The other way to append a line, which nobody calls: it writes at the index
    of the instruction buffer. *)
Definition insert_init_instr (str_instr : string) : rit unit :=
  idx ← gets instr_idx;
  assertM (idx <? MAX_INSTR) BufOverflow ;;
  modify (λ s, st_init_instr_buf
    (<[Z.to_nat idx := String.substring 0 (Z.to_nat MAX_STR_INSTR_LEN) str_instr]> s.(init_instr_buf)) s) ;;
  modify (λ s, st_init_instr_idx (s.(init_instr_idx) + 1) s).

(** ** 3. One attempt *)

(** The two [switch] statements of [gen_instr]. *)
Definition arm_switch (op : Z) : rit instr_status_t :=
  if is_arm_uncategoried_op op then gen_uncategorized_instr op
  else match (instr_desc op).(op_kind) with
  | ST_OP => gen_st_instr op
  | LD_OP => gen_ld_instr op
  | LDREX_OP => gen_ldex_instr op
  | STREX_OP => gen_stex_instr op
  | STM_OP | LDM_OP | PUSH_OP | POP_OP => gen_multi_mem_instr op
  | MISC_OP => gen_misc_instr op
  | UMUL_OP | MUL32_OP | SMUL_OP | SMULD_OP => gen_mul_instr op
  | JMP_OP => gen_jmp_instr op
  | EMPTY_OP => gen_empty_instr op
  | NO_OP => gen_unsup_instr op
  | ALU_OP | LOG_OP | MOV_OP | CMP_OP | TEST_OP => gen_data_instr op
  | _ => mret UNSUPPORTED
  end.

Definition thumb_switch (op : Z) : rit instr_status_t :=
  match (instr_desc op).(op_kind) with
  | ST_OP | LD_OP => gen_thumb_mem_instr op
  | STM_OP | LDM_OP | PUSH_OP | POP_OP => gen_thumb_multi_mem_instr op
  | MISC_OP => gen_thumb_misc_instr op
  | MUL32_OP => gen_thumb_mul_instr op
  | JMP_OP => gen_thumb_jmp_instr op
  | EMPTY_OP => gen_thumb_empty_instr op
  | NO_OP => gen_thumb_unsup_instr op
  | ALU_OP | LOG_OP | MOV_OP | CMP_OP | TEST_OP => gen_thumb_data_instr op
  | EXT_OP => gen_thumb_ext_instr op
  | REVERSE_OP => gen_thumb_reverse_instr op
  | _ => mret UNSUPPORTED
  end.

(** [raw_instr |= 0xf0000000; raw_instr &= (0x0fffffff | (cond_val << 28));],
    for an opcode that leaves the condition open. *)
Definition set_cond (op cond_val : Z) : rit unit :=
  when (((instr_desc op).(match_msk) & 0xf0000000) =? 0)
    (on_raw (λ r, r .| 0xf0000000) ;;
     on_raw (λ r, r & (0x0fffffff .| (cond_val << 28)))).

(** The generator of the instruction set the opcode belongs to, the condition,
    and the encoding line. *)
Definition gen_by_set (op : Z) : lib instr_status_t :=
  if op <? SISA_OP_ARM_MAX then
    isa0 ← opt isa;
    status ← (if (isa0 =? ISA_ARMv5) && negb (is_op_armv5_instr op) then mret UNSUPPORTED
              else generator (arm_switch op));
    cond ← opt cond_val;
    shared (set_cond op cond) ;;
    shared (r ← get_raw_instr; put_instr_line ("[INST] .inst 0x" +:+ fmt_08x r)) ;;
    mret status
  else if op <? SISA_OP_THUMB_MAX then
    set_opt (opt_isa ISA_THUMB) ;;
    status ← generator (thumb_switch op);
    shared (r ← get_raw_instr; put_instr_line ("[INST] .inst.n 0x" +:+ fmt_04x (r & 0xffff))) ;;
    mret status
  else if op <? SISA_OP_THUMB_32_MAX then
    set_opt (opt_isa ISA_THUMB) ;;
    status ← generator (gen_thumb32_instr op);
    shared (r ← get_raw_instr; put_instr_line ("[INST] .inst.w 0x" +:+ fmt_08x r)) ;;
    mret status
  else mret INVALID.

Definition gen_instr (op : Z) : lib instr_status_t :=
  shared (modify (st_instr_idx 0)) ;;
  shared (modify (st_is_oprand_init false)) ;;
  o ← gets options;
  shared (preprocess_instr o op) ;;
  if opkind_eqb (instr_desc op).(op_kind) PSEUDO_OP then mret UNSUPPORTED else
  gen_by_set op.

(** ** 4. The loop *)

(** The word an attempt starts from. *)
Definition init_instr (o : gen_option_t) (op : Z) (is_instr_init : bool) : rit unit :=
  when (negb is_instr_init) (r ← rand; set_raw_instr r) ;;
  when ((o.(isa) =? ISA_ARMv5) || (o.(isa) =? ISA_ARMv7))
    (on_raw (λ r, r & 0x0fffffff) ;;
     when (o.(is_sbit_init) && negb (is_fixed_oprand op 20 20))
       (if negb (o.(sbit_val) =? 0) then on_raw (λ r, set_bits r 20 20)
        else on_raw (λ r, clear_bits r 20 20))) ;;
  let d := instr_desc op in
  on_raw (λ r, (r & not32 d.(match_msk)) .| d.(match_val)).

(** One round of the [while] loop. *)
Definition gen_round (op : Z) (is_instr_init : bool) : lib instr_status_t :=
  o ← gets options;
  shared (init_instr o op is_instr_init) ;;
  gen_instr op.

(** [while (status == UNSUPPORTED && retry > 0)] *)
Fixpoint gen_retry (retry : nat) (op : Z) (is_instr_init : bool) (status : instr_status_t)
    : lib instr_status_t :=
  match retry with
  | O => mret status
  | S retry =>
      if status_eqb status UNSUPPORTED then
        status ← gen_round op is_instr_init;
        gen_retry retry op is_instr_init status
      else mret status
  end.

Definition gen_instr_with_op (op : Z) : lib unit :=
  raw ← shared get_raw_instr;
  status ← gen_retry 8 op (negb (raw =? 0)) UNSUPPORTED;
  o ← gets options;
  shared (raw ← get_raw_instr; output_instr o op raw status).

(** An unknown name only prints a warning. *)
Definition gen_random_instr (str_op : string) : lib unit :=
  match find (name_is str_op) (seqZ 1 (SISA_OP_MAX - 1)) with
  | Some idx =>
      when (SISA_OP_ARM_MAX <? idx) (set_opt (opt_isa ISA_THUMB)) ;;
      gen_instr_with_op idx
  | None => mret tt
  end.

Definition gen_random_instr_without_op : lib unit :=
  isa0 ← opt isa;
  op ← shared (get_random_op isa0);
  gen_instr_with_op op.
End gen.

(** Two lines given to [insert_init_instr] count as two and leave one. *)
Theorem insert_init_instr_overwrites a b s s' :
  (insert_init_instr a ;; insert_init_instr b) s = Ok tt s' →
  s'.(init_instr_idx) = s.(init_instr_idx) + 2
  ∧ s'.(init_instr_buf) = <[Z.to_nat s.(instr_idx) := String.substring 0 (Z.to_nat MAX_STR_INSTR_LEN) b]> s.(init_instr_buf).
Proof.
  unfold insert_init_instr, assertM, mbind, M_bind, gets, modify. cbn.
  destruct (instr_idx s <? MAX_INSTR) eqn:E; cbn; [|done]. rewrite E. cbn. intros [= <-]. cbn.
  split; [lia|]. apply list_insert_insert_eq.
Qed.
