(* ===== verification/V1InstrGenerator.v ===== *)
(** * The entry points of the earlier library: rit/src/InstrGenerator.c

    The two functions that the test driver calls, and the state they keep from
    one call to the next. *)
From S2P Require Import Prelude RitCommon InstrTable State InstrUtil InstrBuf RandomInstrGen V1State V1Encode V1RandomInstrGen.
#[local] Open Scope c_scope.

Definition default_option (o : gen_option_t) : gen_option_t :=
  Mk_gen_option false false false false true 0x03fc0000 0xfffc0000 0x00000fff
    false o.(cond_val) R_DEFAULT R_DEFAULT false o.(sbit_val)
    false o.(shift_imm_val) false o.(shift_reg_val) 7 0 ISA_ARMv5.

Definition set_default_option : lib unit :=
  set_opt default_option ;;
  shared (update_opkind_str default_opkinds true).

(** [if (!init_option) { set_default_option(); init_option = true; }] *)
Definition init_once : lib unit :=
  b ← gets init_option;
  when (negb b)
    (set_default_option ;;
     modify (λ s, Mk_lib_state s.(options) true s.(globals))).

Definition get_reg_type (reg : Z) : arm_regs_t :=
  if (0 <=? reg) && (reg <=? 3) then R_0_3
  else if (4 <=? reg) && (reg <=? 7) then R_4_7
  else if (8 <=? reg) && (reg <=? 12) then R_8_12
  else if reg =? 13 then R_SP
  else if reg =? 14 then R_LR
  else if reg =? 15 then R_PC
  else R_DEFAULT.

Section entry.
Context `{Env : !RitEnv}.

(** The assignments both entry points make. *)
Definition set_call_options (hexcode cond sbit src_reg dst_reg : Z) : lib unit :=
  shared (set_raw_instr (u32 hexcode)) ;;
  set_opt (opt_cond_val cond) ;;
  set_opt (opt_is_cond_init true) ;;
  set_opt (opt_sbit_val sbit) ;;
  set_opt (opt_is_sbit_init true) ;;
  set_opt (opt_src_regs (get_reg_type src_reg)) ;;
  set_opt (opt_dst_regs (get_reg_type dst_reg)).

(** The result is what [output] holds on return. *)
Definition py_gen_instr (isa0 : Z) (opkind : string)
    (hexcode cond sbit src_reg dst_reg seed : Z) : lib string :=
  init_once ;;
  shared (srand seed) ;;
  (if negb (isa0 =? 0) then set_opt (opt_isa ISA_THUMB) else set_opt (opt_isa ISA_ARMv7)) ;;
  shared (update_opkind_str opkind true) ;;
  set_call_options hexcode cond sbit src_reg dst_reg ;;
  gen_random_instr_without_op ;;
  gets (λ s, s.(globals).(print_buf)).

Definition py_gen_instr_with_op (op : string)
    (hexcode cond sbit src_reg dst_reg seed : Z) : lib string :=
  init_once ;;
  shared (srand seed) ;;
  set_call_options hexcode cond sbit src_reg dst_reg ;;
  gen_random_instr op ;;
  gets (λ s, s.(globals).(print_buf)).
End entry.
