(* ===== verification/V1Attempt.v ===== *)
(** * One attempt of the earlier library

    [gen_instr] of rit/src: the operands, the shared generators, the condition
    and the encoding line, composed.  It never aborts, keeps the bits of the
    opcode, and leaves the condition the caller asked for, or "carry clear" when
    the generator had to ask for that. *)
From S2P Require Import Prelude RitCommon InstrTable State InstrUtil InstrBuf Keeps GenARMMem GenARMInstr GenThumbInstr GenThumb32Instr ValidBias ValidArm ValidThumb ValidThumb32 ValidArch EncodeBits EncodeSpec RandomInstrGen Attempt V1State V1Encode V1RandomInstrGen.
#[local] Open Scope c_scope.

(** ** 1. The two halves of the state *)

Lemma opt_id o : opt_isa o.(isa) (opt_cond_val o.(cond_val) o) = o.
Proof. by destruct o. Qed.

(** Shared code that leaves the options alone. *)
Lemma wp_shared_keep {A} (m : rit A) Q s :
  wp m (λ a t, t.(State.options) = view s.(options)
               ∧ Q a (Mk_lib_state s.(options) s.(init_option) t)) (view_state s) →
  wp (shared m) Q s.
Proof.
  intros H. apply wp_shared. eapply wp_mono; [exact H|]. intros a t [Ho HQ].
  unfold write_back. rewrite Ho. cbn. by rewrite opt_id.
Qed.

(** What an attempt carries along: the rest of the globals, and options that
    differ in the instruction set and the condition only. *)
Record follows (s0 s : lib_state) : Prop := {
  fo_opts : s.(options) = opt_isa s.(options).(isa) (opt_cond_val s.(options).(cond_val) s0.(options));
  fo_cond : cond_step s0.(options).(cond_val) s.(options).(cond_val);
  fo_init : s.(init_option) = s0.(init_option);
  fo_init_idx : s.(globals).(init_instr_idx) = s0.(globals).(init_instr_idx);
  fo_init_buf : s.(globals).(init_instr_buf) = s0.(globals).(init_instr_buf);
  fo_opkind : s.(globals).(opkind_list) = s0.(globals).(opkind_list)
}.

#[global] Instance follows_preorder : PreOrder follows.
Proof.
  split.
  - intros s. split; try done. by rewrite opt_id.
  - intros x y z [H1 ? ? ? ? ?] [H2 ? ? ? ? ?]. split; try congruence.
    + rewrite H2 at 1. rewrite H1. done.
    + by etrans.
Qed.

(** The options a caller may not change through an attempt. *)
Lemma follows_generators s0 s :
  follows s0 s → same_generators s.(options) = same_generators s0.(options)
    ∧ s.(options).(src_regs) = s0.(options).(src_regs) ∧ s.(options).(dst_regs) = s0.(options).(dst_regs)
    ∧ s.(options).(bias_oprand_value) = s0.(options).(bias_oprand_value).
Proof. intros []. rewrite fo_opts0. done. Qed.

(** The state inside an attempt. *)
Record working (th : bool) (s : lib_state) : Prop := {
  wk_raw : is_u32 s.(globals).(raw_instr);
  wk_buf : buf_ok s.(globals).(instr_idx) s.(globals).(instr_buf);
  wk_isa : s.(options).(isa) = ISA_THUMB → th = true;
  wk_same : same_generators s.(options) = true
}.

Section attempt.
Context `{Env : !RitEnv}.
Context (th : bool) (op : Z).
Context (Hop : 0 ≤ op < SISA_OP_MAX).
Context (Hth : SISA_OP_ARM_MAX ≤ op → th = true).
Context (Hroom : op < SISA_OP_ARM_MAX → arm_room th op = true).

(** ** 2. The stages *)

Lemma working_winv s :
  working th s → winv th op s.(globals).(raw_instr) (view_state s).
Proof. intros [Hr Hb Hi _]. split; [by apply word_kept_refl|done|done]. Qed.

(** A generator of one of the instruction sets. *)
Lemma wp_generator_stage (lo hi : Z) (g : Z → rit instr_status_t) (ok : Z → Z → Prop)
    `{!SoundGen lo hi g ok} s :
  (∀ tmpl, keeps th op tmpl 7 (λ _, True) (g op)) → lo ≤ op < hi →
  working th s → s.(globals).(instr_idx) = 0 →
  wp (generator (g op)) (λ st s', working th s' ∧ follows s s' ∧ s'.(options).(isa) = s.(options).(isa)
    ∧ s'.(globals).(instr_idx) ≤ 7
    ∧ word_kept op s.(globals).(raw_instr) s'.(globals).(raw_instr)
    ∧ (st = VALID → ok op s'.(globals).(raw_instr))) s.
Proof.
  intros Hk Hr Hw Hi. pose proof Hw as [Hu Hb Hisa Hg]. apply wp_generator; [done|].
  assert (∀ st t, g op (view_state s) = Ok st t → st = VALID → ok op t.(raw_instr)) as Hsound.
  { intros st t E ->. exact (sound_gen op (view_state s) t Hr Hu E). }
  eapply wp_mono; [refine (wp_with _ _ _ _ (Hk _ _ (working_winv s Hw) _) Hsound); cbn; by rewrite Hi|].
  intros st t [([Hwk Hbuf _] & Hidx & [Hi1 Hc1 [_ _ _ _ F1 F2 F3]] & _) Hv]. cbn in *.
  split; [split; cbn; [apply Hwk|done|by rewrite Hi1|done]|].
  split; [split; cbn; try done; by rewrite Hi1|]. split; [done|]. split; [lia|done].
Qed.

(** The encoding line. *)
Lemma put_instr_line_run line t :
  t.(instr_idx) < MAX_INSTR → line_ok line →
  put_instr_line line t =
    Ok tt (st_instr_idx (t.(instr_idx) + 1) (st_instr_buf (<[Z.to_nat t.(instr_idx) := line]> t.(instr_buf)) t)).
Proof.
  intros Hi [Hl _]. unfold put_instr_line, sprintf_line, assertM, mbind, M_bind, gets, modify.
  rewrite (proj2 (Z.ltb_lt _ _) Hi). cbn.
  rewrite (proj2 (Z.leb_le _ _)); [done|]. unfold line_max, MAX_STR_INSTR_LEN in *. lia.
Qed.

Lemma wp_line_stage (line : Z → string) s :
  working th s → s.(globals).(instr_idx) ≤ 7 → (∀ r, line_ok (line r)) →
  wp (shared (r ← get_raw_instr; put_instr_line (line r)))
     (λ _ s', working th s' ∧ follows s s' ∧ s'.(options) = s.(options)
        ∧ s'.(globals).(raw_instr) = s.(globals).(raw_instr)
        ∧ last_line s'.(globals) (line s'.(globals).(raw_instr))) s.
Proof.
  intros [Hu Hb Hisa Hg] Hi Hl. apply wp_shared_keep, wp_bind, wp_gets.
  refine (wp_intro _ _ _ _ _ (put_instr_line_run _ _ _ (Hl _)) _); [cbn; unfold MAX_INSTR; lia|].
  split; [done|]. cbn. pose proof Hb as [Hi0 Hlen _].
  assert (buf_ok (instr_idx (globals s) + 1)
    (<[Z.to_nat (instr_idx (globals s)) := line (raw_instr (globals s))]> (instr_buf (globals s)))) as Hb'.
  { apply buf_ok_insert; [done|unfold MAX_INSTR; lia|apply Hl]. }
  split; [by split|]. split; [split; cbn; try done; by rewrite opt_id|]. split; [done|]. split; [done|].
  split; [cbn; lia|]. cbn. replace (_ + 1 - 1) with (instr_idx (globals s)) by lia.
  apply list_lookup_insert_eq. rewrite Hlen. unfold MAX_INSTR. lia.
Qed.

(** The condition of a conditional ARM opcode; an unconditional one is left
    alone. *)
Lemma shl32_28 v : v << 28 = (v mod 16) << 28.
Proof.
  unfold shl32. rewrite (Z.mod_small 28 32), !Z.shiftl_mul_pow2 by lia. unfold u32.
  change (2 ^ 32) with (16 * 2 ^ 28). rewrite !Z.mul_mod_distr_r by lia. by rewrite Z.mod_mod by lia.
Qed.

Lemma cond_written v r :
  is_u32 r →
  is_u32 ((r .| 0xf0000000) & (0x0fffffff .| (v << 28)))
  ∧ ((r .| 0xf0000000) & (0x0fffffff .| (v << 28))) / 2 ^ 28 = v mod 16
  ∧ ((r .| 0xf0000000) & (0x0fffffff .| (v << 28))) mod 2 ^ 28 = r mod 2 ^ 28.
Proof.
  intros Hr. rewrite shl32_28. pose proof (Z.mod_pos_bound v 16 ltac:(lia)).
  split; [|exact (cond_write_div (v mod 16) r Hr ltac:(lia))].
  apply is_u32_land_l, is_u32_lor; [done|apply is_u32_cond_mask].
Qed.

(** Outside the condition field the word stays. *)
Lemma mod_28_bits x y k : x mod 2 ^ 28 = y mod 2 ^ 28 → 0 ≤ k < 28 → Z.testbit x k = Z.testbit y k.
Proof.
  intros H Hk. rewrite <- (Z.mod_pow2_bits_low x 28 k), <- (Z.mod_pow2_bits_low y 28 k) by lia. by rewrite H.
Qed.

Lemma cond_free_bits k :
  (instr_desc op).(match_msk) & 0xf0000000 = 0 → 0 ≤ k → Z.testbit (instr_desc op).(match_msk) k = true → k < 28.
Proof using Hop.
  intros Hm Hk Hb. destruct (Z.lt_ge_cases k 28); [done|]. pose proof (table_u32 op Hop) as [Hu _].
  destruct (Z.lt_ge_cases k 32); [|by rewrite u32_testbit_high in Hb].
  apply (f_equal (λ z, Z.testbit z k)) in Hm. change 0xf0000000 with cond_mask in Hm.
  rewrite Z.land_spec, Hb, testbit_cond_mask, Z.testbit_0_l in Hm by lia.
  rewrite (proj2 (Z.leb_le 28 k)), (proj2 (Z.ltb_lt k 32)) in Hm by lia. done.
Qed.

Definition cond_open : Prop := (instr_desc op).(match_msk) & 0xf0000000 = 0.

Lemma wp_cond_stage_1 c s :
  working th s →
  wp (shared (set_cond op c))
     (λ _ s', working th s' ∧ follows s s' ∧ s'.(options) = s.(options)
        ∧ s'.(globals).(instr_idx) = s.(globals).(instr_idx)
        ∧ s'.(globals).(raw_instr) mod 2 ^ 28 = s.(globals).(raw_instr) mod 2 ^ 28
        ∧ (cond_open → s'.(globals).(raw_instr) / 2 ^ 28 = c mod 16)
        ∧ ∀ tmpl, word_ok op tmpl s.(globals).(raw_instr) → word_ok op tmpl s'.(globals).(raw_instr)) s.
Proof using Hop.
  intros [Hu Hb Hisa Hg]. apply wp_shared_keep. unfold set_cond, when.
  destruct (Z.eqb_spec ((instr_desc op).(match_msk) & 0xf0000000) 0) as [Hm|Hm].
  - apply wp_bind, wp_modify, wp_modify. split; [done|]. cbn.
    destruct (cond_written c s.(globals).(raw_instr) Hu) as (Hu' & Hd & Hl).
    split; [by split|]. split; [split; cbn; try done; by rewrite opt_id|]. split_and!; [done..|].
    intros tmpl [_ Hw]. split; [done|]. intros k Hk Hmk. rewrite <- (Hw k) by done.
    apply mod_28_bits; [done|]. split; [done|]. by apply cond_free_bits.
  - apply wp_ret. split; [done|]. cbn. split; [by split|].
    split; [split; cbn; try done; by rewrite opt_id|]. split_and!; done.
Qed.

(** ** 3. The whole attempt *)

(** The restrictions of the opcode hold of the word, its condition apart. *)
Definition arch_body (raw : Z) : Prop :=
  ∃ w, arch_ok op w ∧ w mod 2 ^ 28 = raw mod 2 ^ 28 ∧ (SISA_OP_ARM_MAX ≤ op → w = raw).

(** The two opcodes without sp in their list are Thumb opcodes with bit 28 fixed. *)
Lemma sp_op dst :
  sp_in_list op dst = true → SISA_OP_ARM_MAX ≤ op ∧ kept_bit op 28 = true ∧ (instr_desc op).(op_kind) ≠ PSEUDO_OP
    ∧ Z.testbit (instr_desc op).(match_val) 28 = false.
Proof.
  intros [_ Hl]%andb_true_iff.
  pose proof (op_in_check (λ op, (SISA_OP_ARM_MAX <=? op) && kept_bit op 28
    && negb (opkind_eqb (instr_desc op).(op_kind) PSEUDO_OP)
    && negb (Z.testbit (instr_desc op).(match_val) 28)) op _ Hl ltac:(vm_compute; reflexivity)) as H.
  cbv beta in H. field_facts. unfold opkind_eqb in *. rewrite bool_decide_eq_false in *. done.
Qed.

(** The attempts that print an encoding line: the VALID ones, and all attempts
    for an ARM opcode that is not a pseudo one. *)
Definition has_line (st : instr_status_t) : Prop :=
  st = VALID ∨ op < SISA_OP_ARM_MAX ∧ (instr_desc op).(op_kind) ≠ PSEUDO_OP.

Record gi_post (s : lib_state) (st : instr_status_t) (s' : lib_state) : Prop := {
  gi_work : working th s';
  gi_follows : follows s s';
  gi_isa : s'.(options).(isa) = s.(options).(isa)
           ∨ SISA_OP_ARM_MAX ≤ op ∧ s'.(options).(isa) = ISA_THUMB;
  gi_word : sp_in_list op s.(options).(dst_regs) = false →
            word_ok op (instr_desc op).(match_val) s.(globals).(raw_instr) →
            word_ok op (instr_desc op).(match_val) s'.(globals).(raw_instr);
  gi_sp : sp_in_list op s.(options).(dst_regs) = true →
          Z.testbit s.(globals).(raw_instr) 28 = true → Z.testbit s'.(globals).(raw_instr) 28 = true;
  gi_cond : op < SISA_OP_ARM_MAX → cond_open → (instr_desc op).(op_kind) ≠ PSEUDO_OP →
            s'.(globals).(raw_instr) / 2 ^ 28 = s'.(options).(cond_val) mod 16;
  gi_line : has_line st → last_line s'.(globals) (inst_line op s'.(globals).(raw_instr));
  gi_arch : st = VALID → arch_body s'.(globals).(raw_instr)
}.

Lemma arm_switch_same t : arm_switch op t = gen_arm_instr op t.
Proof.
  unfold gen_arm_instr, arm_switch, State.opt, gets, mbind, M_bind. cbn [is_op_armv5_instr negb].
  by rewrite andb_false_r.
Qed.

Lemma thumb_switch_same t : thumb_switch op t = gen_thumb_instr op t.
Proof. done. Qed.

Lemma generator_same {A} (m1 m2 : rit A) s : (∀ t, m1 t = m2 t) → generator m1 s = generator m2 s.
Proof.
  intros H. unfold generator, mbind, M_bind, gets, assertM. destruct (same_generators _); [|done].
  cbn. unfold shared. by rewrite H.
Qed.

Lemma wp_same {A} (m1 m2 : lib A) Q s : m1 s = m2 s → wp m2 Q s → wp m1 Q s.
Proof. unfold wp. by intros ->. Qed.

(** The opcode's bits from the template of the generator. *)
Lemma word_ok_kept tmpl raw raw' : word_ok op tmpl raw → word_kept op raw raw' → word_ok op tmpl raw'.
Proof. intros H1 H2%word_kept_ok. by eapply word_ok_trans. Qed.

(** A Thumb branch: the instruction set, the generator and the line. *)
Lemma wp_thumb_branch (lo hi : Z) (g : Z → rit instr_status_t) (ok : Z → Z → Prop)
    `{!SoundGen lo hi g ok} (line : Z → string) s :
  (∀ tmpl, keeps th op tmpl 7 (λ _, True) (g op)) → lo ≤ op < hi → SISA_OP_ARM_MAX ≤ op →
  (∀ r, line r = inst_line op r) → (∀ w, ok op w → arch_ok op w) →
  working th s → s.(globals).(instr_idx) = 0 →
  wp (set_opt (opt_isa ISA_THUMB) ;;
      status ← generator (g op);
      shared (r ← get_raw_instr; put_instr_line (line r)) ;;
      mret status) (gi_post s) s.
Proof using Hth.
  intros Hk Hr Ha Hl Hok [Hu Hb Hisa Hg] Hi. apply wp_bind, wp_modify, wp_bind.
  set (s0 := Mk_lib_state _ _ _).
  assert (working th s0) as Hw0 by (split; try done; intros _; by apply Hth).
  assert (follows s s0) as Hf0 by (split; try done; cbn; by destruct s.(options)).
  eapply wp_mono; [by apply (wp_generator_stage lo hi g ok)|].
  intros st s1 (Hw1 & Hf1 & Hi1 & Hx1 & Hk1 & Hv1). apply wp_bind.
  eapply wp_mono; [apply (wp_line_stage line); [done|lia|]|].
  { intros r. rewrite Hl. apply line_ok_inst_line. }
  intros [] s2 (Hw2 & Hf2 & Ho2 & Hr2 & Hlast). apply wp_ret. split.
  - done.
  - do 2 (etrans; [eassumption|]). done.
  - right. split; [done|]. by rewrite Ho2, Hi1.
  - intros _ H. rewrite Hr2. by eapply word_ok_kept.
  - intros Hsp Hb28. rewrite Hr2. destruct (sp_op _ Hsp) as (_ & Hk28 & _). destruct Hk1 as [_ Hk1].
    by rewrite (Hk1 28) by (lia || done).
  - lia.
  - intros _. by rewrite <- Hl.
  - intros Hv. exists s1.(globals).(raw_instr). rewrite Hr2. auto.
Qed.

(** The ARM branch. *)
Lemma wp_arm_branch s :
  op < SISA_OP_ARM_MAX → working th s → s.(globals).(instr_idx) = 0 →
  wp (gen_by_set op) (gi_post s) s.
Proof using Hop Hroom.
  intros Ha Hw Hi. pose proof (line_ok_inst_line op) as Hline. unfold gen_by_set, inst_line in *.
  rewrite (proj2 (Z.ltb_lt _ _) Ha) in *.
  apply wp_bind, wp_gets. cbn [is_op_armv5_instr negb]. rewrite andb_false_r. apply wp_bind.
  eapply wp_same; [apply generator_same, arm_switch_same|].
  eapply wp_mono; [apply (wp_generator_stage 0 SISA_OP_ARM_MAX gen_arm_instr arm_ok); [|lia|done|done]|].
  { intros tmpl. apply keeps_gen_arm_instr; [lia|auto]. }
  intros st s1 (Hw1 & Hf1 & Hi1 & Hx1 & Hk1 & Hv1). apply wp_bind, wp_gets, wp_bind.
  eapply wp_mono; [by apply wp_cond_stage_1|].
  intros [] s2 (Hw2 & Hf2 & Ho2 & Hx2 & Hl2 & Hc2 & Hok2). apply wp_bind.
  eapply wp_mono; [apply (wp_line_stage (λ r, "[INST] .inst 0x" +:+ fmt_08x r)); [done|lia|done]|].
  intros [] s3 (Hw3 & Hf3 & Ho3 & Hr3 & Hlast). apply wp_ret. split.
  - done.
  - do 2 (etrans; [eassumption|]). done.
  - left. by rewrite Ho3, Ho2.
  - intros _ H. rewrite Hr3. apply Hok2. by eapply word_ok_kept.
  - intros Hsp. destruct (sp_op _ Hsp) as [? _]. lia.
  - intros _ Hc _. rewrite Hr3, Ho3, Ho2. by apply Hc2.
  - intros _. unfold inst_line. by rewrite (proj2 (Z.ltb_lt _ _) Ha).
  - intros Hv. exists s1.(globals).(raw_instr). rewrite Hr3. split; [|split; [done|lia]].
    unfold arch_ok. rewrite (proj2 (Z.ltb_lt _ _) Ha). auto.
Qed.

Lemma wp_gen_by_set s :
  working th s → s.(globals).(instr_idx) = 0 → wp (gen_by_set op) (gi_post s) s.
Proof using Hop Hroom Hth.
  intros Hw Hi. destruct (Z.lt_ge_cases op SISA_OP_ARM_MAX) as [Ha|Ha]; [by apply wp_arm_branch|].
  unfold gen_by_set. rewrite (proj2 (Z.ltb_ge _ _) Ha).
  assert (∀ w, arch_ok op w ↔ if op <? SISA_OP_THUMB_MAX then thumb_ok op w
    else if op <? SISA_OP_THUMB_32_MAX then thumb32_ok op w else False) as Harch.
  { intros w. unfold arch_ok. by rewrite (proj2 (Z.ltb_ge _ _) Ha). }
  assert (∀ r, inst_line op r = if op <? SISA_OP_THUMB_MAX then "[INST] .inst.n 0x" +:+ fmt_04x (r & 0xffff)
    else "[INST] .inst.w 0x" +:+ fmt_08x r) as Hline.
  { intros r. unfold inst_line. by rewrite (proj2 (Z.ltb_ge _ _) Ha). }
  destruct (Z.ltb_spec op SISA_OP_THUMB_MAX).
  { apply (wp_thumb_branch SISA_OP_ARM_MAX SISA_OP_THUMB_MAX gen_thumb_instr thumb_ok
      (λ r, "[INST] .inst.n 0x" +:+ fmt_04x (r & 0xffff))); try done.
    - intros tmpl. apply keeps_gen_thumb_instr.
    - intros w. by rewrite Harch. }
  destruct (Z.ltb_spec op SISA_OP_THUMB_32_MAX).
  { apply (wp_thumb_branch SISA_OP_THUMB_MAX SISA_OP_THUMB_32_MAX gen_thumb32_instr thumb32_ok
      (λ r, "[INST] .inst.w 0x" +:+ fmt_08x r)); try done.
    - intros tmpl. apply keeps_gen_thumb32_instr.
    - intros w. by rewrite Harch. }
  apply wp_ret. split; try done; [by left|lia|]. intros [?|[? _]]; [done|lia].
Qed.

Lemma wp_gen_instr_1 s :
  working th s →
  wp (gen_instr op) (λ st s', gi_post s st s'
    ∧ (sp_in_list op s.(options).(dst_regs) = true → Z.testbit s'.(globals).(raw_instr) 28 = true)) s.
Proof using Hop Hroom Hth.
  intros [Hu Hb Hisa Hg]. unfold gen_instr.
  do 2 (apply wp_bind, wp_shared_keep, wp_modify; split; [done|]). apply wp_bind, wp_gets, wp_bind.
  apply wp_shared_keep. eapply wp_mono; [by apply wp_preprocess_instr|].
  intros [] t (p & r & vals & -> & Hr & Hwd & H28). split; [done|]. cbn in Hwd, H28 |- *.
  set (s1 := Mk_lib_state _ _ _).
  assert (follows s s1) as Hf1 by (split; try done; by rewrite opt_id).
  assert (working th s1) as Hw1.
  { split; try done. cbn. destruct Hb as [_ Hl Hf]. by split. }
  assert (sp_in_list op s.(options).(dst_regs) = false →
    word_ok op (instr_desc op).(match_val) s.(globals).(raw_instr) →
    word_ok op (instr_desc op).(match_val) r) as Hword.
  { intros Hsp Hw. eapply word_ok_kept; [exact Hw|]. apply Hwd; [done|by apply low_bits_word]. }
  destruct (opkind_eqb _ PSEUDO_OP) eqn:Hk.
  { apply wp_ret. unfold opkind_eqb in Hk. rewrite bool_decide_eq_true in Hk.
    split; [split; try done; auto|auto]. by intros [?|[_ ?]]. }
  eapply wp_mono; [by apply wp_gen_by_set|]. intros st s' [Hw' Hf' Hi' Hwd' Hs' Hc' Hl' Ha'].
  split; [|auto]. split; try done; [by etrans| |auto]. intros Hsp Hw. apply Hwd'; [done|by apply Hword].
Qed.
End attempt.
