(* ===== verification/V1Loop.v ===== *)
(** * The retry loop and the output of the earlier library

    [gen_instr_with_op] from the word of the caller to the printed text. *)
From S2P Require Import Prelude RitCommon InstrTable State InstrUtil InstrBuf Keeps GenARMMem ValidArch EncodeBits RandomInstrGen Attempt Output Loop V1State V1Encode V1RandomInstrGen V1Attempt.
#[local] Open Scope c_scope.

Section loop.
Context `{Env : !RitEnv}.

(** ** 1. The word an attempt starts from *)

Lemma wp_init_instr o op b s :
  0 ≤ op < SISA_OP_MAX → is_u32 s.(raw_instr) →
  wp (init_instr o op b) (λ _ s', ∃ p r, s' = st_raw_instr r (st_rand_pos p s)
    ∧ word_ok op (instr_desc op).(match_val) r) s.
Proof.
  intros Hop Hu. unfold init_instr. apply wp_bind.
  apply (wp_mono _ (λ _ s', ∃ p r, s' = st_raw_instr r (st_rand_pos p s) ∧ is_u32 r)).
  { unfold when. destruct (negb b); [|apply wp_ret; exists s.(rand_pos), s.(raw_instr); by destruct s].
    apply wp_bind, (wp_intro _ _ _ _ _ eq_refl), wp_modify. eexists _, _. split; [reflexivity|].
    apply is_u32_rand, rand_at_range. }
  intros [] s1 (p & r & -> & Hr). apply wp_bind.
  apply (wp_mono _ (λ _ s', ∃ r', s' = st_raw_instr r' (st_rand_pos p s) ∧ is_u32 r')).
  { unfold when. destruct (_ || _); [|apply wp_ret; by exists r].
    apply wp_bind, wp_modify. assert (is_u32 (r & 0x0fffffff)) by auto with rit.
    destruct (_ && _); [|apply wp_ret; by eexists].
    destruct (negb _); apply wp_modify; eexists; (split; [reflexivity|]); cbn; auto with rit. }
  intros [] s2 (r' & -> & Hr'). apply wp_modify. eexists p, _. split; [reflexivity|]. cbn.
  by apply word_ok_init.
Qed.

(** ** 2. The loop *)

(** What the loop leaves when its last attempt ended with status [st]. *)
Record ends (th : bool) (op : Z) (s : lib_state) (st : instr_status_t) (s' : lib_state) : Prop := {
  en_work : working th s';
  en_follows : follows s s';
  en_isa : s'.(options).(isa) = s.(options).(isa)
           ∨ SISA_OP_ARM_MAX ≤ op ∧ s'.(options).(isa) = ISA_THUMB;
  en_word : sp_in_list op s.(options).(dst_regs) = false →
            word_ok op (instr_desc op).(match_val) s'.(globals).(raw_instr);
  en_sp : sp_in_list op s.(options).(dst_regs) = true → Z.testbit s'.(globals).(raw_instr) 28 = true;
  en_cond : op < SISA_OP_ARM_MAX → cond_open op → (instr_desc op).(op_kind) ≠ PSEUDO_OP →
            s'.(globals).(raw_instr) / 2 ^ 28 = s'.(options).(cond_val) mod 16;
  en_line : has_line op st → last_line s'.(globals) (inst_line op s'.(globals).(raw_instr));
  en_arch : st = VALID → arch_body op s'.(globals).(raw_instr)
}.

Section retry.
Context (th : bool) (op : Z).
Context (Hop : 0 ≤ op < SISA_OP_MAX).
Context (Hth : SISA_OP_ARM_MAX ≤ op → th = true).
Context (Hroom : op < SISA_OP_ARM_MAX → arm_room th op = true).

(** One round. *)
Lemma wp_round b s :
  working th s → wp (gen_round op b) (ends th op s) s.
Proof using Hop Hth Hroom.
  intros Hw. apply wp_bind, wp_gets, wp_bind, wp_shared_keep.
  eapply wp_mono; [apply wp_init_instr; [done|apply Hw]|].
  intros [] t (p & r & -> & Hr). split; [done|]. set (s1 := Mk_lib_state _ _ _).
  assert (follows s s1) as Hf1 by (split; try done; by rewrite opt_id).
  assert (working th s1) as Hw1 by (destruct Hw; split; try done; apply Hr).
  eapply wp_mono; [by apply (wp_gen_instr_1 th op)|]. intros st s' [[Hw' Hf' Hi' Hwd' _ Hc' Hl' Ha'] Hs'].
  split; try done; [by etrans|]. intros Hsp. by apply Hwd'.
Qed.

(** Rounds compose: the state between two of them is not seen. *)
Lemma ends_trans s st s1 st' s' : ends th op s st s1 → ends th op s1 st' s' → ends th op s st' s'.
Proof.
  intros [_ Hf Hi _ _ _ _ _] [Hw' Hf' Hi' Hwd' Hs' Hc' Hl' Ha'].
  destruct (follows_generators _ _ Hf) as (_ & _ & Hd & _). rewrite Hd in *.
  split; try done; [by etrans|]. destruct Hi' as [-> |?]; [done|by right].
Qed.

Lemma wp_gen_retry n b st s s0 :
  ends th op s0 st s → wp (gen_retry n op b st) (ends th op s0) s.
Proof using Hop Hth Hroom.
  revert st s. induction n as [|n IH]; intros st s He; cbn [gen_retry]; [by apply wp_ret|].
  destruct (status_eqb st UNSUPPORTED); [|by apply wp_ret]. apply wp_bind.
  eapply wp_mono; [apply wp_round, He|]. intros st1 s1 He1. apply IH. by eapply ends_trans.
Qed.

(** The first round always runs. *)
Lemma wp_gen_retry_first n b s :
  working th s → wp (gen_retry (S n) op b UNSUPPORTED) (ends th op s) s.
Proof using Hop Hth Hroom.
  intros Hw. cbn [gen_retry]. change (status_eqb UNSUPPORTED UNSUPPORTED) with true. cbv iota.
  apply wp_bind. eapply wp_mono; [by apply wp_round|]. intros st s1 He. by apply wp_gen_retry.
Qed.
End retry.

(** ** 3. The output *)

Definition head_line_1 (op instr : Z) (st : instr_status_t) : string :=
  "[INFO] " +:+ instr_status_name st +:+ " " +:+ default "(null)" (instr_desc op).(name)
  +:+ " " +:+ fmt_08x instr +:+ nl.

Lemma length_head_line_1 op instr st :
  0 ≤ op < SISA_OP_MAX → (String.length (head_line_1 op instr st) ≤ 78)%nat.
Proof.
  intros Hop. pose proof (length_head_line op instr st Hop) as H. unfold head_line, head_line_1 in *.
  rewrite !length_string_app in *. cbn [String.length] in *. lia.
Qed.

(** No initialisation code is asked for or left over. *)
Lemma wp_output_instr_1 o op instr st s :
  0 ≤ op < SISA_OP_MAX → buf_ok s.(instr_idx) s.(instr_buf) → o.(bias_oprand_value) = false →
  s.(init_instr_idx) = 0 →
  wp (output_instr o op instr st) (λ _ s', s' = st_print_buf
    (head_line_1 op instr st +:+ lines_text (take (Z.to_nat s.(instr_idx)) s.(instr_buf))) s) s.
Proof.
  intros Hop Hb Ho Hi. unfold output_instr. pose proof (length_head_line_1 op instr st Hop) as Hh.
  apply wp_bind, wp_gets, wp_bind, wp_assert.
  { destruct Hb as [? _ _]. apply andb_true_iff. split; apply Z.leb_le; lia. }
  fold (head_line_1 op instr st). apply wp_bind, wp_assert; [apply Z.ltb_lt; unfold BUF_SIZE; lia|].
  apply wp_bind, wp_modify, wp_bind, wp_gets. rewrite Ho. cbn [andb when].
  apply wp_bind, wp_ret, wp_bind, wp_gets, wp_bind, wp_gets, wp_bind. cbn. rewrite Hi.
  apply wp_bind, wp_gets, wp_bind, wp_gets. cbn.
  eapply wp_mono; [apply wp_print_lines; [done|]|].
  { cbn. destruct Hb as [? _ _]. unfold BUF_SIZE, MAX_INSTR in *. lia. }
  cbn. intros _ s' ->. done.
Qed.
End loop.
