(* ===== verification/V1Api.v ===== *)
(** * The earlier library as its callers see it

    The state is kept between calls, so the theorems are about sequences of
    calls: an invariant of the library, what a call answers in any state that
    earlier calls can leave, and the calls that must not follow each other. *)
From S2P Require Import Prelude RitCommon InstrTable State InstrUtil InstrBuf Keeps GenARMMem ValidArch EncodeBits RandomInstrGen Attempt Output Loop Params Api V1State V1Encode V1RandomInstrGen V1InstrGenerator V1Attempt V1Loop.
#[local] Open Scope c_scope.

(** ** 1. The invariant *)

Record lib_inv (s : lib_state) : Prop := {
  li_same : s.(init_option) = true → same_generators s.(options) = true;
  li_isa : s.(options).(isa) = ISA_ARMv5 ∨ s.(options).(isa) = ISA_ARMv7 ∨ s.(options).(isa) = ISA_THUMB;
  li_raw : is_u32 s.(globals).(raw_instr);
  li_buf : buf_ok s.(globals).(instr_idx) s.(globals).(instr_buf);
  li_init : s.(globals).(init_instr_idx) = 0
}.

Lemma lib_inv_zero : lib_inv zero_lib.
Proof.
  split; [done|by left|unfold is_u32; cbn; lia| |done].
  split; [done|done|]. apply Forall_replicate, line_ok_nil.
Qed.

(** An initialised library. *)
Definition ready (s : lib_state) : Prop := lib_inv s ∧ s.(init_option) = true.

Section api.
Context `{Env : !RitEnv}.

(** ** 2. Generation for one opcode *)

(** What a call prints for opcode [op], asked for with destination registers
    [dst] and condition [cond]. *)
Record call_result (dst : arm_regs_t) (cond op : Z) (st : instr_status_t) (raw : Z) (text : string) : Prop := {
  cr_op : 0 ≤ op < SISA_OP_MAX;
  cr_u32 : is_u32 raw;
  cr_word : sp_in_list op dst = false → word_ok op (instr_desc op).(match_val) raw;
  cr_sp : sp_in_list op dst = true → ¬ op_matches op raw;
  cr_cond : op < SISA_OP_ARM_MAX → cond_open op → (instr_desc op).(op_kind) ≠ PSEUDO_OP →
            raw / 2 ^ 28 = cond mod 16 ∨ raw / 2 ^ 28 = 3;
  cr_text : ∃ body, text = head_line_1 op raw st +:+ lines_text body ∧ Forall line_ok body
            ∧ (has_line op st → ∃ pre, body = pre ++ [inst_line op raw]);
  cr_arch : st = VALID → arch_body op raw
}.

(** The condition that a request uses: the given one, or one drawn. *)
Definition used_cond (cond : option Z) (c : Z) : Prop := cond = Some c ∨ cond = None ∧ 0 ≤ c ≤ 14.

(** The opcode's lines fit the buffer for this instruction set. *)
Definition fits (op isa0 : Z) : Prop := op < SISA_OP_ARM_MAX → arm_room (isa0 =? ISA_THUMB) op = true.

(** A state as shared code leaves it, and the text of an attempt. *)
Definition viewed (s : lib_state) : lib_state := Mk_lib_state s.(options) s.(init_option) (view_state s).
Definition attempt_text (op : Z) (st : instr_status_t) (s : lib_state) : string :=
  head_line_1 op s.(globals).(raw_instr) st
  +:+ lines_text (take (Z.to_nat s.(globals).(instr_idx)) s.(globals).(instr_buf)).

(** The retry loop, and then the text of its last attempt. *)
Lemma gen_instr_with_op_run op s :
  ready s → 0 ≤ op < SISA_OP_MAX → fits op s.(options).(isa) →
  ∃ th st s1, gen_retry 8 op (negb (s.(globals).(raw_instr) =? 0)) UNSUPPORTED (viewed s) = Ok st s1
    ∧ ends th op (viewed s) st s1
    ∧ gen_instr_with_op op s = Ok tt (Mk_lib_state s1.(options) s1.(init_option)
        (st_print_buf (attempt_text op st s1) (view_state s1))).
Proof.
  intros [[Hsame Hisa Hraw Hbuf Hinit] Hin] Hop Hfit. specialize (Hsame Hin).
  set (th := (s.(options).(isa) =? ISA_THUMB) || (SISA_OP_ARM_MAX <=? op)).
  assert (working th (viewed s)) as Hw0.
  { split; try done. unfold th. cbn. intros ->. done. }
  destruct (wp_elim _ _ _ (wp_gen_retry_first th op Hop ltac:(unfold th; intros Ha;
      by rewrite (proj2 (Z.leb_le _ _) Ha), orb_true_r) ltac:(unfold th; intros Ha;
      rewrite (proj2 (Z.leb_gt _ _) Ha), orb_false_r; auto) 7 (negb (s.(globals).(raw_instr) =? 0)) (viewed s) Hw0))
    as (st & s1 & E1 & He1).
  exists th, st, s1. split; [done|]. split; [done|].
  destruct He1 as [[Hu1 Hb1 Hi1 Hg1] Hf1 _ _ _ _ _ _].
  destruct (follows_generators _ _ Hf1) as (_ & _ & _ & Hbias).
  assert (wp (o ← gets options; shared (raw ← get_raw_instr; output_instr o op raw st)) (λ _ s', s' = Mk_lib_state
    s1.(options) s1.(init_option) (st_print_buf (attempt_text op st s1) (view_state s1))) s1) as Ho.
  { apply wp_bind, wp_gets, wp_shared_keep, wp_bind, wp_gets. eapply wp_mono; [apply wp_output_instr_1; [done|done|..]|].
    - rewrite Hbias. unfold same_generators in Hsame. cbn. field_facts. done.
    - cbn. by rewrite (fo_init_idx _ _ Hf1).
    - by intros _ t ->. }
  destruct (wp_elim _ _ _ Ho) as ([] & s2 & E2 & ->). unfold gen_instr_with_op. unfold mbind, M_bind in *.
  change (shared get_raw_instr s) with (Ok s.(globals).(raw_instr) (write_back (view_state s) s)).
  replace (write_back (view_state s) s) with (viewed s) by (unfold write_back, viewed; cbn; by rewrite opt_id).
  cbv beta iota. by rewrite E1.
Qed.

Lemma wp_gen_instr_with_op op s :
  ready s → 0 ≤ op < SISA_OP_MAX → fits op s.(options).(isa) →
  wp (gen_instr_with_op op)
     (λ _ s', ready s' ∧ ∃ st raw, call_result s.(options).(dst_regs) s.(options).(cond_val) op st raw s'.(globals).(print_buf)) s.
Proof.
  intros Hs Hop Hfit. destruct (gen_instr_with_op_run op s Hs Hop Hfit) as (th & st & s1 & _ & He & E).
  apply (wp_intro _ _ _ _ _ E). destruct Hs as [[Hsame Hisa Hraw Hbuf Hinit] Hin].
  destruct He as [[Hu1 Hb1 Hi1 Hg1] Hf1 Hisa1 Hwd1 Hs1 Hc1 Hl1 Ha1]. split.
  - split; [split; cbn; try done|by rewrite (fo_init _ _ Hf1)].
    + destruct Hisa1 as [-> |[_ ->]]; [done|auto].
    + by rewrite (fo_init_idx _ _ Hf1).
  - exists st, s1.(globals).(raw_instr). split; try done.
    + intros Hsp Hm. destruct (sp_op op _ Hsp) as (Ha & Hk & _ & Hv). apply (f_equal (λ z, Z.testbit z 28)) in Hm.
      rewrite Hv, Z.land_spec, (Hs1 Hsp) in Hm. unfold kept_bit in Hk.
      destruct (Z.testbit (match_msk (instr_desc op)) 28); [done|]. by rewrite (proj2 (Z.ltb_ge _ _) Ha) in Hk.
    + intros H1 H2 H3. rewrite (Hc1 H1 H2 H3). destruct (fo_cond _ _ Hf1) as [-> | ->]; [by left|by right].
    + eexists. split; [done|]. split; [by apply Forall_take, Hb1|]. intros Hv. by apply last_line_take; [|apply Hl1].
Qed.

(** ** 3. The entry points *)

(** Selecting kinds is the same in both versions. *)
Lemma opkind_loop_same fuel str l : opkind_loop fuel str true l = RandomInstrGen.opkind_loop fuel str l.
Proof.
  revert str l. induction fuel as [|fuel IH]; intros str l; [done|].
  cbn [opkind_loop RandomInstrGen.opkind_loop]. destruct str as [|c str]; [done|]. cbv zeta.
  assert (∀ n, zip_with (λ nm b, if strncmp_eq (String c str) nm n then true else b) opkind_names l
    = zip_with (λ nm b, strncmp_eq (String c str) nm n || b) opkind_names l) as E.
  { intros n. apply zip_with_ext; [|done..]. intros. by destruct (strncmp_eq _ _ _). }
  rewrite E. destruct (comma_at _); [apply IH|done].
Qed.

Lemma update_opkind_str_same str t : update_opkind_str str true t = RandomInstrGen.update_opkind_str str t.
Proof.
  unfold update_opkind_str, RandomInstrGen.update_opkind_str, mbind, M_bind, gets.
  rewrite opkind_loop_same. by destruct (RandomInstrGen.opkind_loop _ _ _).
Qed.

(** The flags a string of kinds selects. *)
Definition kinds_of (str : string) : list bool :=
  default [] (RandomInstrGen.opkind_loop (S (String.length str)) str (replicate opkind_num false)).
#[global] Arguments kinds_of : simpl never.

Lemma wp_update_opkind_str str Q t : Q tt (st_opkind_list (kinds_of str) t) → wp (update_opkind_str str true) Q t.
Proof.
  intros HQ. refine (wp_intro _ _ _ tt _ _ HQ). rewrite update_opkind_str_same.
  unfold RandomInstrGen.update_opkind_str, kinds_of.
  destruct (opkind_loop_total (S (String.length str)) str (replicate opkind_num false)) as [l Hl]; [lia|].
  by rewrite Hl.
Qed.

Lemma wp_init_once s :
  lib_inv s →
  wp init_once (λ _ s', ready s' ∧ s'.(globals).(print_buf) = s.(globals).(print_buf)
    ∧ (s'.(options).(isa) = ISA_THUMB → s.(options).(isa) = ISA_THUMB)) s.
Proof.
  intros [Hsame Hisa Hraw Hbuf Hinit]. unfold init_once, when. apply wp_bind, wp_gets.
  destruct (init_option s) eqn:Hi; cbn [negb].
  { apply wp_ret. split; [|done]. split; [|done]. split; try done. by rewrite Hi. }
  apply wp_bind, wp_bind, wp_modify, wp_shared_keep, wp_update_opkind_str. split; [done|].
  apply wp_modify. cbn. split; [|done]. split; [|done]. split; try done. by left.
Qed.

(** The options a call sets. *)
Lemma wp_set_call_options hexcode cond sbit src dst Q s :
  (∀ s', (ready s → ready s') → s'.(options).(isa) = s.(options).(isa) →
     s'.(options).(cond_val) = cond → s'.(options).(dst_regs) = get_reg_type dst →
     s'.(globals).(opkind_list) = s.(globals).(opkind_list) →
     s'.(globals).(print_buf) = s.(globals).(print_buf) → Q tt s') →
  wp (set_call_options hexcode cond sbit src dst) Q s.
Proof.
  intros HQ. unfold set_call_options. apply wp_bind, wp_shared_keep, wp_modify. split; [done|].
  do 5 (apply wp_bind, wp_modify). apply wp_modify. apply HQ; try done.
  intros [[Hsame Hisa Hraw Hbuf Hinit] Hi]. split; [|done]. split; try done. apply is_u32_u32.
Qed.

(** The instruction set a call by kinds asks for. *)
Definition isa_of (isa0 : Z) : Z := if negb (isa0 =? 0) then ISA_THUMB else ISA_ARMv7.

Lemma get_random_op_draws isa0 s :
  ∃ op p, get_random_op isa0 s = Ok op (st_rand_pos p s)
    ∧ drawn_from s.(opkind_list) (op_range isa0).1 (op_range isa0).2 op.
Proof.
  unfold get_random_op, mbind, M_bind, gets. destruct (op_range isa0) as [lo hi]. apply draw_enabled.
Qed.

(** No drawn opcode is roomless: Thumb draws no ARM opcode but number 0. *)
Lemma drawn_fits isa0 l op :
  isa0 = ISA_ARMv5 ∨ isa0 = ISA_ARMv7 ∨ isa0 = ISA_THUMB →
  drawn_from l (op_range isa0).1 (op_range isa0).2 op → 0 ≤ op < SISA_OP_MAX ∧ fits op isa0.
Proof.
  unfold fits. intros [-> |[-> | ->]]; cbn;
    intros [[? _]|[-> _]]; unfold SISA_OP_NA, SISA_OP_MAX, SISA_OP_ARM_MAX in *;
    (split; [lia|]); intros; try done; lia.
Qed.

(** Generation for an opcode that is drawn. *)
Lemma wp_gen_random_instr_without_op s :
  ready s →
  wp gen_random_instr_without_op (λ _ s', ready s' ∧ ∃ op st raw,
       call_result s.(options).(dst_regs) s.(options).(cond_val) op st raw s'.(globals).(print_buf)
       ∧ drawn_from s.(globals).(opkind_list) (op_range s.(options).(isa)).1 (op_range s.(options).(isa)).2 op) s.
Proof.
  intros Hs. unfold gen_random_instr_without_op. apply wp_bind, wp_gets, wp_bind, wp_shared_keep.
  destruct (get_random_op_draws s.(options).(isa) (view_state s)) as (op & p & E & Hd).
  apply (wp_intro _ _ _ _ _ E). split; [done|]. cbn in Hd.
  destruct (drawn_fits _ _ _ (li_isa _ (proj1 Hs)) Hd) as [Hop Hfit].
  eapply wp_mono; [apply wp_gen_instr_with_op; [|done|done]|].
  { destruct Hs as [[] ?]. by split; [split|]. }
  intros [] s5 (Hs5 & st & raw & Hr). split; [done|]. by exists op, st, raw.
Qed.

(** The name of a table entry. *)
Definition known (str : string) : Prop := ∃ op, 0 < op < SISA_OP_MAX ∧ (instr_desc op).(name) = Some str.

(** What a request by name prints, [prev] being the text before it. *)
Definition named_result (dst : arm_regs_t) (cond : Z) (str prev text : string) : Prop :=
  (∃ op st raw, (instr_desc op).(name) = Some str ∧ call_result dst cond op st raw text)
  ∨ ¬ known str ∧ text = prev.

(** Generation for an opcode that is named. *)
Lemma wp_gen_random_instr_1 str s :
  ready s → roomy_name (Some str) ∨ s.(options).(isa) ≠ ISA_THUMB →
  wp (gen_random_instr str) (λ _ s', ready s' ∧
    named_result s.(options).(dst_regs) s.(options).(cond_val) str s.(globals).(print_buf) s'.(globals).(print_buf)) s.
Proof.
  intros Hs Hroom. unfold gen_random_instr. destruct (find _ _) as [op|] eqn:Ef.
  - apply find_opcode_spec in Ef as [Hop Hn]. apply wp_bind.
    apply (wp_mono _ (λ _ s', ready s' ∧ s'.(options).(cond_val) = s.(options).(cond_val)
      ∧ s'.(options).(dst_regs) = s.(options).(dst_regs) ∧ fits op s'.(options).(isa))).
    { assert (fits op s.(options).(isa)) as Hf2.
      { intros Ha. destruct Hroom as [Hr|Hnt]; [by apply arm_room_le, roomy_named; rewrite Hn|].
        by rewrite (proj2 (Z.eqb_neq _ _)). }
      unfold when. destruct (Z.ltb_spec SISA_OP_ARM_MAX op); [apply wp_modify|by apply wp_ret].
      destruct Hs as [[] ?]. split; [split; [split; try done; cbn; auto|done]|]. split; [done|]. split; [done|].
      intros Ha. lia. }
    intros [] s3 (Hs3 & Hc3 & Hd3 & Hf3).
    eapply wp_mono; [by apply wp_gen_instr_with_op|].
    intros [] s5 (Hs5 & st & raw & Hr). rewrite Hc3, Hd3 in Hr. split; [done|]. left. by exists op, st, raw.
  - apply wp_ret. split; [done|]. right. split; [|done].
    intros (op & Hop & Hn). apply find_none with (x := op) in Ef; [|apply list_elem_of_In, elem_of_seqZ; lia].
    unfold name_is in Ef. rewrite Hn in Ef. cbn in Ef. by rewrite String.eqb_refl in Ef.
Qed.

Lemma wp_py_gen_instr isa0 opkind hexcode cond sbit src dst seed s :
  lib_inv s →
  wp (py_gen_instr isa0 opkind hexcode cond sbit src dst seed)
     (λ text s', ready s' ∧ s'.(globals).(print_buf) = text ∧ ∃ op st raw,
        call_result (get_reg_type dst) cond op st raw text
        ∧ drawn_from (kinds_of opkind) (op_range (isa_of isa0)).1 (op_range (isa_of isa0)).2 op) s.
Proof.
  intros Hs. unfold py_gen_instr. apply wp_bind. eapply wp_mono; [by apply wp_init_once|].
  intros [] s1 ([Hs1 Hi1] & _ & _). apply wp_bind, wp_shared_keep, wp_modify. split; [done|]. apply wp_bind.
  set (s2 := Mk_lib_state _ _ _).
  apply (wp_mono _ (λ _ s', ready s' ∧ s'.(options).(isa) = isa_of isa0)).
  { destruct Hs1 as [Hsame Hisa Hraw Hbuf Hinit]. unfold isa_of.
    destruct (negb _); apply wp_modify; (split; [|done]); (split; [|done]); (split; try done); cbn; auto. }
  intros [] s3 [Hs3 Hi3]. apply wp_bind, wp_shared_keep, wp_update_opkind_str. split; [done|].
  apply wp_bind, wp_set_call_options. cbn. intros s4 Hr4 Hi4 Hc4 Hd4 Hk4 _.
  assert (ready s4) as Hs4.
  { apply Hr4. destruct Hs3 as [[] ?]. by split; [split|]. }
  apply wp_bind. eapply wp_mono; [by apply wp_gen_random_instr_without_op|].
  rewrite Hc4, Hd4, Hk4, Hi4, Hi3. intros [] s5 [Hs5 Hr]. by apply wp_gets.
Qed.

Lemma wp_py_gen_instr_with_op str hexcode cond sbit src dst seed s :
  lib_inv s → roomy_name (Some str) ∨ s.(options).(isa) ≠ ISA_THUMB →
  wp (py_gen_instr_with_op str hexcode cond sbit src dst seed)
     (λ text s', ready s' ∧ s'.(globals).(print_buf) = text
        ∧ named_result (get_reg_type dst) cond str s.(globals).(print_buf) text) s.
Proof.
  intros Hs Hroom. unfold py_gen_instr_with_op. apply wp_bind. eapply wp_mono; [by apply wp_init_once|].
  intros [] s1 ([Hs1 Hi1] & Hp1 & Hsame1). apply wp_bind, wp_shared_keep, wp_modify. split; [done|].
  apply wp_bind, wp_set_call_options. cbn. intros s2 Hr2 Hi2 Hc2 Hd2 _ Hp2.
  assert (ready s2) as Hs2 by (apply Hr2; destruct Hs1; by split; [split|]).
  apply wp_bind. eapply wp_mono; [apply wp_gen_random_instr_1; [done|]|].
  { destruct Hroom as [?|Hnt]; [by left|right]. rewrite Hi2. auto. }
  rewrite Hc2, Hd2, Hp2, Hp1. intros [] s5 [Hs5 Hr]. by apply wp_gets.
Qed.

(** ** 4. Sequences of calls *)

(** A call of one of the entry points. *)
Inductive call :=
  | CallKind (isa0 : Z) (opkind : string) (hexcode cond sbit src_reg dst_reg seed : Z)
  | CallOp (op : string) (hexcode cond sbit src_reg dst_reg seed : Z).

Definition run_call (c : call) : lib string :=
  match c with
  | CallKind isa0 opkind hexcode cond sbit src dst seed =>
      py_gen_instr isa0 opkind hexcode cond sbit src dst seed
  | CallOp op hexcode cond sbit src dst seed =>
      py_gen_instr_with_op op hexcode cond sbit src dst seed
  end.

(** The texts of a sequence of calls, in order. *)
Fixpoint run_calls (l : list call) : lib (list string) :=
  match l with
  | [] => mret []
  | c :: l => text ← run_call c; texts ← run_calls l; mret (text :: texts)
  end.

(** A call that does not name one of the two roomless opcodes. *)
Definition roomy_call (c : call) : Prop :=
  match c with CallKind _ _ _ _ _ _ _ _ => True | CallOp op _ _ _ _ _ _ => roomy_name (Some op) end.

(** What a call answers, [prev] being the text of the call before it. *)
Definition call_answer (c : call) (prev text : string) : Prop :=
  match c with
  | CallKind isa0 opkind _ cond _ _ dst _ => ∃ op st raw,
      call_result (get_reg_type dst) cond op st raw text
      ∧ drawn_from (kinds_of opkind) (op_range (isa_of isa0)).1 (op_range (isa_of isa0)).2 op
  | CallOp str _ cond _ _ dst _ => named_result (get_reg_type dst) cond str prev text
  end.

Lemma wp_run_call c s :
  lib_inv s → roomy_call c →
  wp (run_call c) (λ text s', lib_inv s' ∧ s'.(globals).(print_buf) = text
    ∧ call_answer c s.(globals).(print_buf) text) s.
Proof.
  intros Hs Hc. destruct c as [isa0 opkind hexcode cond sbit src dst seed|op hexcode cond sbit src dst seed].
  - eapply wp_mono; [by apply wp_py_gen_instr|]. intros text s' ([? _] & ? & ?). done.
  - eapply wp_mono; [by apply wp_py_gen_instr_with_op; [|left]|]. intros text s' ([? _] & ? & ?). done.
Qed.

(** Every text answers its call, after the one before it. *)
Fixpoint answers (l : list call) (prev : string) (texts : list string) : Prop :=
  match l, texts with
  | [], [] => True
  | c :: l, text :: texts => call_answer c prev text ∧ answers l text texts
  | _, _ => False
  end.

Lemma answers_length l prev texts : answers l prev texts → length texts = length l.
Proof.
  revert prev texts. induction l as [|c l IH]; intros prev [|text texts] Ha; try done.
  destruct Ha as [_ Ha]. cbn. f_equal. by eapply IH.
Qed.

Lemma wp_run_calls l s :
  lib_inv s → Forall roomy_call l →
  wp (run_calls l) (λ texts s', lib_inv s' ∧ answers l s.(globals).(print_buf) texts) s.
Proof.
  intros Hs Hl. revert s Hs. induction Hl as [|c l Hc Hl IH]; intros s Hs; cbn [run_calls]; [by apply wp_ret|].
  apply wp_bind. eapply wp_mono; [by apply wp_run_call|]. intros text s1 (Hs1 & Hp1 & Ha1).
  apply wp_bind. eapply wp_mono; [by apply IH|]. rewrite Hp1. intros texts s2 [Hs2 Ha2]. by apply wp_ret.
Qed.

(** The names of the two opcodes determine them. *)
Lemma sp_list_name op str :
  0 ≤ op < SISA_OP_MAX → str ∈ ["POP_T2"; "LDM_T2"] → (instr_desc op).(name) = Some str →
  sp_in_list op R_SP = true.
Proof.
  intros Hop Hs Hn. pose proof (table_check (λ op,
      match (instr_desc op).(name) with
      | Some nm => if existsb (String.eqb nm) ["POP_T2"; "LDM_T2"] then sp_in_list op R_SP else true
      | None => true
      end) ltac:(vm_compute; reflexivity) op Hop) as H. cbv beta in H. rewrite Hn in H.
  assert (existsb (String.eqb str) ["POP_T2"; "LDM_T2"] = true) as E; [|by rewrite E in H].
  apply existsb_exists. exists str. split; [by apply list_elem_of_In|apply String.eqb_refl].
Qed.

(** ** 5. Properties *)

(** C24. The earlier library is safe to call again and again: from the loaded
    library, any sequence of calls of its two entry points ends (two opcode
    names apart, see C26): no assertion fails, no buffer is overrun and no loop
    runs out of its bound, for every choice of kinds, names, words, conditions,
    registers, seeds and random numbers, and every call answers a text. *)
Theorem lib_calls_safe (l : list call) :
  Forall roomy_call l → ∃ texts s', run_calls l zero_lib = Ok texts s' ∧ length texts = length l.
Proof.
  intros Hl. destruct (wp_elim _ _ _ (wp_run_calls l _ lib_inv_zero Hl)) as (texts & s' & E & _ & Ha).
  exists texts, s'. split; [done|]. by eapply answers_length.
Qed.

(** C25. What the calls answer, wherever they stand in a sequence.  A call by
    kinds prints an opcode of one of the kinds asked for, from the instruction
    set asked for (or number 0 when there is none); a call by name prints that
    opcode.  The printed word carries all fixed bits of the opcode, those of
    the unconditional opcodes too, and in a conditional opcode the condition
    asked for, or 3 where the offset register is rotated through the carry; the
    text is the head line and the lines of the last attempt, with the encoding
    of the word as last line when the status is [VALID], and such a word meets
    the restrictions of its opcode.  For an unknown name the text is the one of
    the call before. *)
Theorem lib_calls_answers (l : list call) (texts : list string) (s' : lib_state) :
  Forall roomy_call l → run_calls l zero_lib = Ok texts s' → answers l EmptyString texts.
Proof.
  intros Hl E. destruct (wp_elim _ _ _ (wp_run_calls l _ lib_inv_zero Hl)) as (texts' & s'' & E' & _ & Ha).
  rewrite E in E'. by injection E' as <- <-.
Qed.

(** C29. Asking for sp as destination destroys two opcodes: for POP_T2 and
    LDM_T2, whose register list has no sp, [update_instr_reg_opnd] sets bit 28
    of the word instead, so whatever was called before, and whatever the other
    parameters are, the word that the call prints for the opcode is not an
    encoding of it. *)
Theorem sp_list_never_encoded (l : list call) (texts : list string) (s s' : lib_state)
    (str : string) (hexcode cond sbit src_reg seed : Z) (text : string) :
  Forall roomy_call l → run_calls l zero_lib = Ok texts s → str ∈ ["POP_T2"; "LDM_T2"] →
  py_gen_instr_with_op str hexcode cond sbit src_reg 13 seed s = Ok text s' →
  ∃ op st raw body, (instr_desc op).(name) = Some str
    ∧ text = head_line_1 op raw st +:+ lines_text body ∧ ¬ op_matches op raw.
Proof.
  intros Hl E Hs E'.
  destruct (wp_elim _ _ _ (wp_run_calls l _ lib_inv_zero Hl)) as (texts' & s'' & E1 & Hinv & _).
  rewrite E in E1. injection E1 as <- <-.
  assert (roomy_name (Some str) ∧ known str) as [Hr Hk].
  { apply list_elem_of_In in Hs as [<- |[<- |[]]]; (split; [by split|]);
      [by exists SISA_OP_POP_T2|by exists SISA_OP_LDM_T2]. }
  destruct (wp_elim _ _ _ (wp_py_gen_instr_with_op str hexcode cond sbit src_reg 13 seed s Hinv (or_introl Hr)))
    as (text' & s2 & E2 & _ & _ & Ha). rewrite E' in E2. injection E2 as <- <-.
  destruct Ha as [(op & st & raw & Hn & Hc)|[Hk' _]]; [|done].
  destruct Hc as [Hop _ _ Hsp _ (body & Ht & _) _]. exists op, st, raw, body.
  split; [done|]. split; [done|]. apply Hsp. by apply (sp_list_name op str).
Qed.
End api.

(** ** 6. Witnesses *)

Definition out_value {S A} (a : A) (o : outcome S A) : A :=
  match o with Ok v _ => v | Abort _ => a end.

Definition demo_calls : list call :=
  [CallKind 1 "ALU_OP" 0x12345678 14 1 1 2 77; CallOp "no_such_opcode" 0 14 0 16 16 3;
   CallOp "LDR_reg" 0x00100060 14 1 1 2 77].

Lemma lib_calls_safe_witness :
  ∃ texts s', run_calls (Env := lcg_env_1) demo_calls zero_lib = Ok texts s'
    ∧ length texts = length demo_calls.
Proof. apply (lib_calls_safe (Env := lcg_env_1) demo_calls). repeat constructor; intros [=]. Defined.

(** The unknown name repeats the first text. *)
Definition demo_texts : list string :=
  let first := "[INFO] VALID ADD_imm_T3 f1125278" +:+ nl +:+ "[INST] .inst.w 0xf1125278" +:+ nl in
  [first; first].

Lemma lib_calls_answers_witness : answers (Env := lcg_env_1) (take 2 demo_calls) EmptyString demo_texts.
Proof.
  apply (lib_calls_answers (Env := lcg_env_1) (take 2 demo_calls) demo_texts
    (out_state zero_lib (run_calls (Env := lcg_env_1) (take 2 demo_calls) zero_lib))).
  - repeat constructor; intros [=].
  - vm_compute. reflexivity.
Defined.

Lemma sp_list_never_encoded_witness :
  let text := "[INFO] VALID POP_T2 f8bd000f" +:+ nl +:+ "[INST] mov r2, r13" +:+ nl
    +:+ "[CODE] ldr r0, =0xfc000003" +:+ nl +:+ "[CODE] bics r2, r0" +:+ nl
    +:+ "[CODE] ldr r0, =0x3fc0000" +:+ nl +:+ "[CODE] orrs r2, r0" +:+ nl
    +:+ "[INST] bic r2, r2, #3" +:+ nl +:+ "[INST] mov r13, r2" +:+ nl
    +:+ "[INST] .inst.w 0xf8bd000f" +:+ nl in
  ∃ op st raw body, (instr_desc op).(name) = Some "POP_T2"
    ∧ text = head_line_1 op raw st +:+ lines_text body ∧ ¬ op_matches op raw.
Proof.
  intros text. pose (r := py_gen_instr_with_op (Env := lcg_env_1) "POP_T2" 0x1234000f 14 1 1 13 77 zero_lib).
  refine (sp_list_never_encoded (Env := lcg_env_1) [] [] zero_lib (out_state zero_lib r)
    "POP_T2" 0x1234000f 14 1 1 77 text _ _ _ _).
  - constructor.
  - reflexivity.
  - repeat constructor.
  - vm_compute. reflexivity.
Defined.

(** The entry point by name also forgets the S bit: after a call for a Thumb
    instruction the parameter has no effect on an ARM opcode. *)
Theorem sbit_ignored_after_thumb :
  let add := CallOp "ADD_reg" 1 14 1 16 16 3 in
  let text word := "[INFO] VALID ADD_reg " +:+ word +:+ nl +:+ "[INST] .inst 0x" +:+ word +:+ nl in
  out_value [] (run_calls (Env := lcg_env_1) [add] zero_lib) = [text "e0900001"]
  ∧ out_value [] (run_calls (Env := lcg_env_1) [CallKind 1 "ALU_OP" 5 14 1 1 2 77; add] zero_lib) !! 1%nat
    = Some (text "e0800001").
Proof. split; vm_compute; reflexivity. Qed.
