(* ===== verification/V1Overrun.v ===== *)
(** * The earlier library: an overrun that depends on the calls before

    The entry point by name does not set the instruction set.  After a call for a
    Thumb instruction LDRD_reg and STRD_reg are generated under Thumb, and for a
    base register above r7 they need nine lines of the eight that there are. *)
From S2P Require Import Prelude RitCommon InstrTable State InstrUtil InstrBuf Keeps GenHelper GenARMInstr ValidBias ValidSpec ValidMem EncodeBits EncodeSpec RandomInstrGen Attempt Loop Output Api Overrun V1State V1Encode V1Regs V1RandomInstrGen V1InstrGenerator V1Attempt V1Loop V1Api.
#[local] Open Scope c_scope.

(** ** 1. The word *)

(** The operands of the two opcodes: base and offset. *)
Definition base_pos (op : Z) : nat := if op =? SISA_OP_LDRD_reg then SISA_INPUT0 else SISA_INPUT1.
Definition offset_pos (op : Z) : nat := if op =? SISA_OP_LDRD_reg then SISA_INPUT1 else SISA_INPUT2.

(** Classes of registers above r7 but the PC, and of destinations whose pair does
    not reach the PC. *)
Definition high_class (r : arm_regs_t) : bool := match r with R_8_12 | R_SP | R_LR => true | _ => false end.
Definition pair_class (r : arm_regs_t) : bool := match r with R_0_3 | R_4_7 | R_8_12 | R_SP => true | _ => false end.

(** The registers of the word are the ones that were asked for. *)
Definition pair_word (op w : Z) : Prop :=
  is_u32 w ∧ 7 < Rn w < 15 ∧ 0 ≤ Rm w ≤ 3 ∧ (op = SISA_OP_LDRD_reg → 0 ≤ Rt w < 14).

Lemma pair_word_roomless o op w :
  pair_reg op → o.(RitCommon.isa) = ISA_THUMB → opt_stat o OPT_NOT_ALLOW_FIX_MEM = false → pair_word op w → roomless o op w = true.
Proof.
  intros Hop Hi Hf (_ & Hn & Hm & Ht). unfold roomless, pair_refused, RitCommon.R_PC.
  rewrite Hi, Hf, (proj2 (Z.ltb_lt 7 _)), (proj2 (Z.eqb_neq (Rn w) 15)), (proj2 (Z.eqb_neq (Rm w) _)) by lia.
  cbn [negb andb orb]. rewrite andb_true_r. apply negb_true_iff. destruct (Z.eqb_spec op SISA_OP_LDRD_reg) as [E|]; [|done].
  specialize (Ht E). rewrite u32_small by (unfold is_u32; lia). rewrite !(proj2 (Z.eqb_neq _ _)) by lia. done.
Qed.

Section word.
Context `{Env : !RitEnv}.

(** Two fields are replaced. *)
Lemma wp_two_regs op i j r1 r2 s :
  gpr_field op i = true → gpr_field op j = true → clear_of (field op j) (field op i) = true → is_u32 s.(raw_instr) →
  wp (update_instr_reg_opnd op i r1 ;; update_instr_reg_opnd op j r2)
     (λ _ s', ∃ p w, s' = st_raw_instr w (st_rand_pos p s) ∧ is_u32 w ∧ in_class r1 (regnum w op i) ∧ in_class r2 (regnum w op j)) s.
Proof.
  intros Hi Hj Hc Hu. apply wp_bind. eapply wp_mono; [by apply wp_update_gpr|]. intros _ s1 (p1 & v1 & Hv1 & ->).
  eapply wp_mono; [by apply wp_update_gpr|]. intros _ s2 (p2 & v2 & Hv2 & ->).
  assert (is_u32 (set_instr_val s.(raw_instr) (field op i).1 (field op i).2 v1)) as Hu1 by auto with rit.
  eexists p2, _. split; [reflexivity|]. cbn [raw_instr st_raw_instr st_rand_pos]. split; [auto with rit|]. split.
  - rewrite regnum_set_other by done. rewrite regnum_set_same; [done|done|done|by eapply in_class_range].
  - rewrite regnum_set_same; [done|done|done|by eapply in_class_range].
Qed.

Lemma seq_rets {S} (m1 m2 : M S unit) s : (m1 ;; m2 ;; mret tt ;; mret tt ;; mret tt) s = (m1 ;; m2) s.
Proof. unfold mbind, M_bind. destruct (m1 s) as [? s1|]; [|done]. by destruct (m2 s1) as [[] ?|]. Qed.

Lemma wp_pair_sources op src s :
  pair_reg op → high_class src = true → is_u32 s.(raw_instr) →
  wp (set_src_regs op src) (λ _ s', ∃ p w, s' = st_raw_instr w (st_rand_pos p s) ∧ is_u32 w
    ∧ in_class src (regnum w op (base_pos op)) ∧ in_class R_0_3 (regnum w op (offset_pos op))) s.
Proof.
  intros Hop Hsrc Hu. assert (regs_eqb src R_DEFAULT = false ∧ regs_eqb src R_0_3 = false) as [E1 E2] by by destruct src.
  unfold set_src_regs. rewrite E1. cbn [negb when].
  assert (set_mem_src_reg op src s = (update_instr_reg_opnd op (base_pos op) src ;; update_instr_reg_opnd op (offset_pos op) R_0_3) s) as E.
  { destruct Hop as [-> | ->].
    - change (set_mem_src_reg SISA_OP_LDRD_reg src) with (update_instr_reg_opnd SISA_OP_LDRD_reg SISA_INPUT0 src ;;
        update_instr_reg_opnd SISA_OP_LDRD_reg SISA_INPUT1 (if regs_eqb src R_0_3 then R_4_7 else R_0_3) ;; mret tt ;; mret tt ;; mret tt).
      rewrite E2. apply seq_rets.
    - change (set_mem_src_reg SISA_OP_STRD_reg src) with (update_instr_reg_opnd SISA_OP_STRD_reg SISA_INPUT1 src ;;
        update_instr_reg_opnd SISA_OP_STRD_reg SISA_INPUT2 (if regs_eqb src R_0_3 then R_4_7 else R_0_3) ;; mret tt ;; mret tt ;; mret tt).
      rewrite E2. apply seq_rets. }
  assert (is_mem_kind (instr_desc op).(op_kind) = true) as -> by by destruct Hop as [-> | ->].
  unfold wp. rewrite E. destruct Hop as [-> | ->]; (apply wp_two_regs; [vm_compute; reflexivity..|done]).
Qed.
(** Bit 14 is not one of the base and offset registers, and without it the
    transfer register is not above r11. *)
Lemma clear_bit_14 w :
  is_u32 w → let w' := set_instr_val w 14 14 0 in
  is_u32 w' ∧ Rn w' = Rn w ∧ Rm w' = Rm w ∧ 0 ≤ Rt w' < 12.
Proof.
  intros Hu w'. assert (is_u32 w') as Hu' by (unfold w'; auto with rit). split; [done|].
  split; [apply get_set_other; try done; unfold disjoint_fields; lia|].
  split; [apply get_set_other; try done; unfold disjoint_fields; lia|].
  assert (0 ≤ Rt w' < 16) as Hr by (apply (get_bits_value_range w' 12 15); unfold is_u32 in *; lia).
  assert (Z.testbit (Rt w') 2 = false) as Hb.
  { change (Rt w') with (get_bits_value w' 12 15). rewrite testbit_get_bits_value by lia. unfold w'.
    by rewrite testbit_set_instr_val by (lia || done). }
  split; [lia|]. destruct (Z.lt_ge_cases (Rt w') 12); [done|]. exfalso.
  assert (Rt w' = 12 ∨ Rt w' = 13 ∨ Rt w' = 14 ∨ Rt w' = 15) as [E|[E|[E|E]]] by lia; by rewrite E in Hb.
Qed.

Lemma wp_pair_dest op dst s :
  pair_reg op → (op = SISA_OP_LDRD_reg → pair_class dst = true) → is_u32 s.(raw_instr) →
  wp (set_dst_regs op dst) (λ _ s', ∃ p w, s' = st_raw_instr w (st_rand_pos p s) ∧ is_u32 w
    ∧ Rn w = Rn s.(raw_instr) ∧ Rm w = Rm s.(raw_instr) ∧ (op = SISA_OP_LDRD_reg → 0 ≤ Rt w < 14)) s.
Proof.
  intros Hop Hdst Hu. unfold set_dst_regs. destruct (regs_eqb dst R_DEFAULT) eqn:Ed; cbn [negb when].
  { apply wp_ret. exists s.(rand_pos), s.(raw_instr). split; [by destruct s|]. split; [done|]. do 2 (split; [done|]).
    intros E. specialize (Hdst E). by destruct dst. }
  apply wp_bind. eapply wp_mono; [apply (wp_revise_loop op dst outputs s); [by destruct Hop as [-> | ->]..|done]|].
  intros _ s1 (p & w & -> & Hw & Hin & Hout).
  assert (Rn w = Rn s.(raw_instr) ∧ Rm w = Rm s.(raw_instr)) as [En Em].
  { destruct Hop as [-> | ->]; (split; [|]).
    - exact (Hout SISA_INPUT0 eq_refl eq_refl).
    - exact (Hout SISA_INPUT1 eq_refl eq_refl).
    - exact (Hout SISA_INPUT1 eq_refl eq_refl).
    - exact (Hout SISA_INPUT2 eq_refl eq_refl). }
  assert (op = SISA_OP_LDRD_reg → in_class dst (Rt w)) as Ht.
  { intros ->. exact (Hin SISA_OUTPUT0 ltac:(by left) eq_refl). }
  assert (wp (mret tt) (λ _ s', ∃ p w, s' = st_raw_instr w (st_rand_pos p s) ∧ is_u32 w
    ∧ Rn w = Rn s.(raw_instr) ∧ Rm w = Rm s.(raw_instr) ∧ (op = SISA_OP_LDRD_reg → dst ≠ R_8_12 → 0 ≤ Rt w < 14)) (st_raw_instr w (st_rand_pos p s))) as Hret.
  { apply wp_ret. exists p, w. do 4 (split; [done|]). intros E Hn. specialize (Ht E). specialize (Hdst E). destruct dst; cbn in *; try done; lia. }
  destruct (regs_eqb dst R_8_12) eqn:E8; cbn [when]; cycle 1.
  { eapply wp_mono; [exact Hret|]. cbv beta. intros _ s' (p' & w' & E & Hu' & H1 & H2 & H3). exists p', w'. do 4 (split; [done|]).
    intros El. apply H3; [done|]. intros ->. done. }
  destruct Hop as [-> | ->].
  - change (op_in SISA_OP_LDRD_reg [SISA_OP_LDRD_reg; SISA_OP_LDRD_imm; SISA_OP_LDRD_lit; SISA_OP_LDREXD]) with true. cbn [when].
    apply wp_raw_set_instr; [done|]. cbn [raw_instr st_raw_instr st_rand_pos]. destruct (clear_bit_14 w Hw) as (Hu' & H1 & H2 & H3).
    eexists p, _. split; [reflexivity|]. split; [done|]. rewrite H1, H2. do 2 (split; [done|]). lia.
  - apply wp_ret. exists p, w. by do 4 (split; [done|]).
Qed.

(** All of [preprocess_instr]. *)
Lemma wp_pair_preprocess o op s :
  pair_reg op → high_class o.(src_regs) = true → (op = SISA_OP_LDRD_reg → pair_class o.(dst_regs) = true) → is_u32 s.(raw_instr) →
  wp (preprocess_instr o op) (λ _ s', pair_word op s'.(raw_instr) ∧ s'.(State.options) = s.(State.options)
    ∧ s'.(instr_idx) = s.(instr_idx) ∧ s'.(instr_buf) = s.(instr_buf)) s.
Proof.
  intros Hop Hsrc Hdst Hu. unfold preprocess_instr. apply wp_bind, wp_modify, wp_bind.
  set (s0 := st_reg_init_vals _ _).
  refine (wp_intro _ _ _ _ _ (fix_unpredictable_bit_same op s0 (pair_bounds op Hop) Hu) _).
  set (raw1 := foldl run_act _ _). assert (is_u32 raw1) as Hu1 by by apply is_u32_run_acts.
  apply wp_bind. eapply wp_mono; [by apply wp_pair_sources|]. intros _ s2 (p2 & w2 & -> & Hw2 & Hb & Ho).
  apply wp_bind. eapply wp_mono; [by apply wp_pair_dest|]. cbn [raw_instr st_raw_instr st_rand_pos].
  intros _ s3 (p3 & w3 & -> & Hw3 & En & Em & Ht).
  assert (∀ s, set_shift_reg_val o op s = Ok tt s ∧ set_shift_imm_val o op s = Ok tt s) as Hsh.
  { intros s'. unfold set_shift_reg_val, set_shift_imm_val, when. by destruct Hop as [-> | ->], (is_shift_reg_init o), (is_shift_imm_init o). }
  apply wp_bind, (wp_intro _ _ _ _ _ (proj1 (Hsh _))), (wp_intro _ _ _ _ _ (proj2 (Hsh _))). cbn.
  split; [|done]. split; [done|]. rewrite En, Em. destruct Hop as [-> | ->].
  - change (in_class (src_regs o) (Rn w2)) in Hb. change (in_class R_0_3 (Rm w2)) in Ho. cbn in Ho.
    split; [destruct (src_regs o); cbn in Hb; try done; lia|]. done.
  - change (in_class (src_regs o) (Rn w2)) in Hb. change (in_class R_0_3 (Rm w2)) in Ho. cbn in Ho.
    split; [destruct (src_regs o); cbn in Hb; try done; lia|]. done.
Qed.
End word.

(** ** 2. The calls *)

(** No other entry of the table has these names. *)
Lemma pair_name op op' str :
  pair_reg op → (instr_desc op).(name) = Some str → 0 ≤ op' < SISA_OP_MAX → (instr_desc op').(name) = Some str → op' = op.
Proof.
  intros Hop Hn Hr Hn'. pose proof (table_check (λ op,
      match (instr_desc op).(name) with
      | Some nm => (negb (String.eqb nm "LDRD_reg") || (op =? SISA_OP_LDRD_reg)) && (negb (String.eqb nm "STRD_reg") || (op =? SISA_OP_STRD_reg))
      | None => true
      end) ltac:(vm_compute; reflexivity) op' Hr) as H. cbv beta in H. rewrite Hn' in H.
  destruct Hop as [-> | ->]; injection Hn as <-; cbn in H; by apply Z.eqb_eq; destruct (op' =? _).
Qed.

Section calls.
Context `{Env : !RitEnv}.

Lemma overruns_shared {A} (m : rit A) s : overruns m (view_state s) → overruns (shared m) s.
Proof. unfold overruns, shared. by intros ->. Qed.

Lemma view_fixes_mem o : same_generators o = true → opt_stat (view o) OPT_NOT_ALLOW_FIX_MEM = false.
Proof.
  unfold same_generators. intros [[Hf Hr%negb_true_iff]%andb_true_iff Ho%negb_true_iff]%andb_true_iff.
  unfold opt_stat, view, view_stat. cbn [opt_status]. rewrite Hf, Hr, Ho. by destruct (allow_unalign_mem o).
Qed.

(** The encoding is the ninth line. *)
Lemma gen_by_set_overruns op s :
  pair_reg op → s.(options).(isa) = ISA_THUMB → same_generators s.(options) = true → pair_word op s.(globals).(raw_instr) →
  s.(globals).(instr_idx) = 0 → buf_ok 0 s.(globals).(instr_buf) → overruns (gen_by_set op) s.
Proof.
  intros Hop Hi Hg Hw H0 Hb. unfold gen_by_set.
  rewrite (proj2 (Z.ltb_lt op SISA_OP_ARM_MAX)) by by destruct Hop as [-> | ->]. apply overruns_gets. rewrite Hi. cbn [andb].
  change (ISA_THUMB =? ISA_ARMv5) with false. cbn [andb].
  eapply (overruns_after _ _ (λ _ s1, s1.(globals).(instr_idx) = 8)).
  { eapply wp_same; [apply generator_same, arm_switch_same|]. apply wp_generator; [done|].
    eapply wp_mono; [apply (wp_gen_pair op (view_state s)); [done|done| |done]|].
    { split; [apply word_kept_refl, Hw|by cbn; rewrite H0|done]. }
    cbn [State.options view_state st_options raw_instr]. intros st t Hr. unfold room_used in Hr.
    rewrite (pair_word_roomless (view s.(options)) _ _ Hop Hi (view_fixes_mem _ Hg) Hw) in Hr. done. }
  intros st s1 E1. apply overruns_gets. eapply (overruns_after _ _ (λ _ s2, s2.(globals).(instr_idx) = 8)).
  { apply wp_shared. unfold set_cond, when. destruct (_ =? 0); [apply wp_bind, wp_modify, wp_modify|apply wp_ret]; done. }
  intros _ s2 E2. apply overruns_bind, overruns_shared, overruns_gets. unfold overruns, put_instr_line, mbind, M_bind, gets.
  cbn [instr_idx view_state st_options]. by rewrite E2.
Qed.

(** A round of the retry loop. *)
Lemma gen_round_overruns op b s :
  pair_reg op → s.(options).(isa) = ISA_THUMB → same_generators s.(options) = true → is_u32 s.(globals).(raw_instr) →
  high_class s.(options).(src_regs) = true → (op = SISA_OP_LDRD_reg → pair_class s.(options).(dst_regs) = true) →
  length s.(globals).(instr_buf) = 8%nat → Forall line_ok s.(globals).(instr_buf) → overruns (gen_round op b) s.
Proof.
  intros Hop Hi Hg Hu Hsrc Hdst Hlen Hl. unfold gen_round. apply overruns_gets.
  eapply (overruns_after _ _ (λ _ s1, s1.(options) = s.(options) ∧ is_u32 s1.(globals).(raw_instr)
    ∧ s1.(globals).(instr_buf) = s.(globals).(instr_buf))).
  { apply wp_shared_keep. eapply wp_mono; [apply wp_init_instr; [by apply pair_bounds|done]|].
    intros _ t (p & r & -> & Hr). split; [done|]. cbn. split; [done|]. split; [apply Hr|done]. }
  intros _ s1 (O1 & U1 & B1). unfold gen_instr.
  eapply (overruns_after _ _ (λ _ s2, s2.(options) = s.(options) ∧ is_u32 s2.(globals).(raw_instr)
    ∧ s2.(globals).(instr_buf) = s.(globals).(instr_buf) ∧ s2.(globals).(instr_idx) = 0)).
  { apply wp_shared_keep, wp_modify. split; [done|]. by cbn. }
  intros _ s2 (O2 & U2 & B2 & I2).
  eapply (overruns_after _ _ (λ _ s3, s3.(options) = s.(options) ∧ is_u32 s3.(globals).(raw_instr)
    ∧ s3.(globals).(instr_buf) = s.(globals).(instr_buf) ∧ s3.(globals).(instr_idx) = 0)).
  { apply wp_shared_keep, wp_modify. split; [done|]. by cbn. }
  intros _ s3 (O3 & U3 & B3 & I3). apply overruns_gets. rewrite O3.
  eapply (overruns_after _ _ (λ _ s4, s4.(options) = s.(options) ∧ pair_word op s4.(globals).(raw_instr)
    ∧ s4.(globals).(instr_buf) = s.(globals).(instr_buf) ∧ s4.(globals).(instr_idx) = 0)).
  { apply wp_shared_keep. eapply wp_mono; [by apply wp_pair_preprocess|]. intros _ t (Hw & Ho & Hidx & Hbuf).
    split; [by rewrite Ho|]. cbn. rewrite Hidx, Hbuf. by cbn. }
  intros _ s4 (O4 & W4 & B4 & I4).
  assert (opkind_eqb (instr_desc op).(op_kind) PSEUDO_OP = false) as -> by by destruct Hop as [-> | ->].
  apply gen_by_set_overruns; by rewrite ?O4, ?B4.
Qed.

(** A call by name in a library that was last asked for a Thumb instruction. *)
Lemma named_pair_overruns op str hexcode cond sbit src dst seed s :
  ready s → s.(options).(isa) = ISA_THUMB → pair_reg op → (instr_desc op).(name) = Some str →
  8 ≤ src ≤ 14 → (op = SISA_OP_LDRD_reg → 0 ≤ dst ≤ 13) →
  overruns (py_gen_instr_with_op str hexcode cond sbit src dst seed) s.
Proof.
  intros [[Hsame Hisa Hraw Hbuf Hinit] Hin] Hi Hop Hn Hsrc Hdst. unfold py_gen_instr_with_op.
  eapply (overruns_after _ _ (λ _ s1, s1 = s)).
  { unfold init_once. apply wp_bind, wp_gets. rewrite Hin. by apply wp_ret. }
  intros _ ? ->. eapply (overruns_after _ _ (λ _ s1, s1.(options) = s.(options) ∧ s1.(globals).(instr_buf) = s.(globals).(instr_buf))).
  { apply wp_shared_keep, wp_modify. by cbn. }
  intros _ s1 [O1 B1]. eapply (overruns_after _ _ (λ _ s2, s2.(options).(isa) = ISA_THUMB ∧ same_generators s2.(options) = true
    ∧ is_u32 s2.(globals).(raw_instr) ∧ s2.(options).(src_regs) = get_reg_type src ∧ s2.(options).(dst_regs) = get_reg_type dst
    ∧ s2.(globals).(instr_buf) = s.(globals).(instr_buf))).
  { unfold set_call_options. apply wp_bind, wp_shared_keep, wp_modify. split; [done|]. do 5 (apply wp_bind, wp_modify). apply wp_modify.
    cbn. rewrite O1. split; [done|]. split; [exact (Hsame Hin)|]. split; [apply is_u32_u32|]. by rewrite B1. }
  intros _ s2 (I2 & G2 & U2 & S2 & D2 & B2). apply overruns_bind. unfold gen_random_instr. rewrite (find_pair op str Hop Hn).
  assert ((SISA_OP_ARM_MAX <? op) = false) as -> by by destruct Hop as [-> | ->]. cbn [when]. apply overruns_ret.
  unfold gen_instr_with_op.
  eapply (overruns_after _ _ (λ _ s3, s3.(options) = s2.(options) ∧ s3.(globals).(raw_instr) = s2.(globals).(raw_instr)
    ∧ s3.(globals).(instr_buf) = s2.(globals).(instr_buf))).
  { apply wp_shared_keep, wp_gets. by cbn. }
  intros raw s3 (O3 & R3 & B3). apply overruns_bind. cbn [gen_retry status_eqb]. apply overruns_bind.
  destruct Hbuf as [_ Hlen Hl]. apply gen_round_overruns; rewrite ?O3, ?R3, ?B3, ?B2, ?S2, ?D2; try done.
  - unfold get_reg_type. repeat case_match; try done; rewrite ?andb_true_iff, ?andb_false_iff, ?Z.leb_le, ?Z.leb_gt, ?Z.eqb_neq in *; lia.
  - intros E. specialize (Hdst E). unfold get_reg_type.
    repeat case_match; try done; rewrite ?andb_true_iff, ?andb_false_iff, ?Z.leb_le, ?Z.leb_gt, ?Z.eqb_eq, ?Z.eqb_neq in *; lia.
Qed.

(** A call by kinds for a Thumb instruction leaves the instruction set. *)
Lemma wp_thumb_call isa0 opkind hexcode cond sbit src dst seed s :
  lib_inv s → isa0 ≠ 0 →
  wp (py_gen_instr isa0 opkind hexcode cond sbit src dst seed) (λ _ s', ready s' ∧ s'.(options).(isa) = ISA_THUMB) s.
Proof.
  intros Hs H0. unfold py_gen_instr. apply wp_bind. eapply wp_mono; [by apply wp_init_once|].
  intros [] s1 ([Hs1 Hi1] & _ & _). apply wp_bind, wp_shared_keep, wp_modify. split; [done|]. apply wp_bind.
  rewrite (proj2 (Z.eqb_neq isa0 0)) by done. cbn [negb]. apply wp_modify.
  apply wp_bind, wp_shared_keep, wp_update_opkind_str. split; [done|].
  apply wp_bind, wp_set_call_options. cbn. intros s2 Hr2 Hi2 _ _ _ _.
  assert (ready s2) as Hs2 by (apply Hr2; destruct Hs1; split; [split; try done; cbn; auto|done]).
  apply wp_bind. unfold gen_random_instr_without_op. apply wp_bind, wp_gets, wp_bind, wp_shared_keep.
  destruct (get_random_op_draws s2.(options).(isa) (view_state s2)) as (op & p & E & Hd).
  apply (wp_intro _ _ _ _ _ E). split; [done|]. cbn in Hd.
  destruct (drawn_fits _ _ _ (li_isa _ (proj1 Hs2)) Hd) as [Hop Hfit].
  set (s3 := Mk_lib_state _ _ _). assert (ready s3) as Hs3 by (destruct Hs2 as [[] ?]; by split; [split|]).
  destruct (gen_instr_with_op_run op s3 Hs3 Hop Hfit) as (th & st & s4 & _ & He & E4).
  pose proof (wp_gen_instr_with_op op s3 Hs3 Hop Hfit) as H4. unfold wp in H4. rewrite E4 in H4. destruct H4 as [Hr4 _].
  apply (wp_intro _ _ _ _ _ E4), wp_gets. split; [done|]. cbn. destruct He as [_ _ Hisa _ _ _ _ _].
  destruct Hisa as [-> |[_ ->]]; [exact Hi2|done].
Qed.

(** Sequences of calls. *)
Lemma run_calls_app l1 l2 s :
  run_calls (l1 ++ l2) s = (t1 ← run_calls l1; t2 ← run_calls l2; mret (t1 ++ t2)) s.
Proof.
  revert s. induction l1 as [|c l1 IH]; intros s; cbn [app run_calls].
  - unfold mbind, M_bind. cbn. by destruct (run_calls l2 s).
  - unfold mbind, M_bind in *. destruct (run_call c s) as [text s1|]; [|done]. rewrite IH.
    destruct (run_calls l1 s1) as [t1 s2|]; [|done]. cbn. by destruct (run_calls l2 s2).
Qed.

End calls.

