(* ===== verification/V1Main.v ===== *)
(** * The command line of the earlier library: [main] of rit/src/InstrGenerator.c

    The executable random-instr-gen: it reads its arguments into the options,
    chooses what they leave open, generates one instruction and prints it.  The
    standard output is part of the state, without the diagnostics that
    [set_instr] prints under [--verbose] and the generators for opcodes they do
    not handle, which come before the answer. *)
From S2P Require Import Prelude RitCommon InstrTable State InstrUtil InstrBuf Keeps RandomInstrGen Output Loop Params Api ParseRIT V1State V1Encode V1RandomInstrGen V1InstrGenerator V1Attempt V1Loop V1Api.
#[local] Open Scope c_scope.

(** ** 1. Numbers *)

(** The answer of [sscanf] with one conversion: the end of the input, no
    number, or a number.  The first is -1, which the program takes for success. *)
Inductive scanned := ScanEOF | ScanNone | ScanVal (v : Z).

Definition c_space (c : Ascii.ascii) : bool :=
  let n := Z.of_nat (Ascii.nat_of_ascii c) in (n =? 32) || (9 <=? n) && (n <=? 13).

Fixpoint skip_space (str : string) : string :=
  match str with
  | String c rest => if c_space c then skip_space rest else str
  | EmptyString => EmptyString
  end.

Definition digit_value (base : Z) (c : Ascii.ascii) : option Z :=
  let n := Z.of_nat (Ascii.nat_of_ascii c) in
  let v := if (48 <=? n) && (n <=? 57) then n - 48
           else if (97 <=? n) && (n <=? 102) then n - 87
           else if (65 <=? n) && (n <=? 70) then n - 55 else base in
  if v <? base then Some v else None.

(** The value of the longest prefix of digits, [acc] being what was read. *)
Fixpoint scan_digits (base : Z) (acc : option Z) (str : string) : option Z :=
  match str with
  | EmptyString => acc
  | String c rest =>
      match digit_value base c with
      | Some d => scan_digits base (Some (base * default 0 acc + d)) rest
      | None => acc
      end
  end.

(** An optional minus (45) or plus (43), and the digits. *)
Definition scan_sign (scan : string → option Z) (str : string) : option Z :=
  match str with
  | String c rest =>
      if Ascii.eqb c (Ascii.ascii_of_nat 45) then Z.opp <$> scan rest
      else if Ascii.eqb c (Ascii.ascii_of_nat 43) then scan rest else scan str
  | EmptyString => None
  end.

(** [0x] before the digits of [%x]. *)
Definition scan_hex (str : string) : option Z :=
  if String.prefix "0x" str || String.prefix "0X" str then scan_digits 16 (Some 0) (str_drop 2 str)
  else scan_digits 16 None str.

(** [long] has 64 bits; a number it does not hold is replaced by the nearest. *)
Definition clip (lo hi v : Z) : Z := Z.max lo (Z.min hi v).

(** [strtoul], which [%x] converts with: a number whose magnitude is too large
    becomes the largest, also after a minus. *)
Definition clip_unsigned (hi v : Z) : Z := if hi <? Z.abs v then hi else v.

Definition scan_num (conv : string → option Z) (limit : Z → Z) (str : string) : scanned :=
  match skip_space str with
  | EmptyString => ScanEOF
  | str => match conv str with Some v => ScanVal (u32 (limit v)) | None => ScanNone end
  end.

(** [sscanf(str, "%d", &x)] and [sscanf(str, "%x", &x)] *)
Definition sscanf_d : string → scanned := scan_num (scan_sign (scan_digits 10 None)) (clip (- 2 ^ 63) (2 ^ 63 - 1)).
Definition sscanf_x : string → scanned := scan_num (scan_sign scan_hex) (clip_unsigned (2 ^ 64 - 1)).

(** ** 2. The program *)

Record main_state := Mk_main {
  m_lib : lib_state;
  m_out : string;
  rand_init : bool;
  input_opcode : option string
}.
Abbreviation prog := (M main_state).

Definition in_lib {A} (m : lib A) : prog A := λ s,
  match m s.(m_lib) with
  | Ok a l => Ok a (Mk_main l s.(m_out) s.(rand_init) s.(input_opcode))
  | Abort w => Abort w
  end.
Definition printf (text : string) : prog unit :=
  modify (λ s, Mk_main s.(m_lib) (s.(m_out) +:+ text) s.(rand_init) s.(input_opcode)).
Definition set_option (f : gen_option_t → gen_option_t) : prog unit := in_lib (set_opt f).

(** What follows an option: nothing more, an argument, an argument and one that
    is skipped, or the end of the program. *)
Inductive arg_act :=
  | Exit (code : Z) (m : prog unit)
  | Flag (m : prog unit)
  | WithArg (f : string → prog unit)
  | WithArgSkip (f : string → prog unit).

Definition print_help : prog unit := printf (lines_text [
  "Usage: ./random-instr-gen [OPTIONS] opcode";
  "Generate one random instruction.";
  "    -h, --help                  print help message";
  "    --verbose                   print verbose info";
  "    -i, --isa [armv5|armv7|thumb] instruction set(default arm)";
  "    --arch-version [5|7]        arch version of instruction(default 7)";
  "    --seed <num>                seed used to init srand";
  "    --hex hexcode               generate instruction with given hex code";
  "    --cond-val <num>            exec condition of instruction(default 14)";
  "    --with-opkind opkinds       choose opcode with given opkinds";
  "    --without-opkind opkinds    choose opcode without given opkinds";
  "    --set-sbit                  set s bit in instruction";
  "    --unset-sbit                unset s bit in instruction";
  "    --src-regs <regtype>        src_regs";
  "    --dst-regs <regtype>        dst_regs";
  "    --shift-imm <num>           shift_imm_range";
  "    --shift-reg <num>           shift_reg_range";
  "    --mem-base <num>            base limit for memory instruction";
  "    --mem-base-mask <num>       mask for memory instruction base register";
  "    --mem-offset <num>          offset limit for memory instruction"]).

Section main.
Context `{Env : !RitEnv}.

Definition is_hex (a : string) : bool := String.prefix "0x" a || String.prefix "0X" a.

(** [if (sscanf(...)) yes else no]: at the end of the input the variable keeps
    what was in its place on the stack. *)
Definition scan_if (r : scanned) (yes : Z → prog unit) (no : prog unit) : prog unit :=
  match r with
  | ScanVal v => yes v
  | ScanEOF => yes (u32 (uninit_u32 0))
  | ScanNone => no
  end.

Definition opt_is (l : list string) (a : string) : bool := existsb (String.eqb a) l.

Definition parse_isa (a : string) : prog unit :=
  if opt_is ["armv5"] a then set_option (opt_isa ISA_ARMv5)
  else if opt_is ["armv7"] a then set_option (opt_isa ISA_ARMv7)
  else if opt_is ["thumb"] a then set_option (opt_isa ISA_THUMB)
  else if opt_is ["arm"] a then set_option (opt_isa ISA_ARMv7)
  else printf ("[WARNING] unknown isa option" +:+ nl +:+ ".").

Definition parse_arch_version (a : string) : prog unit :=
  if opt_is ["5"] a then set_option (opt_arch_version 5)
  else if opt_is ["7"] a then set_option (opt_arch_version 7)
  else printf ("[WARNING] arch_version " +:+ a +:+ nl).

Definition parse_seed (a : string) : prog unit :=
  scan_if (sscanf_d a)
    (λ seed_num,
      printf ("seed_num " +:+ fmt_x seed_num +:+ nl) ;;
      in_lib (shared (srand seed_num)) ;;
      modify (λ s, Mk_main s.(m_lib) s.(m_out) true s.(input_opcode)))
    (mret tt).

Definition parse_hex (a : string) : prog unit :=
  when (is_hex a)
    (scan_if (sscanf_x (str_drop 2 a))
      (λ instr, in_lib (shared (set_raw_instr instr)))
      (printf ("[WARNING] unknown hex instr " +:+ a +:+ nl))).

Definition parse_cond_val (a : string) : prog unit :=
  scan_if (sscanf_d a)
    (λ new_cond,
      (if new_cond <=? 14 then set_option (opt_cond_val new_cond) else set_option (opt_cond_val 14)) ;;
      set_option (opt_is_cond_init true))
    (printf ("[WARNING] unknown instr cond code " +:+ a +:+ nl)).

(** [--src-regs] and [--dst-regs], which differ in the field they set. *)
Definition parse_regs (which : string) (set : arm_regs_t → gen_option_t → gen_option_t) (a : string) : prog unit :=
  if opt_is ["0-3"] a then set_option (set R_0_3)
  else if opt_is ["4-7"] a then set_option (set R_4_7)
  else if opt_is ["8-12"] a then set_option (set R_8_12)
  else if opt_is ["13"; "sp"] a then set_option (set R_SP)
  else if opt_is ["14"; "lr"] a then set_option (set R_LR)
  else if opt_is ["15"; "pc"] a then set_option (set R_PC)
  else
    printf ("[WARNING] unknown " +:+ which +:+ "-regs type" +:+ nl) ;;
    set_option (set R_DEFAULT).

(** A number in either notation, for [--shift-imm] and [--shift-reg]. *)
Definition parse_shift (set_init : bool → gen_option_t → gen_option_t)
    (set_val : Z → gen_option_t → gen_option_t) (a : string) : prog unit :=
  scan_if (if is_hex a then sscanf_x (str_drop 2 a) else sscanf_d a)
    (λ tmp_imm, set_option (set_init true) ;; set_option (set_val tmp_imm))
    (mret tt).

(** [--mem-base] and [--mem-base-mask]. *)
Definition parse_mem_base (warning : string) (set : Z → gen_option_t → gen_option_t) (a : string) : prog unit :=
  if is_hex a then scan_if (sscanf_x (str_drop 2 a)) (λ tmp_imm, set_option (set tmp_imm)) (mret tt)
  else printf ("[WARNING] " +:+ warning +:+ nl).

Definition parse_mem_offset (a : string) : prog unit :=
  scan_if (sscanf_d a) (λ new_mem_offset, set_option (opt_mem_offset_val new_mem_offset))
    (printf ("[WARNING] unknown max-mem-offset " +:+ a +:+ nl)).

(** The chain of comparisons. *)
Definition main_option (a : string) : arg_act :=
  if opt_is ["--help"; "-h"] a then Exit 0 print_help
  else if opt_is ["--verbose"] a then Flag (set_option (opt_verbose 1))
  else if opt_is ["--isa"; "-i"] a then WithArg parse_isa
  else if opt_is ["--arch_version"] a then WithArg parse_arch_version
  else if opt_is ["--seed"] a then WithArg parse_seed
  else if opt_is ["--hex"] a then WithArg parse_hex
  else if opt_is ["--cond-val"] a then WithArg parse_cond_val
  else if opt_is ["--with-opkind"] a then WithArg (λ b, in_lib (shared (update_opkind_str b true)))
  else if opt_is ["--without-opkind"] a then WithArg (λ b, in_lib (shared (update_opkind_str b false)))
  else if opt_is ["--set-sbit"] a then
    Flag (set_option (opt_is_sbit_init true) ;; set_option (opt_sbit_val 1))
  else if opt_is ["--unset-sbit"] a then
    Flag (set_option (opt_is_sbit_init true) ;; set_option (opt_sbit_val 0))
  else if opt_is ["--src-regs"] a then WithArg (parse_regs "src" opt_src_regs)
  else if opt_is ["--dst-regs"] a then WithArg (parse_regs "dst" opt_dst_regs)
  else if opt_is ["--allow_unalign_mem"] a then Flag (set_option (opt_allow_unalign_mem true))
  else if opt_is ["--shift-imm"] a then WithArgSkip (parse_shift opt_is_shift_imm_init opt_shift_imm_val)
  else if opt_is ["--shift-reg"] a then WithArg (parse_shift opt_is_shift_reg_init opt_shift_reg_val)
  else if opt_is ["--mem-base"] a then WithArg (parse_mem_base "unknown mem-base val" opt_mem_base_val)
  else if opt_is ["--mem-base-mask"] a then WithArg (parse_mem_base "unknwon mem-base-make" opt_mem_base_mask)
  else if opt_is ["--mem-offset"] a then WithArg parse_mem_offset
  else if opt_is ["--"; "-"] a then
    Exit 1 (printf ("[WARNING] unknown option " +:+ a +:+ nl) ;; print_help)
  else Flag
    (modify (λ s, Mk_main s.(m_lib) s.(m_out) s.(rand_init) (Some a)) ;;
     set_option (opt_allow_all_instr true)).

(** The [for] loop.  The answer is the code of a [return] inside it; the
    argument after the last one is a null pointer. *)
Fixpoint main_loop (args : list string) : prog (option Z) :=
  match args with
  | [] => mret None
  | a :: rest =>
      match main_option a with
      | Exit code m => m ;; mret (Some code)
      | Flag m => m ;; main_loop rest
      | WithArg f => match rest with [] => fail NullDeref | b :: rest => f b ;; main_loop rest end
      | WithArgSkip f =>
          match rest with
          | [] => fail NullDeref
          | b :: rest => f b ;; match rest with [] => mret None | _ :: rest => main_loop rest end
          end
      end
  end.

(** The condition, where no argument gives one. *)
Definition random_cond : prog unit :=
  o ← gets (λ s, s.(m_lib).(options));
  when (negb o.(is_cond_init))
    (r ← in_lib (shared rand);
     set_option (opt_cond_val (r mod 28)) ;;
     when (13 <? r mod 28) (set_option (opt_cond_val 14))).

(** [gen_random_instr] with its warning. *)
Definition main_gen (op : option string) : prog unit :=
  match op with
  | Some str =>
      in_lib (gen_random_instr str) ;;
      when (match find (name_is str) (seqZ 1 (SISA_OP_MAX - 1)) with Some _ => false | None => true end)
        (printf ("[WARNING] Fail to find opcode for " +:+ str +:+ nl))
  | None => in_lib gen_random_instr_without_op
  end.

(** What follows the loop. *)
Definition main_run : prog Z :=
  seeded ← gets rand_init;
  when (negb seeded) (in_lib (shared (srand time_seed))) ;;
  random_cond ;;
  op ← gets input_opcode;
  main_gen op ;;
  text ← gets (λ s, s.(m_lib).(globals).(print_buf));
  printf text ;;
  mret 0.

(** [args] is [argv] without the name of the program; the answer is the exit
    status. *)
Definition main (args : list string) : prog Z :=
  in_lib init_once ;;
  code ← main_loop args;
  match code with Some code => mret code | None => main_run end.
End main.

Definition zero_main : main_state := Mk_main zero_lib EmptyString false None.

(** ** 3. What a command line asks for *)

(** The request that the arguments describe. *)
Record request := Mk_request {
  rq_op : option string;
  rq_isa : Z;
  rq_kinds : list bool;
  rq_cond : option Z;
  rq_dst : arm_regs_t
}.

(** A command line lacks the argument of its last option, stops at an option
    with an exit status, or describes a request. *)
Inductive reading := Missing | Stops (code : Z) | Runs (q : request).

Definition rq_set_op (str : string) (q : request) : request :=
  Mk_request (Some str) q.(rq_isa) q.(rq_kinds) q.(rq_cond) q.(rq_dst).
Definition rq_set_isa (v : Z) (q : request) : request :=
  Mk_request q.(rq_op) v q.(rq_kinds) q.(rq_cond) q.(rq_dst).
Definition rq_set_kinds (l : list bool) (q : request) : request :=
  Mk_request q.(rq_op) q.(rq_isa) l q.(rq_cond) q.(rq_dst).
Definition rq_set_cond (c : Z) (q : request) : request :=
  Mk_request q.(rq_op) q.(rq_isa) q.(rq_kinds) (Some c) q.(rq_dst).
Definition rq_set_dst (r : arm_regs_t) (q : request) : request :=
  Mk_request q.(rq_op) q.(rq_isa) q.(rq_kinds) q.(rq_cond) r.

Definition isa_names : list (string * Z) :=
  [("armv5", ISA_ARMv5); ("armv7", ISA_ARMv7); ("thumb", ISA_THUMB); ("arm", ISA_ARMv7)].
Definition reg_names : list (string * arm_regs_t) :=
  [("0-3", R_0_3); ("4-7", R_4_7); ("8-12", R_8_12); ("13", R_SP); ("sp", R_SP);
   ("14", R_LR); ("lr", R_LR); ("15", R_PC); ("pc", R_PC)].
Definition named {A} (l : list (string * A)) (a : string) : option A :=
  snd <$> find (λ p, String.eqb a p.1) l.

Definition stop_code (a : string) : option Z :=
  if opt_is ["--help"; "-h"] a then Some 0 else if opt_is ["--"; "-"] a then Some 1 else None.
Definition takes_arg : string → bool :=
  opt_is ["--isa"; "-i"; "--arch_version"; "--seed"; "--hex"; "--cond-val"; "--with-opkind"; "--without-opkind";
          "--src-regs"; "--dst-regs"; "--shift-reg"; "--mem-base"; "--mem-base-mask"; "--mem-offset"].
Definition is_flag : string → bool :=
  opt_is ["--verbose"; "--set-sbit"; "--unset-sbit"; "--allow_unalign_mem"].

Section readings.
Context `{Env : !RitEnv}.

(** The flags after kinds are removed. *)
Definition without_kinds (str : string) (l : list bool) : list bool :=
  default [] (opkind_loop (S (String.length str)) str false l).

(** An option with its argument. *)
Definition read_arg (a b : string) (q : request) : request :=
  if opt_is ["--isa"; "-i"] a then from_option (λ v, rq_set_isa v q) q (named isa_names b)
  else if opt_is ["--cond-val"] a then
    match sscanf_d b with
    | ScanVal v => rq_set_cond (Z.min v 14) q
    | ScanEOF => rq_set_cond (Z.min (u32 (uninit_u32 0)) 14) q
    | ScanNone => q
    end
  else if opt_is ["--with-opkind"] a then rq_set_kinds (kinds_of b) q
  else if opt_is ["--without-opkind"] a then rq_set_kinds (without_kinds b q.(rq_kinds)) q
  else if opt_is ["--dst-regs"] a then rq_set_dst (default R_DEFAULT (named reg_names b)) q
  else q.

Fixpoint read_args (q : request) (args : list string) : reading :=
  match args with
  | [] => Runs q
  | a :: rest =>
      match stop_code a with
      | Some code => Stops code
      | None =>
          if takes_arg a then match rest with [] => Missing | b :: rest => read_args (read_arg a b q) rest end
          else if opt_is ["--shift-imm"] a then
            match rest with [] => Missing | [_] => Runs q | _ :: _ :: rest => read_args q rest end
          else read_args (if is_flag a then q else rq_set_op a q) rest
      end
  end.

(** Without arguments. *)
Definition default_request : request :=
  Mk_request None ISA_ARMv5 (kinds_of default_opkinds) None R_DEFAULT.
End readings.

(** ** 4. The loop reads the command line *)

Lemma opt_is_elim l a : opt_is l a = true → a ∈ l.
Proof. intros (b & Hb & ->%String.eqb_eq)%existsb_exists. by apply list_elem_of_In. Qed.

Section loop.
Context `{Env : !RitEnv}.

(** The options that carry a request out. *)
Record req_opts (q : request) (o : gen_option_t) : Prop := {
  ro_same : same_generators o = true;
  ro_isa : o.(isa) = q.(rq_isa);
  ro_isas : q.(rq_isa) = ISA_ARMv5 ∨ q.(rq_isa) = ISA_ARMv7 ∨ q.(rq_isa) = ISA_THUMB;
  ro_dst : o.(dst_regs) = q.(rq_dst);
  ro_cond : match q.(rq_cond) with
            | Some c => o.(is_cond_init) = true ∧ o.(cond_val) = c
            | None => o.(is_cond_init) = false
            end
}.

(** The state of the program when it has read the request [q]. *)
Record holds (q : request) (s : main_state) : Prop := {
  ho_ready : ready s.(m_lib);
  ho_text : s.(m_lib).(globals).(print_buf) = EmptyString;
  ho_kinds : s.(m_lib).(globals).(opkind_list) = q.(rq_kinds);
  ho_op : s.(input_opcode) = q.(rq_op);
  ho_opts : req_opts q s.(m_lib).(options)
}.

Lemma holds_options q q' s o' out ri :
  holds q s → req_opts q' o' → q'.(rq_kinds) = q.(rq_kinds) → q'.(rq_op) = q.(rq_op) →
  holds q' (Mk_main (Mk_lib_state o' s.(m_lib).(init_option) s.(m_lib).(globals)) out ri s.(input_opcode)).
Proof.
  intros [[[Hsame Hisa Hraw Hbuf Hinit] Hi] Ht Hk Ho _] Hq' Ek Eo. pose proof Hq' as [H1 H2 H3 _ _].
  split; cbn; try congruence. split; [|done]. split; cbn; try done. by rewrite H2.
Qed.

Lemma holds_out q s out ri :
  holds q s → holds q (Mk_main s.(m_lib) out ri s.(input_opcode)).
Proof. intros []. by split. Qed.

Lemma wp_in_lib {A} (m : lib A) Q s :
  wp m (λ a l, Q a (Mk_main l s.(m_out) s.(rand_init) s.(input_opcode))) s.(m_lib) → wp (in_lib m) Q s.
Proof. unfold wp, in_lib. by destruct (m s.(m_lib)). Qed.

Lemma wp_printf_holds q text s : holds q s → wp (printf text) (λ _, holds q) s.
Proof. intros H. apply wp_modify. by apply holds_out. Qed.

Lemma wp_set_option q q' f s :
  holds q s → req_opts q' (f s.(m_lib).(options)) → q'.(rq_kinds) = q.(rq_kinds) → q'.(rq_op) = q.(rq_op) →
  wp (set_option f) (λ _, holds q') s.
Proof. intros. apply wp_in_lib, wp_modify. by apply (holds_options q q'). Qed.

(** An option that no request mentions. *)
Lemma wp_set_other q f s :
  holds q s → (∀ o, same_generators (f o) = same_generators o ∧ isa (f o) = isa o ∧ dst_regs (f o) = dst_regs o
    ∧ is_cond_init (f o) = is_cond_init o ∧ cond_val (f o) = cond_val o) →
  wp (set_option f) (λ _, holds q) s.
Proof.
  intros H Hf. apply (wp_set_option q q); try done. destruct H as [_ _ _ _ []].
  destruct (Hf s.(m_lib).(options)) as (? & ? & ? & ? & ?). split; try congruence. by repeat case_match; intuition congruence.
Qed.

(** The globals that reading the arguments changes. *)
Lemma wp_lib_shared q (m : rit unit) s :
  holds q s →
  (∃ r sd p, m (view_state s.(m_lib)) = Ok tt (st_raw_instr r (st_rand_pos p (st_rand_seed sd (view_state s.(m_lib)))))
     ∧ is_u32 r) →
  wp (in_lib (shared m)) (λ _, holds q) s.
Proof.
  intros [[[Hsame Hisa Hraw Hbuf Hinit] Hi] Ht Hk Ho Hq] (r & sd & p & E & Hr).
  apply wp_in_lib, wp_shared_keep, (wp_intro _ _ _ _ _ E). split; [done|].
  split; cbn; done.
Qed.

Lemma wp_lib_kinds q str b l s :
  holds q s → (∀ t, t.(opkind_list) = q.(rq_kinds) →
    update_opkind_str str b t = Ok tt (st_opkind_list l t)) →
  wp (in_lib (shared (update_opkind_str str b))) (λ _, holds (rq_set_kinds l q)) s.
Proof.
  intros [[[Hsame Hisa Hraw Hbuf Hinit] Hi] Ht Hk Ho Hq] E.
  apply wp_in_lib, wp_shared_keep, (wp_intro _ _ _ _ _ (E (view_state s.(m_lib)) Hk)). split; [done|].
  split; cbn; try done. by destruct Hq.
Qed.

Lemma opkind_loop_total_1 fuel str b l :
  (String.length str < fuel)%nat → is_Some (opkind_loop fuel str b l).
Proof.
  revert str l. induction fuel as [|fuel IH]; intros str l Hf; [lia|]. cbn [opkind_loop].
  destruct str as [|c str]; [done|]. cbv zeta. destruct (comma_at (String c str)) as [k|] eqn:E; [|done].
  apply comma_at_bound in E. apply IH. rewrite length_str_drop. cbn in *. lia.
Qed.

(** The outcome of a scan. *)
Lemma wp_scan_if r yes no Q s :
  (∀ v, is_u32 v → r = ScanVal v ∨ r = ScanEOF ∧ v = u32 (uninit_u32 0) → wp (yes v) Q s) →
  (r = ScanNone → wp no Q s) → (∀ v, r = ScanVal v → is_u32 v) → wp (scan_if r yes no) Q s.
Proof.
  intros Hy Hn Hu. destruct r as [| |v]; cbn.
  - apply Hy; [apply is_u32_u32|auto].
  - auto.
  - apply Hy; auto.
Qed.

Lemma scan_num_u32 conv limit str v : scan_num conv limit str = ScanVal v → is_u32 v.
Proof.
  unfold scan_num. destruct (skip_space str); [done|]. destruct (conv _); [|done]. intros [= <-]. apply is_u32_u32.
Qed.

Lemma wp_parse_isa q a s :
  holds q s → wp (parse_isa a) (λ _, holds (from_option (λ v, rq_set_isa v q) q (named isa_names a))) s.
Proof.
  intros H. unfold parse_isa, named, isa_names, opt_is. cbn [existsb find fst].
  repeat (rewrite orb_false_r). pose proof H as [_ _ _ _ []].
  do 4 (destruct (String.eqb a _); [apply (wp_set_option q); try done; by split; try done; cbn; auto|]).
  by apply wp_printf_holds.
Qed.

Lemma wp_parse_dst q a s :
  holds q s → wp (parse_regs "dst" opt_dst_regs a)
    (λ _, holds (rq_set_dst (default R_DEFAULT (named reg_names a)) q)) s.
Proof.
  intros H. unfold parse_regs, named, reg_names, opt_is. cbn [existsb find fst].
  repeat (rewrite orb_false_r).
  assert (∀ r s', holds q s' → wp (set_option (opt_dst_regs r)) (λ _, holds (rq_set_dst r q)) s') as Hs.
  { intros r s' H'. apply (wp_set_option q); try done. by destruct H' as [_ _ _ _ []]; split. }
  repeat (destruct (String.eqb a _); cbn [orb]; [by apply Hs|]).
  apply wp_bind. eapply wp_mono; [by apply wp_printf_holds|]. intros [] s' H'. by apply Hs.
Qed.

Lemma wp_parse_src q a s : holds q s → wp (parse_regs "src" opt_src_regs a) (λ _, holds q) s.
Proof.
  intros H. unfold parse_regs.
  repeat (destruct (opt_is _ a); [by apply wp_set_other|]).
  apply wp_bind. eapply wp_mono; [by apply wp_printf_holds|]. intros [] s' H'. by apply wp_set_other.
Qed.

Lemma wp_parse_cond_val q a s :
  holds q s → wp (parse_cond_val a) (λ _, holds (read_arg "--cond-val" a q)) s.
Proof.
  intros H. unfold parse_cond_val. change (read_arg "--cond-val" a q) with
    (match sscanf_d a with
     | ScanVal v => rq_set_cond (Z.min v 14) q
     | ScanEOF => rq_set_cond (Z.min (u32 (uninit_u32 0)) 14) q
     | ScanNone => q
     end).
  apply wp_scan_if; [|intros ->; by apply wp_printf_holds|apply scan_num_u32].
  intros v Hv E. replace (match sscanf_d a with ScanEOF => _ | ScanNone => _ | ScanVal _ => _ end)
    with (rq_set_cond (Z.min v 14) q) by (by destruct E as [-> |[-> ->]]).
  apply wp_bind. pose proof H as [_ _ _ _ []].
  destruct (Z.leb_spec v 14); apply wp_in_lib, wp_modify, wp_in_lib, wp_modify;
    (apply (holds_options q _ s); try done); (split; try done); cbn; (split; [done|lia]).
Qed.

Lemma wp_parse_seed q a s : holds q s → wp (parse_seed a) (λ _, holds q) s.
Proof.
  intros H. apply wp_scan_if; [|by intros; apply wp_ret|apply scan_num_u32].
  intros v Hv _. apply wp_bind. eapply wp_mono; [by apply wp_printf_holds|]. intros [] s1 H1.
  apply wp_bind. eapply wp_mono; [apply (wp_lib_shared q); [done|]|].
  { exists (s1.(m_lib).(globals).(raw_instr)), (u32 v), 0%nat. split; [done|]. apply H1. }
  intros [] s2 H2. apply wp_modify. by apply holds_out.
Qed.

Lemma wp_parse_hex q a s : holds q s → wp (parse_hex a) (λ _, holds q) s.
Proof.
  intros H. unfold parse_hex, when. destruct (is_hex a); [|by apply wp_ret].
  apply wp_scan_if; [|intros; by apply wp_printf_holds|apply scan_num_u32].
  intros v Hv _. apply wp_lib_shared; [done|]. 
  by exists v, (s.(m_lib).(globals).(rand_seed)), (s.(m_lib).(globals).(rand_pos)).
Qed.

(** The remaining options that set a number. *)
Lemma wp_parse_shift q si sv a s :
  holds q s →
  (∀ v o, same_generators (sv v (si true o)) = same_generators o ∧ isa (sv v (si true o)) = isa o
    ∧ dst_regs (sv v (si true o)) = dst_regs o ∧ is_cond_init (sv v (si true o)) = is_cond_init o
    ∧ cond_val (sv v (si true o)) = cond_val o) →
  wp (parse_shift si sv a) (λ _, holds q) s.
Proof.
  intros H Hf. apply wp_scan_if; [|by intros; apply wp_ret|by case_match; apply scan_num_u32].
  intros v _ _. apply (wp_set_other q (λ o, sv v (si true o)) s H (Hf v)).
Qed.

Lemma wp_parse_mem_base q w set a s :
  holds q s →
  (∀ v o, same_generators (set v o) = same_generators o ∧ isa (set v o) = isa o
    ∧ dst_regs (set v o) = dst_regs o ∧ is_cond_init (set v o) = is_cond_init o ∧ cond_val (set v o) = cond_val o) →
  wp (parse_mem_base w set a) (λ _, holds q) s.
Proof.
  intros H Hf. unfold parse_mem_base. destruct (is_hex a); [|by apply wp_printf_holds].
  apply wp_scan_if; [|by intros; apply wp_ret|apply scan_num_u32]. intros v _ _. by apply wp_set_other.
Qed.

Lemma wp_parse_mem_offset q a s : holds q s → wp (parse_mem_offset a) (λ _, holds q) s.
Proof.
  intros H. apply wp_scan_if; [|intros; by apply wp_printf_holds|apply scan_num_u32].
  intros v _ _. by apply wp_set_other.
Qed.

Lemma wp_parse_arch_version q a s : holds q s → wp (parse_arch_version a) (λ _, holds q) s.
Proof.
  intros H. unfold parse_arch_version. repeat (destruct (opt_is _ a); [by apply wp_set_other|]).
  by apply wp_printf_holds.
Qed.

Lemma wp_kinds_with q b s :
  holds q s → wp (in_lib (shared (update_opkind_str b true))) (λ _, holds (rq_set_kinds (kinds_of b) q)) s.
Proof.
  intros H. apply wp_lib_kinds; [done|]. intros t _.
  destruct (wp_elim _ _ _ (wp_update_opkind_str b (λ _ t', t' = st_opkind_list (kinds_of b) t) t eq_refl))
    as ([] & t' & E & ->). done.
Qed.

Lemma wp_kinds_without q b s :
  holds q s → wp (in_lib (shared (update_opkind_str b false)))
    (λ _, holds (rq_set_kinds (without_kinds b q.(rq_kinds)) q)) s.
Proof.
  intros H. apply wp_lib_kinds; [done|]. intros t Ht. unfold update_opkind_str, without_kinds, mbind, M_bind, gets.
  rewrite Ht. destruct (opkind_loop_total_1 (S (String.length b)) b false q.(rq_kinds)) as [l ->]; [lia|done].
Qed.

(** One comparison with the names of an option. *)
Ltac option_case :=
  match goal with
  | |- context [if opt_is ?l ?a then _ else _] =>
      let E := fresh "E" in
      destruct (opt_is l a) eqn:E;
      [apply opt_is_elim, list_elem_of_In in E; repeat destruct E as [<- |E]; try destruct E|]
  end.
Ltac done_flag := split; [reflexivity|]; split; [reflexivity|]; split; [reflexivity|].
Ltac done_arg := split; [reflexivity|]; split; [reflexivity|]; intros b q s H.
Ltac not_option :=
  repeat match goal with H : _ || _ = false |- _ => apply orb_false_iff in H as [? ?] end;
  repeat match goal with H : String.eqb _ _ = false |- _ => rewrite H; clear H end; cbn [orb].

(** Every option does what the reading of the command line says of it. *)
Lemma main_option_reads a :
  match main_option a with
  | Exit code m => stop_code a = Some code ∧ ∀ s, ∃ s', m s = Ok tt s'
  | Flag m => stop_code a = None ∧ takes_arg a = false ∧ opt_is ["--shift-imm"] a = false
      ∧ ∀ q s, holds q s → wp m (λ _, holds (if is_flag a then q else rq_set_op a q)) s
  | WithArg f => stop_code a = None ∧ takes_arg a = true
      ∧ ∀ b q s, holds q s → wp (f b) (λ _, holds (read_arg a b q)) s
  | WithArgSkip f => stop_code a = None ∧ takes_arg a = false ∧ opt_is ["--shift-imm"] a = true
      ∧ ∀ b q s, holds q s → wp (f b) (λ _, holds q) s
  end.
Proof.
  unfold main_option.
  option_case; [by split; [|eexists]..|].
  option_case; [done_flag; intros q s H; by apply wp_set_other|].
  option_case; [done_arg; by apply wp_parse_isa..|].
  option_case; [done_arg; by apply wp_parse_arch_version|].
  option_case; [done_arg; by apply wp_parse_seed|].
  option_case; [done_arg; by apply wp_parse_hex|].
  option_case; [done_arg; by apply wp_parse_cond_val|].
  option_case; [done_arg; by apply wp_kinds_with|].
  option_case; [done_arg; by apply wp_kinds_without|].
  option_case; [done_flag; intros q s H; by apply (wp_set_other q (λ o, opt_sbit_val 1 (opt_is_sbit_init true o)))|].
  option_case; [done_flag; intros q s H; by apply (wp_set_other q (λ o, opt_sbit_val 0 (opt_is_sbit_init true o)))|].
  option_case; [done_arg; by apply wp_parse_src|].
  option_case; [done_arg; by apply wp_parse_dst|].
  option_case; [done_flag; intros q s H; by apply wp_set_other|].
  option_case; [done_flag; intros b q s H; by apply wp_parse_shift|].
  option_case; [done_arg; by apply wp_parse_shift|].
  do 2 (option_case; [done_arg; by apply wp_parse_mem_base|]).
  option_case; [done_arg; by apply wp_parse_mem_offset|].
  option_case; [by split; [|eexists]..|].
  unfold stop_code, takes_arg, is_flag, opt_is in *. cbn [existsb] in *. not_option.
  done_flag. intros q s H. apply wp_bind, wp_modify, wp_in_lib, wp_modify.
  destruct H as [[[Hsame Hisa Hraw Hbuf Hinit] Hi] Ht Hk Ho []]. by split.
Qed.

Lemma main_loop_reads args q s :
  holds q s →
  match read_args q args with
  | Missing => main_loop args s = Abort NullDeref
  | Stops code => ∃ s', main_loop args s = Ok (Some code) s'
  | Runs q' => ∃ s', main_loop args s = Ok None s' ∧ holds q' s'
  end.
Proof.
  remember (length args) as n eqn:Hn. revert args q s Hn.
  induction n as [n IH] using lt_wf_ind. intros [|a rest] q s -> H; [by exists s|].
  cbn [read_args main_loop]. pose proof (main_option_reads a) as Ha.
  destruct (main_option a) as [code m|m|f|f].
  - destruct Ha as [-> Hm]. destruct (Hm s) as [s' E]. exists s'. unfold mbind, M_bind. by rewrite E.
  - destruct Ha as (-> & -> & -> & Hm). destruct (wp_elim _ _ _ (Hm q s H)) as ([] & s' & E & H').
    unfold mbind, M_bind. rewrite E. by eapply IH; [|reflexivity|]; [cbn; lia|].
  - destruct Ha as (-> & -> & Hf). destruct rest as [|b rest]; [done|].
    destruct (wp_elim _ _ _ (Hf b q s H)) as ([] & s' & E & H').
    unfold mbind, M_bind. rewrite E. by eapply IH; [|reflexivity|]; [cbn; lia|].
  - destruct Ha as (-> & -> & -> & Hf). destruct rest as [|b rest]; [done|].
    destruct (wp_elim _ _ _ (Hf b q s H)) as ([] & s' & E & H').
    unfold mbind, M_bind. rewrite E. destruct rest as [|c rest]; [by exists s'|].
    by eapply IH; [|reflexivity|]; [cbn; lia|].
Qed.

(** ** 5. Generation *)

Lemma wp_main_init : wp (in_lib init_once) (λ _, holds default_request) zero_main.
Proof.
  apply wp_in_lib. unfold init_once. apply wp_bind, wp_gets. cbn [zero_main m_lib zero_lib init_option negb when].
  apply wp_bind, wp_bind, wp_modify, wp_shared_keep, wp_update_opkind_str. split; [done|].
  apply wp_modify. pose proof lib_inv_zero as []. by split.
Qed.

(** A seed and a condition, if the arguments give none. *)
Lemma wp_random_cond q s :
  holds q s →
  wp random_cond (λ _ s', ∃ c, used_cond q.(rq_cond) c ∧ ready s'.(m_lib)
    ∧ s'.(m_lib).(globals).(print_buf) = EmptyString ∧ s'.(m_lib).(globals).(opkind_list) = q.(rq_kinds)
    ∧ s'.(input_opcode) = q.(rq_op) ∧ s'.(m_lib).(options).(isa) = q.(rq_isa)
    ∧ s'.(m_lib).(options).(dst_regs) = q.(rq_dst) ∧ s'.(m_lib).(options).(cond_val) = c) s.
Proof.
  intros [[[Hsame Hisa Hraw Hbuf Hinit] Hi] Ht Hk Ho []]. unfold random_cond. apply wp_bind, wp_gets.
  destruct q.(rq_cond) as [c|] eqn:Ec.
  - destruct ro_cond0 as [-> <-]. apply wp_ret. eexists. split; [by left|]. done.
  - rewrite ro_cond0. cbn [negb when]. apply wp_bind, wp_in_lib, wp_shared_keep, (wp_intro _ _ _ _ _ eq_refl).
    split; [done|]. cbn [view_state st_options rand_seed rand_pos]. set (r := rand_at _ _).
    pose proof (Z.mod_pos_bound r 28 ltac:(lia)). apply wp_bind, wp_in_lib, wp_modify.
    unfold when. destruct (Z.ltb_spec 13 (r mod 28)); [apply wp_in_lib, wp_modify; exists 14|apply wp_ret; exists (r mod 28)].
    all: (split; [right|done]); (split; [done|lia]).
Qed.

(** What the program generates for a request. *)
Definition answers_request (q : request) (c : Z) (text : string) : Prop :=
  match q.(rq_op) with
  | Some str => named_result q.(rq_dst) c str EmptyString text
  | None => ∃ op st raw, call_result q.(rq_dst) c op st raw text
      ∧ drawn_from q.(rq_kinds) (op_range q.(rq_isa)).1 (op_range q.(rq_isa)).2 op
  end.

Lemma wp_main_gen q c s :
  (∀ str, q.(rq_op) = Some str → roomy_name (Some str) ∨ q.(rq_isa) ≠ ISA_THUMB) →
  ready s.(m_lib) → s.(m_lib).(globals).(print_buf) = EmptyString →
  s.(m_lib).(globals).(opkind_list) = q.(rq_kinds) → s.(m_lib).(options).(isa) = q.(rq_isa) →
  s.(m_lib).(options).(dst_regs) = q.(rq_dst) → s.(m_lib).(options).(cond_val) = c →
  wp (main_gen q.(rq_op)) (λ _ s', answers_request q c s'.(m_lib).(globals).(print_buf)) s.
Proof.
  intros Hroom Hs Ht Hk Hi Hd Hc. unfold answers_request. destruct q.(rq_op) as [str|]; cbn [main_gen].
  - apply wp_bind, wp_in_lib. eapply wp_mono; [apply wp_gen_random_instr_1; [done|rewrite Hi; by apply Hroom]|].
    rewrite Ht, Hd, Hc. intros [] l [_ Hr]. unfold when. by case_match; [apply wp_modify|apply wp_ret].
  - apply wp_in_lib. eapply wp_mono; [by apply wp_gen_random_instr_without_op|].
    rewrite Hd, Hc, Hk, Hi. by intros [] l [_ Hr].
Qed.

Lemma wp_main_run q s :
  (∀ str, q.(rq_op) = Some str → roomy_name (Some str) ∨ q.(rq_isa) ≠ ISA_THUMB) → holds q s →
  wp main_run (λ r s', r = 0 ∧ ∃ c pre text, s'.(m_out) = pre +:+ text
    ∧ used_cond q.(rq_cond) c ∧ answers_request q c text) s.
Proof.
  intros Hroom H. apply wp_bind, wp_gets, wp_bind. apply (wp_mono _ (λ _, holds q)).
  { unfold when. destruct (negb _); [|by apply wp_ret]. apply wp_lib_shared; [done|].
    exists (s.(m_lib).(globals).(raw_instr)), (u32 time_seed), 0%nat. split; [done|]. apply H. }
  intros [] s2 H2. apply wp_bind. eapply wp_mono; [by apply wp_random_cond|].
  intros [] s3 (c & Hc & Hs3 & Ht & Hk & Ho & Hi & Hd & Hcv). apply wp_bind, wp_gets. rewrite Ho.
  apply wp_bind. eapply wp_mono; [by apply (wp_main_gen q c)|]. intros [] s4 H4.
  apply wp_bind, wp_gets, wp_bind, wp_modify, wp_ret. split; [done|].
  by exists c, s4.(m_out), s4.(m_lib).(globals).(print_buf).
Qed.

(** ** 6. Properties *)

(** C27. The command line, as a refinement of how it reads.  The program stops
    with a null pointer exactly when the last option lacks its argument; it
    exits with the status of [--help] or of a lone dash; otherwise it ends with
    status 0, without a failed assertion or an overrun (naming the opcodes of
    C26 for Thumb apart), and what it printed ends with the answer to the
    request: the opcode is the last argument that is not an option, or one drawn
    from the kinds and the instruction set asked for, the condition and the
    destination are the last ones given (a condition that no argument gives is
    drawn), and of an unknown opcode nothing is printed.  The argument that
    follows the one of [--shift-imm] is part of no request. *)
Theorem main_answers (args : list string) :
  match read_args default_request args with
  | Missing => main args zero_main = Abort NullDeref
  | Stops code => ∃ s', main args zero_main = Ok code s'
  | Runs q =>
      (∀ str, q.(rq_op) = Some str → roomy_name (Some str) ∨ q.(rq_isa) ≠ ISA_THUMB) →
      ∃ s' c pre text, main args zero_main = Ok 0 s' ∧ s'.(m_out) = pre +:+ text
        ∧ used_cond q.(rq_cond) c ∧ answers_request q c text
  end.
Proof.
  destruct (wp_elim _ _ _ wp_main_init) as ([] & s0 & E0 & H0). unfold main, mbind, M_bind. rewrite E0.
  pose proof (main_loop_reads args default_request s0 H0) as Hl.
  destruct (read_args default_request args) as [|code|q].
  - by rewrite Hl.
  - destruct Hl as [s' ->]. by exists s'.
  - destruct Hl as (s1 & -> & H1). intros Hroom.
    destruct (wp_elim _ _ _ (wp_main_run q s1 Hroom H1)) as (r & s' & E & -> & c & pre & text & Hr).
    by exists s', c, pre, text.
Qed.

(** Three arguments that do not do what the help text says: the one after the
    number of [--shift-imm] is skipped, and [--arch-version], which is spelt
    otherwise in the code, and its number are taken for opcodes. *)
Theorem misread_options q n x rest :
  read_args q ("--shift-imm" :: n :: x :: rest) = read_args q rest
  ∧ read_args q ["--arch-version"; n] = read_args (rq_set_op "--arch-version" q) [n].
Proof. done. Qed.
End loop.

(** ** 7. Witnesses *)

Definition demo_args : list string := ["--seed"; "12"; "--cond-val"; "3"; "--dst-regs"; "sp"; "ADD_reg"].

Lemma main_answers_witness :
  ∃ s' c pre text, main (Env := lcg_env_1) demo_args zero_main = Ok 0 s' ∧ s'.(m_out) = pre +:+ text
    ∧ used_cond (Some 3) c ∧ named_result R_SP c "ADD_reg" EmptyString text.
Proof. apply (main_answers (Env := lcg_env_1) demo_args). intros str [= <-]. left. by split. Defined.
