(* ===== verification/V1Reproduce.v ===== *)
(** * The earlier library answers the same again

    A call by kinds depends on its parameters alone: whatever was called before,
    the same parameters, the seed among them, give the same text.  A call by name
    depends on one thing more, the instruction set that earlier calls left. *)
From S2P Require Import Prelude RitCommon InstrTable State InstrUtil InstrBuf Keeps GenARMMem EncodeBits RandomInstrGen Attempt Output Loop Params Api Reproduce V1State V1Encode V1RandomInstrGen V1InstrGenerator V1Attempt V1Loop V1Api.
#[local] Open Scope c_scope.

(** ** 1. Two states of the library *)

(** What generation for an opcode reads when it starts: the buffer is emptied. *)
Record same_start (s t : rit_state) : Prop := {
  ss_options : s.(State.options) = t.(State.options);
  ss_raw : s.(raw_instr) = t.(raw_instr);
  ss_seed : s.(rand_seed) = t.(rand_seed);
  ss_pos : s.(rand_pos) = t.(rand_pos);
  ss_len : length s.(instr_buf) = length t.(instr_buf)
}.

(** A relation on what both versions share, lifted to the library. *)
Class SharedRel (Q : rit_state → rit_state → Prop) := {
  sq_options s t : Q s t → s.(State.options) = t.(State.options);
  sq_view o s t : Q s t → Q (st_options o s) (st_options o t)
}.
#[local] Instance same_start_shared : SharedRel same_start.
Proof. split; [by intros s t []|]. by intros o s t []. Qed.
#[local] Instance same_run_shared : SharedRel same_run.
Proof. split; [by intros s t []|]. by intros o s t []. Qed.

Definition lib_rel (Q : rit_state → rit_state → Prop) (s t : lib_state) : Prop :=
  s.(options) = t.(options) ∧ Q (view_state s) (view_state t).

Lemma lib_run_start s t : lib_rel same_run s t → lib_rel same_start s t.
Proof. intros [Ho []]. by split. Qed.

Section runs.
Context `{Env : !RitEnv}.

Lemma rel_shared {A} Q Q' `{!SharedRel Q} `{!SharedRel Q'} (m : rit A) :
  rel Q Q' m → rel (lib_rel Q) (lib_rel Q') (shared m).
Proof.
  intros Hm s t [Ho Hg]. specialize (Hm _ _ Hg). unfold shared.
  destruct (m (view_state s)) as [a s'|], (m (view_state t)) as [b t'|]; try done.
  destruct Hm as [-> Hg']. split; [done|]. unfold write_back. pose proof (sq_options _ _ Hg') as Ho'.
  split; cbn; [by rewrite Ho', Ho|]. unfold view_state. cbn. rewrite Ho', Ho. by apply sq_view.
Qed.

Lemma rel_generator {A} (m : rit A) : rel same_run same_run m → rel (lib_rel same_run) (lib_rel same_run) (generator m).
Proof.
  intros Hm. unfold generator. eapply rel_bind; [apply rel_gets; by intros s t []|]. intros o.
  eapply rel_bind; [apply rel_assert|]. intros _. by apply (rel_shared _ _).
Qed.

Lemma rel_opt_1 {A} (f : gen_option_t → A) Q : rel (lib_rel Q) (lib_rel Q) (opt f).
Proof. apply rel_gets. intros s t []. by f_equal. Qed.

Lemma rel_lib_options Q : rel (lib_rel Q) (lib_rel Q) (gets options).
Proof. apply rel_gets. by intros s t []. Qed.

Lemma rel_set_opt f Q `{!SharedRel Q} : rel (lib_rel Q) (lib_rel Q) (set_opt f).
Proof.
  apply rel_modify. intros s t [Ho H]. split; cbn; [by rewrite Ho|]. unfold view_state. cbn. rewrite Ho.
  exact (sq_view (view (f t.(options))) _ _ H).
Qed.

(** ** 2. One attempt *)

Lemma rel_preprocess_instr o op : rel same_run same_run (preprocess_instr o op).
Proof.
  unfold preprocess_instr. apply (rel_bind _ same_run); [apply rel_modify; by intros s t []; split|]. intros _.
  assert (∀ reg v, rel same_run same_run
    (modify (λ s, st_reg_init_vals (<[Z.to_nat reg := v]> s.(reg_init_vals)) s))) as Hreg.
  { intros reg v. apply rel_modify. by intros s t []; split. }
  rel.
Qed.

Lemma rel_arm_switch op : rel same_run same_run (arm_switch op).
Proof. rel. Qed.

Lemma rel_thumb_switch op : rel same_run same_run (thumb_switch op).
Proof. rel. Qed.

Lemma rel_set_cond op c : rel same_run same_run (set_cond op c).
Proof. rel. Qed.

#[local] Hint Resolve rel_opt_1 rel_lib_options rel_set_opt rel_preprocess_instr
  rel_arm_switch rel_thumb_switch rel_set_cond : rel.
#[local] Hint Extern 0 (SharedRel _) => typeclasses eauto : rel.

Ltac rel_lib :=
  repeat lazymatch goal with
  | |- rel _ _ (shared _) => apply (rel_shared _ _)
  | |- rel _ _ (generator _) => apply rel_generator
  | |- _ => rel_step
  end.

(** The lines left in the buffer do not count. *)
Lemma rel_gen_instr_1 op : rel (lib_rel same_start) (lib_rel same_run) (gen_instr op).
Proof.
  unfold gen_instr. apply (rel_bind _ (lib_rel same_run)).
  { apply (rel_shared _ _), rel_modify. intros s t []. by split. }
  intros _. rel_lib.
Qed.

Lemma rel_init_instr o op b : rel same_start same_start (init_instr o op b).
Proof.
  assert (rel same_start same_start rand) as Hr.
  { intros s t []. unfold rand. cbn. rewrite ss_seed0, ss_pos0. split; [done|]. by split. }
  assert (∀ f, rel same_start same_start (on_raw f)) as Ho.
  { intros f. apply rel_modify. intros s t []. split; try done. cbn. by rewrite ss_raw0. }
  assert (∀ v, rel same_start same_start (set_raw_instr v)) as Hv.
  { intros v. apply rel_modify. intros s t []. by split. }
  rel.
Qed.

Lemma rel_gen_round op b : rel (lib_rel same_start) (lib_rel same_run) (gen_round op b).
Proof.
  unfold gen_round. eapply rel_bind; [apply rel_lib_options|]. intros o.
  apply (rel_bind _ (lib_rel same_start)); [apply (rel_shared _ _), rel_init_instr|]. intros _. apply rel_gen_instr_1.
Qed.

Lemma rel_gen_retry n op b st : rel (lib_rel same_run) (lib_rel same_run) (gen_retry n op b st).
Proof.
  revert st. induction n as [|n IH]; intros st; cbn [gen_retry]; [apply rel_ret|]. apply rel_if; [|apply rel_ret].
  eapply rel_bind; [|intros; apply IH]. eapply rel_mono; [apply lib_run_start|]. apply rel_gen_round.
Qed.

Lemma rel_gen_retry_first n op b : rel (lib_rel same_start) (lib_rel same_run) (gen_retry (S n) op b UNSUPPORTED).
Proof.
  cbn [gen_retry]. change (status_eqb UNSUPPORTED UNSUPPORTED) with true. cbv iota.
  eapply rel_bind; [apply rel_gen_round|]. intros st. apply rel_gen_retry.
Qed.

(** ** 3. The text *)

(** Generation for an opcode prints the same text. *)
Lemma gen_instr_with_op_text op s t :
  ready s → ready t → 0 ≤ op < SISA_OP_MAX → fits op s.(options).(isa) → lib_rel same_start s t →
  ∃ s' t', gen_instr_with_op op s = Ok tt s' ∧ gen_instr_with_op op t = Ok tt t'
    ∧ s'.(globals).(print_buf) = t'.(globals).(print_buf).
Proof.
  intros Hs Ht Hop Hf [Ho Hst].
  destruct (gen_instr_with_op_run op s Hs Hop Hf) as (th & st & s1 & Er & _ & E).
  destruct (gen_instr_with_op_run op t Ht Hop) as (th' & st' & t1 & Er' & _ & E'); [by rewrite <- Ho|].
  eexists _, _. split; [exact E|]. split; [exact E'|]. cbn.
  assert (lib_rel same_start (viewed s) (viewed t)) as Hv.
  { split; [done|]. destruct Hst. by split. }
  rewrite (ss_raw _ _ Hst : s.(globals).(raw_instr) = _) in Er.
  destruct (rel_ok _ _ _ _ _ _ _ _ _ (rel_gen_retry_first 7 op _) Hv Er Er') as [-> [_ []]].
  unfold attempt_text. cbn in *. congruence.
Qed.

(** The choice of an opcode is the same. *)
Record same_draw (s t : rit_state) : Prop := {
  sd_start : same_start s t;
  sd_kinds : s.(opkind_list) = t.(opkind_list)
}.

Lemma rel_get_random_op isa0 : rel same_draw same_draw (get_random_op isa0).
Proof.
  assert (rel same_draw same_draw rand) as Hr.
  { intros s t [[] ?]. unfold rand. cbn. rewrite ss_seed0, ss_pos0. split; [done|]. by split; [split|]. }
  assert (rel same_draw same_draw (gets opkind_list)) as Hk by (apply rel_gets; by intros s t []).
  rel.
Qed.

Lemma gen_random_instr_without_op_text s t :
  ready s → ready t → lib_rel same_start s t → s.(globals).(opkind_list) = t.(globals).(opkind_list) →
  ∃ s' t', gen_random_instr_without_op s = Ok tt s' ∧ gen_random_instr_without_op t = Ok tt t'
    ∧ s'.(globals).(print_buf) = t'.(globals).(print_buf).
Proof.
  intros Hs Ht [Ho Hst] Hk. assert (same_draw (view_state s) (view_state t)) as Hd by by split.
  unfold gen_random_instr_without_op, opt, gets, mbind, M_bind, shared. rewrite <- Ho.
  destruct (get_random_op_draws s.(options).(isa) (view_state s)) as (op & p & E & Hdr).
  destruct (get_random_op_draws s.(options).(isa) (view_state t)) as (op' & p' & E' & _).
  destruct (rel_ok _ _ _ _ _ _ _ _ _ (rel_get_random_op _) Hd E E') as [<- [Hst' _]].
  rewrite E, E'. destruct (drawn_fits _ _ _ (li_isa _ (proj1 Hs)) Hdr) as [Hop Hfit].
  destruct Hs as [[] ?], Ht as [[] ?]. apply gen_instr_with_op_text; [by split; [split|]..|done|done|].
  split; [cbn; by rewrite <- Ho|]. unfold view_state, write_back. cbn. rewrite <- Ho. by destruct Hst'; split.
Qed.
End runs.

(** ** 4. The settings of the library *)

(** The options without those that every call sets. *)
Definition settings (o : gen_option_t) : gen_option_t :=
  opt_isa 0 (opt_cond_val 0 (opt_is_cond_init true (opt_sbit_val 0 (opt_is_sbit_init true
    (opt_src_regs R_DEFAULT (opt_dst_regs R_DEFAULT o)))))).
Definition fresh_settings : gen_option_t := settings (default_option zero_options).

(** The library was just loaded, or has its default settings. *)
Definition settled (s : lib_state) : Prop :=
  if s.(init_option) then settings s.(options) = fresh_settings else s.(options) = zero_options.

(** An invariant as a relation. *)
Definition steady (s t : lib_state) : Prop :=
  s = t ∧ s.(init_option) = true ∧ settings s.(options) = fresh_settings.

Section settled.
Context `{Env : !RitEnv}.

Lemma steady_shared {A} (m : rit A) : rel steady steady (shared m).
Proof. intros s t (<- & Hi & Hs). unfold shared. by destruct (m (view_state s)). Qed.

Lemma steady_gets {A} (f : lib_state → A) : rel steady steady (gets f).
Proof. apply rel_gets. by intros s t [-> _]. Qed.

Lemma steady_set_opt f : (∀ o, settings (f o) = settings o) → rel steady steady (set_opt f).
Proof. intros Hf. apply rel_modify. intros s t (<- & Hi & Hs). split; [done|]. cbn. by rewrite Hf. Qed.

#[local] Hint Resolve steady_shared steady_gets steady_set_opt : rel.

Lemma steady_gen_retry n op b st : rel steady steady (gen_retry n op b st).
Proof. revert st. induction n as [|n IH]; intros st; cbn [gen_retry]; rel. Qed.
#[local] Hint Resolve steady_gen_retry : rel.

Lemma steady_gen_random_instr str : rel steady steady (gen_random_instr str).
Proof. rel. Qed.

Lemma steady_gen_random_instr_without_op : rel steady steady gen_random_instr_without_op.
Proof. rel. Qed.
End settled.

(** ** 5. The entry points *)

(** The options of a call. *)
Definition call_options (isa0 cond sbit : Z) (src dst : arm_regs_t) : gen_option_t :=
  opt_isa isa0 (opt_dst_regs dst (opt_src_regs src (opt_is_sbit_init true (opt_sbit_val sbit
    (opt_is_cond_init true (opt_cond_val cond (default_option zero_options))))))).

(** The state in which generation starts. *)
Record called (o : gen_option_t) (hexcode seed : Z) (s : lib_state) : Prop := {
  ca_ready : ready s;
  ca_options : s.(options) = o;
  ca_raw : s.(globals).(raw_instr) = u32 hexcode;
  ca_seed : s.(globals).(rand_seed) = u32 seed;
  ca_pos : s.(globals).(rand_pos) = 0%nat
}.

Lemma called_start o hexcode seed s t :
  called o hexcode seed s → called o hexcode seed t → lib_rel same_start s t.
Proof.
  intros [[[_ _ _ [_ Hl _] _] _] Ho ? ? ?] [[[_ _ _ [_ Hl' _] _] _] Ho' ? ? ?].
  split; [congruence|]. split; cbn; congruence.
Qed.

(** Setting the options of a call, from any state with the default settings. *)
Lemma call_options_eq o isa0 cond sbit src dst :
  settings o = fresh_settings → o.(isa) = isa0 →
  opt_dst_regs dst (opt_src_regs src (opt_is_sbit_init true (opt_sbit_val sbit
    (opt_is_cond_init true (opt_cond_val cond o))))) = call_options isa0 cond sbit src dst.
Proof. destruct o. intros H <-. injection H. intros. subst. done. Qed.

Section calls.
Context `{Env : !RitEnv}.

Lemma update_opkind_str_eq str t : update_opkind_str str true t = Ok tt (st_opkind_list (kinds_of str) t).
Proof.
  destruct (wp_elim _ _ _ (wp_update_opkind_str str (λ _ t', t' = st_opkind_list (kinds_of str) t) t eq_refl))
    as ([] & t' & E & ->). done.
Qed.

(** The library is initialised. *)
Lemma init_once_run s :
  lib_inv s → settled s → ∃ s1, init_once s = Ok tt s1 ∧ ready s1 ∧ settings s1.(options) = fresh_settings
    ∧ s1.(options).(isa) = s.(options).(isa) ∧ s1.(globals).(print_buf) = s.(globals).(print_buf).
Proof.
  intros Hs Hset. destruct (wp_elim _ _ _ (wp_init_once s Hs)) as ([] & s1 & E & Hr & Hp & _).
  exists s1. split; [done|]. split; [done|]. revert E Hset. unfold init_once, settled, mbind, M_bind, gets.
  destruct (init_option s) eqn:Hi; cbn [negb when].
  - intros [= <-] Hset. done.
  - unfold set_default_option, set_opt, modify, mbind, M_bind, shared. rewrite update_opkind_str_eq.
    intros [= <-] ->. done.
Qed.

(** The options are set. *)
Lemma set_call_options_run hexcode cond sbit src dst seed s1 :
  ready s1 → settings s1.(options) = fresh_settings → s1.(globals).(rand_seed) = u32 seed →
  s1.(globals).(rand_pos) = 0%nat →
  ∃ s4, set_call_options hexcode cond sbit src dst s1 = Ok tt s4
    ∧ called (call_options s1.(options).(isa) cond sbit (get_reg_type src) (get_reg_type dst)) hexcode seed s4
    ∧ s4.(globals).(opkind_list) = s1.(globals).(opkind_list)
    ∧ s4.(globals).(print_buf) = s1.(globals).(print_buf).
Proof.
  intros Hr Hset Hs Hp. eexists. split; [reflexivity|]. split; [|done]. split; try done.
  - destruct Hr as [[] ?]. split; [split|]; try done. apply is_u32_u32.
  - by apply call_options_eq.
Qed.

Lemma py_gen_instr_from isa0 opkind hexcode cond sbit src dst seed s :
  lib_inv s → settled s → ∃ s4,
    called (call_options (isa_of isa0) cond sbit (get_reg_type src) (get_reg_type dst)) hexcode seed s4
    ∧ s4.(globals).(opkind_list) = kinds_of opkind
    ∧ py_gen_instr isa0 opkind hexcode cond sbit src dst seed s
      = (gen_random_instr_without_op ;; gets (λ s, s.(globals).(print_buf))) s4.
Proof.
  intros Hs Hset. destruct (init_once_run s Hs Hset) as (s1 & E1 & Hr1 & Hset1 & _ & _).
  set (s2 := Mk_lib_state (opt_isa (isa_of isa0) s1.(options)) s1.(init_option)
    (st_opkind_list (kinds_of opkind) (st_rand_pos 0 (st_rand_seed (u32 seed)
       (view_state (Mk_lib_state (opt_isa (isa_of isa0) s1.(options)) s1.(init_option) s1.(globals))))))).
  assert (ready s2) as Hr2.
  { destruct Hr1 as [[] ?]. split; [split|]; try done. unfold s2, isa_of. destruct (isa0 =? 0); cbn; auto. }
  destruct (set_call_options_run hexcode cond sbit src dst seed s2 Hr2 Hset1 eq_refl eq_refl)
    as (s4 & E4 & Hc4 & Hk4 & _).
  exists s4. split; [exact Hc4|]. split; [by rewrite Hk4|].
  unfold py_gen_instr. unfold mbind at 1, M_bind at 1. rewrite E1.
  assert ((shared (srand seed) ;; (if negb (isa0 =? 0) then set_opt (opt_isa ISA_THUMB) else set_opt (opt_isa ISA_ARMv7)) ;;
    shared (update_opkind_str opkind true)) s1 = Ok tt s2) as E2.
  { unfold shared, srand, set_opt, modify, mbind, M_bind. unfold isa_of in s2.
    destruct (negb _); rewrite update_opkind_str_eq; done. }
  revert E2. unfold mbind, M_bind. destruct (shared (srand seed) s1) as [[] s5|]; [|done].
  destruct (negb (isa0 =? 0)); (destruct (set_opt _ s5) as [[] s6|]; [|done]); intros ->; by rewrite E4.
Qed.

Lemma py_gen_instr_with_op_from str hexcode cond sbit src dst seed s :
  lib_inv s → settled s → ∃ s4,
    called (call_options s.(options).(isa) cond sbit (get_reg_type src) (get_reg_type dst)) hexcode seed s4
    ∧ s4.(globals).(print_buf) = s.(globals).(print_buf)
    ∧ py_gen_instr_with_op str hexcode cond sbit src dst seed s
      = (gen_random_instr str ;; gets (λ s, s.(globals).(print_buf))) s4.
Proof.
  intros Hs Hset. destruct (init_once_run s Hs Hset) as (s1 & E1 & Hr1 & Hset1 & Hi1 & Hp1).
  set (s2 := viewed (Mk_lib_state s1.(options) s1.(init_option) (st_rand_pos 0 (st_rand_seed (u32 seed) s1.(globals))))).
  assert (ready s2) as Hr2 by (destruct Hr1 as [[] ?]; by split; [split|]).
  destruct (set_call_options_run hexcode cond sbit src dst seed s2 Hr2 Hset1 eq_refl eq_refl)
    as (s4 & E4 & Hc4 & _ & Hp4). rewrite <- Hi1.
  exists s4. split; [exact Hc4|]. split; [by rewrite Hp4|].
  unfold py_gen_instr_with_op, mbind, M_bind. rewrite E1.
  assert (shared (srand seed) s1 = Ok tt s2) as ->; [|by rewrite E4].
  unfold shared, srand, modify, s2, viewed, write_back. cbn. by rewrite opt_id.
Qed.

(** Every call leaves the settings alone. *)
Lemma called_settled o hexcode seed s4 (m : lib unit) (f : lib_state → string) text s' :
  called o hexcode seed s4 → settings o = fresh_settings → rel steady steady m →
  (m ;; gets f) s4 = Ok text s' → settled s' ∧ text = f s'.
Proof.
  intros [[_ Hi] <- _ _ _] Hset Hm (a & s5 & E & [= <- <-])%bind_ok. specialize (Hm s4 s4 (conj eq_refl (conj Hi Hset))).
  rewrite E in Hm. destruct Hm as [_ (_ & Hi' & Hs')]. unfold settled. by rewrite Hi'.
Qed.

Lemma run_call_settled c s text s' :
  lib_inv s → settled s → run_call c s = Ok text s' → settled s' ∧ text = s'.(globals).(print_buf).
Proof.
  intros Hs Hset. destruct c as [isa0 opkind hexcode cond sbit src dst seed|str hexcode cond sbit src dst seed]; cbn [run_call].
  - destruct (py_gen_instr_from isa0 opkind hexcode cond sbit src dst seed s Hs Hset) as (s4 & Hc & _ & ->).
    intros E. exact (called_settled _ _ _ _ _ _ _ _ Hc eq_refl steady_gen_random_instr_without_op E).
  - destruct (py_gen_instr_with_op_from str hexcode cond sbit src dst seed s Hs Hset) as (s4 & Hc & _ & ->).
    intros E. exact (called_settled _ _ _ _ _ _ _ _ Hc eq_refl (steady_gen_random_instr str) E).
Qed.

Lemma run_calls_settled l s texts s' :
  lib_inv s → settled s → Forall roomy_call l → run_calls l s = Ok texts s' → lib_inv s' ∧ settled s'.
Proof.
  intros Hs Hset Hl. revert s texts Hs Hset. induction Hl as [|c l Hc Hl IH]; intros s texts Hs Hset; cbn [run_calls].
  - by intros [= _ <-].
  - intros (text & s1 & E1 & (texts' & s2 & E2 & [= _ <-])%bind_ok)%bind_ok.
    destruct (run_call_settled c s text s1 Hs Hset E1) as [Hset1 _].
    destruct (wp_elim _ _ _ (wp_run_call c s Hs Hc)) as (text' & s1' & E1' & Hs1 & _).
    rewrite E1 in E1'. injection E1' as <- <-. by eapply IH.
Qed.

(** A call by kinds in two states of the library. *)
Lemma py_gen_instr_same isa0 opkind hexcode cond sbit src dst seed s t :
  lib_inv s → settled s → lib_inv t → settled t → ∃ text s' t',
    py_gen_instr isa0 opkind hexcode cond sbit src dst seed s = Ok text s'
    ∧ py_gen_instr isa0 opkind hexcode cond sbit src dst seed t = Ok text t'.
Proof.
  intros Hs Hset Ht Htset.
  destruct (py_gen_instr_from isa0 opkind hexcode cond sbit src dst seed s Hs Hset) as (s4 & Hc & Hk & ->).
  destruct (py_gen_instr_from isa0 opkind hexcode cond sbit src dst seed t Ht Htset) as (t4 & Hc' & Hk' & ->).
  destruct (gen_random_instr_without_op_text s4 t4) as (s' & t' & E & E' & Hp);
    [apply Hc|apply Hc'|by eapply called_start|by rewrite Hk, Hk'|].
  exists s'.(globals).(print_buf), s', t'. unfold mbind, M_bind, gets. by rewrite E, E', Hp.
Qed.

(** ** 6. Calls by name *)

Lemma gen_random_instr_found str op s :
  find (name_is str) (seqZ 1 (SISA_OP_MAX - 1)) = Some op →
  gen_random_instr str s = gen_instr_with_op op
    (if SISA_OP_ARM_MAX <? op then Mk_lib_state (opt_isa ISA_THUMB s.(options)) s.(init_option) s.(globals) else s).
Proof. intros Hf. unfold gen_random_instr. rewrite Hf. by destruct (SISA_OP_ARM_MAX <? op). Qed.

(** For an ARM opcode the instruction set stays what it is. *)
Lemma gen_instr_with_op_isa op s s' :
  ready s → 0 ≤ op < SISA_OP_ARM_MAX → fits op s.(options).(isa) →
  gen_instr_with_op op s = Ok tt s' → s'.(options).(isa) = s.(options).(isa).
Proof.
  intros Hs Hop Hf. destruct (gen_instr_with_op_run op s Hs) as (th & st & s1 & _ & He & ->);
    [unfold SISA_OP_MAX, SISA_OP_ARM_MAX in *; lia|done|].
  intros [= <-]. cbn. by destruct (en_isa _ _ _ _ _ He) as [-> |[? _]]; [|lia].
Qed.

(** Generation for a named opcode in the two states that the same call reaches
    from a state and from the one after it. *)
Lemma gen_random_instr_again str op isa1 cond sbit src dst hexcode seed s t s' :
  find (name_is str) (seqZ 1 (SISA_OP_MAX - 1)) = Some op → op ≠ SISA_OP_ARM_MAX → roomy_name (Some str) →
  called (call_options isa1 cond sbit src dst) hexcode seed s → gen_random_instr str s = Ok tt s' →
  called (call_options s'.(options).(isa) cond sbit src dst) hexcode seed t →
  ∃ t', gen_random_instr str t = Ok tt t' ∧ s'.(globals).(print_buf) = t'.(globals).(print_buf).
Proof.
  intros Hf Hne Hr Hs. rewrite !(gen_random_instr_found str op) by done. intros E Ht.
  apply find_opcode_spec in Hf as [Hop Hn].
  assert (∀ i, fits op i) as Hfit by (intros i Ha; apply arm_room_le, roomy_named; by rewrite Hn).
  destruct (Z.ltb_spec SISA_OP_ARM_MAX op).
  - pose proof (ca_ready _ _ _ _ Hs) as [[] ?]. pose proof (ca_ready _ _ _ _ Ht) as [[] ?].
    destruct Hs as [_ Ho ? ? ?], Ht as [_ Ho' ? ? ?].
    destruct (gen_instr_with_op_text op (Mk_lib_state (opt_isa ISA_THUMB s.(options)) s.(init_option) s.(globals))
      (Mk_lib_state (opt_isa ISA_THUMB t.(options)) t.(init_option) t.(globals))) as (s1 & t1 & E1 & E2 & Hp); try done.
    1, 2: split; [split|]; try done; cbn; auto.
    + split; cbn; [by rewrite Ho, Ho'|]. unfold view_state. cbn. rewrite Ho, Ho'. split; cbn; try congruence; [done|].
      by rewrite (buf_ok_len _ _ li_buf), (buf_ok_len _ _ li_buf0).
    + rewrite E in E1. injection E1 as <-. by exists t1.
  - assert (s'.(options).(isa) = isa1) as Hi.
    { rewrite (gen_instr_with_op_isa op s s'); [|apply Hs|lia|done|done]. by rewrite (ca_options _ _ _ _ Hs). }
    rewrite Hi in Ht. destruct (gen_instr_with_op_text op s t) as (s1 & t1 & E1 & E2 & Hp);
      [apply Hs|apply Ht|lia|done|by eapply called_start|]. rewrite E in E1. injection E1 as <-. by exists t1.
Qed.

Lemma named_again str hexcode cond sbit src dst seed s text s' :
  lib_inv s → settled s → roomy_name (Some str) →
  py_gen_instr_with_op str hexcode cond sbit src dst seed s = Ok text s' →
  lib_inv s' ∧ settled s' ∧ ∃ s'', py_gen_instr_with_op str hexcode cond sbit src dst seed s' = Ok text s''.
Proof.
  intros Hs Hset Hr E.
  destruct (wp_elim _ _ _ (wp_py_gen_instr_with_op str hexcode cond sbit src dst seed s Hs (or_introl Hr)))
    as (text1 & s1 & E1 & [Hs' _] & _). rewrite E in E1. injection E1 as <- <-.
  destruct (run_call_settled (CallOp str hexcode cond sbit src dst seed) s text s' Hs Hset E) as [Hset' Htext].
  split; [done|]. split; [done|].
  destruct (py_gen_instr_with_op_from str hexcode cond sbit src dst seed s Hs Hset) as (s4 & Hc & _ & E4).
  destruct (py_gen_instr_with_op_from str hexcode cond sbit src dst seed s' Hs' Hset') as (t4 & Hc' & Hp' & ->).
  rewrite E4 in E. apply bind_ok in E as ([] & s5 & E & [= _ <-]).
  destruct (find (name_is str) (seqZ 1 (SISA_OP_MAX - 1))) as [op|] eqn:Ef.
  - assert (op ≠ SISA_OP_ARM_MAX) as Hne.
    { intros ->. apply find_opcode_spec in Ef as [_ Hn]. by vm_compute in Hn. }
    destruct (gen_random_instr_again _ _ _ _ _ _ _ _ _ _ _ _ Ef Hne Hr Hc E Hc') as (t' & Et & Hp).
    exists t'. unfold mbind, M_bind, gets. by rewrite Et, Htext, Hp.
  - exists t4. unfold gen_random_instr. rewrite Ef. unfold mbind, M_bind, gets. cbn. by rewrite Hp', Htext.
Qed.
End calls.

(** ** 7. Properties *)

Section properties.
Context `{Env : !RitEnv}.

(** C28. A call by kinds is reproducible: after any sequence of calls (the two
    opcode names of C26 apart) it answers the text that it answers in a freshly
    loaded library.  The state that the library keeps, the options, the word,
    the kinds, the buffers and the position in the random numbers, has no
    influence: the parameters, the seed among them, determine the instruction. *)
Theorem call_by_kind_as_fresh (l : list call) (texts : list string) (s : lib_state)
    (isa0 : Z) (opkind : string) (hexcode cond sbit src_reg dst_reg seed : Z) :
  Forall roomy_call l → run_calls l zero_lib = Ok texts s → ∃ text s1 s2,
    py_gen_instr isa0 opkind hexcode cond sbit src_reg dst_reg seed s = Ok text s1
    ∧ py_gen_instr isa0 opkind hexcode cond sbit src_reg dst_reg seed zero_lib = Ok text s2.
Proof.
  intros Hl E. destruct (run_calls_settled l zero_lib texts s lib_inv_zero eq_refl Hl E) as [Hs Hset].
  apply py_gen_instr_same; [done..|apply lib_inv_zero|done].
Qed.
End properties.

(** A call by name is not: its instruction set is the one of the call before, so
    the texts of [sbit_ignored_after_thumb] differ. *)

Lemma call_by_kind_as_fresh_witness :
  let texts := ["[INFO] VALID ADD_imm_T3 f1125278" +:+ nl +:+ "[INST] .inst.w 0xf1125278" +:+ nl] in
  ∃ text s1 s2,
    py_gen_instr (Env := lcg_env_1) 0 "LOG_OP" 7 3 0 16 1 12
      (out_state zero_lib (run_calls (Env := lcg_env_1) (take 1 demo_calls) zero_lib)) = Ok text s1
    ∧ py_gen_instr (Env := lcg_env_1) 0 "LOG_OP" 7 3 0 16 1 12 zero_lib = Ok text s2.
Proof.
  intros texts. apply (call_by_kind_as_fresh (Env := lcg_env_1) (take 1 demo_calls) texts).
  - repeat constructor.
  - vm_compute. reflexivity.
Defined.
