(* ===== verification/Driver.v ===== *)
(** * The test driver's use of the library: art/rit.py, class RIT

    The two methods that ask the library for one instruction: they draw the
    parameters the caller left open, call an entry point, read the text it
    prints, and try again while the text is not accepted. *)
From S2P Require Import Prelude RitCommon InstrTable State InstrUtil InstrBuf Keeps GenARMMem ValidArch EncodeBits RandomInstrGen Attempt Output Loop Params Api ParseRIT V1State V1Encode V1RandomInstrGen V1InstrGenerator V1Attempt V1Loop V1Api Reproduce V1Reproduce.
#[local] Open Scope c_scope.

(** ** 1. Definitions *)

(** Python's [random] module, the [n]-th number drawn from a range, and the
    callback that generates floating-point instructions (art/vfp.py), taken as a
    function that always answers. *)
Definition insts : Type := list (string * string).
Class PyEnv := {
  randint_at : nat → Z → Z → Z;
  randint_at_range : ∀ n a b, a ≤ b → a ≤ randint_at n a b ≤ b;
  vfpgen : bool → Z → Z → Z → bool → option insts
}.

(** The loaded library and the position in the random stream. *)
Record drv_state := Mk_drv { librit : lib_state; drawn : nat }.
Abbreviation drv := (M drv_state).

Definition call_lib {A} (m : lib A) : drv A := λ d,
  match m d.(librit) with
  | Ok a s => Ok a (Mk_drv s d.(drawn))
  | Abort w => Abort w
  end.

(** The kinds a random choice is made from (arminfo.py): stack, memory,
    multiplication, data, miscellaneous and floating point. *)
Definition ALL_OP : list string :=
  ["PUSH_OP"; "POP_OP"] ++ ["LD_OP"] ++ ["MUL32_OP"; "UMUL_OP"; "SMUL_OP"; "SMULD_OP"]
  ++ ["ALU_OP"; "LOG_OP"; "MOV_OP"; "BYTE_ALU_OP"; "S_BYTE_ALU_OP"]
  ++ ["CMP_OP"; "TEST_OP"; "EXT_OP"; "BF_OP"; "REVERSE_OP"; "SR_OP"; "MISC_OP"] ++ ["VFP_OP"].

Section driver.
Context `{Env : !RitEnv} `{Py : !PyEnv}.

(** [random.randint(a, b)] *)
Definition randint (a b : Z) : drv Z := λ d,
  Ok (randint_at d.(drawn) a b) (Mk_drv d.(librit) (S d.(drawn))).
(** [random.choice(l)] of a list that is not empty. *)
Definition choice {A} (l : list A) (dflt : A) : drv A :=
  i ← randint 0 (Z.of_nat (length l) - 1); mret (nth (Z.to_nat i) l dflt).

(** [if x is None: x = ...] *)
Definition if_none {A} (x : option A) (m : drv A) : drv A :=
  match x with Some v => mret v | None => m end.

Definition draw_cond : drv Z := c ← randint 0 32; mret (if 14 <? c then 14 else c).

(** The answer of [parseRIT], whose exceptions nobody catches. *)
Definition parse (text : string) (allow_fix isARM invalid : bool) : drv (bool * option insts) :=
  match parseRIT text allow_fix isARM invalid with
  | Some r => mret r
  | None => fail PyRaise
  end.

(** [while retry > 0] with the calls of [gen_single_inst_with_opkind]. *)
Fixpoint opkind_retry (retry : nat) (isa0 : Z) (opkind : string) (cond sbit src_reg dst_reg : Z)
    (allow_fix : bool) : drv (option insts) :=
  match retry with
  | O => mret None
  | S retry =>
      hexcode ← randint 0 (2 ^ 32 - 1);
      seed ← randint 0 (2 ^ 32 - 1);
      output ← call_lib (py_gen_instr isa0 opkind hexcode cond sbit src_reg dst_reg seed);
      r ← parse output allow_fix true false;
      if (r.1 : bool) then mret r.2
      else opkind_retry retry isa0 opkind cond sbit src_reg dst_reg allow_fix
  end.

Definition gen_single_inst_with_opkind (maxretry : nat) (isARM : bool) (opkind : option string)
    (cond sbit src_reg dst_reg : option Z) (allow_fix : bool) : drv (option insts) :=
  let isa0 := if isARM then 0 else 1 in
  opkind ← if_none opkind (choice ALL_OP EmptyString);
  cond ← if_none cond draw_cond;
  sbit ← if_none sbit (choice [0; 1] 0);
  let src_reg := default 16 src_reg in
  let dst_reg := default 16 dst_reg in
  if String.eqb opkind "VFP_OP" then mret (vfpgen isARM cond src_reg dst_reg allow_fix)
  else opkind_retry maxretry isa0 opkind cond sbit src_reg dst_reg allow_fix.

(** The loop of [gen_single_inst_with_opcode]: [hexcode] and [seed] are drawn
    once, in the first round that finds them open. *)
Fixpoint opcode_retry (retry : nat) (isARM : bool) (opcode : string) (cond sbit src_reg dst_reg : Z)
    (allow_fix : bool) (seed hexcode : option Z) (invalid : bool) : drv (option insts) :=
  match retry with
  | O => mret None
  | S retry =>
      hexcode ← if_none hexcode (randint 0 (2 ^ 32 - 1));
      seed ← if_none seed (randint 0 (2 ^ 32 - 1));
      output ← call_lib (py_gen_instr_with_op opcode hexcode cond sbit src_reg dst_reg seed);
      r ← parse output allow_fix isARM invalid;
      if (r.1 : bool) then mret r.2
      else opcode_retry retry isARM opcode cond sbit src_reg dst_reg allow_fix (Some seed) (Some hexcode) invalid
  end.

Definition gen_single_inst_with_opcode (maxretry : nat) (isARM : bool) (opcode : option string)
    (cond sbit src_reg dst_reg : option Z) (allow_fix : bool) (seed hexcode : option Z) (invalid : bool)
    : drv (option insts) :=
  let opcode := default EmptyString opcode in
  cond ← if_none cond draw_cond;
  sbit ← if_none sbit (choice [0; 1] 0);
  let src_reg := default 16 src_reg in
  let dst_reg := default 16 dst_reg in
  opcode_retry maxretry isARM opcode cond sbit src_reg dst_reg allow_fix seed hexcode invalid.
End driver.

(** ** 2. Rules *)

Section rules.
Context `{Env : !RitEnv} `{Py : !PyEnv}.

Lemma wp_call_lib {A} (m : lib A) Q d :
  wp m (λ a s, Q a (Mk_drv s d.(drawn))) d.(librit) → wp (call_lib m) Q d.
Proof. unfold wp, call_lib. by destruct (m d.(librit)). Qed.

(** Drawing leaves the library alone. *)
Definition draws {A} (P : A → Prop) (m : drv A) : Prop :=
  ∀ d, ∃ v n, m d = Ok v (Mk_drv d.(librit) n) ∧ P v.

Lemma wp_draws {A B} (P : A → Prop) (m : drv A) (k : A → drv B) Q d :
  draws P m → (∀ v n, P v → wp (k v) Q (Mk_drv d.(librit) n)) → wp (m ≫= k) Q d.
Proof. intros Hm Hk. destruct (Hm d) as (v & n & E & HP). apply wp_bind, (wp_intro _ _ _ _ _ E). by apply Hk. Qed.

Lemma draws_randint a b : a ≤ b → draws (λ v, a ≤ v ≤ b) (randint a b).
Proof. intros Hab d. eexists _, _. split; [reflexivity|]. by apply randint_at_range. Qed.

Lemma draws_choice {A} (l : list A) dflt : l ≠ [] → draws (λ v, v ∈ l) (choice l dflt).
Proof.
  intros Hl d. eexists _, _. split; [reflexivity|].
  assert (0 < length l)%nat by (destruct l; [done|cbn; lia]).
  pose proof (randint_at_range d.(drawn) 0 (Z.of_nat (length l) - 1) ltac:(lia)).
  apply list_elem_of_In, nth_In. lia.
Qed.

Lemma draws_draw_cond : draws (λ v, 0 ≤ v ≤ 14) draw_cond.
Proof.
  intros d. eexists _, _. split; [reflexivity|]. pose proof (randint_at_range d.(drawn) 0 32 ltac:(lia)) as H.
  destruct (Z.ltb_spec 14 (randint_at (drawn d) 0 32)); lia.
Qed.

Lemma draws_if_none {A} (P : A → Prop) x m : draws P m → draws (λ v, x = Some v ∨ x = None ∧ P v) (if_none x m).
Proof.
  intros Hm d. destruct x as [v|]; cbn [if_none].
  - exists v, d.(drawn). split; [by destruct d|]. by left.
  - destruct (Hm d) as (v & n & E & HP). exists v, n. auto.
Qed.

(** The text of a call, as the reader sees it. *)
Lemma call_result_printed dst cond op st raw text :
  call_result dst cond op st raw text → printed op raw st " " text.
Proof.
  intros [Hop _ _ _ _ (body & -> & Hb & Hv) _]. split; [done|done|]. exists body. split; [done|].
  split; [|intros Hst; apply Hv; by left]. unfold head_line_1, info_line, info_rest. by rewrite !string_app_assoc.
Qed.

(** Reading with [invalid] set, when the text ends with the encoding line: what
    is accepted ends with the encoding, whatever the status. *)
Lemma call_result_invalid allow_fix dst cond op st raw text :
  call_result dst cond op st raw text → has_line op st →
  ∃ b inst, parseRIT text allow_fix true true = Some (b, inst)
    ∧ (b = true → ∃ pre, inst = Some (pre ++ [(directive op, encoding op raw)])).
Proof.
  intros [Hop _ _ _ _ (body & -> & Hb & Hl) _] H. destruct (Hl H) as [pre ->]. apply Forall_app in Hb as [Hb1 Hb2].
  assert (head_line_1 op raw st = info_line st (info_rest op raw " ") +:+ nl) as ->.
  { unfold head_line_1, info_line, info_rest. by rewrite !string_app_assoc. }
  unfold parseRIT. rewrite string_app_assoc, splitlines_line, splitlines_text
    by (by apply plain_info_line || by apply Forall_app).
  cbn [parse_lines]. destruct (info_line_words op raw " " st) as [ws Hw].
  assert (∃ b i, parse_line allow_fix true true (false, []) (info_line st (info_rest op raw " ")) = Some (b, i)) as (b & i & ->).
  { unfold parse_line. rewrite Hw. change (String.prefix "[INFO]" (info_line st _)) with true. cbn. destruct st; eauto. }
  cbn [mbind option_bind]. rewrite parse_lines_ok by by apply Forall_app. cbn [mbind option_bind]. destruct b; [|by eexists _, _].
  eexists _, _. split; [done|]. intros _. exists (i ++ flat_map (line_inst allow_fix) pre).
  rewrite flat_map_app. cbn [flat_map]. by rewrite line_inst_encoding, app_nil_r, app_assoc.
Qed.

(** ** 3. The loops *)

(** An instruction of the driver: the set-up code and the encoding of a word
    that the library generated as VALID for opcode [op]; none of it defines a
    label or switches the assembler's instruction set. *)
Definition encodes (dst_reg cond op : Z) (i : insts) : Prop :=
  ∃ raw text pre, call_result (get_reg_type dst_reg) cond op VALID raw text
    ∧ i = pre ++ [(directive op, encoding op raw)] ∧ read_number (encoding op raw) = Some (encoded_word op raw)
    ∧ Forall harmless i.

Lemma wp_parse_call allow_fix isARM dst_reg cond op st raw text Q d :
  call_result (get_reg_type dst_reg) cond op st raw text →
  (∀ i, encodes dst_reg cond op i → Q (true, Some i) d) → (st ≠ VALID → Q (false, None) d) →
  wp (parse text allow_fix isARM false) Q d.
Proof.
  intros Hc Hok Hno. destruct (parse_printed allow_fix isARM _ _ _ _ _ (call_result_printed _ _ _ _ _ _ Hc)) as [H1 H2].
  unfold parse. destruct (decide (st = VALID)) as [-> |Hst].
  - destruct (H1 eq_refl) as (pre & -> & Hh). apply wp_ret, Hok. exists raw, text, pre.
    split; [done|]. split; [done|]. split; [apply read_encoding, Hc|done].
  - rewrite H2 by done. apply wp_ret. by apply Hno.
Qed.

(** The opcodes a call by kinds may choose. *)
Definition of_kind (isARM : bool) (opkind : string) (op : Z) : Prop :=
  let isa0 := isa_of (if isARM then 0 else 1) in
  drawn_from (kinds_of opkind) (op_range isa0).1 (op_range isa0).2 op.

Lemma wp_opkind_retry n isARM opkind cond sbit src_reg dst_reg allow_fix d :
  lib_inv d.(librit) →
  wp (opkind_retry n (if isARM : bool then 0 else 1) opkind cond sbit src_reg dst_reg allow_fix)
     (λ r d', lib_inv d'.(librit)
        ∧ ∀ i, r = Some i → ∃ op, of_kind isARM opkind op ∧ encodes dst_reg cond op i) d.
Proof.
  revert d. induction n as [|n IH]; intros d Hd; cbn [opkind_retry]; [by apply wp_ret|].
  do 2 (eapply wp_draws; [by apply draws_randint|]; intros ? ? _). cbn [librit].
  apply wp_bind, wp_call_lib. cbn [librit]. eapply wp_mono; [by apply wp_py_gen_instr|].
  intros text s ([Hs _] & _ & op & st & raw & Hc & Hk). apply wp_bind.
  eapply wp_parse_call; [exact Hc|..]; cbn [fst snd].
  - intros i Hi. apply wp_ret. split; [done|]. intros ? [= <-]. by exists op.
  - intros _. by apply IH.
Qed.

Lemma wp_opcode_retry n isARM opcode cond sbit src_reg dst_reg allow_fix seed hexcode d :
  lib_inv d.(librit) → roomy_name (Some opcode) → known opcode →
  wp (opcode_retry n isARM opcode cond sbit src_reg dst_reg allow_fix seed hexcode false)
     (λ r d', lib_inv d'.(librit)
        ∧ ∀ i, r = Some i → ∃ op, (instr_desc op).(name) = Some opcode ∧ encodes dst_reg cond op i) d.
Proof.
  intros Hd Hr Hk. revert d seed hexcode Hd.
  induction n as [|n IH]; intros d seed hexcode Hd; cbn [opcode_retry]; [by apply wp_ret|].
  do 2 (eapply wp_draws; [by apply draws_if_none, draws_randint|]; intros ? ? _). cbn [librit].
  apply wp_bind, wp_call_lib. cbn [librit]. eapply wp_mono; [by apply wp_py_gen_instr_with_op; [|left]|].
  intros text s ([Hs _] & _ & [(op & st & raw & Hn & Hc)|[? _]]); [|done]. apply wp_bind.
  eapply wp_parse_call; [exact Hc|..]; cbn [fst snd].
  - intros i Hi. apply wp_ret. split; [done|]. intros ? [= <-]. by exists op.
  - intros _. by apply IH.
Qed.

(** With [invalid] set, for an ARM opcode. *)
Definition arm_named (opcode : string) : Prop :=
  ∀ op, 0 ≤ op < SISA_OP_MAX → (instr_desc op).(name) = Some opcode → op < SISA_OP_ARM_MAX ∧ (instr_desc op).(op_kind) ≠ PSEUDO_OP.

Lemma wp_opcode_retry_invalid n opcode cond sbit src_reg dst_reg allow_fix seed hexcode d :
  lib_inv d.(librit) → roomy_name (Some opcode) → known opcode → arm_named opcode →
  wp (opcode_retry n true opcode cond sbit src_reg dst_reg allow_fix seed hexcode true)
     (λ r d', lib_inv d'.(librit) ∧ ∀ i, r = Some i → ∃ op raw pre, (instr_desc op).(name) = Some opcode
        ∧ 0 ≤ op < SISA_OP_MAX ∧ is_u32 raw ∧ i = pre ++ [(directive op, encoding op raw)]) d.
Proof.
  intros Hd Hr Hk Ha. revert d seed hexcode Hd.
  induction n as [|n IH]; intros d seed hexcode Hd; cbn [opcode_retry]; [by apply wp_ret|].
  do 2 (eapply wp_draws; [by apply draws_if_none, draws_randint|]; intros ? ? _). cbn [librit].
  apply wp_bind, wp_call_lib. cbn [librit]. eapply wp_mono; [by apply wp_py_gen_instr_with_op; [|left]|].
  intros text s ([Hs _] & _ & [(op & st & raw & Hn & Hc)|[? _]]); [|done]. apply wp_bind.
  destruct (call_result_invalid allow_fix _ _ _ _ _ _ Hc (or_intror (Ha op (cr_op _ _ _ _ _ _ Hc) Hn))) as (b & inst & E & Hi).
  unfold parse. rewrite E. apply wp_ret. cbn [fst snd]. destruct b; [|by apply IH].
  apply wp_ret. split; [done|]. intros i ->. destruct (Hi eq_refl) as [pre [= ->]]. exists op, raw, pre.
  split; [done|]. split; [apply Hc|]. split; [apply Hc|done].
Qed.

(** What reading [text] answers, when it raises no exception. *)
Definition reads (text : string) (allow_fix isARM invalid : bool) (r : option insts) : Prop :=
  ∃ b inst, parseRIT text allow_fix isARM invalid = Some (b, inst) ∧ r = if b : bool then inst else None.

Lemma empty_unknown : ¬ known EmptyString.
Proof.
  intros (op & Hop & Hn). pose proof (table_check (λ op, negb (name_is EmptyString op))
    ltac:(vm_compute; reflexivity) op ltac:(lia)) as H. cbv beta in H. unfold name_is in H. by rewrite Hn in H.
Qed.

(** A name that the table does not have: every round reads the text that was
    there before. *)
Lemma wp_opcode_retry_unknown n isARM opcode cond sbit src_reg dst_reg allow_fix seed hexcode invalid r d :
  lib_inv d.(librit) → ¬ known opcode → (0 < n)%nat →
  reads d.(librit).(globals).(print_buf) allow_fix isARM invalid r →
  wp (opcode_retry n isARM opcode cond sbit src_reg dst_reg allow_fix seed hexcode invalid)
     (λ r' d', r' = r ∧ lib_inv d'.(librit)
        ∧ d'.(librit).(globals).(print_buf) = d.(librit).(globals).(print_buf)) d.
Proof.
  intros Hd Hk Hn (b & inst & Hp & ->). assert (roomy_name (Some opcode)) as Hr.
  { split; intros [= ->]; apply Hk; [by exists SISA_OP_LDRD_reg|by exists SISA_OP_STRD_reg]. }
  destruct n as [|n]; [lia|clear Hn]. revert d seed hexcode Hd Hp.
  induction n as [|n IH]; intros d seed hexcode Hd Hp; cbn [opcode_retry];
    do 2 (eapply wp_draws; [by apply draws_if_none, draws_randint|]; intros ? ? _); cbn [librit];
    apply wp_bind, wp_call_lib; cbn [librit]; (eapply wp_mono; [by apply wp_py_gen_instr_with_op; [|left]|]);
    intros text s ([Hs _] & Ht & [(op & st & raw & Hn & Hc)|[_ ->]]).
  1,3: destruct Hk; exists op; split; [|done]; pose proof (cr_op _ _ _ _ _ _ Hc);
       destruct (decide (op = 0)) as [-> |]; [done|lia].
  - apply wp_bind. unfold parse. rewrite Hp. destruct b; by apply wp_ret.
  - apply wp_bind. unfold parse. rewrite Hp. destruct b; [by apply wp_ret|]. apply wp_ret. cbn [fst].
    eapply wp_mono; [apply IH; cbn [librit]; [done|by rewrite Ht]|]. cbn [librit]. by rewrite Ht.
Qed.
End rules.

(** ** 4. Retries by name *)

Section retries.
Context `{Env : !RitEnv} `{Py : !PyEnv}.
Context (isARM : bool) (opcode : string) (cond sbit src_reg dst_reg : Z) (allow_fix invalid : bool).
Context (Hroom : roomy_name (Some opcode)).

(** The text that was not accepted once is not accepted again. *)
Lemma opcode_retry_again n seed hexcode text inst s d :
  lib_inv d.(librit) → settled d.(librit) →
  py_gen_instr_with_op opcode hexcode cond sbit src_reg dst_reg seed d.(librit) = Ok text s →
  parseRIT text allow_fix isARM invalid = Some (false, inst) →
  ∃ d', opcode_retry n isARM opcode cond sbit src_reg dst_reg allow_fix (Some seed) (Some hexcode) invalid d = Ok None d'.
Proof using Hroom.
  intros Hd Hset E Hp. revert d s Hd Hset E. induction n as [|n IH]; intros d s Hd Hset E; [by exists d|].
  destruct (named_again _ _ _ _ _ _ _ _ _ _ Hd Hset Hroom E) as (Hs & Hset' & s' & E').
  destruct (IH (Mk_drv s d.(drawn)) s' Hs Hset' E') as [d' Ed]. exists d'.
  cbn [opcode_retry if_none]. unfold mbind, M_bind, mret, M_ret, call_lib, parse. by rewrite E, Hp.
Qed.

Lemma opcode_retry_once n seed hexcode d :
  lib_inv d.(librit) → settled d.(librit) →
  out_rel (λ _ _, True)
    (opcode_retry (S n) isARM opcode cond sbit src_reg dst_reg allow_fix seed hexcode invalid d)
    (opcode_retry 1 isARM opcode cond sbit src_reg dst_reg allow_fix seed hexcode invalid d).
Proof using Hroom.
  intros Hd Hset. cbn [opcode_retry].
  destruct (draws_if_none _ hexcode _ (draws_randint 0 (2 ^ 32 - 1) ltac:(lia)) d) as (h & n1 & E1 & _).
  destruct (draws_if_none _ seed _ (draws_randint 0 (2 ^ 32 - 1) ltac:(lia)) (Mk_drv d.(librit) n1)) as (sd & n2 & E2 & _).
  unfold mbind, M_bind. rewrite E1. cbn [librit] in *. rewrite E2. unfold call_lib. cbn [librit drawn].
  destruct (py_gen_instr_with_op opcode h cond sbit src_reg dst_reg sd d.(librit)) as [text s|] eqn:E; [|done].
  unfold parse. destruct (parseRIT text allow_fix isARM invalid) as [[[] inst]|] eqn:Hp; [done| |done]. cbn [fst mret M_ret].
  destruct (named_again _ _ _ _ _ _ _ _ _ _ Hd Hset Hroom E) as (Hs & Hset' & s' & E').
  destruct (opcode_retry_again n sd h text inst s' (Mk_drv s n2) Hs Hset' E' Hp) as [d' Ed]. by rewrite Ed.
Qed.
End retries.

(** ** 5. Properties *)

Section properties.
Context `{Env : !RitEnv} `{Py : !PyEnv}.

(** The kind that the method uses: the given one, or one drawn. *)
Definition used_kind (opkind : option string) (kind : string) : Prop :=
  opkind = Some kind ∨ opkind = None ∧ kind ∈ ALL_OP.

Lemma wp_gen_single_inst_with_opkind maxretry isARM opkind cond sbit src_reg dst_reg allow_fix d :
  lib_inv d.(librit) →
  wp (gen_single_inst_with_opkind maxretry isARM opkind cond sbit src_reg dst_reg allow_fix)
     (λ r d', lib_inv d'.(librit) ∧ ∃ kind c, used_kind opkind kind ∧ used_cond cond c
        ∧ if decide (kind = "VFP_OP")
          then r = vfpgen isARM c (default 16 src_reg) (default 16 dst_reg) allow_fix
          else ∀ i, r = Some i → ∃ op, of_kind isARM kind op ∧ encodes (default 16 dst_reg) c op i) d.
Proof.
  intros Hd. unfold gen_single_inst_with_opkind. cbv zeta.
  eapply wp_draws; [by apply draws_if_none, draws_choice|]. intros kind n0 Hkind. cbn [librit].
  eapply wp_draws; [apply draws_if_none, draws_draw_cond|]. intros c n1 Hc. cbn [librit].
  eapply wp_draws; [by apply draws_if_none, draws_choice|]. intros sb n2 _. cbn [librit].
  destruct (String.eqb_spec kind "VFP_OP") as [E|E].
  - apply wp_ret. split; [done|]. exists kind, c. by rewrite decide_True.
  - eapply wp_mono; [by apply wp_opkind_retry|]. intros r d' [Hd' Hr]. split; [done|].
    exists kind, c. by rewrite decide_False.
Qed.

(** C31. The driver and the library compose.  Whatever was generated before, a
    request for an instruction by kind ends without an exception, an assertion
    or an overrun; it leaves the library ready for the next request; and an
    instruction that it returns is the floating-point generator's, if that kind
    was asked for or drawn, or else ends with the directive and the encoding of
    a word that the library generated as VALID, for an opcode of the kind and
    the instruction set asked for, with the condition asked for. *)
Theorem gen_single_inst_with_opkind_sound (maxretry : nat) (isARM : bool) (opkind : option string)
    (cond sbit src_reg dst_reg : option Z) (allow_fix : bool) (d : drv_state) :
  lib_inv d.(librit) →
  ∃ r d', gen_single_inst_with_opkind maxretry isARM opkind cond sbit src_reg dst_reg allow_fix d = Ok r d'
    ∧ lib_inv d'.(librit)
    ∧ ∃ kind c, used_kind opkind kind ∧ used_cond cond c
        ∧ if decide (kind = "VFP_OP")
          then r = vfpgen isARM c (default 16 src_reg) (default 16 dst_reg) allow_fix
          else ∀ i, r = Some i → ∃ op, of_kind isARM kind op ∧ encodes (default 16 dst_reg) c op i.
Proof. intros Hd. apply wp_elim. by apply wp_gen_single_inst_with_opkind. Qed.

(** C32. Asking for an opcode by name.  For a name of the table (the two
    opcodes of C26 apart) the request ends, and an instruction that it returns
    is the encoding of a VALID word of that opcode with the condition asked
    for.  For a name that the table does not have, the library prints nothing,
    and the method reads what the request before left: it returns the same
    instruction again, as if it were the one asked for. *)
Theorem gen_single_inst_with_opcode_answer (maxretry : nat) (isARM : bool) (opcode : option string)
    (cond sbit src_reg dst_reg : option Z) (allow_fix : bool) (seed hexcode : option Z) (d : drv_state) :
  lib_inv d.(librit) → roomy_name (Some (default EmptyString opcode)) →
  (known (default EmptyString opcode) → ∃ r d' c,
     gen_single_inst_with_opcode maxretry isARM opcode cond sbit src_reg dst_reg allow_fix seed hexcode false d = Ok r d'
     ∧ lib_inv d'.(librit) ∧ used_cond cond c
     ∧ ∀ i, r = Some i → ∃ op, (instr_desc op).(name) = opcode ∧ encodes (default 16 dst_reg) c op i)
  ∧ (¬ known (default EmptyString opcode) → (0 < maxretry)%nat →
     ∀ invalid r, reads d.(librit).(globals).(print_buf) allow_fix isARM invalid r → ∃ d',
     gen_single_inst_with_opcode maxretry isARM opcode cond sbit src_reg dst_reg allow_fix seed hexcode invalid d = Ok r d'
     ∧ lib_inv d'.(librit)).
Proof.
  intros Hd Hroom. unfold gen_single_inst_with_opcode. cbv zeta. split.
  - intros Hk.
    cut (wp (gen_single_inst_with_opcode maxretry isARM opcode cond sbit src_reg dst_reg allow_fix seed hexcode false)
      (λ r d', lib_inv d'.(librit) ∧ ∃ c, used_cond cond c ∧ ∀ i, r = Some i → ∃ op,
         (instr_desc op).(name) = opcode ∧ encodes (default 16 dst_reg) c op i) d).
    { intros (r & d' & E & Hd' & c & Hc & Hr)%wp_elim. by exists r, d', c. }
    unfold gen_single_inst_with_opcode. cbv zeta.
    eapply wp_draws; [apply draws_if_none, draws_draw_cond|]. intros c n1 Hc. cbn [librit].
    eapply wp_draws; [by apply draws_if_none, draws_choice|]. intros sb n2 _. cbn [librit].
    eapply wp_mono; [by apply wp_opcode_retry|]. intros r d' [Hd' Hr]. split; [done|]. exists c. split; [done|].
    intros i Hi. destruct (Hr i Hi) as (op & Hn & He). exists op. split; [|done].
    destruct opcode; [done|]. by destruct (empty_unknown Hk).
  - intros Hk Hn invalid r Hr.
    cut (wp (gen_single_inst_with_opcode maxretry isARM opcode cond sbit src_reg dst_reg allow_fix seed hexcode invalid)
      (λ r' d', r' = r ∧ lib_inv d'.(librit)) d).
    { intros (r' & d' & E & -> & Hd')%wp_elim. by exists d'. }
    unfold gen_single_inst_with_opcode. cbv zeta.
    eapply wp_draws; [apply draws_if_none, draws_draw_cond|]. intros c n1 Hc. cbn [librit].
    eapply wp_draws; [by apply draws_if_none, draws_choice|]. intros sb n2 _. cbn [librit].
    eapply wp_mono; [by apply wp_opcode_retry_unknown|]. by intros r' d' (-> & ? & _).
Qed.

(** C17. Retrying a request by name is futile: [hexcode] and [seed] are drawn
    once, and the library answers the same call with the same text, so from a
    library in use a request answers with any number of retries what it answers
    with one (the opcodes of C26 apart). *)
Theorem gen_single_inst_with_opcode_retries (maxretry : nat) (isARM : bool) (opcode : option string)
    (cond sbit src_reg dst_reg : option Z) (allow_fix : bool) (seed hexcode : option Z) (invalid : bool)
    (l : list call) (texts : list string) (s : lib_state) (n : nat) :
  let name := default EmptyString opcode in
  Forall roomy_call l → run_calls l zero_lib = Ok texts s →
  roomy_name (Some name) → (0 < maxretry)%nat →
  out_rel (λ _ _, True)
    (gen_single_inst_with_opcode maxretry isARM opcode cond sbit src_reg dst_reg allow_fix seed hexcode invalid (Mk_drv s n))
    (gen_single_inst_with_opcode 1 isARM opcode cond sbit src_reg dst_reg allow_fix seed hexcode invalid (Mk_drv s n)).
Proof.
  intros name Hl E Hr Hm. destruct maxretry as [|maxretry]; [lia|].
  destruct (run_calls_settled l zero_lib texts s lib_inv_zero eq_refl Hl E) as [Hs Hset].
  unfold gen_single_inst_with_opcode. cbv zeta. fold name.
  destruct (draws_if_none _ cond _ draws_draw_cond (Mk_drv s n)) as (c & n1 & E1 & _).
  destruct (draws_if_none _ sbit _ (draws_choice [0; 1] 0 ltac:(done)) (Mk_drv s n1)) as (b & n2 & E2 & _).
  unfold mbind, M_bind. rewrite E1. cbn [librit] in *. rewrite E2. by apply opcode_retry_once.
Qed.
End properties.

(** ** 6. Witnesses *)

(** A concrete random stream, and a floating-point generator that gives up. *)
#[refine] Definition demo_py : PyEnv := {|
  randint_at n a b := a + (0x12345678 * (Z.of_nat n + 1)) mod (b - a + 1);
  vfpgen _ _ _ _ _ := None
|}.
Proof. intros n a b Hab. pose proof (Z.mod_pos_bound (0x12345678 * (Z.of_nat n + 1)) (b - a + 1)). lia. Defined.

Lemma gen_single_inst_with_opkind_sound_witness :
  let r := gen_single_inst_with_opkind (Env := lcg_env_1) (Py := demo_py) 5 true (Some "ALU_OP") (Some 3) (Some 1)
             None None false (Mk_drv zero_lib 0) in
  out_value None r = Some [(".inst", "0x32b45678")]
  ∧ ∃ op, of_kind (Env := lcg_env_1) true "ALU_OP" op ∧ encodes 16 3 op [(".inst", "0x32b45678")].
Proof.
  intros r. assert (out_value None r = Some [(".inst", "0x32b45678")]) as Hr by (vm_compute; reflexivity).
  split; [done|].
  destruct (gen_single_inst_with_opkind_sound (Env := lcg_env_1) (Py := demo_py) 5 true (Some "ALU_OP") (Some 3)
    (Some 1) None None false (Mk_drv zero_lib 0) lib_inv_zero) as (v & d' & E & _ & kind & c & Hk & Hc & Hv).
  fold r in E. rewrite E in Hr. cbn in Hr.
  destruct Hk as [[= <-]|[? _]]; [|done]. destruct Hc as [[= <-]|[? _]]; [|done].
  by apply Hv.
Defined.

(** The library after one request: its text is still there. *)
Definition after_one : drv_state :=
  Mk_drv (out_state zero_lib (py_gen_instr (Env := lcg_env_1) 0 "ALU_OP" 0x12345678 3 1 16 16 7 zero_lib)) 0.

Lemma gen_single_inst_with_opcode_answer_witness :
  ¬ known "VADD_f32" ∧ ∃ d',
    gen_single_inst_with_opcode (Env := lcg_env_1) (Py := demo_py) 5 true (Some "VADD_f32") None None
      None None false None None false after_one = Ok (Some [(".inst", "0x30d45668")]) d'
    ∧ lib_inv d'.(librit).
Proof.
  assert (¬ known "VADD_f32") as Hk.
  { intros (op & Hop & Hn). pose proof (table_check (λ op, negb (name_is "VADD_f32" op))
      ltac:(vm_compute; reflexivity) op ltac:(lia)) as H. cbv beta in H. unfold name_is in H. by rewrite Hn in H. }
  assert (lib_inv after_one.(librit)) as Hinv.
  { destruct (wp_elim _ _ _ (wp_py_gen_instr (Env := lcg_env_1) 0 "ALU_OP" 0x12345678 3 1 16 16 7 zero_lib lib_inv_zero))
      as (text & s & E & [Hs _] & _). unfold after_one. cbn [librit]. by rewrite E. }
  split; [done|].
  apply (gen_single_inst_with_opcode_answer (Env := lcg_env_1) (Py := demo_py) 5 true (Some "VADD_f32") None None
    None None false None None after_one Hinv); [by split|done|lia|].
  exists true, (Some [(".inst", "0x30d45668")]). split; [vm_compute; reflexivity|done].
Defined.

Lemma gen_single_inst_with_opcode_retries_witness :
  let ask n := gen_single_inst_with_opcode (Env := lcg_env_1) (Py := demo_py) n true (Some "MUL") (Some 14) None
    None None true None (Some 15) false (Mk_drv zero_lib 0) in
  out_value (Some []) (ask 1%nat) = None ∧ out_rel (λ _ _, True) (ask 50%nat) (ask 1%nat).
Proof.
  intros ask. split; [vm_compute; reflexivity|]. refine (gen_single_inst_with_opcode_retries (Env := lcg_env_1) (Py := demo_py) 50 true (Some "MUL") (Some 14)
    None None None true None (Some 15) false [] [] zero_lib 0 _ _ _ _).
  - constructor.
  - reflexivity.
  - by split.
  - lia.
Defined.
