(* ===== verification/PyBase.v ===== *)
(** * The test generator (src/rit/art): objects, context and random numbers

    The Python programs around the library generate whole test programs.  They
    keep a context dictionary, which is passed to every function and updated in
    place, and a graph of block objects, which are filled after they were linked
    to each other.  Both are one state here: [art_state], with the block objects
    in a store that references index.  This file holds the state, the Python
    operations the programs use, and the rules for them. *)
From stdpp Require Export gmap.
From S2P Require Import Prelude State Driver V1State V1Api.
#[local] Open Scope Z_scope.

(** ** 1. Blocks (code.py) and classes of blocks (randomblock.py) *)

(** [RBType], and the classes it stands for. *)
Inductive RBType :=
  | RBasic | RByPass | RHammock | RLoop | RIrLoop | RInterwork | RCallRet | RExclusive | RALUwritePC.

(** The entries of [Block.code]; a block refers to another block object. *)
Inductive code_item :=
  | BLOCK (b : nat)
  | INST (i : insts)
  | ATTR (a : string)
  | LABEL (l : string).

(** The class of an object, with the attributes that class adds ([label_end] is
    computed from [label] in the constructor, and neither is assigned again). *)
Inductive block_class :=
  | PlainBlock | DataBlock | RDataBlock | ValueBlock
  | RBlock (kind : RBType) (label : string) (instnum : Z) (isARM : bool).

Record block := Mk_block { class_of : block_class; code : list code_item }.

Definition label_end (label : string) : string := label +:+ "_end".

#[global] Instance RBType_eq_dec : EqDecision RBType.
Proof. solve_decision. Defined.

(** ** 2. The context *)

(** [ctx] and the objects it leads to: ['nest'], [ISA], [BB] (a dictionary per
    basic block, with one optional entry, the limit), [REGALLOC], ['rit'] with
    the random numbers, and the block objects. *)
Record art_state := Mk_art {
  nest : Z;
  ISA : bool;
  BB : gmap string (option Z);
  REGALLOC : option Z;
  rit_of : drv_state;
  store : list block
}.
Abbreviation art := (M art_state).

Definition with_nest v s := Mk_art v s.(ISA) s.(BB) s.(REGALLOC) s.(rit_of) s.(store).
Definition with_ISA v s := Mk_art s.(nest) v s.(BB) s.(REGALLOC) s.(rit_of) s.(store).
Definition with_BB v s := Mk_art s.(nest) s.(ISA) v s.(REGALLOC) s.(rit_of) s.(store).
Definition with_REGALLOC v s := Mk_art s.(nest) s.(ISA) s.(BB) v s.(rit_of) s.(store).
Definition with_rit v s := Mk_art s.(nest) s.(ISA) s.(BB) s.(REGALLOC) v s.(store).
Definition with_store v s := Mk_art s.(nest) s.(ISA) s.(BB) s.(REGALLOC) s.(rit_of) v.

(** The options of the command line that the generator reads (options.py). *)
Record art_options := {
  opt_nest : Z;
  opt_num : Z;
  opt_instr_limit : Z;
  opt_maxretry : nat;
  opt_per_it : Z;
  opt_excl_block : bool;
  opt_aluwpc_block : bool
}.

(** ** 3. Python operations *)

(** The methods of ['rit'] and of [random] work on their part of the state. *)
Definition py {A} (m : drv A) : art A := λ s,
  match m s.(rit_of) with
  | Ok a d => Ok a (with_rit d s)
  | Abort w => Abort w
  end.

(** The attributes of an object; there are no dangling references. *)
Definition get_block (b : nat) : art block := λ s,
  match s.(store) !! b with Some blk => Ok blk s | None => Abort PyRaise end.
Definition set_block (b : nat) (blk : block) : art unit := modify (λ s, with_store (<[b := blk]> s.(store)) s).
(** A constructor: a new object. *)
Definition new_block (blk : block) : art nat := λ s,
  Ok (length s.(store)) (with_store (s.(store) ++ [blk]) s).
(** [b.code.append(item)] *)
Definition append (b : nat) (item : code_item) : art unit :=
  blk ← get_block b; set_block b (Mk_block blk.(class_of) (blk.(code) ++ [item])).
(** [b.label]; only an [RBlock] has one. *)
Definition label_of (b : nat) : art string :=
  blk ← get_block b;
  match blk.(class_of) with RBlock _ l _ _ => mret l | _ => fail PyRaise end.

(** [l.remove(x)] takes the first occurrence out. *)
Fixpoint list_remove {A} `{EqDecision A} (x : A) (l : list A) : option (list A) :=
  match l with
  | [] => None
  | y :: l => if decide (x = y) then Some l else l' ← list_remove x l; Some (y :: l')
  end.

Section python.
Context `{Py : !PyEnv}.

(** [random.randint(a, b)] raises an exception for an empty range, and
    [random.choice(l)] and [l.remove(x)] do for lists without the element. *)
Definition randint_py (a b : Z) : art Z :=
  if a <=? b then py (randint a b) else fail PyRaise.
Definition choice_py {A} (l : list A) : art A :=
  match l with [] => fail PyRaise | x :: _ => py (choice l x) end.
Definition remove_py {A} `{EqDecision A} (x : A) (l : list A) : art (list A) :=
  match list_remove x l with Some l' => mret l' | None => fail PyRaise end.
(** [if x in l: l.remove(x)] *)
Definition remove_if_py {A} `{EqDecision A} (x : A) (l : list A) : list A :=
  default l (list_remove x l).
End python.

(** [range(n)] *)
Definition range (n : Z) : list Z := seqZ 0 n.

(** ['%d'] and ['%x'] of an unbounded integer. *)
Definition py_digits (base x : Z) : string :=
  let str := digits (S (Z.to_nat (Z.log2 (Z.abs x)))) base (Z.abs x) "" in
  if x <? 0 then "-" +:+ str else str.
Definition dec (x : Z) : string := py_digits 10 x.
Definition hex (x : Z) : string := py_digits 16 x.
(** ['r%d'] *)
Definition reg (x : Z) : string := "r" +:+ dec x.
(** ['0x%08x'] *)
Definition hex_08 (x : Z) : string := "0x" +:+ zero_pad 8 (hex x).

(** ** 4. Rules *)

(** What is left alone by a computation that only draws numbers or calls the
    library. *)
Definition same_ctx (s s' : art_state) : Prop := s' = with_rit s'.(rit_of) s.

Lemma same_ctx_with_rit d s : same_ctx s (with_rit d s).
Proof. done. Qed.

#[global] Instance same_ctx_refl : Reflexive same_ctx.
Proof. intros []. done. Qed.
#[global] Instance same_ctx_trans : Transitive same_ctx.
Proof. intros s1 s2 s3 H1 H2. unfold same_ctx in *. rewrite H2, H1. done. Qed.

(** The library is ready for the next request. *)
Definition lib_ready (s : art_state) : Prop := lib_inv s.(rit_of).(librit).

(** A computation that answers [P], leaves the library ready, and changes
    nothing else of the context. *)
Definition pure_py {A} (P : A → Prop) (m : art A) : Prop :=
  ∀ s, lib_ready s → wp m (λ v s', P v ∧ lib_ready s' ∧ same_ctx s s') s.

Section rules.
Context `{Py : !PyEnv}.

Lemma wp_py {A} (m : drv A) Q s :
  wp m (λ a d, Q a (with_rit d s)) s.(rit_of) → wp (py m) Q s.
Proof. unfold wp, py. by destruct (m s.(rit_of)). Qed.

Lemma pure_ret {A} (P : A → Prop) v : P v → pure_py P (mret v).
Proof. intros Hv s Hs. by apply wp_ret. Qed.

Lemma pure_bind {A B} (P : A → Prop) (R : B → Prop) (m : art A) (k : A → art B) :
  pure_py P m → (∀ v, P v → pure_py R (k v)) → pure_py R (m ≫= k).
Proof.
  intros Hm Hk s Hs. apply wp_bind. eapply wp_mono; [by apply Hm|]. intros v s1 (Hv & Hs1 & E1).
  eapply wp_mono; [by apply (Hk v Hv)|]. intros w s2 (Hw & Hs2 & E2). split; [done|]. split; [done|]. by etrans.
Qed.

Lemma pure_mono {A} (P R : A → Prop) (m : art A) : (∀ v, P v → R v) → pure_py P m → pure_py R m.
Proof. intros H Hm s Hs. eapply wp_mono; [by apply Hm|]. intros v s' (Hv & ? & ?). auto. Qed.

Lemma pure_draws {A} (P : A → Prop) (m : drv A) : draws P m → pure_py P (py m).
Proof.
  intros Hm s Hs. apply wp_py. destruct (Hm s.(rit_of)) as (v & n & E & Hv). apply (wp_intro _ _ _ _ _ E).
  by split.
Qed.

Lemma pure_randint a b : a ≤ b → pure_py (λ v, a ≤ v ≤ b) (randint_py a b).
Proof. intros H. unfold randint_py. rewrite (proj2 (Z.leb_le a b) H). by apply pure_draws, draws_randint. Qed.

Lemma pure_choice {A} (l : list A) : l ≠ [] → pure_py (λ v, v ∈ l) (choice_py l).
Proof. intros H. unfold choice_py. destruct l; [done|]. by apply pure_draws, draws_choice. Qed.

Lemma list_remove_spec {A} `{EqDecision A} (x : A) l :
  x ∈ l → ∃ l', list_remove x l = Some l' ∧ l ≡ₚ x :: l'.
Proof.
  induction l as [|y l IH]; [by intros ?%elem_of_nil|]. intros Hx. cbn [list_remove].
  destruct (decide (x = y)) as [-> |Hne]; [by exists l|].
  destruct IH as (l' & E & Hp); [by apply elem_of_cons in Hx as [?|?]|]. exists (y :: l'). rewrite E. split; [done|].
  rewrite Hp. apply Permutation_swap.
Qed.

Lemma pure_remove {A} `{EqDecision A} (x : A) l :
  x ∈ l → pure_py (λ l', l ≡ₚ x :: l') (remove_py x l).
Proof.
  intros Hx. destruct (list_remove_spec x l Hx) as (l' & E & Hp). unfold remove_py. rewrite E. by apply pure_ret.
Qed.

Lemma list_remove_none {A} `{EqDecision A} (x : A) l : x ∉ l → list_remove x l = None.
Proof.
  induction l as [|y l IH]; [done|]. intros [Hne Hx]%not_elem_of_cons. cbn [list_remove].
  rewrite decide_False by done. by rewrite IH.
Qed.

Lemma wp_pure {A} (P : A → Prop) (m : art A) Q s :
  pure_py P m → lib_ready s → (∀ v d, P v → lib_inv d.(librit) → Q v (with_rit d s)) → wp m Q s.
Proof.
  intros Hm Hs HQ. eapply wp_mono; [by apply Hm|]. intros v s' (Hv & Hs' & E). rewrite E. by apply HQ.
Qed.
End rules.

Create HintDb py discriminated.
#[export] Hint Resolve pure_randint pure_choice pure_draws : py.
