(* ===== verification/PyCode.v ===== *)
(** * Blocks as text, and the fixed parts of a test: art/code.py, art/instrutil.py

    How a block prints itself, the random values of the data sections, and the
    blocks before and after the random part of a test. *)
From Stdlib Require Import Ascii.
From S2P Require Import Prelude State RandomInstrGen Driver V1State V1Api PyBase.
#[local] Open Scope Z_scope.

(** ** 1. Printing *)

Definition ISA_A : string := ".arm".
Definition ISA_T : string := ".thumb".
Definition isa_attr (isARM : bool) : string := if isARM then ISA_A else ISA_T.

Definition Attr (attr : string) : string := "    " +:+ attr +:+ nl.
Definition Label (label : string) : string := label +:+ ":" +:+ nl.
(** ["    %-16s%s\n"] *)
Definition pad_16 (str : string) : string :=
  str +:+ Nat.iter (16 - String.length str) (String " "%char) "".
Definition inst_text (i : string * string) : string := "    " +:+ pad_16 i.1 +:+ i.2 +:+ nl.
Definition Inst (i : insts) : string := String.concat "" (map inst_text i).

(** [Block.__str__] of the base class; [str] prints a block. *)
Fixpoint str_code (str : nat → option string) (l : list code_item) : option string :=
  match l with
  | [] => Some ""
  | e :: l =>
      t ← match e with
          | BLOCK b => str b
          | INST i => Some (Inst i)
          | ATTR a => Some (Attr a)
          | LABEL l => Some (Label l)
          end;
      ts ← str_code str l; Some (t +:+ ts)
  end.

(** [__str__] of the class of the object.  The recursion follows references; it
    gets as many rounds as there are objects. *)
Fixpoint str_block (fuel : nat) (st : list block) (b : nat) : option string :=
  match fuel with
  | O => None
  | S fuel =>
      blk ← st !! b;
      ret ← str_code (str_block fuel st) blk.(code);
      Some match blk.(class_of) with
           | PlainBlock | ValueBlock => ret
           | DataBlock | RDataBlock => nl +:+ ret
           | RBlock _ label instnum isARM =>
               Attr ".align" +:+ Attr (isa_attr isARM) +:+ Label label
               +:+ "@<" +:+ label +:+ ":" +:+ dec instnum +:+ ">" +:+ nl +:+ ret
               +:+ "@</" +:+ label +:+ ">" +:+ nl +:+ Attr ".align" +:+ Label (label_end label)
           end
  end.
Definition str (st : list block) (b : nat) : option string := str_block (length st) st b.

(** ** 2. Random values *)

Definition R_MUL_VAL : list Z :=
  [0x0; 0xffff; 0x80000000; 0x80008000; 0x8000ffff; 0xffff0000; 0xffff8000; 0xffffffff].
Definition R_SHIFT_VAL : list Z := [0x0; 0x1f; 0xff; 0xffffffff].
Definition EXCL_CNT : Z := 0xFF.
Definition ALU_W_PC_VALID_BEG_ADDR : string := "0x10000000".
Definition ALU_W_PC_VALID_SPACE_SIZE : string := "0x20000000".

Section values.
Context `{Py : !PyEnv}.

(** [input.sort()] *)
Fixpoint sort_insert (x : Z) (l : list Z) : list Z :=
  match l with
  | [] => [x]
  | y :: l => if x <=? y then x :: y :: l else y :: sort_insert x l
  end.
Definition sort_py (l : list Z) : list Z := foldr sort_insert [] l.

Definition getRandNum (nums : list Z) : art Z :=
  match nums with
  | [] => mret 0
  | [x] => mret x
  | _ =>
      let input := sort_py nums in
      ridx ← randint_py 0 (Z.of_nat (length input) - 2);
      let min := nth (Z.to_nat ridx) input 0 in
      let max := nth (S (Z.to_nat ridx)) input 0 in
      if min =? max then mret min
      else r ← randint_py min max; choice_py [min; min + 1; max - 1; max; r]
  end.

(** The pair is [(l_num, h_num)]. *)
Definition getRandVFPNum (is_sp : bool) : art (Z * Z) :=
  rval ← randint_py 0 17;
  let rv_in := existsb (Z.eqb rval) in
  if is_sp then
    l_num ← if rv_in [0; 10; 11] then mret 0
            else if rv_in [1] then randint_py 1 0x7fffff
            else if rv_in [2] then randint_py 0x800000 0x7f7fffff
            else if rv_in [3; 12; 13] then mret 0x7f800000
            else if rv_in [4] then randint_py 0x7f800001 0x7fffffff
            else if rv_in [5; 14; 15] then mret 0x80000000
            else if rv_in [6] then randint_py 0x80000001 0x807fffff
            else if rv_in [7] then randint_py 0x80800000 0xff7fffff
            else if rv_in [8; 16; 17] then mret 0xff800000
            else if rv_in [9] then randint_py 0xff800001 0xffffffff
            else randint_py 0 0xffffffff;
    mret (l_num, 0)
  else
    let both (lo hi : Z) :=
      h_num ← randint_py lo hi; l_num ← randint_py 0 0xffffffff; mret (l_num, h_num) in
    if rv_in [0; 10; 11] then mret (0, 0)
    else if rv_in [1] then both 0 0xfffff
    else if rv_in [2] then both 0x100000 0x7fefffff
    else if rv_in [3; 12; 13] then mret (0, 0x7ff00000)
    else if rv_in [4] then both 0x7ff00000 0x7fffffff
    else if rv_in [5; 14; 15] then mret (0, 0x80000000)
    else if rv_in [6] then both 0x80000000 0x800fffff
    else if rv_in [7] then both 0x80100000 0xffefffff
    else if rv_in [8; 16; 17] then mret (0, 0xfff00000)
    else if rv_in [9] then both 0xfff00000 0xffffffff
    else both 0 0xffffffff.

(** [for i in range(n): vals.append(m)] *)
Fixpoint repeat_py {A} (n : nat) (m : art A) : art (list A) :=
  match n with
  | O => mret []
  | S n => x ← m; l ← repeat_py n m; mret (x :: l)
  end.

Definition getRandRegVal : art Z := randint_py 0 (2 ^ 32 - 1).

Definition getGeneralRandomNum (size : Z) : art (list Z) :=
  type ← choice_py [0; 1];
  repeat_py (Z.to_nat size)
    (if type =? 0 then getRandNum R_SHIFT_VAL
     else if type =? 1 then getRandNum R_MUL_VAL
     else randint_py 0 0xffffffff).

Definition getVFPRandomNum (size : Z) : art (list Z) :=
  is_sp ← choice_py [true; false];
  if is_sp : bool then repeat_py (Z.to_nat size) (v ← getRandVFPNum is_sp; mret v.1)
  else
    pairs ← repeat_py (Z.to_nat (size / 2)) (getRandVFPNum is_sp);
    let vals := flat_map (λ v, [v.1; v.2]) pairs in
    if Z.of_nat (length vals) <? size then v ← getRandVFPNum is_sp; mret (vals ++ [v.1])
    else mret vals.

(** ** 3. Data sections *)

Definition new_DataBlock (label : string) (size : Z) : art nat :=
  new_block (Mk_block DataBlock [ATTR ".data"; LABEL label; INST [(".space", dec size)]]).

Definition words_line (rvals : list Z) : string * string :=
  (".word", String.concat ", " (map hex_08 rvals)).

Definition new_RDataBlock (label : string) (size : Z) (f_fill_rdata : Z → art (list Z)) : art nat :=
  lines ← repeat_py (Z.to_nat (size / 8)) (f_fill_rdata 8);
  rest ← if negb (size mod 8 =? 0) then rvals ← f_fill_rdata (size mod 8); mret [rvals] else mret [];
  new_block (Mk_block RDataBlock [ATTR ".data"; LABEL label; INST (map words_line (lines ++ rest))]).

Definition new_ValueBlock (label dtype : string) (value : Z) : art nat :=
  new_block (Mk_block ValueBlock [ATTR ".data"; LABEL label; INST [("." +:+ dtype, "0x" +:+ hex value)]]).

Definition genDataBlock : art nat :=
  data_b ← new_block (Mk_block PlainBlock []);
  b ← new_RDataBlock "ritdata" 0x18000 getGeneralRandomNum; append data_b (BLOCK b) ;;
  b ← new_DataBlock "regbak" 64; append data_b (BLOCK b) ;;
  b ← new_DataBlock "cfgdata" 64; append data_b (BLOCK b) ;;
  b ← new_DataBlock "excladdr" 4; append data_b (BLOCK b) ;;
  b ← new_DataBlock "exclflag" 4; append data_b (BLOCK b) ;;
  b ← new_ValueBlock "exclcnt" "word" EXCL_CNT; append data_b (BLOCK b) ;;
  b ← new_RDataBlock "bv_general" 512 getGeneralRandomNum; append data_b (BLOCK b) ;;
  b ← new_RDataBlock "bv_vfp" 512 getVFPRandomNum; append data_b (BLOCK b) ;;
  mret data_b.

(** ** 4. Before and after the random part *)

(** [('ldr', 'r%d, =0x%x' % (r, getRandRegVal()))] *)
Definition load_random (r : Z) : art (string * string) :=
  v ← getRandRegVal; mret ("ldr", reg r +:+ ", =0x" +:+ hex v).

Fixpoint for_insts (js : list Z) (f : Z → art insts) : art insts :=
  match js with
  | [] => mret []
  | j :: js => l ← f j; ls ← for_insts js f; mret (l ++ ls)
  end.

Definition genInitBlock (initVFP : bool) : art nat :=
  init_b ← new_block (Mk_block PlainBlock []);
  append init_b (ATTR ".cpu cortex-a9") ;;
  append init_b (ATTR ".fpu vfpv3") ;;
  append init_b (ATTR ".global _start") ;;
  append init_b (ATTR ".syntax unified") ;;
  append init_b (ATTR ".text") ;;
  append init_b (INST [(".space", "4096")]) ;;
  append init_b (LABEL "_start") ;;
  i0 ← load_random 0;
  let i1 := ("msr", "APSR_nzcvqg, r0") in
  vfp ← if initVFP then
          for_insts (range 32) (λ i,
            a ← load_random 0; b ← load_random 1;
            mret [a; b; ("vmov", "d" +:+ dec i +:+ ", r0, r1")])
        else mret [];
  regs ← for_insts (range 15) (λ i, a ← load_random i; mret [a]);
  append init_b (INST ([i0; i1] ++ vfp ++ regs)) ;;
  mret init_b.

(** A double quote, and the backslash of ["Pass!\n"]. *)
Definition dq : string := String (Ascii.ascii_of_nat 34) "".
Definition quoted (msg : string) : string := dq +:+ msg +:+ "\n" +:+ dq.

Definition report (status : string) (msg : string) : insts :=
  [("mov", "r0, #1"); ("adr", "r1, " +:+ msg); ("mov", "r2, #6"); ("mov", "r7, #4"); ("swi", "#0");
   ("mov", "r0, #" +:+ status); ("mov", "r7, #1"); ("svc", "#0")].

Definition genExitBlock : art nat :=
  exit_b ← new_block (Mk_block PlainBlock []);
  append exit_b (ATTR ".arm") ;;
  append exit_b (INST [("b", "exit"); (".ltorg", ""); (".space", "0x1000")]) ;;
  append exit_b (LABEL "exit") ;;
  append exit_b (INST (report "0" "str_pass")) ;;
  append exit_b (LABEL "failexit") ;;
  append exit_b (INST (report "1" "str_fail")) ;;
  append exit_b (LABEL "str_pass") ;;
  append exit_b (INST [(".string", quoted "Pass!")]) ;;
  append exit_b (LABEL "str_fail") ;;
  append exit_b (INST [(".string", quoted "Fail!")]) ;;
  append exit_b (INST [(".ltorg", ""); (".space", "4096")]) ;;
  data ← genDataBlock;
  append exit_b (BLOCK data) ;;
  append exit_b (INST [(".bss", ""); (".space", ALU_W_PC_VALID_SPACE_SIZE)]) ;;
  append exit_b (ATTR ("#gcc-opts " +:+ "-nostdlib -Wl,-Ttext=0x400000 -Wl,-Tdata=0x03fb0000 -Wl,-Tbss="
                       +:+ ALU_W_PC_VALID_BEG_ADDR)) ;;
  mret exit_b.
End values.
