(* ===== verification/PyTree.v ===== *)
(** * The tree of a test, and the assembler's view of its text

    The reference definitions for the test generator: the tree that the block
    objects in the store form, the lines it prints, the labels these lines
    define, and the instruction set the assembler is in at each line. *)
From Stdlib Require Import Ascii.
From S2P Require Import Prelude State RandomInstrGen Keeps Output Loop Api ParseRIT V1State V1Api Driver PyBase PyCode.
#[local] Open Scope Z_scope.

(** ** 1. Trees *)

(** A part of a block's code: another block, instructions, or a directive. *)
Inductive item (T : Type) :=
  | Sub (t : T)
  | Code (i : insts)
  | Direct (a : string).
Arguments Sub {T} t.
Arguments Code {T} i.
Arguments Direct {T} a.

(** A block object with what it refers to, made at nesting level [level]. *)
Inductive rtree :=
  Node (id : nat) (kind : RBType) (label : string) (isARM : bool) (level : Z) (items : list (item rtree)).

Definition t_id t := let '(Node x _ _ _ _ _) := t in x.
Definition t_kind t := let '(Node _ x _ _ _ _) := t in x.
Definition t_label t := let '(Node _ _ x _ _ _) := t in x.
Definition t_isARM t := let '(Node _ _ _ x _ _) := t in x.
Definition t_level t := let '(Node _ _ _ _ x _) := t in x.
Definition t_items t := let '(Node _ _ _ _ _ x) := t in x.

Definition on_sub {T} (P : T → Prop) (it : item T) : Prop :=
  match it with Sub t => P t | _ => True end.

Lemma rtree_ind' (P : rtree → Prop) :
  (∀ id k l a n items, Forall (on_sub P) items → P (Node id k l a n items)) → ∀ t, P t.
Proof.
  intros H. fix IH 1. intros [id k l a n items]. apply H.
  induction items as [|[t|i|s] items IHi]; constructor; try done. apply IH.
Qed.

(** All the blocks of a tree, in the order in which they are printed. *)
Fixpoint nodes (t : rtree) : list rtree :=
  match t with
  | Node id k l a n items =>
      t :: flat_map (λ it, match it with Sub t' => nodes t' | _ => [] end) items
  end.
Definition sub_nodes (it : item rtree) : list rtree := match it with Sub t => nodes t | _ => [] end.
Definition ids (t : rtree) : list nat := map t_id (nodes t).
(** The basic blocks. *)
Definition is_basic (t : rtree) : Prop := t_kind t = RBasic.
#[global] Instance is_basic_dec t : Decision (is_basic t) := decide (t_kind t = RBasic).
Definition leaves (t : rtree) : list rtree := filter is_basic (nodes t).

Lemma nodes_eq t : nodes t = t :: flat_map sub_nodes (t_items t).
Proof. by destruct t. Qed.
Lemma ids_eq t : ids t = t_id t :: flat_map (λ it, map t_id (sub_nodes it)) (t_items t).
Proof. unfold ids. rewrite nodes_eq. cbn [map]. f_equal. induction (t_items t) as [|it l IH]; [done|]. cbn. by rewrite map_app, IH. Qed.

(** The object of a node. *)
Definition item_code (it : item rtree) : code_item :=
  match it with Sub t => BLOCK (t_id t) | Code i => INST i | Direct a => ATTR a end.
Definition block_of (t : rtree) : block :=
  Mk_block (RBlock (t_kind t) (t_label t) 0 (t_isARM t)) (map item_code (t_items t)).
(** The store holds the tree. *)
Definition represents (st : list block) (t : rtree) : Prop :=
  Forall (λ n, st !! t_id n = Some (block_of n)) (nodes t).

Lemma represents_eq st t :
  represents st t ↔ st !! t_id t = Some (block_of t) ∧ Forall (on_sub (represents st)) (t_items t).
Proof.
  unfold represents. rewrite nodes_eq, Forall_cons. f_equiv. induction (t_items t) as [|it l IH]; [done|].
  cbn [flat_map]. rewrite Forall_app, Forall_cons, IH. f_equiv. destruct it; cbn; [done|..]; split; auto.
Qed.

(** ** 2. Lines *)

Inductive line :=
  | LAttr (a : string)
  | LLabel (l : string)
  | LInst (i : string * string)
  | LText (c : string).

Definition line_text (l : line) : string :=
  match l with
  | LAttr a => Attr a
  | LLabel l => Label l
  | LInst i => inst_text i
  | LText c => c +:+ nl
  end.
Definition render (l : list line) : string := foldr (λ x t, line_text x +:+ t) "" l.

Fixpoint lines (t : rtree) : list line :=
  match t with
  | Node _ _ label isARM _ items =>
      [LAttr ".align"; LAttr (isa_attr isARM); LLabel label; LText ("@<" +:+ label +:+ ":0>")]
      ++ flat_map (λ it, match it with Sub t => lines t | Code i => map LInst i | Direct a => [LAttr a] end) items
      ++ [LText ("@</" +:+ label +:+ ">"); LAttr ".align"; LLabel (label_end label)]
  end.
Definition item_lines (it : item rtree) : list line :=
  match it with Sub t => lines t | Code i => map LInst i | Direct a => [LAttr a] end.

Definition head_lines (t : rtree) : list line :=
  [LAttr ".align"; LAttr (isa_attr (t_isARM t)); LLabel (t_label t); LText ("@<" +:+ t_label t +:+ ":0>")].
Definition tail_lines (t : rtree) : list line :=
  [LText ("@</" +:+ t_label t +:+ ">"); LAttr ".align"; LLabel (label_end (t_label t))].
Lemma lines_eq t : lines t = head_lines t ++ flat_map item_lines (t_items t) ++ tail_lines t.
Proof. by destruct t. Qed.

Lemma render_app l1 l2 : render (l1 ++ l2) = render l1 +:+ render l2.
Proof. induction l1 as [|x l1 IH]; [done|]. cbn [app render foldr]. fold (render (l1 ++ l2)) (render l1). by rewrite IH, string_app_assoc. Qed.

Lemma concat_nil_cons x l : String.concat "" (x :: l) = x +:+ String.concat "" l.
Proof. cbn. destruct l; [by rewrite string_app_nil_r|done]. Qed.

Lemma Inst_render i : Inst i = render (map LInst i).
Proof.
  unfold Inst. induction i as [|x i IH]; [done|]. cbn [map]. rewrite concat_nil_cons, IH. done.
Qed.

(** The lines of the objects in a store, in the order of [str_block]: one line per
    directive, label and instruction of a block's code, the lines of a block in
    place of a reference to it, and those that the class of the object adds. *)
Fixpoint read_code (read : nat → option (list line)) (l : list code_item) : option (list line) :=
  match l with
  | [] => Some []
  | e :: l =>
      x ← match e with
          | BLOCK b => read b
          | INST i => Some (map LInst i)
          | ATTR a => Some [LAttr a]
          | LABEL l => Some [LLabel l]
          end;
      xs ← read_code read l; Some (x ++ xs)
  end.
Fixpoint read_block (fuel : nat) (st : list block) (b : nat) : option (list line) :=
  match fuel with
  | O => None
  | S fuel =>
      blk ← st !! b;
      ls ← read_code (read_block fuel st) blk.(code);
      Some match blk.(class_of) with
           | PlainBlock | ValueBlock => ls
           | DataBlock | RDataBlock => LText "" :: ls
           | RBlock _ label instnum isARM =>
               [LAttr ".align"; LAttr (isa_attr isARM); LLabel label; LText ("@<" +:+ label +:+ ":" +:+ dec instnum +:+ ">")]
               ++ ls ++ [LText ("@</" +:+ label +:+ ">"); LAttr ".align"; LLabel (label_end label)]
           end
  end.
Definition store_lines (st : list block) (b : nat) : option (list line) := read_block (length st) st b.

(** What is printed is these lines. *)
Lemma str_code_lines str read l :
  (∀ b, str b = render <$> read b) → str_code str l = render <$> read_code read l.
Proof.
  intros H. induction l as [|e l IH]; [done|]. cbn [str_code read_code]. rewrite IH.
  assert (match e with BLOCK b => str b | INST i => Some (Inst i) | ATTR a => Some (Attr a) | LABEL l => Some (Label l) end
    = render <$> match e with BLOCK b => read b | INST i => Some (map LInst i) | ATTR a => Some [LAttr a] | LABEL l => Some [LLabel l] end) as ->.
  { destruct e; [by rewrite H| |..]; cbn; by rewrite ?Inst_render, ?string_app_nil_r. }
  destruct (match e with BLOCK _ => _ | _ => _ end); [|done]. cbn. destruct (read_code read l); [|done]. cbn.
  by rewrite render_app.
Qed.
Lemma str_block_read fuel st b : str_block fuel st b = render <$> read_block fuel st b.
Proof.
  revert b. induction fuel as [|fuel IH]; intros b; [done|]. cbn [str_block read_block].
  destruct (st !! b) as [blk|]; [|done]. cbn [mbind option_bind]. rewrite (str_code_lines _ _ _ IH).
  destruct (read_code _ _) as [ls|]; [|done]. cbn [fmap option_fmap option_map mbind option_bind]. f_equal.
  destruct blk.(class_of); try done. rewrite !render_app.
  cbn [render foldr line_text]. by rewrite ?string_app_assoc, ?string_app_nil_r.
Qed.
Lemma str_store_lines st b : str st b = render <$> store_lines st b.
Proof. apply str_block_read. Qed.

(** The lines of a represented tree. *)
Lemma read_block_lines st t fuel :
  represents st t → (length st ≤ t_id t + fuel)%nat →
  Forall (λ n, Forall (on_sub (λ t', t_id n < t_id t')%nat) (t_items n)) (nodes t) →
  read_block fuel st (t_id t) = Some (lines t).
Proof.
  revert fuel. induction t as [id k l a n items IH] using rtree_ind'. intros fuel Hr Hf Ho.
  apply represents_eq in Hr as [Hid Hsub]. cbn [t_id t_items] in *.
  assert (id < length st)%nat as Hlt by (by eapply lookup_lt_Some).
  rewrite nodes_eq in Ho. cbn [t_items] in *. apply Forall_cons in Ho as [Ho0 Ho]. cbn [t_id t_items] in *.
  destruct fuel as [|fuel]; [lia|]. cbn [read_block]. rewrite Hid. cbn [block_of class_of code mbind option_bind t_items].
  assert (read_code (read_block fuel st) (map item_code items) = Some (flat_map item_lines items)) as ->.
  { clear Hid. induction items as [|it items IHi]; [done|]. cbn [map flat_map] in *.
    apply Forall_cons in IH as [IH1 IH], Hsub as [Hs1 Hs], Ho0 as [Ho1 Ho0].
    apply Forall_app in Ho as [Ho1' Ho].
    cbn [read_code]. rewrite IHi by done. destruct it as [t|i|d]; cbn [item_code item_lines on_sub sub_nodes] in *.
    - by rewrite IH1 by (done || lia).
    - done.
    - done. }
  change (dec 0) with "0". cbn [mbind option_bind class_of block_of t_kind t_label t_isARM]. by rewrite lines_eq.
Qed.

(** ** 3. Labels *)

(** The labels that lines define: [l:], also written as an instruction [l] with
    the operand [:]. *)
Definition inst_defs (i : insts) : list string := flat_map (λ x, if String.eqb x.2 ":" then [x.1] else []) i.
Definition line_defs (l : line) : list string :=
  match l with LLabel l => [l] | LInst x => inst_defs [x] | _ => [] end.
Definition defs (ls : list line) : list string := flat_map line_defs ls.

(** Names that are not prefixes of each other. *)
Definition comparable (a b : string) : bool := String.prefix a b || String.prefix b a.
Fixpoint separate (l : list string) : bool :=
  match l with
  | [] => true
  | x :: l => forallb (λ y, negb (comparable x y)) l && separate l
  end.

(** The names in a block's code are its label with suffixes that start with an
    underscore and are separate from each other and from the suffix of its end
    label. *)
Definition suffixes (ss : list string) : bool := forallb (String.prefix "_") ss && separate (ss ++ ["_end"]).
Definition item_names (it : item rtree) : list string :=
  match it with Sub t => [t_label t] | Code i => inst_defs i | Direct _ => [] end.
Definition names_wf (t : rtree) : Prop :=
  ∃ ss, flat_map item_names (t_items t) = map (String.append (t_label t)) ss ∧ suffixes ss = true.

Lemma defs_app l1 l2 : defs (l1 ++ l2) = defs l1 ++ defs l2.
Proof. apply flat_map_app. Qed.
Lemma defs_insts i : defs (map LInst i) = inst_defs i.
Proof. unfold defs, inst_defs. induction i as [|x i IH]; [done|]. cbn in *. by rewrite IH, app_nil_r. Qed.
Lemma defs_flat_map {A} (f : A → list line) l : defs (flat_map f l) = flat_map (λ x, defs (f x)) l.
Proof. induction l as [|x l IH]; [done|]. cbn [flat_map]. by rewrite defs_app, IH. Qed.
Lemma inst_defs_app i1 i2 : inst_defs (i1 ++ i2) = inst_defs i1 ++ inst_defs i2.
Proof. apply flat_map_app. Qed.

Lemma prefix_append a b : String.prefix a (a +:+ b) = true.
Proof. induction a as [|c a IH]; [by destruct b|].
  change (String c a +:+ b) with (String c (a +:+ b)). cbn [String.prefix]. destruct (ascii_dec c c) as [_|[]]; [exact IH|done].
Qed.

Lemma not_comparable a b x y : comparable a b = false → a +:+ x ≠ b +:+ y.
Proof.
  unfold comparable. revert b. induction a as [|c a IH]; intros b; [by destruct b|].
  destruct b as [|c' b]; [by rewrite orb_true_r|]. cbn [String.prefix].
  destruct (ascii_dec c c') as [-> |Hne].
  - destruct (ascii_dec c' c'); [|done]. intros H E. injection E as E. by apply (IH b).
  - intros _ [= E _]. done.
Qed.

Lemma append_inj a x y : a +:+ x = a +:+ y → x = y.
Proof. induction a as [|c a IH]; [done|]. cbn. intros [= ?]. auto. Qed.

Lemma separate_app l1 l2 : separate (l1 ++ l2) = true →
  separate l1 = true ∧ separate l2 = true ∧ ∀ x y, x ∈ l1 → y ∈ l2 → comparable x y = false.
Proof.
  induction l1 as [|a l1 IH]; intros H; [split; [done|]; split; [done|]; by intros x y ?%elem_of_nil|].
  cbn [app separate] in *. apply andb_true_iff in H as [Ha H]. rewrite forallb_app in Ha. apply andb_true_iff in Ha as [Ha1 Ha2].
  destruct (IH H) as (H1 & H2 & H12). split; [by rewrite Ha1, H1|]. split; [done|].
  intros x y [-> |Hx]%elem_of_cons Hy; [|by apply H12]. rewrite forallb_forall in Ha2.
  apply negb_true_iff, Ha2. by apply list_elem_of_In.
Qed.

(** Every label of a tree extends the label of its root. *)
Definition below (l d : string) : Prop := ∃ x, d = l +:+ x.
Definition under (l d : string) : Prop := d = l ∨ below (l +:+ "_") d.
Definition labels_ok (t : rtree) : Prop := NoDup (defs (lines t)) ∧ Forall (under (t_label t)) (defs (lines t)).

Lemma under_below l d : under l d → below l d.
Proof.
  intros [-> |[x ->]]; [exists ""; by rewrite string_app_nil_r|]. exists ("_" +:+ x). by rewrite string_app_assoc.
Qed.
Lemma suffix_under l s x : String.prefix "_" s = true → under l (l +:+ s +:+ x).
Proof.
  intros [r ->]%ParseRIT.prefix_app. right. exists (r +:+ x). by rewrite !string_app_assoc.
Qed.

Lemma items_labels label items ss :
  flat_map item_names items = map (String.append label) ss → separate ss = true →
  Forall (on_sub labels_ok) items →
  NoDup (flat_map (λ it, defs (item_lines it)) items)
  ∧ Forall (λ d, ∃ s, s ∈ ss ∧ below (label +:+ s) d) (flat_map (λ it, defs (item_lines it)) items).
Proof.
  revert ss. induction items as [|it items IH]; intros ss Hn Hs Hf; [split; constructor|].
  apply Forall_cons in Hf as [Hit Hf]. cbn [flat_map] in *.
  symmetry in Hn. apply map_eq_app in Hn as (ss1 & ss2 & -> & Hn1 & Hn2).
  apply separate_app in Hs as (Hs1 & Hs2 & Hsep). destruct (IH ss2 (eq_sym Hn2) Hs2 Hf) as [HN HF].
  assert (NoDup (defs (item_lines it)) ∧ Forall (λ d, ∃ s, s ∈ ss1 ∧ below (label +:+ s) d) (defs (item_lines it))) as [HN1 HF1].
  { destruct it as [t|i|a]; cbn [item_names item_lines on_sub] in *.
    - destruct Hit as [H1 H2]. split; [done|]. destruct ss1 as [|s [|]]; cbn in Hn1; try done. injection Hn1 as Hl.
      eapply Forall_impl; [exact H2|]. intros d Hd%under_below. exists s. split; [by left|]. by rewrite Hl.
    - rewrite defs_insts, <- Hn1. clear Hn1 IH HF HN. split.
      + induction ss1 as [|s ss1 IHs]; [constructor|]. cbn [map]. cbn [separate] in Hs1. apply andb_true_iff in Hs1 as [Ha Hs1].
        constructor; [|apply IHs; [done|]]; [|intros x y Hx; apply Hsep; by right].
        intros (s' & E & Hs')%list_elem_of_fmap. apply append_inj in E. subst s'. rewrite forallb_forall in Ha.
        apply list_elem_of_In, Ha, negb_true_iff in Hs'. unfold comparable in Hs'.
        pose proof (prefix_append s "") as Hp. rewrite string_app_nil_r in Hp. by rewrite Hp in Hs'.
      + apply Forall_forall. intros d (s & -> & Hin)%list_elem_of_fmap. exists s. split; [done|]. exists "".
        by rewrite string_app_nil_r.
    - split; [constructor|done]. }
  split.
  - apply NoDup_app. split; [done|]. split; [|done]. intros d Hd Hd'.
    rewrite Forall_forall in HF1, HF. destruct (HF1 d Hd) as (s & Hs & x & E), (HF d Hd') as (s' & Hs' & x' & E').
    rewrite E, !string_app_assoc in E'. apply append_inj in E'. by apply (not_comparable s s' x x' (Hsep _ _ Hs Hs')).
  - apply Forall_app. split; (eapply Forall_impl; [eassumption|]); cbn; intros d (s & Hs & Hb); exists s; (split; [|done]);
      apply elem_of_app; auto.
Qed.

(** The labels of a tree are defined once. *)
Lemma tree_labels t : Forall names_wf (nodes t) → labels_ok t.
Proof.
  induction t as [id k l a n items IH] using rtree_ind'. rewrite nodes_eq. intros [(ss & Hn & Hs) Hsub]%Forall_cons.
  cbn [t_items t_label] in *. apply andb_true_iff in Hs as [Hu Hs]. apply separate_app in Hs as (Hs & _ & Hend).
  assert (Forall (on_sub labels_ok) items) as Hok.
  { clear Hn. induction items as [|it items IHi]; constructor; cbn [flat_map] in Hsub;
      apply Forall_cons in IH as [IH1 IH]; apply Forall_app in Hsub as [H1 H2].
    - destruct it; cbn in *; auto.
    - auto. }
  destruct (items_labels l items ss Hn Hs Hok) as [HN HF]. unfold labels_ok.
  assert (defs (lines (Node id k l a n items)) = [l] ++ flat_map (λ it, defs (item_lines it)) items ++ [label_end l]) as ->.
  { rewrite lines_eq, !defs_app, defs_flat_map. done. }
  assert (∀ s, s ∈ ss → s ≠ "") as Hne.
  { intros s Hin ->. by specialize (Hend "" "_end" Hin ltac:(by left)). }
  assert (Forall (under l) (flat_map (λ it, defs (item_lines it)) items)) as HB.
  { eapply Forall_impl; [exact HF|]. intros d (s & Hin%list_elem_of_In & x & ->). rewrite string_app_assoc.
    rewrite forallb_forall in Hu. by apply suffix_under, Hu. }
  split.
  - apply NoDup_cons. split.
    + rewrite Forall_forall in HF. intros [Hd|Hd%list_elem_of_singleton]%elem_of_app.
      * destruct (HF _ Hd) as (s & Hin & x & E). rewrite <- (string_app_nil_r l), !string_app_assoc in E at 1.
        apply append_inj in E. destruct s; [by apply (Hne "")|done].
      * unfold label_end in Hd. rewrite <- (string_app_nil_r l) in Hd at 1. by apply append_inj in Hd.
    + apply NoDup_app. split; [done|]. split; [|apply NoDup_singleton].
      intros d Hd ->%list_elem_of_singleton. rewrite Forall_forall in HF. destruct (HF _ Hd) as (s & Hin & x & E).
      unfold label_end in E. rewrite !string_app_assoc in E. apply append_inj in E.
      apply (not_comparable s "_end" x "" (Hend _ _ Hin ltac:(by left))). by rewrite string_app_nil_r.
  - apply Forall_cons. split; [by left|]. apply Forall_app. split; [done|].
    apply Forall_singleton. right. exists "end". unfold label_end. by rewrite string_app_assoc.
Qed.

(** ** 4. Instruction sets *)

(** The instruction set after a line; [true] is ARM. *)
Definition directive_mode (m : bool) (d : string) : bool :=
  if String.eqb d ISA_A then true else if String.eqb d ISA_T then false else m.
Definition step_mode (m : bool) (l : line) : bool :=
  match l with LAttr a => directive_mode m a | LInst i => directive_mode m i.1 | _ => m end.
Definition end_mode (m : bool) (ls : list line) : bool := foldl step_mode m ls.
(** The lines, each with the instruction set the assembler is in. *)
Fixpoint scan (m : bool) (ls : list line) : list (bool * line) :=
  match ls with [] => [] | l :: ls => (m, l) :: scan (step_mode m l) ls end.

Lemma scan_app m l1 l2 : scan m (l1 ++ l2) = scan m l1 ++ scan (end_mode m l1) l2.
Proof. revert m. induction l1 as [|x l1 IH]; intros m; [done|]. cbn. by rewrite IH. Qed.
Lemma end_mode_app m l1 l2 : end_mode m (l1 ++ l2) = end_mode (end_mode m l1) l2.
Proof. apply foldl_app. Qed.

(** Instructions that are fine ([ok]) for the instruction set they are in. *)
Section modes.
Context (ok : bool → string * string → Prop).

Definition line_good (ml : bool * line) : Prop := match ml.2 with LInst i => ok ml.1 i | _ => True end.
(** From instruction set [m] to [m']. *)
Definition lines_good (m : bool) (ls : list line) (m' : bool) : Prop :=
  Forall line_good (scan m ls) ∧ end_mode m ls = m'.
Definition group_good (m : bool) (i : insts) : Prop := lines_good m (map LInst i) m.

Lemma lines_good_app m1 m2 m3 l1 l2 : lines_good m1 l1 m2 → lines_good m2 l2 m3 → lines_good m1 (l1 ++ l2) m3.
Proof.
  intros [H1 E1] [H2 E2]. split; [|by rewrite end_mode_app, E1]. rewrite scan_app, E1. by apply Forall_app.
Qed.
Lemma group_good_app m i1 i2 : group_good m i1 → group_good m i2 → group_good m (i1 ++ i2).
Proof. unfold group_good. rewrite map_app. apply lines_good_app. Qed.
(** Instructions that are no directives of the instruction set. *)
Lemma group_good_plain m i : Forall (λ x, ok m x ∧ directive_mode m x.1 = m) i → group_good m i.
Proof.
  induction 1 as [|x i [Hx Hm] Hi [IH1 IH2]]; [by split; [constructor|]|]. split.
  - cbn. constructor; [done|]. by rewrite Hm.
  - cbn. by rewrite Hm.
Qed.

(** The parts of a block in the instruction sets that they are for. *)
Definition item_good (m : bool) (it : item rtree) (m' : bool) : Prop :=
  match it with
  | Sub t => m' = t_isARM t
  | Code i => group_good m i ∧ m' = m
  | Direct a => m' = directive_mode m a
  end.
Fixpoint items_good (m : bool) (its : list (item rtree)) (m' : bool) : Prop :=
  match its with
  | [] => m = m'
  | it :: its => ∃ m1, item_good m it m1 ∧ items_good m1 its m'
  end.
Definition modes_wf (t : rtree) : Prop := items_good (t_isARM t) (t_items t) (t_isARM t).

Lemma tree_modes m t : Forall modes_wf (nodes t) → lines_good m (lines t) (t_isARM t).
Proof.
  revert m. induction t as [id k l a n items IH] using rtree_ind'. intros m.
  rewrite nodes_eq, lines_eq. intros [Hm Hsub]%Forall_cons. unfold modes_wf in Hm. cbn [t_items t_isARM] in *.
  eapply (lines_good_app _ a).
  { split; [repeat constructor|]. by destruct a. }
  eapply (lines_good_app _ a); [|by split; [repeat constructor|]].
  revert Hm. generalize a at 1 3. clear id k l n m.
  induction items as [|it items IHi]; intros m; cbn [items_good flat_map] in *.
  { intros ->. by split; [constructor|]. }
  intros (m1 & H1 & H2). apply Forall_cons in IH as [IH1 IH]. apply Forall_app in Hsub as [Hs1 Hs2].
  eapply lines_good_app; [|by apply IHi]. destruct it as [t|i|d]; cbn [item_good item_lines on_sub sub_nodes] in *.
  - subst m1. by apply IH1.
  - destruct H1 as [H1 ->]. done.
  - subst m1. split; [|done]. constructor; [done|constructor].
Qed.
End modes.
