(* ===== verification/PyEmit.v ===== *)
(** * The connecting code of a test: art/instrgen.py, setReg to getMemLimit

    Branches, loops, calls, exclusive accesses, writes of the program counter
    and the set-up code around them, as lists of mnemonics and operands. *)
From Stdlib Require Import Ascii.
From S2P Require Import Prelude State RandomInstrGen ParseRIT V1State V1Api Driver PyBase PyCode.
#[local] Open Scope Z_scope.

(** ** 1. Tables (arminfo.py) *)

Definition CONDCODE : list string :=
  ["eq"; "ne"; "cs"; "cc"; "mi"; "pl"; "vs"; "vc"; "hi"; "ls"; "ge"; "lt"; "gt"; "le"].
Definition CONDVALUE : list Z := [0; 1; 2; 3; 4; 5; 6; 7; 8; 9; 10; 11; 12; 13].
Definition INVCONDCODE : list string :=
  ["ne"; "eq"; "cc"; "cs"; "pl"; "mi"; "vc"; "vs"; "ls"; "hi"; "lt"; "ge"; "le"; "gt"].
Definition OP_SIZE : list string := ["b"; "h"; "w"; "d"].
Definition ARM_PC_RET : Z := 0xe12fff1e.
Definition THUMB_PC_RET : Z := 0x4770.
Definition R_SP : Z := 13.
Definition R_LR : Z := 14.
Definition R_PC : Z := 15.

Definition ARM_ALU_W_PC_sreg_4_0 : list string :=
  ["ADC_reg"; "AND_reg"; "BIC_reg"; "EOR_reg"; "ORR_reg"; "RSB_reg"; "RSC_reg"; "SBC_reg"; "ADD_reg"; "SUB_reg"].
Definition ARM_ALU_W_PC_sreg_4 : list string :=
  ["ADC_imm"; "AND_imm"; "ADD_imm"; "RSC_imm"; "SBC_imm"; "BIC_imm"; "EOR_imm"; "ORR_imm"; "RSB_imm"; "SUB_imm"].
Definition ARM_ALU_W_PC_sreg_0 : list string :=
  ["MOV_reg"; "MVN_reg"; "LSL_imm"; "LSR_imm"; "ASR_imm"; "ROR_imm"; "RRX_imm"].
Definition ARM_ALU_W_PC_sreg_nul : list string := ["ADR_a1"; "ADR_a2"; "MOV_imm_a1"; "MVN_imm"].
Definition ARM_ALU_W_PC_ALL : list string :=
  ARM_ALU_W_PC_sreg_4_0 ++ ARM_ALU_W_PC_sreg_4 ++ ARM_ALU_W_PC_sreg_0 ++ ARM_ALU_W_PC_sreg_nul.
Definition THUMB_ALU_W_PC : list string := ["ADD_reg_T2"; "MOV_reg_T1"].
Definition Sbit_Val : list ascii := String.list_ascii_of_string "0123456789abcdefABCDEF".
Definition Sbit_Msk : list ascii := String.list_ascii_of_string "0022446688aacceeAACCEE".

(** [l.index(x)]; the exception of a missing element is [None]. *)
Definition index_of {A} `{EqDecision A} (x : A) (l : list A) : option nat := fst <$> list_find (x =.) l.
Definition mem (x : string) (l : list string) : bool := existsb (String.eqb x) l.

(** [str[:-n]], [str[-n:]] and [str[-n]] of Python. *)
Definition but_last (n : nat) (str : string) : string := String.substring 0 (String.length str - n) str.
Definition last_of (n : nat) (str : string) : string := str_drop (String.length str - n) str.
Definition char_at_end (n : nat) (str : string) : option ascii :=
  if Nat.leb n (String.length str) then String.get (String.length str - n) str else None.

(** An exception if there is no value. *)
Definition or_raise {A} (x : option A) : art A := match x with Some v => mret v | None => fail PyRaise end.

Definition getMemLimit : Z * Z := (0x03fc0000, 0x03ffffff).

(** The suffix of wide Thumb encodings. *)
Definition wide (isARM : bool) : string := if isARM then "" else ".w".

Section emit.
Context `{Env : !RitEnv} `{Py : !PyEnv}.

(** [cond] of a conditional instruction, drawn unless it is given. *)
Definition draw_condcode (isconditional : bool) (cond : option string) : art string :=
  if isconditional then match cond with Some c => mret c | None => choice_py CONDCODE end
  else mret "".

(** ** 2. Registers and branches *)

Definition setReg (r min max : Z) (isARM isAlign : bool) : art insts :=
  rval ← randint_py min max;
  let rval := if isAlign then rval / 4 * 4 else rval in
  mret [("ldr" +:+ wide isARM, reg r +:+ ", =0x" +:+ hex rval)].

(** [ctx[CTX.BB][label][CTX.INSTLIMIT] = 32] *)
Definition set_limit (label : string) : art unit := λ s,
  match s.(BB) !! label with
  | Some _ => Ok tt (with_BB (<[label := Some 32]> s.(BB)) s)
  | None => Abort PyRaise
  end.

Definition genBranch (isARM : bool) (target : string) (isconditional : bool) (cond : option string)
    (forward : bool) (off_block : option nat) : art insts :=
  let allow_cbz := isconditional && match cond with None => true | _ => false end in
  cond ← draw_condcode isconditional cond;
  n ← gets nest;
  let allow_cbz := allow_cbz && negb (isARM || (0 <? n)) && forward in
  let allow_adr := isARM && (n <? 2) in
  let branch_op := if isARM then "b" +:+ cond
                   else if n <? 1 then "b" +:+ cond else "b" +:+ cond +:+ ".w" in
  let binst := [(branch_op, target)] in
  binst ← if allow_cbz then
            per ← randint_py 0 100;
            binst ← if per <? 20 then
                      cbz_inst ← choice_py ["cbz"; "cbnz"];
                      r ← randint_py 0 7;
                      mret [(cbz_inst, reg r +:+ ", " +:+ target)]
                    else mret binst;
            match off_block with
            | Some b => l ← label_of b; set_limit l
            | None => mret tt
            end ;;
            mret binst
          else mret binst;
  binst ← if allow_adr then
            per ← randint_py 0 100;
            mret (if per <? 20 then [("adr" +:+ cond, "pc, " +:+ target)] else binst)
          else mret binst;
  mret (if isconditional then binst else binst ++ [(".ltorg", "")]).

Definition genLoop (isARM : bool) (target : string) : art insts :=
  n ← gets nest;
  let idx := n * 4 in
  inc ← randint_py 1 10;
  limit ← randint_py 0 256;
  r1 ← randint_py 0 7;
  regs ← remove_py r1 (range 8);
  r2 ← choice_py regs;
  mret ([("ldr", reg r2 +:+ ", =cfgdata+32+" +:+ dec idx);
         ("ldr", reg r1 +:+ ", [" +:+ reg r2 +:+ "]");
         ("add", reg r1 +:+ ", " +:+ reg r1 +:+ ", #" +:+ dec inc);
         ("str", reg r1 +:+ ", [" +:+ reg r2 +:+ "]");
         ("cmp" +:+ wide isARM, reg r1 +:+ ", #" +:+ dec limit);
         ("ble" +:+ wide isARM, target)]).

Definition genBX (isARM : bool) (target : string) (isconditional : bool) (cond : option string) : art insts :=
  use_bx ← choice_py [true; false];
  cond ← draw_condcode isconditional cond;
  if isARM then
    if use_bx : bool then
      tmp_reg ← randint_py 0 15;
      if tmp_reg =? 15 then
        c ← randint_py 0 14;
        mret [(".inst", "0x" +:+ hex c +:+ "12fff1f");
              ("ldr" +:+ cond, "pc, =" +:+ target +:+ "+1");
              ("ldr" +:+ cond, "pc, =" +:+ target +:+ "+1")]
      else mret [("ldr", reg tmp_reg +:+ ", =" +:+ target +:+ "+1"); ("bx" +:+ cond, reg tmp_reg)]
    else mret [("ldr" +:+ cond, "pc, =" +:+ target +:+ "+1")]
  else
    if use_bx : bool then
      tmp_reg ← randint_py 0 (if isconditional then 14 else 15);
      if tmp_reg =? 15 then
        mret [(".align", ""); ("bx", "pc"); ("nop", ""); (".arm", ""); ("ldr", "pc, =" +:+ target); (".thumb", "")]
      else
        mret (("ldr.w", reg tmp_reg +:+ ", =" +:+ target)
              :: if isconditional then [("it", cond); ("bx" +:+ cond, reg tmp_reg)]
                 else [("bx", reg tmp_reg)])
    else
      mret (if isconditional then [("it", cond); ("ldr" +:+ cond +:+ ".w", "pc, =" +:+ target)]
            else [("ldr.w", "pc, =" +:+ target)]).

(** [random.choice([random.choice(arminfo.CONDCODE), ''])] *)
Definition maybe_cond : art string := c ← choice_py CONDCODE; choice_py [c; ""].

Definition genCall (isCallerARM isCalleeARM : bool) (target : string) : art insts :=
  use_blx_reg ← choice_py [true; false];
  if use_blx_reg : bool then
    tmp_reg ← randint_py 0 14;
    let target := if isCalleeARM then target else target +:+ "+1" in
    cond ← if isCallerARM then maybe_cond else mret "";
    mret [("ldr" +:+ wide isCallerARM, reg tmp_reg +:+ ", =" +:+ target); ("blx" +:+ cond, reg tmp_reg)]
  else
    let opcode := if xorb isCallerARM isCalleeARM then "blx" else "bl" in
    cond ← if isCallerARM && isCalleeARM then maybe_cond else mret "";
    mret [(opcode +:+ cond, target)].

Definition getPreCalleeInsts : art insts :=
  tmp_reg ← randint_py 0 7;
  n ← gets nest;
  mret [("ldr", reg tmp_reg +:+ ", =cfgdata+" +:+ dec (n * 4 + 4)); ("mov", "sp, " +:+ reg tmp_reg); ("push", "{lr}")].

Definition getPostCalleeInsts : art insts :=
  tmp_reg ← randint_py 0 7;
  n ← gets nest;
  mret [("ldr", reg tmp_reg +:+ ", =cfgdata+" +:+ dec (n * 4)); ("mov", "sp, " +:+ reg tmp_reg); ("pop", "{pc}");
        (".ltorg", "")].

(** ** 3. Exclusive accesses *)

(** [rval >> k << k] *)
Definition align_down (k x : Z) : Z := Z.shiftl (Z.shiftr x k) k.
Definition excl_align (size : string) (x : Z) : Z :=
  if String.eqb size "h" then align_down 1 x
  else if String.eqb size "w" then align_down 2 x
  else if String.eqb size "d" then align_down 3 x
  else x.
Definition is_size (c size : string) : bool := String.eqb size c.

Definition reg_load (suffix : string) (r : Z) (addr : string) : string * string :=
  ("ldr" +:+ suffix, reg r +:+ ", =" +:+ addr).
Definition reg_ldr (suffix : string) (r base : Z) : string * string :=
  ("ldr" +:+ suffix, reg r +:+ ", [" +:+ reg base +:+ "]").
Definition reg_str (suffix : string) (r base : Z) : string * string :=
  ("str" +:+ suffix, reg r +:+ ", [" +:+ reg base +:+ "]").

(** The random constant that [ldr] loads: [code.getRandRegVal(r)], whose first
    parameter is the lower bound. *)
Definition random_from (r : Z) : art Z := randint_py r (2 ^ 32 - 1).
Definition load_value (suffix : string) (r v : Z) : string * string := reg_load suffix r ("0x" +:+ hex v).

(** The instructions of the first half, from what is drawn. *)
Definition ldrex_insts (isARM : bool) (cond label size : string) (rn rt rp rq rx ry rval : Z) (imm rt2 : option Z)
    (v1 v2 : Z) : insts :=
  let w := wide isARM in
  let it mask := if isARM || String.eqb cond "" then [] else [("it" +:+ mask, cond)] in
  let mem := reg rt +:+ ", [" +:+ reg rn +:+ "]" in
  [("mrs", reg rp +:+ ", APSR"); reg_load w rq "exclflag+0"; reg_str w rp rq;
   (label +:+ "_excl_back_edge", ":");
   reg_load w rq "exclflag+0"; reg_ldr w rp rq; ("msr", "APSR_nzcvqg, " +:+ reg rp)]
  ++ it "ttt" ++ [load_value (cond +:+ w) rn (rval - default 0 imm)]
  ++ (if is_size "b" size then [("ldrexb" +:+ cond, mem)]
      else if is_size "h" size then [("ldrexh" +:+ cond, mem)]
      else if is_size "w" size then
        [("ldrex" +:+ cond, match imm with
                            | None => mem
                            | Some imm => reg rt +:+ ", [" +:+ reg rn +:+ ", #" +:+ dec imm +:+ "]"
                            end)]
      else if is_size "d" size then
        [("ldrexd" +:+ cond, reg rt +:+ ", " +:+ reg (default 0 rt2) +:+ ", [" +:+ reg rn +:+ "]")]
      else [])
  ++ [reg_load (cond +:+ w) rx "excladdr+0"; load_value (cond +:+ w) ry rval]
  ++ it (if is_size "d" size then "tt" else "t")
  ++ [reg_str (cond +:+ w) ry rx; load_value (cond +:+ w) rt v1]
  ++ match rt2 with Some rt2 => [load_value (cond +:+ w) rt2 v2] | None => [] end.

Definition genLDREX (isARM isconditional : bool) (selfLabelPrefix : string) (ExclSize cond : option string)
    : art (insts * string) :=
  cond ← draw_condcode isconditional cond;
  rval ← randint_py getMemLimit.1 getMemLimit.2;
  size ← match ExclSize with Some z => mret z | None => choice_py OP_SIZE end;
  let rval := excl_align size rval in
  rn ← choice_py (range 15);
  reglist ← if isARM then
              if is_size "d" size then
                l ← remove_py 14 (range 15); mret (filter (λ i, Z.land i 1 = 0) l)
              else mret (range 15)
            else remove_py 13 (range 15);
  rt ← choice_py reglist;
  let reglist := remove_if_py 13 reglist in
  rp ← choice_py reglist;
  reglist ← remove_py rp reglist;
  rq ← choice_py reglist;
  imm ← if isARM then mret None
        else
          imm_offset ← choice_py [true; false];
          if is_size "w" size && imm_offset then k ← randint_py 0 0xff; mret (Some (Z.shiftl k 2))
          else mret None;
  rt2 ← if is_size "d" size then
          if isARM then mret (Some (rt + 1)) else r ← choice_py (remove_if_py rt reglist); mret (Some r)
        else mret None;
  rx ← choice_py (range 13);
  regtmp ← remove_py rx (range 13);
  ry ← choice_py regtmp;
  v1 ← random_from rt;
  v2 ← match rt2 with Some rt2 => random_from rt2 | None => mret 0 end;
  mret (ldrex_insts isARM cond selfLabelPrefix size rn rt rp rq rx ry rval imm rt2 v1 v2, size).

(** The inverse of a condition; an exception for one that is not in the table. *)
Definition invert_cond (cond : string) : art string :=
  k ← or_raise (index_of cond CONDCODE); or_raise (INVCONDCODE !! k).

(** The instructions of the second half; [rn'] is the register that holds the
    address at the end, copied from [rn] if it is another one. *)
Definition strex_insts (isARM : bool) (cond uncond label size : string) (rs rw rn rv rt rt2 rd rz1 rz2 rn' : Z)
    (imm : option Z) (copied : bool) (v1 v2 v3 v4 : Z) : insts :=
  let w := wide isARM in
  let adjust op := match imm with
    | Some imm => [(op +:+ w, reg rn +:+ ", " +:+ reg rn +:+ ", #0x" +:+ hex imm)]
    | None => [] end in
  let mem := reg rd +:+ ", " +:+ reg rt +:+ ", [" +:+ reg rn in
  [("mrs", reg rs +:+ ", APSR"); reg_load w rw "excladdr+0"; reg_ldr w rn rw;
   ("cmp" +:+ w, reg rn +:+ ", #0"); ("beq" +:+ w, label +:+ "_excl_stub");
   ("mov" +:+ w, reg rv +:+ ", #0"); reg_str w rv rw; ("msr", "APSR_nzcvqg, " +:+ reg rs)]
  ++ adjust "sub" ++ [("mov" +:+ w, reg rd +:+ ", #0")]
  ++ (if negb (String.eqb cond "") && negb isARM then [("ite", cond)] else [])
  ++ (if is_size "b" size then [("strexb" +:+ cond, mem +:+ "]")]
      else if is_size "h" size then [("strexh" +:+ cond, mem +:+ "]")]
      else if is_size "w" size then
        [("strex" +:+ cond, match imm with None => mem +:+ "]" | Some imm => mem +:+ " , #" +:+ dec imm +:+ "]" end)]
      else if is_size "d" size then
        [("strexd" +:+ cond, reg rd +:+ ", " +:+ reg rt +:+ ", " +:+ reg rt2 +:+ ", [" +:+ reg rn +:+ "]")]
      else [])
  ++ (if String.eqb cond "" then [] else [("b" +:+ uncond, label +:+ "_excl_fill_lock_mem")])
  ++ [("cmp" +:+ w, reg rd +:+ ", #0"); reg_load w rz1 "exclcnt+0"; reg_ldr w rz2 rz1;
      ("sub" +:+ w, reg rz2 +:+ ", " +:+ reg rz2 +:+ ", #0x" +:+ hex 1); reg_str w rz2 rz1]
  ++ (if isARM then [] else [("it", "ne")])
  ++ [("cmp" +:+ "ne" +:+ w, reg rz2 +:+ ", #0"); ("bne", label +:+ "_excl_back_edge");
      (label +:+ "_excl_fill_lock_mem", ":")]
  ++ adjust "add"
  ++ (if copied then [("mov" +:+ w, reg rn' +:+ ", " +:+ reg rn)] else [])
  ++ [load_value w rt v1]
  ++ (if is_size "d" size then
        [load_value w rt2 v2; ("strd" +:+ w, reg rt +:+ ", " +:+ reg rt2 +:+ ", [" +:+ reg rn' +:+ ", #0]")]
      else [reg_str w rt rn'])
  ++ [(label +:+ "_excl_stub", ":"); load_value w rs v3; load_value w rn' v4;
      ("mov" +:+ w, reg rd +:+ ", #0"); ("cmp" +:+ w, reg rd +:+ ", #0");
      reg_load w rz1 "exclcnt+0"; load_value w rz2 EXCL_CNT; reg_str w rz2 rz1].

(** The register that is stored, and the list it is taken from. *)
Definition strex_target (isARM : bool) (size : string) (rt : Z) : art (Z * list Z) :=
  if isARM then
    if is_size "d" size then
      l ← remove_py 14 (range 15);
      rt ← choice_py (filter (λ i, Z.land i 1 = 0) l); mret (rt, l)
    else mret (rt, range 15)
  else l ← remove_py 13 (range 15); rt ← choice_py l; mret (rt, l).

Definition genSTREX (isARM isconditional : bool) (selfLabelPrefix : string) (ExclSize cond : option string)
    : art insts :=
  match ExclSize with
  | None => mret [("clrex", "")]
  | Some size =>
      cond ← draw_condcode isconditional cond;
      reglist ← if isARM then mret (range 15) else remove_py 13 (range 15);
      rs ← choice_py reglist;
      reglist ← remove_py rs reglist;
      rw ← choice_py reglist;
      reglist ← remove_py rw reglist;
      rn ← choice_py reglist;
      reglist ← remove_py rn reglist;
      rv ← choice_py reglist;
      imm_offset ← choice_py [true; false];
      imm ← if negb isARM && imm_offset && is_size "w" size then
              k ← randint_py 0 0xff; mret (Some (Z.shiftl k 2))
            else mret None;
      rt ← choice_py (range 15);
      '(rt, reglist) ← strex_target isARM size rt;
      reglist ← remove_py rt reglist;
      rt2 ← if isARM then mret (rt + 1) else choice_py reglist;
      rd ← choice_py (remove_if_py rn (remove_if_py rt2 reglist));
      uncond ← if String.eqb cond "" then mret "" else invert_cond cond;
      let reglist := remove_if_py rn (range 15) in
      rz1 ← choice_py reglist;
      reglist ← remove_py rz1 reglist;
      rz2 ← choice_py reglist;
      reglist ← remove_py rz2 reglist;
      let reg_lm := remove_if_py rt (range 13) in
      let reg_lm := if is_size "d" size then remove_if_py rt2 reg_lm else reg_lm in
      let copied := negb (bool_decide (rn ∈ reg_lm)) in
      rn' ← if copied then choice_py reg_lm else mret rn;
      v1 ← random_from rt;
      v2 ← if is_size "d" size then random_from rt2 else mret 0;
      v3 ← random_from rs;
      v4 ← random_from rn';
      mret (strex_insts isARM cond uncond selfLabelPrefix size rs rw rn rv rt rt2 rd rz1 rz2 rn' imm copied v1 v2 v3 v4)
  end.

(** ** 4. Data processing that writes the program counter *)

(** The hexadecimal text with its S bit cleared:
    [inst_hex[:-6] + Sbit_Msk[Sbit_Val.index(inst_hex[-6])] + inst_hex[-5:]]. *)
Definition clear_S (inst_hex : string) : option string :=
  c ← char_at_end 6 inst_hex;
  k ← index_of c Sbit_Val;
  m ← Sbit_Msk !! k;
  Some (but_last 6 inst_hex +:+ String m "" +:+ last_of 5 inst_hex).

(** The registers [rn] and [rm] in the places that the opcode has for them. *)
Definition with_sources (opcode inst_hex : string) (rn rm : Z) : string :=
  if mem opcode ARM_ALU_W_PC_sreg_4_0 then
    but_last 5 inst_hex +:+ hex rn +:+ but_last 1 (last_of 4 inst_hex) +:+ hex rm
  else if mem opcode ARM_ALU_W_PC_sreg_4 then but_last 5 inst_hex +:+ hex rn +:+ last_of 4 inst_hex
  else if mem opcode ARM_ALU_W_PC_sreg_0 then but_last 1 inst_hex +:+ hex rn
  else inst_hex.

(** [ret.pop()[-1]] of a request for [opcode] with destination [dst], edited;
    [None] if the request was not answered. *)
Definition alu_inst (maxretry : nat) (opcode : string) (rcond dst : Z) (allow_fix : bool) (seed hexcode rn rm : Z)
    : art (option string) :=
  ret ← py (gen_single_inst_with_opcode maxretry true (Some opcode) (Some rcond) (Some 0) None (Some dst) allow_fix
              (Some seed) (Some hexcode) true);
  match ret with
  | Some ((_ :: _) as l) =>
      inst_hex ← or_raise (snd <$> last l);
      inst_hex ← or_raise (clear_S inst_hex);
      mret (Some (with_sources opcode inst_hex rn rm))
  | _ => mret None
  end.

(** The instructions, from what is drawn: [shadow] and [jump] are the edited
    encodings of the request with the link register and with the program counter
    as destination. *)
Definition alu_insts (isARM : bool) (label cond uncond opcode : string) (rn ri rf : Z) (shadow jump : option string)
    : insts :=
  let w := wide isARM in
  let tmp := reg R_LR in
  let it := if String.eqb cond "" then [] else [("it", cond)] in
  let thumb_inst dst :=
    if String.eqb opcode "ADD_reg_T2" then [("add" +:+ cond, dst +:+ ", " +:+ reg rn)]
    else if String.eqb opcode "MOV_reg_T1" then [("mov" +:+ cond, dst +:+ ", " +:+ reg rn)]
    else [] in
  let mask addr := [reg_load w ri addr; ("and" +:+ w, tmp +:+ ", " +:+ tmp +:+ ", " +:+ reg ri)] in
  (if String.eqb cond "" then [] else [("b" +:+ uncond, label +:+ "_wPC_inst_pre")])
  ++ [("mrs", reg rf +:+ ", APSR")]
  ++ (if isARM then
        [reg_load w R_LR (label +:+ "_wPC_inst_pre+8")]
        ++ match shadow with
           | Some inst_hex =>
               (".inst", inst_hex)
               :: if String.eqb opcode "ADR_a1" || String.eqb opcode "ADR_a2" then
                    [(label +:+ "_wPC_ADR_offset", ":");
                     ("add", tmp +:+ ", " +:+ tmp +:+ ", #" +:+ label +:+ "_wPC_inst_pre-"
                             +:+ label +:+ "_wPC_ADR_offset+4")]
                  else []
           | None => []
           end
      else
        [reg_load w R_LR (label +:+ "_wPC_inst_pre" +:+ (if String.eqb cond "" then "+4" else "+6"))]
        ++ it ++ thumb_inst tmp)
  ++ [reg_load w ri ALU_W_PC_VALID_BEG_ADDR;
      ("subs" +:+ w, tmp +:+ ", " +:+ tmp +:+ ", " +:+ reg ri);
      ("blt", label +:+ "_wPC_inst_post");
      reg_load w ri (ALU_W_PC_VALID_SPACE_SIZE +:+ "-8");
      ("cmp" +:+ w, tmp +:+ ", " +:+ reg ri);
      ("bgt", label +:+ "_wPC_inst_post");
      reg_load w ri ALU_W_PC_VALID_BEG_ADDR;
      ("add" +:+ w, tmp +:+ ", " +:+ tmp +:+ ", " +:+ reg ri)]
  ++ (if isARM then [("ands", reg ri +:+ ", " +:+ tmp +:+ ", #0x1"); ("beq", label +:+ "_wPC_ARM_spring")] else [])
  ++ [(label +:+ "_wPC_THUMB_spring", ":")] ++ mask "0xfffffffe" ++ [load_value w ri THUMB_PC_RET]
  ++ (if isARM then
        [("b", label +:+ "_wPC_st_spring"); (label +:+ "_wPC_ARM_spring", ":");
         ("ands", reg ri +:+ ", " +:+ tmp +:+ ", #0x2"); ("bne", label +:+ "_wPC_inst_post")]
        ++ mask "0xfffffffc" ++ [load_value w ri ARM_PC_RET]
      else [])
  ++ [(label +:+ "_wPC_st_spring", ":"); reg_str w ri R_LR;
      reg_load w R_LR (label +:+ "_wPC_inst_post" +:+ (if isARM then "+0" else "+1"));
      ("msr", "APSR_nzcvqg, " +:+ reg rf); ("isb", "");
      (label +:+ "_wPC_inst_pre", ":")]
  ++ (if isARM then match jump with Some inst_hex => [(".inst", inst_hex)] | None => [] end
      else it ++ thumb_inst "PC")
  ++ [(".align", ""); (label +:+ "_wPC_inst_post", ":")].

Definition genALUwritePC (maxretry : nat) (label : string) (allow_fix : bool) : art insts :=
  isARM ← gets ISA;
  hexcode ← randint_py 0 (2 ^ 32 - 1);
  seed ← randint_py 0 (2 ^ 32 - 1);
  reg_list ← remove_py R_PC (range 16);
  reg_list ← remove_py R_LR reg_list;
  reg_list ← remove_py R_SP reg_list;
  rn ← choice_py reg_list;
  rm ← choice_py reg_list;
  let reg_list := remove_if_py R_SP (remove_if_py rm (remove_if_py rn reg_list)) in
  ri ← choice_py reg_list;
  reg_list ← remove_py ri reg_list;
  rf ← choice_py reg_list;
  conditional ← choice_py [true; false];
  '(cond, rcond, uncond) ←
    if conditional : bool then
      cond ← choice_py CONDCODE;
      k ← or_raise (index_of cond CONDCODE);
      rcond ← or_raise (CONDVALUE !! k);
      uncond ← or_raise (INVCONDCODE !! k);
      mret (cond, rcond, uncond)
    else mret ("", 14, "");
  opcode ← choice_py (if isARM then ARM_ALU_W_PC_ALL else THUMB_ALU_W_PC);
  shadow ← if isARM then alu_inst maxretry opcode rcond R_LR allow_fix seed hexcode rn rm else mret None;
  jump ← if isARM then alu_inst maxretry opcode rcond R_PC allow_fix seed hexcode rn rm else mret None;
  mret (alu_insts isARM label cond uncond opcode rn ri rf shadow jump).

(** ** 5. Reloading the general registers *)

(** [random.sample(l, n)]: [n] elements of different positions, in random order. *)
Fixpoint sample_py (n : nat) (l : list Z) : art (list Z) :=
  match n with
  | O => mret []
  | S n => x ← choice_py l; l ← remove_py x l; xs ← sample_py n l; mret (x :: xs)
  end.

Definition reinitGeneralRegs (isARM : bool) (label : string) (limit : Z) : art insts :=
  base_reg ← randint_py 0 12;
  offset ← if limit <? 16 then mret 0 else k ← randint_py 0 (limit - 16); mret (k * 4);
  regs ← if isARM then mret (range 15) else remove_py 13 (range 15);
  let len := Z.of_nat (length regs) in
  n ← randint_py (len / 2) len;
  rlist ← sample_py (Z.to_nat n) regs;
  let str_rlist := String.concat ", " (map reg (sort_py rlist)) in
  mret [("ldr", reg base_reg +:+ ", =" +:+ label +:+ "+" +:+ dec offset);
        ("ldm" +:+ wide isARM, reg base_reg +:+ ", {" +:+ str_rlist +:+ "}")].
End emit.
