(* ===== verification/PyEmitSpec.v ===== *)
(** * What the connecting code promises

    Each group of connecting instructions is for one instruction set: it has no
    mnemonic that only the other one accepts and leaves the assembler in the set
    it found; it defines exactly the labels of its structure; and its
    if-then blocks cover exactly the instructions that carry their conditions. *)
From Stdlib Require Import Ascii.
From S2P Require Import Prelude RitCommon InstrTable State RandomInstrGen Keeps Output ParseRIT V1State V1Api Driver PyBase PyCode PyTree PyEmit.
#[local] Open Scope Z_scope.

(** ** 1. Instruction sets *)

Definition ends_with (suffix str : string) : bool := String.eqb (last_of (String.length suffix) str) suffix.

(** Width suffixes and compare-and-branch are Thumb's; [.inst] without a width is
    the ARM directive; a label fits both. *)
Definition thumb_only (op : string) : bool :=
  ends_with ".w" op || ends_with ".n" op || String.eqb op "cbz" || String.eqb op "cbnz".
Definition arm_only (op : string) : bool := String.eqb op ".inst".
Definition own_ok (isARM : bool) (x : string * string) : bool :=
  String.eqb x.2 ":" || negb (if isARM then thumb_only x.1 else arm_only x.1).

(** ** 2. If-then blocks *)

Definition invert (c : string) : string :=
  match index_of c CONDCODE with Some k => nth k INVCONDCODE "" | None => "" end.
(** The conditions of the instructions after [it<mask> c]. *)
Fixpoint mask_conds (mask c : string) : option (list string) :=
  match mask with
  | EmptyString => Some []
  | String x mask =>
      l ← mask_conds mask c;
      if Ascii.eqb x "t"%char then Some (c :: l) else if Ascii.eqb x "e"%char then Some (invert c :: l) else None
  end.
Definition it_conds (op c : string) : option (list string) :=
  match op with
  | String "i" (String "t" mask) =>
      if Nat.leb (String.length mask) 3 then l ← mask_conds mask c; Some (c :: l) else None
  | _ => None
  end.
(** The mnemonic before the first dot. *)
Fixpoint before_dot (op : string) : string :=
  match op with
  | EmptyString => ""
  | String c op => if Ascii.eqb c "."%char then "" else String c (before_dot op)
  end.
Definition carries (c op : string) : bool := String.prefix ".inst" op || ends_with c (before_dot op).
Fixpoint it_closed (pending : list string) (i : insts) : bool :=
  match i, pending with
  | [], [] => true
  | [], _ :: _ => false
  | (op, _) :: i, c :: pending => carries c op && it_closed pending i
  | (op, c) :: i, [] => it_closed (default [] (it_conds op c)) i
  end.

Lemma it_closed_app p i1 i2 : it_closed p i1 = true → it_closed [] i2 = true → it_closed p (i1 ++ i2) = true.
Proof.
  revert p. induction i1 as [|[op c] i1 IH]; intros [|x p] H1 H2; try done; cbn [app it_closed] in *.
  - by apply IH.
  - apply andb_true_iff in H1 as [-> H1]. by apply IH.
Qed.

Section spec.
Context `{Env : !RitEnv} `{Py : !PyEnv}.

(** An instruction that the library answered for this instruction set. *)
Definition lib_inst (isARM : bool) (x : string * string) : Prop :=
  ∃ ans kind op c dst, of_kind isARM kind op ∧ encodes dst c op ans ∧ x ∈ ans.
Definition inst_ok (isARM : bool) (x : string * string) : Prop := own_ok isARM x = true ∨ lib_inst isARM x.

(** A group of connecting instructions. *)
Record emitted (isARM : bool) (names : list string) (i : insts) : Prop := {
  em_good : group_good inst_ok isARM i;
  em_defs : inst_defs i = names;
  em_it : it_closed [] i = true
}.

(** The first and the last are computed. *)
Definition own_check (m : bool) (i : insts) : bool :=
  forallb (λ ml, match ml.2 with LInst x => own_ok ml.1 x | _ => true end) (scan m (map LInst i))
  && Bool.eqb (end_mode m (map LInst i)) m && it_closed [] i.

Lemma emitted_intro m names i : own_check m i = true → inst_defs i = names → emitted m names i.
Proof.
  intros [[Hf He%eqb_prop]%andb_true_iff Hi]%andb_true_iff Hd. split; [|done|done]. split; [|done].
  rewrite forallb_forall in Hf. apply Forall_forall. intros [b l] Hl%list_elem_of_In. specialize (Hf _ Hl).
  unfold line_good. cbn in *. destruct l; try done. by left.
Qed.

Lemma emitted_app m n1 n2 i1 i2 : emitted m n1 i1 → emitted m n2 i2 → emitted m (n1 ++ n2) (i1 ++ i2).
Proof.
  intros [G1 D1 I1] [G2 D2 I2]. split; [by apply group_good_app|by rewrite inst_defs_app, D1, D2|by apply it_closed_app].
Qed.

(** A label of the test. *)
Definition rit_label (l : string) : Prop := below "rit" l.
Lemma rit_label_app l s : rit_label l → rit_label (l +:+ s).
Proof. intros [x ->]. exists (x +:+ s). by rewrite string_app_assoc. Qed.

Lemma cond_cases (P : string → Prop) c : (∀ c, c ∈ CONDCODE → P c) → P "" → c ∈ CONDCODE ∨ c = "" → P c.
Proof. intros H1 H2 [?| ->]; auto. Qed.

(** ** 3. The functions *)

Lemma pure_draw_condcode b cond :
  match cond with Some c => c ∈ CONDCODE | None => True end →
  pure_py (λ c, if b : bool then c ∈ CONDCODE else c = "") (draw_condcode b cond).
Proof.
  intros Hc. unfold draw_condcode. destruct b; [|by apply pure_ret]. destruct cond; [by apply pure_ret|].
  by apply pure_choice.
Qed.
End spec.

(** Steps of a computation that only draws. *)
Ltac pure_step :=
  lazymatch goal with
  | |- pure_py _ (mret _) => apply pure_ret
  | |- pure_py _ (randint_py _ _ ≫= _) => eapply pure_bind; [apply pure_randint; lia|let v := fresh "v" in let H := fresh "H" in intros v H; cbv beta in H]
  | |- pure_py _ (choice_py _ ≫= _) => eapply pure_bind; [apply pure_choice; done|let v := fresh "v" in let H := fresh "H" in intros v H; cbv beta in H]
  | |- pure_py _ (draw_condcode _ _ ≫= _) => eapply pure_bind; [by apply pure_draw_condcode|let v := fresh "v" in let H := fresh "H" in intros v H; cbv beta in H]
  | |- pure_py _ ((if ?b then _ else _) ≫= _) => destruct b eqn:?
  | |- pure_py _ (if ?b then _ else _) => destruct b eqn:?
  end.

(** Membership in a list of constants. *)
Ltac cases_in H :=
  repeat (apply elem_of_cons in H as [-> |H]); try (apply elem_of_nil in H; done).

Section functions.
Context `{Env : !RitEnv} `{Py : !PyEnv}.

Lemma pure_gets {A B} (f : art_state → A) (k : A → art B) (P : A → B → Prop) s :
  (∀ n, pure_py (P n) (k n)) → lib_ready s →
  wp (gets f ≫= k) (λ v s', P (f s) v ∧ lib_ready s' ∧ same_ctx s s') s.
Proof. intros H Hs. apply wp_bind, wp_gets. by apply H. Qed.

(** [l.remove(x)] of a list of constants, and of a drawn element. *)
Lemma pure_remove_bind {A} (x : Z) l (k : list Z → art A) R :
  x ∈ l → (∀ l', l ≡ₚ x :: l' → length l = S (length l') → pure_py R (k l')) → pure_py R (remove_py x l ≫= k).
Proof.
  intros Hx Hk. eapply pure_bind; [by apply pure_remove|]. intros l' Hl. apply Hk; [done|]. by rewrite Hl.
Qed.

Lemma nonempty_length {A} (l : list A) : (0 < length l)%nat → l ≠ [].
Proof. destruct l; [cbn; lia|done]. Qed.

Lemma pure_setReg r min max isARM isAlign :
  min ≤ max → pure_py (emitted isARM []) (setReg r min max isARM isAlign).
Proof.
  intros Hm. unfold setReg. pure_step. pure_step. destruct isARM; by apply emitted_intro.
Qed.

(** The code at the end of a loop: the counter in the slot of nesting level [n]
    is increased and compared with the limit. *)
Definition loop_code (isARM : bool) (n : Z) (target : string) (i : insts) : Prop :=
  ∃ r1 r2 inc limit, 0 ≤ r1 ≤ 7 ∧ 0 ≤ r2 ≤ 7 ∧ r1 ≠ r2 ∧ 1 ≤ inc ≤ 10 ∧ 0 ≤ limit ≤ 256
    ∧ i = [("ldr", reg r2 +:+ ", =cfgdata+32+" +:+ dec (n * 4));
           ("ldr", reg r1 +:+ ", [" +:+ reg r2 +:+ "]");
           ("add", reg r1 +:+ ", " +:+ reg r1 +:+ ", #" +:+ dec inc);
           ("str", reg r1 +:+ ", [" +:+ reg r2 +:+ "]");
           ("cmp" +:+ wide isARM, reg r1 +:+ ", #" +:+ dec limit);
           ("ble" +:+ wide isARM, target)].

Lemma loop_code_emitted isARM n target i : rit_label target → loop_code isARM n target i → emitted isARM [] i.
Proof.
  intros [x ->] (r1 & r2 & inc & limit & _ & _ & _ & _ & _ & ->). destruct isARM; by apply emitted_intro.
Qed.

Lemma wp_genLoop isARM target s :
  lib_ready s →
  wp (genLoop isARM target) (λ i s', loop_code isARM s.(nest) target i ∧ lib_ready s' ∧ same_ctx s s') s.
Proof.
  apply (pure_gets nest _ (λ n, loop_code isARM n target)). intros n. cbv zeta. do 3 pure_step.
  apply pure_remove_bind; [apply elem_of_seqZ; lia|]. intros l' Hl Hlen.
  eapply pure_bind; [apply pure_choice, nonempty_length; change (length (range 8)) with 8%nat in Hlen; lia|].
  intros r2 Hr2. apply pure_ret.
  assert (NoDup (range 8)) as Hnd by apply NoDup_seqZ. rewrite Hl in Hnd. apply NoDup_cons in Hnd as [Hn _].
  assert (r2 ∈ range 8) as Hr8 by (rewrite Hl; by right). apply elem_of_seqZ in Hr8.
  exists v1, r2, v, v0. split_and!; try done; try lia. by intros ->.
Qed.

Lemma pure_genBX isARM target b cond :
  rit_label target → cond = None → pure_py (emitted isARM []) (genBX isARM target b cond).
Proof.
  intros [x ->] ->. unfold genBX. pure_step. pure_step. rename v0 into c, H0 into Hc.
  assert (c ∈ "" :: CONDCODE) as Hc'. { destruct b; [by right|subst c; by left]. }
  destruct isARM, v.
  - pure_step. pure_step; [pure_step|]; pure_step; clear Hc; cases_in Hc'; by apply emitted_intro.
  - pure_step. clear Hc; cases_in Hc'; by apply emitted_intro.
  - destruct b.
    + pure_step. pure_step; pure_step; [by apply emitted_intro|]. clear Hc'. cases_in Hc; by apply emitted_intro.
    + pure_step. pure_step; pure_step; by apply emitted_intro.
  - pure_step. destruct b; [|by apply emitted_intro]. clear Hc'. cases_in Hc; by apply emitted_intro.
Qed.

Lemma pure_maybe_cond : pure_py (λ c, c ∈ "" :: CONDCODE) maybe_cond.
Proof.
  unfold maybe_cond. pure_step. eapply pure_mono; [|by apply pure_choice]. cbn beta. intros c Hc.
  apply elem_of_cons in Hc as [-> |Hc%list_elem_of_singleton]; [by right|subst c; by left].
Qed.

Lemma pure_genCall caller callee target :
  rit_label target → pure_py (emitted caller []) (genCall caller callee target).
Proof.
  intros [x ->]. unfold genCall. pure_step. destruct v.
  - pure_step. eapply (pure_bind (λ c, if caller then c ∈ "" :: CONDCODE else c = "")).
    { destruct caller; [apply pure_maybe_cond|by apply pure_ret]. }
    intros c Hc. apply pure_ret. destruct caller, callee; cbn [andb] in Hc; try (subst c; by apply emitted_intro);
      cases_in Hc; by apply emitted_intro.
  - eapply (pure_bind (λ c, if caller && callee then c ∈ "" :: CONDCODE else c = "")).
    { destruct (caller && callee); [apply pure_maybe_cond|by apply pure_ret]. }
    intros c Hc. apply pure_ret. destruct caller, callee; cbn [andb] in Hc; try (subst c; by apply emitted_intro);
      cases_in Hc; by apply emitted_intro.
Qed.

(** Entry and exit of a called block: the return address is kept in the slot of
    nesting level [n]. *)
Definition pre_callee (n : Z) (i : insts) : Prop :=
  ∃ r, 0 ≤ r ≤ 7 ∧ i = [("ldr", reg r +:+ ", =cfgdata+" +:+ dec (n * 4 + 4)); ("mov", "sp, " +:+ reg r); ("push", "{lr}")].
Definition post_callee (n : Z) (i : insts) : Prop :=
  ∃ r, 0 ≤ r ≤ 7 ∧ i = [("ldr", reg r +:+ ", =cfgdata+" +:+ dec (n * 4)); ("mov", "sp, " +:+ reg r); ("pop", "{pc}"); (".ltorg", "")].

Lemma pre_callee_emitted isARM n i : pre_callee n i → emitted isARM [] i.
Proof. intros (r & _ & ->). destruct isARM; by apply emitted_intro. Qed.
Lemma post_callee_emitted isARM n i : post_callee n i → emitted isARM [] i.
Proof. intros (r & _ & ->). destruct isARM; by apply emitted_intro. Qed.

Lemma wp_getPreCalleeInsts s :
  lib_ready s → wp getPreCalleeInsts (λ i s', pre_callee s.(nest) i ∧ lib_ready s' ∧ same_ctx s s') s.
Proof.
  intros Hs. apply wp_bind. eapply wp_pure; [by apply pure_randint|done|]. intros r d Hr Hd.
  apply wp_bind, wp_gets, wp_ret. split; [by exists r|]. by split.
Qed.
Lemma wp_getPostCalleeInsts s :
  lib_ready s → wp getPostCalleeInsts (λ i s', post_callee s.(nest) i ∧ lib_ready s' ∧ same_ctx s s') s.
Proof.
  intros Hs. apply wp_bind. eapply wp_pure; [by apply pure_randint|done|]. intros r d Hr Hd.
  apply wp_bind, wp_gets, wp_ret. split; [by exists r|]. by split.
Qed.
(** A block object with a label. *)
Definition labelled (s : art_state) (b : nat) (l : string) : Prop :=
  ∃ k n a c, s.(store) !! b = Some (Mk_block (RBlock k l n a) c).

Lemma wp_label_of s b l Q : labelled s b l → Q l s → wp (label_of b) Q s.
Proof. intros (k & n & a & c & E) HQ. unfold label_of, get_block, wp, mbind, M_bind. by rewrite E. Qed.

Lemma wp_set_limit s l Q :
  is_Some (s.(BB) !! l) → Q tt (with_BB (<[l := Some 32]> s.(BB)) s) → wp (set_limit l) Q s.
Proof. intros [v E] HQ. unfold set_limit, wp. by rewrite E. Qed.

(** A short forward branch in Thumb code limits the block that it skips, which
    has to be a basic block that was made before. *)
Definition limits (isARM b forward : bool) (n : Z) : bool := b && negb isARM && (n <=? 0) && forward.
Definition limited (l : string) (s : art_state) : art_state := with_BB (<[l := Some 32]> s.(BB)) s.

Lemma wp_genBranch isARM target b forward off l s :
  lib_ready s → rit_label target →
  match off with
  | Some blk => labelled s blk l ∧ (limits isARM b forward s.(nest) = true → is_Some (s.(BB) !! l))
  | None => True
  end →
  wp (genBranch isARM target b None forward off)
     (λ i s', emitted isARM [] i ∧ lib_ready s'
        ∧ same_ctx (if limits isARM b forward s.(nest) && match off with Some _ => true | None => false end
                    then limited l s else s) s') s.
Proof.
  intros Hs [x ->] Hoff. unfold genBranch. cbv zeta.
  apply wp_bind. eapply wp_pure; [by apply pure_draw_condcode|done|]. intros c d Hc Hd.
  apply wp_bind, wp_gets. cbn [nest with_rit].
  set (op := if isARM then "b" +:+ c else _). set (n := s.(nest)) in *.
  assert (emitted isARM [] [(op, "rit" +:+ x)] ∧ emitted true [] [("adr" +:+ c, "pc, " +:+ "rit" +:+ x)]) as [Hop Hadr].
  { assert (c ∈ "" :: CONDCODE) as Hc'. { destruct b; [by right|]. cbv beta in Hc. subst c. by left. }
    clear Hc Hoff. subst op. destruct isARM, (n <? 1); cases_in Hc'; split; by apply emitted_intro. }
  assert (b && true && negb (isARM || (0 <? n)) && forward = limits isARM b forward n) as ->.
  { unfold limits. rewrite (Z.leb_antisym 0 n). by destruct b, isARM. }
  apply wp_bind. eapply (wp_mono _ (λ i s', emitted isARM [] i ∧ lib_ready s' ∧ same_ctx
    (if limits isARM b forward n && match off with Some _ => true | None => false end then limited l s else s) s')).
  { destruct (limits isARM b forward n) eqn:El; [|by apply wp_ret].
    assert (isARM = false) as ->. { unfold limits in El. by destruct b, isARM. }
    apply wp_bind. eapply wp_pure; [by apply pure_randint|done|]. intros per d1 _ Hd1. apply wp_bind.
    eapply (wp_pure (emitted false [])); [|done|].
    { pure_step; [|by apply pure_ret]. pure_step. pure_step. apply pure_ret. cases_in H; by apply emitted_intro. }
    intros i d2 Hi Hd2. apply wp_bind. destruct off as [blk|]; [|by apply wp_ret, wp_ret].
    destruct Hoff as [(k & n' & a & code & E) HB]. apply wp_bind. eapply wp_label_of; [by exists k, n', a, code|].
    eapply wp_set_limit; [by apply HB|]. by apply wp_ret. }
  intros i s1 (Hi & Hs1 & E1). apply wp_bind.
  eapply (wp_mono _ (λ i s', emitted isARM [] i ∧ lib_ready s' ∧ same_ctx s1 s')).
  { destruct (isARM && (n <? 2)) eqn:Ea; [|by apply wp_ret]. apply andb_true_iff in Ea as [-> _].
    apply wp_bind. eapply wp_pure; [by apply pure_randint|done|]. intros per d1 _ Hd1. apply wp_ret. by destruct (per <? 20). }
  intros i' s2 (Hi' & Hs2 & E2). apply wp_ret. split; [|split; [done|by etrans]].
  destruct b; [done|]. change (@nil string) with (@nil string ++ []). apply emitted_app; [done|]. destruct isARM; by apply emitted_intro.
Qed.

(** *** Exclusive accesses *)

Lemma length_remove_if (x : Z) l : (length l ≤ S (length (remove_if_py x l)))%nat.
Proof.
  unfold remove_if_py. destruct (decide (x ∈ l)) as [Hx|Hx].
  - destruct (list_remove_spec x l Hx) as (l' & -> & Hl). cbn. by rewrite Hl.
  - rewrite list_remove_none by done. cbn. lia.
Qed.
Lemma elem_of_remove_if (x y : Z) l : y ∈ remove_if_py x l → y ∈ l.
Proof.
  unfold remove_if_py. destruct (decide (x ∈ l)) as [Hx|Hx].
  - destruct (list_remove_spec x l Hx) as (l' & -> & Hl). cbn. rewrite Hl. by right.
  - by rewrite list_remove_none.
Qed.

Lemma remove_13 : remove_py 13 (range 15) = mret (range 13 ++ [14]).
Proof. reflexivity. Qed.
Lemma remove_14 : remove_py 14 (range 15) = mret (range 14).
Proof. reflexivity. Qed.

Lemma pure_choice_bind {A B} (l : list A) (k : A → art B) R :
  (0 < length l)%nat → (∀ x, x ∈ l → pure_py R (k x)) → pure_py R (choice_py l ≫= k).
Proof. intros Hl Hk. eapply pure_bind; [by apply pure_choice, nonempty_length|done]. Qed.

Lemma pure_random_from r : 0 ≤ r ≤ 15 → pure_py (λ _, True) (random_from r).
Proof. intros Hr. unfold random_from. eapply pure_mono; [|apply pure_randint; lia]. done. Qed.

Lemma ldrex_emitted isARM c label size rn rt rp rq rx ry rval imm rt2 v1 v2 :
  rit_label label → c ∈ "" :: CONDCODE → size ∈ OP_SIZE → (size = "d" ↔ is_Some rt2) →
  emitted isARM [label +:+ "_excl_back_edge"] (ldrex_insts isARM c label size rn rt rp rq rx ry rval imm rt2 v1 v2).
Proof.
  intros [x ->] Hc Hs Hd. unfold ldrex_insts. cbv zeta.
  destruct rt2 as [rt2|].
  - rewrite (proj2 Hd) by eauto. clear Hs Hd. destruct isARM; cases_in Hc; by apply emitted_intro.
  - assert (size ∈ ["b"; "h"; "w"]) as Hs'.
    { cases_in Hs; [by left|right; by left|do 2 right; by left|]. by destruct (proj1 Hd eq_refl). }
    clear Hs Hd. destruct isARM, imm; cases_in Hs'; cases_in Hc; by apply emitted_intro.
Qed.

(** The registers of the first half, from the list they are drawn from. *)
Definition ldrex_regs (isARM : bool) (size : string) : list Z :=
  if isARM then if is_size "d" size then [0; 2; 4; 6; 8; 10; 12] else range 15 else range 13 ++ [14].

Lemma ldrex_regs_cases (P : list Z → Prop) isARM size :
  P [0; 2; 4; 6; 8; 10; 12] → P (range 15) → P (range 13 ++ [14]) → P (ldrex_regs isARM size).
Proof. intros. unfold ldrex_regs. destruct isARM; [|done]. by destruct (is_size "d" size). Qed.

Lemma ldrex_regs_bound isARM size rt : rt ∈ ldrex_regs isARM size → 0 ≤ rt ≤ 14.
Proof.
  apply (ldrex_regs_cases (λ l, rt ∈ l → 0 ≤ rt ≤ 14)).
  - intros H. cases_in H; lia.
  - intros ?%elem_of_seqZ. lia.
  - intros [?%elem_of_seqZ| ->%list_elem_of_singleton]%elem_of_app; lia.
Qed.

Lemma used_condcode (b : bool) c : (if b then c ∈ CONDCODE else c = "") → c ∈ "" :: CONDCODE.
Proof. destruct b; [by right|intros ->; by left]. Qed.

Lemma pure_genLDREX isARM b label :
  rit_label label →
  pure_py (λ r, emitted isARM [label +:+ "_excl_back_edge"] r.1 ∧ r.2 ∈ OP_SIZE) (genLDREX isARM b label None None).
Proof.
  intros Hl. unfold genLDREX. cbv zeta. pure_step. rename v into c. apply used_condcode in H as Hc.
  eapply pure_bind; [by apply pure_randint|]. intros rval0 _.
  eapply pure_bind; [by apply pure_choice|]. intros size Hsize.
  apply pure_choice_bind; [vm_compute; lia|]. intros rn _.
  eapply (pure_bind (λ l, l = ldrex_regs isARM size)).
  { unfold ldrex_regs. destruct isARM; [destruct (is_size "d" size)|]; rewrite ?remove_13, ?remove_14; [|by apply pure_ret..].
    eapply pure_bind; [by apply (pure_ret (λ l, l = range 14))|]. intros l ->. by apply pure_ret. }
  intros reglist ->.
  apply pure_choice_bind; [apply (ldrex_regs_cases (λ l, 0 < length l)%nat); vm_compute; lia|].
  intros rt Hrt%ldrex_regs_bound.
  assert (7 ≤ length (remove_if_py 13%Z (ldrex_regs isARM size)))%nat as Hlen
    by (apply (ldrex_regs_cases (λ l, 7 ≤ length (remove_if_py 13%Z l))%nat); vm_compute; lia).
  assert (∀ r, r ∈ remove_if_py 13 (ldrex_regs isARM size) → 0 ≤ r ≤ 14) as Hin
    by (by intros r ?%elem_of_remove_if%ldrex_regs_bound).
  revert Hlen Hin. generalize (remove_if_py 13 (ldrex_regs isARM size)) as reglist. intros reglist Hlen Hin.
  apply pure_choice_bind; [lia|]. intros rp Hrp. apply pure_remove_bind; [done|]. intros regs2 Hr2 Hlen2.
  apply pure_choice_bind; [lia|]. intros rq _.
  eapply (pure_bind (λ _, True)).
  { destruct isARM; [by apply pure_ret|]. pure_step. pure_step; [pure_step|]; by apply pure_ret. }
  intros imm _. eapply (pure_bind (λ rt2, (size = "d" ↔ is_Some rt2) ∧ match rt2 with Some r => 0 ≤ r ≤ 15 | None => True end)).
  { unfold is_size. destruct (String.eqb_spec size "d") as [E|E]; [|apply pure_ret; split; [|done]; split; [done|by intros [? ?]]].
    destruct isARM; [apply pure_ret; split; [by split|lia]|].
    pose proof (length_remove_if rt regs2).
    apply pure_choice_bind; [lia|]. intros r Hr%elem_of_remove_if. apply pure_ret. split; [by split|].
    specialize (Hin r). rewrite Hr2 in Hin. specialize (Hin ltac:(by right)). lia. }
  intros rt2 [Hd Hrt2]. apply pure_choice_bind; [vm_compute; lia|]. intros rx Hrx.
  apply pure_remove_bind; [done|]. intros l13 _ Hl13. change (length (range 13)) with 13%nat in Hl13.
  apply pure_choice_bind; [lia|]. intros ry _.
  eapply pure_bind; [apply pure_random_from; lia|]. intros v1 _.
  eapply (pure_bind (λ _, True)); [destruct rt2; [by apply pure_random_from|by apply pure_ret]|]. intros v2 _.
  apply pure_ret. split; [by apply ldrex_emitted|done].
Qed.

Lemma strex_emitted isARM c label size rs rw rn rv rt rt2 rd rz1 rz2 rn' imm copied v1 v2 v3 v4 :
  rit_label label → c ∈ "" :: CONDCODE → size ∈ OP_SIZE →
  emitted isARM [label +:+ "_excl_fill_lock_mem"; label +:+ "_excl_stub"]
    (strex_insts isARM c (invert c) label size rs rw rn rv rt rt2 rd rz1 rz2 rn' imm copied v1 v2 v3 v4).
Proof.
  intros [x ->] Hc Hs. unfold strex_insts. cbv zeta.
  destruct isARM, imm, copied; cases_in Hs; cases_in Hc; by apply emitted_intro.
Qed.

Lemma pure_invert_cond c : c ∈ CONDCODE → pure_py (λ u, u = invert c) (invert_cond c).
Proof. intros Hc. unfold invert_cond. cases_in Hc; by apply pure_ret. Qed.

Lemma range_bound n r : r ∈ range n → 0 ≤ r ≤ n - 1.
Proof. intros ?%elem_of_seqZ. lia. Qed.
Lemma no_sp_bound r : r ∈ range 13 ++ [14] → 0 ≤ r ≤ 14.
Proof. intros [?%range_bound| ->%list_elem_of_singleton]%elem_of_app; lia. Qed.

Lemma pure_strex_target isARM size rt :
  0 ≤ rt ≤ 14 →
  pure_py (λ p, p.1 ∈ p.2 ∧ (∀ r, r ∈ p.2 → 0 ≤ r ≤ 14) ∧ (14 ≤ length p.2)%nat) (strex_target isARM size rt).
Proof.
  intros Hrt. unfold strex_target. destruct isARM; [destruct (is_size "d" size)|].
  - rewrite remove_14. eapply pure_bind; [by apply (pure_ret (λ l, l = range 14))|]. intros l ->.
    apply pure_choice_bind; [vm_compute; lia|]. intros r Hr. apply pure_ret.
    change (filter _ _) with [0; 2; 4; 6; 8; 10; 12] in Hr. cbn [fst snd].
    split; [apply elem_of_seqZ; cases_in Hr; lia|]. split; [|vm_compute; lia]. intros r' ?%range_bound. lia.
  - apply pure_ret. cbn [fst snd]. split; [apply elem_of_seqZ; lia|]. split; [|vm_compute; lia].
    intros r' ?%range_bound. lia.
  - rewrite remove_13. eapply pure_bind; [by apply (pure_ret (λ l, l = range 13 ++ [14]))|]. intros l ->.
    apply pure_choice_bind; [vm_compute; lia|]. intros r Hr. apply pure_ret. cbn [fst snd].
    split; [done|]. split; [apply no_sp_bound|vm_compute; lia].
Qed.

Lemma pure_genSTREX isARM b label size :
  rit_label label → size ∈ OP_SIZE →
  pure_py (emitted isARM [label +:+ "_excl_fill_lock_mem"; label +:+ "_excl_stub"]) (genSTREX isARM b label (Some size) None).
Proof.
  intros Hl Hsize. unfold genSTREX. cbv zeta. pure_step. rename v into c. apply used_condcode in H as Hc. clear H.
  eapply (pure_bind (λ l : list Z, (14 ≤ length l)%nat ∧ ∀ r, r ∈ l → 0 ≤ r ≤ 14)).
  { destruct isARM; [|rewrite remove_13]; apply pure_ret; (split; [vm_compute; lia|]); intros r.
    - intros ?%range_bound. lia.
    - apply no_sp_bound. }
  intros l0 [Hl0 Hb]. apply pure_choice_bind; [lia|]. intros rs Hrs. apply Hb in Hrs as Hrs'.
  apply pure_remove_bind; [done|]. intros l1 Hp1 Hl1. apply pure_choice_bind; [lia|]. intros rw Hrw.
  apply pure_remove_bind; [done|]. intros l2 Hp2 Hl2. apply pure_choice_bind; [lia|]. intros rn Hrn.
  apply pure_remove_bind; [done|]. intros l3 Hp3 Hl3. apply pure_choice_bind; [lia|]. intros rv _.
  assert (0 ≤ rn ≤ 14) as Hrn' by (apply Hb; rewrite Hp1, Hp2; right; by right).
  pure_step. eapply (pure_bind (λ _, True)). { pure_step; [pure_step|]; by apply pure_ret. }
  intros imm _. apply pure_choice_bind; [vm_compute; lia|]. intros rt0 Hrt0%elem_of_seqZ.
  eapply pure_bind; [apply pure_strex_target; lia|].
  intros [rt l4] (Hin4 & Hb4 & Hl4). cbn [fst snd] in *. apply Hb4 in Hin4 as Hrt.
  apply pure_remove_bind; [done|]. intros l5 Hp5 Hl5.
  eapply (pure_bind (λ r, 0 ≤ r ≤ 15)).
  { destruct isARM; [apply pure_ret; lia|]. eapply pure_mono; [|apply pure_choice, nonempty_length; lia]. cbv beta. intros r Hr.
    specialize (Hb4 r). rewrite Hp5 in Hb4. specialize (Hb4 ltac:(by right)). lia. }
  intros rt2 Hrt2. pose proof (length_remove_if rt2 l5). pose proof (length_remove_if rn (remove_if_py rt2 l5)).
  apply pure_choice_bind; [lia|]. intros rd _.
  eapply (pure_bind (λ u, u = invert c)).
  { destruct (String.eqb_spec c "") as [-> |]; [by apply pure_ret|]. apply pure_invert_cond.
    apply elem_of_cons in Hc as [?|?]; done. }
  intros uncond ->. pose proof (length_remove_if rn (range 15)) as H15. change (length (range 15)) with 15%nat in H15.
  apply pure_choice_bind; [lia|]. intros rz1 Hrz1. apply pure_remove_bind; [done|]. intros l6 Hp6 Hl6.
  apply pure_choice_bind; [lia|]. intros rz2 Hrz2. apply pure_remove_bind; [done|]. intros l7 _ _.
  set (reg_lm := if is_size "d" size then _ else _).
  assert ((0 < length reg_lm)%nat ∧ ∀ r, r ∈ reg_lm → 0 ≤ r ≤ 14) as [Hlm Hlmb].
  { pose proof (length_remove_if rt (range 13)) as H13. change (length (range 13)) with 13%nat in H13.
    pose proof (length_remove_if rt2 (remove_if_py rt (range 13))). subst reg_lm.
    destruct (is_size "d" size); (split; [lia|]); intros r Hr; repeat apply elem_of_remove_if in Hr;
      apply elem_of_seqZ in Hr; lia. }
  eapply (pure_bind (λ r, 0 ≤ r ≤ 14)).
  { destruct (negb _); [|by apply pure_ret]. eapply pure_mono; [|by apply pure_choice, nonempty_length]. auto. }
  intros rn' Hrn''. eapply pure_bind; [apply pure_random_from; lia|]. intros v1 _.
  eapply (pure_bind (λ _, True)); [destruct (is_size "d" size); [by apply pure_random_from|by apply pure_ret]|]. intros v2 _.
  do 2 (eapply pure_bind; [apply pure_random_from; lia|]; intros ? _).
  apply pure_ret. by apply strex_emitted.
Qed.
End functions.
