(* ===== verification/PyAlu.v ===== *)
(** * Instructions that write the program counter: genALUwritePC of art/instrgen.py

    The generator asks the library twice for the same encoding, with the link
    register and with the program counter as destination, and edits the
    hexadecimal text: the S bit is cleared and the source registers replaced.
    The editing of the text is the editing of the word. *)
From Stdlib Require Import Ascii.
From S2P Require Import Prelude RitCommon InstrTable State RandomInstrGen Keeps Output Loop Api ParseRIT V1State V1Api Driver PyBase PyCode PyTree PyEmit PyEmitSpec.
#[local] Open Scope Z_scope.

(** ** 1. Words as eight digits *)

(** [n] digits of [x], before [acc]. *)
Fixpoint fixed (n : nat) (x : Z) (acc : string) : string :=
  match n with O => acc | S n => fixed n (x / 16) (String (digit (x mod 16)) acc) end.

Lemma fixed_zero n acc : fixed n 0 acc = Nat.iter n (String "0"%char) acc.
Proof.
  revert acc. induction n as [|n IH]; intros acc; [done|]. cbn [fixed]. change (0 / 16) with 0. rewrite IH.
  change (digit (0 mod 16)) with "0"%char. rewrite <- Nat.iter_succ_r. done.
Qed.

Lemma zero_pad_digits n x acc : zero_pad (n + String.length acc) (digits n 16 x acc) = fixed n x acc.
Proof.
  revert x acc. induction n as [|n IH]; intros x acc; cbn [digits fixed].
  { unfold zero_pad. by rewrite Nat.sub_diag. }
  rewrite Nat.add_succ_comm. change (S (String.length acc)) with (String.length (String (digit (x mod 16)) acc)).
  destruct (Z.eqb_spec (x / 16) 0) as [-> |_]; [|by rewrite IH].
  unfold zero_pad. rewrite Nat.add_sub. symmetry. apply fixed_zero.
Qed.

Lemma fmt_08x_fixed raw : is_u32 raw → fmt_08x raw = fixed 8 raw "".
Proof. intros H. unfold fmt_08x, fmt_x. rewrite u32_small by done. exact (zero_pad_digits 8 raw ""). Qed.

(** The word with these digits, and back. *)
Definition word_of (d7 d6 d5 d4 d3 d2 d1 d0 : Z) : Z :=
  16 * (16 * (16 * (16 * (16 * (16 * (16 * d7 + d6) + d5) + d4) + d3) + d2) + d1) + d0.
Definition text_of (d7 d6 d5 d4 d3 d2 d1 d0 : Z) : string :=
  String "0" (String "x" (String (digit d7) (String (digit d6) (String (digit d5) (String (digit d4)
    (String (digit d3) (String (digit d2) (String (digit d1) (String (digit d0) ""))))))))).
Definition is_digit (d : Z) : Prop := 0 ≤ d < 16.

Lemma read_text_of d7 d6 d5 d4 d3 d2 d1 d0 :
  is_digit d7 → is_digit d6 → is_digit d5 → is_digit d4 → is_digit d3 → is_digit d2 → is_digit d1 → is_digit d0 →
  read_number (text_of d7 d6 d5 d4 d3 d2 d1 d0) = Some (word_of d7 d6 d5 d4 d3 d2 d1 d0).
Proof.
  intros. unfold text_of. match goal with |- read_number (String "0" (String "x" ?t)) = _ =>
    change (read_number ("0x" +:+ t) = Some (word_of d7 d6 d5 d4 d3 d2 d1 d0)) end.
  rewrite read_number_0x. cbn [read_digits]. rewrite !hex_value_digit by done. cbn [mbind option_bind].
  unfold word_of. by f_equal.
Qed.

(** *** The digits of a word *)
Definition nibble (k : Z) (w : Z) : Z := (w / 16 ^ k) mod 16.

Lemma nibble_digit k w : is_digit (nibble k w).
Proof. apply Z.mod_pos_bound. lia. Qed.

Lemma word_digits raw :
  is_u32 raw →
  raw = word_of (nibble 7 raw) (nibble 6 raw) (nibble 5 raw) (nibble 4 raw) (nibble 3 raw) (nibble 2 raw) (nibble 1 raw) (nibble 0 raw)
  ∧ "0x" +:+ fmt_08x raw
    = text_of (nibble 7 raw) (nibble 6 raw) (nibble 5 raw) (nibble 4 raw) (nibble 3 raw) (nibble 2 raw) (nibble 1 raw) (nibble 0 raw).
Proof.
  intros Hu. split.
  - unfold is_u32 in Hu. unfold nibble, word_of.
    change (16 ^ 7) with 268435456. change (16 ^ 6) with 16777216. change (16 ^ 5) with 1048576. change (16 ^ 4) with 65536.
    change (16 ^ 3) with 4096. change (16 ^ 2) with 256. change (16 ^ 1) with 16. change (16 ^ 0) with 1.
    change (2 ^ 32) with 4294967296 in Hu. Z.div_mod_to_equations. lia.
  - rewrite fmt_08x_fixed by done. cbn [fixed]. unfold text_of, nibble.
    rewrite !Z.div_div by lia. change (16 ^ 0) with 1. rewrite Z.div_1_r. done.
Qed.

(** ** 2. Editing *)

(** Reference: the fields of the word. *)
Definition set_nibble (k v w : Z) : Z := w + (v - nibble k w) * 16 ^ k.
Definition clear_S_bit (w : Z) : Z := w - (w / 2 ^ 20) mod 2 * 2 ^ 20.
Definition set_sources (opcode : string) (rn rm w : Z) : Z :=
  if mem opcode ARM_ALU_W_PC_sreg_4_0 then set_nibble 4 rn (set_nibble 0 rm w)
  else if mem opcode ARM_ALU_W_PC_sreg_4 then set_nibble 4 rn w
  else if mem opcode ARM_ALU_W_PC_sreg_0 then set_nibble 0 rn w
  else w.

Section digits.
Context (d7 d6 d5 d4 d3 d2 d1 d0 : Z).
Context (H7 : is_digit d7) (H6 : is_digit d6) (H5 : is_digit d5) (H4 : is_digit d4)
  (H3 : is_digit d3) (H2 : is_digit d2) (H1 : is_digit d1) (H0 : is_digit d0).

Lemma digit_cases (P : Z → Prop) d : is_digit d → Forall P (seqZ 0 16) → P d.
Proof. intros Hd HP. rewrite Forall_forall in HP. apply HP, elem_of_seqZ. unfold is_digit in Hd. lia. Qed.

Lemma clear_S_text :
  clear_S (text_of d7 d6 d5 d4 d3 d2 d1 d0) = Some (text_of d7 d6 (d5 - d5 mod 2) d4 d3 d2 d1 d0).
Proof using H5.
  revert H5. intros Hd. pattern d5. apply (digit_cases _ _ Hd). repeat constructor.
Qed.

Lemma hex_digit r : is_digit r → hex r = String (digit r) "".
Proof. intros Hr. pattern r. apply (digit_cases _ _ Hr). repeat constructor. Qed.

Lemma with_sources_text opcode rn rm :
  is_digit rn → is_digit rm →
  with_sources opcode (text_of d7 d6 d5 d4 d3 d2 d1 d0) rn rm =
    if mem opcode ARM_ALU_W_PC_sreg_4_0 then text_of d7 d6 d5 rn d3 d2 d1 rm
    else if mem opcode ARM_ALU_W_PC_sreg_4 then text_of d7 d6 d5 rn d3 d2 d1 d0
    else if mem opcode ARM_ALU_W_PC_sreg_0 then text_of d7 d6 d5 d4 d3 d2 d1 rn
    else text_of d7 d6 d5 d4 d3 d2 d1 d0.
Proof. intros Hn Hm. unfold with_sources. by rewrite !hex_digit. Qed.

Lemma nibbles :
  nibble 0 (word_of d7 d6 d5 d4 d3 d2 d1 d0) = d0 ∧ nibble 4 (word_of d7 d6 d5 d4 d3 d2 d1 d0) = d4.
Proof using H7 H6 H5 H4 H3 H2 H1 H0.
  unfold nibble, word_of, is_digit in *. change (16 ^ 0) with 1. change (16 ^ 4) with 65536.
  split; Z.div_mod_to_equations; lia.
Qed.

Lemma clear_S_word : clear_S_bit (word_of d7 d6 d5 d4 d3 d2 d1 d0) = word_of d7 d6 (d5 - d5 mod 2) d4 d3 d2 d1 d0.
Proof using H7 H6 H5 H4 H3 H2 H1 H0.
  unfold clear_S_bit, word_of, is_digit in *. change (2 ^ 20) with 1048576. Z.div_mod_to_equations; lia.
Qed.

Lemma set_nibble_0 v : set_nibble 0 v (word_of d7 d6 d5 d4 d3 d2 d1 d0) = word_of d7 d6 d5 d4 d3 d2 d1 v.
Proof using H7 H6 H5 H4 H3 H2 H1 H0. unfold set_nibble. rewrite (proj1 nibbles). unfold word_of. lia. Qed.
Lemma set_nibble_4 v : set_nibble 4 v (word_of d7 d6 d5 d4 d3 d2 d1 d0) = word_of d7 d6 d5 v d3 d2 d1 d0.
Proof using H7 H6 H5 H4 H3 H2 H1 H0. unfold set_nibble. rewrite (proj2 nibbles). unfold word_of. lia. Qed.
End digits.

Lemma word_digits_ex raw :
  is_u32 raw → ∃ d7 d6 d5 d4 d3 d2 d1 d0, is_digit d7 ∧ is_digit d6 ∧ is_digit d5 ∧ is_digit d4 ∧ is_digit d3 ∧ is_digit d2
    ∧ is_digit d1 ∧ is_digit d0 ∧ raw = word_of d7 d6 d5 d4 d3 d2 d1 d0 ∧ "0x" +:+ fmt_08x raw = text_of d7 d6 d5 d4 d3 d2 d1 d0.
Proof.
  intros Hu. destruct (word_digits raw Hu) as [Hw Ht]. eexists _, _, _, _, _, _, _, _.
  split_and!; [apply nibble_digit..|exact Hw|exact Ht].
Qed.

Lemma edit_text opcode raw rn rm :
  is_u32 raw → is_digit rn → is_digit rm →
  ∃ t h, clear_S ("0x" +:+ fmt_08x raw) = Some t ∧ with_sources opcode t rn rm = String "0" h
    ∧ read_number (with_sources opcode t rn rm) = Some (set_sources opcode rn rm (clear_S_bit raw)).
Proof.
  intros Hu Hn Hm.
  destruct (word_digits_ex raw Hu) as (d7 & d6 & d5 & d4 & d3 & d2 & d1 & d0 & H7 & H6 & H5 & H4 & H3 & H2 & H1 & H0 & -> & ->).
  assert (is_digit (d5 - d5 mod 2)) as H5' by (unfold is_digit in *; Z.div_mod_to_equations; lia).
  rewrite clear_S_text, clear_S_word by done. eexists.
  rewrite with_sources_text by done. unfold set_sources. rewrite ?set_nibble_0, ?set_nibble_4 by done.
  destruct (mem _ _); [|destruct (mem _ _); [|destruct (mem _ _)]]; eexists; (split; [done|]); (split; [reflexivity|]); by apply read_text_of.
Qed.

(** ** 3. The requests *)

Section alu.
Context `{Env : !RitEnv} `{Py : !PyEnv}.

Lemma pure_lib {A} (P : A → Prop) (m : drv A) :
  (∀ d, lib_inv d.(librit) → wp m (λ a d', lib_inv d'.(librit) ∧ P a) d) → pure_py P (py m).
Proof.
  intros Hm s Hs. apply wp_py. eapply wp_mono; [by apply Hm|]. intros a d [Hd Ha]. by split.
Qed.

(** The opcodes that are asked for are ARM opcodes of the table. *)
Definition alu_name_ok (op : Z) : bool :=
  match (instr_desc op).(name) with
  | Some nm => negb (mem nm ARM_ALU_W_PC_ALL)
               || (op <? SISA_OP_ARM_MAX) && negb (opkind_eqb (instr_desc op).(op_kind) PSEUDO_OP)
  | None => true
  end.
Lemma mem_true x l : x ∈ l → mem x l = true.
Proof. intros Hx. unfold mem. apply existsb_exists. exists x. split; [by apply list_elem_of_In|apply String.eqb_refl]. Qed.

Definition table_names : list (Z * option string) := map (λ op, (op, (instr_desc op).(name))) (seqZ 1 (SISA_OP_MAX - 1)).
Definition in_names (nms : list (Z * option string)) (nm : string) : bool :=
  existsb (λ p, match p.2 with Some x => String.eqb nm x | None => false end) nms.
Lemma in_table_known nm : in_names table_names nm = true → known nm.
Proof.
  unfold in_names. rewrite existsb_exists. intros ([op o] & Hin & Ho). cbn [snd] in Ho. destruct o as [x|]; [|done].
  apply String.eqb_eq in Ho as <-. apply list_elem_of_In in Hin. unfold table_names in Hin.
  apply list_elem_of_fmap in Hin as (op' & [= -> E] & Hop). apply elem_of_seqZ in Hop. exists op'. split; [lia|done].
Qed.

Lemma alu_opcodes opcode :
  opcode ∈ ARM_ALU_W_PC_ALL → known opcode ∧ roomy_name (Some opcode) ∧ arm_named opcode.
Proof.
  intros Hin. split; [|split].
  - assert (let nms := table_names in forallb (in_names nms) ARM_ALU_W_PC_ALL = true) as H by (vm_compute; reflexivity).
    cbv zeta in H. rewrite forallb_forall in H. by apply in_table_known, H, list_elem_of_In.
  - split; intros [= ->]; apply mem_true in Hin; vm_compute in Hin; done.
  - intros op Hop Hn. pose proof (table_check alu_name_ok ltac:(vm_compute; reflexivity) op Hop) as H.
    unfold alu_name_ok in H. rewrite Hn, mem_true in H by done. cbn [negb orb] in H.
    apply andb_true_iff in H as [H1%Z.ltb_lt H2%negb_true_iff]. split; [done|]. unfold opkind_eqb in H2.
    by rewrite bool_decide_eq_false in H2.
Qed.

(** The request of [alu_inst]. *)
Definition alu_request (maxretry : nat) (opcode : string) (rcond dst : Z) (allow_fix : bool) (seed hexcode : Z) : art (option insts) :=
  py (gen_single_inst_with_opcode maxretry true (Some opcode) (Some rcond) (Some 0) None (Some dst) allow_fix
        (Some seed) (Some hexcode) true).

(** An answer [l] of the library to it and the text [t] that is made of it: the last
    instruction is a word of the opcode, and [t] is that word, edited. *)
Definition edited (opcode : string) (rn rm : Z) (l : insts) (t : string) : Prop :=
  ∃ op raw h, (instr_desc op).(name) = Some opcode ∧ is_u32 raw ∧ last l = Some (directive op, "0x" +:+ fmt_08x raw)
    ∧ t = String "0" h ∧ read_number t = Some (set_sources opcode rn rm (clear_S_bit raw)).

Lemma alu_inst_run maxretry opcode rcond dst allow_fix seed hexcode rn rm s :
  opcode ∈ ARM_ALU_W_PC_ALL → is_digit rn → is_digit rm → lib_ready s →
  ∃ ans s', alu_request maxretry opcode rcond dst allow_fix seed hexcode s = Ok ans s' ∧ lib_ready s' ∧ same_ctx s s'
    ∧ match ans with
      | Some (x :: l) => ∃ t, alu_inst maxretry opcode rcond dst allow_fix seed hexcode rn rm s = Ok (Some t) s'
                           ∧ edited opcode rn rm (x :: l) t
      | _ => alu_inst maxretry opcode rcond dst allow_fix seed hexcode rn rm s = Ok None s'
      end.
Proof.
  intros Hop Hn Hm Hs. destruct (alu_opcodes opcode Hop) as (Hk & Hr & Ha). unfold alu_inst.
  assert (pure_py (λ r, ∀ i, r = Some i → ∃ op raw pre, (instr_desc op).(name) = Some opcode ∧ 0 ≤ op < SISA_OP_MAX ∧ is_u32 raw
    ∧ i = pre ++ [(directive op, encoding op raw)]) (alu_request maxretry opcode rcond dst allow_fix seed hexcode)) as Hreq.
  { apply pure_lib. intros d Hd. unfold gen_single_inst_with_opcode. cbn [if_none default]. cbv zeta.
    apply wp_bind, wp_ret, wp_bind, wp_ret. by apply wp_opcode_retry_invalid. }
  destruct (wp_elim _ _ _ (Hreq s Hs)) as (ans & s' & E & Hi & Hs' & Hc). exists ans, s'. refine (conj E (conj Hs' (conj Hc _))).
  unfold alu_request in E. unfold mbind, M_bind. rewrite E. destruct ans as [[|x l]|]; [done| |done].
  destruct (Hi _ eq_refl) as (op & raw & pre & Hname & Hrange & Hu & Ei). destruct (Ha op Hrange Hname) as [Harm _].
  assert (last (x :: l) = Some (directive op, "0x" +:+ fmt_08x raw)) as El.
  { rewrite Ei, last_snoc. unfold encoding. by rewrite (proj2 (Z.leb_gt _ _)) by lia. }
  destruct (edit_text opcode raw rn rm Hu Hn Hm) as (t & h & Et & Eh & Er).
  exists (with_sources opcode t rn rm). split; [|by exists op, raw, h]. rewrite El. cbn [fmap option_fmap option_map snd or_raise mret M_ret].
  by rewrite Et.
Qed.

(** ** 4. The whole group *)

(** The suffixes of its labels; [adr] if the shadow of [ADR] is followed by one. *)
Definition alu_suffixes (isARM adr : bool) : list string :=
  (if adr then ["_wPC_ADR_offset"] else []) ++ ["_wPC_THUMB_spring"]
  ++ (if isARM then ["_wPC_ARM_spring"] else []) ++ ["_wPC_st_spring"; "_wPC_inst_pre"; "_wPC_inst_post"].

Definition is_number (o : option string) : Prop := ∀ t, o = Some t → ∃ h, t = String "0" h.

Lemma pure_alu_inst maxretry opcode rcond dst allow_fix seed hexcode rn rm :
  opcode ∈ ARM_ALU_W_PC_ALL → is_digit rn → is_digit rm →
  pure_py is_number (alu_inst maxretry opcode rcond dst allow_fix seed hexcode rn rm).
Proof.
  intros Hop Hn Hm s Hs. destruct (alu_inst_run maxretry opcode rcond dst allow_fix seed hexcode rn rm s Hop Hn Hm Hs)
    as (ans & s' & _ & Hs' & Hc & H).
  destruct ans as [[|x l]|]; [by apply (wp_intro _ _ _ _ _ H)| |by apply (wp_intro _ _ _ _ _ H)].
  destruct H as (t & E & _ & _ & h & _ & _ & _ & -> & _). apply (wp_intro _ _ _ _ _ E). split; [|done].
  intros ? [= <-]. by exists h.
Qed.

Lemma alu_arm_emitted label c u opcode rn ri rf shadow jump :
  rit_label label → c ∈ "" :: CONDCODE → u = invert c → is_number shadow → is_number jump →
  ∃ adr, emitted true (map (String.append label) (alu_suffixes true adr))
           (alu_insts true label c u opcode rn ri rf shadow jump).
Proof.
  intros [x ->] Hc -> Hs Hj. unfold alu_insts. cbv zeta.
  assert (∀ o, is_number o → o = None ∨ ∃ h, o = Some (String "0" h)) as Hn.
  { intros [t|] Ho; [|by left]. right. destruct (Ho t eq_refl) as [h ->]. eauto. }
  destruct (String.eqb opcode "ADR_a1" || String.eqb opcode "ADR_a2").
  - destruct (Hn _ Hs) as [-> |[h ->]]; [exists false|exists true]; destruct (Hn _ Hj) as [-> |[h' ->]]; cases_in Hc; by apply emitted_intro.
  - exists false. destruct (Hn _ Hs) as [-> |[h ->]], (Hn _ Hj) as [-> |[h' ->]]; cases_in Hc; by apply emitted_intro.
Qed.

Lemma alu_thumb_emitted label c u opcode rn ri rf :
  rit_label label → c ∈ "" :: CONDCODE → u = invert c → opcode ∈ THUMB_ALU_W_PC →
  emitted false (map (String.append label) (alu_suffixes false false))
    (alu_insts false label c u opcode rn ri rf None None).
Proof.
  intros [x ->] Hc -> Ho. unfold alu_insts. cbv zeta. cases_in Ho; cases_in Hc; by apply emitted_intro.
Qed.

Lemma pure_alu_cond (b : bool) :
  pure_py (λ p : string * Z * string, p.1.1 ∈ "" :: CONDCODE ∧ p.2 = invert p.1.1)
    (if b then
       cond ← choice_py CONDCODE;
       k ← or_raise (index_of cond CONDCODE);
       rcond ← or_raise (CONDVALUE !! k);
       uncond ← or_raise (INVCONDCODE !! k);
       mret (cond, rcond, uncond)
     else mret ("", 14, "")).
Proof.
  destruct b; [|apply pure_ret; split; [by left|done]]. eapply pure_bind; [by apply pure_choice|]. cbv beta. intros c Hc.
  assert (c ∈ "" :: CONDCODE) as Hc' by by right. cases_in Hc; by apply pure_ret.
Qed.

(** The registers of the sequence: the sources are no special registers. *)
Definition alu_regs : list Z := range 13.

Lemma wp_genALUwritePC maxretry label allow_fix s :
  rit_label label → lib_ready s →
  wp (genALUwritePC maxretry label allow_fix)
     (λ i s', (∃ adr, emitted s.(ISA) (map (String.append label) (alu_suffixes s.(ISA) (s.(ISA) && adr))) i)
        ∧ lib_ready s' ∧ same_ctx s s') s.
Proof.
  intros Hl. apply (pure_gets ISA _ (λ a i, ∃ adr, emitted a (map (String.append label) (alu_suffixes a (a && adr))) i)).
  intros isARM. do 2 (eapply pure_bind; [by apply pure_randint|]; intros ? _).
  change (remove_py R_PC (range 16)) with (mret (M := art) (range 15)).
  eapply pure_bind; [by apply (pure_ret (λ l, l = range 15))|]. intros ? ->.
  change (remove_py R_LR (range 15)) with (mret (M := art) (range 14)).
  eapply pure_bind; [by apply (pure_ret (λ l, l = range 14))|]. intros ? ->.
  change (remove_py R_SP (range 14)) with (mret (M := art) alu_regs).
  eapply pure_bind; [by apply (pure_ret (λ l, l = alu_regs))|]. intros ? ->.
  apply pure_choice_bind; [vm_compute; lia|]. intros rn Hrn%range_bound.
  apply pure_choice_bind; [vm_compute; lia|]. intros rm Hrm%range_bound.
  pose proof (length_remove_if rn alu_regs) as L1. change (length alu_regs) with 13%nat in L1.
  pose proof (length_remove_if rm (remove_if_py rn alu_regs)) as L2.
  pose proof (length_remove_if R_SP (remove_if_py rm (remove_if_py rn alu_regs))) as L3. cbv zeta.
  apply pure_choice_bind; [lia|]. intros ri Hri. apply pure_remove_bind; [done|]. intros l' _ Hl'.
  apply pure_choice_bind; [lia|]. intros rf _. eapply pure_bind; [by apply pure_choice|]. intros b _.
  eapply pure_bind; [apply pure_alu_cond|]. intros [[c rcond] u] [Hc Hu]. cbn [fst snd] in *.
  destruct isARM.
  - apply pure_choice_bind; [vm_compute; lia|]. intros opcode Hop.
    assert (∀ dst, pure_py is_number (alu_inst maxretry opcode rcond dst allow_fix v0 v rn rm)) as Hreq
      by (intros dst; apply pure_alu_inst; [done|unfold is_digit; lia..]).
    eapply pure_bind; [apply Hreq|]. intros shadow Hs. eapply pure_bind; [apply Hreq|]. intros jump Hj.
    apply pure_ret. by apply alu_arm_emitted.
  - apply pure_choice_bind; [vm_compute; lia|]. intros opcode Hop.
    do 2 (eapply pure_bind; [by apply (pure_ret (λ o, o = None))|]; intros ? ->).
    apply pure_ret. exists false. by apply alu_thumb_emitted.
Qed.
End alu.
