(* ===== verification/PyCodeSpec.v ===== *)
(** * The fixed parts of a test

    The random values are words, the data sections have the sizes they are
    declared with, and the blocks before and after the random part print as fixed
    lines around them. *)
From Stdlib Require Import Ascii Sorting.Sorted.
From S2P Require Import Prelude RitCommon InstrTable State RandomInstrGen Keeps Output Loop Api ParseRIT V1State V1Api Driver PyBase PyCode PyTree PyEmit PyEmitSpec PyAlu.
#[local] Open Scope Z_scope.

(** ** 1. Random values *)

Definition word (v : Z) : Prop := 0 ≤ v < 2 ^ 32.

Lemma sort_insert_perm x l : sort_insert x l ≡ₚ x :: l.
Proof.
  induction l as [|y l IH]; [done|]. cbn. destruct (x <=? y); [done|]. rewrite IH. apply Permutation_swap.
Qed.
Lemma sort_py_perm l : sort_py l ≡ₚ l.
Proof. induction l as [|x l IH]; [done|]. cbn. by rewrite sort_insert_perm, IH. Qed.
Lemma sort_insert_sorted x l : Sorted Z.le l → Sorted Z.le (sort_insert x l).
Proof.
  induction 1 as [|y l Hl IH Hh]; [by repeat constructor|]. cbn. destruct (Z.leb_spec x y) as [Hx|Hx].
  - constructor; [by constructor|]. by constructor.
  - constructor; [done|]. destruct Hh as [|z l Hz]; cbn; [constructor; lia|]. destruct (x <=? z); constructor; lia.
Qed.
Lemma sort_py_sorted l : Sorted Z.le (sort_py l).
Proof. induction l as [|x l IH]; [constructor|]. by apply sort_insert_sorted. Qed.
Lemma sorted_adjacent l k d : Sorted Z.le l → (S k < length l)%nat → nth k l d ≤ nth (S k) l d.
Proof.
  intros H. revert k. induction H as [|x l Hl IH Hh]; intros k Hk; cbn [length] in Hk; [lia|].
  destruct k as [|k]; [|by apply IH; lia]. destruct Hh; cbn in *; [lia|done].
Qed.

Section values.
Context `{Py : !PyEnv}.

Lemma pure_repeat {A} (P : A → Prop) n m : pure_py P m → pure_py (λ l, length l = n ∧ Forall P l) (repeat_py n m).
Proof.
  intros Hm. induction n as [|n IH]; cbn [repeat_py]; [by apply pure_ret|].
  eapply pure_bind; [exact Hm|]. intros x Hx. eapply pure_bind; [exact IH|]. intros l [Hl HF]. apply pure_ret.
  split; [cbn; by rewrite Hl|by constructor].
Qed.

(** A number between the smallest and the largest. *)
Lemma pure_getRandNum lo hi nums :
  nums ≠ [] → Forall (λ v, lo ≤ v ≤ hi) nums → pure_py (λ v, lo ≤ v ≤ hi) (getRandNum nums).
Proof.
  intros Hne HF. destruct nums as [|x [|y l]]; [done| |].
  { apply Forall_cons in HF as [HF _]. by apply (pure_ret (λ v, lo ≤ v ≤ hi) x). }
  unfold getRandNum. remember (x :: y :: l) as nums eqn:En.
  assert (length (sort_py nums) = S (S (length l))) as Hlen by (rewrite (Permutation_length (sort_py_perm nums)); by subst).
  pose proof (sort_py_sorted nums) as Hs. rewrite <- (sort_py_perm nums) in HF. revert Hlen Hs HF.
  generalize (sort_py nums) as input. intros input Hlen Hs HF. cbv zeta.
  eapply pure_bind; [apply pure_randint; lia|]. intros r Hr. cbv beta in Hr.
  assert ((S (Z.to_nat r) < length input)%nat) as Hk by lia.
  pose proof (sorted_adjacent input (Z.to_nat r) 0 Hs Hk) as Hadj. rewrite Forall_forall in HF.
  pose proof (HF _ (proj2 (list_elem_of_In _ _) (nth_In input 0 (Nat.lt_succ_l _ _ Hk)))) as H1.
  pose proof (HF _ (proj2 (list_elem_of_In _ _) (nth_In input 0 Hk))) as H2. cbv beta in *.
  set (mn := nth (Z.to_nat r) input 0) in *. set (mx := nth (S (Z.to_nat r)) input 0) in *.
  destruct (Z.eqb_spec mn mx); [by apply pure_ret|]. eapply pure_bind; [apply pure_randint; lia|]. intros v Hv. cbv beta in Hv.
  eapply pure_mono; [|by apply pure_choice]. cbv beta. intros w Hw. cases_in Hw; lia.
Qed.

Lemma pure_randint_word a b : 0 ≤ a ≤ b → b < 2 ^ 32 → pure_py word (randint_py a b).
Proof. intros H1 H2. eapply pure_mono; [|apply pure_randint; lia]. unfold word. cbv beta. lia. Qed.

Lemma pure_getRandVFPNum is_sp : pure_py (λ v, word v.1 ∧ word v.2) (getRandVFPNum is_sp).
Proof.
  assert (word 0) as W0 by done.
  assert (∀ a b, 0 ≤ a ≤ b → b < 2 ^ 32 →
    pure_py (λ v, word v.1 ∧ word v.2) (h ← randint_py a b; l ← randint_py 0 0xffffffff; mret (l, h))) as Hboth.
  { intros a b H1 H2. eapply pure_bind; [by apply pure_randint_word|]. intros h Hh.
    eapply pure_bind; [by apply pure_randint_word|]. intros l Hl. by apply pure_ret. }
  unfold getRandVFPNum. eapply pure_bind; [by apply pure_randint|]. intros r _. cbv zeta. destruct is_sp.
  - eapply (pure_bind word); [|intros v Hv; by apply pure_ret].
    repeat (match goal with |- pure_py _ (if ?b then _ else _) => destruct b end; [first [by apply pure_ret | by apply pure_randint_word]|]).
    by apply pure_randint_word.
  - repeat (match goal with |- pure_py _ (if ?b then _ else _) => destruct b end; [first [by apply pure_ret | by apply Hboth]|]).
    by apply Hboth.
Qed.

Definition rvals_ok (size : Z) (l : list Z) : Prop := Z.of_nat (length l) = size ∧ Forall word l.

Lemma pure_getGeneralRandomNum size : 0 ≤ size → pure_py (rvals_ok size) (getGeneralRandomNum size).
Proof.
  intros Hs. unfold getGeneralRandomNum. eapply pure_bind; [by apply pure_choice|]. intros ty _.
  eapply pure_mono; [|apply (pure_repeat word)].
  - intros l [Hl HF]. split; [lia|done].
  - assert (∀ nums, nums ≠ [] → Forall (λ v, 0 ≤ v ≤ 0xffffffff) nums → pure_py word (getRandNum nums)) as H.
    { intros nums Hn HF. eapply pure_mono; [|by apply (pure_getRandNum 0 0xffffffff)]. unfold word. cbv beta. lia. }
    destruct (ty =? 0); [apply H; [done|repeat constructor; lia]|].
    destruct (ty =? 1); [apply H; [done|repeat constructor; lia]|]. by apply pure_randint_word.
Qed.

Lemma pure_getVFPRandomNum size : 0 ≤ size → pure_py (rvals_ok size) (getVFPRandomNum size).
Proof.
  intros Hs. unfold getVFPRandomNum. eapply pure_bind; [by apply pure_choice|]. intros is_sp _. destruct is_sp.
  - eapply pure_mono; [|apply (pure_repeat word)].
    + intros l [Hl HF]. split; [lia|done].
    + eapply pure_bind; [apply pure_getRandVFPNum|]. intros v [Hv _]. by apply pure_ret.
  - eapply pure_bind; [apply pure_repeat, pure_getRandVFPNum|]. cbv beta. intros pairs [Hl HF]. cbv zeta.
    assert (length (flat_map (λ v, [v.1; v.2]) pairs) = 2 * length pairs)%nat as Hlen.
    { clear. induction pairs; cbn in *; lia. }
    assert (Forall word (flat_map (λ v : Z * Z, [v.1; v.2]) pairs)) as HW.
    { clear -HF. induction HF as [|v l [H1 H2] _ IH]; cbn; [constructor|]. constructor; [done|]. by constructor. }
    pose proof (Z.div_mod size 2 ltac:(lia)) as Hd. pose proof (Z.mod_pos_bound size 2 ltac:(lia)) as Hm.
    pose proof (Z.div_pos size 2 ltac:(lia) ltac:(lia)) as Hp.
    destruct (Z.ltb_spec (Z.of_nat (length (flat_map (λ v : Z * Z, [v.1; v.2]) pairs))) size) as [Hlt|Hge].
    + eapply pure_bind; [apply pure_getRandVFPNum|]. intros v [Hv _]. apply pure_ret. split.
      * rewrite length_app. cbn [length]. lia.
      * apply Forall_app. split; [done|]. constructor; [done|constructor].
    + apply pure_ret. split; [lia|done].
Qed.
End values.

(** ** 2. Printing blocks that are no random blocks *)

(** The block [b] has the lines [ls]. *)
Definition prints (st : list block) (b : nat) (ls : list line) : Prop :=
  ∀ fuel, (length st ≤ b + fuel)%nat → read_block fuel st b = Some ls.
Definition entry_prints (st : list block) (b : nat) (e : code_item) (ls : list line) : Prop :=
  match e with
  | BLOCK b' => (b < b')%nat ∧ prints st b' ls
  | INST i => ls = map LInst i
  | ATTR a => ls = [LAttr a]
  | LABEL l => ls = [LLabel l]
  end.
Definition class_lines (cls : block_class) : option (list line) :=
  match cls with
  | PlainBlock | ValueBlock => Some []
  | DataBlock | RDataBlock => Some [LText ""]
  | RBlock _ _ _ _ => None
  end.

Lemma prints_block st b cls c head lss :
  st !! b = Some (Mk_block cls c) → class_lines cls = Some head → Forall2 (entry_prints st b) c lss →
  prints st b (head ++ concat lss).
Proof.
  intros Hb Hc HF fuel Hf. assert (b < length st)%nat by by eapply lookup_lt_Some.
  destruct fuel as [|fuel]; [lia|]. cbn [read_block]. rewrite Hb. cbn [mbind option_bind code class_of].
  assert (read_code (read_block fuel st) c = Some (concat lss)) as ->.
  { clear Hb. induction HF as [|e ls c lss He _ IH]; [done|]. cbn [read_code concat]. rewrite IH.
    destruct e as [b'|i|a|l]; cbn [entry_prints] in He; [|by subst ls..].
    destruct He as [Hlt Hp]. by rewrite Hp by lia. }
  cbn [mbind option_bind]. by destruct cls; cbn in Hc; simplify_eq/=.
Qed.

Lemma prints_tree st t :
  represents st t → Forall (λ n, Forall (on_sub (λ t', t_id n < t_id t')%nat) (t_items n)) (nodes t) → prints st (t_id t) (lines t).
Proof. intros H1 H2 fuel Hf. by apply read_block_lines. Qed.

(** Instructions that fit ARM code, define no label and switch nothing. *)
Definition calm (x : string * string) : bool :=
  own_ok true x && negb (String.eqb x.1 ISA_A || String.eqb x.1 ISA_T) && negb (String.eqb x.2 ":").

Section calm.
Context `{Env : !RitEnv}.
Lemma calm_good i : forallb calm i = true → group_good inst_ok true i ∧ inst_defs i = [].
Proof.
  intros H. split.
  - apply group_good_plain, Forall_forall. intros x Hx%list_elem_of_In. rewrite forallb_forall in H. apply H in Hx.
    unfold calm in Hx. rewrite !andb_true_iff, negb_true_iff, orb_false_iff in Hx. destruct Hx as [[H1 [H2 H3]] _].
    split; [by left|]. unfold directive_mode. by rewrite H2, H3.
  - unfold inst_defs. induction i as [|x i IH]; [done|]. cbn in *. apply andb_true_iff in H as [H1 H2]. rewrite IH by done.
    unfold calm in H1. rewrite !andb_true_iff, !negb_true_iff in H1. destruct H1 as [_ ->]. done.
Qed.
End calm.

Lemma calm_words l : calm (words_line l) = true.
Proof. destruct l as [|v [|w l]]; reflexivity. Qed.

(** ** 3. New objects *)

Section objects.
Context `{Py : !PyEnv} (s0 : art_state).

(** The objects [bs] are new; nothing else changed. *)
Definition grown (bs : list block) (s : art_state) : Prop :=
  lib_ready s ∧ same_ctx (with_store (s0.(store) ++ bs) s0) s.
Definition new_id (k : nat) : nat := length s0.(store) + k.

Lemma grown_pure {A} (P : A → Prop) (m : art A) bs s Q :
  pure_py P m → grown bs s → (∀ v s', P v → grown bs s' → Q v s') → wp m Q s.
Proof.
  intros Hm [Hs E] HQ. eapply wp_pure; [exact Hm|done|]. intros v d Hv Hd. apply HQ; [done|]. split; [done|].
  etrans; [exact E|]. done.
Qed.
Lemma grown_new blk bs s Q :
  grown bs s → (∀ s', grown (bs ++ [blk]) s' → Q (new_id (length bs)) s') → wp (new_block blk) Q s.
Proof.
  intros [Hs E] HQ. unfold new_block, wp. assert (s.(store) = s0.(store) ++ bs) as Es by by rewrite E.
  rewrite Es, length_app, <- app_assoc. apply HQ. split; [done|]. unfold same_ctx. rewrite E. done.
Qed.
Lemma grown_append k item cls c bs s Q :
  grown bs s → bs !! k = Some (Mk_block cls c) →
  (∀ s', grown (<[k := Mk_block cls (c ++ [item])]> bs) s' → Q tt s') → wp (append (new_id k) item) Q s.
Proof.
  intros [Hs E] Hk HQ. assert (s.(store) = s0.(store) ++ bs) as Es by by rewrite E.
  unfold append, get_block, set_block, wp, mbind, M_bind, modify, new_id.
  rewrite Es, lookup_app_r by lia. replace (length s0.(store) + k - length s0.(store))%nat with k by lia. rewrite Hk.
  cbn [class_of code]. rewrite Es, insert_app_r. apply HQ. split; [done|]. unfold same_ctx. rewrite E. done.
Qed.
End objects.

(** ** 4. The parts *)

Ltac grown_app := apply wp_bind; eapply grown_append; [eassumption|reflexivity|];
  match goal with G : grown _ _ _ |- _ => clear G end;
  let s := fresh "s" in let G := fresh "G" in intros s G; cbn [insert list_insert app] in G.
Ltac grown_new := apply wp_bind; eapply grown_new; [eassumption|];
  match goal with G : grown _ _ _ |- _ => clear G end;
  let s := fresh "s" in let G := fresh "G" in intros s G; cbn [app length] in G |- *.
Ltac grown_pure v H lem := apply wp_bind; eapply grown_pure; [lem|eassumption|];
  match goal with G : grown _ _ _ |- _ => clear G end;
  let s := fresh "s" in let G := fresh "G" in intros v s H G; cbv beta in H.

Section parts.
Context `{Py : !PyEnv}.

(** A data section of random words. *)
Definition rdata (label : string) (size : Z) (blk : block) : Prop :=
  ∃ ls, blk = Mk_block RDataBlock [ATTR ".data"; LABEL label; INST (map words_line ls)]
    ∧ Z.of_nat (length (concat ls)) = size ∧ Forall word (concat ls).

Lemma length_concat_8 (ls : list (list Z)) : Forall (rvals_ok 8) ls → Z.of_nat (length (concat ls)) = 8 * Z.of_nat (length ls).
Proof. induction 1 as [|l ls [Hl _] _ IH]; [done|]. cbn. rewrite length_app. lia. Qed.
Lemma words_concat k (ls : list (list Z)) : Forall (rvals_ok k) ls → Forall word (concat ls).
Proof. induction 1 as [|l ls [_ Hl] _ IH]; cbn; [constructor|]. apply Forall_app. done. Qed.

Lemma grown_RDataBlock s0 label size f bs s Q :
  (∀ n, 0 ≤ n → pure_py (rvals_ok n) (f n)) → 0 ≤ size → grown s0 bs s →
  (∀ blk s', rdata label size blk → grown s0 (bs ++ [blk]) s' → Q (new_id s0 (length bs)) s') →
  wp (new_RDataBlock label size f) Q s.
Proof.
  intros Hf Hsz G HQ. unfold new_RDataBlock. pose proof (Z.div_mod size 8 ltac:(lia)) as Hd.
  pose proof (Z.mod_pos_bound size 8 ltac:(lia)) as Hm. pose proof (Z.div_pos size 8 Hsz ltac:(lia)) as Hp.
  assert (pure_py (λ l, Forall (rvals_ok (size mod 8)) l ∧ Z.of_nat (length (concat l)) = size mod 8)
    (if negb (size mod 8 =? 0) then rvals ← f (size mod 8); mret [rvals] else mret [])) as Hrest.
  { destruct (Z.eqb_spec (size mod 8) 0) as [E|E]; cbn [negb]; [apply pure_ret; split; [constructor|by rewrite E]|].
    eapply pure_bind; [apply Hf; lia|]. intros v Hv. apply pure_ret. split; [by constructor|]. cbn. rewrite app_nil_r. apply Hv. }
  grown_pure ls Hls ltac:(apply (pure_repeat (rvals_ok 8)), Hf; lia). destruct Hls as [Hlen HF].
  grown_pure rest Hr ltac:(exact Hrest). destruct Hr as [HF' Hlen']. eapply grown_new; [eassumption|]. intros s3 G3.
  eapply HQ; [|exact G3]. exists (ls ++ rest). split; [done|]. rewrite concat_app, length_app. split.
  - rewrite Nat2Z.inj_add, Hlen', (length_concat_8 _ HF), Hlen. lia.
  - apply Forall_app. split; by eapply words_concat.
Qed.

Ltac grown_rdata blk H lem :=
  apply wp_bind; eapply grown_RDataBlock; [apply lem|done|eassumption|];
  match goal with G : grown _ _ _ |- _ => clear G end;
  let s := fresh "s" in let G := fresh "G" in intros blk s H G; cbn [app length] in G |- *.

(** The blocks of the data sections. *)
Definition space_block (label : string) (size : string) : block :=
  Mk_block DataBlock [ATTR ".data"; LABEL label; INST [(".space", size)]].
Definition data_code (id : nat → nat) : list code_item := map (λ k, BLOCK (id k)) (seq 1 8).
Definition data_blocks (rd bg bv : block) : list block :=
  [rd; space_block "regbak" "64"; space_block "cfgdata" "64"; space_block "excladdr" "4"; space_block "exclflag" "4";
   Mk_block ValueBlock [ATTR ".data"; LABEL "exclcnt"; INST [(".word", "0xff")]]; bg; bv].

(** Objects that are created after others. *)
Lemma grown_refl s : lib_ready s → grown s [] s.
Proof. intros Hs. split; [done|]. rewrite app_nil_r. by destruct s. Qed.
Lemma grown_trans s0 bs s bs' s' : grown s0 bs s → grown s bs' s' → grown s0 (bs ++ bs') s'.
Proof.
  intros [_ E] [Hs' E']. split; [done|]. assert (s.(store) = s0.(store) ++ bs) as Es by by rewrite E.
  unfold same_ctx in *. rewrite E', Es, E. cbn. by rewrite app_assoc.
Qed.
Lemma grown_id s0 bs s k : grown s0 bs s → new_id s k = new_id s0 (length bs + k).
Proof. intros [_ E]. unfold new_id. rewrite E. cbn. rewrite length_app. lia. Qed.

Lemma wp_genDataBlock s :
  lib_ready s →
  wp genDataBlock (λ b s', b = new_id s 0 ∧ ∃ rd bg bv, rdata "ritdata" 0x18000 rd ∧ rdata "bv_general" 512 bg
    ∧ rdata "bv_vfp" 512 bv ∧ grown s (Mk_block PlainBlock (data_code (new_id s)) :: data_blocks rd bg bv) s') s.
Proof.
  intros Hs%grown_refl. unfold genDataBlock. grown_new.
  grown_rdata rd Hrd pure_getGeneralRandomNum.
  grown_app. unfold new_DataBlock, new_ValueBlock. do 5 (grown_new; grown_app).
  grown_rdata bg Hbg pure_getGeneralRandomNum. grown_app.
  grown_rdata bv Hbv pure_getVFPRandomNum. grown_app. apply wp_ret. split; [done|]. exists rd, bg, bv. split; [done|]. split; [done|]. split; [done|].
  exact G.
Qed.

(** The block before the random part; [i] sets the registers. *)
Definition init_code (i : insts) : list code_item :=
  [ATTR ".cpu cortex-a9"; ATTR ".fpu vfpv3"; ATTR ".global _start"; ATTR ".syntax unified"; ATTR ".text";
   INST [(".space", "4096")]; LABEL "_start"; INST i].

(** One word into a register, one pair into a double register, and all of them:
    the flags, the 32 double registers and the registers up to r14. *)
Definition load_word (r v : Z) : string * string := ("ldr", reg r +:+ ", =0x" +:+ hex v).
Definition load_double (i : Z) (p : Z * Z) : insts :=
  [load_word 0 p.1; load_word 1 p.2; ("vmov", "d" +:+ dec i +:+ ", r0, r1")].
Definition init_insts (flags : Z) (ds : list (Z * Z)) (rs : list Z) : insts :=
  [load_word 0 flags; ("msr", "APSR_nzcvqg, r0")] ++ concat (zip_with load_double (range 32) ds)
  ++ concat (zip_with (λ r v, [load_word r v]) (range 15) rs).
Definition sets_registers (i : insts) : Prop :=
  ∃ flags ds rs, i = init_insts flags ds rs ∧ word flags ∧ length ds = 32%nat ∧ Forall (λ p, word p.1 ∧ word p.2) ds
    ∧ length rs = 15%nat ∧ Forall word rs.

Lemma calm_zip {A} (g : Z → A → insts) js vs :
  (∀ j v, forallb calm (g j v) = true) → forallb calm (concat (zip_with g js vs)) = true.
Proof.
  intros Hg. revert vs. induction js as [|j js IH]; intros [|v vs]; try done. cbn. by rewrite forallb_app, Hg, IH.
Qed.
Lemma calm_init i : sets_registers i → forallb calm i = true.
Proof.
  intros (flags & ds & rs & -> & _). unfold init_insts. rewrite !forallb_app, !calm_zip; done.
Qed.

Lemma pure_load_random r : pure_py (λ x, ∃ v, word v ∧ x = load_word r v) (load_random r).
Proof.
  unfold load_random. eapply pure_bind; [by apply pure_randint_word|]. intros v Hv. apply pure_ret. by exists v.
Qed.
Lemma pure_for_values {A} (P : A → Prop) (g : Z → A → insts) js f :
  (∀ j, pure_py (λ i, ∃ v, P v ∧ i = g j v) (f j)) →
  pure_py (λ i, ∃ vs, length vs = length js ∧ Forall P vs ∧ i = concat (zip_with g js vs)) (for_insts js f).
Proof.
  intros Hf. induction js as [|j js IH]; cbn [for_insts]; [apply pure_ret; by exists []|].
  eapply pure_bind; [apply Hf|]. intros l (v & Hv & ->). eapply pure_bind; [exact IH|]. intros ls (vs & Hl & Hvs & ->).
  apply pure_ret. exists (v :: vs). split; [cbn; by rewrite Hl|]. split; [by constructor|done].
Qed.

Lemma wp_genInitBlock s :
  lib_ready s →
  wp (genInitBlock true) (λ b s', b = new_id s 0 ∧ ∃ i, sets_registers i ∧ grown s [Mk_block PlainBlock (init_code i)] s') s.
Proof.
  intros Hs%grown_refl. unfold genInitBlock. grown_new. do 7 grown_app.
  grown_pure i0 H0 ltac:(apply pure_load_random). destruct H0 as (flags & Hw & ->). cbv zeta iota.
  grown_pure d Hd ltac:(apply (pure_for_values (λ p, word p.1 ∧ word p.2) load_double); intros j;
    eapply pure_bind; [apply pure_load_random|]; cbv beta; intros x (v & Hv & ->);
    eapply pure_bind; [apply pure_load_random|]; cbv beta; intros y (w & Hw' & ->); apply pure_ret; by exists (v, w)).
  destruct Hd as (ds & Hd1 & Hd2 & ->).
  grown_pure r Hr ltac:(apply (pure_for_values word (λ r v, [load_word r v])); intros j;
    eapply pure_bind; [apply pure_load_random|]; cbv beta; intros x (v & Hv & ->); apply pure_ret; by exists v).
  destruct Hr as (rs & Hr1 & Hr2 & ->).
  grown_app. apply wp_ret. split; [done|]. exists (init_insts flags ds rs). split; [|exact G]. by exists flags, ds, rs.
Qed.

(** The block after it; [d] holds the data sections. *)
Definition exit_code (d : nat) : list code_item :=
  [ATTR ".arm"; INST [("b", "exit"); (".ltorg", ""); (".space", "0x1000")]; LABEL "exit"; INST (report "0" "str_pass");
   LABEL "failexit"; INST (report "1" "str_fail"); LABEL "str_pass"; INST [(".string", quoted "Pass!")];
   LABEL "str_fail"; INST [(".string", quoted "Fail!")]; INST [(".ltorg", ""); (".space", "4096")];
   BLOCK d; INST [(".bss", ""); (".space", ALU_W_PC_VALID_SPACE_SIZE)];
   ATTR ("#gcc-opts " +:+ "-nostdlib -Wl,-Ttext=0x400000 -Wl,-Tdata=0x03fb0000 -Wl,-Tbss=" +:+ ALU_W_PC_VALID_BEG_ADDR)].

Definition exit_blocks (id : nat → nat) (rd bg bv : block) : list block :=
  Mk_block PlainBlock (exit_code (id 1%nat)) :: Mk_block PlainBlock (data_code (λ k, id (S k))) :: data_blocks rd bg bv.

Lemma wp_genExitBlock s :
  lib_ready s →
  wp genExitBlock (λ b s', b = new_id s 0 ∧ ∃ rd bg bv, rdata "ritdata" 0x18000 rd ∧ rdata "bv_general" 512 bg
    ∧ rdata "bv_vfp" 512 bv ∧ grown s (exit_blocks (new_id s) rd bg bv) s') s.
Proof.
  intros Hs%grown_refl. unfold genExitBlock. grown_new. do 11 grown_app.
  apply wp_bind. eapply wp_mono; [apply wp_genDataBlock, G|]. intros d s' (-> & rd & bg & bv & H1 & H2 & H3 & G').
  pose proof (grown_trans _ _ _ _ _ G G') as G''. rewrite (grown_id _ _ _ 0 G). cbn [length Nat.add].
  assert (∀ k, new_id s11 k = new_id s (S k)) as Ek by (intros k; by rewrite (grown_id _ _ _ k G)).
  clear G G'. cbn [app] in G''. do 3 grown_app. apply wp_ret. split; [done|]. exists rd, bg, bv. do 3 (split; [done|]).
  unfold data_code in G. rewrite (map_ext _ _ (λ k, f_equal BLOCK (Ek k))) in G. exact G.
Qed.
End parts.
