(* ===== verification/PyBlocks.v ===== *)
(** * The control flow of a test: art/randomblock.py

    A test is a tree of blocks: basic blocks, and structures (bypass, hammock,
    loop, irreducible loop, interworking, call, exclusive access, write of the
    program counter) whose parts are blocks again, down to a nesting level.
    [makeRandomBlock] of a structure creates the blocks of its parts, lets each
    make itself, generates the connecting instructions, links everything in its
    own code, and returns the basic blocks below it. *)
From S2P Require Import Prelude State V1State V1Api Driver PyBase PyCode PyEmit.
#[local] Open Scope Z_scope.

(** What [makeRandomBlock] returns: a list of basic blocks and, for the two arms
    of a hammock, pairs of such lists. *)
Inductive part :=
  | Leaf (b : nat)
  | Arms (l1 l2 : list part).

Section blocks.
Context `{Env : !RitEnv} `{Py : !PyEnv} (opts : art_options).

(** The constructors: a new object of the class for [kind]. *)
Definition new_RBlock (kind : RBType) (label : string) : art nat :=
  new_block (Mk_block (RBlock kind label 0 true) []).

Definition getRBlock (label : string) (nest : Z) : art nat :=
  if 0 <? nest then
    let rb := [RBasic; RByPass; RHammock; RLoop; RIrLoop; RInterwork; RCallRet]
      ++ (if opts.(opt_excl_block) then [RExclusive] else [])
      ++ (if opts.(opt_aluwpc_block) then [RALUwritePC] else []) in
    rb ← if 3 <? nest then rb ← remove_py RBasic rb; mret (remove_if_py RExclusive rb) else mret rb;
    rval ← choice_py rb;
    kind ← match rval with
           | RExclusive => r ← randint_py 0 100; mret (if r <? 30 then RExclusive else RBasic)
           | RALUwritePC => r ← randint_py 0 100; mret (if r <? 30 then RALUwritePC else RBasic)
           | _ => mret rval
           end;
    new_RBlock kind label
  else new_RBlock RBasic label.

(** [RBlock.makeRandomBlock]: the instruction set of the context. *)
Definition set_isARM (self : nat) : art unit :=
  isARM ← gets ISA;
  blk ← get_block self;
  match blk.(class_of) with
  | RBlock kind label instnum _ => set_block self (Mk_block (RBlock kind label instnum isARM) blk.(code))
  | _ => fail PyRaise
  end.

Definition set_nest (v : Z) : art unit := modify (with_nest v).
Definition flip_ISA : art unit := modify (λ s, with_ISA (negb s.(ISA)) s).

(** The methods of the classes; [make] is the method of the parts. *)
Section classes.
Context (make : nat → art (list part)).

Definition Basic_make (self : nat) : art (list part) :=
  set_isARM self ;;
  set_isARM self ;;
  label ← label_of self;
  modify (λ s, with_BB (<[label := None]> s.(BB)) s) ;;
  mret [Leaf self].

Definition ByPass_make (self : nat) : art (list part) :=
  set_isARM self ;;
  n ← gets nest; let nest := n - 1 in
  label ← label_of self;
  b1 ← getRBlock (label +:+ "_b1") nest;
  b2 ← getRBlock (label +:+ "_b2") nest;
  b3 ← getRBlock (label +:+ "_b3") nest;
  set_nest nest ;;
  sub1 ← make b1;
  sub2 ← make b2;
  sub3 ← make b3;
  isa ← gets ISA;
  l3 ← label_of b3;
  b_b3 ← genBranch isa l3 true None true (Some b2);
  append self (BLOCK b1) ;;
  append self (INST b_b3) ;;
  append self (BLOCK b2) ;;
  append self (BLOCK b3) ;;
  set_nest (nest + 1) ;;
  mret (sub1 ++ sub2 ++ sub3).

Definition Hammock_make (self : nat) : art (list part) :=
  set_isARM self ;;
  n ← gets nest; let nest := n - 1 in
  label ← label_of self;
  h1 ← getRBlock (label +:+ "_h1") nest;
  h2 ← getRBlock (label +:+ "_h2") nest;
  h3 ← getRBlock (label +:+ "_h3") nest;
  h4 ← getRBlock (label +:+ "_h4") nest;
  set_nest nest ;;
  sub1 ← make h1;
  sub2 ← make h2;
  sub3 ← make h3;
  sub4 ← make h4;
  isa ← gets ISA;
  l3 ← label_of h3;
  b_h3 ← genBranch isa l3 true None true (Some h2);
  l4 ← label_of h4;
  b_h4 ← genBranch isa l4 false None true (Some h3);
  append self (BLOCK h1) ;;
  append self (INST b_h3) ;;
  append self (BLOCK h2) ;;
  append self (INST b_h4) ;;
  append self (BLOCK h3) ;;
  append self (BLOCK h4) ;;
  set_nest (nest + 1) ;;
  mret (sub1 ++ [Arms sub2 sub3] ++ sub4).

Definition Loop_make (self : nat) : art (list part) :=
  set_isARM self ;;
  n ← gets nest; let nest := n - 1 in
  label ← label_of self;
  l1 ← getRBlock (label +:+ "_l1") nest;
  set_nest nest ;;
  sub1 ← make l1;
  isa ← gets ISA;
  t1 ← label_of l1;
  b_l1 ← genLoop isa t1;
  append self (BLOCK l1) ;;
  append self (INST b_l1) ;;
  set_nest (nest + 1) ;;
  mret sub1.

Definition IrLoop_make (self : nat) : art (list part) :=
  set_isARM self ;;
  n ← gets nest; let nest := n - 1 in
  label ← label_of self;
  ir1 ← getRBlock (label +:+ "_ir1") nest;
  ir2 ← getRBlock (label +:+ "_ir2") nest;
  ir3 ← getRBlock (label +:+ "_ir3") nest;
  set_nest nest ;;
  sub1 ← make ir1;
  sub2 ← make ir2;
  sub3 ← make ir3;
  isa ← gets ISA;
  t2 ← label_of ir2;
  b_ir2 ← genLoop isa t2;
  t3 ← label_of ir3;
  b_ir3 ← genBranch isa t3 true None false (Some ir2);
  append self (BLOCK ir1) ;;
  append self (INST b_ir3) ;;
  append self (BLOCK ir2) ;;
  append self (BLOCK ir3) ;;
  append self (INST b_ir2) ;;
  set_nest (nest + 1) ;;
  mret (sub1 ++ sub2 ++ sub3).

Definition Interwork_make (self : nat) : art (list part) :=
  set_isARM self ;;
  n ← gets nest; let nest := n - 1 in
  label ← label_of self;
  iw1 ← getRBlock (label +:+ "_iw1") nest;
  iw2 ← getRBlock (label +:+ "_iw2") nest;
  iw3 ← getRBlock (label +:+ "_iw3") nest;
  set_nest nest ;;
  sub1 ← make iw1;
  flip_ISA ;;
  sub2 ← make iw2;
  flip_ISA ;;
  sub3 ← make iw3;
  cond_bx ← choice_py [true; false];
  iw_followed ← choice_py [true; false];
  in_isa ← gets ISA;
  t1 ← label_of iw1; t2 ← label_of iw2; t3 ← label_of iw3;
  bx_1 ← genBX in_isa t2 cond_bx None;
  bx_2 ← genBX (negb in_isa) t1 cond_bx None;
  bx_3 ← genBX (negb in_isa) t3 false None;
  b ← genBranch in_isa t3 false None false None;
  set_nest (nest + 1) ;;
  append self (ATTR (isa_attr in_isa)) ;;
  if iw_followed : bool then
    append self (INST bx_1) ;;
    append self (INST b) ;;
    append self (BLOCK iw2) ;;
    append self (INST bx_2) ;;
    append self (INST bx_3) ;;
    append self (BLOCK iw1) ;;
    append self (BLOCK iw3) ;;
    mret (sub2 ++ sub1 ++ sub3)
  else
    append self (INST bx_1) ;;
    append self (BLOCK iw1) ;;
    append self (INST b) ;;
    append self (BLOCK iw2) ;;
    append self (INST bx_2) ;;
    append self (INST bx_3) ;;
    append self (BLOCK iw3) ;;
    mret (sub1 ++ sub2 ++ sub3).

Definition CallRet_make (self : nat) : art (list part) :=
  set_isARM self ;;
  n ← gets nest; let nest := n - 1 in
  label ← label_of self;
  c1 ← getRBlock (label +:+ "_c1") nest;
  c2 ← getRBlock (label +:+ "_c2") nest;
  c3 ← getRBlock (label +:+ "_c3") nest;
  set_nest nest ;;
  iwcall ← choice_py [true; false];
  callee_followed ← choice_py [true; false];
  begin_with_call ← choice_py [true; false];
  caller_isa ← gets ISA;
  let callee_isa := if iwcall : bool then negb caller_isa else caller_isa in
  t2 ← label_of c2;
  call ← genCall caller_isa callee_isa t2;
  sub1 ← make c1;
  when iwcall flip_ISA ;;
  pre_call ← getPreCalleeInsts;
  post_call ← getPostCalleeInsts;
  append c2 (INST pre_call) ;;
  sub2 ← make c2;
  when iwcall flip_ISA ;;
  sub3 ← make c3;
  set_nest (nest + 1) ;;
  append self (ATTR (isa_attr caller_isa)) ;;
  if callee_followed : bool then
    t1 ← label_of c1;
    b ← genBranch caller_isa t1 false None false None;
    when begin_with_call (append self (INST call)) ;;
    append self (INST b) ;;
    append self (BLOCK c2) ;;
    append self (INST post_call) ;;
    append self (BLOCK c1) ;;
    when (negb begin_with_call) (append self (INST call)) ;;
    append self (BLOCK c3) ;;
    mret (sub2 ++ sub1 ++ sub3)
  else
    t3 ← label_of c3;
    b ← genBranch caller_isa t3 false None false None;
    when begin_with_call (append self (INST call)) ;;
    append self (BLOCK c1) ;;
    when (negb begin_with_call) (append self (INST call)) ;;
    append self (INST b) ;;
    append self (BLOCK c2) ;;
    append self (INST post_call) ;;
    append self (BLOCK c3) ;;
    mret (sub1 ++ sub2 ++ sub3).

Definition Exclusive_make (self : nat) : art (list part) :=
  set_isARM self ;;
  condcode ← choice_py [true; false];
  n ← gets nest; let nest := n - 1 in
  label ← label_of self;
  e1 ← getRBlock (label +:+ "_e1") nest;
  e2 ← getRBlock (label +:+ "_e2") nest;
  set_nest nest ;;
  sub1 ← make e1;
  isa ← gets ISA;
  '(e_l, ExclSize) ← genLDREX isa condcode label None None;
  e_s ← genSTREX isa condcode label (Some ExclSize) None;
  sub2 ← make e2;
  append self (BLOCK e1) ;;
  append self (INST e_l) ;;
  append self (INST e_s) ;;
  append self (BLOCK e2) ;;
  set_nest (nest + 1) ;;
  mret (sub1 ++ sub2).

Definition ALUwritePC_make (self : nat) : art (list part) :=
  set_isARM self ;;
  n ← gets nest; let nest := n - 1 in
  label ← label_of self;
  preB ← getRBlock (label +:+ "_aluwpc1") nest;
  postB ← getRBlock (label +:+ "_aluwpc2") nest;
  set_nest nest ;;
  sub1 ← make preB;
  aluwpcB ← genALUwritePC opts.(opt_maxretry) label true;
  sub2 ← make postB;
  append self (BLOCK preB) ;;
  append self (INST aluwpcB) ;;
  append self (BLOCK postB) ;;
  set_nest (nest + 1) ;;
  mret (sub1 ++ sub2).

Definition class_make (kind : RBType) : nat → art (list part) :=
  match kind with
  | RBasic => Basic_make
  | RByPass => ByPass_make
  | RHammock => Hammock_make
  | RLoop => Loop_make
  | RIrLoop => IrLoop_make
  | RInterwork => Interwork_make
  | RCallRet => CallRet_make
  | RExclusive => Exclusive_make
  | RALUwritePC => ALUwritePC_make
  end.
End classes.

(** The method of the class of the object.  The parts of a structure are one
    level less nested; the rounds are the levels. *)
Fixpoint makeRandomBlock (fuel : nat) (self : nat) : art (list part) :=
  match fuel with
  | O => fail OutOfFuel
  | S fuel =>
      blk ← get_block self;
      match blk.(class_of) with
      | RBlock kind _ _ _ => class_make (makeRandomBlock fuel) kind self
      | _ => fail PyRaise
      end
  end.
End blocks.
