(* ===== verification/PyMake.v ===== *)
(** * makeRandomBlock makes a tree

    The specification of the method of the block classes: from a new block object
    it ends without an exception, and the objects that it leaves in the store are
    a well-formed tree below that block.  The program logic keeps track of the
    parts of a structure: which are created, which are made. *)
From Stdlib Require Import Ascii.
From S2P Require Import Prelude RitCommon InstrTable State RandomInstrGen Keeps Output Loop Api ParseRIT V1State V1Api Driver PyBase PyCode PyTree PyEmit PyEmitSpec PyAlu PyBlocks.
#[local] Open Scope Z_scope.

(** ** 1. Trees by their parts *)

Definition item_subs (it : item rtree) : list rtree := match it with Sub t => [t] | _ => [] end.
Definition subs (its : list (item rtree)) : list rtree := flat_map item_subs its.

Lemma nodes_subs t : nodes t = t :: flat_map nodes (subs (t_items t)).
Proof.
  rewrite nodes_eq. f_equal. unfold subs. induction (t_items t) as [|it l IH]; [done|]. cbn [flat_map].
  rewrite flat_map_app, IH. f_equal. destruct it; cbn; by rewrite ?app_nil_r.
Qed.
Lemma ids_subs t : ids t = t_id t :: flat_map ids (subs (t_items t)).
Proof.
  unfold ids. rewrite nodes_subs. cbn [map]. f_equal. induction (subs (t_items t)) as [|x l IH]; [done|]. cbn. by rewrite map_app, IH.
Qed.
Lemma leaves_subs t : t_kind t ≠ RBasic → leaves t = flat_map leaves (subs (t_items t)).
Proof.
  intros Hk. unfold leaves. rewrite nodes_subs. rewrite filter_cons_False by done.
  induction (subs (t_items t)) as [|x l IH]; [done|]. cbn. by rewrite filter_app, IH.
Qed.
Lemma represents_subs st t :
  represents st t ↔ st !! t_id t = Some (block_of t) ∧ Forall (represents st) (subs (t_items t)).
Proof.
  unfold represents. rewrite nodes_subs, Forall_cons. f_equiv.
  induction (subs (t_items t)) as [|x l IH]; [done|]. cbn [flat_map]. by rewrite Forall_app, Forall_cons, IH.
Qed.

(** The basic blocks in the result of [makeRandomBlock]. *)
Fixpoint part_ids (p : part) : list nat :=
  match p with
  | Leaf b => [b]
  | Arms l1 l2 => flat_map part_ids l1 ++ flat_map part_ids l2
  end.
Definition parts_ids (l : list part) : list nat := flat_map part_ids l.

(** ** 2. Well-formed trees *)

Section make.
Context `{Env : !RitEnv} `{Py : !PyEnv} (opts : art_options).

Definition code_closed (it : item rtree) : Prop := match it with Code i => it_closed [] i = true | _ => True end.

(** The counter of a loop and the return address of a call are kept in slots of
    the level of the parts. *)
Definition starts_with (pre : list insts) (t : rtree) : Prop := ∃ its, t_items t = map Code pre ++ its.
Definition slots (t : rtree) : Prop :=
  match t_kind t with
  | RLoop | RIrLoop =>
      ∃ i t', Code i ∈ t_items t ∧ Sub t' ∈ t_items t ∧ loop_code (t_isARM t) (t_level t - 1) (t_label t') i
  | RCallRet =>
      ∃ pre post t', Code post ∈ t_items t ∧ Sub t' ∈ t_items t ∧ starts_with [pre] t'
        ∧ pre_callee (t_level t - 1) pre ∧ post_callee (t_level t - 1) post
  | _ => True
  end.

Record node_wf (t : rtree) : Prop := {
  nw_names : names_wf t;
  nw_modes : modes_wf inst_ok t;
  nw_basic : t_kind t = RBasic → subs (t_items t) = [];
  nw_level : t_kind t ≠ RBasic → 0 < t_level t ∧ Forall (λ t', t_level t' = t_level t - 1) (subs (t_items t));
  nw_order : Forall (λ t', t_id t < t_id t')%nat (subs (t_items t));
  nw_closed : Forall code_closed (t_items t);
  nw_slots : slots t
}.
Definition tree_wf (t : rtree) : Prop := Forall node_wf (nodes t).

(** A tree in which a block may be limited: it is a Thumb structure of at least
    three basic blocks, or has at least five. *)
Definition lim (t : rtree) : Prop := t_isARM t = false ∧ (3 ≤ length (leaves t))%nat ∨ (5 ≤ length (leaves t))%nat.

(** The dictionary of basic blocks grows by those of [ts]; [L] if there may be
    new limits. *)
Definition leaf_labels (ts : list rtree) : list string := flat_map (λ t, map t_label (leaves t)) ts.
Record bb_ok (L : Prop) (B : gmap string (option Z)) (ts : list rtree) (B' : gmap string (option Z)) : Prop := {
  bb_dom : ∀ l, is_Some (B' !! l) ↔ is_Some (B !! l) ∨ l ∈ leaf_labels ts;
  bb_lim : ∀ l v, B' !! l = Some (Some v) → B !! l = Some (Some v) ∨ v = 32 ∧ L
}.

(** What a made block is. *)
Record made_tree (s : art_state) (t : rtree) (s' : art_state) : Prop := {
  mt_repr : represents s'.(store) t;
  mt_wf : tree_wf t;
  mt_some : (1 ≤ length (leaves t))%nat;
  mt_nodup : NoDup (ids t);
  mt_ids : Forall (λ i, i = t_id t ∨ length s.(store) ≤ i < length s'.(store))%nat (ids t);
  mt_nest : s'.(nest) = s.(nest);
  mt_ISA : s'.(ISA) = s.(ISA);
  mt_reg : s'.(REGALLOC) = s.(REGALLOC);
  mt_lib : lib_ready s';
  mt_len : (length s.(store) ≤ length s'.(store))%nat;
  mt_old : ∀ i, (i < length s.(store))%nat → i ≠ t_id t → s'.(store) !! i = s.(store) !! i;
  mt_bb : bb_ok (lim t) s.(BB) [t] s'.(BB)
}.
Definition made (s : art_state) (self : nat) (label : string) (pre : list insts) (r : list part) (s' : art_state) : Prop :=
  ∃ t, t_id t = self ∧ t_label t = label ∧ t_isARM t = s.(ISA) ∧ t_level t = s.(nest) ∧ starts_with pre t
    ∧ parts_ids r = map t_id (leaves t) ∧ made_tree s t s'.

(** A new block object, possibly with instructions of its caller. *)
Record fresh_block (s : art_state) (self : nat) (k : RBType) (label : string) (pre : list insts) : Prop := {
  fb_store : ∃ b, s.(store) !! self = Some (Mk_block (RBlock k label 0 b) (map INST pre));
  fb_pre : Forall (emitted s.(ISA) []) pre;
  fb_label : rit_label label;
  fb_kind : k = RBasic ∨ 0 < s.(nest);
  fb_lib : lib_ready s
}.
Definition make_spec (make : nat → art (list part)) (n : Z) : Prop :=
  ∀ s self k label pre, fresh_block s self k label pre → s.(nest) = n → wp (make self) (made s self label pre) s.

(** ** 3. The state in the middle of a structure *)

(** [n] and [a] are the nesting level and the instruction set of the context,
    [blk] the object of the structure, [todo] its parts that are created and
    [done] those that are made; [own] if the structure limited a block. *)
Record ws (s0 : art_state) (self : nat) (blk : block) (lvl n : Z) (a : bool) (own : Prop)
    (todo : list (nat * string * list insts)) (done : list rtree) (s : art_state) : Prop := {
  ws_self : s.(store) !! self = Some blk;
  ws_nest : s.(nest) = n;
  ws_ISA : s.(ISA) = a;
  ws_reg : s.(REGALLOC) = s0.(REGALLOC);
  ws_lib : lib_ready s;
  ws_in : (self < length s0.(store))%nat;
  ws_len : (length s0.(store) ≤ length s.(store))%nat;
  ws_old : ∀ i, (i < length s0.(store))%nat → i ≠ self → s.(store) !! i = s0.(store) !! i;
  ws_todo : Forall (λ e, (length s0.(store) ≤ e.1.1)%nat ∧ rit_label e.1.2 ∧ ∃ k b,
              s.(store) !! e.1.1 = Some (Mk_block (RBlock k e.1.2 0 b) (map INST e.2)) ∧ (k = RBasic ∨ 0 < lvl)) todo;
  ws_done : Forall (λ t, represents s.(store) t ∧ tree_wf t ∧ (1 ≤ length (leaves t))%nat ∧ t_level t = lvl
              ∧ Forall (λ i, length s0.(store) ≤ i < length s.(store))%nat (ids t)) done;
  ws_ids : NoDup (map (fst ∘ fst) todo ++ flat_map ids done);
  ws_bb : bb_ok (own ∨ Exists lim done) s0.(BB) done s.(BB)
}.

Lemma bb_ok_refl L B : bb_ok L B [] B.
Proof. split; [|by left]. intros l. split; [by left|]. by intros [?|?%elem_of_nil]. Qed.

Lemma represents_agree st st' t :
  represents st t → (∀ i, i ∈ ids t → st' !! i = st !! i) → represents st' t.
Proof.
  unfold represents, ids. intros H Ha. rewrite Forall_forall in *. intros n Hn. rewrite Ha; [by apply H|].
  by apply list_elem_of_fmap_2.
Qed.

(** *** Rules *)

Section rules.
Context (s0 : art_state) (self : nat) (blk : block) (lvl n : Z) (a : bool) (own : Prop).
Context (todo : list (nat * string * list insts)) (done_ : list rtree).
Implicit Types s : art_state.

Lemma ws_same s s' :
  ws s0 self blk lvl n a own todo done_ s → same_ctx s s' → lib_ready s' → ws s0 self blk lvl n a own todo done_ s'.
Proof. intros [] E Hl. rewrite E. split; try done. Qed.

Lemma ws_ids_bound s i :
  ws s0 self blk lvl n a own todo done_ s → i ∈ map (fst ∘ fst) todo ++ flat_map ids done_ →
  (length s0.(store) ≤ i < length s.(store))%nat ∧ i ≠ self.
Proof.
  intros W. assert ((length s0.(store) ≤ i < length s.(store))%nat → i ≠ self) as Hne by (pose proof (ws_in _ _ _ _ _ _ _ _ _ _ W); lia).
  intros [Hi|Hi]%elem_of_app; (split; [|apply Hne]).
  1,2: apply list_elem_of_fmap in Hi as (e & -> & He); pose proof (ws_todo _ _ _ _ _ _ _ _ _ _ W) as H;
    rewrite Forall_forall in H; destruct (H e He) as (H1 & _ & k & b & E & _); split; [done|by eapply lookup_lt_Some].
  1,2: apply list_elem_of_In, in_flat_map in Hi as (t & Ht%list_elem_of_In & Hi%list_elem_of_In);
    pose proof (ws_done _ _ _ _ _ _ _ _ _ _ W) as H; rewrite Forall_forall in H; destruct (H t Ht) as (_ & _ & _ & _ & Hb);
    rewrite Forall_forall in Hb; by apply Hb.
Qed.

Lemma ws_new k l s :
  ws s0 self blk lvl n a own todo done_ s → rit_label l → k = RBasic ∨ 0 < lvl →
  ws s0 self blk lvl n a own (todo ++ [(length s.(store), l, [])]) done_
    (with_store (s.(store) ++ [Mk_block (RBlock k l 0 true) []]) s).
Proof.
  intros W Hl Hk. pose proof (λ i, ws_ids_bound s i W) as Hb.
  destruct W as [Hs Hn Ha Hr Hlib Hin Hlen Hold Htodo Hdone Hids Hbb].
  assert (∀ i b, s.(store) !! i = Some b → (s.(store) ++ [Mk_block (RBlock k l 0 true) []]) !! i = Some b) as Hkeep
    by (intros i b E; by apply lookup_app_l_Some).
  split; cbn; try done.
  - by apply Hkeep.
  - rewrite length_app. lia.
  - intros i Hi Hne. rewrite lookup_app_l by lia. by apply Hold.
  - apply Forall_app. split.
    + eapply Forall_impl; [exact Htodo|]. intros e (H1 & H2 & k' & b & E & H3). split; [done|]. split; [done|].
      exists k', b. split; [by apply Hkeep|done].
    + apply Forall_singleton. cbn. split; [done|]. split; [done|]. exists k, true.
      split; [|done]. rewrite lookup_app_r, Nat.sub_diag by lia. done.
  - eapply Forall_impl; [exact Hdone|]. intros t (H1 & H2 & H3 & H4 & H5). split_and!; try done.
    + eapply represents_agree; [exact H1|]. intros i Hi. rewrite Forall_forall in H5. apply lookup_app_l. by apply H5.
    + eapply Forall_impl; [exact H5|]. cbn. intros i Hi. rewrite length_app. lia.
  - rewrite map_app, <- app_assoc. apply NoDup_app in Hids as (N1 & N2 & N3).
    apply NoDup_app. split; [done|]. split; [|cbn; apply NoDup_cons; split; [|done]].
    + intros i Hi. cbn. intros [-> |Hi']%elem_of_cons; [|by apply (N2 i)].
      destruct (Hb (length s.(store))) as [? _]; [apply elem_of_app; by left|lia].
    + intros Hi. destruct (Hb (length s.(store))) as [? _]; [apply elem_of_app; by right|lia].
Qed.

Lemma ws_getRBlock l s :
  ws s0 self blk lvl n a own todo done_ s → rit_label l →
  wp (getRBlock opts l lvl) (λ c s', ws s0 self blk lvl n a own (todo ++ [(c, l, [])]) done_ s') s.
Proof.
  intros W Hl. unfold getRBlock. destruct (Z.ltb_spec 0 lvl) as [Hp|Hp]; [|by apply (ws_new RBasic); [|done|left]].
  set (rb := [RBasic; RByPass; RHammock; RLoop; RIrLoop; RInterwork; RCallRet] ++ _).
  apply wp_bind. eapply (wp_pure (λ l, l ≠ [])); [|apply W|].
  { destruct (3 <? lvl); [|by apply pure_ret]. eapply (pure_bind (λ l, RByPass ∈ l)).
    - subst rb. eapply pure_mono; [|apply pure_remove; by left]. cbv beta. intros l' Hp'.
      assert (RByPass ∈ RBasic :: l') as [?|?]%elem_of_cons by (rewrite <- Hp'; right; by left); done.
    - intros l' Hl'. apply pure_ret. unfold remove_if_py. destruct (decide (RExclusive ∈ l')) as [Hx|Hx].
      + destruct (list_remove_spec _ _ Hx) as (l'' & -> & Hp'). cbn. intros ->. rewrite Hp' in Hl'.
        by apply list_elem_of_singleton in Hl'.
      + rewrite list_remove_none by done. cbn. intros ->. by apply elem_of_nil in Hl'. }
  intros rb' d Hrb Hd. apply wp_bind. eapply wp_pure; [by apply pure_choice|done|]. intros rval d1 _ Hd1.
  apply wp_bind. eapply (wp_pure (λ _, True)); [|done|].
  { destruct rval; try by apply pure_ret; apply I.
    all: eapply pure_bind; [by apply pure_randint|]; intros; by apply pure_ret. }
  intros kind d2 _ Hd2. apply (ws_new kind); [|done|by right]. eapply ws_same; [exact W|done|done].
Qed.

Lemma bb_ok_compose (L1 L2 L : Prop) B ts B' t B'' :
  bb_ok L1 B ts B' → bb_ok L2 B' [t] B'' → (L1 ∨ L2 → L) → bb_ok L B (ts ++ [t]) B''.
Proof.
  intros [D1 V1] [D2 V2] HL. split.
  - intros l. unfold leaf_labels in *. rewrite D2, D1, flat_map_app, elem_of_app. tauto.
  - intros l v E. destruct (V2 l v E) as [E'|[-> HL2]]; [|auto]. destruct (V1 l v E') as [?|[-> HL1]]; auto.
Qed.

(** Making the first part that is not made. *)
Lemma ws_make (make : nat → art (list part)) c l pre s :
  make_spec make n → lvl = n →
  ws s0 self blk lvl n a own ((c, l, pre) :: todo) done_ s → Forall (emitted a []) pre →
  wp (make c) (λ r s', ∃ t, parts_ids r = map t_id (leaves t) ∧ t_id t = c ∧ t_label t = l ∧ t_isARM t = a
    ∧ starts_with pre t ∧ ws s0 self blk lvl n a own todo (done_ ++ [t]) s') s.
Proof.
  intros Hmake Hlvl W Hpre.
  destruct W as [Hs Hn Ha Hr Hlib Hin Hlen Hold Htodo Hdone Hids Hbb].
  apply Forall_cons in Htodo as [(Hc & Hl & k & b & Ec & Hk) Htodo]. cbn [fst snd] in *.
  eapply wp_mono; [apply (Hmake s c k l pre); [|done]|].
  { split; [by exists b|by rewrite Ha|done|by rewrite Hn, <- Hlvl|done]. }
  intros r s' (t & Eid & El & Ea & Elv & Epre & Er & [R Wf So Nd Ib N I Rg Lb Ln Od Bb]).
  cbn [map app] in Hids. apply NoDup_cons in Hids as [Hnc Hids].
  change ((fst ∘ fst) (c, l, pre)) with c in Hnc.
  exists t. split; [done|]. split; [done|]. split; [done|]. split; [by rewrite Ea|]. split; [done|].
  assert (∀ i, (i < length s.(store))%nat → i ≠ c → s'.(store) !! i = s.(store) !! i) as Hsame by (rewrite Eid in Od; done).
  assert (∀ i, i ∈ map (fst ∘ fst) todo ++ flat_map ids done_ → (i < length s.(store))%nat ∧ i ≠ c) as Hb.
  { intros i Hi. split; [|by intros ->]. apply elem_of_app in Hi as [Hi|Hi].
    - apply list_elem_of_fmap in Hi as (e & -> & He). rewrite Forall_forall in Htodo.
      destruct (Htodo e He) as (_ & _ & k' & b' & E & _). by eapply lookup_lt_Some.
    - apply list_elem_of_In, in_flat_map in Hi as (t' & Ht%list_elem_of_In & Hi%list_elem_of_In).
      rewrite Forall_forall in Hdone. destruct (Hdone t' Ht) as (_ & _ & _ & _ & H5). rewrite Forall_forall in H5. by apply H5. }
  assert (self < length s.(store))%nat as Hself by by eapply lookup_lt_Some.
  split; try done.
  - rewrite Hsame; [done|done|lia].
  - by rewrite N.
  - by rewrite I.
  - by rewrite Rg.
  - lia.
  - intros i Hi Hne. rewrite Hsame by lia. by apply Hold.
  - rewrite Forall_forall in Htodo. apply Forall_forall. intros e He. destruct (Htodo e He) as (H1 & H2 & k' & b' & E & H3).
    split; [done|]. split; [done|]. exists k', b'. split; [|done].
    destruct (Hb e.1.1) as [? ?]; [apply elem_of_app; left; by apply list_elem_of_fmap_2 with (f := fst ∘ fst)|].
    by rewrite Hsame.
  - apply Forall_app. split; [|apply Forall_singleton].
    + rewrite Forall_forall in Hdone. apply Forall_forall. intros t' Ht. destruct (Hdone t' Ht) as (H1 & H2 & H3 & H4 & H5).
      split_and!; try done.
      * eapply represents_agree; [exact H1|]. intros i Hi. apply Hsame; apply Hb, elem_of_app; right;
          apply list_elem_of_In, in_flat_map; exists t'; split; by apply list_elem_of_In.
      * eapply Forall_impl; [exact H5|]. cbn. intros i Hi. lia.
    + split_and!; try done; [by rewrite Elv, Hn|]. eapply Forall_impl; [exact Ib|]. cbn. intros i [-> |Hi]; [|lia].
      rewrite Eid. split; [done|]. apply lookup_lt_Some in Ec. lia.
  - rewrite flat_map_app, app_assoc. cbn [flat_map]. rewrite app_nil_r. apply NoDup_app. split; [done|]. split; [|done].
    intros i Hi Hi'. rewrite Forall_forall in Ib. destruct (Hb i Hi) as [H1 H2]. destruct (Ib i Hi') as [H|H]; [by rewrite Eid in H|lia].
  - eapply bb_ok_compose; [exact Hbb|exact Bb|]. intros [[?|?]|?]; [by left|..]; right; apply Exists_app; [by left|right; by apply Exists_cons_hd].
Qed.
End rules.

(** The other steps. *)
Section steps.
Context (s0 : art_state) (self : nat) (lvl : Z).
Implicit Types s : art_state.

Lemma ws_pure {A} (P : A → Prop) (m : art A) blk n a own todo done_ s Q :
  pure_py P m → ws s0 self blk lvl n a own todo done_ s →
  (∀ v s', P v → ws s0 self blk lvl n a own todo done_ s' → Q v s') → wp m Q s.
Proof.
  intros Hm W HQ. eapply wp_pure; [exact Hm|apply W|]. intros v d Hv Hd. apply HQ; [done|]. by eapply ws_same; [exact W|..].
Qed.

Lemma ws_set_nest v blk n a own todo done_ s Q :
  ws s0 self blk lvl n a own todo done_ s → (∀ s', ws s0 self blk lvl v a own todo done_ s' → Q tt s') → wp (set_nest v) Q s.
Proof. intros [] HQ. apply wp_modify, HQ. by split. Qed.

Lemma ws_flip_ISA blk n a own todo done_ s Q :
  ws s0 self blk lvl n a own todo done_ s → (∀ s', ws s0 self blk lvl n (negb a) own todo done_ s' → Q tt s') → wp flip_ISA Q s.
Proof. intros [? ? Ha] HQ. apply wp_modify, HQ. split; try done. cbn. by rewrite Ha. Qed.

Lemma ws_label_self k l i a' c n a own todo done_ s Q :
  ws s0 self (Mk_block (RBlock k l i a') c) lvl n a own todo done_ s → Q l s → wp (label_of self) Q s.
Proof. intros W. apply wp_label_of. eexists _, _, _, _. apply W. Qed.

Lemma ws_label_todo e blk n a own todo done_ s Q :
  ws s0 self blk lvl n a own todo done_ s → e ∈ todo → Q e.1.2 s → wp (label_of e.1.1) Q s.
Proof.
  intros W He. apply wp_label_of. pose proof (ws_todo _ _ _ _ _ _ _ _ _ _ W) as H. rewrite Forall_forall in H.
  destruct (H e He) as (_ & _ & k & b & E & _). by eexists _, _, _, _.
Qed.

Lemma ws_labelled t blk n a own todo done_ s :
  ws s0 self blk lvl n a own todo done_ s → t ∈ done_ → labelled s (t_id t) (t_label t).
Proof.
  intros W Ht. pose proof (ws_done _ _ _ _ _ _ _ _ _ _ W) as H. rewrite Forall_forall in H.
  destruct (H t Ht) as (R & _). apply represents_subs in R as [R _]. by eexists _, _, _, _.
Qed.
Lemma ws_label_done t blk n a own todo done_ s Q :
  ws s0 self blk lvl n a own todo done_ s → t ∈ done_ → Q (t_label t) s → wp (label_of (t_id t)) Q s.
Proof. intros W Ht. apply wp_label_of. by eapply ws_labelled. Qed.

(** Changing the object itself, and appending to it or to a part that is not made. *)
Lemma ws_set_self blk' blk n a own todo done_ s :
  ws s0 self blk lvl n a own todo done_ s → ws s0 self blk' lvl n a own todo done_ (with_store (<[self := blk']> s.(store)) s).
Proof.
  intros W. pose proof (λ i, ws_ids_bound _ _ _ _ _ _ _ _ _ s i W) as Hb.
  destruct W as [Hs Hn Ha Hr Hlib Hin Hlen Hold Htodo Hdone Hids Hbb].
  assert (∀ i, i ≠ self → <[self := blk']> s.(store) !! i = s.(store) !! i) as Hne
    by (intros i Hi; by rewrite list_lookup_insert_ne).
  split; cbn; try done.
  - apply list_lookup_insert_eq. by eapply lookup_lt_Some.
  - by rewrite length_insert.
  - intros i Hi Hi'. rewrite Hne by done. by apply Hold.
  - rewrite Forall_forall in Htodo. apply Forall_forall. intros e He. destruct (Htodo e He) as (H1 & H2 & k & b & E & H3).
    split; [done|]. split; [done|]. exists k, b. split; [|done]. rewrite Hne; [done|lia].
  - rewrite Forall_forall in Hdone. apply Forall_forall. intros t Ht. destruct (Hdone t Ht) as (H1 & H2 & H3 & H4 & H5).
    split_and!; try done; [|by rewrite length_insert]. eapply represents_agree; [exact H1|].
    intros i Hi. apply Hne. rewrite Forall_forall in H5. specialize (H5 i Hi). lia.
Qed.

Lemma ws_append item cls c n a own todo done_ s Q :
  ws s0 self (Mk_block cls c) lvl n a own todo done_ s →
  (∀ s', ws s0 self (Mk_block cls (c ++ [item])) lvl n a own todo done_ s' → Q tt s') → wp (append self item) Q s.
Proof.
  intros W HQ. unfold append, get_block, set_block, wp, mbind, M_bind, modify.
  rewrite (ws_self _ _ _ _ _ _ _ _ _ _ W). by apply HQ, ws_set_self with (1 := W).
Qed.

Lemma ws_set_isARM k l i b c n a own todo done_ s Q :
  ws s0 self (Mk_block (RBlock k l i b) c) lvl n a own todo done_ s →
  (∀ s', ws s0 self (Mk_block (RBlock k l i a) c) lvl n a own todo done_ s' → Q tt s') → wp (set_isARM self) Q s.
Proof.
  intros W HQ. unfold set_isARM, get_block, set_block, wp, mbind, M_bind, gets, modify.
  rewrite (ws_self _ _ _ _ _ _ _ _ _ _ W), (ws_ISA _ _ _ _ _ _ _ _ _ _ W). by apply HQ, ws_set_self with (1 := W).
Qed.

Lemma ws_append_todo i c l pre blk n a own todo done_ s Q :
  ws s0 self blk lvl n a own ((c, l, pre) :: todo) done_ s →
  (∀ s', ws s0 self blk lvl n a own ((c, l, pre ++ [i]) :: todo) done_ s' → Q tt s') → wp (append c (INST i)) Q s.
Proof.
  intros W HQ. pose proof (λ i, ws_ids_bound _ _ _ _ _ _ _ _ _ s i W) as Hb.
  destruct W as [Hs Hn Ha Hr Hlib Hin Hlen Hold Htodo Hdone Hids Hbb].
  apply Forall_cons in Htodo as [(Hc & Hl & k & b & Ec & Hk) Htodo]. cbn [fst snd] in *.
  unfold append, get_block, set_block, wp, mbind, M_bind, modify. rewrite Ec. apply HQ. cbn [class_of code].
  set (blk' := Mk_block _ _).
  assert (∀ i, i ≠ c → <[c := blk']> s.(store) !! i = s.(store) !! i) as Hne
    by (intros j Hj; by rewrite list_lookup_insert_ne).
  cbn [map app] in Hids. pose proof Hids as [Hnc Hids']%NoDup_cons. change ((fst ∘ fst) (c, l, pre)) with c in Hnc.
  split; cbn; try done.
  - rewrite Hne; [done|lia].
  - by rewrite length_insert.
  - intros j Hj Hj'. rewrite Hne by lia. by apply Hold.
  - apply Forall_cons. split.
    + cbn. split; [done|]. split; [done|]. exists k, b. split; [|done].
      rewrite list_lookup_insert_eq by by eapply lookup_lt_Some. unfold blk'. by rewrite map_app.
    + rewrite Forall_forall in Htodo. apply Forall_forall. intros e He. destruct (Htodo e He) as (H1 & H2 & k' & b' & E & H3).
      split; [done|]. split; [done|]. exists k', b'. split; [|done]. rewrite Hne; [done|]. intros Ee. apply Hnc, elem_of_app.
      left. rewrite <- Ee. by apply list_elem_of_fmap_2 with (f := fst ∘ fst).
  - rewrite Forall_forall in Hdone. apply Forall_forall. intros t Ht. destruct (Hdone t Ht) as (H1 & H2 & H3 & H4 & H5).
    split_and!; try done; [|by rewrite length_insert]. eapply represents_agree; [exact H1|].
    intros j Hj. apply Hne. intros ->. apply Hnc, elem_of_app. right. apply list_elem_of_In, in_flat_map. exists t.
    split; by apply list_elem_of_In.
Qed.

(** A branch over a part that is made. *)
Lemma ws_genBranch isARM target b forward off blk n a own todo done_ s Q :
  ws s0 self blk lvl n a own todo done_ s → rit_label target →
  match off with Some c => lvl = n ∧ ∃ t, t ∈ done_ ∧ c = t_id t | None => True end →
  (∀ i s', emitted isARM [] i → ws s0 self blk lvl n a (own ∨ limits isARM b forward n = true) todo done_ s' → Q i s') →
  wp (genBranch isARM target b None forward off) Q s.
Proof.
  intros W Ht Hoff HQ.
  assert (∀ t, lvl = n → t ∈ done_ → limits isARM b forward n = true → t_label t ∈ leaf_labels done_) as Hleaf.
  { intros t Hlvl Hin Hlim. pose proof (ws_done _ _ _ _ _ _ _ _ _ _ W) as H. rewrite Forall_forall in H.
    destruct (H t Hin) as (_ & Hwf & _ & Hlv & _). unfold tree_wf in Hwf. rewrite nodes_subs in Hwf.
    apply Forall_cons in Hwf as [Hwf _]. destruct (decide (t_kind t = RBasic)) as [Hk|Hk].
    - apply list_elem_of_In, in_flat_map. exists t. split; [by apply list_elem_of_In|]. apply list_elem_of_In.
      apply list_elem_of_fmap_2 with (f := t_label). unfold leaves. rewrite nodes_subs, filter_cons_True by done. by left.
    - destruct (nw_level t Hwf Hk) as [? _]. unfold limits in Hlim. rewrite !andb_true_iff, Z.leb_le in Hlim. lia. }
  destruct off as [c|].
  - destruct Hoff as (Hlvl & t & Hin & ->). eapply wp_mono; [apply (wp_genBranch _ _ _ _ _ (t_label t)); [apply W|done|]|].
    { split; [by eapply ws_labelled|]. rewrite (ws_nest _ _ _ _ _ _ _ _ _ _ W). intros Hlim.
      apply (bb_dom _ _ _ _ (ws_bb _ _ _ _ _ _ _ _ _ _ W)). right. by apply Hleaf. }
    intros i s' (Hi & Hs' & E). apply HQ; [done|]. rewrite (ws_nest _ _ _ _ _ _ _ _ _ _ W), andb_true_r in E.
    assert (ws s0 self blk lvl n a (own ∨ limits isARM b forward n = true) todo done_
      (if limits isARM b forward n then limited (t_label t) s else s)) as W'; [|by eapply ws_same].
    destruct W as [Hs Hn Ha Hr Hlib Hinn Hlen Hold Htodo Hdone Hids [Hd Hl]].
    destruct (limits isARM b forward n); (split; try done); cbn.
    + split.
      * intros l. rewrite <- Hd. destruct (decide (l = t_label t)) as [-> |Hne].
        -- rewrite lookup_insert_eq, Hd. split; [intros _; right; by apply Hleaf|done].
        -- by rewrite lookup_insert_ne.
      * intros l v. destruct (decide (l = t_label t)) as [-> |Hne].
        -- rewrite lookup_insert_eq. intros [= <-]. right. split; [done|]. left. by right.
        -- rewrite lookup_insert_ne by done. intros [?|[? ?]]%Hl; [by left|right; tauto].
    + split; [done|]. intros l v [?|[? ?]]%Hl; [by left|right; tauto].
  - eapply wp_mono; [by apply (wp_genBranch _ _ _ _ None ""); [apply W|..]|].
    intros i s' (Hi & Hs' & E). apply HQ; [done|]. rewrite andb_false_r in E. eapply ws_same; [|exact E|done].
    destruct W as [Hs Hn Ha Hr Hlib Hin Hlen Hold Htodo Hdone Hids [Hd Hl]].
    split; try done. split; [done|]. intros l v [?|[? ?]]%Hl; [by left|right; tauto].
Qed.

Lemma ws_start k label pre s :
  fresh_block s self k label pre → s = s0 →
  wp (set_isARM self) (λ _ s', ws s0 self (Mk_block (RBlock k label 0 s0.(ISA)) (map INST pre)) lvl s0.(nest) s0.(ISA) False [] [] s') s.
Proof.
  intros [[b Hst] Hpre Hlab Hk Hlib] ->. unfold set_isARM, get_block, set_block, wp, mbind, M_bind, gets, modify.
  rewrite Hst. cbn [class_of code]. pose proof (lookup_lt_Some _ _ _ Hst) as Hlt. split; cbn; try done.
  - by apply list_lookup_insert_eq.
  - by rewrite length_insert.
  - intros i Hi Hne. by rewrite list_lookup_insert_ne.
  - constructor.
  - apply bb_ok_refl.
Qed.
End steps.

(** *** The end *)

Lemma length_leaves_ge ts :
  Forall (λ t, 1 ≤ length (leaves t))%nat ts → (length ts ≤ length (flat_map leaves ts))%nat.
Proof. induction 1; [done|]. cbn. rewrite length_app. lia. Qed.
Lemma length_leaves_in t ts :
  Forall (λ t, 1 ≤ length (leaves t))%nat ts → t ∈ ts →
  (length (leaves t) + (length ts - 1) ≤ length (flat_map leaves ts))%nat.
Proof.
  intros H [ts' Hp]%elem_of_Permutation. rewrite Hp in H. apply Forall_cons in H as [_ H].
  assert (length (flat_map leaves ts) = length (flat_map leaves (t :: ts'))) as ->.
  { clear H. induction Hp as [|x l l' _ IH|x y l|l l' l'' _ IH1 _ IH2]; [done|..]; cbn in *; rewrite ?length_app in *; lia. }
  rewrite Hp. cbn. rewrite length_app. apply length_leaves_ge in H. lia.
Qed.
Lemma flat_map_perm {A B} (f : A → list B) l l' : l ≡ₚ l' → flat_map f l ≡ₚ flat_map f l'.
Proof.
  induction 1 as [|x l l' _ IH|x y l|l l' l'' _ IH1 _ IH2]; [done|..]; cbn.
  - by rewrite IH.
  - rewrite !app_assoc. apply Permutation_app_tail, Permutation_app_comm.
  - by etrans.
Qed.

Lemma slots_more its self k label a n items :
  slots (Node self k label a n items) → slots (Node self k label a n (its ++ items)).
Proof.
  unfold slots. cbn [t_kind t_items t_isARM t_level]. intros H. destruct k; try done.
  1,2: destruct H as (i & t' & H1 & H2 & H3); exists i, t'; rewrite !elem_of_app; auto.
  destruct H as (pre & post & t' & H1 & H2 & H3); exists pre, post, t'; rewrite !elem_of_app; auto.
Qed.

Definition pre_items (pre : list insts) : list (item rtree) := map Code pre.
Lemma items_good_pre a pre its m : Forall (emitted a []) pre → items_good inst_ok a its m → items_good inst_ok a (pre_items pre ++ its) m.
Proof. induction 1 as [|i pre Hi _ IH]; [done|]. intros H. exists a. split; [|by apply IH]. split; [apply Hi|done]. Qed.
Lemma pre_items_names a pre : Forall (emitted a []) pre → flat_map item_names (pre_items pre) = [].
Proof. induction 1 as [|i pre Hi _ IH]; [done|].
  change (inst_defs i ++ flat_map item_names (pre_items pre) = []). by rewrite (em_defs _ _ _ Hi), IH.
Qed.
Lemma pre_items_code pre : map item_code (pre_items pre) = map INST pre.
Proof. unfold pre_items. by rewrite map_map. Qed.
Lemma pre_items_subs pre : subs (pre_items pre) = [].
Proof. by induction pre. Qed.

(** The structure is complete: its parts are made and its code is linked. *)
Lemma ws_finish s0 self k label pre items own done_ s r ss :
  ws s0 self (Mk_block (RBlock k label 0 s0.(ISA)) (map INST pre ++ map item_code items)) (s0.(nest) - 1) s0.(nest) s0.(ISA)
    own [] done_ s →
  k ≠ RBasic → 0 < s0.(nest) → Forall (emitted s0.(ISA) []) pre →
  subs items ≡ₚ done_ →
  flat_map item_names items = map (String.append label) ss → suffixes ss = true →
  items_good inst_ok s0.(ISA) items s0.(ISA) → Forall code_closed items →
  (own → s0.(ISA) = false ∧ (3 ≤ length done_)%nat) →
  length done_ = 3%nat ∨ Forall (λ t, t_isARM t = s0.(ISA)) done_ → (1 ≤ length done_)%nat →
  parts_ids r = map t_id (flat_map leaves (subs items)) →
  slots (Node self k label s0.(ISA) s0.(nest) items) →
  made s0 self label pre r s.
Proof.
  intros W Hk Hpos Hpre Hsubs Hnames Hsep Hmodes Hclosed Hown Hkids Hsome Hr Hslots.
  destruct W as [Hs Hn Ha Hrg Hlib Hin Hlen Hold _ Hdone Hids Hbb]. cbn [map app] in Hids.
  set (t := Node self k label s0.(ISA) s0.(nest) (pre_items pre ++ items)).
  assert (subs (t_items t) = subs items) as Esub.
  { unfold subs. cbn [t_items t]. rewrite flat_map_app. fold (subs (pre_items pre)). by rewrite pre_items_subs. }
  assert (leaves t = flat_map leaves (subs items)) as Elv by (rewrite leaves_subs, Esub by done; done).
  assert (Forall (λ t, 1 ≤ length (leaves t))%nat done_) as Hone by (eapply Forall_impl; [exact Hdone|]; intros t' (_ & _ & H & _); exact H).
  assert (length (leaves t) = length (flat_map leaves done_)) as Elen
    by (rewrite Elv; apply Permutation_length, flat_map_perm, Hsubs).
  pose proof (length_leaves_ge _ Hone) as Hge.
  assert (own ∨ Exists lim done_ → lim t) as Hlim.
  { intros [[HA H3]%Hown|(t' & Ht' & Hl)%Exists_exists].
    - left. split; [done|]. lia.
    - pose proof (length_leaves_in t' _ Hone Ht') as Hin'. rewrite <- Elen in Hin'. destruct Hl as [[Hth H3]|H5]; [|right; lia].
      destruct Hkids as [H|H]; [right; lia|]. rewrite Forall_forall in H. left. split; [|lia]. cbn [t t_isARM]. by rewrite <- (H t' Ht'). }
  assert (Forall (λ t', represents (store s) t' ∧ tree_wf t' ∧ t_level t' = s0.(nest) - 1 ∧
    Forall (λ i, length s0.(store) ≤ i < length s.(store))%nat (ids t')) (subs items)) as Hall.
  { rewrite Hsubs. eapply Forall_impl; [exact Hdone|]. intros t' (H1 & H2 & _ & H3 & H4). done. }
  exists t. split; [done|]. split; [done|]. split; [done|]. split; [done|]. split; [by exists items|]. split; [by rewrite Hr, Elv|].
  split; try done.
  - apply represents_subs. rewrite Esub. split; [|eapply Forall_impl; [exact Hall|]; by intros t' [H _]].
    unfold block_of. cbn [t_items t t_id t_kind t_label t_isARM]. by rewrite map_app, Hs, pre_items_code.
  - unfold tree_wf. rewrite nodes_subs, Esub. apply Forall_cons. split.
    + split; cbn [t t_items t_kind t_label t_isARM t_level t_id]; rewrite ?Esub; cbn [t t_items] in Esub; rewrite ?Esub; try done.
      * exists ss. split; [|done]. cbn [t t_items t_label]. rewrite <- Hnames. etrans; [apply flat_map_app|].
        by rewrite (pre_items_names _ _ Hpre).
      * by apply items_good_pre.
      * intros _. split; [done|]. eapply Forall_impl; [exact Hall|]. by intros t' (_ & _ & H & _).
      * eapply Forall_impl; [exact Hall|]. intros t' (_ & _ & _ & H). rewrite ids_subs in H. apply Forall_cons in H as [H _]. lia.
      * apply Forall_app. split; [|done]. eapply Forall_impl with (P := λ it, it ∈ pre_items pre); [by apply Forall_forall|].
        intros it (i & -> & Hi)%list_elem_of_fmap. rewrite Forall_forall in Hpre. apply (Hpre i Hi).
      * by apply slots_more.
    + rewrite Forall_forall in Hall. apply Forall_forall. intros x (t' & Ht' & Hx)%list_elem_of_In%in_flat_map.
      destruct (Hall t') as (_ & H & _); [by apply list_elem_of_In|]. unfold tree_wf in H. rewrite Forall_forall in H. apply H. by apply list_elem_of_In.
  - lia.
  - rewrite ids_subs, Esub. apply NoDup_cons. split; [|by rewrite (flat_map_perm ids _ _ Hsubs)].
    intros (t' & Ht' & Hx)%list_elem_of_In%in_flat_map. rewrite Forall_forall in Hall.
    destruct (Hall t') as (_ & _ & _ & H); [by apply list_elem_of_In|]. rewrite Forall_forall in H.
    specialize (H _ (proj2 (list_elem_of_In _ _) Hx)). cbn in H. lia.
  - rewrite ids_subs, Esub. apply Forall_cons. split; [by left|]. apply Forall_forall. intros x (t' & Ht' & Hx)%list_elem_of_In%in_flat_map.
    rewrite Forall_forall in Hall. destruct (Hall t') as (_ & _ & _ & H); [by apply list_elem_of_In|]. rewrite Forall_forall in H.
    right. by apply H, list_elem_of_In.
  - destruct Hbb as [Hd Hl]. split; [|intros l v [?|[? ?]]%Hl; [by left|right; auto]].
    intros l. rewrite Hd. f_equiv. unfold leaf_labels. cbn [flat_map]. rewrite app_nil_r, Elv.
    assert (flat_map (λ t, map t_label (leaves t)) (subs items) = map t_label (flat_map leaves (subs items))) as <-.
    { clear. induction (subs items) as [|x l IH]; [done|]. cbn. by rewrite map_app, IH. }
    by rewrite (flat_map_perm _ _ _ Hsubs).
Qed.
End make.
