(* ===== verification/PyMakeSpec.v ===== *)
(** * The classes of blocks make trees

    One lemma per class of randomblock.py, from the same lemma for the parts, and
    their composition over the nesting levels. *)
From Stdlib Require Import Ascii.
From S2P Require Import Prelude RitCommon InstrTable State RandomInstrGen Keeps Output Loop Api ParseRIT V1State V1Api Driver PyBase PyCode PyTree PyEmit PyEmitSpec PyAlu PyBlocks PyMake.
#[local] Open Scope Z_scope.

(** ** 1. Steps through a method *)

(** A field of the context, and the label of the object, of a part, of a made part. *)
Ltac ws_read :=
  apply wp_bind, wp_gets;
  match goal with W : ws _ _ _ _ _ _ _ _ _ ?s |- _ => rewrite ?(ws_nest _ _ _ _ _ _ _ _ _ _ W), ?(ws_ISA _ _ _ _ _ _ _ _ _ _ W) end.
Ltac in_list := repeat first [left; reflexivity | right].
Ltac ws_label :=
  apply wp_bind;
  match goal with
  | W : ws _ ?self _ _ _ _ _ _ _ ?s |- wp (label_of ?self) _ ?s => eapply ws_label_self; [exact W|]
  | W : ws _ _ _ _ _ _ _ _ ?d ?s |- wp (label_of (t_id ?t)) _ ?s =>
      eapply (ws_label_done _ _ _ t); [exact W|in_list|];
      match goal with El : t_label t = _ |- _ => rewrite El end
  | W : ws _ _ _ _ _ _ _ ?todo _ ?s |- wp (label_of ?c) _ ?s =>
      match todo with context [(c, ?l, ?p)] => eapply (ws_label_todo _ _ _ (c, l, p)); [exact W|in_list|]; cbn [fst snd] end
  end.
(** A new part, and making the first that is not made. *)
Ltac ws_part c :=
  match goal with W : ws _ _ _ _ _ _ _ _ _ _ |- _ =>
    let s := fresh "s" in let W' := fresh "W" in
    apply wp_bind; eapply wp_mono; [eapply ws_getRBlock; [exact W|by apply rit_label_app]|]; clear W; intros c s W'; cbn [app] in W' end.
Ltac ws_make t Hmake :=
  match goal with W : ws _ _ _ _ _ _ _ _ _ _ |- _ =>
    let s := fresh "s" in let W' := fresh "W" in
    let r := fresh "r" in let Er := fresh "Er" in let El := fresh "El" in let Ea := fresh "Ea" in
    apply wp_bind; eapply wp_mono; [eapply ws_make; [exact Hmake|reflexivity|exact W|try by constructor]|]; [..|clear W;
    let Es := fresh "Es" in intros r s (t & Er & <- & El & Ea & Es & W'); cbn [app] in W'] end.
Ltac ws_nest_to :=
  match goal with W : ws _ _ _ _ _ _ _ _ _ _ |- _ =>
    let s := fresh "s" in let W' := fresh "W" in
    apply wp_bind; eapply ws_set_nest; [exact W|]; clear W; intros s W' end.
Ltac ws_flip :=
  match goal with W : ws _ _ _ _ _ _ _ _ _ _ |- _ =>
    let s := fresh "s" in let W' := fresh "W" in
    eapply ws_flip_ISA; [exact W|]; clear W; intros s W'; rewrite ?negb_involutive in W' end.
Ltac ws_pure v H lem :=
  match goal with W : ws _ _ _ _ _ _ _ _ _ _ |- _ =>
    let s := fresh "s" in let W' := fresh "W" in
    apply wp_bind; eapply ws_pure; [lem|exact W|]; clear W; intros v s H W' end.
Ltac ws_branch i :=
  match goal with W : ws _ _ _ _ _ _ _ _ _ _ |- _ =>
    let s := fresh "s" in let W' := fresh "W" in let Hi := fresh "Hi" in
    apply wp_bind; eapply ws_genBranch; [exact W|by apply rit_label_app|try (split; [reflexivity|]; eexists; split; [|reflexivity]; in_list)|];
    [..|clear W; intros i s Hi W'] end.
(** A computation with a triple of its own that leaves the context alone. *)
Ltac ws_lib_call i H lem :=
  match goal with W : ws _ _ _ _ _ _ _ _ _ ?s |- _ =>
    let s' := fresh "s" in let W' := fresh "W" in let Hlib := fresh in let E := fresh in
    apply wp_bind; eapply wp_mono; [apply lem; first [eapply ws_lib; exact W | done]|]; intros i s' (H & Hlib & E);
    rewrite ?(ws_nest _ _ _ _ _ _ _ _ _ _ W), ?(ws_ISA _ _ _ _ _ _ _ _ _ _ W) in H;
    pose proof (ws_same _ _ _ _ _ _ _ _ _ _ _ W E Hlib) as W'; clear W E Hlib end.
Ltac ws_app :=
  match goal with W : ws _ _ _ _ _ _ _ _ _ _ |- _ =>
    let s := fresh "s" in let W' := fresh "W" in
    apply wp_bind; eapply ws_append; [exact W|]; clear W; intros s W'; rewrite <- ?app_assoc in W'; cbn [app] in W' end.

Lemma directive_isa m a : directive_mode m (isa_attr a) = a.
Proof. by destruct a. Qed.

(** The conditions of a complete structure. *)
Ltac names :=
  cbn [flat_map item_names app];
  repeat match goal with H : t_label _ = _ |- _ => rewrite H; clear H end;
  repeat match goal with H : emitted _ _ ?i |- context [inst_defs ?i] => rewrite (em_defs _ _ _ H) end;
  reflexivity.
Ltac good :=
  cbn [items_good];
  repeat (eexists; split; [cbn [item_good]; first [symmetry; eassumption | split; [eapply em_good; eassumption|reflexivity] | symmetry; apply directive_isa]|]);
  reflexivity.
Ltac closed := repeat (apply Forall_cons; split; [first [exact I | eapply em_it; eassumption]|]); constructor.

Lemma parts_ids_app l1 l2 : parts_ids (l1 ++ l2) = parts_ids l1 ++ parts_ids l2.
Proof. apply flat_map_app. Qed.
Lemma parts_ids_arms l1 l2 l : parts_ids (Arms l1 l2 :: l) = parts_ids l1 ++ parts_ids l2 ++ parts_ids l.
Proof. unfold parts_ids. cbn. by rewrite app_assoc. Qed.
(** The returned basic blocks are those of the parts. *)
Ltac in_order :=
  cbn [subs flat_map item_subs app]; rewrite ?parts_ids_app; cbn [app]; rewrite ?parts_ids_arms, ?map_app, ?app_nil_r;
  repeat match goal with H : parts_ids _ = _ |- _ => rewrite H; clear H end; by rewrite ?app_nil_r.

(** The beginning of a method, and the end of it, with the code [items]. *)
Ltac ws_begin s0 F :=
  cbn [class_make];
  unfold ByPass_make, Hammock_make, Loop_make, IrLoop_make, Interwork_make, CallRet_make, Exclusive_make, ALUwritePC_make;
  apply wp_bind; eapply wp_mono; [eapply (ws_start s0 _ (s0.(nest) - 1)); [exact F|done]|];
  let s := fresh "s" in let W := fresh "W" in intros [] s W; cbv beta in W.
Ltac ws_end items ss :=
  apply wp_ret;
  match goal with W : ws ?s0 _ (Mk_block _ (_ (map INST ?pre) _)) _ _ _ _ _ _ _ |- _ =>
    replace (s0.(nest) - 1 + 1) with s0.(nest) in W by lia;
    eapply (ws_finish _ _ _ _ pre items _ _ _ _ ss W); [done|done|by eapply fb_pre| |names|done|good|closed|..] end.

Section classes.
Context `{Env : !RitEnv} `{Py : !PyEnv} (opts : art_options).

(** The specification of the class of blocks [k]. *)
Definition class_spec (k : RBType) : Prop :=
  ∀ make s self label pre, fresh_block s self k label pre → rit_label label →
    (k ≠ RBasic → 0 < s.(nest) ∧ make_spec make (s.(nest) - 1)) →
    wp (class_make opts make k self) (made s self label pre) s.

Lemma limits_thumb isARM b forward n : limits isARM b forward n = true → isARM = false.
Proof. unfold limits. by destruct b, isARM. Qed.
Lemma ByPass_spec : class_spec RByPass.
Proof.
  intros make s0 self label pre F Hl Hk. destruct (Hk ltac:(done)) as [Hpos Hmake]. ws_begin s0 F.
  ws_read. cbv zeta. ws_label. ws_part b1. ws_part b2. ws_part b3. ws_nest_to.
  ws_make t1 Hmake. ws_make t2 Hmake. ws_make t3 Hmake. ws_read. ws_label. ws_branch i.
  do 4 ws_app. ws_nest_to.
  ws_end [Sub t1; Code i; Sub t2; Sub t3] ["_b1"; "_b2"; "_b3"].
  - done.
  - intros [[]|H%limits_thumb]. done.
  - by left.
  - cbn. lia.
  - in_order.
  - done.
Qed.

Lemma Hammock_spec : class_spec RHammock.
Proof.
  intros make s0 self label pre F Hl Hk. destruct (Hk ltac:(done)) as [Hpos Hmake]. ws_begin s0 F.
  ws_read. cbv zeta. ws_label. ws_part h1. ws_part h2. ws_part h3. ws_part h4. ws_nest_to.
  ws_make t1 Hmake. ws_make t2 Hmake. ws_make t3 Hmake. ws_make t4 Hmake. ws_read. ws_label. ws_branch i3. ws_label. ws_branch i4.
  do 6 ws_app. ws_nest_to. ws_end [Sub t1; Code i3; Sub t2; Code i4; Sub t3; Sub t4] ["_h1"; "_h2"; "_h3"; "_h4"].
  - done.
  - intros [[[]|H%limits_thumb]|[=]]. split; [done|]. cbn. lia.
  - right. by repeat constructor.
  - cbn. lia.
  - in_order.
  - done.
Qed.

Lemma Loop_spec : class_spec RLoop.
Proof.
  intros make s0 self label pre F Hl Hk. destruct (Hk ltac:(done)) as [Hpos Hmake]. ws_begin s0 F.
  ws_read. cbv zeta. ws_label. ws_part l1. ws_nest_to. ws_make t1 Hmake. ws_read. ws_label.
  ws_lib_call i Hc wp_genLoop. pose proof Hc as Hi. apply loop_code_emitted in Hi; [|by apply rit_label_app].
  do 2 ws_app. ws_nest_to. ws_end [Sub t1; Code i] ["_l1"].
  - done.
  - done.
  - right. by repeat constructor.
  - done.
  - in_order.
  - exists i, t1. rewrite El. split; [in_list|]. split; [in_list|done].
Qed.

Lemma IrLoop_spec : class_spec RIrLoop.
Proof.
  intros make s0 self label pre F Hl Hk. destruct (Hk ltac:(done)) as [Hpos Hmake]. ws_begin s0 F.
  ws_read. cbv zeta. ws_label. ws_part ir1. ws_part ir2. ws_part ir3. ws_nest_to.
  ws_make t1 Hmake. ws_make t2 Hmake. ws_make t3 Hmake. ws_read. ws_label.
  ws_lib_call i2 Hc wp_genLoop. pose proof Hc as Hi2. apply loop_code_emitted in Hi2; [|by apply rit_label_app]. ws_label. ws_branch i3.
  do 5 ws_app. ws_nest_to. ws_end [Sub t1; Code i3; Sub t2; Sub t3; Code i2] ["_ir1"; "_ir2"; "_ir3"].
  - done.
  - intros [[]|H%limits_thumb]. done.
  - by left.
  - cbn. lia.
  - in_order.
  - exists i2, t2. rewrite El0. split; [in_list|]. split; [in_list|done].
Qed.

Lemma Exclusive_spec : class_spec RExclusive.
Proof.
  intros make s0 self label pre F Hl Hk. destruct (Hk ltac:(done)) as [Hpos Hmake]. ws_begin s0 F.
  ws_pure b Hb ltac:(by apply pure_choice). ws_read. cbv zeta. ws_label. ws_part e1. ws_part e2. ws_nest_to.
  ws_make t1 Hmake. ws_read. ws_pure p Hp ltac:(by apply pure_genLDREX). destruct p as [e_l ExclSize], Hp as [Hel Hsz].
  cbn [fst snd] in *. ws_pure e_s Hes ltac:(by apply pure_genSTREX). ws_make t2 Hmake.
  do 4 ws_app. ws_nest_to.
  ws_end [Sub t1; Code e_l; Code e_s; Sub t2] ["_e1"; "_excl_back_edge"; "_excl_fill_lock_mem"; "_excl_stub"; "_e2"].
  - done.
  - done.
  - right. by repeat constructor.
  - cbn. lia.
  - in_order.
  - done.
Qed.

Lemma ALUwritePC_spec : class_spec RALUwritePC.
Proof.
  intros make s0 self label pre F Hl Hk. destruct (Hk ltac:(done)) as [Hpos Hmake]. ws_begin s0 F.
  ws_read. cbv zeta. ws_label. ws_part p1. ws_part p2. ws_nest_to. ws_make t1 Hmake.
  ws_lib_call i Hi wp_genALUwritePC. destruct Hi as [adr Hi]. ws_make t2 Hmake.
  do 3 ws_app. ws_nest_to.
  apply wp_ret. eapply (ws_finish _ _ _ _ pre [Sub t1; Code i; Sub t2] _ _ _ _
    (["_aluwpc1"] ++ alu_suffixes s0.(ISA) (s0.(ISA) && adr) ++ ["_aluwpc2"])).
  - by replace (s0.(nest) - 1 + 1) with s0.(nest) in W by lia.
  - done.
  - done.
  - by eapply fb_pre.
  - done.
  - cbn [flat_map item_names]. rewrite El, El0, (em_defs _ _ _ Hi), !map_app. done.
  - by destruct s0.(ISA), adr.
  - good.
  - closed.
  - done.
  - right. by repeat constructor.
  - cbn. lia.
  - in_order.
  - done.
Qed.

Lemma Interwork_spec : class_spec RInterwork.
Proof.
  intros make s0 self label pre F Hl Hk. destruct (Hk ltac:(done)) as [Hpos Hmake]. ws_begin s0 F.
  ws_read. cbv zeta. ws_label. ws_part iw1. ws_part iw2. ws_part iw3. ws_nest_to.
  ws_make t1 Hmake. apply wp_bind. ws_flip. ws_make t2 Hmake. apply wp_bind. ws_flip. ws_make t3 Hmake.
  ws_pure b Hb ltac:(by apply pure_choice). ws_pure fol Hfol ltac:(by apply pure_choice). ws_read. do 3 ws_label.
  ws_pure bx1 H1 ltac:(by apply pure_genBX; [apply rit_label_app|]).
  ws_pure bx2 H2 ltac:(by apply pure_genBX; [apply rit_label_app|]).
  ws_pure bx3 H3 ltac:(by apply pure_genBX; [apply rit_label_app|]).
  ws_branch i; [done|]. ws_nest_to. ws_app. destruct fol; do 7 ws_app.
  - ws_end [Direct (isa_attr s0.(ISA)); Code bx1; Code i; Sub t2; Code bx2; Code bx3; Sub t1; Sub t3] ["_iw2"; "_iw1"; "_iw3"].
    + apply Permutation_swap.
    + by intros [[]|?].
    + by left.
    + cbn. lia.
    + in_order.
    + done.
  - ws_end [Direct (isa_attr s0.(ISA)); Code bx1; Sub t1; Code i; Sub t2; Code bx2; Code bx3; Sub t3] ["_iw1"; "_iw2"; "_iw3"].
    + done.
    + by intros [[]|?].
    + by left.
    + cbn. lia.
    + in_order.
    + done.
Qed.

Lemma ws_flip_when (b : bool) s0 self lvl blk n a own todo done_ s Q :
  ws s0 self blk lvl n a own todo done_ s →
  (∀ s', ws s0 self blk lvl n (if b then negb a else a) own todo done_ s' → Q tt s') → wp (when b flip_ISA) Q s.
Proof. intros W HQ. destruct b; [by ws_flip; apply HQ|]. by apply wp_ret, HQ. Qed.
Lemma flip_twice (b a : bool) : (if b then negb (if b then negb a else a) else if b then negb a else a) = a.
Proof. by destruct b, a. Qed.
Ltac flip_when b :=
  match goal with W : ws _ _ _ _ _ _ _ _ _ ?s |- _ =>
    apply wp_bind; eapply (ws_flip_when b); [exact W|]; clear dependent s; let s' := fresh "s" in intros s' W; rewrite ?flip_twice in W end.
(** An instruction that may be skipped. *)
Ltac ws_app_when := lazymatch goal with |- wp (mret _ ≫= _) _ _ => apply wp_bind, wp_ret; ws_app | _ => ws_app end.
Ltac append_todo :=
  match goal with W : ws _ _ _ _ _ _ _ _ _ ?s |- _ =>
    apply wp_bind; eapply ws_append_todo; [exact W|]; clear dependent s; let s' := fresh "s" in intros s' W; cbn [app] in W end.

Lemma call_slots self label a n items pre post t' :
  Code post ∈ items → Sub t' ∈ items → starts_with [pre] t' → pre_callee (n - 1) pre → post_callee (n - 1) post →
  slots (Node self RCallRet label a n items).
Proof. intros. by exists pre, post, t'. Qed.

Lemma CallRet_spec : class_spec RCallRet.
Proof.
  intros make s0 self label pre F Hl Hk. destruct (Hk ltac:(done)) as [Hpos Hmake]. ws_begin s0 F.
  ws_read. cbv zeta. ws_label. ws_part c1. ws_part c2. ws_part c3. ws_nest_to.
  ws_pure iwcall Hiw ltac:(by apply pure_choice). ws_pure fol Hfol ltac:(by apply pure_choice).
  ws_pure first_ Hfi ltac:(by apply pure_choice). ws_read. ws_label.
  ws_pure cl Hcl ltac:(apply pure_genCall; by apply rit_label_app). ws_make t1 Hmake.
  flip_when iwcall.
  ws_lib_call pre_call Hpre wp_getPreCalleeInsts. pose proof (pre_callee_emitted (if iwcall then negb s0.(ISA) else s0.(ISA)) _ _ Hpre) as Hpre'.
  ws_lib_call post_call Hpost wp_getPostCalleeInsts. pose proof (post_callee_emitted (if iwcall then negb s0.(ISA) else s0.(ISA)) _ _ Hpost) as Hpost'.
  append_todo. ws_make t2 Hmake. flip_when iwcall. ws_make t3 Hmake. ws_nest_to. ws_app.
  destruct fol.
  - ws_label. ws_branch i; [done|]. destruct first_; cbn [when negb].
    + do 6 ws_app_when.
      ws_end [Direct (isa_attr s0.(ISA)); Code cl; Code i; Sub t2; Code post_call; Sub t1; Sub t3] ["_c2"; "_c1"; "_c3"]; [apply Permutation_swap|by intros [[]|?]|by left|cbn; lia|in_order|eapply call_slots; [..|eassumption|eassumption|eassumption]; in_list].
    + do 6 ws_app_when.
      ws_end [Direct (isa_attr s0.(ISA)); Code i; Sub t2; Code post_call; Sub t1; Code cl; Sub t3] ["_c2"; "_c1"; "_c3"]; [apply Permutation_swap|by intros [[]|?]|by left|cbn; lia|in_order|eapply call_slots; [..|eassumption|eassumption|eassumption]; in_list].
  - ws_label. ws_branch i; [done|]. destruct first_; cbn [when negb].
    + do 6 ws_app_when.
      ws_end [Direct (isa_attr s0.(ISA)); Code cl; Sub t1; Code i; Sub t2; Code post_call; Sub t3] ["_c1"; "_c2"; "_c3"]; [done|by intros [[]|?]|by left|cbn; lia|in_order|eapply call_slots; [..|eassumption|eassumption|eassumption]; in_list].
    + do 6 ws_app_when.
      ws_end [Direct (isa_attr s0.(ISA)); Sub t1; Code cl; Code i; Sub t2; Code post_call; Sub t3] ["_c1"; "_c2"; "_c3"]; [done|by intros [[]|?]|by left|cbn; lia|in_order|eapply call_slots; [..|eassumption|eassumption|eassumption]; in_list].
Qed.


(** ** 2. Basic blocks *)

Lemma basic_node_wf self label a n pre : Forall (emitted a []) pre → node_wf (Node self RBasic label a n (pre_items pre)).
Proof.
  intros Hpre. split; cbn [t_items t_kind t_id]; rewrite ?pre_items_subs; try done.
  - exists []. split; [|done]. exact (pre_items_names _ _ Hpre).
  - unfold modes_wf. cbn [t_isARM t_items]. rewrite <- (app_nil_r (pre_items pre)). by apply items_good_pre.
  - apply Forall_fmap. eapply Forall_impl; [exact Hpre|]. intros i Hi. apply Hi.
Qed.

Lemma basic_nodes self label a n pre :
  let t := Node self RBasic label a n (pre_items pre) in nodes t = [t] ∧ leaves t = [t].
Proof. intros t. unfold leaves. rewrite nodes_subs. cbn [t t_items]. by rewrite pre_items_subs. Qed.

Lemma Basic_spec : class_spec RBasic.
Proof.
  intros make s0 self label pre F Hl _. cbn [class_make]. unfold Basic_make.
  apply wp_bind. eapply wp_mono; [eapply (ws_start s0 _ (s0.(nest) - 1)); [exact F|done]|]. intros [] s W. cbv beta in W.
  apply wp_bind. eapply ws_set_isARM; [exact W|]. clear W. intros s1 W. ws_label. apply wp_bind, wp_modify, wp_ret.
  destruct W as [Hs Hn Ha Hr Hlib Hin Hlen Hold _ _ _ [Hd Hv]]. pose proof (fb_pre _ _ _ _ _ F) as Hpre.
  destruct (basic_nodes self label s0.(ISA) s0.(nest) pre) as [En El]. set (t := Node _ _ _ _ _ _) in *.
  exists t. do 4 (split; [done|]). split; [exists []; by rewrite app_nil_r|]. split; [by rewrite El|]. split; try done.
  - unfold represents. rewrite En. apply Forall_singleton. cbn. rewrite Hs. unfold block_of. cbn. by rewrite pre_items_code.
  - unfold tree_wf. rewrite En. apply Forall_singleton. by apply basic_node_wf.
  - by rewrite El.
  - unfold ids. rewrite En. apply NoDup_singleton.
  - unfold ids. rewrite En. apply Forall_singleton. by left.
  - assert (leaf_labels [t] = [label]) as Ell by (unfold leaf_labels; cbn [flat_map]; by rewrite El).
    split; intros l; rewrite ?Ell; cbn [BB with_BB].
    + destruct (decide (l = label)) as [-> |Hne].
      * rewrite lookup_insert_eq. split; [by right; left|done].
      * rewrite lookup_insert_ne, Hd by done. f_equiv. split; [by intros ?%elem_of_nil|by intros ?%list_elem_of_singleton].
    + intros v. destruct (decide (l = label)) as [-> |Hne]; [by rewrite lookup_insert_eq|].
      rewrite lookup_insert_ne by done. intros [?|(? & [[]|H])]%Hv; [by left|]. by apply Exists_nil in H.
Qed.

(** ** 3. All classes *)

Lemma all_classes k : class_spec k.
Proof.
  destruct k; [apply Basic_spec|apply ByPass_spec|apply Hammock_spec|apply Loop_spec|apply IrLoop_spec|apply Interwork_spec
    |apply CallRet_spec|apply Exclusive_spec|apply ALUwritePC_spec].
Qed.

Lemma makeRandomBlock_spec fuel n : (Z.to_nat n < fuel)%nat → make_spec (makeRandomBlock opts fuel) n.
Proof.
  revert n. induction fuel as [|fuel IH]; intros n Hf s self k label pre F Hn; [lia|].
  destruct (fb_store _ _ _ _ _ F) as [b E]. cbn [makeRandomBlock]. apply wp_bind.
  unfold wp at 1, get_block. rewrite E. cbn [class_of].
  apply (all_classes k _ _ _ _ pre F); [apply F|]. intros Hk.
  destruct (fb_kind _ _ _ _ _ F) as [-> |Hp]; [done|]. split; [done|]. apply IH. lia.
Qed.
End classes.
