(* ===== verification/PyFill.v ===== *)
(** * Filling the basic blocks: art/instrgen.py, genCodeBlocks to get_instr_limit

    Every basic block gets a number of instructions from the library.  A state
    machine gives consecutive blocks related tasks (defining and using flags or
    a register, one kind of instruction), and the loops ask the library until
    they have enough instructions or it failed often enough. *)
From Stdlib Require Import Ascii.
From S2P Require Import Prelude State ParseRIT V1State V1Api Driver PyBase PyCode PyEmit PyBlocks.
#[local] Open Scope Z_scope.

(** ** 1. The state machine *)

Inductive FSMType :=
  | RANDOM | SAME_KIND
  | FLAG_DU | FLAG_DU_D | FLAG_DU_J | FLAG_DU_U
  | REG_ALLOC | REG_ALLOC_D | REG_ALLOC_J | REG_ALLOC_U.
#[global] Instance FSMType_eq_dec : EqDecision FSMType.
Proof. solve_decision. Defined.

(** ** 2. Tables (arminfo.py) *)

Definition R_0_3 : Z := 0.
Definition R_4_7 : Z := 4.
Definition R_8_12 : Z := 8.
Definition STACK_OP : list string := ["PUSH_OP"; "POP_OP"].
Definition MEM_OP : list string := ["LD_OP"].
Definition VFP_OP : list string := ["VFP_OP"].
Definition DATA_OP : list string := ["ALU_OP"; "LOG_OP"; "MOV_OP"; "BYTE_ALU_OP"; "S_BYTE_ALU_OP"].
Definition MUL_OPKIND : list string := ["MUL_OP"; "SMUL_OP"; "SMULD_OP"].
Definition ARM_SHIFT_OP : list string :=
  ["AND_rsh"; "EOR_rsh"; "SUB_rsh"; "RSB_rsh"; "ADD_rsh"; "ADC_rsh"; "SBC_rsh"; "RSC_rsh"; "TST_rsh"; "TEQ_rsh";
   "CMP_rsh"; "CMN_rsh"; "ORR_rsh"; "BIC_rsh"; "MVN_rsh"; "LSL_reg"; "LSR_reg"; "ASR_reg"; "ROR_reg"].
Definition THUMB_SHIFT_OP : list string := ["LSL_reg_T2"; "LSR_reg_T2"; "ASR_reg_T2"; "ROR_reg_T2"].
Definition CANDIDATE_REGS : list Z := [R_0_3; R_4_7; R_8_12; R_SP; R_LR; R_PC].
Definition IT_MASK : list string :=
  [""; "t"; "e"; "tt"; "et"; "te"; "ee"; "ttt"; "ett"; "tet"; "eet"; "tte"; "ete"; "tee"; "eee"].
(** [code.CondCode] *)
Definition CondCode : list string := CONDCODE ++ ["al"].

(** The restrictions [ropts] that a task puts on its instructions. *)
Record ropts_t := Mk_ropts {
  ro_cond : option (list Z); ro_sbit : option (list Z); ro_src_reg : option (list Z); ro_dst_reg : option (list Z)
}.
Definition no_ropts : ropts_t := Mk_ropts None None None None.

Section fill.
Context `{Env : !RitEnv} `{Py : !PyEnv} (opts : art_options).

Definition nextFSM (prev_fsm : option FSMType) : art FSMType :=
  let alltypes := [RANDOM; SAME_KIND; FLAG_DU_D; REG_ALLOC_D] in
  match prev_fsm with
  | None => choice_py alltypes
  | Some FLAG_DU_D => choice_py [FLAG_DU_J; FLAG_DU_U]
  | Some FLAG_DU_J => mret FLAG_DU_U
  | Some REG_ALLOC_D => choice_py [REG_ALLOC_J; REG_ALLOC_U]
  | Some REG_ALLOC_J => mret REG_ALLOC_U
  | Some _ => choice_py alltypes
  end.

(** ** 3. How many instructions *)

(** The division of an empty program is Python's ZeroDivisionError. *)
Definition getBlockLimit (block : nat) : art Z :=
  bbs ← gets BB;
  let bb_num := Z.of_nat (size bbs) in
  '(min_val, max_val) ←
    if bb_num <? 10 then
      if bb_num =? 0 then fail PyRaise
      else let min_val := opts.(opt_num) / bb_num in mret (min_val, opts.(opt_instr_limit) + min_val)
    else mret (10, opts.(opt_instr_limit) / 2 + 10);
  label ← label_of block;
  randint_py min_val (default max_val (mjoin (bbs !! label))).

(** ** 4. Loops that ask the library *)

Definition ext {A} (l : option (list A)) : art (option A) :=
  match l with Some l => x ← choice_py l; mret (Some x) | None => mret None end.
(** The quadruple [(rcond, rsbit, rsrc_reg, rdst_reg)]. *)
Definition extOptions (ropts : ropts_t) : art (option Z * option Z * option Z * option Z) :=
  rcond ← ext ropts.(ro_cond);
  rsbit ← ext ropts.(ro_sbit);
  rsrc_reg ← ext ropts.(ro_src_reg);
  rdst_reg ← ext ropts.(ro_dst_reg);
  mret (rcond, rsbit, rsrc_reg, rdst_reg).

(** [while cnt < limit]: [ask] answers the instructions of a round and how far
    [cnt] advances with them; [tail] is what a round does besides; [too_often]
    tells whether so many failures in a row count as one instruction.  The rounds
    are bounded by [limit] times the failures of one instruction. *)
Fixpoint fill_loop (fuel : nat) (too_often : nat → bool) (ask : art (option insts)) (count : insts → Z)
    (tail : art insts) (limit cnt : Z) (retry : nat) (inst : insts) : art insts :=
  match fuel with
  | O => fail OutOfFuel
  | S fuel =>
      if cnt <? limit then
        ret ← ask;
        let '(inst, cnt, retry) :=
          match ret with
          | Some ((_ :: _) as ret) => (inst ++ ret, cnt + count ret, 0%nat)
          | _ => (inst, cnt, S retry)
          end in
        let '(cnt, retry) := if too_often retry then (cnt + 1, 0%nat) else (cnt, retry) in
        more ← tail;
        fill_loop fuel too_often ask count tail limit (cnt + Z.of_nat (length more)) retry (inst ++ more)
      else mret inst
  end.
Definition rounds (limit : Z) (maxretry : nat) : nat := S (Z.to_nat limit * (maxretry + 2)).
Definition no_tail : art insts := mret [].
Definition each_line (ret : insts) : Z := Z.of_nat (length ret).
Definition more_than (maxretry retry : nat) : bool := Nat.ltb maxretry retry.
Definition at_least (maxretry retry : nat) : bool := Nat.leb maxretry retry.

(** *** Memory instructions *)

(** [for i in rs: inst += setReg(i, m_lo, m_hi, isa, True)] *)
Definition set_regs (rs : list Z) (isa : bool) : art insts :=
  for_insts rs (λ i, setReg i getMemLimit.1 getMemLimit.2 isa true).

Definition genMemInstrs (r : option Z) (ropts : ropts_t) (limit : Z) : art insts :=
  isa ← gets ISA;
  let base x := bool_decide (r = Some x) in
  inst ← if base R_SP then set_regs [R_SP] isa
         else if base R_0_3 then set_regs (seqZ 0 4 ++ [R_SP]) isa
         else if base R_4_7 then set_regs (seqZ 4 4 ++ [R_SP]) isa
         else mret [];
  let mem_op := if base R_SP then STACK_OP else MEM_OP in
  let allow_fix := negb (base R_SP || base R_0_3 || base R_4_7) in
  dst_regs ← if allow_fix || isa then remove_py R_PC CANDIDATE_REGS else mret [R_0_3; R_4_7];
  let dst_regs := match r with Some x => remove_if_py x dst_regs | None => dst_regs end in
  let ask :=
    '(rcond, rsbit, _, _) ← extOptions ropts;
    opkind ← choice_py mem_op;
    dst_reg ← choice_py dst_regs;
    py (gen_single_inst_with_opkind opts.(opt_maxretry) isa (Some opkind) rcond rsbit r (Some dst_reg) allow_fix) in
  fill_loop (rounds limit opts.(opt_maxretry)) (more_than opts.(opt_maxretry)) ask each_line no_tail limit 0 0 inst.

(** ** 5. Blocks *)

(** The classes of base registers that a block of memory instructions uses. *)
Definition mem_regs (isa : bool) : list (option Z) :=
  [Some R_0_3; Some R_4_7; None] ++ (if isa then [Some R_8_12; Some R_SP] else []).

Definition genBlockInstrsWithLoadInsts (block : nat) (fsm : FSMType) : art unit :=
  limit ← getBlockLimit block;
  isa ← gets ISA;
  r ← choice_py (mem_regs isa);
  instrs ← genMemInstrs r no_ropts limit;
  append block (INST instrs).

(** [ctx[CTX.ISA] = b.isARM] *)
Definition use_isARM (b : nat) : art unit :=
  blk ← get_block b;
  match blk.(class_of) with RBlock _ _ _ isARM => modify (with_ISA isARM) | _ => fail PyRaise end.

(** The recursion over the structure that [makeRandomBlock] returned; the new
    state of the machine is chosen inside the loop over the arms. *)
Section with_load.
Context (gen : part → option FSMType → art (option FSMType)).
Fixpoint with_load_list (blocks : list part) (fsm : option FSMType) : art (option FSMType) :=
  match blocks with
  | [] => mret fsm
  | b :: blocks => fsm ← gen b fsm; with_load_list blocks fsm
  end.
End with_load.
Fixpoint with_load_part (b : part) (fsm : option FSMType) : art (option FSMType) :=
  match b with
  | Leaf b =>
      f ← nextFSM fsm;
      use_isARM b ;;
      genBlockInstrsWithLoadInsts b f ;;
      mret (Some f)
  | Arms l1 l2 =>
      n_fsm ← nextFSM fsm;
      s1 ← with_load_list with_load_part l1 (Some n_fsm);
      fsm ← choice_py [s1];
      n_fsm ← nextFSM fsm;
      s2 ← with_load_list with_load_part l2 (Some n_fsm);
      choice_py [s1; s2]
  end.
Definition genCodeBlocksWithLoadInsts (blocks : list part) (fsm : option FSMType) : art (option FSMType) :=
  with_load_list with_load_part blocks fsm.
End fill.
