(* ===== verification/PyFillSpec.v ===== *)
(** * What fills a basic block

    The loops end, every limit they get is a range, and what they append to a
    block is code for its instruction set that defines no label. *)
From Stdlib Require Import Ascii.
From S2P Require Import Prelude RitCommon InstrTable State RandomInstrGen Keeps Output Loop Api ParseRIT V1State V1Api Driver PyBase PyCode PyTree PyEmit PyEmitSpec PyAlu PyCodeSpec PyBlocks PyMake PyMakeSpec PyFill.
#[local] Open Scope Z_scope.

Section fill.
Context `{Env : !RitEnv} `{Py : !PyEnv} (opts : art_options).

(** ** 1. Code of a basic block *)

Record filler (a : bool) (i : insts) : Prop := {
  fi_good : group_good inst_ok a i;
  fi_defs : inst_defs i = []
}.

Lemma filler_nil a : filler a [].
Proof. split; [|done]. split; [constructor|done]. Qed.
Lemma filler_app a i1 i2 : filler a i1 → filler a i2 → filler a (i1 ++ i2).
Proof.
  intros [G1 D1] [G2 D2]. split; [by apply group_good_app|]. by rewrite inst_defs_app, D1, D2.
Qed.
Lemma filler_emitted a i : emitted a [] i → filler a i.
Proof. intros []. by split. Qed.

Lemma harmless_mode m x : harmless x → directive_mode m x.1 = m.
Proof.
  intros [_ H]. unfold directive_mode. destruct (String.eqb_spec x.1 ISA_A) as [E|_]; [by rewrite E in H; specialize (H eq_refl)|].
  destruct (String.eqb_spec x.1 ISA_T) as [E|_]; [|done]. rewrite E in H. by specialize (H eq_refl).
Qed.
Lemma harmless_defs i : Forall harmless i → inst_defs i = [].
Proof.
  induction 1 as [|x i [Hx _] _ IH]; [done|]. unfold inst_defs in *. cbn [flat_map]. rewrite IH, app_nil_r.
  destruct (String.eqb_spec x.2 ":") as [E|_]; [|done]. by rewrite E in Hx.
Qed.

(** An answer of the library. *)
Lemma filler_answer a kind op c dst i : of_kind a kind op → encodes dst c op i → filler a i.
Proof.
  intros Hk He. assert (Forall harmless i) as Hh by (by destruct He as (raw & text & pre & _ & _ & _ & Hh)).
  split; [|by apply harmless_defs]. apply group_good_plain, Forall_forall. intros x Hx. split.
  - right. by exists i, kind, op, c, dst.
  - apply harmless_mode. rewrite Forall_forall in Hh. by apply Hh.
Qed.

Lemma pure_request a kind rcond rsbit src dst allow_fix :
  kind ≠ "VFP_OP" →
  pure_py (λ r, ∀ i, r = Some i → filler a i)
    (py (gen_single_inst_with_opkind opts.(opt_maxretry) a (Some kind) rcond rsbit src dst allow_fix)).
Proof.
  intros Hk. apply pure_lib. intros d Hd. eapply wp_mono; [by apply wp_gen_single_inst_with_opkind|].
  intros r d' (Hd' & kind' & c & Hu & _ & Hr). destruct Hu as [[= <-]|[? _]]; [|done]. split; [done|].
  rewrite decide_False in Hr by done. intros i Hi. destruct (Hr i Hi) as (op & Ho & He). by eapply filler_answer.
Qed.

(** ** 2. The loop *)

(** So many failures in a row at most. *)
Definition gives_up (m : nat) (too_often : nat → bool) : Prop := ∀ r, (m ≤ r)%nat → too_often r = true.
Lemma more_than_gives_up maxretry : gives_up (S maxretry) (more_than maxretry).
Proof. intros r Hr. apply Nat.ltb_lt. lia. Qed.
Lemma at_least_gives_up maxretry : gives_up (S maxretry) (at_least maxretry).
Proof. intros r Hr. apply Nat.leb_le. lia. Qed.

Definition left_to_do (maxretry : nat) (limit cnt : Z) (retry : nat) : nat :=
  Z.to_nat (limit - cnt) * (maxretry + 2) - retry.

Lemma pure_fill_loop (good : insts → Prop) fuel maxretry too_often ask count tail limit cnt retry inst :
  (∀ i1 i2, good i1 → good i2 → good (i1 ++ i2)) → gives_up (S maxretry) too_often →
  pure_py (λ r, ∀ i, r = Some i → good i) ask → pure_py good tail → (∀ x i, 1 ≤ count (x :: i)) →
  good inst → (retry ≤ maxretry)%nat → (left_to_do maxretry limit cnt retry < fuel)%nat →
  pure_py good (fill_loop fuel too_often ask count tail limit cnt retry inst).
Proof.
  intros Happ Hgu Hask Htail Hcount. revert cnt retry inst. induction fuel as [|fuel IH]; intros cnt retry inst Hi Hr Hf; [lia|].
  cbn [fill_loop]. destruct (Z.ltb_spec cnt limit) as [Hlt|Hge]; [|by apply pure_ret].
  eapply pure_bind; [exact Hask|]. intros r Hgood. cbv beta in Hgood.
  assert (∀ cnt' retry' inst', good inst' → (retry' ≤ maxretry)%nat →
    cnt + 1 ≤ cnt' ∨ cnt' = cnt ∧ retry' = S retry →
    pure_py good (tail ≫= λ more, fill_loop fuel too_often ask count tail limit
      (cnt' + Z.of_nat (length more)) retry' (inst' ++ more))) as Hnext.
  { intros cnt' retry' inst' H1 H2 H3. eapply pure_bind; [exact Htail|]. intros more Hm.
    apply IH; [by apply Happ|done|]. unfold left_to_do in *. nia. }
  assert (∀ cnt' retry' inst', good inst' → (retry' ≤ S maxretry)%nat → cnt + 1 ≤ cnt' ∨ cnt' = cnt ∧ retry' = S retry →
    pure_py good (let '(cnt, retry) := if too_often retry' then (cnt' + 1, 0%nat) else (cnt', retry') in
     tail ≫= λ more, fill_loop fuel too_often ask count tail limit (cnt + Z.of_nat (length more)) retry (inst' ++ more))) as Hgive.
  { intros cnt' retry' inst' H1 H2 H3. destruct (too_often retry') eqn:E; apply Hnext; try done; [lia|lia|].
    destruct (decide (retry' = S maxretry)) as [-> |]; [|lia]. by rewrite Hgu in E. }
  destruct r as [[|x ret]|]; [by apply Hgive; [|lia|right]| |by apply Hgive; [|lia|right]].
  apply Hgive; [|lia|left; specialize (Hcount x ret); lia]. apply Happ; [done|]. by apply Hgood.
Qed.

(** ** 3. Memory instructions *)

(** The registers that are set before the instructions of a class of base registers,
    and a word-aligned address in the window of [getMemLimit]. *)
Definition base_regs (r : option Z) : list Z :=
  if bool_decide (r = Some R_SP) then [R_SP]
  else if bool_decide (r = Some R_0_3) then [0; 1; 2; 3; R_SP]
  else if bool_decide (r = Some R_4_7) then [4; 5; 6; 7; R_SP]
  else [].
Definition base_value (v : Z) : Prop := getMemLimit.1 ≤ v ≤ getMemLimit.2 ∧ v mod 4 = 0.
Definition load_base (isARM : bool) (r v : Z) : insts := [("ldr" +:+ wide isARM, reg r +:+ ", =0x" +:+ hex v)].
Definition load_bases (isARM : bool) (rs vs : list Z) : insts := concat (zip_with (load_base isARM) rs vs).

Lemma filler_load_bases a rs vs : filler a (load_bases a rs vs).
Proof.
  unfold load_bases. revert vs. induction rs as [|r rs IH]; intros [|v vs]; cbn [zip_with concat]; [apply filler_nil..|].
  apply filler_app; [|apply IH]. apply filler_emitted. destruct a; by apply emitted_intro.
Qed.

Lemma pure_set_regs rs a :
  pure_py (λ i, ∃ vs, length vs = length rs ∧ Forall base_value vs ∧ i = load_bases a rs vs) (set_regs rs a).
Proof.
  apply (pure_for_values base_value). intros j. unfold setReg. eapply pure_bind; [by apply pure_randint|]. intros v Hv. cbv beta in Hv.
  apply pure_ret. exists (v / 4 * 4). split; [|done]. unfold base_value, getMemLimit in *. cbn in *.
  rewrite Z.mod_mul by done. Z.div_mod_to_equations. lia.
Qed.

(** What the loop has before it starts stays in front. *)
Lemma fill_loop_prefix fuel too_often ask count tail limit cnt retry pre inst s :
  fill_loop fuel too_often ask count tail limit cnt retry (pre ++ inst) s
  = (rest ← fill_loop fuel too_often ask count tail limit cnt retry inst; mret (pre ++ rest)) s.
Proof.
  revert cnt retry inst s. induction fuel as [|fuel IH]; intros cnt retry inst s; [done|]. cbn [fill_loop].
  destruct (cnt <? limit); [|done]. unfold mbind, M_bind in *. destruct (ask s) as [ret s1|]; [|done].
  destruct ret as [[|x ret]|]; rewrite <- ?app_assoc; destruct (too_often _); destruct (tail s1) as [more s2|]; try done;
    rewrite <- app_assoc; apply IH.
Qed.

Lemma pure_ext l : l = None → pure_py (λ _ : option Z, True) (ext l).
Proof. intros ->. by apply pure_ret. Qed.

Lemma nonempty_remove_if (x : Z) l : (2 ≤ length l)%nat → remove_if_py x l ≠ [].
Proof. intros Hl E. pose proof (length_remove_if x l) as H. rewrite E in H. cbn in H. lia. Qed.

(** The base registers are set, then instructions of the library follow. *)
Definition mem_instrs (r : option Z) (a : bool) (i : insts) : Prop :=
  ∃ vs rest, length vs = length (base_regs r) ∧ Forall base_value vs ∧ i = load_bases a (base_regs r) vs ++ rest ∧ filler a rest.

Lemma filler_mem_instrs r a i : mem_instrs r a i → filler a i.
Proof. intros (vs & rest & _ & _ & -> & Hr). apply filler_app; [apply filler_load_bases|done]. Qed.

Lemma pure_with_prefix (good : insts → Prop) pre fuel too_often ask count tail limit cnt retry :
  pure_py good (fill_loop fuel too_often ask count tail limit cnt retry []) →
  pure_py (λ i, ∃ rest, i = pre ++ rest ∧ good rest) (fill_loop fuel too_often ask count tail limit cnt retry pre).
Proof.
  intros H s Hs. destruct (wp_elim _ _ _ (H s Hs)) as (rest & s' & E & Hg & Hs' & Hc).
  apply (wp_intro _ _ _ (pre ++ rest) s'); [|split; [by exists rest|done]].
  rewrite <- (app_nil_r pre) at 1. rewrite fill_loop_prefix. unfold mbind, M_bind. by rewrite E.
Qed.

Lemma wp_genMemInstrs r limit s :
  lib_ready s →
  wp (genMemInstrs opts r no_ropts limit) (λ i s', mem_instrs r s.(ISA) i ∧ lib_ready s' ∧ same_ctx s s') s.
Proof.
  apply (pure_gets ISA _ (mem_instrs r)). intros a. cbv zeta.
  set (fix_ := negb _). set (mem_op := if bool_decide (r = Some R_SP) then STACK_OP else MEM_OP).
  eapply (pure_bind (λ i, ∃ vs, length vs = length (base_regs r) ∧ Forall base_value vs ∧ i = load_bases a (base_regs r) vs)).
  { unfold base_regs. repeat (case_bool_decide; [apply pure_set_regs|]). apply pure_ret. by exists []. }
  intros inst (vs & Hlen & Hvs & ->). eapply (pure_bind (λ l, 2 ≤ length l)%nat).
  { destruct (fix_ || a); [|by apply pure_ret; cbn; lia].
    eapply pure_mono; [|apply pure_remove; do 5 right; by left]. cbv beta. intros l Hl. apply Permutation_length in Hl.
    cbn in Hl. lia. }
  intros dst_regs Hdst. eapply pure_mono; [|apply (pure_with_prefix (filler a))].
  { cbv beta. intros i (rest & -> & Hr). by exists vs, rest. }
  apply (pure_fill_loop (filler a) _ opts.(opt_maxretry)); [apply filler_app|apply more_than_gives_up| |apply pure_ret, filler_nil|unfold each_line; cbn; lia|apply filler_nil|lia|].
  - unfold extOptions. cbn [ro_cond ro_sbit ro_src_reg ro_dst_reg no_ropts].
    eapply (pure_bind (λ _, True)).
    { do 4 (eapply pure_bind; [by apply pure_ext|]; intros ? _). by apply pure_ret. }
    intros [[[rcond rsbit] ?] ?] _.
    eapply pure_bind; [apply (pure_choice mem_op); subst mem_op; by destruct (bool_decide _)|]. intros kind Hk.
    eapply (pure_bind (λ _, True)).
    { eapply pure_mono; [|apply pure_choice]; [done|]. destruct r; [by apply nonempty_remove_if|]. intros ->. cbn in Hdst. lia. }
    intros dst _. apply pure_request. subst mem_op. destruct (bool_decide _); cases_in Hk; done.
  - unfold left_to_do, rounds. rewrite Z.sub_0_r. lia.
Qed.

(** ** 4. How many instructions *)

(** The numbers of instructions that [getBlockLimit] may choose for the block with
    this label, when [bbs] are the basic blocks. *)
Definition block_range (bbs : gmap string (option Z)) (label : string) (limit : Z) : Prop :=
  let n := Z.of_nat (size bbs) in
  let lo := if n <? 10 then opts.(opt_num) / n else 10 in
  let hi := if n <? 10 then opts.(opt_instr_limit) + lo else opts.(opt_instr_limit) / 2 + 10 in
  lo ≤ limit ≤ default hi (mjoin (bbs !! label)).

(** The number of basic blocks, and the limits that branches set. *)
Definition limits_fit (s : art_state) : Prop :=
  1 ≤ Z.of_nat (size s.(BB)) ∧ ∀ l v, s.(BB) !! l = Some (Some v) → v = 32 ∧ 5 ≤ Z.of_nat (size s.(BB)).
(** Options for which every range of instruction counts is one. *)
Definition limits_ok : Prop := 0 ≤ opts.(opt_num) ≤ 164 ∧ 0 ≤ opts.(opt_instr_limit).

Lemma wp_getBlockLimit b l s :
  lib_ready s → labelled s b l → limits_fit s → limits_ok →
  wp (getBlockLimit opts b) (λ n s', block_range s.(BB) l n ∧ lib_ready s' ∧ same_ctx s s') s.
Proof.
  intros Hs Hl [H1 Hlim] [[Hn0 Hn] Hi]. unfold getBlockLimit. apply wp_bind, wp_gets.
  set (n := Z.of_nat (size s.(BB))) in *. apply wp_bind.
  set (lo := if n <? 10 then opts.(opt_num) / n else 10).
  set (hi := if n <? 10 then opts.(opt_instr_limit) + lo else opts.(opt_instr_limit) / 2 + 10).
  eapply (wp_mono _ (λ p s', s' = s ∧ p = (lo, hi) ∧ 0 ≤ lo ≤ hi ∧ (5 ≤ n → lo ≤ 32))).
  - subst hi lo. destruct (Z.ltb_spec n 10) as [Hlt|Hge].
    + destruct (Z.eqb_spec n 0); [lia|]. apply wp_ret.
      pose proof (Z.div_pos opts.(opt_num) n Hn0 ltac:(lia)). do 2 (split; [done|]). split; [lia|]. intros H5.
      apply Z.lt_succ_r, Z.div_lt_upper_bound; lia.
    + apply wp_ret. pose proof (Z.div_pos opts.(opt_instr_limit) 2). do 2 (split; [done|]). lia.
  - intros p s' (-> & -> & Hr & H5). apply wp_bind. eapply wp_label_of; [exact Hl|].
    eapply wp_mono; [apply pure_randint; [|done]|].
    { destruct (s.(BB) !! l) as [[v|]|] eqn:E; cbn; [|lia..]. destruct (Hlim l v E) as [-> ?]. auto. }
    by intros v s' (Hv & ? & ?).
Qed.

(** ** 5. A basic block *)

Lemma pure_nextFSM fsm : pure_py (λ _, True) (nextFSM fsm).
Proof.
  unfold nextFSM. destruct fsm as [[]|]; try (by apply pure_ret); (eapply pure_mono; [|by apply pure_choice]; done).
Qed.

(** The code of the basic block with this label and instruction set: what one run
    of [genMemInstrs] answered in the context of that block, for a class of base
    registers and a number of instructions that the block may have. *)
Record mem_code (bbs : gmap string (option Z)) (label : string) (a : bool) (i : insts) : Prop := {
  mc_run : ∃ r limit s1 s2, s1.(ISA) = a ∧ s1.(BB) = bbs ∧ lib_ready s1 ∧ r ∈ mem_regs a ∧ block_range bbs label limit
             ∧ genMemInstrs opts r no_ropts limit s1 = Ok i s2;
  mc_filler : filler a i
}.

Lemma wp_genBlockInstrsWithLoadInsts b fsm k l n a c s :
  lib_ready s → s.(store) !! b = Some (Mk_block (RBlock k l n a) c) → limits_fit s → limits_ok → s.(ISA) = a →
  wp (genBlockInstrsWithLoadInsts opts b fsm)
     (λ _ s', ∃ i, mem_code s.(BB) l a i ∧ lib_ready s'
        ∧ same_ctx (with_store (<[b := Mk_block (RBlock k l n a) (c ++ [INST i])]> s.(store)) s) s') s.
Proof.
  intros Hs Hb Hfit Hok Ha. unfold genBlockInstrsWithLoadInsts. apply wp_bind.
  eapply wp_mono; [apply (wp_getBlockLimit _ l); try done; by eexists _, _, _, _|]. intros limit s1 (Hlim & Hs1 & E1).
  apply wp_bind, wp_gets. assert (s1.(ISA) = a) as -> by by rewrite E1. apply wp_bind.
  eapply wp_pure; [by apply pure_choice|done|]. intros r d1 Hr Hd1. apply wp_bind.
  destruct (wp_elim _ _ _ (wp_genMemInstrs r limit (with_rit d1 s1) Hd1)) as (i & s2 & Erun & Hi & Hs2 & E2).
  apply (wp_intro _ _ _ _ _ Erun).
  assert (s2.(ISA) = a ∧ s2.(store) = s.(store)) as [_ Est] by (rewrite E2, E1; done).
  assert (ISA (with_rit d1 s1) = a) as Ei by by rewrite E1.
  unfold append, get_block, set_block, wp, mbind, M_bind, modify. rewrite Est, Hb. exists i. split.
  { split; [|rewrite Ei in Hi; by eapply filler_mem_instrs]. exists r, limit, (with_rit d1 s1), s2. do 2 (split; [by rewrite E1|]). done. }
  split; [done|]. unfold same_ctx. cbn. rewrite E2, E1. done.
Qed.
End fill.
