(* ===== verification/PyFillTree.v ===== *)
(** * Every basic block is filled once

    The recursion of genCodeBlocksWithLoadInsts over the structure that
    makeRandomBlock returned, as an operation on trees: each basic block gets one
    group of instructions for its instruction set, and nothing else changes. *)
From Stdlib Require Import Ascii.
From S2P Require Import Prelude RitCommon InstrTable State RandomInstrGen Keeps Output Loop Api ParseRIT V1State V1Api Driver PyBase PyCode PyTree PyEmit PyEmitSpec PyAlu PyBlocks PyMake PyMakeSpec PyFill PyFillSpec.
#[local] Open Scope Z_scope.

(** ** 1. Filled trees *)

Definition sub_map (f : rtree → rtree) (it : item rtree) : item rtree :=
  match it with Sub t => Sub (f t) | Code i => Code i | Direct d => Direct d end.
(** The code that fills the block [id]. *)
Definition added (F : gmap nat insts) (id : nat) : list (item rtree) :=
  match F !! id with Some i => [Code i] | None => [] end.
Fixpoint fill (F : gmap nat insts) (t : rtree) : rtree :=
  match t with
  | Node id k l a n items =>
      Node id k l a n (map (λ it, match it with Sub t => Sub (fill F t) | Code i => Code i | Direct d => Direct d end) items
                       ++ added F id)
  end.

Lemma fill_items F t : t_items (fill F t) = map (sub_map (fill F)) (t_items t) ++ added F (t_id t).
Proof. by destruct t. Qed.
Lemma fill_id F t : t_id (fill F t) = t_id t.
Proof. by destruct t. Qed.
Lemma fill_kind F t : t_kind (fill F t) = t_kind t.
Proof. by destruct t. Qed.
Lemma fill_label F t : t_label (fill F t) = t_label t.
Proof. by destruct t. Qed.
Lemma fill_isARM F t : t_isARM (fill F t) = t_isARM t.
Proof. by destruct t. Qed.

Lemma subs_app l1 l2 : subs (l1 ++ l2) = subs l1 ++ subs l2.
Proof. apply flat_map_app. Qed.
Lemma subs_added F id : subs (added F id) = [].
Proof. unfold added. by destruct (F !! id). Qed.
Lemma subs_map f its : subs (map (sub_map f) its) = map f (subs its).
Proof. unfold subs. induction its as [|it its IH]; [done|]. cbn. rewrite IH, map_app. by destruct it. Qed.
Lemma fill_subs F t : subs (t_items (fill F t)) = map (fill F) (subs (t_items t)).
Proof. by rewrite fill_items, subs_app, subs_added, app_nil_r, subs_map. Qed.

(** Induction over the parts. *)
Lemma rtree_subs_ind (P : rtree → Prop) : (∀ t, Forall P (subs (t_items t)) → P t) → ∀ t, P t.
Proof.
  intros H t. induction t as [id k l a n items IH] using rtree_ind'. apply H. cbn [t_items].
  induction IH as [|[t|i|d] items Hx _ IHi]; cbn; auto.
Qed.

Lemma fill_nodes F t : nodes (fill F t) = map (fill F) (nodes t).
Proof.
  induction t as [t IH] using rtree_subs_ind. rewrite (nodes_subs t), nodes_subs, fill_subs. cbn [map]. f_equal.
  induction IH as [|x l Hx _ IHl]; [done|]. cbn. by rewrite Hx, map_app, IHl.
Qed.
Lemma fill_ids F t : ids (fill F t) = ids t.
Proof. unfold ids. rewrite fill_nodes, map_map. apply map_ext. apply fill_id. Qed.

Lemma fill_block F t :
  block_of (fill F t) = Mk_block (RBlock (t_kind t) (t_label t) 0 (t_isARM t)) (map item_code (t_items t) ++ map item_code (added F (t_id t))).
Proof.
  unfold block_of. rewrite fill_items, fill_kind, fill_label, fill_isARM, map_app, map_map. do 2 f_equal. apply map_ext.
  intros [t'|i|d]; [|done..]. cbn. by rewrite fill_id.
Qed.

Lemma represents_fill st F t : represents st (fill F t) ↔ Forall (λ n, st !! t_id n = Some (block_of (fill F n))) (nodes t).
Proof.
  unfold represents. rewrite fill_nodes. split.
  - intros H. rewrite Forall_fmap in H. eapply Forall_impl; [exact H|]. cbn. intros n. by rewrite fill_id.
  - intros H. apply Forall_fmap. eapply Forall_impl; [exact H|]. cbn. intros n. by rewrite fill_id.
Qed.

Lemma fill_empty t : fill ∅ t = t.
Proof.
  induction t as [id k l a n items IH] using rtree_ind'. cbn. unfold added. rewrite lookup_empty, app_nil_r. f_equal.
  induction IH as [|[t|i|d] items Hx _ IHl]; cbn; f_equal; try done. by f_equal.
Qed.

(** Filling one more block. *)
Lemma represents_fill_insert st F t b n i :
  represents st (fill F t) → NoDup (ids t) → n ∈ nodes t → t_id n = b → F !! b = None →
  represents (<[b := Mk_block (RBlock (t_kind n) (t_label n) 0 (t_isARM n)) (map item_code (t_items n) ++ [INST i])]> st)
    (fill (<[b := i]> F) t).
Proof.
  rewrite !represents_fill. intros R Hnd Hn <- HF. rewrite Forall_forall in R |- *. intros m Hm.
  rewrite fill_block. destruct (decide (t_id m = t_id n)) as [E|Hne].
  - assert (m = n) as ->.
    { unfold ids in Hnd. apply list_elem_of_lookup in Hm as [j1 H1], Hn as [j2 H2].
      assert (j1 = j2) as ->; [|congruence]. eapply NoDup_lookup; [exact Hnd|..]; rewrite list_lookup_fmap.
      - by rewrite H1; cbn.
      - rewrite H2; cbn. by rewrite E. }
    rewrite list_lookup_insert_eq by (by eapply lookup_lt_Some, R). unfold added. by rewrite lookup_insert_eq.
  - rewrite list_lookup_insert_ne by done. rewrite (R m Hm), fill_block. unfold added. by rewrite lookup_insert_ne.
Qed.

(** ** 2. The recursion *)

Lemma part_ind' (P : part → Prop) :
  (∀ b, P (Leaf b)) → (∀ l1 l2, Forall P l1 → Forall P l2 → P (Arms l1 l2)) → ∀ p, P p.
Proof.
  intros H1 H2. fix IH 1. intros [b|l1 l2]; [apply H1|]. apply H2.
  - induction l1; constructor; [apply IH|done].
  - induction l2; constructor; [apply IH|done].
Qed.

Section recursion.
Context `{Env : !RitEnv} `{Py : !PyEnv} (opts : art_options) (t : rtree) (s0 : art_state).

(** The blocks of [F] are filled. *)
Record filled (F : gmap nat insts) (s : art_state) : Prop := {
  fd_repr : represents s.(store) (fill F t);
  fd_nest : s.(nest) = s0.(nest);
  fd_BB : s.(BB) = s0.(BB);
  fd_reg : s.(REGALLOC) = s0.(REGALLOC);
  fd_lib : lib_ready s;
  fd_len : length s.(store) = length s0.(store);
  fd_old : ∀ i, i ∉ ids t → s.(store) !! i = s0.(store) !! i;
  fd_code : ∀ b i, F !! b = Some i → ∃ n, n ∈ leaves t ∧ t_id n = b ∧ mem_code opts s0.(BB) (t_label n) (t_isARM n) i
}.

Context (Hnd : NoDup (ids t)) (Hfit : limits_fit s0) (Hok : limits_ok opts).

Lemma filled_pure {A} (P : A → Prop) (m : art A) F s Q :
  pure_py P m → filled F s → (∀ v s', P v → filled F s' → Q v s') → wp m Q s.
Proof.
  intros Hm I HQ. eapply wp_pure; [exact Hm|apply I|]. intros v d Hv Hd. apply HQ; [done|]. destruct I. by split.
Qed.

(** One basic block. *)
Lemma fill_leaf b fsm F s :
  filled F s → b ∈ map t_id (leaves t) → F !! b = None →
  wp (use_isARM b ;; genBlockInstrsWithLoadInsts opts b fsm)
     (λ _ s', ∃ i, filled (<[b := i]> F) s') s.
Proof.
  intros I (n & -> & Hn)%list_elem_of_fmap HF. pose proof Hn as [_ Hn']%list_elem_of_filter.
  pose proof (proj1 (represents_fill _ _ _) (fd_repr _ _ I)) as R. rewrite Forall_forall in R.
  specialize (R n Hn'). rewrite fill_block in R. unfold added in R. rewrite HF, app_nil_r in R.
  apply wp_bind. unfold use_isARM. apply wp_bind. unfold wp at 1, get_block. rewrite R. cbn [class_of].
  apply wp_modify. destruct I as [Hr Hne Hbb Hreg Hlib Hlen Hold Hcode].
  eapply wp_mono; [eapply wp_genBlockInstrsWithLoadInsts; [done|exact R| |done|done]|].
  { unfold limits_fit in *. cbn. by rewrite Hbb. }
  intros [] s' (i & Hi & Hs' & E). exists i. cbn [BB with_ISA] in Hi. rewrite Hbb in Hi. rewrite E. split; cbn; try done.
  - by apply represents_fill_insert.
  - by rewrite length_insert.
  - intros j Hj. rewrite list_lookup_insert_ne; [by apply Hold|]. intros <-. apply Hj. by apply list_elem_of_fmap_2.
  - intros b' i'. destruct (decide (b' = t_id n)) as [-> |Hne'].
    + rewrite lookup_insert_eq. intros [= <-]. by exists n.
    + rewrite lookup_insert_ne by done. apply Hcode.
Qed.

(** The basic blocks [l] are not filled yet, and after [m] they are. *)
Definition fills {A} (m : art A) (l : list nat) : Prop :=
  ∀ F s, filled F s → NoDup l → (∀ b, b ∈ l → b ∈ map t_id (leaves t) ∧ F !! b = None) →
    wp m (λ _ s', ∃ F', filled F' s' ∧ dom F' = dom F ∪ list_to_set l) s.

Lemma fills_bind {A B} (m : art A) (k : A → art B) l1 l2 :
  fills m l1 → (∀ v, fills (k v) l2) → fills (m ≫= k) (l1 ++ l2).
Proof.
  intros Hm Hk F s I (N1 & N12 & N2)%NoDup_app Hl. apply wp_bind.
  eapply wp_mono; [apply (Hm F s I N1); intros b Hb; apply Hl, elem_of_app; by left|].
  intros v s1 (F1 & I1 & E1). eapply wp_mono; [apply (Hk v F1 s1 I1 N2)|].
  - intros b Hb. destruct (Hl b) as [H1 H2]; [apply elem_of_app; by right|]. split; [done|].
    apply not_elem_of_dom. rewrite E1. apply not_elem_of_dom in H2. intros [?|Hb'%elem_of_list_to_set]%elem_of_union; [done|].
    by apply (N12 b).
  - intros w s2 (F2 & I2 & E2). exists F2. split; [done|]. by rewrite E2, E1, list_to_set_app_L, union_assoc_L.
Qed.
Lemma fills_pure {A B} (P : A → Prop) (m : art A) (k : A → art B) l :
  pure_py P m → (∀ v, fills (k v) l) → fills (m ≫= k) l.
Proof.
  intros Hm Hk F s I N Hl. apply wp_bind. eapply filled_pure; [exact Hm|exact I|]. intros v s1 _ I1. by apply Hk.
Qed.
Lemma fills_nil {A} (P : A → Prop) (m : art A) : pure_py P m → fills m [].
Proof.
  intros Hm F s I _ _. eapply filled_pure; [exact Hm|exact I|]. intros v s1 _ I1. exists F. split; [done|]. cbn. by rewrite union_empty_r_L.
Qed.

Lemma fills_list l fsm :
  Forall (λ p, ∀ fsm, fills (with_load_part opts p fsm) (part_ids p)) l →
  fills (with_load_list (with_load_part opts) l fsm) (parts_ids l).
Proof.
  intros H. revert fsm. induction H as [|p l Hp _ IH]; intros fsm; cbn [with_load_list].
  - by apply (fills_nil (λ _, True)), pure_ret.
  - by apply fills_bind.
Qed.

Lemma fills_part p : ∀ fsm, fills (with_load_part opts p fsm) (part_ids p).
Proof.
  induction p as [b|l1 l2 IH1 IH2] using part_ind'; intros fsm; cbn [with_load_part part_ids].
  - eapply fills_pure; [apply pure_nextFSM|]. intros f F s I _ Hb. destruct (Hb b) as [H1 H2]; [by left|].
    assert (wp ((use_isARM b ;; genBlockInstrsWithLoadInsts opts b f) ;; mret (Some f))
      (λ _ s', ∃ F', filled F' s' ∧ dom F' = dom F ∪ list_to_set [b]) s) as W.
    { apply wp_bind. eapply wp_mono; [by apply fill_leaf|]. intros [] s' [i I']. apply wp_ret. exists (<[b := i]> F).
      split; [done|]. rewrite dom_insert_L, union_comm_L. cbn. by rewrite union_empty_r_L. }
    unfold wp, mbind, M_bind in *. by destruct (use_isARM b s).
  - eapply fills_pure; [apply pure_nextFSM|]. intros f1. apply fills_bind; [by apply fills_list|]. intros s1.
    eapply fills_pure; [by apply pure_choice|]. intros f2. eapply fills_pure; [apply pure_nextFSM|]. intros f3.
    rewrite <- (app_nil_r (flat_map part_ids l2)). apply fills_bind; [by apply fills_list|]. intros s2.
    eapply fills_nil. by apply pure_choice.
Qed.

Lemma fill_all l fsm s :
  filled ∅ s → parts_ids l = map t_id (leaves t) →
  wp (genCodeBlocksWithLoadInsts opts l fsm) (λ _ s', ∃ F, filled F s' ∧ dom F = list_to_set (map t_id (leaves t))) s.
Proof.
  intros I Hl. eapply wp_mono.
  - apply (fills_list l fsm); [by apply Forall_forall; intros p _; apply fills_part|exact I| |].
    + rewrite Hl. eapply sublist_NoDup; [exact Hnd|]. apply fmap_sublist, sublist_filter.
    + intros b Hb. rewrite <- Hl. split; [done|]. apply lookup_empty.
  - cbv beta. intros v s' (F & IF & E). exists F. split; [done|]. by rewrite E, Hl, dom_empty_L, union_empty_l_L.
Qed.
End recursion.

(** ** 3. Filled trees are well formed *)

Section wf.
Context `{Env : !RitEnv} `{Py : !PyEnv}.

Lemma items_good_app m its1 m1 its2 m2 :
  items_good inst_ok m its1 m1 → items_good inst_ok m1 its2 m2 → items_good inst_ok m (its1 ++ its2) m2.
Proof.
  revert m. induction its1 as [|it its1 IH]; intros m; cbn [items_good app]; [by intros ->|].
  intros (m' & H1 & H2) H3. exists m'. split; [done|]. by apply IH.
Qed.

(** The code that fills a block is for its instruction set. *)
Definition fits (F : gmap nat insts) (n : rtree) : Prop := ∀ i, F !! t_id n = Some i → filler (t_isARM n) i.

Lemma fill_names_wf F n : fits F n → names_wf n → names_wf (fill F n).
Proof.
  intros Hf (ss & Hn & Hs). exists ss. split; [|done]. rewrite fill_label, <- Hn, fill_items, flat_map_app.
  assert (flat_map item_names (added F (t_id n)) = []) as ->.
  { unfold added. destruct (F !! t_id n) as [i|] eqn:E; [|done]. cbn. rewrite app_nil_r. apply (Hf i E). }
  rewrite app_nil_r. clear Hn. induction (t_items n) as [|it its IH]; [done|]. cbn [map flat_map]. rewrite IH. f_equal.
  destruct it; cbn; [by rewrite fill_label|done..].
Qed.

Lemma fill_modes_wf F n : fits F n → modes_wf inst_ok n → modes_wf inst_ok (fill F n).
Proof.
  intros Hf Hm. unfold modes_wf. rewrite fill_isARM, fill_items. eapply items_good_app.
  - revert Hm. unfold modes_wf. generalize (t_isARM n) at 1 3. induction (t_items n) as [|it its IH]; intros m; [done|].
    cbn [map items_good]. intros (m1 & H1 & H2). exists m1. split; [|by apply IH].
    destruct it; cbn in *; [by rewrite fill_isARM|done..].
  - unfold added. destruct (F !! t_id n) as [i|] eqn:E; [|done]. exists (t_isARM n). split; [|done].
    split; [apply (Hf i E)|done].
Qed.

Lemma filled_fits opts t s0 F s n : NoDup (ids t) → filled opts t s0 F s → n ∈ nodes t → fits F n.
Proof.
  intros Hnd I Hn i Hi. destruct (fd_code _ _ _ _ _ I _ _ Hi) as (m & [_ Hm]%list_elem_of_filter & E & [_ Hf]).
  assert (m = n) as ->; [|done]. unfold ids in Hnd. apply list_elem_of_lookup in Hm as [j1 H1], Hn as [j2 H2].
  assert (j1 = j2) as ->; [|congruence]. eapply NoDup_lookup; [exact Hnd|..]; rewrite list_lookup_fmap.
  - by rewrite H1.
  - rewrite H2; cbn. by rewrite E.
Qed.

Lemma on_sub_subs (P : rtree → Prop) its : Forall P (subs its) → Forall (on_sub P) its.
Proof.
  unfold subs. induction its as [|it its IH]; [constructor|]. cbn. intros [H1 H2]%Forall_app. constructor; [|by apply IH].
  destruct it; [|done..]. by apply Forall_cons in H1 as [? _].
Qed.

Lemma filled_wf opts t s0 F s :
  tree_wf t → NoDup (ids t) → filled opts t s0 F s →
  Forall names_wf (nodes (fill F t)) ∧ Forall (modes_wf inst_ok) (nodes (fill F t))
  ∧ Forall (λ n, Forall (on_sub (λ t', t_id n < t_id t')%nat) (t_items n)) (nodes (fill F t)).
Proof.
  intros Hwf Hnd I. unfold tree_wf in Hwf. rewrite fill_nodes, !Forall_fmap. rewrite Forall_forall in Hwf.
  split; [|split]; apply Forall_forall; intros n Hn; cbn.
  - apply fill_names_wf; [by eapply filled_fits|]. by apply nw_names, Hwf.
  - apply fill_modes_wf; [by eapply filled_fits|]. by apply nw_modes, Hwf.
  - apply on_sub_subs. rewrite fill_subs, Forall_fmap. eapply Forall_impl; [apply (nw_order n), Hwf, Hn|].
    cbn. intros t'. by rewrite !fill_id.
Qed.
End wf.

(** ** 4. As many basic blocks as labels *)

Lemma node_labels t : map t_label (nodes t) `sublist_of` defs (lines t).
Proof.
  induction t as [id k l a n items IH] using rtree_ind'. rewrite lines_eq, !defs_app, nodes_eq. cbn [t_items t_label map].
  cbn [defs head_lines flat_map line_defs app]. apply sublist_skip.
  apply sublist_inserts_r. unfold defs at 1. cbn [t_label].
  induction IH as [|it items Hit _ IHi]; [constructor|]. cbn [flat_map]. rewrite map_app, flat_map_app.
  apply sublist_app; [|done]. destruct it; cbn in *; [done|apply sublist_nil_l..].
Qed.

Lemma leaf_labels_nodup t : Forall names_wf (nodes t) → NoDup (map t_label (leaves t)).
Proof.
  intros [H _]%tree_labels. eapply sublist_NoDup; [exact H|]. etrans; [|apply node_labels].
  apply fmap_sublist, sublist_filter.
Qed.

Lemma size_BB L t B : Forall names_wf (nodes t) → bb_ok L ∅ [t] B → size B = length (leaves t).
Proof.
  intros Hn%leaf_labels_nodup [Hd _]. rewrite <- (size_dom (D := gset string)).
  assert (dom B = list_to_set (map t_label (leaves t)) :> gset string) as ->.
  { apply set_eq. intros l. rewrite elem_of_dom, Hd, elem_of_list_to_set. unfold leaf_labels. cbn. rewrite app_nil_r.
    rewrite lookup_empty. split; [by intros [[? ?]|?]|by right]. }
  rewrite size_list_to_set by done. apply length_map.
Qed.
