(* ===== verification/PyInstrs.v ===== *)
(** * The other way of filling: art/instrgen.py, genCodeBlocks and what it calls

    art.py can fill the basic blocks with instructions of all kinds instead of
    loads (the call is commented out there): the state machine of PyFill.v then
    decides what a block contains.  In Thumb code instructions are put into
    if-then blocks; the theorem of this file is about these. *)
From Stdlib Require Import Ascii.
From S2P Require Import Prelude RitCommon InstrTable State RandomInstrGen Keeps Output Loop Api ParseRIT V1State V1Api Driver PyBase PyCode PyTree PyEmit PyEmitSpec PyAlu PyBlocks PyMake PyMakeSpec PyFill PyFillSpec.
#[local] Open Scope Z_scope.

(** ** 1. Text *)

(** [int(rest, 16)] of digits, with or without [0x]; Python raises an exception
    for other text. *)
Definition int_16 (str : string) : option Z :=
  let digits := if String.prefix "0x" str then str_drop 2 str else str in
  if String.eqb digits "" then None else read_digits 0 digits.

(** [op[:op.index('.')]] and [op[op.index('.'):]] *)
Fixpoint split_dot (op : string) : string * string :=
  match op with
  | EmptyString => ("", "")
  | String c rest => if Ascii.eqb c "."%char then ("", op) else let '(a, b) := split_dot rest in (String c a, b)
  end.
Fixpoint has_dot (op : string) : bool :=
  match op with EmptyString => false | String c op => Ascii.eqb c "."%char || has_dot op end.

(** [mask.replace('e', 't')], and the letters of a mask. *)
Fixpoint replace_e (mask : string) : string :=
  match mask with
  | EmptyString => ""
  | String c mask => String (if Ascii.eqb c "e"%char then "t"%char else c) (replace_e mask)
  end.

Section instrs.
Context `{Env : !RitEnv} `{Py : !PyEnv} (opts : art_options).

(** ** 2. If-then blocks *)

(** The instruction in an if-then block; [gen] is [genInstrs] with limit 1.  The
    loop counts an invalid answer twice. *)
Definition it_valid (rinstr : insts) : art bool :=
  match rinstr with
  | [(op, rest)] =>
      if String.eqb op ".inst.n" then hexcode ← or_raise (int_16 rest); mret (negb (hexcode <? 64)) else mret true
  | _ => mret false
  end.
Fixpoint it_instr_loop (fuel : nat) (gen : art insts) (retry : Z) : art insts :=
  match fuel with
  | O => fail OutOfFuel
  | S fuel =>
      if retry <? 8 then
        rinstr ← gen;
        match rinstr with
        | [] => it_instr_loop fuel gen (retry + 1)
        | _ =>
            valid ← it_valid rinstr;
            if valid : bool then mret rinstr else it_instr_loop fuel gen (retry + 1 + 1)
        end
      else mret []
  end.
Definition genITInstr (gen : art insts) : art insts := it_instr_loop 9 gen 0.

Definition it_masks (n : Z) : list string :=
  if n =? 1 then take 1 IT_MASK
  else if n =? 2 then take 2 (drop 1 IT_MASK)
  else if n =? 3 then take 4 (drop 3 IT_MASK)
  else if n =? 4 then drop 7 IT_MASK
  else IT_MASK.

(** [it_cond] after the first entry. *)
Fixpoint it_cond_rest (firstcond : Z) (mask : string) : art (list string) :=
  match mask with
  | EmptyString => mret []
  | String c mask =>
      cond ← or_raise (CondCode !! Z.to_nat (if Ascii.eqb c "e"%char then Z.lxor firstcond 1 else firstcond));
      conds ← it_cond_rest firstcond mask;
      mret (cond :: conds)
  end.

Definition with_cond (op cond : string) : string :=
  if String.eqb op ".inst.n" || String.eqb op ".inst.w" then op
  else if has_dot op then let '(a, b) := split_dot op in a +:+ cond +:+ b
  else op +:+ cond.

(** [for i in range(n): op, rest = instr[i]; ... it_cond[i]] *)
Fixpoint it_body (n : nat) (instr : insts) (it_cond : list string) : art insts :=
  match n with
  | O => mret []
  | S n =>
      match instr, it_cond with
      | (op, rest) :: instr, cond :: it_cond => l ← it_body n instr it_cond; mret ((with_cond op cond, rest) :: l)
      | _, _ => fail PyRaise
      end
  end.

Definition genThumbIT (gen : art insts) (n : option Z) : art (option insts) :=
  n ← match n with
      | Some n => if (4 <? n) || (n <? 1) then randint_py 1 4 else mret n
      | None => randint_py 1 4
      end;
  instr ← for_insts (range n) (λ _, genITInstr gen);
  match instr with
  | [] => mret None
  | _ =>
      let n := if Z.of_nat (length instr) <? n then Z.of_nat (length instr) else n in
      firstcond ← randint_py 0 13;
      mask ← choice_py (it_masks n);
      let mask := if firstcond =? 14 then replace_e mask else mask in
      cond ← or_raise (CondCode !! Z.to_nat firstcond);
      conds ← it_cond_rest firstcond mask;
      body ← it_body (Z.to_nat n) instr (cond :: conds);
      mret (Some (("it" +:+ mask, cond) :: body))
  end.

(** ** 3. The loop for all kinds *)

(** [genThumbIT] asks for single instructions, and these are not put into
    if-then blocks again: the depth is 1. *)
Fixpoint genInstrs (depth : nat) (opkind : list string) (ropts : ropts_t) (limit : Z) : art insts :=
  isa ← gets ISA;
  let ask : art (option insts) :=
    gen_it ← if negb isa && (5 <? limit) then r ← randint_py 0 100; mret (r <? opts.(opt_per_it)) else mret false;
    if gen_it : bool then
      it_num ← randint_py 1 4;
      match depth with
      | O => fail OutOfFuel
      | S depth => genThumbIT (genInstrs depth opkind ropts 1) (Some it_num)
      end
    else
      ropkind ← match opkind with [] => mret None | _ => k ← choice_py opkind; mret (Some k) end;
      '(rcond, rsbit, rsrc_reg, rdst_reg) ← extOptions ropts;
      py (gen_single_inst_with_opkind opts.(opt_maxretry) isa ropkind rcond rsbit rsrc_reg rdst_reg true) in
  fill_loop (rounds limit opts.(opt_maxretry)) (at_least opts.(opt_maxretry)) ask each_line no_tail limit 0 0 [].

Definition genInstrs_1 : list string → ropts_t → Z → art insts := genInstrs 1.

(** ** 4. Kinds of blocks *)

Definition genMulShiftInstrs (ropts : ropts_t) (limit : Z) : art insts :=
  isa ← gets ISA;
  let rshift_op := if isa : bool then ARM_SHIFT_OP else THUMB_SHIFT_OP in
  let ask : art (option insts) :=
    gen_mul ← choice_py [true; false];
    '(rcond, rsbit, rsrc_reg, rdst_reg) ← extOptions ropts;
    if gen_mul : bool then
      ropkind ← choice_py MUL_OPKIND;
      py (gen_single_inst_with_opkind opts.(opt_maxretry) isa (Some ropkind) rcond rsbit rsrc_reg rdst_reg true)
    else
      ropcode ← choice_py rshift_op;
      py (gen_single_inst_with_opcode opts.(opt_maxretry) isa (Some ropcode) rcond rsbit rsrc_reg rdst_reg true None None false) in
  let tail := rval ← randint_py 0 100; if 80 <? rval then reinitGeneralRegs isa "bv_general" 512 else mret [] in
  fill_loop (rounds limit opts.(opt_maxretry)) (more_than opts.(opt_maxretry)) ask (λ _, 1) tail limit 0 0 [].

Definition genFlagDefInstrs (limit : Z) : art insts := genInstrs_1 [] (Mk_ropts None (Some [1]) None None) limit.
Definition genFlagJointInstrs (limit : Z) : art insts := genInstrs_1 [] (Mk_ropts (Some [14]) (Some [0]) None None) limit.
Definition genFlagUseInstrs (limit : Z) : art insts :=
  n ← randint_py 1 (2 ^ 14 - 1);
  genInstrs_1 [] (Mk_ropts (Some (filter (λ i, Z.testbit n i) (range 14))) None None None) limit.

Definition set_REGALLOC (r : Z) : art unit := modify (with_REGALLOC (Some r)).
(** [ctx[CTX.REGALLOC]] if it is there, or any. *)
Definition alloc_reg : art Z :=
  r ← gets REGALLOC; match r with Some r => mret r | None => choice_py CANDIDATE_REGS end.

Definition genRegAllocDefInstrs (limit : Z) : art insts :=
  regs ← remove_py R_PC CANDIDATE_REGS;
  r ← choice_py regs;
  set_REGALLOC r ;;
  genInstrs_1 [] (Mk_ropts None None None (Some [r])) limit.
Definition genRegAllocJointInstrs (limit : Z) : art insts :=
  r ← alloc_reg;
  src_regs ← remove_py r CANDIDATE_REGS;
  dst_regs ← remove_py r CANDIDATE_REGS;
  genInstrs_1 [] (Mk_ropts None None (Some src_regs) (Some (remove_if_py R_PC dst_regs))) limit.
Definition genRegAllocUseInstrs (limit : Z) : art insts :=
  r ← alloc_reg;
  genInstrs_1 [] (Mk_ropts None None (Some [r]) None) limit.

(** The instructions of a block by the state of the machine. *)
Definition fsm_instrs (fsm : FSMType) (limit : Z) : art insts :=
  match fsm with
  | RANDOM => genInstrs_1 [] no_ropts limit
  | SAME_KIND =>
      type ← randint_py 0 6;
      if type =? 0 then isa ← gets ISA; r ← choice_py (mem_regs isa); genMemInstrs opts r no_ropts limit
      else if type =? 1 then genMulShiftInstrs no_ropts limit
      else if type =? 2 then genInstrs_1 VFP_OP no_ropts limit
      else if type =? 3 then genInstrs_1 DATA_OP no_ropts limit
      else k ← choice_py ALL_OP; genInstrs_1 [k] no_ropts limit
  | FLAG_DU => mret []
  | FLAG_DU_D => genFlagDefInstrs limit
  | FLAG_DU_J => genFlagJointInstrs limit
  | FLAG_DU_U => genFlagUseInstrs limit
  | REG_ALLOC => mret []
  | REG_ALLOC_D => genRegAllocDefInstrs limit
  | REG_ALLOC_J => genRegAllocJointInstrs limit
  | REG_ALLOC_U => genRegAllocUseInstrs limit
  end.

Definition genBlockInstrs (block : nat) (fsm : FSMType) : art unit :=
  limit ← getBlockLimit opts block;
  instrs ← fsm_instrs fsm limit;
  append block (INST instrs).

Fixpoint gen_part (b : part) (fsm : option FSMType) : art (option FSMType) :=
  match b with
  | Leaf b =>
      f ← nextFSM fsm;
      use_isARM b ;;
      genBlockInstrs b f ;;
      mret (Some f)
  | Arms l1 l2 =>
      n_fsm ← nextFSM fsm;
      s1 ← with_load_list gen_part l1 (Some n_fsm);
      n_fsm ← nextFSM fsm;
      s2 ← with_load_list gen_part l2 (Some n_fsm);
      choice_py [s1; s2]
  end.
Definition genCodeBlocks (blocks : list part) (fsm : option FSMType) : art (option FSMType) :=
  with_load_list gen_part blocks fsm.
End instrs.

(** ** 5. If-then blocks are closed *)

Lemma length_append_str a b : String.length (a +:+ b) = (String.length a + String.length b)%nat.
Proof. induction a as [|c a IH]; [done|]. change (String c a +:+ b) with (String c (a +:+ b)). cbn. by rewrite IH. Qed.
Lemma str_drop_append a b : str_drop (String.length a) (a +:+ b) = b.
Proof. induction a as [|c a IH]; [by destruct b|]. change (String c a +:+ b) with (String c (a +:+ b)). exact IH. Qed.
Lemma ends_with_append a c : ends_with c (a +:+ c) = true.
Proof.
  unfold ends_with, last_of. rewrite length_append_str.
  replace (String.length a + String.length c - String.length c)%nat with (String.length a) by lia.
  rewrite str_drop_append. apply String.eqb_refl.
Qed.

Lemma before_dot_no_dot a b : has_dot a = false → before_dot (a +:+ b) = a +:+ before_dot b.
Proof.
  induction a as [|x a IH]; [done|]. cbn [has_dot]. intros [Hx Ha]%orb_false_iff.
  change (String x a +:+ b) with (String x (a +:+ b)). cbn [before_dot]. rewrite Hx, IH by done. done.
Qed.
Lemma split_dot_spec op :
  has_dot op = true → has_dot (split_dot op).1 = false ∧ before_dot (split_dot op).2 = "".
Proof.
  induction op as [|x op IH]; [done|]. cbn [has_dot split_dot]. destruct (Ascii.eqb x "."%char) eqn:E; cbn [orb].
  - intros _. cbn [fst snd before_dot has_dot]. by rewrite E.
  - intros Ho. destruct (split_dot op) as [a b]. cbn [fst snd has_dot] in *. rewrite E. by apply IH.
Qed.

Lemma with_cond_carries op c : c ∈ CondCode → carries c (with_cond op c) = true.
Proof.
  intros Hc. assert (has_dot c = false) as Hd by (clear -Hc; cases_in Hc; done). unfold carries, with_cond.
  destruct (String.eqb_spec op ".inst.n") as [-> |_]; [done|]. destruct (String.eqb_spec op ".inst.w") as [-> |_]; [done|]. cbn [orb].
  apply orb_true_iff. right. destruct (has_dot op) eqn:E.
  - destruct (split_dot_spec op E) as [H1 H2]. destruct (split_dot op) as [a b]. cbn [fst snd] in *.
    rewrite before_dot_no_dot, before_dot_no_dot, H2, string_app_nil_r by done. apply ends_with_append.
  - rewrite before_dot_no_dot by done. rewrite <- (string_app_nil_r c) at 2. rewrite before_dot_no_dot by done.
    cbn [before_dot]. rewrite string_app_nil_r. apply ends_with_append.
Qed.

(** The conditions after the first, as the mask says. *)
Definition cond_of (k : Z) : string := nth (Z.to_nat k) CondCode "".
Definition mask_char (c : ascii) : bool := Ascii.eqb c "t"%char || Ascii.eqb c "e"%char.

Lemma cond_facts k :
  0 ≤ k ≤ 13 → CondCode !! Z.to_nat k = Some (cond_of k) ∧ CondCode !! Z.to_nat (Z.lxor k 1) = Some (invert (cond_of k))
    ∧ cond_of k ∈ CondCode ∧ invert (cond_of k) ∈ CondCode.
Proof.
  intros Hk. assert (k ∈ seqZ 0 14) as Hin by (apply elem_of_seqZ; lia). change (seqZ 0 14) with [0; 1; 2; 3; 4; 5; 6; 7; 8; 9; 10; 11; 12; 13] in Hin.
  cases_in Hin; (split; [done|]; split; [done|]); split; vm_compute; repeat first [left; reflexivity | right].
Qed.

Section it.
Context `{Env : !RitEnv} `{Py : !PyEnv} (opts : art_options).

Lemma pure_or_raise {A} (x : option A) v : x = Some v → pure_py (λ w, w = v) (or_raise x).
Proof. intros ->. by apply pure_ret. Qed.

Lemma pure_it_cond_rest k mask :
  0 ≤ k ≤ 13 → all_chars mask_char mask = true →
  pure_py (λ l, mask_conds mask (cond_of k) = Some l ∧ Forall (.∈ CondCode) l ∧ length l = String.length mask) (it_cond_rest k mask).
Proof.
  intros Hk. destruct (cond_facts k Hk) as (E1 & E2 & I1 & I2).
  induction mask as [|c mask IH]; cbn [it_cond_rest]; [intros _; by apply pure_ret|].
  intros [Hc Hm]%andb_true_iff. cbn [mask_conds String.length].
  eapply (pure_bind (λ v, v = if Ascii.eqb c "e"%char then invert (cond_of k) else cond_of k)).
  { apply pure_or_raise. by destruct (Ascii.eqb c "e"%char). }
  intros ? ->. eapply pure_bind; [by apply IH|]. intros l (H1 & H2 & H3). apply pure_ret. rewrite H1. cbn [mbind option_bind].
  unfold mask_char in Hc. destruct (Ascii.eqb_spec c "t"%char) as [-> |Ht].
  - cbn. split; [done|]. split; [by constructor|by rewrite H3].
  - cbn in Hc. rewrite Hc. cbn. split; [done|]. split; [by constructor|by rewrite H3].
Qed.

Lemma it_masks_spec n mask :
  1 ≤ n ≤ 4 → mask ∈ it_masks n → all_chars mask_char mask = true ∧ Z.of_nat (S (String.length mask)) = n.
Proof.
  intros Hn. assert (n ∈ [1; 2; 3; 4]) as Hin.
  { assert (n = 1 ∨ n = 2 ∨ n = 3 ∨ n = 4) as [-> |[-> |[-> | ->]]] by lia; repeat first [left; reflexivity | right]. }
  cases_in Hin; intros H; vm_compute in H; cases_in H; done.
Qed.

Lemma pure_it_body instr conds :
  Forall (.∈ CondCode) conds → length instr = length conds →
  pure_py (λ l, it_closed conds l = true ∧ length l = length conds) (it_body (length conds) instr conds).
Proof.
  intros HF. revert instr. induction HF as [|c conds Hc _ IH]; intros [|[op rest] instr] Hl; cbn [it_body length] in *; try done.
  eapply pure_bind; [apply IH; lia|]. intros l [H1 H2]. apply pure_ret. cbn [it_closed length].
  by rewrite with_cond_carries, H1, H2 by done.
Qed.

(** An answer that can be tested for an if-then block. *)
Definition testable (i : insts) : Prop := ∀ rest, i = [(".inst.n", rest)] → is_Some (int_16 rest).

Lemma pure_it_valid i : testable i → pure_py (λ b, b = true → length i = 1%nat) (it_valid i).
Proof.
  intros Hi. unfold it_valid. destruct i as [|[op rest] [|? ?]]; try (by apply pure_ret).
  destruct (String.eqb_spec op ".inst.n") as [-> |_]; [|by apply pure_ret].
  destruct (Hi rest eq_refl) as [v E]. eapply pure_bind; [by apply pure_or_raise|]. intros ? ->. by apply pure_ret.
Qed.

Lemma pure_it_instr_loop fuel gen retry :
  pure_py testable gen → (Z.to_nat (8 - retry) < fuel)%nat → pure_py (λ i, length i ≤ 1)%nat (it_instr_loop fuel gen retry).
Proof.
  intros Hg. revert retry. induction fuel as [|fuel IH]; intros retry Hf; [lia|]. cbn [it_instr_loop].
  destruct (Z.ltb_spec retry 8) as [Hr|Hr]; [|apply pure_ret; cbn; lia].
  eapply pure_bind; [exact Hg|]. intros i Hi. cbv beta in Hi. destruct i as [|x i]; [apply IH; lia|].
  eapply pure_bind; [by apply pure_it_valid|]. intros v Hv. cbv beta in Hv. destruct v; [apply pure_ret; rewrite Hv; [lia|done]|].
  apply IH. lia.
Qed.

Lemma pure_for_short js gen :
  pure_py testable gen → pure_py (λ i, length i ≤ length js)%nat (for_insts js (λ _ : Z, genITInstr gen)).
Proof.
  intros Hg. induction js as [|j js IH]; cbn [for_insts]; [apply pure_ret; cbn; lia|].
  eapply pure_bind; [apply pure_it_instr_loop; [done|]; by apply Nat.ltb_lt|]. intros l Hl. eapply pure_bind; [exact IH|]. intros ls Hls. apply pure_ret.
  rewrite length_app. cbn [length]. cbv beta in *. lia.
Qed.

(** An if-then instruction with one to four instructions that carry the
    conditions it announces. *)
Definition it_block (i : insts) : Prop :=
  ∃ mask cond body, i = ("it" +:+ mask, cond) :: body ∧ it_closed [] i = true ∧ (1 ≤ length body ≤ 4)%nat
    ∧ it_conds ("it" +:+ mask) cond ≠ None ∧ String.length mask = (length body - 1)%nat.

Lemma pure_genThumbIT gen n :
  pure_py testable gen → pure_py (λ r, ∀ i, r = Some i → it_block i) (genThumbIT gen n).
Proof.
  intros Hg. unfold genThumbIT. eapply (pure_bind (λ n, 1 ≤ n ≤ 4)).
  { destruct n as [n|]; [|by apply pure_randint]. destruct (Z.ltb_spec 4 n), (Z.ltb_spec n 1); cbn [orb];
      first [by apply pure_randint | apply pure_ret; lia]. }
  intros k Hk. cbv beta in Hk. eapply pure_bind; [by apply pure_for_short|]. cbv beta. intros instr Hlen.
  assert (length (range k) = Z.to_nat k) as Er by apply length_seqZ. rewrite Er in Hlen.
  destruct instr as [|x instr]; [by apply pure_ret|]. cbv zeta. set (l := x :: instr) in *.
  assert (1 ≤ length l)%nat as Hl1 by (cbn; lia).
  replace (if Z.of_nat (length l) <? k then Z.of_nat (length l) else k) with (Z.of_nat (length l))
    by (destruct (Z.ltb_spec (Z.of_nat (length l)) k); lia).
  eapply pure_bind; [by apply pure_randint|]. intros fc Hfc. cbv beta in Hfc.
  eapply (pure_bind (λ m, m ∈ it_masks (Z.of_nat (length l)))).
  { apply pure_choice. unfold it_masks. repeat (match goal with |- context [if ?b then _ else _] => destruct b end); done. }
  intros mask Hmask. cbv beta in Hmask. destruct (it_masks_spec (Z.of_nat (length l)) mask ltac:(lia) Hmask) as [Hch Hml].
  replace (fc =? 14) with false by (symmetry; apply Z.eqb_neq; lia). destruct (cond_facts fc Hfc) as (E1 & _ & I1 & _).
  eapply pure_bind; [by apply pure_or_raise|]. intros c ->. eapply pure_bind; [by apply pure_it_cond_rest|].
  cbv beta. intros conds (M1 & M2 & M3). rewrite Nat2Z.id.
  assert (length l = length (cond_of fc :: conds)) as Elen by (cbn [length]; lia). rewrite Elen.
  eapply pure_bind; [apply pure_it_body; [by constructor|exact Elen]|]. cbv beta. intros body [B1 B2]. apply pure_ret.
  intros ? [= <-]. exists mask, (cond_of fc), body. cbn [length] in B2.
  assert (it_conds ("it" +:+ mask) (cond_of fc) = Some (cond_of fc :: conds)) as Eit.
  { change (it_conds ("it" +:+ mask) (cond_of fc)) with
      (if Nat.leb (String.length mask) 3 then l ← mask_conds mask (cond_of fc); Some (cond_of fc :: l) else None).
    rewrite (proj2 (Nat.leb_le _ 3)) by lia. by rewrite M1. }
  split; [done|]. split; [cbn [it_closed]; by rewrite Eit|]. split; [lia|]. split; [by rewrite Eit|lia].
Qed.
End it.

(** ** 6. Single instructions *)

Section single.
Context `{Env : !RitEnv} `{Py : !PyEnv} (opts : art_options).

(** With limit 1 the loop answers what one request answered, or nothing. *)
Lemma fill_loop_end fuel too_often ask limit cnt retry inst (good : insts → Prop) :
  limit ≤ cnt → good inst → pure_py good (fill_loop (S fuel) too_often ask each_line no_tail limit cnt retry inst).
Proof. intros Hc Hi. cbn [fill_loop]. rewrite (proj2 (Z.ltb_ge cnt limit) Hc). by apply pure_ret. Qed.

Lemma pure_fill_one (good : insts → Prop) fuel maxretry too_often ask retry :
  gives_up (S maxretry) too_often → pure_py (λ r, ∀ i, r = Some i → good i) ask → good [] → (retry ≤ maxretry)%nat →
  (maxretry + 2 - retry < fuel)%nat → pure_py good (fill_loop fuel too_often ask each_line no_tail 1 0 retry []).
Proof.
  intros Hgu Hask Hnil. revert retry. induction fuel as [|fuel IH]; intros retry Hr Hf; [lia|]. cbn [fill_loop]. cbn [Z.ltb Z.compare].
  eapply pure_bind; [exact Hask|]. intros r Hgood. cbv beta in Hgood. destruct fuel as [|fuel]; [lia|].
  assert (pure_py good (let '(cnt, retry) := if too_often (S retry) then (0 + 1, 0%nat) else (0, S retry) in
     no_tail ≫= λ more, fill_loop (S fuel) too_often ask each_line no_tail 1 (cnt + Z.of_nat (length more)) retry ([] ++ more))) as Hfail.
  { destruct (too_often (S retry)) eqn:E; (eapply (pure_bind (λ l, l = [])); [by apply pure_ret|]; intros ? ->).
    - by apply fill_loop_end.
    - apply (IH (S retry)); [|lia]. destruct (decide (S retry = S maxretry)) as [Heq|]; [|lia]. by rewrite Heq, Hgu in E. }
  destruct r as [[|x ret]|]; [exact Hfail| |exact Hfail].
  assert (good ([] ++ x :: ret)) as Hg by by apply Hgood.
  destruct (too_often 0%nat); (eapply (pure_bind (λ l, l = [])); [by apply pure_ret|]; intros ? ->; rewrite app_nil_r);
    apply fill_loop_end; try done; unfold each_line; cbn [length]; lia.
Qed.

(** The generator of floating-point instructions writes numbers after [.inst.n]. *)
Definition vfp_testable : Prop :=
  ∀ isARM cond src dst allow_fix i, vfpgen isARM cond src dst allow_fix = Some i → testable i.
(** Restrictions with something to choose. *)
Definition ropts_ok (ropts : ropts_t) : Prop :=
  ropts.(ro_cond) ≠ Some [] ∧ ropts.(ro_sbit) ≠ Some [] ∧ ropts.(ro_src_reg) ≠ Some [] ∧ ropts.(ro_dst_reg) ≠ Some [].

Lemma pure_ext_some (l : option (list Z)) : l ≠ Some [] → pure_py (λ _, True) (ext l).
Proof.
  intros Hl. unfold ext. destruct l as [l|]; [|by apply pure_ret].
  eapply pure_bind; [apply pure_choice; congruence|]. intros. by apply pure_ret.
Qed.
Lemma pure_extOptions ropts : ropts_ok ropts → pure_py (λ _, True) (extOptions ropts).
Proof.
  intros (H1 & H2 & H3 & H4). unfold extOptions. do 4 (eapply pure_bind; [by apply pure_ext_some|]; intros ? _). by apply pure_ret.
Qed.

Lemma int_16_0x d : d ≠ "" → int_16 ("0x" +:+ d) = read_digits 0 d.
Proof.
  intros Hd. unfold int_16. rewrite prefix_append. change (str_drop 2 ("0x" +:+ d)) with d.
  cbv zeta. by destruct (String.eqb_spec d "").
Qed.
Lemma int_16_encoding op raw : is_u32 raw → is_Some (int_16 (encoding op raw)).
Proof.
  intros Hu. pose proof (read_encoding op raw Hu) as H. unfold encoding in *. rewrite read_number_0x in H.
  rewrite int_16_0x; [by rewrite H|]. destruct (_ && _); [apply fmt_04x_word|apply fmt_08x_word].
Qed.

Lemma encodes_testable dst c op i : encodes dst c op i → testable i.
Proof.
  intros (raw & text & pre & Hc & -> & _) rest E. assert (pre = []) as -> by (destruct pre as [|? [|? ?]]; done).
  injection E as _ <-. apply int_16_encoding, Hc.
Qed.

Lemma pure_request_any a kind rcond rsbit src dst :
  vfp_testable →
  pure_py (λ r, ∀ i, r = Some i → testable i)
    (py (gen_single_inst_with_opkind opts.(opt_maxretry) a kind rcond rsbit src dst true)).
Proof.
  intros Hv. apply pure_lib. intros d Hd. eapply wp_mono; [by apply wp_gen_single_inst_with_opkind|].
  intros r d' (Hd' & kind' & c & _ & _ & Hr). split; [done|]. intros i Hi. destruct (decide (kind' = "VFP_OP")).
  - rewrite Hi in Hr. by eapply Hv.
  - destruct (Hr i Hi) as (op & _ & He). by eapply encodes_testable.
Qed.

Lemma wp_genInstrs_single depth opkind ropts :
  vfp_testable → ropts_ok ropts → pure_py testable (genInstrs opts depth opkind ropts 1).
Proof.
  intros Hv Hro s Hs.
  assert (∀ isa, pure_py testable (fill_loop (rounds 1 opts.(opt_maxretry)) (at_least opts.(opt_maxretry))
    (gen_it ← if negb isa && (5 <? 1) then r ← randint_py 0 100; mret (r <? opts.(opt_per_it)) else mret false;
     if gen_it : bool then
       it_num ← randint_py 1 4;
       match depth with
       | O => fail OutOfFuel
       | S depth => genThumbIT (genInstrs opts depth opkind ropts 1) (Some it_num)
       end
     else
       ropkind ← match opkind with [] => mret None | _ => k ← choice_py opkind; mret (Some k) end;
       '(rcond, rsbit, rsrc_reg, rdst_reg) ← extOptions ropts;
       py (gen_single_inst_with_opkind opts.(opt_maxretry) isa ropkind rcond rsbit rsrc_reg rdst_reg true))
    each_line no_tail 1 0 0 [])) as H.
  { intros isa. rewrite andb_false_r. apply (pure_fill_one _ _ opts.(opt_maxretry)); [apply at_least_gives_up| |done|lia|unfold rounds; lia].
    eapply (pure_bind (λ b, b = false)); [by apply pure_ret|]. intros ? ->.
    eapply (pure_bind (λ _, True)). { destruct opkind; [by apply pure_ret|]. eapply pure_bind; [by apply pure_choice|]. intros. by apply pure_ret. }
    intros kind _. eapply pure_bind; [by apply pure_extOptions|]. intros [[[rc rs] rsrc] rdst] _. by apply pure_request_any. }
  destruct depth; apply (pure_gets ISA _ (λ _, testable)); done.
Qed.
End single.
