(* ===== verification/PyTest.v ===== *)
(** * A whole test: art/art.py, genTest

    The composition: context, random blocks, instructions, text. *)
From S2P Require Import Prelude State V1State V1Api Driver PyBase PyCode PyEmit PyBlocks PyFill.
#[local] Open Scope Z_scope.

Section test.
Context `{Env : !RitEnv} `{Py : !PyEnv} (opts : art_options).

(** [options.getInitContext(rb.getRBlock)]: the context of a new program, with a
    freshly loaded library. *)
Definition getInitContext : art_state :=
  Mk_art opts.(opt_nest) true ∅ None (Mk_drv zero_lib 0) [].

(** [genTest] up to the file it writes: the text. *)
Definition genTest : art string :=
  test ← new_block (Mk_block PlainBlock []);
  initblock ← genInitBlock true;
  append test (BLOCK initblock) ;;
  n ← gets nest;
  rtest ← getRBlock opts "rit" n;
  blocks ← makeRandomBlock opts (S (Z.to_nat n)) rtest;
  genCodeBlocksWithLoadInsts opts blocks None ;;
  append test (BLOCK rtest) ;;
  exitblock ← genExitBlock;
  append test (BLOCK exitblock) ;;
  s ← gets store;
  or_raise (str s test).
End test.
