(* ===== verification/PyTestSpec.v ===== *)
(** * A test is a well-formed program

    The composition of the parts: genTest ends for every stream of random
    numbers, and the text it answers is a fixed beginning, the filled tree of
    random blocks and a fixed end, in which every label is defined once and every
    instruction is in the instruction set it is for. *)
From Stdlib Require Import Ascii.
From S2P Require Import Prelude RitCommon InstrTable State RandomInstrGen Keeps Output Loop Api ParseRIT V1State V1Api Driver PyBase PyCode PyTree PyEmit PyEmitSpec PyAlu PyCodeSpec PyBlocks PyMake PyMakeSpec PyFill PyFillSpec PyFillTree PyTest.
#[local] Open Scope Z_scope.

(** ** 1. The lines of the fixed parts *)

Definition entry_lines (e : code_item) : list line :=
  match e with BLOCK _ => [] | INST i => map LInst i | ATTR a => [LAttr a] | LABEL l => [LLabel l] end.
Definition block_lines (blk : block) : list line :=
  default [] (class_lines blk.(class_of)) ++ flat_map entry_lines blk.(code).

Definition init_lines (i : insts) : list line := flat_map entry_lines (init_code i).
(** The data sections are printed in place of the reference to them. *)
Definition exit_lines (rd bg bv : block) : list line :=
  flat_map entry_lines (take 11 (exit_code 0)) ++ flat_map block_lines (data_blocks rd bg bv)
  ++ flat_map entry_lines (drop 12 (exit_code 0)).

Definition plain_entry (e : code_item) : Prop := match e with BLOCK _ => False | _ => True end.

Lemma plain_entries st b c : Forall plain_entry c → Forall2 (entry_prints st b) c (map entry_lines c).
Proof. induction 1 as [|e c He _ IH]; constructor; [|done]. by destruct e. Qed.

Lemma prints_plain st b blk :
  st !! b = Some blk → is_Some (class_lines blk.(class_of)) → Forall plain_entry blk.(code) → prints st b (block_lines blk).
Proof.
  intros Hb [head Hc] HF. destruct blk as [cls c]. unfold block_lines. cbn [class_of code] in *. rewrite Hc, flat_map_concat_map.
  eapply prints_block; [exact Hb|done|by apply plain_entries].
Qed.

Section test.
Context `{Env : !RitEnv} `{Py : !PyEnv} (opts : art_options).

Lemma rdata_shape label size blk : rdata label size blk → is_Some (class_lines blk.(class_of)) ∧ Forall plain_entry blk.(code).
Proof. intros (ls & -> & _). split; [by eexists|]. by repeat constructor. Qed.

(** The last blocks of a store print as the end of a test. *)
Lemma prints_exit st0 rd bg bv :
  rdata "ritdata" 0x18000 rd → rdata "bv_general" 512 bg → rdata "bv_vfp" 512 bv →
  let id := λ k, (length st0 + k)%nat in
  prints (st0 ++ exit_blocks id rd bg bv) (id 0%nat) (exit_lines rd bg bv).
Proof.
  intros H1 H2 H3 id. set (st := st0 ++ _).
  assert (∀ k blk, exit_blocks id rd bg bv !! k = Some blk → st !! id k = Some blk) as Hk.
  { intros k blk E. subst st id. cbv beta. rewrite lookup_app_r by lia. by replace (length st0 + k - length st0)%nat with k by lia. }
  assert (Forall (λ blk, is_Some (class_lines blk.(class_of)) ∧ Forall plain_entry blk.(code)) (data_blocks rd bg bv)) as Hd.
  { repeat (apply Forall_cons; split; [first [by eapply rdata_shape | split; [by eexists|by repeat constructor]]|]). constructor. }
  assert (prints st (id 1%nat) (flat_map block_lines (data_blocks rd bg bv))) as Hdata.
  { rewrite flat_map_concat_map. apply (prints_block st (id 1%nat) PlainBlock (data_code (λ k, id (S k))) []); [by apply Hk|done|].
    apply Forall2_fmap. apply Forall2_same_length_lookup_2; [done|]. intros k x blk Hx Hblk.
    apply lookup_lt_Some in Hx as Hlt. change (length (seq 1 8)) with 8%nat in Hlt. rewrite lookup_seq_lt in Hx by done.
    injection Hx as <-. cbn [entry_prints]. rewrite Forall_lookup in Hd. destruct (Hd _ _ Hblk) as [Hc Hp]. subst id. cbv beta in *.
    split; [lia|]. apply prints_plain; [|done|done]. apply Hk. cbn [exit_blocks]. exact Hblk. }
  unfold exit_lines. rewrite !(flat_map_concat_map entry_lines).
  assert (prints st (id 0%nat) ([] ++ concat (map entry_lines (take 11 (exit_code 0)) ++ [flat_map block_lines (data_blocks rd bg bv)]
    ++ map entry_lines (drop 12 (exit_code 0))))) as Hp; [|by rewrite !concat_app in Hp; cbn [concat app] in Hp; rewrite app_nil_r in Hp].
  apply (prints_block _ _ PlainBlock (exit_code (id 1%nat))); [by apply Hk|done|].
  change (exit_code (id 1%nat)) with (take 11 (exit_code (id 1%nat)) ++ drop 11 (exit_code (id 1%nat))). apply Forall2_app.
  - apply plain_entries. by repeat constructor.
  - constructor; [split; [subst id; cbv beta; lia|done]|]. apply plain_entries. by repeat constructor.
Qed.

(** ** 2. Labels and instruction sets *)

Lemma group_lines i : forallb calm i = true → lines_good inst_ok true (map LInst i) true ∧ defs (map LInst i) = [].
Proof. intros [H1 H2]%calm_good. by rewrite defs_insts. Qed.

(** Lines without surprises: computed, but for the random ones. *)
Definition tame (e : code_item) : bool :=
  match e with BLOCK _ => true | INST i => forallb calm i | ATTR a => negb (String.eqb a ISA_T) | LABEL _ => true end.
Definition entry_labels (e : code_item) : list string := match e with LABEL l => [l] | _ => [] end.

Lemma tame_lines c :
  forallb tame c = true →
  lines_good inst_ok true (flat_map entry_lines c) true ∧ defs (flat_map entry_lines c) = flat_map entry_labels c.
Proof.
  induction c as [|e c IH]; cbn [forallb flat_map]; [by split; [split; [constructor|done]|]|].
  intros [He Hc]%andb_true_iff. destruct (IH Hc) as [IH1 IH2]. rewrite defs_app, IH2.
  assert (lines_good inst_ok true (entry_lines e) true ∧ defs (entry_lines e) = entry_labels e) as [E1 ->].
  { destruct e as [b|i|a|l]; cbn [entry_lines entry_labels tame] in *.
    - split; [split; [constructor|done]|done].
    - by apply group_lines.
    - split; [|done]. split; [by repeat constructor|]. cbn. unfold directive_mode. apply negb_true_iff in He. rewrite He.
      by destruct (String.eqb a ISA_A).
    - split; [|done]. split; [by repeat constructor|done]. }
  split; [by eapply lines_good_app|done].
Qed.

Lemma init_ok i :
  forallb calm i = true → lines_good inst_ok true (init_lines i) true ∧ defs (init_lines i) = ["_start"].
Proof. intros Hi. apply (tame_lines (init_code i)). cbn. by rewrite Hi. Qed.

Lemma rdata_ok label size blk :
  rdata label size blk → lines_good inst_ok true (block_lines blk) true ∧ defs (block_lines blk) = [label].
Proof.
  intros (ls & -> & _). unfold block_lines. cbn [class_of code class_lines default from_option id].
  destruct (tame_lines [ATTR ".data"; LABEL label; INST (map words_line ls)]) as [H1 H2].
  { cbn. rewrite andb_true_r. induction ls as [|l ls IH]; [done|]. cbn. by rewrite calm_words, IH. }
  rewrite defs_app, H2. split; [|done]. eapply lines_good_app; [|exact H1]. split; [by repeat constructor|done].
Qed.

Definition exit_labels : list string :=
  ["exit"; "failexit"; "str_pass"; "str_fail"; "ritdata"; "regbak"; "cfgdata"; "excladdr"; "exclflag"; "exclcnt"; "bv_general"; "bv_vfp"].

Lemma exit_ok rd bg bv :
  rdata "ritdata" 0x18000 rd → rdata "bv_general" 512 bg → rdata "bv_vfp" 512 bv →
  lines_good inst_ok true (exit_lines rd bg bv) true ∧ defs (exit_lines rd bg bv) = exit_labels.
Proof.
  intros [G1 D1]%rdata_ok [G2 D2]%rdata_ok [G3 D3]%rdata_ok.
  destruct (tame_lines (take 11 (exit_code 0)) eq_refl) as [GA DA]. destruct (tame_lines (drop 12 (exit_code 0)) eq_refl) as [GB DB].
  assert (∀ blk : block, forallb tame blk.(code) = true → is_Some (class_lines blk.(class_of)) →
    lines_good inst_ok true (block_lines blk) true ∧ defs (block_lines blk) = flat_map entry_labels blk.(code)) as Hb.
  { intros [cls c] Hc [head Hh]. unfold block_lines. cbn [class_of code] in *. destruct (tame_lines c Hc) as [H1 H2].
    rewrite defs_app, H2, Hh. cbn [default from_option id]. assert (head = [] ∨ head = [LText ""]) as [-> | ->].
    { destruct cls; cbn in Hh; simplify_eq; auto. }
    - done.
    - split; [|done]. eapply lines_good_app; [|exact H1]. split; [by repeat constructor|done]. }
  unfold exit_lines. rewrite !defs_app, DA, DB. split.
  - eapply lines_good_app; [exact GA|]. eapply lines_good_app; [|exact GB]. cbn [flat_map data_blocks].
    repeat (eapply lines_good_app; [first [eassumption | apply Hb; [done|by eexists]]|]). split; [constructor|done].
  - cbn [flat_map data_blocks]. rewrite !defs_app, D1, D2, D3. done.
Qed.

Lemma test_labels i t rd bg bv :
  forallb calm i = true → labels_ok t → t_label t = "rit" →
  rdata "ritdata" 0x18000 rd → rdata "bv_general" 512 bg → rdata "bv_vfp" 512 bv →
  NoDup (defs (init_lines i ++ lines t ++ exit_lines rd bg bv)).
Proof.
  intros Hi [Hnd Hu] Hl H1 H2 H3. rewrite !defs_app, (proj2 (init_ok i Hi)), (proj2 (exit_ok rd bg bv H1 H2 H3)).
  rewrite Hl in Hu. assert (∀ d, d ∈ defs (lines t) → d ∉ "_start" :: exit_labels) as Hsep.
  { rewrite Forall_forall in Hu. intros d Hd Hin. destruct (Hu d Hd) as [-> |[x ->]];
      repeat (apply elem_of_cons in Hin as [Hin|Hin]; [discriminate Hin|]); by apply elem_of_nil in Hin. }
  apply NoDup_cons. split.
  - intros [Hd|Hd]%elem_of_app; [by apply (Hsep _ Hd); left|].
    repeat (apply elem_of_cons in Hd as [Hd|Hd]; [discriminate Hd|]). by apply elem_of_nil in Hd.
  - apply NoDup_app. split; [done|]. split; [|by apply (bool_decide_unpack (NoDup exit_labels)); vm_compute].
    intros d Hd Hin. apply (Hsep d Hd). by right.
Qed.

Lemma test_modes i t rd bg bv :
  forallb calm i = true → Forall (modes_wf inst_ok) (nodes t) → t_isARM t = true →
  rdata "ritdata" 0x18000 rd → rdata "bv_general" 512 bg → rdata "bv_vfp" 512 bv →
  lines_good inst_ok true (init_lines i ++ lines t ++ exit_lines rd bg bv) true.
Proof.
  intros Hi Ht Ha H1 H2 H3. eapply lines_good_app; [apply (init_ok i Hi)|]. eapply lines_good_app; [by apply tree_modes|].
  rewrite Ha. by apply exit_ok.
Qed.

(** ** 3. The composition *)

(** [genTest] before it fills the basic blocks: the object of the random part, and
    the structure that names its basic blocks. *)
Definition genTest_tree : art (nat * list part) :=
  test ← new_block (Mk_block PlainBlock []);
  initblock ← genInitBlock true;
  append test (BLOCK initblock) ;;
  n ← gets nest;
  rtest ← getRBlock opts "rit" n;
  blocks ← makeRandomBlock opts (S (Z.to_nat n)) rtest;
  mret (rtest, blocks).
(** The rest of it. *)
Definition genTest_rest (p : nat * list part) : art string :=
  genCodeBlocksWithLoadInsts opts p.2 None ;;
  append 0 (BLOCK p.1) ;;
  exitblock ← genExitBlock;
  append 0 (BLOCK exitblock) ;;
  s ← gets store;
  or_raise (str s 0).

(** The objects of the fixed parts: the whole test, its beginning, and its end with
    the data sections, which are the last objects that are created. *)
Definition fixed_objects (st : list block) (root : nat) (i : insts) (rd bg bv : block) : Prop :=
  ∃ e, st !! 0%nat = Some (Mk_block PlainBlock [BLOCK 1; BLOCK root; BLOCK e])
    ∧ st !! 1%nat = Some (Mk_block PlainBlock (init_code i))
    ∧ drop e st = exit_blocks (λ k, (e + k)%nat) rd bg bv.

(** A test with the objects [st] at the end: its lines, its tree of random blocks as
    it was made ([made] holds the objects at that point), and the code that filled
    the basic blocks. *)
Record is_test (st : list block) (made : art_state) (ls : list line) (t : rtree) (F : gmap nat insts) : Prop := {
  it_made : represents made.(store) t;
  it_tree : tree_wf t;
  it_root : t_label t = "rit" ∧ t_isARM t = true ∧ t_level t = opts.(opt_nest);
  it_ids : NoDup (ids t);
  it_repr : represents st (fill F t);
  it_filled : dom F = list_to_set (map t_id (leaves t));
  it_code : ∀ b i, F !! b = Some i → ∃ n, n ∈ leaves t ∧ t_id n = b ∧ mem_code opts made.(BB) (t_label n) (t_isARM n) i;
  it_parts : ∃ i rd bg bv, sets_registers i ∧ rdata "ritdata" 0x18000 rd ∧ rdata "bv_general" 512 bg
               ∧ rdata "bv_vfp" 512 bv ∧ fixed_objects st (t_id t) i rd bg bv
               ∧ ls = init_lines i ++ lines (fill F t) ++ exit_lines rd bg bv;
  it_lines : store_lines st 0 = Some ls;
  it_labels : NoDup (defs ls);
  it_modes : lines_good inst_ok true ls true
}.

(** Printing what is in the store at the end. *)
Lemma prints_test st i t rd bg bv :
  st !! 0%nat = Some (Mk_block PlainBlock [BLOCK 1; BLOCK (t_id t); BLOCK (length st)]) →
  st !! 1%nat = Some (Mk_block PlainBlock (init_code i)) → represents st t → (2 ≤ t_id t)%nat →
  Forall (λ n, Forall (on_sub (λ t', t_id n < t_id t')%nat) (t_items n)) (nodes t) →
  rdata "ritdata" 0x18000 rd → rdata "bv_general" 512 bg → rdata "bv_vfp" 512 bv →
  let st' := st ++ exit_blocks (λ k, (length st + k)%nat) rd bg bv in
  store_lines st' 0 = Some (init_lines i ++ lines t ++ exit_lines rd bg bv)
  ∧ fixed_objects st' (t_id t) i rd bg bv ∧ represents st' t.
Proof.
  intros H0 H1 Hr Hid Ho R1 R2 R3 st'.
  assert (∀ k blk, st !! k = Some blk → st' !! k = Some blk) as Hk by (intros k blk E; by apply lookup_app_l_Some).
  assert (represents st' t) as Hr'.
  { eapply represents_agree; [exact Hr|]. intros j Hj. unfold represents in Hr.
    apply list_elem_of_fmap in Hj as (n & -> & Hn). rewrite Forall_forall in Hr. rewrite (Hr n Hn). by apply Hk, Hr. }
  assert (prints st' 0 ([] ++ concat [init_lines i; lines t; exit_lines rd bg bv])) as Hp.
  { eapply prints_block; [by apply Hk|done|]. pose proof (lookup_lt_Some _ _ _ H1) as Hlt. repeat constructor; try lia.
    - apply (prints_plain st' 1 (Mk_block PlainBlock (init_code i))); [by apply Hk|by eexists|by repeat constructor].
    - by apply prints_tree.
    - pose proof (prints_exit st rd bg bv R1 R2 R3) as H. cbv zeta beta in H. by rewrite Nat.add_0_r in H. }
  split; [unfold store_lines; rewrite Hp by lia; cbn [concat app]; by rewrite app_nil_r|]. split; [|done].
  exists (length st). split; [by apply Hk|]. split; [by apply Hk|]. subst st'. by rewrite drop_app_length.
Qed.

(** The state before the random part, in the terms of the structures: nothing is
    created yet. *)
Lemma ws_outer s blk self :
  lib_ready s → s.(store) !! self = Some blk → ws s self blk s.(nest) s.(nest) s.(ISA) False [] [] s.
Proof.
  intros Hs Hb. split; try done; [by eapply lookup_lt_Some|constructor|apply bb_ok_refl].
Qed.

(** Enough basic blocks for the limits that the branches of an ARM tree set. *)
Lemma made_limits_fit t s :
  tree_wf t → (1 ≤ length (leaves t))%nat → t_isARM t = true → bb_ok (False ∨ Exists lim [t]) ∅ [t] s.(BB) → limits_fit s.
Proof.
  intros Hwf Hsome Ha Hbb. assert (Forall names_wf (nodes t)) as Hn by (eapply Forall_impl; [exact Hwf|]; intros n; apply nw_names).
  unfold limits_fit. rewrite (size_BB _ _ _ Hn Hbb). split; [lia|]. intros l v [E|[-> H]]%(bb_lim _ _ _ _ Hbb); [done|].
  split; [done|]. destruct H as [[]|H]. apply Exists_cons in H as [[[? _]|?]|H]; [congruence|lia|by apply Exists_nil in H].
Qed.

Lemma filled_start t s : represents s.(store) t → lib_ready s → filled opts t s ∅ s.
Proof. intros Hr Hs. split; try done. by rewrite fill_empty. Qed.

(** The state when the tree is made. *)
Record tree_made (t : rtree) (i : insts) (s : art_state) : Prop := {
  tm_lib : lib_ready s;
  tm_wf : tree_wf t;
  tm_ids : NoDup (ids t);
  tm_fit : limits_fit s;
  tm_repr : represents s.(store) t;
  tm_root : t_label t = "rit" ∧ t_isARM t = true ∧ t_level t = opts.(opt_nest);
  tm_init : sets_registers i;
  tm_new : Forall (λ j, 2 ≤ j)%nat (ids t);
  tm_test : s.(store) !! 0%nat = Some (Mk_block PlainBlock [BLOCK 1]);
  tm_code : s.(store) !! 1%nat = Some (Mk_block PlainBlock (init_code i))
}.

Lemma wp_genTest_tree :
  wp genTest_tree (λ p s, ∃ t i, t_id t = p.1 ∧ parts_ids p.2 = map t_id (leaves t) ∧ tree_made t i s) (getInitContext opts).
Proof.
  set (s0 := getInitContext opts). unfold genTest_tree.
  assert (lib_ready s0) as Hs0 by apply lib_inv_zero. pose proof (grown_refl s0 Hs0) as G. grown_new.
  apply wp_bind. eapply wp_mono; [apply wp_genInitBlock, G|]. intros b s1 (-> & i & Hi & G1).
  pose proof (grown_trans _ _ _ _ _ G G1) as G2. rewrite (grown_id _ _ _ 0 G). cbn [app length Nat.add] in *. clear G G1 s.
  grown_app. change (new_id s0 1) with 1%nat in *. change (new_id s0 0) with 0%nat.
  destruct G as [Hs E]. assert (s.(store) = [Mk_block PlainBlock [BLOCK 1]; Mk_block PlainBlock (init_code i)]) as Est by by rewrite E.
  apply wp_bind, wp_gets.
  pose proof (ws_outer s _ 0 Hs ltac:(by rewrite Est)) as W. apply wp_bind.
  eapply wp_mono; [eapply ws_getRBlock; [exact W|by exists ""]|]. clear W. intros c s2 W. cbn [app] in W.
  apply wp_bind. eapply wp_mono; [eapply ws_make; [apply (makeRandomBlock_spec opts _ s.(nest)); lia|done|exact W|constructor]|]. clear W s2.
  intros r s2 (t & Hparts & <- & Hl & Ha & _ & W). cbn [app] in W.
  pose proof (Forall_inv (ws_done _ _ _ _ _ _ _ _ _ _ W)) as (Hr & Hwf & Hsome & Hlv & Hids).
  apply wp_ret. exists t, i. do 2 (split; [done|]). split; try done.
  - apply W.
  - pose proof (ws_ids _ _ _ _ _ _ _ _ _ _ W) as H. cbn in H. by rewrite app_nil_r in H.
  - eapply (made_limits_fit t); try done; [rewrite Ha, E; done|]. pose proof (ws_bb _ _ _ _ _ _ _ _ _ _ W) as H. by rewrite E in H.
  - split; [done|]. split; [by rewrite Ha, E|]. by rewrite Hlv, E.
  - eapply Forall_impl; [exact Hids|]. cbv beta. rewrite Est. cbn. lia.
  - apply W.
  - rewrite (ws_old _ _ _ _ _ _ _ _ _ _ W 1%nat); rewrite ?Est; cbn; try done; lia.
Qed.

(** From the tree to the text: filling, the end, printing. *)
Lemma wp_genTest_rest t r i s :
  limits_ok opts → tree_made t i s → parts_ids r = map t_id (leaves t) →
  wp (genTest_rest (t_id t, r)) (λ text s', ∃ ls F, text = render ls ∧ is_test s'.(store) s ls t F) s.
Proof.
  intros Hok [Hs Hwf Hnd Hfit Hr Hroot Hi Hids H0 H1] Hparts. rewrite Forall_forall in Hids. unfold genTest_rest. cbn [fst snd].
  apply wp_bind. eapply wp_mono; [apply (fill_all opts t s); try done; by apply filled_start|]. intros _ s1 (F & I & HF).
  destruct (filled_wf _ _ _ _ _ Hwf Hnd I) as (Hn & Hm & Ho).
  assert (∀ j, (j < 2)%nat → s1.(store) !! j = s.(store) !! j) as Hold.
  { intros j Hj. apply (fd_old _ _ _ _ _ I). intros ?%Hids. lia. }
  apply wp_bind. unfold append at 1, get_block, set_block, wp at 1, mbind, M_bind, modify.
  rewrite Hold, H0 by lia. cbn [class_of code app]. set (s2 := with_store _ s1).
  apply wp_bind. eapply wp_mono; [apply wp_genExitBlock; apply I|]. intros e s3 (-> & rd & bg & bv & R1 & R2 & R3 & [Hs3 E3]).
  assert (s3.(store) = s2.(store) ++ exit_blocks (new_id s2) rd bg bv) as Est by by rewrite E3.
  assert (0 < length s1.(store))%nat as Hpos by (eapply lookup_lt_Some; by rewrite Hold, H0 by lia).
  assert (s2.(store) !! 0%nat = Some (Mk_block PlainBlock [BLOCK 1; BLOCK (t_id t)])) as E0 by by apply list_lookup_insert_eq.
  apply wp_bind. unfold append, get_block, set_block, wp at 1, mbind, M_bind, modify.
  rewrite Est, (lookup_app_l_Some _ _ _ _ E0). cbn [class_of code app]. apply wp_bind, wp_gets. cbn [store with_store].
  rewrite Est, insert_app_l by (cbn; by rewrite length_insert).
  rewrite (Nat.add_0_r _ : new_id s2 0 = length s2.(store)). set (st := <[0%nat := _]> s2.(store)).
  assert (length s2.(store) = length st) as Elen by by (subst st; rewrite length_insert).
  assert (∀ j, (0 < j)%nat → st !! j = s1.(store) !! j) as Est'.
  { intros j Hj. subst st. rewrite list_lookup_insert_ne by lia. cbn. by rewrite list_lookup_insert_ne by lia. }
  assert (st !! 0%nat = Some (Mk_block PlainBlock [BLOCK 1; BLOCK (t_id (fill F t)); BLOCK (length st)])) as Est0.
  { rewrite fill_id, <- Elen. apply list_lookup_insert_eq. by rewrite Elen, <- Elen; cbn; rewrite length_insert. }
  unfold new_id. rewrite Elen. destruct (prints_test st i (fill F t) rd bg bv) as (P1 & P2 & P3); try done.
  - by rewrite Est', Hold, H1 by lia.
  - eapply represents_agree; [apply I|]. intros j Hj. rewrite fill_ids in Hj. apply Hids in Hj. by rewrite Est' by lia.
  - rewrite fill_id. apply Hids. rewrite ids_subs. by left.
  - rewrite str_store_lines, P1. apply wp_ret. exists (init_lines i ++ lines (fill F t) ++ exit_lines rd bg bv), F. split; [done|].
    rewrite fill_id in P2. destruct Hroot as (Hl & Ha & Hlv). pose proof (calm_init i Hi) as Hc. split; try done.
    + apply I.
    + by exists i, rd, bg, bv.
    + apply test_labels; try done; [by apply tree_labels|]. by rewrite fill_label.
    + apply test_modes; try done. by rewrite fill_isARM.
Qed.

Lemma genTest_phases s : s.(store) = [] → genTest opts s = (p ← genTest_tree; genTest_rest p) s.
Proof.
  intros Hs. unfold genTest, genTest_tree, genTest_rest, mbind, M_bind, new_block. rewrite Hs. cbn [length app].
  destruct (genInitBlock true _) as [b1 s1|]; [|done]. destruct (append 0 (BLOCK b1) s1) as [? s2|]; [|done].
  destruct (gets nest s2) as [n s3|]; [|done]. destruct (getRBlock opts "rit" n s3) as [b2 s4|]; [|done].
  by destruct (makeRandomBlock opts (S (Z.to_nat n)) b2 s4).
Qed.

Lemma wp_genTest :
  limits_ok opts →
  ∃ text s' made r ls t F, genTest opts (getInitContext opts) = Ok text s'
    ∧ genTest_tree (getInitContext opts) = Ok (t_id t, r) made ∧ parts_ids r = map t_id (leaves t)
    ∧ text = render ls ∧ is_test s'.(store) made ls t F.
Proof.
  intros Hok. destruct (wp_elim _ _ _ wp_genTest_tree) as ([b r] & s & E & t & i & Hid & Hp & T). cbn [fst snd] in Hid, Hp. subst b.
  destruct (wp_elim _ _ _ (wp_genTest_rest t r i s Hok T Hp)) as (text & s' & E' & ls & F & Ht & H).
  exists text, s', s, r, ls, t, F. split; [|exact (conj E (conj Hp (conj Ht H)))].
  rewrite (genTest_phases (getInitContext opts) eq_refl). unfold mbind, M_bind. rewrite E. exact E'.
Qed.
End test.
