(* ===== verification/PyTheorems.v ===== *)
(** * Properties of the test generator

    The theorems on art/*.py, from the specifications of the parts. *)
From Stdlib Require Import Ascii.
From S2P Require Import Prelude RitCommon InstrTable State RandomInstrGen Keeps Output Loop Api ParseRIT V1State V1Api Driver PyBase PyCode PyTree PyEmit PyEmitSpec PyAlu PyCodeSpec PyBlocks PyMake PyMakeSpec PyFill PyFillSpec PyFillTree PyInstrs PyTest PyTestSpec.
#[local] Open Scope Z_scope.

(** ** 1. Levels and slots *)

(** Where in [cfgdata] a structure keeps its loop counter or return address. *)
Definition slot (n : rtree) : option Z :=
  match t_kind n with
  | RLoop | RIrLoop => Some (32 + (t_level n - 1) * 4)
  | RCallRet => Some ((t_level n - 1) * 4)
  | _ => None
  end.

Section levels.
Context `{Env : !RitEnv}.

Lemma root_wf t : tree_wf t → node_wf t.
Proof. unfold tree_wf. rewrite nodes_subs. by intros [? _]%Forall_cons. Qed.

Lemma nodes_wf t n : tree_wf t → n ∈ nodes t → tree_wf n.
Proof.
  induction t as [t IH] using rtree_subs_ind. intros Hwf. pose proof Hwf as Hwf'. unfold tree_wf in Hwf'. rewrite nodes_subs in Hwf' |- *.
  intros [-> |Hn]%elem_of_cons; [done|]. apply list_elem_of_In, in_flat_map in Hn as (t' & Ht' & Hn).
  apply list_elem_of_In in Ht', Hn. rewrite Forall_forall in IH. apply (IH t' Ht'); [|done].
  apply Forall_cons in Hwf' as [_ Hs]. apply Forall_forall. intros m Hm. rewrite Forall_forall in Hs. apply Hs.
  apply list_elem_of_In, in_flat_map. exists t'. split; by apply list_elem_of_In.
Qed.

(** Blocks inside a block are of a lower level. *)
Lemma lower_level t : tree_wf t → ∀ m, m ∈ flat_map nodes (subs (t_items t)) → t_level m < t_level t.
Proof.
  induction t as [t IH] using rtree_subs_ind. intros Hwf m Hm. apply list_elem_of_In, in_flat_map in Hm as (t' & Ht' & Hm).
  apply list_elem_of_In in Ht', Hm. pose proof (root_wf t Hwf) as Hn.
  assert (t_level t' = t_level t - 1) as Hl.
  { destruct (decide (t_kind t = RBasic)) as [Hk|Hk]; [rewrite (nw_basic _ Hn Hk) in Ht'; by apply elem_of_nil in Ht'|].
    destruct (nw_level _ Hn Hk) as [_ Hf]. rewrite Forall_forall in Hf. by apply Hf. }
  assert (t' ∈ nodes t) as Hin.
  { rewrite nodes_subs. right. apply list_elem_of_In, in_flat_map. exists t'. split; [by apply list_elem_of_In|].
    rewrite nodes_subs. by left. }
  rewrite nodes_subs in Hm. apply elem_of_cons in Hm as [-> |Hm]; [lia|].
  rewrite Forall_forall in IH. specialize (IH t' Ht' (nodes_wf t t' Hwf Hin) m Hm). lia.
Qed.

Lemma slot_bounds t n o :
  tree_wf t → t_level t ≤ 8 → n ∈ nodes t → slot n = Some o →
  0 ≤ o ≤ 60 ∧ ∀ m o', m ∈ flat_map nodes (subs (t_items n)) → slot m = Some o' → 4 ≤ Z.abs (o - o').
Proof.
  intros Hwf Hl Hn Ho. pose proof (nodes_wf t n Hwf Hn) as Hwfn.
  assert (∀ m, m ∈ nodes t → t_level m ≤ 8) as Hle.
  { intros m Hm. rewrite nodes_subs in Hm. apply elem_of_cons in Hm as [-> |Hm]; [done|]. pose proof (lower_level t Hwf m Hm). lia. }
  assert (∀ m, m ∈ nodes t → slot m ≠ None → 0 < t_level m) as Hpos.
  { intros m Hm Hs. unfold tree_wf in Hwf. rewrite Forall_forall in Hwf. apply (nw_level m (Hwf m Hm)). intros Hk.
    unfold slot in Hs. by rewrite Hk in Hs. }
  pose proof (Hle n Hn). pose proof (Hpos n Hn ltac:(by rewrite Ho)) as Hp.
  split; [unfold slot in Ho; destruct (t_kind n); simplify_eq; lia|].
  intros m o' Hm Ho'. pose proof (lower_level n Hwfn m Hm) as Hlt.
  assert (m ∈ nodes n) as Hm' by (rewrite nodes_subs; by right).
  assert (0 < t_level m) as Hpm.
  { unfold tree_wf in Hwfn. rewrite Forall_forall in Hwfn. apply (nw_level m (Hwfn m Hm')). intros Hk. unfold slot in Ho'. by rewrite Hk in Ho'. }
  unfold slot in Ho, Ho'. destruct (t_kind n), (t_kind m); simplify_eq; lia.
Qed.
End levels.

(** ** 2. Properties *)

Section properties.
Context `{Env : !RitEnv} `{Py : !PyEnv} (opts : art_options).

(** C9. The test generator composes.  For every stream of random numbers and every
    state of the options that keeps the instruction counts in range, [genTest] ends
    without an exception.  Up to the filling it makes a well-formed tree of random
    blocks from the label [rit] on, of the nesting level asked for.  At the end the
    objects are those of this tree, each basic block with exactly one more group of
    instructions and every other block as it was made: the answer of one run of
    [genMemInstrs] in the instruction set of the block, for a number of instructions
    in the range of [getBlockLimit].  The test refers to the block that sets the
    flags and all the registers, to the tree, and to the block with the two exits and
    the data sections, and its text is the lines of these three. *)
Theorem genTest_composes :
  limits_ok opts →
  ∃ text s' made r t F i rd bg bv,
    genTest_tree opts (getInitContext opts) = Ok (t_id t, r) made
    ∧ represents made.(store) t ∧ parts_ids r = map t_id (leaves t)
    ∧ tree_wf t ∧ NoDup (ids t) ∧ t_label t = "rit" ∧ t_isARM t = true ∧ t_level t = opts.(opt_nest)
    ∧ genTest opts (getInitContext opts) = Ok text s'
    ∧ represents s'.(store) (fill F t)
    ∧ dom F = list_to_set (map t_id (leaves t))
    ∧ (∀ n, n ∈ leaves t → ∃ c, F !! t_id n = Some c ∧ mem_code opts made.(BB) (t_label n) (t_isARM n) c)
    ∧ fixed_objects s'.(store) (t_id t) i rd bg bv ∧ sets_registers i
    ∧ rdata "ritdata" 0x18000 rd ∧ rdata "bv_general" 512 bg ∧ rdata "bv_vfp" 512 bv
    ∧ text = render (init_lines i ++ lines (fill F t) ++ exit_lines rd bg bv).
Proof.
  intros Hok. destruct (wp_genTest opts Hok) as (text & s' & made & r & ls & t & F & E & Em & Hp & -> & T).
  destruct (it_parts _ _ _ _ _ _ T) as (i & rd & bg & bv & Hi & R1 & R2 & R3 & Hf & ->). destruct (it_root _ _ _ _ _ _ T) as (H1 & H2 & H3).
  exists (render (init_lines i ++ lines (fill F t) ++ exit_lines rd bg bv)), s', made, r, t, F, i, rd, bg, bv.
  refine (conj Em (conj (it_made _ _ _ _ _ _ T) (conj Hp (conj (it_tree _ _ _ _ _ _ T) (conj (it_ids _ _ _ _ _ _ T) (conj H1 (conj H2 (conj H3
    (conj E (conj (it_repr _ _ _ _ _ _ T) (conj (it_filled _ _ _ _ _ _ T) (conj _ (conj Hf (conj Hi (conj R1 (conj R2 (conj R3 eq_refl))))))))))))))))).
  clear E Em. intros n Hn. assert (t_id n ∈ dom F) as [c Hc]%elem_of_dom.
  { rewrite (it_filled _ _ _ _ _ _ T), elem_of_list_to_set. by apply list_elem_of_fmap_2. }
  exists c. split; [done|]. destruct (it_code _ _ _ _ _ _ T _ _ Hc) as (m & Hm & Em & Hc').
  assert (m = n) as ->; [|done]. pose proof (it_ids _ _ _ _ _ _ T) as Hnd. unfold ids in Hnd.
  apply list_elem_of_filter in Hm as [_ Hm], Hn as [_ Hn]. apply list_elem_of_lookup in Hm as [j1 H1'], Hn as [j2 H2'].
  assert (j1 = j2) as ->; [|congruence]. eapply NoDup_lookup; [exact Hnd|..]; rewrite list_lookup_fmap.
  - by rewrite H1'.
  - rewrite H2'. cbn. by rewrite Em.
Qed.

(** C11. Every label of a test is defined once.  The lines of a test are those of
    the objects that [genTest] leaves, read in the order in which they are printed;
    no two of them define the same label, be it the label of a block or of its end,
    one inside the connecting code, or one of the beginning, the end and the data
    sections. *)
Theorem genTest_labels :
  limits_ok opts →
  ∃ text s' ls, genTest opts (getInitContext opts) = Ok text s' ∧ store_lines s'.(store) 0 = Some ls ∧ text = render ls
    ∧ NoDup (defs ls).
Proof.
  intros Hok. destruct (wp_genTest opts Hok) as (text & s' & made & r & ls & t & F & E & _ & _ & Ht & T).
  exists text, s', ls. exact (conj E (conj (it_lines _ _ _ _ _ _ T) (conj Ht (it_labels _ _ _ _ _ _ T)))).
Qed.


(** C13. Making a random block ends, with as many rounds as there are nesting
    levels, and raises no exception: the objects that it leaves below the block
    are a well-formed tree, the returned structure names its basic blocks in the
    order in which they are printed, other objects are not touched, and the
    nesting level and the instruction set of the context are restored. *)
Theorem makeRandomBlock_makes (fuel : nat) (s : art_state) (self : nat) (k : RBType) (label : string) (pre : list insts) :
  fresh_block s self k label pre → (Z.to_nat s.(nest) < fuel)%nat →
  ∃ r s' t, makeRandomBlock opts fuel self s = Ok r s'
    ∧ t_id t = self ∧ t_label t = label ∧ t_level t = s.(nest) ∧ parts_ids r = map t_id (leaves t)
    ∧ tree_wf t ∧ represents s'.(store) t ∧ NoDup (ids t)
    ∧ (∀ i, (i < length s.(store))%nat → i ≠ self → s'.(store) !! i = s.(store) !! i)
    ∧ s'.(nest) = s.(nest) ∧ s'.(ISA) = s.(ISA).
Proof.
  intros F Hf. destruct (wp_elim _ _ _ (makeRandomBlock_spec opts fuel _ Hf s self k label pre F eq_refl))
    as (r & s' & E & t & <- & H1 & H2 & H3 & _ & H4 & M). exists r, s', t. do 5 (split; [done|]).
  split; [apply M|]. split; [apply M|]. split; [apply M|]. split; [apply M|]. split; apply M.
Qed.

(** C15. Up to nesting level 8, every loop of a test counts in a word of
    [cfgdata] of its own and every called block returns through one.  The tree is the
    one that the objects at the end form, with the kinds of these objects and the
    levels that follow from the nesting level of the root; the slot of a structure in
    it is the one that its connecting code uses, it is inside the 64 bytes of
    [cfgdata], and it overlaps with no slot of a structure inside this one. *)
Theorem genTest_slots :
  limits_ok opts → opts.(opt_nest) ≤ 8 →
  ∃ text s' t F e, genTest opts (getInitContext opts) = Ok text s'
    ∧ s'.(store) !! 0%nat = Some (Mk_block PlainBlock [BLOCK 1; BLOCK (t_id t); BLOCK e])
    ∧ represents s'.(store) (fill F t) ∧ dom F = list_to_set (map t_id (leaves t)) ∧ tree_wf t ∧ t_level t = opts.(opt_nest)
    ∧ ∀ n o, n ∈ nodes t → slot n = Some o → slots n ∧ 0 ≤ o ∧ o + 4 ≤ 64
        ∧ ∀ m o', m ∈ nodes n → m = n ∨ (slot m = Some o' → o + 4 ≤ o' ∨ o' + 4 ≤ o).
Proof.
  intros Hok Hnest. destruct (wp_genTest opts Hok) as (text & s' & made & r & ls & t & F & E & _ & _ & _ & T).
  destruct (it_parts _ _ _ _ _ _ T) as (i & rd & bg & bv & _ & _ & _ & _ & (e & He & _) & _). destruct (it_root _ _ _ _ _ _ T) as (_ & _ & Hl).
  pose proof (it_tree _ _ _ _ _ _ T) as Hwf.
  exists text, s', t, F, e. refine (conj E (conj He (conj (it_repr _ _ _ _ _ _ T) (conj (it_filled _ _ _ _ _ _ T) (conj Hwf (conj Hl _)))))). clear E. intros n o Hn Ho.
  destruct (slot_bounds t n o Hwf ltac:(lia) Hn Ho) as [Hb Hd].
  split; [unfold tree_wf in Hwf; rewrite Forall_forall in Hwf; by apply (nw_slots n (Hwf n Hn))|].
  split; [lia|]. split; [lia|]. intros m o' Hm. rewrite nodes_subs in Hm. apply elem_of_cons in Hm as [-> |Hm]; [by left|right].
  intros Ho'. specialize (Hd m o' Hm Ho'). lia.
Qed.

(** C16. Editing hexadecimal text is editing the word.  A request for an
    instruction that writes the program counter ends without an exception, with
    nothing if the library does not answer.  If it does, the last instruction of its
    answer is a word of the opcode asked for, as eight digits, and the text that is
    made of it, cut and pasted by the digit, is the number of that same word with the
    flag-setting bit cleared and the source registers of that opcode replaced. *)
Theorem alu_inst_edits (opcode : string) (rcond dst : Z) (allow_fix : bool) (seed hexcode rn rm : Z) (s : art_state) :
  opcode ∈ ARM_ALU_W_PC_ALL → 0 ≤ rn ≤ 12 → 0 ≤ rm ≤ 12 → lib_ready s →
  ∃ ans s', alu_request opts.(opt_maxretry) opcode rcond dst allow_fix seed hexcode s = Ok ans s' ∧ lib_ready s'
    ∧ match ans with
      | Some (x :: l) =>
          ∃ op raw t, (instr_desc op).(name) = Some opcode ∧ is_u32 raw
            ∧ last (x :: l) = Some (directive op, "0x" +:+ fmt_08x raw)
            ∧ alu_inst opts.(opt_maxretry) opcode rcond dst allow_fix seed hexcode rn rm s = Ok (Some t) s'
            ∧ read_number t = Some (set_sources opcode rn rm (clear_S_bit raw))
      | _ => alu_inst opts.(opt_maxretry) opcode rcond dst allow_fix seed hexcode rn rm s = Ok None s'
      end.
Proof.
  intros Ho Hn Hm Hs. destruct (alu_inst_run opts.(opt_maxretry) opcode rcond dst allow_fix seed hexcode rn rm s
    Ho ltac:(unfold is_digit; lia) ltac:(unfold is_digit; lia) Hs) as (ans & s' & E & Hs' & _ & H).
  exists ans, s'. split; [done|]. split; [done|]. destruct ans as [[|x l]|]; [done| |done].
  destruct H as (t & Et & op & raw & h & H1 & H2 & H3 & _ & H4). by exists op, raw, t.
Qed.

(** C10. If-then blocks are closed.  [genThumbIT] ends without an exception and
    answers nothing or an if-then instruction and one to four instructions: as many
    as its mask announces, each with the condition that the mask gives it, or given
    as an encoding. *)
Theorem genThumbIT_closed (depth : nat) (opkind : list string) (ropts : ropts_t) (n : option Z) (s : art_state) :
  vfp_testable → ropts_ok ropts → lib_ready s →
  ∃ r s', genThumbIT (genInstrs opts depth opkind ropts 1) n s = Ok r s' ∧ lib_ready s'
    ∧ ∀ i, r = Some i → it_block i.
Proof.
  intros Hv Hr Hs. destruct (wp_elim _ _ _ (pure_genThumbIT _ n (wp_genInstrs_single opts depth opkind ropts Hv Hr) s Hs))
    as (r & s' & E & Hb & Hs' & _). by exists r, s'.
Qed.

End properties.

(** ** 3. A limit that is too small *)

(** Numbers drawn at given positions; the smallest everywhere else. *)
Definition drawn_numbers (l : list (nat * Z)) (n : nat) (a b : Z) : Z :=
  match list_find (λ p, p.1 = n) l with
  | Some (_, (_, v)) => if (a <=? v) && (v <=? b) then v else a
  | None => a
  end.
#[refine] Definition scripted (l : list (nat * Z)) : PyEnv := {|
  randint_at := drawn_numbers l;
  vfpgen := λ _ _ _ _ _, None
|}.
Proof.
  intros n a b H. unfold drawn_numbers. destruct (list_find _ l) as [[? [? v]]|]; [|lia].
  destruct (Z.leb_spec a v), (Z.leb_spec v b); cbn; lia.
Defined.

Definition demo_options (nest num : Z) : art_options :=
  {| opt_nest := nest; opt_num := num; opt_instr_limit := 0; opt_maxretry := 0; opt_per_it := 0;
     opt_excl_block := true; opt_aluwpc_block := true |}.

(** C18. The number of instructions asked for breaks the limit of a short branch.
    For up to 164 instructions every test is generated, whatever is drawn; with 165
    there are draws for which [genTest] ends with an exception: an interworking
    structure whose Thumb part is a bypass makes five basic blocks of 33
    instructions, one of which is limited to 32, and the range from 33 to 32 is
    empty. *)
Theorem genTest_164 :
  (∀ (Env : RitEnv) (Py : PyEnv) (opts : art_options), 0 ≤ opts.(opt_num) ≤ 164 → 0 ≤ opts.(opt_instr_limit) →
     ∃ text s', genTest opts (getInitContext opts) = Ok text s')
  ∧ ∃ (Env : RitEnv) (Py : PyEnv) (opts : art_options), opts.(opt_num) = 165 ∧ opts.(opt_instr_limit) = 0
      ∧ genTest opts (getInitContext opts) = Abort PyRaise.
Proof.
  split.
  - intros Env Py opts H1 H2. destruct (wp_genTest opts (conj H1 H2)) as (text & s' & _ & _ & _ & _ & _ & E & _). exists text, s'. exact E.
  - exists lcg_env_1, (scripted [(80%nat, 5); (82%nat, 1)]), (demo_options 2 165). split; [done|]. split; [done|].
    vm_compute. reflexivity.
Qed.

(** ** 4. Witnesses *)

Definition demo_opts : art_options := demo_options 3 100.
Definition demo_ctx : art_state := getInitContext demo_opts.
(** A context with a block object for a hammock. *)
Definition demo_hammock : art_state :=
  with_store [Mk_block (RBlock RHammock "rit" 0 true) []] demo_ctx.

Lemma genTest_composes_witness :
  limits_ok demo_opts ∧ ∃ text s' t F i rd bg bv,
    genTest (Env := lcg_env_1) (Py := demo_py) demo_opts demo_ctx = Ok text s' ∧ represents s'.(store) (fill F t)
    ∧ text = render (init_lines i ++ lines (fill F t) ++ exit_lines rd bg bv) ∧ t_level t = 3.
Proof.
  assert (limits_ok demo_opts) as H by (unfold limits_ok; cbn; lia). split; [done|].
  destruct (genTest_composes (Env := lcg_env_1) (Py := demo_py) demo_opts H)
    as (text & s' & made & r & t & F & i & rd & bg & bv & _ & _ & _ & _ & _ & _ & _ & Hl & E & Hr & _ & _ & _ & _ & _ & _ & _ & Ht).
  exists text, s', t, F, i, rd, bg, bv. exact (conj E (conj Hr (conj Ht Hl))).
Defined.

Lemma genTest_labels_witness :
  limits_ok demo_opts ∧ ∃ text s' ls,
    genTest (Env := lcg_env_1) (Py := demo_py) demo_opts demo_ctx = Ok text s' ∧ store_lines s'.(store) 0 = Some ls
    ∧ text = render ls ∧ NoDup (defs ls).
Proof.
  assert (limits_ok demo_opts) as H by (unfold limits_ok; cbn; lia). split; [done|].
  exact (genTest_labels (Env := lcg_env_1) (Py := demo_py) demo_opts H).
Defined.


Lemma makeRandomBlock_makes_witness :
  fresh_block (Env := lcg_env_1) demo_hammock 0 RHammock "rit" [] ∧ ∃ r s' t,
    makeRandomBlock (Env := lcg_env_1) (Py := demo_py) demo_opts 4 0 demo_hammock = Ok r s'
    ∧ parts_ids r = map t_id (leaves t) ∧ represents s'.(store) t ∧ s'.(nest) = 3.
Proof.
  assert (fresh_block (Env := lcg_env_1) demo_hammock 0 RHammock "rit" []) as F.
  { split; [by exists true|constructor|by exists ""|by right|apply lib_inv_zero]. }
  split; [done|]. destruct (makeRandomBlock_makes (Env := lcg_env_1) (Py := demo_py) demo_opts 4 demo_hammock 0 RHammock "rit" [] F
    ltac:(cbn; lia)) as (r & s' & t & E & _ & _ & _ & Hp & _ & Hr & _ & _ & Hn & _).
  exists r, s', t. split; [exact E|]. split; [exact Hp|]. split; [exact Hr|exact Hn].
Defined.

Lemma genTest_slots_witness :
  limits_ok demo_opts ∧ ∃ text s' t F,
    genTest (Env := lcg_env_1) (Py := demo_py) demo_opts demo_ctx = Ok text s' ∧ represents s'.(store) (fill F t)
    ∧ ∀ n o, n ∈ nodes t → slot n = Some o → 0 ≤ o ∧ o + 4 ≤ 64.
Proof.
  assert (limits_ok demo_opts) as H by (unfold limits_ok; cbn; lia). split; [done|].
  destruct (genTest_slots (Env := lcg_env_1) (Py := demo_py) demo_opts H ltac:(cbn; lia)) as (text & s' & t & F & e & E & _ & Hr & _ & _ & _ & Hs).
  exists text, s', t, F. refine (conj E (conj Hr _)). intros n o Hn Ho.
  destruct (Hs n o Hn Ho) as (_ & H1 & H2 & _). exact (conj H1 H2).
Defined.

Lemma alu_inst_edits_witness :
  lib_ready demo_ctx ∧ ∃ ans s',
    alu_request (Env := lcg_env_1) (Py := demo_py) demo_opts.(opt_maxretry) "ADD_reg" 14 15 true 7 0x12345678 demo_ctx = Ok ans s'
    ∧ lib_ready s'.
Proof.
  assert (lib_ready demo_ctx) as H by apply lib_inv_zero. split; [done|].
  destruct (alu_inst_edits (Env := lcg_env_1) (Py := demo_py) demo_opts "ADD_reg" 14 15 true 7 0x12345678 3 4 demo_ctx)
    as (ans & s' & E & Hs & _); [do 8 right; by left|lia|lia|done|]. exists ans, s'. split; [exact E|exact Hs].
Defined.

Lemma genThumbIT_closed_witness :
  vfp_testable (Py := demo_py) ∧ ∃ r s',
    genThumbIT (Py := demo_py) (genInstrs (Env := lcg_env_1) (Py := demo_py) demo_opts 0 ["ALU_OP"] no_ropts 1) (Some 3) demo_ctx
      = Ok r s'
    ∧ ∀ i, r = Some i → it_block i.
Proof.
  assert (vfp_testable (Py := demo_py)) as H by by intros ? ? ? ? ? i [=]. split; [done|].
  destruct (genThumbIT_closed (Env := lcg_env_1) (Py := demo_py) demo_opts 0 ["ALU_OP"] no_ropts (Some 3) demo_ctx H)
    as (r & s' & E & _ & Hb); [done|apply lib_inv_zero|]. exists r, s'. split; [exact E|exact Hb].
Defined.
