(* ===== verification/PyWindow.v ===== *)
(** * Base registers of memory instructions lie in the data of the test

    Where the addresses of memory instructions start from: the registers that
    genMemInstrs sets, and the set-up code of the library for the others, against
    the data section of the test and the linker option that places it. *)
From Stdlib Require Import Ascii.
From S2P Require Import Prelude RitCommon InstrTable State InstrBuf RandomInstrGen MemSpec Keeps Output Loop Api ParseRIT V1State V1InstrGenerator V1Api Driver PyBase PyCode PyTree PyEmit PyEmitSpec PyAlu PyCodeSpec PyBlocks PyMake PyMakeSpec PyFill PyFillSpec PyFillTree PyInstrs PyTest PyTestSpec PyTheorems.
#[local] Open Scope Z_scope.

(** The options of the library as [set_default_option] makes them, under any
    instruction set. *)
Definition default_view (isa0 : Z) (o : gen_option_t) : RitCommon.gen_option_t := view (opt_isa isa0 (default_option o)).

(** The value that the set-up code leaves in a base register. *)
Lemma fixed_base_window isa0 o fa v :
  is_u32 v → let w := fixed_base (default_view isa0 o) fa v in getMemLimit.1 ≤ w ≤ getMemLimit.2.
Proof.
  intros Hv w. assert (is_u32 w) as Hw.
  { unfold w, fixed_base. cbv zeta. assert (is_u32 (Z.lor (Z.land v (not32 (unset_of (default_view isa0 o) fa))) (set_of (default_view isa0 o)))) as H.
    { apply is_u32_lor; [by apply is_u32_land_l|done]. }
    destruct fa; [by apply is_u32_land_l|done]. }
  assert (Z.shiftr w 18 = 0xff) as Hs.
  { apply Z.bits_inj'. intros k Hk. rewrite Z.shiftr_spec by done. destruct (Z.lt_ge_cases k 14) as [Hlt|Hge].
    - unfold w. rewrite testbit_fixed_base by lia. rewrite (proj2 (Z.ltb_ge (k + 18) 2)), andb_false_r by lia.
      assert (Forall (λ k, Z.testbit 0xfffc0000 (k + 18) = true ∧ Z.testbit 0x03fc0000 (k + 18) = Z.testbit 0xff k) (seqZ 0 14)) as HF
        by by repeat constructor.
      rewrite Forall_forall in HF. destruct (HF k) as [H1 H2]; [apply elem_of_seqZ; lia|].
      change (Z.testbit 0xfffc0000 (k + 18)) with (Z.testbit (default_view isa0 o).(RitCommon.mem_base_mask) (k + 18)) in H1.
      rewrite H1. exact H2.
    - rewrite !Z.bits_above_log2; try done; try (unfold is_u32 in *; lia).
      + apply (Z.le_lt_trans _ 7); [by vm_compute|lia].
      + destruct (decide (w = 0)) as [-> |]; [cbn; lia|]. assert (Z.log2 w < 32) by (apply Z.log2_lt_pow2; unfold is_u32 in *; lia). lia. }
  rewrite Z.shiftr_div_pow2 in Hs by done. change (2 ^ 18) with 262144 in Hs. unfold getMemLimit. cbn [fst snd].
  Z.div_mod_to_equations. lia.
Qed.

Section window.
Context `{Env : !RitEnv} `{Py : !PyEnv} (opts : art_options).

End window.

